(* ===== verification/_CoqProject ===== *)
-Q . S2P
Prelude.v
Bytes.v
Element.v
Machine.v
ParseAddr.v
ParseAddrFacts.v
SimpleIns.v
SimpleFacts.v
Ladder.v
Device.v
CounterIns.v
TimeIns.v
FlowCtrl.v
DataIns.v
Verify.v
Float32.v
Call.v
BitIns.v
Arith.v
FloatIns.v
Convert.v
Rotate.v
Compare.v
Block.v
DataMisc.v
Stl.v
Calendar.v
Instances.v
Strings.v
ComplexIns.v
Executer.v
ExecFacts.v
Effects.v
DataEffects.v
ProgramFacts.v
DepthFacts.v
CodeFacts.v
RegFacts.v
QueueFacts.v
ArithFacts.v
CalendarFacts.v
InstanceFacts.v
StlFacts.v
StringFacts.v
Compiler.v
LengthFacts.v
CompilerFacts.v
CheckerTotal.v
Interrupts.v
InterruptFacts.v
MbSlave.v
MbFacts.v
MbFrames.v
Flash.v
FlashFacts.v
Plsd.v
PlsdFacts.v
PlsdSave.v
Password.v
PasswordFacts.v
Service.v
Download.v
Upload.v
Control.v
FileCheck.v
DownloadFacts.v
StoreFacts.v
UploadFacts.v
ControlFacts.v
Answers.v
