(* ===== verification/Prelude.v ===== *)
(** * A verification of the ESX PLC runtime

    ESX is the firmware of a programmable logic controller. Its core, under
    source/plc/, interprets ladder programs compiled to byte code: a program
    is a byte array of instructions in little-endian words, each an opcode and
    operands, over typed "soft elements" (inputs X, outputs Y, relays M, S, SM,
    LM, data words D, R, Z, SD, V, counters C, timers T). A programming tool
    talks to it through source/protocol/modbus/: it reads and writes elements,
    downloads the program and its configuration files, which are stored in the
    flash and checked at the next start, and starts and stops the program.
    Around both stand a FreeRTOS task that runs one scan after another,
    drivers, communication stacks and a gateway; this development is about the
    runtime, the slave protocol and what is kept in the flash.

    ** Parts and files

    Shared tools
    - Prelude.v: widths of C integers ([u8] .. [s32]), the effect monad with
      its three outcomes, and the classes the proofs run on: [Respects] (a
      computation keeps a relation between states), [Halts], [Gives], [Sub] (a
      component's state inside a larger one); and [wp], that a run ends with
      [Ok] and a postcondition, with its rule for loops.
    - Bytes.v: numbers as bytes, the lower byte first, and bytes of lists.
    Data
    - Element.v: plc/common plc_element.h, plc_element.c. The element arrays
      ([plc_element_st], [region]), bit access, local layers, initialisation.
    - Machine.v: plc_variable.h, plc_commonfunc.c. The whole state [plc_st]
      (elements, program, power-flow registers, call and loop stacks, status,
      clock), error registration, file length, ring buffer.
    - ParseAddr.v: plc_parseaddr.c. Operands: readers and writers of bits,
      words, double words, floats for 41 addressing types.
    Instructions
    - SimpleIns.v: plc_simpleins.c, the interpreter of contacts, coils, blocks,
      branches and edges, one [si_step] per instruction.
    - CounterIns.v, TimeIns.v: plc_counterins.c, plc_timeins.c.
    - FlowCtrl.v, Call.v, Stl.v: plc_flowctrlins.c (FOR/NEXT, CJ, the program
      ends; CALL with its parameter copies; MC/MCR and the step instructions).
    - Calendar.v: the clock and calendar part of plc_timeins.c; Instances.v: HOUR
      and DUTY, which keep tables of their own.
    - DataIns.v, Compare.v, BitIns.v, Arith.v, FloatIns.v, Convert.v, Rotate.v,
      Block.v, DataMisc.v: plc_dataprocessing.c in the order of the source, and
      plc_verifyins.c at the end of DataMisc.v; Float32.v holds the binary32
      arithmetic they use, on Stdlib's SpecFloat.
    - Strings.v: plc_strins.c.
    - Verify.v: source/common verify_func.c, the three table-driven check sums.
    Dispatch and scan
    - ComplexIns.v: plc_complexins.c, the switch over 348 opcodes with the
      length each adds to the program counter; it calls the handlers above and,
      at an opcode that is not complex, SimpleIns.
    - Executer.v: plc_executer.c, run/stop state machine, watchdog, the
      program, interrupt and subroutine loops, data blocks.
    Before a program runs
    - Compiler.v: plc_compiler.c, the check of a program on the way from STOP to
      RUN: the walk over its instructions, the entries of subroutines and
      interrupt programs, and the lists by which blocks are cleared later.
    Beside the scan
    - Interrupts.v: plc_interrupt.c and the tick hook of port_clockcycle.c; the
      sources, the queue (30 places) and the task that serves it.
    Flash
    - Flash.v: board/bsp_1062 bsp_flash.c; the partitions and the six variables
      kept in sectors of their own. The two commands of the chip are the
      interface [NorFlash], what is relied on about them the laws [NorLaws],
      which a function from offsets to bytes satisfies ([ram_chip]).
    - Plsd.v: plsd_task.c and the section of plc_sysblock.c that configures it;
      elements kept through a power failure. Password.v: plc_password.c.
    - FileCheck.v: the checks of the files in plc_sysinit.c.
    Slave protocol (source/protocol/modbus)
    - MbSlave.v: mb.c, mb_maptable.c; frames, check sums, reading and writing
      elements, diagnosis, the dispatcher, whose entries for downloads, uploads
      and control are arguments.
    - Service.v: the state those three share ([ctl_st]: the message and the
      controller of MbSlave, passwords and flash, the files in transfer, the
      lists of monitored and forced elements), files and the pointers to them,
      and the default files of plc_variable.c.
    - Download.v: mb_download.c. Upload.v: mb_upload.c. Control.v: mb_ctrl.c and
      the forced elements of plc_internalmanage.c.
    A name of the source is kept where Rocq allows it: handler
    [run_ci_x_ins] of the source is [run_ci_x_ins] here, a struct is a Record
    with the field names, a pointer into the program is an offset into it.

    ** Theorems

    - Specifications and refinements: Ladder.v (a rung is a Boolean expression;
      its code computes it, and the interpreter simulates a stack machine of
      Booleans), QueueFacts.v (PUSH, FIFO, LIFO are a bounded list), Verify.v
      (tables against the bit-serial polynomial division), CounterIns.v and
      TimeIns.v (counters and timers against traces of scans), InstanceFacts.v
      (DUTY is periodic), FlowCtrl.v (FOR runs its body d times), StlFacts.v (a
      step below 256 passes its activity on; a block that is off is cleared),
      CalendarFacts.v (dates in calendar order), SimpleFacts.v (edges against
      input histories).
    - Operands (ParseAddrFacts.v): readers are total and in bounds, writers
      round-trip with readers, and where the two sides disagree.
    - Data (CodeFacts.v, ArithFacts.v on RegFacts.v, StringFacts.v): BCD and Gray
      codes invert, rotations rotate, sums and their flags, joined strings.
    - The machine (ExecFacts.v, ProgramFacts.v, DepthFacts.v on Effects.v and
      DataEffects.v): the run/stop automaton, the watchdog at instruction
      boundaries, and, by one frame argument over all handlers, that calls and
      returns of whole programs balance.
    - The checker (LengthFacts.v, CompilerFacts.v, CheckerTotal.v): in an
      accepted program the interpreter steps from one boundary of the walk to
      the next, for the instructions of fixed length, and meets no unknown
      instruction; what is recorded for clearing are instructions of the
      program; a refusal is registered; the numbers it does not compare with the
      size of its tables, and that but for these it comes back with a verdict.
    - Interrupts (InterruptFacts.v): at most one message per source is waiting;
      a source whose message found the queue full is lost for good.
    - The protocol (MbFacts.v, MbFrames.v, Answers.v): registers round-trip,
      coils are packed, only writing requests change elements, and answers carry
      their check sum, those of downloads, uploads and control included.
    - The flash (FlashFacts.v, PlsdFacts.v, PlsdSave.v, PasswordFacts.v, for any
      chip that obeys the laws): the variables keep their last values through
      any sequence of saves and restarts, retained elements and passwords
      survive a restart.
    - Files (DownloadFacts.v, StoreFacts.v, UploadFacts.v): numbered frames,
      repeated ones among them, are put together; a file that is downloaded,
      stored and checked is the one the controller uses, and no other is
      touched; an upload sends the file; a repeated last frame and a file that
      fills its partition do damage. ControlFacts.v: forced bits and words keep
      their values, and others keep theirs.
    - Errors: error registration, unassigned opcodes, and the places where the
      code leaves its arrays or never returns.

    ** Conventions

    - Integers are Z at their C width: conversions are written out at each
      assignment; signed overflow wraps, as the compiler of the target does
      for these expressions; [long] and [int] have 32 bits.
    - A computation is [Ok] (value and state), [Ub] (access outside an array,
      shift by the width, uninitialised value used, conversion out of range) or
      [NoFuel]. Fuel bounds the loops that follow the program text: the theorems
      on termination show it suffices (a simple-instruction run takes at most
      one step per word of the program, FOR at most its count, a copy its
      length), and theorems on results are stated for [Ok] runs that exist, not
      conditionally on them.
    - The millisecond tick is a field of the state and constant within an
      instruction; between instructions a function [clock] of the state gives
      the time, arbitrary in the theorems.
    - Handlers that are not modelled are a parameter [ins] by opcode; theorems
      about whole programs ask of it only what they need of every handler
      (that it keeps the frame in question).
    - sinf .. powf are parameters of the handlers that call them. Float NaNs
      are one quiet NaN; multiply-add is not contracted.
    - A buffer from the heap is a list. For the interpreter it holds what [heap]
      of the state says, which is arbitrary; of a file buffer the model keeps
      the prefix that was written, and reading behind it is [Ub]. Allocation succeeds where the code asserts it; in
      the checker, which tests it, a function of the state decides.
    - The fuel of the checker bounds the walk: a unit for each byte of the file
      and for each of 256 CALLs is enough, because a CALL whose length adds up to
      zero is counted each time and the others go forward ([checker_returns]).
      Its pointers do not wrap around the address space.
    - Erasing n bytes takes at most n / 4096 + 1 rounds and writing them
      n / 256 + 1, one less than the fuel their loops have.
    - Sending an answer adds it to a list in the state. Log output is compiled
      away (LOG_OPEN is 0), the watch dog and suspended tasks are left out.
    - Structures written to the flash are the bytes the target's compiler lays
      out, padding included.

    ** Not modelled, and why

    - Hardware: pulse output and high-speed counting, SPD, input and output
      images, clocks, the set-up of the input pins of interrupts
      (plc_io_interrupt.c), the pin that announces a power failure, the drivers
      and board files.
    - In mb_ctrl.c: the clock, the device record, the lamp, the reset,
      formatting, clearing all elements, the search for slaves and the firmware
      update, which writes fuses; they are a parameter of the dispatcher.
    - Communication: MODBUS, TCP and serial instructions post requests to tasks
      through FreeRTOS queues; the gateway, EtherCAT and the slave bus are such
      tasks, around sockets, UARTs and vendored stacks.
    - The PID instruction and its task, a controller in binary32 arithmetic
      for which the source states no contract, and the sections of plc_sysblock.c and plc_netcfg.c that hand settings to
      drivers and lwIP.
    - RC6 (source/common): never called, and it rotates by amounts that are not
      reduced, which C leaves undefined.
    - In modelled files: RND (the C library's generator) and TWR (the hardware
      clock).
    - Vendored and generated code: lwIP, FreeRTOS, NXP drivers, CMSIS, SOEM,
      SDMMC, USB, the cloud SDK, JSON parsers, the button library.

    This file itself holds the shared tools. *)
From stdpp Require Export base list numbers sets relations.
From Stdlib Require Export ZArith Lia.

#[global] Open Scope Z_scope.

(** ** Fixed-width integers

    A C object of an unsigned w-bit type is a [Z] in [0, 2^w); the conversions
    below are the ones the compiler inserts at an assignment or a cast. [long]
    is 32 bits wide on the target (Cortex-M7, ILP32). *)
Definition u8 (z : Z) : Z := z mod 2 ^ 8.
Definition u16 (z : Z) : Z := z mod 2 ^ 16.
Definition u32 (z : Z) : Z := z mod 2 ^ 32.
Definition s16 (z : Z) : Z := let r := u16 z in if r <? 2 ^ 15 then r else r - 2 ^ 16.
Definition s32 (z : Z) : Z := let r := u32 z in if r <? 2 ^ 31 then r else r - 2 ^ 32.

(** C truth values. *)
Definition truthy (z : Z) : bool := negb (z =? 0).

(** The constants of FreeRTOS the interpreter returns. *)
Definition pdPASS : Z := 1.
Definition pdFALSE : Z := 0.

Section width.
Lemma u8_range z : 0 <= u8 z < 2 ^ 8.
Proof. apply Z.mod_pos_bound; lia. Qed.
Lemma u16_range z : 0 <= u16 z < 2 ^ 16.
Proof. apply Z.mod_pos_bound; lia. Qed.
Lemma u32_range z : 0 <= u32 z < 2 ^ 32.
Proof. apply Z.mod_pos_bound; lia. Qed.
Lemma u8_id z : 0 <= z < 2 ^ 8 -> u8 z = z.
Proof. apply Z.mod_small. Qed.
Lemma u16_id z : 0 <= z < 2 ^ 16 -> u16 z = z.
Proof. apply Z.mod_small. Qed.
Lemma u32_id z : 0 <= z < 2 ^ 32 -> u32 z = z.
Proof. apply Z.mod_small. Qed.

Lemma s16_range z : - 2 ^ 15 <= s16 z < 2 ^ 15.
Proof. unfold s16. pose proof (u16_range z). destruct (Z.ltb_spec (u16 z) (2 ^ 15)); lia. Qed.
Lemma s32_range z : - 2 ^ 31 <= s32 z < 2 ^ 31.
Proof. unfold s32. pose proof (u32_range z). destruct (Z.ltb_spec (u32 z) (2 ^ 31)); lia. Qed.

(** Reinterpreting a signed value as unsigned and back loses nothing. *)
Lemma s16_id z : - 2 ^ 15 <= z < 2 ^ 15 -> s16 (u16 z) = z.
Proof.
  intros H. unfold s16, u16. rewrite Zmod_mod.
  destruct (Z.ltb_spec (z mod 2 ^ 16) (2 ^ 15)) as [L|L].
  all: pose proof (Z.mod_pos_bound z (2 ^ 16)); pose proof (Z.div_mod z (2 ^ 16)); nia.
Qed.
Lemma u16_s16 z : u16 (s16 z) = u16 z.
Proof.
  unfold s16. pose proof (u16_range z). destruct (Z.ltb_spec (u16 z) (2 ^ 15)).
  - apply u16_id; lia.
  - unfold u16 at 1. replace (u16 z - 2 ^ 16) with (u16 z + (-1) * 2 ^ 16) by lia.
    rewrite Z.mod_add by lia. apply u16_id; lia.
Qed.
Lemma u32_s32 z : u32 (s32 z) = u32 z.
Proof.
  unfold s32. pose proof (u32_range z). destruct (Z.ltb_spec (u32 z) (2 ^ 31)).
  - apply u32_id; lia.
  - unfold u32 at 1. replace (u32 z - 2 ^ 32) with (u32 z + (-1) * 2 ^ 32) by lia.
    rewrite Z.mod_add by lia. apply u32_id; lia.
Qed.
Lemma s32_small z : 0 <= z < 2 ^ 31 -> s32 z = z.
Proof. intros H. unfold s32. rewrite u32_id by lia. destruct (Z.ltb_spec z (2 ^ 31)); lia. Qed.
Lemma s16_small z : 0 <= z < 2 ^ 15 -> s16 z = z.
Proof. intros H. unfold s16. rewrite u16_id by lia. destruct (Z.ltb_spec z (2 ^ 15)); lia. Qed.
End width.

Create HintDb width.
#[export] Hint Resolve u8_range u16_range u32_range s16_range s32_range : width.

(** Bit equality of integers, decided position by position. *)
Lemma testbit_u16 z n : 0 <= n -> Z.testbit (u16 z) n = (n <? 16) && Z.testbit z n.
Proof.
  intros Hn. unfold u16. destruct (Z.ltb_spec n 16).
  - now rewrite Z.mod_pow2_bits_low by lia.
  - now rewrite Z.mod_pow2_bits_high by lia.
Qed.
Lemma testbit_u32 z n : 0 <= n -> Z.testbit (u32 z) n = (n <? 32) && Z.testbit z n.
Proof.
  intros Hn. unfold u32. destruct (Z.ltb_spec n 32).
  - now rewrite Z.mod_pow2_bits_low by lia.
  - now rewrite Z.mod_pow2_bits_high by lia.
Qed.
Lemma testbit_one n : Z.testbit 1 n = (n =? 0).
Proof.
  destruct (Z.eqb_spec n 0) as [->|H]; [reflexivity|].
  change 1 with (2 ^ 0). rewrite Z.pow2_bits_false; [reflexivity|lia].
Qed.

(** ** Results of running C code

    [Ok] carries the result; [Ub] is what the C standard leaves undefined on
    the path taken (here: an access outside an array or outside the loaded
    program); [NoFuel] only says that the bound given to a loop was used up. *)
Inductive res (A : Type) : Type :=
| Ok (a : A)
| Ub
| NoFuel.
Arguments Ok {A} a.
Arguments Ub {A}.
Arguments NoFuel {A}.

(** The effect of a C function on a store [S]. *)
Definition M (S A : Type) : Type := S -> res (A * S).

#[global] Instance M_ret S : MRet (M S) := fun A a s => Ok (a, s).
#[global] Instance M_bind S : MBind (M S) := fun A B f m s =>
  match m s with Ok (a, s') => f a s' | Ub => Ub | NoFuel => NoFuel end.

Section ops.
Context {S : Type}.

Definition get_st : M S S := fun s => Ok (s, s).
Definition gets {A} (f : S -> A) : M S A := fun s => Ok (f s, s).
Definition modify (f : S -> S) : M S unit := fun s => Ok (tt, f s).
Definition ub {A} : M S A := fun _ => Ub.
Definition nofuel {A} : M S A := fun _ => NoFuel.
Definition of_option {A} (o : option A) : M S A :=
  match o with Some a => mret a | None => ub end.

(** [when c m]: an [if] without [else]. *)
Definition when (c : bool) (m : M S unit) : M S unit := if c then m else mret tt.

(** [for (i = i0; n iterations; i++) body]. *)
Fixpoint for_up (n : nat) (i : Z) (body : Z -> M S unit) : M S unit :=
  match n with
  | O => mret tt
  | Datatypes.S n' => body i ≫= fun _ => for_up n' (i + 1) body
  end.

(** A [while] loop whose body continues with [inl] or leaves with [inr]. *)
Fixpoint loop {A B} (fuel : nat) (body : A -> M S (A + B)) (a : A) : M S B :=
  match fuel with
  | O => nofuel
  | Datatypes.S f => body a ≫= fun r =>
      match r with inl a' => loop f body a' | inr b => mret b end
  end.
End ops.

(** [C] arrays as lists: an index outside the array is undefined. *)
Definition zlookup {A} (l : list A) (i : Z) : option A :=
  if decide (0 <= i) then l !! Z.to_nat i else None.
Definition zupdate {A} (l : list A) (i : Z) (x : A) : option (list A) :=
  if decide (0 <= i < Z.of_nat (length l)) then Some (<[Z.to_nat i := x]> l) else None.

Section arrays.
Context {A : Type}.
Implicit Types (l : list A) (i j : Z).

Lemma zlookup_Some l i x : zlookup l i = Some x <-> 0 <= i /\ l !! Z.to_nat i = Some x.
Proof. unfold zlookup. case_decide; naive_solver. Qed.
Lemma zlookup_is_Some l i : is_Some (zlookup l i) <-> 0 <= i < Z.of_nat (length l).
Proof.
  unfold zlookup. case_decide.
  - rewrite lookup_lt_is_Some. lia.
  - split; [intros []; discriminate | lia].
Qed.
Lemma zlookup_lt l i x : zlookup l i = Some x -> 0 <= i < Z.of_nat (length l).
Proof. intros E. apply zlookup_is_Some. by exists x. Qed.
Lemma zupdate_Some l i x l' :
  zupdate l i x = Some l' <-> 0 <= i < Z.of_nat (length l) /\ l' = <[Z.to_nat i := x]> l.
Proof. unfold zupdate. case_decide; naive_solver. Qed.
Lemma zupdate_lt l i x : 0 <= i < Z.of_nat (length l) ->
  zupdate l i x = Some (<[Z.to_nat i := x]> l).
Proof. intros H. unfold zupdate. by rewrite decide_True. Qed.
Lemma zupdate_length l i x l' : zupdate l i x = Some l' -> length l' = length l.
Proof. rewrite zupdate_Some. intros [_ ->]. apply length_insert. Qed.
Lemma zlookup_zupdate_eq l i x l' : zupdate l i x = Some l' -> zlookup l' i = Some x.
Proof.
  rewrite zupdate_Some, zlookup_Some. intros [H ->]. split; [lia|].
  apply list_lookup_insert_eq. lia.
Qed.
Lemma zlookup_zupdate_ne l i j x l' : zupdate l i x = Some l' -> i <> j -> zlookup l' j = zlookup l j.
Proof.
  rewrite zupdate_Some. intros [H ->] Hij. unfold zlookup. case_decide; [|done].
  apply list_lookup_insert_ne. lia.
Qed.
Lemma zlookup_insert l n x m : is_Some (zlookup l n) ->
  zlookup (<[Z.to_nat n := x]> l) m = if decide (m = n) then Some x else zlookup l m.
Proof.
  intros Hn. assert (U := zupdate_lt l n x (proj1 (zlookup_is_Some l n) Hn)).
  case_decide; [subst; exact (zlookup_zupdate_eq _ _ _ _ U)|]. apply (zlookup_zupdate_ne _ _ _ _ _ U). congruence.
Qed.
Lemma zupdate_Forall (P : A -> Prop) l i x l' :
  zupdate l i x = Some l' -> P x -> Forall P l -> Forall P l'.
Proof. rewrite zupdate_Some. intros [_ ->] Hx Hl. by apply Forall_insert. Qed.
End arrays.
Lemma last_cons_default {A} (x d : A) l : List.last (x :: l) d = List.last l x.
Proof.
  revert x d. induction l as [|y l IH]; intros x d; [done|].
  change (List.last (y :: l) d = List.last (y :: l) x). by rewrite !IH.
Qed.

(** ** What every execution of a computation does to the store *)

(** [Respects R m]: whenever [m] finishes, the store before and the store
    after are related by [R]. With [R] a preorder it is closed under the
    constructs of the monad, so it is established by instance search. *)
Class Respects {S A : Type} (R : relation S) (m : M S A) : Prop :=
  respects s a s' : m s = Ok (a, s') -> R s s'.
#[global] Hint Mode Respects - - - ! : typeclass_instances.

(** The relation "P is not lost". *)
Definition keeps {S} (P : S -> Prop) : relation S := fun s s' => P s -> P s'.
#[global] Instance keeps_preorder {S} (P : S -> Prop) : PreOrder (keeps P).
Proof. split; unfold keeps, Reflexive, Transitive; naive_solver. Qed.

(** The relation "the part [f] of the store is unchanged". *)
Definition same {S T} (f : S -> T) : relation S := fun s s' => f s' = f s.
#[global] Instance same_preorder {S T} (f : S -> T) : PreOrder (same f).
Proof. split; unfold same, Reflexive, Transitive; congruence. Qed.

Section respects.
Context {S : Type} (R : relation S) `{!PreOrder R}.

#[global] Instance respects_ret {A} (a : A) : Respects R (mret a).
Proof. intros s a' s' [= <- <-]. reflexivity. Qed.
#[global] Instance respects_bind {A B} (m : M S A) (f : A -> M S B) :
  Respects R m -> (forall a, Respects R (f a)) -> Respects R (m ≫= f).
Proof.
  intros Hm Hf s b s' E. unfold mbind, M_bind in E.
  destruct (m s) as [[a s1]| |] eqn:E1; try discriminate.
  transitivity s1; [eapply Hm | eapply Hf]; eassumption.
Qed.
#[global] Instance respects_get : Respects R get_st.
Proof. intros s a s' [= <- <-]. reflexivity. Qed.
#[global] Instance respects_gets {A} (f : S -> A) : Respects R (gets f).
Proof. intros s a s' [= <- <-]. reflexivity. Qed.
Lemma respects_modify (f : S -> S) : (forall s, R s (f s)) -> Respects R (modify f).
Proof. intros H s a s' [= <- <-]. apply H. Qed.
#[global] Instance respects_ub {A} : Respects R (ub (A := A)).
Proof. intros s a s' [=]. Qed.
#[global] Instance respects_nofuel {A} : Respects R (nofuel (A := A)).
Proof. intros s a s' [=]. Qed.
#[global] Instance respects_of_option {A} (o : option A) : Respects R (of_option o).
Proof. destruct o; apply _. Qed.
#[global] Instance respects_if {A} (b : bool) (m1 m2 : M S A) :
  Respects R m1 -> Respects R m2 -> Respects R (if b then m1 else m2).
Proof. by destruct b. Qed.
#[global] Instance respects_when (b : bool) (m : M S unit) : Respects R m -> Respects R (when b m).
Proof. intros H. unfold when. apply _. Qed.
#[global] Instance respects_for_up n i (f : Z -> M S unit) :
  (forall j, Respects R (f j)) -> Respects R (for_up n i f).
Proof. intros H. revert i. induction n as [|n IH]; intros i; simpl; apply _. Qed.
Lemma respects_loop_inner {A B} (fuel : nat) (f : A -> M S (A + B)) :
  (forall a, Respects R (f a)) -> forall a, Respects R (loop fuel f a).
Proof.
  intros H. induction fuel as [|n IH]; intros a; simpl; [apply _|].
  apply respects_bind; [apply _|]. intros []; apply _.
Qed.
#[global] Instance respects_loop {A B} (fuel : nat) (f : A -> M S (A + B)) a :
  (forall a, Respects R (f a)) -> Respects R (loop fuel f a).
Proof. intros H. by apply respects_loop_inner. Qed.
End respects.

#[global] Hint Extern 2 (Respects _ (modify _)) => (apply respects_modify; intros ?) : typeclass_instances.
(** A C [switch] or a match on data: one case per branch. *)
#[global] Hint Extern 9 (Respects _ (match ?x with _ => _ end)) => destruct x : typeclass_instances.

Ltac respects_solve := intros; repeat (apply _ || (intros ?; apply _)).

(** [Gives P m]: every result of [m] satisfies [P]. *)
Class Gives {S A : Type} (P : A -> Prop) (m : M S A) : Prop := gives s a s' : m s = Ok (a, s') -> P a.
#[global] Hint Mode Gives - - - ! : typeclass_instances.
Section gives.
Context {S : Type}.
Lemma gives_ret {A} (P : A -> Prop) (a : A) : P a -> Gives (S := S) P (mret a).
Proof. intros H s a' s' [= <- <-]. exact H. Qed.
#[global] Instance gives_bind {A B} (P : B -> Prop) (m : M S A) (f : A -> M S B) :
  (forall a, Gives P (f a)) -> Gives P (m ≫= f).
Proof.
  intros Hf s b s' E. unfold mbind, M_bind in E. destruct (m s) as [[a s1]| |]; try discriminate.
  exact (Hf a s1 b s' E).
Qed.
#[global] Instance gives_if {A} (P : A -> Prop) (b : bool) (m1 m2 : M S A) :
  Gives P m1 -> Gives P m2 -> Gives P (if b then m1 else m2).
Proof. by destruct b. Qed.
End gives.
#[global] Hint Extern 2 (Gives _ (mret _)) => (apply gives_ret; solve [reflexivity | simpl; lia | done]) : typeclass_instances.

(** ** Computations without an unbounded loop *)
Class Halts {S A : Type} (m : M S A) : Prop := halts s : m s <> NoFuel.
#[global] Hint Mode Halts - - ! : typeclass_instances.
Section halts.
Context {S : Type}.
#[global] Instance halts_ret {A} (a : A) : Halts (S := S) (mret a).
Proof. done. Qed.
#[global] Instance halts_bind {A B} (m : M S A) (f : A -> M S B) :
  Halts m -> (forall a, Halts (f a)) -> Halts (m ≫= f).
Proof.
  intros Hm Hf s E. unfold mbind, M_bind in E. destruct (m s) as [[a s1]| |] eqn:E1; [|done|].
  - exact (Hf a s1 E).
  - exact (Hm s E1).
Qed.
#[global] Instance halts_get : Halts (S := S) get_st.
Proof. done. Qed.
#[global] Instance halts_gets {A} (f : S -> A) : Halts (gets f).
Proof. done. Qed.
#[global] Instance halts_modify (f : S -> S) : Halts (modify f).
Proof. done. Qed.
#[global] Instance halts_ub {A} : Halts (S := S) (ub (A := A)).
Proof. done. Qed.
#[global] Instance halts_of_option {A} (o : option A) : Halts (S := S) (of_option o).
Proof. by destruct o. Qed.
#[global] Instance halts_if {A} (b : bool) (m1 m2 : M S A) : Halts m1 -> Halts m2 -> Halts (if b then m1 else m2).
Proof. by destruct b. Qed.
#[global] Instance halts_when (b : bool) (m : M S unit) : Halts m -> Halts (when b m).
Proof. intros H. unfold when. apply _. Qed.
#[global] Instance halts_for_up n i (f : Z -> M S unit) : (forall j, Halts (f j)) -> Halts (for_up n i f).
Proof. intros H. revert i. induction n as [|n IH]; intros i; simpl; apply _. Qed.
End halts.
#[global] Hint Extern 9 (Halts (match ?x with _ => _ end)) => destruct x : typeclass_instances.

(** A loop whose body makes progress towards a bound on the store does not
    run out of fuel. *)
Lemma loop_halts_st {S A B} (body : A -> M S (A + B)) (I : A -> S -> Prop) (measure : A -> S -> Z) :
  (forall a s, I a s -> body a s <> NoFuel) ->
  (forall a s a' s', I a s -> body a s = Ok (inl a', s') ->
     I a' s' /\ 0 <= measure a s /\ measure a' s' < measure a s) ->
  forall fuel a s, I a s -> measure a s < Z.of_nat fuel -> loop (Datatypes.S fuel) body a s <> NoFuel.
Proof.
  intros Hb Hm. induction fuel as [|n IH]; intros a s Hi Hf; cbn [loop];
    unfold mbind, M_bind; destruct (body a s) as [[[a'|b] s']| |] eqn:E; try done;
    try (intros _; exact (Hb a s Hi E)).
  - destruct (Hm _ _ _ _ Hi E) as (_ & ? & ?). lia.
  - destruct (Hm _ _ _ _ Hi E) as (Hi' & ? & ?). apply (IH a' s' Hi'). lia.
Qed.
Lemma loop_halts {S A B} (body : A -> M S (A + B)) (I : A -> S -> Prop) (measure : A -> Z) :
  (forall a, Halts (body a)) ->
  (forall a s a' s', I a s -> body a s = Ok (inl a', s') -> I a' s' /\ 0 <= measure a /\ measure a' < measure a) ->
  forall fuel a s, I a s -> measure a < Z.of_nat fuel -> loop (Datatypes.S fuel) body a s <> NoFuel.
Proof. intros Hb Hm. apply (loop_halts_st body I (fun a _ => measure a)); [intros a s _; apply Hb|done]. Qed.

(** Running a sequence, forwards and backwards. *)
Lemma run_bind {S A B} (m : M S A) (f : A -> M S B) s s' a : m s = Ok (a, s') -> (m ≫= f) s = f a s'.
Proof. unfold mbind, M_bind. by intros ->. Qed.
Lemma run_gets {S A B} (g : S -> A) (f : A -> M S B) s : (gets g ≫= f) s = f (g s) s.
Proof. done. Qed.
Lemma run_modify {S B} (g : S -> S) (f : unit -> M S B) s : (modify g ≫= f) s = f tt (g s).
Proof. done. Qed.
Lemma run_some {S A B} (o : option A) a (f : A -> M S B) s : o = Some a -> (of_option o ≫= f) s = f a s.
Proof. by intros ->. Qed.
Lemma bind_inv {S A B} (m : M S A) (f : A -> M S B) s r : (m ≫= f) s = Ok r -> exists a s', m s = Ok (a, s') /\ f a s' = Ok r.
Proof. unfold mbind, M_bind. destruct (m s) as [[a s']| |]; try done. by exists a, s'. Qed.
(** What a loop has come to: the pairs of a value and a store that its body
    has produced so far. *)
Definition loop_step {S A B} (body : A -> M S (A + B)) : relation (A * S) :=
  fun x y => body x.1 x.2 = Ok (inl y.1, y.2).
(** A loop that ends, ends the same way from wherever it has come to. *)
Lemma loop_from {S A B} (body : A -> M S (A + B)) x y fuel r :
  rtc (loop_step body) x y -> loop fuel body x.1 x.2 = Ok r -> exists fuel', loop fuel' body y.1 y.2 = Ok r.
Proof.
  intros H. revert fuel. induction H as [x|x y z Hxy _ IH]; intros fuel E; [by exists fuel|].
  destruct fuel as [|fuel]; [done|]. cbn [loop] in E. unfold mbind, M_bind in E. rewrite Hxy in E. by apply (IH fuel).
Qed.

(** ** Total correctness

    [wp m Q s]: running [m] from [s] is defined, finishes, and its result and
    final store satisfy [Q]. *)
Definition wp {S A} (m : M S A) (Q : A -> S -> Prop) (s : S) : Prop :=
  match m s with Ok (a, s') => Q a s' | Ub => False | NoFuel => False end.

Section wp.
Context {S : Type}.
Implicit Types (s : S).

Lemma wp_ok {A} (m : M S A) Q s : wp m Q s <-> exists a s', m s = Ok (a, s') /\ Q a s'.
Proof.
  unfold wp. split; [destruct (m s) as [[a s']| |]; eauto; done|].
  intros (a & s' & -> & H). exact H.
Qed.
Lemma wp_ret {A} (a : A) (Q : A -> S -> Prop) s : Q a s -> wp (mret a) Q s.
Proof. done. Qed.
Lemma wp_bind {A B} (m : M S A) (f : A -> M S B) Q s :
  wp m (fun a => wp (f a) Q) s -> wp (m ≫= f) Q s.
Proof. unfold wp, mbind, M_bind. by destruct (m s) as [[a s']| |]. Qed.
Lemma wp_bind_inv {A B} (m : M S A) (f : A -> M S B) Q s :
  wp (m ≫= f) Q s -> wp m (fun a => wp (f a) Q) s.
Proof. unfold wp, mbind, M_bind. by destruct (m s) as [[a s']| |]. Qed.
Lemma wp_mono {A} (m : M S A) (Q Q' : A -> S -> Prop) s :
  wp m Q s -> (forall a s', Q a s' -> Q' a s') -> wp m Q' s.
Proof. unfold wp. destruct (m s) as [[a s']| |]; auto. Qed.
Lemma wp_gets {A} (f : S -> A) (Q : A -> S -> Prop) s : Q (f s) s -> wp (gets f) Q s.
Proof. done. Qed.
Lemma wp_modify (f : S -> S) (Q : unit -> S -> Prop) s : Q tt (f s) -> wp (modify f) Q s.
Proof. done. Qed.
Lemma wp_when b (m : M S unit) Q s :
  (b = true -> wp m Q s) -> (b = false -> Q tt s) -> wp (when b m) Q s.
Proof. unfold when. intros H1 H2. destruct b; [by apply H1|]. by apply wp_ret, H2. Qed.
Lemma wp_of_option {A} (o : option A) (Q : A -> S -> Prop) s a :
  o = Some a -> Q a s -> wp (of_option o) Q s.
Proof. by intros ->. Qed.
Lemma when_true (m : M S unit) : when true m = m.
Proof. done. Qed.
Lemma when_false (m : M S unit) : when false m = mret tt.
Proof. done. Qed.
(** A counted loop, by an invariant on the counter. *)
Lemma wp_for_up (I : Z -> S -> Prop) n i f s :
  I i s ->
  (forall j s, i <= j < i + Z.of_nat n -> I j s -> wp (f j) (fun _ => I (j + 1)) s) ->
  wp (for_up n i f) (fun _ => I (i + Z.of_nat n)) s.
Proof.
  revert i s. induction n as [|n IH]; intros i s Hi Hf.
  - simpl. unfold wp, mret, M_ret. by replace (i + Z.of_nat 0) with i by lia.
  - cbn [for_up]. apply wp_bind. eapply wp_mono; [apply Hf; [lia|done]|].
    intros [] s' H'. replace (i + Z.of_nat (Datatypes.S n)) with (i + 1 + Z.of_nat n) by lia.
    apply IH; [done|]. intros j s'' Hj. apply Hf. lia.
Qed.
End wp.

(** What every execution does to the store, as part of a postcondition. *)
Lemma wp_respects {S A} (R : relation S) {m : M S A} {Q s} `{!Respects R m} : wp m Q s -> wp m (fun a s' => Q a s' /\ R s s') s.
Proof. unfold wp. destruct (m s) as [[a s']| |] eqn:E; [|done..]. intros HQ. split; [done|exact (respects _ _ _ E)]. Qed.
(** A [while] loop, by an invariant and a measure that decreases. *)
Lemma wp_loop {S A B} (body : A -> M S (A + B)) (I : A -> S -> Prop) (measure : A -> S -> Z) (Q : B -> S -> Prop) :
  (forall a s, I a s -> wp (body a) (fun r s' => match r with
     | inl a' => I a' s' /\ 0 <= measure a s /\ measure a' s' < measure a s | inr b => Q b s' end) s) ->
  forall fuel a s, I a s -> measure a s < Z.of_nat fuel -> wp (loop (Datatypes.S fuel) body a) Q s.
Proof.
  intros Hb. induction fuel as [|n IH]; intros a s Hi Hf; cbn [loop]; apply wp_bind; refine (wp_mono _ _ _ _ (Hb a s Hi) _);
    intros [a'|b] s'; try (intros HQ; exact HQ).
  - intros (_ & ? & ?). lia.
  - intros (Hi' & ? & ?). apply IH; [done|lia].
Qed.
(** The value a run delivers; how a concrete run is evaluated without
    spelling out its final store. *)
Definition result {S A} (r : res (A * S)) : option A :=
  match r with Ok (a, _) => Some a | _ => None end.
Lemma result_run {S A} (m : M S A) s a : result (m s) = Some a -> exists s', m s = Ok (a, s').
Proof. unfold result. destruct (m s) as [[x s']| |]; intros [= <-]. by exists s'. Qed.

(** ** Components of a larger store

    [Sub T S]: the store [S] holds a component of type [T]. The operations of
    a component are written against this interface and run in any store that
    has the component. *)
Class Sub (T S : Type) : Type := {
  sget : S -> T;
  sset : T -> S -> S;
  sget_sset : forall t s, sget (sset t s) = t;
  sset_sget : forall s, sset (sget s) s = s;
  sset_sset : forall t t' s, sset t (sset t' s) = sset t s
}.
#[global] Hint Mode Sub ! ! : typeclass_instances.
#[global] Instance Sub_refl {T} : Sub T T | 10.
Proof. by refine {| sget := fun t => t; sset := fun t _ => t |}. Defined.

(** Concrete comparisons of integers. *)
Ltac zconc := repeat split; vm_compute; first [reflexivity | discriminate].
