(* ===== verification/Bytes.v ===== *)
(** * Bytes in buffers

    Sequences of bytes that are written in place: what the string instructions
    and the communication buffers share. *)
From stdpp Require Import base list numbers sets.
From S2P Require Import Prelude.

Definition byte_ok (v : Z) : Prop := 0 <= v < 2 ^ 8.
Definition byte_at (b : list Z) (j : Z) : Z := default 0 (zlookup b j).
Lemma byte_u8 b j : Forall byte_ok b -> u8 (byte_at b j) = byte_at b j.
Proof.
  intros F. unfold byte_at. destruct (zlookup b j) as [c|] eqn:E; [|done].
  apply zlookup_Some in E as [_ E]. apply u8_id. exact (Forall_lookup_1 _ _ _ _ F E).
Qed.
Lemma byte_insert b i v j : 0 <= i < Z.of_nat (length b) -> byte_at (<[Z.to_nat i := v]> b) j = if decide (j = i) then v else byte_at b j.
Proof.
  intros Hi. unfold byte_at. assert (U := zupdate_lt b i v Hi). case_decide as D.
  - subst. by rewrite (zlookup_zupdate_eq _ _ _ _ U).
  - by rewrite (zlookup_zupdate_ne _ _ _ _ _ U) by done.
Qed.
Lemma u8_land_u8 a b : u8 (Z.land a (u8 b)) = Z.land a (u8 b).
Proof. unfold u8. rewrite <- !Z.land_ones by lia. by rewrite <- Z.land_assoc, <- Z.land_assoc, Z.land_diag. Qed.
(** [b'] is [b] with the [k] bytes from [i] on replaced by [f]. *)
Record patched (b b' : list Z) (i k : Z) (f : Z -> Z) : Prop := {
  pa_length : length b' = length b;
  pa_bytes : Forall byte_ok b -> Forall byte_ok b';
  pa_byte j : byte_at b' j = if decide (i <= j < i + k) then f (j - i) else byte_at b j }.
Lemma patched_app b b1 b2 i k1 k2 f1 f2 g : 0 <= k1 -> 0 <= k2 -> patched b b1 i k1 f1 -> patched b1 b2 (i + k1) k2 f2 ->
  (forall j, 0 <= j < k1 + k2 -> g j = if decide (j < k1) then f1 j else f2 (j - k1)) -> patched b b2 i (k1 + k2) g.
Proof.
  intros H1 H2 [L1 F1 P1] [L2 F2 P2] G. split; [congruence|auto|].
  intros j. rewrite P2, P1. repeat case_decide; try lia; try rewrite G by lia; try done; case_decide; try lia; f_equal; lia.
Qed.

(** ** Little-endian numbers *)
Fixpoint le_bytes (n : nat) (v : Z) : list Z :=
  match n with O => [] | S n => u8 v :: le_bytes n (Z.shiftr v 8) end.
Fixpoint le_value (l : list Z) : Z :=
  match l with [] => 0 | b :: l => b + Z.shiftl (le_value l) 8 end.
Lemma le_bytes_length n v : length (le_bytes n v) = n.
Proof. revert v. induction n as [|n IH]; intros v; [done|]. cbn. by rewrite IH. Qed.
Lemma le_bytes_ok n v : Forall byte_ok (le_bytes n v).
Proof. revert v. induction n as [|n IH]; intros v; constructor; [apply u8_range|apply IH]. Qed.
Lemma le_value_bytes n v : 0 <= v < 2 ^ (8 * Z.of_nat n) -> le_value (le_bytes n v) = v.
Proof.
  revert v. induction n as [|n IH]; intros v Hv; [cbn in *; lia|].
  replace (8 * Z.of_nat (S n)) with (8 * Z.of_nat n + 8) in Hv by lia. rewrite Z.pow_add_r in Hv by lia.
  cbn [le_bytes le_value]. rewrite IH.
  - rewrite Z.shiftl_mul_pow2, Z.shiftr_div_pow2 by lia. unfold u8. pose proof (Z.div_mod v (2 ^ 8)). lia.
  - rewrite Z.shiftr_div_pow2 by lia. split; [apply Z.div_pos; lia|apply Z.div_lt_upper_bound; lia].
Qed.
Lemma le_value_range l : Forall byte_ok l -> 0 <= le_value l < 2 ^ (8 * Z.of_nat (length l)).
Proof.
  induction 1 as [|b l Hb _ IH]; [cbn; lia|]. cbn [le_value length].
  replace (8 * Z.of_nat (S (length l))) with (8 * Z.of_nat (length l) + 8) by lia. rewrite Z.pow_add_r by lia.
  rewrite Z.shiftl_mul_pow2 by lia. unfold byte_ok in Hb. nia.
Qed.
(** [n] bytes of a buffer from [i] on. *)
Definition bytes_from (l : list Z) (i n : Z) : option (list Z) :=
  if decide (0 <= i /\ 0 <= n /\ i + n <= Z.of_nat (length l)) then Some (take (Z.to_nat n) (drop (Z.to_nat i) l)) else None.
Lemma byte_app_r a b i : 0 <= i -> byte_at (a ++ b) (Z.of_nat (length a) + i) = byte_at b i.
Proof.
  intros Hi. unfold byte_at, zlookup. rewrite !decide_True by lia. rewrite lookup_app_r by lia. do 2 f_equal. lia.
Qed.
Lemma byte_app_l a b i : i < Z.of_nat (length a) -> byte_at (a ++ b) i = byte_at a i.
Proof. intros Hi. unfold byte_at, zlookup. case_decide; [|done]. by rewrite lookup_app_l by lia. Qed.
