(* ===== verification/Element.v ===== *)
(** * Element memory: the soft elements of the PLC

    Models plc/common/inc/plc_element.h and plc/common/src/plc_element.c: the
    arrays of [plc_element_st], the bit accessors the instruction handlers
    use, the per-layer local elements, and the initialisation at power up.
    An array is a [region]; every array has a fixed length and an access
    outside it is undefined. *)
From stdpp Require Import base list numbers sets.
From S2P Require Import Prelude.

(** ** Sizes (the macros of plc_element.h; bsp_dct.c copies them into
    [gtp_PlcElementInfo], whose fields the [.._RANG] macros read) *)
Definition MAX_SBR_COUNT := 64.
Definition MAX_SBR_NESTED_LAYER := 8.
Definition MAX_CALL_INS_USE_NUMBER := 256.
Definition MAX_FOR_NEXT_NESTED_NUM := 8.
Definition MAX_SFC_SERIES_STL_NUM := 16.
Definition X_RANG := 2048.
Definition Y_RANG := 2048.
Definition M_RANG := 16384.
Definition LM_RANG := 64.
Definition S_RANG := 4096.
Definition SM_RANG := 1024.
Definition SD_RANG := 1024.
Definition D_RANG := 8000.
Definition R_RANG := 32768.
Definition V_RANG := 64.
Definition Z_RANG := 16.
Definition C_RANG := 512.
Definition C16_RANG := 200.
Definition C32_RANG := 312.
Definition T_RANG := 512.
Definition T_100MS_CNT := 256.
Definition T_10MS_CNT := 128.
Definition T_1MS_CNT := 128.

(** The arrays of numbers, named by the macro that denotes their base. *)
Inductive region : Set :=
| X_ELEMENT | Y_ELEMENT | M_ELEMENT | LM_ELEMENT | SM_ELEMENT | S_ELEMENT
| D_ELEMENT | R_ELEMENT | SD_ELEMENT | V_ELEMENT | Z_ELEMENT
| C_ELEMENT | C16_VALUE | C32_VALUE
| T_ELEMENT | T_CURRENT | T_DEST | T_START.
#[global] Instance region_eq_dec : EqDecision region.
Proof. solve_decision. Defined.

(** Bit-fields of one counter and of one timer. *)
Record plc_c_element_status_st := {
  c_PowerFlow : Z;
  c_Started : Z }.
Record plc_t_element_status_st := {
  t_Enable : Z;
  t_PowerFlow : Z;
  t_Init : Z;
  t_Type : Z;
  t_Capacity : Z }.

Record plc_element_st := {
  msp_XElement : list Z;
  msp_YElement : list Z;
  msp_MElement : list Z;
  msp_LMElement : list Z;
  msp_SMElement : list Z;
  msp_SElement : list Z;
  msp_DElement : list Z;
  msp_RElement : list Z;
  msp_SDElement : list Z;
  msp_VElement : list Z;
  msp_ZElement : list Z;
  c_BitElement : list Z;
  c_16BitValue : list Z;
  c_32BitValue : list Z;
  c_StatusInfo : list plc_c_element_status_st;
  t_BitElement : list Z;
  t_CurrentValue : list Z;
  t_DestValue : list Z;
  t_StartValue : list Z;
  t_StatusInfo : list plc_t_element_status_st }.

(** ** Access by region *)
Definition rget (e : plc_element_st) (r : region) : list Z :=
  match r with
  | X_ELEMENT => msp_XElement e | Y_ELEMENT => msp_YElement e
  | M_ELEMENT => msp_MElement e | LM_ELEMENT => msp_LMElement e
  | SM_ELEMENT => msp_SMElement e | S_ELEMENT => msp_SElement e
  | D_ELEMENT => msp_DElement e | R_ELEMENT => msp_RElement e
  | SD_ELEMENT => msp_SDElement e | V_ELEMENT => msp_VElement e
  | Z_ELEMENT => msp_ZElement e | C_ELEMENT => c_BitElement e
  | C16_VALUE => c_16BitValue e | C32_VALUE => c_32BitValue e
  | T_ELEMENT => t_BitElement e | T_CURRENT => t_CurrentValue e
  | T_DEST => t_DestValue e | T_START => t_StartValue e
  end.

(** [rset r l e] is [e] with the array of [r] replaced by [l]. *)
Definition rset (r : region) (l : list Z) (e : plc_element_st) : plc_element_st :=
  let pick (q : region) (old : list Z) := if decide (r = q) then l else old in
  {| msp_XElement := pick X_ELEMENT (msp_XElement e);
     msp_YElement := pick Y_ELEMENT (msp_YElement e);
     msp_MElement := pick M_ELEMENT (msp_MElement e);
     msp_LMElement := pick LM_ELEMENT (msp_LMElement e);
     msp_SMElement := pick SM_ELEMENT (msp_SMElement e);
     msp_SElement := pick S_ELEMENT (msp_SElement e);
     msp_DElement := pick D_ELEMENT (msp_DElement e);
     msp_RElement := pick R_ELEMENT (msp_RElement e);
     msp_SDElement := pick SD_ELEMENT (msp_SDElement e);
     msp_VElement := pick V_ELEMENT (msp_VElement e);
     msp_ZElement := pick Z_ELEMENT (msp_ZElement e);
     c_BitElement := pick C_ELEMENT (c_BitElement e);
     c_16BitValue := pick C16_VALUE (c_16BitValue e);
     c_32BitValue := pick C32_VALUE (c_32BitValue e);
     c_StatusInfo := c_StatusInfo e;
     t_BitElement := pick T_ELEMENT (t_BitElement e);
     t_CurrentValue := pick T_CURRENT (t_CurrentValue e);
     t_DestValue := pick T_DEST (t_DestValue e);
     t_StartValue := pick T_START (t_StartValue e);
     t_StatusInfo := t_StatusInfo e |}.

(** Declared length of each array. *)
Definition rsize (r : region) : Z :=
  match r with
  | X_ELEMENT => X_RANG / 16 | Y_ELEMENT => Y_RANG / 16
  | M_ELEMENT => M_RANG / 16 * MAX_SBR_NESTED_LAYER
  | LM_ELEMENT => LM_RANG / 16 * MAX_SBR_NESTED_LAYER
  | SM_ELEMENT => SM_RANG / 16 | S_ELEMENT => S_RANG / 16
  | D_ELEMENT => D_RANG | R_ELEMENT => R_RANG | SD_ELEMENT => SD_RANG
  | V_ELEMENT => V_RANG * MAX_SBR_NESTED_LAYER | Z_ELEMENT => Z_RANG
  | C_ELEMENT => C_RANG / 16 | C16_VALUE => C16_RANG | C32_VALUE => C32_RANG
  | T_ELEMENT => T_RANG / 16 | T_CURRENT => T_RANG | T_DEST => T_RANG
  | T_START => T_RANG
  end.

(** What a store into a cell of the array keeps of the value assigned. *)
Definition rconv (r : region) (v : Z) : Z :=
  match r with C32_VALUE => s32 v | T_START => u32 v | _ => u16 v end.
Definition cell_ok (r : region) (v : Z) : Prop :=
  match r with
  | C32_VALUE => - 2 ^ 31 <= v < 2 ^ 31
  | T_START => 0 <= v < 2 ^ 32
  | _ => 0 <= v < 2 ^ 16
  end.

(** The memory as the declarations shape it. *)
Record wf_elem (e : plc_element_st) : Prop := {
  wf_len r : Z.of_nat (length (rget e r)) = rsize r;
  wf_cells r : Forall (cell_ok r) (rget e r);
  wf_c_len : Z.of_nat (length (c_StatusInfo e)) = C_RANG;
  wf_t_len : Z.of_nat (length (t_StatusInfo e)) = T_RANG }.

(** Bit-field writes: the value is cut to the width of the field. *)
Definition set_c_PowerFlow (v : Z) (c : plc_c_element_status_st) :=
  {| c_PowerFlow := v mod 2; c_Started := c_Started c |}.
Definition set_c_Started (v : Z) (c : plc_c_element_status_st) :=
  {| c_PowerFlow := c_PowerFlow c; c_Started := v mod 2 |}.
Definition set_t_Enable (v : Z) (t : plc_t_element_status_st) :=
  {| t_Enable := v mod 2; t_PowerFlow := t_PowerFlow t; t_Init := t_Init t;
     t_Type := t_Type t; t_Capacity := t_Capacity t |}.
Definition set_t_PowerFlow (v : Z) (t : plc_t_element_status_st) :=
  {| t_Enable := t_Enable t; t_PowerFlow := v mod 2; t_Init := t_Init t;
     t_Type := t_Type t; t_Capacity := t_Capacity t |}.
Definition set_t_Init (v : Z) (t : plc_t_element_status_st) :=
  {| t_Enable := t_Enable t; t_PowerFlow := t_PowerFlow t; t_Init := v mod 2;
     t_Type := t_Type t; t_Capacity := t_Capacity t |}.
Definition set_t_Type (v : Z) (t : plc_t_element_status_st) :=
  {| t_Enable := t_Enable t; t_PowerFlow := t_PowerFlow t; t_Init := t_Init t;
     t_Type := v mod 4; t_Capacity := t_Capacity t |}.
Definition set_t_Capacity (v : Z) (t : plc_t_element_status_st) :=
  {| t_Enable := t_Enable t; t_PowerFlow := t_PowerFlow t; t_Init := t_Init t;
     t_Type := t_Type t; t_Capacity := v mod 8 |}.
Definition c_status0 := {| c_PowerFlow := 0; c_Started := 0 |}.
Definition t_status0 :=
  {| t_Enable := 0; t_PowerFlow := 0; t_Init := 0; t_Type := 0; t_Capacity := 0 |}.

Definition with_c_status (l : list plc_c_element_status_st) (e : plc_element_st) : plc_element_st :=
  {| msp_XElement := msp_XElement e; msp_YElement := msp_YElement e;
     msp_MElement := msp_MElement e; msp_LMElement := msp_LMElement e;
     msp_SMElement := msp_SMElement e; msp_SElement := msp_SElement e;
     msp_DElement := msp_DElement e; msp_RElement := msp_RElement e;
     msp_SDElement := msp_SDElement e; msp_VElement := msp_VElement e;
     msp_ZElement := msp_ZElement e; c_BitElement := c_BitElement e;
     c_16BitValue := c_16BitValue e; c_32BitValue := c_32BitValue e;
     c_StatusInfo := l; t_BitElement := t_BitElement e;
     t_CurrentValue := t_CurrentValue e; t_DestValue := t_DestValue e;
     t_StartValue := t_StartValue e; t_StatusInfo := t_StatusInfo e |}.
Definition with_t_status (l : list plc_t_element_status_st) (e : plc_element_st) : plc_element_st :=
  {| msp_XElement := msp_XElement e; msp_YElement := msp_YElement e;
     msp_MElement := msp_MElement e; msp_LMElement := msp_LMElement e;
     msp_SMElement := msp_SMElement e; msp_SElement := msp_SElement e;
     msp_DElement := msp_DElement e; msp_RElement := msp_RElement e;
     msp_SDElement := msp_SDElement e; msp_VElement := msp_VElement e;
     msp_ZElement := msp_ZElement e; c_BitElement := c_BitElement e;
     c_16BitValue := c_16BitValue e; c_32BitValue := c_32BitValue e;
     c_StatusInfo := c_StatusInfo e; t_BitElement := t_BitElement e;
     t_CurrentValue := t_CurrentValue e; t_DestValue := t_DestValue e;
     t_StartValue := t_StartValue e; t_StatusInfo := l |}.

(** ** Operations, in any store that holds the element memory *)
Section ops.
Context {S : Type} `{!Sub plc_element_st S}.

Definition elem (s : S) : plc_element_st := sget s.

(** [array[i]] as an rvalue, and [array[i] = v]. *)
Definition rd (r : region) (i : Z) : M S Z := fun s =>
  match zlookup (rget (elem s) r) i with Some v => Ok (v, s) | None => Ub end.
Definition wr (r : region) (i v : Z) : M S unit := fun s =>
  match zupdate (rget (elem s) r) i (rconv r v) with
  | Some l => Ok (tt, sset (rset r l (elem s)) s) | None => Ub end.

Definition rd_c_status (i : Z) : M S plc_c_element_status_st := fun s =>
  match zlookup (c_StatusInfo (elem s)) i with Some v => Ok (v, s) | None => Ub end.
Definition wr_c_status (i : Z) (f : plc_c_element_status_st -> plc_c_element_status_st) : M S unit :=
  fun s => match zlookup (c_StatusInfo (elem s)) i with
  | Some v => match zupdate (c_StatusInfo (elem s)) i (f v) with
    | Some l => Ok (tt, sset (with_c_status l (elem s)) s) | None => Ub end
  | None => Ub end.
Definition rd_t_status (i : Z) : M S plc_t_element_status_st := fun s =>
  match zlookup (t_StatusInfo (elem s)) i with Some v => Ok (v, s) | None => Ub end.
Definition wr_t_status (i : Z) (f : plc_t_element_status_st -> plc_t_element_status_st) : M S unit :=
  fun s => match zlookup (t_StatusInfo (elem s)) i with
  | Some v => match zupdate (t_StatusInfo (elem s)) i (f v) with
    | Some l => Ok (tt, sset (with_t_status l (elem s)) s) | None => Ub end
  | None => Ub end.

(** plc_element.c *)
Definition plc_set_bit_element_value (BaseAddr : region) (Element Value : Z) : M S unit :=
  let Element := u16 Element in
  let lsp_BaseAddr := Z.shiftr Element 4 in
  w ← rd BaseAddr lsp_BaseAddr;
  if truthy (u8 Value)
  then wr BaseAddr lsp_BaseAddr (Z.lor w (Z.shiftl 1 (Z.land Element 15)))
  else wr BaseAddr lsp_BaseAddr (Z.land w (Z.lnot (Z.shiftl 1 (Z.land Element 15)))).

Definition plc_get_bit_element_value (BaseAddr : region) (Element : Z) : M S Z :=
  let Element := u16 Element in
  w ← rd BaseAddr (Z.shiftr Element 4);
  mret (Z.land (Z.shiftr w (Z.land Element 15)) 1).

Definition plc_get_lm_element_value (layer Element : Z) : M S Z :=
  let Element := u16 Element in
  let lsp_BaseAddr := LM_RANG / 16 * u8 layer in
  w ← rd LM_ELEMENT (lsp_BaseAddr + Z.shiftr Element 4);
  mret (Z.land (Z.shiftr w (Z.land Element 15)) 1).

Definition plc_set_lm_element_value (layer Element Value : Z) : M S unit :=
  let Element := u16 Element in
  let lsp_BaseAddr := LM_RANG / 16 * u8 layer + Z.shiftr Element 4 in
  w ← rd LM_ELEMENT lsp_BaseAddr;
  if truthy (u8 Value)
  then wr LM_ELEMENT lsp_BaseAddr (Z.lor w (Z.shiftl 1 (Z.land Element 15)))
  else wr LM_ELEMENT lsp_BaseAddr (Z.land w (Z.lnot (Z.shiftl 1 (Z.land Element 15)))).

Definition plc_clean_layer_lm_element (layer : Z) : M S unit :=
  let lsp_BaseAddr := LM_RANG / 16 * u8 layer in
  for_up (Z.to_nat (LM_RANG / 16)) 0 (fun i => wr LM_ELEMENT (lsp_BaseAddr + i) 0).

(** The macros of plc_element.h. [GET_C32_CURRENT_VALUE] and its relatives
    subtract the number of 16-bit counters from the element number. *)
Definition GET_V_ELEMENT_VALUE (layer element : Z) : M S Z :=
  rd V_ELEMENT (V_RANG * layer + element).
Definition SET_V_ELEMENT_VALUE (layer element value : Z) : M S unit :=
  wr V_ELEMENT (V_RANG * layer + element) value.
Definition GET_C32_CURRENT_VALUE (element : Z) : M S Z :=
  rd C32_VALUE (element - C16_RANG).
Definition SET_C32_CURRENT_VALUE (element value : Z) : M S unit :=
  wr C32_VALUE (element - C16_RANG) value.

(** plc_element_value_init: one loop per array. Elements SD100..SD106 and
    SD233..SD384 survive. *)
Definition clear_region (r : region) (n : Z) : M S unit :=
  for_up (Z.to_nat n) 0 (fun i => wr r i 0).
Definition sd_retained (i : Z) : bool :=
  ((233 <=? i) && (i <=? 384)) || ((100 <=? i) && (i <=? 106)).
Definition plc_element_value_init : M S unit :=
  clear_region X_ELEMENT (X_RANG / 16);;
  clear_region Y_ELEMENT (Y_RANG / 16);;
  clear_region M_ELEMENT (M_RANG / 16 * MAX_SBR_NESTED_LAYER);;
  clear_region LM_ELEMENT (LM_RANG / 16 * MAX_SBR_NESTED_LAYER);;
  clear_region SM_ELEMENT (SM_RANG / 16);;
  clear_region S_ELEMENT (S_RANG / 16);;
  clear_region D_ELEMENT D_RANG;;
  for_up (Z.to_nat SD_RANG) 0 (fun i => when (negb (sd_retained i)) (wr SD_ELEMENT i 0));;
  clear_region V_ELEMENT (V_RANG * MAX_SBR_NESTED_LAYER);;
  clear_region R_ELEMENT R_RANG;;
  clear_region Z_ELEMENT Z_RANG;;
  clear_region C_ELEMENT (C_RANG / 16);;
  for_up (Z.to_nat C_RANG) 0 (fun i => wr_c_status i (fun _ => c_status0));;
  clear_region C16_VALUE C16_RANG;;
  clear_region C32_VALUE C32_RANG;;
  clear_region T_ELEMENT (T_RANG / 16);;
  for_up (Z.to_nat T_RANG) 0 (fun i => wr_t_status i (fun _ => t_status0));;
  clear_region T_START T_RANG;;
  clear_region T_DEST T_RANG;;
  clear_region T_CURRENT T_RANG.
End ops.

(** The memory after the static arrays are zeroed by the C start-up code. *)
Definition zeros (r : region) : list Z := replicate (Z.to_nat (rsize r)) 0.
Definition elem0 : plc_element_st :=
  {| msp_XElement := zeros X_ELEMENT; msp_YElement := zeros Y_ELEMENT;
     msp_MElement := zeros M_ELEMENT; msp_LMElement := zeros LM_ELEMENT;
     msp_SMElement := zeros SM_ELEMENT; msp_SElement := zeros S_ELEMENT;
     msp_DElement := zeros D_ELEMENT; msp_RElement := zeros R_ELEMENT;
     msp_SDElement := zeros SD_ELEMENT; msp_VElement := zeros V_ELEMENT;
     msp_ZElement := zeros Z_ELEMENT; c_BitElement := zeros C_ELEMENT;
     c_16BitValue := zeros C16_VALUE; c_32BitValue := zeros C32_VALUE;
     c_StatusInfo := replicate (Z.to_nat C_RANG) c_status0;
     t_BitElement := zeros T_ELEMENT; t_CurrentValue := zeros T_CURRENT;
     t_DestValue := zeros T_DEST; t_StartValue := zeros T_START;
     t_StatusInfo := replicate (Z.to_nat T_RANG) t_status0 |}.

(** What the rest of the program sees of a bit array: bit [n] of region [r]. *)
Definition bit_of (e : plc_element_st) (r : region) (n : Z) : option bool :=
  w ← zlookup (rget e r) (Z.shiftr n 4); Some (Z.testbit w (Z.land n 15)).

(** ** Laws of the region accessors *)
Lemma rget_rset_eq r l e : rget (rset r l e) r = l.
Proof. by destruct r. Qed.
Lemma rget_rset_ne r q l e : r <> q -> rget (rset r l e) q = rget e q.
Proof. intros H. destruct q; simpl; by case_decide. Qed.
Lemma rget_rset r q l e : rget (rset r l e) q = if decide (r = q) then l else rget e q.
Proof. case_decide; [subst; apply rget_rset_eq | by apply rget_rset_ne]. Qed.
Lemma rset_c_status r l e : c_StatusInfo (rset r l e) = c_StatusInfo e.
Proof. done. Qed.
Lemma rset_t_status r l e : t_StatusInfo (rset r l e) = t_StatusInfo e.
Proof. done. Qed.
Lemma rget_with_c_status l e r : rget (with_c_status l e) r = rget e r.
Proof. by destruct r. Qed.
Lemma rget_with_t_status l e r : rget (with_t_status l e) r = rget e r.
Proof. by destruct r. Qed.
#[export] Hint Rewrite rget_rset_eq @sget_sset @sset_sset @sset_sget rset_c_status rset_t_status
  rget_with_c_status rget_with_t_status : elem.

Lemma rconv_ok r v : cell_ok r (rconv r v).
Proof. destruct r; simpl; auto using u16_range, s32_range, u32_range. Qed.
Lemma rsize_pos r : 0 < rsize r.
Proof. by destruct r. Qed.
Lemma cell_ok_u16 r v : r <> C32_VALUE -> r <> T_START -> cell_ok r v -> 0 <= v < 2 ^ 16.
Proof. by destruct r. Qed.

Lemma wf_elem0 : wf_elem elem0.
Proof.
  assert (Hz : forall r, rget elem0 r = zeros r) by (by intros []).
  split.
  - intros r. rewrite Hz. unfold zeros. rewrite length_replicate, Z2Nat.id; [done|].
    pose proof (rsize_pos r). lia.
  - intros r. rewrite Hz. apply Forall_replicate. destruct r; simpl; lia.
  - unfold elem0; cbn [c_StatusInfo]. by rewrite length_replicate, Z2Nat.id.
  - unfold elem0; cbn [t_StatusInfo]. by rewrite length_replicate, Z2Nat.id.
Qed.

Section laws.
Context {S : Type} `{!Sub plc_element_st S}.
Implicit Types (s : S) (r q : region).

(** *** Reads and writes in range are defined *)
Lemma rd_run r i s : wf_elem (elem s) -> 0 <= i < rsize r ->
  exists v, rd r i s = Ok (v, s) /\ zlookup (rget (elem s) r) i = Some v /\ cell_ok r v.
Proof.
  intros W Hi. unfold rd. destruct (zlookup (rget (elem s) r) i) as [v|] eqn:E.
  - exists v. split_and!; [done..|]. apply zlookup_Some in E as [_ E].
    eapply Forall_lookup_1; [apply (wf_cells _ W)|done].
  - exfalso. assert (is_Some (zlookup (rget (elem s) r) i)) as [? ?].
    { apply zlookup_is_Some. rewrite (wf_len _ W). lia. }
    congruence.
Qed.
Lemma wr_run r i v s : wf_elem (elem s) -> 0 <= i < rsize r ->
  wr r i v s =
    Ok (tt, sset (rset r (<[Z.to_nat i := rconv r v]> (rget (elem s) r)) (elem s)) s).
Proof.
  intros W Hi. unfold wr. rewrite zupdate_lt; [done|]. rewrite (wf_len _ W). lia.
Qed.

(** *** What a read and a write do to the store *)
#[global] Instance rd_respects (R : relation S) `{!PreOrder R} r i : Respects R (rd r i).
Proof. intros s a s'. unfold rd. case_match; intros [= <- <-]. reflexivity. Qed.
#[global] Instance rd_c_status_respects (R : relation S) `{!PreOrder R} i : Respects R (rd_c_status i).
Proof. intros s a s'. unfold rd_c_status. case_match; intros [= <- <-]. reflexivity. Qed.
#[global] Instance rd_t_status_respects (R : relation S) `{!PreOrder R} i : Respects R (rd_t_status i).
Proof. intros s a s'. unfold rd_t_status. case_match; intros [= <- <-]. reflexivity. Qed.

Definition wf_mem : relation S := keeps (fun s => wf_elem (elem s)).
#[global] Instance wf_mem_preorder : PreOrder wf_mem.
Proof. apply keeps_preorder. Qed.

Lemma wf_elem_rset r l e : wf_elem e -> Z.of_nat (length l) = rsize r -> Forall (cell_ok r) l ->
  wf_elem (rset r l e).
Proof.
  intros [L C Hc Ht] Hl Hf. split; [| |done..].
  - intros q. rewrite rget_rset. by case_decide; subst.
  - intros q. rewrite rget_rset. by case_decide; subst.
Qed.
#[global] Instance wr_wf r i v : Respects wf_mem (wr r i v).
Proof.
  intros s a s'. unfold wr. destruct (zupdate _ _ _) as [l|] eqn:E; [|done].
  intros [= <- <-] W. unfold elem in *. rewrite sget_sset. apply wf_elem_rset; [done| |].
  - by rewrite (zupdate_length _ _ _ _ E), (wf_len _ W).
  - eapply zupdate_Forall; [done|apply rconv_ok|apply (wf_cells _ W)].
Qed.
#[global] Instance wr_c_status_wf i f : Respects wf_mem (wr_c_status i f).
Proof.
  intros s a s'. unfold wr_c_status. destruct (zlookup _ _) as [c|]; [|done].
  destruct (zupdate _ _ _) as [l|] eqn:E; [|done]. intros [= <- <-] [W1 W2 W3 W4].
  unfold elem in *. rewrite sget_sset. split; [intros r..| |done]; autorewrite with elem; [done..|].
  simpl. by rewrite (zupdate_length _ _ _ _ E).
Qed.
#[global] Instance wr_t_status_wf i f : Respects wf_mem (wr_t_status i f).
Proof.
  intros s a s'. unfold wr_t_status. destruct (zlookup _ _) as [c|]; [|done].
  destruct (zupdate _ _ _) as [l|] eqn:E; [|done]. intros [= <- <-] [W1 W2 W3 W4].
  unfold elem in *. rewrite sget_sset. split; [intros r..|done|]; autorewrite with elem; [done..|].
  simpl. by rewrite (zupdate_length _ _ _ _ E).
Qed.

(** Writing one array leaves the others alone. *)
Definition same_region (q : region) : relation S := same (fun s => rget (elem s) q).
#[global] Instance same_region_preorder q : PreOrder (same_region q).
Proof. apply same_preorder. Qed.
Lemma wr_frame r q i v : r <> q -> Respects (same_region q) (wr r i v).
Proof.
  intros Hq s a s'. unfold wr. destruct (zupdate _ _ _) as [l|] eqn:E; [|done].
  intros [= <- <-]. unfold same_region, same, elem. rewrite sget_sset. by apply rget_rset_ne.
Qed.
(** *** The memory as a function of region and index

    [cell] and [upd] turn defined runs into rewriting: a read in range returns
    the cell, a write in range produces the updated store. *)
Definition cell (r : region) (i : Z) (s : S) : Z := default 0 (zlookup (rget (elem s) r) i).
Definition upd (r : region) (i v : Z) (s : S) : S :=
  sset (rset r (<[Z.to_nat i := rconv r v]> (rget (elem s) r)) (elem s)) s.
Lemma rd_cell r i s : wf_elem (elem s) -> 0 <= i < rsize r -> rd r i s = Ok (cell r i s, s).
Proof.
  intros W Hi. destruct (rd_run r i s W Hi) as (v & Hr & Hv & _). rewrite Hr.
  unfold cell. by rewrite Hv.
Qed.
Lemma wr_upd r i v s : wf_elem (elem s) -> 0 <= i < rsize r -> wr r i v s = Ok (tt, upd r i v s).
Proof. apply wr_run. Qed.
Lemma upd_wf r i v s : wf_elem (elem s) -> 0 <= i < rsize r -> wf_elem (elem (upd r i v s)).
Proof. intros W Hi. eapply wr_wf; [by apply wr_upd|done]. Qed.
Lemma cell_upd q j r i v s : wf_elem (elem s) -> 0 <= i < rsize r ->
  cell q j (upd r i v s) = if decide (q = r /\ j = i) then rconv r v else cell q j s.
Proof.
  intros W Hi. unfold cell, upd, elem in *. rewrite sget_sset, rget_rset.
  assert (U := zupdate_lt (rget (sget s) r) i (rconv r v)). rewrite (wf_len _ W) in U.
  specialize (U Hi). destruct (decide (r = q)) as [<-|Hq]; [destruct (decide (j = i)) as [->|Hji]|].
  - rewrite (zlookup_zupdate_eq _ _ _ _ U), decide_True by done. done.
  - rewrite (zlookup_zupdate_ne _ _ _ _ _ U) by congruence. by rewrite decide_False by tauto.
  - by rewrite decide_False by naive_solver.
Qed.
Lemma cell_range r i s : wf_elem (elem s) -> 0 <= i < rsize r -> cell_ok r (cell r i s).
Proof.
  intros W Hi. destruct (rd_run r i s W Hi) as (v & _ & Hv & Hc). unfold cell. by rewrite Hv.
Qed.
Lemma cell_u16 r i s : wf_elem (elem s) -> 0 <= i < rsize r -> r <> C32_VALUE -> r <> T_START ->
  0 <= cell r i s < 2 ^ 16.
Proof. intros W Hi H1 H2. by eapply cell_ok_u16, cell_range. Qed.

(** *** Bits *)
Lemma testbit_set w k j : 0 <= k < 16 -> 0 <= j < 16 ->
  Z.testbit (u16 (Z.lor w (Z.shiftl 1 k))) j = if j =? k then true else Z.testbit w j.
Proof.
  intros Hk Hj. rewrite testbit_u16, Z.lor_spec, Z.shiftl_spec, testbit_one by lia.
  replace (j <? 16) with true by lia. replace (j - k =? 0) with (j =? k) by lia.
  by destruct (j =? k); rewrite ?orb_true_r, ?orb_false_r.
Qed.
Lemma testbit_reset w k j : 0 <= k < 16 -> 0 <= j < 16 ->
  Z.testbit (u16 (Z.land w (Z.lnot (Z.shiftl 1 k)))) j = if j =? k then false else Z.testbit w j.
Proof.
  intros Hk Hj. rewrite testbit_u16, Z.land_spec, Z.lnot_spec, Z.shiftl_spec, testbit_one by lia.
  replace (j <? 16) with true by lia. replace (j - k =? 0) with (j =? k) by lia.
  by destruct (j =? k); rewrite ?andb_true_r, ?andb_false_r.
Qed.
Lemma bit_read w k : 0 <= k -> Z.land (Z.shiftr w k) 1 = Z.b2z (Z.testbit w k).
Proof.
  intros Hk. change 1 with (Z.ones 1). rewrite Z.land_ones by lia. change (2 ^ 1) with 2.
  rewrite <- Z.bit0_mod, Z.shiftr_spec by lia. by rewrite Z.add_0_l.
Qed.
(** An element number is its word and its position in the word. *)
Lemma bit_split n : 0 <= n -> n = Z.shiftr n 4 * 16 + Z.land n 15.
Proof.
  intros H. rewrite Z.shiftr_div_pow2 by lia. change 15 with (Z.ones 4).
  rewrite Z.land_ones by lia. pose proof (Z.div_mod n (2 ^ 4)). lia.
Qed.
Lemma bit_pos n : 0 <= Z.land n 15 < 16.
Proof. change 15 with (Z.ones 4). rewrite Z.land_ones by lia. apply Z.mod_pos_bound; lia. Qed.
Lemma word_of a k : 0 <= k < 16 -> Z.shiftr (a * 16 + k) 4 = a.
Proof.
  intros H. rewrite Z.shiftr_div_pow2 by lia. change (2 ^ 4) with 16.
  rewrite Z.div_add_l by lia. rewrite (Z.div_small k) by lia. lia.
Qed.
Lemma pos_of a k : 0 <= k < 16 -> Z.land (a * 16 + k) 15 = k.
Proof.
  intros H. change 15 with (Z.ones 4). rewrite Z.land_ones by lia. change (2 ^ 4) with 16.
  rewrite Z.add_comm, Z.mod_add by lia. apply Z.mod_small. lia.
Qed.
Lemma bit_word (sz n : Z) : 0 <= n < 16 * sz -> 0 <= Z.shiftr n 4 < sz.
Proof. intros H. pose proof (bit_split n). pose proof (bit_pos n). lia. Qed.

(** The store after bit [n] of [r] has been given the value [b]: every other
    bit of every array is what it was. *)
Definition bit_updated (r : region) (n : Z) (b : bool) (s s' : S) : Prop :=
  (forall q m, 0 <= m -> bit_of (elem s') q m =
     if decide (q = r /\ m = n) then Some b else bit_of (elem s) q m) /\
  exists e : plc_element_st, s' = sset e s.

Lemma word_update r a w w' s s' k b :
  0 <= a -> 0 <= k < 16 -> zlookup (rget (elem s) r) a = Some w ->
  (forall j, 0 <= j < 16 -> Z.testbit w' j = if j =? k then b else Z.testbit w j) ->
  s' = sset (rset r (<[Z.to_nat a := w']> (rget (elem s) r)) (elem s)) s ->
  bit_updated r (a * 16 + k) b s s'.
Proof.
  intros Ha Hk Hw Hb ->. split; [|by eexists].
  intros q m Hm. unfold bit_of, elem in *. rewrite sget_sset.
  pose proof (bit_split m Hm). pose proof (bit_pos m).
  pose proof (zlookup_lt _ _ _ Hw) as Hlt.
  assert (U := zupdate_lt (rget (sget s) r) a w' Hlt).
  rewrite rget_rset. destruct (decide (r = q)) as [<-|Hq].
  - destruct (decide (a = Z.shiftr m 4)) as [Ea|Ea].
    + subst a. rewrite (zlookup_zupdate_eq _ _ _ _ U), Hw. simpl.
      rewrite Hb by done. destruct (Z.eqb_spec (Z.land m 15) k) as [Ek|Ek].
      * rewrite decide_True; [done|]. split; [done|lia].
      * rewrite decide_False; [done|]. intros [_ ?]. lia.
    + rewrite (zlookup_zupdate_ne _ _ _ _ _ U Ea).
      rewrite decide_False; [done|]. intros [_ ?]. apply Ea. lia.
  - rewrite decide_False; [done|]. intros [? _]. congruence.
Qed.

Definition bit_region (r : region) : Prop := r <> C32_VALUE /\ r <> T_START.

(** The step shared by the global and the per-layer writer. *)
Lemma set_bit_at r a k (b : bool) s : wf_elem (elem s) -> bit_region r -> 0 <= a < rsize r -> 0 <= k < 16 ->
  exists w s', rd r a s = Ok (w, s) /\
    (if b then wr r a (Z.lor w (Z.shiftl 1 k)) else wr r a (Z.land w (Z.lnot (Z.shiftl 1 k)))) s
      = Ok (tt, s') /\ bit_updated r (a * 16 + k) b s s' /\ wf_elem (elem s').
Proof.
  intros W [R1 R2] Ha Hk. destruct (rd_run r a s W Ha) as (w & Hr & Hw & _).
  assert (Hc : forall v, rconv r v = u16 v) by (by destruct r).
  destruct b; exists w; eexists; (split_and!; [exact Hr|by apply wr_run| |]).
  1,3: eapply word_update; [lia|exact Hk|exact Hw| |reflexivity]; intros j Hj; rewrite Hc.
  - by apply testbit_set.
  - by apply testbit_reset.
  - eapply wr_wf; [by apply wr_run|done].
  - eapply wr_wf; [by apply wr_run|done].
Qed.

Lemma set_bit_run r n v s : wf_elem (elem s) -> bit_region r ->
  0 <= n < 2 ^ 16 -> n < 16 * rsize r -> 0 <= v < 2 ^ 8 ->
  exists s', plc_set_bit_element_value r n v s = Ok (tt, s') /\
    bit_updated r n (truthy v) s s' /\ wf_elem (elem s').
Proof.
  intros W R Hn Hs Hv. unfold plc_set_bit_element_value. rewrite u16_id, u8_id by lia.
  destruct (set_bit_at r (Z.shiftr n 4) (Z.land n 15) (truthy v) s W R) as (w & s' & Hr & Hw & U & W').
  { apply bit_word. lia. } { apply bit_pos. }
  exists s'. rewrite <- bit_split in U by lia. split_and!; [|done|done].
  unfold mbind, M_bind. rewrite Hr. by destruct (truthy v).
Qed.

Lemma get_bit_run r n s : wf_elem (elem s) -> 0 <= n < 2 ^ 16 -> n < 16 * rsize r ->
  exists b, plc_get_bit_element_value r n s = Ok (Z.b2z b, s) /\ bit_of (elem s) r n = Some b.
Proof.
  intros W Hn Hs. unfold plc_get_bit_element_value. rewrite u16_id by lia.
  destruct (rd_run r (Z.shiftr n 4) s W) as (w & Hr & Hw & _); [apply bit_word; lia|].
  exists (Z.testbit w (Z.land n 15)). unfold mbind, M_bind. rewrite Hr. split.
  - unfold mret, M_ret. by rewrite bit_read by apply bit_pos.
  - unfold bit_of. by rewrite Hw.
Qed.

(** Local element [n] of layer [l] is bit [64 l + n] of the LM array. *)
Lemma lm_index l n : 0 <= l -> 0 <= n < LM_RANG ->
  (LM_RANG / 16 * l + Z.shiftr n 4) * 16 + Z.land n 15 = LM_RANG * l + n.
Proof.
  intros Hl Hn. pose proof (bit_split n ltac:(lia)). unfold LM_RANG in *.
  change (64 / 16) with 4. lia.
Qed.
Lemma lm_word l n : 0 <= l < MAX_SBR_NESTED_LAYER -> 0 <= n < LM_RANG ->
  0 <= LM_RANG / 16 * l + Z.shiftr n 4 < rsize LM_ELEMENT.
Proof.
  unfold MAX_SBR_NESTED_LAYER, LM_RANG. intros Hl Hn. pose proof (bit_word 4 n ltac:(lia)).
  change (rsize LM_ELEMENT) with 32. change (64 / 16) with 4. lia.
Qed.
Lemma set_lm_run l n v s : wf_elem (elem s) -> 0 <= l < MAX_SBR_NESTED_LAYER ->
  0 <= n < LM_RANG -> 0 <= v < 2 ^ 8 ->
  exists s', plc_set_lm_element_value l n v s = Ok (tt, s') /\
    bit_updated LM_ELEMENT (LM_RANG * l + n) (truthy v) s s' /\ wf_elem (elem s').
Proof.
  intros W Hl Hn Hv. assert (Hl' := Hl). assert (Hn' := Hn).
  unfold MAX_SBR_NESTED_LAYER in Hl'. unfold LM_RANG in Hn'.
  unfold plc_set_lm_element_value. rewrite u16_id, !u8_id by lia.
  destruct (set_bit_at LM_ELEMENT (LM_RANG / 16 * l + Z.shiftr n 4) (Z.land n 15) (truthy v) s W)
    as (w & s' & Hr & Hw & U & W').
  { by split. } { by apply lm_word. } { apply bit_pos. }
  exists s'. rewrite lm_index in U by lia. split_and!; [|done|done].
  unfold mbind, M_bind. rewrite Hr. by destruct (truthy v).
Qed.
Lemma get_lm_run l n s : wf_elem (elem s) -> 0 <= l < MAX_SBR_NESTED_LAYER -> 0 <= n < LM_RANG ->
  exists b, plc_get_lm_element_value l n s = Ok (Z.b2z b, s) /\
    bit_of (elem s) LM_ELEMENT (LM_RANG * l + n) = Some b.
Proof.
  intros W Hl Hn. assert (Hl' := Hl). assert (Hn' := Hn).
  unfold MAX_SBR_NESTED_LAYER in Hl'. unfold LM_RANG in Hn'.
  unfold plc_get_lm_element_value. rewrite u16_id, !u8_id by lia.
  destruct (rd_run LM_ELEMENT (LM_RANG / 16 * l + Z.shiftr n 4) s W) as (w & Hr & Hw & _).
  { by apply lm_word. }
  exists (Z.testbit w (Z.land n 15)). unfold mbind, M_bind. rewrite Hr. split.
  - unfold mret, M_ret. by rewrite bit_read by apply bit_pos.
  - unfold bit_of. rewrite <- (lm_index l n) by lia.
    rewrite word_of, pos_of by apply bit_pos. by rewrite Hw.
Qed.
(** *** Clearing *)
Definition kept (q : region) (i : Z) : bool := bool_decide (q = SD_ELEMENT) && sd_retained i.
(** The arrays of [L] (and, by the flags, the status arrays) have been cleared. *)
Record cleared (L : list region) (c t : bool) (s0 s : S) : Prop := {
  cl_wf : wf_elem (elem s);
  cl_cell q i : 0 <= i < rsize q -> zlookup (rget (elem s) q) i =
    if decide (q ∈ L) then (if kept q i then zlookup (rget (elem s0) q) i else Some 0)
    else zlookup (rget (elem s0) q) i;
  cl_c i : c = true -> 0 <= i < C_RANG -> zlookup (c_StatusInfo (elem s)) i = Some c_status0;
  cl_t i : t = true -> 0 <= i < T_RANG -> zlookup (t_StatusInfo (elem s)) i = Some t_status0 }.

(** The cells of [r] below [j] have been visited. *)
Record visited (r : region) (j : Z) (s s' : S) : Prop := {
  vi_wf : wf_elem (elem s');
  vi_c : c_StatusInfo (elem s') = c_StatusInfo (elem s);
  vi_t : t_StatusInfo (elem s') = t_StatusInfo (elem s);
  vi_cell q i : 0 <= i < rsize q -> zlookup (rget (elem s') q) i =
    if decide (q = r /\ i < j) then (if kept q i then zlookup (rget (elem s) q) i else Some 0)
    else zlookup (rget (elem s) q) i }.

Lemma visit_cell r j s s1 : 0 <= j < rsize r -> visited r j s s1 ->
  wp (when (negb (kept r j)) (wr r j 0)) (fun _ => visited r (j + 1) s) s1.
Proof.
  intros Hj [W Vc Vt Hc]. apply wp_when; intros Hk.
  - unfold wp. rewrite wr_run by done. split.
    { eapply wr_wf; [by apply wr_run|done]. }
    1,2: unfold elem in *; by autorewrite with elem.
    intros q i Hi. unfold elem in *. rewrite sget_sset, rget_rset.
    assert (U := zupdate_lt (rget (sget s1) r) j (rconv r 0)).
    rewrite (wf_len _ W) in U. specialize (U Hj).
    replace (rconv r 0) with 0 in * by (by destruct r). apply negb_true_iff in Hk.
    destruct (decide (r = q)) as [<-|Hq]; [destruct (decide (j = i)) as [<-|Hji]|].
    + rewrite (zlookup_zupdate_eq _ _ _ _ U), Hk, decide_True; [done|]. split; [done|lia].
    + rewrite (zlookup_zupdate_ne _ _ _ _ _ U Hji), Hc by done.
      repeat case_decide; naive_solver lia.
    + rewrite Hc by done. repeat case_decide; naive_solver.
  - split; [done..|]. intros q i Hi. rewrite Hc by done. apply negb_false_iff in Hk.
    repeat case_decide; try naive_solver lia.
    destruct H0 as [-> ?]. replace i with j by (by destruct (decide (i = j)); naive_solver lia).
    by rewrite Hk.
Qed.

Lemma cleared_region r L c t s0 s : r ∉ L -> cleared L c t s0 s ->
  wp (for_up (Z.to_nat (rsize r)) 0 (fun i => when (negb (kept r i)) (wr r i 0)))
     (fun _ => cleared (r :: L) c t s0) s.
Proof.
  intros HL [W H Hsc Hst]. pose proof (rsize_pos r) as Hp.
  eapply wp_mono; [apply (wp_for_up (fun j => visited r j s))|].
  - split; [done..|]. intros q i Hi. rewrite decide_False; [done|lia].
  - intros j s1 Hj. apply visit_cell. lia.
  - intros [] s' [W' Vc Vt Hc]. rewrite Z2Nat.id in Hc by lia. split; [done| | |].
    + intros q i Hi. rewrite Hc, H by done. repeat case_decide; try (set_solver || naive_solver lia).
    + intros i. rewrite Vc. apply Hsc.
    + intros i. rewrite Vt. apply Hst.
Qed.
Lemma wp_clear_region r n L c t s0 s : r <> SD_ELEMENT -> n = rsize r -> r ∉ L ->
  cleared L c t s0 s -> wp (clear_region r n) (fun _ => cleared (r :: L) c t s0) s.
Proof.
  intros Hr -> HL H. pose proof (cleared_region r L c t s0 s HL H) as W.
  unfold kept in W. rewrite bool_decide_false in W by done. exact W.
Qed.
Lemma wp_clear_sd L c t s0 s : SD_ELEMENT ∉ L -> cleared L c t s0 s ->
  wp (for_up (Z.to_nat SD_RANG) 0 (fun i => when (negb (sd_retained i)) (wr SD_ELEMENT i 0)))
     (fun _ => cleared (SD_ELEMENT :: L) c t s0) s.
Proof.
  intros HL H. pose proof (cleared_region SD_ELEMENT L c t s0 s HL H) as W.
  unfold kept in W. rewrite bool_decide_true in W by done. exact W.
Qed.
Lemma wr_c_status_run i f s : wf_elem (elem s) -> 0 <= i < C_RANG -> exists c,
  zlookup (c_StatusInfo (elem s)) i = Some c /\
  wr_c_status i f s = Ok (tt, sset (with_c_status (<[Z.to_nat i := f c]> (c_StatusInfo (elem s))) (elem s)) s).
Proof.
  intros W Hi. assert (is_Some (zlookup (c_StatusInfo (elem s)) i)) as [c Hc].
  { apply zlookup_is_Some. rewrite (wf_c_len _ W). lia. }
  exists c. split; [done|]. unfold wr_c_status. rewrite Hc, zupdate_lt; [done|].
  rewrite (wf_c_len _ W). lia.
Qed.
Lemma wr_t_status_run i f s : wf_elem (elem s) -> 0 <= i < T_RANG -> exists c,
  zlookup (t_StatusInfo (elem s)) i = Some c /\
  wr_t_status i f s = Ok (tt, sset (with_t_status (<[Z.to_nat i := f c]> (t_StatusInfo (elem s))) (elem s)) s).
Proof.
  intros W Hi. assert (is_Some (zlookup (t_StatusInfo (elem s)) i)) as [c Hc].
  { apply zlookup_is_Some. rewrite (wf_t_len _ W). lia. }
  exists c. split; [done|]. unfold wr_t_status. rewrite Hc, zupdate_lt; [done|].
  rewrite (wf_t_len _ W). lia.
Qed.

Lemma cleared_c_status L t s0 s : cleared L false t s0 s ->
  wp (for_up (Z.to_nat C_RANG) 0 (fun i => wr_c_status i (fun _ => c_status0)))
     (fun _ => cleared L true t s0) s.
Proof.
  intros H.
  eapply wp_mono; [apply (wp_for_up (fun j s' => cleared L false t s0 s' /\
    forall i, 0 <= i < j -> zlookup (c_StatusInfo (elem s')) i = Some c_status0))|].
  - split; [done|]. lia.
  - intros j s1 Hj [[W Hc _ Ht] Hz]. change (0 <= j < 0 + C_RANG) in Hj.
    destruct (wr_c_status_run j (fun _ => c_status0) s1 W ltac:(lia)) as (c & Hl & Hr).
    unfold wp. rewrite Hr. assert (W' := wr_c_status_wf _ _ _ _ _ Hr W).
    unfold elem in *. autorewrite with elem in W' |- *.
    assert (U := zupdate_lt _ _ c_status0 (zlookup_lt _ _ _ Hl)).
    split; [split; unfold elem; rewrite ?sget_sset; [done| | |]|].
    + intros q i. rewrite rget_with_c_status. apply Hc.
    + done.
    + apply Ht.
    + intros i Hi. cbn [c_StatusInfo with_c_status].
      destruct (decide (j = i)) as [<-|Hji]; [exact (zlookup_zupdate_eq _ _ _ _ U)|].
      rewrite (zlookup_zupdate_ne _ _ _ _ _ U Hji). apply Hz. lia.
  - intros [] s' [[W Hc _ Ht] Hz]. split; [done|done|auto|done].
Qed.
Lemma cleared_t_status L c s0 s : cleared L c false s0 s ->
  wp (for_up (Z.to_nat T_RANG) 0 (fun i => wr_t_status i (fun _ => t_status0)))
     (fun _ => cleared L c true s0) s.
Proof.
  intros H.
  eapply wp_mono; [apply (wp_for_up (fun j s' => cleared L c false s0 s' /\
    forall i, 0 <= i < j -> zlookup (t_StatusInfo (elem s')) i = Some t_status0))|].
  - split; [done|]. lia.
  - intros j s1 Hj [[W Hc Ht _] Hz]. change (0 <= j < 0 + T_RANG) in Hj.
    destruct (wr_t_status_run j (fun _ => t_status0) s1 W ltac:(lia)) as (t & Hl & Hr).
    unfold wp. rewrite Hr. assert (W' := wr_t_status_wf _ _ _ _ _ Hr W).
    unfold elem in *. autorewrite with elem in W' |- *.
    assert (U := zupdate_lt _ _ t_status0 (zlookup_lt _ _ _ Hl)).
    split; [split; unfold elem; rewrite ?sget_sset; [done| | |]|].
    + intros q i. rewrite rget_with_t_status. apply Hc.
    + apply Ht.
    + done.
    + intros i Hi. cbn [t_StatusInfo with_t_status].
      destruct (decide (j = i)) as [<-|Hji]; [exact (zlookup_zupdate_eq _ _ _ _ U)|].
      rewrite (zlookup_zupdate_ne _ _ _ _ _ U Hji). apply Hz. lia.
  - intros [] s' [[W Hc Ht _] Hz]. split; [done|done|done|auto].
Qed.
End laws.

#[global] Hint Extern 3 (Respects (same_region _) (wr _ _ _)) =>
  (apply wr_frame; first [discriminate | assumption]) : typeclass_instances.
Lemma set_bit_frame {S} `{!Sub plc_element_st S} r q n v : r <> q ->
  Respects (S := S) (same_region q) (plc_set_bit_element_value r n v).
Proof. intros H. unfold plc_set_bit_element_value. apply _. Qed.
Lemma set_lm_frame {S} `{!Sub plc_element_st S} q l n v : LM_ELEMENT <> q ->
  Respects (S := S) (same_region q) (plc_set_lm_element_value l n v).
Proof. intros H. unfold plc_set_lm_element_value. apply _. Qed.
#[global] Hint Extern 3 (Respects (same_region _) (plc_set_bit_element_value _ _ _)) =>
  (apply set_bit_frame; first [discriminate | assumption]) : typeclass_instances.
#[global] Hint Extern 3 (Respects (same_region _) (plc_set_lm_element_value _ _ _)) =>
  (apply set_lm_frame; first [discriminate | assumption]) : typeclass_instances.
Section element_halts.
Context {S : Type} `{!Sub plc_element_st S}.
#[global] Instance rd_halts r i : Halts (S := S) (rd r i).
Proof. intros s. unfold rd. by case_match. Qed.
#[global] Instance wr_halts r i v : Halts (S := S) (wr r i v).
Proof. intros s. unfold wr. by case_match. Qed.
#[global] Instance rd_c_status_halts i : Halts (S := S) (rd_c_status i).
Proof. intros s. unfold rd_c_status. by case_match. Qed.
#[global] Instance rd_t_status_halts i : Halts (S := S) (rd_t_status i).
Proof. intros s. unfold rd_t_status. by case_match. Qed.
#[global] Instance wr_c_status_halts i f : Halts (S := S) (wr_c_status i f).
Proof. intros s. unfold wr_c_status. by repeat case_match. Qed.
#[global] Instance wr_t_status_halts i f : Halts (S := S) (wr_t_status i f).
Proof. intros s. unfold wr_t_status. by repeat case_match. Qed.
#[global] Instance get_bit_halts r n : Halts (S := S) (plc_get_bit_element_value r n).
Proof. unfold plc_get_bit_element_value. apply _. Qed.
#[global] Instance set_bit_halts r n v : Halts (S := S) (plc_set_bit_element_value r n v).
Proof. unfold plc_set_bit_element_value. apply _. Qed.
#[global] Instance get_lm_halts l n : Halts (S := S) (plc_get_lm_element_value l n).
Proof. unfold plc_get_lm_element_value. apply _. Qed.
#[global] Instance set_lm_halts l n v : Halts (S := S) (plc_set_lm_element_value l n v).
Proof. unfold plc_set_lm_element_value. apply _. Qed.
End element_halts.
#[global] Hint Unfold plc_set_bit_element_value plc_get_bit_element_value
  plc_get_lm_element_value plc_set_lm_element_value : elem.

(** ** What the rest of the program relies on *)

(** Writing a bit element and reading any bit element back: the element
    written has the new value, every other bit of every array the old one,
    and neither access leaves its array. *)
Theorem bit_element_set_get {S} `{!Sub plc_element_st S} (s : S) r n v q m :
  wf_elem (elem s) -> bit_region r -> 0 <= v < 2 ^ 8 ->
  0 <= n < 2 ^ 16 -> n < 16 * rsize r -> 0 <= m < 2 ^ 16 -> m < 16 * rsize q ->
  exists s' old, plc_get_bit_element_value q m s = Ok (old, s) /\
    plc_set_bit_element_value r n v s = Ok (tt, s') /\ wf_elem (elem s') /\
    plc_get_bit_element_value q m s' =
      Ok (if decide (q = r /\ m = n) then Z.b2z (truthy v) else old, s').
Proof.
  intros W R Hv Hn Hns Hm Hms.
  destruct (get_bit_run q m s W Hm Hms) as (b & Hg & Hb).
  destruct (set_bit_run r n v s W R Hn Hns Hv) as (s' & Hset & [U _] & W').
  destruct (get_bit_run q m s' W' Hm Hms) as (b' & Hg' & Hb').
  exists s', (Z.b2z b). split_and!; [done..|]. rewrite Hg'. rewrite U in Hb' by lia.
  case_decide; congruence.
Qed.
Lemma bit_element_set_get_witness : exists s' old : _,
  plc_get_bit_element_value M_ELEMENT 17 elem0 = Ok (old, elem0) /\
  plc_set_bit_element_value M_ELEMENT 17 1 elem0 = Ok (tt, s') /\ wf_elem (elem s') /\
  plc_get_bit_element_value M_ELEMENT 17 s' = Ok (1, s').
Proof.
  apply (bit_element_set_get elem0 M_ELEMENT 17 1 M_ELEMENT 17);
    [apply wf_elem0 | split; discriminate | zconc..].
Defined.

(** Local bit elements (LM) of different subroutine layers are disjoint:
    a write in layer [l] is seen in layer [l] only. *)
Theorem lm_layers_disjoint {S} `{!Sub plc_element_st S} (s : S) l n v l' n' :
  wf_elem (elem s) -> 0 <= l < MAX_SBR_NESTED_LAYER -> 0 <= n < LM_RANG -> 0 <= v < 2 ^ 8 ->
  0 <= l' < MAX_SBR_NESTED_LAYER -> 0 <= n' < LM_RANG ->
  exists s' old, plc_get_lm_element_value l' n' s = Ok (old, s) /\
    plc_set_lm_element_value l n v s = Ok (tt, s') /\ wf_elem (elem s') /\
    plc_get_lm_element_value l' n' s' =
      Ok (if decide (l' = l /\ n' = n) then Z.b2z (truthy v) else old, s').
Proof.
  intros W Hl Hn Hv Hl' Hn'.
  destruct (get_lm_run l' n' s W Hl' Hn') as (b & Hg & Hb).
  destruct (set_lm_run l n v s W Hl Hn Hv) as (s' & Hset & [U _] & W').
  destruct (get_lm_run l' n' s' W' Hl' Hn') as (b' & Hg' & Hb').
  exists s', (Z.b2z b). split_and!; [done..|]. rewrite Hg'. unfold LM_RANG in *.
  rewrite U in Hb' by lia. repeat case_decide; naive_solver lia.
Qed.
Lemma lm_layers_disjoint_witness : exists s' old : _,
  plc_get_lm_element_value 2 5 elem0 = Ok (old, elem0) /\
  plc_set_lm_element_value 1 5 1 elem0 = Ok (tt, s') /\ wf_elem (elem s') /\
  plc_get_lm_element_value 2 5 s' = Ok (old, s').
Proof.
  apply (lm_layers_disjoint elem0 1 5 1 2 5);
    [apply wf_elem0 | zconc..].
Defined.

(** [plc_element_value_init] is defined from any memory of the declared
    shape and leaves every element 0 except SD100..SD106 and SD233..SD384,
    which keep their values; the counter and timer status words are cleared. *)
Theorem element_value_init_clears {S} `{!Sub plc_element_st S} (s : S) :
  wf_elem (elem s) ->
  exists s', plc_element_value_init s = Ok (tt, s') /\ wf_elem (elem s') /\
    (forall r i, 0 <= i < rsize r -> zlookup (rget (elem s') r) i =
       if kept r i then zlookup (rget (elem s) r) i else Some 0) /\
    (forall i, 0 <= i < C_RANG -> zlookup (c_StatusInfo (elem s')) i = Some c_status0) /\
    (forall i, 0 <= i < T_RANG -> zlookup (t_StatusInfo (elem s')) i = Some t_status0).
Proof.
  intros W. assert (C0 : cleared [] false false s s).
  { split; [done| |done|done]. intros. by rewrite decide_False by set_solver. }
  assert (H : wp plc_element_value_init (fun _ => cleared
    [T_CURRENT; T_DEST; T_START; T_ELEMENT; C32_VALUE; C16_VALUE; C_ELEMENT; Z_ELEMENT; R_ELEMENT;
     V_ELEMENT; SD_ELEMENT; D_ELEMENT; S_ELEMENT; SM_ELEMENT; LM_ELEMENT; M_ELEMENT; Y_ELEMENT;
     X_ELEMENT] true true s) s).
  { unfold plc_element_value_init.
    repeat (cbv beta in *; lazymatch goal with
    | |- wp (_ ≫= _) _ _ => apply wp_bind; eapply wp_mono; [|intros [] ? ?]
    | |- wp (clear_region _ _) _ _ =>
        apply wp_clear_region; [discriminate|reflexivity| |eassumption]; by compute_done
    | |- wp (for_up (Z.to_nat SD_RANG) _ _) _ _ =>
        apply wp_clear_sd; [|eassumption]; by compute_done
    | |- wp (for_up (Z.to_nat C_RANG) _ _) _ _ =>
        apply cleared_c_status; eassumption
    | |- wp (for_up (Z.to_nat T_RANG) _ _) _ _ =>
        apply cleared_t_status; eassumption
    end). }
  apply wp_ok in H as ([] & s' & Hr & [W' Hc Hsc Hst]).
  exists s'. split_and!; [done..| |auto|auto].
  intros r i Hi. rewrite Hc by done. rewrite decide_True; [done|]. destruct r; set_solver.
Qed.
Lemma element_value_init_clears_witness : exists s', plc_element_value_init elem0 = Ok (tt, s').
Proof.
  destruct (@element_value_init_clears plc_element_st Sub_refl elem0 wf_elem0) as (s' & H & _). by exists s'.
Defined.
