(* ===== verification/Machine.v ===== *)
(** * The machine: the global state of the runtime and its common functions

    Models plc/common/inc/plc_variable.h (the run-time structures the
    instruction handlers share), the macros on power flow and on the edge
    store, and plc/common/src/plc_commonfunc.c (error registration). A pointer
    into the user program is an offset from [gtv_UserFilePtrSt.UCodePtr]; the
    program is the list of its bytes, and reading outside it is undefined. *)
From stdpp Require Import base list numbers sets.
From S2P Require Import Prelude Element.

(** ** Error codes (plc_errormsg.h) and return flags (plc_complexins.h) *)
Definition ERR_USER_PROGRAM := 40.
Definition ERR_SYSTEM_BLOCK := 41.
Definition ERR_DATA_BLOCK := 42.
Definition ERR_COMPILER := 60.
Definition ERR_EXEC_OVER_TIME := 61.
Definition ERR_ILLEGAL_INSTRCTION := 62.
Definition ERR_ELEMENT_TYPE := 63.
Definition ERR_OPERANDS := 64.
Definition ERR_OVER_ELEMENT_RANG := 65.
Definition ERR_OVER_SBR_STACK := 66.
Definition ERR_DIV_ZERO := 69.
Definition ERR_NO_DEFINE_SBR_INTR := 72.
Definition ERR_NET_CONFIG := 77.
Definition ERR_MODBUS_TBL := 78.
Definition ERR_MODBUSTCP_TBL := 79.
Definition ERR_NULL_UCODE := 90.
Definition ERR_NULL_DATA_BLOCK := 91.
Definition ERR_NULL_POU_INFO := 92.
Definition ERR_NULL_SYSTEM_BLOCK := 93.
Definition ERR_NULL_NET_CONFIG := 94.
Definition ERR_NULL_GVT := 95.
Definition ERR_EXTEND_ERR := 200.
Definition ERR_SLAVE_ERR := 201.
Definition ERR_ECAT_SLAVE_NUM_ERR := 204.
Definition ERR_ECAT_WKC_ERR := 205.
Definition ERR_EXPANSION_MODULE := 206.
Definition ERR_ECAT_NOT_OPMODE := 207.
Definition ERR_MDTCP_EXCEEDMAXCONN := 230.
Definition EXEC_FLAG_FEND := 2.
Definition EXEC_FLAG_IRET := 3.
Definition EXEC_FLAG_SRET := 4.
Definition EXEC_FLAG_STOP := 5.

(** ** Structures of plc_variable.h *)
Record plc_run_power_flow_st := { mlv_InPF : Z; mlv_OutPF : Z; mcp_PC : Z }.
Record plc_eu_ed_st := { msv_IsInit : Z; msv_Value : Z }.
Record plc_call_ins_info_st := {
  msv_SbrNestedNum : Z;
  msv_UseNum : Z;
  mlv_UCodeAddr : list Z;
  mcv_IsExec : list Z;
  mcp_RetPc : list Z;
  mcp_SbrPc : list Z }.
Record plc_for_next_ins_st := {
  msa_LoopCnt : list Z;
  msp_StartUcodeAddr : list Z;
  msp_EndUcodeAddr : list Z;
  msv_NestedNum : Z }.
Record plc_sfc_run_status_info_st := {
  mcv_sfcEnable : Z;
  mcv_SeriesSTLCnt : Z;
  msv_StlNum : list Z }.
(** The chained lists of instruction addresses the compiler builds. *)
Record plc_ins_list_head_st := {
  mtv_SimpInsHead : list Z;
  mtv_CompInsHead : list Z }.
Record plc_mc_mcr_ins_list_st := {
  mcp_McUCodePc : Z;
  mc_SimpInsHead : list Z;
  mc_CompInsHead : list Z }.
Record plc_run_status_st := {
  mcv_PlcRunSwitch : Z;
  mtv_PlcRunStopFlag : Z;
  mcv_PlcCurrentStatus : Z;
  mcv_IsOnlineProgram : Z;
  mlv_SysScanTime : Z;
  mlv_WatchDogTime : Z }.
Record plc_exec_error_record_st := {
  mcv_ErrorCnt : Z;
  msv_ErrorMsg : list Z;
  msv_ErrorAddr : list Z }.

(** Control-flow bookkeeping. *)
Record flow_st := {
  call_info : plc_call_ins_info_st;
  for_next : list plc_for_next_ins_st;
  sfc_status : plc_sfc_run_status_info_st;
  sbr_list : list plc_ins_list_head_st;
  stl_list : list plc_ins_list_head_st;
  mc_mcr : list plc_mc_mcr_ins_list_st;
  mc_NestedLevel : Z;
  ssv_MinAlarmSElement : Z }.
(** Run status and error registers. *)
Record sys_st := {
  run_status : plc_run_status_st;
  guv_StopError : Z;
  guv_NonStopError : Z;
  err_record : plc_exec_error_record_st;
  gcp_BackupUserPc : Z;
  user_intr_enable : Z }.

(** The instructions with a state of their own: operating-hours counters and
    pulse generators. *)
Definition MAX_DUTY_SUPPORT_NUM := 5.
Definition DUTY_INS_BASE_ELEMENT := 430.
Record plc_hour_ins_st := { mcv_LastPFStatus : Z; mlv_LastTime : Z }.
Record plc_duty_ins_info_st := { mcv_IsEnable : list Z; msv_OnTime : list Z; msv_OffTime : list Z }.
Record ins_st := { gtp_HourInsSt : list plc_hour_ins_st; gtp_DutyInsInfo : plc_duty_ins_info_st }.

(** [heap] gives what the blocks of heap memory handed out from now on hold
    before they are written: [heap k i] is byte [i] of block [k]. *)
Record plc_st := {
  mem : plc_element_st;
  gtp_EuEd : list plc_eu_ed_st;
  ucode : list Z;
  env : plc_run_power_flow_st;
  flow : flow_st;
  sys : sys_st;
  instances : ins_st;
  tick : Z;
  heap : nat -> Z -> Z }.

(** ** Field updates *)
Definition with_mem m s := {| mem := m; gtp_EuEd := gtp_EuEd s; ucode := ucode s; env := env s;
  flow := flow s; sys := sys s; instances := instances s; tick := tick s; heap := heap s |}.
Definition with_eued l s := {| mem := mem s; gtp_EuEd := l; ucode := ucode s; env := env s;
  flow := flow s; sys := sys s; instances := instances s; tick := tick s; heap := heap s |}.
Definition with_env e s := {| mem := mem s; gtp_EuEd := gtp_EuEd s; ucode := ucode s; env := e;
  flow := flow s; sys := sys s; instances := instances s; tick := tick s; heap := heap s |}.
Definition with_flow f s := {| mem := mem s; gtp_EuEd := gtp_EuEd s; ucode := ucode s; env := env s;
  flow := f; sys := sys s; instances := instances s; tick := tick s; heap := heap s |}.
Definition with_sys y s := {| mem := mem s; gtp_EuEd := gtp_EuEd s; ucode := ucode s; env := env s;
  flow := flow s; sys := y; instances := instances s; tick := tick s; heap := heap s |}.
Definition with_tick v s := {| mem := mem s; gtp_EuEd := gtp_EuEd s; ucode := ucode s; env := env s;
  flow := flow s; sys := sys s; instances := instances s; tick := v; heap := heap s |}.
Definition with_heap v s := {| mem := mem s; gtp_EuEd := gtp_EuEd s; ucode := ucode s; env := env s;
  flow := flow s; sys := sys s; instances := instances s; tick := tick s; heap := v |}.
Definition with_instances i s := {| mem := mem s; gtp_EuEd := gtp_EuEd s; ucode := ucode s; env := env s;
  flow := flow s; sys := sys s; instances := i; tick := tick s; heap := heap s |}.
Definition with_InPF v s :=
  with_env {| mlv_InPF := v; mlv_OutPF := mlv_OutPF (env s); mcp_PC := mcp_PC (env s) |} s.
Definition with_OutPF v s :=
  with_env {| mlv_InPF := mlv_InPF (env s); mlv_OutPF := v; mcp_PC := mcp_PC (env s) |} s.
Definition with_PC v s :=
  with_env {| mlv_InPF := mlv_InPF (env s); mlv_OutPF := mlv_OutPF (env s); mcp_PC := v |} s.

#[global] Instance plc_st_mem : Sub plc_element_st plc_st.
Proof. refine {| sget := mem; sset := with_mem |}; by intros; destruct s. Defined.

Definition with_run_status r y := {| run_status := r; guv_StopError := guv_StopError y;
  guv_NonStopError := guv_NonStopError y; err_record := err_record y;
  gcp_BackupUserPc := gcp_BackupUserPc y; user_intr_enable := user_intr_enable y |}.
Definition with_StopError v y := {| run_status := run_status y; guv_StopError := v;
  guv_NonStopError := guv_NonStopError y; err_record := err_record y;
  gcp_BackupUserPc := gcp_BackupUserPc y; user_intr_enable := user_intr_enable y |}.
Definition with_NonStopError v y := {| run_status := run_status y; guv_StopError := guv_StopError y;
  guv_NonStopError := v; err_record := err_record y;
  gcp_BackupUserPc := gcp_BackupUserPc y; user_intr_enable := user_intr_enable y |}.
Definition with_err_record v y := {| run_status := run_status y; guv_StopError := guv_StopError y;
  guv_NonStopError := guv_NonStopError y; err_record := v;
  gcp_BackupUserPc := gcp_BackupUserPc y; user_intr_enable := user_intr_enable y |}.
Definition with_BackupUserPc v y := {| run_status := run_status y; guv_StopError := guv_StopError y;
  guv_NonStopError := guv_NonStopError y; err_record := err_record y;
  gcp_BackupUserPc := v; user_intr_enable := user_intr_enable y |}.
Definition with_intr_enable v y := {| run_status := run_status y; guv_StopError := guv_StopError y;
  guv_NonStopError := guv_NonStopError y; err_record := err_record y;
  gcp_BackupUserPc := gcp_BackupUserPc y; user_intr_enable := v |}.
Definition with_RunSwitch v r := {| mcv_PlcRunSwitch := v; mtv_PlcRunStopFlag := mtv_PlcRunStopFlag r;
  mcv_PlcCurrentStatus := mcv_PlcCurrentStatus r; mcv_IsOnlineProgram := mcv_IsOnlineProgram r;
  mlv_SysScanTime := mlv_SysScanTime r; mlv_WatchDogTime := mlv_WatchDogTime r |}.
Definition with_RunStopFlag v r := {| mcv_PlcRunSwitch := mcv_PlcRunSwitch r; mtv_PlcRunStopFlag := v;
  mcv_PlcCurrentStatus := mcv_PlcCurrentStatus r; mcv_IsOnlineProgram := mcv_IsOnlineProgram r;
  mlv_SysScanTime := mlv_SysScanTime r; mlv_WatchDogTime := mlv_WatchDogTime r |}.
Definition with_CurrentStatus v r := {| mcv_PlcRunSwitch := mcv_PlcRunSwitch r;
  mtv_PlcRunStopFlag := mtv_PlcRunStopFlag r; mcv_PlcCurrentStatus := v;
  mcv_IsOnlineProgram := mcv_IsOnlineProgram r; mlv_SysScanTime := mlv_SysScanTime r;
  mlv_WatchDogTime := mlv_WatchDogTime r |}.

Definition with_call_info c f := {| call_info := c; for_next := for_next f; sfc_status := sfc_status f;
  sbr_list := sbr_list f; stl_list := stl_list f; mc_mcr := mc_mcr f;
  mc_NestedLevel := mc_NestedLevel f; ssv_MinAlarmSElement := ssv_MinAlarmSElement f |}.
Definition with_for_next l f := {| call_info := call_info f; for_next := l; sfc_status := sfc_status f;
  sbr_list := sbr_list f; stl_list := stl_list f; mc_mcr := mc_mcr f;
  mc_NestedLevel := mc_NestedLevel f; ssv_MinAlarmSElement := ssv_MinAlarmSElement f |}.
Definition with_sfc_status v f := {| call_info := call_info f; for_next := for_next f; sfc_status := v;
  sbr_list := sbr_list f; stl_list := stl_list f; mc_mcr := mc_mcr f;
  mc_NestedLevel := mc_NestedLevel f; ssv_MinAlarmSElement := ssv_MinAlarmSElement f |}.
Definition with_MinAlarm v f := {| call_info := call_info f; for_next := for_next f;
  sfc_status := sfc_status f; sbr_list := sbr_list f; stl_list := stl_list f; mc_mcr := mc_mcr f;
  mc_NestedLevel := mc_NestedLevel f; ssv_MinAlarmSElement := v |}.
Definition with_SbrNestedNum v c := {| msv_SbrNestedNum := v; msv_UseNum := msv_UseNum c;
  mlv_UCodeAddr := mlv_UCodeAddr c; mcv_IsExec := mcv_IsExec c; mcp_RetPc := mcp_RetPc c;
  mcp_SbrPc := mcp_SbrPc c |}.

(** The effect of one C function of the runtime. *)
Notation Mc := (M plc_st).

(** ** Reading the user program *)
Definition GET_PU8_DATA (a : Z) : Mc Z := fun s =>
  match zlookup (ucode s) a with Some b => Ok (b, s) | None => Ub end.
Definition GET_PU16_DATA (a : Z) : Mc Z :=
  b0 ← GET_PU8_DATA a; b1 ← GET_PU8_DATA (a + 1); mret (b0 + Z.shiftl b1 8).
Definition GET_PU32_DATA (a : Z) : Mc Z :=
  h0 ← GET_PU16_DATA a; h1 ← GET_PU16_DATA (a + 2); mret (h0 + Z.shiftl h1 16).

(** ** Power flow (macros of plc_variable.h) *)
Definition get_pf (pf : Z) : bool := Z.testbit pf 0.
Definition set_pf (pf : Z) : Z := Z.lor pf 1.
Definition rst_pf (pf : Z) : Z := Z.land pf 0xFFFFFFFE.
Definition push_pf (pf : Z) : Z := u32 (Z.shiftl pf 1).
Definition pop_pf (pf : Z) : Z := Z.shiftr pf 1.
Definition GET_POWER_FLOW : Mc bool := gets (fun s => get_pf (mlv_InPF (env s))).
Definition SET_POWER_FLOW : Mc unit := modify (fun s => with_InPF (set_pf (mlv_InPF (env s))) s).
Definition RST_POWER_FLOW : Mc unit := modify (fun s => with_InPF (rst_pf (mlv_InPF (env s))) s).
Definition PUSH_POWER_FLOW : Mc unit := modify (fun s => with_InPF (push_pf (mlv_InPF (env s))) s).
Definition put_power_flow (b : bool) : Mc unit := if b then SET_POWER_FLOW else RST_POWER_FLOW.
Definition get_PC : Mc Z := gets (fun s => mcp_PC (env s)).
Definition set_PC (v : Z) : Mc unit := modify (with_PC v).
Definition add_PC (n : Z) : Mc unit := modify (fun s => with_PC (mcp_PC (env s) + n) s).
Definition get_nested : Mc Z := gets (fun s => msv_SbrNestedNum (call_info (flow s))).

(** ** Edge store *)
Definition rd_edge (i : Z) : Mc plc_eu_ed_st := fun s =>
  match zlookup (gtp_EuEd s) i with Some e => Ok (e, s) | None => Ub end.
Definition wr_edge (i : Z) (e : plc_eu_ed_st) : Mc unit := fun s =>
  match zupdate (gtp_EuEd s) i e with Some l => Ok (tt, with_eued l s) | None => Ub end.
Definition edge_mask (edge_num : Z) : Z := Z.shiftl 1 (Z.land edge_num 15).
Definition GET_EDGE_INIT_FLAG (edge_num : Z) : Mc bool :=
  e ← rd_edge (Z.shiftr edge_num 4); mret (truthy (Z.land (msv_IsInit e) (edge_mask edge_num))).
Definition RST_EDGE_INIT_FLAG (edge_num : Z) : Mc unit :=
  e ← rd_edge (Z.shiftr edge_num 4);
  wr_edge (Z.shiftr edge_num 4)
    {| msv_IsInit := u16 (Z.land (msv_IsInit e) (Z.lnot (edge_mask edge_num))); msv_Value := msv_Value e |}.
Definition GET_EDGE_VALUE (edge_num : Z) : Mc bool :=
  e ← rd_edge (Z.shiftr edge_num 4); mret (truthy (Z.land (msv_Value e) (edge_mask edge_num))).
Definition SET_EDGE_VALUE (edge_num : Z) : Mc unit :=
  e ← rd_edge (Z.shiftr edge_num 4);
  wr_edge (Z.shiftr edge_num 4)
    {| msv_IsInit := msv_IsInit e; msv_Value := u16 (Z.lor (msv_Value e) (edge_mask edge_num)) |}.
Definition RST_EDGE_VALUE (edge_num : Z) : Mc unit :=
  e ← rd_edge (Z.shiftr edge_num 4);
  wr_edge (Z.shiftr edge_num 4)
    {| msv_IsInit := msv_IsInit e; msv_Value := u16 (Z.land (msv_Value e) (Z.lnot (edge_mask edge_num))) |}.

(** plc_sysinit.c: the table is allocated with [sizeof(unsigned short)] bytes
    per entry, half the size of an entry, and cleared entry by entry. *)
Definition msv_EuEdNumber := 8192.
Definition eu_ed_alloc_bytes : Z := 2 * (msv_EuEdNumber / 16).
Definition sizeof_plc_eu_ed_st : Z := 4.
Definition plc_eu_ed_init : Mc unit :=
  for_up (Z.to_nat (msv_EuEdNumber / 16)) 0
    (fun i => wr_edge i {| msv_IsInit := 0xFFFF; msv_Value := 0 |}).

(** ** plc_commonfunc.c *)
(** [plc_get_file_length]: [addr] is the address of the field, whose
    alignment chooses between byte and word access; the target is
    little-endian. *)
Section file_length.
Context (addr : Z).
Definition plc_get_file_length (pData flag : Z) : Mc Z :=
  match flag with
  | 1 => GET_PU8_DATA pData
  | 2 => if truthy (Z.land addr 1)
         then b0 ← GET_PU8_DATA pData; b1 ← GET_PU8_DATA (pData + 1);
              mret (u32 (b0 + Z.shiftl b1 8))
         else GET_PU16_DATA pData
  | 4 => if truthy (Z.land addr 3)
         then b0 ← GET_PU8_DATA pData; b1 ← GET_PU8_DATA (pData + 1);
              b2 ← GET_PU8_DATA (pData + 2); b3 ← GET_PU8_DATA (pData + 3);
              mret (u32 (b0 + Z.shiftl b1 8 + Z.shiftl b2 16 + Z.shiftl b3 24))
         else GET_PU32_DATA pData
  | _ => mret 0
  end.
End file_length.

(** Bit [k] of an error or status word. *)
Definition set_flag (k : Z) (b : bool) (w : Z) : Z :=
  if b then Z.lor w (Z.shiftl 1 k) else Z.land w (Z.lnot (Z.shiftl 1 k)).
Definition get_flag (k w : Z) : bool := Z.testbit w k.
(** Positions in [plc_status_switch_u], [plc_stop_error_flag] and
    [plc_non_stop_error_flag]; a name that both of the latter have is that of
    the non-stop flag, and the stop flag's has the prefix. *)
Definition stop_ucode_err := 4.
Definition stop_sysblock_err := 5.
Definition stop_datablock_err := 6.
Definition stop_netcfg_err := 9.
Definition pou_info_err := 2.
Definition gvt_err := 3.
Definition poweron_auto_run := 0.
Definition cmd_run := 1.
Definition input_point_run := 2.
Definition error_status_stop := 4.
Definition cmd_stop := 5.
Definition cmd_reboot := 6.
Definition exec_err := 7.
Definition operands_err := 4.
Definition extend_bus_err := 7.
Definition netconfig_err := 9.
Definition ucode_err := 10.
Definition datablock_err := 11.
Definition sysblock_err := 12.
Definition ecat_err := 13.

Definition mod_sys (f : sys_st -> sys_st) : Mc unit := modify (fun s => with_sys (f (sys s)) s).
Definition set_stop_flag (k : Z) (b : bool) : Mc unit :=
  mod_sys (fun y => with_StopError (set_flag k b (guv_StopError y)) y).
Definition set_nonstop_flag (k : Z) (b : bool) : Mc unit :=
  mod_sys (fun y => with_NonStopError (set_flag k b (guv_NonStopError y)) y).
Definition set_runstop_flag (k : Z) (b : bool) : Mc unit :=
  mod_sys (fun y => with_run_status
    (with_RunStopFlag (set_flag k b (mtv_PlcRunStopFlag (run_status y))) (run_status y)) y).

Definition z_in (x : Z) (l : list Z) : bool := existsb (Z.eqb x) l.

(** The [switch] of [plc_refresh_error_msg]. *)
Definition error_class (code : Z) : Mc unit :=
  if z_in code [ERR_COMPILER; ERR_ILLEGAL_INSTRCTION; ERR_ELEMENT_TYPE; ERR_EXEC_OVER_TIME] then
    set_stop_flag exec_err true;; set_runstop_flag error_status_stop true
  else if z_in code [ERR_OPERANDS; ERR_MDTCP_EXCEEDMAXCONN] then
    plc_set_bit_element_value SM_ELEMENT 22 1;; set_nonstop_flag operands_err true
  else if z_in code [ERR_OVER_ELEMENT_RANG] then
    plc_set_bit_element_value SM_ELEMENT 21 1;; set_nonstop_flag operands_err true
  else if z_in code [ERR_MODBUS_TBL; ERR_MODBUSTCP_TBL; ERR_NET_CONFIG] then
    set_nonstop_flag netconfig_err true;; set_stop_flag exec_err true
  else if z_in code [ERR_USER_PROGRAM] then
    set_nonstop_flag ucode_err true;; set_stop_flag exec_err true
  else if z_in code [ERR_DATA_BLOCK] then
    set_nonstop_flag datablock_err true;; set_stop_flag exec_err true
  else if z_in code [ERR_SYSTEM_BLOCK] then
    set_nonstop_flag sysblock_err true;; set_stop_flag exec_err true
  else if z_in code [ERR_EXTEND_ERR; ERR_SLAVE_ERR] then set_nonstop_flag extend_bus_err true
  else if z_in code [ERR_ECAT_SLAVE_NUM_ERR; ERR_ECAT_WKC_ERR; ERR_EXPANSION_MODULE; ERR_ECAT_NOT_OPMODE]
    then set_nonstop_flag ecat_err true
  else if z_in code [ERR_NULL_UCODE; ERR_NULL_DATA_BLOCK; ERR_NULL_POU_INFO; ERR_NULL_SYSTEM_BLOCK;
                     ERR_NULL_NET_CONFIG; ERR_NULL_GVT] then mret tt
  else set_nonstop_flag operands_err true.

Definition plc_refresh_error_msg (lcv_ErrorCode : Z) : Mc unit :=
  plc_set_bit_element_value SM_ELEMENT 20 1;;
  error_class lcv_ErrorCode;;
  cur ← rd SD_ELEMENT 20;
  when (negb (cur =? lcv_ErrorCode)) (
    for_up 4 0 (fun k => v ← rd SD_ELEMENT (24 - k - 1); wr SD_ELEMENT (24 - k) v);;
    wr SD_ELEMENT 20 lcv_ErrorCode).

(** The loop that looks for a record with the same address: [Some i] is the
    value of [i] at its exit. *)
Definition MAX_EXEC_ERROR_RECORD_CNT := 5.
Fixpoint record_search (addrs : list Z) (left : nat) (i off : Z) : option Z :=
  match left with
  | O => Some i
  | S left' => a ← zlookup addrs i; if a =? off then Some i else record_search addrs left' (i + 1) off
  end.
(** The oldest record is dropped: entries 1..4 move down. *)
Fixpoint shift_down (n : nat) (i : Z) (l : list Z) : option (list Z) :=
  match n with
  | O => Some l
  | S n' => v ← zlookup l (i + 1); l' ← zupdate l i v; shift_down n' (i + 1) l'
  end.
Definition record_error (code off : Z) (r : plc_exec_error_record_st) : option plc_exec_error_record_st :=
  i ← record_search (msv_ErrorAddr r) (Z.to_nat (mcv_ErrorCnt r)) 0 off;
  if mcv_ErrorCnt r <=? i then
    if MAX_EXEC_ERROR_RECORD_CNT <=? mcv_ErrorCnt r then
      msg ← shift_down 4 0 (msv_ErrorMsg r);
      addr ← shift_down 4 0 (msv_ErrorAddr r);
      msg ← zupdate msg (MAX_EXEC_ERROR_RECORD_CNT - 1) code;
      addr ← zupdate addr (MAX_EXEC_ERROR_RECORD_CNT - 1) off;
      Some {| mcv_ErrorCnt := mcv_ErrorCnt r; msv_ErrorMsg := msg; msv_ErrorAddr := addr |}
    else
      msg ← zupdate (msv_ErrorMsg r) (mcv_ErrorCnt r) code;
      addr ← zupdate (msv_ErrorAddr r) (mcv_ErrorCnt r) off;
      Some {| mcv_ErrorCnt := u8 (mcv_ErrorCnt r + 1); msv_ErrorMsg := msg; msv_ErrorAddr := addr |}
  else Some r.
Definition plc_refresh_exec_error_record (lcv_ErrorCode lcp_Ucode : Z) : Mc unit :=
  r ← gets (fun s => err_record (sys s));
  r' ← of_option (record_error lcv_ErrorCode (u32 lcp_Ucode) r);
  mod_sys (with_err_record r').

(** Double buffer of a serial port: the two halves are used in turn. *)
Definition RING_BUFFER_NODE_NUM := 2.
Record ring_buffer_st := { mcp_Buff : list Z; mcv_Index : Z }.
Definition ring_buffer_get_write_mem (b : ring_buffer_st) : option Z :=
  zlookup (mcp_Buff b) (mcv_Index b).
Definition ring_buffer_switch_write_mem (b : ring_buffer_st) : ring_buffer_st :=
  {| mcp_Buff := mcp_Buff b;
     mcv_Index := if mcv_Index b + 1 <? RING_BUFFER_NODE_NUM then mcv_Index b + 1 else 0 |}.
(** gRing1 .. gRing6 are six static buffers, numbered here 1..6. *)
Definition ring_buffer_init (b : ring_buffer_st) (uartPort : Z) : ring_buffer_st :=
  {| mcp_Buff := match uartPort with 0 => [1; 2] | 1 => [3; 4] | 2 => [5; 6] | _ => mcp_Buff b end;
     mcv_Index := 0 |}.

(** The state after the tables have been allocated and the static data
    zeroed, with [prog] as the user program. *)
Definition for_next0 : plc_for_next_ins_st :=
  {| msa_LoopCnt := replicate 8 0; msp_StartUcodeAddr := replicate 8 0;
     msp_EndUcodeAddr := replicate 8 0; msv_NestedNum := 0 |}.
Definition flow0 : flow_st :=
  {| call_info := {| msv_SbrNestedNum := 0; msv_UseNum := 0;
       mlv_UCodeAddr := replicate 256 0; mcv_IsExec := replicate 256 0;
       mcp_RetPc := replicate 8 0; mcp_SbrPc := replicate 64 0 |};
     for_next := replicate 8 for_next0;
     sfc_status := {| mcv_sfcEnable := 0; mcv_SeriesSTLCnt := 0; msv_StlNum := replicate 16 0 |};
     sbr_list := replicate 64 {| mtv_SimpInsHead := []; mtv_CompInsHead := [] |};
     stl_list := []; mc_mcr := []; mc_NestedLevel := 0; ssv_MinAlarmSElement := 999 |}.
Definition sys0 : sys_st :=
  {| run_status := {| mcv_PlcRunSwitch := 0; mtv_PlcRunStopFlag := 0; mcv_PlcCurrentStatus := 0;
       mcv_IsOnlineProgram := 0; mlv_SysScanTime := 0; mlv_WatchDogTime := 0 |};
     guv_StopError := 0; guv_NonStopError := 0;
     err_record := {| mcv_ErrorCnt := 0; msv_ErrorMsg := replicate 5 0; msv_ErrorAddr := replicate 5 0 |};
     gcp_BackupUserPc := 0; user_intr_enable := 0 |}.
(** As plc_hour_ins_data_init and plc_duty_ins_init leave them. *)
Definition instances0 : ins_st :=
  {| gtp_HourInsSt := replicate 256 {| mcv_LastPFStatus := 0; mlv_LastTime := 0 |};
     gtp_DutyInsInfo := {| mcv_IsEnable := replicate 5 0; msv_OnTime := replicate 5 0; msv_OffTime := replicate 5 0 |} |}.
Definition st0 (prog : list Z) : plc_st :=
  {| mem := elem0; gtp_EuEd := replicate 256 {| msv_IsInit := 0xFFFF; msv_Value := 0 |};
     ucode := prog; env := {| mlv_InPF := 0; mlv_OutPF := 0; mcp_PC := 0 |};
     flow := flow0; sys := sys0; instances := instances0; tick := 0; heap := fun _ _ => 0 |}.

(** ** Effects of the accessors *)
Section effects.
Context (R : relation plc_st) `{!PreOrder R}.
#[global] Instance PU8_respects a : Respects R (GET_PU8_DATA a).
Proof. intros s x s'. unfold GET_PU8_DATA. case_match; intros [= <- <-]. reflexivity. Qed.
#[global] Instance PU16_respects a : Respects R (GET_PU16_DATA a).
Proof. unfold GET_PU16_DATA. apply _. Qed.
#[global] Instance PU32_respects a : Respects R (GET_PU32_DATA a).
Proof. unfold GET_PU32_DATA. apply _. Qed.
#[global] Instance rd_edge_respects i : Respects R (rd_edge i).
Proof. intros s x s'. unfold rd_edge. case_match; intros [= <- <-]. reflexivity. Qed.
#[global] Instance edge_init_respects n : Respects R (GET_EDGE_INIT_FLAG n).
Proof. unfold GET_EDGE_INIT_FLAG. apply _. Qed.
#[global] Instance edge_value_respects n : Respects R (GET_EDGE_VALUE n).
Proof. unfold GET_EDGE_VALUE. apply _. Qed.
#[global] Instance get_pf_respects : Respects R GET_POWER_FLOW.
Proof. unfold GET_POWER_FLOW. apply _. Qed.
#[global] Instance get_PC_respects : Respects R get_PC.
Proof. unfold get_PC. apply _. Qed.
#[global] Instance get_nested_respects : Respects R get_nested.
Proof. unfold get_nested. apply _. Qed.
#[global] Instance get_bit_respects r n : Respects R (plc_get_bit_element_value r n).
Proof. unfold plc_get_bit_element_value. apply _. Qed.
#[global] Instance get_lm_respects l n : Respects R (plc_get_lm_element_value l n).
Proof. unfold plc_get_lm_element_value. apply _. Qed.
End effects.

#[global] Instance PU8_halts a : Halts (GET_PU8_DATA a).
Proof. intros s. unfold GET_PU8_DATA. by case_match. Qed.
#[global] Instance PU16_halts a : Halts (GET_PU16_DATA a).
Proof. unfold GET_PU16_DATA. apply _. Qed.
#[global] Instance PU32_halts a : Halts (GET_PU32_DATA a).
Proof. unfold GET_PU32_DATA. apply _. Qed.
#[global] Instance rd_edge_halts i : Halts (rd_edge i).
Proof. intros s. unfold rd_edge. by case_match. Qed.
#[global] Instance wr_edge_halts i e : Halts (wr_edge i e).
Proof. intros s. unfold wr_edge. by case_match. Qed.

(** [inert s s']: nothing but the element memory, the edge store, the power
    flow registers and the program counter changed. *)
Definition inert : relation plc_st := fun s s' =>
  ucode s' = ucode s /\ flow s' = flow s /\ sys s' = sys s /\ tick s' = tick s /\ instances s' = instances s.
#[global] Instance inert_preorder : PreOrder inert.
Proof. split; unfold inert, Reflexive, Transitive; [done|]. intros x y z (->&->&->&->&->). done. Qed.
#[global] Instance wr_inert r i v : Respects inert (wr r i v).
Proof. intros s a s'. unfold wr. case_match; by intros [= <- <-]. Qed.
#[global] Instance wr_c_status_inert i f : Respects inert (wr_c_status i f).
Proof. intros s a s'. unfold wr_c_status. repeat case_match; by intros [= <- <-]. Qed.
#[global] Instance wr_t_status_inert i f : Respects inert (wr_t_status i f).
Proof. intros s a s'. unfold wr_t_status. repeat case_match; by intros [= <- <-]. Qed.
#[global] Instance wr_edge_inert i e : Respects inert (wr_edge i e).
Proof. intros s a s'. unfold wr_edge. case_match; by intros [= <- <-]. Qed.
#[global] Instance wr_edge_wf i e : Respects wf_mem (wr_edge i e).
Proof. intros s a s'. unfold wr_edge. case_match; intros [= <- <-]. by intros W. Qed.

(** Updates outside the element memory keep its shape, and those of the
    registers are inert. *)
Ltac field_update := first [ by intros W | by unfold inert ].
#[global] Hint Extern 1 (wf_mem _ _) => (solve [field_update]) : typeclass_instances.
#[global] Hint Extern 1 (inert _ _) => (solve [field_update]) : typeclass_instances.
#[global] Hint Extern 1 (keeps _ _ _) => (solve [by intros W]) : typeclass_instances.
#[global] Hint Extern 2 (Respects ?R (modify _)) =>
  (apply respects_modify; intros ?; solve [field_update]) : typeclass_instances.

(** The rest of the handlers only compose these; unfolding them is all their
    preservation proofs need. *)
#[export] Hint Unfold SET_POWER_FLOW RST_POWER_FLOW PUSH_POWER_FLOW put_power_flow set_PC add_PC
  RST_EDGE_INIT_FLAG SET_EDGE_VALUE RST_EDGE_VALUE plc_set_bit_element_value plc_set_lm_element_value
  mod_sys set_stop_flag set_nonstop_flag set_runstop_flag error_class plc_refresh_error_msg
  plc_refresh_exec_error_record plc_clean_layer_lm_element clear_region : eff.
Ltac eff_solve := intros; repeat autounfold with eff; repeat (apply _ || (intros ?; apply _)).

#[global] Instance refresh_record_halts c a : Halts (plc_refresh_exec_error_record c a).
Proof. eff_solve. Qed.
#[global] Instance refresh_msg_halts c : Halts (plc_refresh_error_msg c).
Proof. unfold plc_refresh_error_msg, error_class. eff_solve. Qed.
#[global] Instance set_bit_wf r n v : Respects wf_mem (plc_set_bit_element_value (S := plc_st) r n v).
Proof. eff_solve. Qed.
#[global] Instance set_lm_wf l n v : Respects wf_mem (plc_set_lm_element_value (S := plc_st) l n v).
Proof. eff_solve. Qed.
#[global] Instance set_bit_inert r n v : Respects inert (plc_set_bit_element_value r n v).
Proof. eff_solve. Qed.
#[global] Instance set_lm_inert l n v : Respects inert (plc_set_lm_element_value l n v).
Proof. eff_solve. Qed.
#[global] Instance refresh_error_msg_wf c : Respects wf_mem (plc_refresh_error_msg c).
Proof. eff_solve. Qed.
#[global] Instance refresh_record_wf c a : Respects wf_mem (plc_refresh_exec_error_record c a).
Proof. eff_solve. Qed.

(** ** The error record *)
Record record_ok (r : plc_exec_error_record_st) : Prop := {
  ro_cnt : 0 <= mcv_ErrorCnt r <= MAX_EXEC_ERROR_RECORD_CNT;
  ro_msg : length (msv_ErrorMsg r) = 5%nat;
  ro_addr : length (msv_ErrorAddr r) = 5%nat;
  ro_distinct : NoDup (take (Z.to_nat (mcv_ErrorCnt r)) (msv_ErrorAddr r)) }.
(** The addresses on record, oldest first. *)
Definition recorded (r : plc_exec_error_record_st) : list Z :=
  take (Z.to_nat (mcv_ErrorCnt r)) (msv_ErrorAddr r).
(** Lists of five, spelled out: the record has a fixed size. *)
Lemma length5 {A} (l : list A) : length l = 5%nat -> exists a b c d e, l = [a; b; c; d; e].
Proof.
  destruct l as [|a [|b [|c [|d [|e [|f l]]]]]]; try discriminate. intros _. by eexists _, _, _, _, _.
Qed.
Lemma cnt_cases c : 0 <= c <= 5 -> c = 0 \/ c = 1 \/ c = 2 \/ c = 3 \/ c = 4 \/ c = 5.
Proof. lia. Qed.
Lemma record_search_spec addrs n off : (n <= length addrs)%nat ->
  exists i, record_search addrs n 0 off = Some i /\
    (if decide (off ∈ take n addrs) then i < Z.of_nat n else i = Z.of_nat n).
Proof.
  intros Hn.
  enough (H : forall m k, (k + m)%nat = n -> exists i, record_search addrs m (Z.of_nat k) off = Some i /\
    Z.of_nat k <= i /\
    (if decide (off ∈ take m (drop k addrs)) then i < Z.of_nat n else i = Z.of_nat n)).
  { destruct (H n 0%nat eq_refl) as (i & H1 & _ & H2). exists i. by rewrite drop_0 in H2. }
  induction m as [|m IH]; intros k Hk; cbn [record_search].
  - exists (Z.of_nat k). split_and!; [done|lia|]. rewrite take_0, decide_False; [lia|apply not_elem_of_nil].
  - assert (is_Some (addrs !! k)) as [a Ha] by (apply lookup_lt_is_Some; lia).
    assert (Hz : zlookup addrs (Z.of_nat k) = Some a).
    { apply zlookup_Some. rewrite Nat2Z.id. split; [lia|done]. }
    rewrite Hz. simpl. rewrite (drop_S _ _ _ Ha). cbn [take].
    destruct (Z.eqb_spec a off) as [->|Hne].
    + exists (Z.of_nat k). split_and!; [done|lia|]. rewrite decide_True by set_solver. lia.
    + replace (Z.of_nat k + 1) with (Z.of_nat (Datatypes.S k)) by lia.
      destruct (IH (Datatypes.S k) ltac:(lia)) as (i & H1 & H2 & H3). exists i.
      split_and!; [done|lia|]. repeat case_decide; set_solver.
Qed.

Lemma record_error_run code off r : record_ok r ->
  exists r', record_error code off r = Some r' /\ record_ok r' /\
    recorded r' =
      if decide (off ∈ recorded r) then recorded r
      else if decide (mcv_ErrorCnt r = MAX_EXEC_ERROR_RECORD_CNT) then tl (recorded r) ++ [off]
      else recorded r ++ [off].
Proof.
  intros [Hc Hm Ha Hd]. unfold recorded, record_error, MAX_EXEC_ERROR_RECORD_CNT in *.
  destruct (record_search_spec (msv_ErrorAddr r) (Z.to_nat (mcv_ErrorCnt r)) off) as (i & -> & Hi); [lia|].
  cbn [mbind option_bind]. destruct (decide (off ∈ _)) as [Hin|Hout].
  - exists r. assert (mcv_ErrorCnt r <=? i = false) as -> by lia. by split_and!.
  - assert (mcv_ErrorCnt r <=? i = true) as -> by lia.
    destruct r as [cnt msg addr]. cbn [mcv_ErrorCnt msv_ErrorMsg msv_ErrorAddr] in *.
    apply length5 in Hm as (m1 & m2 & m3 & m4 & m5 & ->).
    apply length5 in Ha as (a1 & a2 & a3 & a4 & a5 & ->).
    destruct (cnt_cases cnt Hc) as [-> | [-> | [-> | [-> | [-> | ->]]]]]; simpl; eexists;
      (split_and!; [reflexivity|split; simpl; try done|reflexivity]);
      repeat (apply NoDup_cons; split); try apply NoDup_nil_2; simpl in *;
      rewrite ?NoDup_cons, ?not_elem_of_cons in Hd; set_solver.
Qed.

(** The run-time error record keeps the addresses of the last five
    distinct failing instructions: a known address changes nothing, a new one
    is appended, and when five are on record the oldest one leaves. *)
Theorem exec_error_record_queue code off s :
  record_ok (err_record (sys s)) -> 0 <= off < 2 ^ 32 ->
  exists s', plc_refresh_exec_error_record code off s = Ok (tt, s') /\
    record_ok (err_record (sys s')) /\ mem s' = mem s /\
    let q := recorded (err_record (sys s)) in
    recorded (err_record (sys s')) =
      if decide (off ∈ q) then q
      else if decide (mcv_ErrorCnt (err_record (sys s)) = MAX_EXEC_ERROR_RECORD_CNT) then tl q ++ [off]
      else q ++ [off].
Proof.
  intros Hr Hoff. destruct (record_error_run code off _ Hr) as (r' & Hrun & Hok & Hq).
  exists (with_sys (with_err_record r' (sys s)) s).
  unfold plc_refresh_exec_error_record, gets, mbind, M_bind. rewrite u32_id, Hrun by done. done.
Qed.
Lemma exec_error_record_queue_witness :
  exists s', plc_refresh_exec_error_record ERR_OPERANDS 28 (st0 []) = Ok (tt, s') /\
    recorded (err_record (sys s')) = [28].
Proof.
  destruct (exec_error_record_queue ERR_OPERANDS 28 (st0 [])) as (s' & H & _ & _ & Hq).
  { split; [zconc|done..|constructor]. } { zconc. }
  exists s'. by split.
Defined.

(** *** The error words *)
Lemma z_in_spec x l : z_in x l = true <-> x ∈ l.
Proof. unfold z_in. rewrite existsb_exists. setoid_rewrite Z.eqb_eq. rewrite list_elem_of_In. naive_solver. Qed.

Lemma get_set_flag k j b w : 0 <= k -> 0 <= j ->
  get_flag k (set_flag j b w) = if k =? j then b else get_flag k w.
Proof.
  intros Hk Hj. unfold get_flag, set_flag.
  destruct b; rewrite ?Z.lor_spec, ?Z.land_spec, ?Z.lnot_spec, Z.shiftl_spec, testbit_one by lia;
    replace (k - j =? 0) with (k =? j) by lia; destruct (k =? j);
    by rewrite ?orb_true_r, ?orb_false_r, ?andb_true_r, ?andb_false_r.
Qed.
Lemma error_class_run code s : wf_elem (elem s) ->
  exists s', error_class code s = Ok (tt, s') /\ wf_elem (elem s') /\
    (forall i, cell SD_ELEMENT i s' = cell SD_ELEMENT i s) /\
    get_flag error_status_stop (mtv_PlcRunStopFlag (run_status (sys s'))) =
      z_in code [ERR_COMPILER; ERR_ILLEGAL_INSTRCTION; ERR_ELEMENT_TYPE; ERR_EXEC_OVER_TIME]
      || get_flag error_status_stop (mtv_PlcRunStopFlag (run_status (sys s))).
Proof.
  intros W. unfold error_class.
  destruct (z_in code [ERR_COMPILER; ERR_ILLEGAL_INSTRCTION; ERR_ELEMENT_TYPE; ERR_EXEC_OVER_TIME]).
  { eexists. split; [reflexivity|]. split_and!; [done|done|].
    apply (get_set_flag error_status_stop error_status_stop true); done. }
  assert (HSM : forall n k, 0 <= n < 1024 ->
    exists s', (plc_set_bit_element_value SM_ELEMENT n 1;; set_nonstop_flag k true) s = Ok (tt, s') /\
      wf_elem (elem s') /\ (forall i, cell SD_ELEMENT i s' = cell SD_ELEMENT i s) /\
      run_status (sys s') = run_status (sys s)).
  { intros n k Hn.
    destruct (set_bit_run (S := plc_st) SM_ELEMENT n 1 s) as (s1 & H1 & [_ [e ->]] & W1); [done|done|lia| |lia|].
    { change (16 * rsize SM_ELEMENT) with 1024. lia. }
    assert (F : same_region SD_ELEMENT s (sset e s)).
    { refine (respects (R := same_region SD_ELEMENT) _ _ _ H1). }
    unfold mbind, M_bind at 1. rewrite H1. eexists. split; [reflexivity|]. split_and!; [done| |done].
    intros i. unfold cell. unfold same_region, same in F. simpl in *. by rewrite F. }
  rewrite orb_false_l. repeat case_match;
    lazymatch goal with
    | |- context [plc_set_bit_element_value SM_ELEMENT ?n 1] =>
        destruct (HSM n operands_err) as (s1 & H1 & W1 & C1 & F1); [lia|];
        exists s1; by rewrite F1
    | _ => by eexists
    end.
Qed.

(** The five error registers SD20..SD24, newest first. *)
Definition sd_history (s : plc_st) : list Z :=
  [cell SD_ELEMENT 20 s; cell SD_ELEMENT 21 s; cell SD_ELEMENT 22 s; cell SD_ELEMENT 23 s;
   cell SD_ELEMENT 24 s].

Lemma shift_registers s : wf_elem (elem s) ->
  exists s', for_up 4 0 (fun k => v ← rd SD_ELEMENT (24 - k - 1); wr SD_ELEMENT (24 - k) v) s = Ok (tt, s') /\
    wf_elem (elem s') /\ sys s' = sys s /\
    sd_history s' = cell SD_ELEMENT 20 s :: take 4 (sd_history s).
Proof.
  intros W. eexists. split_and!.
  - cbn [for_up]. unfold mbind, M_bind. simpl Z.sub.
    repeat (first [rewrite rd_cell | rewrite wr_upd]; [|by repeat (apply upd_wf; [|done])|done]). reflexivity.
  - by repeat (apply upd_wf; [|done]).
  - done.
  - unfold sd_history.
    repeat (rewrite cell_upd; [|by repeat (apply upd_wf; [|done])|done]).
    simpl. by rewrite !u16_id by (by apply cell_u16).
Qed.

Lemma refresh_error_msg_run code s : wf_elem (elem s) -> 0 <= code < 2 ^ 8 ->
  exists s', plc_refresh_error_msg code s = Ok (tt, s') /\ wf_elem (elem s') /\
    get_flag error_status_stop (mtv_PlcRunStopFlag (run_status (sys s'))) =
      (z_in code [ERR_COMPILER; ERR_ILLEGAL_INSTRCTION; ERR_ELEMENT_TYPE; ERR_EXEC_OVER_TIME]
       || get_flag error_status_stop (mtv_PlcRunStopFlag (run_status (sys s)))) /\
    sd_history s' =
      if decide (cell SD_ELEMENT 20 s = code) then sd_history s else code :: take 4 (sd_history s).
Proof.
  intros W Hc. unfold plc_refresh_error_msg.
  destruct (set_bit_run (S := plc_st) SM_ELEMENT 20 1 s) as (s1 & H1 & [_ [e ->]] & W1); [done..|].
  assert (F : forall i, cell SD_ELEMENT i (sset e s) = cell SD_ELEMENT i s).
  { assert (G : same_region SD_ELEMENT s (sset e s))
      by refine (respects (R := same_region SD_ELEMENT) _ _ _ H1).
    intros i. unfold cell. unfold same_region, same in G. by rewrite G. }
  destruct (error_class_run code (sset e s) W1) as (s2 & H2 & W2 & C2 & F2).
  destruct (shift_registers s2 W2) as (s3 & H3 & W3 & F3 & S3).
  assert (Hh : sd_history s2 = sd_history s) by (unfold sd_history; by rewrite !C2, !F).
  unfold mbind, M_bind in *. rewrite H1, H2, rd_cell by done.
  rewrite C2, F. destruct (Z.eqb_spec (cell SD_ELEMENT 20 s) code) as [E|E].
  - rewrite decide_True by done. by exists s2.
  - rewrite decide_False by done. change (negb false) with true. rewrite when_true, H3, wr_upd by done.
    eexists; split_and!; [reflexivity|by apply upd_wf|by etransitivity; [|exact F2]; rewrite <- F3|].
    unfold sd_history in *. rewrite !cell_upd by done. rewrite <- Hh.
    injection S3 as -> -> -> -> ->. simpl. by rewrite u16_id by lia.
Qed.

(** Registering an error is always defined. SM20 is raised, the fatal
    codes (compile error, illegal instruction, bad element type, watchdog)
    and only they request a stop, and SD20..SD24 hold the last error codes,
    newest first, a repetition of the newest code being recorded once. *)
Theorem refresh_error_msg_spec code s : wf_elem (elem s) -> 0 <= code < 2 ^ 8 ->
  exists s', plc_refresh_error_msg code s = Ok (tt, s') /\ wf_elem (elem s') /\
    get_flag error_status_stop (mtv_PlcRunStopFlag (run_status (sys s'))) =
      (z_in code [ERR_COMPILER; ERR_ILLEGAL_INSTRCTION; ERR_ELEMENT_TYPE; ERR_EXEC_OVER_TIME]
       || get_flag error_status_stop (mtv_PlcRunStopFlag (run_status (sys s)))) /\
    sd_history s' =
      if decide (cell SD_ELEMENT 20 s = code) then sd_history s else code :: take 4 (sd_history s).
Proof. exact (refresh_error_msg_run code s). Qed.
Lemma refresh_error_msg_spec_witness :
  exists s', plc_refresh_error_msg ERR_ELEMENT_TYPE (st0 []) = Ok (tt, s') /\
    sd_history s' = [63; 0; 0; 0; 0].
Proof.
  destruct (refresh_error_msg_spec ERR_ELEMENT_TYPE (st0 []) wf_elem0) as (s' & H & _ & _ & Hq);
    [zconc|]. exists s'. by split.
Defined.

(** The length field of a program file is read as the same little-endian
    number whether or not it is aligned. *)
Theorem file_length_alignment s addr p flag :
  Forall (fun b => 0 <= b < 2 ^ 8) (ucode s) ->
  plc_get_file_length addr p flag s = plc_get_file_length 0 p flag s.
Proof.
  intros Hb. assert (Hl : forall i v, zlookup (ucode s) i = Some v -> 0 <= v < 2 ^ 8).
  { intros i v E. apply zlookup_Some in E as [_ E]. exact (Forall_lookup_1 _ _ _ _ Hb E). }
  unfold plc_get_file_length. repeat case_match; try done.
  all: unfold GET_PU32_DATA, GET_PU16_DATA, GET_PU8_DATA, mbind, M_bind, mret, M_ret.
  all: replace (p + 2 + 1) with (p + 3) by lia; repeat case_match; try done; simplify_eq.
  all: repeat match goal with H : zlookup _ _ = Some _ |- _ => apply Hl in H end.
  all: do 2 f_equal; unfold u32; rewrite ?Z.shiftl_mul_pow2, ?Z.mod_small by lia; try lia.
Qed.
Lemma file_length_alignment_witness :
  plc_get_file_length 3 0 4 (st0 [1; 2; 0; 0]) = plc_get_file_length 0 0 4 (st0 [1; 2; 0; 0]).
Proof. apply (file_length_alignment (st0 [1; 2; 0; 0])). repeat constructor; zconc. Defined.

(** Initialising the edge table runs past its allocation: with the table
    of [eu_ed_alloc_bytes / sizeof] entries that plc_sysinit allocates, the
    loop stores outside it. *)
Theorem plc_eu_ed_init_overflow s :
  Z.of_nat (length (gtp_EuEd s)) = eu_ed_alloc_bytes / sizeof_plc_eu_ed_st ->
  plc_eu_ed_init s = Ub.
Proof.
  intros Hl. change (eu_ed_alloc_bytes / sizeof_plc_eu_ed_st) with 256 in Hl.
  assert (H : forall rest n i s, Z.of_nat (length (gtp_EuEd s)) = 256 -> 0 <= i -> Z.of_nat n + i = 256 ->
    for_up (n + Datatypes.S rest) i (fun i => wr_edge i {| msv_IsInit := 0xFFFF; msv_Value := 0 |}) s = Ub).
  { clear s Hl. intros rest. induction n as [|n IH]; intros i s Hl Hi Hn; cbn [for_up Nat.add];
      unfold mbind, M_bind, wr_edge; unfold zupdate.
    - rewrite decide_False by lia. done.
    - rewrite decide_True by lia. apply IH; [|lia..]. simpl. by rewrite length_insert. }
  unfold plc_eu_ed_init. apply (H 255%nat 256%nat); lia.
Qed.
Lemma plc_eu_ed_init_overflow_witness : plc_eu_ed_init (st0 []) = Ub.
Proof. by apply plc_eu_ed_init_overflow. Defined.
