(* ===== verification/ParseAddr.v ===== *)
(** * Operand addressing

    Models plc/executer/src/plc_parseaddr.c. An operand is four bytes (six for
    a 32-bit constant) of the user program: a modifier byte, an addressing
    type, and an element number. The readers and writers below follow the
    cases of [get_char], [save_char], [get_word], [save_word], [get_dword],
    [save_dword], [get_float], [save_float] and the two address functions; the
    loops the cases repeat are written once. A reader returns the code of the
    C function and the cells it stored through its value pointer; a writer
    that shifts its source out returns what it leaves there. *)
From stdpp Require Import base list numbers sets.
From S2P Require Import Prelude Element Machine.

(** ** Addressing types (plc_parseaddr.h) *)
Inductive addr_type : Set :=
| ADDR_CONST | ADDR_X | ADDR_Y | ADDR_bC | ADDR_bT | ADDR_SM | ADDR_M | ADDR_S | ADDR_LM | ADDR_DX_Y
| ADDR_D | ADDR_Z | ADDR_SD | ADDR_C | ADDR_T | ADDR_V | ADDR_R
| ADDR_KnX | ADDR_KnY | ADDR_KnM | ADDR_KnS | ADDR_KnLM | ADDR_KnSM
| ADDR_RZ | ADDR_DZ | ADDR_CZ | ADDR_TZ | ADDR_VZ
| ADDR_XZ | ADDR_YZ | ADDR_MZ | ADDR_SZ | ADDR_LMZ | ADDR_bTZ | ADDR_bCZ
| ADDR_KnXZ | ADDR_KnYZ | ADDR_KnMZ | ADDR_KnSZ | ADDR_KnLMZ
| ADDR_STR.
#[global] Instance addr_type_eq_dec : EqDecision addr_type.
Proof. solve_decision. Defined.

Definition addr_code (t : addr_type) : Z :=
  match t with
  | ADDR_CONST => 0xFF | ADDR_X => 0x00 | ADDR_Y => 0x01 | ADDR_bC => 0x02 | ADDR_bT => 0x03
  | ADDR_SM => 0x04 | ADDR_M => 0x05 | ADDR_S => 0x06 | ADDR_LM => 0x07 | ADDR_DX_Y => 0x09
  | ADDR_D => 0x11 | ADDR_Z => 0x12 | ADDR_SD => 0x13 | ADDR_C => 0x14 | ADDR_T => 0x15
  | ADDR_V => 0x16 | ADDR_R => 0x1A
  | ADDR_KnX => 0x0C | ADDR_KnY => 0x0D | ADDR_KnM => 0x0E | ADDR_KnS => 0x0F | ADDR_KnLM => 0x10
  | ADDR_KnSM => 0x17
  | ADDR_RZ => 0x31 | ADDR_DZ => 0x32 | ADDR_CZ => 0x33 | ADDR_TZ => 0x34 | ADDR_VZ => 0x3C
  | ADDR_XZ => 0x35 | ADDR_YZ => 0x36 | ADDR_MZ => 0x37 | ADDR_SZ => 0x38 | ADDR_LMZ => 0x39
  | ADDR_bTZ => 0x3A | ADDR_bCZ => 0x3B
  | ADDR_KnXZ => 0x46 | ADDR_KnYZ => 0x50 | ADDR_KnMZ => 0x5A | ADDR_KnSZ => 0x64
  | ADDR_KnLMZ => 0x6E | ADDR_STR => 0x82
  end.
Definition addr_types : list addr_type :=
  [ADDR_CONST; ADDR_X; ADDR_Y; ADDR_bC; ADDR_bT; ADDR_SM; ADDR_M; ADDR_S; ADDR_LM; ADDR_DX_Y;
   ADDR_D; ADDR_Z; ADDR_SD; ADDR_C; ADDR_T; ADDR_V; ADDR_R;
   ADDR_KnX; ADDR_KnY; ADDR_KnM; ADDR_KnS; ADDR_KnLM; ADDR_KnSM;
   ADDR_RZ; ADDR_DZ; ADDR_CZ; ADDR_TZ; ADDR_VZ;
   ADDR_XZ; ADDR_YZ; ADDR_MZ; ADDR_SZ; ADDR_LMZ; ADDR_bTZ; ADDR_bCZ;
   ADDR_KnXZ; ADDR_KnYZ; ADDR_KnMZ; ADDR_KnSZ; ADDR_KnLMZ; ADDR_STR].
Definition addr_decode (b : Z) : option addr_type :=
  List.find (fun t => addr_code t =? b) addr_types.

(** ** The pieces of a case *)
(** The element number of a direct and of an indexed operand. *)
Definition direct_index (a off : Z) : Mc Z := v ← GET_PU16_DATA (a + 2); mret (u16 (v + off)).
Definition indexed_index (a off : Z) : Mc Z :=
  b ← GET_PU8_DATA a; z ← rd Z_ELEMENT b; v ← GET_PU16_DATA (a + 2); mret (u16 (z + v + off)).

(** [for ( ; lsv_Count>0; lsv_Count--) if (index < rang) { *value = get(index); index += step; value++; }
    else return ERR_OVER_ELEMENT_RANG;] *)
Fixpoint read_seq (get : Z -> Mc Z) (rang step idx : Z) (cnt : nat) : Mc (Z * list Z) :=
  match cnt with
  | O => mret (pdPASS, [])
  | S n =>
    if idx <? rang then
      v ← get idx;
      rl ← read_seq get rang step (u16 (idx + step)) n;
      mret (rl.1, v :: rl.2)
    else mret (ERR_OVER_ELEMENT_RANG, [])
  end.
Fixpoint write_seq (put : Z -> Z -> Mc unit) (rang step idx : Z) (vs : list Z) : Mc Z :=
  match vs with
  | [] => mret pdPASS
  | v :: vs' =>
    if idx <? rang then put idx v;; write_seq put rang step (u16 (idx + step)) vs'
    else mret ERR_OVER_ELEMENT_RANG
  end.

(** Bit strings: [4 * Kn] bits from [start + offset * 4 * Kn], the highest
    first when read, the lowest first when written. [w] is the width of the
    destination. *)
Fixpoint kn_get (get : Z -> Mc Z) (w rang base : Z) (temp : nat) (acc : Z) : Mc (Z * Z) :=
  match temp with
  | O => mret (pdPASS, acc)
  | S t =>
    let idx := u16 (Z.of_nat temp + base - 1) in
    if idx <? rang then b ← get idx; kn_get get w rang base t ((Z.shiftl acc 1 + b) mod 2 ^ w)
    else mret (ERR_OVER_ELEMENT_RANG, acc)
  end.
Fixpoint kn_read (get : Z -> Mc Z) (w rang kn start off : Z) (cnt : nat) : Mc (Z * list Z) :=
  match cnt with
  | O => mret (pdPASS, [])
  | S n =>
    rv ← kn_get get w rang (start + off * 4 * kn) (Z.to_nat (4 * kn)) 0;
    if rv.1 =? pdPASS then
      rl ← kn_read get w rang kn start (u16 (off + 1)) n;
      mret (rl.1, rv.2 :: rl.2)
    else mret (rv.1, [rv.2])
  end.
Fixpoint kn_put (put : Z -> Z -> Mc unit) (rang base : Z) (left : nat) (temp v : Z) : Mc (Z * Z) :=
  match left with
  | O => mret (pdPASS, v)
  | S t =>
    let idx := u16 (temp + base) in
    if idx <? rang then put idx (u8 (Z.land v 1));; kn_put put rang base t (temp + 1) (Z.shiftr v 1)
    else mret (ERR_OVER_ELEMENT_RANG, v)
  end.
Fixpoint kn_write (put : Z -> Z -> Mc unit) (rang kn start off : Z) (vs : list Z) : Mc (Z * list Z) :=
  match vs with
  | [] => mret (pdPASS, [])
  | v :: vs' =>
    rv ← kn_put put rang (start + off * 4 * kn) (Z.to_nat (4 * kn)) 0 v;
    if rv.1 =? pdPASS then
      rl ← kn_write put rang kn start (u16 (off + 1)) vs';
      mret (rl.1, rv.2 :: rl.2)
    else mret (rv.1, rv.2 :: vs')
  end.

(** The prologues of the bit-string cases: the length is checked against
    [lo, hi]; the indexed form takes it from the high nibble and the Z element
    from the low one. *)
Definition kn_direct {A} (lo hi a : Z) (bad : A) (k : Z -> Z -> Mc A) : Mc A :=
  kn ← GET_PU8_DATA a;
  if (kn <? lo) || (hi <? kn) then mret bad
  else start ← GET_PU16_DATA (a + 2); k kn start.
Definition kn_indexed {A} (lo hi a : Z) (bad : A) (k : Z -> Z -> Mc A) : Mc A :=
  b ← GET_PU8_DATA a;
  let kn := Z.shiftr (Z.land b 0xF0) 4 in
  if (kn <? lo) || (hi <? kn) then mret bad
  else z ← rd Z_ELEMENT (Z.land b 0x0F); v ← GET_PU16_DATA (a + 2); k kn (u16 (z + v)).

(** Local elements live in the layer of the running subroutine ([n = 0]) or in
    the one above it ([n = 1]). *)
Definition get_lm_layer (n i : Z) : Mc Z :=
  d ← get_nested; plc_get_lm_element_value (d + n) i.
Definition set_lm_layer (n i v : Z) : Mc unit :=
  d ← get_nested; plc_set_lm_element_value (d + n) i v.
Definition get_v_layer (n i : Z) : Mc Z := d ← get_nested; GET_V_ELEMENT_VALUE (d + n) i.
Definition set_v_layer (n i v : Z) : Mc unit := d ← get_nested; SET_V_ELEMENT_VALUE (d + n) i v.

(** ** Bits *)
Section get_char.
Variables (a lsv_Offset : Z) (lsv_Count : nat).
Definition bits_direct (r : region) (rang : Z) : Mc (Z * list Z) :=
  i ← direct_index a lsv_Offset; read_seq (plc_get_bit_element_value r) rang 1 i lsv_Count.
Definition bits_indexed (r : region) (rang : Z) : Mc (Z * list Z) :=
  i ← indexed_index a lsv_Offset; read_seq (plc_get_bit_element_value r) rang 1 i lsv_Count.

Definition get_char_direct (t : addr_type) : Mc (Z * list Z) :=
  match t with
  | ADDR_X => bits_direct X_ELEMENT X_RANG
  | ADDR_Y => bits_direct Y_ELEMENT Y_RANG
  | ADDR_bC => bits_direct C_ELEMENT C_RANG
  | ADDR_bT => bits_direct T_ELEMENT T_RANG
  | ADDR_SM => bits_direct SM_ELEMENT SM_RANG
  | ADDR_M => bits_direct M_ELEMENT M_RANG
  | ADDR_S => bits_direct S_ELEMENT S_RANG
  | ADDR_LM => i ← direct_index a lsv_Offset; read_seq (get_lm_layer 1) LM_RANG 1 i lsv_Count
  | _ => mret (ERR_ELEMENT_TYPE, [])
  end.
Definition get_char_indexed (t : addr_type) : Mc (Z * list Z) :=
  match t with
  | ADDR_XZ => bits_indexed X_ELEMENT X_RANG
  | ADDR_YZ => bits_indexed Y_ELEMENT Y_RANG
  | ADDR_MZ => bits_indexed M_ELEMENT M_RANG
  | ADDR_SZ => bits_indexed S_ELEMENT S_RANG
  | ADDR_LMZ => i ← indexed_index a lsv_Offset; read_seq (get_lm_layer 1) LM_RANG 1 i lsv_Count
  | ADDR_bTZ => bits_indexed T_ELEMENT T_RANG
  | ADDR_bCZ => bits_indexed C_ELEMENT C_RANG
  | _ => get_char_direct t
  end.
Definition get_char : Mc (Z * list Z) :=
  t ← GET_PU8_DATA (a + 1);
  match addr_decode t with Some k => get_char_indexed k | None => mret (ERR_ELEMENT_TYPE, []) end.
End get_char.

Section save_char.
Variables (a : Z) (lcp_Value : list Z) (lsv_Offset : Z).
Definition put_bits_direct (r : region) (rang : Z) : Mc Z :=
  i ← direct_index a lsv_Offset; write_seq (plc_set_bit_element_value r) rang 1 i lcp_Value.
Definition put_bits_indexed (r : region) (rang : Z) : Mc Z :=
  i ← indexed_index a lsv_Offset; write_seq (plc_set_bit_element_value r) rang 1 i lcp_Value.

(** The counter and timer cases test the codes of the word types. *)
Definition save_char_direct (t : addr_type) : Mc Z :=
  match t with
  | ADDR_Y => put_bits_direct Y_ELEMENT Y_RANG
  | ADDR_C => put_bits_direct C_ELEMENT C_RANG
  | ADDR_T => put_bits_direct T_ELEMENT T_RANG
  | ADDR_SM => put_bits_direct SM_ELEMENT SM_RANG
  | ADDR_M => put_bits_direct M_ELEMENT M_RANG
  | ADDR_S => put_bits_direct S_ELEMENT S_RANG
  | ADDR_LM => i ← direct_index a lsv_Offset; write_seq (set_lm_layer 1) LM_RANG 1 i lcp_Value
  | _ => mret ERR_ELEMENT_TYPE
  end.
Definition save_char_indexed (t : addr_type) : Mc Z :=
  match t with
  | ADDR_YZ => put_bits_indexed Y_ELEMENT Y_RANG
  | ADDR_MZ => put_bits_indexed M_ELEMENT M_RANG
  | ADDR_SZ => put_bits_indexed S_ELEMENT S_RANG
  | ADDR_LMZ => i ← indexed_index a lsv_Offset; write_seq (set_lm_layer 1) LM_RANG 1 i lcp_Value
  | ADDR_TZ => put_bits_indexed T_ELEMENT T_RANG
  | ADDR_CZ => put_bits_indexed C_ELEMENT C_RANG
  | _ => save_char_direct t
  end.
Definition save_char : Mc Z :=
  t ← GET_PU8_DATA (a + 1);
  match addr_decode t with Some k => save_char_indexed k | None => mret ERR_ELEMENT_TYPE end.
End save_char.

(** ** Words *)
Section get_word.
Variables (a lsv_Offset : Z) (lsv_Count : nat).
Definition words_direct (r : region) (rang : Z) : Mc (Z * list Z) :=
  i ← direct_index a lsv_Offset; read_seq (rd r) rang 1 i lsv_Count.
Definition words_indexed (r : region) (rang : Z) : Mc (Z * list Z) :=
  i ← indexed_index a lsv_Offset; read_seq (rd r) rang 1 i lsv_Count.
Definition kn_words (get : Z -> Mc Z) (rang : Z) : Mc (Z * list Z) :=
  kn_direct 1 4 a (ERR_OPERANDS, []) (fun kn start => kn_read get 16 rang kn start lsv_Offset lsv_Count).
Definition knz_words (get : Z -> Mc Z) (rang : Z) : Mc (Z * list Z) :=
  kn_indexed 1 4 a (ERR_OPERANDS, []) (fun kn start => kn_read get 16 rang kn start lsv_Offset lsv_Count).

(** A constant is delivered once, whatever the count. *)
Definition get_word_const : Mc (Z * list Z) :=
  k ← GET_PU8_DATA a;
  if 2 <=? k then mret (ERR_ELEMENT_TYPE, [])
  else v ← GET_PU16_DATA (a + 2); mret (pdPASS, [v]).
Definition get_word_kn (t : addr_type) : Mc (Z * list Z) :=
  match t with
  | ADDR_KnX => kn_words (plc_get_bit_element_value X_ELEMENT) X_RANG
  | ADDR_KnY => kn_words (plc_get_bit_element_value Y_ELEMENT) Y_RANG
  | ADDR_KnM => kn_words (plc_get_bit_element_value M_ELEMENT) M_RANG
  | ADDR_KnS => kn_words (plc_get_bit_element_value S_ELEMENT) S_RANG
  | ADDR_KnLM => kn_words (get_lm_layer 0) LM_RANG
  | ADDR_KnSM => kn_words (plc_get_bit_element_value SM_ELEMENT) SM_RANG
  | _ => mret (ERR_ELEMENT_TYPE, [])
  end.
Definition get_word_direct (t : addr_type) : Mc (Z * list Z) :=
  match t with
  | ADDR_D | ADDR_DX_Y => words_direct D_ELEMENT D_RANG
  | ADDR_R => words_direct R_ELEMENT R_RANG
  | ADDR_Z => words_direct Z_ELEMENT Z_RANG
  | ADDR_SD => words_direct SD_ELEMENT SD_RANG
  | ADDR_C => words_direct C16_VALUE C16_RANG
  | ADDR_T => words_direct T_CURRENT T_RANG
  | ADDR_V => i ← direct_index a lsv_Offset; read_seq (get_v_layer 0) V_RANG 1 i lsv_Count
  | _ => get_word_kn t
  end.
Definition get_word_indexed (t : addr_type) : Mc (Z * list Z) :=
  match t with
  | ADDR_DZ => words_indexed D_ELEMENT D_RANG
  | ADDR_RZ => words_indexed R_ELEMENT R_RANG
  | ADDR_CZ => words_indexed C16_VALUE C16_RANG
  | ADDR_TZ => words_indexed T_CURRENT T_RANG
  | ADDR_VZ => i ← indexed_index a lsv_Offset; read_seq (get_v_layer 0) V_RANG 1 i lsv_Count
  | _ => get_word_direct t
  end.
Definition get_word_knz (t : addr_type) : Mc (Z * list Z) :=
  match t with
  | ADDR_KnXZ => knz_words (plc_get_bit_element_value X_ELEMENT) X_RANG
  | ADDR_KnYZ => knz_words (plc_get_bit_element_value Y_ELEMENT) Y_RANG
  | ADDR_KnMZ => knz_words (plc_get_bit_element_value M_ELEMENT) M_RANG
  | ADDR_KnSZ => knz_words (plc_get_bit_element_value S_ELEMENT) S_RANG
  | ADDR_KnLMZ => knz_words (get_lm_layer 0) LM_RANG
  | _ => get_word_indexed t
  end.
Definition get_word : Mc (Z * list Z) :=
  t ← GET_PU8_DATA (a + 1);
  match addr_decode t with
  | Some ADDR_CONST => get_word_const
  | Some k => get_word_knz k
  | None => mret (ERR_ELEMENT_TYPE, [])
  end.
End get_word.

(** [get_word_addr]: the region and index an address denotes; [lsv_Num] cells
    must lie strictly below the end. *)
Section get_word_addr.
Variables (a lsv_Num : Z).
Definition word_addr_in (r : region) (rang i : Z) : Mc (Z * option (region * Z)) :=
  if rang <=? i + lsv_Num then mret (ERR_OVER_ELEMENT_RANG, None) else mret (pdPASS, Some (r, i)).
Definition get_word_addr : Mc (Z * option (region * Z)) :=
  t ← GET_PU8_DATA (a + 1);
  match addr_decode t with
  | Some ADDR_D => i ← direct_index a 0; word_addr_in D_ELEMENT D_RANG i
  | Some ADDR_R => i ← direct_index a 0; word_addr_in R_ELEMENT R_RANG i
  | Some ADDR_DZ => i ← indexed_index a 0; word_addr_in D_ELEMENT D_RANG i
  | Some ADDR_RZ => i ← indexed_index a 0; word_addr_in R_ELEMENT R_RANG i
  | _ => mret (ERR_ELEMENT_TYPE, None)
  end.
End get_word_addr.

Section save_word.
Variables (a : Z) (lsp_Value : list Z) (lsv_Offset : Z).
Definition unshifted (m : Mc Z) : Mc (Z * list Z) := r ← m; mret (r, lsp_Value).
Definition put_words_direct (r : region) (rang : Z) : Mc (Z * list Z) :=
  i ← direct_index a lsv_Offset; unshifted (write_seq (wr r) rang 1 i lsp_Value).
Definition put_words_indexed (r : region) (rang : Z) : Mc (Z * list Z) :=
  i ← indexed_index a lsv_Offset; unshifted (write_seq (wr r) rang 1 i lsp_Value).
Definition kn_put_words (put : Z -> Z -> Mc unit) (rang : Z) : Mc (Z * list Z) :=
  kn_direct 1 4 a (ERR_OPERANDS, lsp_Value) (fun kn start => kn_write put rang kn start lsv_Offset lsp_Value).
Definition knz_put_words (put : Z -> Z -> Mc unit) (rang : Z) : Mc (Z * list Z) :=
  kn_indexed 1 4 a (ERR_OPERANDS, lsp_Value) (fun kn start => kn_write put rang kn start lsv_Offset lsp_Value).

Definition save_word_kn (t : addr_type) : Mc (Z * list Z) :=
  match t with
  | ADDR_KnY => kn_put_words (plc_set_bit_element_value Y_ELEMENT) Y_RANG
  | ADDR_KnM => kn_put_words (plc_set_bit_element_value M_ELEMENT) M_RANG
  | ADDR_KnS => kn_put_words (plc_set_bit_element_value S_ELEMENT) S_RANG
  | ADDR_KnLM => kn_put_words (set_lm_layer 0) LM_RANG
  | _ => mret (ERR_ELEMENT_TYPE, lsp_Value)
  end.
Definition save_word_direct (t : addr_type) : Mc (Z * list Z) :=
  match t with
  | ADDR_D | ADDR_DX_Y => put_words_direct D_ELEMENT D_RANG
  | ADDR_R => put_words_direct R_ELEMENT R_RANG
  | ADDR_Z => put_words_direct Z_ELEMENT Z_RANG
  | ADDR_SD => put_words_direct SD_ELEMENT SD_RANG
  | ADDR_C => put_words_direct C16_VALUE C16_RANG
  | ADDR_T => put_words_direct T_CURRENT T_RANG
  | ADDR_V => i ← direct_index a lsv_Offset;
              unshifted (write_seq (set_v_layer 1) V_RANG 1 i lsp_Value)
  | _ => save_word_kn t
  end.
Definition save_word_indexed (t : addr_type) : Mc (Z * list Z) :=
  match t with
  | ADDR_DZ => put_words_indexed D_ELEMENT D_RANG
  | ADDR_RZ => put_words_indexed R_ELEMENT D_RANG
  | ADDR_CZ => put_words_indexed C16_VALUE C16_RANG
  | ADDR_TZ => put_words_indexed T_CURRENT T_RANG
  | ADDR_VZ => i ← indexed_index a lsv_Offset;
               unshifted (write_seq (set_v_layer 0) V_RANG 1 i lsp_Value)
  | _ => save_word_direct t
  end.
Definition save_word_knz (t : addr_type) : Mc (Z * list Z) :=
  match t with
  | ADDR_KnYZ => knz_put_words (plc_set_bit_element_value Y_ELEMENT) Y_RANG
  | ADDR_KnMZ => knz_put_words (plc_set_bit_element_value M_ELEMENT) M_RANG
  | ADDR_KnSZ => knz_put_words (plc_set_bit_element_value S_ELEMENT) S_RANG
  | ADDR_KnLMZ => knz_put_words (set_lm_layer 0) LM_RANG
  | _ => save_word_indexed t
  end.
Definition save_word : Mc (Z * list Z) :=
  t ← GET_PU8_DATA (a + 1);
  match addr_decode t with
  | Some k => save_word_knz k
  | None => mret (ERR_ELEMENT_TYPE, lsp_Value)
  end.
End save_word.

(** ** Double words: two consecutive cells, the low half first; 32-bit
    counters are one cell *)
Definition rd_pair (r : region) (i : Z) : Mc Z :=
  h ← rd r (i + 1); l ← rd r i; mret (u32 (Z.shiftl h 16 + l)).
Definition wr_pair (r : region) (i v : Z) : Mc unit :=
  wr r i (Z.land v 0xFFFF);; wr r (i + 1) (Z.shiftr v 16).
Definition rd_c32 (i : Z) : Mc Z := v ← GET_C32_CURRENT_VALUE i; mret (u32 v).
(** [get_dword] takes the high half of a V pair from the layer above. *)
Definition get_v_pair (i : Z) : Mc Z :=
  h ← get_v_layer 1 (i + 1); l ← get_v_layer 0 i; mret (u32 (Z.shiftl h 16 + l)).
Definition set_v_pair (i v : Z) : Mc unit :=
  set_v_layer 0 i (Z.land v 0xFFFF);; set_v_layer 0 (i + 1) (Z.shiftr v 16).

Section get_dword.
Variables (a lsv_Offset : Z) (lsv_Count : nat).
Definition pairs_direct (r : region) (rang : Z) : Mc (Z * list Z) :=
  i ← direct_index a (lsv_Offset * 2); read_seq (rd_pair r) (rang - 1) 2 i lsv_Count.
Definition pairs_indexed (r : region) (rang : Z) : Mc (Z * list Z) :=
  i ← indexed_index a (lsv_Offset * 2); read_seq (rd_pair r) (rang - 1) 2 i lsv_Count.
Definition kn_dwords (get : Z -> Mc Z) (rang : Z) : Mc (Z * list Z) :=
  kn_direct 5 8 a (ERR_OPERANDS, []) (fun kn start => kn_read get 32 rang kn start lsv_Offset lsv_Count).
Definition knz_dwords (get : Z -> Mc Z) (rang : Z) : Mc (Z * list Z) :=
  kn_indexed 1 8 a (ERR_OPERANDS, []) (fun kn start => kn_read get 32 rang kn start lsv_Offset lsv_Count).

Definition get_dword_const : Mc (Z * list Z) :=
  k ← GET_PU8_DATA a;
  if (k <? 2) || (3 <? k) then mret (ERR_ELEMENT_TYPE, [])
  else v ← GET_PU32_DATA (a + 2); mret (pdPASS, [v]).
Definition get_dword_kn (t : addr_type) : Mc (Z * list Z) :=
  match t with
  | ADDR_KnX => kn_dwords (plc_get_bit_element_value X_ELEMENT) X_RANG
  | ADDR_KnY => kn_dwords (plc_get_bit_element_value Y_ELEMENT) Y_RANG
  | ADDR_KnM => kn_dwords (plc_get_bit_element_value M_ELEMENT) M_RANG
  | ADDR_KnS => kn_dwords (plc_get_bit_element_value S_ELEMENT) S_RANG
  | ADDR_KnLM => kn_dwords (get_lm_layer 0) LM_RANG
  | ADDR_KnSM => kn_dwords (plc_get_bit_element_value SM_ELEMENT) SM_RANG
  | _ => mret (ERR_ELEMENT_TYPE, [])
  end.
Definition get_dword_direct (t : addr_type) : Mc (Z * list Z) :=
  match t with
  | ADDR_D => pairs_direct D_ELEMENT D_RANG
  | ADDR_R => pairs_direct R_ELEMENT R_RANG
  | ADDR_SD => pairs_direct SD_ELEMENT SD_RANG
  | ADDR_C => i ← direct_index a (lsv_Offset * 2); read_seq rd_c32 (C_RANG - 1) 1 i lsv_Count
  | ADDR_V => i ← direct_index a (lsv_Offset * 2); read_seq get_v_pair (SD_RANG - 1) 2 i lsv_Count
  | _ => get_dword_kn t
  end.
Definition get_dword_indexed (t : addr_type) : Mc (Z * list Z) :=
  match t with
  | ADDR_DZ => pairs_indexed D_ELEMENT D_RANG
  | ADDR_RZ => pairs_indexed R_ELEMENT R_RANG
  | ADDR_CZ => i ← indexed_index a (lsv_Offset * 2); read_seq rd_c32 (C_RANG - 1) 1 i lsv_Count
  | ADDR_VZ => i ← indexed_index a (lsv_Offset * 2); read_seq get_v_pair (V_RANG - 1) 2 i lsv_Count
  | _ => get_dword_direct t
  end.
Definition get_dword_knz (t : addr_type) : Mc (Z * list Z) :=
  match t with
  | ADDR_KnXZ => knz_dwords (plc_get_bit_element_value X_ELEMENT) X_RANG
  | ADDR_KnYZ => knz_dwords (plc_get_bit_element_value Y_ELEMENT) Y_RANG
  | ADDR_KnMZ => knz_dwords (plc_get_bit_element_value M_ELEMENT) M_RANG
  | ADDR_KnSZ => knz_dwords (plc_get_bit_element_value S_ELEMENT) S_RANG
  | ADDR_KnLMZ => knz_dwords (get_lm_layer 0) LM_RANG
  | _ => get_dword_indexed t
  end.
Definition get_dword : Mc (Z * list Z) :=
  t ← GET_PU8_DATA (a + 1);
  match addr_decode t with
  | Some ADDR_CONST => get_dword_const
  | Some k => get_dword_knz k
  | None => mret (ERR_ELEMENT_TYPE, [])
  end.
End get_dword.

(** [get_dword_addr]: the indexed cases advance by one byte before they read
    the number of the Z element, so the byte they read is the addressing type. *)
Section get_dword_addr.
Variables (a lsv_Num : Z).
Definition dword_addr_in (r : region) (rang i : Z) : Mc (Z * option (region * Z)) :=
  if truthy (Z.land i 1) || (rang <? i + 2 * lsv_Num) then mret (ERR_OVER_ELEMENT_RANG, None)
  else mret (pdPASS, Some (r, i)).
Definition get_dword_addr_z (r : region) (rang : Z) : Mc (Z * option (region * Z)) :=
  b ← GET_PU8_DATA (a + 1); z ← rd Z_ELEMENT b; v ← GET_PU16_DATA (a + 2);
  dword_addr_in r rang (u16 (z + v)).
Definition get_dword_addr : Mc (Z * option (region * Z)) :=
  t ← GET_PU8_DATA (a + 1);
  match addr_decode t with
  | Some ADDR_D => i ← direct_index a 0; dword_addr_in D_ELEMENT D_RANG i
  | Some ADDR_R => i ← direct_index a 0; dword_addr_in R_ELEMENT R_RANG i
  | Some ADDR_DZ => get_dword_addr_z D_ELEMENT D_RANG
  | Some ADDR_RZ => get_dword_addr_z R_ELEMENT R_RANG
  | _ => mret (ERR_ELEMENT_TYPE, None)
  end.
End get_dword_addr.

Section save_dword.
Variables (a : Z) (llp_Value : list Z) (lsv_Offset : Z).
Definition put_pairs_direct (r : region) (rang : Z) : Mc (Z * list Z) :=
  i ← direct_index a (lsv_Offset * 2); unshifted llp_Value (write_seq (wr_pair r) (rang - 1) 2 i llp_Value).
Definition put_pairs_indexed (r : region) (rang : Z) : Mc (Z * list Z) :=
  i ← indexed_index a (lsv_Offset * 2); unshifted llp_Value (write_seq (wr_pair r) (rang - 1) 2 i llp_Value).
Definition kn_put_dwords (put : Z -> Z -> Mc unit) (rang : Z) : Mc (Z * list Z) :=
  kn_direct 5 8 a (ERR_OPERANDS, llp_Value) (fun kn start => kn_write put rang kn start lsv_Offset llp_Value).
Definition knz_put_dwords (put : Z -> Z -> Mc unit) (rang : Z) : Mc (Z * list Z) :=
  kn_indexed 5 8 a (ERR_OPERANDS, llp_Value) (fun kn start => kn_write put rang kn start lsv_Offset llp_Value).

Definition save_dword_kn (t : addr_type) : Mc (Z * list Z) :=
  match t with
  | ADDR_KnY => kn_put_dwords (plc_set_bit_element_value Y_ELEMENT) Y_RANG
  | ADDR_KnM => kn_put_dwords (plc_set_bit_element_value M_ELEMENT) M_RANG
  | ADDR_KnS => kn_put_dwords (plc_set_bit_element_value S_ELEMENT) S_RANG
  | ADDR_KnLM => kn_put_dwords (set_lm_layer 0) LM_RANG
  | _ => mret (ERR_ELEMENT_TYPE, llp_Value)
  end.
Definition save_dword_direct (t : addr_type) : Mc (Z * list Z) :=
  match t with
  | ADDR_D => put_pairs_direct D_ELEMENT D_RANG
  | ADDR_R => put_pairs_direct R_ELEMENT R_RANG
  | ADDR_SD => put_pairs_direct SD_ELEMENT SD_RANG
  | ADDR_C => i ← direct_index a lsv_Offset;
              unshifted llp_Value (write_seq SET_C32_CURRENT_VALUE C_RANG 1 i llp_Value)
  | ADDR_V => i ← direct_index a (lsv_Offset * 2);
              unshifted llp_Value (write_seq set_v_pair (V_RANG - 1) 2 i llp_Value)
  | _ => save_dword_kn t
  end.
Definition save_dword_indexed (t : addr_type) : Mc (Z * list Z) :=
  match t with
  | ADDR_DZ => put_pairs_indexed D_ELEMENT D_RANG
  | ADDR_RZ => put_pairs_indexed R_ELEMENT R_RANG
  | ADDR_CZ => i ← indexed_index a (lsv_Offset * 2);
               unshifted llp_Value (write_seq SET_C32_CURRENT_VALUE C_RANG 1 i llp_Value)
  | ADDR_VZ => i ← indexed_index a (lsv_Offset * 2);
               unshifted llp_Value (write_seq set_v_pair (V_RANG - 1) 2 i llp_Value)
  | _ => save_dword_direct t
  end.
Definition save_dword_knz (t : addr_type) : Mc (Z * list Z) :=
  match t with
  | ADDR_KnYZ => knz_put_dwords (plc_set_bit_element_value Y_ELEMENT) Y_RANG
  | ADDR_KnMZ => knz_put_dwords (plc_set_bit_element_value M_ELEMENT) M_RANG
  | ADDR_KnSZ => knz_put_dwords (plc_set_bit_element_value S_ELEMENT) S_RANG
  | ADDR_KnLMZ => knz_put_dwords (set_lm_layer 0) LM_RANG
  | _ => save_dword_indexed t
  end.
Definition save_dword : Mc (Z * list Z) :=
  t ← GET_PU8_DATA (a + 1);
  match addr_decode t with
  | Some k => save_dword_knz k
  | None => mret (ERR_ELEMENT_TYPE, llp_Value)
  end.
End save_dword.

(** ** Floats, as their 32-bit patterns *)
Definition get_v_float (i : Z) : Mc Z :=
  h ← get_v_layer 0 (i + 1); l ← get_v_layer 0 i; mret (u32 (Z.shiftl h 16 + l)).
Definition get_float (a lsv_Offset : Z) (lsv_Count : nat) : Mc (Z * list Z) :=
  t ← GET_PU8_DATA (a + 1);
  match addr_decode t with
  | Some ADDR_CONST =>
      k ← GET_PU8_DATA a;
      if negb (k =? 4) then mret (ERR_ELEMENT_TYPE, [])
      else v ← GET_PU32_DATA (a + 2); mret (pdPASS, [v])
  | Some ADDR_D => pairs_direct a lsv_Offset lsv_Count D_ELEMENT D_RANG
  | Some ADDR_R => pairs_direct a lsv_Offset lsv_Count R_ELEMENT R_RANG
  | Some ADDR_V => i ← direct_index a (lsv_Offset * 2); read_seq get_v_float (V_RANG - 1) 2 i lsv_Count
  | Some ADDR_DZ => pairs_indexed a lsv_Offset lsv_Count D_ELEMENT D_RANG
  | Some ADDR_RZ => pairs_indexed a lsv_Offset lsv_Count R_ELEMENT R_RANG
  | Some ADDR_VZ => i ← indexed_index a (lsv_Offset * 2); read_seq get_v_float (V_RANG - 1) 2 i lsv_Count
  | _ => mret (ERR_ELEMENT_TYPE, [])
  end.
Definition save_float (a : Z) (lfp_Value : list Z) (lsv_Offset : Z) : Mc (Z * list Z) :=
  t ← GET_PU8_DATA (a + 1);
  match addr_decode t with
  | Some ADDR_D => put_pairs_direct a lfp_Value lsv_Offset D_ELEMENT D_RANG
  | Some ADDR_R => put_pairs_direct a lfp_Value lsv_Offset R_ELEMENT R_RANG
  | Some ADDR_V => i ← direct_index a (lsv_Offset * 2);
      unshifted lfp_Value (write_seq set_v_pair (V_RANG - 1) 2 i lfp_Value)
  | Some ADDR_DZ => put_pairs_indexed a lfp_Value lsv_Offset D_ELEMENT D_RANG
  | Some ADDR_RZ => put_pairs_indexed a lfp_Value lsv_Offset R_ELEMENT R_RANG
  | Some ADDR_VZ => i ← indexed_index a (lsv_Offset * 2);
      unshifted lfp_Value (write_seq set_v_pair (V_RANG - 1) 2 i lfp_Value)
  | _ => mret (ERR_ELEMENT_TYPE, lfp_Value)
  end.

(** ** The operand of the edge instructions LDP .. PLF: no range check *)
Definition simple_bit (t : addr_type) : option (region * bool) :=
  match t with
  | ADDR_X => Some (X_ELEMENT, false) | ADDR_Y => Some (Y_ELEMENT, false)
  | ADDR_bC => Some (C_ELEMENT, false) | ADDR_bT => Some (T_ELEMENT, false)
  | ADDR_SM => Some (SM_ELEMENT, false) | ADDR_M => Some (M_ELEMENT, false)
  | ADDR_S => Some (S_ELEMENT, false) | ADDR_LM => Some (LM_ELEMENT, true)
  | _ => None
  end.
Definition get_char_in_simpleIns (a : Z) : Mc (Z * option Z) :=
  t ← GET_PU8_DATA a;
  match addr_decode t ≫= simple_bit with
  | Some (r, local) =>
      i ← GET_PU16_DATA (a + 2);
      v ← (if local : bool then get_lm_layer 1 i else plc_get_bit_element_value r i);
      mret (pdPASS, Some v)
  | None => mret (ERR_ELEMENT_TYPE, None)
  end.
Definition save_char_in_simpleIns (a v : Z) : Mc Z :=
  t ← GET_PU8_DATA a;
  match addr_decode t ≫= simple_bit with
  | Some (r, local) =>
      i ← GET_PU16_DATA (a + 2);
      (if local : bool then set_lm_layer 1 i v else plc_set_bit_element_value r i v);;
      mret pdPASS
  | None => mret ERR_ELEMENT_TYPE
  end.

(** One cell, as most handlers use the readers; [None] is a value the reader
    did not store. *)
Definition get_word1 (a : Z) : Mc (Z * option Z) := rl ← get_word a 0 1; mret (rl.1, head rl.2).
Definition get_dword1 (a : Z) : Mc (Z * option Z) := rl ← get_dword a 0 1; mret (rl.1, head rl.2).
Definition get_char1 (a : Z) : Mc (Z * option Z) := rl ← get_char a 0 1; mret (rl.1, head rl.2).
Definition save_word1 (a v : Z) : Mc Z := rl ← save_word a [v] 0; mret rl.1.
Definition save_dword1 (a v : Z) : Mc Z := rl ← save_dword a [v] 0; mret rl.1.
Definition save_char1 (a v : Z) : Mc Z := save_char a [v] 0.

(** ** Effects: readers have none, writers only those of their cell stores *)
Section reader_effects.
Context (R : relation plc_st) `{!PreOrder R}.
#[global] Instance direct_index_respects a off : Respects R (direct_index a off).
Proof. unfold direct_index. apply _. Qed.
#[global] Instance indexed_index_respects a off : Respects R (indexed_index a off).
Proof. unfold indexed_index. apply _. Qed.
#[global] Instance read_seq_respects get rang step idx cnt :
  (forall i, Respects R (get i)) -> Respects R (read_seq get rang step idx cnt).
Proof. intros H. revert idx. induction cnt; intros idx; simpl; apply _. Qed.
#[global] Instance kn_get_respects get w rang base temp acc :
  (forall i, Respects R (get i)) -> Respects R (kn_get get w rang base temp acc).
Proof. intros H. revert acc. induction temp; intros acc; cbn [kn_get]; apply _. Qed.
#[global] Instance kn_read_respects get w rang kn start off cnt :
  (forall i, Respects R (get i)) -> Respects R (kn_read get w rang kn start off cnt).
Proof. intros H. revert off. induction cnt; intros off; simpl; apply _. Qed.
#[global] Instance kn_direct_respects {A} lo hi a (bad : A) k :
  (forall x y, Respects R (k x y)) -> Respects R (kn_direct lo hi a bad k).
Proof. unfold kn_direct. apply _. Qed.
#[global] Instance kn_indexed_respects {A} lo hi a (bad : A) k :
  (forall x y, Respects R (k x y)) -> Respects R (kn_indexed lo hi a bad k).
Proof. unfold kn_indexed. apply _. Qed.
#[global] Instance get_lm_layer_respects n i : Respects R (get_lm_layer n i).
Proof. unfold get_lm_layer. apply _. Qed.
#[global] Instance get_v_layer_respects n i : Respects R (get_v_layer n i).
Proof. unfold get_v_layer, GET_V_ELEMENT_VALUE. apply _. Qed.
#[global] Instance rd_pair_respects r i : Respects R (rd_pair r i).
Proof. unfold rd_pair. apply _. Qed.
#[global] Instance rd_c32_respects i : Respects R (rd_c32 i).
Proof. unfold rd_c32, GET_C32_CURRENT_VALUE. apply _. Qed.
#[global] Instance get_v_pair_respects i : Respects R (get_v_pair i).
Proof. unfold get_v_pair. apply _. Qed.
#[global] Instance get_v_float_respects i : Respects R (get_v_float i).
Proof. unfold get_v_float. apply _. Qed.
#[global] Instance get_char_respects a off cnt : Respects R (get_char a off cnt).
Proof.
  unfold get_char. apply respects_bind; [apply _..|]. intros t. destruct (addr_decode t) as [k|]; [|apply _].
  destruct k; cbn [get_char_indexed get_char_direct]; unfold bits_direct, bits_indexed; apply _.
Qed.
#[global] Instance get_word_respects a off cnt : Respects R (get_word a off cnt).
Proof.
  unfold get_word. apply respects_bind; [apply _..|]. intros t. destruct (addr_decode t) as [k|]; [|apply _].
  destruct k; cbn [get_word_knz get_word_indexed get_word_direct get_word_kn];
    unfold get_word_const, words_direct, words_indexed, kn_words, knz_words; apply _.
Qed.
#[global] Instance get_dword_respects a off cnt : Respects R (get_dword a off cnt).
Proof.
  unfold get_dword. apply respects_bind; [apply _..|]. intros t. destruct (addr_decode t) as [k|]; [|apply _].
  destruct k; cbn [get_dword_knz get_dword_indexed get_dword_direct get_dword_kn];
    unfold get_dword_const, pairs_direct, pairs_indexed, kn_dwords, knz_dwords; apply _.
Qed.
#[global] Instance get_float_respects a off cnt : Respects R (get_float a off cnt).
Proof.
  unfold get_float. apply respects_bind; [apply _..|]. intros t. destruct (addr_decode t) as [k|]; [|apply _].
  destruct k; unfold pairs_direct, pairs_indexed; apply _.
Qed.
#[global] Instance word_addr_respects a n : Respects R (get_word_addr a n).
Proof.
  unfold get_word_addr. apply respects_bind; [apply _..|]. intros t. destruct (addr_decode t) as [k|]; [|apply _].
  destruct k; unfold word_addr_in; apply _.
Qed.
#[global] Instance dword_addr_respects a n : Respects R (get_dword_addr a n).
Proof.
  unfold get_dword_addr. apply respects_bind; [apply _..|]. intros t. destruct (addr_decode t) as [k|]; [|apply _].
  destruct k; unfold get_dword_addr_z, dword_addr_in; apply _.
Qed.
#[global] Instance get_char_simple_respects a : Respects R (get_char_in_simpleIns a).
Proof. unfold get_char_in_simpleIns. apply _. Qed.
#[global] Instance get_word1_respects a : Respects R (get_word1 a).
Proof. unfold get_word1. apply _. Qed.
#[global] Instance get_dword1_respects a : Respects R (get_dword1 a).
Proof. unfold get_dword1. apply _. Qed.
#[global] Instance get_char1_respects a : Respects R (get_char1 a).
Proof. unfold get_char1. apply _. Qed.
End reader_effects.

(** [Cells R]: storing into the element arrays respects [R]. *)
Class Cells (R : relation plc_st) : Prop := cells_wr r i v : Respects R (wr r i v).
#[global] Existing Instance cells_wr.
#[global] Instance cells_wf : Cells wf_mem.
Proof. intros r i v. apply _. Qed.
#[global] Instance cells_inert : Cells inert.
Proof. intros r i v. apply _. Qed.

Section writer_effects.
Context (R : relation plc_st) `{!PreOrder R} `{!Cells R}.
#[global] Instance cells_set_bit r n v : Respects R (plc_set_bit_element_value r n v).
Proof. unfold plc_set_bit_element_value. apply _. Qed.
#[global] Instance cells_set_lm l n v : Respects R (plc_set_lm_element_value l n v).
Proof. unfold plc_set_lm_element_value. apply _. Qed.
#[global] Instance write_seq_respects put rang step idx vs :
  (forall i v, Respects R (put i v)) -> Respects R (write_seq put rang step idx vs).
Proof. intros H. revert idx. induction vs; intros idx; simpl; apply _. Qed.
#[global] Instance kn_put_respects put rang base left temp v :
  (forall i x, Respects R (put i x)) -> Respects R (kn_put put rang base left temp v).
Proof. intros H. revert temp v. induction left; intros temp v; simpl; apply _. Qed.
#[global] Instance kn_write_respects put rang kn start off vs :
  (forall i x, Respects R (put i x)) -> Respects R (kn_write put rang kn start off vs).
Proof. intros H. revert off. induction vs; intros off; simpl; apply _. Qed.
#[global] Instance set_lm_layer_respects n i v : Respects R (set_lm_layer n i v).
Proof. unfold set_lm_layer. apply _. Qed.
#[global] Instance set_v_layer_respects n i v : Respects R (set_v_layer n i v).
Proof. unfold set_v_layer, SET_V_ELEMENT_VALUE. apply _. Qed.
#[global] Instance wr_pair_respects r i v : Respects R (wr_pair r i v).
Proof. unfold wr_pair. apply _. Qed.
#[global] Instance set_v_pair_respects i v : Respects R (set_v_pair i v).
Proof. unfold set_v_pair. apply _. Qed.
#[global] Instance set_c32_respects i v : Respects R (SET_C32_CURRENT_VALUE i v).
Proof. unfold SET_C32_CURRENT_VALUE. apply _. Qed.
#[global] Instance unshifted_respects l m : Respects R m -> Respects R (unshifted l m).
Proof. unfold unshifted. apply _. Qed.
#[global] Instance save_char_respects a vs off : Respects R (save_char a vs off).
Proof.
  unfold save_char. apply respects_bind; [apply _..|]. intros t. destruct (addr_decode t) as [k|]; [|apply _].
  destruct k; cbn [save_char_indexed save_char_direct]; unfold put_bits_direct, put_bits_indexed; apply _.
Qed.
#[global] Instance save_word_respects a vs off : Respects R (save_word a vs off).
Proof.
  unfold save_word. apply respects_bind; [apply _..|]. intros t. destruct (addr_decode t) as [k|]; [|apply _].
  destruct k; cbn [save_word_knz save_word_indexed save_word_direct save_word_kn];
    unfold put_words_direct, put_words_indexed, kn_put_words, knz_put_words; apply _.
Qed.
#[global] Instance save_dword_respects a vs off : Respects R (save_dword a vs off).
Proof.
  unfold save_dword. apply respects_bind; [apply _..|]. intros t. destruct (addr_decode t) as [k|]; [|apply _].
  destruct k; cbn [save_dword_knz save_dword_indexed save_dword_direct save_dword_kn];
    unfold put_pairs_direct, put_pairs_indexed, kn_put_dwords, knz_put_dwords; apply _.
Qed.
#[global] Instance save_float_respects a vs off : Respects R (save_float a vs off).
Proof.
  unfold save_float. apply respects_bind; [apply _..|]. intros t. destruct (addr_decode t) as [k|]; [|apply _].
  destruct k; unfold put_pairs_direct, put_pairs_indexed; apply _.
Qed.
#[global] Instance save_char_simple_respects a v : Respects R (save_char_in_simpleIns a v).
Proof. unfold save_char_in_simpleIns. apply _. Qed.
#[global] Instance save_word1_respects a v : Respects R (save_word1 a v).
Proof. unfold save_word1. apply _. Qed.
#[global] Instance save_dword1_respects a v : Respects R (save_dword1 a v).
Proof. unfold save_dword1. apply _. Qed.
#[global] Instance save_char1_respects a v : Respects R (save_char1 a v).
Proof. unfold save_char1. apply _. Qed.
End writer_effects.

(** ** No reader or writer loops without bound *)
#[export] Hint Unfold direct_index indexed_index get_lm_layer set_lm_layer get_v_layer set_v_layer
  GET_V_ELEMENT_VALUE SET_V_ELEMENT_VALUE GET_C32_CURRENT_VALUE SET_C32_CURRENT_VALUE get_nested
  rd_pair wr_pair rd_c32 get_v_pair set_v_pair get_v_float : parse.
Section parse_halts.
#[global] Instance read_seq_halts get rang step idx cnt :
  (forall i, Halts (get i)) -> Halts (read_seq get rang step idx cnt).
Proof. intros H. revert idx. induction cnt; intros idx; simpl; apply _. Qed.
#[global] Instance kn_get_halts get w rang base temp acc :
  (forall i, Halts (get i)) -> Halts (kn_get get w rang base temp acc).
Proof. intros H. revert acc. induction temp; intros acc; cbn [kn_get]; apply _. Qed.
#[global] Instance kn_read_halts get w rang kn start off cnt :
  (forall i, Halts (get i)) -> Halts (kn_read get w rang kn start off cnt).
Proof. intros H. revert off. induction cnt; intros off; simpl; apply _. Qed.
#[global] Instance kn_direct_halts {A} lo hi a (bad : A) k :
  (forall x y, Halts (k x y)) -> Halts (kn_direct lo hi a bad k).
Proof. unfold kn_direct. apply _. Qed.
#[global] Instance kn_indexed_halts {A} lo hi a (bad : A) k :
  (forall x y, Halts (k x y)) -> Halts (kn_indexed lo hi a bad k).
Proof. unfold kn_indexed. apply _. Qed.
#[global] Instance write_seq_halts put rang step idx vs :
  (forall i v, Halts (put i v)) -> Halts (write_seq put rang step idx vs).
Proof. intros H. revert idx. induction vs; intros idx; simpl; apply _. Qed.
#[global] Instance kn_put_halts put rang base left temp v :
  (forall i x, Halts (put i x)) -> Halts (kn_put put rang base left temp v).
Proof. intros H. revert temp v. induction left; intros temp v; simpl; apply _. Qed.
#[global] Instance kn_write_halts put rang kn start off vs :
  (forall i x, Halts (put i x)) -> Halts (kn_write put rang kn start off vs).
Proof. intros H. revert off. induction vs; intros off; simpl; apply _. Qed.
#[global] Instance unshifted_halts l m : Halts m -> Halts (unshifted l m).
Proof. unfold unshifted. apply _. Qed.
Ltac parse_halts_solve :=
  repeat autounfold with parse; repeat (apply _ || (intros ?; repeat autounfold with parse)).
#[global] Instance get_word_halts a off cnt : Halts (get_word a off cnt).
Proof.
  unfold get_word. apply halts_bind; [apply _|]. intros t. destruct (addr_decode t) as [k|]; [|apply _].
  destruct k; cbn [get_word_knz get_word_indexed get_word_direct get_word_kn];
    unfold get_word_const, words_direct, words_indexed, kn_words, knz_words; parse_halts_solve.
Qed.
#[global] Instance save_word_halts a vs off : Halts (save_word a vs off).
Proof.
  unfold save_word. apply halts_bind; [apply _|]. intros t. destruct (addr_decode t) as [k|]; [|apply _].
  destruct k; cbn [save_word_knz save_word_indexed save_word_direct save_word_kn];
    unfold put_words_direct, put_words_indexed, kn_put_words, knz_put_words; parse_halts_solve.
Qed.
#[global] Instance get_char_simple_halts a : Halts (get_char_in_simpleIns a).
Proof. unfold get_char_in_simpleIns. parse_halts_solve. Qed.
#[global] Instance save_char_simple_halts a v : Halts (save_char_in_simpleIns a v).
Proof. unfold save_char_in_simpleIns. parse_halts_solve. Qed.
End parse_halts.
