(* ===== verification/ParseAddrFacts.v ===== *)
(** * Facts about operand addressing

    The readers are total on well-formed operands and leave the machine alone;
    what a writer stores, the reader of the same operand delivers; and the
    places where the two sides of plc_parseaddr.c disagree. *)
From stdpp Require Import base list numbers sets.
From S2P Require Import Prelude Bytes Element Machine ParseAddr.

(** Operand [a]: modifier byte [m], type byte [t], element number [n]. *)
Record operand (a : Z) (s : plc_st) (m : Z) (t : addr_type) (n : Z) : Prop := {
  op_m : GET_PU8_DATA a s = Ok (m, s);
  op_t : GET_PU8_DATA (a + 1) s = Ok (addr_code t, s);
  op_n : GET_PU16_DATA (a + 2) s = Ok (n, s);
  op_m_range : 0 <= m < 2 ^ 8;
  op_n_range : 0 <= n < 2 ^ 16 }.
Definition nested (s : plc_st) : Z := msv_SbrNestedNum (call_info (flow s)).

(** A cell accessor on [0, rang): every read is defined, pure and in [P]. *)
Definition reads (get : Z -> Mc Z) (rang : Z) (P : Z -> Prop) (s : plc_st) : Prop :=
  forall i, 0 <= i < rang -> exists v, get i s = Ok (v, s) /\ P v.
Definition word_ok (v : Z) : Prop := 0 <= v < 2 ^ 16.
Definition bit_ok (v : Z) : Prop := v = 0 \/ v = 1.

Lemma addr_decode_code t : addr_decode (addr_code t) = Some t.
Proof. by destruct t. Qed.
Lemma bind_run {A B} (m : Mc A) (f : A -> Mc B) s s' a : m s = Ok (a, s') -> (m ≫= f) s = f a s'.
Proof. unfold mbind, M_bind. by intros ->. Qed.

Lemma bind_some {A B} (a : A) (f : A -> Mc B) s : (of_option (Some a) ≫= f) s = f a s.
Proof. done. Qed.

(** ** The loops *)
Section loops.
Context (get : Z -> Mc Z) (rang : Z) (P : Z -> Prop) (s : plc_st) (Hget : reads get rang P s).

Lemma read_seq_run step idx cnt : 0 <= idx ->
  exists r l, read_seq get rang step idx cnt s = Ok ((r, l), s) /\ Forall P l /\
    (r = pdPASS /\ length l = cnt \/ r = ERR_OVER_ELEMENT_RANG).
Proof.
  revert idx. induction cnt as [|n IH]; intros idx Hi; cbn [read_seq].
  - exists pdPASS, []. naive_solver.
  - destruct (Z.ltb_spec idx rang).
    + destruct (Hget idx) as (v & Hv & HP); [lia|]. rewrite (bind_run _ _ _ _ _ Hv).
      destruct (IH (u16 (idx + step))) as (r & l & Hr & Hl & Hc); [apply u16_range|].
      rewrite (bind_run _ _ _ _ _ Hr). exists r, (v :: l). split; [done|]. split; [by constructor|].
      simpl. naive_solver.
    + eexists _, []. split; [done|]. naive_solver.
Qed.
End loops.

Section kn_loops.
Context (get : Z -> Mc Z) (rang : Z) (s : plc_st) (Hget : reads get rang bit_ok s) (w : Z) (Hw : 0 < w).

Lemma kn_get_run base temp acc : 0 <= acc < 2 ^ w ->
  exists r v, kn_get get w rang base temp acc s = Ok ((r, v), s) /\ 0 <= v < 2 ^ w /\
    (r = pdPASS \/ r = ERR_OVER_ELEMENT_RANG).
Proof.
  revert acc. induction temp as [|t IH]; intros acc Ha; cbn [kn_get].
  - by exists pdPASS, acc; auto.
  - destruct (Z.ltb_spec (u16 (Z.of_nat (Datatypes.S t) + base - 1)) rang).
    + destruct (Hget (u16 (Z.of_nat (Datatypes.S t) + base - 1))) as (b & Hb & _).
      { split; [apply u16_range|done]. }
      rewrite (bind_run _ _ _ _ _ Hb). apply IH. apply Z.mod_pos_bound. by apply Z.pow_pos_nonneg; lia.
    + eexists _, acc. by auto.
Qed.
Lemma kn_read_run kn start off cnt :
  exists r l, kn_read get w rang kn start off cnt s = Ok ((r, l), s) /\
    Forall (fun v => 0 <= v < 2 ^ w) l /\
    (r = pdPASS /\ length l = cnt \/ r = ERR_OVER_ELEMENT_RANG).
Proof.
  revert off. induction cnt as [|n IH]; intros off; cbn [kn_read].
  - exists pdPASS, []. naive_solver.
  - destruct (kn_get_run (start + off * 4 * kn) (Z.to_nat (4 * kn)) 0) as (r & v & Hv & Hr & Hc).
    { split; [lia|]. by apply Z.pow_pos_nonneg; lia. }
    rewrite (bind_run _ _ _ _ _ Hv). cbn [fst snd].
    destruct (Z.eqb_spec r pdPASS) as [->|Hne].
    + destruct (IH (u16 (off + 1))) as (r' & l & Hl & Hf & Hcl).
      rewrite (bind_run _ _ _ _ _ Hl). exists r', (v :: l). split; [done|]. split; [by constructor|].
      simpl. naive_solver.
    + exists r, [v]. split; [done|]. split; [by apply Forall_singleton|]. naive_solver.
Qed.
End kn_loops.

(** ** The cell accessors *)
Section accessors.
Context (s : plc_st) (W : wf_elem (elem s)) (D : 0 <= nested s < MAX_SBR_NESTED_LAYER).
Lemma reads_rd r rang : rang <= rsize r -> r <> C32_VALUE -> r <> T_START -> reads (rd r) rang word_ok s.
Proof.
  intros Hr H1 H2 i Hi. exists (cell r i s). split; [apply rd_cell; [done|lia]|].
  apply cell_u16; [done|lia|done|done].
Qed.
Lemma reads_bit r rang : rang <= 16 * rsize r -> rang <= 2 ^ 16 ->
  reads (plc_get_bit_element_value r) rang bit_ok s.
Proof.
  intros Hr Hm i Hi. destruct (get_bit_run (S := plc_st) r i s) as (b & Hb & _); [done|lia|lia|].
  exists (Z.b2z b). split; [done|]. by destruct b; [right|left].
Qed.
Lemma reads_lm : reads (get_lm_layer 0) LM_RANG bit_ok s.
Proof.
  intros i Hi. destruct (get_lm_run (S := plc_st) (nested s + 0) i s) as (b & Hb & _); [done|lia|done|].
  exists (Z.b2z b). split; [exact Hb|]. by destruct b; [right|left].
Qed.
Lemma reads_v : reads (get_v_layer 0) V_RANG word_ok s.
Proof.
  intros i Hi. unfold MAX_SBR_NESTED_LAYER, V_RANG in *.
  exists (cell V_ELEMENT (V_RANG * (nested s + 0) + i) s). change (rsize V_ELEMENT) with 512 in *.
  split; [apply (rd_cell (S := plc_st) V_ELEMENT); [done|]|apply cell_u16; try done];
    change (rsize V_ELEMENT) with 512; unfold V_RANG; lia.
Qed.
End accessors.

(** Which types take the modifier byte as a Z element number. *)
Definition z_modified (t : addr_type) : bool :=
  match t with
  | ADDR_RZ | ADDR_DZ | ADDR_CZ | ADDR_TZ | ADDR_VZ | ADDR_XZ | ADDR_YZ | ADDR_MZ | ADDR_SZ | ADDR_LMZ
  | ADDR_bTZ | ADDR_bCZ => true
  | _ => false
  end.
Section indices.
Context (a m n : Z) (t : addr_type) (s : plc_st) (W : wf_elem (elem s)) (O : operand a s m t n).
Lemma direct_index_run off : direct_index a off s = Ok (u16 (n + off), s).
Proof. unfold direct_index. by rewrite (bind_run _ _ _ _ _ (op_n _ _ _ _ _ O)). Qed.
Lemma indexed_index_run off : m < Z_RANG ->
  exists i, indexed_index a off s = Ok (i, s) /\ 0 <= i < 2 ^ 16.
Proof.
  intros Hm. pose proof (op_m_range _ _ _ _ _ O).
  exists (u16 (cell Z_ELEMENT m s + n + off)). split; [|apply u16_range].
  unfold indexed_index. rewrite (bind_run _ _ _ _ _ (op_m _ _ _ _ _ O)).
  rewrite (bind_run _ _ _ _ _ (rd_cell (S := plc_st) Z_ELEMENT m s W ltac:(change (rsize Z_ELEMENT) with Z_RANG; lia))).
  by rewrite (bind_run _ _ _ _ _ (op_n _ _ _ _ _ O)).
Qed.
Lemma nibble_range : 0 <= Z.land m 15 < Z_RANG.
Proof. change 15 with (Z.ones 4). rewrite Z.land_ones by lia. by apply Z.mod_pos_bound. Qed.

(** The prologues either refuse the length or pass it on. *)
Lemma kn_direct_run {A} lo hi (bad : A) k (Q : A -> Prop) :
  Q bad -> (forall kn st, lo <= kn <= hi -> exists x, k kn st s = Ok (x, s) /\ Q x) ->
  exists x, kn_direct lo hi a bad k s = Ok (x, s) /\ Q x.
Proof.
  intros Hb Hk. unfold kn_direct. rewrite (bind_run _ _ _ _ _ (op_m _ _ _ _ _ O)).
  destruct (Z.ltb_spec m lo); [by exists bad|]. destruct (Z.ltb_spec hi m); [by exists bad|].
  cbn [orb]. rewrite (bind_run _ _ _ _ _ (op_n _ _ _ _ _ O)). apply Hk. lia.
Qed.
Lemma kn_indexed_run {A} lo hi (bad : A) k (Q : A -> Prop) :
  Q bad -> (forall kn st, lo <= kn <= hi -> exists x, k kn st s = Ok (x, s) /\ Q x) ->
  exists x, kn_indexed lo hi a bad k s = Ok (x, s) /\ Q x.
Proof.
  intros Hb Hk. unfold kn_indexed. rewrite (bind_run _ _ _ _ _ (op_m _ _ _ _ _ O)).
  destruct (Z.ltb_spec (Z.shiftr (Z.land m 240) 4) lo); [by exists bad|].
  destruct (Z.ltb_spec hi (Z.shiftr (Z.land m 240) 4)); [by exists bad|].
  cbn [orb]. rewrite (bind_run _ _ _ _ _ (rd_cell (S := plc_st) Z_ELEMENT _ s W nibble_range)).
  rewrite (bind_run _ _ _ _ _ (op_n _ _ _ _ _ O)). apply Hk. lia.
Qed.
End indices.

(** ** Reading words *)
Definition get_word_post (t : addr_type) (cnt : nat) (x : Z * list Z) : Prop :=
  x.1 ∈ [pdPASS; ERR_OVER_ELEMENT_RANG; ERR_OPERANDS; ERR_ELEMENT_TYPE] /\ Forall word_ok x.2 /\
  (x.1 = pdPASS -> length x.2 = if decide (t = ADDR_CONST) then 1%nat else cnt).

Section get_word_run.
Context (a m n off : Z) (cnt : nat) (t : addr_type) (s : plc_st).
Context (W : wf_elem (elem s)) (D : 0 <= nested s < MAX_SBR_NESTED_LAYER) (O : operand a s m t n).

Lemma post_seq step idx get rang : t <> ADDR_CONST -> 0 <= idx -> reads get rang word_ok s ->
  exists x, read_seq get rang step idx cnt s = Ok (x, s) /\ get_word_post t cnt x.
Proof.
  intros Ht Hi Hg. destruct (read_seq_run get rang word_ok s Hg step idx cnt Hi) as (r & l & Hr & Hl & Hc).
  exists (r, l). split; [done|]. split_and!; [set_solver|done|]. intros Hp. rewrite decide_False by done.
  simpl in *. destruct Hc as [[_ ->]| ->]; [done|]. discriminate Hp.
Qed.
Lemma post_kn get rang kn st : t <> ADDR_CONST -> reads get rang bit_ok s ->
  exists x, kn_read get 16 rang kn st off cnt s = Ok (x, s) /\ get_word_post t cnt x.
Proof.
  intros Ht Hg. destruct (kn_read_run get rang s Hg 16 ltac:(lia) kn st off cnt) as (r & l & Hr & Hl & Hc).
  exists (r, l). split; [done|]. split_and!; [set_solver|done|]. intros Hp. rewrite decide_False by done.
  simpl in *. destruct Hc as [[_ ->]| ->]; [done|]. discriminate Hp.
Qed.
Lemma words_direct_run r rang : t <> ADDR_CONST -> reads (rd r) rang word_ok s ->
  exists x, words_direct a off cnt r rang s = Ok (x, s) /\ get_word_post t cnt x.
Proof.
  intros Ht Hg. unfold words_direct. rewrite (bind_run _ _ _ _ _ (direct_index_run _ _ _ _ _ O off)).
  apply post_seq; [done|apply u16_range|done].
Qed.
Lemma words_indexed_run r rang : t <> ADDR_CONST -> m < Z_RANG -> reads (rd r) rang word_ok s ->
  exists x, words_indexed a off cnt r rang s = Ok (x, s) /\ get_word_post t cnt x.
Proof.
  intros Ht Hm Hg. destruct (indexed_index_run _ _ _ _ _ W O off Hm) as (i & Hi & Hr).
  unfold words_indexed. rewrite (bind_run _ _ _ _ _ Hi). apply post_seq; [done|lia|done].
Qed.
Lemma post_bad : get_word_post t cnt (ERR_OPERANDS, []).
Proof. split_and!; [set_solver|constructor|discriminate]. Qed.
Lemma kn_words_run get rang : t <> ADDR_CONST -> reads get rang bit_ok s ->
  exists x, kn_words a off cnt get rang s = Ok (x, s) /\ get_word_post t cnt x.
Proof.
  intros Ht Hg. apply (kn_direct_run _ _ _ _ _ O); [apply post_bad|]. intros kn st _. by apply post_kn.
Qed.
Lemma knz_words_run get rang : t <> ADDR_CONST -> reads get rang bit_ok s ->
  exists x, knz_words a off cnt get rang s = Ok (x, s) /\ get_word_post t cnt x.
Proof.
  intros Ht Hg. apply (kn_indexed_run _ _ _ _ _ W O); [apply post_bad|]. intros kn st _. by apply post_kn.
Qed.
End get_word_run.

(** C29: reading a word operand whose modifier byte, if its type is indexed
    directly, names one of the 16 Z elements is defined, whatever its type,
    length, index and count: every element number is checked before the array
    is touched. The machine is left as it was; the result is one of four codes;
    on success exactly [cnt] words (one for a constant) were delivered, each
    a 16-bit value. The code does not check the modifier byte: with another
    one it reads behind the Z elements, which the hypothesis leaves out. *)
Theorem get_word_safe a m n off cnt t s :
  wf_elem (elem s) -> 0 <= nested s < MAX_SBR_NESTED_LAYER -> operand a s m t n ->
  (z_modified t = true -> m < Z_RANG) ->
  exists x, get_word a off cnt s = Ok (x, s) /\ get_word_post t cnt x.
Proof.
  intros W D O Hz. unfold get_word. rewrite (bind_run _ _ _ _ _ (op_t _ _ _ _ _ O)), addr_decode_code.
  assert (HE : forall k, exists x, (mret (ERR_ELEMENT_TYPE, []) : Mc (Z * list Z)) s = Ok (x, s) /\
    get_word_post k cnt x).
  { intros k. exists (ERR_ELEMENT_TYPE, []). split; [done|]. split_and!; [set_solver|constructor|discriminate]. }
  destruct t; cbn [get_word_knz get_word_indexed get_word_direct get_word_kn];
    try apply HE; try (eapply words_direct_run; [exact W|exact D|exact O|done|by apply reads_rd]);
    try (eapply words_indexed_run; [exact W|exact D|exact O|done|by apply Hz|by apply reads_rd]);
    try (eapply kn_words_run; [exact W|exact D|exact O|done|by (apply reads_bit || apply reads_lm)]);
    try (eapply knz_words_run; [exact W|exact D|exact O|done|by (apply reads_bit || apply reads_lm)]).
  - unfold get_word_const. rewrite (bind_run _ _ _ _ _ (op_m _ _ _ _ _ O)).
    destruct (2 <=? m); [apply HE|]. rewrite (bind_run _ _ _ _ _ (op_n _ _ _ _ _ O)).
    exists (pdPASS, [n]). split; [done|]. split_and!; [set_solver|by apply Forall_singleton, (op_n_range _ _ _ _ _ O)|done].
  - rewrite (bind_run _ _ _ _ _ (direct_index_run _ _ _ _ _ O off)).
    eapply post_seq; [exact W|exact D|exact O|done|apply u16_range|by apply reads_v].
  - destruct (indexed_index_run _ _ _ _ _ W O off (Hz eq_refl)) as (i & Hi & Hr).
    rewrite (bind_run _ _ _ _ _ Hi).
    eapply post_seq; [exact W|exact D|exact O|done|lia|by apply reads_v].
Qed.

(** ** Ports: a reader and a writer of the same cells

    What the round trip needs of an accessor pair, whatever array, layer or
    width it is about; the instances are the accessors of the cases. *)
Definition st_ok (s : plc_st) : Prop := wf_elem (elem s) /\ 0 <= nested s < MAX_SBR_NESTED_LAYER.
Class Port (r : region) (get : Z -> Mc Z) (put : Z -> Z -> Mc unit) (rang : Z)
    (V : Z -> Prop) (conv : Z -> Z) : Prop := {
  port_law i v s : st_ok s -> 0 <= i < rang -> V v ->
    exists s', put i v s = Ok (tt, s') /\ st_ok s' /\ inert s s' /\
      get i s' = Ok (conv v, s') /\
      (forall j x, 0 <= j < rang -> j <> i -> get j s = Ok (x, s) -> get j s' = Ok (x, s')) /\
      (forall q, q <> r -> same_region q s s') }.

Lemma st_ok_inert s s' : wf_elem (elem s') -> inert s s' -> st_ok s -> st_ok s'.
Proof. intros W (_ & F & _) [_ D]. split; [done|]. unfold nested. by rewrite F. Qed.

#[global] Instance word_port r : r <> C32_VALUE -> r <> T_START ->
  Port r (rd r) (wr r) (rsize r) word_ok (fun v => v).
Proof.
  intros R1 R2. split. intros i v s [W D] Hi Hv. exists (upd r i v s).
  assert (Hw := wr_upd r i v s W Hi). assert (W' := upd_wf r i v s W Hi).
  assert (Hin : inert s (upd r i v s)) by exact (wr_inert _ _ _ _ _ _ Hw).
  assert (Hc : rconv r v = v) by (destruct r; try done; by apply u16_id).
  split_and!; [done|by apply (st_ok_inert s)|done| | |].
  - rewrite rd_cell, cell_upd, decide_True, Hc by done. done.
  - intros j x Hj Hne Hx. rewrite rd_cell in * by done. rewrite cell_upd, decide_False by naive_solver.
    congruence.
  - intros q Hq. exact (wr_frame r q i v (not_eq_sym Hq) _ _ _ Hw).
Qed.

Lemma bit_of_get r i b (s : plc_st) : wf_elem (elem s) -> 0 <= i < 2 ^ 16 -> i < 16 * rsize r ->
  bit_of (elem s) r i = Some b -> plc_get_bit_element_value r i s = Ok (Z.b2z b, s).
Proof.
  intros W Hi Hr Hb. destruct (get_bit_run r i s W Hi Hr) as (b' & -> & Hb'). congruence.
Qed.
#[global] Instance bit_port r rang : bit_region r -> rang <= 16 * rsize r -> rang <= 2 ^ 16 ->
  Port r (plc_get_bit_element_value r) (plc_set_bit_element_value r) rang byte_ok (fun v => Z.b2z (truthy v)).
Proof.
  intros R H1 H2. split. intros i v s [W D] Hi Hv.
  destruct (set_bit_run r i v s W R ltac:(lia) ltac:(lia) Hv) as (s' & Hs & [U _] & W').
  assert (Hin : inert s s') by exact (set_bit_inert _ _ _ _ _ _ Hs).
  exists s'. split_and!; [done|by apply (st_ok_inert s)|done| | |].
  - apply bit_of_get; [done|lia|lia|]. rewrite U, decide_True by (try done; lia). done.
  - intros j x Hj Hne Hx. destruct (get_bit_run r j s W ltac:(lia) ltac:(lia)) as (b & Hb & Ho).
    rewrite Hb in Hx. injection Hx as <-. apply bit_of_get; [done|lia|lia|].
    rewrite U, decide_False by (try (intros [_ ?]; done); lia). done.
  - intros q Hq. exact (set_bit_frame r q i v (not_eq_sym Hq) _ _ _ Hs).
Qed.

#[global] Instance lm_port : Port LM_ELEMENT (get_lm_layer 0) (set_lm_layer 0) LM_RANG byte_ok
  (fun v => Z.b2z (truthy v)).
Proof.
  split. intros i v s [W D] Hi Hv.
  assert (D0 : 0 <= nested s + 0 < MAX_SBR_NESTED_LAYER) by lia.
  destruct (set_lm_run (nested s + 0) i v s W D0 Hi Hv) as (s' & Hs & [U _] & W').
  assert (Hin : inert s s') by exact (set_lm_inert _ _ _ _ _ _ Hs).
  assert (Hn : nested s' = nested s) by (unfold nested; by destruct Hin as (_ & -> & _)).
  assert (G : forall j, 0 <= j < LM_RANG -> get_lm_layer 0 j s' = plc_get_lm_element_value (nested s + 0) j s').
  { intros j Hj. rewrite <- Hn. done. }
  exists s'. split_and!; [done|by apply (st_ok_inert s)|done| | |].
  - rewrite G by done. destruct (get_lm_run (nested s + 0) i s' W' D0 Hi) as (b & Hb & Ho).
    rewrite U, decide_True in Ho by (try done; unfold LM_RANG, MAX_SBR_NESTED_LAYER in *; lia). congruence.
  - intros j x Hj Hne Hx. rewrite G by done.
    destruct (get_lm_run (nested s + 0) j s W D0 Hj) as (b & Hb & Ho).
    destruct (get_lm_run (nested s + 0) j s' W' D0 Hj) as (b' & Hb' & Ho').
    change (get_lm_layer 0 j s) with (plc_get_lm_element_value (nested s + 0) j s) in Hx.
    rewrite U, decide_False in Ho' by (unfold LM_RANG, MAX_SBR_NESTED_LAYER in *; lia). congruence.
  - intros q Hq. exact (set_lm_frame q (nested s + 0) i v (not_eq_sym Hq) _ _ _ Hs).
Qed.

#[global] Instance v_port : Port V_ELEMENT (get_v_layer 0) (set_v_layer 0) V_RANG word_ok (fun v => v).
Proof.
  split. intros i v s [W D] Hi Hv. pose proof (word_port V_ELEMENT ltac:(done) ltac:(done)) as [L].
  unfold V_RANG, MAX_SBR_NESTED_LAYER in *. change (rsize V_ELEMENT) with 512 in *.
  destruct (L (V_RANG * (nested s + 0) + i) v s) as (s' & Hs & Hok & Hin & Hg & Ho & Hf);
    [done|unfold V_RANG; lia|done|].
  assert (Hn : nested s' = nested s) by (unfold nested; by destruct Hin as (_ & -> & _)).
  exists s'. split_and!; [done..| | |done].
  - unfold get_v_layer, get_nested. change (rd V_ELEMENT (V_RANG * (nested s' + 0) + i) s' = Ok (v, s')).
    by rewrite Hn.
  - intros j x Hj Hne Hx. change (rd V_ELEMENT (V_RANG * (nested s' + 0) + j) s' = Ok (x, s')).
    rewrite Hn. apply Ho; [unfold V_RANG; lia|lia|done].
Qed.

(** ** Bit strings: what is written low bit first is read back high bit first *)
Lemma u16_add_inj x y b : 0 <= x - y < 2 ^ 16 -> u16 (x + b) = u16 (y + b) -> x = y.
Proof.
  intros H E. unfold u16 in E. assert (Hd : (x + b - (y + b)) mod 2 ^ 16 = 0).
  { rewrite Zminus_mod, E, Z.sub_diag. done. }
  rewrite Z.mod_small in Hd by lia. lia.
Qed.
Lemma low_bit v : 0 <= v -> Z.b2z (truthy (u8 (Z.land v 1))) = Z.b2z (Z.testbit v 0).
Proof.
  intros Hv. change 1 with (Z.ones 1). rewrite Z.land_ones, Z.bit0_mod by lia. change (2 ^ 1) with 2.
  pose proof (Z.mod_pos_bound v 2 ltac:(lia)).
  assert (E : v mod 2 = 0 \/ v mod 2 = 1) by lia. by destruct E as [-> | ->].
Qed.
Lemma byte_ok_low v : byte_ok (u8 (Z.land v 1)).
Proof. apply u8_range. Qed.

Section kn_roundtrip.
Context (r : region) (get : Z -> Mc Z) (put : Z -> Z -> Mc unit) (rang : Z).
Context `{P : !Port r get put rang byte_ok (fun v => Z.b2z (truthy v))}.

(** The cells [base + temp .. base + temp + left) hold the bits of [v]. *)
Definition holds_bits (base temp : Z) (left : nat) (v : Z) (s : plc_st) : Prop :=
  forall k, temp <= k < temp + Z.of_nat left ->
    u16 (k + base) < rang /\ get (u16 (k + base)) s = Ok (Z.b2z (Z.testbit v (k - temp)), s).

Lemma kn_put_holds base left temp v v' s s' :
  st_ok s -> 0 <= v -> 0 <= temp -> temp + Z.of_nat left <= 32 ->
  kn_put put rang base left temp v s = Ok ((pdPASS, v'), s') ->
  st_ok s' /\ inert s s' /\ (forall q, q <> r -> same_region q s s') /\
  holds_bits base temp left v s' /\
  (forall j x, 0 <= j < rang -> (forall k, temp <= k < temp + Z.of_nat left -> j <> u16 (k + base)) ->
     get j s = Ok (x, s) -> get j s' = Ok (x, s')).
Proof.
  revert temp v s. induction left as [|n IH]; intros temp v s Hok Hv Ht H32 Hrun; cbn [kn_put] in Hrun.
  { injection Hrun as <- <-. split_and!; [done|done| | |done].
    - intros q _. reflexivity.
    - intros k Hk. lia. }
  destruct (Z.ltb_spec (u16 (temp + base)) rang) as [Hlt|]; [|discriminate Hrun].
  destruct (port_law (u16 (temp + base)) (u8 (Z.land v 1)) s Hok) as (s1 & Hp & Hok1 & Hi1 & Hg1 & Ho1 & Hf1).
  { split; [apply u16_range|done]. } { apply byte_ok_low. }
  rewrite (bind_run _ _ _ _ _ Hp) in Hrun. rewrite low_bit in Hg1 by done.
  destruct (IH (temp + 1) (Z.shiftr v 1) s1) as (Hok' & Hi' & Hf' & Hb' & Ho');
    [done|by apply Z.shiftr_nonneg|lia|lia|done|].
  split_and!; [done|by etrans|intros q Hq; etrans; [by apply Hf1|by apply Hf']| |].
  - intros k Hk. destruct (decide (k = temp)) as [->|Hne].
    + split; [done|]. apply Ho'; [split; [apply u16_range|done]| |by rewrite Z.sub_diag].
      intros k' Hk' E. symmetry in E. apply u16_add_inj in E; lia.
    + destruct (Hb' k ltac:(lia)) as [? Hg]. split; [done|]. rewrite Hg. do 3 f_equal.
      rewrite Z.shiftr_spec by lia. f_equal. lia.
  - intros j x Hj Hne Hg. apply Ho'; [done|intros k Hk; apply Hne; lia|].
    apply Ho1; [done|apply Hne; lia|done].
Qed.

Lemma kn_get_bits w base temp v acc s : 0 < w -> 0 <= v -> 0 <= acc < 2 ^ w ->
  holds_bits base 0 temp v s ->
  kn_get get w rang base temp acc s = Ok ((pdPASS, (acc * 2 ^ Z.of_nat temp + v mod 2 ^ Z.of_nat temp) mod 2 ^ w), s).
Proof.
  intros Hw Hv. revert acc. induction temp as [|n IH]; intros acc Ha Hb; cbn [kn_get].
  - change (2 ^ Z.of_nat 0) with 1. by rewrite Z.mod_1_r, Z.mul_1_r, Z.add_0_r, Z.mod_small by lia.
  - destruct (Hb (Z.of_nat n) ltac:(lia)) as [Hlt Hg]. rewrite Z.sub_0_r in Hg.
    replace (Z.of_nat (Datatypes.S n) + base - 1) with (Z.of_nat n + base) by lia.
    apply Z.ltb_lt in Hlt as ->. rewrite (bind_run _ _ _ _ _ Hg).
    rewrite IH; [|apply Z.mod_pos_bound; apply Z.pow_pos_nonneg; lia|intros k Hk; apply Hb; lia].
    do 3 f_equal. rewrite Nat2Z.inj_succ, Z.pow_succ_r by lia.
    assert (Hs : v mod (2 * 2 ^ Z.of_nat n) =
      Z.b2z (Z.testbit v (Z.of_nat n)) * 2 ^ Z.of_nat n + v mod 2 ^ Z.of_nat n).
    { rewrite Z.testbit_spec' by lia. rewrite (Z.mul_comm 2), Z.rem_mul_r by lia. lia. }
    rewrite Hs, <- (Zplus_mod_idemp_l (_ mod _ * _)), Zmult_mod_idemp_l, Zplus_mod_idemp_l.
    f_equal. rewrite Z.shiftl_mul_pow2 by lia. change (2 ^ 1) with 2. lia.
Qed.

(** One value through [kn_write] and back through [kn_read]. *)
Lemma kn_roundtrip w kn start off v l s s' :
  st_ok s -> 0 <= v < 2 ^ w -> 0 < w <= 32 -> 1 <= kn -> 4 * kn <= w ->
  kn_write put rang kn start off [v] s = Ok ((pdPASS, l), s') ->
  st_ok s' /\ inert s s' /\ (forall q, q <> r -> same_region q s s') /\
  kn_read get w rang kn start off 1 s' = Ok ((pdPASS, [v mod 2 ^ (4 * kn)]), s').
Proof.
  intros Hok Hv Hw Hk Hkw Hrun. cbn [kn_write] in Hrun. unfold mbind, M_bind in Hrun.
  destruct (kn_put _ _ _ _ _ _ s) as [[[r1 v1] s1]| |] eqn:E; [|discriminate..]. cbn [fst snd] in Hrun.
  destruct (Z.eqb_spec r1 pdPASS) as [->|Hne].
  2:{ injection Hrun as ? ? ?. congruence. }
  injection Hrun as <- <-.
  destruct (kn_put_holds (start + off * 4 * kn) (Z.to_nat (4 * kn)) 0 v v1 s s1)
    as (Hok' & Hi & Hf & Hb & _); [done|lia|lia|lia|done|].
  split_and!; [done..|]. cbn [kn_read].
  erewrite bind_run; [|apply kn_get_bits with (v := v); [lia|lia|split; [lia|by apply Z.pow_pos_nonneg; lia]|done]].
  cbn [fst snd]. change (pdPASS =? pdPASS) with true. cbv iota. unfold mbind, M_bind, mret, M_ret.
  do 3 f_equal. cbn [fst snd]. rewrite Z2Nat.id, Z.mul_0_l, Z.add_0_l by lia. f_equal.
  apply Z.mod_small. pose proof (Z.mod_pos_bound v (2 ^ (4 * kn)) ltac:(apply Z.pow_pos_nonneg; lia)).
  pose proof (Z.pow_le_mono_r 2 (4 * kn) w). lia.
Qed.
End kn_roundtrip.

(** ** Operands survive the writers *)
Lemma PU8_code a s s' m : ucode s' = ucode s -> GET_PU8_DATA a s = Ok (m, s) -> GET_PU8_DATA a s' = Ok (m, s').
Proof.
  intros Hu H. unfold GET_PU8_DATA in *. rewrite Hu.
  destruct (zlookup (ucode s) a); [|discriminate]. congruence.
Qed.
Lemma PU16_code a s s' n : ucode s' = ucode s -> GET_PU16_DATA a s = Ok (n, s) -> GET_PU16_DATA a s' = Ok (n, s').
Proof.
  intros Hu H. unfold GET_PU16_DATA, GET_PU8_DATA, mbind, M_bind in *. rewrite Hu.
  destruct (zlookup (ucode s) a); [|discriminate]. rewrite Hu.
  destruct (zlookup (ucode s) (a + 1)); [|discriminate].
  unfold mret, M_ret in *. congruence.
Qed.
Lemma operand_code a s s' m t n : ucode s' = ucode s -> operand a s m t n -> operand a s' m t n.
Proof.
  intros Hu [H1 H2 H3 H4 H5]. split; [by eapply PU8_code|by eapply PU8_code|by eapply PU16_code|done|done].
Qed.
Lemma operand_inert a s s' m t n : inert s s' -> operand a s m t n -> operand a s' m t n.
Proof. intros [Hu _]. by apply operand_code. Qed.

(** The Z element an indexed operand uses: unchanged by a write elsewhere. *)
Lemma index_stable a m n t off s s' : operand a s m t n -> m < Z_RANG -> st_ok s -> st_ok s' -> inert s s' ->
  same_region Z_ELEMENT s s' ->
  exists i, indexed_index a off s = Ok (i, s) /\ indexed_index a off s' = Ok (i, s') /\ 0 <= i.
Proof.
  intros O Hm [W _] [W' _] Hi Hz. pose proof (op_m_range _ _ _ _ _ O).
  assert (Hr : 0 <= m < rsize Z_ELEMENT) by (change (rsize Z_ELEMENT) with Z_RANG; lia).
  pose proof (operand_inert _ _ _ _ _ _ Hi O) as O'.
  exists (u16 (cell Z_ELEMENT m s + n + off)). split_and!; [| |apply u16_range]; unfold indexed_index.
  - rewrite (bind_run _ _ _ _ _ (op_m _ _ _ _ _ O)), (bind_run _ _ _ _ _ (rd_cell (S := plc_st) Z_ELEMENT m s W Hr)).
    by rewrite (bind_run _ _ _ _ _ (op_n _ _ _ _ _ O)).
  - rewrite (bind_run _ _ _ _ _ (op_m _ _ _ _ _ O')), (bind_run _ _ _ _ _ (rd_cell (S := plc_st) Z_ELEMENT m s' W' Hr)).
    rewrite (bind_run _ _ _ _ _ (op_n _ _ _ _ _ O')). do 3 f_equal.
    unfold cell. unfold same_region, same in Hz. by rewrite Hz.
Qed.
Lemma nibble_stable m s s' : st_ok s -> st_ok s' -> same_region Z_ELEMENT s s' -> exists z,
  rd Z_ELEMENT (Z.land m 15) s = Ok (z, s) /\ rd Z_ELEMENT (Z.land m 15) s' = Ok (z, s').
Proof.
  intros [W _] [W' _] Hz. pose proof (nibble_range m). exists (cell Z_ELEMENT (Z.land m 15) s).
  rewrite !rd_cell by done. split; [done|]. do 2 f_equal.
  unfold cell. unfold same_region, same in Hz. by rewrite Hz.
Qed.

(** ** Round trip of one word *)
Definition kn_of (t : addr_type) (m : Z) : option Z :=
  match t with
  | ADDR_KnY | ADDR_KnM | ADDR_KnS | ADDR_KnLM => Some m
  | ADDR_KnYZ | ADDR_KnMZ | ADDR_KnSZ | ADDR_KnLMZ => Some (Z.shiftr (Z.land m 0xF0) 4)
  | _ => None
  end.
(** A bit string of [kn] nibbles keeps the low [4 kn] bits. *)
Definition readback (t : addr_type) (m v : Z) : Z :=
  match kn_of t m with Some kn => v mod 2 ^ (4 * kn) | None => v end.

Section roundtrip.
Context (a m n v : Z) (t : addr_type) (s s' : plc_st) (l : list Z).
Context (Hok : st_ok s) (O : operand a s m t n) (Hv : word_ok v).

(** What the caller gets: the writer's run and the reader's. *)
Definition back (m1 : Mc (Z * list Z)) (m2 : Mc (Z * list Z)) : Prop :=
  m1 s = Ok ((pdPASS, l), s') -> m2 s' = Ok ((pdPASS, [readback t m v]), s').

Section words.
Context (r : region) (get : Z -> Mc Z) (put : Z -> Z -> Mc unit) (rang : Z).
Context {P : Port r get put rang word_ok (fun v => v)} (Ht : kn_of t m = None).

Lemma seq_back wrang rrang i : 0 <= i -> wrang <= rang -> wrang <= rrang ->
  unshifted [v] (write_seq put wrang 1 i [v]) s = Ok ((pdPASS, l), s') ->
  st_ok s' /\ inert s s' /\ (forall q, q <> r -> same_region q s s') /\
  read_seq get rrang 1 i 1 s' = Ok ((pdPASS, [readback t m v]), s').
Proof.
  intros Hi H1 H2 Hrun. unfold unshifted in Hrun. cbn [write_seq] in Hrun.
  destruct (Z.ltb_spec i wrang); [|discriminate Hrun].
  destruct (port_law i v s Hok) as (s1 & Hp & Hok1 & Hi1 & Hg & _ & Hf); [lia|done|].
  unfold mbind at 1, M_bind at 1 in Hrun. rewrite (bind_run _ _ _ _ _ Hp) in Hrun.
  injection Hrun as <- <-. split_and!; [done..|]. cbn [read_seq].
  assert (i <? rrang = true) as -> by lia. rewrite (bind_run _ _ _ _ _ Hg).
  unfold readback. by rewrite Ht.
Qed.
Lemma direct_back wrang rrang : wrang <= rang -> wrang <= rrang ->
  back (i ← direct_index a 0; unshifted [v] (write_seq put wrang 1 i [v]))
       (i ← direct_index a 0; read_seq get rrang 1 i 1).
Proof.
  intros H1 H2 Hrun. rewrite (bind_run _ _ _ _ _ (direct_index_run _ _ _ _ _ O 0)) in Hrun.
  apply seq_back with (rrang := rrang) in Hrun as (Hok' & Hi & _ & Hr); [|apply u16_range|done..].
  by rewrite (bind_run _ _ _ _ _ (direct_index_run _ _ _ _ _ (operand_inert _ _ _ _ _ _ Hi O) 0)).
Qed.
Lemma indexed_back wrang rrang : m < Z_RANG -> r <> Z_ELEMENT -> wrang <= rang -> wrang <= rrang ->
  back (i ← indexed_index a 0; unshifted [v] (write_seq put wrang 1 i [v]))
       (i ← indexed_index a 0; read_seq get rrang 1 i 1).
Proof.
  intros Hm Hz H1 H2 Hrun. destruct (indexed_index_run _ _ _ _ _ (proj1 Hok) O 0 Hm) as (i & Hx & Hi).
  rewrite (bind_run _ _ _ _ _ Hx) in Hrun.
  apply seq_back with (rrang := rrang) in Hrun as (Hok' & Hin & Hf & Hr); [|lia|done..].
  destruct (index_stable _ _ _ _ 0 _ _ O Hm Hok Hok' Hin (Hf _ (not_eq_sym Hz))) as (i' & Hi1 & Hi2 & _).
  assert (i' = i) as -> by congruence. by rewrite (bind_run _ _ _ _ _ Hi2).
Qed.
End words.

Section bits.
Context (r : region) (get : Z -> Mc Z) (put : Z -> Z -> Mc unit) (rang : Z).
Context {P : Port r get put rang byte_ok (fun v => Z.b2z (truthy v))}.
Lemma kn_back : kn_of t m = Some m -> back (kn_put_words a [v] 0 put rang) (kn_words a 0 1 get rang).
Proof.
  intros Ht Hrun. unfold kn_put_words, kn_words, kn_direct in *.
  rewrite (bind_run _ _ _ _ _ (op_m _ _ _ _ _ O)) in Hrun.
  destruct (Z.ltb_spec m 1); [discriminate Hrun|]. destruct (Z.ltb_spec 4 m); [discriminate Hrun|].
  cbn [orb] in Hrun. rewrite (bind_run _ _ _ _ _ (op_n _ _ _ _ _ O)) in Hrun.
  apply (kn_roundtrip r get put rang 16) in Hrun as (Hok' & Hi & _ & Hr); [|done|done|lia..].
  pose proof (operand_inert _ _ _ _ _ _ Hi O) as O'.
  rewrite (bind_run _ _ _ _ _ (op_m _ _ _ _ _ O')).
  assert ((m <? 1) || (4 <? m) = false) as -> by lia.
  rewrite (bind_run _ _ _ _ _ (op_n _ _ _ _ _ O')). unfold readback. by rewrite Ht.
Qed.
Lemma knz_back : r <> Z_ELEMENT -> kn_of t m = Some (Z.shiftr (Z.land m 0xF0) 4) ->
  back (knz_put_words a [v] 0 put rang) (knz_words a 0 1 get rang).
Proof.
  intros Hz Ht Hrun. unfold knz_put_words, knz_words, kn_indexed in *.
  rewrite (bind_run _ _ _ _ _ (op_m _ _ _ _ _ O)) in Hrun.
  destruct (rd_run (S := plc_st) Z_ELEMENT (Z.land m 15) s (proj1 Hok) (nibble_range m)) as (z & Hr0 & _).
  set (kn := Z.shiftr (Z.land m 240) 4) in *.
  destruct (Z.ltb_spec kn 1); [discriminate Hrun|]. destruct (Z.ltb_spec 4 kn); [discriminate Hrun|].
  cbn [orb] in Hrun. rewrite (bind_run _ _ _ _ _ Hr0), (bind_run _ _ _ _ _ (op_n _ _ _ _ _ O)) in Hrun.
  apply (kn_roundtrip r get put rang 16) in Hrun as (Hok' & Hi & Hf & Hr); [|done|done|lia..].
  pose proof (operand_inert _ _ _ _ _ _ Hi O) as O'.
  destruct (nibble_stable m s s' Hok Hok' (Hf _ (not_eq_sym Hz))) as (z' & Hz1 & Hz2).
  assert (z' = z) as -> by congruence. rewrite (bind_run _ _ _ _ _ (op_m _ _ _ _ _ O')). fold kn.
  assert ((kn <? 1) || (4 <? kn) = false) as -> by lia.
  rewrite (bind_run _ _ _ _ _ Hz2), (bind_run _ _ _ _ _ (op_n _ _ _ _ _ O')). unfold readback. by rewrite Ht.
Qed.
End bits.
End roundtrip.

(** C3: what [save_word] stores in an operand of any addressing type but the
    local variables [ADDR_V], [get_word] on the same operand delivers: the
    whole word for word elements, and of a bit string, which has room for no
    more, the low [4 Kn] bits. Of a directly indexed operand the modifier byte
    must name one of the 16 Z elements. *)
Theorem save_get_word a m n v t l s s' :
  wf_elem (elem s) -> 0 <= nested s < MAX_SBR_NESTED_LAYER -> operand a s m t n ->
  (z_modified t = true -> m < Z_RANG) -> 0 <= v < 2 ^ 16 -> t <> ADDR_V ->
  save_word a [v] 0 s = Ok ((pdPASS, l), s') ->
  get_word a 0 1 s' = Ok ((pdPASS, [readback t m v]), s').
Proof.
  intros W D O Hz Hv HV Hrun. assert (Hok : st_ok s) by done.
  assert (Hin : inert s s') by exact (save_word_respects inert _ _ _ _ _ _ Hrun).
  pose proof (operand_inert _ _ _ _ _ _ Hin O) as O'. unfold save_word, get_word in *.
  rewrite (bind_run _ _ _ _ _ (op_t _ _ _ _ _ O)), addr_decode_code in Hrun.
  rewrite (bind_run _ _ _ _ _ (op_t _ _ _ _ _ O')), addr_decode_code.
  revert Hrun. fold (back v m t s s' l (save_word_knz a [v] 0 t) (get_word_knz a 0 1 t)).
  destruct t; cbn [save_word_knz save_word_indexed save_word_direct save_word_kn
    get_word_knz get_word_indexed get_word_direct get_word_kn]; try done; try (intros H; discriminate H).
  all: lazymatch goal with
    | |- put_words_direct _ _ _ ?r _ _ = _ -> _ =>
        eapply (direct_back a m n v _ s s' l) with (P := word_port r ltac:(done) ltac:(done))
    | |- put_words_indexed _ _ _ ?r _ _ = _ -> _ =>
        eapply (indexed_back a m n v _ s s' l) with (P := word_port r ltac:(done) ltac:(done))
    | |- kn_put_words _ _ _ (plc_set_bit_element_value ?r) ?rang _ = _ -> _ =>
        eapply (kn_back a m n v _ s s' l) with (P := bit_port r rang ltac:(done) ltac:(done) ltac:(done))
    | |- knz_put_words _ _ _ (plc_set_bit_element_value ?r) ?rang _ = _ -> _ =>
        eapply (knz_back a m n v _ s s' l) with (P := bit_port r rang ltac:(done) ltac:(done) ltac:(done))
    | |- kn_put_words _ _ _ (set_lm_layer 0) _ _ = _ -> _ =>
        eapply (kn_back a m n v _ s s' l) with (P := lm_port)
    | |- knz_put_words _ _ _ (set_lm_layer 0) _ _ = _ -> _ =>
        eapply (knz_back a m n v _ s s' l) with (P := lm_port)
    | |- _ => eapply (indexed_back a m n v _ s s' l) with (P := v_port)
    end; first [exact Hok | exact O | exact Hv | by apply Hz | done].
Qed.
Lemma get_word_safe_witness : exists x, get_word 0 0 1 (st0 [0; 0x11; 5; 0]) = Ok (x, st0 [0; 0x11; 5; 0]).
Proof.
  destruct (get_word_safe 0 0 5 0 1 ADDR_D (st0 [0; 0x11; 5; 0])) as (x & H & _);
    [apply wf_elem0|zconc|by split; [..|zconc|zconc]|discriminate|]. by exists x.
Defined.
Lemma save_get_word_witness : exists l s',
  save_word 0 [0xABC] 0 (st0 [2; 0x0E; 5; 0]) = Ok ((pdPASS, l), s') /\
  get_word 0 0 1 s' = Ok ((pdPASS, [0xBC]), s').
Proof.
  destruct (result_run (save_word 0 [0xABC] 0) (st0 [2; 0x0E; 5; 0]) (pdPASS, [0xA])) as [s' E];
    [vm_compute; reflexivity|]. exists [0xA], s'. split; [exact E|].
  apply (save_get_word 0 2 5 0xABC ADDR_KnM [0xA] (st0 [2; 0x0E; 5; 0]));
    [apply wf_elem0|zconc|by split; [..|zconc|zconc]|discriminate|zconc|discriminate|exact E].
Defined.

(** ** Where the two sides disagree *)

(** A word written to a local variable (type [ADDR_V]) by [save_word]
    cannot be read back: the write succeeds, in the layer above the running
    subroutine, and [get_word], which reads the running layer, still delivers
    the old word. *)
Theorem local_variable_write_lost a m n v s :
  wf_elem (elem s) -> 0 <= nested s -> nested s + 1 < MAX_SBR_NESTED_LAYER ->
  operand a s m ADDR_V n -> n < V_RANG -> 0 <= v < 2 ^ 16 ->
  exists s' old, get_word a 0 1 s = Ok ((pdPASS, [old]), s) /\
    save_word a [v] 0 s = Ok ((pdPASS, [v]), s') /\
    get_word a 0 1 s' = Ok ((pdPASS, [old]), s').
Proof.
  intros W D1 D2 O Hn Hv. pose proof (op_n_range _ _ _ _ _ O) as Hn0.
  assert (L : forall k, 0 <= k <= 1 -> 0 <= V_RANG * (nested s + k) + n < rsize V_ELEMENT).
  { intros k Hk. change (rsize V_ELEMENT) with (V_RANG * MAX_SBR_NESTED_LAYER).
    unfold V_RANG, MAX_SBR_NESTED_LAYER in *. lia. }
  assert (G : forall s1, operand a s1 m ADDR_V n -> wf_elem (elem s1) -> nested s1 = nested s ->
    get_word a 0 1 s1 = Ok ((pdPASS, [cell V_ELEMENT (V_RANG * (nested s + 0) + n) s1]), s1)).
  { intros s1 O1 W1 E1. unfold get_word.
    rewrite (bind_run _ _ _ _ _ (op_t _ _ _ _ _ O1)), addr_decode_code.
    cbn [get_word_knz get_word_indexed get_word_direct]. rewrite (bind_run _ _ _ _ _ (direct_index_run _ _ _ _ _ O1 0)).
    rewrite Z.add_0_r, u16_id by done. cbn [read_seq]. assert (n <? V_RANG = true) as -> by lia.
    assert (H : get_v_layer 0 n s1 = Ok (cell V_ELEMENT (V_RANG * (nested s + 0) + n) s1, s1)).
    { rewrite <- E1. apply (rd_cell (S := plc_st)); [done|]. rewrite E1. apply L. lia. }
    by rewrite (bind_run _ _ _ _ _ H). }
  exists (upd V_ELEMENT (V_RANG * (nested s + 1) + n) v s), (cell V_ELEMENT (V_RANG * (nested s + 0) + n) s).
  assert (Hs : save_word a [v] 0 s = Ok ((pdPASS, [v]), upd V_ELEMENT (V_RANG * (nested s + 1) + n) v s)).
  { unfold save_word. rewrite (bind_run _ _ _ _ _ (op_t _ _ _ _ _ O)), addr_decode_code.
    cbn [save_word_knz save_word_indexed save_word_direct]. rewrite (bind_run _ _ _ _ _ (direct_index_run _ _ _ _ _ O 0)).
    rewrite Z.add_0_r, u16_id by done. unfold unshifted. cbn [write_seq].
    assert (n <? V_RANG = true) as -> by lia.
    assert (H : set_v_layer 1 n v s = Ok (tt, upd V_ELEMENT (V_RANG * (nested s + 1) + n) v s)).
    { apply (wr_upd (S := plc_st)); [done|]. apply L. lia. }
    unfold mbind at 1, M_bind at 1. by rewrite (bind_run _ _ _ _ _ H). }
  split_and!; [by apply G|done|]. rewrite G; [|by eapply operand_inert; [exact (save_word_respects inert _ _ _ _ _ _ Hs)|]
    |apply upd_wf; [done|apply L; lia]|done].
  rewrite cell_upd, decide_False; [done|unfold V_RANG; lia|done|apply L; lia].
Qed.
Lemma local_variable_write_lost_witness : exists s',
  save_word 0 [7] 0 (st0 [0; 0x16; 3; 0]) = Ok ((pdPASS, [7]), s') /\
  get_word 0 0 1 s' = Ok ((pdPASS, [0]), s').
Proof.
  destruct (local_variable_write_lost 0 0 3 7 (st0 [0; 0x16; 3; 0])) as (s' & old & H1 & H2 & H3);
    [apply wf_elem0|zconc|zconc|by split; [..|zconc|zconc]|zconc|zconc|].
  apply (f_equal result) in H1. vm_compute in H1. injection H1 as <-. exists s'. by split.
Defined.

(** The bit of a timer or counter (types [ADDR_bT], [ADDR_bC]) can be
    read by [get_char] and cannot be written by [save_char], which refuses
    the type: its cases test the codes of the word types instead. *)
Theorem char_types_disagree a m n v t s :
  wf_elem (elem s) -> operand a s m t n -> t = ADDR_bT \/ t = ADDR_bC -> n < T_RANG ->
  (exists b, get_char a 0 1 s = Ok ((pdPASS, [b]), s)) /\ save_char a [v] 0 s = Ok (ERR_ELEMENT_TYPE, s).
Proof.
  intros W O Ht Hn. pose proof (op_n_range _ _ _ _ _ O) as Hn0.
  unfold get_char, save_char. rewrite !(bind_run _ _ _ _ _ (op_t _ _ _ _ _ O)), addr_decode_code.
  unfold T_RANG in Hn. destruct Ht as [-> | ->]; cbn [get_char_indexed get_char_direct]; split; try done;
    unfold bits_direct; rewrite (bind_run _ _ _ _ _ (direct_index_run _ _ _ _ _ O 0)), Z.add_0_r, u16_id by done;
    cbn [read_seq]; [assert (n <? T_RANG = true) as -> by (unfold T_RANG; lia)|assert (n <? C_RANG = true) as -> by (unfold C_RANG; lia)].
  - destruct (get_bit_run (S := plc_st) T_ELEMENT n s W) as (b & Hb & _); [done|change (n < 512); lia|].
    rewrite (bind_run _ _ _ _ _ Hb). by eexists.
  - destruct (get_bit_run (S := plc_st) C_ELEMENT n s W) as (b & Hb & _); [done|change (n < 512); lia|].
    rewrite (bind_run _ _ _ _ _ Hb). by eexists.
Qed.
Lemma char_types_disagree_witness :
  save_char 0 [1] 0 (st0 [0; 0x03; 3; 0]) = Ok (ERR_ELEMENT_TYPE, st0 [0; 0x03; 3; 0]).
Proof.
  apply (char_types_disagree 0 0 3 1 ADDR_bT (st0 [0; 0x03; 3; 0]));
    [apply wf_elem0|by split; [..|zconc|zconc]|by left|zconc].
Defined.

(** The address of an indexed double word cannot be computed: the byte
    taken as the number of the Z element is the addressing type, 0x32 or
    0x31, and there are 16 Z elements. *)
Theorem dword_addr_indexed_undefined a m n num t s :
  wf_elem (elem s) -> operand a s m t n -> t = ADDR_DZ \/ t = ADDR_RZ -> get_dword_addr a num s = Ub.
Proof.
  intros W O Ht. unfold get_dword_addr. rewrite (bind_run _ _ _ _ _ (op_t _ _ _ _ _ O)), addr_decode_code.
  assert (H : forall i, Z_RANG <= i -> rd (S := plc_st) Z_ELEMENT i s = Ub).
  { intros i Hi. unfold rd. destruct (zlookup _ i) eqn:E; [|done]. apply zlookup_lt in E.
    rewrite (wf_len _ W) in E. change (rsize Z_ELEMENT) with Z_RANG in E. lia. }
  destruct Ht as [-> | ->]; unfold get_dword_addr_z; rewrite (bind_run _ _ _ _ _ (op_t _ _ _ _ _ O));
    unfold mbind, M_bind; by rewrite H by (cbn; unfold Z_RANG; lia).
Qed.
Lemma dword_addr_indexed_undefined_witness : get_dword_addr 0 1 (st0 [0; 0x32; 4; 0]) = Ub.
Proof.
  apply (dword_addr_indexed_undefined 0 0 4 1 ADDR_DZ);
    [apply wf_elem0|by split; [..|zconc|zconc]|by left].
Defined.
