(* ===== verification/SimpleIns.v ===== *)
(** * Simple instructions: the power-flow interpreter

    Models plc/executer/src/plc_simpleins.c: [plc_exec_simple_instruction],
    which executes consecutive simple instructions with the power flow and the
    program counter in local variables, and the edge detectors it calls.
    The enumeration __PLC_SIMPLE_INS (plc_instruction.h) is a family per
    operation indexed by the element type; [si_code] gives its numbers. *)
From stdpp Require Import base list numbers sets.
From S2P Require Import Prelude Element Machine ParseAddr.

(** ** Instructions *)
Inductive contact : Set := cX | cY | cC | cT | cSM | cM | cS | cLM.
#[global] Instance contact_eq_dec : EqDecision contact.
Proof. solve_decision. Defined.
Inductive simple_ins : Set :=
| SI_LD (c : contact) | SI_LD_EXT (c : contact) | SI_LDI (c : contact) | SI_LDI_EXT (c : contact)
| SI_AND (c : contact) | SI_AND_EXT (c : contact) | SI_ANI (c : contact) | SI_ANI_EXT (c : contact)
| SI_OR (c : contact) | SI_OR_EXT (c : contact) | SI_ORI (c : contact) | SI_ORI_EXT (c : contact)
| SI_OUT (c : contact) | SI_OUT_EXT (c : contact) | SI_SET (c : contact) | SI_SET_EXT (c : contact)
| SI_RST (c : contact) | SI_RST_EXT (c : contact)
| SI_INV | SI_ANB | SI_ORB | SI_MPS | SI_MRD | SI_MPP | SI_NOP | SI_EU | SI_ED
| SI_LDP | SI_LDF | SI_ANDP | SI_ANDF | SI_ORP | SI_ORF | SI_PLP | SI_PLF.
#[global] Instance simple_ins_eq_dec : EqDecision simple_ins.
Proof. solve_decision. Defined.

(** Position of an element type in the opcode of a contact instruction. *)
Definition contact_code (c : contact) : Z :=
  match c with cX => 0 | cY => 1 | cC => 2 | cT => 3 | cSM => 4 | cM => 5 | cS => 6 | cLM => 7 end.
Definition si_code (i : simple_ins) : Z :=
  match i with
  | SI_LD c => 0x10 + contact_code c | SI_LD_EXT c => 0x18 + contact_code c
  | SI_LDI c => 0x20 + contact_code c | SI_LDI_EXT c => 0x28 + contact_code c
  | SI_AND c => 0x30 + contact_code c | SI_AND_EXT c => 0x38 + contact_code c
  | SI_ANI c => 0x40 + contact_code c | SI_ANI_EXT c => 0x48 + contact_code c
  | SI_OR c => 0x50 + contact_code c | SI_OR_EXT c => 0x58 + contact_code c
  | SI_ORI c => 0x60 + contact_code c | SI_ORI_EXT c => 0x68 + contact_code c
  | SI_OUT c => 0x70 + contact_code c | SI_OUT_EXT c => 0x78 + contact_code c
  | SI_SET c => 0x80 + contact_code c | SI_SET_EXT c => 0x88 + contact_code c
  | SI_RST c => 0x90 + contact_code c | SI_RST_EXT c => 0x98 + contact_code c
  | SI_INV => 0xA0 | SI_ANB => 0xA1 | SI_ORB => 0xA2 | SI_MPS => 0xA3 | SI_MRD => 0xA4
  | SI_MPP => 0xA5 | SI_NOP => 0xA6 | SI_EU => 0xA7 | SI_ED => 0xA8
  | SI_LDP => 0xB0 | SI_LDF => 0xB1 | SI_ANDP => 0xB2 | SI_ANDF => 0xB3
  | SI_ORP => 0xB4 | SI_ORF => 0xB5 | SI_PLP => 0xB6 | SI_PLF => 0xB7
  end.

(** The cases of the [switch]. Contacts exist for all eight types, the
    extended form for all but LM; coils for Y, SM and M, and set and reset
    also for LM. [SI_OUT_LM] (0x77) is in the enumeration and has no case. *)
Definition contacts : list contact := [cX; cY; cC; cT; cSM; cM; cS; cLM].
Definition contacts_ext : list contact := [cX; cY; cC; cT; cSM; cM; cS].
Definition si_cases : list simple_ins :=
  (SI_LD <$> contacts) ++ (SI_LD_EXT <$> contacts_ext) ++ (SI_LDI <$> contacts) ++ (SI_LDI_EXT <$> contacts_ext) ++
  (SI_AND <$> contacts) ++ (SI_AND_EXT <$> contacts_ext) ++ (SI_ANI <$> contacts) ++ (SI_ANI_EXT <$> contacts_ext) ++
  (SI_OR <$> contacts) ++ (SI_OR_EXT <$> contacts_ext) ++ (SI_ORI <$> contacts) ++ (SI_ORI_EXT <$> contacts_ext) ++
  (SI_OUT <$> [cY; cSM; cM]) ++ (SI_OUT_EXT <$> [cY; cSM; cM]) ++
  (SI_SET <$> [cY; cSM; cM; cLM]) ++ (SI_SET_EXT <$> [cY; cSM; cM]) ++
  (SI_RST <$> [cY; cSM; cM; cLM]) ++ (SI_RST_EXT <$> [cY; cSM; cM]) ++
  [SI_INV; SI_ANB; SI_ORB; SI_MPS; SI_MRD; SI_MPP; SI_NOP; SI_EU; SI_ED;
   SI_LDP; SI_LDF; SI_ANDP; SI_ANDF; SI_ORP; SI_ORF; SI_PLP; SI_PLF].
Definition si_decode (b : Z) : option simple_ins := List.find (fun i => si_code i =? b) si_cases.

(** ** Edge detectors; the edge number is the word at [env.mcp_PC] *)
Definition edge_number : Mc Z := pc ← get_PC; GET_PU16_DATA pc.
Definition run_eu_ins : Mc unit :=
  lsv_EdgeNum ← edge_number;
  init ← GET_EDGE_INIT_FLAG lsv_EdgeNum;
  if init : bool then
    RST_EDGE_INIT_FLAG lsv_EdgeNum;;
    pf ← GET_POWER_FLOW;
    (if pf : bool then SET_EDGE_VALUE lsv_EdgeNum else RST_EDGE_VALUE lsv_EdgeNum);;
    RST_POWER_FLOW
  else
    pf ← GET_POWER_FLOW;
    if pf : bool then
      v ← GET_EDGE_VALUE lsv_EdgeNum;
      (if v : bool then RST_POWER_FLOW else SET_POWER_FLOW);;
      SET_EDGE_VALUE lsv_EdgeNum
    else RST_EDGE_VALUE lsv_EdgeNum;; RST_POWER_FLOW.
Definition run_ed_ins : Mc unit :=
  lsv_EdgeNum ← edge_number;
  init ← GET_EDGE_INIT_FLAG lsv_EdgeNum;
  if init : bool then
    RST_EDGE_INIT_FLAG lsv_EdgeNum;;
    pf ← GET_POWER_FLOW;
    (if pf : bool then SET_EDGE_VALUE lsv_EdgeNum else RST_EDGE_VALUE lsv_EdgeNum);;
    RST_POWER_FLOW
  else
    pf ← GET_POWER_FLOW;
    if pf : bool then SET_EDGE_VALUE lsv_EdgeNum;; RST_POWER_FLOW
    else
      v ← GET_EDGE_VALUE lsv_EdgeNum;
      (if v : bool then SET_POWER_FLOW else RST_POWER_FLOW);;
      RST_EDGE_VALUE lsv_EdgeNum.
Definition run_eu_p_ins (lsv_charValue : Z) : Mc unit :=
  lsv_EdgeNum ← edge_number;
  init ← GET_EDGE_INIT_FLAG lsv_EdgeNum;
  (if init : bool then RST_EDGE_INIT_FLAG lsv_EdgeNum;; RST_POWER_FLOW
   else v ← GET_EDGE_VALUE lsv_EdgeNum;
        if negb v && truthy lsv_charValue then SET_POWER_FLOW else RST_POWER_FLOW);;
  if truthy lsv_charValue then SET_EDGE_VALUE lsv_EdgeNum else RST_EDGE_VALUE lsv_EdgeNum.
Definition run_ed_f_ins (lsv_charValue : Z) : Mc unit :=
  lsv_EdgeNum ← edge_number;
  init ← GET_EDGE_INIT_FLAG lsv_EdgeNum;
  (if init : bool then RST_EDGE_INIT_FLAG lsv_EdgeNum;; RST_POWER_FLOW
   else v ← GET_EDGE_VALUE lsv_EdgeNum;
        if v && negb (truthy lsv_charValue) then SET_POWER_FLOW else RST_POWER_FLOW);;
  if truthy lsv_charValue then SET_EDGE_VALUE lsv_EdgeNum else RST_EDGE_VALUE lsv_EdgeNum.

(** ** One instruction

    The local variables of the loop; [lsv_charValue] is not initialised
    before the first edge contact has been read. *)
Record si_locals := { llv_InPF : Z; lcp_UcodePC : Z; lsv_charValue : option Z }.
Definition with_pf (pf : Z) (l : si_locals) (len : Z) : si_locals :=
  {| llv_InPF := pf; lcp_UcodePC := lcp_UcodePC l + len; lsv_charValue := lsv_charValue l |}.
Definition pf_bit (b : bool) (pf : Z) : Z := if b then set_pf pf else rst_pf pf.

Definition contact_region (c : contact) : region :=
  match c with cX => X_ELEMENT | cY => Y_ELEMENT | cC => C_ELEMENT | cT => T_ELEMENT
  | cSM => SM_ELEMENT | cM => M_ELEMENT | cS => S_ELEMENT | cLM => LM_ELEMENT end.
Definition read_contact (c : contact) (i : Z) : Mc bool :=
  v ← (match c with
       | cLM => d ← get_nested; plc_get_lm_element_value d i
       | _ => plc_get_bit_element_value (contact_region c) i
       end);
  mret (truthy v).
Definition write_coil (c : contact) (i v : Z) : Mc unit :=
  match c with
  | cLM => d ← get_nested; plc_set_lm_element_value d i v
  | _ => plc_set_bit_element_value (contact_region c) i v
  end.
(** The element number: the low byte of a short instruction; of an extended
    one, a 12-bit page and a byte. *)
Definition short_index (pc : Z) : Mc Z := GET_PU8_DATA pc.
Definition ext_index (pc : Z) : Mc Z :=
  h ← GET_PU16_DATA (pc + 2); b ← GET_PU8_DATA pc; mret (u16 (Z.shiftl h 4 + b)).

Section groups.
Variables (c : contact) (index : Z -> Mc Z) (len : Z) (l : si_locals).
Let pf := llv_InPF l.
Let pc := lcp_UcodePC l.
Definition si_ld (neg : bool) : Mc si_locals :=
  i ← index pc; b ← read_contact c i; mret (with_pf (pf_bit (xorb neg b) (push_pf pf)) l len).
Definition si_and (neg : bool) : Mc si_locals :=
  if get_pf pf then
    i ← index pc; b ← read_contact c i;
    mret (with_pf (if xorb neg b then pf else rst_pf pf) l len)
  else mret (with_pf pf l len).
Definition si_or (neg : bool) : Mc si_locals :=
  if negb (get_pf pf) then
    i ← index pc; b ← read_contact c i;
    mret (with_pf (if xorb neg b then set_pf pf else pf) l len)
  else mret (with_pf pf l len).
Definition si_out : Mc si_locals :=
  i ← index pc; write_coil c i (if get_pf pf then 1 else 0);; mret (with_pf pf l len).
Definition si_put (v : Z) : Mc si_locals :=
  i ← index pc; when (get_pf pf) (write_coil c i v);; mret (with_pf pf l len).
End groups.

(** The instructions on the power flow alone. *)
Definition si_stack (i : simple_ins) (l : si_locals) : Mc si_locals :=
  let pf := llv_InPF l in
  match i with
  | SI_INV => mret (with_pf (Z.lxor pf 1) l 2)
  | SI_ANB => mret (with_pf (Z.shiftr (if Z.land pf 3 =? 3 then pf else Z.land pf 0xFFFFFFFC) 1) l 2)
  | SI_ORB => mret (with_pf (Z.shiftr (if Z.land pf 3 =? 0 then pf else Z.lor pf 2) 1) l 2)
  | SI_MPS =>
      modify (fun s => with_OutPF (u32 (Z.shiftl (mlv_OutPF (env s)) 1)) s);;
      modify (fun s => with_OutPF (Z.lor (mlv_OutPF (env s)) (Z.land pf 1)) s);;
      mret (with_pf pf l 2)
  | SI_MRD => o ← gets (fun s => mlv_OutPF (env s)); mret (with_pf (pf_bit (get_pf o) pf) l 2)
  | SI_MPP =>
      o ← gets (fun s => mlv_OutPF (env s));
      modify (fun s => with_OutPF (Z.shiftr (mlv_OutPF (env s)) 1) s);;
      mret (with_pf (pf_bit (get_pf o) pf) l 2)
  | _ => mret (with_pf pf l 2)
  end.

(** The instructions that hand the power flow to an edge detector through
    [ltp_RunEnv]; [off] is where the edge number stands. *)
Definition via_env (l : si_locals) (pf off len : Z) (m : Mc unit) : Mc si_locals :=
  modify (with_InPF pf);; set_PC (lcp_UcodePC l + off);; m;;
  pf' ← gets (fun s => mlv_InPF (env s)); mret (with_pf pf' l len).
(** [lcv_Ret = get_char_in_simpleIns(...)]: the code is ignored and an
    unreadable operand leaves the old value. *)
Definition edge_char (l : si_locals) : Mc si_locals :=
  rv ← get_char_in_simpleIns (lcp_UcodePC l);
  mret {| llv_InPF := llv_InPF l; lcp_UcodePC := lcp_UcodePC l;
          lsv_charValue := match rv.2 with Some v => Some v | None => lsv_charValue l end |}.
Definition edge_contact (l : si_locals) (pf : Z) (run : Z -> Mc unit) : Mc si_locals :=
  l' ← edge_char l; v ← of_option (lsv_charValue l'); via_env l' pf 4 6 (run v).
Definition edge_pulse (l : si_locals) (run : Mc unit) : Mc si_locals :=
  l' ← via_env l (llv_InPF l) 4 6 run;
  save_char_in_simpleIns (lcp_UcodePC l) (if get_pf (llv_InPF l') then 1 else 0);;
  mret l'.
Definition si_edge (i : simple_ins) (l : si_locals) : Mc si_locals :=
  let pf := llv_InPF l in
  match i with
  | SI_EU => via_env l pf 2 4 run_eu_ins
  | SI_ED => via_env l pf 2 4 run_ed_ins
  | SI_LDP => edge_contact l (push_pf pf) run_eu_p_ins
  | SI_LDF => edge_contact l (push_pf pf) run_ed_f_ins
  | SI_ANDP => if get_pf pf then edge_contact l pf run_eu_p_ins else mret (with_pf pf l 6)
  | SI_ANDF => if get_pf pf then edge_contact l pf run_ed_f_ins else mret (with_pf pf l 6)
  | SI_ORP => if negb (get_pf pf) then edge_contact l pf run_eu_p_ins else mret (with_pf pf l 6)
  | SI_ORF => if negb (get_pf pf) then edge_contact l pf run_ed_f_ins else mret (with_pf pf l 6)
  | SI_PLP => edge_pulse l run_eu_ins
  | SI_PLF => edge_pulse l run_ed_ins
  | _ => si_stack i l
  end.

(** The families of cases. *)
Section families.
Variables (c : contact) (l : si_locals).
Definition exec_LD : Mc si_locals := si_ld c short_index 2 l false.
Definition exec_LD_EXT : Mc si_locals := si_ld c ext_index 4 l false.
Definition exec_LDI : Mc si_locals := si_ld c short_index 2 l true.
Definition exec_LDI_EXT : Mc si_locals := si_ld c ext_index 4 l true.
Definition exec_AND : Mc si_locals := si_and c short_index 2 l false.
Definition exec_AND_EXT : Mc si_locals := si_and c ext_index 4 l false.
Definition exec_ANI : Mc si_locals := si_and c short_index 2 l true.
Definition exec_ANI_EXT : Mc si_locals := si_and c ext_index 4 l true.
Definition exec_OR : Mc si_locals := si_or c short_index 2 l false.
Definition exec_OR_EXT : Mc si_locals := si_or c ext_index 4 l false.
Definition exec_ORI : Mc si_locals := si_or c short_index 2 l true.
Definition exec_ORI_EXT : Mc si_locals := si_or c ext_index 4 l true.
Definition exec_OUT : Mc si_locals := si_out c short_index 2 l.
Definition exec_OUT_EXT : Mc si_locals := si_out c ext_index 4 l.
Definition exec_SET : Mc si_locals := si_put c short_index 2 l 1.
Definition exec_SET_EXT : Mc si_locals := si_put c ext_index 4 l 1.
Definition exec_RST : Mc si_locals := si_put c short_index 2 l 0.
Definition exec_RST_EXT : Mc si_locals := si_put c ext_index 4 l 0.
End families.

Definition si_exec (i : simple_ins) (l : si_locals) : Mc si_locals :=
  match i with
  | SI_LD c => exec_LD c l
  | SI_LD_EXT c => exec_LD_EXT c l
  | SI_LDI c => exec_LDI c l
  | SI_LDI_EXT c => exec_LDI_EXT c l
  | SI_AND c => exec_AND c l
  | SI_AND_EXT c => exec_AND_EXT c l
  | SI_ANI c => exec_ANI c l
  | SI_ANI_EXT c => exec_ANI_EXT c l
  | SI_OR c => exec_OR c l
  | SI_OR_EXT c => exec_OR_EXT c l
  | SI_ORI c => exec_ORI c l
  | SI_ORI_EXT c => exec_ORI_EXT c l
  | SI_OUT c => exec_OUT c l
  | SI_OUT_EXT c => exec_OUT_EXT c l
  | SI_SET c => exec_SET c l
  | SI_SET_EXT c => exec_SET_EXT c l
  | SI_RST c => exec_RST c l
  | SI_RST_EXT c => exec_RST_EXT c l
  | _ => si_edge i l
  end.

(** ** The loop *)
Definition si_finish (l : si_locals) : Mc unit :=
  modify (with_InPF (llv_InPF l));; set_PC (lcp_UcodePC l).
Definition si_step (l : si_locals) : Mc (si_locals + Z) :=
  w ← GET_PU16_DATA (lcp_UcodePC l);
  if w <? 0xE000 then
    mod_sys (with_BackupUserPc (lcp_UcodePC l));;
    op ← GET_PU8_DATA (lcp_UcodePC l + 1);
    match si_decode op with
    | Some i => l' ← si_exec i l; mret (inl l')
    | None => si_finish l;; mret (inr ERR_ILLEGAL_INSTRCTION)
    end
  else si_finish l;; mret (inr pdPASS).
Definition plc_exec_simple_instruction (fuel : nat) : Mc Z :=
  e ← gets env;
  loop fuel si_step {| llv_InPF := mlv_InPF e; lcp_UcodePC := mcp_PC e; lsv_charValue := None |}.
