(* ===== verification/SimpleFacts.v ===== *)
(** * Facts about the simple-instruction interpreter

    Termination, preservation of the memory's shape, the edge detectors as
    functions of the input history, and the power flow register as a stack of
    Booleans on which a ladder rung is evaluated. *)
From stdpp Require Import base list numbers sets.
From S2P Require Import Prelude Element Machine ParseAddr ParseAddrFacts SimpleIns.

(** ** Effects *)
Create HintDb si_fam.
#[export] Hint Unfold exec_LD exec_LD_EXT exec_LDI exec_LDI_EXT exec_AND exec_AND_EXT exec_ANI exec_ANI_EXT exec_OR exec_OR_EXT exec_ORI exec_ORI_EXT exec_OUT exec_OUT_EXT exec_SET exec_SET_EXT exec_RST exec_RST_EXT
  edge_number run_eu_ins run_ed_ins run_eu_p_ins run_ed_f_ins
  read_contact write_coil short_index ext_index si_ld si_and si_or si_out si_put
  via_env edge_char edge_contact edge_pulse si_finish
  SET_POWER_FLOW RST_POWER_FLOW RST_EDGE_INIT_FLAG SET_EDGE_VALUE RST_EDGE_VALUE GET_EDGE_INIT_FLAG
  GET_EDGE_VALUE GET_POWER_FLOW get_PC set_PC add_PC mod_sys get_nested : si.
Create HintDb si_fam.
#[export] Hint Unfold exec_LD exec_LD_EXT exec_LDI exec_LDI_EXT exec_AND exec_AND_EXT exec_ANI exec_ANI_EXT exec_OR exec_OR_EXT exec_ORI exec_ORI_EXT exec_OUT exec_OUT_EXT exec_SET exec_SET_EXT exec_RST exec_RST_EXT : si_fam.
Ltac si_solve := intros; repeat autounfold with si; repeat (apply _ || (intros ?; repeat autounfold with si)).

(** The parts of the store the interpreter never changes. *)
Definition fixed : relation plc_st := fun s s' => ucode s' = ucode s /\ flow s' = flow s /\ tick s' = tick s.
#[global] Instance fixed_preorder : PreOrder fixed.
Proof. split; unfold fixed, Reflexive, Transitive; [done|]. intros x y z (->&->&->). done. Qed.
Lemma inert_fixed {A} (m : Mc A) : Respects inert m -> Respects fixed m.
Proof. intros H s a s' E. destruct (H _ _ _ E) as (?&?&?&?&?). done. Qed.
#[global] Instance cells_fixed : Cells fixed.
Proof. intros r i v. by apply inert_fixed, wr_inert. Qed.
#[global] Instance wr_edge_fixed i e : Respects fixed (wr_edge i e).
Proof. by apply inert_fixed, wr_edge_inert. Qed.
#[global] Hint Extern 1 (fixed _ _) => (solve [by unfold fixed]) : typeclass_instances.
#[global] Hint Extern 2 (Respects fixed (modify _)) =>
  (apply respects_modify; intros ?; by unfold fixed) : typeclass_instances.

#[global] Instance si_exec_fixed i l : Respects fixed (si_exec i l).
Proof. destruct i; cbn [si_exec si_edge si_stack]; si_solve. Qed.
#[global] Instance si_exec_wf i l : Respects wf_mem (si_exec i l).
Proof. destruct i; cbn [si_exec si_edge si_stack]; si_solve. Qed.
#[global] Instance si_exec_halts i l : Halts (si_exec i l).
Proof. destruct i; cbn [si_exec si_edge si_stack]; si_solve. Qed.
#[global] Instance si_step_wf l : Respects wf_mem (si_step l).
Proof. unfold si_step. si_solve. Qed.
#[global] Instance si_step_fixed l : Respects fixed (si_step l).
Proof. unfold si_step. si_solve. Qed.
#[global] Instance si_step_halts l : Halts (si_step l).
Proof. unfold si_step. si_solve. Qed.

(** ** Termination *)
Definition si_len (i : simple_ins) : Z :=
  match i with
  | SI_LD_EXT _ | SI_LDI_EXT _ | SI_AND_EXT _ | SI_ANI_EXT _ | SI_OR_EXT _ | SI_ORI_EXT _ | SI_OUT_EXT _
  | SI_SET_EXT _ | SI_RST_EXT _ | SI_EU | SI_ED => 4
  | SI_LDP | SI_LDF | SI_ANDP | SI_ANDF | SI_ORP | SI_ORF | SI_PLP | SI_PLF => 6
  | _ => 2
  end.
Lemma via_env_pc l pf off len m : Gives (fun l' => lcp_UcodePC l' = lcp_UcodePC l + len) (via_env l pf off len m).
Proof. unfold via_env. apply _. Qed.
Lemma edge_char_pc l : Gives (fun l' => lcp_UcodePC l' = lcp_UcodePC l) (edge_char l).
Proof. unfold edge_char. apply _. Qed.
Lemma edge_contact_pc l pf run :
  Gives (fun l' => lcp_UcodePC l' = lcp_UcodePC l + 6) (edge_contact l pf run).
Proof.
  intros s l' s' E. unfold edge_contact in E. unfold mbind at 1, M_bind at 1 in E.
  destruct (edge_char l s) as [[l1 s1]| |] eqn:E1; try discriminate. apply edge_char_pc in E1.
  unfold mbind, M_bind in E. destruct (of_option _ _) as [[v s2]| |]; try discriminate.
  apply via_env_pc in E. by rewrite E, E1.
Qed.
Lemma edge_pulse_pc l run : Gives (fun l' => lcp_UcodePC l' = lcp_UcodePC l + 6) (edge_pulse l run).
Proof.
  intros s l' s' E. unfold edge_pulse in E. unfold mbind, M_bind in E.
  destruct (via_env _ _ _ _ _ s) as [[l1 s1]| |] eqn:E1; try discriminate. apply via_env_pc in E1.
  destruct (save_char_in_simpleIns _ _ _) as [[u s2]| |]; try discriminate. by injection E as <- <-.
Qed.
(** Every instruction moves the program counter past itself. *)
Lemma si_exec_pc i l : Gives (fun l' => lcp_UcodePC l' = lcp_UcodePC l + si_len i) (si_exec i l).
Proof.
  destruct i; cbn [si_exec si_edge si_stack si_len]; repeat autounfold with si_fam;
    unfold si_ld, si_and, si_or, si_out, si_put;
    first [apply _ | apply via_env_pc | apply edge_pulse_pc | apply edge_contact_pc
          | case_match; first [apply edge_contact_pc | apply _]].
Qed.
Lemma si_len_pos i : 2 <= si_len i.
Proof. by destruct i. Qed.

(** A step that continues has read an instruction inside the program. *)
Lemma si_step_progress l s l' s' : si_step l s = Ok (inl l', s') ->
  0 <= lcp_UcodePC l < Z.of_nat (length (ucode s)) /\ lcp_UcodePC l + 2 <= lcp_UcodePC l' /\ ucode s' = ucode s.
Proof.
  intros E. assert (F := si_step_fixed l s _ s' E). unfold si_step in E.
  unfold mbind at 1, M_bind at 1 in E.
  destruct (GET_PU16_DATA (lcp_UcodePC l) s) as [[w s1]| |] eqn:Ew; try discriminate.
  assert (Hb : 0 <= lcp_UcodePC l < Z.of_nat (length (ucode s))).
  { unfold GET_PU16_DATA, GET_PU8_DATA, mbind, M_bind in Ew.
    destruct (zlookup (ucode s) (lcp_UcodePC l)) eqn:El; [|discriminate]. by apply zlookup_lt in El. }
  split; [exact Hb|]. split; [|apply F].
  destruct (w <? 57344); [|by injection E]. unfold mbind, M_bind in E.
  destruct (mod_sys _ s1) as [[u s2]| |]; try discriminate.
  destruct (GET_PU8_DATA _ s2) as [[op s3]| |]; try discriminate.
  destruct (si_decode op) as [i|].
  - destruct (si_exec i l s3) as [[l1 s4]| |] eqn:Ex; try discriminate. injection E as <- <-.
    apply si_exec_pc in Ex. pose proof (si_len_pos i). lia.
  - destruct (si_finish l s3) as [[u' s4]| |]; discriminate.
Qed.

(** The interpreter of simple instructions terminates on every program
    and from every state: every case moves the program counter forward, so
    one unit of fuel per program byte suffices, and running on past the end
    is caught as an undefined read. *)
Theorem exec_simple_terminates s fuel : Z.of_nat (length (ucode s)) < Z.of_nat fuel ->
  plc_exec_simple_instruction (S fuel) s <> NoFuel.
Proof.
  intros Hf. unfold plc_exec_simple_instruction, mbind, M_bind, gets.
  apply (loop_halts si_step (fun l s1 => ucode s1 = ucode s)
    (fun l => if 0 <=? lcp_UcodePC l then Z.max 0 (Z.of_nat (length (ucode s)) - lcp_UcodePC l) else 0));
    [apply _| |done|].
  - intros l s1 l' s' Hu E. apply si_step_progress in E as (Hb & Hp & Hu'). rewrite Hu in Hb.
    split; [congruence|]. destruct (Z.leb_spec 0 (lcp_UcodePC l)); [|lia].
    destruct (Z.leb_spec 0 (lcp_UcodePC l')); lia.
  - simpl. destruct (Z.leb_spec 0 (mcp_PC (env s))); lia.
Qed.
Lemma exec_simple_terminates_witness : plc_exec_simple_instruction 9 (st0 [3; 0x10; 5; 0x75; 0; 0xF0]) <> NoFuel.
Proof. apply exec_simple_terminates. zconc. Defined.

(** ** Edge detectors *)
(** The two bits kept for edge [n]: not yet run, and the last input. *)
Definition edge_bits (s : plc_st) (n : Z) : option (bool * bool) :=
  e ← zlookup (gtp_EuEd s) (Z.shiftr n 4);
  Some (Z.testbit (msv_IsInit e) (Z.land n 15), Z.testbit (msv_Value e) (Z.land n 15)).

(** [s'] differs from [s] in the bits of edge [n], now [(i, p)], and in the
    lowest bit of the power flow. *)
Record edge_rel (n : Z) (i p : bool) (s s' : plc_st) : Prop := {
  er_bits : edge_bits s' n = Some (i, p);
  er_other m : 0 <= m -> m <> n -> edge_bits s' m = edge_bits s m;
  er_stack k : 0 < k < 32 -> Z.testbit (mlv_InPF (env s')) k = Z.testbit (mlv_InPF (env s)) k;
  er_env : mlv_OutPF (env s') = mlv_OutPF (env s) /\ mcp_PC (env s') = mcp_PC (env s);
  er_same : mem s' = mem s /\ ucode s' = ucode s /\ flow s' = flow s /\ sys s' = sys s /\ tick s' = tick s }.
Lemma edge_rel_trans n i p i' p' s s1 s2 :
  edge_rel n i p s s1 -> edge_rel n i' p' s1 s2 -> edge_rel n i' p' s s2.
Proof.
  intros [A1 A2 A3 [A4 A5] (A6&A7&A8&A9&A10)] [B1 B2 B3 [B4 B5] (B6&B7&B8&B9&B10)]. split.
  - done.
  - intros m Hm Hn. by rewrite B2, A2.
  - intros k Hk. by rewrite B3, A3.
  - split; congruence.
  - split_and!; congruence.
Qed.

Lemma truthy_mask w k : 0 <= k -> truthy (Z.land w (Z.shiftl 1 k)) = Z.testbit w k.
Proof.
  intros Hk. unfold truthy. destruct (Z.testbit w k) eqn:E.
  - apply negb_true_iff, Z.eqb_neq. intros H0. assert (H : Z.testbit (Z.land w (Z.shiftl 1 k)) k = true).
    { by rewrite Z.land_spec, E, Z.shiftl_spec, Z.sub_diag by lia. }
    by rewrite H0, Z.bits_0 in H.
  - apply negb_false_iff, Z.eqb_eq, Z.bits_inj'. intros j Hj.
    rewrite Z.land_spec, Z.shiftl_spec, testbit_one, Z.bits_0 by lia.
    destruct (Z.eqb_spec (j - k) 0); [|by rewrite andb_false_r]. replace j with k by lia. by rewrite E.
Qed.

Section edge_prims.
Context (n : Z) (i p : bool) (s : plc_st) (Hn : 0 <= n) (Hb : edge_bits s n = Some (i, p)).
Lemma rd_edge_run : exists e, rd_edge (Z.shiftr n 4) s = Ok (e, s) /\ zlookup (gtp_EuEd s) (Z.shiftr n 4) = Some e /\
  Z.testbit (msv_IsInit e) (Z.land n 15) = i /\ Z.testbit (msv_Value e) (Z.land n 15) = p.
Proof.
  unfold edge_bits in Hb. unfold rd_edge. destruct (zlookup _ _) as [e|]; [|discriminate].
  exists e. simpl in Hb. by injection Hb as <- <-.
Qed.
Lemma edge_init_run : GET_EDGE_INIT_FLAG n s = Ok (i, s).
Proof.
  destruct rd_edge_run as (e & Hr & _ & Hi & _). unfold GET_EDGE_INIT_FLAG.
  rewrite (bind_run _ _ _ _ _ Hr). unfold edge_mask. by rewrite truthy_mask, Hi by apply bit_pos.
Qed.
Lemma edge_value_run : GET_EDGE_VALUE n s = Ok (p, s).
Proof.
  destruct rd_edge_run as (e & Hr & _ & _ & Hp). unfold GET_EDGE_VALUE.
  rewrite (bind_run _ _ _ _ _ Hr). unfold edge_mask. by rewrite truthy_mask, Hp by apply bit_pos.
Qed.
Lemma wr_edge_run e e' i' p' : zlookup (gtp_EuEd s) (Z.shiftr n 4) = Some e ->
  (forall j, 0 <= j < 16 -> Z.testbit (msv_IsInit e') j = if j =? Z.land n 15 then i' else Z.testbit (msv_IsInit e) j) ->
  (forall j, 0 <= j < 16 -> Z.testbit (msv_Value e') j = if j =? Z.land n 15 then p' else Z.testbit (msv_Value e) j) ->
  exists s', wr_edge (Z.shiftr n 4) e' s = Ok (tt, s') /\ edge_rel n i' p' s s' /\ env s' = env s.
Proof.
  intros He Hi Hp. pose proof (zlookup_lt _ _ _ He) as Hlt.
  assert (U := zupdate_lt (gtp_EuEd s) _ e' Hlt). unfold wr_edge. rewrite U.
  eexists. split; [reflexivity|]. split; [|done]. split; [| |done..].
  - unfold edge_bits. simpl. rewrite (zlookup_zupdate_eq _ _ _ _ U). simpl.
    rewrite Hi, Hp, Z.eqb_refl by apply bit_pos. done.
  - intros m Hm Hmn. unfold edge_bits. simpl. pose proof (bit_split m Hm). pose proof (bit_split n Hn).
    destruct (decide (Z.shiftr n 4 = Z.shiftr m 4)) as [E|E].
    + rewrite <- E, (zlookup_zupdate_eq _ _ _ _ U), He. simpl. rewrite Hi, Hp by apply bit_pos.
      destruct (Z.eqb_spec (Z.land m 15) (Z.land n 15)); [lia|done].
    + by rewrite (zlookup_zupdate_ne _ _ _ _ _ U E).
Qed.
Lemma bit_same (w : Z) (b : bool) j : b = Z.testbit w (Z.land n 15) ->
  Z.testbit w j = if j =? Z.land n 15 then b else Z.testbit w j.
Proof. intros ->. by destruct (Z.eqb_spec j (Z.land n 15)) as [->|]. Qed.
Lemma rst_init_run : exists s', RST_EDGE_INIT_FLAG n s = Ok (tt, s') /\ edge_rel n false p s s' /\ env s' = env s.
Proof.
  destruct rd_edge_run as (e & Hr & He & Hi & Hp). unfold RST_EDGE_INIT_FLAG.
  rewrite (bind_run _ _ _ _ _ Hr). apply (wr_edge_run e); [done| |]; intros j Hj; simpl.
  - apply testbit_reset; [apply bit_pos|done].
  - by apply bit_same.
Qed.
Lemma set_value_run (b : bool) : exists s',
  (if b then SET_EDGE_VALUE n else RST_EDGE_VALUE n) s = Ok (tt, s') /\ edge_rel n i b s s' /\ env s' = env s.
Proof.
  destruct rd_edge_run as (e & Hr & He & Hi & Hp).
  destruct b; unfold SET_EDGE_VALUE, RST_EDGE_VALUE; rewrite (bind_run _ _ _ _ _ Hr);
    (apply (wr_edge_run e); [done| |]; intros j Hj; simpl); try by apply bit_same.
  - apply testbit_set; [apply bit_pos|done].
  - apply testbit_reset; [apply bit_pos|done].
Qed.
Lemma pf_bit_low (b : bool) pf : get_pf (pf_bit b pf) = b.
Proof.
  unfold get_pf, pf_bit, set_pf, rst_pf. destruct b; rewrite ?Z.lor_spec, ?Z.land_spec.
  - apply orb_true_r.
  - apply andb_false_r.
Qed.
Lemma testbit_rst_mask k : 0 < k < 32 -> Z.testbit 0xFFFFFFFE k = true.
Proof.
  intros Hk. change 0xFFFFFFFE with (Z.ldiff (Z.ones 32) 1).
  rewrite Z.ldiff_spec, Z.ones_spec_low, testbit_one by lia. by destruct (Z.eqb_spec k 0); [lia|].
Qed.
Lemma pf_bit_high (b : bool) pf k : 0 < k < 32 -> Z.testbit (pf_bit b pf) k = Z.testbit pf k.
Proof.
  intros Hk. unfold pf_bit, set_pf, rst_pf. destruct b; rewrite ?Z.lor_spec, ?Z.land_spec.
  - rewrite testbit_one. destruct (Z.eqb_spec k 0); [lia|]. apply orb_false_r.
  - rewrite testbit_rst_mask by done. apply andb_true_r.
Qed.
Lemma put_pf_run (b : bool) : exists s',
  (if b then SET_POWER_FLOW else RST_POWER_FLOW) s = Ok (tt, s') /\ edge_rel n i p s s' /\
  get_pf (mlv_InPF (env s')) = b.
Proof.
  exists (with_InPF (pf_bit b (mlv_InPF (env s))) s).
  split_and!; [by destruct b| |apply pf_bit_low].
  split; [done|done| |done|done]. intros k Hk. by apply pf_bit_high.
Qed.
End edge_prims.

(** One detector scan as a function: [out i p b] is the output and [(false, b)]
    the new state of the edge. *)
Definition detects (m : Mc unit) (out : bool -> bool -> bool -> bool) : Prop :=
  forall n i p s, 0 <= n -> edge_number s = Ok (n, s) -> edge_bits s n = Some (i, p) ->
  let b := get_pf (mlv_InPF (env s)) in
  exists s', m s = Ok (tt, s') /\ edge_rel n false b s s' /\ get_pf (mlv_InPF (env s')) = out i p b.
Definition rising (i p b : bool) : bool := negb i && (b && negb p).
Definition falling (i p b : bool) : bool := negb i && (negb b && p).

Lemma edge_seq n i p i' p' o (m1 m2 : Mc unit) s s1 :
  m1 s = Ok (tt, s1) -> edge_rel n i p s s1 ->
  (exists s', m2 s1 = Ok (tt, s') /\ edge_rel n i' p' s1 s' /\ get_pf (mlv_InPF (env s')) = o) ->
  exists s', (m1;; m2) s = Ok (tt, s') /\ edge_rel n i' p' s s' /\ get_pf (mlv_InPF (env s')) = o.
Proof.
  intros H1 R1 (s' & H2 & R2 & Ho). exists s'. rewrite (bind_run _ _ _ _ _ H1).
  split; [done|]. split; [by eapply edge_rel_trans|done].
Qed.
Lemma pf_run s : GET_POWER_FLOW s = Ok (get_pf (mlv_InPF (env s)), s).
Proof. done. Qed.
(** Store the value, set the power flow: in the order of the first scan, and
    the order of the others. *)
Lemma value_then_pf n i p s (b o : bool) : 0 <= n -> edge_bits s n = Some (i, p) ->
  exists s', ((if b then SET_EDGE_VALUE n else RST_EDGE_VALUE n);;
              (if o then SET_POWER_FLOW else RST_POWER_FLOW)) s = Ok (tt, s') /\
    edge_rel n i b s s' /\ get_pf (mlv_InPF (env s')) = o.
Proof.
  intros Hn Hb. destruct (set_value_run n i p s Hn Hb b) as (s1 & H1 & R1 & _).
  eapply edge_seq; [exact H1|exact R1|]. apply put_pf_run. by apply R1.
Qed.
Lemma pf_then_value n i p s (b o : bool) : 0 <= n -> edge_bits s n = Some (i, p) ->
  exists s', ((if o then SET_POWER_FLOW else RST_POWER_FLOW);;
              (if b then SET_EDGE_VALUE n else RST_EDGE_VALUE n)) s = Ok (tt, s') /\
    edge_rel n i b s s' /\ get_pf (mlv_InPF (env s')) = o.
Proof.
  intros Hn Hb. destruct (put_pf_run n i p s Hb o) as (s1 & H1 & R1 & Ho).
  eapply edge_seq; [exact H1|exact R1|].
  destruct (set_value_run n i p s1 Hn (er_bits _ _ _ _ _ R1) b) as (s2 & H2 & R2 & E).
  exists s2. by rewrite E.
Qed.

(** Settles the reads of a detector and leaves its writes. *)
Ltac edge_reads Hpc Hb :=
  rewrite (bind_run _ _ _ _ _ Hpc), (bind_run _ _ _ _ _ (edge_init_run _ _ _ _ Hb)).
Ltac edge_first Hn Hb :=
  let s1 := fresh "s" in let H1 := fresh "H" in let R1 := fresh "R" in let E1 := fresh "E" in
  destruct (rst_init_run _ _ _ _ Hn Hb) as (s1 & H1 & R1 & E1); rewrite <- ?E1;
  eapply edge_seq; [exact H1|exact R1|];
  pose proof (er_bits _ _ _ _ _ R1).
Lemma run_eu_detects : detects run_eu_ins rising.
Proof.
  intros n i p s Hn Hpc Hb b. subst b. unfold run_eu_ins. edge_reads Hpc Hb. destruct i.
  - edge_first Hn Hb. rewrite (bind_run _ _ _ _ _ (pf_run _)). by apply (value_then_pf n false p _ _ false).
  - rewrite (bind_run _ _ _ _ _ (pf_run _)). destruct (get_pf _).
    + rewrite (bind_run _ _ _ _ _ (edge_value_run _ _ _ _ Hb)).
      pose proof (pf_then_value n false p s true (negb p) Hn Hb). by destruct p.
    + by apply (value_then_pf n false p _ false false).
Qed.
Lemma run_ed_detects : detects run_ed_ins falling.
Proof.
  intros n i p s Hn Hpc Hb b. subst b. unfold run_ed_ins. edge_reads Hpc Hb. destruct i.
  - edge_first Hn Hb. rewrite (bind_run _ _ _ _ _ (pf_run _)). by apply (value_then_pf n false p _ _ false).
  - rewrite (bind_run _ _ _ _ _ (pf_run _)). destruct (get_pf _).
    + by apply (value_then_pf n false p _ true false).
    + rewrite (bind_run _ _ _ _ _ (edge_value_run _ _ _ _ Hb)).
      pose proof (pf_then_value n false p s false p Hn Hb). by destruct p.
Qed.
(** The detectors on an operand: the input is the byte read, the power flow
    is only set. *)
Lemma run_char_detects (up : bool) n i p c s : 0 <= n -> edge_number s = Ok (n, s) -> edge_bits s n = Some (i, p) ->
  exists s', (if up then run_eu_p_ins else run_ed_f_ins) c s = Ok (tt, s') /\ edge_rel n false (truthy c) s s' /\
    get_pf (mlv_InPF (env s')) = (if up then rising else falling) i p (truthy c).
Proof.
  intros Hn Hpc Hb. destruct i.
  - destruct (rst_init_run _ _ _ _ Hn Hb) as (s1 & H1 & R1 & _).
    destruct (pf_then_value n false p s1 (truthy c) false Hn (er_bits _ _ _ _ _ R1)) as (s2 & H2 & R2 & Ho).
    exists s2. split; [|split; [by eapply edge_rel_trans|by destruct up]].
    destruct up; unfold run_eu_p_ins, run_ed_f_ins; edge_reads Hpc Hb;
      unfold mbind at 1 2, M_bind at 1 2; rewrite H1; exact H2.
  - assert (Hv := edge_value_run _ _ _ _ Hb).
    destruct (pf_then_value n false p s (truthy c)
      ((if up then rising else falling) false p (truthy c)) Hn Hb) as (s2 & H2 & R2 & Ho).
    exists s2. split; [|done].
    destruct up; unfold run_eu_p_ins, run_ed_f_ins; edge_reads Hpc Hb;
      unfold mbind at 1 2, M_bind at 1 2; rewrite Hv; rewrite <- H2; unfold rising, falling;
      destruct p, (truthy c); reflexivity.
Qed.

(** A rung executed scan after scan, with the input of each scan. *)
Fixpoint scan_detector (m : Mc unit) (inputs : list bool) : Mc (list bool) :=
  match inputs with
  | [] => mret []
  | b :: bs => put_power_flow b;; m;; o ← GET_POWER_FLOW; os ← scan_detector m bs; mret (o :: os)
  end.
Fixpoint edge_trace (out : bool -> bool -> bool -> bool) (i p : bool) (inputs : list bool) : list bool :=
  match inputs with [] => [] | b :: bs => out i p b :: edge_trace out false b bs end.

Lemma edge_rel_number n i p s s' : edge_rel n i p s s' -> edge_number s = Ok (n, s) -> edge_number s' = Ok (n, s').
Proof.
  intros R. destruct (er_env _ _ _ _ _ R) as [_ E]. destruct (er_same _ _ _ _ _ R) as (_ & Eu & _).
  unfold edge_number, get_PC, GET_PU16_DATA, GET_PU8_DATA, mbind, M_bind, gets, mret, M_ret.
  rewrite E, Eu. destruct (zlookup (ucode s) (mcp_PC (env s))); [|discriminate].
  rewrite Eu. destruct (zlookup (ucode s) (mcp_PC (env s) + 1)); [|discriminate]. by intros [= ->].
Qed.
Lemma scan_detector_run m out n : detects m out -> 0 <= n ->
  forall inputs i p s, edge_number s = Ok (n, s) -> edge_bits s n = Some (i, p) ->
  exists s', scan_detector m inputs s = Ok (edge_trace out i p inputs, s') /\
    edge_rel n (i && bool_decide (inputs = [])) (List.last inputs p) s s'.
Proof.
  intros D Hn. induction inputs as [|b bs IH]; intros i p s Hpc Hb; cbn [scan_detector edge_trace].
  - exists s. split; [done|]. rewrite andb_true_r. by split.
  - destruct (put_pf_run n i p s Hb b) as (s1 & H1 & R1 & Ho). unfold put_power_flow.
    rewrite (bind_run _ _ _ _ _ H1).
    destruct (D n i p s1 Hn (edge_rel_number _ _ _ _ _ R1 Hpc) (er_bits _ _ _ _ _ R1)) as (s2 & H2 & R2 & E2).
    rewrite (bind_run _ _ _ _ _ H2), (bind_run _ _ _ _ _ (pf_run s2)), E2, Ho. rewrite Ho in R2.
    pose proof (edge_rel_trans _ _ _ _ _ _ _ _ R1 R2) as R.
    destruct (IH false b s2 (edge_rel_number _ _ _ _ _ R Hpc) (er_bits _ _ _ _ _ R)) as (s3 & H3 & R3).
    rewrite (bind_run _ _ _ _ _ H3). exists s3. split; [done|].
    rewrite bool_decide_eq_false_2, andb_false_r by done.
    rewrite last_cons_default. by eapply edge_rel_trans.
Qed.

(** C35: run scan after scan, the detectors are edge detectors: [run_eu_ins]
    delivers power in a scan exactly when its input rose since the previous
    one, [run_ed_ins] exactly when it fell, and neither in the first scan
    after the initialisation of the edge table, for any edge number inside the
    table and any inputs. Of the machine only the edge
    and the top of the power flow change: other edges, the stacked power flow,
    the elements and the program counter are as before. *)
Theorem edge_detector_trace n i p s inputs :
  0 <= n -> edge_number s = Ok (n, s) -> edge_bits s n = Some (i, p) -> inputs <> [] ->
  (exists s', scan_detector run_eu_ins inputs s = Ok (edge_trace rising i p inputs, s') /\
    edge_rel n false (List.last inputs p) s s') /\
  (exists s', scan_detector run_ed_ins inputs s = Ok (edge_trace falling i p inputs, s') /\
    edge_rel n false (List.last inputs p) s s').
Proof.
  intros Hn Hpc Hb Hne. split.
  - destruct (scan_detector_run run_eu_ins rising n run_eu_detects Hn inputs i p s Hpc Hb) as (s' & H & R).
    rewrite bool_decide_eq_false_2, andb_false_r in R by done. by exists s'.
  - destruct (scan_detector_run run_ed_ins falling n run_ed_detects Hn inputs i p s Hpc Hb) as (s' & H & R).
    rewrite bool_decide_eq_false_2, andb_false_r in R by done. by exists s'.
Qed.
Lemma edge_detector_trace_witness : exists s' s'',
  scan_detector run_eu_ins [true; false; true; true] (st0 [5; 0]) = Ok ([false; false; true; false], s') /\
  scan_detector run_ed_ins [true; false; true; true] (st0 [5; 0]) = Ok ([false; true; false; false], s'').
Proof.
  destruct (edge_detector_trace 5 true false (st0 [5; 0]) [true; false; true; true])
    as [(s' & H & _) (s'' & H' & _)]; [zconc|done|by vm_compute|done|]. by exists s', s''.
Defined.
