(* ===== verification/Ladder.v ===== *)
(** * Ladder rungs: a specification of the power-flow instructions

    The contact network of a rung is a Boolean expression over contacts. The
    specification is a stack machine on Booleans, [astep], with the contact
    stack and the branch stack as lists; the interpreter of SimpleIns keeps
    them in the bits of two 32-bit words. [astep_sim] is the simulation, and
    [rung_evaluation] the correctness of the code of a whole rung. *)
From stdpp Require Import base list numbers sets.
From S2P Require Import Prelude Element Machine ParseAddr ParseAddrFacts SimpleIns SimpleFacts.

(** ** The stack machine *)
Inductive ains : Set :=
| ALd (neg : bool) (c : contact) (i : Z)
| AAnd (neg : bool) (c : contact) (i : Z)
| AOr (neg : bool) (c : contact) (i : Z)
| AInv | AAnb | AOrb | AMps | AMrd | AMpp.
Record amach := { contacts_stk : list bool; branch_stk : list bool }.
Definition pf_depth : nat := 32.

Section astep.
Context (v : contact -> Z -> bool).
Definition astep (i : ains) (m : amach) : option amach :=
  match i, contacts_stk m, branch_stk m with
  | ALd neg c n, st, br =>
      if decide (length st < pf_depth)%nat then Some {| contacts_stk := xorb neg (v c n) :: st; branch_stk := br |}
      else None
  | AAnd neg c n, b :: st, br => Some {| contacts_stk := b && xorb neg (v c n) :: st; branch_stk := br |}
  | AOr neg c n, b :: st, br => Some {| contacts_stk := b || xorb neg (v c n) :: st; branch_stk := br |}
  | AInv, b :: st, br => Some {| contacts_stk := negb b :: st; branch_stk := br |}
  | AAnb, b :: b' :: st, br => Some {| contacts_stk := b && b' :: st; branch_stk := br |}
  | AOrb, b :: b' :: st, br => Some {| contacts_stk := b || b' :: st; branch_stk := br |}
  | AMps, b :: st, br =>
      if decide (length br < pf_depth)%nat then Some {| contacts_stk := b :: st; branch_stk := b :: br |} else None
  | AMrd, _ :: st, o :: br => Some {| contacts_stk := o :: st; branch_stk := o :: br |}
  | AMpp, _ :: st, o :: br => Some {| contacts_stk := o :: st; branch_stk := br |}
  | _, _, _ => None
  end.
Fixpoint arun (l : list ains) (m : amach) : option amach :=
  match l with [] => Some m | i :: l' => m' ← astep i m; arun l' m' end.
End astep.

(** The instruction words: the operand in the low byte, the opcode above it. *)
Definition ains_simple (i : ains) : simple_ins :=
  match i with
  | ALd neg c _ => if neg then SI_LDI c else SI_LD c
  | AAnd neg c _ => if neg then SI_ANI c else SI_AND c
  | AOr neg c _ => if neg then SI_ORI c else SI_OR c
  | AInv => SI_INV | AAnb => SI_ANB | AOrb => SI_ORB | AMps => SI_MPS | AMrd => SI_MRD | AMpp => SI_MPP
  end.
Definition ains_operand (i : ains) : Z := match i with ALd _ _ n | AAnd _ _ n | AOr _ _ n => n | _ => 0 end.
Definition encode1 (i : ains) : list Z := [ains_operand i; si_code (ains_simple i)].
Definition encode (l : list ains) : list Z := l ≫= encode1.
Definition ains_ok (i : ains) : Prop :=
  match i with
  | ALd _ c n | AAnd _ c n | AOr _ c n => 0 <= n < match c with cLM => 64 | _ => 256 end
  | _ => True
  end.

(** ** Rungs *)
Inductive rung : Set :=
| Contact (neg : bool) (c : contact) (i : Z)
| Serial (r : rung) (neg : bool) (c : contact) (i : Z)
| Parallel (r : rung) (neg : bool) (c : contact) (i : Z)
| AndBlock (r1 r2 : rung)
| OrBlock (r1 r2 : rung)
| Inverse (r : rung).
Fixpoint rung_code (r : rung) : list ains :=
  match r with
  | Contact neg c i => [ALd neg c i]
  | Serial r neg c i => rung_code r ++ [AAnd neg c i]
  | Parallel r neg c i => rung_code r ++ [AOr neg c i]
  | AndBlock r1 r2 => rung_code r1 ++ rung_code r2 ++ [AAnb]
  | OrBlock r1 r2 => rung_code r1 ++ rung_code r2 ++ [AOrb]
  | Inverse r => rung_code r ++ [AInv]
  end.
Fixpoint rung_value (v : contact -> Z -> bool) (r : rung) : bool :=
  match r with
  | Contact neg c i => xorb neg (v c i)
  | Serial r neg c i => rung_value v r && xorb neg (v c i)
  | Parallel r neg c i => rung_value v r || xorb neg (v c i)
  | AndBlock r1 r2 => rung_value v r1 && rung_value v r2
  | OrBlock r1 r2 => rung_value v r1 || rung_value v r2
  | Inverse r => negb (rung_value v r)
  end.
(** Stack cells needed. *)
Fixpoint rung_depth (r : rung) : nat :=
  match r with
  | Contact _ _ _ => 1
  | Serial r _ _ _ | Parallel r _ _ _ | Inverse r => rung_depth r
  | AndBlock r1 r2 | OrBlock r1 r2 => Nat.max (rung_depth r1) (1 + rung_depth r2)
  end.

Lemma arun_app v l1 l2 m : arun v (l1 ++ l2) m = (m' ← arun v l1 m; arun v l2 m').
Proof. revert m. induction l1 as [|i l1 IH]; intros m; [done|]. simpl. destruct (astep v i m); [apply IH|done]. Qed.
(** The code of a rung pushes its value. *)
Lemma rung_code_run v r m : (length (contacts_stk m) + rung_depth r <= pf_depth)%nat ->
  arun v (rung_code r) m =
    Some {| contacts_stk := rung_value v r :: contacts_stk m; branch_stk := branch_stk m |}.
Proof.
  revert m. induction r as [neg c i|r IH neg c i|r IH neg c i|r1 IH1 r2 IH2|r1 IH1 r2 IH2|r IH];
    intros m Hd; cbn [rung_code rung_depth rung_value] in *;
    rewrite ?arun_app; rewrite ?IH by done; try done.
  - cbn. by rewrite decide_True by lia.
  - rewrite IH1 by lia. cbn [mbind option_bind]. rewrite arun_app, IH2 by (simpl; lia).
    cbn. by rewrite andb_comm.
  - rewrite IH1 by lia. cbn [mbind option_bind]. rewrite arun_app, IH2 by (simpl; lia).
    cbn. by rewrite orb_comm.
Qed.

(** ** The interpreter's words as stacks *)
(** Bit [k] of the word is element [k] of the stack, the top in bit 0. *)
Definition bits_rep (st : list bool) (w : Z) : Prop :=
  (length st <= pf_depth)%nat /\ forall k b, st !! k = Some b -> Z.testbit w (Z.of_nat k) = b.
Section reps.
Context (st : list bool) (w : Z).
Lemma bits_index k b : bits_rep st w -> st !! k = Some b -> (k < 32)%nat.
Proof. intros [Hl _] Hk. apply lookup_lt_Some in Hk. unfold pf_depth in Hl. lia. Qed.
Lemma rep_cons b st' w' : (length st' < pf_depth)%nat -> Z.testbit w' 0 = b ->
  (forall k c, st' !! k = Some c -> Z.testbit w' (Z.of_nat k + 1) = c) -> bits_rep (b :: st') w'.
Proof.
  intros Hl Hb Hk. split; [simpl; lia|]. intros [|k] c; [by intros [= <-]|].
  intros Hc. change (st' !! k = Some c) in Hc. rewrite <- (Hk _ _ Hc). by replace (Z.of_nat (Datatypes.S k)) with (Z.of_nat k + 1) by lia.
Qed.
Lemma rep_nil : bits_rep [] w.
Proof. by split; [unfold pf_depth; simpl; lia|]. Qed.
Lemma rep_top b : bits_rep (b :: st) w -> get_pf w = b.
Proof. intros [_ H]. exact (H 0%nat b eq_refl). Qed.
Lemma rep_tail b : bits_rep (b :: st) w -> (length st < pf_depth)%nat /\
  forall k c, st !! k = Some c -> Z.testbit w (Z.of_nat k + 1) = c /\ (k < 31)%nat.
Proof.
  intros R. pose proof R as [Hl H]. simpl in Hl. split; [lia|]. intros k c Hk. split.
  - rewrite <- (H (Datatypes.S k) c Hk). by replace (Z.of_nat (Datatypes.S k)) with (Z.of_nat k + 1) by lia.
  - apply lookup_lt_Some in Hk. unfold pf_depth in Hl. lia.
Qed.
End reps.
Lemma rep_replace b b' st w w' : bits_rep (b :: st) w -> Z.testbit w' 0 = b' ->
  (forall k, 0 < k < 32 -> Z.testbit w' k = Z.testbit w k) -> bits_rep (b' :: st) w'.
Proof.
  intros R H0 Hk. destruct (rep_tail _ _ _ R) as [Hl Ht]. apply rep_cons; [done|done|].
  intros k c Hc. destruct (Ht k c Hc) as [<- ?]. apply Hk. lia.
Qed.
Lemma rep_put b b' st w : bits_rep (b :: st) w -> bits_rep (b' :: st) (pf_bit b' w).
Proof. intros R. apply (rep_replace b b' st w); [done|apply pf_bit_low|]. intros k. apply pf_bit_high. Qed.
Lemma shl1_bit w k : 0 <= k < 32 -> Z.testbit (push_pf w) k = if k =? 0 then false else Z.testbit w (k - 1).
Proof.
  intros Hk. unfold push_pf. rewrite testbit_u32 by lia. assert (k <? 32 = true) as -> by lia.
  rewrite Z.shiftl_spec by lia. destruct (Z.eqb_spec k 0) as [->|]; [by apply Z.testbit_neg_r|done].
Qed.
Lemma rep_push_bit b st w w' : bits_rep st w -> (length st < pf_depth)%nat -> Z.testbit w' 0 = b ->
  (forall k, 0 < k < 32 -> Z.testbit w' k = Z.testbit (push_pf w) k) -> bits_rep (b :: st) w'.
Proof.
  intros R Hl Hb H. apply rep_cons; [done|done|]. intros k c Hc.
  pose proof (bits_index _ _ _ _ R Hc). apply lookup_lt_Some in Hc as Hlt. unfold pf_depth in Hl.
  rewrite H, shl1_bit by lia. destruct (Z.eqb_spec (Z.of_nat k + 1) 0); [lia|].
  rewrite Z.add_simpl_r. by apply R.
Qed.
Lemma rep_push b st w : bits_rep st w -> (length st < pf_depth)%nat -> bits_rep (b :: st) (pf_bit b (push_pf w)).
Proof. intros R Hl. apply (rep_push_bit b st w); [done|done|apply pf_bit_low|]. intros k. apply pf_bit_high. Qed.
Lemma rep_shift b st w : bits_rep (b :: st) w -> bits_rep st (Z.shiftr w 1).
Proof.
  intros R. destruct (rep_tail _ _ _ R) as [Hl Ht]. split; [lia|]. intros k c Hk.
  rewrite Z.shiftr_spec by lia. by apply Ht.
Qed.
(** The combining instructions: they patch bit 1 (or clear the two low bits)
    and shift. *)
Lemma rep_combine b b' o st w w' : bits_rep (b :: b' :: st) w -> Z.testbit w' 1 = o ->
  (forall k, 1 < k < 32 -> Z.testbit w' k = Z.testbit w k) -> bits_rep (o :: st) (Z.shiftr w' 1).
Proof.
  intros R H1 Hk. destruct (rep_tail _ _ _ R) as [Hl Ht]. simpl in Hl. apply rep_cons; [lia| |].
  - by rewrite Z.shiftr_spec.
  - intros k c Hc. rewrite Z.shiftr_spec by lia. destruct (Ht (Datatypes.S k) c Hc) as [<- ?].
    rewrite Hk by lia. by replace (Z.of_nat (Datatypes.S k)) with (Z.of_nat k + 1) by lia.
Qed.
Lemma low_bits w : Z.land w 3 = Z.b2z (Z.testbit w 0) + 2 * Z.b2z (Z.testbit w 1).
Proof.
  change 3 with (Z.ones 2). rewrite Z.land_ones by lia. change (2 ^ 2) with (2 * 2).
  rewrite Z.rem_mul_r by lia. rewrite <- !Z.bit0_mod.
  replace (Z.testbit (w / 2) 0) with (Z.testbit w 1); [done|].
  symmetry. exact (Z.div_pow2_bits w 1 0 ltac:(lia) ltac:(lia)).
Qed.
Lemma low_bits_3 w : (Z.land w 3 =? 3) = Z.testbit w 0 && Z.testbit w 1.
Proof. rewrite low_bits. by destruct (Z.testbit w 0), (Z.testbit w 1). Qed.
Lemma low_bits_0 w : (Z.land w 3 =? 0) = negb (Z.testbit w 0) && negb (Z.testbit w 1).
Proof. rewrite low_bits. by destruct (Z.testbit w 0), (Z.testbit w 1). Qed.

(** ** Simulation *)
(** The contacts as the rung sees them. *)
Definition cval (s : plc_st) (c : contact) (i : Z) : bool :=
  default false (bit_of (mem s) (contact_region c) (match c with cLM => LM_RANG * nested s + i | _ => i end)).
Lemma read_truthy (m : Mc Z) o s :
  (exists b, m s = Ok (Z.b2z b, s) /\ o = Some b) -> (v ← m; mret (truthy v)) s = Ok (default false o, s).
Proof. intros (b & H & ->). rewrite (bind_run _ _ _ _ _ H). by destruct b. Qed.
Lemma read_contact_run s c i : st_ok s -> 0 <= i < match c with cLM => 64 | _ => 256 end ->
  read_contact c i s = Ok (cval s c i, s).
Proof.
  intros [W D] Hi. apply read_truthy. destruct c.
  8: exact (get_lm_run (S := plc_st) (nested s) i s W D Hi).
  all: apply (get_bit_run (S := plc_st) _ i s W); [lia|]; apply (Z.lt_le_trans _ 256); [lia|by compute].
Qed.

Record quiet (s s' : plc_st) : Prop := {
  q_mem : mem s' = mem s; q_code : ucode s' = ucode s; q_flow : flow s' = flow s;
  q_edge : gtp_EuEd s' = gtp_EuEd s; q_tick : tick s' = tick s }.
#[global] Instance quiet_preorder : PreOrder quiet.
Proof. split; [by split|]. intros x y z [] []. split; congruence. Qed.
Lemma quiet_ok s s' : quiet s s' -> st_ok s -> st_ok s'.
Proof. intros Q. unfold st_ok, elem, nested. cbn. by rewrite (q_mem _ _ Q), (q_flow _ _ Q). Qed.
Lemma quiet_cval s s' : quiet s s' -> cval s' = cval s.
Proof. intros Q. unfold cval, nested. by rewrite (q_mem _ _ Q), (q_flow _ _ Q). Qed.

(** The code byte list [code] stands at [pc]. *)
Definition code_at (s : plc_st) (pc : Z) (code : list Z) : Prop :=
  forall k b, code !! k = Some b -> zlookup (ucode s) (pc + Z.of_nat k) = Some b.
Lemma code_at_app s pc c1 c2 :
  code_at s pc (c1 ++ c2) <-> code_at s pc c1 /\ code_at s (pc + Z.of_nat (length c1)) c2.
Proof.
  split.
  - intros H. split; intros k b Hk.
    + apply H. by apply lookup_app_l_Some.
    + rewrite <- Z.add_assoc, <- Nat2Z.inj_add. apply H. rewrite lookup_app_r by lia. by rewrite Nat.add_comm, Nat.add_sub.
  - intros [H1 H2] k b Hk. apply lookup_app_Some in Hk as [Hk|[Hk Hk2]]; [by apply H1|].
    apply H2 in Hk2. rewrite <- Hk2. f_equal. lia.
Qed.
Lemma code_at_quiet s s' pc code : quiet s s' -> code_at s pc code -> code_at s' pc code.
Proof. intros Q. unfold code_at. by rewrite (q_code _ _ Q). Qed.
Lemma code_at_2 s pc a b : code_at s pc [a; b] ->
  zlookup (ucode s) pc = Some a /\ zlookup (ucode s) (pc + 1) = Some b.
Proof.
  intros H. split; [rewrite <- (Z.add_0_r pc); exact (H 0%nat a eq_refl)|exact (H 1%nat b eq_refl)].
Qed.

Record sim (l : si_locals) (s : plc_st) (m : amach) : Prop := {
  sim_in : bits_rep (contacts_stk m) (llv_InPF l);
  sim_out : bits_rep (branch_stk m) (mlv_OutPF (env s)) }.

Lemma ains_decode i : ains_ok i -> si_decode (si_code (ains_simple i)) = Some (ains_simple i) /\
  0 <= si_code (ains_simple i) < 0xE0.
Proof. intros _. destruct i as [[] []|[] []|[] []| | | | | |]; by split. Qed.
(** One turn of the loop on an instruction of the stack machine. *)
Lemma si_step_at s l i : ains_ok i -> code_at s (lcp_UcodePC l) (encode1 i) -> exists s1, quiet s s1 /\ env s1 = env s /\
  zlookup (ucode s1) (lcp_UcodePC l) = Some (ains_operand i) /\
  si_step l s = (l' ← si_exec (ains_simple i) l; mret (inl l')) s1.
Proof.
  intros Hi [Ha Hb]%code_at_2. destruct (ains_decode i Hi) as [Hd Hr].
  exists (with_sys (with_BackupUserPc (lcp_UcodePC l) (sys s)) s). split_and!; [done|done|done|].
  unfold si_step, GET_PU16_DATA, GET_PU8_DATA, mbind, M_bind, mret, M_ret. rewrite Ha, Hb.
  assert (0 <= ains_operand i < 256) by (destruct i as [? []|? []|? []| | | | | |]; simpl in *; lia).
  rewrite Z.shiftl_mul_pow2 by lia. assert (ains_operand i + si_code (ains_simple i) * 2 ^ 8 <? 57344 = true) as ->.
  { apply Z.ltb_lt. change (2 ^ 8) with 256. lia. }
  cbn [mod_sys modify ucode with_sys]. by rewrite Hb, Hd.
Qed.

Section exec_sim.
Context (l : si_locals) (s : plc_st) (st br : list bool).
Context (Rin : bits_rep st (llv_InPF l)) (Rout : bits_rep br (mlv_OutPF (env s))).
(** What each case establishes: the new stacks, [two] bytes further. *)
Definition execs (m : Mc si_locals) (st' br' : list bool) : Prop :=
  exists l' s', m s = Ok (l', s') /\ lcp_UcodePC l' = lcp_UcodePC l + 2 /\
    sim l' s' {| contacts_stk := st'; branch_stk := br' |} /\ quiet s s' /\
    mlv_InPF (env s') = mlv_InPF (env s) /\ mcp_PC (env s') = mcp_PC (env s).
(** The cases that do not touch the store. *)
Lemma execs_ret w st' : bits_rep st' w -> execs (mret (with_pf w l 2)) st' br.
Proof. intros R. eexists _, s. by split_and!. Qed.

Section contact_ins.
Context (neg : bool) (c : contact) (i : Z) (Hok : st_ok s) (Hi : 0 <= i < match c with cLM => 64 | _ => 256 end).
Context (Hc : zlookup (ucode s) (lcp_UcodePC l) = Some i).
Let b := xorb neg (cval s c i).
Lemma short_index_run : short_index (lcp_UcodePC l) s = Ok (i, s).
Proof. unfold short_index, GET_PU8_DATA. by rewrite Hc. Qed.
Lemma execs_read f st' : execs (mret (f (cval s c i))) st' br ->
  execs (j ← short_index (lcp_UcodePC l); v ← read_contact c j; mret (f v)) st' br.
Proof.
  intros (l' & s' & H & R). exists l', s'. split; [|exact R].
  by rewrite (bind_run _ _ _ _ _ short_index_run), (bind_run _ _ _ _ _ (read_contact_run s c i Hok Hi)).
Qed.
Lemma si_ld_sim : (length st < pf_depth)%nat -> execs (si_ld c short_index 2 l neg) (b :: st) br.
Proof.
  intros Hl. unfold si_ld.
  apply (execs_read (fun v => with_pf (pf_bit (xorb neg v) (push_pf (llv_InPF l))) l 2)).
  by apply execs_ret, rep_push.
Qed.
Lemma si_and_sim a st0 : st = a :: st0 -> execs (si_and c short_index 2 l neg) (a && b :: st0) br.
Proof.
  intros ->. unfold si_and. rewrite (rep_top _ _ _ Rin). destruct a; [|by apply execs_ret].
  apply (execs_read (fun v => with_pf (if xorb neg v then llv_InPF l else rst_pf (llv_InPF l)) l 2)).
  fold b. apply execs_ret. destruct b; [done|]. exact (rep_put _ false _ _ Rin).
Qed.
Lemma si_or_sim a st0 : st = a :: st0 -> execs (si_or c short_index 2 l neg) (a || b :: st0) br.
Proof.
  intros ->. unfold si_or. rewrite (rep_top _ _ _ Rin). destruct a; [by apply execs_ret|].
  apply (execs_read (fun v => with_pf (if xorb neg v then set_pf (llv_InPF l) else llv_InPF l) l 2)).
  fold b. apply execs_ret. destruct b; [|done]. exact (rep_put _ true _ _ Rin).
Qed.
End contact_ins.

Lemma inv_sim a st0 : st = a :: st0 -> execs (si_stack SI_INV l) (negb a :: st0) br.
Proof.
  intros ->. apply execs_ret. apply (rep_replace a (negb a) st0 (llv_InPF l)); [done| |].
  - rewrite Z.lxor_spec. pose proof (rep_top _ _ _ Rin) as H. unfold get_pf in H. rewrite H. apply xorb_true_r.
  - intros k Hk. rewrite Z.lxor_spec, testbit_one. destruct (Z.eqb_spec k 0); [lia|]. apply xorb_false_r.
Qed.
Lemma two_bits a a' st0 : st = a :: a' :: st0 -> Z.testbit (llv_InPF l) 0 = a /\ Z.testbit (llv_InPF l) 1 = a'.
Proof. intros ->. split; [exact (proj2 Rin 0%nat a eq_refl)|exact (proj2 Rin 1%nat a' eq_refl)]. Qed.
Lemma anb_sim a a' st0 : st = a :: a' :: st0 -> execs (si_stack SI_ANB l) (a && a' :: st0) br.
Proof.
  intros E. destruct (two_bits a a' st0 E) as [H0 H1]. rewrite E in Rin. apply execs_ret.
  rewrite low_bits_3, H0, H1. apply (rep_combine a a' (a && a') st0 (llv_InPF l)); [done| |].
  - destruct a, a'; cbn -[Z.testbit Z.land]; rewrite ?Z.land_spec, ?H1; done.
  - intros k Hk. destruct (a && a'); [done|]. rewrite Z.land_spec.
    change 4294967292 with (Z.shiftl (Z.ones 30) 2). rewrite Z.shiftl_spec, Z.ones_spec_low by lia. apply andb_true_r.
Qed.
Lemma orb_sim a a' st0 : st = a :: a' :: st0 -> execs (si_stack SI_ORB l) (a || a' :: st0) br.
Proof.
  intros E. destruct (two_bits a a' st0 E) as [H0 H1]. rewrite E in Rin. apply execs_ret.
  rewrite low_bits_0, H0, H1. apply (rep_combine a a' (a || a') st0 (llv_InPF l)); [done| |].
  - destruct a, a'; cbn -[Z.testbit Z.lor]; rewrite ?Z.lor_spec, ?H1; done.
  - intros k Hk. destruct (negb a && negb a'); [done|]. rewrite Z.lor_spec.
    change 2 with (Z.shiftl 1 1). rewrite Z.shiftl_spec, testbit_one by lia.
    destruct (Z.eqb_spec (k - 1) 0); [lia|]. apply orb_false_r.
Qed.
Lemma mps_sim a st0 : st = a :: st0 -> (length br < pf_depth)%nat -> execs (si_stack SI_MPS l) st (a :: br).
Proof.
  intros E Hl. eexists _, _. split; [reflexivity|].
  assert (Ht : Z.testbit (llv_InPF l) 0 = a) by (apply (rep_top st0); by rewrite <- E).
  split_and!; [done| |by split|done|done]. split; [done|]. simpl contacts_stk; simpl branch_stk.
  assert (Hm : forall k, 0 <= k -> Z.testbit (Z.land (llv_InPF l) 1) k = (k =? 0) && a).
  { intros k Hk. rewrite Z.land_spec, testbit_one. destruct (Z.eqb_spec k 0) as [->|]; [by rewrite Ht, andb_true_r|].
    by rewrite andb_false_r. }
  apply (rep_push_bit a br (mlv_OutPF (env s))); [done|done| |].
  - cbn -[Z.testbit Z.lor Z.land]. fold (push_pf (mlv_OutPF (env s))).
    by rewrite Z.lor_spec, Hm, shl1_bit by lia.
  - intros k Hk. cbn -[Z.testbit Z.lor Z.land]. fold (push_pf (mlv_OutPF (env s))).
    rewrite Z.lor_spec, Hm by lia. destruct (Z.eqb_spec k 0); [lia|]. apply orb_false_r.
Qed.
Lemma mrd_sim a st0 o br0 : st = a :: st0 -> br = o :: br0 -> execs (si_stack SI_MRD l) (o :: st0) br.
Proof.
  intros E1 E2. rewrite E1 in Rin. assert (Ho : get_pf (mlv_OutPF (env s)) = o) by (apply (rep_top br0); by rewrite <- E2).
  destruct (execs_ret (pf_bit o (llv_InPF l)) (o :: st0)) as (l' & s' & H & R); [by apply (rep_put a)|].
  exists l', s'. split; [|exact R]. rewrite <- H. unfold si_stack, gets, mbind, M_bind. by rewrite Ho.
Qed.
Lemma mpp_sim a st0 o br0 : st = a :: st0 -> br = o :: br0 -> execs (si_stack SI_MPP l) (o :: st0) br0.
Proof.
  intros E1 E2. rewrite E1 in Rin. rewrite E2 in Rout. pose proof (rep_top _ _ _ Rout) as Ho.
  eexists _, _. split; [reflexivity|]. split_and!; [done| |by split|done|done]. split.
  - simpl. rewrite Ho. by apply (rep_put a).
  - by apply (rep_shift o).
Qed.
End exec_sim.

(** The interpreter simulates the stack machine, instruction by instruction. *)
Lemma exec_sim l s m m' i : st_ok s -> ains_ok i -> zlookup (ucode s) (lcp_UcodePC l) = Some (ains_operand i) ->
  sim l s m -> astep (cval s) i m = Some m' ->
  execs l s (si_exec (ains_simple i) l) (contacts_stk m') (branch_stk m').
Proof.
  intros Hok Hi Hc [Rin Rout] Hs. destruct m as [st br].
  destruct i as [neg c n|neg c n|neg c n| | | | | |]; simpl in Hc, Hi, Rin, Rout;
    cbn [astep contacts_stk branch_stk] in Hs.
  - case_decide; [|done]. injection Hs as <-.
    destruct neg; [by apply (si_ld_sim l s st br Rin Rout true)|by apply (si_ld_sim l s st br Rin Rout false)].
  - destruct st as [|a st]; [done|]. injection Hs as <-.
    destruct neg; [by apply (si_and_sim l s _ br Rin Rout true)|by apply (si_and_sim l s _ br Rin Rout false)].
  - destruct st as [|a st]; [done|]. injection Hs as <-.
    destruct neg; [by apply (si_or_sim l s _ br Rin Rout true)|by apply (si_or_sim l s _ br Rin Rout false)].
  - destruct st as [|a st]; [done|]. injection Hs as <-. by eapply inv_sim.
  - destruct st as [|a [|a' st]]; [done..|]. injection Hs as <-. by eapply anb_sim.
  - destruct st as [|a [|a' st]]; [done..|]. injection Hs as <-. by eapply orb_sim.
  - destruct st as [|a st]; [done|]. case_decide; [|done]. injection Hs as <-. by eapply mps_sim.
  - destruct st as [|a st], br as [|o br]; [done..|]. injection Hs as <-. by eapply mrd_sim.
  - destruct st as [|a st], br as [|o br]; [done..|]. injection Hs as <-. by eapply mpp_sim.
Qed.

(** ** Instruction sequences *)
Fixpoint si_run (n : nat) (l : si_locals) : Mc si_locals :=
  match n with
  | O => mret l
  | Datatypes.S n' => r ← si_step l; match r with inl l' => si_run n' l' | inr _ => ub end
  end.
Lemma loop_si_run n f l s l' s' : si_run n l s = Ok (l', s') -> loop (n + f) si_step l s = loop f si_step l' s'.
Proof.
  revert l s. induction n as [|n IH]; intros l s E; cbn [si_run Nat.add loop] in *; [by injection E as -> ->|].
  unfold mbind, M_bind in *. destruct (si_step l s) as [[[l1|r] s1]| |]; try discriminate. by apply IH.
Qed.
Lemma arun_sim code : forall l s m m',
  st_ok s -> Forall ains_ok code -> code_at s (lcp_UcodePC l) (encode code) -> sim l s m ->
  arun (cval s) code m = Some m' ->
  exists l' s', si_run (length code) l s = Ok (l', s') /\
    lcp_UcodePC l' = lcp_UcodePC l + 2 * Z.of_nat (length code) /\ sim l' s' m' /\ quiet s s'.
Proof.
  induction code as [|i code IH]; intros l s m m' Hok Ha Hcode Hsim Hrun; cbn [arun si_run length] in *.
  - injection Hrun as <-. exists l, s. split_and!; [done|lia|done|done].
  - apply Forall_cons in Ha as [Hi Ha]. destruct (astep (cval s) i m) as [m1|] eqn:E1; [|done]. simpl in Hrun.
    apply code_at_app in Hcode as [Hc1 Hc2].
    destruct (si_step_at s l i Hi Hc1) as (s1 & Q1 & He & Hop & Hstep).
    assert (Hsim1 : sim l s1 m) by (split; [apply Hsim|rewrite He; apply Hsim]).
    rewrite <- (quiet_cval _ _ Q1) in E1.
    destruct (exec_sim l s1 m m1 i (quiet_ok _ _ Q1 Hok) Hi Hop Hsim1 E1) as (l2 & s2 & H2 & Hpc & Hsim2 & Q2 & _).
    pose proof (transitivity Q1 Q2) as Q. rewrite (bind_run _ _ _ s2 (inl l2)).
    2: { by rewrite Hstep, (bind_run _ _ _ _ _ H2). }
    destruct (IH l2 s2 m1 m') as (l3 & s3 & H3 & Hpc3 & Hsim3 & Q3).
    + by apply (quiet_ok s).
    + done.
    + rewrite Hpc. by apply (code_at_quiet s).
    + by destruct m1.
    + by rewrite (quiet_cval s s2).
    + exists l3, s3. split_and!; [done|lia|done|by transitivity s2].
Qed.

(** The loop stops at the first word of another class, with the registers
    stored. *)
Lemma si_step_stop l s a b : code_at s (lcp_UcodePC l) [a; b] -> 0 <= a < 2 ^ 8 -> 0xE0 <= b < 2 ^ 8 ->
  si_step l s = Ok (inr pdPASS, with_PC (lcp_UcodePC l) (with_InPF (llv_InPF l) s)).
Proof.
  intros [Ha Hb]%code_at_2 Ra Rb. unfold si_step, GET_PU16_DATA, GET_PU8_DATA, mbind, M_bind, mret, M_ret.
  rewrite Ha, Hb, Z.shiftl_mul_pow2 by lia. assert (a + b * 2 ^ 8 <? 57344 = false) as ->; [|done].
  apply Z.ltb_ge. change (2 ^ 8) with 256. lia.
Qed.

Lemma encode_length code : Z.of_nat (length (encode code)) = 2 * Z.of_nat (length code).
Proof.
  induction code as [|i l IH]; [done|]. change (encode (i :: l)) with (encode1 i ++ encode l).
  rewrite length_app. cbn [length encode1]. lia.
Qed.
Lemma stack_machine_loop code a b l s m m' fuel :
  st_ok s -> Forall ains_ok code -> code_at s (lcp_UcodePC l) (encode code ++ [a; b]) ->
  0 <= a < 2 ^ 8 -> 0xE0 <= b < 2 ^ 8 -> sim l s m -> arun (cval s) code m = Some m' -> (length code < fuel)%nat ->
  exists s', loop fuel si_step l s = Ok (pdPASS, s') /\
    bits_rep (contacts_stk m') (mlv_InPF (env s')) /\ bits_rep (branch_stk m') (mlv_OutPF (env s')) /\
    mcp_PC (env s') = lcp_UcodePC l + 2 * Z.of_nat (length code) /\ quiet s s'.
Proof.
  intros Hok Ha [Hc1 Hc2]%code_at_app Ra Rb Hsim Hrun Hf. rewrite encode_length in Hc2.
  destruct (arun_sim code l s m m' Hok Ha Hc1 Hsim Hrun) as (l' & s' & Hr & Hpc & [Sin Sout] & Q).
  exists (with_PC (lcp_UcodePC l') (with_InPF (llv_InPF l') s')). split.
  - replace fuel with (length code + Datatypes.S (fuel - length code - 1))%nat by lia.
    rewrite (loop_si_run _ _ _ _ _ _ Hr). cbn [loop].
    rewrite (bind_run _ _ _ _ _ (si_step_stop l' s' a b ltac:(rewrite Hpc; by apply (code_at_quiet s)) Ra Rb)). done.
  - split_and!; [done|done|done|]. by destruct Q.
Qed.

(** The registers as the interpreter loads them. *)
Definition entry_locals (s : plc_st) : si_locals :=
  {| llv_InPF := mlv_InPF (env s); lcp_UcodePC := mcp_PC (env s); lsv_charValue := None |}.

(** C2: the interpreter implements the stack machine. Whenever the stack
    machine, on the current contact values, takes a program of contact,
    block and branch instructions from the stacks in the power-flow words to
    new stacks, [plc_exec_simple_instruction] on its code finishes with
    [pdPASS] at the word that follows, with the new stacks in the two words,
    and has changed no element, edge, or control-flow state. *)
Theorem interpreter_refines_stack_machine code a b s st br m' fuel :
  wf_elem (elem s) -> 0 <= nested s < MAX_SBR_NESTED_LAYER -> Forall ains_ok code ->
  code_at s (mcp_PC (env s)) (encode code ++ [a; b]) -> 0 <= a < 2 ^ 8 -> 0xE0 <= b < 2 ^ 8 ->
  bits_rep st (mlv_InPF (env s)) -> bits_rep br (mlv_OutPF (env s)) ->
  arun (cval s) code {| contacts_stk := st; branch_stk := br |} = Some m' -> (length code < fuel)%nat ->
  exists s', plc_exec_simple_instruction fuel s = Ok (pdPASS, s') /\
    bits_rep (contacts_stk m') (mlv_InPF (env s')) /\ bits_rep (branch_stk m') (mlv_OutPF (env s')) /\
    mcp_PC (env s') = mcp_PC (env s) + 2 * Z.of_nat (length code) /\ quiet s s'.
Proof.
  intros W D Ha Hc Ra Rb Rin Rout Hrun Hf.
  exact (stack_machine_loop code a b
    (entry_locals s) s
    {| contacts_stk := st; branch_stk := br |} m' fuel (conj W D) Ha Hc Ra Rb (Build_sim (entry_locals s) s {| contacts_stk := st; branch_stk := br |} Rin Rout) Hrun Hf).
Qed.

(** C1: the code of a rung computes its Boolean expression: executed from any
    power flow with room for it, it ends at the following word with the value
    of the expression on the contacts pushed on the power flow. *)
Theorem rung_evaluation r a b s st fuel :
  wf_elem (elem s) -> 0 <= nested s < MAX_SBR_NESTED_LAYER -> Forall ains_ok (rung_code r) ->
  code_at s (mcp_PC (env s)) (encode (rung_code r) ++ [a; b]) -> 0 <= a < 2 ^ 8 -> 0xE0 <= b < 2 ^ 8 ->
  bits_rep st (mlv_InPF (env s)) -> (length st + rung_depth r <= pf_depth)%nat ->
  (length (rung_code r) < fuel)%nat ->
  exists s', plc_exec_simple_instruction fuel s = Ok (pdPASS, s') /\
    get_pf (mlv_InPF (env s')) = rung_value (cval s) r /\ bits_rep st (pop_pf (mlv_InPF (env s'))) /\
    mcp_PC (env s') = mcp_PC (env s) + 2 * Z.of_nat (length (rung_code r)) /\ quiet s s'.
Proof.
  intros W D Ha Hc Ra Rb Rin Hd Hf. pose proof (rep_nil (mlv_OutPF (env s))) as Rout.
  destruct (stack_machine_loop (rung_code r) a b
    (entry_locals s) s
    {| contacts_stk := st; branch_stk := [] |} _ fuel (conj W D) Ha Hc Ra Rb
    (Build_sim (entry_locals s) s {| contacts_stk := st; branch_stk := [] |} Rin Rout)
    (rung_code_run (cval s) r {| contacts_stk := st; branch_stk := [] |} Hd) Hf) as (s' & H & Hin & _ & Hpc & Q).
  exists s'. split_and!; [done|by apply (rep_top st)|by eapply rep_shift|done|done].
Qed.
Ltac solve_ains_ok := cbn [rung_code app]; repeat (apply Forall_cons; split); [zconc|..]; try zconc; try done; by constructor.
Definition rung_demo : rung := OrBlock (Serial (Contact false cX 3) true cM 7) (Inverse (Contact true cLM 5)).
Definition rung_demo_st : plc_st := st0 (encode (rung_code rung_demo) ++ [0; 0xF0]).
Lemma code_at_0 s code : take (length code) (ucode s) = code -> code_at s 0 code.
Proof.
  intros E k b Hk. apply zlookup_Some. split; [lia|]. replace (Z.to_nat (0 + Z.of_nat k)) with k by lia.
  apply lookup_lt_Some in Hk as Hl. rewrite <- E in Hk. by apply lookup_take_Some in Hk as [Hk _].
Qed.
Lemma rung_evaluation_witness : exists s', plc_exec_simple_instruction 6 rung_demo_st = Ok (pdPASS, s') /\
  get_pf (mlv_InPF (env s')) = false.
Proof.
  destruct (rung_evaluation rung_demo 0 0xF0 rung_demo_st [] 6) as (s' & H & Hv & _);
    [apply wf_elem0|zconc|solve_ains_ok|by apply code_at_0|zconc|zconc|apply rep_nil|vm_compute; lia|vm_compute; lia|].
  exists s'. split; [exact H|]. rewrite Hv. by vm_compute.
Defined.
Definition branch_demo : list ains := [ALd false cX 3; AMps; AAnd false cM 7; AMpp; AInv].
Lemma interpreter_refines_stack_machine_witness : exists s',
  plc_exec_simple_instruction 6 (st0 (encode branch_demo ++ [0; 0xF0])) = Ok (pdPASS, s') /\
  mcp_PC (env s') = 10.
Proof.
  destruct (interpreter_refines_stack_machine branch_demo 0 0xF0 (st0 (encode branch_demo ++ [0; 0xF0])) [] []
    {| contacts_stk := [true]; branch_stk := [] |} 6) as (s' & H & _ & _ & Hpc & _);
    [apply wf_elem0|zconc|solve_ains_ok|by apply code_at_0|zconc|zconc|apply rep_nil|apply rep_nil
    |by vm_compute|vm_compute; lia|].
  by exists s'.
Defined.
