(* ===== verification/Device.v ===== *)
(** * Devices: the frame of element updates, and the single word operand

    Counters and timers keep their state in several arrays at one index. Each
    primitive changes one part of the element memory; [touches] says which,
    and carries everything else over. *)
From stdpp Require Import base list numbers sets.
From S2P Require Import Prelude Element Machine ParseAddr ParseAddrFacts.

Inductive part : Set := PReg (r : region) | PC | PT.
Record touches (p : part) (s s' : plc_st) : Prop := {
  to_reg r : p <> PReg r -> rget (mem s') r = rget (mem s) r;
  to_c : p <> PC -> c_StatusInfo (mem s') = c_StatusInfo (mem s);
  to_t : p <> PT -> t_StatusInfo (mem s') = t_StatusInfo (mem s);
  to_inert : inert s s';
  to_env : env s' = env s /\ gtp_EuEd s' = gtp_EuEd s }.
#[global] Instance touches_preorder p : PreOrder (touches p).
Proof.
  split; [by split|]. intros x y z [A1 A2 A3 A4 [A5 A6]] [B1 B2 B3 B4 [B5 B6]].
  split; [intros r H; rewrite B1 by done; auto|intros H; rewrite B2 by done; auto
         |intros H; rewrite B3 by done; auto|by transitivity y|split; congruence].
Qed.
#[global] Instance wr_touches r i v : Respects (touches (PReg r)) (wr r i v).
Proof.
  intros s a s' E. pose proof (wr_inert _ _ _ _ _ _ E) as I. unfold wr in E.
  destruct (zupdate _ _ _); [|done]. injection E as <- <-. split; [|done|done|done|done].
  intros q Hq. apply rget_rset_ne. congruence.
Qed.
#[global] Instance set_bit_touches r n v : Respects (touches (PReg r)) (plc_set_bit_element_value r n v).
Proof. unfold plc_set_bit_element_value. apply _. Qed.
#[global] Instance wr_c_status_touches i f : Respects (touches PC) (wr_c_status i f).
Proof.
  intros s a s' E. pose proof (wr_c_status_inert _ _ _ _ _ E) as I. unfold wr_c_status in E.
  destruct (zlookup _ _); [|done]. destruct (zupdate _ _ _); [|done]. injection E as <- <-.
  split; [|done|done|done|done]. intros r _. apply rget_with_c_status.
Qed.
#[global] Instance wr_t_status_touches i f : Respects (touches PT) (wr_t_status i f).
Proof.
  intros s a s' E. pose proof (wr_t_status_inert _ _ _ _ _ E) as I. unfold wr_t_status in E.
  destruct (zlookup _ _); [|done]. destruct (zupdate _ _ _); [|done]. injection E as <- <-.
  split; [|done|done|done|done]. intros r _. apply rget_with_t_status.
Qed.

Section prims.
Context (s : plc_st) (W : wf_elem (elem s)).
Lemma wr_dev r i v : 0 <= i < rsize r -> exists s', wr r i v s = Ok (tt, s') /\ wf_elem (elem s') /\
  touches (PReg r) s s' /\ cell r i s' = rconv r v.
Proof.
  intros Hi. pose proof (wr_upd r i v s W Hi) as H. exists (upd r i v s).
  split_and!; [done|by apply upd_wf|by apply (wr_touches r i v) in H|]. by rewrite cell_upd, decide_True.
Qed.
Lemma set_bit_dev r n v : bit_region r -> 0 <= n < 2 ^ 16 -> n < 16 * rsize r -> 0 <= v < 2 ^ 8 ->
  exists s', plc_set_bit_element_value r n v s = Ok (tt, s') /\ wf_elem (elem s') /\
    touches (PReg r) s s' /\ bit_of (mem s') r n = Some (truthy v).
Proof.
  intros R Hn Hr Hv. destruct (set_bit_run r n v s W R Hn Hr Hv) as (s' & H & [U _] & W').
  exists s'. split_and!; [done|done|by apply (set_bit_touches r n v) in H|].
  etransitivity; [apply U; lia|]. by rewrite decide_True.
Qed.
Lemma wr_c_dev i f : 0 <= i < C_RANG -> exists c s', zlookup (c_StatusInfo (mem s)) i = Some c /\
  wr_c_status i f s = Ok (tt, s') /\ wf_elem (elem s') /\
  touches PC s s' /\ zlookup (c_StatusInfo (mem s')) i = Some (f c).
Proof.
  intros Hi. destruct (wr_c_status_run i f s W Hi) as (c & Hc & H). exists c. eexists. split; [exact Hc|].
  split; [exact H|]. split_and!; [by eapply wr_c_status_wf|by apply wr_c_status_touches in H|].
  cbn. apply (zlookup_zupdate_eq (c_StatusInfo (mem s))). apply zupdate_lt. by apply zlookup_lt in Hc.
Qed.
Lemma wr_t_dev i f : 0 <= i < T_RANG -> exists t s', zlookup (t_StatusInfo (mem s)) i = Some t /\
  wr_t_status i f s = Ok (tt, s') /\ wf_elem (elem s') /\
  touches PT s s' /\ zlookup (t_StatusInfo (mem s')) i = Some (f t).
Proof.
  intros Hi. destruct (wr_t_status_run i f s W Hi) as (t & Ht & H). exists t. eexists. split; [exact Ht|].
  split; [exact H|]. split_and!; [by eapply wr_t_status_wf|by apply wr_t_status_touches in H|].
  cbn. apply (zlookup_zupdate_eq (t_StatusInfo (mem s))). apply zupdate_lt. by apply zlookup_lt in Ht.
Qed.
End prims.
(** What a touch elsewhere leaves. *)
Lemma touches_cell p r i s s' : touches p s s' -> p <> PReg r -> cell r i s' = cell r i s.
Proof. intros T H. unfold cell, elem. cbn. by rewrite (to_reg _ _ _ T). Qed.
Lemma touches_bit p r n s s' : touches p s s' -> p <> PReg r -> bit_of (mem s') r n = bit_of (mem s) r n.
Proof. intros T H. unfold bit_of. by rewrite (to_reg _ _ _ T). Qed.

(** ** The word operand of an instruction: the idiom
    [lcv_Ret = get_word(a, &v, 0, 1); if(lcv_Ret != pdPASS) return lcv_Ret;] *)
Definition with_word (a : Z) (k : Z -> Mc Z) : Mc Z :=
  rv ← get_word1 a;
  if rv.1 =? pdPASS then v ← of_option rv.2; k v else mret rv.1.
Definition with_dword (a : Z) (k : Z -> Mc Z) : Mc Z :=
  rv ← get_dword1 a;
  if rv.1 =? pdPASS then v ← of_option rv.2; k v else mret rv.1.
(** A constant operand. *)
Definition const_word (a d : Z) (s : plc_st) : Prop := exists m, m < 2 /\ operand a s m ADDR_CONST d.
Lemma const_word_code a d s s' : ucode s' = ucode s -> const_word a d s -> const_word a d s'.
Proof. intros I (m & Hm & O). exists m. split; [done|]. by eapply operand_code. Qed.
Lemma const_word_inert a d s s' : inert s s' -> const_word a d s -> const_word a d s'.
Proof. intros [Hu _]. by apply const_word_code. Qed.
Lemma get_const_run a off cnt d s : const_word a d s -> get_word a off cnt s = Ok ((pdPASS, [d]), s).
Proof.
  intros (m & Hm & O). unfold get_word. rewrite (bind_run _ _ _ _ _ (op_t _ _ _ _ _ O)), addr_decode_code.
  unfold get_word_const. rewrite (bind_run _ _ _ _ _ (op_m _ _ _ _ _ O)). assert (2 <=? m = false) as -> by lia.
  by rewrite (bind_run _ _ _ _ _ (op_n _ _ _ _ _ O)).
Qed.
Lemma with_word_const a d s k : const_word a d s -> with_word a k s = k d s.
Proof.
  intros C. unfold with_word, get_word1, mbind, M_bind. by rewrite (get_const_run _ _ _ _ _ C).
Qed.
(** The element number of a counter or timer instruction. *)
Definition ins_number : Mc Z := pc ← get_PC; GET_PU16_DATA (pc + 4).
Lemma ins_number_stable n s s' : ucode s' = ucode s -> mcp_PC (env s') = mcp_PC (env s) ->
  ins_number s = Ok (n, s) -> ins_number s' = Ok (n, s').
Proof.
  intros I He E. unfold ins_number, get_PC in *. unfold mbind at 1, M_bind at 1 in E. unfold mbind at 1, M_bind at 1.
  cbn [gets] in *. rewrite He. by eapply PU16_code.
Qed.
#[global] Instance with_word_respects R `{!PreOrder R} a k : (forall v, Respects R (k v)) -> Respects R (with_word a k).
Proof. unfold with_word. apply _. Qed.
#[global] Instance with_dword_respects R `{!PreOrder R} a k : (forall v, Respects R (k v)) -> Respects R (with_dword a k).
Proof. unfold with_dword. apply _. Qed.
