(* ===== verification/CounterIns.v ===== *)
(** * Counter instructions

    Models plc/executer/src/plc_counterins.c. A counter counts the rising
    edges of its power flow; the last power flow seen is a status bit. *)
From stdpp Require Import base list numbers sets.
From S2P Require Import Prelude Element Machine ParseAddr ParseAddrFacts Device.

Definition plc_reset_one_counter (Element : Z) : Mc unit :=
  (if Element <? C16_RANG then wr C16_VALUE Element 0 else wr C32_VALUE (Element - C16_RANG) 0);;
  plc_set_bit_element_value C_ELEMENT Element 0.

(** The edge test the three counters share. *)
Definition on_count_edge (body : Z -> Mc Z) : Mc Z :=
  lsv_CounterNum ← ins_number;
  pf ← GET_POWER_FLOW;
  if pf : bool then
    st ← rd_c_status lsv_CounterNum;
    if negb (c_PowerFlow st =? 1) then
      wr_c_status lsv_CounterNum (set_c_PowerFlow 1);; body lsv_CounterNum
    else mret pdPASS
  else wr_c_status lsv_CounterNum (set_c_PowerFlow 0);; mret pdPASS.
Definition run_ci_ctu_ins : Mc Z := on_count_edge (fun n =>
  v ← rd C16_VALUE n;
  when (negb (v =? 0x7FFF)) (wr C16_VALUE n (v + 1));;
  pc ← get_PC;
  with_word (pc + 6) (fun lsv_DestValue =>
    v' ← rd C16_VALUE n;
    when (lsv_DestValue <=? v') (plc_set_bit_element_value C_ELEMENT n 1);;
    mret pdPASS)).
Definition run_ci_ctr_ins : Mc Z := on_count_edge (fun n =>
  pc ← get_PC;
  with_word (pc + 6) (fun lsv_DestValue =>
    v ← rd C16_VALUE n;
    if v =? lsv_DestValue then
      wr C16_VALUE n 1;; plc_set_bit_element_value C_ELEMENT n 0;; mret pdPASS
    else
      wr C16_VALUE n (v + 1);;
      v' ← rd C16_VALUE n;
      when (lsv_DestValue <=? v') (plc_set_bit_element_value C_ELEMENT n 1);;
      mret pdPASS)).
Definition run_ci_dcnt_ins : Mc Z := on_count_edge (fun n =>
  pc ← get_PC;
  with_dword (pc + 8) (fun d =>
    let llv_DestValue := s32 d in
    down ← plc_get_bit_element_value SM_ELEMENT n;
    v ← rd C32_VALUE (n - C16_RANG);
    (if down =? 0 then
       wr C32_VALUE (n - C16_RANG) (v + 1);;
       v' ← rd C32_VALUE (n - C16_RANG);
       plc_set_bit_element_value C_ELEMENT n (if llv_DestValue <=? v' then 1 else 0)
     else
       wr C32_VALUE (n - C16_RANG) (v - 1);;
       v' ← rd C32_VALUE (n - C16_RANG);
       plc_set_bit_element_value C_ELEMENT n (if v' <=? llv_DestValue then 1 else 0));;
    mret pdPASS)).
Definition run_ci_rst_c_ins : Mc Z :=
  pf ← GET_POWER_FLOW;
  when pf (n ← ins_number; plc_reset_one_counter n);;
  mret 1.

(** ** The state of one 16-bit counter *)
Record counter := { k_cur : Z; k_bit : bool; k_pf : bool }.
Record counter_at (n : Z) (k : counter) (s : plc_st) : Prop := {
  ka_wf : wf_elem (elem s);
  ka_cur : cell C16_VALUE n s = k_cur k;
  ka_bit : bit_of (mem s) C_ELEMENT n = Some (k_bit k);
  ka_pf : exists c, zlookup (c_StatusInfo (mem s)) n = Some c /\ (c_PowerFlow c =? 1) = k_pf k }.
(** What counter [n]'s instructions change of the machine. *)
Record counter_frame (s s' : plc_st) : Prop := {
  cf_inert : inert s s';
  cf_env : env s' = env s;
  cf_reg r : r <> C16_VALUE -> r <> C_ELEMENT -> rget (mem s') r = rget (mem s) r;
  cf_t : t_StatusInfo (mem s') = t_StatusInfo (mem s) }.
#[global] Instance counter_frame_preorder : PreOrder counter_frame.
Proof.
  split; [by split|]. intros x y z [A1 A2 A3 A4] [B1 B2 B3 B4].
  split; [by transitivity y|congruence|intros r H1 H2; rewrite B3; auto|congruence].
Qed.
Lemma touches_counter p s s' : touches p s s' -> p = PReg C16_VALUE \/ p = PReg C_ELEMENT \/ p = PC ->
  counter_frame s s'.
Proof.
  intros [T1 T2 T3 T4 [T5 T6]] Hp. split; [done|done| |apply T3; naive_solver].
  intros r H1 H2. apply T1. naive_solver.
Qed.

Section counter_prims.
Context (n : Z) (k : counter) (s : plc_st) (K : counter_at n k s) (Hn : 0 <= n < C16_RANG).
Lemma counter_range : 0 <= n < rsize C16_VALUE /\ 0 <= n < C_RANG /\ 0 <= n < 2 ^ 16 /\ n < 16 * rsize C_ELEMENT.
Proof.
  change (rsize C16_VALUE) with C16_RANG. change (16 * rsize C_ELEMENT) with C_RANG.
  unfold C16_RANG, C_RANG in *. lia.
Qed.
Lemma counter_rd : rd C16_VALUE n s = Ok (k_cur k, s).
Proof. rewrite rd_cell, (ka_cur _ _ _ K); [done|apply K|apply counter_range]. Qed.
Lemma counter_wr v : exists s', wr C16_VALUE n v s = Ok (tt, s') /\ counter_frame s s' /\
  counter_at n {| k_cur := u16 v; k_bit := k_bit k; k_pf := k_pf k |} s'.
Proof.
  destruct K as [W C B P]. destruct (wr_dev s W C16_VALUE n v) as (s' & H & W' & T & C'); [apply counter_range|].
  exists s'. split_and!; [done|apply (touches_counter _ _ _ T); auto|]. split; [done|done| |].
  - rewrite (touches_bit _ _ _ _ _ T); [done|congruence].
  - by rewrite (to_c _ _ _ T).
Qed.
Lemma counter_set (b : bool) : exists s', plc_set_bit_element_value C_ELEMENT n (if b then 1 else 0) s = Ok (tt, s') /\
  counter_frame s s' /\ counter_at n {| k_cur := k_cur k; k_bit := b; k_pf := k_pf k |} s'.
Proof.
  destruct K as [W C B P]. destruct (set_bit_dev s W C_ELEMENT n (if b then 1 else 0)) as (s' & H & W' & T & B');
    [by split|apply counter_range|apply counter_range|by destruct b|].
  exists s'. split_and!; [done|apply (touches_counter _ _ _ T); auto|]. split; [done| | |].
  - rewrite <- C. apply (touches_cell _ _ _ _ _ T). congruence.
  - rewrite B'. by destruct b.
  - by rewrite (to_c _ _ _ T).
Qed.
Lemma counter_status (b : bool) : exists c s', zlookup (c_StatusInfo (mem s)) n = Some c /\
  (c_PowerFlow c =? 1) = k_pf k /\
  wr_c_status n (set_c_PowerFlow (if b then 1 else 0)) s = Ok (tt, s') /\
  counter_frame s s' /\ counter_at n {| k_cur := k_cur k; k_bit := k_bit k; k_pf := b |} s'.
Proof.
  destruct K as [W C B (c & Hc & Hp)].
  destruct (wr_c_dev s W n (set_c_PowerFlow (if b then 1 else 0))) as (c' & s' & Hc' & H & W' & T & P');
    [apply counter_range|].
  exists c, s'. split_and!; [done|done|done|apply (touches_counter _ _ _ T); auto|]. split; [done| | |].
  - rewrite <- C. apply (touches_cell _ _ _ _ _ T). congruence.
  - rewrite (touches_bit _ _ _ _ _ T); [done|congruence].
  - eexists. split; [exact P'|]. by destruct b.
Qed.
End counter_prims.

(** ** Counting over scans *)
(** One scan: the rung delivers [b], the instruction runs. *)
Fixpoint scan_counter (m : Mc Z) (inputs : list bool) : Mc unit :=
  match inputs with [] => mret tt | b :: bs => put_power_flow b;; m;; scan_counter m bs end.
Record counter_env (n pc d : Z) (s : plc_st) : Prop := {
  ce_num : ins_number s = Ok (n, s);
  ce_pc : mcp_PC (env s) = pc;
  ce_dest : const_word (pc + 6) d s }.
Definition rises (p b : bool) : bool := b && negb p.
Fixpoint rise_count (p : bool) (inputs : list bool) : Z :=
  match inputs with [] => 0 | b :: bs => (if rises p b then 1 else 0) + rise_count b bs end.
Lemma rise_count_nonneg p inputs : 0 <= rise_count p inputs.
Proof. revert p. induction inputs as [|b bs IH]; intros p; cbn [rise_count]; [lia|]. specialize (IH b). case_match; lia. Qed.

Lemma counter_env_frame n pc d s s' : counter_env n pc d s -> inert s s' -> mcp_PC (env s') = mcp_PC (env s) ->
  counter_env n pc d s'.
Proof.
  intros [C1 C2 C3] I E. split; [by eapply ins_number_stable; [apply I|..]|congruence|by eapply const_word_inert].
Qed.
Lemma put_pf_counter b n k pc d s : counter_at n k s -> counter_env n pc d s ->
  exists s', put_power_flow b s = Ok (tt, s') /\ counter_at n k s' /\ counter_env n pc d s' /\
    GET_POWER_FLOW s' = Ok (b, s') /\ inert s s' /\ mem s' = mem s.
Proof.
  intros [K1 K2 K3 K4] C.
  exists (with_InPF (if b then set_pf (mlv_InPF (env s)) else rst_pf (mlv_InPF (env s))) s).
  split; [by destruct b|]. split; [by split|]. split; [by apply (counter_env_frame n pc d s)|].
  split; [|done]. unfold GET_POWER_FLOW, gets. do 2 f_equal. destruct b; simpl; unfold get_pf, set_pf, rst_pf;
    rewrite ?Z.lor_spec, ?Z.land_spec; [apply orb_true_r|apply andb_false_r].
Qed.

Section count_edge.
Context (n pc d : Z) (Hn : 0 <= n < C16_RANG) (body : Z -> Mc Z) (f : counter -> counter).
(** [body] acts on the counter as [f]. *)
Definition acts : Prop := forall k s, counter_at n k s -> counter_env n pc d s ->
  exists s', body n s = Ok (pdPASS, s') /\ counter_at n (f k) s' /\ counter_frame s s'.
Definition edge_scan (k : counter) (b : bool) : counter :=
  let k' := {| k_cur := k_cur k; k_bit := k_bit k; k_pf := b |} in
  if rises (k_pf k) b then f k' else k'.
Context (Ha : acts).
Lemma on_count_edge_run b k s : counter_at n k s -> counter_env n pc d s -> GET_POWER_FLOW s = Ok (b, s) ->
  exists s', on_count_edge body s = Ok (pdPASS, s') /\ counter_at n (edge_scan k b) s' /\ counter_frame s s'.
Proof.
  intros K C Hpf. unfold on_count_edge.
  rewrite (bind_run _ _ _ _ _ (ce_num _ _ _ _ C)), (bind_run _ _ _ _ _ Hpf).
  destruct (counter_status n k s K Hn b) as (c & s1 & Hc & Hp & H1 & F1 & K1).
  destruct b.
  - assert (Hrd : rd_c_status n s = Ok (c, s)) by (unfold rd_c_status; cbn in *; by rewrite Hc).
    rewrite (bind_run _ _ _ _ _ Hrd), Hp. unfold edge_scan, rises. destruct k as [kc kb []]; cbn [k_pf negb andb].
    + exists s. by split_and!.
    + rewrite (bind_run _ _ _ _ _ H1).
      destruct (Ha _ s1 K1) as (s2 & H2 & K2 & F2).
      { apply (counter_env_frame _ _ _ s); [done|apply F1|by rewrite (cf_env _ _ F1)]. }
      exists s2. split_and!; [done|done|by transitivity s1].
  - rewrite (bind_run _ _ _ _ _ H1). by exists s1.
Qed.
Lemma scan_counter_run inputs k s : counter_at n k s -> counter_env n pc d s ->
  exists s', scan_counter (on_count_edge body) inputs s = Ok (tt, s') /\
    counter_at n (foldl edge_scan k inputs) s' /\ inert s s' /\
    (forall r, r <> C16_VALUE -> r <> C_ELEMENT -> rget (mem s') r = rget (mem s) r).
Proof.
  revert k s. induction inputs as [|b bs IH]; intros k s K C; cbn [scan_counter foldl]; [by exists s|].
  destruct (put_pf_counter b n k pc d s K C) as (s1 & H1 & K1 & C1 & P1 & I1 & M1).
  rewrite (bind_run _ _ _ _ _ H1).
  destruct (on_count_edge_run b k s1 K1 C1 P1) as (s2 & H2 & K2 & F2). rewrite (bind_run _ _ _ _ _ H2).
  destruct (IH _ s2 K2) as (s3 & H3 & K3 & I3 & R3).
  { apply (counter_env_frame _ _ _ s1); [done|apply F2|by rewrite (cf_env _ _ F2)]. }
  exists s3. split_and!; [done|done| |].
  - transitivity s1; [done|]. transitivity s2; [apply F2|done].
  - intros r Hr1 Hr2. rewrite R3, (cf_reg _ _ F2), M1 by done. done.
Qed.
End count_edge.

(** *** What one counted edge does *)
Definition ctu_count (d : Z) (k : counter) : counter :=
  let c := if k_cur k =? 0x7FFF then k_cur k else u16 (k_cur k + 1) in
  {| k_cur := c; k_bit := k_bit k || (d <=? c); k_pf := true |}.
Definition ctr_count (d : Z) (k : counter) : counter :=
  if k_cur k =? d then {| k_cur := 1; k_bit := false; k_pf := true |}
  else let c := u16 (k_cur k + 1) in {| k_cur := c; k_bit := k_bit k || (d <=? c); k_pf := true |}.

Section count_bodies.
Context (n pc d : Z) (Hn : 0 <= n < C16_RANG).
(** The end both bodies share: compare the count with the set value. *)
Lemma compare_run k s : counter_at n k s ->
  exists s', (v' ← rd C16_VALUE n; when (d <=? v') (plc_set_bit_element_value C_ELEMENT n 1);; mret pdPASS) s
      = Ok (pdPASS, s') /\
    counter_at n {| k_cur := k_cur k; k_bit := k_bit k || (d <=? k_cur k); k_pf := k_pf k |} s' /\ counter_frame s s'.
Proof.
  intros K. rewrite (bind_run _ _ _ _ _ (counter_rd n k s K Hn)). destruct (d <=? k_cur k).
  - destruct (counter_set n k s K Hn true) as (s' & H & F & K'). rewrite when_true, (bind_run _ _ _ _ _ H).
    exists s'. rewrite orb_true_r. by split_and!.
  - exists s. rewrite orb_false_r. split_and!; [done| |done]. by destruct k.
Qed.
Lemma ctu_acts : acts n pc d (fun n => v ← rd C16_VALUE n;
    when (negb (v =? 0x7FFF)) (wr C16_VALUE n (v + 1));;
    pc ← get_PC;
    with_word (pc + 6) (fun lsv_DestValue =>
      v' ← rd C16_VALUE n;
      when (lsv_DestValue <=? v') (plc_set_bit_element_value C_ELEMENT n 1);; mret pdPASS))
  (fun k => {| k_cur := k_cur (ctu_count d k); k_bit := k_bit (ctu_count d k); k_pf := k_pf k |}).
Proof.
  intros k s K C. rewrite (bind_run _ _ _ _ _ (counter_rd n k s K Hn)).
  assert (exists s1, when (negb (k_cur k =? 32767)) (wr C16_VALUE n (k_cur k + 1)) s = Ok (tt, s1) /\
    counter_frame s s1 /\ counter_at n {| k_cur := k_cur (ctu_count d k); k_bit := k_bit k; k_pf := k_pf k |} s1)
    as (s1 & H1 & F1 & K1).
  { unfold ctu_count. cbn [k_cur]. destruct (k_cur k =? 32767).
    - exists s. split_and!; [done|done|]. by destruct k.
    - exact (counter_wr n k s K Hn (k_cur k + 1)). }
  rewrite (bind_run _ _ _ _ _ H1).
  pose proof (counter_env_frame _ _ _ _ _ C (cf_inert _ _ F1) ltac:(by rewrite (cf_env _ _ F1))) as C1.
  unfold get_PC. unfold mbind at 1, M_bind at 1. cbn [gets].
  rewrite (ce_pc _ _ _ _ C1), (with_word_const _ d) by apply C1.
  destruct (compare_run _ _ K1) as (s2 & H2 & K2 & F2). exists s2. split_and!; [done|done|by transitivity s1].
Qed.
Lemma ctr_acts : acts n pc d (fun n => pc ← get_PC;
    with_word (pc + 6) (fun lsv_DestValue =>
      v ← rd C16_VALUE n;
      if v =? lsv_DestValue then
        wr C16_VALUE n 1;; plc_set_bit_element_value C_ELEMENT n 0;; mret pdPASS
      else
        wr C16_VALUE n (v + 1);;
        v' ← rd C16_VALUE n;
        when (lsv_DestValue <=? v') (plc_set_bit_element_value C_ELEMENT n 1);; mret pdPASS))
  (fun k => {| k_cur := k_cur (ctr_count d k); k_bit := k_bit (ctr_count d k); k_pf := k_pf k |}).
Proof.
  intros k s K C. unfold get_PC. unfold mbind at 1, M_bind at 1. cbn [gets].
  rewrite (ce_pc _ _ _ _ C), (with_word_const _ d) by apply C.
  rewrite (bind_run _ _ _ _ _ (counter_rd n k s K Hn)). unfold ctr_count. destruct (k_cur k =? d).
  - destruct (counter_wr n k s K Hn 1) as (s1 & H1 & F1 & K1). rewrite (bind_run _ _ _ _ _ H1).
    destruct (counter_set n _ s1 K1 Hn false) as (s2 & H2 & F2 & K2). rewrite (bind_run _ _ _ _ _ H2).
    exists s2. split_and!; [done|done|by transitivity s1].
  - destruct (counter_wr n k s K Hn (k_cur k + 1)) as (s1 & H1 & F1 & K1). rewrite (bind_run _ _ _ _ _ H1).
    destruct (compare_run _ _ K1) as (s2 & H2 & K2 & F2). exists s2. split_and!; [done|done|by transitivity s1].
Qed.
End count_bodies.

(** *** The counts in closed form *)
Lemma ctu_fold d inputs k : 0 <= k_cur k <= 0x7FFF ->
  let r := rise_count (k_pf k) inputs in
  let c := Z.min 0x7FFF (k_cur k + r) in
  foldl (edge_scan (fun k => {| k_cur := k_cur (ctu_count d k); k_bit := k_bit (ctu_count d k); k_pf := k_pf k |})) k inputs
    = {| k_cur := c; k_bit := k_bit k || (0 <? r) && (d <=? c); k_pf := List.last inputs (k_pf k) |}.
Proof.
  revert k. induction inputs as [|b bs IH]; intros k Hk; cbn [foldl rise_count].
  - destruct k as [c bt p]; cbn [k_cur k_bit k_pf List.last] in *. rewrite Z.add_0_r, Z.min_r by lia.
    by rewrite andb_false_l, orb_false_r.
  - pose proof (rise_count_nonneg b bs) as Hr. unfold edge_scan at 2. destruct (rises (k_pf k) b) eqn:E.
    + set (k' := {| k_cur := k_cur k; k_bit := k_bit k; k_pf := b |}).
      assert (Hc : k_cur (ctu_count d k') = Z.min 0x7FFF (k_cur k + 1)).
      { unfold ctu_count, k'. cbn [k_cur]. destruct (Z.eqb_spec (k_cur k) 0x7FFF) as [->|]; [done|].
        rewrite u16_id by lia. lia. }
      rewrite IH; cbn [k_cur k_bit k_pf]; rewrite Hc; [|lia]. rewrite last_cons_default.
      assert (Hb : k_bit (ctu_count d k') = k_bit k || (d <=? k_cur (ctu_count d k'))) by done.
      rewrite Hb, Hc. change (k_pf k') with b. replace (Z.min 32767 (Z.min 32767 (k_cur k + 1) + rise_count b bs))
        with (Z.min 32767 (k_cur k + (1 + rise_count b bs))) by lia.
      assert (Hbit : forall x, x || (d <=? Z.min 32767 (k_cur k + 1))
          || (0 <? rise_count b bs) && (d <=? Z.min 32767 (k_cur k + (1 + rise_count b bs)))
        = x || (0 <? 1 + rise_count b bs) && (d <=? Z.min 32767 (k_cur k + (1 + rise_count b bs)))).
      { intros x. destruct x; [done|].
        destruct (Z.leb_spec d (Z.min 32767 (k_cur k + 1))), (Z.ltb_spec 0 (rise_count b bs)),
          (Z.ltb_spec 0 (1 + rise_count b bs)), (Z.leb_spec d (Z.min 32767 (k_cur k + (1 + rise_count b bs)))); simpl; lia. }
      by rewrite Hbit.
    + rewrite IH by done. cbn [k_cur k_bit k_pf]. by rewrite last_cons_default.
Qed.
(** The cyclic counter after [r] edges from reset: 1 .. d and over again, the
    bit on at [d] only. *)
Definition ctr_state (d r : Z) (p : bool) : counter :=
  {| k_cur := if r =? 0 then 0 else (r - 1) mod d + 1; k_bit := (0 <? r) && (r mod d =? 0); k_pf := p |}.
Lemma ctr_next d r p : 2 <= d < 2 ^ 16 -> 0 <= r ->
  ctr_count d (ctr_state d r p) = ctr_state d (r + 1) true.
Proof.
  intros Hd Hr. unfold ctr_count, ctr_state. cbn [k_cur k_bit].
  assert (r + 1 =? 0 = false) as -> by lia. replace (r + 1 - 1) with r by lia.
  assert (0 <? r + 1 = true) as -> by lia. rewrite andb_true_l.
  destruct (Z.eqb_spec r 0) as [->|Hr0].
  - rewrite (Z.mod_small 0), (Z.mod_small (0 + 1)) by lia. assert (0 =? d = false) as -> by lia.
    change (u16 (0 + 1)) with 1. cbn. by assert (d <=? 1 = false) as -> by lia.
  - assert (0 <? r = true) as -> by lia. rewrite andb_true_l.
    pose proof (Z.mod_pos_bound (r - 1) d ltac:(lia)) as B.
    pose proof (Z.div_mod (r - 1) d ltac:(lia)) as E.
    destruct (Z.eqb_spec ((r - 1) mod d + 1) d) as [H|H].
    + assert (Hm : r mod d = 0) by (symmetry; apply (Z.mod_unique r d ((r - 1) / d + 1)); lia).
      assert (Hm1 : (r + 1) mod d = 1) by (symmetry; apply (Z.mod_unique (r + 1) d ((r - 1) / d + 1)); lia).
      by rewrite Hm, Hm1.
    + assert (Hm : r mod d = (r - 1) mod d + 1) by (symmetry; apply (Z.mod_unique r d ((r - 1) / d)); lia).
      rewrite Hm, u16_id by lia. assert ((r - 1) mod d + 1 =? 0 = false) as -> by lia. rewrite orb_false_l.
      f_equal. destruct (Z.leb_spec d ((r - 1) mod d + 1 + 1)) as [L|L].
      * assert ((r + 1) mod d = 0) as -> by (symmetry; apply (Z.mod_unique (r + 1) d ((r - 1) / d + 1)); lia). done.
      * assert ((r + 1) mod d = (r - 1) mod d + 2) as -> by (symmetry; apply (Z.mod_unique (r + 1) d ((r - 1) / d)); lia).
        symmetry. apply Z.eqb_neq. lia.
Qed.
Lemma ctr_fold d inputs r p : 2 <= d < 2 ^ 16 -> 0 <= r ->
  foldl (edge_scan (fun k => {| k_cur := k_cur (ctr_count d k); k_bit := k_bit (ctr_count d k); k_pf := k_pf k |}))
    (ctr_state d r p) inputs = ctr_state d (r + rise_count p inputs) (List.last inputs p).
Proof.
  intros Hd. revert r p. induction inputs as [|b bs IH]; intros r p Hr; cbn [foldl rise_count].
  - by rewrite Z.add_0_r.
  - rewrite last_cons_default. unfold edge_scan at 2. change (k_pf (ctr_state d r p)) with p.
    destruct (rises p b) eqn:E.
    + change {| k_cur := k_cur (ctr_state d r p); k_bit := k_bit (ctr_state d r p); k_pf := b |}
        with (ctr_state d r b). rewrite ctr_next by done. cbn [k_cur k_bit k_pf ctr_state].
      assert (b = true) as -> by (by destruct b). rewrite Z.add_assoc. apply IH. lia.
    + apply (IH r b Hr).
Qed.

(** C6: the up counter counts rising edges. Over any sequence of scans it
    ends at the old count plus the number of rises of its power flow, held at
    32767; its bit goes on, and stays on, once a counted edge finds the count
    at the set value; only the counter's own count, bit and status change. *)
Theorem ctu_counts_edges n pc d k s inputs :
  0 <= n < C16_RANG -> 0 <= k_cur k <= 0x7FFF -> counter_at n k s -> counter_env n pc d s ->
  let r := rise_count (k_pf k) inputs in
  let c := Z.min 0x7FFF (k_cur k + r) in
  exists s', scan_counter run_ci_ctu_ins inputs s = Ok (tt, s') /\
    counter_at n {| k_cur := c; k_bit := k_bit k || (0 <? r) && (d <=? c); k_pf := List.last inputs (k_pf k) |} s' /\
    inert s s' /\ (forall q, q <> C16_VALUE -> q <> C_ELEMENT -> rget (mem s') q = rget (mem s) q).
Proof.
  intros Hn Hk K C r c. destruct (scan_counter_run n pc d Hn _ _ (ctu_acts n pc d Hn) inputs k s K C)
    as (s' & H & K' & I & F). exists s'. split_and!; [exact H| |done|done].
  by rewrite ctu_fold in K'.
Qed.
(** The cyclic counter with set value [d > 1], started from reset, shows
    after [r] edges the count [(r - 1) mod d + 1], and its bit is on exactly
    when [r] is a positive multiple of [d]. *)
Theorem ctr_counts_cyclically n pc d p s inputs :
  0 <= n < C16_RANG -> 2 <= d < 2 ^ 16 -> counter_at n {| k_cur := 0; k_bit := false; k_pf := p |} s ->
  counter_env n pc d s ->
  let r := rise_count p inputs in
  exists s', scan_counter run_ci_ctr_ins inputs s = Ok (tt, s') /\
    counter_at n {| k_cur := if r =? 0 then 0 else (r - 1) mod d + 1; k_bit := (0 <? r) && (r mod d =? 0);
                    k_pf := List.last inputs p |} s' /\
    inert s s' /\ (forall q, q <> C16_VALUE -> q <> C_ELEMENT -> rget (mem s') q = rget (mem s) q).
Proof.
  intros Hn Hd K C r. destruct (scan_counter_run n pc d Hn _ _ (ctr_acts n pc d Hn) inputs _ s K C)
    as (s' & H & K' & I & F). exists s'. split_and!; [exact H| |done|done].
  exact (eq_ind _ (fun k => counter_at n k s') K' _ (ctr_fold d inputs 0 p Hd ltac:(lia))).
Qed.
Definition counter_demo (d : Z) : plc_st := st0 [0x14; 0xF0; 0; 0; 7; 0; 1; 0xFF; d; 0].
Lemma counter_demo_at d : counter_at 7 {| k_cur := 0; k_bit := false; k_pf := false |} (counter_demo d).
Proof. split; [apply wf_elem0|done|done|by exists c_status0]. Qed.
Lemma counter_demo_env d : 0 <= d < 2 ^ 8 -> counter_env 7 0 d (counter_demo d).
Proof.
  intros Hd. split; [done|done|]. exists 1. split; [done|].
  split; [done|done| |done|lia]. change (Ok (d + 0, counter_demo d) = Ok (d, counter_demo d)). by rewrite Z.add_0_r.
Qed.
Lemma ctu_counts_edges_witness : exists s',
  scan_counter run_ci_ctu_ins [true; true; false; true] (counter_demo 2) = Ok (tt, s') /\
  counter_at 7 {| k_cur := 2; k_bit := true; k_pf := true |} s'.
Proof.
  destruct (ctu_counts_edges 7 0 2 {| k_cur := 0; k_bit := false; k_pf := false |} (counter_demo 2) [true; true; false; true])
    as (s' & H & K & _); [zconc|zconc|apply counter_demo_at|by apply counter_demo_env|]. by exists s'.
Defined.
Lemma ctr_counts_cyclically_witness : exists s',
  scan_counter run_ci_ctr_ins [true; false; true; false; true] (counter_demo 2) = Ok (tt, s') /\
  counter_at 7 {| k_cur := 1; k_bit := false; k_pf := true |} s'.
Proof.
  destruct (ctr_counts_cyclically 7 0 2 false (counter_demo 2) [true; false; true; false; true])
    as (s' & H & K & _); [zconc|zconc|apply counter_demo_at|by apply counter_demo_env|]. by exists s'.
Defined.
