(* ===== verification/TimeIns.v ===== *)
(** * Timer instructions

    Models plc/executer/src/plc_timeins.c: the four timer instructions, the
    background refresh, the annunciator (ANS, ANR) and the clock arithmetic
    (TADD, TSUB). [tick] is the value of the millisecond tick counter that
    [GET_1MS_TICKS_COUNT] returns, the same throughout one instruction. *)
From stdpp Require Import base list numbers sets.
From S2P Require Import Prelude Element Machine ParseAddr ParseAddrFacts Device.

Definition TIME_TYPE_TON := 0.
Definition TIME_TYPE_TONR := 1.
Definition TIME_TYPE_TOF := 2.
Definition TIME_TYPE_TMON := 3.
Definition TIME_ACCURACY_1MS := 0.
Definition TIME_ACCURACY_10MS := 1.
Definition TIME_ACCURACY_100MS := 2.
Definition SM400 := 400.
Definition SM401 := 401.
Definition SD401 := 401.
Definition GET_1MS_TICKS_COUNT : Mc Z := gets tick.

Definition plc_stop_all_timer : Mc unit :=
  for_up (Z.to_nat T_RANG) 0 (fun i => wr_t_status i (fun _ => t_status0)).
Definition plc_reset_one_timer (lsv_TimeNum : Z) : Mc unit :=
  wr_t_status lsv_TimeNum (fun _ => t_status0);;
  plc_set_bit_element_value T_ELEMENT lsv_TimeNum 0;;
  wr T_CURRENT lsv_TimeNum 0;;
  wr T_DEST lsv_TimeNum 0;;
  now ← GET_1MS_TICKS_COUNT; wr T_START lsv_TimeNum now.

(** ** The pieces the timers share *)
Definition timer_accuracy (n : Z) : Z :=
  if n <? T_100MS_CNT then TIME_ACCURACY_100MS
  else if n <? T_100MS_CNT + T_10MS_CNT then TIME_ACCURACY_10MS else TIME_ACCURACY_1MS.
(** [get_word(mcp_PC+6, &msp_DestValue[n], 0, 1)]: the value is stored even
    when the code is an error, if the reader got as far. *)
Definition load_dest (n : Z) (k : Mc Z) : Mc Z :=
  pc ← get_PC; rv ← get_word1 (pc + 6);
  match rv.2 with Some v => wr T_DEST n v | None => mret tt end;;
  if rv.1 =? pdPASS then k else mret rv.1.
(** [msp_CurrentValue[n] += q; mlp_StartValue[n] += q * unit]. *)
Definition timer_add (n q unit_ms : Z) : Mc unit :=
  c ← rd T_CURRENT n; wr T_CURRENT n (c + q);;
  st ← rd T_START n; wr T_START n (st + u32 (q * unit_ms)).
(** The [switch] on the resolution: whole units since the start value are
    moved from the clock to the count. *)
Definition timer_advance (n now : Z) : Mc unit :=
  st ← rd T_START n;
  let llv_Temp := u32 (now - st) in
  t ← rd_t_status n;
  if t_Capacity t =? TIME_ACCURACY_100MS then
    let q := llv_Temp / 100 in when (0 <? q) (timer_add n q 100)
  else if t_Capacity t =? TIME_ACCURACY_10MS then
    let q := llv_Temp / 10 in when (0 <? q) (timer_add n q 10)
  else if t_Capacity t =? TIME_ACCURACY_1MS then timer_add n llv_Temp 1
  else mret tt.
(** [if(current >= dest) k]. *)
Definition when_elapsed (n : Z) (k : Mc unit) : Mc unit :=
  c ← rd T_CURRENT n; d ← rd T_DEST n; when (d <=? c) k.

(** ** The instructions *)
Definition run_ci_ton_ins : Mc Z :=
  n ← ins_number;
  llv_SystemTick ← GET_1MS_TICKS_COUNT;
  pf ← GET_POWER_FLOW;
  if pf : bool then
    load_dest n (
      t ← rd_t_status n;
      when (t_Init t =? 0) (
        wr_t_status n (set_t_Init 1);;
        wr_t_status n (set_t_Capacity (timer_accuracy n));;
        wr_t_status n (set_t_Type TIME_TYPE_TON);;
        wr T_START n llv_SystemTick);;
      c ← rd T_CURRENT n;
      (if 0x7FFF <=? c then
         wr_t_status n (set_t_Enable 0);; plc_set_bit_element_value T_ELEMENT n 1
       else
         wr_t_status n (set_t_Enable 1);;
         timer_advance n llv_SystemTick;;
         when_elapsed n (plc_set_bit_element_value T_ELEMENT n 1));;
      mret pdPASS)
  else
    t ← rd_t_status n;
    when (negb (t_Init t =? 0)) (plc_reset_one_timer n);;
    mret pdPASS.

Definition run_ci_tonr_ins : Mc Z :=
  n ← ins_number;
  llv_SystemTick ← GET_1MS_TICKS_COUNT;
  pf ← GET_POWER_FLOW;
  if pf : bool then
    load_dest n (
      t ← rd_t_status n;
      when (t_Init t =? 0) (
        wr_t_status n (set_t_Init 1);;
        wr_t_status n (set_t_Capacity (timer_accuracy n));;
        wr_t_status n (set_t_Type TIME_TYPE_TONR);;
        wr T_START n llv_SystemTick);;
      c ← rd T_CURRENT n;
      if 0x7FFF <=? c then plc_set_bit_element_value T_ELEMENT n 1;; mret pdPASS
      else
        t' ← rd_t_status n;
        if t_Enable t' =? 0 then
          wr_t_status n (set_t_Enable 1);; wr T_START n llv_SystemTick;; mret pdPASS
        else
          timer_advance n llv_SystemTick;;
          when_elapsed n (plc_set_bit_element_value T_ELEMENT n 1);; mret pdPASS)
  else
    t ← rd_t_status n;
    when (negb (t_Init t =? 0)) (wr_t_status n (set_t_Enable 0);; wr T_START n llv_SystemTick);;
    mret pdPASS.

Definition run_ci_tof_ins : Mc Z :=
  n ← ins_number;
  llv_SystemTick ← GET_1MS_TICKS_COUNT;
  pf ← GET_POWER_FLOW;
  if pf : bool then
    wr_t_status n (fun _ => t_status0);;
    wr T_CURRENT n 0;;
    plc_set_bit_element_value T_ELEMENT n 1;;
    wr_t_status n (set_t_PowerFlow 1);;
    mret pdPASS
  else
    load_dest n (
      t ← rd_t_status n;
      when ((t_Init t =? 0) && negb (t_PowerFlow t =? 0)) (
        wr_t_status n (set_t_Init 1);;
        wr_t_status n (set_t_Capacity (timer_accuracy n));;
        wr_t_status n (set_t_Type TIME_TYPE_TOF);;
        wr T_START n llv_SystemTick;;
        wr_t_status n (set_t_Enable 1));;
      t' ← rd_t_status n;
      when (negb (t_Enable t' =? 0)) (
        timer_advance n llv_SystemTick;;
        when_elapsed n (wr_t_status n (set_t_Enable 0);; plc_set_bit_element_value T_ELEMENT n 0));;
      mret pdPASS).

Definition tmon_run (n now : Z) : Mc Z :=
  t ← rd_t_status n;
  when (negb (t_Enable t =? 0)) (
    timer_advance n now;;
    when_elapsed n (wr_t_status n (set_t_Enable 0);; plc_set_bit_element_value T_ELEMENT n 0));;
  mret pdPASS.
Definition run_ci_tmon_ins : Mc Z :=
  n ← ins_number;
  llv_SystemTick ← GET_1MS_TICKS_COUNT;
  pf ← GET_POWER_FLOW;
  if pf : bool then
    t ← rd_t_status n;
    if t_PowerFlow t =? 0 then
      wr_t_status n (set_t_PowerFlow 1);;
      wr_t_status n (set_t_Capacity (timer_accuracy n));;
      load_dest n (
        wr_t_status n (set_t_Type TIME_TYPE_TMON);;
        wr T_START n llv_SystemTick;;
        wr_t_status n (set_t_Enable 1);;
        plc_set_bit_element_value T_ELEMENT n 1;;
        tmon_run n llv_SystemTick)
    else tmon_run n llv_SystemTick
  else wr_t_status n (set_t_PowerFlow 0);; tmon_run n llv_SystemTick.

Definition run_ci_rst_t_ins : Mc Z :=
  pf ← GET_POWER_FLOW;
  when pf (n ← ins_number; plc_reset_one_timer n);;
  mret pdPASS.

(** plc_refresh_10ms_1ms_timer, from the timer interrupt: the loop starts at
    [msv_10msTimerCnt] (128), inside the 100 ms timers, whose resolution the
    [switch] then ignores. *)
Definition refresh_timer (llv_SystemTick i : Z) : Mc unit :=
  t ← rd_t_status i;
  if t_Enable t =? 0 then mret tt
  else
    st ← rd T_START i;
    let llv_Temp := u32 (llv_SystemTick - st) in
    (if t_Capacity t =? TIME_ACCURACY_10MS then
       let q := llv_Temp / 10 in when (0 <? q) (timer_add i q 10)
     else if t_Capacity t =? TIME_ACCURACY_1MS then timer_add i llv_Temp 1
     else mret tt);;
    c ← rd T_CURRENT i;
    when (0x7FFF <=? c) (wr_t_status i (set_t_Enable 0));;
    when_elapsed i (
      t' ← rd_t_status i;
      plc_set_bit_element_value T_ELEMENT i (if t_Type t' =? TIME_TYPE_TOF then 0 else 1)).
Definition plc_refresh_10ms_1ms_timer : Mc unit :=
  llv_SystemTick ← GET_1MS_TICKS_COUNT;
  for_up (Z.to_nat (T_RANG - T_10MS_CNT)) T_10MS_CNT (refresh_timer llv_SystemTick).

(** ** Annunciator *)
Definition plc_reset_signal_alarm_element : Mc unit := modify (fun s => with_flow (with_MinAlarm 999 (flow s)) s).
Definition run_ci_ans_ins : Mc Z :=
  n ← ins_number;
  if T_10MS_CNT <=? n then mret ERR_OVER_ELEMENT_RANG
  else
    wr_t_status n (set_t_Capacity TIME_ACCURACY_100MS);;
    wr_t_status n (set_t_Type TIME_TYPE_TON);;
    load_dest n (
      pc ← get_PC;
      lsv_AlarmSElement ← GET_PU16_DATA (pc + 12);
      if (lsv_AlarmSElement <? 900) || (999 <? lsv_AlarmSElement) then mret ERR_OVER_ELEMENT_RANG
      else
        llv_SystemTick ← GET_1MS_TICKS_COUNT;
        t ← rd_t_status n;
        when (t_Enable t =? 0) (wr T_START n llv_SystemTick);;
        pf ← GET_POWER_FLOW;
        if pf : bool then
          c ← rd T_CURRENT n;
          (if 0x7FFF <=? c then wr_t_status n (set_t_Enable 0)
           else
             wr_t_status n (set_t_Enable 1);;
             st ← rd T_START n;
             let q := u32 (llv_SystemTick - st) / 100 in
             when (0 <? q) (timer_add n q 100));;
          when_elapsed n (
            plc_set_bit_element_value S_ELEMENT lsv_AlarmSElement 1;;
            sm100 ← plc_get_bit_element_value SM_ELEMENT 100;
            when (truthy sm100) (
              plc_set_bit_element_value SM_ELEMENT SM401 1;;
              m ← gets (fun s => ssv_MinAlarmSElement (flow s));
              when (lsv_AlarmSElement <? m) (
                modify (fun s => with_flow (with_MinAlarm lsv_AlarmSElement (flow s)) s);;
                wr SD_ELEMENT SD401 lsv_AlarmSElement)));;
          mret pdPASS
        else
          wr T_CURRENT n 0;;
          wr_t_status n (set_t_Enable 0);;
          wr T_START n llv_SystemTick;;
          mret pdPASS).

(** The first loop of ANR: the lowest alarm is reset; the result is where the
    loop variable stands. *)
Fixpoint anr_reset (left : nat) (i : Z) : Mc Z :=
  match left with
  | O => mret i
  | S l =>
    v ← plc_get_bit_element_value S_ELEMENT i;
    if truthy v then plc_set_bit_element_value S_ELEMENT i 0;; mret i else anr_reset l (i + 1)
  end.
(** The second [for]: its body ends in an unconditional [break], so it looks
    at one element only and never moves on. *)
Definition anr_refresh (i : Z) : Mc unit :=
  when (i <=? 999) (v ← plc_get_bit_element_value S_ELEMENT i; when (truthy v) (wr SD_ELEMENT SD401 i)).
Definition run_ci_anr_ins : Mc Z :=
  pf ← GET_POWER_FLOW;
  when pf (
    i ← anr_reset 100 900;
    sm400 ← plc_get_bit_element_value SM_ELEMENT SM400;
    when (truthy sm400) (
      anr_refresh i;;
      when (999 <? i) (
        plc_set_bit_element_value SM_ELEMENT SM401 0;;
        wr SD_ELEMENT SD401 0;;
        plc_reset_signal_alarm_element)));;
  mret pdPASS.

(** ** Clock arithmetic: hours, minutes, seconds in three words *)
Definition time_add (a b : Z * Z * Z) : list Z * bool :=
  let '(a0, a1, a2) := a in let '(b0, b1, b2) := b in
  let r2 := u16 (a2 + b2) in
  let '(r1, r2) := if 60 <? r2 then (1, u16 (r2 - 60)) else (0, r2) in
  let r1 := u16 (r1 + (a1 + b1)) in
  let '(r0, r1) := if 60 <? r1 then (1, u16 (r1 - 60)) else (0, r1) in
  let r0 := u16 (r0 + (a0 + b0)) in
  if 23 <? r0 then ([u16 (r0 - 24); r1; r2], true) else ([r0; r1; r2], false).
(** The borrow of the minutes is taken when the difference is below 60. *)
Definition time_sub (a b : Z * Z * Z) : list Z * bool :=
  let '(a0, a1, a2) := a in let '(b0, b1, b2) := b in
  let r2 := s16 (a2 - b2) in
  let '(r1, r2) := if r2 <? 0 then (-1, s16 (r2 + 60)) else (0, r2) in
  let r1 := s16 (r1 + (a1 - b1)) in
  let '(r0, r1) := if r1 <? 60 then (-1, s16 (r1 + 60)) else (0, r1) in
  let r0 := s16 (r0 + (a0 - b0)) in
  if r0 <? 0 then ([u16 (s16 (r0 + 24)); u16 r1; u16 r2], true) else ([u16 r0; u16 r1; u16 r2], false).
Definition word_at (a off : Z) (k : Z -> Mc Z) : Mc Z :=
  rl ← get_word a off 1;
  if rl.1 =? pdPASS then v ← of_option (head rl.2); k v else mret rl.1.
Definition clock_operands (off lim : Z) (k : Z -> Z -> Mc Z) : Mc Z :=
  pc ← get_PC;
  word_at (pc + 2) off (fun v1 => word_at (pc + 6) off (fun v2 =>
    if (lim <? v1) || (lim <? v2) then mret ERR_OPERANDS else k v1 v2)).
Definition clock_ins (carry_sm : Z) (op : Z * Z * Z -> Z * Z * Z -> list Z * bool) : Mc Z :=
  pf ← GET_POWER_FLOW;
  if pf : bool then
    plc_set_bit_element_value SM_ELEMENT 180 0;;
    plc_set_bit_element_value SM_ELEMENT carry_sm 0;;
    clock_operands 2 60 (fun a2 b2 => clock_operands 1 60 (fun a1 b1 => clock_operands 0 23 (fun a0 b0 =>
      let '(r, carry) := op (a0, a1, a2) (b0, b1, b2) in
      when carry (plc_set_bit_element_value SM_ELEMENT carry_sm 1);;
      when (negb (forallb truthy r)) (plc_set_bit_element_value SM_ELEMENT 180 1);;
      pc ← get_PC;
      rl ← save_word (pc + 10) r 0; mret rl.1)))
  else mret pdPASS.
Definition run_ci_tadd_ins : Mc Z := clock_ins 181 time_add.
Definition run_ci_tsub_ins : Mc Z := clock_ins 182 time_sub.

(** ** The state of one timer *)
Record timer := { m_cur : Z; m_dest : Z; m_start : Z; m_bit : bool; m_status : plc_t_element_status_st }.
Record timer_at (n : Z) (m : timer) (s : plc_st) : Prop := {
  ta_wf : wf_elem (elem s);
  ta_cur : cell T_CURRENT n s = m_cur m;
  ta_dest : cell T_DEST n s = m_dest m;
  ta_start : cell T_START n s = m_start m;
  ta_bit : bit_of (mem s) T_ELEMENT n = Some (m_bit m);
  ta_status : zlookup (t_StatusInfo (mem s)) n = Some (m_status m) }.
Definition timer_region (r : region) : Prop := r = T_CURRENT \/ r = T_DEST \/ r = T_START \/ r = T_ELEMENT.
Record timer_frame (s s' : plc_st) : Prop := {
  tf_inert : inert s s';
  tf_env : env s' = env s;
  tf_reg r : ~ timer_region r -> rget (mem s') r = rget (mem s) r;
  tf_c : c_StatusInfo (mem s') = c_StatusInfo (mem s) }.
#[global] Instance timer_frame_preorder : PreOrder timer_frame.
Proof.
  split; [by split|]. intros x y z [A1 A2 A3 A4] [B1 B2 B3 B4].
  split; [by transitivity y|congruence|intros r H; rewrite B3; auto|congruence].
Qed.
Lemma touches_timer p s s' : touches p s s' -> p = PT \/ (exists r, timer_region r /\ p = PReg r) -> timer_frame s s'.
Proof.
  intros [T1 T2 T3 T4 [T5 T6]] Hp. split; [done|done| |apply T2; naive_solver].
  intros r H. apply T1. naive_solver.
Qed.
Definition set_cur v m := {| m_cur := v; m_dest := m_dest m; m_start := m_start m; m_bit := m_bit m; m_status := m_status m |}.
Definition set_dest v m := {| m_cur := m_cur m; m_dest := v; m_start := m_start m; m_bit := m_bit m; m_status := m_status m |}.
Definition set_start v m := {| m_cur := m_cur m; m_dest := m_dest m; m_start := v; m_bit := m_bit m; m_status := m_status m |}.
Definition set_tbit b m := {| m_cur := m_cur m; m_dest := m_dest m; m_start := m_start m; m_bit := b; m_status := m_status m |}.
Definition set_status f m := {| m_cur := m_cur m; m_dest := m_dest m; m_start := m_start m; m_bit := m_bit m; m_status := f (m_status m) |}.

(** [does c g n m s]: [c] is defined on a timer in state [m] and takes it to
    [g m], framed. *)
Definition does {A} (c : Mc A) (a : A) (n : Z) (m m' : timer) (s : plc_st) : Prop :=
  exists s', c s = Ok (a, s') /\ timer_at n m' s' /\ timer_frame s s'.
Lemma does_bind {A B} (c : Mc A) (f : A -> Mc B) a b n m m1 m2 s :
  does c a n m m1 s -> (forall s1, timer_at n m1 s1 -> timer_frame s s1 -> does (f a) b n m1 m2 s1) ->
  does (c ≫= f) b n m m2 s.
Proof.
  intros (s1 & H1 & K1 & F1) H. destruct (H s1 K1 F1) as (s2 & H2 & K2 & F2).
  exists s2. rewrite (bind_run _ _ _ _ _ H1). split_and!; [done|done|by transitivity s1].
Qed.
Lemma does_ret {A} (a : A) n m s : timer_at n m s -> does (mret a) a n m m s.
Proof. intros K. by exists s. Qed.

Section timer_prims.
Context (n : Z) (m : timer) (s : plc_st) (K : timer_at n m s) (Hn : 0 <= n < T_RANG).
Lemma timer_in r : timer_region r -> r <> T_ELEMENT -> 0 <= n < rsize r.
Proof. intros [-> | [-> | [-> | ->]]] H; done. Qed.
Ltac keep_cell T := rewrite (touches_cell _ _ _ _ _ T); [done|congruence].
Lemma timer_rd_cur : does (rd T_CURRENT n) (m_cur m) n m m s.
Proof.
  destruct K as [W C]. exists s. split; [|done]. by rewrite (rd_cell (S := plc_st)), C by done.
Qed.
Lemma timer_rd_dest : does (rd T_DEST n) (m_dest m) n m m s.
Proof. destruct K as [W ? C]. exists s. split; [|done]. by rewrite (rd_cell (S := plc_st)), C by done. Qed.
Lemma timer_rd_start : does (rd T_START n) (m_start m) n m m s.
Proof. destruct K as [W ? ? C]. exists s. split; [|done]. by rewrite (rd_cell (S := plc_st)), C by done. Qed.
Lemma timer_rd_status : does (rd_t_status n) (m_status m) n m m s.
Proof. exists s. split; [|done]. unfold rd_t_status. cbn. by rewrite (ta_status _ _ _ K). Qed.
Lemma timer_wr_cur v : does (wr T_CURRENT n v) tt n m (set_cur (u16 v) m) s.
Proof.
  destruct K as [W C1 C2 C3 C4 C5]. destruct (wr_dev s W T_CURRENT n v) as (s' & H & W' & T & C); [done|].
  exists s'. split; [done|]. split; [|apply (touches_timer _ _ _ T); right; eexists; split; [by left|done]].
  split; [done|done|keep_cell T|keep_cell T| |by rewrite (to_t _ _ _ T)].
  rewrite (touches_bit _ _ _ _ _ T); [done|congruence].
Qed.
Lemma timer_wr_dest v : does (wr T_DEST n v) tt n m (set_dest (u16 v) m) s.
Proof.
  destruct K as [W C1 C2 C3 C4 C5]. destruct (wr_dev s W T_DEST n v) as (s' & H & W' & T & C); [done|].
  exists s'. split; [done|]. split; [|apply (touches_timer _ _ _ T); right; eexists; split; [by right; left|done]].
  split; [done|keep_cell T|done|keep_cell T| |by rewrite (to_t _ _ _ T)].
  rewrite (touches_bit _ _ _ _ _ T); [done|congruence].
Qed.
Lemma timer_wr_start v : does (wr T_START n v) tt n m (set_start (u32 v) m) s.
Proof.
  destruct K as [W C1 C2 C3 C4 C5]. destruct (wr_dev s W T_START n v) as (s' & H & W' & T & C); [done|].
  exists s'. split; [done|]. split; [|apply (touches_timer _ _ _ T); right; eexists; split; [by right; right; left|done]].
  split; [done|keep_cell T|keep_cell T|done| |by rewrite (to_t _ _ _ T)].
  rewrite (touches_bit _ _ _ _ _ T); [done|congruence].
Qed.
Lemma timer_wr_bit (b : bool) : does (plc_set_bit_element_value T_ELEMENT n (if b then 1 else 0)) tt n m (set_tbit b m) s.
Proof.
  destruct K as [W C1 C2 C3 C4 C5].
  assert (Hr : n < 16 * rsize T_ELEMENT) by (change (16 * rsize T_ELEMENT) with T_RANG; lia).
  assert (H16 : 0 <= n < 2 ^ 16) by (unfold T_RANG in Hn; lia).
  destruct (set_bit_dev s W T_ELEMENT n (if b then 1 else 0)) as (s' & H & W' & T & C);
    [by split|done|done|by destruct b|].
  exists s'. split; [done|]. split; [|apply (touches_timer _ _ _ T); right; eexists; split; [by right; right; right|done]].
  split; [done|keep_cell T|keep_cell T|keep_cell T| |by rewrite (to_t _ _ _ T)]. rewrite C. by destruct b.
Qed.
Lemma timer_wr_status f : does (wr_t_status n f) tt n m (set_status f m) s.
Proof.
  destruct K as [W C1 C2 C3 C4 C5]. destruct (wr_t_dev s W n f Hn) as (t & s' & Ht & H & W' & T & C).
  assert (t = m_status m) as -> by congruence.
  exists s'. split; [done|]. split; [|apply (touches_timer _ _ _ T); by left].
  split; [done|keep_cell T|keep_cell T|keep_cell T| |done].
  rewrite (touches_bit _ _ _ _ _ T); [done|congruence].
Qed.
End timer_prims.

(** ** The clock of a timer *)
Definition unit_ms (cap : Z) : Z :=
  if cap =? TIME_ACCURACY_100MS then 100 else if cap =? TIME_ACCURACY_10MS then 10 else 1.
Definition cap_ok (cap : Z) : Prop := cap = TIME_ACCURACY_1MS \/ cap = TIME_ACCURACY_10MS \/ cap = TIME_ACCURACY_100MS.
Definition advanced (now : Z) (m : timer) : timer :=
  let u := unit_ms (t_Capacity (m_status m)) in
  let q := u32 (now - m_start m) / u in
  set_start (u32 (m_start m + u32 (q * u))) (set_cur (u16 (m_cur m + q)) m).
Section advance.
Context (n : Z) (Hn : 0 <= n < T_RANG).
Lemma timer_ranges m s : timer_at n m s -> 0 <= m_cur m < 2 ^ 16 /\ 0 <= m_start m < 2 ^ 32.
Proof.
  intros [W C1 C2 C3 C4 C5]. rewrite <- C1, <- C3. split; [by apply cell_u16|].
  exact (cell_range T_START n s W ltac:(done)).
Qed.
Lemma timer_add_run q u m s : timer_at n m s ->
  does (timer_add n q u) tt n m (set_start (u32 (m_start m + u32 (q * u))) (set_cur (u16 (m_cur m + q)) m)) s.
Proof.
  intros K. unfold timer_add. eapply does_bind; [by apply timer_rd_cur|]. intros s1 K1 _.
  eapply does_bind; [by apply timer_wr_cur|]. intros s2 K2 _.
  eapply does_bind; [by apply timer_rd_start|]. intros s3 K3 _. by apply timer_wr_start.
Qed.
Lemma add_zero m s u : timer_at n m s -> set_start (u32 (m_start m + u32 (0 * u))) (set_cur (u16 (m_cur m + 0)) m) = m.
Proof.
  intros K. destruct (timer_ranges m s K). destruct m. unfold set_start, set_cur. cbn in *.
  f_equal; [rewrite Z.add_0_r; by apply u16_id|]. change (u32 0) with 0. rewrite Z.add_0_r. by apply u32_id.
Qed.
Lemma timer_advance_run now m s : timer_at n m s -> cap_ok (t_Capacity (m_status m)) ->
  does (timer_advance n now) tt n m (advanced now m) s.
Proof.
  intros K Hc. unfold timer_advance. eapply does_bind; [by apply timer_rd_start|]. intros s1 K1 _.
  eapply does_bind; [by apply timer_rd_status|]. intros s2 K2 _. unfold advanced, unit_ms.
  assert (Hw : forall u, 0 < u ->
    does (when (0 <? u32 (now - m_start m) / u) (timer_add n (u32 (now - m_start m) / u) u)) tt n m
      (set_start (u32 (m_start m + u32 (u32 (now - m_start m) / u * u))) (set_cur (u16 (m_cur m + u32 (now - m_start m) / u)) m)) s2).
  { intros u Hu. destruct (Z.ltb_spec 0 (u32 (now - m_start m) / u)).
    - by apply timer_add_run.
    - pose proof (Z.div_pos (u32 (now - m_start m)) u ltac:(apply u32_range) Hu).
      replace (u32 (now - m_start m) / u) with 0 by lia. rewrite (add_zero m s2) by done. by apply does_ret. }
  destruct Hc as [-> | [-> | ->]]; [| by apply (Hw 10)|by apply (Hw 100)].
  cbn [Z.eqb]. rewrite Z.div_1_r. by apply timer_add_run.
Qed.
Lemma when_elapsed_run (c : Mc unit) m m' s : timer_at n m s ->
  (m_dest m <= m_cur m -> forall s', timer_at n m s' -> does c tt n m m' s') ->
  does (when_elapsed n c) tt n m (if m_dest m <=? m_cur m then m' else m) s.
Proof.
  intros K Hc. unfold when_elapsed. eapply does_bind; [by apply timer_rd_cur|]. intros s1 K1 _.
  eapply does_bind; [by apply timer_rd_dest|]. intros s2 K2 _.
  destruct (Z.leb_spec (m_dest m) (m_cur m)); [by apply Hc|by apply does_ret].
Qed.
End advance.

(** ** The on-delay timer *)
(** What TON needs of its place in the program: its number, its set value [d],
    the power flow [b], and the time. *)
Record timer_env (n pc d : Z) (b : bool) (now : Z) (s : plc_st) : Prop := {
  te_num : ins_number s = Ok (n, s);
  te_pc : mcp_PC (env s) = pc;
  te_dest : const_word (pc + 6) d s;
  te_pf : GET_POWER_FLOW s = Ok (b, s);
  te_now : tick s = now }.
Lemma timer_env_frame n pc d b now s s' : timer_frame s s' -> timer_env n pc d b now s -> timer_env n pc d b now s'.
Proof.
  intros [I E _ _] [C1 C2 C3 C4 C5].
  split; [apply (ins_number_stable n s); [apply I|by rewrite E|done]|congruence|by eapply const_word_inert| |].
  - unfold GET_POWER_FLOW, gets in *. rewrite E. by injection C4 as ->.
  - destruct I as (_ & _ & _ & -> & _). done.
Qed.
Section ton.
Context (n pc d : Z) (Hn : 0 <= n < T_RANG).
Lemma load_dest_run b now k m m' s : timer_env n pc d b now s -> timer_at n m s ->
  (forall s', timer_env n pc d b now s' -> timer_at n (set_dest (u16 d) m) s' ->
    does k pdPASS n (set_dest (u16 d) m) m' s') ->
  does (load_dest n k) pdPASS n m m' s.
Proof.
  intros E K Hk. assert (Hpc : get_PC s = Ok (pc, s)).
  { unfold get_PC, gets. by rewrite (te_pc _ _ _ _ _ _ E). }
  assert (Hw : get_word1 (pc + 6) s = Ok ((pdPASS, Some d), s)).
  { unfold get_word1. by rewrite (bind_run _ _ _ _ _ (get_const_run _ 0 1 d s (te_dest _ _ _ _ _ _ E))). }
  unfold load_dest, does. rewrite (bind_run _ _ _ _ _ Hpc), (bind_run _ _ _ _ _ Hw). cbn [fst snd].
  change (does (wr T_DEST n d;; (if pdPASS =? pdPASS then k else mret pdPASS)) pdPASS n m m' s).
  eapply does_bind; [by apply timer_wr_dest|]. intros s1 K1 F1. apply Hk; [by eapply timer_env_frame|done].
Qed.
(** One scan of TON with the power flow on, as a function. *)
Definition ton_init (now : Z) (m : timer) : timer :=
  if t_Init (m_status m) =? 0
  then set_start (u32 now) (set_status (fun t => set_t_Type TIME_TYPE_TON (set_t_Capacity (timer_accuracy n) (set_t_Init 1 t))) m)
  else m.
Definition ton_count (now : Z) (m : timer) : timer :=
  if 0x7FFF <=? m_cur m then set_tbit true (set_status (set_t_Enable 0) m)
  else let m1 := advanced now (set_status (set_t_Enable 1) m) in
       if m_dest m1 <=? m_cur m1 then set_tbit true m1 else m1.
Lemma accuracy_ok : cap_ok (timer_accuracy n).
Proof. unfold timer_accuracy, cap_ok. repeat case_match; auto. Qed.
Lemma ton_run now m s : timer_env n pc d true now s -> timer_at n m s ->
  (t_Init (m_status m) <> 0 -> cap_ok (t_Capacity (m_status m))) ->
  does run_ci_ton_ins pdPASS n m (ton_count now (ton_init now (set_dest (u16 d) m))) s.
Proof.
  intros E K Hcap. unfold run_ci_ton_ins, does.
  rewrite (bind_run _ _ _ _ _ (te_num _ _ _ _ _ _ E)). unfold GET_1MS_TICKS_COUNT, gets.
  unfold mbind at 1, M_bind at 1. rewrite (te_now _ _ _ _ _ _ E), (bind_run _ _ _ _ _ (te_pf _ _ _ _ _ _ E)).
  apply (load_dest_run true now _ m); [done|done|]. clear s E K. intros s E K. set (md := set_dest (u16 d) m) in *.
  eapply does_bind; [by apply timer_rd_status|]. intros s1 K1 _.
  apply (does_bind _ _ tt _ _ _ (ton_init now md)).
  { unfold ton_init. destruct (t_Init (m_status md) =? 0); [rewrite when_true|by apply does_ret].
    repeat (eapply does_bind; [by apply timer_wr_status|]; intros ? ? _). by apply timer_wr_start. }
  intros s2 K2 _.
  assert (Hc2 : cap_ok (t_Capacity (m_status (ton_init now md)))).
  { unfold ton_init. destruct (Z.eqb_spec (t_Init (m_status md)) 0) as [H0|H0]; [|by apply Hcap].
    cbn. pose proof accuracy_ok as [-> | [-> | ->]]; [by left|by right; left|by right; right]. }
  eapply does_bind; [by apply timer_rd_cur|]. intros s3 K3 _. unfold ton_count.
  eapply does_bind; [|intros ? ? _; by apply does_ret].
  destruct (0x7FFF <=? m_cur (ton_init now md)).
  - eapply does_bind; [by apply timer_wr_status|]. intros s4 K4 _. by apply (timer_wr_bit n _ s4 K4 Hn true).
  - eapply does_bind; [by apply timer_wr_status|]. intros s4 K4 _.
    eapply does_bind; [apply timer_advance_run; [exact Hn|exact K4|exact Hc2]|]. intros s5 K5 _.
    eapply when_elapsed_run; [exact Hn|exact K5|]. intros _ s6 K6. by apply (timer_wr_bit n _ s6 K6 Hn true).
Qed.
End ton.

(** *** Elapsed time *)
Lemma elapsed_arith T0 T' u c : 0 < u -> c * u <= T' - T0 -> T' - T0 < 0x7FFF * u -> u <= 100 -> 0 <= c ->
  let c' := (T' - T0) / u in
  u32 (u32 T' - u32 (T0 + u * c)) / u = c' - c /\ u16 (c + (c' - c)) = c' /\
  u32 (u32 (T0 + u * c) + u32 ((c' - c) * u)) = u32 (T0 + u * c').
Proof.
  intros Hu Hc Hlim Hu2 Hc0 c'. assert (Hc' : c <= c' < 0x7FFF).
  { unfold c'. split; [apply Z.div_le_lower_bound; lia|apply Z.div_lt_upper_bound; lia]. }
  assert (Hd : u32 (u32 T' - u32 (T0 + u * c)) = T' - T0 - c * u).
  { unfold u32. rewrite <- Zminus_mod, Z.mod_small; lia. }
  split_and!.
  - rewrite Hd. replace (T' - T0 - c * u) with (T' - T0 + (- c) * u) by lia. rewrite Z.div_add by lia. unfold c'. lia.
  - rewrite u16_id; lia.
  - unfold u32. rewrite <- Zplus_mod. f_equal. lia.
Qed.
(** [m] has been timing since [T0] and was last served at [T]. *)
Record timing (n d T0 T : Z) (b0 : bool) (m : timer) : Prop := {
  tm_init : t_Init (m_status m) <> 0;
  tm_cap : t_Capacity (m_status m) = timer_accuracy n;
  tm_cur : m_cur m = (T - T0) / unit_ms (timer_accuracy n);
  tm_start : m_start m = u32 (T0 + unit_ms (timer_accuracy n) * m_cur m);
  tm_bit : m_bit m = b0 }.
Lemma unit_range n : 0 < unit_ms (timer_accuracy n) <= 100.
Proof. destruct (accuracy_ok n) as [-> | [-> | ->]]; cbn; lia. Qed.
Lemma timing_count n d T0 T T' b0 m : m_dest m = d -> T0 <= T -> T <= T' ->
  T' - T0 < 0x7FFF * unit_ms (timer_accuracy n) -> timing n d T0 T b0 m ->
  timing n d T0 T' (b0 || (d <=? (T' - T0) / unit_ms (timer_accuracy n))) (ton_count (u32 T') m).
Proof.
  intros Hd H0 H1 Hlim [I C Q S B]. pose proof (unit_range n) as Hu. set (u := unit_ms (timer_accuracy n)) in *.
  assert (Hq : m_cur m * u <= T - T0) by (rewrite Q, Z.mul_comm; apply Z.mul_div_le; lia).
  assert (Hq0 : 0 <= m_cur m) by (rewrite Q; apply Z.div_pos; lia).
  destruct (elapsed_arith T0 T' u (m_cur m)) as (E1 & E2 & E3); [lia..|].
  unfold ton_count. assert (0x7FFF <=? m_cur m = false) as -> by (apply Z.leb_gt; nia).
  assert (Hadv : advanced (u32 T') (set_status (set_t_Enable 1) m) =
    set_start (u32 (T0 + u * ((T' - T0) / u))) (set_cur ((T' - T0) / u) (set_status (set_t_Enable 1) m))).
  { unfold advanced. cbn [m_status set_status t_Capacity set_t_Enable m_start m_cur]. rewrite C. fold u.
    rewrite S, E1, E2, E3. done. }
  rewrite Hadv. cbn [m_dest m_cur set_start set_cur set_status]. rewrite Hd.
  destruct (d <=? (T' - T0) / u); [rewrite orb_true_r|rewrite orb_false_r]; by split.
Qed.
Lemma timing_init n d T0 m : t_Init (m_status m) = 0 -> m_cur m = 0 ->
  timing n d T0 T0 (m_bit m) (ton_init n (u32 T0) m).
Proof.
  intros Hi Hc. unfold ton_init. rewrite Hi, Z.eqb_refl. split; cbn.
  - done.
  - by destruct (accuracy_ok n) as [-> | [-> | ->]].
  - by rewrite Hc, Z.sub_diag.
  - rewrite Hc, Z.mul_0_r, Z.add_0_r. unfold u32. by rewrite Zmod_mod.
  - done.
Qed.

(** The instruction served at the times [Ts]. *)
Fixpoint serve_at (c : Mc Z) (Ts : list Z) : Mc unit :=
  match Ts with [] => mret tt | T :: Ts' => modify (with_tick (u32 T));; c;; serve_at c Ts' end.
Fixpoint ascending (T : Z) (Ts : list Z) : Prop :=
  match Ts with [] => True | T' :: Ts' => T <= T' /\ ascending T' Ts' end.
Lemma ascending_last T Ts : ascending T Ts -> T <= List.last Ts T.
Proof.
  revert T. induction Ts as [|T' Ts IH]; intros T H; [reflexivity|]. destruct H as [H1 H2].
  rewrite last_cons_default. specialize (IH T' H2). lia.
Qed.
Section serve.
Context (n pc d : Z) (Hn : 0 <= n < T_RANG) (Hd : 0 <= d < 2 ^ 16).
Lemma serve_one T now m s : timer_env n pc d true now s -> timer_at n m s ->
  (t_Init (m_status m) <> 0 -> cap_ok (t_Capacity (m_status m))) ->
  exists s', (forall c', (modify (with_tick (u32 T));; run_ci_ton_ins;; c') s = (c' : Mc unit) s') /\
    timer_at n (ton_count (u32 T) (ton_init n (u32 T) (set_dest d m))) s' /\ timer_env n pc d true (u32 T) s'.
Proof.
  intros [E1 E2 E3 E4 E5] K Hc. set (s1 := with_tick (u32 T) s).
  assert (E' : timer_env n pc d true (u32 T) s1).
  { split; [|done| | |done].
    - by apply (ins_number_stable n s).
    - by apply (const_word_code _ _ s).
    - unfold GET_POWER_FLOW, gets in *. injection E4 as E4. change (env s1) with (env s). by rewrite E4. }
  assert (K' : timer_at n m s1) by (destruct K; by split).
  destruct (ton_run n pc d Hn (u32 T) m s1 E' K' Hc) as (s2 & H2 & K2 & F2). rewrite u16_id in K2 by done.
  exists s2. split_and!; [|done|by eapply timer_env_frame]. intros c'. unfold mbind at 1, M_bind at 1. cbn [modify].
  fold s1. by rewrite (bind_run _ _ _ _ _ H2).
Qed.
Lemma serve_run T0 Ts : forall T b0 m s now,
  timer_env n pc d true now s -> timer_at n m s -> timing n d T0 T b0 m -> T0 <= T -> ascending T Ts ->
  List.last Ts T - T0 < 0x7FFF * unit_ms (timer_accuracy n) -> Ts <> [] ->
  exists m' s', serve_at run_ci_ton_ins Ts s = Ok (tt, s') /\ timer_at n m' s' /\
    timing n d T0 (List.last Ts T) (b0 || (d <=? (List.last Ts T - T0) / unit_ms (timer_accuracy n))) m'.
Proof.
  induction Ts as [|T' Ts IH]; intros T b0 m s now E K R H0 Has Hlim Hne; [done|].
  destruct Has as [Hle Has]. rewrite last_cons_default in *. cbn [serve_at]. pose proof (ascending_last _ _ Has) as Hl.
  destruct (serve_one T' now m s E K) as (s1 & H1 & K1 & E1).
  { intros _. rewrite (tm_cap _ _ _ _ _ _ R). apply accuracy_ok. }
  assert (R' : timing n d T0 T b0 (ton_init n (u32 T') (set_dest d m))).
  { destruct R as [I ?]. unfold ton_init. cbn [m_status set_dest]. destruct (Z.eqb_spec (t_Init (m_status m)) 0); [done|by split]. }
  assert (Hd' : m_dest (ton_init n (u32 T') (set_dest d m)) = d).
  { unfold ton_init. by destruct (_ =? 0). }
  pose proof (timing_count n d T0 T T' b0 _ Hd' H0 Hle ltac:(lia) R') as R1. rewrite H1.
  destruct Ts as [|T2 Ts].
  - exists (ton_count (u32 T') (ton_init n (u32 T') (set_dest d m))), s1. cbn [serve_at List.last]. by split_and!.
  - destruct (IH T' _ _ s1 _ E1 K1 R1 ltac:(lia) Has Hlim ltac:(done)) as (m' & s' & H' & K' & R2).
    exists m', s'. split_and!; [done|done|]. rewrite <- orb_assoc in R2.
    set (L := List.last (T2 :: Ts) T') in *. pose proof (unit_range n) as Hu.
    assert (Hm : (T' - T0) / unit_ms (timer_accuracy n) <= (L - T0) / unit_ms (timer_accuracy n)).
    { apply Z.div_le_mono; lia. }
    destruct (Z.leb_spec d ((T' - T0) / unit_ms (timer_accuracy n))), (Z.leb_spec d ((L - T0) / unit_ms (timer_accuracy n)));
      by (lia || rewrite ?orb_true_r, ?orb_false_r, ?orb_true_l, ?orb_false_l in * ).
Qed.
End serve.

(** C7: for its first 32767 units the on-delay timer measures time exactly.
    Started from rest at time [T0] and served with its input on at later
    times, however spaced, of which the last is less than 32767 units after
    [T0], it shows the number of whole units (1, 10 or 100 ms, by its
    number) from [T0] to the last service: nothing is lost between services,
    nor across the wrap-around of the tick counter; its bit is on as soon as
    that number reaches the set value. *)
Theorem ton_measures_time n pc d now m s T0 Ts :
  0 <= n < T_RANG -> 0 <= d < 2 ^ 16 -> timer_env n pc d true now s -> timer_at n m s ->
  t_Init (m_status m) = 0 -> m_cur m = 0 -> ascending T0 Ts ->
  let u := unit_ms (timer_accuracy n) in
  let T := List.last Ts T0 in
  T - T0 < 0x7FFF * u ->
  exists m' s', serve_at run_ci_ton_ins (T0 :: Ts) s = Ok (tt, s') /\ timer_at n m' s' /\
    m_cur m' = (T - T0) / u /\ m_bit m' = m_bit m || (d <=? (T - T0) / u) /\
    m_start m' = u32 (T0 + u * ((T - T0) / u)).
Proof.
  intros Hn Hd E K Hi Hc Has u T Hlim. pose proof (ascending_last _ _ Has) as Hl. pose proof (unit_range n) as Hu.
  destruct (serve_one n pc d Hn Hd T0 now m s E K) as (s1 & H1 & K1 & E1); [done|].
  pose proof (timing_init n d T0 (set_dest d m) Hi Hc) as R0. cbn [m_bit set_dest] in R0.
  assert (Hd' : m_dest (ton_init n (u32 T0) (set_dest d m)) = d) by (unfold ton_init; by destruct (_ =? 0)).
  pose proof (timing_count n d T0 T0 T0 _ _ Hd' ltac:(lia) ltac:(lia) ltac:(lia) R0) as R1.
  cbn [serve_at]. rewrite H1. destruct Ts as [|T1 Ts].
  - exists (ton_count (u32 T0) (ton_init n (u32 T0) (set_dest d m))), s1. destruct R1 as [_ _ Q S B].
    cbn [serve_at]. split_and!; [done|done|done|done|by rewrite S, Q].
  - destruct (serve_run n pc d Hn Hd T0 (T1 :: Ts) T0 _ _ s1 _ E1 K1 R1 ltac:(lia) Has Hlim ltac:(done))
      as (m' & s' & H' & K' & [_ _ Q S B]).
    exists m', s'. fold T in Q, B. split_and!; [done|done|done| |by rewrite S, Q].
    rewrite B, Z.sub_diag, Z.div_0_l, <- orb_assoc by lia. f_equal.
    pose proof (Z.div_pos (T - T0) u ltac:(lia) ltac:(lia)). fold u.
    destruct (Z.leb_spec d 0), (Z.leb_spec d ((T - T0) / u)); done || lia.
Qed.
Definition timer_demo : plc_st := with_InPF 1 (st0 [0x14; 0xF0; 0; 0; 7; 0; 1; 0xFF; 3; 0]).
Definition timer_demo_m : timer :=
  {| m_cur := 0; m_dest := 0; m_start := 0; m_bit := false; m_status := t_status0 |}.
Lemma timer_demo_at : timer_at 7 timer_demo_m timer_demo.
Proof. split; [apply wf_elem0|by vm_compute..]. Qed.
Lemma timer_demo_env : timer_env 7 0 3 true 0 timer_demo.
Proof.
  split; [done|done| |done|done]. exists 1. split; [done|]. by split; [..|zconc|zconc].
Qed.
Lemma ton_measures_time_witness : exists m' s',
  serve_at run_ci_ton_ins [1000; 1050; 1270; 1333] timer_demo = Ok (tt, s') /\ timer_at 7 m' s' /\
  m_cur m' = 3 /\ m_bit m' = true.
Proof.
  destruct (ton_measures_time 7 0 3 0 timer_demo_m timer_demo 1000 [1050; 1270; 1333])
    as (m' & s' & H & K & Q & B & _);
    [zconc|zconc|apply timer_demo_env|apply timer_demo_at|by vm_compute|by vm_compute|by repeat split|by vm_compute|].
  exists m', s'. split_and!; [exact H|exact K|by rewrite Q|by rewrite B].
Defined.

(** Clock subtraction borrows an hour whenever the minutes differ by less
    than 60, that is always: with minutes and seconds of the first time not
    below those of the second, the minutes come out 60 too large and the
    hours 1 too small. *)
Lemma time_sub_always_borrows a0 a1 a2 b0 b1 b2 :
  0 <= b0 < a0 -> a0 <= 23 -> 0 <= b1 <= a1 -> a1 < 60 -> 0 <= b2 <= a2 -> a2 < 60 ->
  time_sub (a0, a1, a2) (b0, b1, b2) = ([a0 - b0 - 1; a1 - b1 + 60; a2 - b2], false).
Proof.
  intros H0 H0' H1 H1' H2 H2'. unfold time_sub.
  rewrite (s16_small (a2 - b2)) by lia. assert (a2 - b2 <? 0 = false) as -> by lia.
  rewrite (s16_small (0 + (a1 - b1))) by lia. assert (0 + (a1 - b1) <? 60 = true) as -> by lia.
  rewrite (s16_small (0 + (a1 - b1) + 60)), (s16_small (-1 + (a0 - b0))) by lia.
  assert (-1 + (a0 - b0) <? 0 = false) as -> by lia. rewrite !u16_id by lia. repeat f_equal; lia.
Qed.
Lemma time_sub_always_borrows_witness : time_sub (10, 30, 20) (1, 10, 5) = ([8; 80; 15], false).
Proof. by apply (time_sub_always_borrows 10 30 20 1 10 5). Defined.
