(* ===== verification/FlowCtrl.v ===== *)
(** * Program-flow instructions

    Models plc/executer/src/plc_flowctrlins.c: loops, jumps, returns, the CALL
    instruction with its parameters, and the step (SFC) instructions. A CALL
    runs the subroutine through [plc_run_user_program], which is a parameter
    here; the executer ties the knot. *)
From stdpp Require Import base list numbers sets.
From S2P Require Import Prelude Element Machine ParseAddr ParseAddrFacts Device.

Definition GET_PS32_DATA (a : Z) : Mc Z := v ← GET_PU32_DATA a; mret (s32 v).

(** ** FOR .. NEXT *)
Definition rd_for (i : Z) : Mc plc_for_next_ins_st := fun s =>
  match zlookup (for_next (flow s)) i with Some f => Ok (f, s) | None => Ub end.
Definition wr_for (i : Z) (f : plc_for_next_ins_st) : Mc unit := fun s =>
  match zupdate (for_next (flow s)) i f with Some l => Ok (tt, with_flow (with_for_next l (flow s)) s) | None => Ub end.
(** The structure of the running subroutine, and an update of it. *)
Definition ltp_ForNextIns : Mc plc_for_next_ins_st := d ← get_nested; rd_for d.
Definition put_for (f : plc_for_next_ins_st) : Mc unit := d ← get_nested; wr_for d f.
Definition with_NestedNum v f := {| msa_LoopCnt := msa_LoopCnt f; msp_StartUcodeAddr := msp_StartUcodeAddr f;
  msp_EndUcodeAddr := msp_EndUcodeAddr f; msv_NestedNum := u16 v |}.
Definition with_addrs s e f := {| msa_LoopCnt := msa_LoopCnt f; msp_StartUcodeAddr := s;
  msp_EndUcodeAddr := e; msv_NestedNum := msv_NestedNum f |}.
Definition with_loop_cnt l f := {| msa_LoopCnt := l; msp_StartUcodeAddr := msp_StartUcodeAddr f;
  msp_EndUcodeAddr := msp_EndUcodeAddr f; msv_NestedNum := msv_NestedNum f |}.
Definition get_cnt (f : plc_for_next_ins_st) (i : Z) : Mc Z := of_option (zlookup (msa_LoopCnt f) i).
Definition set_cnt (i v : Z) (f : plc_for_next_ins_st) : Mc plc_for_next_ins_st :=
  l ← of_option (zupdate (msa_LoopCnt f) i (u16 v)); mret (with_loop_cnt l f).

Definition run_ci_for_ins : Mc Z :=
  pc ← get_PC;
  rv ← get_word1 (pc + 2);
  if rv.1 =? pdPASS then
    lsv_LoopCnt ← of_option rv.2;
    lo ← GET_PU16_DATA (pc + 6); hi ← GET_PU16_DATA (pc + 8);
    let lcp_NextInsUcode := pc + u32 (lo + Z.shiftl hi 16) in
    f ← ltp_ForNextIns;
    st ← of_option (zupdate (msp_StartUcodeAddr f) (msv_NestedNum f) pc);
    en ← of_option (zupdate (msp_EndUcodeAddr f) (msv_NestedNum f) lcp_NextInsUcode);
    let f := with_addrs st en f in
    put_for f;;
    pf ← GET_POWER_FLOW;
    if pf && (0 <? lsv_LoopCnt) then
      add_PC 10;;
      f' ← set_cnt (msv_NestedNum f) lsv_LoopCnt f;
      put_for (with_NestedNum (msv_NestedNum f + 1) f');;
      mret pdPASS
    else set_PC lcp_NextInsUcode;; mret pdPASS
  else add_PC 10;; mret rv.1.

(** [cnt = 0] marks a finished loop that is still on the stack; the [switch]
    of NEXT pops at most one. *)
Definition next_count (f : plc_for_next_ins_st) (c : Z) : Mc unit :=
  if c =? 1 then f' ← set_cnt (msv_NestedNum f - 1) 0 f; put_for f';; add_PC 2
  else
    f' ← set_cnt (msv_NestedNum f - 1) (c - 1) f;
    st ← of_option (zlookup (msp_StartUcodeAddr f) (msv_NestedNum f - 1));
    put_for f';; set_PC (st + 10).
Definition run_ci_next_ins : Mc Z :=
  f ← ltp_ForNextIns;
  (if 0 <? msv_NestedNum f then
     c ← get_cnt f (msv_NestedNum f - 1);
     if c =? 0 then
       let f' := with_NestedNum (msv_NestedNum f - 1) f in
       put_for f';;
       if negb (msv_NestedNum f' =? 0) then
         c' ← get_cnt f' (msv_NestedNum f' - 1); next_count f' c'
       else add_PC 2
     else next_count f c
   else add_PC 2);;
  mret pdPASS.

Definition run_ci_continue_ins : Mc Z := mret pdPASS.
Definition run_ci_break_ins : Mc Z := mret pdPASS.

(** ** Jumps and returns *)
Definition run_ci_lbl_ins : Mc Z := mret pdPASS.
(** The loops left by a jump are popped, innermost first. *)
Fixpoint cj_unwind (n : nat) (from dest : Z) (f : plc_for_next_ins_st) : Mc plc_for_next_ins_st :=
  match n with
  | O => mret f
  | S i =>
    st ← of_option (zlookup (msp_StartUcodeAddr f) (Z.of_nat i));
    en ← of_option (zlookup (msp_EndUcodeAddr f) (Z.of_nat i));
    if (st <? from) && (from <? en) && ((dest <? st) || (en <? dest))
    then cj_unwind i from dest (with_NestedNum (msv_NestedNum f - 1) f)
    else mret f
  end.
Definition run_ci_cj_ins : Mc Z :=
  pf ← GET_POWER_FLOW;
  if negb pf then add_PC 10;; mret pdPASS
  else
    lcp_InsStartAddr ← get_PC;
    off ← GET_PS32_DATA (lcp_InsStartAddr + 6);
    add_PC off;;
    lcp_DestAddr ← get_PC;
    f ← ltp_ForNextIns;
    f' ← cj_unwind (Z.to_nat (msv_NestedNum f)) lcp_InsStartAddr lcp_DestAddr f;
    put_for f';;
    mret pdPASS.
Definition run_ci_fend_ins : Mc Z := mret EXEC_FLAG_FEND.
Definition run_ci_cfend_ins : Mc Z := pf ← GET_POWER_FLOW; mret (if pf : bool then EXEC_FLAG_FEND else pdPASS).
Definition run_ci_wdt_ins : Mc Z :=
  pf ← GET_POWER_FLOW;
  when pf (now ← gets tick; mod_sys (fun y => with_run_status
    {| mcv_PlcRunSwitch := mcv_PlcRunSwitch (run_status y); mtv_PlcRunStopFlag := mtv_PlcRunStopFlag (run_status y);
       mcv_PlcCurrentStatus := mcv_PlcCurrentStatus (run_status y);
       mcv_IsOnlineProgram := mcv_IsOnlineProgram (run_status y);
       mlv_SysScanTime := mlv_SysScanTime (run_status y); mlv_WatchDogTime := now |} y));;
  mret pdPASS.
Definition plc_user_interrupt_enable (v : Z) : Mc unit := mod_sys (with_intr_enable v).
Definition run_ci_ei_ins : Mc Z := pf ← GET_POWER_FLOW; when pf (plc_user_interrupt_enable 1);; mret pdPASS.
Definition run_ci_di_ins : Mc Z := pf ← GET_POWER_FLOW; when pf (plc_user_interrupt_enable 0);; mret pdPASS.
Definition run_ci_iret_ins : Mc Z := mret EXEC_FLAG_IRET.
Definition run_ci_ciret_ins : Mc Z := pf ← GET_POWER_FLOW; mret (if pf : bool then EXEC_FLAG_IRET else pdPASS).
Definition run_ci_stop_ins : Mc Z :=
  pf ← GET_POWER_FLOW;
  if pf : bool then set_runstop_flag cmd_stop true;; mret EXEC_FLAG_STOP else mret pdPASS.
Definition run_ci_csret_ins : Mc Z :=
  pf ← GET_POWER_FLOW; if pf : bool then mret EXEC_FLAG_SRET else add_PC 2;; mret pdPASS.
Definition run_ci_sret_ins : Mc Z := mret EXEC_FLAG_SRET.
Definition run_ci_sbr_ins : Mc Z := mret pdPASS.

(** ** Loops *)
Record for_ok (f : plc_for_next_ins_st) : Prop := {
  fo_cnt : Z.of_nat (length (msa_LoopCnt f)) = MAX_FOR_NEXT_NESTED_NUM;
  fo_start : Z.of_nat (length (msp_StartUcodeAddr f)) = MAX_FOR_NEXT_NESTED_NUM;
  fo_end : Z.of_nat (length (msp_EndUcodeAddr f)) = MAX_FOR_NEXT_NESTED_NUM;
  fo_num : 0 <= msv_NestedNum f <= MAX_FOR_NEXT_NESTED_NUM }.
(** The running subroutine's loops are [f], power flows, the code is [code]. *)
Record looping (code : list Z) (f : plc_for_next_ins_st) (s : plc_st) : Prop := {
  lp_for : zlookup (for_next (flow s)) (nested s) = Some f;
  lp_ok : for_ok f;
  lp_pf : get_pf (mlv_InPF (env s)) = true;
  lp_code : ucode s = code }.
(** A FOR at [p] with the constant count [d]; its length field is readable. *)
Record for_ins (code : list Z) (p d : Z) : Prop := {
  fi_count s : ucode s = code -> const_word (p + 2) d s;
  fi_len s : ucode s = code -> exists lo hi, GET_PU16_DATA (p + 6) s = Ok (lo, s) /\ GET_PU16_DATA (p + 8) s = Ok (hi, s);
  fi_range : 0 < d < 2 ^ 16 }.

Section loops.
Context (code : list Z).
Lemma looping_pf f s : looping code f s -> GET_POWER_FLOW s = Ok (true, s).
Proof. intros L. unfold GET_POWER_FLOW, gets. by rewrite (lp_pf _ _ _ L). Qed.
Lemma get_for_run f s : looping code f s -> ltp_ForNextIns s = Ok (f, s).
Proof. intros L. unfold ltp_ForNextIns, rd_for, get_nested, gets, mbind, M_bind. fold (nested s). by rewrite (lp_for _ _ _ L). Qed.
Lemma put_for_run f f' s : looping code f s -> for_ok f' -> exists s', put_for f' s = Ok (tt, s') /\ looping code f' s' /\
  env s' = env s.
Proof.
  intros [H1 H2 H3 H4] O. pose proof (zlookup_lt _ _ _ H1) as Hlt. pose proof (zupdate_lt _ _ f' Hlt) as U.
  unfold put_for, wr_for, get_nested, gets, mbind, M_bind. fold (nested s). rewrite U.
  eexists. split; [reflexivity|]. split; [|done]. by split; [exact (zlookup_zupdate_eq _ _ _ _ U)|..].
Qed.
Lemma set_PC_run p f s : looping code f s -> exists s', set_PC p s = Ok (tt, s') /\ looping code f s' /\ mcp_PC (env s') = p.
Proof.
  intros [H1 H2 H3 H4]. exists (with_PC p s). split; [done|]. by split.
Qed.
Lemma add_PC_run k f s : looping code f s -> exists s', add_PC k s = Ok (tt, s') /\ looping code f s' /\
  mcp_PC (env s') = mcp_PC (env s) + k.
Proof. intros L. exact (set_PC_run (mcp_PC (env s) + k) f s L). Qed.

(** Pushing a loop, and setting the count of the innermost one. *)
Definition pushed (d p : Z) (f f' : plc_for_next_ins_st) : Prop :=
  msv_NestedNum f' = msv_NestedNum f + 1 /\ zlookup (msa_LoopCnt f') (msv_NestedNum f) = Some d /\
  zlookup (msp_StartUcodeAddr f') (msv_NestedNum f) = Some p /\
  (forall i, i <> msv_NestedNum f -> zlookup (msa_LoopCnt f') i = zlookup (msa_LoopCnt f) i) /\
  (forall i, i <> msv_NestedNum f -> zlookup (msp_StartUcodeAddr f') i = zlookup (msp_StartUcodeAddr f) i).
Lemma for_run p d f s : for_ins code p d -> looping code f s -> mcp_PC (env s) = p ->
  msv_NestedNum f < MAX_FOR_NEXT_NESTED_NUM ->
  exists f' s', run_ci_for_ins s = Ok (pdPASS, s') /\ looping code f' s' /\ pushed d p f f' /\ mcp_PC (env s') = p + 10.
Proof.
  intros [F1 F2 F3] L Hp Hn. pose proof (lp_ok _ _ _ L) as [O1 O2 O3 O4]. unfold MAX_FOR_NEXT_NESTED_NUM in *.
  assert (Hpc : get_PC s = Ok (p, s)) by (unfold get_PC, gets; by rewrite Hp).
  assert (Hw : get_word1 (p + 2) s = Ok ((pdPASS, Some d), s)).
  { unfold get_word1. by rewrite (bind_run _ _ _ _ _ (get_const_run _ 0 1 d s (F1 s (lp_code _ _ _ L)))). }
  destruct (F2 s (lp_code _ _ _ L)) as (lo & hi & Hlo & Hhi).
  unfold run_ci_for_ins. rewrite (bind_run _ _ _ _ _ Hpc), (bind_run _ _ _ _ _ Hw). cbn [fst snd].
  change (pdPASS =? pdPASS) with true. cbv match. rewrite bind_some.
  rewrite (bind_run _ _ _ _ _ Hlo), (bind_run _ _ _ _ _ Hhi), (bind_run _ _ _ _ _ (get_for_run f s L)).
  set (nx := p + u32 (lo + Z.shiftl hi 16)).
  pose proof (zupdate_lt (msp_StartUcodeAddr f) (msv_NestedNum f) p ltac:(lia)) as Us.
  pose proof (zupdate_lt (msp_EndUcodeAddr f) (msv_NestedNum f) nx ltac:(lia)) as Ue.
  rewrite Us, bind_some, Ue, bind_some.
  set (f1 := with_addrs _ _ f).
  destruct (put_for_run f f1 s L) as (s1 & H1 & L1 & E1).
  { split; cbn; rewrite ?length_insert; done. }
  rewrite (bind_run _ _ _ _ _ H1), (bind_run _ _ _ _ _ (looping_pf f1 s1 L1)).
  assert (true && (0 <? d) = true) as -> by (apply Z.ltb_lt; lia).
  destruct (add_PC_run 10 f1 s1 L1) as (s2 & H2 & L2 & E2). rewrite (bind_run _ _ _ _ _ H2).
  pose proof (zupdate_lt (msa_LoopCnt f1) (msv_NestedNum f1) (u16 d) ltac:(cbn; lia)) as Uc.
  set (f2 := with_NestedNum (msv_NestedNum f1 + 1) (with_loop_cnt (<[Z.to_nat (msv_NestedNum f1) := u16 d]> (msa_LoopCnt f1)) f1)).
  assert (Hset : set_cnt (msv_NestedNum f1) d f1 s2 = Ok (with_loop_cnt (<[Z.to_nat (msv_NestedNum f1) := u16 d]> (msa_LoopCnt f1)) f1, s2)).
  { unfold set_cnt. by rewrite Uc, bind_some. }
  rewrite (bind_run _ _ _ _ _ Hset). fold f2.
  destruct (put_for_run f1 f2 s2 L2) as (s3 & H3 & L3 & E3).
  { split; cbn; rewrite ?length_insert; try done. rewrite u16_id by lia. unfold MAX_FOR_NEXT_NESTED_NUM. lia. }
  rewrite (bind_run _ _ _ _ _ H3). exists f2, s3. split; [done|]. split; [done|]. split; [|by rewrite E3, E2, E1, Hp].
  rewrite u16_id in Uc by lia. unfold pushed, f2, f1. cbn [msv_NestedNum with_NestedNum with_loop_cnt msa_LoopCnt msp_StartUcodeAddr with_addrs].
  rewrite (u16_id d), u16_id by lia. split_and!.
  - done.
  - exact (zlookup_zupdate_eq _ _ _ _ Uc).
  - exact (zlookup_zupdate_eq _ _ _ _ Us).
  - intros i Hi. exact (zlookup_zupdate_ne _ _ _ _ _ Uc (not_eq_sym Hi)).
  - intros i Hi. exact (zlookup_zupdate_ne _ _ _ _ _ Us (not_eq_sym Hi)).
Qed.
(** NEXT at the innermost loop with [c > 0] rounds left: the count goes down,
    and the jump is back to the body while rounds remain. A finished loop
    stays on the stack, with count 0. *)
Definition counted (c : Z) (f f' : plc_for_next_ins_st) : Prop :=
  msv_NestedNum f' = msv_NestedNum f /\ msp_StartUcodeAddr f' = msp_StartUcodeAddr f /\
  zlookup (msa_LoopCnt f') (msv_NestedNum f - 1) = Some (u16 (c - 1)) /\
  (forall i, i <> msv_NestedNum f - 1 -> zlookup (msa_LoopCnt f') i = zlookup (msa_LoopCnt f) i).
Lemma next_count_run f s c st : looping code f s -> 0 < msv_NestedNum f ->
  zlookup (msp_StartUcodeAddr f) (msv_NestedNum f - 1) = Some st -> zlookup (msa_LoopCnt f) (msv_NestedNum f - 1) = Some c ->
  exists f' s', next_count f c s = Ok (tt, s') /\ looping code f' s' /\ counted c f f' /\
    mcp_PC (env s') = if c =? 1 then mcp_PC (env s) + 2 else st + 10.
Proof.
  intros L Hn Hst Hc. pose proof (lp_ok _ _ _ L) as [O1 O2 O3 O4].
  pose proof (zlookup_lt _ _ _ Hc) as Hlt. unfold next_count.
  assert (U : forall v, zupdate (msa_LoopCnt f) (msv_NestedNum f - 1) (u16 v) =
    Some (<[Z.to_nat (msv_NestedNum f - 1) := u16 v]> (msa_LoopCnt f))) by (intros v; by apply zupdate_lt).
  set (g := fun v => with_loop_cnt (<[Z.to_nat (msv_NestedNum f - 1) := u16 v]> (msa_LoopCnt f)) f).
  assert (Hset : forall v, set_cnt (msv_NestedNum f - 1) v f s = Ok (g v, s)).
  { intros v. unfold set_cnt. by rewrite U, bind_some. }
  assert (Hok : forall v, for_ok (g v)) by (intros v; split; cbn; rewrite ?length_insert; done).
  assert (Hg : forall v, u16 v = u16 (c - 1) -> counted c f (g v)).
  { intros v Hv. split_and!; [done|done| |]; cbn [g with_loop_cnt msa_LoopCnt].
    - rewrite <- Hv. exact (zlookup_zupdate_eq _ _ _ _ (U v)).
    - intros i Hi. exact (zlookup_zupdate_ne _ _ _ _ _ (U v) (not_eq_sym Hi)). }
  destruct (Z.eqb_spec c 1) as [->|Hc1].
  - rewrite (bind_run _ _ _ _ _ (Hset 0)). destruct (put_for_run f (g 0) s L (Hok 0)) as (s1 & H1 & L1 & E1).
    rewrite (bind_run _ _ _ _ _ H1). destruct (add_PC_run 2 (g 0) s1 L1) as (s2 & H2 & L2 & E2).
    exists (g 0), s2. split_and!; [done|done|by apply Hg|by rewrite E2, E1].
  - rewrite (bind_run _ _ _ _ _ (Hset (c - 1))), Hst, bind_some.
    destruct (put_for_run f (g (c - 1)) s L (Hok _)) as (s1 & H1 & L1 & E1).
    rewrite (bind_run _ _ _ _ _ H1). destruct (set_PC_run (st + 10) _ s1 L1) as (s2 & H2 & L2 & E2).
    exists (g (c - 1)), s2. split_and!; [done|done|by apply Hg|done].
Qed.
Lemma next_run f s c st : looping code f s -> 0 < msv_NestedNum f ->
  zlookup (msp_StartUcodeAddr f) (msv_NestedNum f - 1) = Some st -> zlookup (msa_LoopCnt f) (msv_NestedNum f - 1) = Some c ->
  c <> 0 ->
  exists f' s', run_ci_next_ins s = Ok (pdPASS, s') /\ looping code f' s' /\ counted c f f' /\
    mcp_PC (env s') = if c =? 1 then mcp_PC (env s) + 2 else st + 10.
Proof.
  intros L Hn Hst Hc Hc0. destruct (next_count_run f s c st L Hn Hst Hc) as (f' & s' & H & R).
  exists f', s'. split; [|exact R]. unfold run_ci_next_ins. rewrite (bind_run _ _ _ _ _ (get_for_run f s L)).
  assert (0 <? msv_NestedNum f = true) as -> by lia. unfold get_cnt. rewrite Hc.
  unfold mbind at 1, M_bind at 1. rewrite bind_some. assert (c =? 0 = false) as -> by lia. by rewrite H.
Qed.

(** The body of a loop, abstracted: control comes back to the NEXT at [a]. *)
Fixpoint nexts (a : Z) (k : nat) : Mc (list Z) :=
  match k with
  | O => mret []
  | S k' => set_PC a;; run_ci_next_ins;; pc ← get_PC; l ← nexts a k'; mret (pc :: l)
  end.
(** [f'] is [f] with its innermost loop (started at [st]) used up. *)
Definition used_up (f f' : plc_for_next_ins_st) : Prop :=
  msv_NestedNum f' = msv_NestedNum f /\ msp_StartUcodeAddr f' = msp_StartUcodeAddr f /\
  zlookup (msa_LoopCnt f') (msv_NestedNum f - 1) = Some 0 /\
  (forall i, i <> msv_NestedNum f - 1 -> zlookup (msa_LoopCnt f') i = zlookup (msa_LoopCnt f) i).
Lemma nexts_run a st k : forall f s, looping code f s -> 0 < msv_NestedNum f ->
  zlookup (msp_StartUcodeAddr f) (msv_NestedNum f - 1) = Some st ->
  zlookup (msa_LoopCnt f) (msv_NestedNum f - 1) = Some (Z.of_nat k + 1) -> Z.of_nat k + 1 < 2 ^ 16 ->
  exists f' s', nexts a (S k) s = Ok (replicate k (st + 10) ++ [a + 2], s') /\ looping code f' s' /\ used_up f f'.
Proof.
  induction k as [|k IH]; intros f s L Hn Hst Hc Hk; cbn [nexts];
    destruct (set_PC_run a f s L) as (s1 & H1 & L1 & E1); rewrite (bind_run _ _ _ _ _ H1);
    (destruct (next_run f s1 _ st L1 Hn Hst Hc) as (f2 & s2 & H2 & L2 & (C1 & C2 & C3 & C4) & E2); [lia|]);
    rewrite (bind_run _ _ _ _ _ H2); unfold get_PC; unfold mbind at 1, M_bind at 1; cbn [gets];
    rewrite E2, ?E1.
  - exists f2, s2. split; [done|]. split; [done|]. split_and!; [done|done|by rewrite C3|done].
  - assert (Z.of_nat (S k) + 1 =? 1 = false) as ->. { apply Z.eqb_neq. lia. }
    destruct (IH f2 s2 L2) as (f3 & s3 & H3 & L3 & D1 & D2 & D3 & D4).
    { lia. } { by rewrite C1, C2. } { rewrite C1, C3. f_equal. rewrite u16_id; lia. } { lia. }
    rewrite (bind_run _ _ _ _ _ H3). exists f3, s3. split; [done|]. split; [done|].
    split_and!; [congruence|congruence|by rewrite <- C1|]. intros i Hi. rewrite D4, C4; [done|done|by rewrite C1].
Qed.
(** A whole inner loop: FOR at [p], its NEXT at [a], [d] rounds. *)
Definition loop_at (p a d : Z) : Mc (list Z) := set_PC p;; run_ci_for_ins;; nexts a (Z.to_nat d).
Definition finished (p : Z) (f f' : plc_for_next_ins_st) : Prop :=
  msv_NestedNum f' = msv_NestedNum f + 1 /\ zlookup (msa_LoopCnt f') (msv_NestedNum f) = Some 0 /\
  zlookup (msp_StartUcodeAddr f') (msv_NestedNum f) = Some p /\
  (forall i, i <> msv_NestedNum f -> zlookup (msa_LoopCnt f') i = zlookup (msa_LoopCnt f) i) /\
  (forall i, i <> msv_NestedNum f -> zlookup (msp_StartUcodeAddr f') i = zlookup (msp_StartUcodeAddr f) i).
Lemma loop_at_run p a d f s : for_ins code p d -> looping code f s -> msv_NestedNum f < MAX_FOR_NEXT_NESTED_NUM ->
  exists f' s', loop_at p a d s = Ok (replicate (Z.to_nat (d - 1)) (p + 10) ++ [a + 2], s') /\
    looping code f' s' /\ finished p f f'.
Proof.
  intros F L Hn. destruct (set_PC_run p f s L) as (s1 & H1 & L1 & E1).
  destruct (for_run p d f s1 F L1 E1 Hn) as (f2 & s2 & H2 & L2 & (P1 & P2 & P3 & P4 & P5) & _).
  pose proof (fi_range _ _ _ F) as Hd. pose proof (fo_num _ (lp_ok _ _ _ L)) as Hnn.
  assert (Hi : msv_NestedNum f2 - 1 = msv_NestedNum f) by lia.
  destruct (nexts_run a p (Z.to_nat (d - 1)) f2 s2 L2) as (f3 & s3 & H3 & L3 & D1 & D2 & D3 & D4).
  { lia. } { by rewrite Hi. } { rewrite Hi, P2. f_equal. lia. } { lia. }
  exists f3, s3. unfold loop_at. rewrite (bind_run _ _ _ _ _ H1), (bind_run _ _ _ _ _ H2).
  replace (Z.to_nat d) with (S (Z.to_nat (d - 1))) by lia. rewrite H3. split; [done|]. split; [done|].
  rewrite Hi in D3, D4. split_and!; [lia|done|by rewrite D2| |].
  - intros i Hne. rewrite D4 by done. by apply P4.
  - intros i Hne. rewrite D2. by apply P5.
Qed.
Lemma for_overflow p d f s : for_ins code p d -> looping code f s -> mcp_PC (env s) = p ->
  msv_NestedNum f = MAX_FOR_NEXT_NESTED_NUM -> run_ci_for_ins s = Ub.
Proof.
  intros [F1 F2 F3] L Hp Hn. pose proof (lp_ok _ _ _ L) as [O1 O2 O3 O4].
  assert (Hpc : get_PC s = Ok (p, s)) by (unfold get_PC, gets; by rewrite Hp).
  assert (Hw : get_word1 (p + 2) s = Ok ((pdPASS, Some d), s)).
  { unfold get_word1. by rewrite (bind_run _ _ _ _ _ (get_const_run _ 0 1 d s (F1 s (lp_code _ _ _ L)))). }
  destruct (F2 s (lp_code _ _ _ L)) as (lo & hi & Hlo & Hhi).
  unfold run_ci_for_ins. rewrite (bind_run _ _ _ _ _ Hpc), (bind_run _ _ _ _ _ Hw). cbn [fst snd].
  change (pdPASS =? pdPASS) with true. cbv match. rewrite bind_some.
  rewrite (bind_run _ _ _ _ _ Hlo), (bind_run _ _ _ _ _ Hhi), (bind_run _ _ _ _ _ (get_for_run f s L)).
  destruct (zupdate (msp_StartUcodeAddr f) (msv_NestedNum f) p) as [l|] eqn:U; [|done].
  apply zupdate_Some in U. lia.
Qed.
(** Loops one after the other, as (FOR, NEXT, count). *)
Fixpoint loops_in_a_row (l : list (Z * Z * Z)) : Mc unit :=
  match l with [] => mret tt | (p, a, d) :: r => loop_at p a d;; loops_in_a_row r end.
Lemma loops_in_a_row_run l : forall f s, Forall (fun x => for_ins code x.1.1 x.2) l -> looping code f s ->
  msv_NestedNum f + Z.of_nat (length l) <= MAX_FOR_NEXT_NESTED_NUM ->
  exists f' s', loops_in_a_row l s = Ok (tt, s') /\ looping code f' s' /\
    msv_NestedNum f' = msv_NestedNum f + Z.of_nat (length l).
Proof.
  induction l as [|[[p a] d] l IH]; intros f s F L Hn.
  - exists f, s. split_and!; [done|done|]. cbn. lia.
  - apply Forall_cons in F as [F1 F2]. cbn [length] in Hn. rewrite Nat2Z.inj_succ in Hn.
    destruct (loop_at_run p a d f s F1 L ltac:(lia)) as (f1 & s1 & H1 & L1 & E1 & _).
    destruct (IH f1 s1 F2 L1 ltac:(lia)) as (f2 & s2 & H2 & L2 & E2).
    exists f2, s2. cbn [loops_in_a_row]. rewrite (bind_run _ _ _ _ _ H1). split_and!; [done|done|].
    cbn [length]. lia.
Qed.
End loops.

(** A FOR with the constant count [d > 0], entered with power, runs its
    body exactly [d] times: of the arrivals at its NEXT (at [a]), the first
    [d - 1] go back to the body behind the FOR (10 bytes long) and the last
    one goes on behind the NEXT. *)
Theorem for_next_runs_d_times code p a d f s :
  for_ins code p d -> looping code f s -> msv_NestedNum f < MAX_FOR_NEXT_NESTED_NUM ->
  exists s', loop_at p a d s = Ok (replicate (Z.to_nat (d - 1)) (p + 10) ++ [a + 2], s').
Proof.
  intros F L Hn. destruct (loop_at_run code p a d f s F L Hn) as (f' & s' & H & _). by exists s'.
Qed.

(** Two loops in sequence inside an outer loop derail it: finished inner
    loops stay on the loop stack and NEXT pops only one, so the first NEXT of
    the outer loop takes the first inner loop for its own, goes back to that
    loop's body, and sets its count to 65535. *)
Theorem sequential_loops_derail code p0 d0 p1 a1 d1 p2 a2 d2 a0 f s :
  for_ins code p0 d0 -> for_ins code p1 d1 -> for_ins code p2 d2 ->
  looping code f s -> msv_NestedNum f = 0 -> mcp_PC (env s) = p0 ->
  exists f' s', (run_ci_for_ins;; loop_at p1 a1 d1;; loop_at p2 a2 d2;; set_PC a0;; run_ci_next_ins) s = Ok (pdPASS, s') /\
    mcp_PC (env s') = p1 + 10 /\ looping code f' s' /\ msv_NestedNum f' = 2 /\
    zlookup (msa_LoopCnt f') 0 = Some d0 /\ zlookup (msa_LoopCnt f') 1 = Some 0xFFFF.
Proof.
  intros F0 F1 F2 L Hn Hp.
  destruct (for_run code p0 d0 f s F0 L Hp ltac:(by rewrite Hn)) as (f1 & s1 & H1 & L1 & (A1 & A2 & A3 & A4 & A5) & _).
  rewrite Hn in *.
  destruct (loop_at_run code p1 a1 d1 f1 s1 F1 L1 ltac:(by rewrite A1)) as (f2 & s2 & H2 & L2 & B1 & B2 & B3 & B4 & B5).
  rewrite A1 in *.
  destruct (loop_at_run code p2 a2 d2 f2 s2 F2 L2 ltac:(by rewrite B1)) as (f3 & s3 & H3 & L3 & C1 & C2 & C3 & C4 & C5).
  rewrite B1 in *. change (0 + 1 + 1) with 2 in *. change (0 + 1) with 1 in *. change (2 + 1) with 3 in *.
  destruct (set_PC_run code a0 f3 s3 L3) as (s4 & H4 & L4 & E4).
  set (f4 := with_NestedNum (msv_NestedNum f3 - 1) f3).
  assert (Hf4 : msv_NestedNum f4 = 2) by (unfold f4; cbn [msv_NestedNum with_NestedNum]; by rewrite C1).
  destruct (put_for_run code f3 f4 s4 L4) as (s5 & H5 & L5 & E5).
  { destruct (lp_ok _ _ _ L3) as [O1 O2 O3 O4]. split; [done..|]. rewrite Hf4. done. }
  destruct (next_count_run code f4 s5 0 p1 L5) as (f6 & s6 & H6 & L6 & (D1 & D2 & D3 & D4) & E6).
  { by rewrite Hf4. } { rewrite Hf4. change (2 - 1) with 1. unfold f4. cbn. by rewrite C5, B3. }
  { rewrite Hf4. change (2 - 1) with 1. unfold f4. cbn. by rewrite C4, B2. }
  exists f6, s6. split_and!.
  - rewrite (bind_run _ _ _ _ _ H1), (bind_run _ _ _ _ _ H2), (bind_run _ _ _ _ _ H3), (bind_run _ _ _ _ _ H4).
    unfold run_ci_next_ins. rewrite (bind_run _ _ _ _ _ (get_for_run code f3 s4 L4)), C1.
    change (0 <? 3) with true. cbv match. unfold get_cnt. change (3 - 1) with 2. rewrite C2.
    unfold mbind at 1, M_bind at 1. rewrite bind_some. change (0 =? 0) with true. cbv match.
    replace 2 with (msv_NestedNum f3 - 1) by (by rewrite C1). fold f4. rewrite (bind_run _ _ _ _ _ H5), Hf4.
    change (negb (2 =? 0)) with true. cbv match. change (2 - 1) with 1.
    assert (Hc1 : zlookup (msa_LoopCnt f4) 1 = Some 0) by (unfold f4; cbn; by rewrite C4, B2).
    rewrite Hc1, bind_some. by rewrite H6.
  - exact E6.
  - done.
  - by rewrite D1, Hf4.
  - rewrite D4 by (rewrite Hf4; done). unfold f4. cbn. by rewrite C4, B4, A2.
  - rewrite Hf4 in D3. exact D3.
Qed.

(** A subroutine that runs eight loops one after the other has its loop
    stack full, since finished loops are not taken off it: a ninth FOR writes
    outside the stack, although no loop is nested in another. *)
Theorem ninth_loop_overflows code l p a d f s :
  Forall (fun x => for_ins code x.1.1 x.2) l -> for_ins code p d -> Z.of_nat (length l) = 8 ->
  looping code f s -> msv_NestedNum f = 0 ->
  (loops_in_a_row l;; loop_at p a d) s = Ub.
Proof.
  intros F Fp Hl L Hn.
  destruct (loops_in_a_row_run code l f s F L) as (f1 & s1 & H1 & L1 & E1); [rewrite Hn, Hl; zconc|].
  rewrite (bind_run _ _ _ _ _ H1). unfold loop_at.
  destruct (set_PC_run code p f1 s1 L1) as (s2 & H2 & L2 & E2). rewrite (bind_run _ _ _ _ _ H2).
  unfold mbind, M_bind. rewrite (for_overflow code p d f1 s2 Fp L2 E2); [done|]. by rewrite E1, Hn, Hl.
Qed.

Definition loops_code : list Z := flat_map (fun d => [0x1F; 0xF0; 1; 0xFF; d; 0; 12; 0; 0; 0; 0x20; 0xF0]) [3; 2; 4].
Definition loops_st : plc_st := with_InPF 1 (st0 loops_code).
Lemma loops_demo_ins p d : In (p, d) [(0, 3); (12, 2); (24, 4)] -> for_ins loops_code p d.
Proof.
  intros H. repeat destruct H as [H|H]; try done; injection H as <- <-.
  all: split; [intros s Hs; exists 1; split; [done|]; split; [..|zconc|zconc]
              |intros s Hs; exists 12, 0; split|done].
  all: by destruct s; cbn in Hs; rewrite Hs.
Qed.
Lemma loops_demo_st : looping loops_code for_next0 loops_st.
Proof. by split; [..|split|]. Qed.
Lemma for_next_runs_d_times_witness : exists s', loop_at 0 10 3 loops_st = Ok ([10; 10; 12], s').
Proof.
  apply (for_next_runs_d_times loops_code 0 10 3 for_next0 loops_st);
    [apply loops_demo_ins; by left|apply loops_demo_st|zconc].
Defined.
Lemma sequential_loops_derail_witness : exists s',
  (run_ci_for_ins;; loop_at 12 22 2;; loop_at 24 34 4;; set_PC 36;; run_ci_next_ins) loops_st = Ok (pdPASS, s') /\
  mcp_PC (env s') = 22.
Proof.
  destruct (sequential_loops_derail loops_code 0 3 12 22 2 24 34 4 36 for_next0 loops_st) as (f' & s' & H & Hp & _);
    [apply loops_demo_ins; by left|apply loops_demo_ins; by right; left|apply loops_demo_ins; by right; right; left
    |apply loops_demo_st|done|done|]. exists s'. by split.
Defined.
Lemma ninth_loop_overflows_witness :
  (loops_in_a_row (replicate 8 (0, 10, 3));; loop_at 24 34 4) loops_st = Ub.
Proof.
  apply (ninth_loop_overflows loops_code (replicate 8 (0, 10, 3)) 24 34 4 for_next0 loops_st);
    [|apply loops_demo_ins; by right; right; left|done|apply loops_demo_st|done].
  apply Forall_replicate. apply loops_demo_ins. by left.
Defined.
