(* ===== verification/DataIns.v ===== *)
(** * Data-processing instructions

    The idioms the handlers of plc/executer/src/plc_dataprocessing.c share,
    and BOUT, which the clearing of a subroutine runs. *)
From stdpp Require Import base list numbers sets.
From S2P Require Import Prelude Element Machine ParseAddr ParseAddrFacts Device.

(** [if(!GET_POWER_FLOW(ltp_RunEnv)) return pdPASS;] *)
Definition powered (k : Mc Z) : Mc Z := pf ← GET_POWER_FLOW; if negb pf then mret pdPASS else k.
(** Operands of several elements; what an operand does not fill (a constant
    gives one value) stays indeterminate, and the list ends there. *)
Definition with_words (a off : Z) (cnt : nat) (k : list Z -> Mc Z) : Mc Z :=
  rl ← get_word a off cnt; if rl.1 =? pdPASS then k rl.2 else mret rl.1.
Definition with_dwords (a off : Z) (cnt : nat) (k : list Z -> Mc Z) : Mc Z :=
  rl ← get_dword a off cnt; if rl.1 =? pdPASS then k rl.2 else mret rl.1.
Definition with_chars (a off : Z) (cnt : nat) (k : list Z -> Mc Z) : Mc Z :=
  rl ← get_char a off cnt; if rl.1 =? pdPASS then k rl.2 else mret rl.1.
Definition with_float (a : Z) (k : Z -> Mc Z) : Mc Z :=
  rl ← get_float a 0 1; if rl.1 =? pdPASS then v ← of_option (head rl.2); k v else mret rl.1.
Definition save_words (a : Z) (vs : list Z) (off : Z) : Mc Z := rl ← save_word a vs off; mret rl.1.
Definition save_dwords (a : Z) (vs : list Z) (off : Z) : Mc Z := rl ← save_dword a vs off; mret rl.1.
Definition save_float1 (a v : Z) : Mc Z := rl ← save_float a [v] 0; mret rl.1.

(** BOUT: output of one bit of a word. The inner test of the power flow can
    only succeed. *)
Definition run_ci_bout_ins : Mc Z :=
  powered (
    pc ← get_PC;
    with_word (pc + 2) (fun s1 =>
    with_word (pc + 6) (fun w2 =>
      let s2 := s16 w2 in
      if (s2 <? 0) || (15 <? s2) then mret ERR_OPERANDS
      else
        pf' ← GET_POWER_FLOW;
        let s1' := u16 (if pf' : bool then Z.lor s1 (Z.shiftl 1 s2) else Z.land s1 (Z.lnot (Z.shiftl 1 s2))) in
        save_word1 (pc + 2) s1'))).

(** BOUT never switches its bit off: without power flow it does nothing
    at all, whatever the bit is. *)
Lemma bout_never_clears s : get_pf (mlv_InPF (env s)) = false -> run_ci_bout_ins s = Ok (pdPASS, s).
Proof.
  intros H. unfold run_ci_bout_ins, powered, GET_POWER_FLOW, gets. unfold mbind at 1, M_bind at 1. by rewrite H.
Qed.
Lemma bout_never_clears_witness : run_ci_bout_ins (st0 []) = Ok (pdPASS, st0 []).
Proof. by apply bout_never_clears. Defined.
