(* ===== verification/Verify.v ===== *)
(** * Check sums

    Models source/common/src/verify_func.c: the three table-driven cyclic
    redundancy checks, over a buffer given as the list of its bytes, and their
    bit-serial definitions. The length is a parameter of the functions, so a
    read behind the buffer is undefined ([None]). *)
From stdpp Require Import base list numbers sets.
From S2P Require Import Prelude.

(** ** The tables *)
Definition gsv_CcittCrcTbl : list Z := [
   0x0000; 0x1021; 0x2042; 0x3063; 0x4084; 0x50a5; 0x60c6; 0x70e7; 0x8108; 0x9129; 0xa14a; 0xb16b;
   0xc18c; 0xd1ad; 0xe1ce; 0xf1ef; 0x1231; 0x0210; 0x3273; 0x2252; 0x52b5; 0x4294; 0x72f7; 0x62d6;
   0x9339; 0x8318; 0xb37b; 0xa35a; 0xd3bd; 0xc39c; 0xf3ff; 0xe3de; 0x2462; 0x3443; 0x0420; 0x1401;
   0x64e6; 0x74c7; 0x44a4; 0x5485; 0xa56a; 0xb54b; 0x8528; 0x9509; 0xe5ee; 0xf5cf; 0xc5ac; 0xd58d;
   0x3653; 0x2672; 0x1611; 0x0630; 0x76d7; 0x66f6; 0x5695; 0x46b4; 0xb75b; 0xa77a; 0x9719; 0x8738;
   0xf7df; 0xe7fe; 0xd79d; 0xc7bc; 0x48c4; 0x58e5; 0x6886; 0x78a7; 0x0840; 0x1861; 0x2802; 0x3823;
   0xc9cc; 0xd9ed; 0xe98e; 0xf9af; 0x8948; 0x9969; 0xa90a; 0xb92b; 0x5af5; 0x4ad4; 0x7ab7; 0x6a96;
   0x1a71; 0x0a50; 0x3a33; 0x2a12; 0xdbfd; 0xcbdc; 0xfbbf; 0xeb9e; 0x9b79; 0x8b58; 0xbb3b; 0xab1a;
   0x6ca6; 0x7c87; 0x4ce4; 0x5cc5; 0x2c22; 0x3c03; 0x0c60; 0x1c41; 0xedae; 0xfd8f; 0xcdec; 0xddcd;
   0xad2a; 0xbd0b; 0x8d68; 0x9d49; 0x7e97; 0x6eb6; 0x5ed5; 0x4ef4; 0x3e13; 0x2e32; 0x1e51; 0x0e70;
   0xff9f; 0xefbe; 0xdfdd; 0xcffc; 0xbf1b; 0xaf3a; 0x9f59; 0x8f78; 0x9188; 0x81a9; 0xb1ca; 0xa1eb;
   0xd10c; 0xc12d; 0xf14e; 0xe16f; 0x1080; 0x00a1; 0x30c2; 0x20e3; 0x5004; 0x4025; 0x7046; 0x6067;
   0x83b9; 0x9398; 0xa3fb; 0xb3da; 0xc33d; 0xd31c; 0xe37f; 0xf35e; 0x02b1; 0x1290; 0x22f3; 0x32d2;
   0x4235; 0x5214; 0x6277; 0x7256; 0xb5ea; 0xa5cb; 0x95a8; 0x8589; 0xf56e; 0xe54f; 0xd52c; 0xc50d;
   0x34e2; 0x24c3; 0x14a0; 0x0481; 0x7466; 0x6447; 0x5424; 0x4405; 0xa7db; 0xb7fa; 0x8799; 0x97b8;
   0xe75f; 0xf77e; 0xc71d; 0xd73c; 0x26d3; 0x36f2; 0x0691; 0x16b0; 0x6657; 0x7676; 0x4615; 0x5634;
   0xd94c; 0xc96d; 0xf90e; 0xe92f; 0x99c8; 0x89e9; 0xb98a; 0xa9ab; 0x5844; 0x4865; 0x7806; 0x6827;
   0x18c0; 0x08e1; 0x3882; 0x28a3; 0xcb7d; 0xdb5c; 0xeb3f; 0xfb1e; 0x8bf9; 0x9bd8; 0xabbb; 0xbb9a;
   0x4a75; 0x5a54; 0x6a37; 0x7a16; 0x0af1; 0x1ad0; 0x2ab3; 0x3a92; 0xfd2e; 0xed0f; 0xdd6c; 0xcd4d;
   0xbdaa; 0xad8b; 0x9de8; 0x8dc9; 0x7c26; 0x6c07; 0x5c64; 0x4c45; 0x3ca2; 0x2c83; 0x1ce0; 0x0cc1;
   0xef1f; 0xff3e; 0xcf5d; 0xdf7c; 0xaf9b; 0xbfba; 0x8fd9; 0x9ff8; 0x6e17; 0x7e36; 0x4e55; 0x5e74;
   0x2e93; 0x3eb2; 0x0ed1; 0x1ef0].
Definition llv_Crc32Table : list Z := [
   0x00000000; 0x77073096; 0xEE0E612C; 0x990951BA; 0x076DC419; 0x706AF48F; 0xE963A535; 0x9E6495A3;
   0x0EDB8832; 0x79DCB8A4; 0xE0D5E91E; 0x97D2D988; 0x09B64C2B; 0x7EB17CBD; 0xE7B82D07; 0x90BF1D91;
   0x1DB71064; 0x6AB020F2; 0xF3B97148; 0x84BE41DE; 0x1ADAD47D; 0x6DDDE4EB; 0xF4D4B551; 0x83D385C7;
   0x136C9856; 0x646BA8C0; 0xFD62F97A; 0x8A65C9EC; 0x14015C4F; 0x63066CD9; 0xFA0F3D63; 0x8D080DF5;
   0x3B6E20C8; 0x4C69105E; 0xD56041E4; 0xA2677172; 0x3C03E4D1; 0x4B04D447; 0xD20D85FD; 0xA50AB56B;
   0x35B5A8FA; 0x42B2986C; 0xDBBBC9D6; 0xACBCF940; 0x32D86CE3; 0x45DF5C75; 0xDCD60DCF; 0xABD13D59;
   0x26D930AC; 0x51DE003A; 0xC8D75180; 0xBFD06116; 0x21B4F4B5; 0x56B3C423; 0xCFBA9599; 0xB8BDA50F;
   0x2802B89E; 0x5F058808; 0xC60CD9B2; 0xB10BE924; 0x2F6F7C87; 0x58684C11; 0xC1611DAB; 0xB6662D3D;
   0x76DC4190; 0x01DB7106; 0x98D220BC; 0xEFD5102A; 0x71B18589; 0x06B6B51F; 0x9FBFE4A5; 0xE8B8D433;
   0x7807C9A2; 0x0F00F934; 0x9609A88E; 0xE10E9818; 0x7F6A0DBB; 0x086D3D2D; 0x91646C97; 0xE6635C01;
   0x6B6B51F4; 0x1C6C6162; 0x856530D8; 0xF262004E; 0x6C0695ED; 0x1B01A57B; 0x8208F4C1; 0xF50FC457;
   0x65B0D9C6; 0x12B7E950; 0x8BBEB8EA; 0xFCB9887C; 0x62DD1DDF; 0x15DA2D49; 0x8CD37CF3; 0xFBD44C65;
   0x4DB26158; 0x3AB551CE; 0xA3BC0074; 0xD4BB30E2; 0x4ADFA541; 0x3DD895D7; 0xA4D1C46D; 0xD3D6F4FB;
   0x4369E96A; 0x346ED9FC; 0xAD678846; 0xDA60B8D0; 0x44042D73; 0x33031DE5; 0xAA0A4C5F; 0xDD0D7CC9;
   0x5005713C; 0x270241AA; 0xBE0B1010; 0xC90C2086; 0x5768B525; 0x206F85B3; 0xB966D409; 0xCE61E49F;
   0x5EDEF90E; 0x29D9C998; 0xB0D09822; 0xC7D7A8B4; 0x59B33D17; 0x2EB40D81; 0xB7BD5C3B; 0xC0BA6CAD;
   0xEDB88320; 0x9ABFB3B6; 0x03B6E20C; 0x74B1D29A; 0xEAD54739; 0x9DD277AF; 0x04DB2615; 0x73DC1683;
   0xE3630B12; 0x94643B84; 0x0D6D6A3E; 0x7A6A5AA8; 0xE40ECF0B; 0x9309FF9D; 0x0A00AE27; 0x7D079EB1;
   0xF00F9344; 0x8708A3D2; 0x1E01F268; 0x6906C2FE; 0xF762575D; 0x806567CB; 0x196C3671; 0x6E6B06E7;
   0xFED41B76; 0x89D32BE0; 0x10DA7A5A; 0x67DD4ACC; 0xF9B9DF6F; 0x8EBEEFF9; 0x17B7BE43; 0x60B08ED5;
   0xD6D6A3E8; 0xA1D1937E; 0x38D8C2C4; 0x4FDFF252; 0xD1BB67F1; 0xA6BC5767; 0x3FB506DD; 0x48B2364B;
   0xD80D2BDA; 0xAF0A1B4C; 0x36034AF6; 0x41047A60; 0xDF60EFC3; 0xA867DF55; 0x316E8EEF; 0x4669BE79;
   0xCB61B38C; 0xBC66831A; 0x256FD2A0; 0x5268E236; 0xCC0C7795; 0xBB0B4703; 0x220216B9; 0x5505262F;
   0xC5BA3BBE; 0xB2BD0B28; 0x2BB45A92; 0x5CB36A04; 0xC2D7FFA7; 0xB5D0CF31; 0x2CD99E8B; 0x5BDEAE1D;
   0x9B64C2B0; 0xEC63F226; 0x756AA39C; 0x026D930A; 0x9C0906A9; 0xEB0E363F; 0x72076785; 0x05005713;
   0x95BF4A82; 0xE2B87A14; 0x7BB12BAE; 0x0CB61B38; 0x92D28E9B; 0xE5D5BE0D; 0x7CDCEFB7; 0x0BDBDF21;
   0x86D3D2D4; 0xF1D4E242; 0x68DDB3F8; 0x1FDA836E; 0x81BE16CD; 0xF6B9265B; 0x6FB077E1; 0x18B74777;
   0x88085AE6; 0xFF0F6A70; 0x66063BCA; 0x11010B5C; 0x8F659EFF; 0xF862AE69; 0x616BFFD3; 0x166CCF45;
   0xA00AE278; 0xD70DD2EE; 0x4E048354; 0x3903B3C2; 0xA7672661; 0xD06016F7; 0x4969474D; 0x3E6E77DB;
   0xAED16A4A; 0xD9D65ADC; 0x40DF0B66; 0x37D83BF0; 0xA9BCAE53; 0xDEBB9EC5; 0x47B2CF7F; 0x30B5FFE9;
   0xBDBDF21C; 0xCABAC28A; 0x53B39330; 0x24B4A3A6; 0xBAD03605; 0xCDD70693; 0x54DE5729; 0x23D967BF;
   0xB3667A2E; 0xC4614AB8; 0x5D681B02; 0x2A6F2B94; 0xB40BBE37; 0xC30C8EA1; 0x5A05DF1B; 0x2D02EF8D].
Definition gcv_CRCHi : list Z := [
   0x00; 0xC1; 0x81; 0x40; 0x01; 0xC0; 0x80; 0x41; 0x01; 0xC0; 0x80; 0x41; 0x00; 0xC1; 0x81; 0x40;
   0x01; 0xC0; 0x80; 0x41; 0x00; 0xC1; 0x81; 0x40; 0x00; 0xC1; 0x81; 0x40; 0x01; 0xC0; 0x80; 0x41;
   0x01; 0xC0; 0x80; 0x41; 0x00; 0xC1; 0x81; 0x40; 0x00; 0xC1; 0x81; 0x40; 0x01; 0xC0; 0x80; 0x41;
   0x00; 0xC1; 0x81; 0x40; 0x01; 0xC0; 0x80; 0x41; 0x01; 0xC0; 0x80; 0x41; 0x00; 0xC1; 0x81; 0x40;
   0x01; 0xC0; 0x80; 0x41; 0x00; 0xC1; 0x81; 0x40; 0x00; 0xC1; 0x81; 0x40; 0x01; 0xC0; 0x80; 0x41;
   0x00; 0xC1; 0x81; 0x40; 0x01; 0xC0; 0x80; 0x41; 0x01; 0xC0; 0x80; 0x41; 0x00; 0xC1; 0x81; 0x40;
   0x00; 0xC1; 0x81; 0x40; 0x01; 0xC0; 0x80; 0x41; 0x01; 0xC0; 0x80; 0x41; 0x00; 0xC1; 0x81; 0x40;
   0x01; 0xC0; 0x80; 0x41; 0x00; 0xC1; 0x81; 0x40; 0x00; 0xC1; 0x81; 0x40; 0x01; 0xC0; 0x80; 0x41;
   0x01; 0xC0; 0x80; 0x41; 0x00; 0xC1; 0x81; 0x40; 0x00; 0xC1; 0x81; 0x40; 0x01; 0xC0; 0x80; 0x41;
   0x00; 0xC1; 0x81; 0x40; 0x01; 0xC0; 0x80; 0x41; 0x01; 0xC0; 0x80; 0x41; 0x00; 0xC1; 0x81; 0x40;
   0x00; 0xC1; 0x81; 0x40; 0x01; 0xC0; 0x80; 0x41; 0x01; 0xC0; 0x80; 0x41; 0x00; 0xC1; 0x81; 0x40;
   0x01; 0xC0; 0x80; 0x41; 0x00; 0xC1; 0x81; 0x40; 0x00; 0xC1; 0x81; 0x40; 0x01; 0xC0; 0x80; 0x41;
   0x00; 0xC1; 0x81; 0x40; 0x01; 0xC0; 0x80; 0x41; 0x01; 0xC0; 0x80; 0x41; 0x00; 0xC1; 0x81; 0x40;
   0x01; 0xC0; 0x80; 0x41; 0x00; 0xC1; 0x81; 0x40; 0x00; 0xC1; 0x81; 0x40; 0x01; 0xC0; 0x80; 0x41;
   0x01; 0xC0; 0x80; 0x41; 0x00; 0xC1; 0x81; 0x40; 0x00; 0xC1; 0x81; 0x40; 0x01; 0xC0; 0x80; 0x41;
   0x00; 0xC1; 0x81; 0x40; 0x01; 0xC0; 0x80; 0x41; 0x01; 0xC0; 0x80; 0x41; 0x00; 0xC1; 0x81; 0x40].
Definition gcv_CRCLo : list Z := [
   0x00; 0xC0; 0xC1; 0x01; 0xC3; 0x03; 0x02; 0xC2; 0xC6; 0x06; 0x07; 0xC7; 0x05; 0xC5; 0xC4; 0x04;
   0xCC; 0x0C; 0x0D; 0xCD; 0x0F; 0xCF; 0xCE; 0x0E; 0x0A; 0xCA; 0xCB; 0x0B; 0xC9; 0x09; 0x08; 0xC8;
   0xD8; 0x18; 0x19; 0xD9; 0x1B; 0xDB; 0xDA; 0x1A; 0x1E; 0xDE; 0xDF; 0x1F; 0xDD; 0x1D; 0x1C; 0xDC;
   0x14; 0xD4; 0xD5; 0x15; 0xD7; 0x17; 0x16; 0xD6; 0xD2; 0x12; 0x13; 0xD3; 0x11; 0xD1; 0xD0; 0x10;
   0xF0; 0x30; 0x31; 0xF1; 0x33; 0xF3; 0xF2; 0x32; 0x36; 0xF6; 0xF7; 0x37; 0xF5; 0x35; 0x34; 0xF4;
   0x3C; 0xFC; 0xFD; 0x3D; 0xFF; 0x3F; 0x3E; 0xFE; 0xFA; 0x3A; 0x3B; 0xFB; 0x39; 0xF9; 0xF8; 0x38;
   0x28; 0xE8; 0xE9; 0x29; 0xEB; 0x2B; 0x2A; 0xEA; 0xEE; 0x2E; 0x2F; 0xEF; 0x2D; 0xED; 0xEC; 0x2C;
   0xE4; 0x24; 0x25; 0xE5; 0x27; 0xE7; 0xE6; 0x26; 0x22; 0xE2; 0xE3; 0x23; 0xE1; 0x21; 0x20; 0xE0;
   0xA0; 0x60; 0x61; 0xA1; 0x63; 0xA3; 0xA2; 0x62; 0x66; 0xA6; 0xA7; 0x67; 0xA5; 0x65; 0x64; 0xA4;
   0x6C; 0xAC; 0xAD; 0x6D; 0xAF; 0x6F; 0x6E; 0xAE; 0xAA; 0x6A; 0x6B; 0xAB; 0x69; 0xA9; 0xA8; 0x68;
   0x78; 0xB8; 0xB9; 0x79; 0xBB; 0x7B; 0x7A; 0xBA; 0xBE; 0x7E; 0x7F; 0xBF; 0x7D; 0xBD; 0xBC; 0x7C;
   0xB4; 0x74; 0x75; 0xB5; 0x77; 0xB7; 0xB6; 0x76; 0x72; 0xB2; 0xB3; 0x73; 0xB1; 0x71; 0x70; 0xB0;
   0x50; 0x90; 0x91; 0x51; 0x93; 0x53; 0x52; 0x92; 0x96; 0x56; 0x57; 0x97; 0x55; 0x95; 0x94; 0x54;
   0x9C; 0x5C; 0x5D; 0x9D; 0x5F; 0x9F; 0x9E; 0x5E; 0x5A; 0x9A; 0x9B; 0x5B; 0x99; 0x59; 0x58; 0x98;
   0x88; 0x48; 0x49; 0x89; 0x4B; 0x8B; 0x8A; 0x4A; 0x4E; 0x8E; 0x8F; 0x4F; 0x8D; 0x4D; 0x4C; 0x8C;
   0x44; 0x84; 0x85; 0x45; 0x87; 0x47; 0x46; 0x86; 0x82; 0x42; 0x43; 0x83; 0x41; 0x81; 0x80; 0x40].

(** ** The functions *)
Section buffer.
Context (buff : list Z).
(** [while(len--) { c = step(c, *p++); }]. *)
Fixpoint over_bytes {A} (step : A -> Z -> option A) (n : nat) (p : Z) (c : A) : option A :=
  match n with
  | O => Some c
  | S n' => b ← zlookup buff p; c' ← step c b; over_bytes step n' (p + 1) c'
  end.
End buffer.
Definition ccitt_step (us_crc b : Z) : option Z :=
  let highDta := u8 (Z.shiftr us_crc 8) in
  t ← zlookup gsv_CcittCrcTbl (Z.lxor highDta b);
  Some (u16 (Z.lxor (u16 (Z.shiftl us_crc 8)) t)).
Definition calc_ccitt (ptr : list Z) (len : Z) : option Z := over_bytes ptr ccitt_step (Z.to_nat (u32 len)) 0 0.
Definition crc32_step (uCRCValue b : Z) : option Z :=
  t ← zlookup llv_Crc32Table (Z.land (Z.lxor uCRCValue b) 0xFF);
  Some (Z.lxor t (Z.shiftr uCRCValue 8)).
Definition calc_crc32 (pu8In : list Z) (len : Z) : option Z :=
  c ← over_bytes pu8In crc32_step (Z.to_nat (u32 len)) 0 0xFFFFFFFF; Some (Z.lxor c 0xFFFFFFFF).
Definition crc16_step (hl : Z * Z) (b : Z) : option (Z * Z) :=
  let '(lcv_CRCHigh, lcv_CRCLow) := hl in
  let liv_Index := Z.lxor lcv_CRCLow b in
  hi ← zlookup gcv_CRCHi liv_Index;
  lo ← zlookup gcv_CRCLo liv_Index;
  Some (lo, u8 (Z.lxor lcv_CRCHigh hi)).
Definition calc_crc16 (lcp_Buff : list Z) (luv_Len : Z) : option Z :=
  hl ← over_bytes lcp_Buff crc16_step (Z.to_nat (u16 luv_Len)) 0 (0xFF, 0xFF);
  Some (u16 (Z.lor (Z.shiftl hl.1 8) hl.2)).

Example crc16_check : calc_crc16 [49; 50; 51; 52; 53; 54; 55; 56; 57] 9 = Some 0x4B37.
Proof. vm_compute. reflexivity. Qed.
Example crc32_check : calc_crc32 [49; 50; 51; 52; 53; 54; 55; 56; 57] 9 = Some 0xCBF43926.
Proof. vm_compute. reflexivity. Qed.
Example ccitt_check : calc_ccitt [49; 50; 51; 52; 53; 54; 55; 56; 57] 9 = Some 0x31C3.
Proof. vm_compute. reflexivity. Qed.

(** ** Bit-serial definitions

    A check sum register takes in one bit at a time and is divided by the
    generator polynomial [p]: [rstep] for the reflected sums (least bit
    first), [mstep] for CCITT (highest bit first). *)
Definition rstep (p c : Z) : Z := Z.lxor (Z.shiftr c 1) (if Z.odd c then p else 0).
Definition mstep (p c : Z) : Z := Z.lxor (u16 (Z.shiftl c 1)) (if Z.testbit c 15 then p else 0).
Definition crc_reflected (p init : Z) (m : list Z) : Z :=
  foldl (fun c b => Nat.iter 8 (rstep p) (Z.lxor c b)) init m.
Definition crc_msb (p init : Z) (m : list Z) : Z :=
  foldl (fun c b => Nat.iter 8 (mstep p) (Z.lxor c (Z.shiftl b 8))) init m.
Definition crc16_poly := 0xA001.
Definition crc32_poly := 0xEDB88320.
Definition ccitt_poly := 0x1021.
Definition byte (b : Z) : Prop := 0 <= b < 256.

(** Both steps are linear. *)
Lemma lxor_swap a b c d : Z.lxor (Z.lxor a b) (Z.lxor c d) = Z.lxor (Z.lxor a c) (Z.lxor b d).
Proof. rewrite !Z.lxor_assoc. f_equal. rewrite <- !Z.lxor_assoc. f_equal. apply Z.lxor_comm. Qed.
Lemma lxor_if (b b' : bool) p :
  (if xorb b b' then p else 0) = Z.lxor (if b then p else 0) (if b' then p else 0).
Proof. destruct b, b'; simpl; by rewrite ?Z.lxor_nilpotent, ?Z.lxor_0_l, ?Z.lxor_0_r. Qed.
Lemma u16_lxor a b : u16 (Z.lxor a b) = Z.lxor (u16 a) (u16 b).
Proof.
  apply Z.bits_inj'. intros n Hn. rewrite testbit_u16, !Z.lxor_spec, !testbit_u16 by done.
  by destruct (n <? 16), (Z.testbit a n), (Z.testbit b n).
Qed.
Section linear.
Context (p : Z).
Lemma rstep_lxor a b : rstep p (Z.lxor a b) = Z.lxor (rstep p a) (rstep p b).
Proof.
  unfold rstep. rewrite Z.shiftr_lxor, <- !Z.bit0_odd, Z.lxor_spec, lxor_if. apply lxor_swap.
Qed.
Lemma mstep_lxor a b : mstep p (Z.lxor a b) = Z.lxor (mstep p a) (mstep p b).
Proof.
  unfold mstep. rewrite Z.shiftl_lxor, u16_lxor, Z.lxor_spec, lxor_if. apply lxor_swap.
Qed.
Lemma iter_lxor f n a b : (forall a b, f (Z.lxor a b) = Z.lxor (f a) (f b)) ->
  Nat.iter n f (Z.lxor a b) = Z.lxor (Nat.iter n f a) (Nat.iter n f b).
Proof. intros Hf. induction n as [|n IH]; [done|]. simpl. by rewrite IH, Hf. Qed.
(** Low zero bits pass through the reflected register, high ones through the other. *)
Lemma rstep_shiftl h n : 0 <= n -> rstep p (Z.shiftl h (n + 1)) = Z.shiftl h n.
Proof.
  intros Hn. unfold rstep. rewrite <- Z.bit0_odd, Z.shiftl_spec_low, Z.lxor_0_r by lia.
  rewrite Z.shiftr_shiftl_l by lia. f_equal. lia.
Qed.
Lemma iter_rstep_shiftl n h : Nat.iter n (rstep p) (Z.shiftl h (Z.of_nat n)) = h.
Proof.
  induction n as [|n IH]; [by rewrite Z.shiftl_0_r|].
  rewrite Nat.iter_succ_r, Nat2Z.inj_succ, <- Z.add_1_r, rstep_shiftl by lia. done.
Qed.
Lemma iter_mstep_small n l : (n <= 8)%nat -> byte l -> Nat.iter n (mstep p) l = Z.shiftl l (Z.of_nat n).
Proof.
  intros Hn Hl. unfold byte in Hl. induction n as [|n IH]; [by rewrite Z.shiftl_0_r|].
  simpl Nat.iter. rewrite IH by lia. unfold mstep. rewrite Z.shiftl_spec, Z.bits_above_log2; try lia.
  - rewrite Z.lxor_0_r, Z.shiftl_shiftl by lia. rewrite u16_id; [f_equal; lia|].
    rewrite Z.shiftl_mul_pow2 by lia.
    assert (2 ^ (Z.of_nat n + 1) <= 2 ^ 8) by (apply Z.pow_le_mono_r; lia). nia.
  - assert (Z.log2 l < 8); [|lia]. destruct (Z.eqb_spec l 0) as [->|]; [reflexivity|]. apply Z.log2_lt_pow2; lia.
Qed.
End linear.

Lemma split_byte c : c = Z.lxor (Z.land c 0xFF) (Z.shiftl (Z.shiftr c 8) 8).
Proof.
  apply Z.bits_inj'. intros n Hn. change 0xFF with (Z.ones 8). rewrite Z.lxor_spec, Z.land_spec, Z.shiftl_spec by done.
  destruct (Z.lt_ge_cases n 8).
  - rewrite Z.ones_spec_low, andb_true_r, (Z.testbit_neg_r _ (n - 8)), xorb_false_r by lia. done.
  - rewrite Z.ones_spec_high, andb_false_r, Z.shiftr_spec, xorb_false_l by lia. f_equal. lia.
Qed.
(** A byte through the reflected register is one table look-up. *)
Lemma rbyte_split p c :
  Nat.iter 8 (rstep p) c = Z.lxor (Nat.iter 8 (rstep p) (Z.land c 0xFF)) (Z.shiftr c 8).
Proof.
  rewrite (split_byte c) at 1. rewrite iter_lxor by apply rstep_lxor. f_equal.
  apply (iter_rstep_shiftl p 8).
Qed.
Lemma mbyte_split p h l : byte l ->
  Nat.iter 8 (mstep p) (Z.lxor l (Z.shiftl h 8)) = Z.lxor (Z.shiftl l 8) (Nat.iter 8 (mstep p) (Z.shiftl h 8)).
Proof.
  intros Hl. rewrite iter_lxor by apply mstep_lxor. f_equal. by apply (iter_mstep_small p 8).
Qed.

(** ** The tables hold the images of the bytes *)
Definition tabulate (f : Z -> Z) : list Z := f <$> seqZ 0 256.
Lemma tabulate_lookup f i : byte i -> zlookup (tabulate f) i = Some (f i).
Proof.
  unfold byte. intros H. apply zlookup_Some. split; [lia|]. unfold tabulate.
  rewrite list_lookup_fmap, lookup_seqZ_lt by lia. simpl. do 2 f_equal. lia.
Qed.
Definition rimage (p i : Z) : Z := Nat.iter 8 (rstep p) i.
Lemma crc32_table : llv_Crc32Table = tabulate (rimage crc32_poly).
Proof. vm_compute. reflexivity. Qed.
Lemma crc16_table_lo : gcv_CRCLo = tabulate (fun i => Z.shiftr (rimage crc16_poly i) 8).
Proof. vm_compute. reflexivity. Qed.
Lemma crc16_table_hi : gcv_CRCHi = tabulate (fun i => u8 (rimage crc16_poly i)).
Proof. vm_compute. reflexivity. Qed.
Lemma ccitt_table : gsv_CcittCrcTbl = tabulate (fun i => Nat.iter 8 (mstep ccitt_poly) (Z.shiftl i 8)).
Proof. vm_compute. reflexivity. Qed.

Lemma lxor_bound w a b : 0 < w -> 0 <= a < 2 ^ w -> 0 <= b < 2 ^ w -> 0 <= Z.lxor a b < 2 ^ w.
Proof.
  intros Hw Ha Hb. assert (0 <= Z.lxor a b) by (apply Z.lxor_nonneg; lia). split; [done|].
  assert (L : forall x, 0 <= x < 2 ^ w -> Z.log2 x < w).
  { intros x Hx. destruct (Z.eqb_spec x 0) as [->|]; [simpl; lia|]. apply Z.log2_lt_pow2; lia. }
  destruct (Z.eqb_spec (Z.lxor a b) 0) as [E|E]; [rewrite E; lia|].
  apply Z.log2_lt_pow2; [lia|]. eapply Z.le_lt_trans; [apply Z.log2_lxor; lia|].
  apply Z.max_lub_lt; by apply L.
Qed.
Lemma rstep_bound p w c : 0 < w -> 0 <= p < 2 ^ w -> 0 <= c < 2 ^ w -> 0 <= rstep p c < 2 ^ w.
Proof.
  intros Hw Hp Hc. unfold rstep. apply lxor_bound; [lia| |by destruct (Z.odd c); [|lia]].
  rewrite Z.shiftr_div_pow2 by lia. split; [apply Z.div_pos; lia|]. apply Z.div_lt_upper_bound; lia.
Qed.
Lemma iter_rstep_bound p w n c : 0 < w -> 0 <= p < 2 ^ w -> 0 <= c < 2 ^ w -> 0 <= Nat.iter n (rstep p) c < 2 ^ w.
Proof. intros Hw Hp Hc. induction n as [|n IH]; [done|]. simpl. by apply rstep_bound. Qed.
Lemma mstep_bound c : 0 <= mstep ccitt_poly c < 2 ^ 16.
Proof.
  unfold mstep. apply lxor_bound; [lia|apply u16_range|].
  unfold ccitt_poly. destruct (Z.testbit c 15); lia.
Qed.

(** The loop over a buffer follows a fold over its bytes. *)
Lemma over_bytes_app {A B} pre (step : A -> Z -> option A) (f : B -> Z -> B) m (R : A -> B -> Prop) :
  (forall c d b, R c d -> byte b -> exists c', step c b = Some c' /\ R c' (f d b)) ->
  Forall byte m -> forall c d, R c d ->
  exists c', over_bytes (pre ++ m) step (length m) (Z.of_nat (length pre)) c = Some c' /\ R c' (foldl f d m).
Proof.
  intros Hs Hm. revert pre. induction Hm as [|b m Hb Hm IH]; intros pre c d Hc; [by exists c|].
  cbn [over_bytes length foldl]. destruct (Hs c d b Hc Hb) as (c1 & E & Hf).
  assert (zlookup (pre ++ b :: m) (Z.of_nat (length pre)) = Some b) as ->.
  { apply zlookup_Some. split; [lia|]. rewrite Nat2Z.id. apply list_lookup_middle. done. }
  cbn [mbind option_bind]. rewrite E. cbn [mbind option_bind].
  specialize (IH (pre ++ [b]) c1 (f d b) Hf). rewrite <- app_assoc in IH. cbn [app] in IH.
  rewrite length_app, Nat2Z.inj_add in IH. exact IH.
Qed.
Lemma over_bytes_whole {A B} (step : A -> Z -> option A) (f : B -> Z -> B) m (R : A -> B -> Prop) c d :
  (forall c d b, R c d -> byte b -> exists c', step c b = Some c' /\ R c' (f d b)) -> Forall byte m -> R c d ->
  exists c', over_bytes m step (length m) 0 c = Some c' /\ R c' (foldl f d m).
Proof. intros Hs Hm Hc. exact (over_bytes_app [] step f m R Hs Hm c d Hc). Qed.

(** ** The functions compute the sums *)
Lemma land_byte c : byte (Z.land c 0xFF).
Proof. change 0xFF with (Z.ones 8). rewrite Z.land_ones by lia. apply Z.mod_pos_bound. lia. Qed.
Lemma byte_shiftr b : byte b -> Z.shiftr b 8 = 0.
Proof. unfold byte. intros H. rewrite Z.shiftr_div_pow2 by lia. apply Z.div_small. lia. Qed.
Lemma byte_land b : byte b -> Z.land b 0xFF = b.
Proof. unfold byte. intros H. change 0xFF with (Z.ones 8). rewrite Z.land_ones by lia. apply Z.mod_small. lia. Qed.
Lemma lxor_byte a b : byte a -> byte b -> byte (Z.lxor a b).
Proof. apply (lxor_bound 8). lia. Qed.
Lemma u16_shiftl8 c : u16 (Z.shiftl c 8) = Z.shiftl (Z.land c 0xFF) 8.
Proof.
  apply Z.bits_inj'. intros n Hn. change 0xFF with (Z.ones 8).
  rewrite testbit_u16, !Z.shiftl_spec, Z.land_spec by done.
  destruct (Z.lt_ge_cases n 8); [by rewrite !(Z.testbit_neg_r _ (n - 8)), andb_false_r by lia|].
  destruct (Z.ltb_spec n 16).
  - by rewrite Z.ones_spec_low, andb_true_r by lia.
  - by rewrite Z.ones_spec_high, andb_false_r by lia.
Qed.
Lemma crc32_step_run c b : 0 <= c < 2 ^ 32 -> byte b ->
  crc32_step c b = Some (Nat.iter 8 (rstep crc32_poly) (Z.lxor c b)).
Proof.
  intros Hc Hb. unfold crc32_step. rewrite crc32_table, tabulate_lookup by apply land_byte.
  cbn [mbind option_bind]. f_equal. rewrite rbyte_split. unfold rimage. f_equal.
  by rewrite Z.shiftr_lxor, (byte_shiftr b), Z.lxor_0_r.
Qed.
Definition halves (hl : Z * Z) (c : Z) : Prop := byte hl.1 /\ byte hl.2 /\ c = Z.lxor (Z.shiftl hl.1 8) hl.2.
Lemma halves_split c : 0 <= c < 2 ^ 16 -> halves (Z.shiftr c 8, Z.land c 0xFF) c.
Proof.
  intros Hc. split_and!; cbn [fst snd].
  - unfold byte. rewrite Z.shiftr_div_pow2 by lia. split; [apply Z.div_pos; lia|apply Z.div_lt_upper_bound; lia].
  - apply land_byte.
  - rewrite Z.lxor_comm. apply split_byte.
Qed.
Lemma halves_low h l : byte l -> Z.land (Z.lxor (Z.shiftl h 8) l) 0xFF = l.
Proof.
  intros Hl. rewrite <- (byte_land l) at 2 by done. apply Z.bits_inj'. intros n Hn. change 0xFF with (Z.ones 8).
  rewrite !Z.land_spec, Z.lxor_spec, Z.shiftl_spec by done. destruct (Z.lt_ge_cases n 8).
  - by rewrite (Z.testbit_neg_r _ (n - 8)) by lia.
  - by rewrite Z.ones_spec_high, !andb_false_r by lia.
Qed.
Lemma halves_high h l : byte l -> Z.shiftr (Z.lxor (Z.shiftl h 8) l) 8 = h.
Proof. intros Hl. by rewrite Z.shiftr_lxor, Z.shiftr_shiftl_l, (byte_shiftr l), Z.lxor_0_r, Z.shiftl_0_r by (done || lia). Qed.
Lemma crc16_step_run hl c b : halves hl c -> byte b ->
  exists hl', crc16_step hl b = Some hl' /\ halves hl' (Nat.iter 8 (rstep crc16_poly) (Z.lxor c b)).
Proof.
  destruct hl as [h l]. intros (Hh & Hl & ->) Hb. cbn [fst snd] in *. unfold crc16_step.
  pose proof (lxor_byte l b Hl Hb) as Hi.
  rewrite crc16_table_hi, crc16_table_lo, !tabulate_lookup by done. cbn [mbind option_bind].
  eexists. split; [done|].
  assert (Hr : 0 <= rimage crc16_poly (Z.lxor l b) < 2 ^ 16).
  { apply iter_rstep_bound; unfold crc16_poly, byte in *; lia. }
  pose proof (halves_split _ Hr) as (Bh & Bl & E). cbn [fst snd] in *.
  assert (L : u8 (Z.lxor h (u8 (rimage crc16_poly (Z.lxor l b)))) = Z.lxor h (Z.land (rimage crc16_poly (Z.lxor l b)) 0xFF)).
  { change 0xFF with (Z.ones 8) in *. rewrite Z.land_ones in * by lia. apply u8_id. by apply lxor_byte. }
  rewrite L. split_and!; cbn [fst snd]; [done|by apply lxor_byte|].
  rewrite Z.lxor_assoc, rbyte_split, halves_low, halves_high by done.
  fold (rimage crc16_poly (Z.lxor l b)). rewrite E at 1. rewrite !Z.lxor_assoc. f_equal. apply Z.lxor_comm.
Qed.
Lemma ccitt_step_run c b : 0 <= c < 2 ^ 16 -> byte b ->
  ccitt_step c b = Some (Nat.iter 8 (mstep ccitt_poly) (Z.lxor c (Z.shiftl b 8))).
Proof.
  intros Hc Hb. unfold ccitt_step. destruct (halves_split c Hc) as (Bh & Bl & E). cbn [fst snd] in *.
  rewrite (u8_id (Z.shiftr c 8)) by done. rewrite ccitt_table, tabulate_lookup by by apply lxor_byte.
  cbn [mbind option_bind]. f_equal. rewrite E at 3. rewrite (Z.lxor_comm (Z.shiftl _ _)), Z.lxor_assoc.
  rewrite <- Z.shiftl_lxor, mbyte_split by done. rewrite u16_shiftl8. apply u16_id.
  apply lxor_bound; [lia| |].
  - unfold byte in Bl. rewrite Z.shiftl_mul_pow2 by lia. lia.
  - cbn [Nat.iter nat_rect]. apply mstep_bound.
Qed.
Lemma halves_join hl c : halves hl c -> u16 (Z.lor (Z.shiftl hl.1 8) hl.2) = c.
Proof.
  destruct hl as [h l]. intros (Hh & Hl & ->). cbn [fst snd] in *.
  rewrite <- Z.lxor_lor.
  - apply u16_id. apply lxor_bound; [lia| |unfold byte in *; lia].
    unfold byte in *. rewrite Z.shiftl_mul_pow2 by lia. lia.
  - apply Z.bits_inj'. intros n Hn. rewrite Z.land_spec, Z.shiftl_spec, Z.bits_0 by done.
    destruct (Z.lt_ge_cases n 8); [by rewrite Z.testbit_neg_r by lia|].
    rewrite <- (byte_land l), Z.land_spec by done. change 0xFF with (Z.ones 8).
    by rewrite Z.ones_spec_high, !andb_false_r by lia.
Qed.
Lemma calc_crc16_run m : Forall byte m -> Z.of_nat (length m) < 2 ^ 16 ->
  calc_crc16 m (Z.of_nat (length m)) = Some (crc_reflected crc16_poly 0xFFFF m).
Proof.
  intros Hm Hl. unfold calc_crc16. rewrite u16_id, Nat2Z.id by lia.
  destruct (over_bytes_whole crc16_step (fun c b => Nat.iter 8 (rstep crc16_poly) (Z.lxor c b)) m halves
    (0xFF, 0xFF) 0xFFFF) as (hl & E & H).
  - intros hl c b Hc Hb. by apply crc16_step_run.
  - done.
  - by vm_compute.
  - rewrite E. cbn [mbind option_bind]. f_equal. by apply halves_join.
Qed.
Definition settled (w c d : Z) : Prop := c = d /\ 0 <= d < 2 ^ w.

(** C10: the table-driven check sums are the cyclic redundancy checks they stand
    for: on every buffer of bytes whose length fits the length parameter they
    read nothing outside it and return the bit-serial sum, with polynomial
    0xA001 (MODBUS), 0xEDB88320 (inverted, as in IEEE 802.3) and 0x1021
    (XMODEM); in particular every entry of the tables is right. *)
Theorem checksums_are_crc m : Forall byte m ->
  (Z.of_nat (length m) < 2 ^ 16 ->
    calc_crc16 m (Z.of_nat (length m)) = Some (crc_reflected crc16_poly 0xFFFF m)) /\
  (Z.of_nat (length m) < 2 ^ 32 ->
    calc_crc32 m (Z.of_nat (length m)) = Some (Z.lxor (crc_reflected crc32_poly 0xFFFFFFFF m) 0xFFFFFFFF) /\
    calc_ccitt m (Z.of_nat (length m)) = Some (crc_msb ccitt_poly 0 m)).
Proof.
  intros Hm. split; [by apply calc_crc16_run|]. intros Hl. split.
  - unfold calc_crc32. rewrite u32_id, Nat2Z.id by lia.
    destruct (over_bytes_whole crc32_step (fun c b => Nat.iter 8 (rstep crc32_poly) (Z.lxor c b)) m (settled 32)
      0xFFFFFFFF 0xFFFFFFFF) as (c & E & -> & _); [|done|by vm_compute|by rewrite E].
    intros c d b [-> Hd] Hb. eexists. split; [by apply crc32_step_run|]. split; [done|].
    apply iter_rstep_bound; [lia|by vm_compute|]. apply lxor_bound; unfold byte in *; lia.
  - unfold calc_ccitt. rewrite u32_id, Nat2Z.id by lia.
    destruct (over_bytes_whole ccitt_step (fun c b => Nat.iter 8 (mstep ccitt_poly) (Z.lxor c (Z.shiftl b 8))) m
      (settled 16) 0 0) as (c & E & -> & _); [|done|by vm_compute|by rewrite E].
    intros c d b [-> Hd] Hb. eexists. split; [by apply ccitt_step_run|]. split; [done|].
    cbn [Nat.iter nat_rect]. apply mstep_bound.
Qed.
Lemma checksums_are_crc_witness :
  calc_crc16 [1; 3; 0; 0; 0; 2] 6 = Some (crc_reflected crc16_poly 0xFFFF [1; 3; 0; 0; 0; 2]).
Proof.
  assert (H : Forall byte [1; 3; 0; 0; 0; 2]) by (repeat constructor; vm_compute; (reflexivity || discriminate)).
  destruct (checksums_are_crc _ H) as [H16 _]. apply H16. vm_compute. reflexivity.
Defined.

(** ** Error detection *)
(** The bits of a message in the order they enter the register. *)
Definition byte_bits (b : Z) : list bool := (fun i => Z.testbit b i) <$> seqZ 0 8.
Definition message_bits (m : list Z) : list bool := m ≫= byte_bits.
Definition shift_in (p c : Z) (x : bool) : Z := rstep p (Z.lxor c (Z.b2z x)).
Fixpoint bits_value (l : list bool) : Z :=
  match l with [] => 0 | x :: l' => Z.lxor (Z.b2z x) (Z.shiftl (bits_value l') 1) end.
Section burst.
Context (p : Z).
Lemma rstep_shiftl1 v : rstep p (Z.shiftl v 1) = v.
Proof. apply (rstep_shiftl p v 0). lia. Qed.
(** A run of bits is one word added to the register. *)
Lemma shift_in_word l c : foldl (shift_in p) c l = Nat.iter (length l) (rstep p) (Z.lxor c (bits_value l)).
Proof.
  revert c. induction l as [|x l IH]; intros c; cbn [foldl bits_value length].
  - by rewrite Z.lxor_0_r.
  - rewrite IH, Nat.iter_succ_r. f_equal. unfold shift_in.
    by rewrite <- Z.lxor_assoc, (rstep_lxor p _ (Z.shiftl _ 1)), rstep_shiftl1.
Qed.
Lemma bits_value_bound l : 0 <= bits_value l < 2 ^ Z.of_nat (length l).
Proof.
  induction l as [|x l IH]; cbn [bits_value length]; [lia|].
  assert (0 < 2 ^ Z.of_nat (length l)) by (apply Z.pow_pos_nonneg; lia).
  rewrite Nat2Z.inj_succ, Z.pow_succ_r by lia.
  assert (E : Z.lxor (Z.b2z x) (Z.shiftl (bits_value l) 1) = Z.b2z x + 2 * bits_value l).
  { rewrite <- Z.add_nocarry_lxor, Z.shiftl_mul_pow2 by (first [lia|destruct x; apply Z.bits_inj'; intros n Hn;
      rewrite Z.land_spec, Z.shiftl_spec, Z.bits_0 by done; cbn [Z.b2z]; rewrite ?testbit_one, ?Z.bits_0; try done;
      destruct (Z.eqb_spec n 0) as [->|]; done]). lia. }
  rewrite E. destruct x; simpl; lia.
Qed.
Lemma bits_value_inj l l' : length l = length l' -> bits_value l = bits_value l' -> l = l'.
Proof.
  revert l'. induction l as [|x l IH]; intros [|x' l'] Hl E; try discriminate; [done|].
  cbn [bits_value] in E. assert (B : forall n, 0 <= n ->
    Z.testbit (Z.lxor (Z.b2z x) (Z.shiftl (bits_value l) 1)) n =
    Z.testbit (Z.lxor (Z.b2z x') (Z.shiftl (bits_value l') 1)) n) by by intros; rewrite E.
  f_equal.
  - specialize (B 0 ltac:(lia)). rewrite !Z.lxor_spec, !Z.shiftl_spec, !(Z.testbit_neg_r _ (0 - 1)) in B by lia.
    rewrite !xorb_false_r in B. by destruct x, x'.
  - apply IH; [simpl in Hl; lia|]. apply Z.bits_inj'. intros n Hn. specialize (B (n + 1) ltac:(lia)).
    rewrite !Z.lxor_spec, !Z.shiftl_spec in B by lia. replace (n + 1 - 1) with n in B by lia.
    assert (H : forall y, Z.testbit (Z.b2z y) (n + 1) = false).
    { intros [|]; [|apply Z.bits_0]. change (Z.b2z true) with 1. rewrite testbit_one. apply Z.eqb_neq. lia. }
    by rewrite !H, !xorb_false_l in B.
Qed.
Lemma byte_bits_value b : byte b -> bits_value (byte_bits b) = b.
Proof.
  unfold byte. intros H. assert (E : forallb (fun b => bits_value (byte_bits b) =? b) (seqZ 0 256) = true)
    by (vm_compute; reflexivity).
  apply Z.eqb_eq. rewrite forallb_forall in E. apply E. apply list_elem_of_In, elem_of_seqZ. lia.
Qed.
Lemma crc_bits m c : Forall byte m -> foldl (shift_in p) c (message_bits m) = crc_reflected p c m.
Proof.
  intros Hm. revert c. induction Hm as [|b m Hb Hm IH]; intros c; [done|].
  change (message_bits (b :: m)) with (byte_bits b ++ message_bits m).
  unfold crc_reflected in *. cbn [foldl]. by rewrite foldl_app, IH, shift_in_word, byte_bits_value.
Qed.
End burst.

Section injective.
Context (p w : Z) (Hw : 0 < w) (Hp : 0 <= p < 2 ^ w) (Htop : Z.testbit p (w - 1) = true).
Lemma rstep_top c : 0 <= c < 2 ^ w -> Z.testbit (rstep p c) (w - 1) = Z.odd c.
Proof.
  intros Hc. unfold rstep. rewrite Z.lxor_spec, Z.shiftr_spec by lia. replace (w - 1 + 1) with w by lia.
  assert (Z.testbit c w = false) as ->.
  { destruct (Z.eqb_spec c 0) as [->|]; [apply Z.bits_0|]. apply Z.bits_above_log2; [lia|]. apply Z.log2_lt_pow2; lia. }
  destruct (Z.odd c); [by rewrite Htop|by rewrite Z.bits_0].
Qed.
Lemma rstep_inj a b : 0 <= a < 2 ^ w -> 0 <= b < 2 ^ w -> rstep p a = rstep p b -> a = b.
Proof.
  intros Ha Hb E. assert (O : Z.odd a = Z.odd b) by by rewrite <- !rstep_top, E.
  unfold rstep in E. rewrite O in E. apply (f_equal (fun x => Z.lxor x (if Z.odd b then p else 0))) in E.
  rewrite !Z.lxor_assoc, !Z.lxor_nilpotent, !Z.lxor_0_r in E.
  rewrite (Z.div2_odd a), (Z.div2_odd b), !Z.div2_spec. by rewrite E, O.
Qed.
Lemma iter_rstep_inj n a b : 0 <= a < 2 ^ w -> 0 <= b < 2 ^ w ->
  Nat.iter n (rstep p) a = Nat.iter n (rstep p) b -> a = b.
Proof.
  intros Ha Hb. induction n as [|n IH]; [done|]. simpl. intros E. apply IH.
  by apply rstep_inj in E; [|apply iter_rstep_bound..].
Qed.
Lemma lxor_inj c a b : Z.lxor c a = Z.lxor c b -> a = b.
Proof.
  intros E. apply (f_equal (Z.lxor c)) in E. by rewrite <- !Z.lxor_assoc, Z.lxor_nilpotent, !Z.lxor_0_l in E.
Qed.
Lemma shift_in_bound l c : 0 <= c < 2 ^ w -> 0 <= foldl (shift_in p) c l < 2 ^ w.
Proof.
  revert c. induction l as [|x l IH]; intros c Hc; [done|]. cbn [foldl]. apply IH. apply rstep_bound; [done..|].
  apply lxor_bound; [done..|]. assert (2 ^ 1 <= 2 ^ w) by (apply Z.pow_le_mono_r; lia). destruct x; simpl; lia.
Qed.
Lemma shift_in_inj l a b : 0 <= a < 2 ^ w -> 0 <= b < 2 ^ w ->
  foldl (shift_in p) a l = foldl (shift_in p) b l -> a = b.
Proof.
  revert a b. induction l as [|x l IH]; intros a b Ha Hb E; [done|]. cbn [foldl] in E.
  pose proof (shift_in_bound [x] a Ha) as Ba. pose proof (shift_in_bound [x] b Hb) as Bb. cbn [foldl] in Ba, Bb.
  apply IH in E; [|done..]. unfold shift_in in E. apply rstep_inj in E.
  - apply (lxor_inj (Z.b2z x)). by rewrite !(Z.lxor_comm (Z.b2z x)).
  - apply lxor_bound; [done..|]. assert (2 ^ 1 <= 2 ^ w) by (apply Z.pow_le_mono_r; lia). destruct x; simpl; lia.
  - apply lxor_bound; [done..|]. assert (2 ^ 1 <= 2 ^ w) by (apply Z.pow_le_mono_r; lia). destruct x; simpl; lia.
Qed.
Lemma burst_changes_register pre x x' post c : 0 <= c < 2 ^ w -> length x = length x' ->
  Z.of_nat (length x) <= w ->
  foldl (shift_in p) c (pre ++ x ++ post) = foldl (shift_in p) c (pre ++ x' ++ post) -> x = x'.
Proof.
  intros Hc Hl Hx E. rewrite !foldl_app in E. pose proof (shift_in_bound pre c Hc) as Hd.
  set (d := foldl (shift_in p) c pre) in *. apply shift_in_inj in E; [|by apply shift_in_bound..].
  rewrite !shift_in_word, Hl in E. apply bits_value_inj; [done|]. apply (lxor_inj d).
  assert (B : forall y : list bool, Z.of_nat (length y) <= w -> 0 <= Z.lxor d (bits_value y) < 2 ^ w).
  { intros y Hy. apply lxor_bound; [done..|]. pose proof (bits_value_bound y).
    assert (2 ^ Z.of_nat (length y) <= 2 ^ w) by (apply Z.pow_le_mono_r; lia). lia. }
  by apply iter_rstep_inj in E; [|apply B; lia..].
Qed.
End injective.

(** C34: the MODBUS check sum detects every burst of errors of at most 16 bits:
    two buffers of one length whose bits, in transmission order, differ only
    within 16 consecutive positions have different sums. *)
Theorem crc16_detects_bursts m m' pre x x' post : Forall byte m -> Forall byte m' ->
  length m' = length m -> Z.of_nat (length m) < 2 ^ 16 ->
  message_bits m = pre ++ x ++ post -> message_bits m' = pre ++ x' ++ post ->
  length x = length x' -> (length x <= 16)%nat -> x <> x' ->
  calc_crc16 m (Z.of_nat (length m)) <> calc_crc16 m' (Z.of_nat (length m)).
Proof.
  intros Hm Hm' Hlen Hl E E' Hx Hb Hne Eq. apply Hne. rewrite calc_crc16_run in Eq by done.
  rewrite <- Hlen, calc_crc16_run in Eq by (done || lia). injection Eq as Eq.
  rewrite <- !crc_bits, E, E' in Eq by done.
  by apply (burst_changes_register crc16_poly 16) in Eq; [|(done || lia || by vm_compute)..].
Qed.
Lemma crc16_detects_bursts_witness :
  calc_crc16 [1; 3; 0xFF; 7] 4 <> calc_crc16 [1; 2; 0xFE; 7] 4.
Proof.
  apply (crc16_detects_bursts [1; 3; 0xFF; 7] [1; 2; 0xFE; 7] (byte_bits 1)
    (byte_bits 3 ++ byte_bits 0xFF) (byte_bits 2 ++ byte_bits 0xFE) (byte_bits 7)).
  1, 2: repeat constructor; vm_compute; (reflexivity || discriminate).
  all: try (vm_compute; reflexivity).
  vm_compute. discriminate.
Defined.
