(* ===== verification/Float32.v ===== *)
(** * Single-precision floats

    A [float] of the program is its 32-bit image; the operations are the IEEE
    754 binary32 ones (round to nearest even, with subnormals) of the Standard
    Library's executable specification. All NaN results are one quiet NaN. *)
From stdpp Require Import base list numbers sets.
From Stdlib Require Import Floats.SpecFloat.
From S2P Require Import Prelude.

Definition prec := 24.
Definition emax := 128.
Definition f32_decode (w : Z) : spec_float :=
  let s := Z.testbit w 31 in
  let e := Z.land (Z.shiftr w 23) 0xFF in
  let m := Z.land w 0x7FFFFF in
  if e =? 0xFF then if m =? 0 then S754_infinity s else S754_nan
  else match (if e =? 0 then m else m + 0x800000) with
       | Zpos p => S754_finite s p (if e =? 0 then -149 else e - 150)
       | _ => S754_zero s
       end.
Definition f32_sign (s : bool) : Z := if s then 0x80000000 else 0.
Definition f32_encode (x : spec_float) : Z :=
  match x with
  | S754_zero s => f32_sign s
  | S754_infinity s => f32_sign s + 0x7F800000
  | S754_nan => 0x7FC00000
  | S754_finite s m e =>
      f32_sign s + (if Zpos m <? 0x800000 then Zpos m else Z.shiftl (e + 150) 23 + (Zpos m - 0x800000))
  end.
Definition f32_op (f : spec_float -> spec_float -> spec_float) (a b : Z) : Z :=
  f32_encode (f (f32_decode a) (f32_decode b)).
Definition f32_add := f32_op (SFadd prec emax).
Definition f32_sub := f32_op (SFsub prec emax).
Definition f32_mul := f32_op (SFmul prec emax).
Definition f32_div := f32_op (SFdiv prec emax).
Definition f32_sqrt (a : Z) : Z := f32_encode (SFsqrt prec emax (f32_decode a)).
Definition f32_compare (a b : Z) : option comparison := SFcompare (f32_decode a) (f32_decode b).
Definition f32_of_int (z : Z) : Z := f32_encode (binary_normalize prec emax z 0 false).
(** Truncation towards zero. *)
Definition sf_trunc (x : spec_float) : option Z :=
  match x with
  | S754_zero _ => Some 0
  | S754_finite s m e =>
      let v := if 0 <=? e then Z.shiftl (Zpos m) e else Z.shiftr (Zpos m) (- e) in Some (if s then - v else v)
  | _ => None
  end.
(** The conversion to [int] is undefined outside its range. *)
Definition f32_to_int (a : Z) : option Z :=
  v ← sf_trunc (f32_decode a); if (- 2 ^ 31 <=? v) && (v <? 2 ^ 31) then Some v else None.

Example f32_examples :
  (f32_add 0x3F800000 0x40000000, f32_div 0x3F800000 0x40400000, f32_to_int 0xC0200000, f32_of_int 16777217)
  = (0x40400000, 0x3EAAAAAB, Some (-2), 0x4B800000).
Proof. vm_compute. reflexivity. Qed.

(** The image of a decoded word that is no NaN is the word. *)
Lemma f32_encode_decode w : 0 <= w < 2 ^ 32 -> f32_decode w <> S754_nan -> f32_encode (f32_decode w) = w.
Proof.
  intros Hw. unfold f32_decode.
  set (m := Z.land w 0x7FFFFF). set (e := Z.land (Z.shiftr w 23) 0xFF). set (s := Z.testbit w 31).
  assert (Hm : 0 <= m < 2 ^ 23) by (unfold m; change 0x7FFFFF with (Z.ones 23); rewrite Z.land_ones by lia;
    apply Z.mod_pos_bound; lia).
  assert (He : 0 <= e < 2 ^ 8) by (unfold e; change 0xFF with (Z.ones 8); rewrite Z.land_ones by lia;
    apply Z.mod_pos_bound; lia).
  assert (E : w = f32_sign s + Z.shiftl e 23 + m).
  { unfold m, e, s. change 0x7FFFFF with (Z.ones 23). change 0xFF with (Z.ones 8).
    rewrite !Z.land_ones, Z.shiftl_mul_pow2, Z.shiftr_div_pow2 by lia.
    assert (D : f32_sign (Z.testbit w 31) = w / 2 ^ 31 * 2 ^ 31).
    { rewrite Z.testbit_eqb by lia. pose proof (Z.div_pos w (2 ^ 31)). pose proof (Z.div_lt_upper_bound w (2 ^ 31) 2).
      destruct (Z.eqb_spec ((w / 2 ^ 31) mod 2) 1) as [A|A]; unfold f32_sign.
      - rewrite Z.mod_small in A by lia. rewrite A. reflexivity.
      - rewrite Z.mod_small in A by lia. assert (w / 2 ^ 31 = 0) as -> by lia. reflexivity. }
    rewrite D. change (2 ^ 31) with (2 ^ 23 * 2 ^ 8). rewrite <- Z.div_div by lia.
    pose proof (Z.div_mod w (2 ^ 23)). pose proof (Z.div_mod (w / 2 ^ 23) (2 ^ 8)). lia. }
  rewrite Z.shiftl_mul_pow2 in E by lia.
  destruct (Z.eqb_spec e 0xFF) as [He'|He'].
  - destruct (Z.eqb_spec m 0) as [Hm'|Hm']; [intros _|done]. cbn [f32_encode]. lia.
  - intros _. destruct (Z.eqb_spec e 0) as [H0|H0].
    + destruct m as [|p|p] eqn:Em; [cbn [f32_encode]; lia| |lia]. cbn [f32_encode].
      destruct (Z.ltb_spec (Zpos p) 0x800000); lia.
    + destruct (m + 0x800000) as [|p|p] eqn:Em; [lia| |lia]. cbn [f32_encode]. rewrite <- Em.
      destruct (Z.ltb_spec (m + 0x800000) 0x800000); [lia|]. rewrite Z.shiftl_mul_pow2 by lia. lia.
Qed.
