(* ===== verification/Call.v ===== *)
(** * Subroutine calls

    Models the CALL instruction of plc/executer/src/plc_flowctrlins.c: its
    length and identity, the passing of IN, IN-OUT and OUT parameters through
    the local elements of the called layer, and the clearing of a subroutine
    that is no longer called. The local [V] words of layer [l] are the
    [V_RANG] cells from [V_RANG * l]. *)
From stdpp Require Import base list numbers sets.
From S2P Require Import Prelude Element Machine ParseAddr ParseAddrFacts SimpleIns Device TimeIns DataIns FlowCtrl.

Definition PARA_BOOL := 0x01.
Definition PARA_WORD := 0x02.
Definition PARA_INT := 0x04.
Definition PARA_DWORD := 0x08.
Definition PARA_DINT := 0x10.
Definition PARA_REAL := 0x20.
Definition CI_SBR := 0xF001.
Definition CI_OUT_LM := 0xF009.
Definition CI_TON := 0xF014.
Definition CI_TOF := 0xF015.
Definition CI_TONR := 0xF016.
Definition CI_CALL := 0xF021.
Definition CI_BOUT := 0xF0F2.

Definition mod_call (f : plc_call_ins_info_st -> plc_call_ins_info_st) : Mc unit :=
  modify (fun s => with_flow (with_call_info (f (call_info (flow s))) (flow s)) s).
Definition set_nested (v : Z) : Mc unit := mod_call (with_SbrNestedNum (u32 v)).
Definition with_IsExec l c := {| msv_SbrNestedNum := msv_SbrNestedNum c; msv_UseNum := msv_UseNum c;
  mlv_UCodeAddr := mlv_UCodeAddr c; mcv_IsExec := l; mcp_RetPc := mcp_RetPc c; mcp_SbrPc := mcp_SbrPc c |}.
Definition with_RetPc l c := {| msv_SbrNestedNum := msv_SbrNestedNum c; msv_UseNum := msv_UseNum c;
  mlv_UCodeAddr := mlv_UCodeAddr c; mcv_IsExec := mcv_IsExec c; mcp_RetPc := l; mcp_SbrPc := mcp_SbrPc c |}.
Definition call_info_get {A} (f : plc_call_ins_info_st -> A) : Mc A := gets (fun s => f (call_info (flow s))).
Definition get_IsExec (i : Z) : Mc Z := l ← call_info_get mcv_IsExec; of_option (zlookup l i).
Definition set_IsExec (i v : Z) : Mc unit :=
  l ← call_info_get mcv_IsExec; l' ← of_option (zupdate l i v); mod_call (with_IsExec l').
Definition set_RetPc (i v : Z) : Mc unit :=
  l ← call_info_get mcp_RetPc; l' ← of_option (zupdate l i v); mod_call (with_RetPc l').

Definition plc_call_instruction_length (p : Z) : Mc Z :=
  a ← GET_PU16_DATA (p + 4); b ← GET_PU16_DATA (p + 6); c ← GET_PU16_DATA (p + 8);
  mret (u16 (10 + a + b + c)).
Fixpoint call_id_search (left : nat) (i ucode : Z) : Mc (Z * option Z) :=
  match left with
  | O => mret (ERR_NO_DEFINE_SBR_INTR, None)
  | S l =>
    addrs ← call_info_get mlv_UCodeAddr; a ← of_option (zlookup addrs i);
    if a =? ucode then mret (pdPASS, Some i) else call_id_search l (i + 1) ucode
  end.
Definition plc_get_call_ins_id (ucode : Z) : Mc (Z * option Z) :=
  n ← call_info_get msv_UseNum; call_id_search (Z.to_nat n) 0 ucode.

(** ** Parameters *)
(** The address of local word [w] of the called layer, read and written as one
    cell or as a 32-bit object (low half first). *)
Definition v_addr (w : Z) : Mc Z := d ← get_nested; mret (V_RANG * (d + 1) + w).
Definition put_v (w : Z) (o : option Z) : Mc unit :=
  match o with Some v => i ← v_addr w; wr V_ELEMENT i v | None => mret tt end.
Definition put_v2 (w : Z) (o : option Z) : Mc unit :=
  match o with Some v => i ← v_addr w; wr_pair V_ELEMENT i v | None => mret tt end.
Definition callee_lm (i v : Z) : Mc unit := d ← get_nested; plc_set_lm_element_value (d + 1) i v.

Record para_st := { pa_ptr : Z; pa_cnt : Z; pa_bit : Z; pa_word : Z }.
Definition para_next (p : para_st) (len bits words : Z) : para_st :=
  {| pa_ptr := pa_ptr p + len; pa_cnt := u16 (pa_cnt p + len);
     pa_bit := u8 (pa_bit p + bits); pa_word := u8 (pa_word p + words) |}.
(** One IN or IN-OUT parameter. The bit is stored before the code of
    [get_char] is looked at; a value it did not deliver is indeterminate. *)
Definition in_parameter (p : para_st) : Mc (Z * para_st) :=
  ty ← GET_PU16_DATA (pa_ptr p);
  let a := pa_ptr p + 2 in
  if ty =? PARA_BOOL then
    rv ← get_char1 a; v ← of_option rv.2; callee_lm (pa_bit p) v;; mret (rv.1, para_next p 6 1 0)
  else if (ty =? PARA_WORD) || (ty =? PARA_INT) then
    rv ← get_word1 a; put_v (pa_word p) rv.2;; mret (rv.1, para_next p 6 0 1)
  else if (ty =? PARA_DWORD) || (ty =? PARA_DINT) then
    rv ← get_dword1 a; put_v2 (pa_word p) rv.2;; mret (rv.1, para_next p 8 0 2)
  else if ty =? PARA_REAL then
    rl ← get_float a 0 1; put_v2 (pa_word p) (head rl.2);; mret (rl.1, para_next p 8 0 2)
  else mret (ERR_OPERANDS, p).
(** The writers that shift their source out leave the rest in the local word. *)
Definition out_parameter (p : para_st) : Mc (Z * para_st) :=
  ty ← GET_PU16_DATA (pa_ptr p);
  let a := pa_ptr p + 2 in
  if ty =? PARA_BOOL then
    d ← get_nested; v ← plc_get_lm_element_value (d + 1) (pa_bit p);
    r ← save_char1 a v; mret (r, para_next p 6 1 0)
  else if (ty =? PARA_WORD) || (ty =? PARA_INT) then
    i ← v_addr (pa_word p); v ← rd V_ELEMENT i;
    rl ← save_word a [v] 0; put_v (pa_word p) (head rl.2);; mret (rl.1, para_next p 6 0 1)
  else if (ty =? PARA_DWORD) || (ty =? PARA_DINT) then
    i ← v_addr (pa_word p); v ← rd_pair V_ELEMENT i;
    rl ← save_dword a [v] 0; put_v2 (pa_word p) (head rl.2);; mret (rl.1, para_next p 8 0 2)
  else if ty =? PARA_REAL then
    i ← v_addr (pa_word p); v ← rd_pair V_ELEMENT i;
    rl ← save_float a [v] 0; mret (rl.1, para_next p 8 0 2)
  else mret (ERR_OPERANDS, p).

Definition para_loop (fuel : nat) (one : para_st -> Mc (Z * para_st)) (limit incnt : Z) (p : para_st) (out : Z * Z)
    : Mc (Z * (Z * Z)) :=
  loop fuel (fun po : para_st * (Z * Z) =>
    if pa_cnt po.1 <? limit then
      rp ← one po.1;
      let out' := if pa_cnt rp.2 =? incnt then (pa_bit rp.2, pa_word rp.2) else po.2 in
      if rp.1 =? pdPASS then mret (inl (rp.2, out')) else mret (inr (rp.1, out'))
    else mret (inr (pdPASS, po.2))) (p, out).
(** Returns the code and, through the pointers of the caller, where the
    IN-OUT parameters start. *)
Definition plc_call_ins_in_parameter_parse (fuel : nat) (lcp_CallInsPtr : Z) : Mc (Z * (Z * Z)) :=
  for_up (Z.to_nat LM_RANG) 0 (fun i => callee_lm i 0;; put_v i (Some 0));;
  lsv_InCnt ← GET_PU16_DATA (lcp_CallInsPtr + 4);
  io ← GET_PU16_DATA (lcp_CallInsPtr + 6);
  para_loop fuel in_parameter (u16 (lsv_InCnt + io)) lsv_InCnt
    {| pa_ptr := lcp_CallInsPtr + 10; pa_cnt := 0; pa_bit := 0; pa_word := 0 |} (0, 0).
Definition plc_call_ins_out_parameter_parse (fuel : nat) (lcv_BitCnt lcv_WordCnt lcp_CallInsPtr : Z) : Mc Z :=
  lsv_InCnt ← GET_PU16_DATA (lcp_CallInsPtr + 4);
  io ← GET_PU16_DATA (lcp_CallInsPtr + 6); out ← GET_PU16_DATA (lcp_CallInsPtr + 8);
  r ← para_loop fuel out_parameter (u16 (io + out)) (-1)
    {| pa_ptr := lcp_CallInsPtr + 10 + lsv_InCnt; pa_cnt := 0; pa_bit := lcv_BitCnt; pa_word := lcv_WordCnt |} (0, 0);
  mret r.1.

(** ** Clearing a subroutine *)
(** [f] on every element of a list, until a code other than [pdPASS]. *)
Fixpoint each {A} (f : A -> Mc Z) (l : list A) : Mc Z :=
  match l with [] => mret pdPASS | x :: l' => r ← f x; if r =? pdPASS then each f l' else mret r end.
Definition edge_off (n : Z) : Mc unit := RST_EDGE_VALUE n;; RST_EDGE_INIT_FLAG n.
(** The edge number of a simple edge instruction stands behind its operand. *)
Definition clean_edge (lcp_Ins : Z) : Mc Z :=
  op ← GET_PU8_DATA (lcp_Ins + 1);
  (match si_decode op with
   | Some (SI_EU | SI_ED) => n ← GET_PU16_DATA (lcp_Ins + 2); edge_off n
   | Some (SI_LDP | SI_LDF | SI_ANDP | SI_ANDF | SI_ORP | SI_ORF | SI_PLP | SI_PLF) =>
       n ← GET_PU16_DATA (lcp_Ins + 4); edge_off n
   | _ => mret tt
   end);;
  mret pdPASS.
(** A handler run in an environment of its own with the power flow off;
    [mlv_OutPF] is not used by it. *)
Definition in_env (pf pc : Z) {A} (m : Mc A) : Mc A :=
  old ← gets env;
  modify (with_env {| mlv_InPF := pf; mlv_OutPF := 0; mcp_PC := pc |});;
  r ← m; modify (with_env old);; mret r.
Definition clean_call (clean : Z -> Mc Z) (lcp_Ins : Z) : Mc Z :=
  n ← GET_PU16_DATA (lcp_Ins + 2);
  rv ← plc_get_call_ins_id lcp_Ins;
  if rv.1 =? pdPASS then
    id ← of_option rv.2;
    d ← get_nested;
    if MAX_SBR_NESTED_LAYER <=? d then mret ERR_OVER_SBR_STACK
    else
      e ← get_IsExec id;
      if truthy e then
        set_IsExec id 0;;
        set_nested (d + 1);; r ← clean (Z.land n 0xFF); d' ← get_nested; set_nested (d' - 1);; mret r
      else mret pdPASS
  else mret rv.1.
Definition clean_complex (clean : Z -> Mc Z) (lcp_Ins : Z) : Mc Z :=
  op ← GET_PU16_DATA lcp_Ins;
  if op =? CI_TON then n ← GET_PU16_DATA (lcp_Ins + 4); plc_reset_one_timer n;; mret pdPASS
  else if op =? CI_TONR then n ← GET_PU16_DATA (lcp_Ins + 4); wr_t_status n (set_t_Enable 0);; mret pdPASS
  else if op =? CI_TOF then n ← GET_PU16_DATA (lcp_Ins + 4); plc_reset_one_timer n;; mret pdPASS
  else if op =? CI_OUT_LM then
    n ← GET_PU16_DATA (lcp_Ins + 4); d ← get_nested; plc_set_lm_element_value d n 0;; mret pdPASS
  else if op =? CI_BOUT then in_env 0 lcp_Ins run_ci_bout_ins;; mret pdPASS
  else if op =? CI_CALL then clean_call clean lcp_Ins
  else mret pdPASS.
(** Recursive through the CALLs of the subroutine; [fuel] bounds the depth. *)
Fixpoint plc_call_ins_clean_element (fuel : nat) (lsv_SbrId : Z) : Mc Z :=
  match fuel with
  | O => nofuel
  | S f =>
    if MAX_SBR_COUNT <? lsv_SbrId then mret ERR_OVER_SBR_STACK
    else
      lists ← gets (fun s => sbr_list (flow s));
      h ← of_option (zlookup lists lsv_SbrId);
      each clean_edge (mtv_SimpInsHead h);;
      each (clean_complex (plc_call_ins_clean_element f)) (mtv_CompInsHead h)
  end.

(** ** CALL *)
Section call.
Context (plc_run_user_program : Z -> Mc Z) (fuel : nat).
Definition run_ci_call_ins : Mc Z :=
  pc ← get_PC;
  rv ← plc_get_call_ins_id pc;
  if negb (rv.1 =? pdPASS) then mret rv.1
  else
    lsv_CallId ← of_option rv.2;
    lsv_CallInsLen ← plc_call_instruction_length pc;
    d ← get_nested;
    if MAX_SBR_NESTED_LAYER <=? d then add_PC lsv_CallInsLen;; mret ERR_OVER_SBR_STACK
    else
      n ← GET_PU16_DATA (pc + 2);
      let lsv_SbrId := Z.land n 0xFF in
      pf ← GET_POWER_FLOW;
      if pf : bool then
        set_IsExec lsv_CallId 1;;
        entries ← call_info_get mcp_SbrPc;
        entry ← of_option (zlookup entries lsv_SbrId);
        op ← GET_PU16_DATA entry;
        if negb (op =? CI_SBR) then add_PC lsv_CallInsLen;; mret ERR_NO_DEFINE_SBR_INTR
        else
          ro ← plc_call_ins_in_parameter_parse fuel pc;
          if negb (ro.1 =? pdPASS) then add_PC lsv_CallInsLen;; mret ro.1
          else
            set_RetPc d pc;;
            set_nested (d + 1);;
            r ← plc_run_user_program entry;
            if negb (r =? EXEC_FLAG_SRET) then mret r
            else
              d' ← get_nested;
              set_nested (d' - 1);;
              r' ← plc_call_ins_out_parameter_parse fuel ro.2.1 ro.2.2 pc;
              add_PC lsv_CallInsLen;;
              mret r'
      else
        e ← get_IsExec lsv_CallId;
        if truthy e then
          set_IsExec lsv_CallId 0;;
          add_PC lsv_CallInsLen;;
          r ← plc_call_ins_clean_element fuel lsv_SbrId;
          mret (if r =? pdPASS then pdPASS else ERR_NO_DEFINE_SBR_INTR)
        else add_PC lsv_CallInsLen;; mret pdPASS.
End call.

(** ** The deepest layer *)
(** What a CALL needs to find: its identity, its length, its subroutine. *)
Record call_site (pc id entry : Z) (s : plc_st) : Prop := {
  cs_pc : mcp_PC (env s) = pc;
  cs_id : plc_get_call_ins_id pc s = Ok ((pdPASS, Some id), s);
  cs_exec : 0 <= id < Z.of_nat (length (mcv_IsExec (call_info (flow s))));
  cs_len : exists n, plc_call_instruction_length pc s = Ok (n, s);
  cs_sbr : exists n, GET_PU16_DATA (pc + 2) s = Ok (n, s) /\ zlookup (mcp_SbrPc (call_info (flow s))) (Z.land n 0xFF) = Some entry;
  cs_entry : GET_PU16_DATA entry s = Ok (CI_SBR, s) }.
Lemma lm_layer_8 i v (s : plc_st) : wf_elem (elem s) -> plc_set_lm_element_value MAX_SBR_NESTED_LAYER i v s = Ub.
Proof.
  intros W. unfold plc_set_lm_element_value. change (LM_RANG / 16 * u8 MAX_SBR_NESTED_LAYER) with 32.
  assert (H : rd (S := plc_st) LM_ELEMENT (32 + Z.shiftr (u16 i) 4) s = Ub).
  { unfold rd. destruct (zlookup _ _) eqn:E; [|done]. apply zlookup_lt in E. rewrite (wf_len _ W) in E.
    change (rsize LM_ELEMENT) with 32 in E. pose proof (u16_range i).
    pose proof (proj2 (Z.shiftr_nonneg (u16 i) 4) (proj1 H)). lia. }
  unfold mbind, M_bind. by rewrite H.
Qed.

(** A call from the eighth nesting level passes the depth check
    ([msv_SbrNestedNum >= 8] is false at 7) and then clears the local bits of
    a ninth layer, outside the array. *)
Theorem call_from_layer_7_overflows run fuel pc id entry s :
  wf_elem (elem s) -> call_site pc id entry s -> nested s = 7 -> get_pf (mlv_InPF (env s)) = true ->
  run_ci_call_ins run fuel s = Ub.
Proof.
  intros W [C1 C2 C3 [len C4] (n & C5 & C5') C6] Hd Hpf.
  assert (Hpc : get_PC s = Ok (pc, s)) by (unfold get_PC, gets; by rewrite C1).
  assert (Hnest : forall s1, nested s1 = 7 -> get_nested s1 = Ok (7, s1)).
  { intros s1 E. unfold get_nested, gets. fold (nested s1). by rewrite E. }
  unfold run_ci_call_ins. rewrite (bind_run _ _ _ _ _ Hpc), (bind_run _ _ _ _ _ C2). cbn [fst snd].
  change (negb (pdPASS =? pdPASS)) with false. cbv match. rewrite bind_some, (bind_run _ _ _ _ _ C4).
  rewrite (bind_run _ _ _ _ _ (Hnest s Hd)). change (MAX_SBR_NESTED_LAYER <=? 7) with false. cbv match.
  rewrite (bind_run _ _ _ _ _ C5).
  assert (Hgp : GET_POWER_FLOW s = Ok (true, s)) by (unfold GET_POWER_FLOW, gets; by rewrite Hpf).
  rewrite (bind_run _ _ _ _ _ Hgp).
  pose proof (zupdate_lt (mcv_IsExec (call_info (flow s))) id 1 C3) as U. set (l' := <[_ := 1]> _) in U.
  set (s1 := with_flow (with_call_info (with_IsExec l' (call_info (flow s))) (flow s)) s).
  assert (Hset : set_IsExec id 1 s = Ok (tt, s1)).
  { unfold set_IsExec, call_info_get, gets. unfold mbind at 1, M_bind at 1. by rewrite U, bind_some. }
  rewrite (bind_run _ _ _ _ _ Hset). unfold call_info_get at 1, gets. unfold mbind at 1, M_bind at 1.
  change (mcp_SbrPc (call_info (flow s1))) with (mcp_SbrPc (call_info (flow s))). rewrite C5', bind_some.
  assert (Hop : GET_PU16_DATA entry s1 = Ok (CI_SBR, s1)) by (by apply (PU16_code entry s)).
  rewrite (bind_run _ _ _ _ _ Hop). change (negb (CI_SBR =? CI_SBR)) with false. cbv match.
  assert (Hclear : plc_call_ins_in_parameter_parse fuel pc s1 = Ub).
  { unfold plc_call_ins_in_parameter_parse. change (Z.to_nat LM_RANG) with (S 63). cbn [for_up].
    unfold mbind, M_bind. unfold callee_lm at 1. unfold mbind at 1, M_bind at 1. rewrite (Hnest s1 Hd).
    change (7 + 1) with MAX_SBR_NESTED_LAYER. by rewrite (lm_layer_8 0 0 s1 W). }
  unfold mbind, M_bind. by rewrite Hclear.
Qed.

Definition demo_calls : plc_call_ins_info_st :=
  {| msv_SbrNestedNum := 7; msv_UseNum := 1; mlv_UCodeAddr := [0]; mcv_IsExec := [0];
     mcp_RetPc := replicate 8 0; mcp_SbrPc := [10] |}.
Definition call_code : list Z := [0x21; 0xF0; 0; 0; 0; 0; 0; 0; 0; 0; 1; 0xF0].
Definition call_demo : plc_st :=
  let s := with_InPF 1 (st0 call_code) in with_flow (with_call_info demo_calls (flow s)) s.
Lemma call_demo_site s : mcp_PC (env s) = 0 -> ucode s = call_code -> call_info (flow s) = demo_calls -> call_site 0 0 10 s.
Proof.
  destruct s as [m e u v [ci fn sf al] y i t]. cbn. intros Hp -> ->.
  split; [exact Hp|reflexivity|by vm_compute|exists 10; reflexivity|exists 0; by split|reflexivity].
Qed.
Lemma call_from_layer_7_overflows_witness : run_ci_call_ins (fun _ => mret EXEC_FLAG_SRET) 10 call_demo = Ub.
Proof.
  apply (call_from_layer_7_overflows _ 10 0 0 10 call_demo); [exact wf_elem0|by apply call_demo_site|done|done].
Defined.
