(* ===== verification/BitIns.v ===== *)
(** * Bit instructions

    Models the bit handlers of plc/executer/src/plc_dataprocessing.c: contacts
    and coils on one bit of a word (with the bit number an operand, or a
    constant for the DX_Y forms), contacts and coils on local elements, the
    zone instructions ZRST and ZSET, and DECO, ENCO, BITS, DBITS, BON. *)
From stdpp Require Import base list numbers sets.
From S2P Require Import Prelude Element Machine ParseAddr ParseAddrFacts Device CounterIns TimeIns DataIns.

(** [if(!GET_POWER_FLOW) k], the OR forms. *)
Definition unpowered (k : Mc Z) : Mc Z := pf ← GET_POWER_FLOW; if pf : bool then mret pdPASS else k.

(** ** What a contact does with its bit *)
Definition ld_contact (b : bool) : Mc Z := PUSH_POWER_FLOW;; put_power_flow b;; mret pdPASS.
Definition and_contact (b : bool) : Mc Z := when (negb b) RST_POWER_FLOW;; mret pdPASS.
Definition or_contact (b : bool) : Mc Z := when b SET_POWER_FLOW;; mret pdPASS.

(** ** One bit of a word *)
Definition bit_test (s1 s2 : Z) : bool := truthy (Z.land s1 (Z.shiftl 1 s2)).
Definition bit_put (b : bool) (s1 s2 : Z) : Z :=
  u16 (if b then Z.lor s1 (Z.shiftl 1 s2) else Z.land s1 (Z.lnot (Z.shiftl 1 s2))).
Definition checked_bit (k : Z -> Mc Z) (w2 : Z) : Mc Z :=
  let s2 := s16 w2 in if (s2 <? 0) || (15 <? s2) then mret ERR_OPERANDS else k s2.
Definition word_bit (k : Z -> Z -> Mc Z) : Mc Z :=
  pc ← get_PC; with_word (pc + 2) (fun s1 => with_word (pc + 6) (checked_bit (k s1))).
Definition dx_bit (k : Z -> Z -> Mc Z) : Mc Z :=
  pc ← get_PC; with_word (pc + 2) (fun s1 => w2 ← GET_PU16_DATA (pc + 6); checked_bit (k s1) w2).
Definition save_bit (b : bool) (s1 s2 : Z) : Mc Z := pc ← get_PC; save_word1 (pc + 2) (bit_put b s1 s2).

Definition run_ci_bld_ins : Mc Z := word_bit (fun s1 s2 => ld_contact (bit_test s1 s2)).
Definition run_ci_bldi_ins : Mc Z := word_bit (fun s1 s2 => ld_contact (negb (bit_test s1 s2))).
Definition run_ci_band_ins : Mc Z := powered (word_bit (fun s1 s2 => and_contact (bit_test s1 s2))).
Definition run_ci_bandi_ins : Mc Z := powered (word_bit (fun s1 s2 => and_contact (negb (bit_test s1 s2)))).
Definition run_ci_bor_ins : Mc Z := unpowered (word_bit (fun s1 s2 => or_contact (bit_test s1 s2))).
Definition run_ci_bori_ins : Mc Z := unpowered (word_bit (fun s1 s2 => or_contact (negb (bit_test s1 s2)))).
Definition run_ci_bset_ins : Mc Z := powered (word_bit (save_bit true)).
Definition run_ci_brst_ins : Mc Z := powered (word_bit (save_bit false)).

Definition run_ci_ld_dx_y_ins : Mc Z := dx_bit (fun s1 s2 => ld_contact (bit_test s1 s2)).
Definition run_ci_ldi_dx_y_ins : Mc Z := dx_bit (fun s1 s2 => ld_contact (negb (bit_test s1 s2))).
Definition run_ci_and_dx_y_ins : Mc Z := powered (dx_bit (fun s1 s2 => and_contact (bit_test s1 s2))).
Definition run_ci_ani_dx_y_ins : Mc Z := powered (dx_bit (fun s1 s2 => and_contact (negb (bit_test s1 s2)))).
Definition run_ci_or_dx_y_ins : Mc Z := unpowered (dx_bit (fun s1 s2 => or_contact (bit_test s1 s2))).
Definition run_ci_ori_dx_y_ins : Mc Z := unpowered (dx_bit (fun s1 s2 => or_contact (negb (bit_test s1 s2)))).
Definition run_ci_set_dx_y_ins : Mc Z := powered (dx_bit (save_bit true)).
Definition run_ci_rst_dx_y_ins : Mc Z := powered (dx_bit (save_bit false)).
Definition run_ci_out_dx_y_ins : Mc Z := dx_bit (fun s1 s2 => pf ← GET_POWER_FLOW; save_bit pf s1 s2).

(** ** Local elements *)
Definition lm_index : Mc Z := pc ← get_PC; GET_PU16_DATA (pc + 4).
Definition lm_bit (k : bool -> Mc Z) : Mc Z :=
  i ← lm_index; d ← get_nested; v ← plc_get_lm_element_value d i; k (truthy v).
Definition lm_put (v : Z) : Mc Z := i ← lm_index; d ← get_nested; plc_set_lm_element_value d i v;; mret pdPASS.
Definition run_ci_ld_lm_ins : Mc Z := PUSH_POWER_FLOW;; lm_bit (fun b => put_power_flow b;; mret pdPASS).
Definition run_ci_ldi_lm_ins : Mc Z := PUSH_POWER_FLOW;; lm_bit (fun b => put_power_flow (negb b);; mret pdPASS).
Definition run_ci_and_lm_ins : Mc Z := powered (lm_bit and_contact).
Definition run_ci_ani_lm_ins : Mc Z := powered (lm_bit (fun b => and_contact (negb b))).
Definition run_ci_or_lm_ins : Mc Z := unpowered (lm_bit or_contact).
Definition run_ci_ori_lm_ins : Mc Z := unpowered (lm_bit (fun b => or_contact (negb b))).
Definition run_ci_set_lm_ins : Mc Z := powered (lm_put 1).
Definition run_ci_out_lm_ins : Mc Z := pf ← GET_POWER_FLOW; lm_put (Z.b2z pf).
Definition run_ci_rst_lm_ins : Mc Z := powered (lm_put 0).

(** ** Zones of elements *)
(** [for(i=0; i<cnt; i++) { if(start+i > rang) return ERR_OVER_ELEMENT_RANG; put(start+i); }] *)
Fixpoint zone (n : nat) (rang e : Z) (put : Z -> Mc unit) : Mc Z :=
  match n with
  | O => mret pdPASS
  | S n' => if rang <? e then mret ERR_OVER_ELEMENT_RANG else put e;; zone n' rang (e + 1) put
  end.
(** The [switch] on the addressing type: the array and its range. *)
Definition zone_target (t : option addr_type) : option (region * Z) :=
  match t with
  | Some (ADDR_X | ADDR_XZ) => Some (X_ELEMENT, X_RANG)
  | Some (ADDR_Y | ADDR_YZ) => Some (Y_ELEMENT, Y_RANG)
  | Some (ADDR_C | ADDR_CZ) => Some (C_ELEMENT, C_RANG)
  | Some (ADDR_T | ADDR_TZ) => Some (T_ELEMENT, T_RANG)
  | Some (ADDR_M | ADDR_MZ) => Some (M_ELEMENT, M_RANG)
  | Some (ADDR_S | ADDR_SZ) => Some (S_ELEMENT, S_RANG)
  | Some (ADDR_LM | ADDR_LMZ) => Some (LM_ELEMENT, LM_RANG)
  | _ => None
  end.
(** The first element; the test takes ADDR_CZ and ADDR_TZ for direct. *)
Definition start_element (a lcv_AddrType : Z) : Mc Z :=
  n ← GET_PU16_DATA (a + 2);
  if addr_code ADDR_XZ <=? lcv_AddrType then
    b ← GET_PU8_DATA a; z ← rd Z_ELEMENT b; mret (u16 (z + n))
  else mret n.
Definition set_lm_here (v e : Z) : Mc unit := d ← get_nested; plc_set_lm_element_value d e v.
Definition zone_ins (put : region -> Z -> Mc unit) : Mc Z :=
  pc ← get_PC;
  lcv_AddrType ← GET_PU8_DATA (pc + 3);
  powered (with_word (pc + 6) (fun w =>
    let lsv_Cnt := s16 w in
    if lsv_Cnt <? 0 then mret ERR_OPERANDS
    else match zone_target (addr_decode lcv_AddrType) with
         | None => mret ERR_OPERANDS
         | Some (r, rang) =>
             e ← start_element (pc + 2) lcv_AddrType;
             zone (Z.to_nat lsv_Cnt) rang e (put r)
         end)).
Definition zrst_put (r : region) : Z -> Mc unit :=
  match r with
  | C_ELEMENT => plc_reset_one_counter
  | T_ELEMENT => plc_reset_one_timer
  | LM_ELEMENT => set_lm_here 0
  | _ => fun e => plc_set_bit_element_value r e 0
  end.
Definition zset_put (r : region) : Z -> Mc unit :=
  match r with
  | LM_ELEMENT => set_lm_here 1
  | _ => fun e => plc_set_bit_element_value r e 1
  end.
Definition run_ci_zrst_ins : Mc Z := zone_ins zrst_put.
Definition run_ci_zset_ins : Mc Z := zone_ins zset_put.

(** ** Codes of bits *)
Definition run_ci_deco_ins : Mc Z := powered (
  pc ← get_PC; with_word (pc + 2) (checked_bit (fun n => save_word1 (pc + 6) (u16 (Z.shiftl 1 n))))).
(** [for(i=0; i<n; i++) if((w>>i) & 1) ..]: the first bit, and the number of bits. *)
Fixpoint first_bit (n : nat) (i w : Z) : option Z :=
  match n with
  | O => None
  | S n' => if truthy (Z.land (Z.shiftr w i) 1) then Some i else first_bit n' (i + 1) w
  end.
Fixpoint count_bits (n : nat) (i w acc : Z) : Z :=
  match n with
  | O => acc
  | S n' => count_bits n' (i + 1) w (if truthy (Z.land (Z.shiftr w i) 1) then u16 (acc + 1) else acc)
  end.
Definition run_ci_enco_ins : Mc Z := powered (
  pc ← get_PC; with_word (pc + 2) (fun w =>
    if w =? 0 then mret pdPASS
    else i ← of_option (first_bit 16 0 w); save_word1 (pc + 6) i)).
(** Without a set bit the destination keeps its old value. *)
Definition run_ci_bits_ins : Mc Z := powered (
  pc ← get_PC; with_word (pc + 2) (fun w =>
    if w =? 0 then mret pdPASS else save_word1 (pc + 6) (count_bits 16 0 w 0))).
Definition run_ci_dbits_ins : Mc Z := powered (
  pc ← get_PC; with_dword (pc + 2) (fun w =>
    if w =? 0 then mret pdPASS else save_word1 (pc + 8) (count_bits 32 0 w 0))).
Definition bon_target (t : option addr_type) : option region :=
  match t with
  | Some (ADDR_Y | ADDR_YZ) => Some Y_ELEMENT
  | Some (ADDR_M | ADDR_MZ) => Some M_ELEMENT
  | Some (ADDR_S | ADDR_SZ) => Some S_ELEMENT
  | _ => None
  end.
(** BON looks neither at the power flow nor at the range of its element. *)
Definition run_ci_bon_ins : Mc Z :=
  pc ← get_PC;
  lcv_AddrType ← GET_PU8_DATA (pc + 7);
  with_word (pc + 2) (fun lsv_Data =>
    match bon_target (addr_decode lcv_AddrType) with
    | None => mret ERR_ELEMENT_TYPE
    | Some r =>
        e ← start_element (pc + 6) lcv_AddrType;
        with_word (pc + 10) (checked_bit (fun i =>
          plc_set_bit_element_value r e (Z.land (Z.shiftr lsv_Data i) 1);; mret pdPASS))
    end).
