(* ===== verification/Arith.v ===== *)
(** * Integer arithmetic instructions

    Models ADD .. NEG on words, DADD .. DNEG on double words, SUM, DSUM and
    the square roots, of plc/executer/src/plc_dataprocessing.c. The flags are
    SM180 (zero), SM181 (carry) and SM182 (borrow). Sums, differences and
    products of [int] wrap, as on the target. *)
From stdpp Require Import base list numbers sets.
From Stdlib Require Import Floats.SpecFloat.
From S2P Require Import Prelude Element Machine ParseAddr ParseAddrFacts Device DataIns Float32 BitIns.

Definition set_SM (n v : Z) : Mc unit := plc_set_bit_element_value SM_ELEMENT n v.
Definition clear_SM : list Z -> Mc unit := foldr (fun n k => set_SM n 0;; k) (mret tt).
Definition words2 (k : Z -> Z -> Mc Z) : Mc Z :=
  pc ← get_PC; with_word (pc + 2) (fun x => with_word (pc + 6) (fun y => k (s16 x) (s16 y))).
Definition dwords2 (k : Z -> Z -> Mc Z) : Mc Z :=
  pc ← get_PC; with_dword (pc + 2) (fun x => with_dword (pc + 8) (fun y => k (s32 x) (s32 y))).
Definition word_in (k : Z -> Mc Z) : Mc Z := pc ← get_PC; with_word (pc + 2) (fun x => k (s16 x)).
Definition dword_in (k : Z -> Mc Z) : Mc Z := pc ← get_PC; with_dword (pc + 2) (fun x => k (s32 x)).
Definition word_out (off v : Z) : Mc Z := pc ← get_PC; save_word1 (pc + off) (u16 v).
Definition dword_out (off v : Z) : Mc Z := pc ← get_PC; save_dword1 (pc + off) (u32 v).

(** ** Words *)
Definition sum_flags (z : Z) : Mc unit :=
  clear_SM [180; 181; 182];;
  (if 32767 <? z then set_SM 181 1
   else if z <? -32768 then set_SM 182 1
   else when (z =? 0) (set_SM 180 1)).
Definition run_ci_add_ins : Mc Z := powered (words2 (fun x y => sum_flags (x + y);; word_out 10 (x + y))).
Definition run_ci_sub_ins : Mc Z := powered (words2 (fun x y => sum_flags (x - y);; word_out 10 (x - y))).
Definition run_ci_mul_ins : Mc Z := powered (words2 (fun x y => dword_out 10 (x * y))).
Definition run_ci_div_ins : Mc Z := powered (words2 (fun x y =>
  if y =? 0 then mret ERR_DIV_ZERO
  else
    r ← word_out 10 (Z.quot x y);
    if negb (r =? pdPASS) then mret r
    else pc ← get_PC; save_words (pc + 10) [u16 (Z.rem x y)] 1)).
Definition root_flags (exact : bool) (y : Z) : Mc unit :=
  clear_SM [180; 182];; when (negb exact) (set_SM 182 1);; when (y =? 0) (set_SM 180 1).
(** [z = sqrtf(x); y = (int)z; exact = (y == z)]. *)
Definition int_root (x : Z) : option (Z * bool) :=
  let z := f32_sqrt (f32_of_int x) in
  y ← f32_to_int z; Some (y, match f32_compare (f32_of_int y) z with Some Eq => true | _ => false end).
Definition run_ci_sqt_ins : Mc Z := powered (word_in (fun x =>
  if x <? 0 then mret ERR_OPERANDS
  else '(y, exact) ← of_option (int_root x); root_flags exact y;; word_out 6 y)).
Definition run_ci_inc_ins : Mc Z := powered (word_in (fun x => word_out 2 (x + 1))).
Definition run_ci_dec_ins : Mc Z := powered (word_in (fun x => word_out 2 (x - 1))).
Definition run_ci_vabs_ins : Mc Z := powered (word_in (fun x =>
  if x =? -32768 then mret ERR_OPERANDS else word_out 6 (if x <? 0 then - x else x))).
Definition run_ci_neg_ins : Mc Z := powered (word_in (fun x =>
  if x =? -32768 then mret ERR_OPERANDS else word_out 6 (- x))).

(** ** Double words *)
Definition dadd_flags (x y z : Z) : Mc unit :=
  clear_SM [180; 181; 182];;
  (if (0 <? x) && (0 <? y) && (z <? 0) then set_SM 181 1
   else when ((x <=? 0) && (y <? 0) && (0 <? z)) (set_SM 182 1));;
  when (z =? 0) (set_SM 180 1).
Definition dsub_flags (x y z : Z) : Mc unit :=
  clear_SM [180; 181; 182];;
  (if (0 <? x) && (y <? 0) && (z <? 0) then set_SM 181 1
   else when ((x <? 0) && (0 <? y) && (0 <? z)) (set_SM 182 1));;
  when (z =? 0) (set_SM 180 1).
Definition run_ci_dadd_ins : Mc Z := powered (dwords2 (fun x y =>
  let z := s32 (x + y) in dadd_flags x y z;; dword_out 14 z)).
Definition run_ci_dsub_ins : Mc Z := powered (dwords2 (fun x y =>
  let z := s32 (x - y) in dsub_flags x y z;; dword_out 14 z)).
Definition run_ci_dmul_ins : Mc Z := powered (dwords2 (fun x y => dword_out 14 (x * y))).
Definition run_ci_ddiv_ins : Mc Z := powered (dwords2 (fun x y =>
  if y =? 0 then mret ERR_DIV_ZERO
  else
    r ← dword_out 14 (Z.quot x y);
    if negb (r =? pdPASS) then mret r
    else pc ← get_PC; save_dwords (pc + 14) [u32 (Z.rem x y)] 1)).
Definition run_ci_dsqt_ins : Mc Z := powered (dword_in (fun x =>
  if x <? 0 then mret ERR_OPERANDS
  else '(y, exact) ← of_option (int_root x); root_flags exact y;; dword_out 8 y)).
Definition run_ci_dinc_ins : Mc Z := powered (dword_in (fun x => dword_out 2 (x + 1))).
Definition run_ci_ddec_ins : Mc Z := powered (dword_in (fun x => dword_out 2 (x - 1))).
(** The guard is on -2147483647, so the least value passes. *)
Definition run_ci_dvabs_ins : Mc Z := powered (dword_in (fun x =>
  if x =? -2147483647 then mret ERR_OPERANDS else dword_out 8 (if x <? 0 then - x else x))).
Definition run_ci_dneg_ins : Mc Z := powered (dword_in (fun x =>
  if x =? -2147483647 then mret ERR_OPERANDS else dword_out 8 (- x))).

(** ** Sums of a row of elements *)
(** [for(i=0; i<cnt; i++) { code = get(i); if(code != pdPASS) return code; acc = add(acc); }] *)
Fixpoint sum_loop {A} (n : nat) (i : Z) (get : Z -> Mc (Z * option Z)) (add : A -> Z -> Mc A) (acc : A)
    (k : A -> Mc Z) : Mc Z :=
  match n with
  | O => k acc
  | S n' =>
      rv ← get i;
      if rv.1 =? pdPASS then v ← of_option rv.2; acc' ← add acc v; sum_loop n' (i + 1) get add acc' k
      else mret rv.1
  end.
Definition sum_count (off : Z) (k : nat -> Mc Z) : Mc Z :=
  pc ← get_PC;
  with_word (pc + off) (fun w =>
    let lsv_Cnt := s16 w in if (lsv_Cnt <? 0) || (255 <? lsv_Cnt) then mret ERR_OPERANDS else k (Z.to_nat lsv_Cnt)).
Definition word_at_offset (a i : Z) : Mc (Z * option Z) := rl ← get_word a i 1; mret (rl.1, head rl.2).
Definition dword_at_offset (a i : Z) : Mc (Z * option Z) := rl ← get_dword a i 1; mret (rl.1, head rl.2).
(** A sum of zero clears the zero flag. *)
Definition run_ci_sum_ins : Mc Z := powered (sum_count 6 (fun n =>
  pc ← get_PC;
  clear_SM [180; 181; 182];;
  sum_loop n 0 (word_at_offset (pc + 2)) (fun acc v => mret (s32 (acc + s16 v))) 0
    (fun liv_Sum => when (liv_Sum =? 0) (set_SM 180 0);; dword_out 10 liv_Sum))).
Definition run_ci_dsum_ins : Mc Z := powered (sum_count 8 (fun n =>
  pc ← get_PC;
  clear_SM [180; 181; 182];;
  sum_loop n 0 (dword_at_offset (pc + 2)) (fun liv_Temp v =>
      let d := s32 v in let liv_Sum := s32 (liv_Temp + d) in
      (if (0 <? liv_Temp) && (0 <? d) && (liv_Sum <? 0) then set_SM 181 1
       else when ((liv_Temp <=? 0) && (d <? 0) && (0 <? liv_Sum)) (set_SM 182 1));;
      mret liv_Sum) 0
    (fun liv_Sum => when (liv_Sum =? 0) (set_SM 180 1);; dword_out 12 liv_Sum))).
