(* ===== verification/FloatIns.v ===== *)
(** * Floating-point instructions and conversions of numbers

    Models RADD .. RNEG, RSUM, RAD, DEG and the conversions DTI .. DINT of
    plc/executer/src/plc_dataprocessing.c. The instructions around a function
    of the C mathematical library (sinf .. log10f) take that function as a
    parameter. *)
From stdpp Require Import base list numbers sets.
From Stdlib Require Import Floats.SpecFloat.
From S2P Require Import Prelude Element Machine ParseAddr ParseAddrFacts Device DataIns Float32 BitIns Arith.

Definition f32_pi := 0x40490FDB.
Definition f32_lt (a b : Z) : bool := match f32_compare a b with Some Lt => true | _ => false end.
Definition f32_eq (a b : Z) : bool := match f32_compare a b with Some Eq => true | _ => false end.
Definition f32_is_inf (a : Z) : bool := match f32_decode a with S754_infinity _ => true | _ => false end.
Definition floats2 (k : Z -> Z -> Mc Z) : Mc Z :=
  pc ← get_PC; with_float (pc + 2) (fun x => with_float (pc + 8) (fun y => k x y)).
Definition float_in (k : Z -> Mc Z) : Mc Z := pc ← get_PC; with_float (pc + 2) k.
Definition float_out (off v : Z) : Mc Z := pc ← get_PC; save_float1 (pc + off) v.
(** The flags of a result: infinite, zero. *)
Definition float_flags (z : Z) : Mc unit :=
  clear_SM [180; 181];; when (f32_is_inf z) (set_SM 181 1);; when (f32_eq z 0) (set_SM 180 1).
Definition zero_flag (z : Z) : Mc unit := clear_SM [180];; when (f32_eq z 0) (set_SM 180 1).

Definition run_ci_radd_ins : Mc Z := powered (floats2 (fun x y => let z := f32_add x y in float_flags z;; float_out 14 z)).
Definition run_ci_rsub_ins : Mc Z := powered (floats2 (fun x y => let z := f32_sub x y in float_flags z;; float_out 14 z)).
Definition run_ci_rmul_ins : Mc Z := powered (floats2 (fun x y => let z := f32_mul x y in float_flags z;; float_out 14 z)).
Definition run_ci_rdiv_ins : Mc Z := powered (floats2 (fun x y =>
  if f32_eq y 0 then mret ERR_DIV_ZERO else let z := f32_div x y in float_flags z;; float_out 14 z)).
Definition run_ci_rsqt_ins : Mc Z := powered (float_in (fun x =>
  if f32_lt x 0 then mret ERR_OPERANDS else let z := f32_sqrt x in zero_flag z;; float_out 8 z)).
Definition run_ci_rvabs_ins : Mc Z := powered (float_in (fun x => float_out 8 (Z.land x 0x7FFFFFFF))).
(** The negated float is saved as a double word. *)
Definition run_ci_rneg_ins : Mc Z := powered (float_in (fun x =>
  pc ← get_PC; save_dword1 (pc + 8) (Z.lxor x 0x80000000))).
Definition run_ci_rsum_ins : Mc Z := powered (sum_count 8 (fun n =>
  pc ← get_PC;
  clear_SM [180; 181];;
  sum_loop n 0 (fun i => rl ← get_float (pc + 2) i 1; mret (rl.1, head rl.2))
    (fun acc v => let s := f32_add acc v in when (f32_is_inf s) (set_SM 181 1);; mret s) 0
    (fun s => when (f32_eq s 0) (set_SM 180 1);; float_out 12 s))).
Definition run_ci_rad_ins : Mc Z := powered (float_in (fun x =>
  let y := f32_div (f32_mul x f32_pi) (f32_of_int 180) in zero_flag y;; float_out 8 y)).
Definition run_ci_deg_ins : Mc Z := powered (float_in (fun x =>
  let y := f32_div (f32_mul x (f32_of_int 180)) f32_pi in float_flags y;; float_out 8 y)).

(** ** Instructions around a library function *)
Section libm.
Context (sinf cosf tanf asinf acosf atanf logf log10f expf : Z -> Z) (powf : Z -> Z -> Z).
Definition outside_unit (x : Z) : bool := f32_lt x (f32_of_int (-1)) || f32_lt (f32_of_int 1) x.
Definition not_positive (x : Z) : bool := f32_lt x 0 || f32_eq x 0.
Definition run_ci_sin_ins : Mc Z := powered (float_in (fun x => let y := sinf x in zero_flag y;; float_out 8 y)).
Definition run_ci_cos_ins : Mc Z := powered (float_in (fun x => let y := cosf x in zero_flag y;; float_out 8 y)).
Definition run_ci_tan_ins : Mc Z := powered (float_in (fun x => let y := tanf x in float_flags y;; float_out 8 y)).
Definition run_ci_asin_ins : Mc Z := powered (float_in (fun x =>
  if outside_unit x then mret ERR_OPERANDS else let y := asinf x in zero_flag y;; float_out 8 y)).
Definition run_ci_acos_ins : Mc Z := powered (float_in (fun x =>
  if outside_unit x then mret ERR_OPERANDS else let y := acosf x in zero_flag y;; float_out 8 y)).
Definition run_ci_atan_ins : Mc Z := powered (float_in (fun x => let y := atanf x in zero_flag y;; float_out 8 y)).
Definition run_ci_ln_ins : Mc Z := powered (float_in (fun x =>
  if not_positive x then mret ERR_OPERANDS else let y := logf x in float_flags y;; float_out 8 y)).
Definition run_ci_log_ins : Mc Z := powered (float_in (fun x =>
  if not_positive x then mret ERR_OPERANDS else let y := log10f x in float_flags y;; float_out 8 y)).
Definition run_ci_exp_ins : Mc Z := powered (float_in (fun x => let y := expf x in float_flags y;; float_out 8 y)).
(** The exponent of a negative base is compared with its [short] image. *)
Definition f32_to_short (a : Z) : option Z :=
  v ← f32_to_int a; if (-32768 <=? v) && (v <=? 32767) then Some v else None.
Definition power_domain (x y : Z) : Mc bool :=
  if f32_eq x 0 && not_positive y then mret true
  else if f32_lt x 0 then i ← of_option (f32_to_short y); mret (negb (f32_eq y (f32_of_int i)))
  else mret false.
Definition run_ci_power_ins : Mc Z := powered (floats2 (fun x y =>
  bad ← power_domain x y;
  if bad : bool then mret ERR_OPERANDS
  else
    let small := f32_lt x (f32_of_int 1) && f32_lt (f32_of_int (-1)) x && negb (f32_eq x 0) in
    let z := if small then powf (f32_div (f32_of_int 1) x) (Z.lxor y 0x80000000) else powf x y in
    float_flags z;; float_out 14 z)).
End libm.

(** ** Conversions *)
Definition run_ci_dti_ins : Mc Z := powered (dword_in (fun x =>
  if (32767 <? x) || (x <? -32768) then mret ERR_OPERANDS else word_out 8 x)).
Definition run_ci_itd_ins : Mc Z := powered (word_in (fun x => dword_out 6 x)).
Definition run_ci_flt_ins : Mc Z := powered (word_in (fun x => float_out 6 (f32_of_int x))).
Definition run_ci_dflt_ins : Mc Z := powered (dword_in (fun x => float_out 8 (f32_of_int x))).
(** The value stored, the clamping and the flags; [lo], [hi] are the float
    bounds. Both instructions convert a value within them to [short]. *)
Definition float_to_integer (lo hi : Z) (min max : Z) (x : Z) (k : Z -> Mc Z) : Mc Z :=
  clear_SM [180; 181; 182];;
  if f32_lt hi x then set_SM 181 1;; k max
  else if f32_lt x lo then set_SM 181 1;; k min
  else
    v ← of_option (f32_to_short x);
    when (v =? 0) (set_SM 180 1);;
    when (negb (f32_eq (f32_of_int v) x)) (set_SM 182 1);;
    k v.
Definition run_ci_int_ins : Mc Z := powered (float_in (fun x =>
  float_to_integer 0xC7000000 0x46FFFE00 (-32768) 32767 x (word_out 8))).
Definition run_ci_dint_ins : Mc Z := powered (float_in (fun x =>
  float_to_integer 0xCF000000 0x4F000000 (- 2 ^ 31) (2 ^ 31 - 1) x (dword_out 8))).
