(* ===== verification/Convert.v ===== *)
(** * Code conversions

    Models BCD, DBCD, BIN, DBIN, GRY, DGRY, GBIN, DGBIN, SEG, ASC, ITA and ATI
    of plc/executer/src/plc_dataprocessing.c. *)
From stdpp Require Import base list numbers sets.
From S2P Require Import Prelude Element Machine ParseAddr ParseAddrFacts Device DataIns BitIns Arith.

(** An unsigned operand at [mcp_PC+2]. *)
Definition uword_in (k : Z -> Mc Z) : Mc Z := pc ← get_PC; with_word (pc + 2) k.
Definition udword_in (k : Z -> Mc Z) : Mc Z := pc ← get_PC; with_dword (pc + 2) k.

(** ** Decimal codes *)
Definition bcd (d : Z) : Z :=
  u16 (0x1000 * (d / 1000) + 0x100 * ((d mod 1000) / 100) + 0x10 * ((d mod 100) / 10) + d mod 10).
(** The divisor of the highest digit is 100000000. *)
Definition dbcd (d : Z) : Z :=
  u32 (0x10000000 * (d / 100000000) + 0x1000000 * ((d mod 10000000) / 1000000)
     + 0x100000 * ((d mod 1000000) / 100000) + 0x10000 * ((d mod 100000) / 10000)
     + 0x1000 * ((d mod 10000) / 1000) + 0x100 * ((d mod 1000) / 100) + 0x10 * ((d mod 100) / 10) + d mod 10).
Definition nibble (d sh : Z) : Z := Z.shiftr (Z.land d (Z.shiftl 0xF sh)) sh.
Definition bin_ok (d : Z) : bool :=
  negb ((9 <? nibble d 12) || (9 <? nibble d 8) || (9 <? nibble d 4) || (9 <? nibble d 0)).
Definition bin (d : Z) : Z := u16 (nibble d 12 * 1000 + nibble d 8 * 100 + nibble d 4 * 10 + nibble d 0).
Definition dbin_ok (d : Z) : bool :=
  negb ((9 <? nibble d 28) || (9 <? nibble d 24) || (9 <? nibble d 20) || (9 <? nibble d 16)) && bin_ok d.
Definition dbin (d : Z) : Z :=
  u32 (nibble d 28 * 10000000 + nibble d 24 * 1000000 + nibble d 20 * 100000 + nibble d 16 * 10000
     + nibble d 12 * 1000 + nibble d 8 * 100 + nibble d 4 * 10 + nibble d 0).
Definition run_ci_bcd_ins : Mc Z := powered (uword_in (fun d =>
  if 9999 <? d then mret ERR_OPERANDS else word_out 6 (bcd d))).
Definition run_ci_dbcd_ins : Mc Z := powered (udword_in (fun d =>
  if 99999999 <? d then mret ERR_OPERANDS else dword_out 8 (dbcd d))).
Definition run_ci_bin_ins : Mc Z := powered (uword_in (fun d =>
  if negb (bin_ok d) then mret ERR_OPERANDS else word_out 6 (bin d))).
Definition run_ci_dbin_ins : Mc Z := powered (udword_in (fun d =>
  if negb (dbin_ok d) then mret ERR_OPERANDS else dword_out 8 (dbin d))).

(** ** Gray code *)
Definition gray (d : Z) : Z := Z.lxor d (Z.shiftr d 1).
(** [for(i=0; (1<<i)<w; i++) d ^= d >> (1<<i);], [n] rounds. *)
Fixpoint ungray (n : nat) (i d : Z) : Z :=
  match n with O => d | S n' => ungray n' (i + 1) (Z.lxor d (Z.shiftr d (Z.shiftl 1 i))) end.
Definition run_ci_gry_ins : Mc Z := powered (uword_in (fun d => word_out 6 (gray d))).
Definition run_ci_dgry_ins : Mc Z := powered (udword_in (fun d => dword_out 8 (gray d))).
Definition run_ci_gbin_ins : Mc Z := powered (uword_in (fun d => word_out 6 (ungray 4 0 d))).
Definition run_ci_dgbin_ins : Mc Z := powered (udword_in (fun d => dword_out 8 (ungray 5 0 d))).

(** ** Characters *)
Definition lcv_SegArray : list Z :=
  [0x3F; 0x06; 0x5B; 0x4F; 0x66; 0x6D; 0x7D; 0x07; 0x7F; 0x6F; 0x77; 0x7C; 0x39; 0x5E; 0x79; 0x71;
   0x73; 0x3E; 0x31; 0x6E; 0x76; 0x38; 0x00].
Definition run_ci_seg_ins : Mc Z := powered (uword_in (fun d =>
  if 15 <? d then mret ERR_OPERANDS else v ← of_option (zlookup lcv_SegArray d); word_out 6 v)).
(** ASC: [n] operands, four bytes of code each, from [a] on. *)
Fixpoint asc_words (n : nat) (a : Z) (acc : list Z) (k : list Z -> Mc Z) : Mc Z :=
  match n with
  | O => k acc
  | S n' => with_word a (fun v => asc_words n' (a + 4) (acc ++ [v]) k)
  end.
Fixpoint pack_bytes (l : list Z) : list Z :=
  match l with
  | a :: b :: l' => u16 (Z.land a 0xFF + Z.shiftl (Z.land b 0xFF) 8) :: pack_bytes l'
  | _ => []
  end.
Definition run_ci_asc_ins : Mc Z := powered (
  pc ← get_PC;
  b ← plc_get_bit_element_value SM_ELEMENT 186;
  asc_words 8 (pc + 2) [] (fun l => save_words (pc + 34) (if truthy b then l else pack_bytes l) 0)).

(** [for(i=0; i+4<=cnt; i+=4) ..]: [inl] returns, [inr] is the code so far. *)
Fixpoint quads (n : nat) (i code : Z) (body : Z -> Mc (Z + Z)) (k : Z -> Z -> Mc Z) : Mc Z :=
  match n with
  | O => k i code
  | S n' => r ← body i; match r with inl c => mret c | inr c => quads n' (i + 4) c body k end
  end.
Definition lca_ASCIICode : list Z :=
  [0x30; 0x31; 0x32; 0x33; 0x34; 0x35; 0x36; 0x37; 0x38; 0x39; 0x41; 0x42; 0x43; 0x44; 0x45; 0x46].
(** The digits are masked with 0xFF, not 0x0F, before the look-up. *)
Definition ascii_digit (d sh : Z) : Mc Z := of_option (zlookup lca_ASCIICode (Z.land (Z.shiftr d sh) 0xFF)).
Definition ita_unpacked (d : Z) : Mc (list Z) :=
  a ← ascii_digit d 12; b ← ascii_digit d 8; c ← ascii_digit d 4; e ← ascii_digit d 0; mret [a; b; c; e].
(** The first [n] digits, two in a word; an odd one alone. *)
Definition ita_packed (n d : Z) : Mc (list Z) :=
  a ← ascii_digit d 12;
  if n =? 1 then mret [a]
  else
    b ← ascii_digit d 8; let w0 := u16 (a + Z.shiftl b 8) in
    if n =? 2 then mret [w0]
    else
      c ← ascii_digit d 4;
      if n =? 3 then mret [w0; c]
      else e ← ascii_digit d 0; mret [w0; u16 (c + Z.shiftl e 8)].
Definition ita_group (i : Z) (digits : Z -> Mc (list Z)) (off : Z) : Mc (Z + Z) :=
  pc ← get_PC;
  rv ← word_at_offset (pc + 2) (Z.shiftr i 2);
  if negb (rv.1 =? pdPASS) then mret (inl rv.1)
  else d ← of_option rv.2; l ← digits d; c ← save_words (pc + 6) l off; mret (inr c).
Definition either (r : Z + Z) : Z := match r with inl c => c | inr c => c end.
Definition run_ci_ita_ins : Mc Z := powered (
  pc ← get_PC;
  with_word (pc + 10) (fun cnt =>
    if (cnt <? 1) || (256 <? cnt) then mret ERR_OPERANDS
    else
      t ← GET_PU8_DATA (pc + 2);
      let lsv_Cnt := if (t =? 0) && (4 <? cnt) then 4 else cnt in
      b ← plc_get_bit_element_value SM_ELEMENT 186;
      if truthy b then
        quads (Z.to_nat (lsv_Cnt / 4)) 0 pdPASS (fun i => ita_group i ita_unpacked i) (fun i code =>
          if i <? lsv_Cnt then
            r ← ita_group i (fun d => l ← ita_unpacked d; mret (take (Z.to_nat (lsv_Cnt - i)) l)) i; mret (either r)
          else mret code)
      else
        quads (Z.to_nat (lsv_Cnt / 4)) 0 pdPASS (fun i => ita_group i (ita_packed 4) (i / 2)) (fun i code =>
          if i <? lsv_Cnt then r ← ita_group i (ita_packed (lsv_Cnt - i)) (i / 2); mret (either r)
          else mret code))).

Definition lca_DeASCIICode : list Z :=
  [0x00; 0x01; 0x02; 0x03; 0x04; 0x05; 0x06; 0x07; 0x08; 0x09; 0x00; 0x00; 0x00; 0x00; 0x00; 0x00; 0x00;
   0x0A; 0x0B; 0x0C; 0x0D; 0x0E; 0x0F].
Definition IS_HEX_NUM_ASCII (x : Z) : bool := ((0x30 <=? x) && (x <=? 0x39)) || ((0x41 <=? x) && (x <=? 0x46)).
Definition data_at (l : list Z) (j : Z) : Mc Z := of_option (zlookup l j).
Definition deascii (i : Z) : Mc Z := of_option (zlookup lca_DeASCIICode i).
(** The digits of the words [j .. j+n-1], one each. *)
Fixpoint ati_digits (n : nat) (j : Z) (l : list Z) (r : Z) : Mc (option Z) :=
  match n with
  | O => mret (Some r)
  | S n' =>
      v ← data_at l j;
      if IS_HEX_NUM_ASCII v then d ← deascii (v - 0x30); ati_digits n' (j + 1) l (u16 (Z.shiftl r 4 + d))
      else mret None
  end.
(** A single digit is looked up at [lsv_Data[j]], with [j] left behind by the loop. *)
Definition ati_rest (n : Z) (l : list Z) : Mc (option Z) :=
  if n =? 1 then v ← data_at l 0; if IS_HEX_NUM_ASCII v then ub else mret None
  else ati_digits (Z.to_nat n) 0 l 0.
(** Two digits of a packed word; [x & 0xFF - 0x30] is [x & 0xCF]. *)
Definition low_digit (v : Z) : Mc Z := deascii (Z.land v (0xFF - 0x30)).
Definition high_digit (v : Z) : Mc Z := deascii (Z.land (Z.shiftr v 8) (0xFF - 0x30)).
Definition is_low (v : Z) : bool := IS_HEX_NUM_ASCII (Z.land v 0xFF).
Definition is_high (v : Z) : bool := IS_HEX_NUM_ASCII (Z.land (Z.shiftr v 8) 0xFF).
Fixpoint ati_pairs (n : nat) (j : Z) (l : list Z) (r : Z) : Mc (option Z) :=
  match n with
  | O => mret (Some r)
  | S n' =>
      v ← data_at l j;
      if is_low v && is_high v then
        a ← low_digit v; b ← high_digit v;
        ati_pairs n' (j + 1) l (u16 (Z.shiftl r 8 + Z.shiftl a 4 + b))
      else mret None
  end.
(** Anything but digits in the rest of a packed string counts as zero. *)
Definition ati_packed_rest (n : Z) (l : list Z) : Mc (option Z) :=
  v ← data_at l 0;
  if n =? 1 then if is_low v then a ← low_digit v; mret (Some a) else mret (Some 0)
  else if n =? 2 then
    if is_low v && is_high v then a ← low_digit v; b ← high_digit v; mret (Some (Z.shiftl a 4 + b)) else mret (Some 0)
  else
    if is_low v && is_high v then
      v1 ← data_at l 1;
      if is_low v1 then
        a ← low_digit v; b ← high_digit v; c ← low_digit v1; mret (Some (Z.shiftl a 8 + Z.shiftl b 4 + c))
      else mret (Some 0)
    else mret (Some 0).
Definition ati_group (i off : Z) (cnt : nat) (digits : list Z -> Mc (option Z)) : Mc (Z + Z) :=
  pc ← get_PC;
  rl ← get_word (pc + 2) off cnt;
  if negb (rl.1 =? pdPASS) then mret (inl rl.1)
  else
    o ← digits rl.2;
    match o with
    | None => mret (inl ERR_OPERANDS)
    | Some r => c ← save_words (pc + 6) [r] (i / 4); mret (inr c)
    end.
Definition run_ci_ati_ins : Mc Z := powered (
  pc ← get_PC;
  with_word (pc + 10) (fun cnt =>
    if (cnt <? 1) || (256 <? cnt) then mret ERR_OPERANDS
    else
      t ← GET_PU8_DATA (pc + 2);
      b ← plc_get_bit_element_value SM_ELEMENT 186;
      let most := if truthy b then 1 else 2 in
      let lsv_Cnt := if (t =? 0) && (most <? cnt) then most else cnt in
      if truthy b then
        quads (Z.to_nat (lsv_Cnt / 4)) 0 pdPASS (fun i => ati_group i i 4 (fun l => ati_digits 4 0 l 0)) (fun i code =>
          if i <? lsv_Cnt then r ← ati_group i i 4 (ati_rest (lsv_Cnt - i)); mret (either r) else mret code)
      else
        quads (Z.to_nat (lsv_Cnt / 4)) 0 pdPASS (fun i => ati_group i (i / 2) 2 (fun l => ati_pairs 2 0 l 0)) (fun i code =>
          if i <? lsv_Cnt then
            r ← ati_group i (i / 2) (if 2 <? lsv_Cnt - i then 2%nat else 1%nat) (ati_packed_rest (lsv_Cnt - i));
            mret (either r)
          else mret code))).
