(* ===== verification/Rotate.v ===== *)
(** * Word logic, rotations and shifts

    Models WAND .. DWINV, ROR .. DRCL, SHR .. DSHL and the shift of bit strings
    SFTR, SFTL, of plc/executer/src/plc_dataprocessing.c. A shift by the width
    of its operand or more is undefined. *)
From stdpp Require Import base list numbers sets.
From S2P Require Import Prelude Element Machine ParseAddr ParseAddrFacts Device DataIns BitIns Arith Convert.

Definition uwords2 (k : Z -> Z -> Mc Z) : Mc Z :=
  pc ← get_PC; with_word (pc + 2) (fun x => with_word (pc + 6) (k x)).
Definition udwords2 (k : Z -> Z -> Mc Z) : Mc Z :=
  pc ← get_PC; with_dword (pc + 2) (fun x => with_dword (pc + 8) (k x)).
Definition run_ci_wand_ins : Mc Z := powered (uwords2 (fun x y => word_out 10 (Z.land x y))).
Definition run_ci_wor_ins : Mc Z := powered (uwords2 (fun x y => word_out 10 (Z.lor x y))).
Definition run_ci_wxor_ins : Mc Z := powered (uwords2 (fun x y => word_out 10 (Z.lxor x y))).
Definition run_ci_winv_ins : Mc Z := powered (uword_in (fun x => word_out 6 (Z.lnot x))).
Definition run_ci_dwand_ins : Mc Z := powered (udwords2 (fun x y => dword_out 14 (Z.land x y))).
Definition run_ci_dwor_ins : Mc Z := powered (udwords2 (fun x y => dword_out 14 (Z.lor x y))).
Definition run_ci_dwxor_ins : Mc Z := powered (udwords2 (fun x y => dword_out 14 (Z.lxor x y))).
Definition run_ci_dwinv_ins : Mc Z := powered (udword_in (fun x => dword_out 8 (Z.lnot x))).

(** ** Rotations *)
(** [x << n] and [x >> n] on [unsigned long]. *)
Definition shl32 (x n : Z) : Mc Z := if (0 <=? n) && (n <? 32) then mret (u32 (Z.shiftl x n)) else ub.
Definition shr32 (x n : Z) : Mc Z := if (0 <=? n) && (n <? 32) then mret (Z.shiftr x n) else ub.
Definition SM181_value : Mc Z := plc_get_bit_element_value SM_ELEMENT 181.
(** A count operand, then the result of [f]. *)
Definition rotate_word (f : Z -> Z -> Mc Z) : Mc Z := powered (
  pc ← get_PC;
  with_word (pc + 2) (fun x => with_word (pc + 10) (fun w =>
    let y := s16 w in if y <? 0 then mret ERR_OPERANDS else z ← f x y; word_out 6 z))).
Definition rotate_dword (f : Z -> Z -> Mc Z) : Mc Z := powered (
  pc ← get_PC;
  with_dword (pc + 2) (fun x => with_word (pc + 14) (fun w =>
    let y := s16 w in if y <? 0 then mret ERR_OPERANDS else z ← f x y; dword_out 8 z))).
Definition ror16 (x y : Z) : Z := u16 (Z.lor (Z.shiftr x y) (Z.shiftl x (16 - y))).
Definition rol16 (x y : Z) : Z := u16 (Z.lor (Z.shiftl x y) (Z.shiftr x (16 - y))).
Definition run_ci_ror_ins : Mc Z := rotate_word (fun x y =>
  if y =? 0 then mret x
  else let z := ror16 x (y mod 16) in set_SM 181 (Z.shiftr z 15);; mret z).
Definition run_ci_rol_ins : Mc Z := rotate_word (fun x y =>
  if y =? 0 then mret x
  else let z := rol16 x (y mod 16) in set_SM 181 (Z.land z 1);; mret z).
(** Through the carry: seventeen bits. *)
Definition rcr16 (x y c : Z) : Z := u16 (Z.lor (Z.shiftr x y) (Z.shiftl x (17 - y) + Z.shiftl c (16 - y))).
Definition rcl16 (x y c : Z) : Z := u16 (Z.lor (Z.shiftl x y) (Z.shiftr x (17 - y) + Z.shiftl c (y - 1))).
(** The carry they leave. *)
Definition rcr_carry (x y : Z) : Z := Z.land (Z.shiftr x (y - 1)) 1.
Definition rcl_carry (x y : Z) : Z := Z.land (Z.shiftr x (16 - y)) 1.
Definition run_ci_rcr_ins : Mc Z := rotate_word (fun x w =>
  let y := w mod 17 in
  if y =? 0 then mret x
  else c ← SM181_value; set_SM 181 (rcr_carry x y);; mret (rcr16 x y c)).
Definition run_ci_rcl_ins : Mc Z := rotate_word (fun x w =>
  let y := w mod 17 in
  if y =? 0 then mret x
  else c ← SM181_value; set_SM 181 (rcl_carry x y);; mret (rcl16 x y c)).
Definition run_ci_dror_ins : Mc Z := rotate_dword (fun x w =>
  if w =? 0 then mret x
  else
    let y := w mod 32 in
    a ← shr32 x y; b ← shl32 x (32 - y);
    let z := Z.lor a b in set_SM 181 (Z.shiftr z 31);; mret z).
Definition run_ci_drol_ins : Mc Z := rotate_dword (fun x w =>
  if w =? 0 then mret x
  else
    let y := w mod 32 in
    a ← shl32 x y; b ← shr32 x (32 - y);
    let z := Z.lor a b in set_SM 181 (Z.land z 1);; mret z).
Definition run_ci_drcr_ins : Mc Z := rotate_dword (fun x w =>
  let y := w mod 33 in
  if y =? 0 then mret x
  else
    a ← shr32 x y; b ← shl32 x (33 - y); c ← SM181_value; c' ← shl32 c (32 - y);
    d ← shr32 x (y - 1); set_SM 181 (Z.land d 1);;
    mret (Z.lor a (u32 (b + c')))).
Definition run_ci_drcl_ins : Mc Z := rotate_dword (fun x w =>
  let y := w mod 33 in
  if y =? 0 then mret x
  else
    a ← shl32 x y; b ← shr32 x (33 - y); c ← SM181_value; c' ← shl32 c (y - 1);
    d ← shr32 x (32 - y); set_SM 181 (Z.land d 1);;
    mret (Z.lor a (u32 (b + c')))).

(** ** Shifts *)
Definition run_ci_shr_ins : Mc Z := rotate_word (fun x y => mret (if 16 <=? y then 0 else Z.shiftr x y)).
Definition run_ci_shl_ins : Mc Z := rotate_word (fun x y => mret (if 16 <=? y then 0 else u16 (Z.shiftl x y))).
Definition run_ci_dshr_ins : Mc Z := rotate_dword (fun x y => mret (if 32 <=? y then 0 else Z.shiftr x y)).
(** DSHL takes its count and its destination where SHL has them. *)
Definition run_ci_dshl_ins : Mc Z := powered (
  pc ← get_PC;
  with_dword (pc + 2) (fun x => with_word (pc + 10) (fun w =>
    let y := s16 w in
    if y <? 0 then mret ERR_OPERANDS else dword_out 6 (if 32 <=? y then 0 else u32 (Z.shiftl x y))))).

(** [for(i=0; i<n; i++) { get(i); save(i); }] with the codes checked, then [k]. *)
Fixpoint copy (n : nat) (i : Z) (get : Z -> Mc (Z * option Z)) (put : Z -> Z -> Mc Z) (k : Mc Z) : Mc Z :=
  match n with
  | O => k
  | S n' =>
      rv ← get i;
      if rv.1 =? pdPASS then
        v ← of_option rv.2;
        c ← put i v;
        if c =? pdPASS then copy n' (i + 1) get put k else mret c
      else mret rv.1
  end.
Definition char_at_offset (a i : Z) : Mc (Z * option Z) := rl ← get_char a i 1; mret (rl.1, head rl.2).
Definition save_char_at (a i v : Z) : Mc Z := save_char a [v] i.
(** The lengths, and the check that the source does not lie in the destination. *)
Definition shift_string (k : Z -> Z -> Z -> Mc Z) : Mc Z := powered (
  pc ← get_PC;
  with_word (pc + 10) (fun w1 => with_word (pc + 14) (fun w2 =>
    let s1 := s16 w1 in let s2 := s16 w2 in
    if (s1 <? 0) || (s2 <? 0) || (s1 <? s2) || (1024 <? s1) then mret ERR_OPERANDS
    else
      t1 ← GET_PU16_DATA (pc + 2);
      t2 ← GET_PU16_DATA (pc + 6);
      if t1 =? t2 then
        b1 ← GET_PU16_DATA (pc + 4);
        b2 ← GET_PU16_DATA (pc + 8);
        if (b2 <=? b1) && (b1 <? b2 + s1) then mret ERR_OPERANDS
        else if (b2 <=? b1 + s2) && (b1 + s2 <? b2 + s1) then mret ERR_OPERANDS
        else k pc s1 s2
      else k pc s1 s2))).
Definition run_ci_sftr_ins : Mc Z := shift_string (fun pc s1 s2 =>
  copy (Z.to_nat (s1 - s2)) 0 (fun i => char_at_offset (pc + 6) (s2 + i)) (save_char_at (pc + 6))
    (copy (Z.to_nat s2) 0 (char_at_offset (pc + 2)) (fun i => save_char_at (pc + 6) (s1 - s2 + i)) (mret pdPASS))).
Definition run_ci_sftl_ins : Mc Z := shift_string (fun pc s1 s2 =>
  copy (Z.to_nat (s1 - s2)) 0 (fun i => char_at_offset (pc + 6) (s1 - s2 - 1 - i))
    (fun i => save_char_at (pc + 6) (s1 - 1 - i))
    (copy (Z.to_nat s2) 0 (char_at_offset (pc + 2)) (save_char_at (pc + 6)) (mret pdPASS))).
