(* ===== verification/Compare.v ===== *)
(** * Comparison instructions

    Models the comparisons of plc/executer/src/plc_dataprocessing.c: contacts
    that compare two words, double words or floats (LD, AND and OR forms), and
    CMP, LCMP, RCMP, which set three bits. *)
From stdpp Require Import base list numbers sets.
From Stdlib Require Import Floats.SpecFloat.
From S2P Require Import Prelude Element Machine ParseAddr ParseAddrFacts Device DataIns Float32.

(** The six relations, in the order of the opcodes. *)
Inductive relop : Set := REq | RGt | RLt | RNe | RLe | RGe.
Definition relop_of (k : Z) : option relop :=
  match k with 0 => Some REq | 1 => Some RGt | 2 => Some RLt | 3 => Some RNe | 4 => Some RLe | 5 => Some RGe
  | _ => None end.
Definition relop_neg (c : relop) : relop :=
  match c with REq => RNe | RGt => RLe | RLt => RGe | RNe => REq | RLe => RGt | RGe => RLt end.
(** A C comparison; [None] are unordered floats, which are only unequal. *)
Definition relop_holds (c : relop) (o : option comparison) : bool :=
  match c, o with
  | REq, Some Eq | RGt, Some Gt | RLt, Some Lt => true
  | RNe, (None | Some Lt | Some Gt) | RLe, Some (Lt | Eq) | RGe, Some (Gt | Eq) => true
  | _, _ => false
  end.
(** The [switch] on the opcode at [mcp_PC], which starts at [base]. *)
Definition opcode_relop (base : Z) : Mc (option relop) :=
  pc ← get_PC; op ← GET_PU16_DATA pc; mret (relop_of (op - base)).
Definition ld_switch (base : Z) (o : option comparison) : Mc Z :=
  PUSH_POWER_FLOW;;
  c ← opcode_relop base;
  match c with
  | Some c => put_power_flow (relop_holds c o);; mret pdPASS
  | None => modify (fun s => with_InPF (Z.shiftr (mlv_InPF (env s)) 1) s);; mret ERR_ILLEGAL_INSTRCTION
  end.
(** The AND forms reset the power flow on the opposite test, the OR forms set it. *)
Definition and_switch (base : Z) (o : option comparison) : Mc Z :=
  c ← opcode_relop base;
  match c with
  | Some c => when (relop_holds (relop_neg c) o) RST_POWER_FLOW;; mret pdPASS
  | None => mret ERR_ILLEGAL_INSTRCTION
  end.
Definition or_switch (base : Z) (o : option comparison) : Mc Z :=
  c ← opcode_relop base;
  match c with
  | Some c => when (relop_holds c o) SET_POWER_FLOW;; mret pdPASS
  | None => mret ERR_ILLEGAL_INSTRCTION
  end.

(** The operands: two words, two double words, two floats. *)
Definition two_words (k : option comparison -> Mc Z) : Mc Z :=
  pc ← get_PC;
  with_word (pc + 2) (fun a => with_word (pc + 6) (fun b => k (Some (s16 a ?= s16 b)))).
Definition two_dwords (k : option comparison -> Mc Z) : Mc Z :=
  pc ← get_PC;
  with_dword (pc + 2) (fun a => with_dword (pc + 8) (fun b => k (Some (s32 a ?= s32 b)))).
(** [(float)((int)((a + 0.0000005f)*1000000))/1000000]. *)
Definition round6 (a : Z) : Mc Z :=
  i ← of_option (f32_to_int (f32_mul (f32_add a 0x350637BD) (f32_of_int 1000000)));
  mret (f32_div (f32_of_int i) (f32_of_int 1000000)).
Definition two_floats (k : option comparison -> Mc Z) : Mc Z :=
  pc ← get_PC;
  with_float (pc + 2) (fun a => with_float (pc + 8) (fun b =>
    a' ← round6 a; b' ← round6 b; k (f32_compare a' b'))).

Definition run_ld_compare_ins : Mc Z := two_words (ld_switch 0xF039).
Definition run_and_compare_ins : Mc Z := two_words (and_switch 0xF03F).
Definition run_or_compare_ins : Mc Z := two_words (or_switch 0xF045).
Definition run_ldd_compare_ins : Mc Z := two_dwords (ld_switch 0xF04B).
Definition run_andd_compare_ins : Mc Z := two_dwords (and_switch 0xF051).
Definition run_ord_compare_ins : Mc Z := two_dwords (or_switch 0xF057).
Definition run_ldr_compare_ins : Mc Z := two_floats (ld_switch 0xF05D).
Definition run_andr_compare_ins : Mc Z := two_floats (and_switch 0xF063).
Definition run_orr_compare_ins : Mc Z := two_floats (or_switch 0xF069).

(** CMP: one of the three bits [<], [=], [>]; unordered floats are stored as
    equal. *)
Definition compare_bits (o : option comparison) : list Z :=
  match o with Some Lt => [1; 0; 0] | Some Gt => [0; 0; 1] | _ => [0; 1; 0] end.
Definition save_compare (off : Z) (o : option comparison) : Mc Z :=
  pc ← get_PC; save_char (pc + off) (compare_bits o) 0.
Definition run_ci_cmp_ins : Mc Z := powered (two_words (save_compare 10)).
Definition run_ci_lcmp_ins : Mc Z := powered (two_dwords (save_compare 14)).
Definition run_ci_rcmp_ins : Mc Z := powered (two_floats (save_compare 14)).
