(* ===== verification/Block.v ===== *)
(** * Moves and blocks of elements

    Models MOV .. DXCH, the block instructions BKADD, BKSUB, BKCMP, the stack
    and queue instructions PUSH, LIFO, FIFO and the word-string shifts WSFR,
    WSFL, of plc/executer/src/plc_dataprocessing.c. *)
From stdpp Require Import base list numbers sets.
From S2P Require Import Prelude Element Machine ParseAddr ParseAddrFacts Device DataIns BitIns Arith Convert Rotate.
From S2P Require Import Float32 Compare FloatIns.

Definition ERR_STACK_DEFINE := 70.
(** [code = put(..); if(code != pdPASS) return code;] *)
Definition then_ok (m : Mc Z) (k : Mc Z) : Mc Z := c ← m; if c =? pdPASS then k else mret c.
Definition save_word_at (a i v : Z) : Mc Z := save_words a [v] i.
Definition save_dword_at (a i v : Z) : Mc Z := save_dwords a [v] i.

(** ** Moves *)
Definition run_ci_mov_ins : Mc Z := powered (uword_in (word_out 6)).
Definition run_ci_rmov_ins : Mc Z := powered (float_in (float_out 8)).
Definition run_ci_dmov_ins : Mc Z := powered (udword_in (dword_out 8)).
Definition block_count (off : Z) (k : nat -> Mc Z) : Mc Z :=
  pc ← get_PC;
  with_word (pc + off) (fun w => let n := s16 w in if n <=? 0 then mret ERR_OPERANDS else k (Z.to_nat n)).
Definition run_ci_bmov_ins : Mc Z := powered (block_count 10 (fun n =>
  pc ← get_PC; copy n 0 (word_at_offset (pc + 2)) (save_word_at (pc + 6)) (mret pdPASS))).
Definition run_ci_fmov_ins : Mc Z := powered (block_count 10 (fun n =>
  pc ← get_PC;
  with_word (pc + 2) (fun v => copy n 0 (fun _ => mret (pdPASS, Some v)) (save_word_at (pc + 6)) (mret pdPASS)))).
Definition run_ci_dfmov_ins : Mc Z := powered (block_count 14 (fun n =>
  pc ← get_PC;
  with_dword (pc + 2) (fun v => copy n 0 (fun _ => mret (pdPASS, Some v)) (save_dword_at (pc + 8)) (mret pdPASS)))).
Definition run_ci_swap_ins : Mc Z := powered (uword_in (fun d =>
  word_out 2 (Z.lor (Z.shiftl (Z.land d 0xFF) 8) (Z.land (Z.shiftr d 8) 0xFF)))).
(** Word for word through two pointers, which may be the same. *)
Definition swap_pair (src dst : region * Z) (i : Z) : Mc unit :=
  a ← rd src.1 (src.2 + 2 * i + 1); wr dst.1 (dst.2 + 2 * i) a;;
  b ← rd src.1 (src.2 + 2 * i); wr dst.1 (dst.2 + 2 * i + 1) b.
Definition run_ci_swapword_ins : Mc Z := powered (
  pc ← get_PC;
  with_word (pc + 14) (fun cnt =>
    if cnt =? 0 then mret pdPASS
    else
      let lsv_Cnt := u16 (Z.shiftl cnt 1) in
      ro ← get_word_addr (pc + 2) lsv_Cnt;
      if negb (ro.1 =? pdPASS) then mret ro.1
      else
        ro' ← get_word_addr (pc + 8) lsv_Cnt;
        if negb (ro'.1 =? pdPASS) then mret ro'.1
        else
          src ← of_option ro.2; dst ← of_option ro'.2;
          for_up (Z.to_nat (Z.shiftr lsv_Cnt 1)) 0 (swap_pair src dst);; mret pdPASS)).
Definition run_ci_xch_ins : Mc Z := powered (uwords2 (fun a b =>
  pc ← get_PC; then_ok (save_word1 (pc + 2) b) (save_word1 (pc + 6) a))).
Definition run_ci_dxch_ins : Mc Z := powered (udwords2 (fun a b =>
  pc ← get_PC; then_ok (save_dword1 (pc + 2) b) (save_dword1 (pc + 8) a))).

(** ** Stack and queue: the length, then the elements *)
Definition sized (k : Z -> Mc Z) : Mc Z :=
  pc ← get_PC;
  with_word (pc + 10) (fun w => let size := s16 w in if size <=? 0 then mret ERR_STACK_DEFINE else k size).
Definition run_ci_push_ins : Mc Z := powered (sized (fun lsv_StackSize =>
  pc ← get_PC;
  with_word (pc + 6) (fun w =>
    let lsv_StackIndex := s16 w in
    if lsv_StackIndex <? 0 then mret ERR_STACK_DEFINE
    else if lsv_StackSize <? lsv_StackIndex then set_SM 181 1;; mret ERR_STACK_DEFINE
    else
      set_SM 181 0;;
      if lsv_StackIndex =? lsv_StackSize then set_SM 181 1;; mret pdPASS
      else
        with_word (pc + 2) (fun lsv_Data =>
          then_ok (save_word_at (pc + 6) (u16 (lsv_StackIndex + 1)) lsv_Data)
            (save_word1 (pc + 6) (u16 (lsv_StackIndex + 1))))))).
(** The checks FIFO and LIFO share. *)
Definition taking (k : Z -> Z -> Mc Z) : Mc Z := powered (sized (fun size =>
  pc ← get_PC;
  with_word (pc + 2) (fun w =>
    let len := s16 w in
    if (len <? 0) || (size <? len) then mret ERR_STACK_DEFINE
    else
      set_SM 180 0;;
      if len =? 0 then set_SM 180 1;; mret pdPASS else k size len))).
Definition word_at_pos (a i : Z) (k : Z -> Mc Z) : Mc Z :=
  rv ← word_at_offset a i; if rv.1 =? pdPASS then v ← of_option rv.2; k v else mret rv.1.
Definition run_ci_fifo_ins : Mc Z := taking (fun _ lsv_QueueLen =>
  pc ← get_PC;
  word_at_pos (pc + 2) 1 (fun lsv_OutData =>
    then_ok (save_word1 (pc + 6) lsv_OutData)
      (copy (Z.to_nat (lsv_QueueLen - 1)) 1 (fun i => word_at_offset (pc + 2) (i + 1)) (save_word_at (pc + 2))
        (save_word1 (pc + 2) (u16 (lsv_QueueLen - 1)))))).
(** The size, not the length, is tested for the empty flag. *)
Definition run_ci_lifo_ins : Mc Z := taking (fun lsv_StackSize lsv_StackLen =>
  pc ← get_PC;
  word_at_pos (pc + 2) (u16 lsv_StackLen) (fun lsv_OutData =>
    then_ok (save_word1 (pc + 6) lsv_OutData)
      (when (lsv_StackSize =? 0) (set_SM 180 1);;
       save_word1 (pc + 2) (u16 (lsv_StackLen - 1))))).

(** ** Shifts of word strings *)
Definition two_lengths (k : Z -> Z -> Z -> Mc Z) : Mc Z := powered (
  pc ← get_PC;
  with_word (pc + 10) (fun w1 => with_word (pc + 14) (fun w2 =>
    let lsv_DestLen := s16 w1 in let lsv_SrcLen := s16 w2 in
    if (lsv_DestLen <? 0) || (lsv_SrcLen <? 0) || (lsv_DestLen <? lsv_SrcLen) then mret ERR_OPERANDS
    else k pc lsv_DestLen lsv_SrcLen))).
Definition run_ci_wsfr_ins : Mc Z := two_lengths (fun pc d s =>
  copy (Z.to_nat (d - s)) 0 (fun i => word_at_offset (pc + 6) (i + s)) (save_word_at (pc + 6))
    (copy (Z.to_nat s) 0 (word_at_offset (pc + 2)) (fun i => save_word_at (pc + 6) (i + (d - s))) (mret pdPASS))).
(** [for(i=d; i>s; i++)]: the counter runs upwards, until an access fails or
    it wraps at 65536. *)
Definition run_ci_wsfl_ins : Mc Z := two_lengths (fun pc d s =>
  copy (Z.to_nat (if s <? d then 65536 - d else 0)) d (fun i => word_at_offset (pc + 6) (i - s - 1))
    (fun i => save_word_at (pc + 6) (i - 1))
    (copy (Z.to_nat s) 0 (word_at_offset (pc + 2)) (save_word_at (pc + 6)) (mret pdPASS))).

(** ** Block arithmetic *)
(** Results of the block are collected before any is saved. *)
Fixpoint collect (n : nat) (i : Z) (get : Z -> (Z -> Mc Z) -> Mc Z) (acc : list Z) (k : list Z -> Mc Z) : Mc Z :=
  match n with
  | O => k acc
  | S n' => get i (fun v => collect n' (i + 1) get (acc ++ [v]) k)
  end.
Definition is_const (a : Z) : Mc bool := t ← GET_PU16_DATA a; mret (Z.land (Z.shiftr t 8) 0xFF =? 0xFF).
Definition block_arith (f : Z -> Z -> Z) : Mc Z := powered (block_count 14 (fun n =>
  pc ← get_PC;
  c ← is_const (pc + 6);
  let save l := save_words (pc + 10) l 0 in
  if c : bool then
    with_word (pc + 6) (fun k =>
      collect n 0 (fun i next => word_at_pos (pc + 2) i (fun x => next (u16 (f (s16 x) (s16 k))))) [] save)
  else
    collect n 0 (fun i next =>
      word_at_pos (pc + 2) i (fun x => word_at_pos (pc + 6) i (fun y => next (u16 (f (s16 x) (s16 y)))))) [] save)).
Definition run_ci_bkadd_ins : Mc Z := block_arith Z.add.
Definition run_ci_bksub_ins : Mc Z := block_arith Z.sub.

(** ** Block comparison *)
Definition BKCMP_SM_NUM := 188.
Definition bk_fail (c : Z) : Mc Z := set_SM BKCMP_SM_NUM 0;; mret c.
(** An operand whose error clears SM188. *)
Definition bk_word (a i : Z) (k : Z -> Mc Z) : Mc Z :=
  rv ← word_at_offset a i; if rv.1 =? pdPASS then v ← of_option rv.2; k v else bk_fail rv.1.
(** The [switch]: another opcode would leave the byte as the allocator gave it. *)
Definition bk_case (x y : Z) (next : Z -> Mc Z) : Mc Z :=
  c ← opcode_relop 0xF262;
  c ← of_option c;
  if relop_holds c (Some (s16 x ?= s16 y)) then next 1 else set_SM BKCMP_SM_NUM 0;; next 0.
(** With a constant first operand both values are read from it. *)
Definition run_ci_bkcmp_ins : Mc Z := powered (block_count 14 (fun n =>
  pc ← get_PC;
  set_SM BKCMP_SM_NUM 1;;
  c ← is_const (pc + 2);
  let save l := save_char (pc + 10) l 0 in
  if c : bool then
    bk_word (pc + 2) 0 (fun x =>
      collect n 0 (fun i next => bk_word (pc + 2) i (fun y => bk_case x y next)) [] save)
  else
    collect n 0 (fun i next =>
      bk_word (pc + 2) i (fun x => bk_word (pc + 6) i (fun y => bk_case x y next))) [] save)).
