(* ===== verification/DataMisc.v ===== *)
(** * Data blocks, tables and check instructions

    Models MEAN, WTOB, BTOW, UNI, DIS, LCNV, RLCNV, ALT, DBAND, LIMIT, ZONE,
    SCL and SER of plc/executer/src/plc_dataprocessing.c (RAMP, HACKLE and
    TRIANGLE are commented out there and do nothing), and CCITT, CRC16, LRC of
    plc/executer/src/plc_verifyins.c. The buffers these take from the heap are
    lists; an allocation does not fail. *)
From stdpp Require Import base list numbers sets.
From Stdlib Require Import Floats.SpecFloat.
From S2P Require Import Prelude Element Machine ParseAddr ParseAddrFacts Device DataIns BitIns Arith Convert Rotate.
From S2P Require Import Float32 Compare FloatIns Block Verify.

(** The sum of the first [n] elements of a buffer. *)
Fixpoint buffer_sum (n : nat) (i : Z) (l : list Z) (acc : Z) : option Z :=
  match n with O => Some acc | S n' => v ← zlookup l i; buffer_sum n' (i + 1) l (s32 (acc + s16 v)) end.
Definition run_ci_mean_ins : Mc Z := powered (
  pc ← get_PC;
  with_word (pc + 10) (fun w =>
    let lsv_DataCnt := s16 w in
    if (lsv_DataCnt <? 1) || (64 <? lsv_DataCnt) then mret ERR_OPERANDS
    else
      clear_SM [180; 181; 182];;
      with_words (pc + 2) 0 (Z.to_nat lsv_DataCnt) (fun l =>
        llv_sum ← of_option (buffer_sum (Z.to_nat lsv_DataCnt) 0 l 0);
        let lsv_Avg := s16 (Z.quot llv_sum lsv_DataCnt) in
        when (lsv_Avg =? 0) (set_SM 180 1);; word_out 6 lsv_Avg))).

(** ** Bytes and nibbles *)
Definition byte_count (k : Z -> Z -> Mc Z) : Mc Z := powered (
  pc ← get_PC; with_word (pc + 10) (fun w => let n := s16 w in if n <? 0 then mret ERR_OPERANDS else k pc n)).
Definition high_byte (w : Z) : Z := Z.land (Z.shiftr (s16 w) 8) 0xFF.
Definition low_byte (w : Z) : Z := Z.land (s16 w) 0xFF.
Definition run_ci_wtob_ins : Mc Z := byte_count (fun pc n =>
  copy (Z.to_nat (n / 2)) 0 (word_at_offset (pc + 2))
    (fun i w => save_words (pc + 6) [high_byte w; low_byte w] (i * 2))
    (if n mod 2 =? 0 then mret pdPASS
     else word_at_pos (pc + 2) (n / 2) (fun w => save_words (pc + 6) [high_byte w] (n / 2 * 2)))).
Definition join_bytes (a b : Z) : Z := u16 (Z.lor (Z.shiftl (Z.land (s16 a) 0xFF) 8) (Z.land (s16 b) 0xFF)).
Definition two_words_at (a i : Z) : Mc (Z * option Z) :=
  rl ← get_word a (i * 2) 2;
  if rl.1 =? pdPASS then x ← of_option (zlookup rl.2 0); y ← of_option (zlookup rl.2 1); mret (pdPASS, Some (join_bytes x y))
  else mret (rl.1, None).
Definition run_ci_btow_ins : Mc Z := byte_count (fun pc n =>
  copy (Z.to_nat (n / 2)) 0 (two_words_at (pc + 2)) (save_word_at (pc + 6))
    (if n mod 2 =? 0 then mret pdPASS
     else word_at_pos (pc + 2) (2 * (n / 2)) (fun x => save_word_at (pc + 6) (n / 2) (join_bytes x 0)))).
Definition nibble_count (k : Z -> Z -> Mc Z) : Mc Z := powered (
  pc ← get_PC;
  with_word (pc + 10) (fun w => let n := s16 w in if (n <? 1) || (4 <? n) then mret ERR_OPERANDS else k pc n)).
(** Words that are not read count as zero. *)
Definition run_ci_uni_ins : Mc Z := nibble_count (fun pc n =>
  with_words (pc + 2) 0 (Z.to_nat n) (fun l =>
    let d i := Z.land (default 0 (zlookup l i)) 0x0F in
    word_out 6 (Z.lor (Z.lor (Z.lor (Z.shiftl (d 0) 12) (Z.shiftl (d 1) 8)) (Z.shiftl (d 2) 4)) (d 3)))).
Definition run_ci_dis_ins : Mc Z := nibble_count (fun pc n =>
  with_word (pc + 2) (fun w =>
    save_words (pc + 6) ((fun i => Z.land (Z.shiftr (s16 w) ((3 - i) * 4)) 0x0F) <$> seqZ 0 n) 0)).

(** ** Linear conversion *)
(** [if(!GET_PU16_DATA(ltp_RunEnv)) return pdPASS;]: the low half of the power
    flow stack, not its top bit. *)
Definition any_power (k : Mc Z) : Mc Z :=
  pf ← gets (fun s => mlv_InPF (env s)); if u16 pf =? 0 then mret pdPASS else k.
Definition convert_count (off : Z) (k : Z -> nat -> Mc Z) : Mc Z := any_power (
  pc ← get_PC;
  with_word (pc + off) (fun w =>
    let n := s16 w in if (n <? 1) || (64 <? n) then mret ERR_OPERANDS else k pc (Z.to_nat n))).
(** LCNV hands the address of its pointer, not of its results, to the writer;
    what is stored is no value of the program. *)
Definition run_ci_lcnv_ins : Mc Z := convert_count 14 (fun pc n =>
  with_words (pc + 2) 0 n (fun _ => with_words (pc + 6) 0 4 (fun t =>
    t0 ← data_at t 0; t1 ← data_at t 1; t2 ← data_at t 2; t3 ← data_at t 3;
    if (s16 t1 <? s16 t0) || (s16 t3 <? s16 t2) then mret ERR_OPERANDS else ub))).
Definition with_floats (a : Z) (cnt : nat) (k : list Z -> Mc Z) : Mc Z :=
  rl ← get_float a 0 cnt; if rl.1 =? pdPASS then k rl.2 else mret rl.1.
Definition linear_A (t0 t1 t2 t3 : Z) : Z :=
  f32_div (f32_mul (f32_sub t2 t3) (f32_of_int 10000)) (f32_sub t0 t1).
Definition linear_B (t0 t2 a : Z) : Z := f32_sub t2 (f32_div (f32_mul t0 a) (f32_of_int 10000)).
Definition linear_value (x a b : Z) : Z := f32_add (f32_div (f32_mul x a) (f32_of_int 10000)) b.
Definition run_ci_rlcnv_ins : Mc Z := convert_count 20 (fun pc n =>
  with_floats (pc + 2) n (fun l => with_floats (pc + 6) 4 (fun t =>
    t0 ← data_at t 0; t1 ← data_at t 1; t2 ← data_at t 2; t3 ← data_at t 3;
    if f32_lt t1 t0 || f32_lt t3 t2 then mret ERR_OPERANDS
    else
      let a := linear_A t0 t1 t2 t3 in let b := linear_B t0 t2 a in
      xs ← of_option (mapM (fun i => zlookup l i) (seqZ 0 (Z.of_nat n)));
      rl ← save_float (pc + 14) ((fun x => linear_value x a b) <$> xs) 0; mret rl.1))).

(** ** Single values *)
Definition run_ci_alt_ins : Mc Z := powered (
  pc ← get_PC;
  rv ← get_char1 (pc + 2);
  if negb (rv.1 =? pdPASS) then mret rv.1
  else v ← of_option rv.2; save_char1 (pc + 2) (1 - Z.land v 1)).
Definition limits (k : Z -> Z -> Z -> Z) : Mc Z := powered (
  pc ← get_PC;
  with_word (pc + 2) (fun d => with_word (pc + 6) (fun u =>
    if s16 u <? s16 d then mret ERR_OPERANDS
    else with_word (pc + 10) (fun x => word_out 14 (k (s16 d) (s16 u) (s16 x)))))).
Definition run_ci_dband_ins : Mc Z := limits (fun d u x => if x <? d then x - d else if u <? x then x - u else 0).
Definition run_ci_limit_ins : Mc Z := limits (fun d u x => if x <? d then d else if u <? x then u else x).
Definition run_ci_zone_ins : Mc Z := limits (fun d u x => if x <? 0 then x + d else if 0 <? x then x + u else 0).

(** ** Tables *)
Definition f64_of_int (z : Z) : spec_float := binary_normalize 53 1024 z 0 false.
Definition f64_half : spec_float := binary_normalize 53 1024 1 (-1) false.
(** [(short)(x*(y1-y0)/(x1-y0) + 0.5)]. *)
Definition scl_value (x y0 x1 y1 : Z) : option Z :=
  let t := SFdiv 53 1024 (SFmul 53 1024 (f64_of_int x) (f64_of_int (y1 - y0))) (f64_of_int (x1 - y0)) in
  v ← sf_trunc (SFadd 53 1024 t f64_half);
  if (-32768 <=? v) && (v <=? 32767) then Some v else None.
(** The points from [i] on; [x0], [y0] is the point before. *)
Fixpoint scl_search (n : nat) (i pc x x0 y0 : Z) : Mc Z :=
  match n with
  | O => mret ERR_OPERANDS
  | S n' =>
      word_at_pos (pc + 6) (i * 2 + 1) (fun wx => word_at_pos (pc + 6) (i * 2 + 2) (fun wy =>
        let x1 := s16 wx in let y1 := s16 wy in
        if (x0 <=? x) && (x <=? x1) then
          y ← (if x =? x0 then mret y0 else if x =? x1 then mret y1 else of_option (scl_value x y0 x1 y1));
          word_out 10 y
        else scl_search n' (i + 1) pc x x1 y1))
  end.
Definition run_ci_scl_ins : Mc Z := powered (
  pc ← get_PC;
  with_word (pc + 6) (fun w =>
    let lsv_PointNum := s16 w in
    if lsv_PointNum <=? 1 then mret ERR_OPERANDS
    else
      with_word (pc + 2) (fun wx =>
        word_at_pos (pc + 6) 1 (fun x0 => word_at_pos (pc + 6) 2 (fun y0 =>
          scl_search (Z.to_nat (lsv_PointNum - 1)) 1 pc (s16 wx) (s16 x0) (s16 y0)))))).
(** SER: the minimum and the maximum are unset until the value has been found. *)
Record ser_st := { ser_cnt : Z; ser_first : Z; ser_last : Z; ser_imin : Z; ser_imax : Z; ser_bounds : option (Z * Z) }.
Definition ser_match (x i v : Z) (r : ser_st) : ser_st :=
  if v =? x then
    if ser_cnt r + 1 =? 1 then
      {| ser_cnt := 1; ser_first := i; ser_last := ser_last r; ser_imin := ser_imin r; ser_imax := ser_imax r;
         ser_bounds := Some (v, v) |}
    else
      {| ser_cnt := ser_cnt r + 1; ser_first := ser_first r; ser_last := i; ser_imin := ser_imin r;
         ser_imax := ser_imax r; ser_bounds := ser_bounds r |}
  else r.
Definition ser_step (x i v : Z) (r0 : ser_st) : option ser_st :=
  let r := ser_match x i v r0 in
  '(mn, mx) ← ser_bounds r;
  Some {| ser_cnt := ser_cnt r; ser_first := ser_first r; ser_last := ser_last r;
          ser_imin := if v <? mn then i else ser_imin r; ser_imax := if mx <? v then i else ser_imax r;
          ser_bounds := Some (Z.min v mn, Z.max v mx) |}.
Fixpoint ser_loop (n : nat) (x i : Z) (l : list Z) (r : ser_st) : option ser_st :=
  match n with O => Some r | S n' => v ← zlookup l i; r' ← ser_step x i (s16 v) r; ser_loop n' x (i + 1) l r' end.
Definition run_ci_ser_ins : Mc Z := powered (
  pc ← get_PC;
  with_word (pc + 14) (fun w =>
    let n := s16 w in
    if (n <? 1) || (256 <? n) then mret ERR_OPERANDS
    else
      with_word (pc + 6) (fun x => with_words (pc + 2) 0 (Z.to_nat n) (fun l =>
        r ← of_option (ser_loop (Z.to_nat n) (s16 x) 0 l
          {| ser_cnt := 0; ser_first := 0; ser_last := 0; ser_imin := 0; ser_imax := 0; ser_bounds := None |});
        save_words (pc + 10) [ser_cnt r; ser_first r; ser_last r; ser_imin r; ser_imax r] 0)))).
Definition run_ci_ramp_ins : Mc Z := mret pdPASS.
Definition run_ci_hackle_ins : Mc Z := mret pdPASS.
Definition run_ci_triangle_ins : Mc Z := mret pdPASS.

(** ** Check sums of a row of elements, continued from the destination *)
Definition check_count (k : Z -> nat -> Mc Z) : Mc Z := powered (
  pc ← get_PC;
  with_word (pc + 6) (fun w =>
    let n := s16 w in
    if n <? 0 then mret ERR_OPERANDS else if n =? 0 then mret pdPASS else k pc (Z.to_nat n))).
Definition check_loop (step : Z -> Z -> option Z) (pc : Z) (n : nat) (l : list Z) (c : Z) : Mc Z :=
  c' ← of_option (over_bytes l (fun c w => step c (u8 w)) n 0 c); save_word1 (pc + 10) c'.
Definition run_ci_ccitt_ins : Mc Z := check_count (fun pc n =>
  with_words (pc + 2) 0 n (fun l => with_word (pc + 10) (check_loop ccitt_step pc n l))).
Definition crc16_word_step (c b : Z) : option Z :=
  let lsv_CrcLow := Z.land c 0xFF in
  let lsv_CrcHigh := Z.shiftr c 8 in
  lo ← zlookup gcv_CRCLo (Z.lxor lsv_CrcLow b);
  hi ← zlookup gcv_CRCHi (Z.lxor lsv_CrcLow b);
  Some (u16 (Z.shiftl lo 8 + u8 (Z.lxor lsv_CrcHigh hi))).
Definition run_ci_crc16_ins : Mc Z := check_count (fun pc n =>
  with_words (pc + 2) 0 n (fun l => with_word (pc + 10) (check_loop crc16_word_step pc n l))).
Definition run_ci_lrc_ins : Mc Z := check_count (fun pc n =>
  with_word (pc + 10) (fun w => with_words (pc + 2) 0 n (fun l =>
    s ← of_option (over_bytes l (fun c w => Some (u8 (c + u8 w))) n 0 (u8 w));
    save_word1 (pc + 10) (u8 (- s))))).
