(* ===== verification/Stl.v ===== *)
(** * Master control and step instructions

    Models MC, MCR and the sequential function chart instructions STL, SET S,
    OUT S, RST S and RET of plc/executer/src/plc_flowctrlins.c. A block that
    loses its condition has its outputs, timers and edges cleared through the
    lists of instruction addresses the program checker builds. *)
From stdpp Require Import base list numbers sets.
From S2P Require Import Prelude Element Machine ParseAddr ParseAddrFacts SimpleIns Device TimeIns DataIns FlowCtrl Call.

Definition CI_STL := 0xF00E.

(** ** Clearing a block *)
(** The coil of a simple instruction. *)
Definition clean_coil (r : region) (n : Z) : Mc unit := plc_set_bit_element_value r n 0.
Definition clean_output (op lcp_Ins : Z) : Mc unit :=
  if op =? si_code (SI_OUT cLM) then
    d ← get_nested; n ← GET_PU8_DATA lcp_Ins; plc_set_lm_element_value d n 0
  else
    let short r := n ← GET_PU8_DATA lcp_Ins; clean_coil r n in
    let extended r :=
      h ← GET_PU16_DATA (lcp_Ins + 2); l ← GET_PU8_DATA lcp_Ins; clean_coil r (u16 (Z.shiftl h 4 + l)) in
    match si_decode op with
    | Some (SI_OUT cY) => short Y_ELEMENT
    | Some (SI_OUT cSM) => short SM_ELEMENT
    | Some (SI_OUT cM) => short M_ELEMENT
    | Some (SI_OUT_EXT cY) => extended Y_ELEMENT
    | Some (SI_OUT_EXT cSM) => extended SM_ELEMENT
    | Some (SI_OUT_EXT cM) => extended M_ELEMENT
    | _ => mret tt
    end.
Definition clean_simple (lcp_Ins : Z) : Mc Z :=
  op ← GET_PU8_DATA (lcp_Ins + 1); clean_output op lcp_Ins;; clean_edge lcp_Ins.
(** The two lists of a block, one after the other; [fuel] bounds the depth of
    the subroutines cleared on the way. *)
Definition clean_block (fuel : nat) (simple complex : list Z) : Mc Z :=
  each clean_simple simple;; each (clean_complex (plc_call_ins_clean_element fuel)) complex.

(** ** MC and MCR *)
Definition plc_mc_ins_clean_element (fuel : nat) : Mc Z :=
  pc ← get_PC;
  blocks ← gets (fun s => mc_mcr (flow s));
  match List.find (fun b => mcp_McUCodePc b =? pc) blocks with
  | Some b => clean_block fuel (mc_SimpInsHead b) (mc_CompInsHead b)
  | None => mret pdPASS
  end.
(** [mcp_PC += GET_PU16_DATA(mcp_PC+8)]. *)
Definition jump_over : Mc unit := pc ← get_PC; n ← GET_PU16_DATA (pc + 8); add_PC n.
Definition run_ci_mc_ins (fuel : nat) : Mc Z :=
  pc ← get_PC;
  lsv_EdgeNum ← GET_PU16_DATA (pc + 6);
  pf ← GET_POWER_FLOW;
  if pf : bool then SET_EDGE_VALUE lsv_EdgeNum;; add_PC 10;; mret pdPASS
  else
    before ← GET_EDGE_VALUE lsv_EdgeNum;
    RST_EDGE_VALUE lsv_EdgeNum;;
    if before : bool then
      r ← plc_mc_ins_clean_element fuel;
      if r =? pdPASS then jump_over;; mret pdPASS else mret r
    else jump_over;; mret pdPASS.
Definition run_ci_mcr_ins : Mc Z := add_PC 6;; mret pdPASS.

(** ** The state of the step sequence *)
Definition mod_sfc (f : plc_sfc_run_status_info_st -> plc_sfc_run_status_info_st) : Mc unit :=
  modify (fun s => with_flow (with_sfc_status (f (sfc_status (flow s))) (flow s)) s).
Definition get_sfc {A} (f : plc_sfc_run_status_info_st -> A) : Mc A := gets (fun s => f (sfc_status (flow s))).
Definition with_sfcEnable v c :=
  {| mcv_sfcEnable := v; mcv_SeriesSTLCnt := mcv_SeriesSTLCnt c; msv_StlNum := msv_StlNum c |}.
Definition with_SeriesSTLCnt v c :=
  {| mcv_sfcEnable := mcv_sfcEnable c; mcv_SeriesSTLCnt := v; msv_StlNum := msv_StlNum c |}.
Definition with_StlNum l c :=
  {| mcv_sfcEnable := mcv_sfcEnable c; mcv_SeriesSTLCnt := mcv_SeriesSTLCnt c; msv_StlNum := l |}.
Definition set_StlNum (i v : Z) : Mc unit :=
  l ← get_sfc msv_StlNum; l' ← of_option (zupdate l i v); mod_sfc (with_StlNum l').
Definition get_StlNum (i : Z) : Mc Z := l ← get_sfc msv_StlNum; of_option (zlookup l i).

(** The steps whose STL instructions follow one another; the count becomes 2
    whatever their number. *)
Fixpoint stl_series (n : nat) (i lcp_Ucode : Z) : Mc unit :=
  match n with
  | O => mret tt
  | S n' =>
      op ← GET_PU16_DATA (lcp_Ucode + 10);
      if op =? CI_STL then
        num ← GET_PU16_DATA (lcp_Ucode + 10 + 4);
        set_StlNum i num;; mod_sfc (with_SeriesSTLCnt 2);; stl_series n' (i + 1) (lcp_Ucode + 10)
      else mret tt
  end.
Definition plc_stl_bus_meet_analyse : Mc bool :=
  lcp_Ucode ← get_PC;
  num ← GET_PU16_DATA (lcp_Ucode + 4);
  set_StlNum 0 num;;
  op ← GET_PU16_DATA (lcp_Ucode + 10);
  if negb (op =? CI_STL) then mod_sfc (with_SeriesSTLCnt 1);; mret false
  else stl_series (Z.to_nat (MAX_SFC_SERIES_STL_NUM - 1)) 1 lcp_Ucode;; mret true.
Fixpoint all_on (n : nat) (i : Z) : Mc bool :=
  match n with
  | O => mret true
  | S n' => num ← get_StlNum i; v ← plc_get_bit_element_value S_ELEMENT num;
            if v =? 0 then mret false else all_on n' (i + 1)
  end.
Definition plc_stl_is_all_on : Mc bool := n ← get_sfc mcv_SeriesSTLCnt; all_on (Z.to_nat n) 0.
Definition plc_stl_ins_clean_element (fuel : nat) (llv_SNum : Z) : Mc Z :=
  if S_RANG <? llv_SNum then mret ERR_OVER_ELEMENT_RANG
  else
    lists ← gets (fun s => stl_list (flow s));
    h ← of_option (zlookup lists llv_SNum);
    clean_block fuel (mtv_SimpInsHead h) (mtv_CompInsHead h).

(** ** STL: the step number is kept in a byte *)
Definition run_ci_stl_ins (fuel : nat) : Mc Z :=
  pc ← get_PC;
  num ← GET_PU16_DATA (pc + 4);
  let lcv_StlNum := u8 num in
  mod_sfc (with_SeriesSTLCnt 0);; mod_sfc (with_sfcEnable 1);;
  series ← plc_stl_bus_meet_analyse;
  if negb series then
    lsv_EdgeNum ← GET_PU16_DATA (pc + 6);
    on ← plc_get_bit_element_value S_ELEMENT lcv_StlNum;
    if truthy on then
      first ← GET_EDGE_INIT_FLAG lsv_EdgeNum;
      when first (RST_EDGE_INIT_FLAG lsv_EdgeNum;; plc_stl_ins_clean_element fuel lcv_StlNum;; mret tt);;
      SET_EDGE_VALUE lsv_EdgeNum;; SET_POWER_FLOW;; add_PC 10;; mret pdPASS
    else
      before ← GET_EDGE_VALUE lsv_EdgeNum;
      (if before : bool then RST_EDGE_VALUE lsv_EdgeNum;; plc_stl_ins_clean_element fuel lcv_StlNum;; mret tt else mret tt);;
      jump_over;; mret pdPASS
  else
    all ← plc_stl_is_all_on;
    n ← get_sfc mcv_SeriesSTLCnt;
    if all : bool then SET_POWER_FLOW;; add_PC (10 * n);; mret pdPASS
    else add_PC (10 * n);; jump_over;; mret pdPASS.

(** ** Leaving a step *)
(** The steps on record are switched off. *)
Definition steps_off : Mc unit :=
  en ← get_sfc mcv_sfcEnable;
  when (truthy en)
    (n ← get_sfc mcv_SeriesSTLCnt;
     for_up (Z.to_nat n) 0 (fun i => num ← get_StlNum i; plc_set_bit_element_value S_ELEMENT num 0)).
Definition target_step : Mc Z := pc ← get_PC; GET_PU16_DATA (pc + 4).
Definition run_ci_set_s_ins : Mc Z := powered (
  lsv_SNum ← target_step; steps_off;; plc_set_bit_element_value S_ELEMENT lsv_SNum 1;; mret pdPASS).
Definition run_ci_out_s_ins : Mc Z :=
  lsv_SNum ← target_step;
  pf ← GET_POWER_FLOW;
  (if pf : bool then steps_off;; plc_set_bit_element_value S_ELEMENT lsv_SNum 1
   else
     en ← get_sfc mcv_sfcEnable;
     when (negb (truthy en)) (plc_set_bit_element_value S_ELEMENT lsv_SNum 0));;
  mret pdPASS.
Definition run_ci_rst_s_ins : Mc Z := powered (
  lsv_SNum ← target_step; steps_off;; plc_set_bit_element_value S_ELEMENT lsv_SNum 0;; mret pdPASS).
Definition run_ci_ret_ins : Mc Z := mod_sfc (with_sfcEnable 0);; mret pdPASS.
