(* ===== verification/Calendar.v ===== *)
(** * Clock and calendar instructions

    Models the rest of plc/executer/src/plc_timeins.c but the setting of the
    hardware clock: TRD, the comparisons of dates and times, and HTOS, STOH.
    Dates are year, month, day and times hour, minute, second in three
    consecutive words. *)
From stdpp Require Import base list numbers sets.
From S2P Require Import Prelude Element Machine ParseAddr ParseAddrFacts Device DataIns Rotate Compare.

(** ** TRD: the clock registers SD100 .. SD106 *)
(** Element by element, since the destination may lie over the source; a
    writer that shifts its source out shifts the register. *)
Definition trd_word (a i : Z) : Mc Z :=
  v ← rd SD_ELEMENT (100 + i);
  rl ← save_word a [v] i;
  (match head rl.2 with Some v' => wr SD_ELEMENT (100 + i) v' | None => mret tt end);;
  mret rl.1.
Fixpoint trd_words (n : nat) (i a : Z) : Mc Z :=
  match n with
  | O => mret pdPASS
  | S n' => r ← trd_word a i; if r =? pdPASS then trd_words n' (i + 1) a else mret r
  end.
Definition run_ci_trd_ins : Mc Z := powered (pc ← get_PC; trd_words 7 0 (pc + 2)).

(** ** Comparisons *)
(** The longest day of a month; the test for leap years asks for a year
    divisible by 4, not by 100 and by 400. *)
Definition leap_test (y : Z) : bool := (Z.rem y 4 =? 0) && negb (Z.rem y 100 =? 0) && (Z.rem y 400 =? 0).
Definition month_days (y m : Z) : Z :=
  if z_in m [1; 3; 5; 7; 8; 10; 12] then 31
  else if z_in m [4; 6; 9; 11] then 30
  else if leap_test y then 29 else 28.
Definition bad_month (m : Z) : bool := (m <? 1) || (12 <? m).
Definition bad_day (y m d : Z) : bool := (d <? 1) || (month_days y m <? d).
(** Three signed words, compared in order. *)
Definition lexicographic (a1 a2 a3 b1 b2 b3 : Z) : comparison :=
  if a1 <? b1 then Lt else if b1 <? a1 then Gt
  else if a2 <? b2 then Lt else if b2 <? a2 then Gt
  else if a3 <? b3 then Lt else if b3 <? a3 then Gt else Eq.
Definition nth_word (l : list Z) (i : Z) : Mc Z := of_option (zlookup l i).
Definition three_words (a : Z) (k : list Z -> Mc Z) : Mc Z := with_words a 0 3 (fun l => k (s16 <$> l)).
Definition save_relation (base : Z) (o : comparison) : Mc Z :=
  c ← opcode_relop base;
  c ← of_option c;
  pc ← get_PC;
  save_char1 (pc + 10) (if relop_holds c (Some o) then 1 else 0).
Definition compare_triples (base : Z) (l1 l2 : list Z) : Mc Z :=
  a1 ← nth_word l1 0; a2 ← nth_word l1 1; a3 ← nth_word l1 2;
  b1 ← nth_word l2 0; b2 ← nth_word l2 1; b3 ← nth_word l2 2;
  save_relation base (lexicographic a1 a2 a3 b1 b2 b3).
Definition CI_DCMPE := 0xF0FC.
Definition CI_TCMPE := 0xF102.
Definition run_ci_dcmp_ins : Mc Z := powered (
  pc ← get_PC;
  three_words (pc + 2) (fun l1 => three_words (pc + 6) (fun l2 =>
    m1 ← nth_word l1 1; m2 ← nth_word l2 1;
    if bad_month m1 || bad_month m2 then mret ERR_OPERANDS
    else
      y1 ← nth_word l1 0; d1 ← nth_word l1 2;
      if bad_day y1 m1 d1 then mret ERR_OPERANDS
      else
        y2 ← nth_word l2 0; d2 ← nth_word l2 2;
        if bad_day y2 m2 d2 then mret ERR_OPERANDS
        else compare_triples CI_DCMPE l1 l2))).
Definition outside (hi v : Z) : bool := (v <? 0) || (hi <? v).
Definition run_ci_tcmp_ins : Mc Z := powered (
  pc ← get_PC;
  three_words (pc + 2) (fun l1 => three_words (pc + 6) (fun l2 =>
    h1 ← nth_word l1 0; h2 ← nth_word l2 0;
    if outside 23 h1 || outside 23 h2 then mret ERR_OPERANDS
    else
      m1 ← nth_word l1 1; x1 ← nth_word l1 2; m2 ← nth_word l2 1; x2 ← nth_word l2 2;
      if outside 59 m1 || outside 59 x1 || outside 59 m2 || outside 59 x2 then mret ERR_OPERANDS
      else compare_triples CI_TCMPE l1 l2))).

(** ** Times and seconds *)
(** The seconds of a day, in 16 bits. *)
Definition seconds (h m x : Z) : Z := u16 (h * 60 * 60 + m * 60 + x).
Definition time_of (t : Z) : list Z := [t / 3600; (t mod 3600) / 60; t mod 60].
Definition run_ci_htos_ins : Mc Z := powered (
  pc ← get_PC;
  with_words (pc + 2) 0 3 (fun l =>
    h ← nth_word l 0; m ← nth_word l 1; x ← nth_word l 2;
    if (23 <? h) || (59 <? m) || (59 <? x) then mret ERR_OPERANDS
    else save_word1 (pc + 6) (seconds h m x))).
Definition run_ci_stoh_ins : Mc Z := powered (
  pc ← get_PC; with_word (pc + 2) (fun t => save_words (pc + 6) (time_of t) 0)).
