(* ===== verification/Instances.v ===== *)
(** * Instructions with a state of their own

    Models HOUR of plc/executer/src/plc_timeins.c, an operating-hours counter
    with 256 instances, and DUTY of plc_dataprocessing.c, a pulse generator in
    scans with one instance per bit SM430 .. SM434; and the initialisations of
    both tables (plc_sysinit.c, plc_timeins.c). *)
From stdpp Require Import base list numbers sets.
From S2P Require Import Prelude Element Machine ParseAddr ParseAddrFacts Device TimeIns DataIns Arith Block.

(** ** HOUR *)
Definition with_HourInsSt l (i : ins_st) : ins_st := {| gtp_HourInsSt := l; gtp_DutyInsInfo := gtp_DutyInsInfo i |}.
Definition get_hour (i : Z) : Mc plc_hour_ins_st :=
  l ← gets (fun s => gtp_HourInsSt (instances s)); of_option (zlookup l i).
Definition set_hour (i : Z) (h : plc_hour_ins_st) : Mc unit :=
  l ← gets (fun s => gtp_HourInsSt (instances s));
  l' ← of_option (zupdate l i h);
  modify (fun s => with_instances (with_HourInsSt l' (instances s)) s).
(** Hours and seconds after the whole seconds that have passed. *)
Definition hour_advance (h0 x0 passed : Z) : Z * Z :=
  let h := if 32767 <? h0 then 0 else h0 in
  let x := u16 (x0 + passed) in
  if 3600 <? x then (u16 (h + 1), u16 (x - 3600)) else (h, x).
Definition run_ci_hour_ins : Mc Z :=
  pc ← get_PC;
  lsv_InstantiateNum ← GET_PU16_DATA (pc + 14);
  if 255 <? lsv_InstantiateNum then mret ERR_OPERANDS
  else
    llv_SystemTick ← GET_1MS_TICKS_COUNT;
    pf ← GET_POWER_FLOW;
    if pf : bool then
      h ← get_hour lsv_InstantiateNum;
      if mcv_LastPFStatus h =? 0 then
        set_hour lsv_InstantiateNum {| mcv_LastPFStatus := 1; mlv_LastTime := llv_SystemTick |};; mret pdPASS
      else
        with_word (pc + 2) (fun lsv_DestHour =>
        with_word (pc + 6) (fun e0 =>
        word_at_pos (pc + 6) 1 (fun e1 =>
          let d := u32 (llv_SystemTick - mlv_LastTime h) in
          let e := hour_advance e0 e1 (d / 1000) in
          set_hour lsv_InstantiateNum
            {| mcv_LastPFStatus := mcv_LastPFStatus h; mlv_LastTime := u32 (llv_SystemTick - d mod 1000) |};;
          let store := save_words (pc + 6) [e.1; e.2] 0 in
          if lsv_DestHour <=? e.1 then then_ok (save_char1 (pc + 10) 1) store else store)))
    else
      h ← get_hour lsv_InstantiateNum;
      set_hour lsv_InstantiateNum {| mcv_LastPFStatus := 0; mlv_LastTime := mlv_LastTime h |};; mret pdPASS.
Definition plc_hour_ins_data_init : Mc unit :=
  for_up 256 0 (fun i => set_hour i {| mcv_LastPFStatus := 0; mlv_LastTime := 0 |}).

(** ** DUTY *)
(** One generator: enabled, scans on and off in the current period. *)
Record duty := { du_en : Z; du_on : Z; du_off : Z }.
Definition with_DutyInsInfo d (i : ins_st) : ins_st := {| gtp_HourInsSt := gtp_HourInsSt i; gtp_DutyInsInfo := d |}.
Definition get_duty (i : Z) : Mc duty :=
  d ← gets (fun s => gtp_DutyInsInfo (instances s));
  en ← of_option (zlookup (mcv_IsEnable d) i);
  on ← of_option (zlookup (msv_OnTime d) i);
  off ← of_option (zlookup (msv_OffTime d) i);
  mret {| du_en := en; du_on := on; du_off := off |}.
Definition set_duty (i : Z) (u : duty) : Mc unit :=
  d ← gets (fun s => gtp_DutyInsInfo (instances s));
  en ← of_option (zupdate (mcv_IsEnable d) i (du_en u));
  on ← of_option (zupdate (msv_OnTime d) i (du_on u));
  off ← of_option (zupdate (msv_OffTime d) i (du_off u));
  modify (fun s => with_instances (with_DutyInsInfo
    {| mcv_IsEnable := en; msv_OnTime := on; msv_OffTime := off |} (instances s)) s).
Definition plc_duty_ins_init : Mc unit :=
  for_up (Z.to_nat MAX_DUTY_SUPPORT_NUM) 0 (fun i => set_duty i {| du_en := 0; du_on := 0; du_off := 0 |}).
(** One scan: the output bit, the scan count shown in the SD register, and the
    generator afterwards. *)
Definition duty_scan (lsv_OnTime lsv_OffTime : Z) (u : duty) : bool * Z * duty :=
  let out := du_on u <? lsv_OnTime in
  let on := if out then u16 (du_on u + 1) else du_on u in
  let off := if out then du_off u else u16 (du_off u + 1) in
  let total := u16 (on + off) in
  if lsv_OnTime + lsv_OffTime <=? total then (out, 0, {| du_en := du_en u; du_on := 0; du_off := 0 |})
  else (out, total, {| du_en := du_en u; du_on := on; du_off := off |}).
Definition run_ci_duty_ins : Mc Z := powered (
  pc ← get_PC;
  with_word (pc + 2) (fun lsv_OnTime => with_word (pc + 6) (fun lsv_OffTime =>
    n ← GET_PU16_DATA (pc + 12);
    if (n <? DUTY_INS_BASE_ELEMENT) || (DUTY_INS_BASE_ELEMENT + MAX_DUTY_SUPPORT_NUM - 1 <? n) then mret ERR_OPERANDS
    else
      let lsv_ElementNum := n - DUTY_INS_BASE_ELEMENT in
      u0 ← get_duty lsv_ElementNum;
      let u := {| du_en := 1; du_on := du_on u0; du_off := du_off u0 |} in
      set_duty lsv_ElementNum u;;
      if lsv_OnTime =? 0 then set_SM n 0;; mret pdPASS
      else if lsv_OffTime =? 0 then set_SM n 1;; mret pdPASS
      else
        let r := duty_scan lsv_OnTime lsv_OffTime u in
        set_SM n (if r.1.1 then 1 else 0);;
        wr SD_ELEMENT n r.1.2;;
        set_duty lsv_ElementNum r.2;;
        mret pdPASS))).

(** ** The generator over many scans *)
(** The outputs of the next scans. *)
Fixpoint duty_run (k : nat) (a b : Z) (u : duty) : list bool :=
  match k with O => [] | S k' => let r := duty_scan a b u in r.1.1 :: duty_run k' a b r.2 end.
(** The generator [t] scans into its period. *)
Definition duty_at (a t : Z) : duty := {| du_en := 1; du_on := Z.min t a; du_off := Z.max (t - a) 0 |}.
Lemma duty_scan_at a b t : 0 < a -> 0 < b -> a + b < 2 ^ 16 -> 0 <= t < a + b ->
  duty_scan a b (duty_at a t) = (t <? a, (t + 1) mod (a + b), duty_at a ((t + 1) mod (a + b))).
Proof.
  intros Ha Hb Hab Ht. unfold duty_scan, duty_at. cbn [du_on du_off du_en].
  assert (Hm : (t + 1 = a + b /\ (t + 1) mod (a + b) = 0) \/ (t + 1 < a + b /\ (t + 1) mod (a + b) = t + 1)).
  { destruct (decide (t + 1 = a + b)) as [->|]; [left|right]; (split; [lia|]); [apply Z_mod_same_full|apply Z.mod_small; lia]. }
  assert (Hon : (Z.min t a <? a) = (t <? a)) by lia. rewrite Hon.
  set (on := if t <? a then u16 (Z.min t a + 1) else Z.min t a).
  set (off := if t <? a then Z.max (t - a) 0 else u16 (Z.max (t - a) 0 + 1)).
  assert (Eon : on = Z.min (t + 1) a) by (subst on; destruct (Z.ltb_spec t a); [rewrite u16_id by lia|]; lia).
  assert (Eoff : off = Z.max (t + 1 - a) 0) by (subst off; destruct (Z.ltb_spec t a); [|rewrite u16_id by lia]; lia).
  rewrite Eon, Eoff, u16_id by lia. replace (Z.min (t + 1) a + Z.max (t + 1 - a) 0) with (t + 1) by lia.
  destruct Hm as [[Hm ->]|[Hm ->]].
  - rewrite (proj2 (Z.leb_le _ _)) by lia. replace (Z.min 0 a) with 0 by lia. by replace (Z.max (0 - a) 0) with 0 by lia.
  - by rewrite (proj2 (Z.leb_gt _ _)) by lia.
Qed.

(** The generator delivers [a] scans on and [b] off, over and over. *)
Lemma duty_run_at a b k t : 0 < a -> 0 < b -> a + b < 2 ^ 16 -> 0 <= t < a + b ->
  duty_run k a b (duty_at a t) = (fun i : nat => (t + Z.of_nat i) mod (a + b) <? a) <$> seq 0 k.
Proof.
  intros Ha Hb Hab. revert t. induction k as [|k IH]; intros t Ht; [done|].
  cbn [duty_run seq fmap list_fmap]. rewrite (duty_scan_at a b t) by lia. cbn [fst snd]. f_equal.
  - by rewrite Z.add_0_r, Z.mod_small by lia.
  - rewrite IH by (apply Z.mod_pos_bound; lia). rewrite <- fmap_S_seq, <- list_fmap_compose. apply list_fmap_ext.
    intros i x _. cbn. rewrite Zplus_mod_idemp_l. do 2 f_equal. lia.
Qed.
