(* ===== verification/Strings.v ===== *)
(** * String instructions

    Models plc/executer/src/plc_strins.c. A string lies in words, two
    characters a word, the low byte first, up to a zero byte; a constant stands
    in the program with its length. A block from the heap holds whatever the
    memory held before; an allocation of nothing fails (configASSERT), which
    counts as undefined. *)
From stdpp Require Import base list numbers sets.
From S2P Require Import Prelude Element Machine ParseAddr ParseAddrFacts Device DataIns Arith.

(** ** Blocks from the heap *)
Definition malloc (n : Z) : Mc (list Z) :=
  if n <=? 0 then ub
  else h ← gets heap; modify (with_heap (fun k => h (S k)));; mret ((fun i => u8 (h O (Z.of_nat i))) <$> seq 0 (Z.to_nat n)).
Definition put8 (b : list Z) (i v : Z) : Mc (list Z) := of_option (zupdate b i (u8 v)).
Definition put16 (b : list Z) (i w : Z) : Mc (list Z) := b1 ← put8 b i w; put8 b1 (i + 1) (Z.shiftr w 8).
Fixpoint put_words (b : list Z) (i : Z) (ws : list Z) : Mc (list Z) :=
  match ws with [] => mret b | w :: ws' => b' ← put16 b i w; put_words b' (i + 2) ws' end.
(** [get_word] into a block: what it delivers before an error is written. *)
Definition get_into (b : list Z) (i a off cnt : Z) : Mc (Z * list Z) :=
  rl ← get_word a (u16 off) (Z.to_nat (u16 cnt)); b' ← put_words b i rl.2; mret (rl.1, b').
(** The characters of a constant. *)
Fixpoint put_chars (n : nat) (b : list Z) (i a : Z) : Mc (list Z) :=
  match n with O => mret b | S n' => c ← GET_PU8_DATA a; b' ← put8 b i c; put_chars n' b' (i + 1) (a + 1) end.
(** [n] words from the start of a block. *)
Fixpoint words_of (n : nat) (b : list Z) : option (list Z) :=
  match n, b with
  | O, _ => Some []
  | S n', lo :: hi :: b' => cons (lo + Z.shiftl hi 8) <$> words_of n' b'
  | _, _ => None
  end.
(** [save_word(a, block, 0, n)]. *)
Definition save_buffer (a : Z) (b : list Z) (n : Z) : Mc Z :=
  ws ← of_option (words_of (Z.to_nat (u16 n)) b); rl ← save_word a ws 0; mret rl.1.
Definition then_pass {A} (rb : Z * A) (k : A -> Mc Z) : Mc Z := if rb.1 =? pdPASS then k rb.2 else mret rb.1.

(** ** The length of a string *)
(** [wrap] is the type the length is counted in. *)
Definition str_step (wrap : Z -> Z) (a n : Z) : Mc (Z + (Z * Z)) :=
  rl ← get_word a (u16 (Z.quot n 2)) 1;
  if rl.1 =? pdPASS then
    w ← of_option (head rl.2);
    if Z.land w 0xFF =? 0 then mret (inr (pdPASS, n))
    else
      let n1 := wrap (n + 1) in
      mret (if Z.land (Z.shiftr w 8) 0xFF =? 0 then inr (pdPASS, n1) else inl (wrap (n1 + 1)))
  else mret (inr (rl.1, n)).
Definition str_len (wrap : Z -> Z) (fuel : nat) (a : Z) : Mc (Z * Z) := loop fuel (str_step wrap a) 0.
(** [GET_PU8_DATA(a+1) == ADDR_STR]. *)
Definition is_str (a : Z) : Mc bool := t ← GET_PU8_DATA (a + 1); mret (t =? addr_code ADDR_STR).

Section strings.
Context (fuel : nat).
(** ** STRADD *)
(** The code, the length without the final zero, and the bytes the operand
    takes in the program. *)
Definition stradd_length (a : Z) : Mc (Z * (Z * Z)) :=
  s ← is_str a;
  if s : bool then n ← GET_PU8_DATA a; mret (pdPASS, (n - 1, n))
  else r ← str_len s16 fuel a; mret (r.1, (r.2, 2)).
Definition stradd_copy (b : list Z) (i a len : Z) : Mc (Z * list Z) :=
  s ← is_str a;
  if s : bool then b' ← put_chars (Z.to_nat len) b i (a + 2); mret (pdPASS, b')
  else get_into b i a 0 (Z.quot (len + 1) 2).
(** The terminator of a string of even length is written to half of the
    length. *)
Definition terminate (b : list Z) (len : Z) : Mc (list Z) :=
  if Z.rem len 2 =? 0 then put16 b (Z.quot len 2) 0 else put8 b len 0.
Definition string_words (len : Z) : Z := if Z.rem len 2 =? 0 then Z.quot (len + 2) 2 else Z.quot (len + 1) 2.
Definition run_ci_stradd_ins : Mc Z := powered (
  pc ← get_PC;
  r1 ← stradd_length (pc + 2); then_pass r1 (fun '(lsv_Str1Len, lcv_Str1UcodeLen) =>
  if 32 <? lsv_Str1Len then mret ERR_OPERANDS else
  let a2 := pc + 4 + lcv_Str1UcodeLen in
  r2 ← stradd_length a2; then_pass r2 (fun '(lsv_Str2Len, lcv_Str2UcodeLen) =>
  if 32 <? lsv_Str2Len then mret ERR_OPERANDS else
  b ← malloc (lsv_Str1Len + lsv_Str2Len + 2);
  c1 ← stradd_copy b 0 (pc + 2) lsv_Str1Len; then_pass c1 (fun b1 =>
  c2 ← stradd_copy b1 lsv_Str1Len a2 lsv_Str2Len; then_pass c2 (fun b2 =>
  let len := lsv_Str1Len + lsv_Str2Len in
  b3 ← terminate b2 len;
  save_buffer (pc + 6 + lcv_Str2UcodeLen + lcv_Str1UcodeLen) b3 (string_words len)))))).

(** ** STRLEN, STRRIGHT, STRLEFT *)
Definition run_ci_strlen_ins : Mc Z := powered (
  pc ← get_PC;
  r ← str_len u16 fuel (pc + 2); then_pass r (fun lsv_Strlen =>
  if 32767 <=? lsv_Strlen then mret ERR_OPERANDS else save_word1 (pc + 6) lsv_Strlen)).
(** STRRIGHT and STRLEFT count the length of their source in a variable they
    have not initialised; nothing behind that is defined. *)
Definition take_part : Mc Z := powered (
  pc ← get_PC;
  with_word (pc + 10) (fun lsv_DestStrLen =>
  if 32767 <? lsv_DestStrLen then mret ERR_OPERANDS
  else if lsv_DestStrLen =? 0 then save_word1 (pc + 6) lsv_DestStrLen
  else ub)).
Definition run_ci_strright_ins : Mc Z := take_part.
Definition run_ci_strleft_ins : Mc Z := take_part.

(** ** STRMIDR *)
(** Words from [i] on, for [n] steps of two characters. *)
Fixpoint read_pairs (n : nat) (b : list Z) (i a start : Z) : Mc (Z * list Z) :=
  match n with
  | O => mret (pdPASS, b)
  | S n' =>
      rl ← get_word a (u16 (Z.quot (start + i) 2)) 1;
      if rl.1 =? pdPASS then w ← of_option (head rl.2); b' ← put16 b i w; read_pairs n' b' (i + 2) a start
      else mret (rl.1, b)
  end.
Definition midr_read (b : list Z) (a start len : Z) : Mc (Z * list Z) :=
  if Z.rem start 2 =? 0 then read_pairs (Z.to_nat (Z.quot (len + 1) 2)) b 0 a start
  else
    rl ← get_word a (u16 (Z.quot start 2)) 1;
    if rl.1 =? pdPASS then
      w ← of_option (head rl.2); b' ← put8 b 0 (Z.shiftr w 8);
      read_pairs (Z.to_nat (Z.quot len 2)) b' 1 a start
    else mret (rl.1, b).
Definition run_ci_strmidr_ins : Mc Z := powered (
  pc ← get_PC;
  with_words (pc + 10) 0 1 (fun l => v ← of_option (head l);
  let lsv_StartIndex := s16 v in
  if lsv_StartIndex <? 1 then mret ERR_OPERANDS else
  with_words (pc + 10) 1 1 (fun l' => v' ← of_option (head l');
  let lsv_ReadLen := s16 v' in
  r ← str_len u16 fuel (pc + 2); then_pass r (fun lsv_SrcStrLen =>
  if lsv_ReadLen <? -2 then mret ERR_OPERANDS
  else if lsv_ReadLen =? 0 then mret pdPASS
  else
    let start := if lsv_ReadLen =? -1 then 0 else lsv_StartIndex in
    let len := if lsv_ReadLen =? -1 then s16 lsv_SrcStrLen else lsv_ReadLen in
    if lsv_SrcStrLen <? start then mret ERR_OPERANDS
    else if lsv_SrcStrLen - start <? len then mret ERR_OPERANDS
    else
      b ← malloc (len + 2);
      c ← midr_read b (pc + 2) start len; then_pass c (fun b1 =>
      b2 ← terminate b1 len;
      save_buffer (pc + 6) b2 (string_words len)))))).

(** ** STRMIDW *)
(** The characters of the destination behind the replaced part. *)
Definition midw_rest (b : list Z) (a start replace dest : Z) : Mc (Z * list Z) :=
  let e := start + replace in
  if dest - start + 1 <=? replace then mret (pdPASS, b)
  else if Z.rem e 2 =? 0 then get_into b (e - 1) a (Z.quot e 2) (Z.quot (dest - e + 1) 2)
  else
    rl ← get_word a (u16 (Z.quot e 2)) 1;
    if rl.1 =? pdPASS then
      w ← of_option (head rl.2); b' ← put8 b (e - 1) (Z.shiftr w 8);
      get_into b' e a (Z.quot (e + 1) 2) (Z.quot (dest - e) 2)
    else mret (rl.1, b).
(** The destination copied to the heap, [replace] characters of the source over
    it, and back. *)
Definition strmidw_copy (pc start src dest replace : Z) : Mc Z :=
  b ← malloc (dest + 2);
  c1 ← get_into b 0 (pc + 6) 0 (Z.quot src 2); then_pass c1 (fun b1 =>
  c2 ← get_into b1 (start - 1) (pc + 2) 0 (Z.quot (replace + 1) 2); then_pass c2 (fun b2 =>
  c3 ← midw_rest b2 (pc + 6) start replace dest; then_pass c3 (fun b3 =>
  b4 ← put8 b3 dest 0;
  save_buffer (pc + 6) b4 (Z.quot dest 2 + 1)))).
(** The number of characters replaced: -1 stands for all of the source; not more
    than the destination has from the start on. *)
Definition strmidw_replace (start src dest replace : Z) : Z :=
  let replace1 := if replace =? -1 then src else replace in
  let room := dest - start + 1 in
  if room <? replace1 then s16 room else replace1.
Definition run_ci_strmidw_ins : Mc Z := powered (
  pc ← get_PC;
  with_words (pc + 10) 0 1 (fun l => v ← of_option (head l);
  let lsv_StartIndex := s16 v in
  if lsv_StartIndex <? 1 then mret ERR_OPERANDS else
  with_words (pc + 10) 1 1 (fun l' => v' ← of_option (head l');
  r ← str_len s16 fuel (pc + 2); then_pass r (fun lsv_SrcStrLen =>
  r' ← str_len s16 fuel (pc + 6); then_pass r' (fun lsv_DestStrLen =>
  if lsv_SrcStrLen <? s16 v' then mret ERR_OPERANDS
  else if s16 v' =? 0 then mret pdPASS
  else strmidw_copy pc lsv_StartIndex lsv_SrcStrLen lsv_DestStrLen
         (strmidw_replace lsv_StartIndex lsv_SrcStrLen lsv_DestStrLen (s16 v'))))))).

(** ** STRINSTR and STRMOV *)
(** The length of the string to search in is counted in a variable that is not
    initialised either. *)
Definition run_ci_strinstr_ins : Mc Z := powered (
  pc ← get_PC;
  s ← is_str (pc + 2);
  r ← (if s : bool then n ← GET_PU8_DATA (pc + 2); mret (pdPASS, n) else str_len u16 fuel (pc + 2));
  then_pass r (fun lsv_SearchStrLen =>
  if 32 <? lsv_SearchStrLen then mret ERR_OPERANDS else
  with_word (pc + 12) (fun w =>
  if s16 w <=? 0 then mret pdPASS else ub))).
Definition run_ci_strmov_ins : Mc Z := powered (
  pc ← get_PC;
  s ← is_str (pc + 2);
  r ← (if s : bool then n ← GET_PU8_DATA (pc + 2); mret (pdPASS, (n, n))
       else rl ← str_len s16 fuel (pc + 2); mret (rl.1, (s16 (rl.2 + 1), 2)));
  then_pass r (fun '(lsv_SrcStrLen, lcv_SrcUcodeLen) =>
  if 32 <? lsv_SrcStrLen then mret ERR_OPERANDS else
  b ← malloc (lsv_SrcStrLen + 2);
  c ← (if s : bool then b' ← put_chars (Z.to_nat lsv_SrcStrLen) b 0 (pc + 4); mret (pdPASS, b')
       else
         c1 ← get_into b 0 (pc + 2) 0 (Z.quot lsv_SrcStrLen 2);
         if c1.1 =? pdPASS then b' ← put8 c1.2 (lsv_SrcStrLen - 1) 0; mret (pdPASS, b') else mret c1);
  then_pass c (fun b1 => save_buffer (pc + 4 + lcv_SrcUcodeLen) b1 (Z.quot (lsv_SrcStrLen + 1) 2)))).
End strings.
#[global] Typeclasses Opaque run_ci_stradd_ins run_ci_strlen_ins run_ci_strright_ins run_ci_strleft_ins run_ci_strmidr_ins
  run_ci_strmidw_ins run_ci_strinstr_ins run_ci_strmov_ins.
