(* ===== verification/ComplexIns.v ===== *)
(** * Dispatch of complex instructions

    Models plc/executer/src/plc_complexins.c: the [switch] on the opcode, cut
    into consecutive pieces, and the loop around it. Every case runs a handler
    and moves the program counter behind the instruction; the length is in the
    case, not in the handler. The handlers that are not modelled are the
    parameter [ins], by opcode; the CALL instruction runs a subroutine through
    [run]. The cases for MODLINK, MBCCONN and MODTCPLINK are compiled out
    (KALYKE_MODBUS_TCP_SHEET is 1), so these opcodes are illegal. *)
From stdpp Require Import base list numbers sets.
From S2P Require Import Prelude Element Machine ParseAddr ParseAddrFacts SimpleIns Device CounterIns TimeIns DataIns.
From S2P Require Import FlowCtrl Call BitIns Arith FloatIns Convert Rotate Compare Block DataMisc Stl Calendar Instances Strings.

(** [lcv_RetValue = handler(..); mcp_PC += k]. *)
Definition stepping (k : Z) (m : Mc Z) : Mc Z := r ← m; add_PC k;; mret r.
Definition illegal (k : Z) : Mc Z := stepping k (mret ERR_ILLEGAL_INSTRCTION).
(** The comparisons return on an error, before the program counter moves. *)
Definition checked (k : Z) (m : Mc Z) : Mc Z := r ← m; if r =? pdPASS then add_PC k;; mret r else mret r.
Definition ld_compare (k : Z) (m : Mc Z) : Mc Z := checked k m.
Definition and_compare (k : Z) (m : Mc Z) : Mc Z :=
  pf ← GET_POWER_FLOW; checked k (if pf : bool then m else mret pdPASS).
Definition or_compare (k : Z) (m : Mc Z) : Mc Z :=
  pf ← GET_POWER_FLOW; checked k (if negb pf then m else mret pdPASS).
(** A string operand of its own length, or [other] bytes. *)
Definition skip_string (ty len more other : Z) : Mc unit :=
  pc ← get_PC; t ← GET_PU8_DATA (pc + ty);
  if t =? addr_code ADDR_STR then n ← GET_PU8_DATA (pc + len); add_PC (n + more) else add_PC other.

Section dispatch.
Context (ins : Z -> Mc Z) (run : Z -> Mc Z) (fuel : nat).

Definition ci_control (op : Z) : option (Mc Z) :=
  match op with
  | 0xF000 => Some (stepping 6 run_ci_lbl_ins)
  | 0xF001 => Some (stepping 4 run_ci_sbr_ins)
  | 0xF002 => Some (stepping 4 (mret pdPASS))
  | 0xF003 => Some (stepping 6 run_ci_ld_lm_ins)
  | 0xF004 => Some (stepping 6 run_ci_ldi_lm_ins)
  | 0xF005 => Some (stepping 6 run_ci_and_lm_ins)
  | 0xF006 => Some (stepping 6 run_ci_ani_lm_ins)
  | 0xF007 => Some (stepping 6 run_ci_or_lm_ins)
  | 0xF008 => Some (stepping 6 run_ci_ori_lm_ins)
  | 0xF009 => Some (stepping 6 run_ci_out_lm_ins)
  | 0xF00A => Some (stepping 6 run_ci_set_lm_ins)
  | 0xF00B => Some (stepping 6 run_ci_rst_lm_ins)
  | 0xF00E => Some (run_ci_stl_ins fuel)
  | 0xF00F => Some (stepping 6 run_ci_rst_s_ins)
  | 0xF010 => Some (stepping 6 run_ci_set_s_ins)
  | 0xF011 => Some (stepping 6 run_ci_out_s_ins)
  | 0xF012 => Some (stepping 2 run_ci_ret_ins)
  | _ => None
  end.
Definition ci_devices (op : Z) : option (Mc Z) :=
  match op with
  | 0xF014 => Some (stepping 10 run_ci_ton_ins)
  | 0xF015 => Some (stepping 10 run_ci_tof_ins)
  | 0xF016 => Some (stepping 10 run_ci_tonr_ins)
  | 0xF017 => Some (stepping 6 run_ci_rst_t_ins)
  | 0xF018 => Some (stepping 14 run_ci_dcnt_ins)
  | 0xF019 => Some (stepping 10 run_ci_ctu_ins)
  | 0xF01A => Some (stepping 10 run_ci_ctr_ins)
  | 0xF01B => Some (stepping 6 run_ci_rst_c_ins)
  | 0xF01C => Some (run_ci_mc_ins fuel)
  | 0xF01D => Some run_ci_mcr_ins
  | 0xF01E => Some run_ci_cj_ins
  | 0xF01F => Some run_ci_for_ins
  | 0xF020 => Some run_ci_next_ins
  | 0xF222 => Some run_ci_continue_ins
  | 0xF223 => Some run_ci_break_ins
  | 0xF021 => Some (run_ci_call_ins run fuel)
  | 0xF022 => Some run_ci_csret_ins
  | 0xF023 => Some run_ci_sret_ins
  | 0xF024 => Some (stepping 2 run_ci_ciret_ins)
  | 0xF025 => Some run_ci_iret_ins
  | 0xF026 => Some (stepping 2 run_ci_ei_ins)
  | 0xF027 => Some (stepping 2 run_ci_di_ins)
  | 0xF028 => Some (stepping 2 run_ci_stop_ins)
  | 0xF029 => Some (stepping 2 run_ci_wdt_ins)
  | 0xF02A => Some (stepping 2 run_ci_cfend_ins)
  | 0xF02B => Some (stepping 10 run_ci_fend_ins)
  | _ => None
  end.
Definition ci_moves (op : Z) : option (Mc Z) :=
  match op with
  | 0xF02D => Some (stepping 10 run_ci_mov_ins)
  | 0xF02E => Some (stepping 14 run_ci_dmov_ins)
  | 0xF02F => Some (stepping 14 run_ci_bmov_ins)
  | 0xF031 => Some (stepping 14 run_ci_fmov_ins)
  | 0xF032 => Some (stepping 18 run_ci_dfmov_ins)
  | 0xF033 => Some (stepping 6 run_ci_swap_ins)
  | 0xF035 => Some (stepping 10 run_ci_xch_ins)
  | 0xF036 => Some (stepping 14 run_ci_dxch_ins)
  | 0xF037 => Some (stepping 14 run_ci_push_ins)
  | 0xF038 => Some (stepping 18 run_ci_wsfl_ins)
  | _ => None
  end.
Definition ci_compares (op : Z) : option (Mc Z) :=
  match op with
  | 0xF039 | 0xF03A | 0xF03B | 0xF03C | 0xF03D | 0xF03E => Some (ld_compare 10 run_ld_compare_ins)
  | 0xF03F | 0xF040 | 0xF041 | 0xF042 | 0xF043 | 0xF044 => Some (and_compare 10 run_and_compare_ins)
  | 0xF045 | 0xF046 | 0xF047 | 0xF048 | 0xF049 | 0xF04A => Some (or_compare 10 run_or_compare_ins)
  | 0xF04B | 0xF04C | 0xF04D | 0xF04E | 0xF04F | 0xF050 => Some (ld_compare 14 run_ldd_compare_ins)
  | 0xF051 | 0xF052 | 0xF053 | 0xF054 | 0xF055 | 0xF056 => Some (and_compare 14 run_andd_compare_ins)
  | 0xF057 | 0xF058 | 0xF059 | 0xF05A | 0xF05B | 0xF05C => Some (or_compare 14 run_ord_compare_ins)
  | 0xF05D | 0xF05E | 0xF05F | 0xF060 | 0xF061 | 0xF062 => Some (ld_compare 14 run_ldr_compare_ins)
  | 0xF063 | 0xF064 | 0xF065 | 0xF066 | 0xF067 | 0xF068 => Some (and_compare 14 run_andr_compare_ins)
  | 0xF069 | 0xF06A | 0xF06B | 0xF06C | 0xF06D | 0xF06E => Some (or_compare 14 run_orr_compare_ins)
  | _ => None
  end.
Definition ci_arithmetic (op : Z) : option (Mc Z) :=
  match op with
  | 0xF06F => Some (stepping 14 run_ci_add_ins)
  | 0xF070 => Some (stepping 14 run_ci_sub_ins)
  | 0xF071 => Some (stepping 16 run_ci_mul_ins)
  | 0xF072 => Some (stepping 14 run_ci_div_ins)
  | 0xF073 => Some (stepping 10 run_ci_sqt_ins)
  | 0xF074 => Some (stepping 6 run_ci_inc_ins)
  | 0xF075 => Some (stepping 6 run_ci_dec_ins)
  | 0xF076 => Some (stepping 10 run_ci_vabs_ins)
  | 0xF077 => Some (stepping 10 run_ci_neg_ins)
  | 0xF079 => Some (stepping 20 run_ci_dadd_ins)
  | 0xF07A => Some (stepping 20 run_ci_dsub_ins)
  | 0xF07B => Some (stepping 20 run_ci_dmul_ins)
  | 0xF07C => Some (stepping 20 run_ci_ddiv_ins)
  | 0xF07D => Some (stepping 14 run_ci_dsqt_ins)
  | 0xF07E => Some (stepping 8 run_ci_dinc_ins)
  | 0xF07F => Some (stepping 8 run_ci_ddec_ins)
  | 0xF080 => Some (stepping 14 run_ci_dvabs_ins)
  | 0xF081 => Some (stepping 14 run_ci_dneg_ins)
  | 0xF083 => Some (stepping 20 run_ci_radd_ins)
  | 0xF084 => Some (stepping 20 run_ci_rsub_ins)
  | 0xF085 => Some (stepping 20 run_ci_rmul_ins)
  | 0xF086 => Some (stepping 20 run_ci_rdiv_ins)
  | 0xF087 => Some (stepping 14 run_ci_rsqt_ins)
  | 0xF088 | 0xF089 | 0xF08A => Some (stepping 14 (ins op))
  | _ => None
  end.
Definition ci_words (op : Z) : option (Mc Z) :=
  match op with
  | 0xF08B | 0xF08C => Some (stepping 14 (ins op))
  | 0xF08D => Some (stepping 14 run_ci_rneg_ins)
  | 0xF08E => Some (stepping 20 (ins op))
  | 0xF08F => Some (stepping 14 run_ci_rvabs_ins)
  | 0xF090 => Some (stepping 14 run_ci_wand_ins)
  | 0xF091 => Some (stepping 14 run_ci_wor_ins)
  | 0xF092 => Some (stepping 14 run_ci_wxor_ins)
  | 0xF093 => Some (stepping 10 run_ci_winv_ins)
  | 0xF094 => Some (stepping 20 run_ci_dwand_ins)
  | 0xF095 => Some (stepping 20 run_ci_dwor_ins)
  | 0xF096 => Some (stepping 20 run_ci_dwxor_ins)
  | 0xF097 => Some (stepping 14 run_ci_dwinv_ins)
  | 0xF098 => Some (stepping 14 run_ci_ror_ins)
  | 0xF099 => Some (stepping 14 run_ci_rol_ins)
  | 0xF09A => Some (stepping 14 run_ci_rcr_ins)
  | 0xF09B => Some (stepping 14 run_ci_rcl_ins)
  | 0xF09C => Some (stepping 18 run_ci_dror_ins)
  | 0xF09D => Some (stepping 18 run_ci_drol_ins)
  | 0xF09E => Some (stepping 18 run_ci_drcr_ins)
  | 0xF09F => Some (stepping 18 run_ci_drcl_ins)
  | 0xF0A0 => Some (stepping 14 run_ci_shr_ins)
  | 0xF0A1 => Some (stepping 14 run_ci_shl_ins)
  | 0xF0A2 => Some (stepping 18 run_ci_dshr_ins)
  | 0xF0A3 => Some (stepping 18 run_ci_dshl_ins)
  | 0xF0A4 => Some (stepping 18 run_ci_sftr_ins)
  | 0xF0A5 => Some (stepping 18 run_ci_sftl_ins)
  | _ => None
  end.
Definition ci_conversions (op : Z) : option (Mc Z) :=
  match op with
  | 0xF0A8 => Some (stepping 12 run_ci_flt_ins)
  | 0xF0A9 => Some (stepping 14 run_ci_dflt_ins)
  | 0xF0AA => Some (stepping 12 run_ci_int_ins)
  | 0xF0AB => Some (stepping 14 run_ci_dint_ins)
  | 0xF0AC => Some (stepping 10 run_ci_bcd_ins)
  | 0xF0AD => Some (stepping 14 run_ci_dbcd_ins)
  | 0xF0AE => Some (stepping 10 run_ci_bin_ins)
  | 0xF0AF => Some (stepping 14 run_ci_dbin_ins)
  | 0xF0B0 => Some (stepping 10 run_ci_gry_ins)
  | 0xF0B1 => Some (stepping 14 run_ci_dgry_ins)
  | 0xF0B2 => Some (stepping 10 run_ci_gbin_ins)
  | 0xF0B3 => Some (stepping 14 run_ci_dgbin_ins)
  | 0xF0B4 => Some (stepping 10 run_ci_seg_ins)
  | 0xF0B5 => Some (stepping 38 run_ci_asc_ins)
  | 0xF0B6 => Some (stepping 14 run_ci_ita_ins)
  | 0xF0B7 => Some (stepping 14 run_ci_ati_ins)
  | 0xF0B8 | 0xF0BE => Some (illegal 10)
  | 0xF0BF => Some (stepping 6 (ins op))
  | 0xF0C0 => Some (stepping 10 run_ci_deco_ins)
  | 0xF0C1 => Some (stepping 10 run_ci_enco_ins)
  | 0xF0C2 => Some (stepping 10 run_ci_bits_ins)
  | 0xF0C3 => Some (stepping 10 run_ci_zrst_ins)
  | _ => None
  end.
Definition ci_services (op : Z) : option (Mc Z) :=
  match op with
  | 0xF0C4 => Some (stepping 10 run_ci_zset_ins)
  | 0xF0C5 => Some (stepping 18 (ins op))
  | 0xF0C6 => Some (stepping 14 (ins op))
  | 0xF0C7 => Some (stepping 6 run_ci_trd_ins)
  | 0xF0C8 => Some (stepping 6 (ins op))
  | 0xF0C9 => Some (stepping 14 run_ci_tadd_ins)
  | 0xF0CA => Some (stepping 14 run_ci_tsub_ins)
  | 0xF0CB => Some (stepping 14 run_ci_fifo_ins)
  | 0xF0CC => Some (stepping 14 run_ci_lifo_ins)
  | 0xF0CE => Some (stepping 16 run_ci_hour_ins)
  | 0xF0D2 => Some (stepping 10 run_ci_bld_ins)
  | 0xF0D3 => Some (stepping 10 run_ci_bldi_ins)
  | 0xF0D4 => Some (stepping 10 run_ci_band_ins)
  | 0xF0D5 => Some (stepping 10 run_ci_bandi_ins)
  | 0xF0D6 => Some (stepping 10 run_ci_bor_ins)
  | 0xF0D7 => Some (stepping 10 run_ci_bori_ins)
  | 0xF0DB => Some (stepping 12 run_ci_dbits_ins)
  | 0xF0DE => Some (stepping 14 run_ci_bon_ins)
  | 0xF0EC => Some (stepping 10 run_ci_bset_ins)
  | 0xF0ED => Some (stepping 10 run_ci_brst_ins)
  | 0xF0EF => Some (stepping 18 run_ci_wsfr_ins)
  | 0xF0F0 => Some (stepping 12 run_ci_itd_ins)
  | 0xF0F1 => Some (stepping 12 run_ci_dti_ins)
  | 0xF0F2 => Some (stepping 10 run_ci_bout_ins)
  | 0xF0F3 => Some (stepping 14 run_ci_rmov_ins)
  | 0xF0F4 => Some (stepping 14 (ins op))
  | 0xF0F6 => Some (stepping 16 (ins op))
  | 0xF0F9 => Some (stepping 16 run_ci_sum_ins)
  | 0xF0FA => Some (stepping 18 run_ci_dsum_ins)
  | 0xF0FB => Some (stepping 18 run_ci_rsum_ins)
  | _ => None
  end.
Definition ci_clock (op : Z) : option (Mc Z) :=
  match op with
  | 0xF0FC | 0xF0FD | 0xF0FE | 0xF0FF | 0xF100 | 0xF101 => Some (stepping 14 run_ci_dcmp_ins)
  | 0xF102 | 0xF103 | 0xF104 | 0xF105 | 0xF106 | 0xF107 => Some (stepping 14 run_ci_tcmp_ins)
  | 0xF108 | 0xF109 | 0xF10A => Some (illegal 24)
  | 0xF10B => Some (stepping 12 run_ci_tmon_ins)
  | 0xF10C => Some (stepping 14 run_ci_ccitt_ins)
  | 0xF10D => Some (stepping 14 run_ci_crc16_ins)
  | 0xF10E => Some (stepping 14 run_ci_lrc_ins)
  | 0xF149 | 0xF14A => Some (illegal 26)
  | 0xF14D => Some (illegal 20)
  | 0xF150 => Some (stepping 18 run_ci_lcnv_ins)
  | 0xF151 => Some (stepping 14 run_ci_cmp_ins)
  | 0xF152 => Some (stepping 18 run_ci_lcmp_ins)
  | 0xF153 => Some (stepping 18 run_ci_rcmp_ins)
  | 0xF154 => Some (stepping 6 run_ci_alt_ins)
  | _ => None
  end.
Definition ci_network (op : Z) : option (Mc Z) :=
  match op with
  | 0xF160 => Some (stepping 28 (ins op))
  | 0xF170 | 0xF171 | 0xF172 => Some (stepping 14 (ins op))
  | 0xF174 => Some (stepping 24 run_ci_rlcnv_ins)
  | 0xF180 => Some (stepping 32 (ins op))
  | 0xF181 | 0xF182 => Some (stepping 24 (ins op))
  | 0xF183 => Some (stepping 20 (ins op))
  | 0xF200 => Some (stepping 14 (ins op))
  | 0xF201 => Some (stepping 14 run_ci_rad_ins)
  | 0xF202 => Some (stepping 14 run_ci_deg_ins)
  | 0xF230 => Some (stepping 8 run_ci_ld_dx_y_ins)
  | 0xF231 => Some (stepping 8 run_ci_ldi_dx_y_ins)
  | 0xF232 => Some (stepping 8 run_ci_and_dx_y_ins)
  | 0xF233 => Some (stepping 8 run_ci_ani_dx_y_ins)
  | 0xF234 => Some (stepping 8 run_ci_or_dx_y_ins)
  | 0xF235 => Some (stepping 8 run_ci_ori_dx_y_ins)
  | 0xF236 => Some (stepping 8 run_ci_set_dx_y_ins)
  | 0xF237 => Some (stepping 8 run_ci_rst_dx_y_ins)
  | 0xF238 => Some (stepping 8 run_ci_out_dx_y_ins)
  | _ => None
  end.
Definition ci_blocks (op : Z) : option (Mc Z) :=
  match op with
  | 0xF250 => Some (stepping 14 run_ci_mean_ins)
  | 0xF251 => Some (stepping 14 run_ci_wtob_ins)
  | 0xF252 => Some (stepping 14 run_ci_btow_ins)
  | 0xF253 => Some (stepping 14 run_ci_uni_ins)
  | 0xF254 => Some (stepping 14 run_ci_dis_ins)
  | 0xF255 => Some (stepping 14 run_ci_ans_ins)
  | 0xF256 => Some (stepping 2 run_ci_anr_ins)
  | 0xF260 => Some (stepping 18 run_ci_bkadd_ins)
  | 0xF261 => Some (stepping 18 run_ci_bksub_ins)
  | 0xF262 | 0xF263 | 0xF264 | 0xF265 | 0xF266 | 0xF267 => Some (stepping 18 run_ci_bkcmp_ins)
  | 0xF270 => Some (stepping 18 run_ci_limit_ins)
  | 0xF271 => Some (stepping 18 run_ci_dband_ins)
  | 0xF272 => Some (stepping 18 run_ci_zone_ins)
  | 0xF273 => Some (stepping 14 run_ci_scl_ins)
  | 0xF274 => Some (stepping 18 run_ci_ser_ins)
  | 0xF290 => Some (r ← run_ci_stradd_ins fuel; skip_string 3 2 4 6;; skip_string 1 0 6 8;; mret r)
  | 0xF291 => Some (stepping 10 (run_ci_strlen_ins fuel))
  | 0xF292 => Some (stepping 14 run_ci_strright_ins)
  | 0xF293 => Some (stepping 14 run_ci_strleft_ins)
  | 0xF294 => Some (stepping 14 (run_ci_strmidr_ins fuel))
  | 0xF295 => Some (stepping 14 (run_ci_strmidw_ins fuel))
  | 0xF296 => Some (r ← run_ci_strinstr_ins fuel; skip_string 3 2 16 18;; mret r)
  | 0xF297 => Some (r ← run_ci_strmov_ins fuel; skip_string 3 2 8 10;; mret r)
  | _ => None
  end.
Definition ci_motion (op : Z) : option (Mc Z) :=
  match op with
  | 0xF2B0 => Some (stepping 6 (ins op))
  | 0xF2B1 => Some (stepping 14 run_ci_duty_ins)
  | 0xF2C0 => Some (stepping 10 run_ci_htos_ins)
  | 0xF2C1 => Some (stepping 10 run_ci_stoh_ins)
  | 0xF2D9 => Some (stepping 18 run_ci_swapword_ins)
  | 0xF2D7 | 0xF2D8 => Some (stepping 36 (ins op))
  | 0xF0E4 => Some (stepping 18 (ins op))
  | 0xF2A0 | 0xF2A2 | 0xF2A4 => Some (illegal 10)
  | 0xF0BD | 0xF140 | 0xF141 | 0xF142 | 0xF143 => Some (illegal 12)
  | 0xF0E6 => Some (stepping 14 (ins op))
  | 0xF135 | 0xF2A1 => Some (illegal 14)
  | 0xF0E7 | 0xF0E8 => Some (stepping 14 (ins op))
  | 0xF130 | 0xF144 | 0xF145 => Some (illegal 16)
  | 0xF132 => Some (stepping 16 (ins op))
  | 0xF0BB | 0xF0BC | 0xF136 | 0xF247 => Some (illegal 18)
  | 0xF0DF | 0xF0E0 | 0xF0E2 | 0xF0E3 | 0xF0E5 | 0xF0EB => Some (stepping 20 (ins op))
  | 0xF0E9 | 0xF0EA | 0xF146 | 0xF147 | 0xF148 | 0xF221 | 0xF2A7 => Some (illegal 20)
  | 0xF248 | 0xF2A3 | 0xF2A5 => Some (illegal 22)
  | _ => None
  end.
Definition ci_drives (op : Z) : option (Mc Z) :=
  match op with
  | 0xF131 | 0xF133 | 0xF134 => Some (stepping 24 (ins op))
  | 0xF240 | 0xF241 | 0xF242 | 0xF246 => Some (illegal 24)
  | 0xF138 => Some (stepping 24 (ins op))
  | 0xF0E1 => Some (stepping 26 (ins op))
  | 0xF243 => Some (illegal 26)
  | 0xF245 => Some (illegal 34)
  | _ => None
  end.
Definition or_else {A} (o : option A) (k : option A) : option A := match o with Some a => Some a | None => k end.
Definition ci_case (op : Z) : option (Mc Z) :=
  or_else (ci_control op) (or_else (ci_devices op) (or_else (ci_moves op) (or_else (ci_compares op)
  (or_else (ci_arithmetic op) (or_else (ci_words op) (or_else (ci_conversions op) (or_else (ci_services op)
  (or_else (ci_clock op) (or_else (ci_network op) (or_else (ci_blocks op) (or_else (ci_motion op)
  (ci_drives op)))))))))))).
(** [default]: the program counter stays. *)
Definition ci_exec (op : Z) : Mc Z := match ci_case op with Some m => m | None => mret ERR_ILLEGAL_INSTRCTION end.

(** The loop: complex instructions in a row are run here, without coming back
    to the program loop. *)
Definition ci_step (_ : unit) : Mc (unit + Z) :=
  pc ← get_PC;
  mod_sys (with_BackupUserPc pc);;
  op ← GET_PU16_DATA pc;
  lcv_RetValue ← ci_exec op;
  if lcv_RetValue =? pdPASS then
    pc' ← get_PC; op' ← GET_PU16_DATA pc';
    mret (if 0xF000 <=? op' then inl tt else inr lcv_RetValue)
  else mret (inr lcv_RetValue).
Definition plc_exec_complex_instruction : Mc Z := loop fuel ci_step tt.
End dispatch.
