(* ===== verification/Executer.v ===== *)
(** * The executer

    Models plc/executer/src/plc_executer.c: the run/stop state machine, the
    loop that runs a user program or subroutine, the scan, and the data block,
    with [plc_refresh_scan_time] of plc/sysmanage/src/plc_internalmanage.c.
    Time passes between instructions: [clock] gives the tick counter the next
    time the executer reads it. *)
From stdpp Require Import base list numbers sets.
From S2P Require Import Prelude Element Machine ParseAddr ParseAddrFacts SimpleIns Device CounterIns TimeIns DataIns.
From S2P Require Import FlowCtrl Call ComplexIns.

Definition PLC_STOP := 0.
Definition PLC_RUN := 1.
Definition PLC_STOP_STATUS := 0.
Definition PLC_STOP_TO_RUN_STATUS := 1.
Definition PLC_RUN_STATUS := 2.
Definition PLC_RUN_TO_STOP_STATUS := 3.
Definition SM8 := 8.
Definition SD30 := 30.
Definition SD31 := 31.
Definition SD32 := 32.
Definition SD34 := 34.
Definition mod_run (f : plc_run_status_st -> plc_run_status_st) : Mc unit :=
  mod_sys (fun y => with_run_status (f (run_status y)) y).
Definition get_run {A} (f : plc_run_status_st -> A) : Mc A := gets (fun s => f (run_status (sys s))).
Definition with_times (scan dog : Z) (r : plc_run_status_st) : plc_run_status_st :=
  {| mcv_PlcRunSwitch := mcv_PlcRunSwitch r; mtv_PlcRunStopFlag := mtv_PlcRunStopFlag r;
     mcv_PlcCurrentStatus := mcv_PlcCurrentStatus r; mcv_IsOnlineProgram := mcv_IsOnlineProgram r;
     mlv_SysScanTime := scan; mlv_WatchDogTime := dog |}.

(** ** plc_sys_status_switch *)
(** The [switch] on the current status, by the run switch. *)
Definition next_status (cur sw : Z) : Z :=
  if cur =? PLC_STOP_STATUS then if sw =? PLC_RUN then PLC_STOP_TO_RUN_STATUS else cur
  else if cur =? PLC_STOP_TO_RUN_STATUS then if sw =? PLC_STOP then PLC_RUN_TO_STOP_STATUS else cur
  else if cur =? PLC_RUN_STATUS then if sw =? PLC_STOP then PLC_RUN_TO_STOP_STATUS else cur
  else if cur =? PLC_RUN_TO_STOP_STATUS then
    if sw =? PLC_RUN then PLC_STOP_TO_RUN_STATUS else PLC_STOP_STATUS
  else PLC_STOP_STATUS.
(** The flags of the run/stop byte: its low half asks to run, its high half to
    stop, and a request to stop overrides. *)
Definition flag_switch (byte sw : Z) : Z :=
  let sw := if truthy (Z.land byte 0x0F) then PLC_RUN else sw in
  if truthy (Z.land byte 0xF0) then PLC_STOP else sw.
Definition input_start : Mc unit :=
  sm9 ← plc_get_bit_element_value SM_ELEMENT 9;
  when (truthy sm9) (
    x ← rd SD_ELEMENT 9;
    lcv_RunInputPointX ← plc_get_bit_element_value X_ELEMENT x;
    when (truthy lcv_RunInputPointX) (
      mod_run (with_RunSwitch PLC_RUN);;
      set_runstop_flag input_point_run true;;
      set_runstop_flag cmd_stop false;;
      set_runstop_flag error_status_stop false;;
      set_runstop_flag cmd_reboot false)).
Definition plc_sys_status_switch : Mc unit :=
  byte ← get_run mtv_PlcRunStopFlag;
  when (truthy byte) (mod_run (fun r => with_RunSwitch (flag_switch byte (mcv_PlcRunSwitch r)) r));;
  cur ← get_run mcv_PlcCurrentStatus;
  when (cur =? PLC_STOP_STATUS) input_start;;
  mod_run (fun r => with_CurrentStatus (next_status (mcv_PlcCurrentStatus r) (mcv_PlcRunSwitch r)) r).
Definition plc_run_do : Mc unit := set_runstop_flag 1 true.

Definition plc_clean_user_run_error_flag : Mc unit :=
  plc_set_bit_element_value SM_ELEMENT 20 0;;
  for_up 5 20 (fun i => wr SD_ELEMENT i 0);;
  set_nonstop_flag operands_err false;;
  set_stop_flag exec_err false;;
  mod_sys (fun y => with_err_record {| mcv_ErrorCnt := 0; msv_ErrorMsg := msv_ErrorMsg (err_record y);
    msv_ErrorAddr := msv_ErrorAddr (err_record y) |} y).

(** ** Running a program *)
Section run.
Context (ins : Z -> Mc Z) (clock : plc_st -> Z).
Definition read_clock : Mc Z := now ← gets clock; modify (with_tick now);; mret now.

Definition plc_judge_run_over_time : Mc unit :=
  now ← read_clock;
  dog ← get_run mlv_WatchDogTime;
  lim ← rd SD_ELEMENT SD34;
  when (lim <? u32 (now - dog)) (plc_refresh_error_msg ERR_EXEC_OVER_TIME).
Definition report (code : Z) : Mc unit :=
  plc_refresh_error_msg code;;
  pc ← gets (fun s => gcp_BackupUserPc (sys s)); plc_refresh_exec_error_record code pc.
(** What follows every instruction that did not leave the loop. *)
Definition boundary : Mc (unit + Z) :=
  online ← get_run mcv_IsOnlineProgram;
  when (online =? 0) plc_judge_run_over_time;;
  flags ← get_run mtv_PlcRunStopFlag;
  if get_flag error_status_stop flags then
    plc_user_interrupt_enable 0;; mret (inr EXEC_FLAG_STOP)
  else mret (inl tt).
(** The [switch] on the code of a complex instruction: [Some r] is a return. *)
Definition complex_return (r : Z) : Mc (option Z) :=
  if r =? pdPASS then
    plc_set_bit_element_value SM_ELEMENT 20 0;;
    plc_set_bit_element_value SM_ELEMENT 21 0;;
    plc_set_bit_element_value SM_ELEMENT 22 0;; mret None
  else if z_in r [EXEC_FLAG_FEND; EXEC_FLAG_IRET; EXEC_FLAG_SRET] then mret (Some r)
  else if r =? EXEC_FLAG_STOP then set_runstop_flag cmd_stop true;; mret (Some EXEC_FLAG_STOP)
  else report r;; mret None.
Section program.
Context (run : Z -> Mc Z) (fuel : nat).
Definition user_ins : Mc (option Z) :=
  pc ← get_PC;
  mod_sys (with_BackupUserPc pc);;
  op ← GET_PU16_DATA pc;
  if op <? 0xE000 then
    r ← plc_exec_simple_instruction fuel;
    when (negb (r =? pdPASS)) (report r);; mret None
  else r ← plc_exec_complex_instruction ins run fuel; complex_return r.
Definition user_step (_ : unit) : Mc (unit + Z) :=
  o ← user_ins; match o with Some r => mret (inr r) | None => boundary end.
End program.

(** [fuel] bounds the depth of calls and the length of every loop. The
    environment of the caller is a local variable of its own. *)
Fixpoint plc_run_user_program (fuel : nat) (lcp_UcodeAddr : Z) : Mc Z :=
  match fuel with
  | O => nofuel
  | S f =>
    caller ← gets env;
    modify (with_env {| mlv_InPF := 0; mlv_OutPF := 0; mcp_PC := lcp_UcodeAddr |});;
    fr ← ltp_ForNextIns; put_for (with_NestedNum 0 fr);;
    r ← loop f (user_step (plc_run_user_program f) f) tt;
    modify (with_env caller);; mret r
  end.

(** ** One scan *)
Definition plc_refresh_scan_time (lastTick : Z) : Mc unit :=
  curTick ← read_clock;
  let d := s32 (curTick - lastTick) in
  scan ← get_run mlv_SysScanTime;
  let mlv_ScanTime := if d <? 0 then s32 (curTick + u32 (0xFFFFFFFF - scan)) else if d =? 0 then 1 else d in
  wr SD_ELEMENT SD30 mlv_ScanTime;;
  mx ← rd SD_ELEMENT SD32; when (mx <? mlv_ScanTime) (wr SD_ELEMENT SD32 mlv_ScanTime);;
  mn ← rd SD_ELEMENT SD31; when (mlv_ScanTime <? mn) (wr SD_ELEMENT SD31 mlv_ScanTime);;
  now ← read_clock; mod_run (with_times now now).
Definition plc_run_deamon (fuel : nat) : Mc unit :=
  set_nested 0;;
  a ← plc_get_bit_element_value SM_ELEMENT SM8;
  curTick ← (if truthy a then mret 0 else read_clock);
  plc_run_user_program fuel 28;;
  b ← plc_get_bit_element_value SM_ELEMENT SM8;
  when (negb (truthy b)) (plc_refresh_scan_time curTick);;
  plc_set_bit_element_value SM_ELEMENT 0 1;;
  plc_set_bit_element_value SM_ELEMENT 1 0;;
  plc_set_bit_element_value SM_ELEMENT 2 0;;
  sm15 ← plc_get_bit_element_value SM_ELEMENT 15;
  plc_set_bit_element_value SM_ELEMENT 15 (if truthy sm15 then 0 else 1).
End run.

(** ** The data block: bytes of the file at [DataBlockPtr] *)
Section data_block.
Context (block : list Z).
Definition blk8 (i : Z) : Mc Z := of_option (zlookup block i).
Definition blk16 (i : Z) : Mc Z := a ← blk8 i; b ← blk8 (i + 1); mret (a + Z.shiftl b 8).
Definition GET_BIGPU16_DATA (i : Z) : Mc Z := a ← blk8 i; b ← blk8 (i + 1); mret (u16 (Z.shiftl a 8 + b)).
(** One element: [j], [k] are the word and bit of the mask, [m] the next value. *)
Definition restore_one (r : region) (val : Z) (i : Z) (jkm : Z * Z * Z) : Mc (Z * Z * Z) :=
  let '(j, k, m) := jkm in
  w ← blk16 (24 + 2 * j);
  m' ← (if truthy (Z.land w (Z.shiftl 1 k)) then v ← blk16 (val + 2 * m); wr r i v;; mret (m + 1) else mret m);
  mret (if 16 <=? k + 1 then (j + 1, 0, m') else (j, k + 1, m')).
Fixpoint restore_run (r : region) (val : Z) (n : nat) (i : Z) (jkm : Z * Z * Z) : Mc (Z * Z * Z) :=
  match n with O => mret jkm | S n' => x ← restore_one r val i jkm; restore_run r val n' (i + 1) x end.
(** The length field is read as 32 bits and kept in an [unsigned short]. *)
Definition plc_restore_data_block : Mc unit :=
  ver ← GET_BIGPU16_DATA 2;
  if negb (ver =? 0x02) then mret tt
  else
    let lsv_MinLen := (D_RANG + R_RANG) / 8 + 28 in
    b0 ← blk8 6; b1 ← blk8 7; b2 ← blk8 8; b3 ← blk8 9;
    let lsv_Length := u16 (b0 + Z.shiftl b1 8 + Z.shiftl b2 16 + Z.shiftl b3 24) in
    if lsv_Length <? lsv_MinLen then mret tt
    else
      '(j, _, m) ← restore_run D_ELEMENT (lsv_MinLen - 4) (Z.to_nat D_RANG) 0 (0, 0, 0);
      restore_run R_ELEMENT (lsv_MinLen - 4) (Z.to_nat R_RANG) 0 (if D_RANG mod 8 =? 0 then j else j + 1, 0, m);;
      mret tt.
End data_block.
