(* ===== verification/ExecFacts.v ===== *)
(** * Facts on the executer

    The run/stop state machine, the watchdog at instruction boundaries, what
    never reaches one, the balance of the call depth, and the data block. *)
From stdpp Require Import base list numbers sets.
From S2P Require Import Prelude Element Machine ParseAddr ParseAddrFacts SimpleIns Device CounterIns TimeIns DataIns.
From S2P Require Import FlowCtrl Call ComplexIns Executer.

Definition status (s : plc_st) : plc_run_status_st := run_status (sys s).
Definition with_status (f : plc_run_status_st -> plc_run_status_st) (s : plc_st) : plc_st :=
  with_sys (with_run_status (f (status s)) (sys s)) s.
Lemma mod_run_eq f s : mod_run f s = Ok (tt, with_status f s).
Proof. done. Qed.

Lemma get_run_bind {A B} (f : plc_run_status_st -> A) (k : A -> Mc B) s : (get_run f ≫= k) s = k (f (status s)) s.
Proof. done. Qed.

(** ** The run/stop state machine *)
(** The state machine on the run status alone; [start] says that the start
    input is on. *)
Definition follow_flags (r : plc_run_status_st) : plc_run_status_st :=
  if truthy (mtv_PlcRunStopFlag r) then with_RunSwitch (flag_switch (mtv_PlcRunStopFlag r) (mcv_PlcRunSwitch r)) r else r.
Definition started (r : plc_run_status_st) : plc_run_status_st :=
  with_RunStopFlag
    (set_flag cmd_reboot false (set_flag error_status_stop false (set_flag cmd_stop false
      (set_flag input_point_run true (mtv_PlcRunStopFlag r))))) (with_RunSwitch PLC_RUN r).
Definition advance_status (r : plc_run_status_st) : plc_run_status_st :=
  with_CurrentStatus (next_status (mcv_PlcCurrentStatus r) (mcv_PlcRunSwitch r)) r.
Definition switched (start : bool) (r : plc_run_status_st) : plc_run_status_st :=
  let r := follow_flags r in
  advance_status (if (mcv_PlcCurrentStatus r =? PLC_STOP_STATUS) && start then started r else r).
Lemma started_flags r : mtv_PlcRunStopFlag (advance_status (started r)) =
  set_flag cmd_reboot false (set_flag error_status_stop false (set_flag cmd_stop false
    (set_flag input_point_run true (mtv_PlcRunStopFlag r)))).
Proof. done. Qed.
(** SM9 enables the start input, SD9 is its number. *)
Definition start_input (s : plc_st) (start : bool) : Prop :=
  bit_of (mem s) SM_ELEMENT 9 = Some false /\ start = false \/
  bit_of (mem s) SM_ELEMENT 9 = Some true /\ bit_of (mem s) X_ELEMENT (cell SD_ELEMENT 9 s) = Some start /\
    cell SD_ELEMENT 9 s < X_RANG.
Lemma get_bit_is r n s b : wf_elem (elem s) -> 0 <= n < 2 ^ 16 -> n < 16 * rsize r ->
  bit_of (mem s) r n = Some b -> plc_get_bit_element_value r n s = Ok (Z.b2z b, s).
Proof.
  intros W H1 H2 H3. destruct (get_bit_run r n s W H1 H2) as (b' & Hg & Hb).
  unfold elem in Hb. cbn in Hb. congruence.
Qed.
Lemma truthy_b2z b : truthy (Z.b2z b) = b.
Proof. by destruct b. Qed.
Lemma input_start_run s start : wf_elem (elem s) -> start_input s start ->
  input_start s = Ok (tt, if start then with_status started s else s).
Proof.
  intros W H. unfold input_start. destruct H as [[H ->]|(H1 & H2 & H3)].
  - by rewrite (bind_run _ _ _ _ _ (get_bit_is SM_ELEMENT 9 s _ W ltac:(done) ltac:(done) H)).
  - rewrite (bind_run _ _ _ _ _ (get_bit_is SM_ELEMENT 9 s _ W ltac:(done) ltac:(done) H1)). cbn [Z.b2z].
    change (truthy 1) with true. rewrite when_true.
    rewrite (bind_run _ _ _ _ _ (rd_cell SD_ELEMENT 9 s W ltac:(done))).
    assert (Hr : 0 <= cell SD_ELEMENT 9 s < 2 ^ 16) by (apply cell_u16; [done|done|discriminate..]).
    rewrite (bind_run _ _ _ _ _ (get_bit_is X_ELEMENT (cell SD_ELEMENT 9 s) s start W Hr H3 H2)), truthy_b2z.
    by destruct start.
Qed.
Lemma status_switch_run s start : wf_elem (elem s) ->
  (mcv_PlcCurrentStatus (status s) = PLC_STOP_STATUS -> start_input s start) ->
  plc_sys_status_switch s = Ok (tt, with_status (switched start) s).
Proof.
  intros W H. unfold plc_sys_status_switch.
  set (byte := mtv_PlcRunStopFlag (status s)).
  set (s1 := with_status follow_flags s).
  assert (H1 : when (truthy byte) (mod_run (fun r => with_RunSwitch (flag_switch byte (mcv_PlcRunSwitch r)) r)) s = Ok (tt, s1)).
  { unfold s1, with_status, follow_flags. fold byte. destruct (truthy byte); [done|].
    unfold status, with_run_status, with_sys. by destruct s as [? ? ? ? ? [] ? ?]. }
  rewrite get_run_bind. fold byte. rewrite (bind_run _ _ _ _ _ H1), get_run_bind.
  assert (Hc : mcv_PlcCurrentStatus (status s1) = mcv_PlcCurrentStatus (status s)).
  { unfold s1. cbn. unfold follow_flags. by destruct (truthy _). }
  assert (Hsw : mcv_PlcCurrentStatus (follow_flags (status s)) = mcv_PlcCurrentStatus (status s)) by exact Hc.
  rewrite Hc. destruct (Z.eqb_spec (mcv_PlcCurrentStatus (status s)) PLC_STOP_STATUS) as [E|E].
  - rewrite when_true, (bind_run _ _ _ _ _ (input_start_run s1 start W (H E))), mod_run_eq.
    do 2 f_equal. transitivity (with_status (fun r => advance_status (if start then started (follow_flags r) else follow_flags r)) s);
      [by destruct start|].
    unfold with_status, switched. by rewrite Hsw, E.
  - rewrite when_false. unfold mbind, M_bind. cbn [mret M_ret]. rewrite mod_run_eq.
    do 2 f_equal. transitivity (with_status (fun r => advance_status (follow_flags r)) s); [done|].
    unfold with_status, switched. rewrite Hsw. apply Z.eqb_neq in E. by rewrite E.
Qed.
(** The task calls the switch once per scan. *)
Fixpoint switch_scans (n : nat) : Mc unit :=
  match n with O => mret tt | S n' => plc_sys_status_switch;; switch_scans n' end.
Definition stop_asked (r : plc_run_status_st) : Prop := truthy (Z.land (mtv_PlcRunStopFlag r) 0xF0) = true.
Lemma switched_stop r : stop_asked r ->
  mtv_PlcRunStopFlag (switched false r) = mtv_PlcRunStopFlag r /\
  mcv_PlcCurrentStatus (switched false r) = next_status (mcv_PlcCurrentStatus r) PLC_STOP.
Proof.
  intros A. unfold stop_asked in A.
  assert (Hb : truthy (mtv_PlcRunStopFlag r) = true).
  { unfold truthy in *. destruct (Z.eqb_spec (mtv_PlcRunStopFlag r) 0) as [E|E]; [|done]. by rewrite E in A. }
  unfold switched. rewrite andb_false_r. unfold follow_flags. rewrite Hb. unfold flag_switch. rewrite A.
  split; [done|]. unfold advance_status, with_CurrentStatus, with_RunSwitch. cbn. done.
Qed.
Definition status_distance (c : Z) : nat :=
  if c =? PLC_STOP_STATUS then 0%nat else if (c =? PLC_STOP_TO_RUN_STATUS) || (c =? PLC_RUN_STATUS) then 2%nat else 1%nat.
Lemma next_status_distance c : status_distance (next_status c PLC_STOP) = pred (status_distance c).
Proof.
  unfold status_distance, next_status, PLC_STOP_STATUS, PLC_STOP_TO_RUN_STATUS, PLC_RUN_STATUS, PLC_RUN_TO_STOP_STATUS.
  destruct (Z.eqb_spec c 0) as [->|_]; [done|]. destruct (Z.eqb_spec c 1) as [->|_]; [done|].
  destruct (Z.eqb_spec c 2) as [->|_]; [done|]. by destruct (Z.eqb_spec c 3) as [->|_].
Qed.
Lemma switch_scans_run n : forall s, wf_elem (elem s) -> bit_of (mem s) SM_ELEMENT 9 = Some false ->
  stop_asked (status s) -> exists s', switch_scans n s = Ok (tt, s') /\ mem s' = mem s /\
    status_distance (mcv_PlcCurrentStatus (status s')) = (status_distance (mcv_PlcCurrentStatus (status s)) - n)%nat.
Proof.
  induction n as [|n IH]; intros s W H9 A.
  - exists s. split_and!; [done|done|lia].
  - cbn [switch_scans]. pose proof (status_switch_run s false W (fun _ => or_introl (conj H9 eq_refl))) as H.
    destruct (switched_stop (status s) A) as [F1 F2].
    rewrite (bind_run _ _ _ _ _ H). set (s1 := with_status (switched false) s).
    destruct (IH s1 W H9) as (s' & Hs & M & D).
    { unfold stop_asked. change (status s1) with (switched false (status s)). by rewrite F1. }
    exists s'. split_and!; [done|done|]. rewrite D. change (status s1) with (switched false (status s)).
    rewrite F2, next_status_distance. lia.
Qed.
Lemma distance_0 c : status_distance c = 0%nat -> c = PLC_STOP_STATUS.
Proof. unfold status_distance. destruct (Z.eqb_spec c PLC_STOP_STATUS); [done|]. by destruct (_ || _). Qed.

(** C31: a request to stop wins: with a stop cause in the run/stop byte
    (error, command, reboot) and the start input disabled (SM9 off), the
    system is in the stop status from the second scan on, whatever status it
    was in and whatever requests to run are also there. *)
Theorem stop_request_wins n s : wf_elem (elem s) -> bit_of (mem s) SM_ELEMENT 9 = Some false ->
  stop_asked (status s) -> (2 <= n)%nat ->
  exists s', switch_scans n s = Ok (tt, s') /\ mcv_PlcCurrentStatus (status s') = PLC_STOP_STATUS.
Proof.
  intros W H9 A Hn. destruct (switch_scans_run n s W H9 A) as (s' & H & _ & D). exists s'. split; [done|].
  apply distance_0. rewrite D. assert (status_distance (mcv_PlcCurrentStatus (status s)) <= 2)%nat; [|lia].
  unfold status_distance. repeat case_match; lia.
Qed.
Definition run_demo (flags cur : Z) : plc_st :=
  with_status (fun r => with_RunStopFlag flags (with_CurrentStatus cur r)) (st0 []).
Lemma stop_request_wins_witness : exists s', switch_scans 5 (run_demo 0x12 PLC_RUN_STATUS) = Ok (tt, s') /\
  mcv_PlcCurrentStatus (status s') = PLC_STOP_STATUS.
Proof. apply (stop_request_wins 5); [exact wf_elem0|reflexivity|reflexivity|lia]. Defined.

(** The start input restarts a stopped system over any stop cause: with
    SM9 on and the input it selects on, the status leaves the stop status and
    the error, command and reboot flags are withdrawn. *)
Theorem start_input_overrides_stop s : wf_elem (elem s) -> mcv_PlcCurrentStatus (status s) = PLC_STOP_STATUS ->
  start_input s true ->
  exists s', plc_sys_status_switch s = Ok (tt, s') /\ mem s' = mem s /\
    mcv_PlcCurrentStatus (status s') = PLC_STOP_TO_RUN_STATUS /\
    (forall k, k = error_status_stop \/ k = cmd_stop \/ k = cmd_reboot ->
      get_flag k (mtv_PlcRunStopFlag (status s')) = false) /\
    get_flag input_point_run (mtv_PlcRunStopFlag (status s')) = true.
Proof.
  intros W Hs Hi. eexists. split; [exact (status_switch_run s true W (fun _ => Hi))|]. split; [done|].
  assert (Hf : mcv_PlcCurrentStatus (follow_flags (status s)) = PLC_STOP_STATUS).
  { unfold follow_flags. by destruct (truthy _). }
  change (status (with_status (switched true) s)) with (switched true (status s)).
  unfold switched. rewrite Hf. split; [|split].
  - unfold advance_status, started, with_CurrentStatus, with_RunStopFlag, with_RunSwitch. cbn. by rewrite Hf.
  - intros k Hk. rewrite Z.eqb_refl. cbv [andb]. cbv match. rewrite started_flags, !get_set_flag by (destruct Hk as [-> | [-> | ->] ]; done).
    by destruct Hk as [-> | [-> | ->] ].
  - rewrite Z.eqb_refl. cbv [andb]. cbv match. by rewrite started_flags, !get_set_flag by done.
Qed.
Definition start_demo : plc_st :=
  with_mem (rset X_ELEMENT (<[0%nat := 1]> (rget elem0 X_ELEMENT)) (rset SM_ELEMENT (<[0%nat := 512]> (rget elem0 SM_ELEMENT)) elem0))
    (run_demo 0x10 PLC_STOP_STATUS).
Lemma start_demo_wf : wf_elem (elem start_demo).
Proof.
  repeat (apply wf_elem_rset; [|reflexivity|]); [exact wf_elem0|..]; apply Forall_insert; try done;
    apply (wf_cells _ wf_elem0).
Qed.
Lemma start_input_overrides_stop_witness : exists s', plc_sys_status_switch start_demo = Ok (tt, s') /\
  mcv_PlcCurrentStatus (status s') = PLC_STOP_TO_RUN_STATUS.
Proof.
  destruct (start_input_overrides_stop start_demo) as (s' & H & _ & C & _);
    [exact start_demo_wf|reflexivity|right; split; [reflexivity|split; reflexivity]|].
  exists s'. split; [exact H|exact C].
Defined.

(** The number of the start input is not checked: in the stop status with
    SM9 on and SD9 outside the inputs, the switch reads outside the input
    image. *)
Theorem start_input_unchecked s : wf_elem (elem s) -> mcv_PlcCurrentStatus (status s) = PLC_STOP_STATUS ->
  bit_of (mem s) SM_ELEMENT 9 = Some true -> X_RANG <= cell SD_ELEMENT 9 s ->
  plc_sys_status_switch s = Ub.
Proof.
  intros W Hs H9 Hx. unfold plc_sys_status_switch. rewrite get_run_bind.
  set (byte := mtv_PlcRunStopFlag (status s)).
  assert (H1 : exists s1, when (truthy byte) (mod_run (fun r => with_RunSwitch (flag_switch byte (mcv_PlcRunSwitch r)) r)) s = Ok (tt, s1) /\
    mem s1 = mem s /\ mcv_PlcCurrentStatus (status s1) = PLC_STOP_STATUS).
  { destruct (truthy byte); eexists; split; reflexivity || by split. }
  destruct H1 as (s1 & H1 & M & S1). rewrite (bind_run _ _ _ _ _ H1), get_run_bind, S1.
  change (PLC_STOP_STATUS =? PLC_STOP_STATUS) with true. rewrite when_true.
  assert (W1 : wf_elem (elem s1)) by (unfold elem; cbn; by rewrite M).
  rewrite <- M in H9. assert (Hc : cell SD_ELEMENT 9 s1 = cell SD_ELEMENT 9 s) by (unfold cell, elem; cbn; by rewrite M).
  assert (Hu : input_start s1 = Ub); [|unfold mbind, M_bind; by rewrite Hu].
  unfold input_start.
  rewrite (bind_run _ _ _ _ _ (get_bit_is SM_ELEMENT 9 s1 _ W1 ltac:(done) ltac:(done) H9)). cbn [Z.b2z].
  change (truthy 1) with true. rewrite when_true.
  rewrite (bind_run _ _ _ _ _ (rd_cell SD_ELEMENT 9 s1 W1 ltac:(done))), Hc.
  assert (Hr : 0 <= cell SD_ELEMENT 9 s1 < 2 ^ 16) by (apply cell_u16; [done|done|discriminate..]). rewrite Hc in Hr.
  unfold plc_get_bit_element_value. rewrite u16_id by lia.
  assert (Hrd : rd X_ELEMENT (Z.shiftr (cell SD_ELEMENT 9 s) 4) s1 = Ub).
  { unfold rd. destruct (zlookup _ _) eqn:E; [|done]. apply zlookup_lt in E. rewrite (wf_len _ W1) in E.
    change (rsize X_ELEMENT) with 128 in E. rewrite Z.shiftr_div_pow2 in E by lia. unfold X_RANG in Hx. exfalso. pose proof (Z.div_le_lower_bound (cell SD_ELEMENT 9 s) (2 ^ 4) 128 ltac:(done) ltac:(exact Hx)). lia. }
  unfold mbind, M_bind. by rewrite Hrd.
Qed.
Definition bad_input_demo : plc_st :=
  with_mem (rset SD_ELEMENT (<[9%nat := 2048]> (rget elem0 SD_ELEMENT)) (rset SM_ELEMENT (<[0%nat := 512]> (rget elem0 SM_ELEMENT)) elem0))
    (run_demo 0x10 PLC_STOP_STATUS).
Lemma bad_input_demo_wf : wf_elem (elem bad_input_demo).
Proof.
  repeat (apply wf_elem_rset; [|reflexivity|]); [exact wf_elem0|..]; apply Forall_insert; try done;
    apply (wf_cells _ wf_elem0).
Qed.
Lemma start_input_unchecked_witness : plc_sys_status_switch bad_input_demo = Ub.
Proof. apply start_input_unchecked; [exact bad_input_demo_wf|reflexivity|reflexivity|zconc]. Defined.

(** ** The watchdog *)
Section watchdog.
Context (clock : plc_st -> Z).
(** Out of online mode, more than SD34 milliseconds since the watchdog was
    last fed. *)
Definition overdue (s : plc_st) : bool :=
  (mcv_IsOnlineProgram (status s) =? 0) && (cell SD_ELEMENT SD34 s <? u32 (clock s - mlv_WatchDogTime (status s))).
Lemma judge_run s : wf_elem (elem s) -> exists s',
  when (mcv_IsOnlineProgram (status s) =? 0) (plc_judge_run_over_time clock) s = Ok (tt, s') /\ wf_elem (elem s') /\
  get_flag error_status_stop (mtv_PlcRunStopFlag (status s')) =
    overdue s || get_flag error_status_stop (mtv_PlcRunStopFlag (status s)).
Proof.
  intros W. unfold overdue. destruct (mcv_IsOnlineProgram (status s) =? 0); [rewrite when_true|by exists s].
  cbn [andb]. unfold plc_judge_run_over_time, read_clock. set (s1 := with_tick (clock s) s).
  assert (H1 : (now ← gets clock; modify (with_tick now);; mret now) s = Ok (clock s, s1)) by done.
  assert (W1 : wf_elem (elem s1)) by exact W.
  rewrite (bind_run _ _ _ _ _ H1), get_run_bind, (bind_run _ _ _ _ _ (rd_cell SD_ELEMENT SD34 s1 W1 ltac:(done))).
  change (cell SD_ELEMENT SD34 s1) with (cell SD_ELEMENT SD34 s). change (status s1) with (status s).
  destruct (_ <? _); [rewrite when_true|by exists s1].
  destruct (refresh_error_msg_run ERR_EXEC_OVER_TIME s1 W1) as (s' & H & W' & F & _); [zconc|].
  exists s'. split_and!; [done|done|]. exact F.
Qed.
Lemma boundary_run s : wf_elem (elem s) -> exists s',
  boundary clock s = Ok ((if overdue s || get_flag error_status_stop (mtv_PlcRunStopFlag (status s))
                          then inr EXEC_FLAG_STOP else inl tt), s') /\ wf_elem (elem s') /\
  (overdue s || get_flag error_status_stop (mtv_PlcRunStopFlag (status s)) = true ->
     get_flag error_status_stop (mtv_PlcRunStopFlag (status s')) = true /\ user_intr_enable (sys s') = 0).
Proof.
  intros W. destruct (judge_run s W) as (s1 & H1 & W1 & F1). unfold boundary.
  rewrite get_run_bind, (bind_run _ _ _ _ _ H1), get_run_bind. rewrite <- F1.
  destruct (get_flag error_status_stop _) eqn:E.
  - set (s2 := with_sys (with_intr_enable 0 (sys s1)) s1).
    exists s2. split_and!; [done|done|]. intros _. split; [exact E|done].
  - exists s1. split_and!; [done|done|]. intros O. congruence.
Qed.
End watchdog.

(** ** Spinning inside the dispatch *)
Lemma ci_spins ins run fuel f op : (forall s, ci_exec ins run f op s = Ok (pdPASS, s)) -> 0xF000 <= op ->
  forall s pc, mcp_PC (env s) = pc -> GET_PU16_DATA pc s = Ok (op, s) -> loop fuel (ci_step ins run f) tt s = NoFuel.
Proof.
  intros Hx Hop. induction fuel as [|n IH]; intros s pc Hp H; [done|]. cbn [loop].
  set (s1 := with_sys (with_BackupUserPc pc (sys s)) s).
  assert (H1 : GET_PU16_DATA pc s1 = Ok (op, s1)) by (by apply (PU16_code pc s)).
  assert (Hs : ci_step ins run f tt s = Ok (inl tt, s1)).
  { unfold ci_step. assert (Hpc : get_PC s = Ok (pc, s)) by (unfold get_PC, gets; by rewrite Hp).
    assert (Hpc1 : get_PC s1 = Ok (pc, s1)) by (unfold get_PC, gets; cbn; by rewrite Hp).
    rewrite (bind_run _ _ _ _ _ Hpc). assert (Hm : mod_sys (with_BackupUserPc pc) s = Ok (tt, s1)) by done.
    rewrite (bind_run _ _ _ _ _ Hm), (bind_run _ _ _ _ _ H1), (bind_run _ _ _ _ _ (Hx s1)).
    change (pdPASS =? pdPASS) with true. cbv match. rewrite (bind_run _ _ _ _ _ Hpc1), (bind_run _ _ _ _ _ H1).
    by assert (0xF000 <=? op = true) as -> by (apply Z.leb_le; lia). }
  rewrite (bind_run _ _ _ _ _ Hs). exact (IH s1 pc Hp H1).
Qed.

(** CONTINUE and BREAK hang the controller: their cases neither move the
    program counter nor report anything, so the dispatch loop, which does not
    look at the watchdog, executes the same instruction for ever. *)
Theorem continue_never_returns ins run fuel s op :
  op = 0xF222 \/ op = 0xF223 -> GET_PU16_DATA (mcp_PC (env s)) s = Ok (op, s) ->
  plc_exec_complex_instruction ins run fuel s = NoFuel.
Proof.
  intros Hop H. unfold plc_exec_complex_instruction.
  destruct Hop; subst op; (apply (fun Hx Ho => ci_spins ins run fuel fuel _ Hx Ho s _ eq_refl H); [reflexivity|zconc]).
Qed.
Lemma continue_never_returns_witness : plc_exec_complex_instruction (fun _ => mret pdPASS) (fun _ => mret pdPASS) 1000 (st0 [0x22; 0xF2]) = NoFuel.
Proof. apply (continue_never_returns _ _ 1000 (st0 [0x22; 0xF2]) 0xF222); [by left|reflexivity]. Defined.

(** ** Illegal instructions *)
(** The error record and the address reported to it. *)
Definition err_state (s : plc_st) := (err_record (sys s), gcp_BackupUserPc (sys s)).
#[local] Instance cells_err : Cells (same err_state).
Proof. intros r i v s a s' E. pose proof (wr_inert _ _ _ _ _ _ E) as (_ & _ & Hs & _). unfold same, err_state. by rewrite Hs. Qed.
#[local] Hint Extern 1 (Respects (same err_state) (modify _)) => (apply respects_modify; intros ?; reflexivity) : typeclass_instances.
#[local] Instance error_msg_err c : Respects (same err_state) (plc_refresh_error_msg c).
Proof.
  unfold plc_refresh_error_msg, error_class, set_nonstop_flag, set_stop_flag, set_runstop_flag, mod_sys.
  repeat (apply _ || intros ?).
Qed.
Lemma report_run code s : wf_elem (elem s) -> record_ok (err_record (sys s)) -> 0 <= code < 2 ^ 8 ->
  exists s', report code s = Ok (tt, s') /\ wf_elem (elem s') /\
    get_flag error_status_stop (mtv_PlcRunStopFlag (status s')) =
      (z_in code [ERR_COMPILER; ERR_ILLEGAL_INSTRCTION; ERR_ELEMENT_TYPE; ERR_EXEC_OVER_TIME]
       || get_flag error_status_stop (mtv_PlcRunStopFlag (status s))).
Proof.
  intros W Hr Hc. destruct (refresh_error_msg_run code s W Hc) as (s1 & H1 & W1 & F1 & _).
  pose proof (respects (R := same err_state) _ _ _ H1) as He. injection He as He Hpc.
  unfold report. rewrite (bind_run _ _ _ _ _ H1). unfold mbind, M_bind, gets.
  unfold plc_refresh_exec_error_record, mbind, M_bind, gets.
  destruct (record_error_run code (u32 (gcp_BackupUserPc (sys s1))) (err_record (sys s1))) as (r' & Hrun & _ & _).
  { by rewrite He. }
  rewrite Hrun. eexists. split; [reflexivity|]. split; [exact W1|exact F1].
Qed.

(** An opcode that is not an instruction stops the program at once: it is
    reported as a fatal error and the boundary behind it returns
    EXEC_FLAG_STOP. *)
Theorem unassigned_opcode_stops ins clock run fuel f s op :
  wf_elem (elem s) -> record_ok (err_record (sys s)) ->
  GET_PU16_DATA (mcp_PC (env s)) s = Ok (op, s) -> 0xE000 <= op -> ci_case ins run (S f) op = None ->
  exists s', loop (S fuel) (user_step ins clock run (S f)) tt s = Ok (EXEC_FLAG_STOP, s') /\
    get_flag error_status_stop (mtv_PlcRunStopFlag (status s')) = true.
Proof.
  intros W Hr Hop Hge Hnone. set (pc := mcp_PC (env s)) in *.
  set (s1 := with_sys (with_BackupUserPc pc (sys s)) s).
  assert (Hp : forall s1 : plc_st, mcp_PC (env s1) = pc -> get_PC s1 = Ok (pc, s1)) by (intros ? <-; done).
  assert (H1 : forall s1, ucode s1 = ucode s -> GET_PU16_DATA pc s1 = Ok (op, s1)) by (intros ? ?; by apply (PU16_code pc s)).
  assert (Hx : plc_exec_complex_instruction ins run (S f) s1 = Ok (ERR_ILLEGAL_INSTRCTION, s1)).
  { assert (Hm : mod_sys (with_BackupUserPc pc) s1 = Ok (tt, s1)) by done.
    assert (Hs : ci_step ins run (S f) tt s1 = Ok (inr ERR_ILLEGAL_INSTRCTION, s1)).
    { unfold ci_step. rewrite (bind_run _ _ _ _ _ (Hp s1 eq_refl)), (bind_run _ _ _ _ _ Hm),
        (bind_run _ _ _ _ _ (H1 s1 eq_refl)). unfold ci_exec. by rewrite Hnone. }
    unfold plc_exec_complex_instruction. cbn [loop]. by rewrite (bind_run _ _ _ _ _ Hs). }
  destruct (report_run ERR_ILLEGAL_INSTRCTION s1 W Hr ltac:(done)) as (s2 & H2 & W2 & F2).
  assert (Hu : user_ins ins run (S f) s = Ok (None, s2)).
  { unfold user_ins. rewrite (bind_run _ _ _ _ _ (Hp s eq_refl)).
    assert (Hm : mod_sys (with_BackupUserPc pc) s = Ok (tt, s1)) by done.
    rewrite (bind_run _ _ _ _ _ Hm), (bind_run _ _ _ _ _ (H1 s1 eq_refl)).
    assert (op <? 0xE000 = false) as -> by (apply Z.ltb_ge; lia).
    rewrite (bind_run _ _ _ _ _ Hx). unfold complex_return.
    change (ERR_ILLEGAL_INSTRCTION =? pdPASS) with false. cbv match.
    change (z_in _ _) with false. change (ERR_ILLEGAL_INSTRCTION =? EXEC_FLAG_STOP) with false. cbv match.
    by rewrite (bind_run _ _ _ _ _ H2). }
  destruct (boundary_run clock s2 W2) as (s3 & H3 & _ & Ho).
  change (z_in ERR_ILLEGAL_INSTRCTION _) with true in F2. cbn [orb] in F2. rewrite F2, orb_true_r in H3.
  exists s3. split.
  - assert (Hs : user_step ins clock run (S f) tt s = Ok (inr EXEC_FLAG_STOP, s3)).
    { unfold user_step. by rewrite (bind_run _ _ _ _ _ Hu). }
    cbn [loop]. by rewrite (bind_run _ _ _ _ _ Hs).
  - apply Ho. by rewrite F2, orb_true_r.
Qed.
Lemma unassigned_opcode_stops_witness : exists s',
  loop 1 (user_step (fun _ => mret pdPASS) tick (fun _ => mret pdPASS) 1) tt (st0 [0xFF; 0xFF]) = Ok (EXEC_FLAG_STOP, s') /\
  get_flag error_status_stop (mtv_PlcRunStopFlag (status s')) = true.
Proof.
  apply (unassigned_opcode_stops _ _ _ 0 0 (st0 [0xFF; 0xFF]) 0xFFFF); [exact wf_elem0| |reflexivity|zconc|reflexivity].
  split; [zconc|reflexivity..|constructor].
Defined.
