(* ===== verification/Effects.v ===== *)
(** * What the instruction handlers can change

    A relation on states that holds across every primitive update holds across
    every handler; the updates of the call depth are left out. Three such
    relations are used: that the memory keeps its shape, that the call depth is
    the same and, for the handlers that do not jump, that the program counter
    is the same. *)
From stdpp Require Import base list numbers sets.
From S2P Require Import Prelude Element Machine ParseAddr ParseAddrFacts SimpleIns SimpleFacts Device CounterIns TimeIns.
From S2P Require Import DataIns FlowCtrl Call.

Class HandlerFrame (R : relation plc_st) : Prop := {
  frame_pre :: PreOrder R;
  frame_cells :: Cells R;
  frame_c i f :: Respects R (wr_c_status i f);
  frame_t i f :: Respects R (wr_t_status i f);
  frame_edge i e :: Respects R (wr_edge i e);
  frame_pf v s : R s (with_InPF v s);
  frame_sys y s : R s (with_sys y s);
  frame_instances i s : R s (with_instances i s);
  frame_tick v s : R s (with_tick v s);
  frame_heap v s : R s (with_heap v s);
  frame_for l s : R s (with_flow (with_for_next l (flow s)) s);
  frame_sfc v s : R s (with_flow (with_sfc_status v (flow s)) s);
  frame_alarm v s : R s (with_flow (with_MinAlarm v (flow s)) s);
  frame_exec l s : R s (with_flow (with_call_info (with_IsExec l (call_info (flow s))) (flow s)) s);
  frame_ret l s : R s (with_flow (with_call_info (with_RetPc l (call_info (flow s))) (flow s)) s) }.
(** The instructions that move the program counter change the whole
    environment. *)
Class Frame (R : relation plc_st) : Prop := {
  frame_handler :: HandlerFrame R;
  frame_env e s : R s (with_env e s) }.
#[global] Hint Mode HandlerFrame ! : typeclass_instances.
#[global] Hint Mode Frame ! : typeclass_instances.
Ltac frame_update := solve [ apply frame_pf | apply frame_env | apply frame_sys | apply frame_instances | apply frame_sfc | apply frame_tick | apply frame_heap | apply frame_for
  | apply frame_alarm | apply frame_exec | apply frame_ret ].
#[global] Hint Extern 1 (Respects _ (modify _)) => (apply respects_modify; intros ?; frame_update) : typeclass_instances.

#[export] Hint Unfold SET_POWER_FLOW RST_POWER_FLOW set_PC add_PC get_PC GET_POWER_FLOW RST_EDGE_VALUE
  RST_EDGE_INIT_FLAG mod_sys set_runstop_flag mod_call set_IsExec set_RetPc get_IsExec call_info_get
  GET_1MS_TICKS_COUNT plc_user_interrupt_enable : frame.
Ltac frame_solve := intros; repeat autounfold with frame;
  repeat (apply _ || (intros ?; repeat autounfold with frame)).

Section handlers.
Context (R : relation plc_st) `{!HandlerFrame R}.
#[global] Instance put_pf_frame b : Respects R (put_power_flow b).
Proof. unfold put_power_flow. frame_solve. Qed.
#[global] Instance on_edge_frame body : (forall n, Respects R (body n)) -> Respects R (on_count_edge body).
Proof. intros H. unfold on_count_edge, ins_number. frame_solve. Qed.
#[global] Instance with_word_frame a k : (forall v, Respects R (k v)) -> Respects R (with_word a k).
Proof. apply _. Qed.
#[global] Instance reset_counter_frame n : Respects R (plc_reset_one_counter n).
Proof. unfold plc_reset_one_counter. apply _. Qed.
#[global] Instance ctu_frame : Respects R run_ci_ctu_ins.
Proof. unfold run_ci_ctu_ins. frame_solve. Qed.
#[global] Instance ctr_frame : Respects R run_ci_ctr_ins.
Proof. unfold run_ci_ctr_ins. frame_solve. Qed.
#[global] Instance dcnt_frame : Respects R run_ci_dcnt_ins.
Proof. unfold run_ci_dcnt_ins. frame_solve. Qed.
#[global] Instance rst_c_frame : Respects R run_ci_rst_c_ins.
Proof. unfold run_ci_rst_c_ins, ins_number. frame_solve. Qed.

#[global] Instance reset_timer_frame n : Respects R (plc_reset_one_timer n).
Proof. unfold plc_reset_one_timer. frame_solve. Qed.
#[global] Instance load_dest_frame n k : Respects R k -> Respects R (load_dest n k).
Proof. unfold load_dest. frame_solve. Qed.
#[global] Instance timer_add_frame n q u : Respects R (timer_add n q u).
Proof. unfold timer_add. frame_solve. Qed.
#[global] Instance timer_advance_frame n now : Respects R (timer_advance n now).
Proof. unfold timer_advance. frame_solve. Qed.
#[global] Instance when_elapsed_frame n k : Respects R k -> Respects R (when_elapsed n k).
Proof. unfold when_elapsed. frame_solve. Qed.
#[global] Instance ton_frame : Respects R run_ci_ton_ins.
Proof. unfold run_ci_ton_ins, ins_number. frame_solve. Qed.
#[global] Instance tonr_frame : Respects R run_ci_tonr_ins.
Proof. unfold run_ci_tonr_ins, ins_number. frame_solve. Qed.
#[global] Instance tof_frame : Respects R run_ci_tof_ins.
Proof. unfold run_ci_tof_ins, ins_number. frame_solve. Qed.
#[global] Instance tmon_run_frame n now : Respects R (tmon_run n now).
Proof. unfold tmon_run. frame_solve. Qed.
#[global] Instance tmon_frame : Respects R run_ci_tmon_ins.
Proof. unfold run_ci_tmon_ins, ins_number. frame_solve. Qed.
#[global] Instance rst_t_frame : Respects R run_ci_rst_t_ins.
Proof. unfold run_ci_rst_t_ins, ins_number. frame_solve. Qed.
#[global] Instance ans_frame : Respects R run_ci_ans_ins.
Proof. unfold run_ci_ans_ins, ins_number. frame_solve. Qed.
#[global] Instance anr_reset_frame n : forall i, Respects R (anr_reset n i).
Proof. induction n as [|n IH]; intros i; cbn [anr_reset]; apply _. Qed.
#[global] Instance anr_frame : Respects R run_ci_anr_ins.
Proof. unfold run_ci_anr_ins, anr_refresh, plc_reset_signal_alarm_element. frame_solve. Qed.
#[global] Instance word_at_frame a off k : (forall v, Respects R (k v)) -> Respects R (word_at a off k).
Proof. intros H. unfold word_at. frame_solve. Qed.
#[global] Instance clock_operands_frame off lim k : (forall v w, Respects R (k v w)) -> Respects R (clock_operands off lim k).
Proof. intros H. unfold clock_operands. frame_solve. Qed.
#[global] Instance clock_frame sm op : Respects R (clock_ins sm op).
Proof. unfold clock_ins. frame_solve. Qed.
#[global] Instance bout_frame : Respects R run_ci_bout_ins.
Proof. unfold run_ci_bout_ins. frame_solve. Qed.

#[global] Instance rd_for_frame i : Respects R (rd_for i).
Proof. intros s a s'. unfold rd_for. case_match; intros [= <- <-]. reflexivity. Qed.
#[global] Instance wr_for_frame i f : Respects R (wr_for i f).
Proof. intros s a s'. unfold wr_for. case_match; intros [= <- <-]. apply frame_for. Qed.
#[global] Instance put_for_frame f : Respects R (put_for f).
Proof. unfold put_for. frame_solve. Qed.
#[global] Instance set_cnt_frame i v f : Respects R (set_cnt i v f).
Proof. unfold set_cnt. frame_solve. Qed.
#[global] Instance wdt_frame : Respects R run_ci_wdt_ins.
Proof. unfold run_ci_wdt_ins. frame_solve. Qed.
#[global] Instance ei_frame : Respects R run_ci_ei_ins.
Proof. unfold run_ci_ei_ins. frame_solve. Qed.
#[global] Instance di_frame : Respects R run_ci_di_ins.
Proof. unfold run_ci_di_ins. frame_solve. Qed.
#[global] Instance stop_frame : Respects R run_ci_stop_ins.
Proof. unfold run_ci_stop_ins. frame_solve. Qed.

(** The pieces of CALL. *)
#[global] Instance call_length_frame p : Respects R (plc_call_instruction_length p).
Proof. unfold plc_call_instruction_length. apply _. Qed.
#[global] Instance call_id_frame n i p : Respects R (call_id_search n i p).
Proof. revert i. induction n as [|n IH]; intros i; cbn [call_id_search]; frame_solve. Qed.
#[global] Instance get_call_id_frame p : Respects R (plc_get_call_ins_id p).
Proof. unfold plc_get_call_ins_id. frame_solve. Qed.
#[global] Instance put_v_frame w o : Respects R (put_v w o).
Proof. unfold put_v, v_addr. frame_solve. Qed.
#[global] Instance put_v2_frame w o : Respects R (put_v2 w o).
Proof. unfold put_v2, v_addr. frame_solve. Qed.
#[global] Instance callee_lm_frame i v : Respects R (callee_lm i v).
Proof. unfold callee_lm. apply _. Qed.
#[global] Instance in_parameter_frame p : Respects R (in_parameter p).
Proof. unfold in_parameter. frame_solve. Qed.
#[global] Instance out_parameter_frame p : Respects R (out_parameter p).
Proof. unfold out_parameter, v_addr. frame_solve. Qed.
#[global] Instance para_loop_frame fuel one lim inc p o : (forall p, Respects R (one p)) ->
  Respects R (para_loop fuel one lim inc p o).
Proof. intros H. unfold para_loop. frame_solve. Qed.
#[global] Instance in_parse_frame fuel p : Respects R (plc_call_ins_in_parameter_parse fuel p).
Proof. unfold plc_call_ins_in_parameter_parse. frame_solve. Qed.
#[global] Instance out_parse_frame fuel b w p : Respects R (plc_call_ins_out_parameter_parse fuel b w p).
Proof. unfold plc_call_ins_out_parameter_parse. frame_solve. Qed.
#[global] Instance each_frame {A} (f : A -> Mc Z) l : (forall x, Respects R (f x)) -> Respects R (each f l).
Proof. intros H. induction l; cbn [each]; apply _. Qed.
#[global] Instance clean_edge_frame p : Respects R (clean_edge p).
Proof. unfold clean_edge, edge_off. frame_solve. Qed.
End handlers.

(** Those that move the program counter. *)
Section jumps.
Context (R : relation plc_st) `{!Frame R}.
#[global] Instance for_frame : Respects R run_ci_for_ins.
Proof. unfold run_ci_for_ins, ltp_ForNextIns. frame_solve. Qed.
#[global] Instance next_count_frame f c : Respects R (next_count f c).
Proof. unfold next_count. frame_solve. Qed.
#[global] Instance next_frame : Respects R run_ci_next_ins.
Proof. unfold run_ci_next_ins, ltp_ForNextIns, get_cnt. frame_solve. Qed.
#[global] Instance cj_unwind_frame n from dest : forall f, Respects R (cj_unwind n from dest f).
Proof. induction n as [|n IH]; intros f; cbn [cj_unwind]; apply _. Qed.
#[global] Instance cj_frame : Respects R run_ci_cj_ins.
Proof. unfold run_ci_cj_ins, ltp_ForNextIns, GET_PS32_DATA. frame_solve. Qed.
#[global] Instance in_env_frame pf pc {A} (m : Mc A) : Respects R m -> Respects R (in_env pf pc m).
Proof. intros H. unfold in_env. frame_solve. Qed.
#[global] Instance csret_frame : Respects R run_ci_csret_ins.
Proof. unfold run_ci_csret_ins. frame_solve. Qed.
End jumps.

#[global] Instance frame_wf : Frame wf_mem.
Proof. split; [split|]; try apply _; by intros ? ? W. Qed.
(** The depth of calls is the same; it is a 32-bit counter. *)
Definition same_depth : relation plc_st := fun s s' => 0 <= nested s < 2 ^ 32 -> nested s' = nested s.
#[global] Instance same_depth_preorder : PreOrder same_depth.
Proof.
  split; unfold same_depth, Reflexive, Transitive; [done|]. intros x y z H1 H2 H. rewrite H2; [by apply H1|].
  by rewrite H1.
Qed.
Lemma inert_depth {A} (m : Mc A) : Respects inert m -> Respects same_depth m.
Proof. intros H s a s' E _. destruct (H _ _ _ E) as (_ & F & _). unfold nested. by rewrite F. Qed.
#[global] Instance frame_depth : Frame same_depth.
Proof.
  split; [split|]; try (by intros ? ? ?); [apply _|intros r i v; apply inert_depth, _|intros; apply inert_depth, _..].
Qed.

(** ** Simple instructions *)
Section simple.
Context (R : relation plc_st) `{!Frame R}.
#[global] Instance si_exec_frame i l : Respects R (si_exec i l).
Proof. destruct i; cbn [si_exec si_edge si_stack]; si_solve. Qed.
#[global] Instance si_step_frame l : Respects R (si_step l).
Proof. unfold si_step. si_solve. Qed.
#[global] Instance exec_simple_frame fuel : Respects R (plc_exec_simple_instruction fuel).
Proof. unfold plc_exec_simple_instruction. apply _. Qed.
End simple.
