(* ===== verification/DataEffects.v ===== *)
(** * What the data-processing handlers can change

    The data-processing instructions respect every frame (see Effects.v). *)
From stdpp Require Import base list numbers sets.
From S2P Require Import Prelude Element Machine ParseAddr ParseAddrFacts SimpleIns SimpleFacts Device CounterIns TimeIns.
From S2P Require Import DataIns FlowCtrl Call Float32 BitIns Arith FloatIns Convert Rotate Compare Block DataMisc Effects Stl Calendar Instances Strings.

#[export] Hint Unfold PUSH_POWER_FLOW SM181_value and_contact  ascii_digit ati_group ati_packed_rest ati_rest bk_case bk_fail bk_word
  block_arith block_count byte_count char_at_offset check_count check_loop checked_bit convert_count dadd_flags
  data_at deascii dsub_flags dword_at_offset dword_in dwords2 dx_bit float_flags float_in float_to_integer
  floats2 high_digit is_const ita_group ita_packed ita_unpacked ld_contact  limits lm_bit lm_index
  lm_put low_digit nibble_count or_contact  power_domain root_flags rotate_dword rotate_word 
  save_bit save_char_at  save_dword_at save_float1 save_word_at set_SM set_lm_here shift_string
  shl32 shr32 sized start_element sum_count sum_flags swap_pair taking then_ok two_dwords two_floats two_lengths
  two_words two_words_at udword_in udwords2 uword_in uwords2 with_chars with_dwords word_at_offset word_bit
  word_in words2 zero_flag    : frame.

Section data.
Context (R : relation plc_st) `{!HandlerFrame R}.
(** ** The idioms *)
#[global] Instance powered_frame k : Respects R k -> Respects R (powered k).
Proof. intros H. unfold powered. frame_solve. Qed.
#[global] Instance unpowered_frame k : Respects R k -> Respects R (unpowered k).
Proof. intros H. unfold unpowered. frame_solve. Qed.
#[global] Instance any_power_frame k : Respects R k -> Respects R (any_power k).
Proof. intros H. unfold any_power. frame_solve. Qed.
#[global] Instance with_words_frame a o c k : (forall l, Respects R (k l)) -> Respects R (with_words a o c k).
Proof. intros H. unfold with_words. apply _. Qed.
#[global] Instance with_float_frame a k : (forall l, Respects R (k l)) -> Respects R (with_float a k).
Proof. intros H. unfold with_float. apply _. Qed.
#[global] Instance with_floats_frame a c k : (forall l, Respects R (k l)) -> Respects R (with_floats a c k).
Proof. intros H. unfold with_floats. apply _. Qed.
#[global] Instance clear_SM_frame l : Respects R (clear_SM l).
Proof. induction l; cbn; unfold set_SM; apply _. Qed.
#[global] Instance put_relop_frame base : Respects R (opcode_relop base).
Proof. unfold opcode_relop. frame_solve. Qed.
#[global] Instance save_words_frame a l o : Respects R (save_words a l o).
Proof. unfold save_words. apply _. Qed.
#[global] Instance save_dwords_frame a l o : Respects R (save_dwords a l o).
Proof. unfold save_dwords. apply _. Qed.
#[global] Instance word_out_frame o v : Respects R (word_out o v).
Proof. unfold word_out. frame_solve. Qed.
#[global] Instance dword_out_frame o v : Respects R (dword_out o v).
Proof. unfold dword_out. frame_solve. Qed.
#[global] Instance float_out_frame o v : Respects R (float_out o v).
Proof. unfold float_out, save_float1. frame_solve. Qed.
#[global] Instance zone_frame n rang put : (forall e, Respects R (put e)) -> forall e, Respects R (zone n rang e put).
Proof. intros H. induction n as [|n IH]; intros e; cbn [zone]; apply _. Qed.
#[global] Instance sum_loop_frame {A} n get add k : (forall i, Respects R (get i)) ->
  (forall (acc : A) v, Respects R (add acc v)) -> (forall a, Respects R (k a)) ->
  forall i acc, Respects R (sum_loop n i get add acc k).
Proof. intros H1 H2 H3. induction n as [|n IH]; intros i acc; cbn [sum_loop]; apply _. Qed.
#[global] Instance copy_frame n get put k : (forall i, Respects R (get i)) -> (forall i v, Respects R (put i v)) ->
  Respects R k -> forall i, Respects R (copy n i get put k).
Proof. intros H1 H2 H3. induction n as [|n IH]; intros i; cbn [copy]; apply _. Qed.
#[global] Instance collect_frame n get k : (forall i next, (forall v, Respects R (next v)) -> Respects R (get i next)) ->
  (forall l, Respects R (k l)) -> forall i acc, Respects R (collect n i get acc k).
Proof. intros H1 H2. induction n as [|n IH]; intros i acc; cbn [collect]; [apply _|]. apply H1. intros v. apply IH. Qed.
#[global] Instance quads_frame n body k : (forall i, Respects R (body i)) -> (forall i c, Respects R (k i c)) ->
  forall i c, Respects R (quads n i c body k).
Proof. intros H1 H2. induction n as [|n IH]; intros i c; cbn [quads]; apply _. Qed.
#[global] Instance asc_words_frame n k : (forall l, Respects R (k l)) -> forall a acc, Respects R (asc_words n a acc k).
Proof. intros H. induction n as [|n IH]; intros a acc; cbn [asc_words]; apply _. Qed.
#[global] Instance ati_digits_frame n l : forall j r, Respects R (ati_digits n j l r).
Proof. induction n as [|n IH]; intros j r; cbn [ati_digits]; unfold data_at, deascii; apply _. Qed.
#[global] Instance ati_pairs_frame n l : forall j r, Respects R (ati_pairs n j l r).
Proof. induction n as [|n IH]; intros j r; cbn [ati_pairs]; unfold data_at, low_digit, high_digit, deascii; apply _. Qed.
#[global] Instance word_at_pos_frame a i k : (forall v, Respects R (k v)) -> Respects R (word_at_pos a i k).
Proof. intros H. unfold word_at_pos, word_at_offset. apply _. Qed.
#[global] Instance scl_search_frame n : forall i pc x x0 y0, Respects R (scl_search n i pc x x0 y0).
Proof. induction n as [|n IH]; intros i pc x x0 y0; cbn [scl_search]; apply _. Qed.

#[global] Instance set_lm_here_frame v e : Respects R (set_lm_here v e).
Proof. unfold set_lm_here. frame_solve. Qed.
#[global] Instance zrst_put_frame r e : Respects R (zrst_put r e).
Proof. destruct r; cbn [zrst_put]; apply _. Qed.
#[global] Instance zset_put_frame r e : Respects R (zset_put r e).
Proof. destruct r; cbn [zset_put]; apply _. Qed.
#[global] Instance zone_ins_frame put : (forall r e, Respects R (put r e)) -> Respects R (zone_ins put).
Proof. intros H. unfold zone_ins, start_element. frame_solve. Qed.
#[global] Instance round6_frame a : Respects R (round6 a).
Proof. unfold round6. apply _. Qed.
#[global] Instance ld_switch_frame base o : Respects R (ld_switch base o).
Proof. unfold ld_switch. frame_solve. Qed.
#[global] Instance and_switch_frame base o : Respects R (and_switch base o).
Proof. unfold and_switch. frame_solve. Qed.
#[global] Instance or_switch_frame base o : Respects R (or_switch base o).
Proof. unfold or_switch. frame_solve. Qed.
#[global] Instance save_compare_frame off o : Respects R (save_compare off o).
Proof. unfold save_compare. frame_solve. Qed.
(** ** The handlers *)
#[global] Instance ld_compare_ins_frame : Respects R run_ld_compare_ins.
Proof. unfold run_ld_compare_ins. frame_solve. Qed.
#[global] Instance and_compare_ins_frame : Respects R run_and_compare_ins.
Proof. unfold run_and_compare_ins. frame_solve. Qed.
#[global] Instance or_compare_ins_frame : Respects R run_or_compare_ins.
Proof. unfold run_or_compare_ins. frame_solve. Qed.
#[global] Instance ldd_compare_ins_frame : Respects R run_ldd_compare_ins.
Proof. unfold run_ldd_compare_ins. frame_solve. Qed.
#[global] Instance andd_compare_ins_frame : Respects R run_andd_compare_ins.
Proof. unfold run_andd_compare_ins. frame_solve. Qed.
#[global] Instance ord_compare_ins_frame : Respects R run_ord_compare_ins.
Proof. unfold run_ord_compare_ins. frame_solve. Qed.
#[global] Instance ldr_compare_ins_frame : Respects R run_ldr_compare_ins.
Proof. unfold run_ldr_compare_ins. frame_solve. Qed.
#[global] Instance andr_compare_ins_frame : Respects R run_andr_compare_ins.
Proof. unfold run_andr_compare_ins. frame_solve. Qed.
#[global] Instance orr_compare_ins_frame : Respects R run_orr_compare_ins.
Proof. unfold run_orr_compare_ins. frame_solve. Qed.
#[global] Instance ci_cmp_ins_frame : Respects R run_ci_cmp_ins.
Proof. unfold run_ci_cmp_ins. frame_solve. Qed.
#[global] Instance ci_lcmp_ins_frame : Respects R run_ci_lcmp_ins.
Proof. unfold run_ci_lcmp_ins. frame_solve. Qed.
#[global] Instance ci_rcmp_ins_frame : Respects R run_ci_rcmp_ins.
Proof. unfold run_ci_rcmp_ins. frame_solve. Qed.
#[global] Instance ci_bld_ins_frame : Respects R run_ci_bld_ins.
Proof. unfold run_ci_bld_ins. frame_solve. Qed.
#[global] Instance ci_bldi_ins_frame : Respects R run_ci_bldi_ins.
Proof. unfold run_ci_bldi_ins. frame_solve. Qed.
#[global] Instance ci_band_ins_frame : Respects R run_ci_band_ins.
Proof. unfold run_ci_band_ins. frame_solve. Qed.
#[global] Instance ci_bandi_ins_frame : Respects R run_ci_bandi_ins.
Proof. unfold run_ci_bandi_ins. frame_solve. Qed.
#[global] Instance ci_bor_ins_frame : Respects R run_ci_bor_ins.
Proof. unfold run_ci_bor_ins. frame_solve. Qed.
#[global] Instance ci_bori_ins_frame : Respects R run_ci_bori_ins.
Proof. unfold run_ci_bori_ins. frame_solve. Qed.
#[global] Instance ci_bset_ins_frame : Respects R run_ci_bset_ins.
Proof. unfold run_ci_bset_ins. frame_solve. Qed.
#[global] Instance ci_brst_ins_frame : Respects R run_ci_brst_ins.
Proof. unfold run_ci_brst_ins. frame_solve. Qed.
#[global] Instance ci_ld_dx_y_ins_frame : Respects R run_ci_ld_dx_y_ins.
Proof. unfold run_ci_ld_dx_y_ins. frame_solve. Qed.
#[global] Instance ci_ldi_dx_y_ins_frame : Respects R run_ci_ldi_dx_y_ins.
Proof. unfold run_ci_ldi_dx_y_ins. frame_solve. Qed.
#[global] Instance ci_and_dx_y_ins_frame : Respects R run_ci_and_dx_y_ins.
Proof. unfold run_ci_and_dx_y_ins. frame_solve. Qed.
#[global] Instance ci_ani_dx_y_ins_frame : Respects R run_ci_ani_dx_y_ins.
Proof. unfold run_ci_ani_dx_y_ins. frame_solve. Qed.
#[global] Instance ci_or_dx_y_ins_frame : Respects R run_ci_or_dx_y_ins.
Proof. unfold run_ci_or_dx_y_ins. frame_solve. Qed.
#[global] Instance ci_ori_dx_y_ins_frame : Respects R run_ci_ori_dx_y_ins.
Proof. unfold run_ci_ori_dx_y_ins. frame_solve. Qed.
#[global] Instance ci_set_dx_y_ins_frame : Respects R run_ci_set_dx_y_ins.
Proof. unfold run_ci_set_dx_y_ins. frame_solve. Qed.
#[global] Instance ci_rst_dx_y_ins_frame : Respects R run_ci_rst_dx_y_ins.
Proof. unfold run_ci_rst_dx_y_ins. frame_solve. Qed.
#[global] Instance ci_out_dx_y_ins_frame : Respects R run_ci_out_dx_y_ins.
Proof. unfold run_ci_out_dx_y_ins. frame_solve. Qed.
#[global] Instance ci_ld_lm_ins_frame : Respects R run_ci_ld_lm_ins.
Proof. unfold run_ci_ld_lm_ins. frame_solve. Qed.
#[global] Instance ci_ldi_lm_ins_frame : Respects R run_ci_ldi_lm_ins.
Proof. unfold run_ci_ldi_lm_ins. frame_solve. Qed.
#[global] Instance ci_and_lm_ins_frame : Respects R run_ci_and_lm_ins.
Proof. unfold run_ci_and_lm_ins. frame_solve. Qed.
#[global] Instance ci_ani_lm_ins_frame : Respects R run_ci_ani_lm_ins.
Proof. unfold run_ci_ani_lm_ins. frame_solve. Qed.
#[global] Instance ci_or_lm_ins_frame : Respects R run_ci_or_lm_ins.
Proof. unfold run_ci_or_lm_ins. frame_solve. Qed.
#[global] Instance ci_ori_lm_ins_frame : Respects R run_ci_ori_lm_ins.
Proof. unfold run_ci_ori_lm_ins. frame_solve. Qed.
#[global] Instance ci_set_lm_ins_frame : Respects R run_ci_set_lm_ins.
Proof. unfold run_ci_set_lm_ins. frame_solve. Qed.
#[global] Instance ci_out_lm_ins_frame : Respects R run_ci_out_lm_ins.
Proof. unfold run_ci_out_lm_ins. frame_solve. Qed.
#[global] Instance ci_rst_lm_ins_frame : Respects R run_ci_rst_lm_ins.
Proof. unfold run_ci_rst_lm_ins. frame_solve. Qed.
#[global] Instance ci_zrst_ins_frame : Respects R run_ci_zrst_ins.
Proof. unfold run_ci_zrst_ins. frame_solve. Qed.
#[global] Instance ci_zset_ins_frame : Respects R run_ci_zset_ins.
Proof. unfold run_ci_zset_ins. frame_solve. Qed.
#[global] Instance ci_deco_ins_frame : Respects R run_ci_deco_ins.
Proof. unfold run_ci_deco_ins. frame_solve. Qed.
#[global] Instance ci_enco_ins_frame : Respects R run_ci_enco_ins.
Proof. unfold run_ci_enco_ins. frame_solve. Qed.
#[global] Instance ci_bits_ins_frame : Respects R run_ci_bits_ins.
Proof. unfold run_ci_bits_ins. frame_solve. Qed.
#[global] Instance ci_dbits_ins_frame : Respects R run_ci_dbits_ins.
Proof. unfold run_ci_dbits_ins. frame_solve. Qed.
#[global] Instance ci_bon_ins_frame : Respects R run_ci_bon_ins.
Proof. unfold run_ci_bon_ins. frame_solve. Qed.
#[global] Instance ci_add_ins_frame : Respects R run_ci_add_ins.
Proof. unfold run_ci_add_ins. frame_solve. Qed.
#[global] Instance ci_sub_ins_frame : Respects R run_ci_sub_ins.
Proof. unfold run_ci_sub_ins. frame_solve. Qed.
#[global] Instance ci_mul_ins_frame : Respects R run_ci_mul_ins.
Proof. unfold run_ci_mul_ins. frame_solve. Qed.
#[global] Instance ci_div_ins_frame : Respects R run_ci_div_ins.
Proof. unfold run_ci_div_ins. frame_solve. Qed.
#[global] Instance ci_sqt_ins_frame : Respects R run_ci_sqt_ins.
Proof. unfold run_ci_sqt_ins. frame_solve. Qed.
#[global] Instance ci_inc_ins_frame : Respects R run_ci_inc_ins.
Proof. unfold run_ci_inc_ins. frame_solve. Qed.
#[global] Instance ci_dec_ins_frame : Respects R run_ci_dec_ins.
Proof. unfold run_ci_dec_ins. frame_solve. Qed.
#[global] Instance ci_vabs_ins_frame : Respects R run_ci_vabs_ins.
Proof. unfold run_ci_vabs_ins. frame_solve. Qed.
#[global] Instance ci_neg_ins_frame : Respects R run_ci_neg_ins.
Proof. unfold run_ci_neg_ins. frame_solve. Qed.
#[global] Instance ci_dadd_ins_frame : Respects R run_ci_dadd_ins.
Proof. unfold run_ci_dadd_ins. frame_solve. Qed.
#[global] Instance ci_dsub_ins_frame : Respects R run_ci_dsub_ins.
Proof. unfold run_ci_dsub_ins. frame_solve. Qed.
#[global] Instance ci_dmul_ins_frame : Respects R run_ci_dmul_ins.
Proof. unfold run_ci_dmul_ins. frame_solve. Qed.
#[global] Instance ci_ddiv_ins_frame : Respects R run_ci_ddiv_ins.
Proof. unfold run_ci_ddiv_ins. frame_solve. Qed.
#[global] Instance ci_dsqt_ins_frame : Respects R run_ci_dsqt_ins.
Proof. unfold run_ci_dsqt_ins. frame_solve. Qed.
#[global] Instance ci_dinc_ins_frame : Respects R run_ci_dinc_ins.
Proof. unfold run_ci_dinc_ins. frame_solve. Qed.
#[global] Instance ci_ddec_ins_frame : Respects R run_ci_ddec_ins.
Proof. unfold run_ci_ddec_ins. frame_solve. Qed.
#[global] Instance ci_dvabs_ins_frame : Respects R run_ci_dvabs_ins.
Proof. unfold run_ci_dvabs_ins. frame_solve. Qed.
#[global] Instance ci_dneg_ins_frame : Respects R run_ci_dneg_ins.
Proof. unfold run_ci_dneg_ins. frame_solve. Qed.
#[global] Instance ci_sum_ins_frame : Respects R run_ci_sum_ins.
Proof. unfold run_ci_sum_ins. frame_solve. Qed.
#[global] Instance ci_dsum_ins_frame : Respects R run_ci_dsum_ins.
Proof. unfold run_ci_dsum_ins. frame_solve. Qed.
#[global] Instance ci_radd_ins_frame : Respects R run_ci_radd_ins.
Proof. unfold run_ci_radd_ins. frame_solve. Qed.
#[global] Instance ci_rsub_ins_frame : Respects R run_ci_rsub_ins.
Proof. unfold run_ci_rsub_ins. frame_solve. Qed.
#[global] Instance ci_rmul_ins_frame : Respects R run_ci_rmul_ins.
Proof. unfold run_ci_rmul_ins. frame_solve. Qed.
#[global] Instance ci_rdiv_ins_frame : Respects R run_ci_rdiv_ins.
Proof. unfold run_ci_rdiv_ins. frame_solve. Qed.
#[global] Instance ci_rsqt_ins_frame : Respects R run_ci_rsqt_ins.
Proof. unfold run_ci_rsqt_ins. frame_solve. Qed.
#[global] Instance ci_rvabs_ins_frame : Respects R run_ci_rvabs_ins.
Proof. unfold run_ci_rvabs_ins. frame_solve. Qed.
#[global] Instance ci_rneg_ins_frame : Respects R run_ci_rneg_ins.
Proof. unfold run_ci_rneg_ins. frame_solve. Qed.
#[global] Instance ci_rsum_ins_frame : Respects R run_ci_rsum_ins.
Proof. unfold run_ci_rsum_ins. frame_solve. Qed.
#[global] Instance ci_rad_ins_frame : Respects R run_ci_rad_ins.
Proof. unfold run_ci_rad_ins. frame_solve. Qed.
#[global] Instance ci_deg_ins_frame : Respects R run_ci_deg_ins.
Proof. unfold run_ci_deg_ins. frame_solve. Qed.
#[global] Instance ci_dti_ins_frame : Respects R run_ci_dti_ins.
Proof. unfold run_ci_dti_ins. frame_solve. Qed.
#[global] Instance ci_itd_ins_frame : Respects R run_ci_itd_ins.
Proof. unfold run_ci_itd_ins. frame_solve. Qed.
#[global] Instance ci_flt_ins_frame : Respects R run_ci_flt_ins.
Proof. unfold run_ci_flt_ins. frame_solve. Qed.
#[global] Instance ci_dflt_ins_frame : Respects R run_ci_dflt_ins.
Proof. unfold run_ci_dflt_ins. frame_solve. Qed.
#[global] Instance ci_int_ins_frame : Respects R run_ci_int_ins.
Proof. unfold run_ci_int_ins. frame_solve. Qed.
#[global] Instance ci_dint_ins_frame : Respects R run_ci_dint_ins.
Proof. unfold run_ci_dint_ins. frame_solve. Qed.
#[global] Instance ci_bcd_ins_frame : Respects R run_ci_bcd_ins.
Proof. unfold run_ci_bcd_ins. frame_solve. Qed.
#[global] Instance ci_dbcd_ins_frame : Respects R run_ci_dbcd_ins.
Proof. unfold run_ci_dbcd_ins. frame_solve. Qed.
#[global] Instance ci_bin_ins_frame : Respects R run_ci_bin_ins.
Proof. unfold run_ci_bin_ins. frame_solve. Qed.
#[global] Instance ci_dbin_ins_frame : Respects R run_ci_dbin_ins.
Proof. unfold run_ci_dbin_ins. frame_solve. Qed.
#[global] Instance ci_gry_ins_frame : Respects R run_ci_gry_ins.
Proof. unfold run_ci_gry_ins. frame_solve. Qed.
#[global] Instance ci_dgry_ins_frame : Respects R run_ci_dgry_ins.
Proof. unfold run_ci_dgry_ins. frame_solve. Qed.
#[global] Instance ci_gbin_ins_frame : Respects R run_ci_gbin_ins.
Proof. unfold run_ci_gbin_ins. frame_solve. Qed.
#[global] Instance ci_dgbin_ins_frame : Respects R run_ci_dgbin_ins.
Proof. unfold run_ci_dgbin_ins. frame_solve. Qed.
#[global] Instance ci_seg_ins_frame : Respects R run_ci_seg_ins.
Proof. unfold run_ci_seg_ins. frame_solve. Qed.
#[global] Instance ci_asc_ins_frame : Respects R run_ci_asc_ins.
Proof. unfold run_ci_asc_ins. frame_solve. Qed.
#[global] Instance ci_ita_ins_frame : Respects R run_ci_ita_ins.
Proof. unfold run_ci_ita_ins. frame_solve. Qed.
#[global] Instance ci_ati_ins_frame : Respects R run_ci_ati_ins.
Proof. unfold run_ci_ati_ins. frame_solve. Qed.
#[global] Instance ci_wand_ins_frame : Respects R run_ci_wand_ins.
Proof. unfold run_ci_wand_ins. frame_solve. Qed.
#[global] Instance ci_wor_ins_frame : Respects R run_ci_wor_ins.
Proof. unfold run_ci_wor_ins. frame_solve. Qed.
#[global] Instance ci_wxor_ins_frame : Respects R run_ci_wxor_ins.
Proof. unfold run_ci_wxor_ins. frame_solve. Qed.
#[global] Instance ci_winv_ins_frame : Respects R run_ci_winv_ins.
Proof. unfold run_ci_winv_ins. frame_solve. Qed.
#[global] Instance ci_dwand_ins_frame : Respects R run_ci_dwand_ins.
Proof. unfold run_ci_dwand_ins. frame_solve. Qed.
#[global] Instance ci_dwor_ins_frame : Respects R run_ci_dwor_ins.
Proof. unfold run_ci_dwor_ins. frame_solve. Qed.
#[global] Instance ci_dwxor_ins_frame : Respects R run_ci_dwxor_ins.
Proof. unfold run_ci_dwxor_ins. frame_solve. Qed.
#[global] Instance ci_dwinv_ins_frame : Respects R run_ci_dwinv_ins.
Proof. unfold run_ci_dwinv_ins. frame_solve. Qed.
#[global] Instance ci_ror_ins_frame : Respects R run_ci_ror_ins.
Proof. unfold run_ci_ror_ins. frame_solve. Qed.
#[global] Instance ci_rol_ins_frame : Respects R run_ci_rol_ins.
Proof. unfold run_ci_rol_ins. frame_solve. Qed.
#[global] Instance ci_rcr_ins_frame : Respects R run_ci_rcr_ins.
Proof. unfold run_ci_rcr_ins. frame_solve. Qed.
#[global] Instance ci_rcl_ins_frame : Respects R run_ci_rcl_ins.
Proof. unfold run_ci_rcl_ins. frame_solve. Qed.
#[global] Instance ci_dror_ins_frame : Respects R run_ci_dror_ins.
Proof. unfold run_ci_dror_ins. frame_solve. Qed.
#[global] Instance ci_drol_ins_frame : Respects R run_ci_drol_ins.
Proof. unfold run_ci_drol_ins. frame_solve. Qed.
#[global] Instance ci_drcr_ins_frame : Respects R run_ci_drcr_ins.
Proof. unfold run_ci_drcr_ins. frame_solve. Qed.
#[global] Instance ci_drcl_ins_frame : Respects R run_ci_drcl_ins.
Proof. unfold run_ci_drcl_ins. frame_solve. Qed.
#[global] Instance ci_shr_ins_frame : Respects R run_ci_shr_ins.
Proof. unfold run_ci_shr_ins. frame_solve. Qed.
#[global] Instance ci_shl_ins_frame : Respects R run_ci_shl_ins.
Proof. unfold run_ci_shl_ins. frame_solve. Qed.
#[global] Instance ci_dshr_ins_frame : Respects R run_ci_dshr_ins.
Proof. unfold run_ci_dshr_ins. frame_solve. Qed.
#[global] Instance ci_dshl_ins_frame : Respects R run_ci_dshl_ins.
Proof. unfold run_ci_dshl_ins. frame_solve. Qed.
#[global] Instance ci_sftr_ins_frame : Respects R run_ci_sftr_ins.
Proof. unfold run_ci_sftr_ins. frame_solve. Qed.
#[global] Instance ci_sftl_ins_frame : Respects R run_ci_sftl_ins.
Proof. unfold run_ci_sftl_ins. frame_solve. Qed.
#[global] Instance ci_mov_ins_frame : Respects R run_ci_mov_ins.
Proof. unfold run_ci_mov_ins. frame_solve. Qed.
#[global] Instance ci_rmov_ins_frame : Respects R run_ci_rmov_ins.
Proof. unfold run_ci_rmov_ins. frame_solve. Qed.
#[global] Instance ci_dmov_ins_frame : Respects R run_ci_dmov_ins.
Proof. unfold run_ci_dmov_ins. frame_solve. Qed.
#[global] Instance ci_bmov_ins_frame : Respects R run_ci_bmov_ins.
Proof. unfold run_ci_bmov_ins. frame_solve. Qed.
#[global] Instance ci_fmov_ins_frame : Respects R run_ci_fmov_ins.
Proof. unfold run_ci_fmov_ins. frame_solve. Qed.
#[global] Instance ci_dfmov_ins_frame : Respects R run_ci_dfmov_ins.
Proof. unfold run_ci_dfmov_ins. frame_solve. Qed.
#[global] Instance ci_swap_ins_frame : Respects R run_ci_swap_ins.
Proof. unfold run_ci_swap_ins. frame_solve. Qed.
#[global] Instance ci_swapword_ins_frame : Respects R run_ci_swapword_ins.
Proof. unfold run_ci_swapword_ins. frame_solve. Qed.
#[global] Instance ci_xch_ins_frame : Respects R run_ci_xch_ins.
Proof. unfold run_ci_xch_ins. frame_solve. Qed.
#[global] Instance ci_dxch_ins_frame : Respects R run_ci_dxch_ins.
Proof. unfold run_ci_dxch_ins. frame_solve. Qed.
#[global] Instance ci_push_ins_frame : Respects R run_ci_push_ins.
Proof. unfold run_ci_push_ins. frame_solve. Qed.
#[global] Instance ci_fifo_ins_frame : Respects R run_ci_fifo_ins.
Proof. unfold run_ci_fifo_ins. frame_solve. Qed.
#[global] Instance ci_lifo_ins_frame : Respects R run_ci_lifo_ins.
Proof. unfold run_ci_lifo_ins. frame_solve. Qed.
#[global] Instance ci_wsfr_ins_frame : Respects R run_ci_wsfr_ins.
Proof. unfold run_ci_wsfr_ins. frame_solve. Qed.
#[global] Instance ci_wsfl_ins_frame : Respects R run_ci_wsfl_ins.
Proof. unfold run_ci_wsfl_ins. frame_solve. Qed.
#[global] Instance ci_bkadd_ins_frame : Respects R run_ci_bkadd_ins.
Proof. unfold run_ci_bkadd_ins. frame_solve. Qed.
#[global] Instance ci_bksub_ins_frame : Respects R run_ci_bksub_ins.
Proof. unfold run_ci_bksub_ins. frame_solve. Qed.
#[global] Instance ci_bkcmp_ins_frame : Respects R run_ci_bkcmp_ins.
Proof. unfold run_ci_bkcmp_ins. frame_solve. Qed.
#[global] Instance ci_mean_ins_frame : Respects R run_ci_mean_ins.
Proof. unfold run_ci_mean_ins. frame_solve. Qed.
#[global] Instance ci_wtob_ins_frame : Respects R run_ci_wtob_ins.
Proof. unfold run_ci_wtob_ins. frame_solve. Qed.
#[global] Instance ci_btow_ins_frame : Respects R run_ci_btow_ins.
Proof. unfold run_ci_btow_ins. frame_solve. Qed.
#[global] Instance ci_uni_ins_frame : Respects R run_ci_uni_ins.
Proof. unfold run_ci_uni_ins. frame_solve. Qed.
#[global] Instance ci_dis_ins_frame : Respects R run_ci_dis_ins.
Proof. unfold run_ci_dis_ins. frame_solve. Qed.
#[global] Instance ci_lcnv_ins_frame : Respects R run_ci_lcnv_ins.
Proof. unfold run_ci_lcnv_ins. frame_solve. Qed.
#[global] Instance ci_rlcnv_ins_frame : Respects R run_ci_rlcnv_ins.
Proof. unfold run_ci_rlcnv_ins. frame_solve. Qed.
#[global] Instance ci_alt_ins_frame : Respects R run_ci_alt_ins.
Proof. unfold run_ci_alt_ins. frame_solve. Qed.
#[global] Instance ci_dband_ins_frame : Respects R run_ci_dband_ins.
Proof. unfold run_ci_dband_ins. frame_solve. Qed.
#[global] Instance ci_limit_ins_frame : Respects R run_ci_limit_ins.
Proof. unfold run_ci_limit_ins. frame_solve. Qed.
#[global] Instance ci_zone_ins_frame : Respects R run_ci_zone_ins.
Proof. unfold run_ci_zone_ins. frame_solve. Qed.
#[global] Instance ci_scl_ins_frame : Respects R run_ci_scl_ins.
Proof. unfold run_ci_scl_ins. frame_solve. Qed.
#[global] Instance ci_ser_ins_frame : Respects R run_ci_ser_ins.
Proof. unfold run_ci_ser_ins. frame_solve. Qed.
#[global] Instance ci_ramp_ins_frame : Respects R run_ci_ramp_ins.
Proof. unfold run_ci_ramp_ins. frame_solve. Qed.
#[global] Instance ci_hackle_ins_frame : Respects R run_ci_hackle_ins.
Proof. unfold run_ci_hackle_ins. frame_solve. Qed.
#[global] Instance ci_triangle_ins_frame : Respects R run_ci_triangle_ins.
Proof. unfold run_ci_triangle_ins. frame_solve. Qed.
#[global] Instance ci_ccitt_ins_frame : Respects R run_ci_ccitt_ins.
Proof. unfold run_ci_ccitt_ins. frame_solve. Qed.
#[global] Instance ci_crc16_ins_frame : Respects R run_ci_crc16_ins.
Proof. unfold run_ci_crc16_ins. frame_solve. Qed.
#[global] Instance ci_lrc_ins_frame : Respects R run_ci_lrc_ins.
Proof. unfold run_ci_lrc_ins. frame_solve. Qed.

(** ** Strings *)
#[global] Instance malloc_frame n : Respects R (malloc n).
Proof. unfold malloc. frame_solve. Qed.
#[global] Instance put8_frame b i v : Respects R (put8 b i v).
Proof. unfold put8. frame_solve. Qed.
#[global] Instance put16_frame b i v : Respects R (put16 b i v).
Proof. unfold put16. frame_solve. Qed.
#[global] Instance put_words_frame ws : forall b i, Respects R (put_words b i ws).
Proof. induction ws as [|w ws IH]; intros b i; cbn [put_words]; apply _. Qed.
#[global] Instance get_into_frame b i a off cnt : Respects R (get_into b i a off cnt).
Proof. unfold get_into. apply _. Qed.
#[global] Instance put_chars_frame n : forall b i a, Respects R (put_chars n b i a).
Proof. induction n as [|n IH]; intros b i a; cbn [put_chars]; apply _. Qed.
#[global] Instance save_buffer_frame a b n : Respects R (save_buffer a b n).
Proof. unfold save_buffer. apply _. Qed.
#[global] Instance then_pass_frame {A} (rb : Z * A) k : (forall b, Respects R (k b)) -> Respects R (then_pass rb k).
Proof. intros H. unfold then_pass. apply _. Qed.
#[global] Instance str_len_frame wrap f a : Respects R (str_len wrap f a).
Proof. unfold str_len, str_step. frame_solve. Qed.
#[global] Instance is_str_frame a : Respects R (is_str a).
Proof. unfold is_str. apply _. Qed.
#[global] Instance stradd_length_frame f a : Respects R (stradd_length f a).
Proof. unfold stradd_length. frame_solve. Qed.
#[global] Instance stradd_copy_frame b i a l : Respects R (stradd_copy b i a l).
Proof. unfold stradd_copy. frame_solve. Qed.
#[global] Instance terminate_frame b l : Respects R (terminate b l).
Proof. unfold terminate. frame_solve. Qed.
#[global] Instance stradd_ins_frame f : Respects R (run_ci_stradd_ins f).
Proof. unfold run_ci_stradd_ins. apply powered_frame. frame_solve. Qed.
#[global] Instance strlen_ins_frame f : Respects R (run_ci_strlen_ins f).
Proof. unfold run_ci_strlen_ins. apply powered_frame. frame_solve. Qed.
#[global] Instance strright_ins_frame : Respects R run_ci_strright_ins.
Proof. unfold run_ci_strright_ins, take_part. apply powered_frame. frame_solve. Qed.
#[global] Instance strleft_ins_frame : Respects R run_ci_strleft_ins.
Proof. unfold run_ci_strleft_ins, take_part. apply powered_frame. frame_solve. Qed.
#[global] Instance read_pairs_frame n : forall b i a st, Respects R (read_pairs n b i a st).
Proof. induction n as [|n IH]; intros b i a st; cbn [read_pairs]; apply _. Qed.
#[global] Instance midr_read_frame b a st l : Respects R (midr_read b a st l).
Proof. unfold midr_read. frame_solve. Qed.
#[global] Instance strmidr_ins_frame f : Respects R (run_ci_strmidr_ins f).
Proof. unfold run_ci_strmidr_ins. apply powered_frame. frame_solve. Qed.
#[global] Instance midw_rest_frame b a st r d : Respects R (midw_rest b a st r d).
Proof. unfold midw_rest. frame_solve. Qed.
#[global] Instance strmidw_copy_frame pc st src dest rep : Respects R (strmidw_copy pc st src dest rep).
Proof. unfold strmidw_copy. frame_solve. Qed.
#[global] Instance strmidw_ins_frame f : Respects R (run_ci_strmidw_ins f).
Proof. unfold run_ci_strmidw_ins. apply powered_frame. frame_solve. Qed.
#[global] Instance strinstr_ins_frame f : Respects R (run_ci_strinstr_ins f).
Proof. unfold run_ci_strinstr_ins. apply powered_frame. frame_solve. Qed.
#[global] Instance strmov_ins_frame f : Respects R (run_ci_strmov_ins f).
Proof. unfold run_ci_strmov_ins. apply powered_frame. frame_solve. Qed.

(** ** Calendar, instances, master control and steps *)
#[global] Instance trd_words_frame n : forall i a, Respects R (trd_words n i a).
Proof. induction n as [|n IH]; intros i a; cbn [trd_words]; unfold trd_word; frame_solve. Qed.
#[global] Instance trd_ins_frame : Respects R run_ci_trd_ins.
Proof. unfold run_ci_trd_ins. frame_solve. Qed.
#[global] Instance three_words_frame a k : (forall l, Respects R (k l)) -> Respects R (three_words a k).
Proof. intros H. unfold three_words. apply _. Qed.
#[global] Instance nth_word_frame l i : Respects R (nth_word l i).
Proof. unfold nth_word. apply _. Qed.
#[global] Instance compare_triples_frame b l1 l2 : Respects R (compare_triples b l1 l2).
Proof. unfold compare_triples, save_relation. frame_solve. Qed.
#[global] Instance dcmp_ins_frame : Respects R run_ci_dcmp_ins.
Proof. unfold run_ci_dcmp_ins. frame_solve. Qed.
#[global] Instance tcmp_ins_frame : Respects R run_ci_tcmp_ins.
Proof. unfold run_ci_tcmp_ins. frame_solve. Qed.
#[global] Instance htos_ins_frame : Respects R run_ci_htos_ins.
Proof. unfold run_ci_htos_ins. frame_solve. Qed.
#[global] Instance stoh_ins_frame : Respects R run_ci_stoh_ins.
Proof. unfold run_ci_stoh_ins. frame_solve. Qed.
#[global] Instance get_hour_frame i : Respects R (get_hour i).
Proof. unfold get_hour. frame_solve. Qed.
#[global] Instance set_hour_frame i h : Respects R (set_hour i h).
Proof. unfold set_hour. frame_solve. Qed.
#[global] Instance hour_ins_frame : Respects R run_ci_hour_ins.
Proof. unfold run_ci_hour_ins. frame_solve. Qed.
#[global] Instance get_duty_frame i : Respects R (get_duty i).
Proof. unfold get_duty. frame_solve. Qed.
#[global] Instance set_duty_frame i u : Respects R (set_duty i u).
Proof. unfold set_duty. frame_solve. Qed.
#[global] Instance duty_ins_frame : Respects R run_ci_duty_ins.
Proof. unfold run_ci_duty_ins, set_SM. frame_solve. Qed.
#[global] Instance clean_simple_frame p : Respects R (clean_simple p).
Proof. unfold clean_simple, clean_output, clean_coil. frame_solve. Qed.
#[global] Instance mod_sfc_frame f : Respects R (mod_sfc f).
Proof. unfold mod_sfc. frame_solve. Qed.
#[global] Instance get_sfc_frame {A} (f : plc_sfc_run_status_info_st -> A) : Respects R (get_sfc f).
Proof. unfold get_sfc. frame_solve. Qed.
#[global] Instance set_StlNum_frame i v : Respects R (set_StlNum i v).
Proof. unfold set_StlNum. frame_solve. Qed.
#[global] Instance get_StlNum_frame i : Respects R (get_StlNum i).
Proof. unfold get_StlNum. frame_solve. Qed.
#[global] Instance stl_series_frame n : forall i a, Respects R (stl_series n i a).
Proof. induction n as [|n IH]; intros i a; cbn [stl_series]; frame_solve. Qed.
#[global] Instance bus_meet_frame : Respects R plc_stl_bus_meet_analyse.
Proof. unfold plc_stl_bus_meet_analyse. frame_solve. Qed.
#[global] Instance all_on_frame n : forall i, Respects R (all_on n i).
Proof. induction n as [|n IH]; intros i; cbn [all_on]; frame_solve. Qed.
#[global] Instance steps_off_frame : Respects R steps_off.
Proof. unfold steps_off. frame_solve. Qed.
#[global] Instance set_s_ins_frame : Respects R run_ci_set_s_ins.
Proof. unfold run_ci_set_s_ins, target_step. frame_solve. Qed.
#[global] Instance out_s_ins_frame : Respects R run_ci_out_s_ins.
Proof. unfold run_ci_out_s_ins, target_step. frame_solve. Qed.
#[global] Instance rst_s_ins_frame : Respects R run_ci_rst_s_ins.
Proof. unfold run_ci_rst_s_ins, target_step. frame_solve. Qed.
#[global] Instance ret_ins_frame : Respects R run_ci_ret_ins.
Proof. unfold run_ci_ret_ins. frame_solve. Qed.
End data.

(** Those that move the program counter. *)
Section jumps.
Context (R : relation plc_st) `{!Frame R}.
#[global] Instance jump_over_frame : Respects R jump_over.
Proof. unfold jump_over. frame_solve. Qed.
#[global] Instance mcr_ins_frame : Respects R run_ci_mcr_ins.
Proof. unfold run_ci_mcr_ins. frame_solve. Qed.
(** The two that clear subroutines, given that the clearing respects [R]. *)
Section clearing.
Context (fuel : nat) (Hclean : forall f id, Respects R (plc_call_ins_clean_element f id)).
#[local] Existing Instance Hclean.
Hypothesis Hcall : forall f p, Respects R (clean_complex (plc_call_ins_clean_element f) p).
#[local] Existing Instance Hcall.
#[local] Instance clean_block_frame l1 l2 : Respects R (clean_block fuel l1 l2).
Proof. unfold clean_block. frame_solve. Qed.
Lemma mc_ins_frame : Respects R (run_ci_mc_ins fuel).
Proof. unfold run_ci_mc_ins, plc_mc_ins_clean_element. frame_solve. Qed.
Lemma stl_ins_frame : Respects R (run_ci_stl_ins fuel).
Proof. unfold run_ci_stl_ins, plc_stl_ins_clean_element, plc_stl_is_all_on. frame_solve. Qed.
End clearing.
End jumps.
