(* ===== verification/ProgramFacts.v ===== *)
(** * Running programs: what the dispatch keeps, and the watchdog

    A relation that every instruction handler respects is respected by the
    dispatch ([exec_complex_frame]) and by what is done between instructions
    ([boundary_frame]); and there the watchdog ends a program that has run too
    long. *)
From stdpp Require Import base list numbers sets.
From S2P Require Import Prelude Element Machine ParseAddr ParseAddrFacts SimpleIns SimpleFacts Device CounterIns TimeIns.
From S2P Require Import DataIns FlowCtrl Call ComplexIns Executer ExecFacts Effects DataEffects Stl.

(** ** Dispatch *)
Section cases.
Context (R : relation plc_st) `{!Frame R} (ins : Z -> Mc Z) (Hins : forall op, Respects R (ins op)).
Context (run : Z -> Mc Z) (fuel : nat).
Context (Hmc : Respects R (run_ci_mc_ins fuel)) (Hstl : Respects R (run_ci_stl_ins fuel)).
#[local] Existing Instances Hins Hmc Hstl.
Instance stepping_frame k m : Respects R m -> Respects R (stepping k m).
Proof. intros H. unfold stepping. frame_solve. Qed.
Instance checked_frame k m : Respects R m -> Respects R (checked k m).
Proof. intros H. unfold checked. frame_solve. Qed.
Instance skip_frame a b c d : Respects R (skip_string a b c d).
Proof. unfold skip_string. frame_solve. Qed.
Definition framed_case (o : option (Mc Z)) : Prop := forall m, o = Some m -> m = run_ci_call_ins run fuel \/ Respects R m.
Ltac case_solve := intros ?; repeat (case_match; try discriminate); intros [= <-];
  first [ by left | right; unfold illegal, ld_compare, and_compare, or_compare, run_ci_lbl_ins, run_ci_sbr_ins,
    run_ci_ciret_ins, run_ci_cfend_ins, run_ci_fend_ins, run_ci_iret_ins, run_ci_sret_ins, run_ci_continue_ins,
    run_ci_break_ins, run_ci_tadd_ins, run_ci_tsub_ins; frame_solve ].
Lemma control_framed op : framed_case (ci_control fuel op).
Proof. unfold framed_case, ci_control. case_solve. Qed.
Lemma devices_framed op : framed_case (ci_devices run fuel op).
Proof. unfold framed_case, ci_devices. case_solve. Qed.
Lemma moves_framed op : framed_case (ci_moves op).
Proof. unfold framed_case, ci_moves. case_solve. Qed.
Lemma compares_framed op : framed_case (ci_compares op).
Proof. unfold framed_case, ci_compares. case_solve. Qed.
Lemma arithmetic_framed op : framed_case (ci_arithmetic ins op).
Proof. unfold framed_case, ci_arithmetic. case_solve. Qed.
Lemma words_framed op : framed_case (ci_words ins op).
Proof. unfold framed_case, ci_words. case_solve. Qed.
Lemma conversions_framed op : framed_case (ci_conversions ins op).
Proof. unfold framed_case, ci_conversions. case_solve. Qed.
Lemma services_framed op : framed_case (ci_services ins op).
Proof. unfold framed_case, ci_services. case_solve. Qed.
Lemma clock_framed op : framed_case (ci_clock op).
Proof. unfold framed_case, ci_clock. case_solve. Qed.
Lemma network_framed op : framed_case (ci_network ins op).
Proof. unfold framed_case, ci_network. case_solve. Qed.
Lemma blocks_framed op : framed_case (ci_blocks fuel op).
Proof. unfold framed_case, ci_blocks. case_solve. Qed.
Lemma motion_framed op : framed_case (ci_motion ins op).
Proof. unfold framed_case, ci_motion. case_solve. Qed.
Lemma drives_framed op : framed_case (ci_drives ins op).
Proof. unfold framed_case, ci_drives. case_solve. Qed.
Lemma or_else_framed o k : framed_case o -> framed_case k -> framed_case (or_else o k).
Proof. intros Ho Hk m. destruct o as [m'|]; cbn [or_else]; [exact (Ho m)|exact (Hk m)]. Qed.
(** A complex instruction is the CALL or respects [R]. *)
Lemma ci_exec_framed op : ci_exec ins run fuel op = run_ci_call_ins run fuel \/ Respects R (ci_exec ins run fuel op).
Proof.
  unfold ci_exec. destruct (ci_case ins run fuel op) as [m|] eqn:E; [|right; apply _].
  assert (H : framed_case (ci_case ins run fuel op)); [|exact (H m E)].
  unfold ci_case. repeat apply or_else_framed;
    first [ apply control_framed | apply devices_framed | apply moves_framed | apply compares_framed
      | apply arithmetic_framed | apply words_framed | apply conversions_framed | apply services_framed
      | apply clock_framed | apply network_framed | apply blocks_framed | apply motion_framed | apply drives_framed ].
Qed.
End cases.

(** ** Everything but the call depth *)
Section shape.
Context (R : relation plc_st) `{!Frame R} (ins : Z -> Mc Z) (Hins : forall op, Respects R (ins op)).
Context (Hn : forall v s, R s (with_flow (with_call_info (with_SbrNestedNum v (call_info (flow s))) (flow s)) s)).
#[local] Existing Instance Hins.
Lemma set_nested_frame v : Respects R (set_nested v).
Proof. unfold set_nested, mod_call. apply respects_modify. intros s. apply Hn. Qed.
#[local] Existing Instance set_nested_frame.
#[local] Instance clean_frame fuel : forall id, Respects R (plc_call_ins_clean_element fuel id).
Proof.
  induction fuel as [|f IH]; intros id; cbn [plc_call_ins_clean_element]; [apply _|].
  assert (forall p, Respects R (clean_call (plc_call_ins_clean_element f) p)) by (unfold clean_call; frame_solve).
  assert (forall p, Respects R (clean_complex (plc_call_ins_clean_element f) p)) by (unfold clean_complex; frame_solve).
  frame_solve.
Qed.
#[local] Instance complex_frame f p : Respects R (clean_complex (plc_call_ins_clean_element f) p).
Proof.
  assert (Respects R (clean_call (plc_call_ins_clean_element f) p)) by (unfold clean_call; frame_solve).
  unfold clean_complex. frame_solve.
Qed.
#[local] Instance call_frame run fuel : (forall a, Respects R (run a)) -> Respects R (run_ci_call_ins run fuel).
Proof. intros H. unfold run_ci_call_ins. frame_solve. Qed.
#[local] Instance ci_exec_frame run fuel op : (forall a, Respects R (run a)) -> Respects R (ci_exec ins run fuel op).
Proof. intros H. destruct (ci_exec_framed R ins Hins run fuel (mc_ins_frame R fuel _) (stl_ins_frame R fuel _) op) as [->|]; apply _. Qed.
#[local] Instance exec_complex_frame run fuel : (forall a, Respects R (run a)) ->
  Respects R (plc_exec_complex_instruction ins run fuel).
Proof. intros H. unfold plc_exec_complex_instruction, ci_step. frame_solve. Qed.
End shape.

Section frames.
Context (R : relation plc_st) `{!Frame R}.
#[global] Instance error_msg_frame c : Respects R (plc_refresh_error_msg c).
Proof. unfold plc_refresh_error_msg, error_class, set_nonstop_flag, set_stop_flag, set_runstop_flag. frame_solve. Qed.
#[global] Instance report_frame c : Respects R (report c).
Proof. unfold report, plc_refresh_exec_error_record. frame_solve. Qed.
#[global] Instance judge_frame clock : Respects R (plc_judge_run_over_time clock).
Proof. unfold plc_judge_run_over_time, read_clock, get_run. frame_solve. Qed.
#[global] Instance boundary_frame clock : Respects R (boundary clock).
Proof. unfold boundary, get_run. frame_solve. Qed.
#[global] Instance complex_return_frame r : Respects R (complex_return r).
Proof. unfold complex_return. frame_solve. Qed.
End frames.

(** ** A program to run *)
(** A subroutine of one CALL, not powered, and a return. *)
Definition sub_demo : plc_st :=
  let s := st0 [0x21; 0xF0; 0; 0; 0; 0; 0; 0; 0; 0; 0x23; 0xF0] in
  with_flow (with_call_info {| msv_SbrNestedNum := 3; msv_UseNum := 1; mlv_UCodeAddr := [0]; mcv_IsExec := [0];
    mcp_RetPc := replicate 8 0; mcp_SbrPc := [10] |} (flow s)) s.
Definition no_ins (op : Z) : Mc Z := mret ERR_ILLEGAL_INSTRCTION.
#[global] Instance no_ins_frame R `{!PreOrder R} op : Respects R (no_ins op).
Proof. apply _. Qed.
Lemma sub_demo_runs : match plc_run_user_program no_ins tick 9 0 sub_demo with Ok (r, _) => r | _ => 0 end = EXEC_FLAG_SRET.
Proof. vm_compute. reflexivity. Qed.
Lemma sub_demo_end : exists s', plc_run_user_program no_ins tick 9 0 sub_demo = Ok (EXEC_FLAG_SRET, s').
Proof.
  pose proof sub_demo_runs as H. destruct (plc_run_user_program no_ins tick 9 0 sub_demo) as [[r s']| |]; [|done..].
  cbv beta iota in H. exists s'. by rewrite H.
Qed.
Lemma sub_demo_nested : nested sub_demo = 3.
Proof. reflexivity. Qed.
Lemma sub_demo_range : 0 <= nested sub_demo < 2 ^ 32.
Proof. rewrite sub_demo_nested. split; zconc. Qed.

(** ** The watchdog *)
(** C32: the watchdog stops a program at the next instruction boundary: out of
    online mode, when the instruction has left the loop running and more than
    SD34 milliseconds have passed since the watchdog was fed, the program loop
    returns EXEC_FLAG_STOP, the error stop is requested and user interrupts
    are disabled; and only then, or on an error stop already requested, does a
    boundary end the program. *)
Theorem watchdog_stops_program ins clock run fuel f s s1 :
  user_ins ins run fuel s = Ok (None, s1) -> wf_elem (elem s1) ->
  exists s', user_step ins clock run fuel tt s =
      Ok ((if overdue clock s1 || get_flag error_status_stop (mtv_PlcRunStopFlag (status s1))
           then inr EXEC_FLAG_STOP else inl tt), s') /\
    (overdue clock s1 = true ->
       loop (S f) (user_step ins clock run fuel) tt s = Ok (EXEC_FLAG_STOP, s') /\
       get_flag error_status_stop (mtv_PlcRunStopFlag (status s')) = true /\ user_intr_enable (sys s') = 0).
Proof.
  intros H W. destruct (boundary_run clock s1 W) as (s' & Hb & _ & Ho). exists s'.
  assert (Hu : user_step ins clock run fuel tt s =
    Ok ((if overdue clock s1 || get_flag error_status_stop (mtv_PlcRunStopFlag (status s1)) then inr EXEC_FLAG_STOP else inl tt), s')).
  { unfold user_step. by rewrite (bind_run _ _ _ _ _ H). }
  split; [exact Hu|]. intros O. split; [|apply Ho; by rewrite O]. rewrite O in Hu. cbn [loop]. by rewrite (bind_run _ _ _ _ _ Hu).
Qed.
Definition idle_demo : plc_st := st0 [0x26; 0xF0; 0; 0xE0].
Definition idle_ins (op : Z) : Mc Z := mret ERR_ILLEGAL_INSTRCTION.
Definition idle_run (a : Z) : Mc Z := mret EXEC_FLAG_SRET.
Lemma idle_demo_step : exists s1, user_ins idle_ins idle_run 5 idle_demo = Ok (None, s1) /\ wf_elem (elem s1) /\
  overdue (fun _ => 1000) s1 = true.
Proof.
  assert (H : match user_ins idle_ins idle_run 5 idle_demo with Ok (None, s1) => overdue (fun _ => 1000) s1 | _ => false end = true)
    by (vm_compute; reflexivity).
  assert (Hi : forall op, Respects wf_mem (idle_ins op)) by (intros op; apply respects_ret, _).
  assert (Hw : Respects wf_mem (user_ins idle_ins idle_run 5)).
  { assert (forall a, Respects wf_mem (idle_run a)) by (intros a; apply respects_ret, _).
    pose proof (exec_complex_frame wf_mem idle_ins Hi (fun _ _ w => w)) as Hx. unfold user_ins. frame_solve. }
  destruct (user_ins idle_ins idle_run 5 idle_demo) as [[[r|] s1]| |] eqn:E; try done.
  exists s1. split; [done|]. split; [|exact H]. exact (Hw _ _ _ E wf_elem0).
Qed.
Lemma watchdog_stops_program_witness : exists s',
  loop 1 (user_step idle_ins (fun _ => 1000) idle_run 5) tt idle_demo = Ok (EXEC_FLAG_STOP, s').
Proof.
  destruct idle_demo_step as (s1 & H & W & O).
  destruct (watchdog_stops_program idle_ins (fun _ => 1000) idle_run 5 0 idle_demo s1 H W) as (s' & _ & Hs).
  exists s'. exact (proj1 (Hs O)).
Defined.
