(* ===== verification/DepthFacts.v ===== *)
(** * The depth of calls

    A program or subroutine ends in one of four ways, and one that ends in a
    return leaves the depth of calls as it found it. *)
From stdpp Require Import base list numbers sets.
From S2P Require Import Prelude Element Machine ParseAddr ParseAddrFacts SimpleIns SimpleFacts Device CounterIns TimeIns.
From S2P Require Import DataIns FlowCtrl Call ComplexIns Executer ExecFacts Effects ProgramFacts DataEffects.

(** ** The depth of calls *)
Definition aborts (r : Z) : Prop := r ∈ [EXEC_FLAG_FEND; EXEC_FLAG_IRET; EXEC_FLAG_STOP].
(** At depth [d], [m] leaves the depth as it was, unless its result satisfies
    [P]. *)
Definition level {A} (d : Z) (P : A -> Prop) (m : Mc A) : Prop := forall s a s', 0 <= d < 2 ^ 32 -> nested s = d ->
  m s = Ok (a, s') -> P a \/ nested s' = d.
Lemma bind_ok {A B} (m : Mc A) (f : A -> Mc B) s b s2 : (m ≫= f) s = Ok (b, s2) ->
  exists a s1, m s = Ok (a, s1) /\ f a s1 = Ok (b, s2).
Proof. unfold mbind, M_bind. destruct (m s) as [[a s1]| |] eqn:E; [|done..]. intros H. by exists a, s1. Qed.
Section level.
Context {A : Type} (d : Z) (P : A -> Prop).
Implicit Types m : Mc A.
Lemma level_respects m : Respects same_depth m -> level d P m.
Proof. intros H s a s' Hr Hd E. right. rewrite (H _ _ _ E); [done|]. by rewrite Hd. Qed.
Lemma level_ret a : P a -> level d P (mret a).
Proof. intros H s a' s' _ _ [= <- _]. by left. Qed.
Lemma level_bind {B} (m : Mc B) (f : B -> Mc A) : Respects same_depth m -> (forall b, level d P (f b)) ->
  level d P (m ≫= f).
Proof.
  intros Hm Hf s b s2 Hr Hd E. apply bind_ok in E as (a & s1 & E1 & E2).
  apply (Hf a s1 b s2 Hr); [|done]. rewrite (Hm _ _ _ E1); [done|]. by rewrite Hd.
Qed.
Lemma level_nested (f : Z -> Mc A) : level d P (f d) -> level d P (get_nested ≫= f).
Proof.
  intros Hf s a s' Hr Hd E. unfold mbind, M_bind in E. change (get_nested s) with (Ok (nested s, s) : res (Z * plc_st)) in E.
  rewrite Hd in E. exact (Hf s a s' Hr Hd E).
Qed.
Lemma level_if (b : bool) m1 m2 : (b = true -> level d P m1) -> (b = false -> level d P m2) -> level d P (if b then m1 else m2).
Proof. destruct b; auto. Qed.
End level.
Lemma down_up {A} d (P : A -> Prop) (k : Mc A) s a s' : 0 <= d < 2 ^ 32 -> level d P k ->
  nested s = u32 (d + 1) -> (d' ← get_nested; set_nested (d' - 1);; k) s = Ok (a, s') -> P a \/ nested s' = d.
Proof.
  intros Hr Hk Hs E. unfold mbind at 1, M_bind at 1 in E. change (get_nested s) with (Ok (nested s, s) : res (Z * plc_st)) in E.
  apply bind_ok in E as ([] & s1 & E1 & E). injection E1 as <-. apply (Hk _ _ _ Hr) in E; [done|].
  unfold nested at 1. cbn. rewrite Hs. unfold u32. rewrite Zminus_mod_idemp_l.
  replace (d + 1 - 1) with d by lia. by apply Z.mod_small.
Qed.

Section depth.
Context (ins : Z -> Mc Z) (Hins : forall op, Respects same_depth (ins op)) (clock : plc_st -> Z).
#[local] Existing Instance Hins.
#[local] Instance get_IsExec_depth i : Respects same_depth (get_IsExec i).
Proof. unfold get_IsExec, call_info_get. apply _. Qed.
#[local] Instance set_IsExec_depth i v : Respects same_depth (set_IsExec i v).
Proof. frame_solve. Qed.
#[local] Instance clean_call_depth clean p : (forall id, Respects same_depth (clean id)) -> Respects same_depth (clean_call clean p).
Proof.
  intros Hc. unfold clean_call. apply respects_bind; [apply _..|]. intros n. apply respects_bind; [apply _..|]. intros rv.
  apply respects_if; [|apply _]. apply respects_bind; [apply _..|]. intros id.
  intros s a s' E Hr. set (d := nested s) in *. enough (False \/ nested s' = d) as [[]|H] by exact H.
  revert E. assert (Hs : nested s = d) by done. clearbody d. revert s a s' Hr Hs. change (level d (fun _ : Z => False)
    (d ← get_nested; if MAX_SBR_NESTED_LAYER <=? d then mret ERR_OVER_SBR_STACK else
      e ← get_IsExec id; if truthy e then set_IsExec id 0;; set_nested (d + 1);;
        r ← clean (Z.land n 0xFF); d' ← get_nested; set_nested (d' - 1);; mret r else mret pdPASS)).
  apply level_nested, level_if; intros _; [apply level_respects, _|]. apply level_bind; [apply _|]. intros e.
  apply level_if; intros _; [|apply level_respects, _]. apply level_bind; [apply _|]. intros _.
  intros s a s' Hr Hs E. apply bind_ok in E as ([] & s1 & E1 & E). injection E1 as <-.
  apply bind_ok in E as (r & s2 & E2 & E). pose proof (Hc _ _ _ _ E2) as D.
  refine (down_up d _ _ s2 a s' Hr (level_respects _ _ _ _) _ E). rewrite D; [done|]. apply u32_range.
Qed.
#[local] Instance clean_depth fuel : forall id, Respects same_depth (plc_call_ins_clean_element fuel id).
Proof.
  induction fuel as [|f IH]; intros id; cbn [plc_call_ins_clean_element]; [apply _|].
  assert (forall p, Respects same_depth (clean_complex (plc_call_ins_clean_element f) p)) by (unfold clean_complex; frame_solve).
  frame_solve.
Qed.
#[local] Instance complex_depth f p : Respects same_depth (clean_complex (plc_call_ins_clean_element f) p).
Proof. unfold clean_complex. frame_solve. Qed.
(** What is known of a (sub)program run: its four ends, and the depth at a
    return. *)
Definition ends (run : Z -> Mc Z) : Prop := forall a s r s', 0 <= nested s < 2 ^ 32 ->
  run a s = Ok (r, s') -> aborts r \/ r = EXEC_FLAG_SRET /\ nested s' = nested s.
Lemma call_level d run fuel : ends run -> level d aborts (run_ci_call_ins run fuel).
Proof.
  intros Hrun. unfold run_ci_call_ins.
  repeat (apply level_nested || (apply level_bind; [solve [frame_solve]|intros ?]) || (apply level_if; intros ?)
    || (apply level_respects; solve [frame_solve])).
  intros s a s' Hr Hs E. apply bind_ok in E as ([] & s1 & E1 & E). injection E1 as <-.
  apply bind_ok in E as (r & s2 & E2 & E). apply Hrun in E2 as [Ha|[-> D]]; [| |exact (u32_range (d + 1))].
  - left. destruct (Z.eqb_spec r EXEC_FLAG_SRET) as [->|]; [|by injection E as <- <-].
    unfold aborts in Ha. set_solver.
  - change (negb (EXEC_FLAG_SRET =? EXEC_FLAG_SRET)) with false in E. cbv match in E.
    refine (down_up d aborts _ s2 a s' Hr _ _ E); [apply level_respects; frame_solve|].
    by rewrite D.
Qed.
Lemma exec_level d run fuel op : ends run -> level d aborts (ci_exec ins run fuel op).
Proof.
  intros Hrun. destruct (ci_exec_framed same_depth ins Hins run fuel (mc_ins_frame _ fuel _) (stl_ins_frame _ fuel _) op) as [->|H];
    [by apply call_level|by apply level_respects].
Qed.
Lemma complex_level d run fuel f : ends run -> level d aborts (loop f (ci_step ins run fuel) tt).
Proof.
  intros Hrun. induction f as [|f IH]; [by intros s a s' _ _ [=]|]. cbn [loop].
  intros s a s' Hr Hs E. apply bind_ok in E as (o & s1 & E1 & E).
  assert (H1 : level d (fun o => exists r, o = inr r /\ aborts r) (ci_step ins run fuel tt)).
  { unfold ci_step. do 3 (apply level_bind; [frame_solve|intros ?]).
    clear s a s' Hr Hs o s1 E1 E. intros s o s' Hr Hs E. apply bind_ok in E as (r & s1 & E1 & E).
    destruct (Z.eqb_spec r pdPASS) as [->|Hp].
    - destruct (exec_level d run fuel _ Hrun _ _ _ Hr Hs E1) as [Ha|D]; [unfold aborts in Ha; set_solver|].
      right. apply bind_ok in E as (pc & s2 & E2 & E). apply bind_ok in E as (op & s3 & E3 & E).
      pose proof (respects (R := same_depth) _ _ _ E2) as D2. pose proof (respects (R := same_depth) _ _ _ E3) as D3.
      injection E as <- <-. rewrite D3, D2; [done|lia|]. rewrite D2; lia.
    - injection E as <- <-. destruct (exec_level d run fuel _ Hrun _ _ _ Hr Hs E1) as [Ha|D]; [left|by right]. by exists r. }
  destruct (H1 _ _ _ Hr Hs E1) as [(r & -> & Ha)|D]; [left; by injection E as <- <-|].
  destruct o as [[]|r]; [exact (IH _ _ _ Hr D E)|]. injection E as <- <-. by right.
Qed.
Lemma complex_return_ends r s o s' : complex_return r s = Ok (o, s') ->
  (aborts r /\ o = Some r) \/ (~ aborts r /\ (o = None \/ o = Some EXEC_FLAG_SRET)).
Proof.
  unfold complex_return, aborts. intros E. destruct (Z.eqb_spec r pdPASS) as [->|Hp].
  - right. split; [set_solver|]. left.
    do 3 (apply bind_ok in E as ([] & ? & _ & E)). by injection E as <- _.
  - destruct (z_in r _) eqn:Hz.
    + injection E as <- <-. apply z_in_spec in Hz. destruct (decide (r = EXEC_FLAG_SRET)) as [->|]; [right|left]; set_solver.
    + assert (Hn : r ∉ [EXEC_FLAG_FEND; EXEC_FLAG_IRET; EXEC_FLAG_SRET]) by (intros Hin; apply z_in_spec in Hin; congruence).
      destruct (Z.eqb_spec r EXEC_FLAG_STOP) as [->|Hs].
      * left. apply bind_ok in E as ([] & ? & _ & E). injection E as <- _. set_solver.
      * right. apply bind_ok in E as ([] & ? & _ & E). injection E as <- _. set_solver.
Qed.
Definition quits (o : unit + Z) : Prop := exists r, o = inr r /\ aborts r.
Lemma user_step_ends d run fuel s o s' : ends run -> 0 <= d < 2 ^ 32 -> nested s = d ->
  user_step ins clock run fuel tt s = Ok (o, s') ->
  quits o \/ nested s' = d /\ (o = inl tt \/ o = inr EXEC_FLAG_SRET).
Proof.
  intros Hrun Hr Hs E. unfold user_step in E. apply bind_ok in E as (c & s1 & E1 & E).
  assert (Hc : (exists r, c = Some r /\ aborts r) \/ nested s1 = d /\ (c = None \/ c = Some EXEC_FLAG_SRET)).
  { unfold user_ins in E1. apply bind_ok in E1 as (pc & s2 & E2 & E1). injection E2 as <- <-.
    apply bind_ok in E1 as ([] & s2 & E2 & E1). injection E2 as <-.
    apply bind_ok in E1 as (op & s3 & E3 & E1). pose proof (respects (R := same_depth) _ _ _ E3) as D3.
    assert (Hs3 : nested s3 = d) by (rewrite D3; [exact Hs|by rewrite <- Hs in Hr]).
    destruct (op <? 0xE000).
    - right. apply bind_ok in E1 as (r & s4 & E4 & E1). pose proof (respects (R := same_depth) _ _ _ E4) as D4.
      apply bind_ok in E1 as ([] & s5 & E5 & E1). pose proof (respects (R := same_depth) _ _ _ E5) as D5.
      injection E1 as <- <-. split; [|by left]. rewrite D5, D4; [done|lia|]. rewrite D4; lia.
    - apply bind_ok in E1 as (r & s4 & E4 & E1).
      pose proof (complex_level d run fuel fuel Hrun _ _ _ Hr Hs3 E4) as D4.
      pose proof (respects (R := same_depth) _ _ _ E1) as D5.
      destruct (complex_return_ends _ _ _ _ E1) as [[Ha ->]|[Ha Ho]]; [left; by exists r|right].
      destruct D4 as [D4|D4]; [done|]. split; [|done]. rewrite D5; lia. }
  destruct Hc as [(r & -> & Ha)|[D [->| ->]]].
  - left. injection E as <- _. by exists r.
  - pose proof (respects (R := same_depth) _ _ _ E) as D5. unfold boundary in E.
    apply bind_ok in E as (on & s2 & _ & E). apply bind_ok in E as ([] & s3 & _ & E). apply bind_ok in E as (fl & s4 & _ & E).
    destruct (get_flag _ _).
    + left. apply bind_ok in E as ([] & s5 & _ & E). injection E as <- _. exists EXEC_FLAG_STOP. unfold aborts. set_solver.
    + injection E as <- _. right. split; [rewrite D5; lia|by left].
  - injection E as <- <-. right. split; [done|by right].
Qed.
Lemma program_loop_ends d run fuel f : ends run -> 0 <= d < 2 ^ 32 -> forall s r s', nested s = d ->
  loop f (user_step ins clock run fuel) tt s = Ok (r, s') -> aborts r \/ r = EXEC_FLAG_SRET /\ nested s' = d.
Proof.
  intros Hrun Hr. induction f as [|f IH]; intros s r s' Hs E; [done|]. cbn [loop] in E.
  apply bind_ok in E as (o & s1 & E1 & E).
  destruct (user_step_ends d run fuel s o s1 Hrun Hr Hs E1) as [(r' & -> & Ha)|[D [->| ->]]].
  - injection E as <- <-. by left.
  - exact (IH _ _ _ D E).
  - injection E as <- <-. by right.
Qed.
Lemma program_ends fuel : ends (plc_run_user_program ins clock fuel).
Proof.
  induction fuel as [|f IH]; intros a s r s' Hr E; [done|]. cbn [plc_run_user_program] in E.
  apply bind_ok in E as (c & s1 & E1 & E). injection E1 as <- <-. apply bind_ok in E as ([] & s1 & E1 & E). injection E1 as <-.
  apply bind_ok in E as (fr & s2 & E2 & E). apply bind_ok in E as ([] & s3 & E3 & E). apply bind_ok in E as (x & s4 & E4 & E).
  apply bind_ok in E as ([] & s5 & E5 & E). injection E5 as <-. injection E as <- <-.
  assert (D2 : Respects same_depth ltp_ForNextIns) by (unfold ltp_ForNextIns; frame_solve).
  specialize (D2 _ _ _ E2 Hr). pose proof (respects (R := same_depth) _ _ _ E3) as D3.
  assert (Hs3 : nested s3 = nested s) by (rewrite D3; [exact D2|by rewrite D2]).
  destruct (program_loop_ends (nested s) _ f f IH Hr _ _ _ Hs3 E4) as [Ha|[-> D]]; [by left|by right].
Qed.
End depth.

(** C4: a program or subroutine ends in one of four ways only, whatever it
    calls: at the end of the main program (FEND), at the end of an interrupt
    (IRET), by a stop, or by a return (SRET); and at a return the depth of
    calls is the one it was entered with, so a CALL and the return of its
    subroutine cancel out. *)
Theorem returns_balance_calls ins clock fuel a s r s' :
  (forall op, Respects same_depth (ins op)) -> 0 <= nested s < 2 ^ 32 ->
  plc_run_user_program ins clock fuel a s = Ok (r, s') ->
  r = EXEC_FLAG_FEND \/ r = EXEC_FLAG_IRET \/ r = EXEC_FLAG_STOP \/
  r = EXEC_FLAG_SRET /\ nested s' = nested s.
Proof.
  intros Hins Hr E. destruct (program_ends ins Hins clock fuel _ _ _ _ Hr E) as [H|H]; [|by auto].
  unfold aborts in H. set_unfold in H. naive_solver.
Qed.
Lemma returns_balance_calls_witness : exists s',
  plc_run_user_program no_ins tick 9 0 sub_demo = Ok (EXEC_FLAG_SRET, s') /\ nested s' = 3.
Proof.
  destruct sub_demo_end as [s' E]. exists s'. split; [exact E|].
  pose proof (returns_balance_calls no_ins tick 9 0 sub_demo _ s' (no_ins_frame same_depth) sub_demo_range E) as H.
  destruct H as [H|[H|[H|[_ H]]]]; [discriminate H..|]. etransitivity; [exact H|exact sub_demo_nested].
Defined.
