(* ===== verification/CodeFacts.v ===== *)
(** * Codes, rotations and flags

    What the conversions and the arithmetic of the data-processing
    instructions compute: the decimal and Gray codes round-trip, the rotations
    invert one another, the flags of the sums tell the overflows. *)
From stdpp Require Import base list numbers sets.
From S2P Require Import Prelude Element Machine ParseAddr ParseAddrFacts Device DataIns BitIns Arith Convert Rotate.

(** ** Positional notation *)
(** The number with the digits [l], lowest first. *)
Fixpoint positional (b : Z) (l : list Z) : Z := match l with [] => 0 | d :: l' => d + b * positional b l' end.
Definition digit (b : Z) (d : Z) : Prop := 0 <= d < b.
(** The lowest [n] digits of a number. *)
Fixpoint digits (b : Z) (n : nat) (d : Z) : list Z :=
  match n with O => [] | S n' => d mod b :: digits b n' (d / b) end.

Section positional.
Context (b : Z) (Hb : 1 < b).
Lemma positional_range l : Forall (digit b) l -> 0 <= positional b l < b ^ Z.of_nat (length l).
Proof.
  induction 1 as [|d l Hd Hl IH]; [simpl; lia|]. unfold digit in Hd. cbn [positional length].
  rewrite Nat2Z.inj_succ, Z.pow_succ_r by lia. nia.
Qed.
Lemma digits_ok n d : Forall (digit b) (digits b n d).
Proof. revert d. induction n as [|n IH]; intros d; constructor; [apply Z.mod_pos_bound; lia|apply IH]. Qed.
Lemma digits_length n d : length (digits b n d) = n.
Proof. revert d. induction n as [|n IH]; intros d; simpl; by rewrite ?IH. Qed.
Lemma positional_digits n d : positional b (digits b n d) = d mod b ^ Z.of_nat n.
Proof.
  revert d. induction n as [|n IH]; intros d.
  - change (b ^ Z.of_nat 0) with 1. by rewrite Z.mod_1_r.
  - cbn [digits positional]. rewrite IH, Nat2Z.inj_succ, Z.pow_succ_r, Z.rem_mul_r by lia. done.
Qed.
Lemma digits_positional l : Forall (digit b) l -> digits b (length l) (positional b l) = l.
Proof.
  induction 1 as [|d l Hd Hl IH]; [done|]. unfold digit in Hd. cbn [positional length digits].
  rewrite (Z.mul_comm b), Z.mod_add, Z.mod_small, Z.div_add, Z.div_small by lia. by rewrite Z.add_0_l, IH.
Qed.
End positional.

(** Another way to write a digit. *)
Lemma digit_split d m m' : 0 < m -> m' = 10 * m -> (d mod m') / m = (d / m) mod 10.
Proof.
  intros H ->. rewrite (Z.mul_comm 10), Z.rem_mul_r, Z.add_comm, Z.mul_comm by lia.
  rewrite Z.div_add_l, (Z.div_small (d mod m)) by (try apply Z.mod_pos_bound; lia). lia.
Qed.
Lemma nibble_div d sh : 0 <= sh -> nibble d sh = (d / 2 ^ sh) mod 16.
Proof.
  intros H. unfold nibble. rewrite Z.shiftr_land, Z.shiftr_shiftl_l, Z.shiftr_div_pow2 by lia.
  replace (sh - sh) with 0 by lia. rewrite Z.shiftl_0_r. change 0xF with (Z.ones 4). by rewrite Z.land_ones.
Qed.
Ltac literals := repeat match goal with |- context [?d / ?x] => progress (let y := eval vm_compute in x in change x with y) end.
Lemma digits4 b d : 0 < b -> digits b 4 d = [d mod b; d / b mod b; d / (b * b) mod b; d / (b * b * b) mod b].
Proof. intros H. cbn [digits]. by rewrite !Z.div_div by lia. Qed.
Lemma digits8 b d : 0 < b -> digits b 8 d = [d mod b; d / b mod b; d / (b * b) mod b; d / (b * b * b) mod b;
  d / (b * b * b * b) mod b; d / (b * b * b * b * b) mod b; d / (b * b * b * b * b * b) mod b;
  d / (b * b * b * b * b * b * b) mod b].
Proof. intros H. cbn [digits]. by rewrite !Z.div_div by lia. Qed.

(** ** The decimal codes in this notation *)
Lemma bcd_positional d : 0 <= d <= 9999 -> bcd d = positional 16 (digits 10 4 d).
Proof.
  intros H. unfold bcd. rewrite (digit_split d 10 100), (digit_split d 100 1000) by lia.
  cbn [digits positional]. rewrite !Z.div_div by lia. literals.
  rewrite (Z.mod_small (d / 1000)) by (split; [apply Z.div_pos; lia|apply Z.div_lt_upper_bound; lia]).
  pose proof (Z.mod_pos_bound d 10). pose proof (Z.mod_pos_bound (d / 10) 10).
  pose proof (Z.mod_pos_bound (d / 100) 10). pose proof (Z.div_pos d 1000). pose proof (Z.div_lt_upper_bound d 1000 10).
  rewrite u16_id by lia. lia.
Qed.
Lemma dbcd_positional d : 0 <= d <= 99999999 -> dbcd d = positional 16 (digits 10 7 d).
Proof.
  intros H. unfold dbcd. rewrite (Z.div_small d 100000000) by lia.
  rewrite (digit_split d 10 100), (digit_split d 100 1000), (digit_split d 1000 10000), (digit_split d 10000 100000),
    (digit_split d 100000 1000000), (digit_split d 1000000 10000000) by lia.
  cbn [digits positional]. rewrite !Z.div_div by lia.
  literals.
  pose proof (Z.mod_pos_bound d 10). pose proof (Z.mod_pos_bound (d / 10) 10).
  pose proof (Z.mod_pos_bound (d / 100) 10). pose proof (Z.mod_pos_bound (d / 1000) 10).
  pose proof (Z.mod_pos_bound (d / 10000) 10). pose proof (Z.mod_pos_bound (d / 100000) 10).
  pose proof (Z.mod_pos_bound (d / 1000000) 10). rewrite u32_id by lia. lia.
Qed.
Definition decimal (l : list Z) : Prop := Forall (digit 10) l.
Lemma bin_positional l : length l = 4%nat -> decimal l ->
  bin_ok (positional 16 l) = true /\ bin (positional 16 l) = positional 10 l.
Proof.
  intros Hl Hd. assert (H16 : Forall (digit 16) l) by (eapply Forall_impl; [exact Hd|unfold digit; lia]).
  pose proof (digits_positional 16 ltac:(lia) l H16) as E. rewrite Hl, digits4 in E by lia.
  destruct l as [|a [|b [|c [|e []]]]]; try discriminate. set (w := positional 16 [a; b; c; e]) in *.
  injection E as Ea Eb Ec Ee. unfold bin_ok, bin. rewrite !nibble_div by lia. change (2 ^ 0) with 1.
  change (2 ^ 4) with 16. change (2 ^ 8) with 256. change (2 ^ 12) with 4096. change (16 * 16 * 16) with 4096 in Ee. change (16 * 16) with 256 in Ec.
  rewrite Z.div_1_r, Ea, Eb, Ec, Ee.
  clear Ea Eb Ec Ee H16 Hl. unfold decimal in Hd. rewrite !Forall_cons in Hd. unfold digit in Hd. split.
  - apply negb_true_iff. rewrite !orb_false_iff, !Z.ltb_ge. lia.
  - cbn [positional]. rewrite u16_id by lia. lia.
Qed.
Lemma dbin_positional l : length l = 8%nat -> decimal l ->
  dbin_ok (positional 16 l) = true /\ dbin (positional 16 l) = positional 10 l.
Proof.
  intros Hl Hd. assert (H16 : Forall (digit 16) l) by (eapply Forall_impl; [exact Hd|unfold digit; lia]).
  pose proof (digits_positional 16 ltac:(lia) l H16) as E. rewrite Hl, digits8 in E by lia.
  destruct l as [|a [|b [|c [|e [|f [|g [|h [|i []]]]]]]]]; try discriminate.
  set (w := positional 16 [a; b; c; e; f; g; h; i]) in *. revert E.
  literals. intros E. injection E as Ea Eb Ec Ee Ef Eg Eh Ei. unfold dbin_ok, bin_ok, dbin.
  rewrite !nibble_div by lia. literals. rewrite Z.div_1_r, Ea, Eb, Ec, Ee, Ef, Eg, Eh, Ei.
  clear Ea Eb Ec Ee Ef Eg Eh Ei H16 Hl. unfold decimal in Hd. rewrite !Forall_cons in Hd. unfold digit in Hd. split.
  - apply andb_true_iff. rewrite !negb_true_iff, !orb_false_iff, !Z.ltb_ge. lia.
  - cbn [positional]. rewrite u32_id by lia. lia.
Qed.
(** A word all of whose nibbles are decimal is the notation of its nibbles. *)
Lemma bin_ok_inv w : 0 <= w < 2 ^ 16 -> bin_ok w = true -> exists l, length l = 4%nat /\ decimal l /\ w = positional 16 l.
Proof.
  intros Hw H. exists (digits 16 4 w). rewrite digits_length, positional_digits by lia. split_and!; [done| |].
  - unfold bin_ok in H. rewrite negb_true_iff, !orb_false_iff, !Z.ltb_ge, !nibble_div in H by lia. revert H.
    rewrite digits4 by lia. literals. rewrite Z.div_1_r. intros H. unfold decimal. rewrite !Forall_cons. unfold digit.
    pose proof (Z.mod_pos_bound w 16). pose proof (Z.mod_pos_bound (w / 16) 16).
    pose proof (Z.mod_pos_bound (w / 256) 16). pose proof (Z.mod_pos_bound (w / 4096) 16). split_and!; try lia. constructor.
  - symmetry. apply Z.mod_small. exact Hw.
Qed.
Lemma dbin_ok_inv w : 0 <= w < 2 ^ 32 -> dbin_ok w = true -> exists l, length l = 8%nat /\ decimal l /\ w = positional 16 l.
Proof.
  intros Hw H. exists (digits 16 8 w). rewrite digits_length, positional_digits by lia. split_and!; [done| |].
  - unfold dbin_ok, bin_ok in H. rewrite andb_true_iff, !negb_true_iff, !orb_false_iff, !Z.ltb_ge, !nibble_div in H by lia.
    revert H. rewrite digits8 by lia. literals. rewrite Z.div_1_r. intros H. unfold decimal. rewrite !Forall_cons. unfold digit.
    assert (P : forall x, 0 <= x mod 16) by (intros; apply Z.mod_pos_bound; lia).
    split_and!; try apply P; try lia. constructor.
  - symmetry. apply Z.mod_small. exact Hw.
Qed.
Lemma digits_small b n d : 1 < b -> 0 <= d < b ^ Z.of_nat n -> positional b (digits b n d) = d.
Proof. intros Hb Hd. rewrite positional_digits by done. by apply Z.mod_small. Qed.
Lemma positional_snoc b l x : positional b (l ++ [x]) = positional b l + b ^ Z.of_nat (length l) * x.
Proof.
  induction l as [|d l IH]; [simpl; lia|]. cbn [positional length app]. rewrite IH, Nat2Z.inj_succ, Z.pow_succ_r; lia.
Qed.
Lemma digits_low7 b d : 1 < b -> digits b 8 d = digits b 7 d ++ [d / (b * b * b * b * b * b * b) mod b].
Proof. intros H. cbn [digits app]. by rewrite !Z.div_div by lia. Qed.

(** The decimal codes and their inverses: BIN undoes BCD on every accepted
    number and BCD undoes BIN on every accepted code, and BIN accepts what BCD
    makes. For double words DBCD drops the eighth digit, so DBIN gives back the
    number modulo 10^7. *)
Theorem decimal_codes_round_trip :
  (forall d, 0 <= d <= 9999 -> bin_ok (bcd d) = true /\ bin (bcd d) = d) /\
  (forall w, 0 <= w < 2 ^ 16 -> bin_ok w = true -> 0 <= bin w <= 9999 /\ bcd (bin w) = w) /\
  (forall d, 0 <= d <= 99999999 -> dbin_ok (dbcd d) = true /\ dbin (dbcd d) = d mod 10 ^ 7) /\
  (forall w, 0 <= w < 2 ^ 32 -> dbin_ok w = true -> 0 <= dbin w <= 99999999 /\ dbcd (dbin w) = w mod 2 ^ 28).
Proof.
  split_and!.
  - intros d Hd. rewrite bcd_positional by done.
    pose proof (bin_positional (digits 10 4 d) eq_refl (digits_ok 10 ltac:(lia) 4 d)) as [A B]. split; [done|].
    rewrite B. apply digits_small; lia.
  - intros w Hw H. destruct (bin_ok_inv w Hw H) as (l & Hl & Hd & ->).
    destruct (bin_positional l Hl Hd) as [_ ->]. pose proof (positional_range 10 ltac:(lia) l Hd) as R. rewrite Hl in R.
    split; [lia|]. rewrite bcd_positional by lia. f_equal. rewrite <- Hl. by apply digits_positional.
  - intros d Hd. change (10 ^ 7) with (10 ^ Z.of_nat 7). rewrite dbcd_positional by done.
    assert (E : positional 16 (digits 10 7 d) = positional 16 (digits 10 8 (d mod 10 ^ Z.of_nat 7))).
    { rewrite <- (positional_digits 10 ltac:(lia) 7 d). set (l := digits 10 7 d).
      assert (Hl : length l = 7%nat) by apply digits_length.
      assert (Hd' : Forall (digit 10) l) by (apply digits_ok; lia).
      rewrite digits_low7 by lia. assert (E : digits 10 7 (positional 10 l) = l) by (rewrite <- Hl; by apply digits_positional).
      rewrite E, positional_snoc. pose proof (positional_range 10 ltac:(lia) l Hd') as R. rewrite Hl in R.
      rewrite (Z.div_small (positional 10 l)) by lia. rewrite Zmod_0_l. lia. }
    rewrite E. pose proof (dbin_positional (digits 10 8 (d mod 10 ^ Z.of_nat 7)) eq_refl (digits_ok 10 ltac:(lia) 8 _)) as [A B].
    split; [done|]. rewrite B. apply digits_small; [lia|]. pose proof (Z.mod_pos_bound d (10 ^ Z.of_nat 7)). lia.
  - intros w Hw H. destruct (dbin_ok_inv w Hw H) as (l & Hl & Hd & ->).
    destruct (dbin_positional l Hl Hd) as [_ ->]. pose proof (positional_range 10 ltac:(lia) l Hd) as R. rewrite Hl in R.
    split; [lia|]. rewrite dbcd_positional by lia.
    destruct l as [|x l' _] using rev_ind; [done|]. rewrite length_app in Hl. simpl in Hl.
    apply Forall_app in Hd as [Hd Hx].
    assert (Hd16 : Forall (digit 16) l') by (eapply Forall_impl; [exact Hd|unfold digit; lia]).
    pose proof (positional_range 16 ltac:(lia) l' Hd16) as R16.
    replace (length l') with 7%nat in R16 by lia.
    assert (E : digits 10 7 (positional 10 (l' ++ [x])) = l').
    { pose proof (digits_positional 10 ltac:(lia) (l' ++ [x])) as E. rewrite length_app in E. simpl in E.
      replace (length l' + 1)%nat with 8%nat in E by lia. rewrite digits_low7 in E by lia.
      apply app_inj_tail in E as [E _]; [done|]. by apply Forall_app. }
    rewrite E, positional_snoc. replace (length l') with 7%nat by lia. symmetry. change (2 ^ 28) with (16 ^ Z.of_nat 7).
    rewrite (Z.mul_comm (16 ^ _)), Z.mod_add by lia. by apply Z.mod_small.
Qed.
Lemma decimal_codes_round_trip_witness : bin (bcd 1987) = 1987 /\ dbin (dbcd 12345678) = 2345678.
Proof.
  destruct decimal_codes_round_trip as (A & _ & B & _). split.
  - apply A. lia.
  - apply B. lia.
Defined.

(** ** Gray code *)
Definition step_shift (k d : Z) : Z := Z.lxor d (Z.shiftr d k).
Lemma step_square k d : 0 <= k -> step_shift k (step_shift k d) = step_shift (k + k) d.
Proof.
  intros H. unfold step_shift. rewrite Z.shiftr_lxor, Z.shiftr_shiftr by lia.
  rewrite Z.lxor_assoc. f_equal. by rewrite <- Z.lxor_assoc, Z.lxor_nilpotent, Z.lxor_0_l.
Qed.
Lemma step_comm j k d : 0 <= j -> 0 <= k -> step_shift j (step_shift k d) = step_shift k (step_shift j d).
Proof.
  intros Hj Hk. unfold step_shift. rewrite !Z.shiftr_lxor, !Z.shiftr_shiftr, (Z.add_comm j k) by lia.
  rewrite !Z.lxor_assoc. f_equal. rewrite <- !Z.lxor_assoc. f_equal. apply Z.lxor_comm.
Qed.
Lemma step_out k d : 0 <= k -> 0 <= d < 2 ^ k -> step_shift k d = d.
Proof.
  intros Hk Hd. unfold step_shift. rewrite Z.shiftr_div_pow2, Z.div_small, Z.lxor_0_r by lia. done.
Qed.

(** GBIN undoes GRY and GRY undoes GBIN on every word, and DGBIN and DGRY
    on every double word. *)
Theorem gray_codes_round_trip d :
  (0 <= d < 2 ^ 16 -> ungray 4 0 (gray d) = d /\ gray (ungray 4 0 d) = d) /\
  (0 <= d < 2 ^ 32 -> ungray 5 0 (gray d) = d /\ gray (ungray 5 0 d) = d).
Proof.
  assert (D4 : 0 <= d < 2 ^ 16 -> step_shift 16 d = d) by (intros; by apply step_out).
  assert (D5 : 0 <= d < 2 ^ 32 -> step_shift 32 d = d) by (intros; by apply step_out).
  change (gray (ungray 4 0 d)) with (step_shift 1 (step_shift 8 (step_shift 4 (step_shift 2 (step_shift 1 d))))).
  change (ungray 4 0 (gray d)) with (step_shift 8 (step_shift 4 (step_shift 2 (step_shift 1 (step_shift 1 d))))).
  change (gray (ungray 5 0 d)) with
    (step_shift 1 (step_shift 16 (step_shift 8 (step_shift 4 (step_shift 2 (step_shift 1 d)))))).
  change (ungray 5 0 (gray d)) with
    (step_shift 16 (step_shift 8 (step_shift 4 (step_shift 2 (step_shift 1 (step_shift 1 d)))))).
  split; intros Hd; split.
  - rewrite (step_square 1), (step_square 2), (step_square 4), (step_square 8) by lia. by apply D4.
  - rewrite (step_comm 1 8), (step_comm 1 4), (step_comm 1 2) by lia.
    rewrite (step_square 1), (step_square 2), (step_square 4), (step_square 8) by lia. by apply D4.
  - rewrite (step_square 1), (step_square 2), (step_square 4), (step_square 8), (step_square 16) by lia. by apply D5.
  - rewrite (step_comm 1 16), (step_comm 1 8), (step_comm 1 4), (step_comm 1 2) by lia.
    rewrite (step_square 1), (step_square 2), (step_square 4), (step_square 8), (step_square 16) by lia. by apply D5.
Qed.
Lemma gray_codes_round_trip_witness : ungray 4 0 (gray 0xBEEF) = 0xBEEF.
Proof. apply (gray_codes_round_trip 0xBEEF). lia. Defined.

(** ** Rotations *)
Lemma testbit_high x n i : 0 <= x < 2 ^ n -> 0 <= n <= i -> Z.testbit x i = false.
Proof.
  intros Hx Hn. destruct (decide (x = 0)) as [->|]; [apply Z.bits_0|]. apply Z.bits_above_log2; [lia|].
  apply Z.log2_lt_pow2; [lia|]. pose proof (Z.pow_le_mono_r 2 n i). lia.
Qed.
Lemma u16_bit x i : 0 <= i < 16 -> Z.testbit (u16 x) i = Z.testbit x i.
Proof. intros Hi. unfold u16. by rewrite Z.mod_pow2_bits_low by lia. Qed.
Lemma bits_ext n x y : 0 <= n -> 0 <= x < 2 ^ n -> 0 <= y < 2 ^ n ->
  (forall i, 0 <= i < n -> Z.testbit x i = Z.testbit y i) -> x = y.
Proof.
  intros Hn Hx Hy H. apply Z.bits_inj'. intros i Hi. destruct (decide (i < n)); [apply H; lia|].
  by rewrite !(testbit_high _ n) by lia.
Qed.
Lemma ror16_bit x y i : 0 <= x < 2 ^ 16 -> 0 <= y < 16 -> 0 <= i < 16 ->
  Z.testbit (ror16 x y) i = Z.testbit x ((i + y) mod 16).
Proof.
  intros Hx Hy Hi. unfold ror16. rewrite u16_bit, Z.lor_spec, Z.shiftr_spec, Z.shiftl_spec by lia.
  destruct (decide (i + y < 16)).
  - rewrite (Z.mod_small (i + y)), (Z.testbit_neg_r x (i - (16 - y))), orb_false_r by lia. done.
  - rewrite (testbit_high x 16 (i + y)), orb_false_l by lia. f_equal.
    rewrite <- (Z.mod_small (i - (16 - y)) 16) by lia. replace (i + y) with (i - (16 - y) + 1 * 16) by lia.
    by rewrite Z.mod_add by lia.
Qed.
Lemma rol16_bit x y i : 0 <= x < 2 ^ 16 -> 0 <= y < 16 -> 0 <= i < 16 ->
  Z.testbit (rol16 x y) i = Z.testbit x ((i - y) mod 16).
Proof.
  intros Hx Hy Hi. unfold rol16. rewrite u16_bit, Z.lor_spec, Z.shiftr_spec, Z.shiftl_spec by lia.
  destruct (decide (0 <= i - y)).
  - rewrite (Z.mod_small (i - y)), (testbit_high x 16 (i + (16 - y))), orb_false_r by lia. done.
  - rewrite (Z.testbit_neg_r x (i - y)), orb_false_l by lia. f_equal.
    replace (i - y) with (i + (16 - y) + (-1) * 16) by lia. by rewrite Z.mod_add, Z.mod_small by lia.
Qed.
(** A word and the carry as seventeen bits. *)
Definition bit17 (x c i : Z) : bool := if i =? 16 then truthy c else Z.testbit x i.
Lemma land_1 x : Z.land x 1 = Z.b2z (Z.testbit x 0).
Proof. change 1 with (Z.ones 1). rewrite Z.land_ones by lia. change (2 ^ 1) with 2. rewrite Zmod_odd, <- Z.bit0_odd. by destruct (Z.testbit x 0). Qed.
Lemma carry_truthy x k : 0 <= k -> truthy (Z.land (Z.shiftr x k) 1) = Z.testbit x k.
Proof. intros Hk. rewrite land_1, Z.shiftr_spec, Z.add_0_l by lia. by destruct (Z.testbit x k). Qed.
Lemma bit_or b k i : (b = 0 \/ b = 1) -> 0 <= k -> 0 <= i -> Z.testbit (Z.shiftl b k) i = (i =? k) && truthy b.
Proof.
  intros Hb Hk Hi. rewrite Z.shiftl_spec by lia. destruct Hb as [-> | ->]; [by rewrite Z.bits_0, andb_false_r|].
  rewrite testbit_one. change (truthy 1) with true. rewrite andb_true_r. destruct (Z.eqb_spec i k), (Z.eqb_spec (i - k) 0); lia || done.
Qed.
(** Numbers with disjoint bits. *)
Lemma add_disjoint x c n k : 0 <= c -> 0 <= n -> 0 <= x < 2 ^ k -> 0 <= k -> k <= n ->
  x + Z.shiftl c n = Z.lor x (Z.shiftl c n).
Proof.
  intros Hc Hn Hx Hk Hkn. rewrite <- Z.lxor_lor; [apply Z.add_nocarry_lxor|]; apply Z.bits_inj'; intros i Hi;
    rewrite Z.land_spec, Z.bits_0, Z.shiftl_spec by lia; destruct (decide (i < n)).
  1, 3: by rewrite (Z.testbit_neg_r c), andb_false_r by lia.
  all: by rewrite (testbit_high x k) by lia.
Qed.
Lemma double_plus_bit x (b : bool) j : 0 <= j -> Z.testbit (2 * x + Z.b2z b) j = if j =? 0 then b else Z.testbit x (j - 1).
Proof.
  intros Hj. destruct (Z.eqb_spec j 0) as [->|]; [apply Z.testbit_0_r|].
  replace j with (Z.succ (j - 1)) at 1 by lia. by rewrite Z.testbit_succ_r by lia.
Qed.
Lemma rcr16_bit x y (c : bool) i : 0 <= x < 2 ^ 16 -> 1 <= y <= 16 -> 0 <= i <= 16 ->
  bit17 (rcr16 x y (Z.b2z c)) (rcr_carry x y) i = bit17 x (Z.b2z c) ((i + y) mod 17).
Proof.
  intros Hx Hy Hi. unfold bit17. destruct (Z.eqb_spec i 16) as [->|Hne].
  - unfold rcr_carry. rewrite carry_truthy by lia. replace (16 + y) with (y - 1 + 1 * 17) by lia.
    rewrite Z.mod_add, Z.mod_small by lia. by assert (y - 1 =? 16 = false) as -> by lia.
  - unfold rcr16. replace (Z.shiftl x (17 - y) + Z.shiftl (Z.b2z c) (16 - y)) with (Z.shiftl (2 * x + Z.b2z c) (16 - y)).
    2:{ rewrite !Z.shiftl_mul_pow2 by lia. replace (17 - y) with (Z.succ (16 - y)) by lia. rewrite Z.pow_succ_r by lia. lia. }
    rewrite u16_bit, Z.lor_spec, Z.shiftr_spec, Z.shiftl_spec by lia.
    destruct (decide (i + y < 16)) as [H|H].
    + rewrite (Z.testbit_neg_r _ (i - (16 - y))), orb_false_r, Z.mod_small by lia.
      by assert (i + y =? 16 = false) as -> by lia.
    + rewrite (testbit_high x 16 (i + y)), orb_false_l, double_plus_bit by lia.
      destruct (Z.eqb_spec (i - (16 - y)) 0).
      * replace (i + y) with 16 by lia. rewrite Z.mod_small by lia. by destruct c.
      * replace (i + y) with (i - (16 - y) - 1 + 1 * 17) by lia. rewrite Z.mod_add, Z.mod_small by lia.
        by assert (i - (16 - y) - 1 =? 16 = false) as -> by lia.
Qed.
Lemma shiftr_bound x k n : 0 <= n -> 0 <= k -> 0 <= x < 2 ^ (n + k) -> 0 <= Z.shiftr x k < 2 ^ n.
Proof.
  intros Hn Hk Hx. rewrite Z.shiftr_div_pow2 by lia. rewrite Z.pow_add_r in Hx by lia.
  split; [apply Z.div_pos; lia|apply Z.div_lt_upper_bound; lia].
Qed.
Lemma rcl16_bit x y (c : bool) i : 0 <= x < 2 ^ 16 -> 1 <= y <= 16 -> 0 <= i <= 16 ->
  bit17 (rcl16 x y (Z.b2z c)) (rcl_carry x y) i = bit17 x (Z.b2z c) ((i - y) mod 17).
Proof.
  intros Hx Hy Hi. unfold bit17. destruct (Z.eqb_spec i 16) as [->|Hne].
  - unfold rcl_carry. rewrite carry_truthy, Z.mod_small by lia. by assert (16 - y =? 16 = false) as -> by lia.
  - unfold rcl16. rewrite (add_disjoint _ _ (y - 1) (y - 1)); [|destruct c; done|lia|apply shiftr_bound; [lia..|]|lia|lia].
    2:{ by replace (y - 1 + (17 - y)) with 16 by lia. }
    rewrite u16_bit, !Z.lor_spec, Z.shiftr_spec, (bit_or (Z.b2z c)), Z.shiftl_spec by (lia || by destruct c; [right|left]).
    destruct (decide (y <= i)) as [H|H].
    + rewrite (testbit_high x 16 (i + (17 - y))), Z.mod_small by lia. assert (i =? y - 1 = false) as -> by lia.
      assert (i - y =? 16 = false) as -> by lia. by rewrite orb_false_r.
    + rewrite (Z.testbit_neg_r x (i - y)), orb_false_l by lia.
      replace (i - y) with (i + (17 - y) + (-1) * 17) by lia. rewrite Z.mod_add, Z.mod_small by lia.
      destruct (Z.eqb_spec i (y - 1)) as [->|].
      * rewrite (testbit_high x 16) by lia. by replace (y - 1 + (17 - y) =? 16) with true by lia.
      * assert (i + (17 - y) =? 16 = false) as -> by lia. by rewrite orb_false_r.
Qed.

(** The rotations rotate: bit [i] of the result of ROR (ROL) by [y] is bit
    [i + y] ([i - y]) of the word modulo 16; with the carry as a seventeenth
    bit above the word the same holds of RCR and RCL modulo 17, carry
    included. Hence ROL undoes ROR. *)
Theorem rotations_rotate x :
  0 <= x < 2 ^ 16 ->
  (forall y, 0 <= y < 16 -> rol16 (ror16 x y) y = x /\ ror16 (rol16 x y) y = x /\
     forall i, 0 <= i < 16 -> Z.testbit (ror16 x y) i = Z.testbit x ((i + y) mod 16) /\
       Z.testbit (rol16 x y) i = Z.testbit x ((i - y) mod 16)) /\
  (forall y (c : bool) i, 1 <= y <= 16 -> 0 <= i <= 16 ->
     bit17 (rcr16 x y (Z.b2z c)) (rcr_carry x y) i = bit17 x (Z.b2z c) ((i + y) mod 17) /\
     bit17 (rcl16 x y (Z.b2z c)) (rcl_carry x y) i = bit17 x (Z.b2z c) ((i - y) mod 17)).
Proof.
  intros Hx. split.
  - intros y Hy. split_and!.
    + apply (bits_ext 16); [done|apply u16_range|done|]. intros i Hi. pose proof (Z.mod_pos_bound (i - y) 16).
      rewrite rol16_bit, ror16_bit by (apply u16_range || lia). f_equal.
      rewrite Zplus_mod_idemp_l. replace (i - y + y) with i by lia. by apply Z.mod_small.
    + apply (bits_ext 16); [done|apply u16_range|done|]. intros i Hi. pose proof (Z.mod_pos_bound (i + y) 16).
      rewrite ror16_bit, rol16_bit by (apply u16_range || lia). f_equal.
      rewrite Zminus_mod_idemp_l. replace (i + y - y) with i by lia. by apply Z.mod_small.
    + intros i Hi. split; [by apply ror16_bit|by apply rol16_bit].
  - intros y c i Hy Hi. split; [by apply rcr16_bit|by apply rcl16_bit].
Qed.
Lemma rotations_rotate_witness : rol16 (ror16 0xBEEF 5) 5 = 0xBEEF.
Proof. apply (rotations_rotate 0xBEEF); [zconc|lia]. Defined.
