(* ===== verification/RegFacts.v ===== *)
(** * Words in D registers

    What the operand readers and writers do on a D register, the flags in SM
    bits, and the states an instruction on them passes through: what the
    proofs about data-processing instructions share. *)
From stdpp Require Import base list numbers sets.
From S2P Require Import Prelude Element Machine ParseAddr ParseAddrFacts Device DataIns BitIns Arith Convert Rotate.

(** ** Reading and writing *)
Section d_word.
Context (a m n off : Z) (s : plc_st) (W : wf_elem (elem s)) (O : operand a s m ADDR_D n).
Context (Hi : 0 <= n + off < D_RANG).
Lemma d_index : u16 (n + off) = n + off.
Proof using Hi. clear -Hi. apply u16_id. unfold D_RANG in Hi. lia. Qed.
Lemma d_get : get_word a off 1 s = Ok ((pdPASS, [cell D_ELEMENT (n + off) s]), s).
Proof.
  unfold get_word. rewrite (bind_run _ _ _ _ _ (op_t _ _ _ _ _ O)), addr_decode_code.
  cbn [get_word_knz get_word_indexed get_word_direct]. unfold words_direct.
  rewrite (bind_run _ _ _ _ _ (direct_index_run _ _ _ _ _ O off)), d_index. cbn [read_seq].
  assert (n + off <? D_RANG = true) as -> by lia.
  by rewrite (bind_run _ _ _ _ _ (rd_cell D_ELEMENT (n + off) s W Hi)).
Qed.
Lemma d_put v : save_word a [v] off s = Ok ((pdPASS, [v]), upd D_ELEMENT (n + off) v s).
Proof.
  unfold save_word. rewrite (bind_run _ _ _ _ _ (op_t _ _ _ _ _ O)), addr_decode_code.
  cbn [save_word_knz save_word_indexed save_word_direct]. unfold put_words_direct.
  rewrite (bind_run _ _ _ _ _ (direct_index_run _ _ _ _ _ O off)), d_index. unfold unshifted. cbn [write_seq].
  assert (n + off <? D_RANG = true) as -> by lia.
  unfold mbind at 1, M_bind at 1. by rewrite (bind_run _ _ _ _ _ (wr_upd D_ELEMENT (n + off) v s W Hi)).
Qed.
Lemma d_at : word_at_offset a off s = Ok ((pdPASS, Some (cell D_ELEMENT (n + off) s)), s).
Proof. unfold word_at_offset. by rewrite (bind_run _ _ _ _ _ d_get). Qed.
Lemma d_save v : save_words a [v] off s = Ok (pdPASS, upd D_ELEMENT (n + off) v s).
Proof. unfold save_words. by rewrite (bind_run _ _ _ _ _ (d_put v)). Qed.
End d_word.
Lemma d_with_word a m n s k : wf_elem (elem s) -> operand a s m ADDR_D n -> n < D_RANG ->
  with_word a k s = k (cell D_ELEMENT n s) s.
Proof.
  intros W O Hn. pose proof (op_n_range _ _ _ _ _ O). unfold with_word, get_word1, mbind, M_bind.
  rewrite (d_get a m n 0 s W O), Z.add_0_r by lia. done.
Qed.
Lemma d_save1 a m n v s : wf_elem (elem s) -> operand a s m ADDR_D n -> n < D_RANG ->
  save_word1 a v s = Ok (pdPASS, upd D_ELEMENT n v s).
Proof.
  intros W O Hn. pose proof (op_n_range _ _ _ _ _ O). unfold save_word1.
  rewrite (bind_run _ _ _ _ _ (d_put a m n 0 s W O ltac:(lia) v)). by rewrite Z.add_0_r.
Qed.

(** ** The states of one instruction *)
(** What an instruction on D registers and flags leaves. *)
Definition stays (s s' : plc_st) : Prop := wf_elem (elem s') /\ inert s s' /\ env s' = env s.
Lemma stays_refl s : wf_elem (elem s) -> stays s s.
Proof. intros W. split_and!; [done|reflexivity|done]. Qed.
Lemma stays_trans s s1 s2 : stays s s1 -> stays s1 s2 -> stays s s2.
Proof. intros (_ & I & E) (W & I' & E'). split_and!; [done|by transitivity s1|congruence]. Qed.
Lemma stays_upd i v s : wf_elem (elem s) -> 0 <= i < D_RANG -> stays s (upd D_ELEMENT i v s).
Proof.
  intros W Hi. pose proof (wr_upd D_ELEMENT i v s W Hi) as E. split_and!; [by apply upd_wf|by eapply wr_inert|done].
Qed.
Lemma stays_operand a m t n s s' : stays s s' -> operand a s m t n -> operand a s' m t n.
Proof. intros (_ & I & _). by apply operand_inert. Qed.
(** A flag. *)
Definition flag (n : Z) (s : plc_st) : option bool := bit_of (mem s) SM_ELEMENT n.
Lemma set_SM_run n v s : wf_elem (elem s) -> 0 <= n < 1024 -> 0 <= v < 2 ^ 8 ->
  exists s', set_SM n v s = Ok (tt, s') /\ stays s s' /\ flag n s' = Some (truthy v) /\
    (forall m, 0 <= m -> m <> n -> flag m s' = flag m s) /\
    (forall i, cell D_ELEMENT i s' = cell D_ELEMENT i s).
Proof.
  intros W Hn Hv.
  destruct (set_bit_run SM_ELEMENT n v s W) as (s' & H & [B _] & W'); [done|lia|change (16 * rsize SM_ELEMENT) with 1024; lia|done|].
  pose proof (set_bit_touches _ _ _ _ _ _ H) as T. exists s'. split_and!; [done| | | |].
  - split_and!; [done|apply (to_inert _ _ _ T)|apply (to_env _ _ _ T)].
  - etransitivity; [apply B; lia|]. by rewrite decide_True.
  - intros m Hm Hne. etransitivity; [apply B; lia|]. rewrite decide_False by naive_solver. done.
  - intros i. by eapply touches_cell.
Qed.
Lemma flag_upd n i v s : wf_elem (elem s) -> 0 <= i < D_RANG -> flag n (upd D_ELEMENT i v s) = flag n s.
Proof.
  intros W Hi. pose proof (wr_upd D_ELEMENT i v s W Hi) as E. apply wr_touches in E. by eapply touches_bit.
Qed.
Lemma d_upd i j v (s : plc_st) : wf_elem (elem s) -> 0 <= i < D_RANG -> word_ok v ->
  cell D_ELEMENT j (upd D_ELEMENT i v s) = if decide (j = i) then v else cell D_ELEMENT j s.
Proof.
  intros W Hi Hv. rewrite cell_upd by done. change (rconv D_ELEMENT v) with (u16 v). rewrite u16_id by done.
  repeat case_decide; naive_solver.
Qed.

(** ** Rows of D registers *)
Lemma d_row a m n cnt s : wf_elem (elem s) -> operand a s m ADDR_D n -> n + Z.of_nat cnt <= D_RANG ->
  get_word a 0 cnt s = Ok ((pdPASS, (fun i : nat => cell D_ELEMENT (n + Z.of_nat i) s) <$> seq 0 cnt), s).
Proof.
  intros W O Hn. pose proof (op_n_range _ _ _ _ _ O). unfold get_word.
  rewrite (bind_run _ _ _ _ _ (op_t _ _ _ _ _ O)), addr_decode_code.
  cbn [get_word_knz get_word_indexed get_word_direct]. unfold words_direct.
  rewrite (bind_run _ _ _ _ _ (direct_index_run _ _ _ _ _ O 0)), Z.add_0_r, u16_id by lia.
  enough (E : forall i, n <= i -> i + Z.of_nat cnt <= D_RANG -> read_seq (rd D_ELEMENT) D_RANG 1 i cnt s =
    Ok ((pdPASS, (fun k : nat => cell D_ELEMENT (i + Z.of_nat k) s) <$> seq 0 cnt), s)) by (apply E; lia).
  clear Hn. induction cnt as [|c IH]; intros i Hi Hc; [done|]. cbn [read_seq].
  assert (i <? D_RANG = true) as -> by lia.
  rewrite (bind_run _ _ _ _ _ (rd_cell D_ELEMENT i s W ltac:(change (rsize D_ELEMENT) with D_RANG; lia))).
  destruct (decide (c = 0)%nat) as [->|Hne]; [cbn; by rewrite Z.add_0_r|].
  rewrite (u16_id (i + 1)) by (unfold D_RANG in *; lia).
  rewrite (bind_run _ _ _ _ _ (IH (i + 1) ltac:(lia) ltac:(lia))). cbn [fst snd seq fmap list_fmap].
  rewrite Z.add_0_r, <- fmap_S_seq, <- list_fmap_compose. unfold mret, M_ret. do 4 f_equal.
  apply list_fmap_ext. intros k x _. cbn. f_equal. lia.
Qed.

(** An instruction at [pc] under power flow. *)
Definition flows_at (pc : Z) (s : plc_st) : Prop :=
  wf_elem (elem s) /\ mcp_PC (env s) = pc /\ get_pf (mlv_InPF (env s)) = true.
Lemma flows_powered pc k s : flows_at pc s -> powered (pc ← get_PC; k pc) s = k pc s.
Proof.
  intros (_ & P & F). unfold powered, GET_POWER_FLOW, get_PC, gets, mbind, M_bind. rewrite F. cbn [negb]. by rewrite P.
Qed.
