(* ===== verification/QueueFacts.v ===== *)
(** * Stacks and queues of registers

    PUSH, FIFO and LIFO of plc/executer/src/plc_dataprocessing.c on D
    registers: the length in one register, the elements in the ones after it.
    They implement the operations of a bounded list. *)
From stdpp Require Import base list numbers sets.
From S2P Require Import Prelude Element Machine ParseAddr ParseAddrFacts Device DataIns BitIns Arith Convert Rotate Block RegFacts.

(** ** The queue in memory *)
Section queue.
Context (n size : Z) (Hsize : 0 < size < 2 ^ 15) (Hn : 0 <= n) (Hfit : n + size < D_RANG).
(** The length in D[n], the elements from D[n+1] on, oldest first. *)
Record queue_at (q : list Z) (s : plc_st) : Prop := {
  qa_len : cell D_ELEMENT n s = Z.of_nat (length q);
  qa_cap : Z.of_nat (length q) <= size;
  qa_item i x : q !! i = Some x -> cell D_ELEMENT (n + 1 + Z.of_nat i) s = x }.
Lemma queue_at_cells q s s' : (forall i, n <= i <= n + size -> cell D_ELEMENT i s' = cell D_ELEMENT i s) ->
  queue_at q s -> queue_at q s'.
Proof.
  intros E [L C I]. split; [by rewrite E by lia|done|]. intros i x Hx. rewrite E; [by apply I|].
  apply lookup_lt_Some in Hx. lia.
Qed.
Lemma queue_word q s : queue_at q s -> s16 (cell D_ELEMENT n s) = Z.of_nat (length q).
Proof using Hsize. intros [L C _]. rewrite L. rewrite s16_small; lia. Qed.
Lemma queue_push q v s : wf_elem (elem s) -> word_ok v -> queue_at q s -> Z.of_nat (length q) < size ->
  queue_at (q ++ [v]) (upd D_ELEMENT n (Z.of_nat (length q) + 1)
                        (upd D_ELEMENT (n + (Z.of_nat (length q) + 1)) v s)).
Proof using Hsize Hn Hfit.
  intros W Hv [L C I] Hl. unfold word_ok in Hv.
  assert (W' : wf_elem (elem (upd D_ELEMENT (n + (Z.of_nat (length q) + 1)) v s))) by (apply upd_wf; [done|]; change (rsize D_ELEMENT) with D_RANG; lia).
  assert (Ll : Z.of_nat (length (q ++ [v])) = Z.of_nat (length q) + 1) by (rewrite length_app; cbn [length]; lia).
  split; rewrite ?Ll; [|lia|].
  - rewrite d_upd, decide_True by (unfold word_ok; lia || done). lia.
  - intros i x Hx. rewrite d_upd, decide_False by (unfold word_ok; lia || done). rewrite d_upd by (done || lia).
    destruct (decide (i = length q)) as [->|Hne].
    + rewrite lookup_app_r, Nat.sub_diag in Hx by lia. injection Hx as ->. by rewrite decide_True by lia.
    + rewrite decide_False by lia. apply I. apply lookup_lt_Some in Hx as Hi.
      by rewrite lookup_app_l in Hx by lia.
Qed.

(** The loop of FIFO moves the elements one place down. *)
Lemma fifo_shift a m (k : Mc Z) cnt i s : wf_elem (elem s) -> operand a s m ADDR_D n ->
  0 < i -> i + Z.of_nat cnt <= size ->
  exists s', copy cnt i (fun i => word_at_offset a (i + 1)) (save_word_at a) k s = k s' /\ stays s s' /\
    (forall f, flag f s' = flag f s) /\
    (forall j, cell D_ELEMENT j s' =
      if decide (n + i <= j < n + i + Z.of_nat cnt) then cell D_ELEMENT (j + 1) s else cell D_ELEMENT j s).
Proof using Hsize Hn Hfit.
  revert i s. induction cnt as [|c IH]; intros i s W O Hi Hc; cbn [copy].
  - exists s. split_and!; [done|by apply stays_refl|done|]. intros j. by rewrite decide_False by lia.
  - rewrite (bind_run _ _ _ _ _ (d_at a m n (i + 1) s W O ltac:(lia))). cbn [fst snd].
    change (pdPASS =? pdPASS) with true. cbn match. rewrite bind_some. set (v := cell D_ELEMENT (n + (i + 1)) s).
    unfold save_word_at. rewrite (bind_run _ _ _ _ _ (d_save a m n i s W O ltac:(lia) v)).
    change (pdPASS =? pdPASS) with true. cbn match. pose proof (stays_upd (n + i) v s W ltac:(lia)) as S1.
    destruct (IH (i + 1) (upd D_ELEMENT (n + i) v s)) as (s' & E & S2 & F & D);
      [apply S1|by apply (stays_operand _ _ _ _ _ _ S1)|lia..|].
    assert (Hv : word_ok v) by (apply cell_u16; [done|change (rsize D_ELEMENT) with D_RANG; lia|done|done]).
    exists s'. split_and!; [done|exact (stays_trans _ _ _ S1 S2)|intros f; rewrite F; apply flag_upd; (done || lia)|].
    intros j. rewrite D, !d_upd by (done || lia). repeat case_decide; try lia; try done. subst v. f_equal. lia.
Qed.

(** *** The instructions *)
Record runs_at (pc : Z) (s : plc_st) : Prop := {
  ra_pc : mcp_PC (env s) = pc;
  ra_pf : get_pf (mlv_InPF (env s)) = true;
  ra_wf : wf_elem (elem s);
  ra_size : const_word (pc + 10) size s }.
Lemma runs_at_stays pc s s' : stays s s' -> runs_at pc s -> runs_at pc s'.
Proof. intros (W & I & E) [P F _ C]. split; [by rewrite E|by rewrite E|done|by eapply const_word_inert]. Qed.
Lemma get_PC_run pc s : runs_at pc s -> get_PC s = Ok (pc, s).
Proof. intros [P _ _ _]. unfold get_PC, gets. by rewrite P. Qed.
Lemma get_pf_run pc s : runs_at pc s -> GET_POWER_FLOW s = Ok (true, s).
Proof. intros [_ F _ _]. unfold GET_POWER_FLOW, gets. by rewrite F. Qed.
Lemma sized_run pc k s : runs_at pc s -> powered (sized k) s = k size s.
Proof using Hsize.
  intros R. pose proof (ra_size _ _ R) as C. unfold powered, sized.
  rewrite (bind_run _ _ _ _ _ (get_pf_run _ _ R)). cbn [negb]. rewrite (bind_run _ _ _ _ _ (get_PC_run _ _ R)).
  rewrite (with_word_const _ _ _ _ C), s16_small by lia. by assert (size <=? 0 = false) as -> by lia.
Qed.
Context (nd : Z) (Hnd : nd < D_RANG) (Hout : nd < n \/ n + size < nd).
(** Nothing else among the D registers changes. *)
Definition elsewhere (s s' : plc_st) : Prop :=
  forall j, (j < n \/ n + size < j) -> j <> nd -> cell D_ELEMENT j s' = cell D_ELEMENT j s.
Definition within_range (i : Z) : Prop := 0 <= i < D_RANG.

Lemma push_run pc md mq q s : runs_at pc s -> queue_at q s ->
  operand (pc + 2) s md ADDR_D nd -> operand (pc + 6) s mq ADDR_D n ->
  let full := size <=? Z.of_nat (length q) in
  exists s', run_ci_push_ins s = Ok (pdPASS, s') /\ stays s s' /\ elsewhere s s' /\ flag 181 s' = Some full /\
    queue_at (if full then q else q ++ [cell D_ELEMENT nd s]) s'.
Proof using Hsize Hn Hfit Hnd Hout.
  intros R Q Od Oq full. unfold run_ci_push_ins. rewrite (sized_run _ _ _ R), (bind_run _ _ _ _ _ (get_PC_run _ _ R)).
  rewrite (d_with_word _ _ _ _ _ (ra_wf _ _ R) Oq), (queue_word q s Q) by lia. pose proof (qa_cap _ _ Q) as C.
  assert (Z.of_nat (length q) <? 0 = false) as -> by lia. assert (size <? Z.of_nat (length q) = false) as -> by lia.
  destruct (set_SM_run 181 0 s (ra_wf _ _ R)) as (s1 & E1 & S1 & F1 & _ & D1); [lia..|]. rewrite (bind_run _ _ _ _ _ E1).
  assert (Q1 : queue_at q s1) by (by apply (queue_at_cells q s)).
  destruct (Z.eqb_spec (Z.of_nat (length q)) size) as [Hl|Hl].
  - destruct (set_SM_run 181 1 s1) as (s2 & E2 & S2 & F2 & _ & D2); [apply S1|lia..|]. rewrite (bind_run _ _ _ _ _ E2).
    assert (full = true) as -> by (subst full; lia). exists s2.
    split_and!; [done|exact (stays_trans _ _ _ S1 S2)|intros j _ _; by rewrite D2, D1|done|by apply (queue_at_cells q s1)].
  - assert (full = false) as -> by (subst full; lia). pose proof (op_n_range _ _ _ _ _ Od) as Rd.
    rewrite (d_with_word _ _ _ _ _ (proj1 S1) (stays_operand _ _ _ _ _ _ S1 Od)) by lia. rewrite D1. set (v := cell D_ELEMENT nd s).
    assert (Hv : word_ok v) by (apply cell_u16; [apply (ra_wf _ _ R)|change (rsize D_ELEMENT) with D_RANG; lia|done|done]).
    rewrite u16_id by lia. unfold then_ok, save_word_at. set (p := n + (Z.of_nat (length q) + 1)).
    assert (Hp : within_range p) by (unfold within_range; lia).
    rewrite (bind_run _ _ _ _ _ (d_save _ _ _ (Z.of_nat (length q) + 1) _ (proj1 S1) (stays_operand _ _ _ _ _ _ S1 Oq) Hp v)).
    change (pdPASS =? pdPASS) with true. cbn match. pose proof (stays_upd p v s1 (proj1 S1) Hp) as S2. fold p.
    pose proof (stays_trans _ _ _ S1 S2) as S12.
    rewrite (d_save1 _ _ _ _ _ (proj1 S2) (stays_operand _ _ _ _ _ _ S12 Oq)) by lia.
    assert (Hn' : within_range n) by (unfold within_range; lia).
    eexists. split_and!; [reflexivity|eapply stays_trans; [exact S12|by apply stays_upd, Hn'; apply S2]| | |].
    + intros j Hj _. rewrite !d_upd, !decide_False by (subst p; unfold word_ok; lia || done || apply S2 || apply S1 || apply Hp). by rewrite D1.
    + by rewrite !flag_upd, F1 by (done || apply S2 || apply S1).
    + apply queue_push; [apply S1|done|done|lia].
Qed.
(** What FIFO and LIFO share: the length is read, the empty flag cleared. *)
Lemma taking_run pc m k q s : runs_at pc s -> queue_at q s -> operand (pc + 2) s m ADDR_D n ->
  exists s1, set_SM 180 0 s = Ok (tt, s1) /\ stays s s1 /\ flag 180 s1 = Some false /\
    (forall j, cell D_ELEMENT j s1 = cell D_ELEMENT j s) /\
    taking k s = (if Z.of_nat (length q) =? 0 then set_SM 180 1;; mret pdPASS
                  else k size (Z.of_nat (length q))) s1.
Proof using Hsize Hn Hfit.
  intros R Q O. pose proof (qa_cap _ _ Q) as C.
  destruct (set_SM_run 180 0 s (ra_wf _ _ R)) as (s1 & E1 & S1 & F1 & _ & D1); [lia..|].
  exists s1. split_and!; [done..|]. unfold taking.
  rewrite (sized_run _ _ _ R), (bind_run _ _ _ _ _ (get_PC_run _ _ R)).
  rewrite (d_with_word _ _ _ _ _ (ra_wf _ _ R) O), (queue_word q s Q) by lia.
  assert (Z.of_nat (length q) <? 0 = false) as -> by lia. assert (size <? Z.of_nat (length q) = false) as -> by lia.
  cbn [orb]. by rewrite (bind_run _ _ _ _ _ E1).
Qed.
Lemma taking_empty pc m k s : runs_at pc s -> queue_at [] s -> operand (pc + 2) s m ADDR_D n ->
  exists s', taking k s = Ok (pdPASS, s') /\ stays s s' /\ flag 180 s' = Some true /\
    (forall j, cell D_ELEMENT j s' = cell D_ELEMENT j s).
Proof using Hsize Hn Hfit.
  intros R Q O. destruct (taking_run pc m k [] s R Q O) as (s1 & _ & S1 & _ & D1 & ->). cbn [length].
  destruct (set_SM_run 180 1 s1 (proj1 S1)) as (s2 & E2 & S2 & F2 & _ & D2); [lia..|].
  change (Z.of_nat 0 =? 0) with true. cbn match. rewrite (bind_run _ _ _ _ _ E2). exists s2.
  split_and!; [done|exact (stays_trans _ _ _ S1 S2)|done|intros j; by rewrite D2, D1].
Qed.
(** The result in its register, the queue where it was. *)
Lemma put_result a m v s : wf_elem (elem s) -> operand a s m ADDR_D nd -> word_ok v ->
  exists s', save_word1 a v s = Ok (pdPASS, s') /\ stays s s' /\ (forall f, flag f s' = flag f s) /\
    cell D_ELEMENT nd s' = v /\ (forall j, j <> nd -> cell D_ELEMENT j s' = cell D_ELEMENT j s).
Proof using Hnd.
  intros W O Hv. pose proof (op_n_range _ _ _ _ _ O) as Rn. assert (Hr : 0 <= nd < D_RANG) by lia. clear Rn.
  exists (upd D_ELEMENT nd v s). split_and!; [by eapply d_save1|by apply stays_upd|intros f; by apply flag_upd| |].
  - by rewrite d_upd, decide_True by done.
  - intros j Hj. by rewrite d_upd, decide_False by done.
Qed.
(** A new length. *)
Lemma put_length a m v s : wf_elem (elem s) -> operand a s m ADDR_D n -> 0 <= v < 2 ^ 15 ->
  exists s', save_word1 a (u16 v) s = Ok (pdPASS, s') /\ stays s s' /\ (forall f, flag f s' = flag f s) /\
    cell D_ELEMENT n s' = v /\ (forall j, j <> n -> cell D_ELEMENT j s' = cell D_ELEMENT j s).
Proof using Hsize Hfit Hn.
  intros W O Hv. pose proof (op_n_range _ _ _ _ _ O). rewrite u16_id by lia.
  assert (word_ok v) by (unfold word_ok; lia).
  exists (upd D_ELEMENT n v s). split_and!; [eapply d_save1; [done|done|lia]|apply stays_upd; [done|lia]
    |intros f; apply flag_upd; [done|lia]| |].
  - by rewrite d_upd, decide_True by (done || lia).
  - intros j Hj. by rewrite d_upd, decide_False by (done || lia).
Qed.
Lemma item_ok q i x s : wf_elem (elem s) -> queue_at q s -> q !! i = Some x -> word_ok x.
Proof using Hn Hfit.
  clear Hnd Hout. intros W [L C I] Hx. apply lookup_lt_Some in Hx as Hi. rewrite <- (I i x Hx).
  apply cell_u16; [done|change (rsize D_ELEMENT) with D_RANG; lia|done|done].
Qed.

Lemma fifo_run pc md mq x q s : runs_at pc s -> queue_at (x :: q) s ->
  operand (pc + 2) s mq ADDR_D n -> operand (pc + 6) s md ADDR_D nd ->
  exists s', run_ci_fifo_ins s = Ok (pdPASS, s') /\ stays s s' /\ elsewhere s s' /\ flag 180 s' = Some false /\
    queue_at q s' /\ cell D_ELEMENT nd s' = x.
Proof using Hsize Hn Hfit Hnd Hout.
  intros R Q Oq Od. set (len := Z.of_nat (length (x :: q))). assert (Hl : len = Z.of_nat (length q) + 1) by (subst len; cbn [length]; lia).
  pose proof (qa_cap _ _ Q) as C. fold len in C.
  destruct (taking_run pc mq (fun _ lsv_QueueLen => pc ← get_PC;
    word_at_pos (pc + 2) 1 (fun lsv_OutData => then_ok (save_word1 (pc + 6) lsv_OutData)
      (copy (Z.to_nat (lsv_QueueLen - 1)) 1 (fun i => word_at_offset (pc + 2) (i + 1)) (save_word_at (pc + 2))
        (save_word1 (pc + 2) (u16 (lsv_QueueLen - 1)))))) _ s R Q Oq) as (s1 & _ & S1 & F1 & D1 & E).
  unfold run_ci_fifo_ins. rewrite E. clear E. fold len. assert (len =? 0 = false) as -> by lia.
  rewrite (bind_run _ _ _ _ _ (get_PC_run _ _ (runs_at_stays _ _ _ S1 R))).
  pose proof (item_ok _ 0%nat x s (ra_wf _ _ R) Q eq_refl) as Hx. pose proof (qa_item _ _ Q 0%nat x eq_refl) as I0.
  unfold word_at_pos. rewrite (bind_run _ _ _ _ _ (d_at _ _ _ 1 _ (proj1 S1) (stays_operand _ _ _ _ _ _ S1 Oq) ltac:(lia))).
  cbn [fst snd]. change (pdPASS =? pdPASS) with true. cbn match. rewrite bind_some, D1.
  replace (n + 1) with (n + 1 + Z.of_nat 0) by lia. rewrite I0. unfold then_ok.
  destruct (put_result _ _ x _ (proj1 S1) (stays_operand _ _ _ _ _ _ S1 Od) Hx) as (s2 & E2 & S2 & F2 & N2 & D2).
  rewrite (bind_run _ _ _ _ _ E2). change (pdPASS =? pdPASS) with true. cbn match.
  pose proof (stays_trans _ _ _ S1 S2) as S12.
  destruct (fifo_shift (pc + 2) mq (save_word1 (pc + 2) (u16 (len - 1))) (Z.to_nat (len - 1)) 1 s2)
    as (s3 & -> & S3 & F3 & D3); [apply S2|by apply (stays_operand _ _ _ _ _ _ S12)|lia..|].
  pose proof (stays_trans _ _ _ S12 S3) as S13.
  destruct (put_length _ _ (len - 1) _ (proj1 S3) (stays_operand _ _ _ _ _ _ S13 Oq)) as (s4 & E4 & S4 & F4 & N4 & D4); [lia|].
  exists s4. pose proof (op_n_range _ _ _ _ _ Od).
  split_and!; [done|exact (stays_trans _ _ _ S13 S4)| |by rewrite F4, F3, F2| |].
  - intros j Hj Hd. rewrite D4, D3, decide_False, D2 by lia. apply D1.
  - split; [lia|lia|]. intros i y Hy. apply lookup_lt_Some in Hy as Hi. rewrite D4, D3, decide_True, D2, D1 by lia.
    rewrite <- (qa_item _ _ Q (S i) y Hy). f_equal. lia.
  - by rewrite D4, D3, decide_False by lia.
Qed.
Lemma lifo_run pc md mq x q s : runs_at pc s -> queue_at (q ++ [x]) s ->
  operand (pc + 2) s mq ADDR_D n -> operand (pc + 6) s md ADDR_D nd ->
  exists s', run_ci_lifo_ins s = Ok (pdPASS, s') /\ stays s s' /\ elsewhere s s' /\ flag 180 s' = Some false /\
    queue_at q s' /\ cell D_ELEMENT nd s' = x.
Proof using Hsize Hn Hfit Hnd Hout.
  intros R Q Oq Od. set (len := Z.of_nat (length (q ++ [x]))).
  assert (Hl : len = Z.of_nat (length q) + 1) by (subst len; rewrite length_app; cbn [length]; lia).
  pose proof (qa_cap _ _ Q) as C. fold len in C.
  destruct (taking_run pc mq (fun lsv_StackSize lsv_StackLen => pc ← get_PC;
    word_at_pos (pc + 2) (u16 lsv_StackLen) (fun lsv_OutData => then_ok (save_word1 (pc + 6) lsv_OutData)
      (when (lsv_StackSize =? 0) (set_SM 180 1);; save_word1 (pc + 2) (u16 (lsv_StackLen - 1))))) _ s R Q Oq)
    as (s1 & _ & S1 & F1 & D1 & E).
  unfold run_ci_lifo_ins. rewrite E. clear E. fold len. assert (len =? 0 = false) as -> by lia.
  rewrite (bind_run _ _ _ _ _ (get_PC_run _ _ (runs_at_stays _ _ _ S1 R))).
  assert (Hx' : (q ++ [x]) !! length q = Some x) by (by rewrite lookup_app_r, Nat.sub_diag by lia).
  pose proof (item_ok _ _ x s (ra_wf _ _ R) Q Hx') as Hx. pose proof (qa_item _ _ Q _ x Hx') as I0.
  unfold word_at_pos. rewrite (u16_id len) by lia.
  rewrite (bind_run _ _ _ _ _ (d_at _ _ _ len _ (proj1 S1) (stays_operand _ _ _ _ _ _ S1 Oq) ltac:(lia))).
  cbn [fst snd]. change (pdPASS =? pdPASS) with true. cbn match. rewrite bind_some, D1.
  replace (n + len) with (n + 1 + Z.of_nat (length q)) by lia. rewrite I0. unfold then_ok.
  destruct (put_result _ _ x _ (proj1 S1) (stays_operand _ _ _ _ _ _ S1 Od) Hx) as (s2 & E2 & S2 & F2 & N2 & D2).
  rewrite (bind_run _ _ _ _ _ E2). change (pdPASS =? pdPASS) with true. cbn match.
  assert (size =? 0 = false) as -> by lia. rewrite when_false. rewrite (bind_run (mret tt) _ s2 s2 tt eq_refl).
  pose proof (stays_trans _ _ _ S1 S2) as S12.
  destruct (put_length _ _ (len - 1) _ (proj1 S2) (stays_operand _ _ _ _ _ _ S12 Oq)) as (s4 & E4 & S4 & F4 & N4 & D4); [lia|].
  exists s4. pose proof (op_n_range _ _ _ _ _ Od).
  split_and!; [done|exact (stays_trans _ _ _ S12 S4)| |by rewrite F4, F2| |by rewrite D4 by lia].
  - intros j Hj Hd. rewrite D4, D2 by lia. apply D1.
  - split; [lia|lia|]. intros i y Hy. apply lookup_lt_Some in Hy as Hi. rewrite D4, D2, D1 by lia.
    apply (qa_item _ _ Q). by rewrite lookup_app_l by lia.
Qed.
End queue.

(** C8: PUSH, FIFO and LIFO on D registers implement a bounded list. A list of
    at most [size] words sits behind its length in D[n]; PUSH appends the word
    of D[nd] and clears the carry flag SM181, or, when the list is full, leaves
    it and sets the flag; FIFO moves the oldest word and LIFO the newest one to
    D[nd] and clears the flag SM180; on an empty list both set it and do nothing
    else. No other D register, and nothing of the program, changes. *)
Theorem stack_and_queue_instructions n size nd pc md mq q s :
  0 < size < 2 ^ 15 -> 0 <= n -> n + size < D_RANG -> nd < D_RANG -> nd < n \/ n + size < nd ->
  runs_at size pc s -> queue_at n size q s ->
  (operand (pc + 2) s md ADDR_D nd -> operand (pc + 6) s mq ADDR_D n ->
   let full := size <=? Z.of_nat (length q) in
   exists s', run_ci_push_ins s = Ok (pdPASS, s') /\ stays s s' /\ elsewhere n size nd s s' /\
     flag 181 s' = Some full /\ queue_at n size (if full then q else q ++ [cell D_ELEMENT nd s]) s') /\
  (operand (pc + 2) s mq ADDR_D n -> operand (pc + 6) s md ADDR_D nd ->
   (forall x q', q = x :: q' -> exists s', run_ci_fifo_ins s = Ok (pdPASS, s') /\ stays s s' /\
      elsewhere n size nd s s' /\ flag 180 s' = Some false /\ queue_at n size q' s' /\ cell D_ELEMENT nd s' = x) /\
   (forall x q', q = q' ++ [x] -> exists s', run_ci_lifo_ins s = Ok (pdPASS, s') /\ stays s s' /\
      elsewhere n size nd s s' /\ flag 180 s' = Some false /\ queue_at n size q' s' /\ cell D_ELEMENT nd s' = x) /\
   (q = [] -> forall ins, ins = run_ci_fifo_ins \/ ins = run_ci_lifo_ins ->
      exists s', ins s = Ok (pdPASS, s') /\ stays s s' /\ flag 180 s' = Some true /\
        (forall j, cell D_ELEMENT j s' = cell D_ELEMENT j s))).
Proof.
  intros Hs Hn Hf Hd Ho R Q. split; [intros Od Oq; by apply (push_run n size Hs Hn Hf nd Hd Ho pc md mq)|].
  intros Oq Od. split_and!.
  - intros x q' ->. by apply (fifo_run n size Hs Hn Hf nd Hd Ho pc md mq).
  - intros x q' ->. by apply (lifo_run n size Hs Hn Hf nd Hd Ho pc md mq).
  - intros -> ins [-> | ->]; by apply (taking_empty n size Hs Hn Hf pc mq).
Qed.
Definition queue_demo (code : list Z) : plc_st :=
  upd D_ELEMENT 12 8 (upd D_ELEMENT 11 7 (upd D_ELEMENT 10 2 (with_InPF (set_pf 0) (st0 code)))).
Lemma queue_demo_wf code : wf_elem (elem (queue_demo code)).
Proof. unfold queue_demo. do 3 (apply upd_wf; [|zconc]). apply wf_elem0. Qed.
Lemma stack_and_queue_instructions_witness : exists s',
  run_ci_fifo_ins (queue_demo [0; 0; 0; 0x11; 10; 0; 0; 0x11; 20; 0; 0; 0xFF; 3; 0]) = Ok (pdPASS, s') /\
  queue_at 10 3 [8] s' /\ cell D_ELEMENT 20 s' = 7.
Proof.
  destruct (stack_and_queue_instructions 10 3 20 0 0 0 [7; 8] (queue_demo [0; 0; 0; 0x11; 10; 0; 0; 0x11; 20; 0; 0; 0xFF; 3; 0]))
    as [_ H]; [zconc|done|zconc|zconc|right; zconc| | |].
  - split; [done|done|apply queue_demo_wf|]. exists 0. split; [zconc|]. split; [done..|zconc|zconc].
  - split; [done|cbn; lia|]. by intros [|[|[|i]]] x Hx; simplify_eq/=.
  - destruct H as (F & _); [split; [done..|zconc|zconc]|split; [done..|zconc|zconc]|]. destruct (F 7 [8] eq_refl) as (s' & H & _ & _ & _ & Q & D). by exists s'.
Defined.
