(* ===== verification/ArithFacts.v ===== *)
(** * Sums, differences and their flags

    ADD, SUB, DADD and DSUB of plc/executer/src/plc_dataprocessing.c on D
    registers: the result modulo the width, and when the flags carry (SM181),
    borrow (SM182) and zero (SM180) tell the overflow. *)
From stdpp Require Import base list numbers sets.
From S2P Require Import Prelude Element Machine ParseAddr ParseAddrFacts Device DataIns BitIns Arith Convert Rotate RegFacts.

(** The three flags. *)
Definition flags (cy bo ze : bool) (s : plc_st) : Prop :=
  flag 181 s = Some cy /\ flag 182 s = Some bo /\ flag 180 s = Some ze.
(** What computing flags leaves. *)
Definition flagged (cy bo ze : bool) (s s' : plc_st) : Prop :=
  stays s s' /\ flags cy bo ze s' /\ forall i, cell D_ELEMENT i s' = cell D_ELEMENT i s.
Lemma clear_flags_run s : wf_elem (elem s) ->
  exists s', clear_SM [180; 181; 182] s = Ok (tt, s') /\ flagged false false false s s'.
Proof.
  intros W. destruct (set_SM_run 180 0 s W) as (s1 & E1 & S1 & F1 & G1 & D1); [lia..|].
  destruct (set_SM_run 181 0 s1 (proj1 S1)) as (s2 & E2 & S2 & F2 & G2 & D2); [lia..|].
  destruct (set_SM_run 182 0 s2 (proj1 S2)) as (s3 & E3 & S3 & F3 & G3 & D3); [lia..|].
  exists s3. cbn [clear_SM foldr]. rewrite (bind_run _ _ _ _ _ E1), (bind_run _ _ _ _ _ E2), (bind_run _ _ _ _ _ E3).
  split; [done|]. split_and!; [exact (stays_trans _ _ _ S1 (stays_trans _ _ _ S2 S3))|split_and!|].
  - by rewrite G3 by lia. - done. - by rewrite G3, G2 by lia. - intros i. by rewrite D3, D2, D1.
Qed.
Lemma raise_run n cy bo ze s0 s : flagged cy bo ze s0 s -> n = 180 \/ n = 181 \/ n = 182 ->
  exists s', set_SM n 1 s = Ok (tt, s') /\
    flagged (if n =? 181 then true else cy) (if n =? 182 then true else bo) (if n =? 180 then true else ze) s0 s'.
Proof.
  intros (S & (Fc & Fb & Fz) & D) Hn. destruct (set_SM_run n 1 s (proj1 S)) as (s1 & E1 & S1 & F1 & G1 & D1); [lia..|].
  exists s1. split; [done|]. split_and!; [exact (stays_trans _ _ _ S S1)| |intros i; by rewrite D1].
  destruct Hn as [-> |[-> | ->]]; split_and!; try exact F1; by rewrite G1 by lia.
Qed.

(** ** Words *)
Lemma sum_flags_run z s : wf_elem (elem s) -> exists s', sum_flags z s = Ok (tt, s') /\
  flagged (2 ^ 15 <=? z) (z <? - 2 ^ 15) (z =? 0) s s'.
Proof.
  intros W. unfold sum_flags. destruct (clear_flags_run s W) as (s1 & E1 & F1). rewrite (bind_run _ _ _ _ _ E1).
  destruct (Z.ltb_spec 32767 z).
  - destruct (raise_run 181 _ _ _ _ _ F1) as (s2 & E2 & F2); [lia|]. exists s2. split; [done|].
    assert (2 ^ 15 <=? z = true) as -> by lia. assert (z <? - 2 ^ 15 = false) as -> by lia.
    assert (z =? 0 = false) as -> by (apply Z.eqb_neq; lia). done.
  - assert (2 ^ 15 <=? z = false) as -> by lia. destruct (Z.ltb_spec z (-32768)).
    + destruct (raise_run 182 _ _ _ _ _ F1) as (s2 & E2 & F2); [lia|]. exists s2. split; [done|].
      assert (z <? - 2 ^ 15 = true) as -> by lia. assert (z =? 0 = false) as -> by (apply Z.eqb_neq; lia). done.
    + assert (z <? - 2 ^ 15 = false) as -> by lia. destruct (Z.eqb_spec z 0).
      * rewrite when_true. destruct (raise_run 180 _ _ _ _ _ F1) as (s2 & E2 & F2); [lia|]. by exists s2.
      * rewrite when_false. by exists s1.
Qed.
(** An instruction with the operands at [pc + 2], [pc + off2] and [pc + off3]
    in D registers, under power flow. *)
Record three_registers (pc off2 off3 n1 n2 n3 : Z) (s : plc_st) : Prop := {
  tr_wf : wf_elem (elem s);
  tr_pc : mcp_PC (env s) = pc;
  tr_pf : get_pf (mlv_InPF (env s)) = true;
  tr_1 : exists m, operand (pc + 2) s m ADDR_D n1;
  tr_2 : exists m, operand (pc + off2) s m ADDR_D n2;
  tr_3 : exists m, operand (pc + off3) s m ADDR_D n3 }.
Lemma three_stays pc o2 o3 n1 n2 n3 s s' : stays s s' -> three_registers pc o2 o3 n1 n2 n3 s ->
  three_registers pc o2 o3 n1 n2 n3 s'.
Proof.
  intros S [W P F (m1 & O1) (m2 & O2) (m3 & O3)]. pose proof S as (W' & _ & E).
  split; [done|by rewrite E|by rewrite E|..]; eexists; by eapply stays_operand.
Qed.
Lemma three_pc pc o2 o3 n1 n2 n3 s : three_registers pc o2 o3 n1 n2 n3 s -> get_PC s = Ok (pc, s).
Proof. intros [_ P _ _ _ _]. unfold get_PC, gets. by rewrite P. Qed.
Lemma three_powered pc o2 o3 n1 n2 n3 k s : three_registers pc o2 o3 n1 n2 n3 s -> powered k s = k s.
Proof. intros [_ _ F _ _ _]. unfold powered, GET_POWER_FLOW, gets, mbind, M_bind. by rewrite F. Qed.
Lemma words2_run pc n1 n2 n3 k s : three_registers pc 6 10 n1 n2 n3 s -> n1 < D_RANG -> n2 < D_RANG ->
  words2 k s = k (s16 (cell D_ELEMENT n1 s)) (s16 (cell D_ELEMENT n2 s)) s.
Proof.
  intros R H1 H2. unfold words2. rewrite (bind_run _ _ _ _ _ (three_pc _ _ _ _ _ _ _ R)).
  destruct R as [W _ _ (m1 & O1) (m2 & O2) _].
  by rewrite (d_with_word _ _ _ _ _ W O1 H1), (d_with_word _ _ _ _ _ W O2 H2).
Qed.
Lemma word_out_run pc o2 o3 n1 n2 n3 v s : three_registers pc o2 o3 n1 n2 n3 s -> n3 < D_RANG ->
  exists s', word_out o3 v s = Ok (pdPASS, s') /\ stays s s' /\ (forall n, flag n s' = flag n s) /\
    (forall j, cell D_ELEMENT j s' = if decide (j = n3) then u16 v else cell D_ELEMENT j s).
Proof.
  intros R H3. exists (upd D_ELEMENT n3 (u16 v) s). unfold word_out.
  rewrite (bind_run _ _ _ _ _ (three_pc _ _ _ _ _ _ _ R)). destruct R as [W _ _ _ _ (m3 & O3)].
  pose proof (op_n_range _ _ _ _ _ O3) as R3. assert (Hr : 0 <= n3 < D_RANG) by lia.
  split_and!; [by eapply d_save1|by apply stays_upd|intros n; by apply flag_upd|].
  intros j. apply d_upd; [done|done|apply u16_range].
Qed.

(** C9: ADD and SUB on D registers, under power flow: the destination holds
    the sum (difference) of the two signed words modulo 2^16, every other D
    register keeps its value, and the flags tell exactly whether the true
    result is above 32767 (carry), below -32768 (borrow) or zero; without carry
    and borrow the destination, read as a signed word, is the true result. *)
Theorem add_sub_words pc n1 n2 n3 s :
  three_registers pc 6 10 n1 n2 n3 s -> n1 < D_RANG -> n2 < D_RANG -> n3 < D_RANG ->
  forall ins op, (ins = run_ci_add_ins /\ op = Z.add) \/ (ins = run_ci_sub_ins /\ op = Z.sub) ->
  let z := op (s16 (cell D_ELEMENT n1 s)) (s16 (cell D_ELEMENT n2 s)) in
  exists s', ins s = Ok (pdPASS, s') /\ stays s s' /\ flags (2 ^ 15 <=? z) (z <? - 2 ^ 15) (z =? 0) s' /\
    (forall j, cell D_ELEMENT j s' = if decide (j = n3) then u16 z else cell D_ELEMENT j s) /\
    (- 2 ^ 15 <= z < 2 ^ 15 -> s16 (cell D_ELEMENT n3 s') = z).
Proof.
  intros R H1 H2 H3 ins op Hop z.
  assert (E : ins s = (sum_flags z;; word_out 10 z) s).
  { destruct Hop as [[-> ->] | [-> ->]]; unfold run_ci_add_ins, run_ci_sub_ins;
      by rewrite (three_powered _ _ _ _ _ _ _ _ R), (words2_run _ _ _ _ _ _ R H1 H2). }
  destruct (sum_flags_run z s (tr_wf _ _ _ _ _ _ _ R)) as (s1 & E1 & S1 & (Fc & Fb & Fz) & D1).
  destruct (word_out_run _ _ _ _ _ _ z s1 (three_stays _ _ _ _ _ _ _ _ S1 R) H3) as (s2 & E2 & S2 & F2 & D2).
  exists s2. rewrite E, (bind_run _ _ _ _ _ E1). split_and!; [done|exact (stays_trans _ _ _ S1 S2)| | |].
  - split_and!; by rewrite F2.
  - intros j. by rewrite D2, D1.
  - intros Hz. rewrite D2, decide_True by done. by apply s16_id.
Qed.
Definition sum_demo : plc_st :=
  upd D_ELEMENT 11 30000 (upd D_ELEMENT 10 20000
    (with_InPF (set_pf 0) (st0 [0; 0; 0; 0x11; 10; 0; 0; 0x11; 11; 0; 0; 0x11; 12; 0]))).
Lemma sum_demo_ready : three_registers 0 6 10 10 11 12 sum_demo.
Proof.
  split; [unfold sum_demo; do 2 (apply upd_wf; [|zconc]); apply wf_elem0|done|done|..]; exists 0;
    (split; [zconc|zconc|zconc|zconc|zconc]).
Qed.
Lemma add_sub_words_witness : exists s', run_ci_add_ins sum_demo = Ok (pdPASS, s') /\ flag 181 s' = Some true /\
  cell D_ELEMENT 12 s' = 50000.
Proof.
  destruct (add_sub_words 0 10 11 12 sum_demo sum_demo_ready) with (ins := run_ci_add_ins) (op := Z.add)
    as (s' & E & _ & F & D & _); [zconc..|by left|]. exists s'. split; [exact E|]. split; [apply F|].
  rewrite D. zconc.
Defined.

(** ** Double words *)
Section pairs.
Context (a m n : Z) (s : plc_st) (W : wf_elem (elem s)) (O : operand a s m ADDR_D n) (Hn : n + 1 < D_RANG).
(** The double word in D[n], D[n+1]. *)
Definition dcell (n : Z) (s : plc_st) : Z := cell D_ELEMENT n s + 2 ^ 16 * cell D_ELEMENT (n + 1) s.
Lemma d_cells : 0 <= n /\ 0 <= n < rsize D_ELEMENT /\ 0 <= n + 1 < rsize D_ELEMENT /\
  word_ok (cell D_ELEMENT n s) /\ word_ok (cell D_ELEMENT (n + 1) s).
Proof.
  pose proof (op_n_range _ _ _ _ _ O). assert (n < D_RANG) by lia. change (rsize D_ELEMENT) with D_RANG.
  split_and!; try lia; apply cell_u16; try done; change (rsize D_ELEMENT) with D_RANG; lia.
Qed.
Lemma dd_with_dword k : with_dword a k s = k (dcell n s) s.
Proof.
  destruct d_cells as (H0 & R0 & R1 & V0 & V1). unfold word_ok in *.
  assert (E : get_dword a 0 1 s = Ok ((pdPASS, [dcell n s]), s)).
  { unfold get_dword. rewrite (bind_run _ _ _ _ _ (op_t _ _ _ _ _ O)), addr_decode_code.
    cbn [get_dword_knz get_dword_indexed get_dword_direct]. unfold pairs_direct.
    rewrite (bind_run _ _ _ _ _ (direct_index_run _ _ _ _ _ O _)). change (0 * 2) with 0.
    rewrite Z.add_0_r, u16_id by (change (rsize D_ELEMENT) with D_RANG in *; unfold D_RANG in *; lia).
    cbn [read_seq]. assert (n <? D_RANG - 1 = true) as -> by lia. unfold rd_pair. unfold mbind, M_bind.
    rewrite (rd_cell D_ELEMENT (n + 1) s W R1), (rd_cell D_ELEMENT n s W R0).
    assert (V : u32 (Z.shiftl (cell D_ELEMENT (n + 1) s) 16 + cell D_ELEMENT n s) = dcell n s)
      by (unfold dcell; rewrite Z.shiftl_mul_pow2, u32_id; lia).
    cbn [mret M_ret]. by rewrite V. }
  unfold with_dword, get_dword1, mbind, M_bind. by rewrite E.
Qed.
Lemma dd_save v : 0 <= v < 2 ^ 32 -> exists s', save_dword1 a v s = Ok (pdPASS, s') /\ stays s s' /\
  (forall f, flag f s' = flag f s) /\ dcell n s' = v /\
  (forall j, j <> n -> j <> n + 1 -> cell D_ELEMENT j s' = cell D_ELEMENT j s).
Proof.
  intros Hv. destruct d_cells as (H0 & R0 & R1 & _). set (l := Z.land v 0xFFFF). set (h := Z.shiftr v 16).
  assert (Hl : l = v mod 2 ^ 16) by (by apply (Z.land_ones v 16)).
  assert (Hh : h = v / 2 ^ 16) by (by apply Z.shiftr_div_pow2).
  assert (Vl : word_ok l) by (rewrite Hl; by apply Z.mod_pos_bound).
  assert (Vh : word_ok h) by (rewrite Hh; split; [apply Z.div_pos; lia|apply Z.div_lt_upper_bound; lia]).
  pose proof (stays_upd n l s W R0) as S1. set (s1 := upd D_ELEMENT n l s) in *.
  pose proof (stays_upd (n + 1) h s1 (proj1 S1) R1) as S2. set (s2 := upd D_ELEMENT (n + 1) h s1) in *.
  exists s2. split_and!; [|exact (stays_trans _ _ _ S1 S2)| | |].
  - unfold save_dword1, save_dword. unfold mbind at 1, M_bind at 1.
    rewrite (bind_run _ _ _ _ _ (op_t _ _ _ _ _ O)), addr_decode_code.
    cbn [save_dword_knz save_dword_indexed save_dword_direct]. unfold put_pairs_direct.
    rewrite (bind_run _ _ _ _ _ (direct_index_run _ _ _ _ _ O _)). change (0 * 2) with 0.
    rewrite Z.add_0_r, u16_id by (change (rsize D_ELEMENT) with D_RANG in *; unfold D_RANG in *; lia).
    unfold unshifted. cbn [write_seq]. assert (n <? D_RANG - 1 = true) as -> by lia.
    unfold wr_pair. fold l h. unfold mbind, M_bind.
    rewrite (wr_upd D_ELEMENT n l s W R0). fold s1. rewrite (wr_upd D_ELEMENT (n + 1) h s1 (proj1 S1) R1). done.
  - intros f. subst s2 s1. rewrite flag_upd by (exact (proj1 S1) || done). by apply flag_upd.
  - unfold dcell. subst s2 s1. rewrite !d_upd by (exact (proj1 S1) || done).
    rewrite decide_False, decide_True, decide_True by lia. rewrite Hl, Hh. pose proof (Z.div_mod v (2 ^ 16)). lia.
  - intros j Hj1 Hj2. subst s2 s1. by rewrite !d_upd, !decide_False by (exact (proj1 S1) || done).
Qed.
End pairs.

Lemma s32_cases z : - 2 ^ 32 <= z < 2 ^ 32 ->
  s32 z = z /\ - 2 ^ 31 <= z < 2 ^ 31 \/ s32 z = z - 2 ^ 32 /\ 2 ^ 31 <= z \/ s32 z = z + 2 ^ 32 /\ z < - 2 ^ 31.
Proof.
  intros Hz. unfold s32, u32. pose proof (Z.div_mod z (2 ^ 32)). pose proof (Z.mod_pos_bound z (2 ^ 32)).
  destruct (Z.ltb_spec (z mod 2 ^ 32) (2 ^ 31)); nia.
Qed.
(** The shape of both flag computations. *)
Lemma double_flags_run (cy bo : bool) z s : wf_elem (elem s) -> (cy && bo) = false ->
  exists s', (clear_SM [180; 181; 182];;
     (if cy then set_SM 181 1 else when bo (set_SM 182 1));; when (z =? 0) (set_SM 180 1)) s = Ok (tt, s') /\
    flagged cy bo (z =? 0) s s'.
Proof.
  intros W H. destruct (clear_flags_run s W) as (s1 & E1 & F1). rewrite (bind_run _ _ _ _ _ E1).
  assert (exists s2, (if cy then set_SM 181 1 else when bo (set_SM 182 1)) s1 = Ok (tt, s2) /\ flagged cy bo false s s2)
    as (s2 & E2 & F2).
  { destruct cy; [destruct bo; [done|]|destruct bo].
    - destruct (raise_run 181 _ _ _ _ _ F1) as (s2 & E2 & F2); [lia|by exists s2].
    - rewrite when_true. destruct (raise_run 182 _ _ _ _ _ F1) as (s2 & E2 & F2); [lia|by exists s2].
    - rewrite when_false. by exists s1. }
  rewrite (bind_run _ _ _ _ _ E2). destruct (Z.eqb_spec z 0).
  - rewrite when_true. destruct (raise_run 180 _ _ _ _ _ F2) as (s3 & E3 & F3); [lia|by exists s3].
  - rewrite when_false. by exists s2.
Qed.
Lemma dwords2_run pc n1 n2 n3 k s : three_registers pc 8 14 n1 n2 n3 s -> n1 + 1 < D_RANG -> n2 + 1 < D_RANG ->
  dwords2 k s = k (s32 (dcell n1 s)) (s32 (dcell n2 s)) s.
Proof.
  intros R H1 H2. unfold dwords2. rewrite (bind_run _ _ _ _ _ (three_pc _ _ _ _ _ _ _ R)).
  destruct R as [W _ _ (m1 & O1) (m2 & O2) _].
  by rewrite (dd_with_dword _ _ _ _ W O1 H1), (dd_with_dword _ _ _ _ W O2 H2).
Qed.

(** DADD and DSUB on D registers, under power flow: the destination pair
    holds the sum (difference) of the two signed double words modulo 2^32, and
    the flags tell the overflow with one exception each: DADD does not raise
    the borrow flag when both operands are -2^31, DSUB does not raise the carry
    flag for 0 - (-2^31). The zero flag tells a zero destination. *)
Theorem add_sub_double_words pc n1 n2 n3 s :
  three_registers pc 8 14 n1 n2 n3 s -> n1 + 1 < D_RANG -> n2 + 1 < D_RANG -> n3 + 1 < D_RANG ->
  let x := s32 (dcell n1 s) in let y := s32 (dcell n2 s) in
  (exists s', run_ci_dadd_ins s = Ok (pdPASS, s') /\ stays s s' /\ dcell n3 s' = u32 (x + y) /\
     (forall j, j <> n3 -> j <> n3 + 1 -> cell D_ELEMENT j s' = cell D_ELEMENT j s) /\
     flags (2 ^ 31 <=? x + y) ((x + y <? - 2 ^ 31) && negb ((x =? - 2 ^ 31) && (y =? - 2 ^ 31)))
       (s32 (x + y) =? 0) s') /\
  (exists s', run_ci_dsub_ins s = Ok (pdPASS, s') /\ stays s s' /\ dcell n3 s' = u32 (x - y) /\
     (forall j, j <> n3 -> j <> n3 + 1 -> cell D_ELEMENT j s' = cell D_ELEMENT j s) /\
     flags ((2 ^ 31 <=? x - y) && negb (x =? 0)) (x - y <? - 2 ^ 31) (s32 (x - y) =? 0) s').
Proof.
  intros R H1 H2 H3 x y. pose proof (s32_range (dcell n1 s)) as Rx. pose proof (s32_range (dcell n2 s)) as Ry.
  fold x in Rx. fold y in Ry.
  assert (K : forall cy bo t, cy && bo = false -> exists s',
    ((clear_SM [180; 181; 182];; (if cy : bool then set_SM 181 1 else when bo (set_SM 182 1));; when (s32 t =? 0) (set_SM 180 1));;
      dword_out 14 (s32 t)) s = Ok (pdPASS, s') /\ stays s s' /\ dcell n3 s' = u32 t /\
      (forall j, j <> n3 -> j <> n3 + 1 -> cell D_ELEMENT j s' = cell D_ELEMENT j s) /\ flags cy bo (s32 t =? 0) s').
  { intros cy bo t H. destruct (double_flags_run cy bo (s32 t) s (tr_wf _ _ _ _ _ _ _ R) H) as (s1 & E1 & S1 & (Fc & Fb & Fz) & D1).
    rewrite (bind_run _ _ _ _ _ E1). pose proof (three_stays _ _ _ _ _ _ _ _ S1 R) as R1. unfold dword_out.
    rewrite (bind_run _ _ _ _ _ (three_pc _ _ _ _ _ _ _ R1)), u32_s32. destruct (tr_3 _ _ _ _ _ _ _ R1) as (m3 & O3).
    destruct (dd_save _ _ _ _ (proj1 S1) O3 H3 (u32 t) (u32_range t)) as (s2 & E2 & S2 & F2 & V2 & D2).
    exists s2. split_and!; [done|exact (stays_trans _ _ _ S1 S2)|done|intros j J1 J2; by rewrite D2, D1|].
    split_and!; by rewrite F2. }
  split.
  - unfold run_ci_dadd_ins. rewrite (three_powered _ _ _ _ _ _ _ _ R), (dwords2_run _ _ _ _ _ _ R H1 H2). fold x y.
    unfold dadd_flags. pose proof (s32_cases (x + y)) as Hc.
    assert (Ec : (0 <? x) && (0 <? y) && (s32 (x + y) <? 0) = (2 ^ 31 <=? x + y)) by lia.
    assert (Eb : (x <=? 0) && (y <? 0) && (0 <? s32 (x + y)) =
      (x + y <? - 2 ^ 31) && negb ((x =? - 2 ^ 31) && (y =? - 2 ^ 31))) by lia.
    rewrite Ec, Eb. apply K. lia.
  - unfold run_ci_dsub_ins. rewrite (three_powered _ _ _ _ _ _ _ _ R), (dwords2_run _ _ _ _ _ _ R H1 H2). fold x y.
    unfold dsub_flags. pose proof (s32_cases (x - y)) as Hc.
    assert (Ec : (0 <? x) && (y <? 0) && (s32 (x - y) <? 0) = (2 ^ 31 <=? x - y) && negb (x =? 0)) by lia.
    assert (Eb : (x <? 0) && (0 <? y) && (0 <? s32 (x - y)) = (x - y <? - 2 ^ 31)) by lia.
    rewrite Ec, Eb. apply K. lia.
Qed.
Definition double_sum_demo : plc_st :=
  upd D_ELEMENT 13 0x8000 (upd D_ELEMENT 11 0x8000
    (with_InPF (set_pf 0) (st0 [0; 0; 0; 0x11; 10; 0; 0; 0; 0; 0x11; 12; 0; 0; 0; 0; 0x11; 14; 0]))).
Lemma add_sub_double_words_witness : exists s', run_ci_dadd_ins double_sum_demo = Ok (pdPASS, s') /\
  dcell 14 s' = 0 /\ flag 182 s' = Some false.
Proof.
  destruct (add_sub_double_words 0 10 12 14 double_sum_demo) as [(s' & E & _ & V & _ & F) _]; [|zconc..|].
  - split; [unfold double_sum_demo; do 2 (apply upd_wf; [|zconc]); apply wf_elem0|done|done|..]; exists 0;
      (split; [zconc|zconc|zconc|zconc|zconc]).
  - exists s'. split; [exact E|]. split; [rewrite V; zconc|]. etransitivity; [apply F|]. zconc.
Defined.
