(* ===== verification/CalendarFacts.v ===== *)
(** * Facts about clock and calendar instructions *)
From stdpp Require Import base list numbers sets.
From S2P Require Import Prelude Element Machine ParseAddr ParseAddrFacts Device DataIns Rotate Compare Calendar RegFacts.

(** ** Dates *)
(** The Gregorian calendar. *)
Definition leap_year (y : Z) : bool := (Z.rem y 4 =? 0) && (negb (Z.rem y 100 =? 0) || (Z.rem y 400 =? 0)).
Definition gregorian_days (y m : Z) : Z :=
  match m with
  | 2 => if leap_year y then 29 else 28
  | 4 | 6 | 9 | 11 => 30
  | _ => 31
  end.
Definition gregorian (y m d : Z) : bool := (1 <=? m) && (m <=? 12) && (1 <=? d) && (d <=? gregorian_days y m).
(** What DCMP accepts. *)
Definition accepted (y m d : Z) : bool := negb (bad_month m) && negb (bad_day y m d).
(** Dates in their order. *)
Definition date_number (y m d : Z) : Z := (y * 13 + m) * 32 + d.
Lemma leap_test_false y : leap_test y = false.
Proof.
  unfold leap_test. destruct (Z.eqb_spec (Z.rem y 400) 0) as [E|]; [|by rewrite andb_false_r].
  assert (Z.rem y 100 = 0) as ->; [|by rewrite andb_false_r].
  apply Z.rem_divide in E as [k ->]; [|lia]. apply Z.rem_divide; [lia|]. exists (k * 4). lia.
Qed.
Lemma month_cases m : 1 <= m <= 12 -> m = 1 \/ m = 2 \/ m = 3 \/ m = 4 \/ m = 5 \/ m = 6 \/ m = 7 \/ m = 8 \/ m = 9 \/
  m = 10 \/ m = 11 \/ m = 12.
Proof. lia. Qed.
Lemma accepted_spec y m d : accepted y m d = gregorian y m d && negb ((m =? 2) && (d =? 29)).
Proof.
  unfold accepted, gregorian, bad_month, bad_day, month_days. rewrite leap_test_false.
  destruct (decide (1 <= m <= 12)) as [Hm|Hm]; [|lia].
  apply month_cases in Hm. destruct (leap_year y) eqn:L;
    repeat (destruct Hm as [->|Hm]); try subst m; cbn; rewrite ?L; lia.
Qed.
Lemma lexicographic_spec y1 m1 d1 y2 m2 d2 : accepted y1 m1 d1 = true -> accepted y2 m2 d2 = true ->
  lexicographic y1 m1 d1 y2 m2 d2 = (date_number y1 m1 d1 ?= date_number y2 m2 d2).
Proof.
  rewrite !accepted_spec. unfold gregorian. intros H1 H2.
  assert (G : forall y m, gregorian_days y m <= 31) by (intros y m; unfold gregorian_days; repeat case_match; lia).
  pose proof (G y1 m1). pose proof (G y2 m2). unfold lexicographic, date_number.
  assert (1 <= m1 <= 12 /\ 1 <= d1 <= 31) by lia. assert (1 <= m2 <= 12 /\ 1 <= d2 <= 31) by lia. clear H1 H2 G.
  symmetry. repeat (match goal with |- context [?x <? ?y] => destruct (Z.ltb_spec x y) end);
    first [apply Z.compare_lt_iff; lia | apply Z.compare_gt_iff; lia | apply Z.compare_eq_iff; lia].
Qed.

(** Three registers holding three words. *)
Definition holds3 (a : Z) (x y z : Z) (s : plc_st) : Prop :=
  exists m n, operand a s m ADDR_D n /\ n + 3 <= D_RANG /\
    s16 (cell D_ELEMENT n s) = x /\ s16 (cell D_ELEMENT (n + 1) s) = y /\ s16 (cell D_ELEMENT (n + 2) s) = z.
Lemma holds3_run a x y z k s : wf_elem (elem s) -> holds3 a x y z s -> three_words a k s = k [x; y; z] s.
Proof.
  intros W (m & n & O & Hn & Ex & Ey & Ez). unfold three_words, with_words.
  rewrite (bind_run _ _ _ _ _ (d_row a m n 3 s W O Hn)). cbn. rewrite Z.add_0_r, Ex.
  change (Z.of_nat 1) with 1. change (Z.of_nat 2) with 2. by rewrite Ey, Ez.
Qed.

Lemma nth_0 {B} x y z (f : Z -> Mc B) s : (nth_word [x; y; z] 0 ≫= f) s = f x s.
Proof. done. Qed.
Lemma nth_1 {B} x y z (f : Z -> Mc B) s : (nth_word [x; y; z] 1 ≫= f) s = f y s.
Proof. done. Qed.
Lemma nth_2 {B} x y z (f : Z -> Mc B) s : (nth_word [x; y; z] 2 ≫= f) s = f z s.
Proof. done. Qed.

(** The comparison of dates orders them by the calendar: on two dates the
    instruction accepts, it stores the relation its opcode asks for between
    their places in the calendar; on others it reports an operand error and
    changes nothing. It accepts exactly the dates of the Gregorian calendar
    other than 29 February: its test for leap years never holds. *)
Theorem date_comparison pc y1 m1 d1 y2 m2 d2 s :
  flows_at pc s -> holds3 (pc + 2) y1 m1 d1 s -> holds3 (pc + 6) y2 m2 d2 s ->
  run_ci_dcmp_ins s =
    (if accepted y1 m1 d1 && accepted y2 m2 d2
     then save_relation CI_DCMPE (date_number y1 m1 d1 ?= date_number y2 m2 d2) s
     else Ok (ERR_OPERANDS, s)) /\
  (forall y m d, accepted y m d = gregorian y m d && negb ((m =? 2) && (d =? 29))).
Proof.
  intros F H1 H2. split; [|exact accepted_spec]. unfold run_ci_dcmp_ins. rewrite (flows_powered pc _ _ F).
  rewrite (holds3_run _ _ _ _ _ _ (proj1 F) H1), (holds3_run _ _ _ _ _ _ (proj1 F) H2).
  rewrite !nth_1. unfold accepted.
  destruct (bad_month m1) eqn:M1; [done|]. destruct (bad_month m2) eqn:M2; [by destruct (bad_day y1 m1 d1)|].
  cbn [orb negb andb]. rewrite nth_0, nth_2. destruct (bad_day y1 m1 d1) eqn:D1; [done|]. rewrite nth_0, nth_2.
  destruct (bad_day y2 m2 d2) eqn:D2; [done|]. cbn [negb andb]. unfold compare_triples.
  rewrite !nth_0, !nth_1, !nth_2, nth_0, nth_1, nth_2.
  rewrite lexicographic_spec by (unfold accepted; by rewrite ?M1, ?M2, ?D1, ?D2). done.
Qed.
Definition date_demo : plc_st :=
  upd D_ELEMENT 15 28 (upd D_ELEMENT 14 2 (upd D_ELEMENT 13 2024 (upd D_ELEMENT 12 29 (upd D_ELEMENT 11 2
    (upd D_ELEMENT 10 2024 (with_InPF (set_pf 0)
      (st0 [0xFC; 0xF0; 0; 0x11; 10; 0; 0; 0x11; 13; 0; 0; 0x05; 7; 0]))))))).
Lemma date_demo_flows : flows_at 0 date_demo.
Proof. split_and!; [unfold date_demo; do 6 (apply upd_wf; [|zconc]); apply wf_elem0|done|done]. Qed.
Lemma date_demo_holds : holds3 2 2024 2 29 date_demo /\ holds3 6 2024 2 28 date_demo.
Proof.
  split; eexists 0, _; (split; [split; [zconc|zconc|zconc|zconc|zconc]|split_and!; zconc]).
Qed.
Lemma date_comparison_witness : run_ci_dcmp_ins date_demo = Ok (ERR_OPERANDS, date_demo).
Proof. destruct date_demo_holds as [A B]. by destruct (date_comparison 0 _ _ _ _ _ _ date_demo date_demo_flows A B) as [-> _]. Defined.

(** ** Times of day *)
Definition time_ok (h m x : Z) : Prop := 0 <= h <= 23 /\ 0 <= m <= 59 /\ 0 <= x <= 59.
Lemma time_of_sum h m x : time_ok h m x -> time_of (h * 3600 + m * 60 + x) = [h; m; x].
Proof.
  intros (Hh & Hm & Hx). unfold time_of.
  assert (E : (h * 3600 + m * 60 + x) mod 3600 = m * 60 + x).
  { replace (h * 3600 + m * 60 + x) with (m * 60 + x + h * 3600) by lia. rewrite Z.mod_add by lia. apply Z.mod_small. lia. }
  rewrite E. repeat f_equal.
  - symmetry. apply (Z.div_unique _ _ _ (m * 60 + x)); lia.
  - symmetry. apply (Z.div_unique _ _ _ x); lia.
  - symmetry. apply (Z.mod_unique _ _ (h * 60 + m)); lia.
Qed.

(** STOH turns every word into a time of day from which HTOS makes the word
    again; HTOS followed by STOH gives a time of day back up to 18:12:15 and no
    later one, whose seconds do not fit the word. *)
Theorem time_round_trip :
  (forall t, word_ok t -> exists h m x, time_of t = [h; m; x] /\ time_ok h m x /\ seconds h m x = t) /\
  (forall h m x, time_ok h m x -> time_of (seconds h m x) = [h; m; x] <-> h * 3600 + m * 60 + x < 2 ^ 16).
Proof.
  split.
  - intros t Ht. unfold word_ok in Ht. eexists _, _, _. split; [reflexivity|].
    pose proof (Z.div_mod t 3600). pose proof (Z.mod_pos_bound t 3600). pose proof (Z.div_mod (t mod 3600) 60).
    pose proof (Z.mod_pos_bound (t mod 3600) 60). assert (E : t mod 60 = (t mod 3600) mod 60).
    { change 3600 with (60 * 60). rewrite Z.rem_mul_r by lia. rewrite (Z.mul_comm 60), Z.mod_add by lia. by rewrite Zmod_mod. }
    rewrite E. split; [unfold time_ok; lia|]. unfold seconds. rewrite u16_id by lia. lia.
  - intros h m x T. unfold seconds. replace (h * 60 * 60 + m * 60 + x) with (h * 3600 + m * 60 + x) by lia.
    pose proof T as (Hh & Hm & Hx). set (t := h * 3600 + m * 60 + x) in *. split.
    + intros E. destruct (decide (t < 2 ^ 16)) as [|Hge]; [done|]. exfalso.
      assert (Eu : u16 t = t - 2 ^ 16) by (unfold u16; symmetry; apply (Z.mod_unique _ _ 1); lia).
      rewrite Eu in E. unfold time_of in E. injection E as E1 E2 E3.
      pose proof (Z.div_lt_upper_bound (t - 2 ^ 16) 3600 6). lia.
    + intros Hl. rewrite u16_id by lia. by apply time_of_sum.
Qed.
Lemma time_round_trip_witness : time_of (seconds 12 34 56) = [12; 34; 56].
Proof. apply time_round_trip; unfold time_ok; lia. Defined.
