(* ===== verification/InstanceFacts.v ===== *)
(** * Facts about instructions with a state of their own

    DUTY executed in scan after scan is a periodic pulse generator. *)
From stdpp Require Import base list numbers sets.
From S2P Require Import Prelude Element Machine ParseAddr ParseAddrFacts Device TimeIns DataIns BitIns Arith Block RegFacts Instances.

(** A DUTY at [pc] with constant on- and off-times, generator [i], under power
    flow. *)
Record duty_ins (pc a b i : Z) (s : plc_st) : Prop := {
  di_wf : wf_elem (elem s);
  di_pc : mcp_PC (env s) = pc;
  di_pf : get_pf (mlv_InPF (env s)) = true;
  di_on : const_word (pc + 2) a s;
  di_off : const_word (pc + 6) b s;
  di_num : GET_PU16_DATA (pc + 12) s = Ok (DUTY_INS_BASE_ELEMENT + i, s);
  di_tab : let d := gtp_DutyInsInfo (instances s) in
    Z.of_nat (length (mcv_IsEnable d)) = MAX_DUTY_SUPPORT_NUM /\
    Z.of_nat (length (msv_OnTime d)) = MAX_DUTY_SUPPORT_NUM /\ Z.of_nat (length (msv_OffTime d)) = MAX_DUTY_SUPPORT_NUM }.
(** The counters of generator [i]; whether it is enabled plays no part. *)
Definition duty_of (i : Z) (u : duty) (s : plc_st) : Prop :=
  zlookup (msv_OnTime (gtp_DutyInsInfo (instances s))) i = Some (du_on u) /\
  zlookup (msv_OffTime (gtp_DutyInsInfo (instances s))) i = Some (du_off u).
Section duty.
Context (pc a b i : Z) (Hi : 0 <= i < MAX_DUTY_SUPPORT_NUM).
Lemma get_duty_run u s : duty_ins pc a b i s -> duty_of i u s ->
  exists e, get_duty i s = Ok ({| du_en := e; du_on := du_on u; du_off := du_off u |}, s).
Proof.
  intros [_ _ _ _ _ _ (L & _)] [Hon Hoff].
  assert (is_Some (zlookup (mcv_IsEnable (gtp_DutyInsInfo (instances s))) i)) as [e He] by (apply zlookup_is_Some; lia).
  exists e. unfold get_duty, gets, mbind, M_bind. by rewrite He, Hon, Hoff.
Qed.
Lemma set_duty_run u s : duty_ins pc a b i s ->
  exists s', set_duty i u s = Ok (tt, s') /\ duty_ins pc a b i s' /\ duty_of i u s' /\ mem s' = mem s.
Proof.
  intros [W P F A B N (L1 & L2 & L3)].
  pose proof (zupdate_lt (mcv_IsEnable (gtp_DutyInsInfo (instances s))) i (du_en u) ltac:(lia)) as U1.
  pose proof (zupdate_lt (msv_OnTime (gtp_DutyInsInfo (instances s))) i (du_on u) ltac:(lia)) as U2.
  pose proof (zupdate_lt (msv_OffTime (gtp_DutyInsInfo (instances s))) i (du_off u) ltac:(lia)) as U3.
  eexists. split.
  { unfold set_duty, gets, mbind, M_bind. rewrite U1. cbn [of_option]. rewrite U2. cbn [of_option]. rewrite U3. reflexivity. }
  split_and!; [|split; cbn; [exact (zlookup_zupdate_eq _ _ _ _ U2)|exact (zlookup_zupdate_eq _ _ _ _ U3)]|done].
  split; [done|done|done|by apply (const_word_code _ _ s)|by apply (const_word_code _ _ s)|by apply (PU16_code _ s)|].
  cbn. by rewrite !length_insert.
Qed.
Lemma duty_ins_stays s s' : stays s s' -> duty_ins pc a b i s -> duty_ins pc a b i s'.
Proof.
  intros (W' & I & E) [W P F A B N L]. pose proof I as (U & _ & _ & _ & Ei).
  split; [done|by rewrite E|by rewrite E|by eapply const_word_inert|by eapply const_word_inert|by apply (PU16_code _ s)|by rewrite Ei].
Qed.
Lemma duty_of_stays u s s' : stays s s' -> duty_of i u s -> duty_of i u s'.
Proof. intros (_ & (_ & _ & _ & _ & Ei) & _). unfold duty_of. by rewrite Ei. Qed.
Lemma sd_stays n v s : wf_elem (elem s) -> 0 <= n < 1024 -> exists s', wr SD_ELEMENT n v s = Ok (tt, s') /\ stays s s' /\
  forall m, flag m s' = flag m s.
Proof.
  intros W Hn. pose proof (wr_upd SD_ELEMENT n v s W Hn) as E. eexists. split; [exact E|].
  pose proof (wr_touches _ _ _ _ _ _ E) as T. split; [|intros m; by eapply touches_bit].
  split_and!; [by apply upd_wf|apply (to_inert _ _ _ T)|apply (to_env _ _ _ T)].
Qed.
Lemma duty_ins_run u s : 0 < a < 2 ^ 16 -> 0 < b < 2 ^ 16 -> duty_ins pc a b i s -> duty_of i u s ->
  let r := duty_scan a b u in
  exists s', run_ci_duty_ins s = Ok (pdPASS, s') /\ duty_ins pc a b i s' /\ duty_of i r.2 s' /\
    flag (DUTY_INS_BASE_ELEMENT + i) s' = Some r.1.1.
Proof.
  intros Ha Hb D U r. unfold MAX_DUTY_SUPPORT_NUM in *. set (n := DUTY_INS_BASE_ELEMENT + i).
  assert (Hn : 0 <= n < 1024) by (unfold n, DUTY_INS_BASE_ELEMENT; lia).
  destruct (get_duty_run u s D U) as (e & G). pose proof D as [W P F A B N L].
  assert (E0 : forall k, powered k s = k s) by (intros k; unfold powered, GET_POWER_FLOW, gets, mbind, M_bind; by rewrite F).
  assert (Epc : get_PC s = Ok (pc, s)) by (unfold get_PC, gets; by rewrite P).
  unfold run_ci_duty_ins. rewrite E0, (bind_run _ _ _ _ _ Epc), (with_word_const _ _ _ _ A), (with_word_const _ _ _ _ B).
  rewrite (bind_run _ _ _ _ _ N). fold n.
  assert ((n <? DUTY_INS_BASE_ELEMENT) || (DUTY_INS_BASE_ELEMENT + MAX_DUTY_SUPPORT_NUM - 1 <? n) = false) as ->
    by (unfold n, MAX_DUTY_SUPPORT_NUM; lia).
  cbv zeta. replace (n - DUTY_INS_BASE_ELEMENT) with i by (unfold n; lia). rewrite (bind_run _ _ _ _ _ G). cbn [du_on du_off].
  set (u1 := {| du_en := 1; du_on := du_on u; du_off := du_off u |}).
  assert (Hr : r.1 = (duty_scan a b u1).1 /\ du_on r.2 = du_on (duty_scan a b u1).2 /\ du_off r.2 = du_off (duty_scan a b u1).2).
  { unfold r, duty_scan, u1. cbn [du_on du_off du_en]. by destruct (a + b <=? _). }
  set (r1 := duty_scan a b u1) in *. clearbody r r1. destruct Hr as (-> & Hon & Hoff).
  destruct (set_duty_run u1 s D) as (s1 & E1 & D1 & U1 & _). rewrite (bind_run _ _ _ _ _ E1).
  assert (a =? 0 = false) as -> by lia. assert (b =? 0 = false) as -> by lia.
  destruct (set_SM_run n (if r1.1.1 then 1 else 0) s1 (di_wf _ _ _ _ _ D1)) as (s2 & E2 & S2 & F2 & _); [lia|by destruct r1.1.1|].
  rewrite (bind_run _ _ _ _ _ E2). destruct (sd_stays n r1.1.2 s2 (proj1 S2) Hn) as (s3 & E3 & S3 & F3).
  rewrite (bind_run _ _ _ _ _ E3). pose proof (duty_ins_stays _ _ S3 (duty_ins_stays _ _ S2 D1)) as D3.
  destruct (set_duty_run r1.2 s3 D3) as (s4 & E4 & D4 & U4 & M4). rewrite (bind_run _ _ _ _ _ E4).
  exists s4. split; [done|]. split; [done|]. split; [unfold duty_of in *; by rewrite Hon, Hoff|].
  unfold flag. rewrite M4. fold (flag n s3). rewrite F3, F2. by destruct r1.1.1.
Qed.
(** The instruction in scan after scan, with its output bit. *)
Fixpoint duty_scans (k : nat) : Mc (list bool) :=
  match k with
  | O => mret []
  | S k' =>
      r ← run_ci_duty_ins; v ← plc_get_bit_element_value SM_ELEMENT (DUTY_INS_BASE_ELEMENT + i);
      l ← duty_scans k'; mret (truthy v :: l)
  end.
Lemma duty_scans_run k u s : 0 < a < 2 ^ 16 -> 0 < b < 2 ^ 16 -> duty_ins pc a b i s -> duty_of i u s ->
  exists s', duty_scans k s = Ok (duty_run k a b u, s').
Proof.
  intros Ha Hb. revert u s. induction k as [|k IH]; intros u s D U; cbn [duty_scans duty_run]; [by exists s|].
  destruct (duty_ins_run u s Ha Hb D U) as (s1 & E1 & D1 & U1 & F1). rewrite (bind_run _ _ _ _ _ E1).
  assert (Hn : 0 <= DUTY_INS_BASE_ELEMENT + i < 1024) by (unfold DUTY_INS_BASE_ELEMENT, MAX_DUTY_SUPPORT_NUM in *; lia).
  assert (Eb : plc_get_bit_element_value SM_ELEMENT (DUTY_INS_BASE_ELEMENT + i) s1 = Ok (Z.b2z (duty_scan a b u).1.1, s1)).
  { apply bit_of_get; [apply (di_wf _ _ _ _ _ D1)|lia|change (16 * rsize SM_ELEMENT) with 1024; lia|exact F1]. }
  rewrite (bind_run _ _ _ _ _ Eb).
  destruct (IH _ s1 D1 U1) as (s2 & E2). rewrite (bind_run _ _ _ _ _ E2). exists s2.
  unfold mret, M_ret. do 3 f_equal. by destruct (duty_scan a b u).1.1.
Qed.
End duty.

(** C23: DUTY is a pulse generator: executed under power flow in scan after scan
    with the constant on-time [a] and off-time [b], it delivers at SM430 + [i]
    [a] scans on and [b] scans off, over and over, beginning with its initial
    state, and is always defined. *)
Theorem duty_is_periodic pc a b i k s :
  0 <= i < MAX_DUTY_SUPPORT_NUM -> 0 < a -> 0 < b -> a + b < 2 ^ 16 ->
  duty_ins pc a b i s -> duty_of i {| du_en := 0; du_on := 0; du_off := 0 |} s ->
  exists s', duty_scans i k s = Ok ((fun t : nat => Z.of_nat t mod (a + b) <? a) <$> seq 0 k, s').
Proof.
  intros Hi Ha Hb Hab D U. assert (U' : duty_of i (duty_at a 0) s).
  { unfold duty_of, duty_at in *. cbn [du_on du_off] in *. by rewrite (Z.min_l 0 a), (Z.max_r (0 - a) 0) by lia. }
  destruct (duty_scans_run pc a b i Hi k _ s ltac:(lia) ltac:(lia) D U') as (s' & E).
  exists s'. rewrite E, duty_run_at by lia. done.
Qed.
Definition duty_demo : plc_st :=
  with_InPF (set_pf 0) (st0 [0x9D; 0xF0; 1; 0xFF; 2; 0; 1; 0xFF; 3; 0; 0; 0; 0xAF; 0x01]).
Lemma duty_demo_ins : duty_ins 0 2 3 1 duty_demo.
Proof.
  split; [apply wf_elem0|done|done|exists 1|exists 1|done|by split_and!]; (split; [done|split; [done..|zconc|zconc]]).
Qed.
Lemma duty_is_periodic_witness : exists s',
  duty_scans 1 7 duty_demo = Ok ([true; true; false; false; false; true; true], s').
Proof. apply (duty_is_periodic 0 2 3 1 7 duty_demo); [zconc|done|done|done|apply duty_demo_ins|by split]. Defined.
