(* ===== verification/StlFacts.v ===== *)
(** * Facts about master control and step instructions *)
From stdpp Require Import base list numbers sets.
From S2P Require Import Prelude Element Machine ParseAddr ParseAddrFacts SimpleIns Device TimeIns DataIns FlowCtrl Call Stl.

Lemma bind_ok_seq {B} (m1 m2 : Mc unit) (b : B) s s' : (m1;; m2) s = Ok (tt, s') -> (m1;; m2;; mret b) s = Ok (b, s').
Proof.
  unfold mbind, M_bind. destruct (m1 s) as [[[] s1]| |]; [|done..]. destruct (m2 s1) as [[[] s2]| |]; [|done..]. by intros [= ->].
Qed.

(** ** Bits through the writers *)
Lemma set_bit_bits r n v s : wf_elem (elem s) -> bit_region r -> 0 <= n < 2 ^ 16 -> n < 16 * rsize r -> 0 <= v < 2 ^ 8 ->
  exists s', plc_set_bit_element_value r n v s = Ok (tt, s') /\ wf_elem (elem s') /\ inert s s' /\ env s' = env s /\
    gtp_EuEd s' = gtp_EuEd s /\
    forall q k, 0 <= k -> bit_of (mem s') q k = if decide (q = r /\ k = n) then Some (truthy v) else bit_of (mem s) q k.
Proof.
  intros W R Hn Hr Hv. destruct (set_bit_run r n v s W R Hn Hr Hv) as (s' & H & [B _] & W').
  pose proof (set_bit_touches _ _ _ _ _ _ H) as T. destruct (to_env _ _ _ T).
  exists s'. split_and!; [done|done|apply (to_inert _ _ _ T)|done|done|exact B].
Qed.
Definition sfc (s : plc_st) : plc_sfc_run_status_info_st := sfc_status (flow s).
(** The steps on record: the first [mcv_SeriesSTLCnt] numbers. *)
Definition on_record (s : plc_st) : list Z := take (Z.to_nat (mcv_SeriesSTLCnt (sfc s))) (msv_StlNum (sfc s)).
Record sfc_ok (s : plc_st) : Prop := {
  so_wf : wf_elem (elem s);
  so_cnt : 0 <= mcv_SeriesSTLCnt (sfc s) <= MAX_SFC_SERIES_STL_NUM;
  so_len : Z.of_nat (length (msv_StlNum (sfc s))) = MAX_SFC_SERIES_STL_NUM;
  so_steps : Forall (fun n => 0 <= n < S_RANG) (msv_StlNum (sfc s)) }.
Lemma sfc_ok_inert s s' : wf_elem (elem s') -> inert s s' -> sfc_ok s -> sfc_ok s'.
Proof. intros W (_ & F & _) [_ C L S]. unfold sfc in *. by split; unfold sfc; rewrite ?F. Qed.
Definition step_bit (k : Z) (s : plc_st) : option bool := bit_of (mem s) S_ELEMENT k.

(** The loop that switches the recorded steps off. *)
Lemma off_loop cnt i s : sfc_ok s -> 0 <= i -> i + Z.of_nat cnt <= MAX_SFC_SERIES_STL_NUM ->
  exists s', for_up cnt i (fun i => num ← get_StlNum i; plc_set_bit_element_value S_ELEMENT num 0) s = Ok (tt, s') /\
    sfc_ok s' /\ inert s s' /\ env s' = env s /\
    forall k, 0 <= k -> step_bit k s' =
      if decide (k ∈ take cnt (drop (Z.to_nat i) (msv_StlNum (sfc s)))) then Some false else step_bit k s.
Proof.
  revert i s. induction cnt as [|c IH]; intros i s H Hi Hc; cbn [for_up].
  - exists s. split_and!; [done|done|reflexivity|done|]. intros k _. rewrite take_0, decide_False by apply not_elem_of_nil. done.
  - pose proof H as [W C L St]. set (l := msv_StlNum (sfc s)) in *.
    assert (is_Some (l !! Z.to_nat i)) as [num Hnum] by (apply lookup_lt_is_Some; lia).
    assert (Hz : zlookup l i = Some num) by (apply zlookup_Some; auto).
    pose proof (Forall_lookup_1 _ _ _ _ St Hnum) as Hr. cbn beta in Hr.
    assert (Eg : get_StlNum i s = Ok (num, s)).
    { unfold get_StlNum, get_sfc, gets. unfold mbind, M_bind. change (msv_StlNum (sfc_status (flow s))) with l. by rewrite Hz. }
    unfold S_RANG in Hr.
    destruct (set_bit_bits S_ELEMENT num 0 s W) as (s1 & E1 & W1 & I1 & V1 & _ & B1);
      [done|lia|change (16 * rsize S_ELEMENT) with 4096; lia|lia|].
    destruct (IH (i + 1) s1) as (s2 & E2 & H2 & I2 & V2 & B2); [by apply (sfc_ok_inert s)|lia|lia|].
    exists s2. unfold mbind at 1, M_bind at 1. rewrite (bind_run _ _ _ _ _ Eg), E1, E2.
    split_and!; [done|done|by transitivity s1|congruence|].
    intros k Hk. rewrite B2 by done. unfold sfc. destruct I1 as (_ & -> & _). fold (sfc s). fold l.
    replace (Z.to_nat (i + 1)) with (S (Z.to_nat i)) by lia. rewrite (drop_S _ _ _ Hnum). cbn [take].
    unfold step_bit. rewrite B1 by done. repeat case_decide; set_solver.
Qed.
(** SET S, OUT S and RST S: the recorded steps go off, the target takes [v]. *)
Lemma leave_step m v s : sfc_ok s -> 0 <= m < S_RANG -> 0 <= v < 2 ^ 8 -> truthy (mcv_sfcEnable (sfc s)) = true ->
  exists s', (steps_off;; plc_set_bit_element_value S_ELEMENT m v) s = Ok (tt, s') /\ sfc_ok s' /\ inert s s' /\ env s' = env s /\
    forall k, 0 <= k -> step_bit k s' =
      if decide (k = m) then Some (truthy v) else if decide (k ∈ on_record s) then Some false else step_bit k s.
Proof.
  intros H Hm Hv En. pose proof H as [W C L St]. unfold S_RANG in Hm.
  destruct (off_loop (Z.to_nat (mcv_SeriesSTLCnt (sfc s))) 0 s H) as (s1 & E1 & H1 & I1 & V1 & B1); [lia|lia|].
  destruct (set_bit_bits S_ELEMENT m v s1 (so_wf _ H1)) as (s2 & E2 & W2 & I2 & V2 & _ & B2);
    [done|lia|change (16 * rsize S_ELEMENT) with 4096; lia|done|].
  assert (Eo : steps_off s = Ok (tt, s1)).
  { unfold steps_off, get_sfc, gets. unfold mbind at 1, M_bind at 1. fold (sfc s). rewrite En, when_true.
    unfold mbind, M_bind. unfold mbind, M_bind in E1. fold (sfc s). exact E1. }
  exists s2. rewrite (bind_run _ _ _ _ _ Eo). split_and!; [done|by apply (sfc_ok_inert s1)|by transitivity s1|congruence|].
  intros k Hk. unfold step_bit. rewrite B2 by done. fold (step_bit k s1). rewrite B1 by done. unfold on_record.
  change (Z.to_nat 0) with 0%nat. rewrite drop_0. unfold step_bit. repeat case_decide; naive_solver.
Qed.

(** ** STL of a single step *)
(** An STL at [pc] with the step number [n] and the edge number [e], no other
    STL behind it. *)
Record stl_at (pc n e : Z) (s : plc_st) : Prop := {
  sa_pc : mcp_PC (env s) = pc;
  sa_num : GET_PU16_DATA (pc + 4) s = Ok (n, s);
  sa_edge : GET_PU16_DATA (pc + 6) s = Ok (e, s);
  sa_next : exists op, GET_PU16_DATA (pc + 10) s = Ok (op, s) /\ op <> CI_STL }.
Definition recorded (n : Z) (s : plc_st) : plc_sfc_run_status_info_st :=
  {| mcv_sfcEnable := 1; mcv_SeriesSTLCnt := 1; msv_StlNum := <[0%nat := n]> (msv_StlNum (sfc s)) |}.
Definition with_sfc (v : plc_sfc_run_status_info_st) (s : plc_st) : plc_st := with_flow (with_sfc_status v (flow s)) s.
(** The prologue: the step is put on record. *)
Lemma stl_prologue {B} pc n e s (k : bool -> Mc B) : sfc_ok s -> stl_at pc n e s ->
  (mod_sfc (with_SeriesSTLCnt 0);; mod_sfc (with_sfcEnable 1);; b ← plc_stl_bus_meet_analyse; k b) s =
  k false (with_sfc (recorded n s) s).
Proof.
  intros [W C L _] [P N _ (op & Hop & Hne)].
  set (s1 := with_sfc {| mcv_sfcEnable := 1; mcv_SeriesSTLCnt := 0; msv_StlNum := msv_StlNum (sfc s) |} s).
  unfold mbind at 1, M_bind at 1. cbn [mod_sfc modify]. unfold mbind at 1, M_bind at 1. cbn [mod_sfc modify].
  change (with_flow _ _) with s1.
  enough (E : plc_stl_bus_meet_analyse s1 = Ok (false, with_sfc (recorded n s) s)) by (by rewrite (bind_run _ _ _ _ _ E)).
  unfold plc_stl_bus_meet_analyse. assert (Epc : get_PC s1 = Ok (pc, s1)) by (unfold get_PC, gets; cbn; by rewrite P).
  rewrite (bind_run _ _ _ _ _ Epc), (bind_run _ _ _ _ _ (PU16_code _ s s1 _ eq_refl N)).
  pose proof (zupdate_lt (msv_StlNum (sfc s)) 0 n ltac:(unfold MAX_SFC_SERIES_STL_NUM in L; lia)) as U.
  change (Z.to_nat 0) with 0%nat in U.
  set (s2 := with_sfc {| mcv_sfcEnable := 1; mcv_SeriesSTLCnt := 0; msv_StlNum := <[0%nat := n]> (msv_StlNum (sfc s)) |} s).
  assert (Eset : set_StlNum 0 n s1 = Ok (tt, s2)).
  { unfold set_StlNum, get_sfc, gets. unfold mbind at 1, M_bind at 1.
    change (msv_StlNum (sfc_status (flow s1))) with (msv_StlNum (sfc s)). by rewrite U, bind_some. }
  rewrite (bind_run _ _ _ _ _ Eset), (bind_run _ _ _ _ _ (PU16_code _ s s2 _ eq_refl Hop)).
  by assert (op =? CI_STL = false) as -> by (by apply Z.eqb_neq).
Qed.
Lemma step_bit_get n s (b : bool) : wf_elem (elem s) -> 0 <= n < S_RANG -> step_bit n s = Some b ->
  plc_get_bit_element_value S_ELEMENT n s = Ok (Z.b2z b, s).
Proof.
  intros W Hn H. unfold S_RANG in Hn. apply bit_of_get; [done|lia|change (16 * rsize S_ELEMENT) with 4096; lia|exact H].
Qed.
Lemma init_edge e b s : GET_EDGE_INIT_FLAG e s = Ok (b, s) -> exists c, zlookup (gtp_EuEd s) (Z.shiftr e 4) = Some c.
Proof. unfold GET_EDGE_INIT_FLAG, rd_edge, mbind, M_bind. destruct (zlookup _ _); [by eexists|done]. Qed.
Lemma set_edge_run e s c : zlookup (gtp_EuEd s) (Z.shiftr e 4) = Some c -> exists l, SET_EDGE_VALUE e s = Ok (tt, with_eued l s).
Proof.
  intros Hc. pose proof (zlookup_lt _ _ _ Hc) as Hl. unfold SET_EDGE_VALUE, rd_edge, wr_edge, mbind, M_bind.
  rewrite Hc. eexists. by rewrite (zupdate_lt _ _ _ Hl).
Qed.
(** Up to the test of the step bit. *)
Lemma stl_head fuel pc n e (b : bool) s : sfc_ok s -> stl_at pc n e s -> 0 <= n < 2 ^ 16 -> step_bit (u8 n) s = Some b ->
  let s1 := with_sfc (recorded n s) s in
  run_ci_stl_ins fuel s =
    (if b then
       first ← GET_EDGE_INIT_FLAG e;
       when first (RST_EDGE_INIT_FLAG e;; plc_stl_ins_clean_element fuel (u8 n);; mret tt);;
       SET_EDGE_VALUE e;; SET_POWER_FLOW;; add_PC 10;; mret pdPASS
     else
       before ← GET_EDGE_VALUE e;
       (if before : bool then RST_EDGE_VALUE e;; plc_stl_ins_clean_element fuel (u8 n);; mret tt else mret tt);;
       jump_over;; mret pdPASS) s1.
Proof.
  intros H A Hn Hb s1. pose proof (so_wf _ H) as W. pose proof A as [P N E _].
  unfold run_ci_stl_ins. assert (Epc : get_PC s = Ok (pc, s)) by (unfold get_PC, gets; by rewrite P).
  rewrite (bind_run _ _ _ _ _ Epc), (bind_run _ _ _ _ _ N). cbv zeta.
  rewrite (stl_prologue pc n e s _ H A). fold s1. cbn [negb].
  rewrite (bind_run _ _ _ _ _ (PU16_code _ s s1 _ eq_refl E)).
  assert (G : plc_get_bit_element_value S_ELEMENT (u8 n) s1 = Ok (Z.b2z b, s1)).
  { apply step_bit_get; [exact W|pose proof (u8_range n); unfold S_RANG; lia|exact Hb]. }
  rewrite (bind_run _ _ _ _ _ G). by destruct b.
Qed.

(** C11: one step of a sequential chart: the STL of an active step turns the
    power flow on and goes on with the code of the step, if the step is
    numbered below 256, its STL is not one of a row, and the scan is not its
    first; a SET S reached from there with the power flow switches exactly
    this step off and its target on. A step from 256 on is taken for another
    ([high_step_skipped]). *)
Theorem step_transition fuel pc n e m s :
  sfc_ok s -> stl_at pc n e s -> 0 <= n < 256 -> 0 <= m < S_RANG ->
  step_bit n s = Some true -> GET_EDGE_INIT_FLAG e s = Ok (false, s) ->
  exists s1, run_ci_stl_ins fuel s = Ok (pdPASS, s1) /\ mcp_PC (env s1) = pc + 10 /\
    get_pf (mlv_InPF (env s1)) = true /\ mem s1 = mem s /\
    forall pc', GET_PU16_DATA (pc' + 4) s = Ok (m, s) ->
    exists s2, run_ci_set_s_ins (with_PC pc' s1) = Ok (pdPASS, s2) /\
      forall k, 0 <= k -> step_bit k s2 =
        if decide (k = m) then Some true else if decide (k = n) then Some false else step_bit k s.
Proof.
  intros H A Hn Hm Hb Hi. assert (E8 : u8 n = n) by (by apply u8_id).
  pose proof (stl_head fuel pc n e true s H A ltac:(lia)) as E. rewrite E8 in E. specialize (E Hb). cbv zeta in E.
  set (s0 := with_sfc (recorded n s) s) in *.
  destruct (init_edge _ _ _ Hi) as [c Hc]. destruct (set_edge_run e s0 c Hc) as [l El].
  assert (Hi0 : GET_EDGE_INIT_FLAG e s0 = Ok (false, s0)).
  { unfold GET_EDGE_INIT_FLAG, rd_edge, mbind, M_bind in *. change (gtp_EuEd s0) with (gtp_EuEd s). rewrite Hc in *.
    by injection Hi as ->. }
  set (s1 := with_PC (mcp_PC (env s) + 10) (with_InPF (set_pf (mlv_InPF (env s))) (with_eued l s0))).
  assert (Epf : get_pf (mlv_InPF (env s1)) = true).
  { change (get_pf (set_pf (mlv_InPF (env s))) = true). unfold get_pf, set_pf. by rewrite Z.lor_spec, orb_true_r. }
  exists s1. split_and!; [|cbn; by rewrite (sa_pc _ _ _ _ A)|exact Epf|done|].
  - rewrite E, (bind_run _ _ _ _ _ Hi0), when_false. unfold mbind at 1, M_bind at 1. cbn [mret M_ret].
    by rewrite (bind_run _ _ _ _ _ El).
  - intros pc' Hpc. set (s1' := with_PC pc' s1).
    assert (Hrec : sfc s1' = recorded n s) by done.
    assert (Hok : sfc_ok s1').
    { destruct H as [W C L St]. split; [exact W|rewrite Hrec; cbn; done|rewrite Hrec; cbn; by rewrite length_insert|].
      rewrite Hrec. cbn. apply Forall_insert; [done|]. unfold S_RANG. lia. }
    destruct (leave_step m 1 s1' Hok Hm ltac:(done)) as (s2 & E2 & _ & _ & _ & B2); [by rewrite Hrec|].
    exists s2. split.
    + unfold run_ci_set_s_ins, powered, target_step.
      assert (Gp : GET_POWER_FLOW s1' = Ok (true, s1')) by (unfold GET_POWER_FLOW, gets; by rewrite <- Epf).
      rewrite (bind_run _ _ _ _ _ Gp). cbn [negb].
      assert (Gt : (pc ← get_PC; GET_PU16_DATA (pc + 4)) s1' = Ok (m, s1')) by (by apply (PU16_code _ s s1')).
      rewrite (bind_run _ _ _ _ _ Gt). apply bind_ok_seq; exact E2.
    + intros k Hk. rewrite B2 by done. unfold on_record. rewrite Hrec. cbn.
      destruct H as [_ _ L _]. destruct (msv_StlNum (sfc s)) as [|x l']; [done|]. cbn.
      repeat case_decide; try done; set_solver.
Qed.
Definition stl_demo : plc_st :=
  let s := with_InPF 0 (st0 [0x0E; 0xF0; 0; 0; 5; 0; 3; 0; 16; 0; 0x10; 0xF0; 0; 0; 6; 0; 0x12; 0xF0]) in
  let s := upd S_ELEMENT 0 0x20 (with_eued (replicate 256 {| msv_IsInit := 0; msv_Value := 0 |}) s) in
  with_sfc {| mcv_sfcEnable := 0; mcv_SeriesSTLCnt := 0; msv_StlNum := replicate 16 0 |} s.
Lemma stl_demo_wf : wf_elem (elem stl_demo).
Proof.
  unfold stl_demo. cbv zeta. lazymatch goal with |- wf_elem (elem (with_sfc _ ?s)) => change (wf_elem (elem s)) end.
  apply upd_wf; [exact wf_elem0|zconc].
Qed.
Lemma stl_demo_ok : sfc_ok stl_demo.
Proof.
  split; [apply stl_demo_wf|zconc|done|]. apply Forall_forall. intros x Hx. apply elem_of_replicate in Hx as [-> _]. zconc.
Qed.
Lemma stl_demo_at : stl_at 0 5 3 stl_demo.
Proof. split; [done|zconc|zconc|]. exists 0xF010. split; [zconc|done]. Qed.
Lemma step_transition_witness : exists s1 s2, run_ci_stl_ins 1 stl_demo = Ok (pdPASS, s1) /\
  run_ci_set_s_ins (with_PC 10 s1) = Ok (pdPASS, s2) /\ step_bit 5 s2 = Some false /\ step_bit 6 s2 = Some true.
Proof.
  destruct (step_transition 1 0 5 3 6 stl_demo stl_demo_ok stl_demo_at) as (s1 & E1 & _ & _ & _ & Hs); [zconc..|].
  destruct (Hs 10) as (s2 & E2 & B2); [zconc|]. exists s1, s2. by rewrite !B2.
Defined.

(** The number of a step is kept in a byte: an STL of an active step numbered
    256 or above follows the step with the same low byte, and when that one is
    off (and was not served before) it skips the code of the active step. *)
Theorem high_step_skipped fuel pc n e off s :
  sfc_ok s -> stl_at pc n e s -> 256 <= n < S_RANG -> GET_PU16_DATA (pc + 8) s = Ok (off, s) ->
  step_bit n s = Some true -> step_bit (n mod 256) s = Some false -> GET_EDGE_VALUE e s = Ok (false, s) ->
  exists s1, run_ci_stl_ins fuel s = Ok (pdPASS, s1) /\ mcp_PC (env s1) = pc + off /\ mem s1 = mem s /\
    mlv_InPF (env s1) = mlv_InPF (env s).
Proof.
  intros H A Hn Ho _ Hb He. unfold S_RANG in Hn.
  pose proof (stl_head fuel pc n e false s H A ltac:(lia) Hb) as E. cbv zeta in E.
  set (s0 := with_sfc (recorded n s) s) in *.
  assert (He0 : GET_EDGE_VALUE e s0 = Ok (false, s0)).
  { unfold GET_EDGE_VALUE, rd_edge, mbind, M_bind in *. change (gtp_EuEd s0) with (gtp_EuEd s).
    destruct (zlookup _ _); [|done]. by injection He as ->. }
  exists (with_PC (mcp_PC (env s) + off) s0). split_and!; [|cbn; by rewrite (sa_pc _ _ _ _ A)|done|done].
  rewrite E, (bind_run _ _ _ _ _ He0). unfold mbind at 1, M_bind at 1. cbn [mret M_ret].
  unfold jump_over. assert (Epc : get_PC s0 = Ok (pc, s0)) by (unfold get_PC, gets; cbn; by rewrite (sa_pc _ _ _ _ A)).
  unfold mbind at 1, M_bind at 1. rewrite (bind_run _ _ _ _ _ Epc), (bind_run _ _ _ _ _ (PU16_code _ s s0 _ eq_refl Ho)). done.
Qed.
Definition high_step_demo : plc_st :=
  let s := with_InPF 0 (st0 [0x0E; 0xF0; 0; 0; 5; 1; 3; 0; 16; 0; 0x10; 0xF0; 0; 0; 6; 0; 0x12; 0xF0]) in
  let s := upd S_ELEMENT 16 0x20 s in
  with_sfc {| mcv_sfcEnable := 0; mcv_SeriesSTLCnt := 0; msv_StlNum := replicate 16 0 |} s.
Lemma high_step_demo_wf : wf_elem (elem high_step_demo).
Proof.
  unfold high_step_demo. cbv zeta. lazymatch goal with |- wf_elem (elem (with_sfc _ ?s)) => change (wf_elem (elem s)) end.
  apply upd_wf; [exact wf_elem0|zconc].
Qed.
Lemma high_step_demo_ok : sfc_ok high_step_demo.
Proof.
  split; [apply high_step_demo_wf|zconc|done|].
  apply Forall_forall. intros x Hx. apply elem_of_replicate in Hx as [-> _]. zconc.
Qed.
Lemma high_step_demo_at : stl_at 0 261 3 high_step_demo.
Proof. split; [done|zconc|zconc|]. exists 0xF010. split; [zconc|done]. Qed.
Lemma high_step_skipped_witness : exists s1, run_ci_stl_ins 1 high_step_demo = Ok (pdPASS, s1) /\ mcp_PC (env s1) = 16.
Proof.
  destruct (high_step_skipped 1 0 261 3 16 high_step_demo high_step_demo_ok high_step_demo_at) as (s1 & E & P & _);
    [zconc..|]. by exists s1.
Defined.

(** ** A block that loses its condition *)
(** The coils, and where the number of an edge stands. *)
Definition coil_region (r : region) : option contact :=
  match r with Y_ELEMENT => Some cY | SM_ELEMENT => Some cSM | M_ELEMENT => Some cM | _ => None end.
Definition edge_offset (i : simple_ins) : option Z :=
  match i with
  | SI_EU | SI_ED => Some 2
  | SI_LDP | SI_LDF | SI_ANDP | SI_ANDF | SI_ORP | SI_ORF | SI_PLP | SI_PLF => Some 4
  | _ => None
  end.
(** The bits the clearing of the simple instruction at [a] switches off: the
    coil of an output, in its short and its long form; of an edge, none. *)
Inductive clears (s : plc_st) (a : Z) : list (region * Z) -> Prop :=
| clears_output c r n : coil_region r = Some c -> GET_PU8_DATA (a + 1) s = Ok (si_code (SI_OUT c), s) ->
    GET_PU8_DATA a s = Ok (n, s) -> 0 <= n < 2 ^ 8 -> clears s a [(r, n)]
| clears_output_ext c r l h : coil_region r = Some c -> GET_PU8_DATA (a + 1) s = Ok (si_code (SI_OUT_EXT c), s) ->
    GET_PU16_DATA (a + 2) s = Ok (h, s) -> GET_PU8_DATA a s = Ok (l, s) -> u16 (Z.shiftl h 4 + l) < 16 * rsize r ->
    clears s a [(r, u16 (Z.shiftl h 4 + l))]
| clears_edge i off e : edge_offset i = Some off -> GET_PU8_DATA (a + 1) s = Ok (si_code i, s) ->
    GET_PU16_DATA (a + off) s = Ok (e, s) -> 0 <= Z.shiftr e 4 < Z.of_nat (length (gtp_EuEd s)) -> clears s a [].
(** Of the complex instructions TON and TOF lose the bit of their timer, OUT
    LM a local one; TONR stops counting; all others but BOUT and CALL, which
    are left out here, have nothing to clear. *)
Inductive resets (s : plc_st) (a : Z) : list (region * Z) -> Prop :=
| resets_timer op n : op = CI_TON \/ op = CI_TOF -> GET_PU16_DATA a s = Ok (op, s) -> GET_PU16_DATA (a + 4) s = Ok (n, s) ->
    0 <= n < T_RANG -> resets s a [(T_ELEMENT, n)]
| resets_tonr n : GET_PU16_DATA a s = Ok (CI_TONR, s) -> GET_PU16_DATA (a + 4) s = Ok (n, s) -> 0 <= n < T_RANG -> resets s a []
| resets_lm n : GET_PU16_DATA a s = Ok (CI_OUT_LM, s) -> GET_PU16_DATA (a + 4) s = Ok (n, s) -> 0 <= n < LM_RANG ->
    0 <= nested s < MAX_SBR_NESTED_LAYER -> resets s a [(LM_ELEMENT, LM_RANG * nested s + n)]
| resets_none op : GET_PU16_DATA a s = Ok (op, s) -> op ∉ [CI_TON; CI_TONR; CI_TOF; CI_OUT_LM; CI_BOUT; CI_CALL] -> resets s a [].
(** The arrays in which a timer that is reset has its numbers. *)
Definition timer_words : list region := [T_CURRENT; T_DEST; T_START].
(** The bits [ps] are off and every other bit is as it was. *)
Record cleaned (ps : list (region * Z)) (s s' : plc_st) : Prop := {
  cd_wf : wf_elem (elem s');
  cd_inert : inert s s';
  cd_env : env s' = env s;
  cd_edges : length (gtp_EuEd s') = length (gtp_EuEd s);
  cd_bits : forall q k, 0 <= k -> q ∉ timer_words ->
    bit_of (mem s') q k = if decide ((q, k) ∈ ps) then Some false else bit_of (mem s) q k }.
Lemma cleaned_app ps ps' s s1 s2 : cleaned ps s s1 -> cleaned ps' s1 s2 -> cleaned (ps ++ ps') s s2.
Proof.
  intros [W1 I1 V1 L1 B1] [W2 I2 V2 L2 B2]. split; [done|by transitivity s1|congruence|congruence|].
  intros q k Hk Hq. rewrite B2, B1 by done. repeat case_decide; set_solver.
Qed.
Lemma cleaned_none s s' : wf_elem (elem s') -> inert s s' -> env s' = env s -> length (gtp_EuEd s') = length (gtp_EuEd s) ->
  (forall q, q ∉ timer_words -> rget (mem s') q = rget (mem s) q) -> cleaned [] s s'.
Proof.
  intros W I V L M. split; [done..|]. intros q k _ Hq. rewrite decide_False by apply not_elem_of_nil. unfold bit_of. by rewrite M.
Qed.
Lemma cleaned_touch p s s' : wf_elem (elem s') -> touches p s s' -> (forall r, p = PReg r -> r ∈ timer_words) -> cleaned [] s s'.
Proof.
  intros W T Hp. apply cleaned_none; [done|apply (to_inert _ _ _ T)|apply (to_env _ _ _ T)|by rewrite (proj2 (to_env _ _ _ T))|].
  intros q Hq. apply (to_reg _ _ _ T). intros ->. by apply Hq, Hp.
Qed.
(** What an instruction clears does not depend on what has been cleared. *)
Lemma clears_inert ps a s s' : inert s s' -> length (gtp_EuEd s') = length (gtp_EuEd s) -> clears s a ps -> clears s' a ps.
Proof.
  intros [U _] L [c r n Hr H1 H2 Hn|c r l h Hr H1 H2 H3 Hn|i off e Hi H1 H2 He].
  - apply (clears_output s' a c); try done; by eapply PU8_code.
  - apply (clears_output_ext s' a c); try done; by (eapply PU8_code || eapply PU16_code).
  - apply (clears_edge s' a i off e); [done|by eapply PU8_code|by eapply PU16_code|by rewrite L].
Qed.
Lemma resets_inert ps a s s' : inert s s' -> resets s a ps -> resets s' a ps.
Proof.
  intros [U [Fl _]] H. assert (N : nested s' = nested s) by (unfold nested; by rewrite Fl).
  assert (P : forall q w, GET_PU16_DATA q s = Ok (w, s) -> GET_PU16_DATA q s' = Ok (w, s')) by (intros q w; by apply PU16_code).
  destruct H as [op n Hop H1 H2 Hn|n H1 H2 Hn|n H1 H2 Hn Hd|op H1 Ho].
  - by apply (resets_timer s' a op n); auto.
  - by apply (resets_tonr s' a n); auto.
  - rewrite <- N in Hd |- *. by apply (resets_lm s' a n); auto.
  - by apply (resets_none s' a op); auto.
Qed.
(** Edges. *)
Lemma edge_store_run i (f : plc_eu_ed_st -> plc_eu_ed_st) s : 0 <= i < Z.of_nat (length (gtp_EuEd s)) ->
  exists l, (e ← rd_edge i; wr_edge i (f e)) s = Ok (tt, with_eued l s) /\ length l = length (gtp_EuEd s).
Proof.
  intros H. unfold rd_edge, wr_edge, mbind, M_bind. destruct (proj2 (zlookup_is_Some _ i) H) as [e ->]. rewrite (zupdate_lt _ _ _ H).
  eexists. split; [done|]. apply length_insert.
Qed.
Lemma edge_off_run e s : 0 <= Z.shiftr e 4 < Z.of_nat (length (gtp_EuEd s)) ->
  exists l, edge_off e s = Ok (tt, with_eued l s) /\ length l = length (gtp_EuEd s).
Proof.
  intros H. unfold edge_off, RST_EDGE_VALUE, RST_EDGE_INIT_FLAG.
  destruct (edge_store_run (Z.shiftr e 4) (fun c => {| msv_IsInit := msv_IsInit c; msv_Value := u16 (Z.land (msv_Value c) (Z.lnot (edge_mask e))) |}) s H)
    as (l & E & L). rewrite (bind_run _ _ _ _ _ E).
  destruct (edge_store_run (Z.shiftr e 4) (fun c => {| msv_IsInit := u16 (Z.land (msv_IsInit c) (Z.lnot (edge_mask e))); msv_Value := msv_Value c |}) (with_eued l s))
    as (l' & E' & L'); [cbn; by rewrite L|]. exists l'. split; [exact E'|]. rewrite L'. exact L.
Qed.
(** A bit that goes off. *)
Lemma cleaned_bit r n s : wf_elem (elem s) -> bit_region r -> 0 <= n < 2 ^ 16 -> n < 16 * rsize r ->
  exists s', plc_set_bit_element_value r n 0 s = Ok (tt, s') /\ cleaned [(r, n)] s s'.
Proof.
  intros W R Hn Hr. destruct (set_bit_bits r n 0 s W R Hn Hr ltac:(lia)) as (s' & E & W' & I & V & G & B).
  exists s'. split; [done|]. split; [done..|by rewrite G|]. intros q k Hk _. rewrite B by done. repeat case_decide; set_solver.
Qed.
Lemma coil_region_ok r c : coil_region r = Some c -> bit_region r /\ 2 ^ 8 <= 16 * rsize r.
Proof. by destruct r; intros [= <-]; vm_compute. Qed.
Lemma clean_simple_run ps a s : wf_elem (elem s) -> clears s a ps -> exists s', clean_simple a s = Ok (pdPASS, s') /\ cleaned ps s s'.
Proof.
  intros W [c r n Hr H1 H2 Hn|c r l h Hr H1 H2 H3 Hn|i off e Hi H1 H2 He]; unfold clean_simple.
  - destruct (coil_region_ok r c Hr) as [R S]. destruct (cleaned_bit r n s W R) as (s' & E & D); [lia|lia|]. exists s'. split; [|done].
    assert (Eo : clean_output (si_code (SI_OUT c)) a s = Ok (tt, s')).
    { assert (clean_output (si_code (SI_OUT c)) a = (n ← GET_PU8_DATA a; clean_coil r n)) as -> by (by destruct r; revert Hr; intros [= <-]).
      by rewrite (bind_run _ _ _ _ _ H2). }
    rewrite (bind_run _ _ _ _ _ H1), (bind_run _ _ _ _ _ Eo). unfold clean_edge.
    rewrite (bind_run _ _ _ _ _ (PU8_code _ s s' _ ltac:(by destruct (cd_inert _ _ _ D)) H1)). by destruct r; revert Hr; intros [= <-].
  - destruct (coil_region_ok r c Hr) as [R S]. pose proof (u16_range (Z.shiftl h 4 + l)) as U.
    destruct (cleaned_bit r _ s W R U Hn) as (s' & E & D). exists s'. split; [|done].
    assert (Eo : clean_output (si_code (SI_OUT_EXT c)) a s = Ok (tt, s')).
    { assert (clean_output (si_code (SI_OUT_EXT c)) a = (h ← GET_PU16_DATA (a + 2); l ← GET_PU8_DATA a; clean_coil r (u16 (Z.shiftl h 4 + l)))) as ->
        by (by destruct r; revert Hr; intros [= <-]).
      by rewrite (bind_run _ _ _ _ _ H2), (bind_run _ _ _ _ _ H3). }
    rewrite (bind_run _ _ _ _ _ H1), (bind_run _ _ _ _ _ Eo). unfold clean_edge.
    rewrite (bind_run _ _ _ _ _ (PU8_code _ s s' _ ltac:(by destruct (cd_inert _ _ _ D)) H1)). by destruct r; revert Hr; intros [= <-].
  - destruct (edge_off_run e s He) as (l & E & L). exists (with_eued l s). split.
    + assert (Eo : clean_output (si_code i) a s = Ok (tt, s)) by (by destruct i; revert Hi; intros [= <-]).
      rewrite (bind_run _ _ _ _ _ H1), (bind_run _ _ _ _ _ Eo). unfold clean_edge. rewrite (bind_run _ _ _ _ _ H1).
      assert (Ee : (n ← GET_PU16_DATA (a + off); edge_off n) s = Ok (tt, with_eued l s)) by (by rewrite (bind_run _ _ _ _ _ H2)).
      refine (bind_run _ _ _ _ _ _). destruct i; revert Hi; intros [= <-]; exact Ee.
    + by apply cleaned_none.
Qed.
(** Timers. *)
Lemma cleaned_wr r i v s : wf_elem (elem s) -> r ∈ timer_words -> 0 <= i < rsize r -> exists s', wr r i v s = Ok (tt, s') /\ cleaned [] s s'.
Proof.
  intros W Hr Hi. destruct (wr_dev s W r i v Hi) as (s' & E & W' & T & _). exists s'. split; [done|].
  apply (cleaned_touch (PReg r)); [done|done|by intros q [= <-]].
Qed.
Lemma cleaned_status i f s : wf_elem (elem s) -> 0 <= i < T_RANG -> exists s', wr_t_status i f s = Ok (tt, s') /\ cleaned [] s s'.
Proof. intros W Hi. destruct (wr_t_dev s W i f Hi) as (t & s' & _ & E & W' & T & _). exists s'. split; [done|]. by apply (cleaned_touch PT). Qed.
Lemma reset_timer_run n s : wf_elem (elem s) -> 0 <= n < T_RANG -> exists s', plc_reset_one_timer n s = Ok (tt, s') /\ cleaned [(T_ELEMENT, n)] s s'.
Proof.
  intros W Hn. assert (Ht : forall r, r ∈ timer_words -> 0 <= n < rsize r).
  { intros r Hr. unfold timer_words in Hr. rewrite !elem_of_cons in Hr. by destruct Hr as [->|[->|[->|Hr]]]; [..|by apply elem_of_nil in Hr]. }
  destruct (cleaned_status n (fun _ => t_status0) s W Hn) as (s1 & E1 & D1).
  destruct (cleaned_bit T_ELEMENT n s1 (cd_wf _ _ _ D1)) as (s2 & E2 & D2); [by split|unfold T_RANG in Hn; lia|unfold T_RANG in Hn; change (16 * rsize T_ELEMENT) with 512; lia|].
  destruct (cleaned_wr T_CURRENT n 0 s2 (cd_wf _ _ _ D2)) as (s3 & E3 & D3); [by apply (bool_decide_unpack _)|by apply Ht, (bool_decide_unpack _)|].
  destruct (cleaned_wr T_DEST n 0 s3 (cd_wf _ _ _ D3)) as (s4 & E4 & D4); [by apply (bool_decide_unpack _)|by apply Ht, (bool_decide_unpack _)|].
  destruct (cleaned_wr T_START n (tick s4) s4 (cd_wf _ _ _ D4)) as (s5 & E5 & D5); [by apply (bool_decide_unpack _)|by apply Ht, (bool_decide_unpack _)|].
  exists s5. split; [|exact (cleaned_app _ _ _ _ _ D1 (cleaned_app _ _ _ _ _ D2 (cleaned_app _ _ _ _ _ D3 (cleaned_app _ _ _ _ _ D4 D5))))].
  unfold plc_reset_one_timer. by rewrite (bind_run _ _ _ _ _ E1), (bind_run _ _ _ _ _ E2), (bind_run _ _ _ _ _ E3), (bind_run _ _ _ _ _ E4).
Qed.
Lemma clean_complex_run clean ps a s : wf_elem (elem s) -> resets s a ps -> exists s', clean_complex clean a s = Ok (pdPASS, s') /\ cleaned ps s s'.
Proof.
  intros W [op n Hop H1 H2 Hn|n H1 H2 Hn|n H1 H2 Hn Hd|op H1 Ho]; unfold clean_complex; rewrite (bind_run _ _ _ _ _ H1).
  - destruct (reset_timer_run n s W Hn) as (s' & E & D). exists s'. split; [|done].
    destruct Hop as [-> | ->]; [change (CI_TON =? CI_TON) with true|change (CI_TOF =? CI_TON) with false; change (CI_TOF =? CI_TONR) with false; change (CI_TOF =? CI_TOF) with true];
      cbn match; by rewrite (bind_run _ _ _ _ _ H2), (bind_run _ _ _ _ _ E).
  - destruct (cleaned_status n (set_t_Enable 0) s W Hn) as (s' & E & D). exists s'. split; [|done].
    change (CI_TONR =? CI_TON) with false. change (CI_TONR =? CI_TONR) with true. cbn match.
    by rewrite (bind_run _ _ _ _ _ H2), (bind_run _ _ _ _ _ E).
  - destruct (set_lm_run (nested s) n 0 s W Hd Hn ltac:(lia)) as (s' & E & [B _] & W').
    assert (T : inert s s' /\ env s' = env s /\ gtp_EuEd s' = gtp_EuEd s).
    { assert (K : Respects (fun s s' => inert s s' /\ env s' = env s /\ gtp_EuEd s' = gtp_EuEd s) (plc_set_lm_element_value (nested s) n 0)).
      { assert (PreOrder (fun s s' : plc_st => inert s s' /\ env s' = env s /\ gtp_EuEd s' = gtp_EuEd s)).
        { split; [intros x; by split_and!|]. intros x y z (A1 & A2 & A3) (B1 & B2 & B3). split_and!; [by transitivity y|congruence|congruence]. }
        assert (forall r i v, Respects (fun s s' => inert s s' /\ env s' = env s /\ gtp_EuEd s' = gtp_EuEd s) (wr r i v)).
        { intros r i v x y z E0. apply wr_touches in E0 as [_ _ _ I [V G]]. by split_and!. }
        unfold plc_set_lm_element_value. apply _. }
      exact (K _ _ _ E). }
    destruct T as (I & V & G). exists s'. split.
    + change (CI_OUT_LM =? CI_TON) with false. change (CI_OUT_LM =? CI_TONR) with false. change (CI_OUT_LM =? CI_TOF) with false.
      change (CI_OUT_LM =? CI_OUT_LM) with true. cbn match.
      rewrite (bind_run _ _ _ _ _ H2). unfold mbind at 1, M_bind at 1, get_nested at 1, gets at 1. fold (nested s). by rewrite (bind_run _ _ _ _ _ E).
    + split; [done..|by rewrite G|]. intros q k Hk _. cbn. rewrite B by done. repeat case_decide; set_solver.
  - exists s. split; [|by apply cleaned_none].
    rewrite !not_elem_of_cons in Ho. destruct Ho as (N1 & N2 & N3 & N4 & N5 & N6 & _). by rewrite !(proj2 (Z.eqb_neq _ _)) by done.
Qed.
(** The entries of a list, one after the other. *)
Lemma each_cleaned (f : Z -> Mc Z) (P : plc_st -> Z -> list (region * Z) -> Prop) l pss :
  (forall s a ps, wf_elem (elem s) -> P s a ps -> exists s', f a s = Ok (pdPASS, s') /\ cleaned ps s s') ->
  (forall s s' a ps, inert s s' -> length (gtp_EuEd s') = length (gtp_EuEd s) -> P s a ps -> P s' a ps) ->
  forall s, wf_elem (elem s) -> Forall2 (P s) l pss -> exists s', each f l s = Ok (pdPASS, s') /\ cleaned (concat pss) s s'.
Proof.
  intros Hf HP. revert pss. induction l as [|a l IH]; intros pss s W H.
  - apply Forall2_nil_inv_l in H as ->. exists s. split; [done|by apply cleaned_none].
  - apply Forall2_cons_inv_l in H as (ps & pss' & Ha & Hl & ->). destruct (Hf s a ps W Ha) as (s1 & E1 & D1).
    destruct (IH pss' s1 (cd_wf _ _ _ D1)) as (s2 & E2 & D2).
    { eapply Forall2_impl; [exact Hl|]. intros x y. apply HP; [apply (cd_inert _ _ _ D1)|apply (cd_edges _ _ _ D1)]. }
    exists s2. cbn [each concat]. rewrite (bind_run _ _ _ _ _ E1). split; [done|exact (cleaned_app _ _ _ _ _ D1 D2)].
Qed.
Lemma rst_edge_run e b s : GET_EDGE_VALUE e s = Ok (b, s) -> exists l, RST_EDGE_VALUE e s = Ok (tt, with_eued l s) /\ length l = length (gtp_EuEd s).
Proof.
  unfold GET_EDGE_VALUE, RST_EDGE_VALUE, rd_edge, wr_edge, mbind, M_bind. destruct (zlookup _ _) as [c|] eqn:Hc; [|done].
  intros _. pose proof (zlookup_lt _ _ _ Hc) as Hl. eexists. rewrite (zupdate_lt _ _ _ Hl). split; [done|apply length_insert].
Qed.

(** C12: when a master-control block loses its condition, MC switches off what
    the instructions recorded for the block have on: the coils of its outputs,
    the bits of its timers TON and TOF and the local bits of its OUT LM; it
    changes no other bit outside the numbers of the timers, and goes on behind
    the block. The block may hold edge instructions, TONR and devices with
    nothing to clear; blocks with a BOUT or a CALL in them are left out. *)
Theorem mc_block_off fuel pc e off b pss pcs s :
  wf_elem (elem s) -> mcp_PC (env s) = pc -> get_pf (mlv_InPF (env s)) = false ->
  GET_PU16_DATA (pc + 6) s = Ok (e, s) -> GET_PU16_DATA (pc + 8) s = Ok (off, s) -> GET_EDGE_VALUE e s = Ok (true, s) ->
  List.find (fun b => mcp_McUCodePc b =? pc) (mc_mcr (flow s)) = Some b ->
  Forall2 (clears s) (mc_SimpInsHead b) pss -> Forall2 (resets s) (mc_CompInsHead b) pcs ->
  exists s', run_ci_mc_ins fuel s = Ok (pdPASS, s') /\ wf_elem (elem s') /\ mcp_PC (env s') = pc + off /\
    forall q k, 0 <= k -> q ∉ timer_words ->
      bit_of (mem s') q k = if decide ((q, k) ∈ concat pss ++ concat pcs) then Some false else bit_of (mem s) q k.
Proof.
  intros W P F He Ho Hv Hb Hs Hc. assert (Epc : get_PC s = Ok (pc, s)) by (unfold get_PC, gets; by rewrite P).
  assert (Epf : GET_POWER_FLOW s = Ok (false, s)) by (unfold GET_POWER_FLOW, gets; by rewrite F).
  destruct (rst_edge_run e true s Hv) as (l & El & Ll). set (s1 := with_eued l s).
  destruct (each_cleaned clean_simple clears (mc_SimpInsHead b) pss) with (s := s1) as (s2 & E2 & D2).
  { intros s3 a ps. apply clean_simple_run. } { intros s3 s4 a ps. apply clears_inert. } { done. }
  { eapply Forall2_impl; [exact Hs|]. intros x y. by apply clears_inert. }
  destruct (each_cleaned (clean_complex (plc_call_ins_clean_element fuel)) resets (mc_CompInsHead b) pcs) with (s := s2) as (s3 & E3 & D3).
  { intros s3 a ps. apply clean_complex_run. } { intros s3 s4 a ps I _. by apply resets_inert. } { apply (cd_wf _ _ _ D2). }
  { eapply Forall2_impl; [exact Hc|]. intros x y. apply resets_inert. transitivity s1; [done|apply (cd_inert _ _ _ D2)]. }
  assert (D := cleaned_app _ _ _ _ _ D2 D3). exists (with_PC (pc + off) s3). split_and!; [|exact (cd_wf _ _ _ D)|done|exact (cd_bits _ _ _ D)].
  unfold run_ci_mc_ins. rewrite (bind_run _ _ _ _ _ Epc), (bind_run _ _ _ _ _ He), (bind_run _ _ _ _ _ Epf).
  rewrite (bind_run _ _ _ _ _ Hv), (bind_run _ _ _ _ _ El). fold s1.
  assert (Epc1 : get_PC s1 = Ok (pc, s1)) by exact (f_equal (fun x => Ok (x, s1)) P).
  assert (Em : plc_mc_ins_clean_element fuel s1 = Ok (pdPASS, s3)).
  { unfold plc_mc_ins_clean_element. rewrite (bind_run _ _ _ _ _ Epc1). unfold gets at 1. unfold mbind at 1, M_bind at 1.
    change (mc_mcr (flow s1)) with (mc_mcr (flow s)). rewrite Hb. unfold clean_block. by rewrite (bind_run _ _ _ _ _ E2). }
  rewrite (bind_run _ _ _ _ _ Em). change (pdPASS =? pdPASS) with true. cbn match.
  assert (Epc3 : get_PC s3 = Ok (pc, s3)) by (unfold get_PC, gets; rewrite (cd_env _ _ _ D); exact (f_equal (fun x => Ok (x, s3)) P)).
  unfold jump_over. unfold mbind at 1, M_bind at 1. rewrite (bind_run _ _ _ _ _ Epc3).
  rewrite (bind_run _ _ _ _ _ (PU16_code _ s s3 _ ltac:(by destruct (cd_inert _ _ _ D)) Ho)). unfold add_PC, modify.
  rewrite (cd_env _ _ _ D). change (env s1) with (env s). by rewrite P.
Qed.
(** MC with the edge number 3 over OUT M7, OUT Y9, EU 40 and TON T2. *)
Definition mc_block_demo : plc_mc_mcr_ins_list_st := {| mcp_McUCodePc := 0; mc_SimpInsHead := [10; 12; 14]; mc_CompInsHead := [18] |}.
Definition mc_demo : plc_st :=
  let s := with_InPF 0 (st0 [0x1C; 0xF0; 0; 0; 0; 0; 3; 0; 28; 0; 7; 0x75; 9; 0x71; 0; 0xA7; 40; 0; 0x14; 0xF0; 0; 0; 2; 0; 0; 0; 0; 0; 0x1D; 0xF0]) in
  let s := with_eued (replicate 256 {| msv_IsInit := 0; msv_Value := 8 |}) s in
  with_flow (let f := flow s in {| call_info := call_info f; for_next := for_next f; sfc_status := sfc_status f;
    sbr_list := sbr_list f; stl_list := stl_list f; mc_mcr := [mc_block_demo];
    mc_NestedLevel := mc_NestedLevel f; ssv_MinAlarmSElement := ssv_MinAlarmSElement f |}) s.
Lemma mc_demo_clears : Forall2 (clears mc_demo) [10; 12; 14] [[(M_ELEMENT, 7)]; [(Y_ELEMENT, 9)]; []].
Proof.
  repeat constructor.
  - by apply (clears_output _ _ cM); zconc.
  - by apply (clears_output _ _ cY); zconc.
  - by apply (clears_edge _ _ SI_EU 2 40); zconc.
Qed.
Lemma mc_demo_resets : Forall2 (resets mc_demo) [18] [[(T_ELEMENT, 2)]].
Proof. repeat constructor. apply (resets_timer _ _ CI_TON); [by left|zconc..]. Qed.
Lemma mc_block_off_witness : exists s', run_ci_mc_ins 1 mc_demo = Ok (pdPASS, s') /\ mcp_PC (env s') = 28 /\
  bit_of (mem s') M_ELEMENT 7 = Some false /\ bit_of (mem s') T_ELEMENT 2 = Some false.
Proof.
  destruct (mc_block_off 1 0 3 28 mc_block_demo [[(M_ELEMENT, 7)]; [(Y_ELEMENT, 9)]; []] [[(T_ELEMENT, 2)]] mc_demo) as (s' & E & _ & P & B);
    [exact wf_elem0|zconc..|exact mc_demo_clears|exact mc_demo_resets|]. exists s'. split_and!; [exact E|exact P|..];
    (rewrite B; [reflexivity|lia|by apply (bool_decide_unpack _)]).
Defined.
