(* ===== verification/StringFacts.v ===== *)
(** * Facts about the string instructions

    Strings in D registers, blocks of heap memory as sequences of bytes, and
    what the instructions on strings make of them. *)
From stdpp Require Import base list numbers sets.
From S2P Require Import Prelude Element Machine ParseAddr ParseAddrFacts Device DataIns Arith Strings RegFacts Bytes.

(** ** Strings in registers *)
(** Character [i] of the registers from [n] on. *)
Definition d_char (n i : Z) (s : plc_st) : Z := u8 (Z.shiftr (cell D_ELEMENT (n + i / 2) s) (8 * (i mod 2))).
Definition char_of (l : list Z) (i : Z) : Z := default 0 (zlookup l i).
(** The registers from [n] on hold the characters [l] and a zero byte. *)
Record holds_string (n : Z) (l : list Z) (s : plc_st) : Prop := {
  hs_chars i : 0 <= i < Z.of_nat (length l) -> d_char n i s = char_of l i;
  hs_nonzero : Forall (fun c => 0 < c < 256) l;
  hs_end : d_char n (Z.of_nat (length l)) s = 0;
  hs_room : 0 <= n /\ n + Z.of_nat (length l) / 2 < D_RANG }.

Lemma char_nonzero l i : Forall (fun c => 0 < c < 256) l -> 0 <= i < Z.of_nat (length l) -> 0 < char_of l i < 256.
Proof.
  intros F Hi. unfold char_of. destruct (proj2 (zlookup_is_Some l i) Hi) as [c Hc]. rewrite Hc.
  apply zlookup_Some in Hc as [_ Hc]. exact (Forall_lookup_1 _ _ _ _ F Hc).
Qed.
Lemma low_char w : Z.land w 0xFF = u8 (Z.shiftr w 0).
Proof. rewrite Z.shiftr_0_r. change 0xFF with (Z.ones 8). by rewrite Z.land_ones. Qed.
Lemma high_char w : Z.land (Z.shiftr w 8) 0xFF = u8 (Z.shiftr w 8).
Proof. change 0xFF with (Z.ones 8). by rewrite Z.land_ones. Qed.
Lemma even_half i : 0 <= i -> i mod 2 = 0 -> i / 2 = Z.quot i 2 /\ (i + 1) / 2 = i / 2 /\ (i + 1) mod 2 = 1.
Proof.
  intros Hi H. rewrite Z.quot_div_nonneg by lia. split_and!; [done|Z.to_euclidean_division_equations; lia..].
Qed.
Lemma d_char_even n i s : 0 <= i -> i mod 2 = 0 ->
  Z.land (cell D_ELEMENT (n + Z.quot i 2) s) 0xFF = d_char n i s /\
  Z.land (Z.shiftr (cell D_ELEMENT (n + Z.quot i 2) s) 8) 0xFF = d_char n (i + 1) s.
Proof.
  intros Hi H. destruct (even_half i Hi H) as (E1 & E2 & E3). unfold d_char. rewrite E2, E3, H, E1, low_char, high_char.
  done.
Qed.

(** The loop that measures a string. *)
Section length.
Context (wrap : Z -> Z) (a m n : Z) (l : list Z) (s : plc_st).
Context (W : wf_elem (elem s)) (O : operand a s m ADDR_D n) (H : holds_string n l s).
Context (Hl : Z.of_nat (length l) < 2 ^ 15) (Hw : forall i, 0 <= i <= Z.of_nat (length l) -> wrap i = i).
Lemma str_step_run i : 0 <= i <= Z.of_nat (length l) -> i mod 2 = 0 -> str_step wrap a i s =
  Ok (if d_char n i s =? 0 then inr (pdPASS, i)
      else if d_char n (i + 1) s =? 0 then inr (pdPASS, wrap (i + 1)) else inl (wrap (wrap (i + 1) + 1)), s).
Proof.
  intros Hi Hm. unfold str_step.
  destruct (even_half i ltac:(lia) Hm) as (E & _). destruct (d_char_even n i s ltac:(lia) Hm) as (C1 & C2).
  assert (R := hs_room _ _ _ H). assert (i / 2 <= Z.of_nat (length l) / 2) by (apply Z.div_le_mono; lia).
  assert (0 <= i / 2 <= i) by (Z.to_euclidean_division_equations; lia).
  rewrite u16_id by (rewrite <- E; lia).
  rewrite (bind_run _ _ _ _ _ (d_get a m n (Z.quot i 2) s W O ltac:(rewrite <- E; lia))).
  cbn [fst snd head]. change (pdPASS =? pdPASS) with true. cbv iota. rewrite bind_some, C1, C2.
  by destruct (d_char n i s =? 0).
Qed.
Lemma str_len_from fuel i : 0 <= i <= Z.of_nat (length l) -> i mod 2 = 0 -> Z.of_nat (length l) - i < Z.of_nat fuel ->
  loop fuel (str_step wrap a) i s = Ok ((pdPASS, Z.of_nat (length l)), s).
Proof.
  revert i. induction fuel as [|fuel IH]; intros i Hi Hm Hf; [lia|]. cbn [loop].
  rewrite (bind_run _ _ _ _ _ (str_step_run i Hi Hm)).
  destruct (decide (i = Z.of_nat (length l))) as [->|Hne]; [by rewrite (hs_end _ _ _ H)|].
  assert (K : forall j, i <= j < Z.of_nat (length l) -> d_char n j s =? 0 = false).
  { intros j Hj. rewrite (hs_chars _ _ _ H j) by lia. pose proof (char_nonzero l j (hs_nonzero _ _ _ H) ltac:(lia)). lia. }
  rewrite (K i) by lia. rewrite (Hw (i + 1)) by lia.
  destruct (decide (i + 1 = Z.of_nat (length l))) as [Hx|Hne']; [by rewrite Hx, (hs_end _ _ _ H)|].
  rewrite (K (i + 1)), Hw by lia. apply IH; [lia| |lia]. replace (i + 1 + 1) with (i + 1 * 2) by lia. by rewrite Z.mod_add.
Qed.
Lemma str_len_d fuel : (length l < fuel)%nat -> str_len wrap fuel a s = Ok ((pdPASS, Z.of_nat (length l)), s).
Proof. intros Hf. apply str_len_from; [lia|done|lia]. Qed.
End length.

(** ** Blocks *)
(** Character [k] of a row of words. *)
Definition char_at (ws : list Z) (k : Z) : Z := u8 (Z.shiftr (char_of ws (k / 2)) (8 * (k mod 2))).
Lemma put8_run b i v (s : plc_st) : 0 <= i < Z.of_nat (length b) ->
  exists b', put8 b i v s = Ok (b', s) /\ patched b b' i 1 (fun _ => u8 v).
Proof.
  intros Hi. unfold put8. rewrite zupdate_lt by done. eexists. split; [done|]. split.
  - apply length_insert.
  - intros F. apply Forall_insert; [done|]. unfold byte_ok. auto with width.
  - intros j. rewrite byte_insert by done. repeat case_decide; done || lia.
Qed.
Lemma put16_run b i w (s : plc_st) : 0 <= i -> i + 2 <= Z.of_nat (length b) ->
  exists b', put16 b i w s = Ok (b', s) /\ patched b b' i 2 (char_at [w]).
Proof.
  intros Hi Hb. unfold put16. destruct (put8_run b i w s ltac:(lia)) as (b1 & E1 & P1).
  rewrite (bind_run _ _ _ _ _ E1).
  destruct (put8_run b1 (i + 1) (Z.shiftr w 8) s) as (b2 & E2 & P2); [rewrite (pa_length _ _ _ _ _ P1); lia|].
  exists b2. split; [done|]. refine (patched_app _ _ _ _ 1 1 _ _ _ _ _ P1 P2 _); [lia..|].
  intros j Hj. assert (j = 0 \/ j = 1) as [-> | ->] by lia; cbn; unfold char_at; cbn; by rewrite ?Z.shiftr_0_r.
Qed.
Lemma char_at_cons w ws k : 0 <= k -> char_at (w :: ws) k = if decide (k < 2) then char_at [w] k else char_at ws (k - 2).
Proof.
  intros Hk. unfold char_at, char_of. case_decide.
  - assert (k = 0 \/ k = 1) as [-> | ->] by lia; done.
  - replace (k / 2) with (1 + (k - 2) / 2) by (Z.to_euclidean_division_equations; lia).
    replace (k mod 2) with ((k - 2) mod 2) by (Z.to_euclidean_division_equations; lia).
    assert (0 <= (k - 2) / 2) by (apply Z.div_pos; lia).
    do 3 f_equal. unfold zlookup. rewrite !decide_True by lia. by replace (Z.to_nat (1 + (k - 2) / 2)) with (S (Z.to_nat ((k - 2) / 2))) by lia.
Qed.
Lemma put_words_run ws : forall b i (s : plc_st), 0 <= i -> i + 2 * Z.of_nat (length ws) <= Z.of_nat (length b) ->
  exists b', put_words b i ws s = Ok (b', s) /\ patched b b' i (2 * Z.of_nat (length ws)) (char_at ws).
Proof.
  induction ws as [|w ws IH]; intros b i s Hi Hb; cbn [put_words length].
  { exists b. split; [done|]. split; [done..|]. intros j. rewrite decide_False by lia. done. }
  cbn [length] in Hb. destruct (put16_run b i w s Hi ltac:(lia)) as (b1 & E1 & P1). rewrite (bind_run _ _ _ _ _ E1).
  destruct (IH b1 (i + 2) s) as (b2 & E2 & P2); [lia|rewrite (pa_length _ _ _ _ _ P1); lia|].
  exists b2. split; [done|]. replace (2 * Z.of_nat (S (length ws))) with (2 + 2 * Z.of_nat (length ws)) by lia.
  refine (patched_app _ _ _ _ _ _ _ _ _ _ _ P1 P2 _); [lia..|]. intros j Hj. apply char_at_cons. lia.
Qed.
Lemma words_of_run n : forall b, Forall byte_ok b -> (2 * n <= length b)%nat ->
  exists ws, words_of n b = Some ws /\ length ws = n /\ Forall word_ok ws /\
    forall k, 0 <= k < 2 * Z.of_nat n -> char_at ws k = byte_at b k.
Proof.
  induction n as [|n IH]; intros b F Hb.
  { exists []. split_and!; [by destruct b|done|done|]. intros k Hk. lia. }
  destruct b as [|lo [|hi b]]; cbn [length] in Hb; [lia..|].
  apply Forall_cons in F as [Flo F]. apply Forall_cons in F as [Fhi F].
  destruct (IH b F ltac:(lia)) as (ws & E & L & Fw & C). unfold byte_ok in *.
  assert (S8 : Z.shiftl hi 8 = hi * 2 ^ 8) by (by rewrite Z.shiftl_mul_pow2).
  cbn [words_of]. rewrite E. eexists. split; [done|]. split_and!; [cbn; by rewrite L|constructor; [unfold word_ok; lia|done]|].
  intros k Hk. rewrite char_at_cons by lia. case_decide as D.
  - assert (k = 0 \/ k = 1) as [-> | ->] by lia; [change (u8 (Z.shiftr (lo + Z.shiftl hi 8) 0) = lo)|change (u8 (Z.shiftr (lo + Z.shiftl hi 8) 8) = hi)];
      unfold u8; rewrite S8.
    + rewrite Z.shiftr_0_r, Z.mod_add by lia. by apply Z.mod_small.
    + rewrite Z.shiftr_div_pow2, Z.div_add, (Z.div_small lo) by lia. by apply Z.mod_small.
  - rewrite C by lia. unfold byte_at, zlookup. rewrite !decide_True by lia.
    by replace (Z.to_nat k) with (S (S (Z.to_nat (k - 2)))) by lia.
Qed.

(** ** Between registers and blocks *)
Lemma malloc_run n s : wf_elem (elem s) -> 0 < n -> exists b s', malloc n s = Ok (b, s') /\ stays s s' /\
  (forall i, cell D_ELEMENT i s' = cell D_ELEMENT i s) /\ Z.of_nat (length b) = n /\ Forall byte_ok b.
Proof.
  intros W Hn. unfold malloc. assert (n <=? 0 = false) as -> by lia. eexists _, _. split; [done|]. split_and!.
  - done.
  - done.
  - rewrite length_fmap, length_seq. lia.
  - apply Forall_fmap, Forall_forall. intros x _. unfold byte_ok. cbn. auto with width.
Qed.
Lemma row_char n cnt k s : 0 <= k < 2 * Z.of_nat cnt ->
  char_at ((fun i : nat => cell D_ELEMENT (n + Z.of_nat i) s) <$> seq 0 cnt) k = d_char n k s.
Proof.
  intros Hk. unfold char_at, d_char, char_of.
  assert (0 <= k / 2 < Z.of_nat cnt) by (Z.to_euclidean_division_equations; lia).
  unfold zlookup. rewrite decide_True by lia. rewrite list_lookup_fmap, lookup_seq_lt by lia. cbn.
  by replace (Z.of_nat (Z.to_nat (k / 2))) with (k / 2) by lia.
Qed.
Lemma get_into_d b i a m n cnt s : wf_elem (elem s) -> operand a s m ADDR_D n -> 0 <= cnt -> n + cnt <= D_RANG ->
  0 <= i -> i + 2 * cnt <= Z.of_nat (length b) ->
  exists b', get_into b i a 0 cnt s = Ok ((pdPASS, b'), s) /\ patched b b' i (2 * cnt) (fun k => d_char n k s).
Proof.
  intros W O Hc Hn Hi Hb. pose proof (op_n_range _ _ _ _ _ O). unfold D_RANG in Hn. unfold get_into.
  rewrite (u16_id cnt) by lia. change (u16 0) with 0.
  rewrite (bind_run _ _ _ _ _ (d_row a m n (Z.to_nat cnt) s W O ltac:(unfold D_RANG; lia))). cbn [fst snd].
  set (ws := _ <$> _). assert (L : Z.of_nat (length ws) = cnt) by (unfold ws; rewrite length_fmap, length_seq; lia).
  destruct (put_words_run ws b i s Hi ltac:(lia)) as (b' & E & P). rewrite L in P.
  exists b'. rewrite (bind_run _ _ _ _ _ E). split; [done|]. destruct P as [P1 P2 P3]. split; [done..|].
  intros j. rewrite P3. case_decide; [|done]. apply row_char. lia.
Qed.
Lemma d_write_row a m n ws s : wf_elem (elem s) -> operand a s m ADDR_D n -> n + Z.of_nat (length ws) <= D_RANG ->
  Forall word_ok ws ->
  exists s', save_word a ws 0 s = Ok ((pdPASS, ws), s') /\ stays s s' /\
    forall j, cell D_ELEMENT j s' = if decide (n <= j < n + Z.of_nat (length ws)) then char_of ws (j - n) else cell D_ELEMENT j s.
Proof.
  intros W O Hn F. pose proof (op_n_range _ _ _ _ _ O). unfold save_word.
  rewrite (bind_run _ _ _ _ _ (op_t _ _ _ _ _ O)), addr_decode_code.
  cbn [save_word_knz save_word_indexed save_word_direct]. unfold put_words_direct.
  rewrite (bind_run _ _ _ _ _ (direct_index_run _ _ _ _ _ O 0)), Z.add_0_r, u16_id by lia. unfold unshifted. clear O.
  enough (E : exists s', write_seq (wr D_ELEMENT) D_RANG 1 n ws s = Ok (pdPASS, s') /\ stays s s' /\ forall j,
    cell D_ELEMENT j s' = if decide (n <= j < n + Z.of_nat (length ws)) then char_of ws (j - n) else cell D_ELEMENT j s).
  { destruct E as (s' & E & S). exists s'. by rewrite (bind_run _ _ _ _ _ E). }
  revert n s W Hn H. induction F as [|w ws Hw F IH]; intros n s W Hn H; cbn [write_seq length] in *.
  { exists s. split_and!; [done|by apply stays_refl|]. intros j. rewrite decide_False by lia. done. }
  assert (n <? D_RANG = true) as -> by lia.
  assert (Hr : 0 <= n < rsize D_ELEMENT) by (change (rsize D_ELEMENT) with D_RANG; lia).
  rewrite (bind_run _ _ _ _ _ (wr_upd D_ELEMENT n w s W Hr)). rewrite (u16_id (n + 1)) by (unfold D_RANG in Hn; lia).
  assert (S1 := stays_upd n w s W ltac:(lia)).
  destruct (IH (n + 1) (upd D_ELEMENT n w s) (proj1 S1)) as (s' & E & S & C); [lia|unfold D_RANG in Hn; lia|].
  exists s'. split_and!; [done|exact (stays_trans _ _ _ S1 S)|]. intros j. rewrite C, (d_upd n j w s) by (done || lia).
  unfold char_of. repeat case_decide; try lia; try done; subst.
  - unfold zlookup. rewrite !decide_True by lia. by replace (Z.to_nat (j - n)) with (Datatypes.S (Z.to_nat (j - (n + 1)))) by lia.
  - by rewrite Z.sub_diag.
Qed.
Lemma save_buffer_d a m n b cnt s : wf_elem (elem s) -> operand a s m ADDR_D n -> n + cnt <= D_RANG -> 0 <= cnt ->
  Forall byte_ok b -> 2 * cnt <= Z.of_nat (length b) ->
  exists s', save_buffer a b cnt s = Ok (pdPASS, s') /\ stays s s' /\
    (forall k, 0 <= k < 2 * cnt -> d_char n k s' = byte_at b k) /\
    (forall j, j < n \/ n + cnt <= j -> cell D_ELEMENT j s' = cell D_ELEMENT j s).
Proof.
  intros W O Hn Hc F Hb. pose proof (op_n_range _ _ _ _ _ O). unfold save_buffer. rewrite u16_id by (unfold D_RANG in Hn; lia).
  destruct (words_of_run (Z.to_nat cnt) b F ltac:(lia)) as (ws & E & L & Fw & C). rewrite E.
  destruct (d_write_row a m n ws s W O ltac:(lia) Fw) as (s' & E' & S & D). rewrite bind_some.
  exists s'. rewrite (bind_run _ _ _ _ _ E'). split_and!; [done|done| |].
  - intros k Hk. rewrite <- C by lia. unfold d_char, char_at.
    assert (0 <= k / 2 < cnt) by (Z.to_euclidean_division_equations; lia).
    rewrite D, decide_True by lia. by replace (n + k / 2 - n) with (k / 2) by lia.
  - intros j Hj. rewrite D, decide_False by lia. done.
Qed.

(** ** The instructions *)
Lemma d_char_cells n k s s' : (forall i, cell D_ELEMENT i s' = cell D_ELEMENT i s) -> d_char n k s' = d_char n k s.
Proof. intros H. unfold d_char. by rewrite H. Qed.
Lemma is_str_d a m n s : operand a s m ADDR_D n -> is_str a s = Ok (false, s).
Proof. intros O. unfold is_str. by rewrite (bind_run _ _ _ _ _ (op_t _ _ _ _ _ O)). Qed.
Lemma then_pass_run {A} (x : A) k s : then_pass (pdPASS, x) k s = k x s.
Proof. done. Qed.
(** STRLEN of a string in D registers stores the number of characters
    before the zero byte: the loop that measures it ends, and agrees with the
    string held. *)
Theorem strlen_counts fuel pc m n md d l s : flows_at pc s -> operand (pc + 2) s m ADDR_D n -> operand (pc + 6) s md ADDR_D d ->
  d < D_RANG -> holds_string n l s -> Z.of_nat (length l) < 2 ^ 15 - 1 -> (length l < fuel)%nat ->
  run_ci_strlen_ins fuel s = Ok (pdPASS, upd D_ELEMENT d (Z.of_nat (length l)) s).
Proof.
  intros F O Od Hd H Hl Hf. unfold run_ci_strlen_ins. rewrite (flows_powered pc _ _ F).
  rewrite (bind_run _ _ _ _ _ (str_len_d u16 (pc + 2) m n l s (proj1 F) O H ltac:(lia) ltac:(intros; apply u16_id; lia) fuel Hf)).
  rewrite then_pass_run. assert (32767 <=? Z.of_nat (length l) = false) as -> by lia.
  exact (d_save1 _ _ _ _ _ (proj1 F) Od Hd).
Qed.
(** STRMOV between D registers copies the string: the destination holds
    the same characters and a zero byte, whatever the heap block held before,
    also when source and destination overlap; only the words of the copy
    change. *)
Theorem strmov_copies fuel pc m n md d l s : flows_at pc s -> operand (pc + 2) s m ADDR_D n -> operand (pc + 6) s md ADDR_D d ->
  holds_string n l s -> Z.of_nat (length l) < 32 -> d + (Z.of_nat (length l) + 2) / 2 <= D_RANG -> (length l < fuel)%nat ->
  exists s', run_ci_strmov_ins fuel s = Ok (pdPASS, s') /\ holds_string d l s' /\
    forall j, j < d \/ d + (Z.of_nat (length l) + 2) / 2 <= j -> cell D_ELEMENT j s' = cell D_ELEMENT j s.
Proof.
  intros F O Od H Hl Hd Hf. set (len := Z.of_nat (length l)) in *. assert (0 <= len) by (unfold len; lia). assert (W := proj1 F). pose proof (op_n_range _ _ _ _ _ Od).
  assert (R := hs_room _ _ _ H). fold len in R.
  unfold run_ci_strmov_ins. rewrite (flows_powered pc _ _ F), (bind_run _ _ _ _ _ (is_str_d _ _ _ _ O)). cbv iota.
  assert (E0 : (rl ← str_len s16 fuel (pc + 2); mret (rl.1, (s16 (rl.2 + 1), 2))) s = Ok ((pdPASS, (len + 1, 2)), s)).
  { rewrite (bind_run _ _ _ _ _ (str_len_d s16 (pc + 2) m n l s W O H ltac:(lia) ltac:(intros; apply s16_small; lia) fuel Hf)).
    cbn [fst snd]. by rewrite s16_small by lia. }
  rewrite (bind_run _ _ _ _ _ E0), then_pass_run.
  assert (32 <? len + 1 = false) as -> by lia.
  destruct (malloc_run (len + 1 + 2) s W ltac:(lia)) as (b & s1 & E1 & S1 & C1 & L & Fb). rewrite (bind_run _ _ _ _ _ E1).
  assert (O1 := stays_operand _ _ _ _ _ _ S1 O).
  assert (Hq : Z.quot (len + 1) 2 = (len + 1) / 2) by (apply Z.quot_div_nonneg; lia). rewrite Hq.
  assert (Hh : 2 * ((len + 1) / 2) <= len + 1 /\ n + (len + 1) / 2 <= D_RANG) by (Z.to_euclidean_division_equations; lia).
  destruct (get_into_d b 0 (pc + 2) m n ((len + 1) / 2) s1 (proj1 S1) O1 ltac:(apply Z.div_pos; lia) ltac:(lia) ltac:(lia) ltac:(lia))
    as (b2 & E2 & P2).
  destruct (put8_run b2 (len + 1 - 1) 0 s1) as (b3 & E3 & P3); [rewrite (pa_length _ _ _ _ _ P2); lia|].
  assert (E4 : (c1 ← get_into b 0 (pc + 2) 0 ((len + 1) / 2);
    if c1.1 =? pdPASS then b' ← put8 c1.2 (len + 1 - 1) 0; mret (pdPASS, b') else mret c1) s1 = Ok ((pdPASS, b3), s1)).
  { rewrite (bind_run _ _ _ _ _ E2). cbn [fst snd]. change (pdPASS =? pdPASS) with true. cbv iota.
    by rewrite (bind_run _ _ _ _ _ E3). }
  rewrite (bind_run _ _ _ _ _ E4), then_pass_run.
  assert (Hq' : Z.quot (len + 1 + 1) 2 = (len + 2) / 2) by (rewrite Z.quot_div_nonneg by lia; f_equal; lia). rewrite Hq'.
  replace (pc + 4 + 2) with (pc + 6) by lia.
  destruct (save_buffer_d (pc + 6) md d b3 ((len + 2) / 2) s1 (proj1 S1) (stays_operand _ _ _ _ _ _ S1 Od) Hd
    ltac:(apply Z.div_pos; lia)) as (s' & E' & S' & C & K).
  { by apply P3, P2. }
  { rewrite (pa_length _ _ _ _ _ P3), (pa_length _ _ _ _ _ P2). Z.to_euclidean_division_equations; lia. }
  exists s'. split; [done|]. split; [|intros j Hj; rewrite K by done; apply C1].
  assert (B : forall i, 0 <= i <= len -> d_char d i s' = if decide (i = len) then 0 else d_char n i s).
  { intros i Hi. rewrite C by (Z.to_euclidean_division_equations; lia). rewrite (pa_byte _ _ _ _ _ P3), (pa_byte _ _ _ _ _ P2).
    destruct (decide (i = len)); [by rewrite decide_True by lia|]. rewrite decide_False by lia.
    rewrite decide_True by (Z.to_euclidean_division_equations; lia). rewrite Z.sub_0_r. by apply d_char_cells. }
  split.
  - intros i Hi. rewrite B, decide_False by lia. by apply (hs_chars _ _ _ H).
  - apply (hs_nonzero _ _ _ H).
  - fold len. by rewrite B, decide_True by lia.
  - fold len. split; [lia|]. Z.to_euclidean_division_equations; lia.
Qed.

(** What STRADD leaves of the joined string. *)
Definition joined (l : list Z) : list Z := if Z.rem (Z.of_nat (length l)) 2 =? 0 then take (length l / 2) l else l.
Lemma char_take k l i : 0 <= i < Z.of_nat k -> char_of (take k l) i = char_of l i.
Proof.
  intros Hi. unfold char_of, zlookup. rewrite !decide_True by lia.
  by rewrite lookup_take_lt by lia.
Qed.
Lemma char_app l1 l2 i : 0 <= i ->
  char_of (l1 ++ l2) i = if decide (i < Z.of_nat (length l1)) then char_of l1 i else char_of l2 (i - Z.of_nat (length l1)).
Proof.
  intros Hi. unfold char_of, zlookup. case_decide as D1; [|lia]. case_decide.
  - rewrite lookup_app_l by lia. done.
  - rewrite lookup_app_r, decide_True by lia. do 2 f_equal. lia.
Qed.
Lemma terminate_run b len (s : plc_st) : 0 <= len -> len + 2 <= Z.of_nat (length b) ->
  exists b', terminate b len s = Ok (b', s) /\ length b' = length b /\ (Forall byte_ok b -> Forall byte_ok b') /\
    byte_at b' (if Z.rem len 2 =? 0 then len / 2 else len) = 0 /\
    forall j, j < (if Z.rem len 2 =? 0 then len / 2 else len) -> byte_at b' j = byte_at b j.
Proof.
  intros Hl Hb. unfold terminate. destruct (Z.rem len 2 =? 0).
  - rewrite Z.quot_div_nonneg by lia. assert (0 <= len / 2 <= len) by (Z.to_euclidean_division_equations; lia).
    destruct (put16_run b (len / 2) 0 s) as (b' & E & [L F P]); [lia..|]. exists b'. split_and!; [done..| |].
    + rewrite P, decide_True, Z.sub_diag by lia. reflexivity.
    + intros j Hj. by rewrite P, decide_False by lia.
  - destruct (put8_run b len 0 s) as (b' & E & [L F P]); [lia|]. exists b'. split_and!; [done..| |].
    + by rewrite P, decide_True by lia.
    + intros j Hj. by rewrite P, decide_False by lia.
Qed.
Lemma stradd_length_d fuel a m n l s : wf_elem (elem s) -> operand a s m ADDR_D n -> holds_string n l s ->
  Z.of_nat (length l) <= 32 -> (length l < fuel)%nat ->
  stradd_length fuel a s = Ok ((pdPASS, (Z.of_nat (length l), 2)), s).
Proof.
  intros W O H Hl Hf. unfold stradd_length. rewrite (bind_run _ _ _ _ _ (is_str_d _ _ _ _ O)).
  by rewrite (bind_run _ _ _ _ _ (str_len_d s16 a m n l s W O H ltac:(lia) ltac:(intros; apply s16_small; lia) fuel Hf)).
Qed.
Lemma stradd_copy_d b i a m n l s : wf_elem (elem s) -> operand a s m ADDR_D n -> holds_string n l s ->
  0 <= i -> i + Z.of_nat (length l) + 1 <= Z.of_nat (length b) ->
  exists b', stradd_copy b i a (Z.of_nat (length l)) s = Ok ((pdPASS, b'), s) /\ length b' = length b /\
    (Forall byte_ok b -> Forall byte_ok b') /\
    (forall j, 0 <= j < Z.of_nat (length l) -> byte_at b' (i + j) = char_of l j) /\ (forall j, j < i -> byte_at b' j = byte_at b j).
Proof.
  intros W O H Hi Hb. set (len := Z.of_nat (length l)) in *. assert (0 <= len) by (unfold len; lia).
  assert (R := hs_room _ _ _ H). fold len in R. unfold stradd_copy. rewrite (bind_run _ _ _ _ _ (is_str_d _ _ _ _ O)).
  rewrite Z.quot_div_nonneg by lia.
  destruct (get_into_d b i a m n ((len + 1) / 2) s W O) as (b' & E & [L F P]);
    [apply Z.div_pos; lia|Z.to_euclidean_division_equations; lia|lia|Z.to_euclidean_division_equations; lia|].
  exists b'. split_and!; [done..| |].
  - intros j Hj. rewrite P, decide_True by (Z.to_euclidean_division_equations; lia).
    replace (i + j - i) with j by lia. apply (hs_chars _ _ _ H). unfold len in *. lia.
  - intros j Hj. by rewrite P, decide_False by lia.
Qed.
(** STRADD of two strings in D registers joins them when the joined
    length is odd; when it is even the terminator is written to half of the
    length, and the destination holds the first half of the joined string
    only. *)
Theorem stradd_joins fuel pc m1 n1 m2 n2 md d l1 l2 s : flows_at pc s ->
  operand (pc + 2) s m1 ADDR_D n1 -> operand (pc + 6) s m2 ADDR_D n2 -> operand (pc + 10) s md ADDR_D d ->
  holds_string n1 l1 s -> holds_string n2 l2 s -> Z.of_nat (length l1) <= 32 -> Z.of_nat (length l2) <= 32 ->
  d + (Z.of_nat (length (l1 ++ l2)) + 2) / 2 <= D_RANG -> (length l1 < fuel)%nat -> (length l2 < fuel)%nat ->
  exists s', run_ci_stradd_ins fuel s = Ok (pdPASS, s') /\ holds_string d (joined (l1 ++ l2)) s' /\
    forall j, j < d \/ d + (Z.of_nat (length (l1 ++ l2)) + 2) / 2 <= j -> cell D_ELEMENT j s' = cell D_ELEMENT j s.
Proof.
  intros F O1 O2 Od H1 H2 L1 L2 Hd F1 F2. assert (W := proj1 F). pose proof (op_n_range _ _ _ _ _ Od).
  set (len := Z.of_nat (length (l1 ++ l2))) in *.
  assert (El : len = Z.of_nat (length l1) + Z.of_nat (length l2)) by (unfold len; rewrite length_app; lia).
  unfold run_ci_stradd_ins. rewrite (flows_powered pc _ _ F).
  rewrite (bind_run _ _ _ _ _ (stradd_length_d fuel _ _ _ _ _ W O1 H1 L1 F1)), then_pass_run.
  assert (32 <? Z.of_nat (length l1) = false) as -> by lia. replace (pc + 4 + 2) with (pc + 6) by lia.
  rewrite (bind_run _ _ _ _ _ (stradd_length_d fuel _ _ _ _ _ W O2 H2 L2 F2)), then_pass_run.
  assert (32 <? Z.of_nat (length l2) = false) as -> by lia. rewrite <- El.
  destruct (malloc_run (len + 2) s W ltac:(lia)) as (b & s1 & E1 & S1 & C1 & L & Fb). rewrite (bind_run _ _ _ _ _ E1).
  assert (K : forall n l, holds_string n l s -> holds_string n l s1).
  { intros n l [A B C D]. split; [|done| |done]; intros; rewrite (d_char_cells _ _ _ _ C1); auto. }
  destruct (stradd_copy_d b 0 (pc + 2) m1 n1 l1 s1) as (b1 & E2 & La & Fa & Ca & _);
    [apply S1|by eapply stays_operand|by apply K|lia..|]. rewrite (bind_run _ _ _ _ _ E2), then_pass_run.
  destruct (stradd_copy_d b1 (Z.of_nat (length l1)) (pc + 6) m2 n2 l2 s1) as (b2 & E3 & Lb & Fb' & Cb & Cb');
    [apply S1|by eapply stays_operand|by apply K|lia..|]. rewrite (bind_run _ _ _ _ _ E3), then_pass_run.
  destruct (terminate_run b2 len s1) as (b3 & E4 & Lc & Fc & Ct & Cc); [lia..|]. rewrite (bind_run _ _ _ _ _ E4).
  assert (string_words len = (len + 2) / 2) as ->.
  { unfold string_words. destruct (Z.eqb_spec (Z.rem len 2) 0); rewrite Z.quot_div_nonneg by lia; [done|].
    Z.to_euclidean_division_equations; lia. }
  replace (pc + 6 + 2 + 2) with (pc + 10) by lia.
  destruct (save_buffer_d (pc + 10) md d b3 ((len + 2) / 2) s1 (proj1 S1) (stays_operand _ _ _ _ _ _ S1 Od) Hd
    ltac:(apply Z.div_pos; lia)) as (s' & E' & S' & C & N).
  { auto. }
  { rewrite Lc, Lb, La. Z.to_euclidean_division_equations; lia. }
  exists s'. split; [done|]. split; [|intros j Hj; rewrite N by done; apply C1].
  assert (B : forall i, 0 <= i < len -> i < (if Z.rem len 2 =? 0 then len / 2 else len) -> d_char d i s' = char_of (l1 ++ l2) i).
  { intros i Hi Ht. rewrite C, Cc by (try case_match; Z.to_euclidean_division_equations; lia). rewrite char_app by lia. case_decide.
    - rewrite Cb' by lia. exact (Ca i ltac:(lia)).
    - rewrite <- Cb by lia. f_equal. lia. }
  assert (Nz : Forall (fun c => 0 < c < 256) (l1 ++ l2)) by (apply Forall_app; split; [exact (hs_nonzero _ _ _ H1)|exact (hs_nonzero _ _ _ H2)]).
  unfold joined. fold len. destruct (Z.eqb_spec (Z.rem len 2) 0) as [Ev|Od'].
  - assert (Lt : Z.of_nat (length (take (length (l1 ++ l2) / 2) (l1 ++ l2))) = len / 2).
    { rewrite length_take. unfold len. rewrite Nat.min_l by (apply Nat.Div0.div_le_upper_bound; lia). by rewrite Nat2Z.inj_div. }
    split; rewrite ?Lt.
    + intros i Hi. rewrite B by (Z.to_euclidean_division_equations; lia). symmetry. apply char_take.
      rewrite <- Lt in Hi. rewrite length_take in Hi. lia.
    + by apply Forall_take.
    + rewrite C by (Z.to_euclidean_division_equations; lia). done.
    + split; [lia|]. Z.to_euclidean_division_equations; lia.
  - split.
    + intros i Hi. apply B; unfold len in *; lia.
    + done.
    + fold len. rewrite C by (Z.to_euclidean_division_equations; lia). done.
    + fold len. split; [lia|]. Z.to_euclidean_division_equations; lia.
Qed.
(** STRLEN of a constant whose two bytes are characters never returns: a
    constant reads the same at every offset, so no terminator comes. *)
Theorem strlen_constant_never_returns fuel pc m v s : flows_at pc s -> operand (pc + 2) s m ADDR_CONST v -> m < 2 ->
  u8 v <> 0 -> u8 (Z.shiftr v 8) <> 0 -> run_ci_strlen_ins fuel s = NoFuel.
Proof.
  intros F O Hm Hlo Hhi. unfold run_ci_strlen_ins. rewrite (flows_powered pc _ _ F).
  assert (E : forall i, str_step u16 (pc + 2) i s = Ok (inl (u16 (u16 (i + 1) + 1)), s)).
  { intros i. unfold str_step, get_word. unfold mbind at 1, M_bind at 1.
    rewrite (bind_run _ _ _ _ _ (op_t _ _ _ _ _ O)), addr_decode_code.
    cbn [get_word_knz get_word_indexed get_word_direct get_word_kn]. unfold get_word_const.
    rewrite (bind_run _ _ _ _ _ (op_m _ _ _ _ _ O)). assert (2 <=? m = false) as -> by lia.
    rewrite (bind_run _ _ _ _ _ (op_n _ _ _ _ _ O)). cbn [fst snd mret M_ret head]. change (pdPASS =? pdPASS) with true.
    cbv iota. rewrite bind_some, low_char, high_char, Z.shiftr_0_r.
    by destruct (Z.eqb_spec (u8 v) 0), (Z.eqb_spec (u8 (Z.shiftr v 8)) 0). }
  unfold mbind at 1, M_bind at 1. enough (L : forall f i, loop f (str_step u16 (pc + 2)) i s = NoFuel) by (unfold str_len; by rewrite L).
  induction f as [|f IH]; intros i; [done|]. cbn [loop]. rewrite (bind_run _ _ _ _ _ (E i)). apply IH.
Qed.

(** *** A program with strings *)
Definition string_ins (op n1 n2 d : Z) : plc_st :=
  upd D_ELEMENT 4 0x00 (upd D_ELEMENT 3 0x6463 (upd D_ELEMENT 2 0x0063 (upd D_ELEMENT 1 0x6261 (with_InPF (set_pf 0)
    (st0 [Z.land op 0xFF; 0xF2; 0; 0x11; n1; 0; 0; 0x11; n2; 0; 0; 0x11; d; 0]))))).
Lemma string_ins_flows op n1 n2 d : flows_at 0 (string_ins op n1 n2 d).
Proof. split_and!; [unfold string_ins; do 4 (apply upd_wf; [|zconc]); apply wf_elem0|done|done]. Qed.
Lemma string_ins_holds op n1 n2 d : holds_string 1 [0x61; 0x62; 0x63] (string_ins op n1 n2 d) /\
  holds_string 3 [0x63; 0x64] (string_ins op n1 n2 d).
Proof.
  split; split; try (repeat constructor; done); try zconc; cbn [length]; intros i Hi.
  - assert (i = 0 \/ i = 1 \/ i = 2) as [->|[->| ->]] by lia; vm_compute; reflexivity.
  - assert (i = 0 \/ i = 1) as [->| ->] by lia; vm_compute; reflexivity.
Qed.
Ltac d_operand := split; zconc.
Lemma strlen_counts_witness : run_ci_strlen_ins 9 (string_ins 0x91 1 9 0) = Ok (pdPASS, upd D_ELEMENT 9 3 (string_ins 0x91 1 9 0)).
Proof.
  apply (strlen_counts 9 0 0 1 0 9 [0x61; 0x62; 0x63] _ (string_ins_flows _ _ _ _)); [d_operand..|done|apply string_ins_holds|zconc|cbn; lia].
Defined.
Lemma strmov_copies_witness : exists s', run_ci_strmov_ins 9 (string_ins 0x97 1 2 0) = Ok (pdPASS, s') /\
  holds_string 2 [0x61; 0x62; 0x63] s'.
Proof.
  destruct (strmov_copies 9 0 0 1 0 2 [0x61; 0x62; 0x63] (string_ins 0x97 1 2 0) (string_ins_flows _ _ _ _)) as (s' & H1 & H2 & _);
    [d_operand..|apply string_ins_holds|zconc|zconc|cbn; lia|]. by exists s'.
Defined.
Lemma stradd_joins_witness : exists s', run_ci_stradd_ins 9 (string_ins 0x90 3 3 10) = Ok (pdPASS, s') /\
  holds_string 10 [0x63; 0x64] s'.
Proof.
  destruct (stradd_joins 9 0 0 3 0 3 0 10 [0x63; 0x64] [0x63; 0x64] (string_ins 0x90 3 3 10) (string_ins_flows _ _ _ _))
    as (s' & H1 & H2 & _); [d_operand..|apply string_ins_holds|apply string_ins_holds|zconc|zconc|zconc|cbn; lia|cbn; lia|]. by exists s'.
Defined.
Definition const_len_demo : plc_st := with_InPF (set_pf 0) (st0 [0x91; 0xF2; 0; 0xFF; 0x61; 0x62; 0; 0x11; 1; 0]).
Lemma strlen_constant_never_returns_witness : run_ci_strlen_ins 1000 const_len_demo = NoFuel.
Proof.
  apply (strlen_constant_never_returns 1000 0 0 0x6261); [split_and!; [apply wf_elem0|done|done]|d_operand|done|done|done].
Defined.
