(* ===== verification/Compiler.v ===== *)
(** * The program checker

    Models plc/executer/src/plc_compiler.c, which runs when the machine goes
    from STOP to RUN: it walks over the program from its first instruction,
    refuses instructions it does not know, notes where the subroutines, the
    interrupt programs and the CALLs are, and records the instructions that a
    subroutine, an MC block or a step leaves to be cleared. An address is an
    offset into the program; a pointer into a list of the checker is the index
    of its element. The watch dog it feeds and the timer [bsp_tim3_init] sets
    up for a PLSY are hardware and not part of the state. *)
From stdpp Require Import base list numbers sets.
From S2P Require Import Prelude Element Machine ParseAddr ParseAddrFacts SimpleIns Device DataIns FlowCtrl Call Stl.

Definition ERR_NO_FREE_MEMORY := 113.
Definition pdFAIL := 0.
Definition MAX_MC_MCR_BLOCK_NUMBER := 8.
Definition MAX_SYS_INT_NUM := 60.
Definition SI_MAX_INS := 0xB8.
Definition CI_END := 0xFFFF.
(** The null pointer: no address of the program. *)
Definition NULL_PC := -1.

(** ** Lengths of instructions *)
Definition length_2 : list simple_ins :=
  (SI_LD <$> contacts) ++ (SI_LDI <$> contacts) ++ (SI_AND <$> contacts) ++ (SI_ANI <$> contacts) ++
  (SI_OR <$> contacts) ++ (SI_ORI <$> contacts) ++
  (SI_OUT <$> [cY; cSM; cM; cLM]) ++ (SI_SET <$> [cY; cSM; cM; cLM]) ++ (SI_RST <$> [cY; cSM; cM; cLM]) ++
  [SI_INV; SI_ANB; SI_ORB; SI_MPS; SI_MRD; SI_MPP; SI_NOP].
Definition length_4 : list simple_ins :=
  (SI_LD_EXT <$> contacts_ext) ++ (SI_LDI_EXT <$> contacts_ext) ++ (SI_AND_EXT <$> contacts_ext) ++
  (SI_ANI_EXT <$> contacts_ext) ++ (SI_OR_EXT <$> contacts_ext) ++ (SI_ORI_EXT <$> contacts_ext) ++
  (SI_OUT_EXT <$> [cY; cSM; cM]) ++ (SI_SET_EXT <$> [cY; cSM; cM]) ++ (SI_RST_EXT <$> [cY; cSM; cM]) ++
  [SI_EU; SI_ED].
Definition length_6 : list simple_ins := [SI_LDP; SI_LDF; SI_ANDP; SI_ANDF; SI_ORP; SI_ORF; SI_PLP; SI_PLF].
Definition is_one_of (op : Z) (l : list simple_ins) : bool := z_in op (si_code <$> l).
Definition simple_length (op : Z) : option Z :=
  if is_one_of op length_2 then Some 2
  else if is_one_of op length_4 then Some 4
  else if is_one_of op length_6 then Some 6
  else None.
(** The cases of a fixed length, in the order of the [switch]. *)
Definition length_control (op : Z) : option Z :=
  match op with
  | 0xF02B | 0xF02A => Some 2
  | 0xF01E => Some 10
  | 0xF000 => Some 6
  | 0xF01F => Some 10
  | 0xF020 => Some 2
  | 0xF014 | 0xF015 | 0xF016 => Some 10
  | 0xF017 | 0xF01B => Some 6
  | 0xF019 | 0xF01A => Some 10
  | 0xF018 => Some 14
  | 0xF025 | 0xF024 => Some 2
  | 0xF003 | 0xF004 | 0xF005 | 0xF006 | 0xF007 | 0xF008 | 0xF00A | 0xF00B | 0xF009 | 0xF00F => Some 6
  | 0xF010 | 0xF011 => Some 6
  | 0xF028 | 0xF029 => Some 2
  | 0xF0C2 => Some 10
  | 0xF0DB => Some 12
  | 0xF0DE => Some 14
  | 0xF0C3 | 0xF0C4 | 0xF0C1 | 0xF0C0 => Some 10
  | 0xF026 | 0xF027 => Some 2
  | 0xF02D => Some 10
  | 0xF02E | 0xF0F3 | 0xF02F | 0xF031 => Some 14
  | 0xF032 => Some 18
  | 0xF033 => Some 6
  | _ => None
  end.
Definition length_words (op : Z) : option Z :=
  match op with
  | 0xF2D9 => Some 18
  | 0xF2D7 | 0xF2D8 => Some 36
  | 0xF035 => Some 10
  | 0xF036 => Some 14
  | 0xF0EF | 0xF038 => Some 18
  | 0xF037 | 0xF0CB | 0xF0CC | 0xF06F | 0xF070 => Some 14
  | 0xF071 => Some 16
  | 0xF072 => Some 14
  | 0xF073 => Some 10
  | 0xF074 | 0xF075 => Some 6
  | 0xF076 | 0xF077 => Some 10
  | 0xF079 | 0xF07A | 0xF07B | 0xF07C => Some 20
  | 0xF07D => Some 14
  | 0xF07E | 0xF07F => Some 8
  | 0xF080 | 0xF081 => Some 14
  | 0xF083 | 0xF084 | 0xF085 | 0xF086 => Some 20
  | 0xF087 | 0xF08D => Some 14
  | 0xF08E => Some 20
  | 0xF08F | 0xF088 | 0xF089 | 0xF08A | 0xF170 | 0xF171 | 0xF172 | 0xF08B | 0xF08C | 0xF200 => Some 14
  | 0xF201 | 0xF202 => Some 14
  | _ => None
  end.
Definition length_bits (op : Z) : option Z :=
  match op with
  | 0xF090 | 0xF091 | 0xF092 => Some 14
  | 0xF093 => Some 10
  | 0xF094 | 0xF095 | 0xF096 => Some 20
  | 0xF097 | 0xF098 | 0xF099 | 0xF09A | 0xF09B => Some 14
  | 0xF09C | 0xF09D | 0xF09E | 0xF09F => Some 18
  | 0xF0A0 | 0xF0A1 => Some 14
  | 0xF0A2 | 0xF0A3 | 0xF0A4 | 0xF0A5 => Some 18
  | 0xF0C6 | 0xF0F4 => Some 14
  | 0xF0F6 => Some 16
  | 0xF160 => Some 28
  | 0xF19C => Some 20
  | 0xF19D => Some 28
  | 0xF180 => Some 32
  | 0xF181 | 0xF182 => Some 24
  | 0xF183 => Some 20
  | 0xF19E | 0xF19F => Some 28
  | 0xF140 | 0xF141 | 0xF142 | 0xF143 => Some 12
  | 0xF144 | 0xF145 => Some 16
  | 0xF146 | 0xF147 | 0xF148 => Some 20
  | 0xF149 | 0xF14A => Some 26
  | 0xF14D => Some 20
  | 0xF039 => Some 10
  | _ => None
  end.
Definition length_compares (op : Z) : option Z :=
  match op with
  | 0xF03A | 0xF03B | 0xF03C | 0xF03D | 0xF03E | 0xF040 | 0xF041 | 0xF042 | 0xF043 | 0xF03F => Some 10
  | 0xF044 | 0xF045 | 0xF047 | 0xF046 | 0xF048 | 0xF049 | 0xF04A => Some 10
  | 0xF04B | 0xF04C | 0xF04D | 0xF04E | 0xF04F | 0xF050 | 0xF051 | 0xF052 | 0xF053 | 0xF054 => Some 14
  | 0xF055 | 0xF056 | 0xF057 | 0xF058 | 0xF059 | 0xF05A | 0xF05B | 0xF05C => Some 14
  | _ => None
  end.
Definition length_conversions (op : Z) : option Z :=
  match op with
  | 0xF05D | 0xF05E | 0xF05F | 0xF060 | 0xF061 | 0xF062 | 0xF063 | 0xF064 | 0xF065 | 0xF066 => Some 14
  | 0xF067 | 0xF068 | 0xF069 | 0xF06A | 0xF06B | 0xF06C | 0xF06D | 0xF06E => Some 14
  | 0xF0AC => Some 10
  | 0xF0AD => Some 14
  | 0xF0AE => Some 10
  | 0xF0AF => Some 14
  | 0xF0B0 => Some 10
  | 0xF0B1 => Some 14
  | 0xF0B2 => Some 10
  | 0xF0B3 => Some 14
  | 0xF0A8 => Some 12
  | 0xF0A9 => Some 14
  | 0xF0AA => Some 12
  | 0xF0AB => Some 14
  | 0xF0B4 | 0xF0D2 | 0xF0D3 | 0xF0D4 | 0xF0D5 | 0xF0D6 | 0xF0D7 | 0xF0EC | 0xF0ED | 0xF0F2 => Some 10
  | 0xF0F0 | 0xF0F1 => Some 12
  | 0xF0C5 => Some 18
  | 0xF0F9 => Some 16
  | _ => None
  end.
Definition length_clock (op : Z) : option Z :=
  match op with
  | 0xF0FA | 0xF0FB => Some 18
  | 0xF0FC | 0xF0FD | 0xF0FE | 0xF0FF | 0xF100 | 0xF101 | 0xF102 | 0xF103 | 0xF104 | 0xF105 => Some 14
  | 0xF106 | 0xF107 => Some 14
  | 0xF108 | 0xF109 | 0xF10A => Some 24
  | 0xF10B => Some 12
  | 0xF10C | 0xF10D | 0xF10E => Some 14
  | 0xF0BB | 0xF0BC => Some 18
  | 0xF0E9 | 0xF0EA => Some 20
  | 0xF0BD => Some 12
  | 0xF0BE => Some 10
  | 0xF0BF => Some 6
  | 0xF0C9 | 0xF0CA => Some 14
  | 0xF0C7 | 0xF0C8 => Some 6
  | 0xF0DF | 0xF221 | 0xF0EB | 0xF0E0 => Some 20
  | 0xF0E1 => Some 26
  | 0xF0E2 | 0xF0E3 => Some 20
  | 0xF0E4 => Some 18
  | _ => None
  end.
Definition length_drives (op : Z) : option Z :=
  match op with
  | 0xF0E5 => Some 20
  | 0xF0E6 | 0xF0E7 | 0xF0E8 => Some 14
  | 0xF0F5 => Some 10
  | 0xF0CE => Some 16
  | 0xF0B7 | 0xF0B6 => Some 14
  | 0xF150 => Some 18
  | 0xF174 => Some 24
  | 0xF0B5 => Some 38
  | 0xF130 => Some 16
  | 0xF131 => Some 24
  | 0xF132 => Some 16
  | 0xF133 => Some 24
  | 0xF2A7 => Some 20
  | 0xF134 => Some 24
  | 0xF135 => Some 14
  | 0xF138 => Some 24
  | 0xF210 => Some 14
  | 0xF0B8 => Some 10
  | 0xF230 | 0xF231 | 0xF232 | 0xF233 | 0xF234 | 0xF235 | 0xF236 | 0xF237 | 0xF238 => Some 8
  | 0xF250 | 0xF251 | 0xF252 | 0xF254 | 0xF253 | 0xF255 => Some 14
  | 0xF256 => Some 2
  | _ => None
  end.
Definition length_blocks (op : Z) : option Z :=
  match op with
  | 0xF260 | 0xF261 | 0xF262 | 0xF263 | 0xF264 | 0xF265 | 0xF266 | 0xF267 => Some 18
  | 0xF2B0 => Some 6
  | 0xF2B1 => Some 14
  | 0xF2C0 | 0xF2C1 => Some 10
  | 0xF270 | 0xF271 | 0xF272 => Some 18
  | 0xF273 => Some 14
  | 0xF274 => Some 18
  | 0xF291 => Some 10
  | 0xF292 | 0xF293 | 0xF294 | 0xF295 | 0xF151 => Some 14
  | 0xF152 | 0xF153 => Some 18
  | 0xF154 => Some 6
  | 0xF155 => Some 18
  | 0xF156 => Some 22
  | 0xF2A0 => Some 10
  | 0xF2A1 => Some 14
  | 0xF2A2 => Some 10
  | 0xF2A3 => Some 22
  | 0xF2A4 => Some 10
  | 0xF240 | 0xF241 | 0xF242 => Some 24
  | 0xF243 => Some 26
  | 0xF136 => Some 18
  | 0xF245 => Some 34
  | 0xF246 => Some 24
  | 0xF247 => Some 18
  | 0xF248 | 0xF2A5 => Some 22
  | _ => None
  end.
Definition ci_length (op : Z) : option Z :=
  head (omap (fun f => f op) [length_control; length_words; length_bits; length_compares; length_conversions;
    length_clock; length_drives; length_blocks]).

(** ** State *)
Inductive compiler_flag : Set :=
| COMPILER_NORMAL_INS | COMPILER_STL_INS | COMPILER_MC_MCR_INS | COMPILER_SUB_INS.
Record plc_interrupt_source_st := { mcv_Priority : Z; mcv_IntFlag : Z; mcv_Count : Z; mcp_IntPara : Z }.
(** A source after plc_user_interrupt_init. *)
Definition idle_source : plc_interrupt_source_st := {| mcv_Priority := 0; mcv_IntFlag := 0x01; mcv_Count := 0; mcp_IntPara := NULL_PC |}.
Definition with_program (p : Z) (x : plc_interrupt_source_st) : plc_interrupt_source_st :=
  {| mcv_Priority := mcv_Priority x; mcv_IntFlag := Z.lor (mcv_IntFlag x) 0x02; mcv_Count := mcv_Count x; mcp_IntPara := p |}.
(** The machine, the static variables of the file and the interrupt sources.
    An entry of [stap_McListPtr] is the place of its block in the chain
    [mc_mcr], or [None] when it points to no live block. *)
Record comp_st := {
  plc : plc_st;
  scv_CompilerInsFlag : compiler_flag;
  stp_StlListPtr : option Z;
  stp_SbrListPtr : option Z;
  stap_McListPtr : list (option Z);
  mtv_IntSource : list plc_interrupt_source_st }.
Notation Mk := (M comp_st).

Definition with_plc v c := {| plc := v; scv_CompilerInsFlag := scv_CompilerInsFlag c;
  stp_StlListPtr := stp_StlListPtr c; stp_SbrListPtr := stp_SbrListPtr c;
  stap_McListPtr := stap_McListPtr c; mtv_IntSource := mtv_IntSource c |}.
Definition with_flag v c := {| plc := plc c; scv_CompilerInsFlag := v;
  stp_StlListPtr := stp_StlListPtr c; stp_SbrListPtr := stp_SbrListPtr c;
  stap_McListPtr := stap_McListPtr c; mtv_IntSource := mtv_IntSource c |}.
Definition with_StlPtr v c := {| plc := plc c; scv_CompilerInsFlag := scv_CompilerInsFlag c;
  stp_StlListPtr := v; stp_SbrListPtr := stp_SbrListPtr c;
  stap_McListPtr := stap_McListPtr c; mtv_IntSource := mtv_IntSource c |}.
Definition with_SbrPtr v c := {| plc := plc c; scv_CompilerInsFlag := scv_CompilerInsFlag c;
  stp_StlListPtr := stp_StlListPtr c; stp_SbrListPtr := v;
  stap_McListPtr := stap_McListPtr c; mtv_IntSource := mtv_IntSource c |}.
Definition with_McPtrs v c := {| plc := plc c; scv_CompilerInsFlag := scv_CompilerInsFlag c;
  stp_StlListPtr := stp_StlListPtr c; stp_SbrListPtr := stp_SbrListPtr c;
  stap_McListPtr := v; mtv_IntSource := mtv_IntSource c |}.
Definition with_IntSource v c := {| plc := plc c; scv_CompilerInsFlag := scv_CompilerInsFlag c;
  stp_StlListPtr := stp_StlListPtr c; stp_SbrListPtr := stp_SbrListPtr c;
  stap_McListPtr := stap_McListPtr c; mtv_IntSource := v |}.
Definition with_sbr_list l f := {| call_info := call_info f; for_next := for_next f; sfc_status := sfc_status f;
  sbr_list := l; stl_list := stl_list f; mc_mcr := mc_mcr f;
  mc_NestedLevel := mc_NestedLevel f; ssv_MinAlarmSElement := ssv_MinAlarmSElement f |}.
Definition with_stl_list l f := {| call_info := call_info f; for_next := for_next f; sfc_status := sfc_status f;
  sbr_list := sbr_list f; stl_list := l; mc_mcr := mc_mcr f;
  mc_NestedLevel := mc_NestedLevel f; ssv_MinAlarmSElement := ssv_MinAlarmSElement f |}.
Definition with_mc_mcr l f := {| call_info := call_info f; for_next := for_next f; sfc_status := sfc_status f;
  sbr_list := sbr_list f; stl_list := stl_list f; mc_mcr := l;
  mc_NestedLevel := mc_NestedLevel f; ssv_MinAlarmSElement := ssv_MinAlarmSElement f |}.
Definition with_NestedLevel v f := {| call_info := call_info f; for_next := for_next f; sfc_status := sfc_status f;
  sbr_list := sbr_list f; stl_list := stl_list f; mc_mcr := mc_mcr f;
  mc_NestedLevel := v; ssv_MinAlarmSElement := ssv_MinAlarmSElement f |}.

(** A function of the machine, in the checker. *)
Definition on_plc {A} (m : Mc A) : Mk A := fun c =>
  match m (plc c) with Ok (a, s) => Ok (a, with_plc s c) | Ub => Ub | NoFuel => NoFuel end.
Definition rd8 (p : Z) : Mk Z := on_plc (GET_PU8_DATA p).
Definition rd16 (p : Z) : Mk Z := on_plc (GET_PU16_DATA p).
Definition get_flow {A} (f : flow_st -> A) : Mk A := gets (fun c => f (flow (plc c))).
Definition mod_flow (f : flow_st -> flow_st) : Mk unit :=
  modify (fun c => with_plc (with_flow (f (flow (plc c))) (plc c)) c).
Definition mod_call_info (f : plc_call_ins_info_st -> plc_call_ins_info_st) : Mk unit :=
  mod_flow (fun w => with_call_info (f (call_info w)) w).
Definition set_flag_to (v : compiler_flag) : Mk unit := modify (with_flag v).

(** ** The lists *)
Definition empty_head : plc_ins_list_head_st := {| mtv_SimpInsHead := []; mtv_CompInsHead := [] |}.
Inductive entry_kind : Set := Simple | Complex.
Definition add_head (k : entry_kind) (p : Z) (h : plc_ins_list_head_st) : plc_ins_list_head_st :=
  match k with
  | Simple => {| mtv_SimpInsHead := mtv_SimpInsHead h ++ [p]; mtv_CompInsHead := mtv_CompInsHead h |}
  | Complex => {| mtv_SimpInsHead := mtv_SimpInsHead h; mtv_CompInsHead := mtv_CompInsHead h ++ [p] |}
  end.
Definition add_block (k : entry_kind) (p : Z) (b : plc_mc_mcr_ins_list_st) : plc_mc_mcr_ins_list_st :=
  match k with
  | Simple => {| mcp_McUCodePc := mcp_McUCodePc b; mc_SimpInsHead := mc_SimpInsHead b ++ [p];
                 mc_CompInsHead := mc_CompInsHead b |}
  | Complex => {| mcp_McUCodePc := mcp_McUCodePc b; mc_SimpInsHead := mc_SimpInsHead b;
                  mc_CompInsHead := mc_CompInsHead b ++ [p] |}
  end.
(** The entry at [i] becomes [f] of itself. *)
Definition update_at {A} (l : list A) (i : Z) (f : A -> A) : option (list A) :=
  x ← zlookup l i; zupdate l i (f x).

(** What is recorded: in a step and an MC block the coils, and everywhere the
    instructions with an edge, a timer or an axis of their own. *)
Definition edge_ins : list simple_ins :=
  [SI_EU; SI_ED; SI_LDP; SI_LDF; SI_ANDP; SI_ANDF; SI_ORP; SI_ORF; SI_PLP; SI_PLF].
Definition output_ins : list simple_ins := (SI_OUT <$> [cY; cSM; cM]) ++ (SI_OUT_EXT <$> [cY; cSM; cM]).
Definition recorded_simple (flag : compiler_flag) (op : Z) : bool :=
  match flag with
  | COMPILER_NORMAL_INS => false
  | COMPILER_STL_INS | COMPILER_MC_MCR_INS => is_one_of op (output_ins ++ edge_ins)
  | COMPILER_SUB_INS => is_one_of op edge_ins
  end.
(** TON, TONR, TOF, OUT_LM, BOUT, DRVI, DRVC, DRVA, ZRN, PLS, PLSB, PWM, PLSY,
    PLSR, PLSV, DHSCS, HCNT, SPD, GEARBOX, LIN, CW, CCW, CAMBOX, CALL. *)
Definition recorded_complex (flag : compiler_flag) (op : Z) : bool :=
  match flag with
  | COMPILER_NORMAL_INS => false
  | _ => z_in op [0xF014; 0xF016; 0xF015; 0xF009; 0xF0F2; 0xF133; 0xF2A7; 0xF134; 0xF131; 0xF135; 0xF138; 0xF0E6;
      0xF0E4; 0xF0E5; 0xF132; 0xF0DF; 0xF0E8; 0xF0E7; 0xF247; 0xF240; 0xF241; 0xF242; 0xF248; 0xF021]
  end.

Section checker.
(** The address the program is loaded at, and whether the next allocation
    succeeds. *)
Context (base : Z) (pvPortMalloc : comp_st -> bool).
(** An allocation, and what is done with the memory. *)
Definition allocating (m : Mk unit) : Mk Z :=
  ok ← gets pvPortMalloc;
  if ok : bool then m;; mret pdPASS else mret ERR_NO_FREE_MEMORY.
Definition list_add_stl (k : entry_kind) (p : Z) : Mk Z :=
  o ← gets stp_StlListPtr;
  match o with
  | None => mret pdPASS
  | Some i => allocating (
      l ← get_flow stl_list; l' ← of_option (update_at l i (add_head k p)); mod_flow (with_stl_list l'))
  end.
Definition list_add_sbr (k : entry_kind) (p : Z) : Mk Z :=
  o ← gets stp_SbrListPtr;
  match o with
  | None => mret pdPASS
  | Some i => allocating (
      l ← get_flow sbr_list; l' ← of_option (update_at l i (add_head k p)); mod_flow (with_sbr_list l'))
  end.
(** The block of [stap_McListPtr[i]]. *)
Definition list_add_block (k : entry_kind) (p i : Z) : Mk Z := allocating (
  ptrs ← gets stap_McListPtr;
  o ← of_option (zlookup ptrs i);
  b ← of_option o;
  l ← get_flow mc_mcr; l' ← of_option (update_at l b (add_block k p)); mod_flow (with_mc_mcr l')).
(** In every block that is open. *)
Fixpoint list_add_mc (n : nat) (k : entry_kind) (p i : Z) : Mk Z :=
  match n with
  | O => mret pdPASS
  | S n' => r ← list_add_block k p i; if r =? pdPASS then list_add_mc n' k p (i + 1) else mret r
  end.
Definition list_add (k : entry_kind) (p : Z) : Mk Z :=
  flag ← gets scv_CompilerInsFlag;
  match flag with
  | COMPILER_STL_INS => list_add_stl k p
  | COMPILER_MC_MCR_INS => n ← get_flow mc_NestedLevel; list_add_mc (Z.to_nat n) k p 0
  | COMPILER_SUB_INS => list_add_sbr k p
  | COMPILER_NORMAL_INS => mret pdPASS
  end.
Definition plc_add_ins_to_simple_list (pUcode : Z) : Mk Z :=
  flag ← gets scv_CompilerInsFlag;
  op ← rd8 (pUcode + 1);
  if recorded_simple flag op then list_add Simple pUcode else mret pdPASS.
Definition plc_add_ins_to_complex_list (pUcode : Z) : Mk Z :=
  flag ← gets scv_CompilerInsFlag;
  op ← rd16 pUcode;
  if recorded_complex flag op then list_add Complex pUcode else mret pdPASS.

(** ** Moving over an instruction: the next address, or an error *)
Definition plc_move_ucode_ptr_from_simple_ins (p : Z) : Mk (Z + Z) :=
  ins ← rd8 (p + 1);
  mret (match simple_length ins with Some n => inl (p + n) | None => inr ERR_COMPILER end).

Definition move_stradd (p : Z) : Mk (Z + Z) :=
  t ← rd8 (p + 2);
  q ← (if t =? 0x82 then n ← rd8 (p + 3); mret (p + (n + 4)) else mret (p + 6));
  t' ← rd8 q;
  if t' =? 0x82 then n ← rd8 (q + 1); mret (inl (q + n + 6)) else mret (inl (q + 8)).
(** A string behind its type, or its type behind the length. *)
Definition move_strinstr (p : Z) : Mk (Z + Z) :=
  t ← rd8 (p + 2);
  if t =? 0x82 then n ← rd8 (p + 3); mret (inl (p + (n + 16))) else mret (inl (p + 18)).
Definition move_strmov (p : Z) : Mk (Z + Z) :=
  t ← rd8 (p + 3);
  if t =? 0x82 then n ← rd8 (p + 2); mret (inl (p + (n + 8))) else mret (inl (p + 10)).

Definition with_UseNum v c := {| msv_SbrNestedNum := msv_SbrNestedNum c; msv_UseNum := v;
  mlv_UCodeAddr := mlv_UCodeAddr c; mcv_IsExec := mcv_IsExec c; mcp_RetPc := mcp_RetPc c; mcp_SbrPc := mcp_SbrPc c |}.
Definition with_UCodeAddr l c := {| msv_SbrNestedNum := msv_SbrNestedNum c; msv_UseNum := msv_UseNum c;
  mlv_UCodeAddr := l; mcv_IsExec := mcv_IsExec c; mcp_RetPc := mcp_RetPc c; mcp_SbrPc := mcp_SbrPc c |}.
Definition with_SbrPc l c := {| msv_SbrNestedNum := msv_SbrNestedNum c; msv_UseNum := msv_UseNum c;
  mlv_UCodeAddr := mlv_UCodeAddr c; mcv_IsExec := mcv_IsExec c; mcp_RetPc := mcp_RetPc c; mcp_SbrPc := l |}.
(** The place of the CALL becomes its identity. *)
Definition move_call (p : Z) : Mk (Z + Z) :=
  c ← get_flow call_info;
  l ← of_option (zupdate (mlv_UCodeAddr c) (msv_UseNum c) p);
  mod_call_info (with_UCodeAddr l);;
  mod_call_info (with_UseNum (u16 (msv_UseNum c + 1)));;
  n ← on_plc (plc_call_instruction_length p);
  mret (inl (p + n)).
Definition sbr_number (v : Z) : option Z :=
  if ((0x100 <=? v) && (v <=? 0x1FF)) || ((0x400 <=? v) && (v <=? 0x4FF)) then Some (Z.land v 0xFF) else None.
Definition move_sbr (p : Z) : Mk (Z + Z) :=
  v ← rd16 (p + 2);
  match sbr_number v with
  | None => mret (inr ERR_USER_PROGRAM)
  | Some n =>
      c ← get_flow call_info;
      l ← of_option (zupdate (mcp_SbrPc c) n p); mod_call_info (with_SbrPc l);;
      set_flag_to COMPILER_SUB_INS;;
      modify (with_SbrPtr (Some n));;
      heads ← get_flow sbr_list; heads' ← of_option (zupdate heads n empty_head); mod_flow (with_sbr_list heads');;
      mret (inl (p + 4))
  end.
Definition move_sret (p : Z) : Mk (Z + Z) :=
  set_flag_to COMPILER_NORMAL_INS;; modify (with_SbrPtr None);; mret (inl (p + 2)).
Definition move_intr (p : Z) : Mk (Z + Z) :=
  v ← rd16 (p + 2);
  if (0x200 <=? v) && (v <=? 0x2FF) then
    l ← gets mtv_IntSource;
    l' ← of_option (update_at l (Z.land v 0xFF) (with_program p));
    modify (with_IntSource l');; mret (inl (p + 4))
  else mret (inr ERR_USER_PROGRAM).
Definition set_mc_ptr (i : Z) (o : option Z) : Mk unit :=
  l ← gets stap_McListPtr; l' ← of_option (zupdate l i o); modify (with_McPtrs l').
Definition move_mc (p : Z) : Mk (Z + Z) :=
  set_flag_to COMPILER_MC_MCR_INS;;
  level ← get_flow mc_NestedLevel;
  ok ← gets pvPortMalloc;
  if ok : bool then
    blocks ← get_flow mc_mcr;
    set_mc_ptr level (Some (Z.of_nat (length blocks)));;
    mod_flow (with_mc_mcr (blocks ++ [{| mcp_McUCodePc := p; mc_SimpInsHead := []; mc_CompInsHead := [] |}]));;
    mod_flow (with_NestedLevel (u8 (level + 1)));;
    mret (inl (p + 10))
  else set_mc_ptr level None;; mret (inr ERR_NO_FREE_MEMORY).
Definition move_mcr (p : Z) : Mk (Z + Z) :=
  level ← get_flow mc_NestedLevel;
  let level' := if 0 <? level then level - 1 else level in
  mod_flow (with_NestedLevel level');;
  when (level' =? 0) (set_flag_to COMPILER_NORMAL_INS);;
  mret (inl (p + 6)).
(** The STL instructions in a row, and whether there is more than one. *)
Definition stl_scan (fuel : nat) (p : Z) : Mk (Z * bool) :=
  loop fuel (fun qm : Z * bool =>
    let q := qm.1 + 10 in
    op ← rd16 q; mret (if op =? CI_STL then inl (q, true) else inr (q, qm.2))) (p, false).
Definition move_stl (fuel : nat) (p : Z) : Mk (Z + Z) :=
  qm ← stl_scan fuel p;
  (if qm.2 : bool then set_flag_to COMPILER_NORMAL_INS;; modify (with_StlPtr None)
   else
     set_flag_to COMPILER_STL_INS;;
     n ← rd16 (p + 4);
     modify (with_StlPtr (Some n));;
     heads ← get_flow stl_list; heads' ← of_option (zupdate heads n empty_head); mod_flow (with_stl_list heads'));;
  mret (inl qm.1).
Definition move_ret (p : Z) : Mk (Z + Z) :=
  set_flag_to COMPILER_NORMAL_INS;; modify (with_StlPtr None);; mret (inl (p + 2)).
Definition move_special (fuel : nat) (op p : Z) : Mk (Z + Z) :=
  match op with
  | 0xF290 => move_stradd p
  | 0xF296 => move_strinstr p
  | 0xF297 => move_strmov p
  | 0xF021 => move_call p
  | 0xF001 => move_sbr p
  | 0xF023 => move_sret p
  | 0xF022 => mret (inl (p + 2))
  | 0xF002 => move_intr p
  | 0xF01C => move_mc p
  | 0xF01D => move_mcr p
  | 0xF00E => move_stl fuel p
  | 0xF012 => move_ret p
  | _ => mret (inr ERR_COMPILER)
  end.
Definition plc_move_ucode_ptr_from_complex_ins (fuel : nat) (p : Z) : Mk (Z + Z) :=
  op ← rd16 p;
  match ci_length op with Some n => mret (inl (p + n)) | None => move_special fuel op p end.

(** ** Emptying the lists *)
(** The entries of the first [n] heads of a table are deleted. *)
Definition clear_heads (n : Z) (l : list plc_ins_list_head_st) : option (list plc_ins_list_head_st) :=
  if n <=? Z.of_nat (length l) then Some (replicate (Z.to_nat n) empty_head ++ drop (Z.to_nat n) l) else None.
(** The blocks of the chain are freed, so that nothing points to one. *)
Definition plc_free_ins : Mk unit :=
  sbr ← get_flow sbr_list; sbr' ← of_option (clear_heads MAX_SBR_COUNT sbr); mod_flow (with_sbr_list sbr');;
  stl ← get_flow stl_list; stl' ← of_option (clear_heads S_RANG stl); mod_flow (with_stl_list stl');;
  mod_flow (with_NestedLevel 0);;
  mod_flow (with_mc_mcr []);;
  modify (fun c => with_McPtrs ((fun _ => None) <$> stap_McListPtr c) c).
Definition call_info_init : Mk unit :=
  mod_call_info (fun c => {| msv_SbrNestedNum := msv_SbrNestedNum c; msv_UseNum := 0;
    mlv_UCodeAddr := replicate (Z.to_nat MAX_CALL_INS_USE_NUMBER) NULL_PC;
    mcv_IsExec := replicate (Z.to_nat MAX_CALL_INS_USE_NUMBER) 0;
    mcp_RetPc := replicate (Z.to_nat MAX_SBR_NESTED_LAYER) NULL_PC;
    mcp_SbrPc := replicate (Z.to_nat MAX_SBR_COUNT) NULL_PC |}).

(** ** The checker *)
(** What the walk ends with: a code, [pdPASS] when the program is accepted,
    and the address it stands at. *)
Definition compile_next (endp : Z) (m : Z + Z) (p : Z) : Z + (Z * Z) :=
  match m with
  | inr code => inr (code, p)
  | inl q => if endp <? q then inr (ERR_USER_PROGRAM, q) else inl q
  end.
Definition compile_simple (endp p : Z) : Mk (Z + (Z * Z)) :=
  r ← plc_add_ins_to_simple_list p;
  if r =? pdPASS then m ← plc_move_ucode_ptr_from_simple_ins p; mret (compile_next endp m p)
  else mret (inr (r, p)).
Definition compile_complex (fuel : nat) (endp p : Z) : Mk (Z + (Z * Z)) :=
  r ← plc_add_ins_to_complex_list p;
  if r =? pdPASS then
    m ← plc_move_ucode_ptr_from_complex_ins fuel p;
    match m with
    | inl _ => mret (compile_next endp m p)
    | inr code => op ← rd16 p; mret (inr (if op =? CI_END then pdPASS else code, p))
    end
  else mret (inr (r, p)).
Definition compile_step (fuel : nat) (endp p : Z) : Mk (Z + (Z * Z)) :=
  if p <? endp then
    op ← rd8 (p + 1);
    if op <? SI_MAX_INS then compile_simple endp p else compile_complex fuel endp p
  else mret (inr (pdPASS, p)).
Definition compile_init : Mk Z :=
  call_info_init;;
  plc_free_ins;;
  llv_UCodeLen ← on_plc (plc_get_file_length (base + 6) 6 4);
  set_flag_to COMPILER_NORMAL_INS;;
  mret (llv_UCodeLen - 4).
Definition plc_compiler_ucode (fuel : nat) : Mk Z :=
  endp ← compile_init;
  rp ← loop fuel (compile_step fuel endp) 28;
  if rp.1 =? pdPASS then mret pdPASS
  else on_plc (set_stop_flag stop_ucode_err true;; plc_refresh_exec_error_record rp.1 rp.2);; mret pdFAIL.
End checker.

(** A checker at power-on, before the first program. *)
Definition comp0 (prog : list Z) : comp_st :=
  {| plc := (let s := st0 prog in with_flow (with_stl_list (replicate (Z.to_nat S_RANG) empty_head) (flow s)) s);
     scv_CompilerInsFlag := COMPILER_NORMAL_INS; stp_StlListPtr := None; stp_SbrListPtr := None;
     stap_McListPtr := replicate (Z.to_nat MAX_MC_MCR_BLOCK_NUMBER) None;
     mtv_IntSource := replicate (Z.to_nat MAX_SYS_INT_NUM) idle_source |}.
(** A program file: [n] bytes of code between the head and the trailer. *)
Definition program_file (code : list Z) : list Z :=
  let n := 28 + Z.of_nat (length code) + 4 in
  replicate 6 0 ++ [n mod 256; n / 256; 0; 0] ++ replicate 18 0 ++ code ++ replicate 4 0.
