(* ===== verification/LengthFacts.v ===== *)
(** * The lengths of instructions

    The checker walks over a program by the lengths by which the interpreter
    steps over its instructions. *)
From stdpp Require Import base list numbers sets.
From S2P Require Import Prelude Element Machine ParseAddr ParseAddrFacts SimpleIns SimpleFacts Device CounterIns TimeIns.
From S2P Require Import DataIns FlowCtrl Call ComplexIns Executer ExecFacts Effects DataEffects Stl ProgramFacts Compiler.

(** ** The program counter *)
(** The relation of the handlers that leave the program counter alone. *)
Definition same_pc : relation plc_st := same (fun s => mcp_PC (env s)).
#[global] Instance same_pc_preorder : PreOrder same_pc.
Proof. unfold same_pc. apply _. Qed.
#[global] Instance same_pc_handler : HandlerFrame same_pc.
Proof.
  split; try done; try apply _.
  - intros r i v s a s'. unfold wr. by case_match; intros [= <- <-].
  - intros i f s a s'. unfold wr_c_status. by repeat case_match; intros [= <- <-].
  - intros i f s a s'. unfold wr_t_status. by repeat case_match; intros [= <- <-].
  - intros i e s a s'. unfold wr_edge. by case_match; intros [= <- <-].
Qed.
Definition same_ucode : relation plc_st := same ucode.
#[global] Instance same_ucode_preorder : PreOrder same_ucode.
Proof. unfold same_ucode. apply _. Qed.
#[global] Instance same_ucode_handler : HandlerFrame same_ucode.
Proof.
  split; try done; try apply _.
  - intros r i v s a s'. unfold wr. by case_match; intros [= <- <-].
  - intros i f s a s'. unfold wr_c_status. by repeat case_match; intros [= <- <-].
  - intros i f s a s'. unfold wr_t_status. by repeat case_match; intros [= <- <-].
  - intros i e s a s'. unfold wr_edge. by case_match; intros [= <- <-].
Qed.

(** [m] leaves the program counter [n] bytes further when it passes. *)
Class Advances (n : Z) (m : Mc Z) : Prop :=
  advances s s' : m s = Ok (pdPASS, s') -> mcp_PC (env s') = mcp_PC (env s) + n.
#[global] Hint Mode Advances - ! : typeclass_instances.
#[global] Instance stepping_advances k m : Respects same_pc m -> Advances k (stepping k m).
Proof.
  intros H s s'. unfold stepping, mbind, M_bind. destruct (m s) as [[r s1]| |] eqn:E; try discriminate.
  apply H in E. unfold same_pc, same in E. intros [= -> <-]. cbn. by rewrite E.
Qed.
#[global] Instance checked_advances k m : Respects same_pc m -> Advances k (checked k m).
Proof.
  intros H s s'. unfold checked, mbind, M_bind. destruct (m s) as [[r s1]| |] eqn:E; try discriminate.
  apply H in E. unfold same_pc, same in E. destruct (Z.eqb_spec r pdPASS) as [->|Hr].
  - intros [= <-]. cbn. by rewrite E.
  - by intros [= ->].
Qed.
Lemma advances_pure n m : (forall s s', m s <> Ok (pdPASS, s')) -> Advances n m.
Proof. intros H s s' E. by destruct (H s s'). Qed.
Lemma advances_bind_gets {A} n (f : plc_st -> A) (k : A -> Mc Z) : (forall a, Advances n (k a)) -> Advances n (gets f ≫= k).
Proof. intros H s s' E. by apply (H (f s)). Qed.
#[global] Instance and_compare_advances k m : Respects same_pc m -> Advances k (and_compare k m).
Proof. intros H. unfold and_compare, GET_POWER_FLOW. apply advances_bind_gets. intros b. apply _. Qed.
#[global] Instance or_compare_advances k m : Respects same_pc m -> Advances k (or_compare k m).
Proof. intros H. unfold or_compare, GET_POWER_FLOW. apply advances_bind_gets. intros b. apply _. Qed.

(** ** Lengths *)
Section lengths.
Context (ins : Z -> Mc Z) (Hins : forall op, Respects same_pc (ins op)) (run : Z -> Mc Z) (fuel : nat).
#[local] Existing Instance Hins.
(** The jumps: CJ, FOR and NEXT. *)
Definition jumps : list Z := [0xF01E; 0xF01F; 0xF020].
Definition lengths_agree (len : Z -> option Z) : Prop :=
  forall op n, len op = Some n -> ~ op ∈ jumps -> Advances n (ci_exec ins run fuel op).
Ltac agree := intros op n Hn Hj; repeat (case_match; try discriminate Hn); injection Hn as <-;
  lazy delta [ci_exec ci_case or_else ci_control ci_devices ci_moves ci_compares ci_arithmetic ci_words
    ci_conversions ci_services ci_clock ci_network ci_blocks ci_motion ci_drives ld_compare illegal] beta iota;
  first [ apply _
        | exfalso; apply Hj; by repeat constructor
        | apply advances_pure; intros s s'; first [discriminate | by intros [=]]
        | apply stepping_advances; unfold run_ci_lbl_ins, run_ci_ciret_ins, run_ci_cfend_ins, run_ci_tadd_ins, run_ci_tsub_ins; frame_solve ].
Lemma control_agree : lengths_agree length_control.
Proof. unfold lengths_agree, length_control. agree. Qed.
Lemma words_agree : lengths_agree length_words.
Proof. unfold lengths_agree, length_words. agree. Qed.
Lemma bits_agree : lengths_agree length_bits.
Proof. unfold lengths_agree, length_bits. agree. Qed.
Lemma compares_agree : lengths_agree length_compares.
Proof. unfold lengths_agree, length_compares. agree. Qed.
Lemma conversions_agree : lengths_agree length_conversions.
Proof. unfold lengths_agree, length_conversions. agree. Qed.
Lemma clock_agree : lengths_agree length_clock.
Proof. unfold lengths_agree, length_clock. agree. Qed.
Lemma drives_agree : lengths_agree length_drives.
Proof. unfold lengths_agree, length_drives. agree. Qed.
Lemma blocks_agree : lengths_agree length_blocks.
Proof. unfold lengths_agree, length_blocks. agree. Qed.
Lemma ci_length_agree : lengths_agree ci_length.
Proof.
  intros op n Hn Hj. unfold ci_length in Hn. apply head_Some_elem_of, list_elem_of_omap in Hn as (f & Hf & E).
  rewrite !elem_of_cons, elem_of_nil in Hf.
  destruct Hf as [->|[->|[->|[->|[->|[->|[->|[->|[]]]]]]]]];
    [ exact (control_agree op n E Hj) | exact (words_agree op n E Hj) | exact (bits_agree op n E Hj)
    | exact (compares_agree op n E Hj) | exact (conversions_agree op n E Hj) | exact (clock_agree op n E Hj)
    | exact (drives_agree op n E Hj) | exact (blocks_agree op n E Hj) ].
Qed.
End lengths.

(** *** Simple instructions *)
Lemma is_one_of_spec op l : is_one_of op l = true <-> exists i, i ∈ l /\ op = si_code i.
Proof. unfold is_one_of. rewrite z_in_spec, list_elem_of_fmap. naive_solver. Qed.
Definition decodes_to (n : Z) (i : simple_ins) : bool :=
  (si_code i =? si_code (SI_OUT cLM)) || match si_decode (si_code i) with Some j => si_len j =? n | None => false end.
Lemma is_one_of_decodes op l n : forallb (decodes_to n) l = true -> is_one_of op l = true -> op <> si_code (SI_OUT cLM) ->
  exists i, si_decode op = Some i /\ si_len i = n.
Proof.
  intros Hl H Ho. apply is_one_of_spec in H as (i & Hi & ->). rewrite forallb_forall in Hl.
  apply list_elem_of_In, Hl in Hi. unfold decodes_to in Hi. destruct (Z.eqb_spec (si_code i) (si_code (SI_OUT cLM))); [done|].
  destruct (si_decode (si_code i)) as [j|]; [|done]. exists j. by apply Z.eqb_eq in Hi.
Qed.
(** The interpreter has a case for what the checker accepts, of the same
    length; all but SI_OUT_LM. *)
Lemma simple_length_agree op n : simple_length op = Some n -> op <> si_code (SI_OUT cLM) ->
  exists i, si_decode op = Some i /\ si_len i = n.
Proof.
  unfold simple_length. intros H Ho.
  destruct (is_one_of op length_2) eqn:E2; [injection H as <-; by apply (is_one_of_decodes op length_2)|].
  destruct (is_one_of op length_4) eqn:E4; [injection H as <-; by apply (is_one_of_decodes op length_4)|].
  destruct (is_one_of op length_6) eqn:E6; [injection H as <-; by apply (is_one_of_decodes op length_6)|done].
Qed.
Lemma si_decode_cases op i : si_decode op = Some i -> i ∈ si_cases /\ op = si_code i.
Proof. intros H. apply find_some in H as [H1 H2]. apply Z.eqb_eq in H2. by rewrite list_elem_of_In. Qed.
Lemma simple_length_complete op i : si_decode op = Some i -> simple_length op = Some (si_len i).
Proof.
  intros H. apply si_decode_cases in H as [H ->].
  assert (F : forallb (fun j => match simple_length (si_code j) with Some n => n =? si_len j | None => false end) si_cases = true)
    by (vm_compute; reflexivity).
  rewrite forallb_forall in F. apply list_elem_of_In, F in H. destruct (simple_length _); [|done]. apply Z.eqb_eq in H. by subst.
Qed.
Lemma simple_length_range op n : simple_length op = Some n -> n = 2 \/ n = 4 \/ n = 6.
Proof. unfold simple_length. repeat case_match; intros [= <-]; auto. Qed.
Lemma ci_length_pos op n : ci_length op = Some n -> 2 <= n.
Proof.
  intros Hn. unfold ci_length in Hn. apply head_Some_elem_of, list_elem_of_omap in Hn as (f & Hf & E).
  rewrite !elem_of_cons, elem_of_nil in Hf.
  destruct Hf as [->|[->|[->|[->|[->|[->|[->|[->|[]]]]]]]]];
    unfold length_control, length_words, length_bits, length_compares, length_conversions, length_clock, length_drives, length_blocks in E;
    repeat (case_match; try discriminate E); injection E as <-; lia.
Qed.
