(* ===== verification/CompilerFacts.v ===== *)
(** * What the program checker guarantees

    The boundaries between instructions; every step makes progress; what it
    records; and which of its tables it can overrun. *)
From stdpp Require Import base list numbers sets.
From S2P Require Import Prelude Element Machine ParseAddr ParseAddrFacts SimpleIns SimpleFacts Device CounterIns TimeIns.
From S2P Require Import DataIns FlowCtrl Call ComplexIns Executer ExecFacts Effects DataEffects Stl ProgramFacts Compiler LengthFacts.

(** ** Effects of the checker *)
(** The program stays. *)
Definition same_prog : relation comp_st := same (fun c => ucode (plc c)).
#[global] Instance same_prog_preorder : PreOrder same_prog.
Proof. unfold same_prog. apply _. Qed.
Lemma on_plc_respects {A} (R : relation plc_st) (R' : relation comp_st) (m : Mc A) :
  (forall s c, R (plc c) s -> R' c (with_plc s c)) -> Respects R m -> Respects R' (on_plc m).
Proof.
  intros HR H c a c'. unfold on_plc. destruct (m (plc c)) as [[x s]| |] eqn:E; intros [=]; subst. by apply HR, (H _ _ _ E).
Qed.
(** Reading changes nothing. *)
Lemma with_plc_id c : with_plc (plc c) c = c.
Proof. by destruct c. Qed.
#[global] Instance rd8_respects (R : relation comp_st) `{!PreOrder R} p : Respects R (rd8 p).
Proof. apply (on_plc_respects eq); [intros s c <-; by rewrite with_plc_id|apply _]. Qed.
#[global] Instance rd16_respects (R : relation comp_st) `{!PreOrder R} p : Respects R (rd16 p).
Proof. apply (on_plc_respects eq); [intros s c <-; by rewrite with_plc_id|apply _]. Qed.
#[global] Instance call_len_respects (R : relation comp_st) `{!PreOrder R} p : Respects R (on_plc (plc_call_instruction_length p)).
Proof.
  apply (on_plc_respects eq); [intros s c <-; by rewrite with_plc_id|]. unfold plc_call_instruction_length. apply _.
Qed.
Create HintDb comp.
#[export] Hint Unfold get_flow mod_flow mod_call_info set_flag_to allocating list_add_stl list_add_sbr list_add_block list_add
  plc_add_ins_to_simple_list plc_add_ins_to_complex_list plc_move_ucode_ptr_from_simple_ins move_stradd move_strinstr
  move_strmov move_call move_sbr move_sret move_intr set_mc_ptr move_mc move_mcr stl_scan move_stl move_ret
  compile_simple compile_complex compile_step : comp.
Ltac comp_solve := intros; repeat autounfold with comp; repeat (apply _ || (intros ?; repeat autounfold with comp)).

#[global] Instance list_add_mc_respects (R : relation comp_st) `{!PreOrder R} malloc n k p : (forall i, Respects R (list_add_block malloc k p i)) ->
  forall i, Respects R (list_add_mc malloc n k p i).
Proof. intros H. induction n as [|n IH]; intros i; cbn [list_add_mc]; apply _. Qed.
(** The relations that hold across every update of the checker but the
    numbering of the CALLs. *)
Class CheckerFrame (R : relation comp_st) : Prop := {
  cf_pre :: PreOrder R;
  cf_flag v c : R c (with_flag v c);
  cf_stl v c : R c (with_StlPtr v c);
  cf_sbr v c : R c (with_SbrPtr v c);
  cf_mc v c : R c (with_McPtrs v c);
  cf_int v c : R c (with_IntSource v c);
  cf_sbr_list l c : R c (with_plc (with_flow (with_sbr_list l (flow (plc c))) (plc c)) c);
  cf_stl_list l c : R c (with_plc (with_flow (with_stl_list l (flow (plc c))) (plc c)) c);
  cf_mc_mcr l c : R c (with_plc (with_flow (with_mc_mcr l (flow (plc c))) (plc c)) c);
  cf_level v c : R c (with_plc (with_flow (with_NestedLevel v (flow (plc c))) (plc c)) c);
  cf_entry l c : R c (with_plc (with_flow (with_call_info (with_SbrPc l (call_info (flow (plc c)))) (flow (plc c))) (plc c)) c) }.
#[global] Hint Mode CheckerFrame ! : typeclass_instances.
#[global] Hint Extern 1 (Respects _ (modify _)) => (apply respects_modify; intros ?;
  solve [ apply cf_flag | apply cf_stl | apply cf_sbr | apply cf_mc | apply cf_int | apply cf_sbr_list | apply cf_stl_list
        | apply cf_mc_mcr | apply cf_level | apply cf_entry ]) : typeclass_instances.
Section frame.
Context (R : relation comp_st) `{!CheckerFrame R} (malloc : comp_st -> bool) (fuel : nat).
#[local] Instance list_add_block_frame k p i : Respects R (list_add_block malloc k p i).
Proof. comp_solve. Qed.
#[local] Instance list_add_frame k p : Respects R (list_add malloc k p).
Proof. comp_solve. Qed.
#[global] Instance add_simple_frame p : Respects R (plc_add_ins_to_simple_list malloc p).
Proof. comp_solve. Qed.
#[global] Instance add_complex_frame p : Respects R (plc_add_ins_to_complex_list malloc p).
Proof. comp_solve. Qed.
#[global] Instance move_simple_frame p : Respects R (plc_move_ucode_ptr_from_simple_ins p).
Proof. comp_solve. Qed.
Lemma special_frame op p : op <> CI_CALL \/ Respects R (move_call p) -> Respects R (move_special malloc fuel op p).
Proof.
  intros H. unfold move_special.
  repeat case_match; first [ solve [comp_solve] | destruct H as [H|H]; [by destruct H|exact H] ].
Qed.
Lemma complex_frame p : (forall q, Respects R (move_call q)) -> Respects R (plc_move_ucode_ptr_from_complex_ins malloc fuel p).
Proof.
  intros H. unfold plc_move_ucode_ptr_from_complex_ins. apply respects_bind; [apply _..|]. intros op.
  destruct (ci_length op); [apply _|]. apply special_frame. by right.
Qed.
Lemma compile_step_frame endp p : (forall q, Respects R (move_call q)) -> Respects R (compile_step malloc fuel endp p).
Proof. intros H. pose proof (fun q => complex_frame q H) as Hx. unfold compile_step, compile_simple, compile_complex. apply _. Qed.
End frame.

#[global] Instance same_prog_frame : CheckerFrame same_prog.
Proof. by split; [apply _|..]. Qed.
#[global] Instance move_call_prog p : Respects same_prog (move_call p).
Proof.
  unfold move_call. repeat autounfold with comp.
  assert (forall f, Respects same_prog (modify (fun c => with_plc (with_flow (f (flow (plc c))) (plc c)) c)))
    by (intros f; by apply respects_modify).
  apply _.
Qed.
Lemma compile_step_prog malloc fuel endp p : Respects same_prog (compile_step malloc fuel endp p).
Proof. apply compile_step_frame; apply _. Qed.

(** ** Boundaries between instructions *)
Section boundaries.
Context (base : Z) (malloc : comp_st -> bool) (fuel : nat) (endp : Z).
(** [p] is an address the walk from [c0] comes to. *)
Definition checked (c0 : comp_st) (p : Z) : Prop :=
  exists c, rtc (loop_step (compile_step malloc fuel endp)) (28, c0) (p, c).
Lemma walk_prog x y : rtc (loop_step (compile_step malloc fuel endp)) x y -> ucode (plc y.2) = ucode (plc x.2).
Proof.
  induction 1 as [x|x y z Hxy _ IH]; [done|]. rewrite IH. exact (compile_step_prog malloc fuel endp _ _ _ _ Hxy).
Qed.
(** In an accepted program every step of the walk succeeds. *)
Lemma accepted_step f p c0 c q c' :
  loop f (compile_step malloc fuel endp) 28 c0 = Ok ((pdPASS, q), c') ->
  rtc (loop_step (compile_step malloc fuel endp)) (28, c0) (p, c) ->
  (exists q' c1, compile_step malloc fuel endp p c = Ok (inl q', c1) /\ checked c0 q') \/
  exists q' c1, compile_step malloc fuel endp p c = Ok (inr (pdPASS, q'), c1).
Proof.
  intros HL HR. destruct (loop_from _ _ _ _ _ HR HL) as ([|f'] & HF); [done|]. cbn [loop fst snd] in HF.
  unfold mbind, M_bind in HF. destruct (compile_step malloc fuel endp p c) as [[[q'|[r q']] c1]| |] eqn:E; try done.
  - left. exists q', c1. split; [done|]. exists c1. eapply rtc_r; [exact HR|exact E].
  - right. injection HF as -> -> ->. by eexists _, _.
Qed.
Lemma rd8_inv p c b c1 : rd8 p c = Ok (b, c1) -> zlookup (ucode (plc c)) p = Some b /\ c1 = c.
Proof.
  unfold rd8, on_plc, GET_PU8_DATA. destruct (zlookup (ucode (plc c)) p); intros [=]; subst. by rewrite with_plc_id.
Qed.
Lemma rd16_inv p c w c1 : rd16 p c = Ok (w, c1) ->
  c1 = c /\ exists b0 b1, zlookup (ucode (plc c)) p = Some b0 /\ zlookup (ucode (plc c)) (p + 1) = Some b1 /\ w = b0 + Z.shiftl b1 8.
Proof.
  unfold rd16, on_plc, GET_PU16_DATA, GET_PU8_DATA, mbind, M_bind, mret, M_ret.
  destruct (zlookup (ucode (plc c)) p) as [b0|]; [|done].
  destruct (zlookup (ucode (plc c)) (p + 1)) as [b1|]; [|done]. intros [=]; subst. rewrite with_plc_id. split; [done|]. by eexists _, _.
Qed.
Lemma compile_next_pass m p q : compile_next endp m p = inr (pdPASS, q) -> m = inr pdPASS.
Proof. unfold compile_next. destruct m; [by case_match|]. by intros [= ->]. Qed.
Lemma compile_next_next m p q : compile_next endp m p = inl q -> m = inl q /\ q <= endp.
Proof. unfold compile_next. destruct m as [q'|r]; [|done]. destruct (Z.ltb_spec endp q'); [done|]. by intros [= ->]. Qed.

(** The walk over a simple and over a complex instruction of fixed length. *)
Lemma simple_step p c b o c1 : p < endp -> zlookup (ucode (plc c)) (p + 1) = Some b -> b < SI_MAX_INS ->
  compile_step malloc fuel endp p c = Ok (o, c1) ->
  match o with
  | inl q => exists n, simple_length b = Some n /\ q = p + n
  | inr rq => rq.1 <> pdPASS
  end.
Proof.
  intros Hp Hb Hs E. unfold compile_step in E. assert (p <? endp = true) as R1 by lia. rewrite R1 in E.
  apply bind_inv in E as (b' & c' & H1 & E). apply rd8_inv in H1 as [H1 ->]. rewrite Hb in H1. injection H1 as <-.
  assert (b <? SI_MAX_INS = true) as R2 by lia. rewrite R2 in E. unfold compile_simple in E.
  apply bind_inv in E as (r & c2 & H2 & E). assert (F := add_simple_frame same_prog malloc p _ _ _ H2).
  unfold same_prog, same in F. destruct (Z.eqb_spec r pdPASS) as [->|Hr]; [|by injection E as <- <-].
  apply bind_inv in E as (m & c3 & H3 & E). unfold plc_move_ucode_ptr_from_simple_ins in H3.
  apply bind_inv in H3 as (b' & c4 & H4 & H3). apply rd8_inv in H4 as [H4 ->]. rewrite F, Hb in H4. injection H4 as <-.
  injection H3 as <- <-. injection E as <- <-. destruct (simple_length b) as [n|]; cbn [compile_next]; [|done].
  destruct (endp <? p + n); [done|]. by exists n.
Qed.
End boundaries.

(** LD X5, OUT Y3, FEND; SBR 3, LD X5, EU 7, OUT Y4, SRET. *)
Definition ladder_code : list Z :=
  [5; 0x10; 3; 0x71; 0x2B; 0xF0; 1; 0xF0; 3; 1; 5; 0x10; 0; 0xA7; 7; 0; 4; 0x71; 0x23; 0xF0].
Definition ladder_demo : comp_st := comp0 (program_file ladder_code).
Definition always (c : comp_st) : bool := true.
Lemma ladder_demo_init : exists c1, compile_init 0 ladder_demo = Ok (48, c1) /\ ucode (plc c1) = program_file ladder_code.
Proof.
  assert (H : match compile_init 0 ladder_demo with Ok (n, c) => Some (n, ucode (plc c)) | _ => None end =
    Some (48, program_file ladder_code)) by (vm_compute; reflexivity).
  destruct (compile_init 0 ladder_demo) as [[n c]| |]; try discriminate. exists c. injection H as -> H. by split.
Qed.
Lemma ladder_demo_accepted : exists c', plc_compiler_ucode 0 always 100 ladder_demo = Ok (pdPASS, c').
Proof. apply result_run. vm_compute. reflexivity. Qed.

(** ** Every step makes progress *)
Definition bytes_ok (l : list Z) : Prop := Forall (fun b => 0 <= b < 2 ^ 8) l.
Lemma byte_pos l p b : bytes_ok l -> zlookup l p = Some b -> 0 <= b.
Proof. intros H E. apply zlookup_Some in E as [_ E]. by apply (Forall_lookup_1 _ _ _ _ H) in E as [? _]. Qed.
(** The CALLs are numbered as before. *)
Definition calls (c : comp_st) : list Z * Z := (mlv_UCodeAddr (call_info (flow (plc c))), msv_UseNum (call_info (flow (plc c)))).
Definition same_calls : relation comp_st := same calls.
#[global] Instance same_calls_frame : CheckerFrame same_calls.
Proof. by split; [unfold same_calls; apply _|..]. Qed.
(** The scan over a row of STL instructions stays in the program. *)
Lemma stl_scan_ends fuel p c : 0 <= p -> Z.of_nat (length (ucode (plc c))) < Z.of_nat fuel ->
  stl_scan (S fuel) p c <> NoFuel.
Proof.
  intros Hp Hf. unfold stl_scan.
  apply (loop_halts_st _ (fun qm c1 => 0 <= qm.1 /\ ucode (plc c1) = ucode (plc c))
    (fun qm _ => Z.max 0 (Z.of_nat (length (ucode (plc c))) - qm.1))).
  - intros qm c1 _. unfold rd16, on_plc, mbind, M_bind.
    pose proof (PU16_halts (qm.1 + 10) (plc c1)) as H. by destruct (GET_PU16_DATA _ _) as [[? ?]| |].
  - intros qm c1 qm' c2 [H0 Hu] E. apply bind_inv in E as (op & c3 & H1 & E).
    apply rd16_inv in H1 as (-> & b0 & b1 & L & _). apply zlookup_lt in L. injection E as E <-.
    destruct (op =? CI_STL); [|done]. injection E as <-. cbn [fst]. rewrite Hu in L. split_and!; [lia|done|lia..].
  - done.
  - cbn [fst]. lia.
Qed.
Lemma stl_scan_forward fuel p c q m c' : stl_scan fuel p c = Ok ((q, m), c') -> p + 10 <= q /\ c' = c.
Proof.
  unfold stl_scan. generalize false as m0. revert p. induction fuel as [|f IH]; intros p m0; [done|]. cbn [loop].
  intros E. apply bind_inv in E as (r & c1 & H1 & E). apply bind_inv in H1 as (op & c2 & H2 & H1).
  apply rd16_inv in H2 as (-> & _). injection H1 as <- <-. cbn [fst snd] in E. destruct (op =? CI_STL).
  - apply IH in E as [? ?]. split; [lia|done].
  - injection E as <- <- <-. split; [lia|done].
Qed.
(** An instruction is at least two bytes long. *)
Definition forward (p : Z) (m : Z + Z) : Prop := match m with inl q => p + 2 <= q | inr _ => True end.
Section forward.
Context (malloc : comp_st -> bool) (fuel : nat) (p : Z).
#[local] Hint Extern 1 (Gives _ (mret _)) => (apply gives_ret; hnf; first [exact I | lia]) : typeclass_instances.
#[local] Hint Extern 9 (Gives _ (match ?x with _ => _ end)) => destruct x : typeclass_instances.
Lemma forward_sbr : Gives (forward p) (move_sbr p).
Proof. unfold move_sbr. apply _. Qed.
Lemma forward_sret : Gives (forward p) (move_sret p).
Proof. unfold move_sret. apply _. Qed.
Lemma forward_intr : Gives (forward p) (move_intr p).
Proof. unfold move_intr. apply _. Qed.
Lemma forward_mc : Gives (forward p) (move_mc malloc p).
Proof. unfold move_mc. apply _. Qed.
Lemma forward_mcr : Gives (forward p) (move_mcr p).
Proof. unfold move_mcr. apply _. Qed.
Lemma forward_ret : Gives (forward p) (move_ret p).
Proof. unfold move_ret. apply _. Qed.
Lemma forward_stl : Gives (forward p) (move_stl fuel p).
Proof.
  intros c m c' E. unfold move_stl in E. apply bind_inv in E as ([q b] & c1 & H1 & E).
  apply stl_scan_forward in H1 as [Hq _]. apply bind_inv in E as ([] & c2 & _ & E). injection E as <- <-. simpl. lia.
Qed.
(** The string operands: the lengths are bytes. *)
Lemma rd8_pos q c n c1 : bytes_ok (ucode (plc c)) -> rd8 q c = Ok (n, c1) -> 0 <= n /\ c1 = c.
Proof. intros Hb H. apply rd8_inv in H as [L ->]. by apply (byte_pos _ _ _ Hb) in L. Qed.
Ltac rd_step H := let x := fresh "n" in let Hx := fresh "Hn" in apply bind_inv in H as (x & ? & Hx & H);
  apply rd8_pos in Hx as [Hx ->]; [|assumption].
Lemma forward_stradd c m c' : bytes_ok (ucode (plc c)) -> move_stradd p c = Ok (m, c') -> forward p m.
Proof.
  intros Hb E. unfold move_stradd in E. rd_step E. apply bind_inv in E as (q & c1 & H1 & E).
  assert (p + 4 <= q /\ c1 = c) as [Hq ->].
  { destruct (n =? 130); [rd_step H1|]; injection H1 as <- <-; split; (done || lia). }
  rd_step E. destruct (n0 =? 130); [rd_step E|]; injection E as <- <-; simpl; lia.
Qed.
Lemma forward_string (t k a b : Z) c m c' : 8 <= a -> 8 <= b -> bytes_ok (ucode (plc c)) ->
  (x ← rd8 t; if x =? 0x82 then n ← rd8 k; mret (inl (p + (n + a))) else mret (inl (p + b)) : Mk (Z + Z)) c = Ok (m, c') -> forward p m.
Proof. intros Ha Hb' Hb E. rd_step E. destruct (n =? 130); [rd_step E|]; injection E as <- <-; simpl; lia. Qed.
Lemma special_forward op c m c' : op <> CI_CALL -> bytes_ok (ucode (plc c)) ->
  move_special malloc fuel op p c = Ok (m, c') -> forward p m.
Proof.
  intros Ho Hb. unfold move_special.
  repeat case_match; try (intros [= <- <-]; simpl; first [exact I | lia]);
    first [ apply forward_sbr | apply forward_sret | apply forward_intr | apply forward_mc | apply forward_mcr
          | apply forward_ret | apply forward_stl | apply (forward_stradd _ _ _ Hb)
          | apply (forward_string _ _ 16 18 _ _ _ ltac:(done) ltac:(done) Hb)
          | apply (forward_string _ _ 8 10 _ _ _ ltac:(done) ltac:(done) Hb) | by destruct Ho ].
Qed.
End forward.
(** Of the CALLs there is room for 256. *)
Definition calls_ok (c : comp_st) : Prop := Z.of_nat (length (calls c).1) = MAX_CALL_INS_USE_NUMBER /\ 0 <= (calls c).2.
Lemma call_progress p c m c' : calls_ok c -> move_call p c = Ok (m, c') ->
  calls_ok c' /\ ((calls c').2 = (calls c).2 + 1 /\ (calls c').2 <= MAX_CALL_INS_USE_NUMBER) /\ exists q, m = inl q /\ p <= q.
Proof.
  intros [Hl H0] E. unfold move_call, get_flow in E. unfold mbind at 1, M_bind at 1, gets at 1 in E.
  apply bind_inv in E as (l & c1 & H1 & E).
  destruct (zupdate (mlv_UCodeAddr _) (msv_UseNum _) p) as [l'|] eqn:U; [|done]. injection H1 as <- <-.
  assert (L := zupdate_length _ _ _ _ U).
  assert (B : (calls c).2 < MAX_CALL_INS_USE_NUMBER).
  { unfold zupdate in U. case_decide; [|done]. unfold calls in *. cbn [fst snd] in *. lia. }
  apply bind_inv in E as ([] & c2 & H2 & E). injection H2 as <-.
  apply bind_inv in E as ([] & c3 & H3 & E). injection H3 as <-.
  apply bind_inv in E as (n & c4 & H4 & E).
  assert (F := call_len_respects same_calls p _ _ _ H4). unfold same_calls, same in F.
  assert (Hn : 0 <= n).
  { unfold on_plc, plc_call_instruction_length in H4. destruct ((_ : Mc Z) _) as [[n' s']| |] eqn:G in H4; [|done..].
    injection H4 as <- _. repeat apply bind_inv in G as (? & ? & _ & G). injection G as <- _. apply u16_range. }
  injection E as <- <-. unfold calls_ok. rewrite F. unfold calls in *. cbn in *. change MAX_CALL_INS_USE_NUMBER with 256 in *.
  rewrite u16_id by lia. rewrite L. split_and!; [done|lia|lia|lia|]. exists (p + n). split; [done|lia].
Qed.
Lemma step_progress malloc fuel endp p c q c' : bytes_ok (ucode (plc c)) -> calls_ok c ->
  compile_step malloc fuel endp p c = Ok (inl q, c') ->
  calls_ok c' /\ p + 1 < Z.of_nat (length (ucode (plc c))) /\
  ((calls c').2 = (calls c).2 /\ p + 2 <= q \/ ((calls c').2 = (calls c).2 + 1 /\ (calls c').2 <= MAX_CALL_INS_USE_NUMBER) /\ p <= q).
Proof.
  intros Hb Hc E. unfold compile_step in E. destruct (p <? endp); [|done].
  apply bind_inv in E as (b & c1 & H1 & E). apply rd8_inv in H1 as [L ->]. apply zlookup_lt in L.
  destruct (b <? SI_MAX_INS).
  - unfold compile_simple in E. apply bind_inv in E as (r & c2 & H2 & E).
    assert (F := add_simple_frame same_calls malloc p _ _ _ H2). destruct (r =? pdPASS); [|done].
    apply bind_inv in E as (m & c3 & H3 & E). assert (G := move_simple_frame same_calls p _ _ _ H3).
    unfold same_calls, same in F, G. injection E as E <-. apply compile_next_next in E as [-> _].
    unfold plc_move_ucode_ptr_from_simple_ins in H3. apply bind_inv in H3 as (b' & c4 & _ & H3). injection H3 as H3 _.
    destruct (simple_length b') as [n|] eqn:N; [|done]. injection H3 as <-.
    unfold calls_ok in *. rewrite G, F. split_and!; [apply Hc..|lia|]. left. split; [done|].
    destruct (simple_length_range b' n N) as [ -> | [ -> | -> ] ]; lia.
  - unfold compile_complex in E. apply bind_inv in E as (r & c2 & H2 & E).
    assert (F := add_complex_frame same_calls malloc p _ _ _ H2). assert (P := add_complex_frame same_prog malloc p _ _ _ H2).
    unfold same_calls, same_prog, same in F, P. destruct (r =? pdPASS); [|done].
    apply bind_inv in E as (m & c3 & H3 & E). destruct m as [q'|code].
    2: { by apply bind_inv in E as (? & ? & _ & E). }
    injection E as E <-. apply (compile_next_next endp (inl q') p q) in E as [E _]. injection E as ->.
    unfold plc_move_ucode_ptr_from_complex_ins in H3. apply bind_inv in H3 as (op & c4 & H4 & H3).
    apply rd16_inv in H4 as (-> & _).
    assert (Hc2 : calls_ok c2) by (unfold calls_ok; by rewrite F).
    destruct (ci_length op) as [n|] eqn:N.
    + injection H3 as <- <-. rewrite F. split_and!; [done|lia|]. apply ci_length_pos in N. left. split; [done|lia].
    + destruct (decide (op = CI_CALL)) as [->|Ho].
      * apply (call_progress p c2 _ c3 Hc2) in H3 as (H5 & H6 & q2 & H7 & H8). injection H7 as <-.
        rewrite F in H6. split_and!; [apply H5..|lia|by right].
      * assert (G := special_frame same_calls malloc fuel op p (or_introl Ho) _ _ _ H3). unfold same_calls, same in G.
        apply (special_forward malloc fuel p op c2 _ c3 Ho) in H3; [|by rewrite P].
        unfold calls_ok in *. rewrite G, F. simpl in H3. split_and!; [apply Hc..|lia|]. left. split; [done|lia].
Qed.

(** What the initialisation leaves: the program, the room for CALLs and the
    flag for ordinary instructions. *)
Lemma free_ins_frame (R : relation comp_st) `{!CheckerFrame R} : Respects R plc_free_ins.
Proof. unfold plc_free_ins. comp_solve. Qed.
#[global] Instance file_length_respects (R : relation comp_st) `{!PreOrder R} a p n : Respects R (on_plc (plc_get_file_length a p n)).
Proof.
  apply (on_plc_respects eq); [intros s c <-; by rewrite with_plc_id|]. unfold plc_get_file_length. repeat case_match; apply _.
Qed.
Lemma init_spec base c endp c1 : compile_init base c = Ok (endp, c1) ->
  ucode (plc c1) = ucode (plc c) /\ calls_ok c1 /\ scv_CompilerInsFlag c1 = COMPILER_NORMAL_INS.
Proof.
  unfold compile_init. intros E. apply bind_inv in E as ([] & c2 & H1 & E). injection H1 as H1.
  apply bind_inv in E as ([] & c3 & H2 & E).
  assert (F := free_ins_frame same_prog _ _ _ H2). assert (G := free_ins_frame same_calls _ _ _ H2).
  apply bind_inv in E as (n & c4 & H3 & E).
  assert (F' := file_length_respects same_prog _ _ _ _ _ _ H3). assert (G' := file_length_respects same_calls _ _ _ _ _ _ H3).
  unfold same_prog, same_calls, same in *. injection E as _ <-. split_and!.
  - cbn. rewrite F', F, <- H1. done.
  - assert (calls c4 = (replicate 256 NULL_PC, 0)) as Q by (rewrite G', G, <- H1; done).
    unfold calls_ok, calls in *. cbn. injection Q as -> ->. done.
  - done.
Qed.

(** ** What is recorded *)
Section lists.
Context (prog : list Z) (walked : Z -> Prop) (malloc : comp_st -> bool) (fuel : nat) (endp : Z).
Definition simple_at (l : list simple_ins) (p : Z) : Prop :=
  walked p /\ exists b, zlookup prog (p + 1) = Some b /\ is_one_of b l = true.
Definition device_at (p : Z) : Prop :=
  walked p /\ exists b0 b1, zlookup prog p = Some b0 /\ zlookup prog (p + 1) = Some b1 /\
    recorded_complex COMPILER_SUB_INS (b0 + Z.shiftl b1 8) = true.
Definition head_ok (l : list simple_ins) (h : plc_ins_list_head_st) : Prop :=
  Forall (simple_at l) (mtv_SimpInsHead h) /\ Forall device_at (mtv_CompInsHead h).
Definition block_ok (b : plc_mc_mcr_ins_list_st) : Prop :=
  Forall (simple_at (output_ins ++ edge_ins)) (mc_SimpInsHead b) /\ Forall device_at (mc_CompInsHead b).
(** Every entry is an address the walk has come to, of an instruction of the
    kind its list is for. *)
Record lists_ok (f : flow_st) : Prop := {
  lo_sbr : Forall (head_ok edge_ins) (sbr_list f);
  lo_stl : Forall (head_ok (output_ins ++ edge_ins)) (stl_list f);
  lo_mc : Forall block_ok (mc_mcr f) }.
Definition keeps_lists : relation comp_st := keeps (fun c => lists_ok (flow (plc c))).
#[local] Hint Extern 1 (keeps_lists _ _) => (intros [? ? ?]; split; assumption) : typeclass_instances.
#[local] Hint Extern 1 (Respects keeps_lists (modify _)) =>
  (apply respects_modify; intros ? [? ? ?]; split; assumption) : typeclass_instances.
#[local] Instance keeps_lists_pre : PreOrder keeps_lists.
Proof. unfold keeps_lists. apply _. Qed.

Lemma update_at_Forall {A} (P : A -> Prop) l i f l' : Forall P l -> (forall x, P x -> P (f x)) -> update_at l i f = Some l' -> Forall P l'.
Proof.
  intros Hl Hf H. unfold update_at in H. destruct (zlookup l i) as [x|] eqn:E; [|done].
  refine (zupdate_Forall P _ _ _ _ H (Hf x _) Hl). apply zlookup_Some in E as [_ E]. by apply (Forall_lookup_1 _ _ _ _ Hl) in E.
Qed.
(** What may be appended to a list. *)
Definition entry_ok (l : list simple_ins) (k : entry_kind) (p : Z) : Prop :=
  match k with Simple => simple_at l p | Complex => device_at p end.
Lemma add_head_ok l k p h : entry_ok l k p -> head_ok l h -> head_ok l (add_head k p h).
Proof. intros He [H1 H2]. destruct k; split; cbn; try done; (apply Forall_app_2; [done|by apply Forall_singleton]). Qed.
Lemma add_block_ok k p b : entry_ok (output_ins ++ edge_ins) k p -> block_ok b -> block_ok (add_block k p b).
Proof. intros He [H1 H2]. destruct k; split; cbn; try done; (apply Forall_app_2; [done|by apply Forall_singleton]). Qed.
(** An update of one of the lists, and an allocation before it. *)
Lemma update_list_keeps {A} (get : flow_st -> list A) (put : list A -> flow_st -> flow_st) i f :
  (forall w l', lists_ok w -> update_at (get w) i f = Some l' -> lists_ok (put l' w)) ->
  Respects keeps_lists (l ← get_flow get; l' ← of_option (update_at l i f); mod_flow (put l')).
Proof.
  intros Hp c r c' E Hc. apply bind_inv in E as (l & c1 & H & E). injection H as <- <-.
  apply bind_inv in E as (l' & c1 & H & E). destruct (update_at _ _ _) as [l''|] eqn:U; [|done]. injection H as <- <-.
  injection E as _ <-. by apply Hp.
Qed.
Lemma add_sbr_keeps k p : entry_ok edge_ins k p -> Respects keeps_lists (list_add_sbr malloc k p).
Proof.
  intros He. unfold list_add_sbr, allocating. assert (forall i, Respects keeps_lists (l ← get_flow sbr_list;
    l' ← of_option (update_at l i (add_head k p)); mod_flow (with_sbr_list l'))); [|apply _].
  intros i. apply update_list_keeps. intros w l' [H1 H2 H3] U. split; cbn; try done.
  apply (update_at_Forall _ _ _ _ _ H1) in U; [done|]. intros h. by apply add_head_ok.
Qed.
Lemma add_stl_keeps k p : entry_ok (output_ins ++ edge_ins) k p -> Respects keeps_lists (list_add_stl malloc k p).
Proof.
  intros He. unfold list_add_stl, allocating. assert (forall i, Respects keeps_lists (l ← get_flow stl_list;
    l' ← of_option (update_at l i (add_head k p)); mod_flow (with_stl_list l'))); [|apply _].
  intros i. apply update_list_keeps. intros w l' [H1 H2 H3] U. split; cbn; try done.
  apply (update_at_Forall _ _ _ _ _ H2) in U; [done|]. intros h. by apply add_head_ok.
Qed.
Lemma add_mc_keeps n k p : entry_ok (output_ins ++ edge_ins) k p -> forall i, Respects keeps_lists (list_add_mc malloc n k p i).
Proof.
  intros He i. apply list_add_mc_respects; [apply _|]. clear i. intros i. unfold list_add_block, allocating.
  assert (forall b, Respects keeps_lists (l ← get_flow mc_mcr;
    l' ← of_option (update_at l b (add_block k p)); mod_flow (with_mc_mcr l'))); [|apply _].
  intros b. apply update_list_keeps. intros w l' [H1 H2 H3] U. split; cbn; try done.
  apply (update_at_Forall _ _ _ _ _ H3) in U; [done|]. intros x. by apply add_block_ok.
Qed.
(** A head that is emptied, and a new block. *)
Lemma empty_head_ok l : head_ok l empty_head.
Proof. by split. Qed.
Lemma reset_keeps (get : flow_st -> list plc_ins_list_head_st) (put : list plc_ins_list_head_st -> flow_st -> flow_st) n :
  (forall w l', lists_ok w -> zupdate (get w) n empty_head = Some l' -> lists_ok (put l' w)) ->
  Respects keeps_lists (l ← get_flow get; l' ← of_option (zupdate l n empty_head); mod_flow (put l')).
Proof.
  intros Hp c r c' E Hc. apply bind_inv in E as (l & c1 & H & E). injection H as <- <-.
  apply bind_inv in E as (l' & c1 & H & E). destruct (zupdate _ _ _) as [l''|] eqn:U; [|done]. injection H as <- <-.
  injection E as _ <-. by apply Hp.
Qed.
#[local] Instance sbr_keeps p : Respects keeps_lists (move_sbr p).
Proof.
  unfold move_sbr. assert (forall n, Respects keeps_lists (heads ← get_flow sbr_list;
    heads' ← of_option (zupdate heads n empty_head); mod_flow (with_sbr_list heads'))).
  { intros n. apply reset_keeps. intros w l' [H1 H2 H3] U. split; cbn; try done.
    refine (zupdate_Forall _ _ _ _ _ U _ H1). apply empty_head_ok. }
  assert (K : forall n (k : Mk (Z + Z)), Respects keeps_lists k -> Respects keeps_lists (heads ← get_flow sbr_list;
    heads' ← of_option (zupdate heads n empty_head); mod_flow (with_sbr_list heads');; k)).
  { intros n k Hk c r c' E. apply bind_inv in E as (l & c1 & H1 & E). apply bind_inv in E as (l' & c2 & H2 & E).
    apply bind_inv in E as (u & c3 & H3 & E). intros Hc. refine (Hk _ _ _ E _). refine (H n c u c3 _ Hc).
    unfold mbind at 1, M_bind at 1. rewrite H1. unfold mbind, M_bind. by rewrite H2. }
  comp_solve.
Qed.
#[local] Instance stl_keeps p : Respects keeps_lists (move_stl fuel p).
Proof.
  unfold move_stl. assert (forall n, Respects keeps_lists (heads ← get_flow stl_list;
    heads' ← of_option (zupdate heads n empty_head); mod_flow (with_stl_list heads'))).
  { intros n. apply reset_keeps. intros w l' [H1 H2 H3] U. split; cbn; try done.
    refine (zupdate_Forall _ _ _ _ _ U _ H2). apply empty_head_ok. }
  unfold set_flag_to, stl_scan. apply _.
Qed.
#[local] Instance mc_keeps p : Respects keeps_lists (move_mc malloc p).
Proof.
  intros c r c' E Hc. unfold move_mc in E.
  apply bind_inv in E as ([] & c1 & H & E). injection H as <-. apply bind_inv in E as (level & c1 & H & E). injection H as <- <-.
  apply bind_inv in E as (ok & c1 & H & E). injection H as <- <-. destruct (malloc _).
  - apply bind_inv in E as (blocks & c1 & H & E). injection H as <- <-. apply bind_inv in E as ([] & c1 & H & E).
    assert (F : same (fun c => flow (plc c)) (with_flag COMPILER_MC_MCR_INS c) c1).
    { assert (K : forall i o, Respects (same (fun c => flow (plc c))) (set_mc_ptr i o))
        by (unfold set_mc_ptr; intros; apply _).
      exact (K _ _ _ _ _ H). }
    unfold same in F. apply bind_inv in E as ([] & c2 & H2 & E). injection H2 as <-.
    apply bind_inv in E as ([] & c2 & H2 & E). injection H2 as <-. injection E as <- <-.
    destruct Hc as [H1 H2 H3]. split; cbn; rewrite ?F; cbn; try done.
    apply Forall_app_2; [done|]. apply Forall_singleton. by split.
  - apply bind_inv in E as ([] & c1 & H & E). injection E as <- <-.
    assert (K : forall i o, Respects keeps_lists (set_mc_ptr i o)) by (unfold set_mc_ptr; intros; apply _).
    apply (K _ _ _ _ _ H). by destruct Hc.
Qed.
Lemma special_keeps op p : Respects keeps_lists (move_special malloc fuel op p).
Proof.
  unfold move_special. repeat case_match; first [ apply _ | solve [comp_solve] ].
Qed.
Lemma add_simple_keeps p c : walked p -> ucode (plc c) = prog -> forall r c',
  plc_add_ins_to_simple_list malloc p c = Ok (r, c') -> lists_ok (flow (plc c)) -> lists_ok (flow (plc c')).
Proof.
  intros Hw Hp r c' E Hc. unfold plc_add_ins_to_simple_list in E. apply bind_inv in E as (flag & c1 & H & E). injection H as <- <-.
  apply bind_inv in E as (op & c1 & H & E). apply rd8_inv in H as [L ->]. rewrite Hp in L.
  unfold list_add in E. destruct (scv_CompilerInsFlag c) eqn:F; cbn [recorded_simple] in E;
    try (by injection E as <- <-);
    (match type of E with context [if ?b then _ else _] => destruct b eqn:R end; [|by injection E as <- <-]);
    unfold mbind at 1, M_bind at 1, gets at 1 in E; rewrite F in E;
    [ refine (add_stl_keeps Simple p _ _ _ _ E Hc) | | refine (add_sbr_keeps Simple p _ _ _ _ E Hc) ];
    try (split; [exact Hw|by exists op]).
  apply bind_inv in E as (n & c1 & H & E). injection H as <- <-.
  refine (add_mc_keeps _ Simple p _ _ _ _ _ E Hc). split; [exact Hw|by exists op].
Qed.
Lemma add_complex_keeps p c : walked p -> ucode (plc c) = prog -> forall r c',
  plc_add_ins_to_complex_list malloc p c = Ok (r, c') -> lists_ok (flow (plc c)) -> lists_ok (flow (plc c')).
Proof.
  intros Hw Hp r c' E Hc. unfold plc_add_ins_to_complex_list in E. apply bind_inv in E as (flag & c1 & H & E). injection H as <- <-.
  apply bind_inv in E as (op & c1 & H & E). apply rd16_inv in H as (-> & b0 & b1 & L0 & L1 & ->). rewrite Hp in L0, L1.
  destruct (recorded_complex _ _) eqn:R; [|by injection E as <- <-].
  assert (He : device_at p).
  { split; [exact Hw|]. exists b0, b1. split_and!; [done|done|]. by destruct (scv_CompilerInsFlag c). }
  unfold list_add in E. apply bind_inv in E as (flag & c1 & H & E). injection H as <- <-.
  destruct (scv_CompilerInsFlag c).
  - by injection E as <- <-.
  - exact (add_stl_keeps Complex p He _ _ _ E Hc).
  - apply bind_inv in E as (n & c1 & H & E). injection H as <- <-. exact (add_mc_keeps _ Complex p He _ _ _ _ E Hc).
  - exact (add_sbr_keeps Complex p He _ _ _ E Hc).
Qed.
Lemma step_keeps p c o c' : walked p -> ucode (plc c) = prog -> compile_step malloc fuel endp p c = Ok (o, c') ->
  lists_ok (flow (plc c)) -> lists_ok (flow (plc c')).
Proof.
  intros Hw Hp E Hc. unfold compile_step in E. destruct (p <? endp); [|by injection E as <- <-].
  apply bind_inv in E as (b & c1 & H & E). apply rd8_inv in H as [_ ->]. destruct (b <? SI_MAX_INS).
  - unfold compile_simple in E. apply bind_inv in E as (r & c1 & H & E). apply add_simple_keeps in H; [|done..].
    destruct (r =? pdPASS); [|by injection E as <- <-]. apply bind_inv in E as (m & c2 & H1 & E). injection E as _ <-.
    assert (K : Respects keeps_lists (plc_move_ucode_ptr_from_simple_ins p)) by (unfold plc_move_ucode_ptr_from_simple_ins; apply _).
    exact (K _ _ _ H1 H).
  - unfold compile_complex in E. apply bind_inv in E as (r & c1 & H & E). apply add_complex_keeps in H; [|done..].
    destruct (r =? pdPASS); [|by injection E as <- <-]. apply bind_inv in E as (m & c2 & H1 & E).
    assert (K : Respects keeps_lists (plc_move_ucode_ptr_from_complex_ins malloc fuel p)).
    { unfold plc_move_ucode_ptr_from_complex_ins. apply respects_bind; [apply _..|]. intros op.
      destruct (ci_length op); [apply _|apply special_keeps]. }
    apply K in H1. specialize (H1 H). destruct m; [by injection E as _ <-|].
    apply bind_inv in E as (op & c3 & H2 & E). apply rd16_inv in H2 as [-> _]. by injection E as _ <-.
Qed.
End lists.
Lemma clear_heads_ok prog walked l n heads heads' : Z.of_nat (length heads) = n -> clear_heads n heads = Some heads' ->
  Forall (head_ok prog walked l) heads'.
Proof.
  intros Hn H. unfold clear_heads in H. destruct (n <=? _); [|done]. injection H as <-.
  rewrite drop_ge by lia. rewrite app_nil_r. apply Forall_replicate, empty_head_ok.
Qed.
Lemma init_lists base c endp c1 prog walked : compile_init base c = Ok (endp, c1) ->
  Z.of_nat (length (sbr_list (flow (plc c)))) = MAX_SBR_COUNT -> Z.of_nat (length (stl_list (flow (plc c)))) = S_RANG ->
  lists_ok prog walked (flow (plc c1)).
Proof.
  intros E Hs Ht. unfold compile_init in E. apply bind_inv in E as ([] & c2 & H & E). injection H as <-.
  apply bind_inv in E as ([] & c3 & H & E). apply bind_inv in E as (n & c4 & H4 & E). injection E as _ <-.
  assert (F : flow (plc c4) = flow (plc c3)).
  { exact (respects (R := same (fun c => flow (plc c))) _ _ _ H4). }
  cbn. rewrite F. clear n H4 F. unfold plc_free_ins in H.
  apply bind_inv in H as (l1 & x & H1 & H). injection H1 as <- <-.
  apply bind_inv in H as (l2 & x & H1 & H). destruct (clear_heads MAX_SBR_COUNT _) as [h|] eqn:C1; [|done]. injection H1 as <- <-.
  apply bind_inv in H as ([] & x & H1 & H). injection H1 as <-.
  apply bind_inv in H as (l3 & x & H1 & H). injection H1 as <- <-.
  apply bind_inv in H as (l4 & x & H1 & H). destruct (clear_heads S_RANG _) as [h'|] eqn:C2; [|done]. injection H1 as <- <-.
  injection H as <-. split; cbn.
  - exact (clear_heads_ok _ _ _ _ _ _ Hs C1).
  - exact (clear_heads_ok _ _ _ _ _ _ Ht C2).
  - constructor.
Qed.

(** C27: the clearing routines never work on anything but instructions of the
    program: after an accepted program, every address in a list of a
    subroutine, a step or an MC block is an address the walk has come to; the
    lists of subroutines hold edge instructions and devices, the others coils
    as well. *)
Theorem recorded_addresses_sound base malloc fuel c c1 endp c' :
  Z.of_nat (length (sbr_list (flow (plc c)))) = MAX_SBR_COUNT -> Z.of_nat (length (stl_list (flow (plc c)))) = S_RANG ->
  compile_init base c = Ok (endp, c1) -> plc_compiler_ucode base malloc fuel c = Ok (pdPASS, c') ->
  lists_ok (ucode (plc c)) (checked malloc fuel endp c1) (flow (plc c')).
Proof.
  intros Hs Ht Hi Ha. unfold plc_compiler_ucode in Ha. unfold mbind at 1, M_bind at 1 in Ha. rewrite Hi in Ha.
  apply bind_inv in Ha as ([r q] & c2 & HL & Ha). cbn [fst snd] in Ha.
  destruct (Z.eqb_spec r pdPASS) as [->|]; [|by apply bind_inv in Ha as (? & ? & _ & Ha)]. injection Ha as <-.
  destruct (init_spec _ _ _ _ Hi) as (Hu & _ & _).
  set (LO := lists_ok (ucode (plc c)) (checked malloc fuel endp c1)).
  assert (H0 : LO (flow (plc c1))) by exact (init_lists _ _ _ _ _ _ Hi Hs Ht).
  enough (K : forall f p x, rtc (loop_step (compile_step malloc fuel endp)) (28, c1) (p, x) -> LO (flow (plc x)) ->
    loop f (compile_step malloc fuel endp) p x = Ok ((pdPASS, q), c2) -> LO (flow (plc c2))).
  { exact (K fuel 28 c1 (rtc_refl _ _) H0 HL). }
  clear HL. induction f as [|f IH]; intros p x HR Hx HL; [done|]. cbn [loop] in HL. apply bind_inv in HL as (o & y & E & HL).
  assert (Hy : LO (flow (plc y))).
  { refine (step_keeps _ _ malloc fuel endp p x o y _ _ E Hx); [by exists x|].
    assert (P := walk_prog malloc fuel endp _ _ HR). cbn [fst snd] in P. by rewrite P. }
  destruct o as [p'|rq]; [|by injection HL as _ <-].
  refine (IH p' y _ Hy HL). eapply rtc_r; [exact HR|exact E].
Qed.
Lemma recorded_addresses_sound_witness : exists c1 c', plc_compiler_ucode 0 always 100 ladder_demo = Ok (pdPASS, c') /\
  lists_ok (program_file ladder_code) (checked always 100 48 c1) (flow (plc c')).
Proof.
  destruct ladder_demo_init as (c1 & H1 & Hu), ladder_demo_accepted as (c' & H2). exists c1, c'. split; [exact H2|].
  apply (recorded_addresses_sound 0 always 100 ladder_demo c1 48 c'); [reflexivity|vm_compute; reflexivity|exact H1|exact H2].
Defined.

(** ** Nesting of blocks *)
Lemma rd8_run c p b : zlookup (ucode (plc c)) p = Some b -> rd8 p c = Ok (b, c).
Proof. intros H. unfold rd8, on_plc, GET_PU8_DATA. rewrite H. by rewrite with_plc_id. Qed.
Lemma rd16_run c p b0 b1 : zlookup (ucode (plc c)) p = Some b0 -> zlookup (ucode (plc c)) (p + 1) = Some b1 ->
  rd16 p c = Ok (b0 + Z.shiftl b1 8, c).
Proof. intros H0 H1. unfold rd16, on_plc, GET_PU16_DATA, GET_PU8_DATA, mbind, M_bind. rewrite H0, H1. unfold mret, M_ret. by rewrite with_plc_id. Qed.
(** The end of the outermost MC block ends the recording of whatever
    surrounds it: in a subroutine or a step, an instruction behind the MCR is
    in no list, so its edge, its timer and its coil are not cleared. *)
Theorem mcr_ends_recording malloc c p q b0 b1 :
  mc_NestedLevel (flow (plc c)) = 1 ->
  zlookup (ucode (plc c)) q = Some b0 -> zlookup (ucode (plc c)) (q + 1) = Some b1 ->
  exists c', move_mcr p c = Ok (inl (p + 6), c') /\
    stp_SbrListPtr c' = stp_SbrListPtr c /\ stp_StlListPtr c' = stp_StlListPtr c /\
    plc_add_ins_to_simple_list malloc q c' = Ok (pdPASS, c') /\
    plc_add_ins_to_complex_list malloc q c' = Ok (pdPASS, c').
Proof.
  intros Hl H0 H1.
  set (c1 := with_flag COMPILER_NORMAL_INS (with_plc (with_flow (with_NestedLevel 0 (flow (plc c))) (plc c)) c)). exists c1.
  split_and!; [|done|done| |].
  - unfold move_mcr, get_flow. unfold mbind at 1, M_bind at 1, gets at 1. by rewrite Hl.
  - unfold plc_add_ins_to_simple_list. unfold mbind at 1, M_bind at 1, gets at 1.
    unfold mbind at 1, M_bind at 1. by rewrite (rd8_run c1 (q + 1) b1 H1).
  - unfold plc_add_ins_to_complex_list. unfold mbind at 1, M_bind at 1, gets at 1.
    unfold mbind at 1, M_bind at 1. by rewrite (rd16_run c1 q b0 b1 H0 H1).
Qed.
(** In subroutine 3, behind the MCR of a block. *)
Definition mcr_demo : comp_st :=
  let c := comp0 [0; 0xA7; 7; 0] in
  with_flag COMPILER_MC_MCR_INS (with_SbrPtr (Some 3) (with_plc (with_flow (with_NestedLevel 1 (flow (plc c))) (plc c)) c)).
Lemma mcr_ends_recording_witness : exists c', move_mcr 100 mcr_demo = Ok (inl 106, c') /\ stp_SbrListPtr c' = Some 3 /\
  plc_add_ins_to_simple_list always 0 c' = Ok (pdPASS, c').
Proof.
  destruct (mcr_ends_recording always mcr_demo 100 0 0 0xA7) as (c' & H1 & H2 & _ & H3 & _); [reflexivity..|].
  exists c'. split_and!; [exact H1|exact H2|exact H3].
Defined.

(** ** The tables of the checker *)
Record tables_ok (c : comp_st) : Prop := {
  tk_calls : Z.of_nat (length (mlv_UCodeAddr (call_info (flow (plc c))))) = MAX_CALL_INS_USE_NUMBER;
  tk_sbr : Z.of_nat (length (mcp_SbrPc (call_info (flow (plc c))))) = MAX_SBR_COUNT;
  tk_mc : Z.of_nat (length (stap_McListPtr c)) = MAX_MC_MCR_BLOCK_NUMBER;
  tk_int : Z.of_nat (length (mtv_IntSource c)) = MAX_SYS_INT_NUM;
  tk_stl : Z.of_nat (length (stl_list (flow (plc c)))) = S_RANG }.
Lemma zupdate_out {A} (l : list A) i x : Z.of_nat (length l) <= i -> zupdate l i x = None.
Proof. intros H. unfold zupdate. rewrite decide_False; [done|lia]. Qed.
Lemma zlookup_out {A} (l : list A) i : Z.of_nat (length l) <= i -> zlookup l i = None.
Proof. intros H. unfold zlookup. case_decide; [|done]. apply lookup_ge_None. lia. Qed.
(** C37: the checker does not look at the size of its tables: an accepted
    subroutine number from 64, an accepted interrupt number from 60, a ninth
    open MC block, a step number from 4096 and a 257th CALL each make it
    write outside a table. *)
Theorem checker_tables_overrun malloc fuel c p v : tables_ok c -> rd16 (p + 2) c = Ok (v, c) ->
  ((0x140 <= v <= 0x1FF \/ 0x440 <= v <= 0x4FF) -> move_sbr p c = Ub) /\
  (0x23C <= v <= 0x2FF -> move_intr p c = Ub) /\
  (MAX_MC_MCR_BLOCK_NUMBER <= mc_NestedLevel (flow (plc c)) -> move_mc malloc p c = Ub) /\
  (forall op n, rd16 (p + 10) c = Ok (op, c) -> op <> CI_STL -> rd16 (p + 4) c = Ok (n, c) -> S_RANG <= n ->
     move_stl (S fuel) p c = Ub) /\
  (MAX_CALL_INS_USE_NUMBER <= msv_UseNum (call_info (flow (plc c))) -> move_call p c = Ub).
Proof.
  intros [T1 T2 T3 T4 T5] Hv.
  assert (Hand : forall k, 0 <= k <= 0xFF -> forall w, (w = k + 0x100 \/ w = k + 0x200 \/ w = k + 0x400) -> Z.land w 0xFF = k).
  { intros k Hk w Hw. change 0xFF with (Z.ones 8). rewrite Z.land_ones by lia.
    symmetry. destruct Hw as [ -> | [ -> | -> ] ];
      [apply (Z.mod_unique _ _ 1)|apply (Z.mod_unique _ _ 2)|apply (Z.mod_unique _ _ 4)]; lia. }
  split_and!.
  - intros Hr. unfold move_sbr. unfold mbind at 1, M_bind at 1. rewrite Hv.
    assert (exists n, sbr_number v = Some n /\ MAX_SBR_COUNT <= n) as (n & -> & Hn).
    { unfold sbr_number, MAX_SBR_COUNT. destruct Hr as [Hr|Hr].
      - exists (v - 0x100). rewrite (Hand (v - 0x100)) by lia. split; [|lia].
        by replace ((0x100 <=? v) && (v <=? 0x1FF)) with true by lia.
      - exists (v - 0x400). rewrite (Hand (v - 0x400)) by lia. split; [|lia].
        replace ((0x400 <=? v) && (v <=? 0x4FF)) with true by lia. by rewrite orb_true_r. }
    unfold get_flow. unfold mbind at 1, M_bind at 1, gets at 1. by rewrite zupdate_out by lia.
  - intros Hr. unfold move_intr. unfold mbind at 1, M_bind at 1. rewrite Hv.
    replace ((0x200 <=? v) && (v <=? 0x2FF)) with true by lia. rewrite (Hand (v - 0x200)) by lia.
    unfold mbind at 1, M_bind at 1, gets at 1, update_at. rewrite zlookup_out; [done|]. unfold MAX_SYS_INT_NUM in T4. lia.
  - intros Hl. unfold move_mc. unfold mbind at 1, M_bind at 1, set_flag_to at 1, modify at 1.
    unfold get_flow. unfold mbind at 1, M_bind at 1, gets at 1. cbn [plc with_flag].
    unfold mbind at 1, M_bind at 1, gets at 1.
    assert (K : forall o, set_mc_ptr (mc_NestedLevel (flow (plc c))) o (with_flag COMPILER_MC_MCR_INS c) = Ub).
    { intros o. unfold set_mc_ptr. unfold mbind at 1, M_bind at 1, gets at 1. cbn [stap_McListPtr with_flag].
      by rewrite zupdate_out by lia. }
    destruct (malloc _); unfold mbind at 1, M_bind at 1; [|by rewrite K].
    unfold gets at 1. unfold mbind at 1, M_bind at 1. by rewrite K.
  - intros op n Ho Hs Hn Hr. unfold move_stl, stl_scan. cbn [loop fst snd].
    unfold mbind at 1, M_bind at 1. unfold mbind at 1, M_bind at 1. unfold mbind at 1, M_bind at 1. rewrite Ho.
    assert (op =? CI_STL = false) as -> by (by apply Z.eqb_neq). cbn.
    unfold mbind, M_bind, set_flag_to, modify, rd16, on_plc in *.
    cbn [plc with_flag]. destruct (GET_PU16_DATA (p + 4) (plc c)) as [[n' s']| |] eqn:G; [|done..].
    injection Hn as -> Hs'. assert (s' = plc c) as -> by (by rewrite <- Hs').
    unfold get_flow, gets. cbn. by rewrite zupdate_out by lia.
  - intros Hc. unfold move_call, get_flow. unfold mbind at 1, M_bind at 1, gets at 1. by rewrite zupdate_out by lia.
Qed.
Definition sbr_demo : comp_st := comp0 [1; 0xF0; 0x40; 1].
Lemma sbr_demo_tables : tables_ok sbr_demo.
Proof. by split; vm_compute. Qed.
Lemma checker_tables_overrun_witness : move_sbr 0 sbr_demo = Ub.
Proof.
  apply (proj1 (checker_tables_overrun always 0 sbr_demo 0 0x140 sbr_demo_tables (rd16_run sbr_demo 2 0x40 1 eq_refl eq_refl))).
  left. split; zconc.
Defined.

(** ** String constants *)
Lemma skip_string_run s n : zlookup (ucode s) (mcp_PC (env s) + 2) = Some n -> zlookup (ucode s) (mcp_PC (env s) + 3) = Some 0x82 ->
  forall more other, skip_string 3 2 more other s = Ok (tt, with_PC (mcp_PC (env s) + (n + more)) s).
Proof.
  intros H2 H3 more other. unfold skip_string, get_PC, GET_PU8_DATA, mbind, M_bind, gets. rewrite H3.
  cbv beta iota. change (0x82 =? addr_code ADDR_STR) with true. cbv beta iota. by rewrite H2.
Qed.
(** STRMOV and STRINSTR carry a string constant as a length byte [n], the
    type byte 0x82 and the characters. The interpreter steps over it by [n];
    so does the checker for STRMOV, but for STRINSTR it looks for the type in
    the place of the length and goes on 18 bytes further whatever [n] is; it
    loses the boundary unless [n] is 2. *)
Theorem string_constant_lengths malloc fuel ins run f c s s' p n :
  ucode s = ucode (plc c) -> mcp_PC (env s) = p ->
  zlookup (ucode (plc c)) (p + 2) = Some n -> zlookup (ucode (plc c)) (p + 3) = Some 0x82 -> n <> 0x82 ->
  (ci_exec ins run f 0xF297 s = Ok (pdPASS, s') ->
     exists q, move_special malloc fuel 0xF297 p c = Ok (inl q, c) /\ mcp_PC (env s') = q) /\
  (ci_exec ins run f 0xF296 s = Ok (pdPASS, s') ->
     exists q, move_special malloc fuel 0xF296 p c = Ok (inl q, c) /\ (mcp_PC (env s') = q <-> n = 2)).
Proof.
  intros Hs Hp H2 H3 Hn.
  assert (X : forall h more other, Respects same_pc h -> Respects same_ucode h ->
    (r ← h; skip_string 3 2 more other;; mret r) s = Ok (pdPASS, s') -> mcp_PC (env s') = p + (n + more)).
  { intros h more other Hpc Hu E. apply bind_inv in E as (r & s1 & H & E). assert (F := Hpc _ _ _ H). apply Hu in H.
    unfold same_pc, same_ucode, same in F, H. unfold mbind at 1, M_bind at 1 in E.
    rewrite (skip_string_run s1 n) in E; [|by rewrite F, Hp, H, Hs..]. injection E as _ <-. cbn. by rewrite F, Hp. }
  split; intros E.
  - apply X in E; [|apply _..]. exists (p + (n + 8)). split; [|exact E]. unfold move_special, move_strmov.
    unfold mbind, M_bind. rewrite (rd8_run c (p + 3) _ H3). cbv beta iota. change (0x82 =? 0x82) with true.
    cbv beta iota. by rewrite (rd8_run c (p + 2) _ H2).
  - apply X in E; [|apply _..]. exists (p + 18). split; [|lia]. unfold move_special, move_strinstr.
    unfold mbind, M_bind. rewrite (rd8_run c (p + 2) _ H2). assert (n =? 0x82 = false) as R by (by apply Z.eqb_neq). by rewrite R.
Qed.
Definition string_demo : comp_st := comp0 [0x96; 0xF2; 5; 0x82].
Definition pass_ins (op : Z) : Mc Z := mret pdPASS.
Lemma string_constant_lengths_witness : exists s' q, ci_exec pass_ins idle_run 9 0xF296 (plc string_demo) = Ok (pdPASS, s') /\
  move_special always 9 0xF296 0 string_demo = Ok (inl q, string_demo) /\ mcp_PC (env s') <> q.
Proof.
  set (s' := with_PC (0 + (5 + 16)) (plc string_demo)).
  assert (E : ci_exec pass_ins idle_run 9 0xF296 (plc string_demo) = Ok (pdPASS, s')) by reflexivity.
  destruct (proj2 (string_constant_lengths always 9 pass_ins idle_run 9 string_demo (plc string_demo) s' 0 5
    eq_refl eq_refl eq_refl eq_refl ltac:(done)) E) as (q & H1 & H2).
  exists s', q. split_and!; [exact E|exact H1|]. rewrite H2. done.
Defined.

(** ** The verdict *)
(** The opcodes the checker treats apart, and what it does not know. *)
Definition specials : list Z :=
  [0xF290; 0xF296; 0xF297; 0xF021; 0xF001; 0xF023; 0xF022; 0xF002; 0xF01C; 0xF01D; 0xF00E; 0xF012].
Lemma special_unknown malloc fuel op p c : ~ op ∈ specials -> move_special malloc fuel op p c = Ok (inr ERR_COMPILER, c).
Proof.
  intros H. unfold move_special. repeat case_match; try done; exfalso; apply H; subst; rewrite <- z_in_spec; reflexivity.
Qed.
(** C28: in an accepted program everything the walk has come to is an
    instruction the checker knows, or the end mark. CONTINUE and BREAK, which
    would make the interpreter turn for ever, are not among them. *)
Theorem accepted_opcodes_known base malloc fuel c c1 endp c' p b :
  compile_init base c = Ok (endp, c1) -> plc_compiler_ucode base malloc fuel c = Ok (pdPASS, c') ->
  checked malloc fuel endp c1 p -> p < endp -> zlookup (ucode (plc c)) (p + 1) = Some b ->
  (b < SI_MAX_INS -> is_Some (simple_length b)) /\
  (SI_MAX_INS <= b -> forall b0, zlookup (ucode (plc c)) p = Some b0 ->
     let op := b0 + Z.shiftl b 8 in
     (is_Some (ci_length op) \/ op ∈ specials \/ op = CI_END) /\ op <> 0xF222 /\ op <> 0xF223).
Proof.
  intros Hi Ha [x HR] Hp Hb. unfold plc_compiler_ucode in Ha. unfold mbind at 1, M_bind at 1 in Ha. rewrite Hi in Ha.
  apply bind_inv in Ha as ([r q] & c2 & HL & Ha). cbn [fst snd] in Ha.
  destruct (Z.eqb_spec r pdPASS) as [->|]; [|by apply bind_inv in Ha as (? & ? & _ & Ha)].
  destruct (init_spec _ _ _ _ Hi) as (Hu & _ & _). assert (Hx := walk_prog malloc fuel endp _ _ HR). cbn [fst snd] in Hx.
  rewrite <- Hu, <- Hx in Hb.
  assert (E : exists o y, compile_step malloc fuel endp p x = Ok (o, y) /\ forall r q, o = inr (r, q) -> r = pdPASS).
  { destruct (accepted_step malloc fuel endp fuel p c1 x q c2 HL HR) as [(q' & y & E & _)|(q' & y & E)];
      eexists _, y; (split; [exact E|]); [done|by intros ? ? [= <-]]. }
  destruct E as (o & y & E & Ho). split.
  - intros Hs. assert (F := simple_step malloc fuel endp p x b o y Hp Hb Hs E).
    destruct o as [q'|[r q']]; [destruct F as (n & -> & _); by eexists|by destruct (F (Ho r q' eq_refl))].
  - intros Hs b0 Hb0. cbv zeta. set (op := b0 + Z.shiftl b 8). rewrite <- Hu, <- Hx in Hb0.
    assert (K : is_Some (ci_length op) \/ op ∈ specials \/ op = CI_END).
    2: { split; [exact K|]. split; intros ->; destruct K as [[n K]|[K|K]]; try done; by rewrite <- z_in_spec in K. }
    destruct (ci_length op) as [n|] eqn:N; [left; by eexists|]. right.
    destruct (decide (op ∈ specials)) as [|Hns]; [by left|]. right.
    unfold compile_step in E. assert (p <? endp = true) as R1 by lia. rewrite R1 in E. unfold mbind at 1, M_bind at 1 in E.
    rewrite (rd8_run x (p + 1) b Hb) in E. assert (b <? SI_MAX_INS = false) as R2 by lia. rewrite R2 in E.
    unfold compile_complex in E. apply bind_inv in E as (r & z & H & E).
    assert (P := add_complex_frame same_prog malloc p _ _ _ H). unfold same_prog, same in P. rewrite <- P in Hb0, Hb.
    destruct (Z.eqb_spec r pdPASS) as [->|Hr]; [|injection E as <- <-; by destruct (Hr (Ho r p eq_refl))].
    unfold plc_move_ucode_ptr_from_complex_ins in E. apply bind_inv in E as (m & z' & H1 & E).
    unfold mbind at 1, M_bind at 1 in H1. rewrite (rd16_run z p b0 b Hb0 Hb) in H1. fold op in H1.
    rewrite N, (special_unknown _ _ _ _ _ Hns) in H1. injection H1 as <- <-.
    unfold mbind at 1, M_bind at 1 in E. rewrite (rd16_run z p b0 b Hb0 Hb) in E. fold op in E. injection E as <- <-.
    destruct (Z.eqb_spec op CI_END) as [|Hne]; [done|]. by specialize (Ho _ _ eq_refl).
Qed.
Lemma accepted_opcodes_known_witness : exists c1, compile_init 0 ladder_demo = Ok (48, c1) /\ is_Some (simple_length 0x10).
Proof.
  destruct ladder_demo_init as (c1 & H1 & Hu), ladder_demo_accepted as (c' & H2). exists c1. split; [exact H1|].
  refine (proj1 (accepted_opcodes_known 0 always 100 ladder_demo c1 48 c' 28 0x10 H1 H2 _ _ _) _);
    [by eexists|done|reflexivity|done].
Defined.

(** The error state of the machine. *)
Definition same_sys : relation comp_st := same (fun c => sys (plc c)).
#[global] Instance same_sys_frame : CheckerFrame same_sys.
Proof. by split; [unfold same_sys; apply _|..]. Qed.
#[global] Instance move_call_sys p : Respects same_sys (move_call p).
Proof.
  unfold move_call. repeat autounfold with comp.
  assert (forall f, Respects same_sys (modify (fun c => with_plc (with_flow (f (flow (plc c))) (plc c)) c)))
    by (intros f; by apply respects_modify).
  apply _.
Qed.
Lemma init_sys base : Respects same_sys (compile_init base).
Proof.
  assert (forall f, Respects same_sys (modify (fun c => with_plc (with_flow (f (flow (plc c))) (plc c)) c)))
    by (intros f; by apply respects_modify).
  pose proof (free_ins_frame same_sys) as H1. unfold compile_init, call_info_init, mod_call_info, mod_flow, set_flag_to. apply _.
Qed.
(** C33: the verdict of the checker: an accepted program leaves the error
    state alone; a refused one raises the stop error of the user program and
    puts the address of the refusal on record. *)
Theorem checker_verdict base malloc fuel c r c' :
  record_ok (err_record (sys (plc c))) -> plc_compiler_ucode base malloc fuel c = Ok (r, c') ->
  (r = pdPASS /\ sys (plc c') = sys (plc c)) \/
  (r = pdFAIL /\ get_flag stop_ucode_err (guv_StopError (sys (plc c'))) = true /\
   exists endp c1 code q c2, compile_init base c = Ok (endp, c1) /\
     loop fuel (compile_step malloc fuel endp) 28 c1 = Ok ((code, q), c2) /\ code <> pdPASS /\
     u32 q ∈ recorded (err_record (sys (plc c')))).
Proof.
  intros Hok E. unfold plc_compiler_ucode in E. apply bind_inv in E as (endp & c1 & Hi & E).
  apply bind_inv in E as ([code q] & c2 & HL & E). cbn [fst snd] in E.
  assert (S1 := init_sys base _ _ _ Hi).
  assert (S2 : same_sys c1 c2).
  { assert (forall p, Respects same_sys (compile_step malloc fuel endp p)) by (intros p; apply compile_step_frame; apply _).
    exact (respects (R := same_sys) _ _ _ HL). }
  unfold same_sys, same in S1, S2. destruct (Z.eqb_spec code pdPASS) as [->|Hc].
  - injection E as <- <-. left. split; [done|]. by rewrite S2, S1.
  - right. apply bind_inv in E as ([] & c3 & H & E). injection E as <- <-.
    rewrite <- S1, <- S2 in Hok. destruct (record_error_run code (u32 q) _ Hok) as (r' & Hr & _ & Hq).
    unfold on_plc in H. unfold set_stop_flag, mod_sys, plc_refresh_exec_error_record, gets, modify, mbind, M_bind in H.
    cbn [sys with_sys err_record with_StopError] in H. rewrite Hr in H. injection H as <-.
    split_and!; [done|by apply (get_set_flag stop_ucode_err stop_ucode_err true)|].
    exists endp, c1, code, q, c2. split_and!; [done..|]. cbn. rewrite Hq.
    case_decide; [done|]. case_decide; set_solver.
Qed.
Definition bad_demo : comp_st := comp0 (program_file [5; 0x10; 0x22; 0xF2]).
Lemma bad_demo_refused : exists c', plc_compiler_ucode 0 always 100 bad_demo = Ok (pdFAIL, c').
Proof. apply result_run. vm_compute. reflexivity. Qed.
Lemma bad_demo_record : record_ok (err_record (sys (plc bad_demo))).
Proof. split; [zconc|done..|constructor]. Qed.
Lemma checker_verdict_witness : exists c', plc_compiler_ucode 0 always 100 bad_demo = Ok (pdFAIL, c') /\
  get_flag stop_ucode_err (guv_StopError (sys (plc c'))) = true.
Proof.
  destruct bad_demo_refused as (c' & H). exists c'. split; [exact H|].
  destruct (checker_verdict 0 always 100 bad_demo pdFAIL c' bad_demo_record H) as [[E _]|(_ & E & _)]; [discriminate E|exact E].
Defined.

(** ** Subroutines that are called and not there *)
(** The checker numbers the CALLs without asking whether their
    subroutines exist; a powered CALL of a subroutine that is not in the
    program reads through the null pointer the checker has left. *)
Theorem missing_subroutine_call run fuel pc id n s :
  wf_elem (elem s) -> mcp_PC (env s) = pc -> plc_get_call_ins_id pc s = Ok ((pdPASS, Some id), s) ->
  0 <= id < Z.of_nat (length (mcv_IsExec (call_info (flow s)))) ->
  (exists len, plc_call_instruction_length pc s = Ok (len, s)) ->
  GET_PU16_DATA (pc + 2) s = Ok (n, s) -> zlookup (mcp_SbrPc (call_info (flow s))) (Z.land n 0xFF) = Some NULL_PC ->
  nested s < MAX_SBR_NESTED_LAYER -> get_pf (mlv_InPF (env s)) = true ->
  run_ci_call_ins run fuel s = Ub.
Proof.
  intros W <- Hid Hr [len Hlen] Hn Hnull Hd Hpf. unfold run_ci_call_ins.
  unfold get_PC at 1. unfold mbind at 1, M_bind at 1, gets at 1.
  rewrite (bind_run _ _ _ _ _ Hid). cbn [fst snd]. change (negb (pdPASS =? pdPASS)) with false. cbv match.
  rewrite bind_some, (bind_run _ _ _ _ _ Hlen). assert (Hg : get_nested s = Ok (nested s, s)) by done.
  assert (Hp : GET_POWER_FLOW s = Ok (true, s)) by (unfold GET_POWER_FLOW, gets; by rewrite Hpf).
  rewrite (bind_run _ _ _ _ _ Hg). assert (MAX_SBR_NESTED_LAYER <=? nested s = false) as -> by lia.
  rewrite (bind_run _ _ _ _ _ Hn), (bind_run _ _ _ _ _ Hp).
  pose proof (zupdate_lt (mcv_IsExec (call_info (flow s))) id 1 Hr) as U. set (l' := <[_ := 1]> _) in U.
  set (s1 := with_flow (with_call_info (with_IsExec l' (call_info (flow s))) (flow s)) s).
  assert (Hset : set_IsExec id 1 s = Ok (tt, s1)).
  { unfold set_IsExec, call_info_get, gets. unfold mbind at 1, M_bind at 1. by rewrite U, bind_some. }
  rewrite (bind_run _ _ _ _ _ Hset). unfold call_info_get at 1, gets. unfold mbind at 1, M_bind at 1.
  change (mcp_SbrPc (call_info (flow s1))) with (mcp_SbrPc (call_info (flow s))). by rewrite Hnull, bind_some.
Qed.
(** LDI X0 and CALL 3, in a program without subroutines: accepted, and
    undefined when it runs. *)
Definition missing_demo : comp_st :=
  comp0 (program_file [0; 0x20; 0x21; 0xF0; 3; 1; 0; 0; 0; 0; 0; 0; 0x2B; 0xF0; 0xFF; 0xFF; 0; 0]).
Example missing_demo_runs : match plc_compiler_ucode 0 always 100 missing_demo with
  | Ok (r, c) => (r =? pdPASS) && match plc_run_user_program no_ins tick 20 28 (plc c) with Ub => true | _ => false end
  | _ => false end = true.
Proof. vm_compute. reflexivity. Qed.
Definition missing_calls : plc_call_ins_info_st :=
  {| msv_SbrNestedNum := 0; msv_UseNum := 1; mlv_UCodeAddr := [0]; mcv_IsExec := [0];
     mcp_RetPc := replicate 8 NULL_PC; mcp_SbrPc := [NULL_PC] |}.
Definition missing_call (s : plc_st) : plc_st := with_flow (with_call_info missing_calls (flow s)) (with_InPF 1 s).
Lemma missing_call_id s : plc_get_call_ins_id 0 (missing_call s) = Ok ((pdPASS, Some 0), missing_call s).
Proof. reflexivity. Qed.
Lemma missing_subroutine_call_witness : run_ci_call_ins idle_run 10 (missing_call (st0 [0x21; 0xF0; 0; 0; 0; 0; 0; 0; 0; 0])) = Ub.
Proof.
  apply (missing_subroutine_call idle_run 10 0 0 0); [exact wf_elem0|reflexivity|apply missing_call_id|zconc| |reflexivity..].
  exists 10. reflexivity.
Defined.
