(* ===== verification/CheckerTotal.v ===== *)
(** * The program checker comes back with a verdict

    Total correctness of the walk of Compiler.v: the only thing that can keep
    the checker from a verdict is an instruction its tables have no room for.
    [overruns] names those instructions, [walking] is the invariant of the
    tables along the walk, and every operation is run under it with [wp]. *)
From stdpp Require Import base list numbers sets.
From S2P Require Import Prelude Element Machine ParseAddr ParseAddrFacts SimpleIns SimpleFacts Device CounterIns TimeIns.
From S2P Require Import DataIns FlowCtrl Call ComplexIns Executer ExecFacts Effects DataEffects Stl ProgramFacts Compiler LengthFacts CompilerFacts.

(** The word at an address of the program. *)
Definition word_at (l : list Z) (p : Z) : option Z :=
  b0 ← zlookup l p; b1 ← zlookup l (p + 1); Some (b0 + Z.shiftl b1 8).
Definition holds_at (f : Z -> bool) (o : option Z) : bool := match o with Some v => f v | None => false end.
(** The instruction at [p] makes the checker write outside a table: a 257th
    CALL, a subroutine from number 64, an interrupt from number 60, a ninth
    open MC block, a single STL of a step from number 4096. *)
Definition overruns (p : Z) (c : comp_st) : bool :=
  let l := ucode (plc c) in
  holds_at (fun op =>
    if op =? CI_CALL then MAX_CALL_INS_USE_NUMBER <=? msv_UseNum (call_info (flow (plc c)))
    else if op =? CI_SBR then holds_at (fun v => holds_at (Z.leb MAX_SBR_COUNT) (sbr_number v)) (word_at l (p + 2))
    else if op =? 0xF002 then
      holds_at (fun v => (0x200 <=? v) && (v <=? 0x2FF) && (MAX_SYS_INT_NUM <=? Z.land v 0xFF)) (word_at l (p + 2))
    else if op =? 0xF01C then MAX_MC_MCR_BLOCK_NUMBER <=? mc_NestedLevel (flow (plc c))
    else if op =? CI_STL then
      negb (holds_at (Z.eqb CI_STL) (word_at l (p + 10))) && holds_at (Z.leb S_RANG) (word_at l (p + 4))
    else false) (word_at l p).

(** ** The tables *)
(** Their sizes, and pointers that point into them. *)
Record tables (c : comp_st) : Prop := {
  tb_ok : tables_ok c;
  tb_heads : Z.of_nat (length (sbr_list (flow (plc c)))) = MAX_SBR_COUNT;
  tb_stl_ptr : forall n, stp_StlListPtr c = Some n -> 0 <= n < S_RANG;
  tb_sbr_ptr : forall n, stp_SbrListPtr c = Some n -> 0 <= n < MAX_SBR_COUNT }.
(** During the walk: every open block is in the chain. *)
Record walking (c : comp_st) : Prop := {
  wk_tables : tables c;
  wk_used : 0 <= msv_UseNum (call_info (flow (plc c)));
  wk_level : 0 <= mc_NestedLevel (flow (plc c));
  wk_open : forall i, 0 <= i < mc_NestedLevel (flow (plc c)) ->
    exists b, zlookup (stap_McListPtr c) i = Some (Some b) /\ 0 <= b < Z.of_nat (length (mc_mcr (flow (plc c)))) }.
(** A property of the state that only looks at what the checker records, not
    at the entries, has these to be shown again after an update. *)
Ltac walking_solve := match goal with H : walking _ |- _ => destruct H as [[[? ? ? ? ?] ? ? ?] ? ? ?] end;
  (split; [split; [split|..]|..]); cbn in *;
  first [ done | congruence | lia | (intros; simplify_eq; done) | (intros; simplify_eq; lia) ].

Lemma update_at_wp {A} (l : list A) i f : 0 <= i < Z.of_nat (length l) ->
  exists l', update_at l i f = Some l' /\ length l' = length l.
Proof.
  intros H. unfold update_at. destruct (proj2 (zlookup_is_Some l i) H) as [x ->]. cbn.
  rewrite (zupdate_lt l i _ H). eexists. split; [done|]. apply length_insert.
Qed.
Lemma zupdate_wp {A} (l : list A) i x : 0 <= i < Z.of_nat (length l) ->
  exists l', zupdate l i x = Some l' /\ length l' = length l /\ forall j, j <> i -> zlookup l' j = zlookup l j.
Proof.
  intros H. rewrite (zupdate_lt l i x H). eexists. split; [done|]. split; [apply length_insert|].
  intros j Hj. apply (zlookup_zupdate_ne l i j x); [by apply zupdate_lt|done].
Qed.

(** ** Reading *)
Lemma word_at_ok l p : 0 <= p -> p + 1 < Z.of_nat (length l) -> exists w, word_at l p = Some w.
Proof.
  intros H0 H1. unfold word_at. destruct (proj2 (zlookup_is_Some l p)) as [b0 ->]; [lia|]. cbn.
  destruct (proj2 (zlookup_is_Some l (p + 1))) as [b1 ->]; [lia|]. by eexists.
Qed.
Lemma rd16_word p c w : word_at (ucode (plc c)) p = Some w -> rd16 p c = Ok (w, c).
Proof.
  unfold word_at. destruct (zlookup _ p) as [b0|] eqn:E0; [|done]. cbn.
  destruct (zlookup _ (p + 1)) as [b1|] eqn:E1; [|done]. cbn. intros [= <-]. by apply rd16_run.
Qed.
Lemma wp_rd16 p c (Q : Z -> comp_st -> Prop) : 0 <= p -> p + 1 < Z.of_nat (length (ucode (plc c))) ->
  (forall w, word_at (ucode (plc c)) p = Some w -> Q w c) -> wp (rd16 p) Q c.
Proof. intros H0 H1 HQ. destruct (word_at_ok _ p H0 H1) as [w E]. unfold wp. rewrite (rd16_word p c w E). by apply HQ. Qed.
Lemma wp_rd8 p c (Q : Z -> comp_st -> Prop) : bytes_ok (ucode (plc c)) -> 0 <= p < Z.of_nat (length (ucode (plc c))) ->
  (forall b, 0 <= b < 2 ^ 8 -> Q b c) -> wp (rd8 p) Q c.
Proof.
  intros Hb H HQ. destruct (proj2 (zlookup_is_Some _ p) H) as [b E]. unfold wp. rewrite (rd8_run c p b E). apply HQ.
  apply zlookup_Some in E as [_ E]. exact (Forall_lookup_1 _ _ _ _ Hb E).
Qed.
Lemma wp_get_flow {A} (f : flow_st -> A) (Q : A -> comp_st -> Prop) c : Q (f (flow (plc c))) c -> wp (get_flow f) Q c.
Proof. done. Qed.
Lemma wp_mod_flow f (Q : unit -> comp_st -> Prop) c : Q tt (with_plc (with_flow (f (flow (plc c))) (plc c)) c) -> wp (mod_flow f) Q c.
Proof. done. Qed.
Lemma wp_set_flag v (Q : unit -> comp_st -> Prop) c : Q tt (with_flag v c) -> wp (set_flag_to v) Q c.
Proof. done. Qed.

(** ** Recording an instruction *)
Section recording.
Context (malloc : comp_st -> bool).
Lemma list_add_stl_wp k p c : walking c -> wp (list_add_stl malloc k p) (fun _ => walking) c.
Proof.
  intros W. unfold list_add_stl. apply wp_bind, wp_gets. destruct (stp_StlListPtr c) as [n|] eqn:En; [|by apply wp_ret].
  unfold allocating. apply wp_bind, wp_gets. destruct (malloc c); [|by apply wp_ret].
  assert (Hn := tb_stl_ptr c (wk_tables c W) n En). assert (Hl := tk_stl c (tb_ok c (wk_tables c W))).
  destruct (update_at_wp (stl_list (flow (plc c))) n (add_head k p)) as (l' & E & L); [lia|].
  apply wp_bind, wp_bind, wp_get_flow, wp_bind. refine (wp_of_option _ _ _ _ E _).
  apply wp_mod_flow, wp_ret. walking_solve.
Qed.
Lemma list_add_sbr_wp k p c : walking c -> wp (list_add_sbr malloc k p) (fun _ => walking) c.
Proof.
  intros W. unfold list_add_sbr. apply wp_bind, wp_gets. destruct (stp_SbrListPtr c) as [n|] eqn:En; [|by apply wp_ret].
  unfold allocating. apply wp_bind, wp_gets. destruct (malloc c); [|by apply wp_ret].
  assert (Hn := tb_sbr_ptr c (wk_tables c W) n En). assert (Hl := tb_heads c (wk_tables c W)).
  destruct (update_at_wp (sbr_list (flow (plc c))) n (add_head k p)) as (l' & E & L); [lia|].
  apply wp_bind, wp_bind, wp_get_flow, wp_bind. refine (wp_of_option _ _ _ _ E _).
  apply wp_mod_flow, wp_ret. walking_solve.
Qed.
Lemma list_add_block_wp k p i c : walking c -> 0 <= i < mc_NestedLevel (flow (plc c)) ->
  wp (list_add_block malloc k p i) (fun _ c' => walking c' /\ mc_NestedLevel (flow (plc c')) = mc_NestedLevel (flow (plc c))) c.
Proof.
  intros W Hi. unfold list_add_block, allocating. apply wp_bind, wp_gets. destruct (malloc c); [|by apply wp_ret].
  destruct (wk_open c W i Hi) as (b & E & Hb).
  destruct (update_at_wp (mc_mcr (flow (plc c))) b (add_block k p)) as (l' & E' & L); [lia|].
  apply wp_bind, wp_bind, wp_gets, wp_bind. refine (wp_of_option _ _ _ _ E _). apply wp_bind.
  refine (wp_of_option _ _ _ _ eq_refl _). apply wp_bind, wp_get_flow, wp_bind. refine (wp_of_option _ _ _ _ E' _).
  apply wp_mod_flow, wp_ret. split; [|done]. destruct W as [[[] ? ? ?] ? ? Ho].
  split; [split; [by split|done..]|done..|]. intros j Hj. cbn. rewrite L. by apply Ho.
Qed.
Lemma list_add_mc_wp n k p : forall i c, walking c -> 0 <= i -> i + Z.of_nat n = mc_NestedLevel (flow (plc c)) ->
  wp (list_add_mc malloc n k p i) (fun _ => walking) c.
Proof.
  induction n as [|n IH]; intros i c W H0 Hn; cbn [list_add_mc]; [by apply wp_ret|].
  apply wp_bind. eapply wp_mono; [apply list_add_block_wp; [done|lia]|]. intros r c' [W' L].
  destruct (r =? pdPASS); [|by apply wp_ret]. apply IH; [done|lia|lia].
Qed.
Lemma list_add_wp k p c : walking c -> wp (list_add malloc k p) (fun _ => walking) c.
Proof.
  intros W. unfold list_add. apply wp_bind, wp_gets. destruct (scv_CompilerInsFlag c).
  - by apply wp_ret.
  - by apply list_add_stl_wp.
  - assert (L := wk_level c W). apply wp_bind, wp_get_flow, list_add_mc_wp; [done|lia|lia].
  - by apply list_add_sbr_wp.
Qed.
Lemma add_simple_wp p c : bytes_ok (ucode (plc c)) -> 0 <= p -> p + 1 < Z.of_nat (length (ucode (plc c))) ->
  walking c -> wp (plc_add_ins_to_simple_list malloc p) (fun _ => walking) c.
Proof.
  intros Hb H0 H1 W. unfold plc_add_ins_to_simple_list. apply wp_bind, wp_gets, wp_bind, wp_rd8; [done|lia|]. intros op _.
  destruct (recorded_simple _ _); [by apply list_add_wp|by apply wp_ret].
Qed.
Lemma add_complex_wp p c : 0 <= p -> p + 1 < Z.of_nat (length (ucode (plc c))) ->
  walking c -> wp (plc_add_ins_to_complex_list malloc p) (fun _ => walking) c.
Proof.
  intros H0 H1 W. unfold plc_add_ins_to_complex_list. apply wp_bind, wp_gets, wp_bind, wp_rd16; [done|lia|]. intros op _.
  destruct (recorded_complex _ _); [by apply list_add_wp|by apply wp_ret].
Qed.
End recording.

(** ** Moving over an instruction *)
Section moving.
Context (malloc : comp_st -> bool) (fuel : nat) (endp : Z).
(** What is read: the bytes of the program, up to 260 of them behind its last
    instruction, and no STL behind its end. *)
Record readable (l : list Z) : Prop := {
  rb_bytes : bytes_ok l;
  rb_behind : endp + 260 <= Z.of_nat (length l);
  rb_stl : forall q, endp <= q -> word_at l q <> Some CI_STL }.
Context (p : Z) (c : comp_st) (Hr : readable (ucode (plc c))) (Hfuel : Z.of_nat (length (ucode (plc c))) < Z.of_nat fuel) (H0 : 0 <= p) (Hp : p < endp) (W : walking c).
Let Hb : bytes_ok (ucode (plc c)) := rb_bytes _ Hr.
Let Hl : p + 261 <= Z.of_nat (length (ucode (plc c))).
Proof. destruct Hr. lia. Qed.

Lemma move_stradd_wp : wp (move_stradd p) (fun _ => walking) c.
Proof.
  unfold move_stradd. apply wp_bind, wp_rd8; [done|lia|]. intros t _.
  assert (K : forall q, 0 <= q < p + 260 -> wp (t' ← rd8 q;
    if t' =? 0x82 then n ← rd8 (q + 1); mret (inl (q + n + 6)) else mret (inl (q + 8)) : Mk (Z + Z)) (fun _ => walking) c).
  { intros q Hq. apply wp_bind, wp_rd8; [done|lia|]. intros t' _. destruct (t' =? 0x82); [|by apply wp_ret].
    apply wp_bind, wp_rd8; [done|lia|]. intros n _. by apply wp_ret. }
  apply wp_bind. destruct (t =? 0x82); [|apply wp_ret, K; lia].
  apply wp_bind, wp_rd8; [done|lia|]. intros n Hn. apply wp_ret, K. lia.
Qed.
(** STRINSTR and STRMOV. *)
Lemma move_string_wp a b (f : Z -> Z) v : 2 <= a <= 3 -> 2 <= b <= 3 ->
  wp (t ← rd8 (p + a); if t =? 0x82 then n ← rd8 (p + b); mret (inl (f n)) else mret (inl v) : Mk (Z + Z)) (fun _ => walking) c.
Proof.
  intros Ha Hb'. apply wp_bind, wp_rd8; [done|lia|]. intros t _. destruct (t =? 0x82); [|by apply wp_ret].
  apply wp_bind, wp_rd8; [done|lia|]. intros n _. by apply wp_ret.
Qed.
Lemma call_length_wp c' (Q : Z -> comp_st -> Prop) : ucode (plc c') = ucode (plc c) -> (forall n, Q n c') ->
  wp (on_plc (plc_call_instruction_length p)) Q c'.
Proof.
  intros Hu HQ. destruct (word_at_ok (ucode (plc c')) (p + 4)) as [x X]; [lia|rewrite Hu; lia|].
  destruct (word_at_ok (ucode (plc c')) (p + 6)) as [y Y]; [lia|rewrite Hu; lia|].
  destruct (word_at_ok (ucode (plc c')) (p + 8)) as [z Z]; [lia|rewrite Hu; lia|].
  assert (K : forall q w, word_at (ucode (plc c')) q = Some w -> GET_PU16_DATA q (plc c') = Ok (w, plc c')).
  { intros q w E. apply rd16_word in E. unfold rd16, on_plc in E. destruct (GET_PU16_DATA q (plc c')) as [[w' s]| |]; [|done..].
    injection E as -> E. apply (f_equal plc) in E. cbn in E. by rewrite E. }
  unfold wp, on_plc, plc_call_instruction_length. rewrite (run_bind _ _ _ _ _ (K _ _ X)), (run_bind _ _ _ _ _ (K _ _ Y)),
    (run_bind _ _ _ _ _ (K _ _ Z)). cbn. rewrite with_plc_id. apply HQ.
Qed.
Lemma move_call_wp : msv_UseNum (call_info (flow (plc c))) < MAX_CALL_INS_USE_NUMBER -> wp (move_call p) (fun _ => walking) c.
Proof.
  intros Hn. assert (Hc := tk_calls c (tb_ok c (wk_tables c W))). assert (Hu := wk_used c W).
  destruct (zupdate_wp (mlv_UCodeAddr (call_info (flow (plc c)))) (msv_UseNum (call_info (flow (plc c)))) p) as (l & E & L & _); [lia|].
  unfold move_call. apply wp_bind, wp_get_flow, wp_bind. refine (wp_of_option _ _ _ _ E _).
  apply wp_bind, wp_mod_flow, wp_bind, wp_mod_flow, wp_bind, call_length_wp; [done|]. intros n. apply wp_ret.
  assert (R := u16_range (msv_UseNum (call_info (flow (plc c))) + 1)). walking_solve.
Qed.
Lemma move_sbr_wp : (forall v n, word_at (ucode (plc c)) (p + 2) = Some v -> sbr_number v = Some n -> n < MAX_SBR_COUNT) ->
  wp (move_sbr p) (fun _ => walking) c.
Proof.
  intros Hn. unfold move_sbr. apply wp_bind, wp_rd16; [lia|lia|]. intros v Hv. destruct (sbr_number v) as [n|] eqn:En; [|by apply wp_ret].
  specialize (Hn v n Hv En). assert (0 <= n).
  { unfold sbr_number in En. destruct (_ || _) eqn:B; [|done]. injection En as <-. apply Z.land_nonneg. right. lia. }
  assert (S1 := tk_sbr c (tb_ok c (wk_tables c W))). assert (S2 := tb_heads c (wk_tables c W)).
  destruct (zupdate_wp (mcp_SbrPc (call_info (flow (plc c)))) n p) as (l & E & L & _); [lia|].
  destruct (zupdate_wp (sbr_list (flow (plc c))) n empty_head) as (l2 & E2 & L2 & _); [lia|].
  apply wp_bind, wp_get_flow, wp_bind. refine (wp_of_option _ _ _ _ E _).
  apply wp_bind, wp_mod_flow, wp_bind, wp_set_flag, wp_bind, wp_modify, wp_bind, wp_get_flow, wp_bind. refine (wp_of_option _ _ _ _ E2 _).
  apply wp_bind, wp_mod_flow, wp_ret. walking_solve.
Qed.
Lemma move_sret_wp : wp (move_sret p) (fun _ => walking) c.
Proof. unfold move_sret. apply wp_bind, wp_set_flag, wp_bind, wp_modify, wp_ret. walking_solve. Qed.
Lemma move_intr_wp : (forall v, word_at (ucode (plc c)) (p + 2) = Some v -> 0x200 <= v <= 0x2FF -> Z.land v 0xFF < MAX_SYS_INT_NUM) ->
  wp (move_intr p) (fun _ => walking) c.
Proof.
  intros Hn. unfold move_intr. apply wp_bind, wp_rd16; [lia|lia|]. intros v Hv.
  destruct ((0x200 <=? v) && (v <=? 0x2FF)) eqn:B; [|by apply wp_ret].
  assert (0 <= Z.land v 0xFF) by (apply Z.land_nonneg; lia). specialize (Hn v Hv ltac:(lia)).
  assert (S1 := tk_int c (tb_ok c (wk_tables c W))).
  destruct (update_at_wp (mtv_IntSource c) (Z.land v 0xFF) (with_program p)) as (l & E & L); [lia|].
  apply wp_bind, wp_gets, wp_bind. refine (wp_of_option _ _ _ _ E _). apply wp_bind, wp_modify, wp_ret. walking_solve.
Qed.
Lemma set_mc_ptr_wp i o (Q : unit -> comp_st -> Prop) c' : 0 <= i < Z.of_nat (length (stap_McListPtr c')) ->
  (forall l, length l = length (stap_McListPtr c') -> zlookup l i = Some o ->
     (forall j, j <> i -> zlookup l j = zlookup (stap_McListPtr c') j) -> Q tt (with_McPtrs l c')) ->
  wp (set_mc_ptr i o) Q c'.
Proof.
  intros Hi HQ. destruct (zupdate_wp (stap_McListPtr c') i o Hi) as (l & E & L & Hne).
  unfold set_mc_ptr. apply wp_bind, wp_gets, wp_bind. refine (wp_of_option _ _ _ _ E _). apply wp_modify, HQ; [done| |done].
  exact (zlookup_zupdate_eq _ _ _ _ E).
Qed.
Lemma move_mc_wp : mc_NestedLevel (flow (plc c)) < MAX_MC_MCR_BLOCK_NUMBER -> wp (move_mc malloc p) (fun _ => walking) c.
Proof.
  intros Hn. assert (Hc := tk_mc c (tb_ok c (wk_tables c W))). assert (Hv := wk_level c W). assert (Ho := wk_open c W).
  unfold move_mc. apply wp_bind, wp_set_flag, wp_bind, wp_get_flow, wp_bind, wp_gets. destruct (malloc _).
  - apply wp_bind, wp_get_flow, wp_bind, set_mc_ptr_wp; [cbn; lia|]. intros l L E Hne.
    apply wp_bind, wp_mod_flow, wp_bind, wp_mod_flow, wp_ret. cbn in L, Hne, E.
    assert (U : u8 (mc_NestedLevel (flow (plc c)) + 1) = mc_NestedLevel (flow (plc c)) + 1)
      by (apply u8_id; change MAX_MC_MCR_BLOCK_NUMBER with 8 in Hn; lia).
    destruct W as [[[] ? ? ?] ? ? _]. split; [split; [split; cbn; congruence|done..]|done|cbn; lia|].
    cbn. rewrite U, length_app. cbn [length]. intros i Hi. destruct (decide (i = mc_NestedLevel (flow (plc c)))) as [->|Hi'].
    + eexists. split; [exact E|]. lia.
    + rewrite (Hne i Hi'). destruct (Ho i ltac:(lia)) as (b & Eb & Hb'). exists b. split; [done|lia].
  - apply wp_bind, set_mc_ptr_wp; [cbn; lia|]. intros l L E Hne. apply wp_ret. cbn in L, Hne.
    destruct W as [[[] ? ? ?] ? ? _]. split; [split; [split; cbn; congruence|done..]|done..|].
    cbn. intros i Hi. rewrite Hne by lia. by apply Ho.
Qed.
Lemma move_mcr_wp : wp (move_mcr p) (fun _ => walking) c.
Proof.
  unfold move_mcr. apply wp_bind, wp_get_flow, wp_bind, wp_mod_flow.
  set (v := if 0 <? _ then _ else _). assert (0 <= v <= mc_NestedLevel (flow (plc c))).
  { assert (L := wk_level c W). subst v. destruct (Z.ltb_spec 0 (mc_NestedLevel (flow (plc c)))); lia. }
  assert (W' : walking (with_plc (with_flow (with_NestedLevel v (flow (plc c))) (plc c)) c)).
  { destruct W as [[[] ? ? ?] ? ? Ho]. split; [split; [by split|done..]|done|cbn; lia|].
    intros i Hi. apply Ho. cbn in Hi. lia. }
  apply wp_bind, wp_when; intros _; [apply wp_set_flag|]; apply wp_ret; [|done]. clear Hl Hb Hr. revert W'. clear W. intros W. walking_solve.
Qed.
Lemma move_ret_wp : wp (move_ret p) (fun _ => walking) c.
Proof. unfold move_ret. apply wp_bind, wp_set_flag, wp_bind, wp_modify, wp_ret. walking_solve. Qed.
(** The scan over a row of STL instructions stays in what can be read, and
    says whether the row is longer than one. *)
Lemma stl_scan_wp : wp (stl_scan (S fuel) p)
  (fun qm c' => c' = c /\ (qm.2 = false -> word_at (ucode (plc c)) (p + 10) <> Some CI_STL)) c.
Proof.
  pose proof (stl_scan_ends fuel p c H0 Hfuel) as Hf.
  assert (K : forall f q m r, 0 <= q -> q < endp -> loop f (fun qm : Z * bool =>
      let q := qm.1 + 10 in op ← rd16 q; mret (if op =? CI_STL then inl (q, true) else inr (q, qm.2))) (q, m) c = r ->
    match r with Ok (qm, c') => c' = c /\ (qm.2 = false -> m = false /\ word_at (ucode (plc c)) (q + 10) <> Some CI_STL)
               | Ub => False | NoFuel => True end).
  { induction f as [|f IH]; intros q m r Hq Hq' <-; [done|]. cbn [loop fst snd].
    destruct (word_at_ok (ucode (plc c)) (q + 10)) as [w E]; [lia|destruct Hr; lia|].
    unfold mbind at 1, M_bind at 1. rewrite (run_bind _ _ _ _ _ (rd16_word _ _ _ E)). unfold mret at 1, M_ret at 1.
    destruct (Z.eqb_spec w CI_STL) as [->|Hw].
    - assert (q + 10 < endp) by (destruct (Z.lt_ge_cases (q + 10) endp); [done|by destruct (rb_stl _ Hr (q + 10))]).
      specialize (IH (q + 10) true _ ltac:(lia) ltac:(lia) eq_refl).
      destruct (loop f _ _ _) as [[[q' m'] c']| |]; [|done..]. destruct IH as [-> IH]. split; [done|]. intros E2. by destruct (IH E2).
    - cbn. split; [done|]. intros ->. split; [done|]. rewrite E. by intros [=]. }
  specialize (K (S fuel) p false _ H0 Hp eq_refl). unfold wp. unfold stl_scan in *.
  destruct (loop _ _ _ _) as [[qm c']| |]; [|done..]. destruct K as [-> K]. split; [done|]. intros E. by destruct (K E).
Qed.
Lemma move_stl_wp : (word_at (ucode (plc c)) (p + 10) <> Some CI_STL ->
    forall n, word_at (ucode (plc c)) (p + 4) = Some n -> n < S_RANG) -> wp (move_stl (S fuel) p) (fun _ => walking) c.
Proof.
  intros Hn. unfold move_stl. apply wp_bind. eapply wp_mono; [apply stl_scan_wp|]. intros [q m] c' [-> Hm]. cbn [fst snd] in *.
  apply wp_bind. destruct m.
  - apply wp_bind, wp_set_flag, wp_modify, wp_ret. walking_solve.
  - specialize (Hn (Hm eq_refl)). apply wp_bind, wp_set_flag, wp_bind, wp_rd16; [cbn; lia|cbn; lia|]. intros n En. cbn in En.
    specialize (Hn n En). assert (0 <= n).
    { unfold word_at in En. destruct (zlookup _ (p + 4)) as [b0|] eqn:E0; [|done]. cbn in En.
      destruct (zlookup _ (p + 4 + 1)) as [b1|] eqn:E1; [|done]. injection En as <-. apply (byte_pos _ _ _ Hb) in E0, E1.
      rewrite Z.shiftl_mul_pow2 by lia. lia. }
    assert (S1 := tk_stl c (tb_ok c (wk_tables c W))).
    destruct (zupdate_wp (stl_list (flow (plc c))) n empty_head) as (l & E & L & _); [lia|].
    apply wp_bind, wp_modify, wp_bind, wp_get_flow, wp_bind. refine (wp_of_option _ _ _ _ E _).
    apply wp_mod_flow, wp_ret. walking_solve.
Qed.
(** The dispatcher. *)
Context (Hov : overruns p c = false).
Lemma move_special_wp op : word_at (ucode (plc c)) p = Some op -> wp (move_special malloc (S fuel) op p) (fun _ => walking) c.
Proof.
  intros Eop. assert (O := Hov). unfold overruns in O. rewrite Eop in O. cbn [holds_at] in O.
  unfold move_special. repeat case_match; try (by apply wp_ret); first
    [ apply move_stradd_wp | apply move_sret_wp | apply move_mcr_wp | apply move_ret_wp
    | apply (move_string_wp 2 3 (fun n => p + (n + 16))); lia | apply (move_string_wp 3 2 (fun n => p + (n + 8))); lia
    | apply move_call_wp; revert O; clear; change (?a =? CI_CALL) with true; cbv iota; lia
    | apply move_mc_wp; revert O; clear; change (?a =? 0xF01C) with true; cbv iota; lia
    | idtac ].
  all: cbn in O.
  - apply move_sbr_wp. intros v n Ev En. rewrite Ev in O. cbn in O. rewrite En in O. cbn in O. lia.
  - apply move_intr_wp. intros v Ev Hv. rewrite Ev in O. cbn in O. lia.
  - apply move_stl_wp. intros Hs n En. rewrite En in O. destruct (word_at _ (p + 10)) as [w|]; cbn [holds_at] in O; [|cbn in O; lia].
    destruct (Z.eqb_spec CI_STL w) as [E|E]; [by destruct Hs; rewrite E|cbn in O; lia].
Qed.
Lemma move_complex_wp : wp (plc_move_ucode_ptr_from_complex_ins malloc (S fuel) p) (fun _ => walking) c.
Proof.
  unfold plc_move_ucode_ptr_from_complex_ins. apply wp_bind, wp_rd16; [done|lia|]. intros op Eop.
  destruct (ci_length op); [by apply wp_ret|by apply move_special_wp].
Qed.
End moving.

(** ** A step of the walk, and the walk *)
(** What [overruns] looks at does not change while an instruction is recorded. *)
Definition same_level : relation comp_st := same (fun c => mc_NestedLevel (flow (plc c))).
#[global] Instance add_complex_level malloc p : Respects same_level (plc_add_ins_to_complex_list malloc p).
Proof.
  assert (H : forall f, (forall c, same_level c (f c)) -> Respects same_level (modify f)) by (intros f; apply respects_modify).
  assert (PreOrder same_level) by (unfold same_level; apply _).
  unfold plc_add_ins_to_complex_list, list_add, list_add_stl, list_add_sbr, allocating, get_flow, mod_flow.
  assert (forall n i, Respects same_level (list_add_mc malloc n Complex p i)).
  { intros n. apply list_add_mc_respects; [done|]. intros i. unfold list_add_block, allocating, get_flow, mod_flow.
    repeat (apply _ || (apply H; done) || intros ?). }
  repeat (apply _ || (apply H; done) || intros ?).
Qed.
Lemma overruns_same p c c' : ucode (plc c') = ucode (plc c) -> (calls c').2 = (calls c).2 ->
  mc_NestedLevel (flow (plc c')) = mc_NestedLevel (flow (plc c)) -> overruns p c' = overruns p c.
Proof. unfold calls. cbn. intros H1 H2 H3. unfold overruns. by rewrite H1, H2, H3. Qed.
Lemma step_wp malloc fuel endp p c : readable endp (ucode (plc c)) -> Z.of_nat (length (ucode (plc c))) < Z.of_nat fuel -> 0 <= p -> walking c ->
  (p < endp -> overruns p c = false) -> wp (compile_step malloc (S fuel) endp p) (fun _ => walking) c.
Proof.
  intros Hr Hfu H0 W Ho. unfold compile_step. destruct (Z.ltb_spec p endp) as [Hp|Hp]; [|by apply wp_ret]. specialize (Ho Hp).
  assert (Hb := rb_bytes _ _ Hr). assert (Hl := rb_behind _ _ Hr).
  apply wp_bind, wp_rd8; [done|lia|]. intros b _. destruct (b <? SI_MAX_INS).
  - unfold compile_simple. apply wp_bind. refine (wp_mono _ _ _ _ (wp_respects same_prog (add_simple_wp malloc p c Hb H0 ltac:(lia) W)) _).
    intros r c' [W' P]. unfold same_prog, same in P. destruct (r =? pdPASS); [|by apply wp_ret].
    unfold plc_move_ucode_ptr_from_simple_ins. rewrite <- P in Hb, Hl.
    apply wp_bind, wp_bind, wp_rd8; [done|lia|]. intros ins _. by apply wp_ret, wp_ret.
  - unfold compile_complex. apply wp_bind.
    refine (wp_mono _ _ _ _ (wp_respects same_level (wp_respects same_calls (wp_respects same_prog (add_complex_wp malloc p c H0 ltac:(lia) W)))) _).
    cbn beta. intros r c' [[[W' P] C] L]. unfold same_prog, same_calls, same_level, same in P, C, L. destruct (r =? pdPASS); [|by apply wp_ret].
    rewrite <- P in Hr, Hfu. apply wp_bind.
    assert (Respects same_prog (plc_move_ucode_ptr_from_complex_ins malloc (S fuel) p)) by (apply complex_frame; apply _).
    assert (Ho' : overruns p c' = false) by (rewrite (overruns_same p c c'); [done|done|by rewrite C|done]).
    refine (wp_mono _ _ _ _ (wp_respects same_prog (move_complex_wp malloc fuel endp p c' Hr Hfu H0 Hp W' Ho')) _).
    intros m c2 [W2 P2]. unfold same_prog, same in P2. destruct m as [q|code]; [by apply wp_ret|].
      apply wp_bind, wp_rd16; [done|rewrite P2, P; lia|]. intros op _. by apply wp_ret.
Qed.

(** After the initialisation. *)
Lemma clear_heads_wp n l : 0 <= n <= Z.of_nat (length l) -> exists l', clear_heads n l = Some l' /\ length l' = length l.
Proof.
  intros H. unfold clear_heads. assert (n <=? Z.of_nat (length l) = true) as -> by lia. eexists. split; [done|].
  rewrite length_app, length_replicate, length_drop. lia.
Qed.
Lemma PU32_code q s s' n : ucode s' = ucode s -> GET_PU32_DATA q s = Ok (n, s) -> GET_PU32_DATA q s' = Ok (n, s').
Proof.
  intros Hu E. unfold GET_PU32_DATA in *. apply bind_inv in E as (h0 & s0 & E0 & E). assert (F0 : s = s0) by exact (respects (R := eq) _ _ _ E0). subst s0.
  apply bind_inv in E as (h1 & s1 & E1 & E). injection E as <- ->.
  by rewrite (run_bind _ _ _ _ _ (PU16_code _ _ _ _ Hu E0)), (run_bind _ _ _ _ _ (PU16_code _ _ _ _ Hu E1)).
Qed.
Lemma init_wp base c n : tables c -> bytes_ok (ucode (plc c)) -> GET_PU32_DATA 6 (plc c) = Ok (n, plc c) ->
  wp (compile_init base) (fun endp c' => endp = n - 4 /\ walking c') c.
Proof.
  intros [[] Hs Hp1 Hp2] Hb Hn. unfold compile_init, call_info_init.
  destruct (clear_heads_wp MAX_SBR_COUNT (sbr_list (flow (plc c)))) as (l1 & E1 & L1); [rewrite Hs; done|].
  destruct (clear_heads_wp S_RANG (stl_list (flow (plc c)))) as (l2 & E2 & L2); [rewrite tk_stl; done|].
  unfold plc_free_ins. apply wp_bind, wp_mod_flow, wp_bind, wp_bind, wp_get_flow, wp_bind. refine (wp_of_option _ _ _ _ E1 _).
  apply wp_bind, wp_mod_flow, wp_bind, wp_get_flow, wp_bind. refine (wp_of_option _ _ _ _ E2 _).
  apply wp_bind, wp_mod_flow, wp_bind, wp_mod_flow, wp_bind, wp_mod_flow, wp_modify, wp_bind.
  match goal with |- wp _ _ ?c' => assert (E : on_plc (plc_get_file_length (base + 6) 6 4) c' = Ok (n, c')) end.
  { unfold on_plc. rewrite file_length_alignment by exact Hb. change (plc_get_file_length 0 6 4) with (GET_PU32_DATA 6).
    match goal with |- context [GET_PU32_DATA 6 ?s] => rewrite (PU32_code 6 (plc c) s n eq_refl Hn) end. by rewrite with_plc_id. }
  unfold wp at 1. rewrite E. apply wp_bind, wp_set_flag, wp_ret. split; [done|].
  split; [split; [split|..]|..]; cbn; rewrite ?length_fmap, ?L1, ?L2; try done. intros i Hi. lia.
Qed.

(** The walk, under the hypothesis that no instruction it comes to overruns a
    table, reaches an end. *)
Section walk.
Context (malloc : comp_st -> bool) (fuel : nat) (endp : Z) (c1 : comp_st).
Context (Hr : readable endp (ucode (plc c1))) (W : walking c1).
Context (Hf : Z.of_nat (length (ucode (plc c1))) + MAX_CALL_INS_USE_NUMBER < Z.of_nat fuel).
Let walk : relation (Z * comp_st) := rtc (loop_step (compile_step malloc (S fuel) endp)).
Context (Hov : forall p x, walk (28, c1) (p, x) -> p < endp -> overruns p x = false).
Lemma walk_wp : wp (loop (S fuel) (compile_step malloc (S fuel) endp) 28) (fun _ c' => sys (plc c') = sys (plc c1)) c1.
Proof.
  assert (Hcs : forall c, walking c -> calls_ok c) by (intros c W'; split; [apply (tk_calls c (tb_ok c (wk_tables c W')))|apply wk_used, W']).
  apply (wp_loop _ (fun p x => walk (28, c1) (p, x) /\ 0 <= p /\ walking x /\ sys (plc x) = sys (plc c1))
    (fun p x => Z.max 0 (Z.of_nat (length (ucode (plc c1))) - p) + Z.max 0 (MAX_CALL_INS_USE_NUMBER - (calls x).2))).
  - intros p x (HR & H0 & Wx & Sx). assert (U := walk_prog malloc (S fuel) endp _ _ HR). cbn [fst snd] in U.
    rewrite <- U in Hr. assert (Z.of_nat (length (ucode (plc x))) < Z.of_nat fuel) as Hfu by (rewrite U; change MAX_CALL_INS_USE_NUMBER with 256 in Hf; lia).
    assert (HS := step_wp malloc fuel endp p x Hr Hfu H0 Wx (Hov p x HR)).
    apply wp_ok in HS as (r & x' & E & Wx'). unfold wp. rewrite E.
    assert (Sx' : sys (plc x') = sys (plc x)).
    { assert (Respects same_sys (compile_step malloc (S fuel) endp p)) as K by (apply compile_step_frame; apply _). exact (K _ _ _ E). }
    destruct r as [q|r]; [|congruence].
    apply (step_progress malloc (S fuel) endp p x q x' (rb_bytes _ _ Hr) (Hcs x Wx)) in E as E'. destruct E' as (_ & H5 & H6). rewrite U in H5.
    change MAX_CALL_INS_USE_NUMBER with 256 in *. split_and!; [|destruct H6 as [H6|H6]; lia|done|congruence|lia|].
    + eapply rtc_r; [exact HR|exact E].
    + destruct H6 as [[-> H6]|[[H6 H7] H8]]; lia.
  - split_and!; [apply rtc_refl|lia|done|done].
  - destruct (Hcs c1 W) as [_ Hc]. change MAX_CALL_INS_USE_NUMBER with 256 in *. lia.
Qed.
End walk.

(** C36: the checker comes back with a verdict. For a file whose length field
    gives its end [endp], with 260 readable bytes and no STL behind that end,
    the walk from the first instruction only stays without one when it comes
    to an instruction its tables have no room for; in particular a CALL whose
    length adds up to zero, which the walk never leaves, is such a CALL once
    it has been counted 256 times. *)
Theorem checker_returns base malloc fuel c endp :
  tables c -> record_ok (err_record (sys (plc c))) -> readable endp (ucode (plc c)) ->
  GET_PU32_DATA 6 (plc c) = Ok (endp + 4, plc c) ->
  Z.of_nat (length (ucode (plc c))) + MAX_CALL_INS_USE_NUMBER < Z.of_nat fuel ->
  exists c1, compile_init base c = Ok (endp, c1) /\
    ((forall p x, rtc (loop_step (compile_step malloc (S fuel) endp)) (28, c1) (p, x) -> p < endp -> overruns p x = false) ->
     exists r c', plc_compiler_ucode base malloc (S fuel) c = Ok (r, c') /\ (r = pdPASS \/ r = pdFAIL)).
Proof.
  intros T Hok Hr Hn Hf. destruct (proj1 (wp_ok _ _ _) (init_wp base c _ T (rb_bytes _ _ Hr) Hn)) as (e & c1 & Hi & -> & W).
  replace (endp + 4 - 4) with endp in Hi by lia. exists c1. split; [done|]. intros Hov.
  destruct (init_spec _ _ _ _ Hi) as (Hu & _ & _). assert (S1 := init_sys base _ _ _ Hi). unfold same_sys, same in S1.
  rewrite <- Hu in Hr, Hf. destruct (proj1 (wp_ok _ _ _) (walk_wp malloc fuel endp c1 Hr W Hf Hov)) as ([r q] & c2 & HL & S2).
  unfold plc_compiler_ucode. rewrite (run_bind _ _ _ _ _ Hi), (run_bind _ _ _ _ _ HL). cbn [fst snd].
  destruct (r =? pdPASS); [exists pdPASS, c2; split; [done|by left]|]. rewrite <- S1, <- S2 in Hok.
  destruct (record_error_run r (u32 q) _ Hok) as (rec & E & _). exists pdFAIL. eexists. split; [|by right].
  refine (run_bind _ _ _ _ _ _). unfold on_plc, set_stop_flag, mod_sys, plc_refresh_exec_error_record, gets, modify, mbind, M_bind.
  cbn [sys with_sys err_record with_StopError]. by rewrite E.
Qed.
(** A walk that is known to come to an end can be tried out. *)
Fixpoint clear_walk (malloc : comp_st -> bool) (fuel : nat) (endp : Z) (n : nat) (p : Z) (c : comp_st) : bool :=
  match n with
  | O => false
  | S n' => negb (overruns p c) &&
      match compile_step malloc fuel endp p c with Ok (inl q, c') => clear_walk malloc fuel endp n' q c' | _ => true end
  end.
Lemma clear_walk_sound malloc fuel endp x y : rtc (loop_step (compile_step malloc fuel endp)) x y -> forall n,
  clear_walk malloc fuel endp n x.1 x.2 = true -> overruns y.1 y.2 = false.
Proof.
  induction 1 as [x|x y z Hxy _ IH]; intros [|n] Hn; try done; cbn [clear_walk] in Hn; apply andb_true_iff in Hn as [H1 H2].
  - by apply negb_true_iff.
  - unfold loop_step in Hxy. rewrite Hxy in H2. by apply (IH n).
Qed.
Lemma no_stl endp l : 0 <= endp -> bytes_ok l -> Forall (fun b => b <> 0xF0) (drop (Z.to_nat endp) l) ->
  forall q, endp <= q -> word_at l q <> Some CI_STL.
Proof.
  intros H0 Hb Hd q Hq E. unfold word_at in E. destruct (zlookup l q) as [b0|] eqn:E0; [|done]. cbn in E.
  destruct (zlookup l (q + 1)) as [b1|] eqn:E1; [|done]. injection E as E. apply zlookup_Some in E0 as [_ E0], E1 as [_ E1].
  assert (B := Forall_lookup_1 _ _ _ _ Hb E0). assert (B1 := Forall_lookup_1 _ _ _ _ Hb E1). cbn beta in B, B1.
  rewrite Z.shiftl_mul_pow2 in E by lia. assert (b1 = 0xF0) as -> by (unfold CI_STL in E; lia).
  replace (Z.to_nat (q + 1)) with (Z.to_nat endp + Z.to_nat (q + 1 - endp))%nat in E1 by lia. rewrite <- lookup_drop in E1.
  by apply (Forall_lookup_1 _ _ _ _ Hd) in E1.
Qed.
(** LD X5, an MC block with OUT Y3, CALL 3, a step S20 with OUT Y4, FEND; SBR 3,
    SRET; INT 5, IRET; behind the file, erased memory. *)
Definition walk_code : list Z :=
  [5; 0x10; 0x1C; 0xF0; 0; 0; 0; 0; 0; 0; 0; 0; 3; 0x71; 0x1D; 0xF0; 0; 0; 0; 0; 0x21; 0xF0; 3; 1; 0; 0; 0; 0; 0; 0;
   0x0E; 0xF0; 0; 0; 20; 0; 0; 0; 0; 0; 4; 0x71; 0x12; 0xF0; 0x2B; 0xF0; 1; 0xF0; 3; 1; 0x23; 0xF0; 2; 0xF0; 5; 2; 0x22; 0xF0].
Definition walk_demo : comp_st := comp0 (program_file walk_code ++ replicate 300 0xFF).
Lemma walk_demo_bytes : bytes_ok (ucode (plc walk_demo)).
Proof. apply (bool_decide_unpack _). vm_compute. exact I. Qed.
Lemma walk_demo_tables : tables walk_demo.
Proof. split; [by split; vm_compute|by vm_compute|done|done]. Qed.
Lemma walk_demo_record : record_ok (err_record (sys (plc walk_demo))).
Proof. split; [zconc|done|done|apply NoDup_nil_2]. Qed.
Lemma walk_demo_readable : readable 86 (ucode (plc walk_demo)).
Proof.
  split; [exact walk_demo_bytes|zconc|]. apply no_stl; [done|exact walk_demo_bytes|].
  apply (bool_decide_unpack _). vm_compute. exact I.
Qed.
Lemma walk_demo_clear : match compile_init 0 walk_demo with
  | Ok (e, c1) => clear_walk always 701 86 30 28 c1 | _ => false end = true.
Proof. vm_compute. reflexivity. Qed.
Lemma checker_returns_witness : exists r c', plc_compiler_ucode 0 always 701 walk_demo = Ok (r, c') /\ (r = pdPASS \/ r = pdFAIL).
Proof.
  destruct (checker_returns 0 always 700 walk_demo 86 walk_demo_tables walk_demo_record walk_demo_readable) as (c1 & H1 & H2);
    [reflexivity|zconc|]. apply H2. intros p x HR _. assert (K := walk_demo_clear). rewrite H1 in K.
  exact (clear_walk_sound always 701 86 _ _ HR 30 K).
Defined.
