(* ===== verification/Interrupts.v ===== *)
(** * User interrupts

    Models plc/interrupt/src/plc_interrupt.c, the queue of interrupts between
    the sources that raise them and the task that runs their programs, and the
    tick hook of plc/portable/src/port_clockcycle.c, which raises the timed
    ones. The message queue of the operating system is a list of at most 30
    interrupt numbers; a message that finds it full is dropped, as the callers
    ask for no waiting and ignore the result. The program of an interrupt is
    run by [run], for which the interpreter stands. *)
From stdpp Require Import base list numbers sets.
From S2P Require Import Prelude Element Machine FlowCtrl Executer Compiler.

(** ** State *)
Definition INT_PRI_LOW := 0.
Definition TIME_0_INT := 16.
Definition QUEUE_LENGTH := 30.
(** The controller, the interrupt sources, the queue and the three counters of
    the tick hook. *)
Record int_st := {
  iplc : plc_st;
  isources : list plc_interrupt_source_st;
  queue : list Z;
  ssv_TimeIntValue : list Z }.
Notation Mi := (M int_st).
Definition with_iplc p s := {| iplc := p; isources := isources s; queue := queue s; ssv_TimeIntValue := ssv_TimeIntValue s |}.
Definition with_isources l s := {| iplc := iplc s; isources := l; queue := queue s; ssv_TimeIntValue := ssv_TimeIntValue s |}.
Definition with_queue q s := {| iplc := iplc s; isources := isources s; queue := q; ssv_TimeIntValue := ssv_TimeIntValue s |}.
Definition with_timers l s := {| iplc := iplc s; isources := isources s; queue := queue s; ssv_TimeIntValue := l |}.
#[global] Instance int_st_mem : Sub plc_element_st int_st.
Proof. refine {| sget s := mem (iplc s); sset e s := with_iplc (with_mem e (iplc s)) s |}; by intros; repeat destruct_and?; destruct s as [[] ? ? ?]. Defined.
Definition mcv_IntEnable (s : int_st) : Z := user_intr_enable (sys (iplc s)).
Definition on_plc {A} (m : Mc A) : Mi A := fun s =>
  match m (iplc s) with Ok (a, p) => Ok (a, with_iplc p s) | Ub => Ub | NoFuel => NoFuel end.

(** ** Sources *)
Definition int_source (n : Z) : Mi plc_interrupt_source_st := l ← gets isources; of_option (zlookup l n).
Definition with_Count (c : Z) (x : plc_interrupt_source_st) : plc_interrupt_source_st :=
  {| mcv_Priority := mcv_Priority x; mcv_IntFlag := mcv_IntFlag x; mcv_Count := u8 c; mcp_IntPara := mcp_IntPara x |}.
Definition put_count (n c : Z) : Mi unit :=
  x ← int_source n; l ← gets isources; l' ← of_option (zupdate l n (with_Count c x)); modify (with_isources l').
Definition plc_user_interrupt_init : Mi unit :=
  on_plc (plc_user_interrupt_enable 0);; modify (with_isources (replicate (Z.to_nat MAX_SYS_INT_NUM) idle_source)).

(** ** The queue *)
Definition xQueueSendToBack (n : Z) : Mi unit :=
  q ← gets queue; when (Z.of_nat (length q) <? QUEUE_LENGTH) (modify (with_queue (q ++ [n]))).
Definition xQueueSendToFront (n : Z) : Mi unit :=
  q ← gets queue; when (Z.of_nat (length q) <? QUEUE_LENGTH) (modify (with_queue (n :: q))).
Definition plc_add_int_to_interrupt_queue (lcv_IntNum : Z) : Mi unit :=
  en ← gets mcv_IntEnable;
  if en =? 0 then mret tt
  else if MAX_SYS_INT_NUM <? lcv_IntNum then mret tt
  else
    x ← int_source lcv_IntNum;
    if negb (truthy (Z.land (mcv_IntFlag x) 0x02)) then mret tt
    else if truthy (Z.land (mcv_IntFlag x) 0x01) && truthy (mcv_Count x) then mret tt
    else
      put_count lcv_IntNum (mcv_Count x + 1);;
      if mcv_Priority x =? INT_PRI_LOW then xQueueSendToBack lcv_IntNum else xQueueSendToFront lcv_IntNum.

(** ** The task *)
Section task.
Context (run : Z -> Mc Z).
(** One turn of the loop; [false] when there is no message to wait for. *)
Definition interrupt_task : Mi bool :=
  q ← gets queue;
  match q with
  | [] => mret false
  | n :: q' =>
      modify (with_queue q');;
      en ← gets mcv_IntEnable;
      if en =? 0 then mret true
      else
        x ← int_source n;
        if mcv_Count x =? 0 then mret true
        else
          on_plc (run (mcp_IntPara x));;
          x' ← int_source n; put_count n (mcv_Count x' - 1);; mret true
  end.
End task.

(** ** Timed interrupts *)
(** SM66..SM68 switch them on, SD66..SD68 hold their periods. *)
Definition timed_interrupt (k : Z) : Mi unit :=
  on ← plc_get_bit_element_value SM_ELEMENT (66 + k);
  if on =? 0 then mret tt
  else
    p ← rd SD_ELEMENT (66 + k);
    when (0 <? p) (
      l ← gets ssv_TimeIntValue; v ← of_option (zlookup l k);
      l' ← of_option (zupdate l k (u16 (v + 1))); modify (with_timers l');;
      when (p <? u16 (v + 1)) (
        plc_add_int_to_interrupt_queue (TIME_0_INT + k);;
        l ← gets ssv_TimeIntValue; l' ← of_option (zupdate l k 0); modify (with_timers l'))).
Definition vApplicationTickHook : Mi unit :=
  en ← gets mcv_IntEnable;
  if en =? 0 then mret tt
  else
    cur ← gets (fun s => mcv_PlcCurrentStatus (run_status (sys (iplc s))));
    if negb (cur =? PLC_RUN_STATUS) then mret tt
    else timed_interrupt 0;; timed_interrupt 1;; timed_interrupt 2.

(** ** The system *)
(** What can happen next while a program is loaded: a source raises its
    interrupt, a tick passes, the task takes a message, or the main task changes
    the controller in any way. (Loading a program initialises the sources and
    leaves the queue as it is.) *)
Inductive int_step (run : Z -> Mc Z) (s : int_st) : int_st -> Prop :=
| step_raise n s' : plc_add_int_to_interrupt_queue n s = Ok (tt, s') -> int_step run s s'
| step_tick s' : vApplicationTickHook s = Ok (tt, s') -> int_step run s s'
| step_serve b s' : interrupt_task run s = Ok (b, s') -> int_step run s s'
| step_main p : int_step run s (with_iplc p s).
