(* ===== verification/InterruptFacts.v ===== *)
(** * Facts about user interrupts

    Steps of the system as transitions: what every one of them keeps, what
    happens to an interrupt that is pending when interrupts are switched off,
    and the period of the timed ones. *)
From stdpp Require Import base list numbers sets relations.
From S2P Require Import Prelude Element Machine ExecFacts FlowCtrl Executer Compiler Interrupts.

(** ** What raising and serving do *)
Definition raised (n : Z) (x : plc_interrupt_source_st) (q : list Z) (s : int_st) : int_st :=
  with_queue q (with_isources (<[Z.to_nat n := with_Count (mcv_Count x + 1) x]> (isources s)) s).
Lemma put_count_inv n c s s' : put_count n c s = Ok (tt, s') -> exists x, zlookup (isources s) n = Some x /\
  s' = with_isources (<[Z.to_nat n := with_Count c x]> (isources s)) s.
Proof.
  intros E. unfold put_count, int_source in E. apply bind_inv in E as (x & s1 & E1 & E).
  apply bind_inv in E1 as (l & s2 & [= <- <-] & E1). destruct (zlookup (isources s) n) as [y|] eqn:L; [injection E1 as <- <-|done].
  apply bind_inv in E as (l & s2 & [= <- <-] & E). apply bind_inv in E as (l' & s2 & E2 & [= <-]).
  destruct (zupdate (isources s) n (with_Count c y)) as [l1|] eqn:U; [injection E2 as <- <-|done].
  apply zupdate_Some in U as [_ ->]. by exists y.
Qed.
Lemma add_inv n s s' : plc_add_int_to_interrupt_queue n s = Ok (tt, s') -> s' = s \/
  exists x q, mcv_IntEnable s <> 0 /\ zlookup (isources s) n = Some x /\ Z.land (mcv_IntFlag x) 2 <> 0 /\
    (Z.land (mcv_IntFlag x) 1 = 0 \/ mcv_Count x = 0) /\ s' = raised n x q s /\
    (q = queue s \/ q = queue s ++ [n] \/ q = n :: queue s).
Proof.
  intros E. unfold plc_add_int_to_interrupt_queue in E. apply bind_inv in E as (en & s1 & [= <- <-] & E).
  destruct (Z.eqb_spec (mcv_IntEnable s) 0) as [|Hen]; [injection E as <-; by left|].
  destruct (MAX_SYS_INT_NUM <? n); [injection E as <-; by left|].
  apply bind_inv in E as (x & s1 & E1 & E). unfold int_source in E1. apply bind_inv in E1 as (l & s2 & [= <- <-] & E1).
  destruct (zlookup (isources s) n) as [y|] eqn:L; [injection E1 as <- <-|done].
  destruct (truthy (Z.land (mcv_IntFlag y) 2)) eqn:F2; cbn [negb] in E; [|injection E as <-; by left].
  destruct (truthy (Z.land (mcv_IntFlag y) 1) && truthy (mcv_Count y)) eqn:F1; [injection E as <-; by left|].
  right. apply bind_inv in E as ([] & s1 & E1 & E). apply put_count_inv in E1 as (z & L' & ->).
  rewrite L in L'. injection L' as <-. unfold truthy in *.
  destruct (mcv_Priority y =? INT_PRI_LOW); unfold xQueueSendToBack, xQueueSendToFront in E;
    apply bind_inv in E as (q & s1 & [= <- <-] & E); destruct (_ <? QUEUE_LENGTH); injection E as <-;
    eexists y, _; (split_and!; [done|done|lia|lia|unfold raised; cbn; first [reflexivity|by destruct s]|cbn; tauto]).
Qed.
Definition served (n : Z) (q : list Z) (p : plc_st) (c : Z) (x : plc_interrupt_source_st) (s : int_st) : int_st :=
  with_queue q (with_isources (<[Z.to_nat n := with_Count c x]> (isources s)) (with_iplc p s)).
Lemma serve_inv run b s s' : interrupt_task run s = Ok (b, s') ->
  (queue s = [] /\ s' = s) \/
  exists n q, queue s = n :: q /\
    (s' = with_queue q s /\ (mcv_IntEnable s = 0 \/ exists x, zlookup (isources s) n = Some x /\ mcv_Count x = 0) \/
     exists x r p, mcv_IntEnable s <> 0 /\ zlookup (isources s) n = Some x /\ mcv_Count x <> 0 /\
       run (mcp_IntPara x) (iplc s) = Ok (r, p) /\ s' = served n q p (mcv_Count x - 1) x s).
Proof.
  intros E. unfold interrupt_task in E. apply bind_inv in E as (q0 & s1 & [= <- <-] & E).
  destruct (queue s) as [|n q] eqn:Q; [injection E as <- <-; by left|]. right. exists n, q. split; [done|].
  apply bind_inv in E as ([] & s1 & [= <-] & E). apply bind_inv in E as (en & s2 & [= <- <-] & E).
  change (mcv_IntEnable (with_queue q s)) with (mcv_IntEnable s) in E.
  destruct (Z.eqb_spec (mcv_IntEnable s) 0) as [|Hen]; [injection E as <- <-; left; tauto|].
  apply bind_inv in E as (x & s1 & E1 & E). unfold int_source in E1. apply bind_inv in E1 as (l & s2 & [= <- <-] & E1).
  change (isources (with_queue q s)) with (isources s) in E1.
  destruct (zlookup (isources s) n) as [y|] eqn:L; [injection E1 as <- <-|done].
  destruct (Z.eqb_spec (mcv_Count y) 0) as [C0|C0]; [injection E as <- <-; left; split; [done|right; by exists y]|right].
  apply bind_inv in E as (r & s1 & E1 & E). unfold on_plc in E1. change (iplc (with_queue q s)) with (iplc s) in E1.
  destruct (run (mcp_IntPara y) (iplc s)) as [[r' p]| |] eqn:R; [|done..]. injection E1 as -> <-.
  apply bind_inv in E as (x & s1 & E1 & E). unfold int_source in E1. apply bind_inv in E1 as (l & s2 & [= <- <-] & E1).
  change (isources (with_iplc p (with_queue q s))) with (isources s) in E1. rewrite L in E1. injection E1 as <- <-.
  apply bind_inv in E as ([] & s1 & E1 & [= <- <-]). apply put_count_inv in E1 as (z & L' & ->).
  change (isources (with_iplc p (with_queue q s))) with (isources s) in *. rewrite L in L'. injection L' as <-.
  by exists y, r, p.
Qed.

(** ** Properties of the sources and the queue that every step keeps *)
Class Lasting (P : int_st -> Prop) : Prop := {
  lasting_same s s' : isources s' = isources s -> queue s' = queue s -> P s -> P s';
  lasting_raise n s s' : plc_add_int_to_interrupt_queue n s = Ok (tt, s') -> P s -> P s';
  lasting_serve run b s s' : interrupt_task run s = Ok (b, s') -> P s -> P s' }.
Section lasting.
Context (P : int_st -> Prop) `{!Lasting P} (run : Z -> Mc Z).
#[local] Instance lasting_add n : Respects (keeps P) (plc_add_int_to_interrupt_queue n).
Proof. intros s [] s' E. exact (lasting_raise n s s' E). Qed.
#[local] Instance lasting_timers l : Respects (keeps P) (modify (with_timers l)).
Proof. apply respects_modify. intros s HP. by apply (lasting_same s). Qed.
#[local] Instance lasting_timed k : Respects (keeps P) (timed_interrupt k).
Proof. unfold timed_interrupt, plc_get_bit_element_value. respects_solve. Qed.
Lemma step_lasting s s' : int_step run s s' -> P s -> P s'.
Proof.
  intros [n s1 E|s1 E|b s1 E|p].
  - exact (lasting_raise n s s1 E).
  - assert (R : Respects (keeps P) vApplicationTickHook) by (unfold vApplicationTickHook; respects_solve). exact (R s tt s1 E).
  - exact (lasting_serve run b s s1 E).
  - by apply (lasting_same s).
Qed.
Lemma steps_lasting s s' : rtc (int_step run) s s' -> P s -> P s'.
Proof. induction 1 as [|s s1 s2 H1 _ IH]; [done|]. intros HP. apply IH. by apply (step_lasting s). Qed.
End lasting.

(** ** At most one message of a source *)
Definition occurrences (n : Z) (q : list Z) : Z := Z.of_nat (count_occ Z.eq_dec q n).
Lemma occurrences_cons m n q : occurrences m (n :: q) = occurrences m q + (if decide (n = m) then 1 else 0).
Proof. unfold occurrences. cbn [count_occ]. destruct (Z.eq_dec n m), (decide (n = m)); (done || lia). Qed.
Lemma occurrences_app m q n : occurrences m (q ++ [n]) = occurrences m q + (if decide (n = m) then 1 else 0).
Proof.
  induction q as [|k q IH]; cbn [app]; rewrite !occurrences_cons; [done|]. rewrite IH. lia.
Qed.
Lemma occurrences_in m q : 0 < occurrences m q <-> m ∈ q.
Proof.
  induction q as [|n q IH]; [rewrite elem_of_nil; unfold occurrences; cbn; lia|].
  rewrite occurrences_cons, elem_of_cons, <- IH. unfold occurrences. case_decide; split; try lia; intros; (by left) || (right; lia) || lia.
Qed.
(** A source that may have one message only: its count is 1 while a message is
    in the queue. *)
Definition single (x : plc_interrupt_source_st) : Prop := Z.land (mcv_IntFlag x) 1 <> 0.
Definition orderly (s : int_st) : Prop := forall n x, zlookup (isources s) n = Some x -> single x ->
  occurrences n (queue s) <= mcv_Count x <= 1.
#[global] Instance orderly_lasting : Lasting orderly.
Proof.
  split.
  - intros s s' E1 E2 O. unfold orderly. by rewrite E1, E2.
  - intros n s s' E O. apply add_inv in E as [->|(x & q & _ & L & _ & Hc & -> & Hq)]; [done|].
    intros m y Hm Hs. cbn [isources queue raised with_queue with_isources] in *. rewrite zlookup_insert in Hm by (by exists x).
    assert (Hocc : occurrences m q <= occurrences m (queue s) + if decide (n = m) then 1 else 0).
    { destruct Hq as [->|[->| ->]]; [destruct (decide (n = m)); lia|by rewrite occurrences_app|by rewrite occurrences_cons]. }
    destruct (decide (m = n)) as [->|Hne].
    + injection Hm as <-. cbn [mcv_Count with_Count] in *. specialize (O n x L Hs).
      assert (mcv_Count x = 0) as C0 by (destruct Hc as [F|C0]; [by destruct Hs|done]). rewrite C0 in *.
      change (u8 (0 + 1)) with 1. rewrite decide_True in Hocc by done. lia.
    + rewrite decide_False in Hocc by congruence. specialize (O m y Hm Hs). lia.
  - intros run b s s' E O. apply serve_inv in E as [[_ ->]|(n & q & Q & [[-> _]|(x & r & p & _ & L & C0 & _ & ->)])]; [done|..].
    + intros m y Hm Hs. specialize (O m y Hm Hs). cbn [queue with_queue]. rewrite Q, occurrences_cons in O. case_decide; lia.
    + intros m y Hm Hs. cbn [isources queue served with_queue with_isources with_iplc] in *. rewrite zlookup_insert in Hm by (by exists x).
      destruct (decide (m = n)) as [->|Hne].
      * injection Hm as <-. specialize (O n x L Hs). rewrite Q, occurrences_cons, decide_True in O by done.
        cbn [mcv_Count with_Count]. assert (0 <= occurrences n q) by (unfold occurrences; lia).
        assert (mcv_Count x = 1) as -> by lia. change (u8 (1 - 1)) with 0. lia.
      * specialize (O m y Hm Hs). rewrite Q, occurrences_cons, decide_False in O by congruence. lia.
Qed.

(** ** An interrupt that is never served again *)
(** Counted as pending without a message in the queue. *)
Definition lost (n : Z) (s : int_st) : Prop :=
  n ∉ queue s /\ exists x, zlookup (isources s) n = Some x /\ single x /\ mcv_Count x <> 0.
#[global] Instance lost_lasting n : Lasting (lost n).
Proof.
  split.
  - intros s s' E1 E2 H. unfold lost. by rewrite E1, E2.
  - intros m s s' E [Hq (y & Hy & Hs & Hc)]. apply add_inv in E as [->|(x & q & _ & L & _ & Hd & -> & H)]; [by split; [|exists y]|].
    assert (m <> n) as Hne by (intros ->; rewrite L in Hy; injection Hy as ->; destruct Hd; done).
    split; [cbn [queue raised with_queue]; destruct H as [->|[->| ->]]; set_solver|].
    exists y. cbn [isources raised with_queue with_isources]. rewrite zlookup_insert, decide_False by (congruence || by exists x). done.
  - intros run b s s' E [Hq (y & Hy & Hs & Hc)].
    apply serve_inv in E as [[_ ->]|(m & q & Q & [[-> _]|(x & r & p & _ & L & C0 & _ & ->)])]; [by split; [|exists y]|..];
      rewrite Q in Hq; apply not_elem_of_cons in Hq as [Hne Hq]; (split; [exact Hq|]).
    + by exists y.
    + exists y. cbn [isources served with_queue with_isources with_iplc]. rewrite zlookup_insert, decide_False by (congruence || by exists x). done.
Qed.
(** The flags of the sources do not change. *)
#[global] Instance flags_lasting F : Lasting (fun s => mcv_IntFlag <$> isources s = F).
Proof.
  assert (K : forall (l : list plc_interrupt_source_st) n x c, zlookup l n = Some x ->
    mcv_IntFlag <$> <[Z.to_nat n := with_Count c x]> l = mcv_IntFlag <$> l).
  { intros l n x c L. apply zlookup_Some in L as [_ L]. rewrite list_fmap_insert. cbn [mcv_IntFlag with_Count].
    apply list_insert_id. by rewrite list_lookup_fmap, L. }
  split.
  - intros s s' E _ H. by rewrite E.
  - intros n s s' E H. apply add_inv in E as [->|(x & q & _ & L & _ & _ & -> & _)]; [done|]. cbn. by rewrite K.
  - intros run b s s' E H. apply serve_inv in E as [[_ ->]|(n & q & Q & [[-> _]|(x & r & p & _ & L & _ & _ & ->)])]; [done..|]. cbn. by rewrite K.
Qed.
(** C39: from an initialised set of sources and an empty queue, whatever sources
    raise, however ticks, turns of the task and changes by the main program
    follow one another, the queue never holds two messages of
    a source that may have one only. *)
Theorem one_message_per_source run s s' : queue s = [] -> (forall n x, zlookup (isources s) n = Some x -> mcv_Count x = 0) ->
  rtc (int_step run) s s' ->
  forall n x, zlookup (isources s) n = Some x -> Z.land (mcv_IntFlag x) 1 <> 0 -> occurrences n (queue s') <= 1.
Proof.
  intros Hq Hc H n x Hn Hx.
  assert (O : orderly s').
  { apply (steps_lasting orderly run s); [done|]. intros m y Hm _. rewrite Hq, (Hc m y Hm). unfold occurrences. cbn. lia. }
  assert (F := @steps_lasting _ (flags_lasting (mcv_IntFlag <$> isources s)) run s s' H eq_refl).
  apply zlookup_Some in Hn as [H0 Hn].
  assert (L : (mcv_IntFlag <$> isources s') !! Z.to_nat n = Some (mcv_IntFlag x)) by (rewrite F, list_lookup_fmap, Hn; done).
  apply list_lookup_fmap_Some in L as (y & Fy & Hy). specialize (O n y). unfold single in O. rewrite <- Fy in O.
  assert (zlookup (isources s') n = Some y) as Ly by (by apply zlookup_Some). specialize (O Ly Hx). lia.
Qed.
Lemma lost_not_raised n s : lost n s -> plc_add_int_to_interrupt_queue n s = Ok (tt, s).
Proof.
  intros [_ (x & L & Hs & Hc)]. unfold plc_add_int_to_interrupt_queue. unfold gets. unfold mbind at 1, M_bind at 1.
  destruct (_ =? 0); [done|]. destruct (MAX_SYS_INT_NUM <? n); [done|]. unfold int_source, gets, mbind, M_bind. rewrite L.
  unfold single in Hs. unfold of_option, mret, M_ret. destruct (truthy (Z.land (mcv_IntFlag x) 2)); cbn [negb]; [|done].
  assert (truthy (Z.land (mcv_IntFlag x) 1) && truthy (mcv_Count x) = true) as H by (unfold truthy; lia). by rewrite H.
Qed.
(** C40: an interrupt whose message is taken while interrupts are disabled is
    lost, and so are the later ones: the message is dropped, its source stays
    counted as pending, and from then on, whatever happens, raising it has no
    effect, until the sources are initialised again. *)
Theorem pending_interrupt_lost run n q x s : orderly s -> mcv_IntEnable s = 0 -> queue s = n :: q ->
  zlookup (isources s) n = Some x -> Z.land (mcv_IntFlag x) 1 <> 0 ->
  exists s1, interrupt_task run s = Ok (true, s1) /\ iplc s1 = iplc s /\
    forall s2, rtc (int_step run) s1 s2 -> n ∉ queue s2 /\ plc_add_int_to_interrupt_queue n s2 = Ok (tt, s2).
Proof.
  intros O Hen Q L Hx. exists (with_queue q s). pose proof (O n x L Hx) as On. rewrite Q, occurrences_cons, decide_True in On by done.
  assert (Hn : n ∉ q) by (intros Hin; apply occurrences_in in Hin; lia).
  split; [|split; [done|]].
  - unfold interrupt_task, gets. unfold mbind at 1, M_bind at 1. rewrite Q. unfold mbind, M_bind, modify.
    by change (mcv_IntEnable (with_queue q s)) with (mcv_IntEnable s); rewrite Hen.
  - intros s2 H. assert (lost n s2) as Hl.
    { apply (steps_lasting (lost n) run (with_queue q s)); [done|]. split; [exact Hn|]. exists x. split; [exact L|]. split; [exact Hx|].
      assert (0 <= occurrences n q) by (unfold occurrences; lia). lia. }
    split; [apply Hl|by apply lost_not_raised].
Qed.
Definition demo_source (c : Z) : plc_interrupt_source_st := {| mcv_Priority := 0; mcv_IntFlag := 3; mcv_Count := c; mcp_IntPara := 28 |}.
Definition int_demo (en c : Z) (q : list Z) : int_st :=
  {| iplc := with_sys (with_intr_enable en (sys (st0 []))) (st0 []); isources := replicate 60 (demo_source c); queue := q;
     ssv_TimeIntValue := [0; 0; 0] |}.
Lemma demo_lookup c n x : zlookup (replicate 60 (demo_source c)) n = Some x -> x = demo_source c.
Proof. intros H. apply zlookup_Some in H as [_ H]. by apply lookup_replicate in H as [-> _]. Qed.
(** Input 3 raised twice. *)
Lemma one_message_per_source_witness : exists s', rtc (int_step (fun _ => mret 0)) (int_demo 1 0 []) s' /\ occurrences 3 (queue s') <= 1.
Proof.
  eexists. assert (H : rtc (int_step (fun _ => mret 0)) (int_demo 1 0 []) (raised 3 (demo_source 0) [3] (int_demo 1 0 []))).
  { eapply rtc_l; [apply (step_raise _ _ 3); reflexivity|]. eapply rtc_l; [apply (step_raise _ _ 3); reflexivity|]. apply rtc_refl. }
  split; [exact H|].
  exact (one_message_per_source _ (int_demo 1 0 []) _ eq_refl (fun n x L => f_equal mcv_Count (demo_lookup 0 n x L)) H 3 (demo_source 0) eq_refl
    ltac:(discriminate)).
Defined.
(** Input 3 pending when the main program has executed DI. *)
Definition pending_demo : int_st := with_isources (<[3%nat := demo_source 1]> (isources (int_demo 0 0 []))) (int_demo 0 0 [3]).
Lemma pending_demo_orderly : orderly pending_demo.
Proof.
  intros n x L _.
  change (isources pending_demo) with (<[Z.to_nat 3 := demo_source 1]> (replicate 60 (demo_source 0))) in L.
  rewrite zlookup_insert in L by (by eexists). change (queue pending_demo) with [3]. rewrite occurrences_cons.
  destruct (decide (n = 3)) as [->|Hne]; [injection L as <-; rewrite decide_True by done; unfold occurrences; cbn; lia|]. rewrite decide_False by congruence.
  apply demo_lookup in L as ->. unfold occurrences. cbn. lia.
Qed.
Lemma pending_interrupt_lost_witness : exists s1, interrupt_task (fun _ => mret 0) pending_demo = Ok (true, s1) /\ iplc s1 = iplc pending_demo /\
  forall s2, rtc (int_step (fun _ => mret 0)) s1 s2 -> 3 ∉ queue s2 /\ plc_add_int_to_interrupt_queue 3 s2 = Ok (tt, s2).
Proof.
  apply (pending_interrupt_lost _ 3 [] (demo_source 1)); [apply pending_demo_orderly|reflexivity..|discriminate].
Defined.

(** ** Service *)
Lemma source_restored (x : plc_interrupt_source_st) : mcv_Count x = 0 -> with_Count 0 (with_Count 1 x) = x.
Proof. destruct x as [a b c d]; cbn. by intros ->. Qed.
(** An interrupt raised while enabled is served once: raising it again
    before it is served changes nothing; the task runs its program on the
    controller as it is and leaves source and queue ready for the next. *)
Theorem interrupt_served_once run n x r p s : mcv_IntEnable s <> 0 -> queue s = [] -> n <= MAX_SYS_INT_NUM ->
  zlookup (isources s) n = Some x -> Z.land (mcv_IntFlag x) 1 <> 0 -> Z.land (mcv_IntFlag x) 2 <> 0 -> mcv_Count x = 0 ->
  run (mcp_IntPara x) (iplc s) = Ok (r, p) ->
  exists s1, plc_add_int_to_interrupt_queue n s = Ok (tt, s1) /\ plc_add_int_to_interrupt_queue n s1 = Ok (tt, s1) /\
    queue s1 = [n] /\ iplc s1 = iplc s /\ interrupt_task run s1 = Ok (true, with_iplc p s).
Proof.
  intros Hen Q Hmax L H1 H2 Hc Hr. exists (raised n x [n] s).
  assert (Hi : is_Some (zlookup (isources s) n)) by (by exists x). pose proof (proj1 (zlookup_is_Some _ _) Hi) as Hl.
  assert (Hen' : mcv_IntEnable s =? 0 = false) by lia. assert (Hm : MAX_SYS_INT_NUM <? n = false) by lia.
  assert (F2 : truthy (Z.land (mcv_IntFlag x) 2) = true) by (unfold truthy; lia).
  assert (F1 : truthy (Z.land (mcv_IntFlag x) 1) = true) by (unfold truthy; lia).
  assert (Lx : forall y, zlookup (<[Z.to_nat n := y]> (isources s)) n = Some y) by (intros y; by rewrite zlookup_insert, decide_True).
  split_and!; [| |done|done|].
  - unfold plc_add_int_to_interrupt_queue, put_count, int_source, gets, mbind, M_bind. rewrite Hen', Hm, L.
    unfold of_option at 1, mret at 1, M_ret at 1. rewrite F2, F1, Hc. cbn [truthy Z.eqb negb andb]. rewrite L.
    unfold of_option at 1, mret at 1, M_ret at 1. rewrite zupdate_lt by done. unfold raised. rewrite Hc.
    destruct (_ =? INT_PRI_LOW); unfold xQueueSendToBack, xQueueSendToFront, gets, mbind, M_bind; cbn; by rewrite Q.
  - unfold plc_add_int_to_interrupt_queue, int_source, gets, mbind, M_bind.
    change (mcv_IntEnable (raised n x [n] s)) with (mcv_IntEnable s). rewrite Hen', Hm. cbn [isources raised with_queue with_isources].
    rewrite Lx. unfold of_option, mret, M_ret. cbn [mcv_IntFlag mcv_Count with_Count]. by rewrite F2, F1, Hc.
  - set (s1 := raised n x [n] s). unfold interrupt_task. rewrite run_gets. change (queue s1) with [n]. cbv iota.
    rewrite run_modify, run_gets. change (mcv_IntEnable (with_queue [] s1)) with (mcv_IntEnable s). rewrite Hen'.
    unfold put_count, int_source. rewrite run_bind with (a := with_Count 1 x) (s' := with_queue [] s1).
    2: { rewrite run_gets. cbn [isources s1 raised with_queue with_isources]. rewrite Lx. by rewrite Hc. }
    change (mcv_Count (with_Count 1 x) =? 0) with false. cbv iota.
    rewrite run_bind with (a := r) (s' := with_iplc p (with_queue [] s1)).
    2: { unfold on_plc. change (iplc (with_queue [] s1)) with (iplc s); cbn [mcp_IntPara with_Count]. by rewrite Hr. }
    set (s2 := with_iplc p (with_queue [] s1)). assert (L2 : zlookup (isources s2) n = Some (with_Count 1 x)).
    { cbn [isources s2 s1 raised with_queue with_isources with_iplc]. rewrite Lx. by rewrite Hc. }
    rewrite run_bind with (a := with_Count 1 x) (s' := s2) by (rewrite run_gets, L2; done).
    rewrite run_bind with (a := tt) (s' := with_isources (isources s) s2); [by destruct s; cbn in *; subst|].
    rewrite run_bind with (a := with_Count 1 x) (s' := s2) by (rewrite run_gets, L2; done). rewrite run_gets.
    change (with_Count (mcv_Count (with_Count 1 x) - 1) (with_Count 1 x)) with (with_Count 0 (with_Count 1 x)).
    rewrite source_restored by done. change (isources s2) with (<[Z.to_nat n := with_Count (mcv_Count x + 1) x]> (isources s)).
    rewrite (run_some _ (isources s)); [done|]. rewrite zupdate_lt by (rewrite length_insert; lia). rewrite list_insert_insert_eq.
    apply zlookup_Some in L as [_ L]. by rewrite list_insert_id.
Qed.
Lemma interrupt_served_once_witness : exists s1, plc_add_int_to_interrupt_queue 3 (int_demo 1 0 []) = Ok (tt, s1) /\
  plc_add_int_to_interrupt_queue 3 s1 = Ok (tt, s1) /\ queue s1 = [3] /\ iplc s1 = iplc (int_demo 1 0 []) /\
  interrupt_task (fun _ => mret 0) s1 = Ok (true, with_iplc (iplc (int_demo 1 0 [])) (int_demo 1 0 [])).
Proof. apply (interrupt_served_once _ 3 (demo_source 0) 0); (done || reflexivity || discriminate). Defined.

(** ** Timed interrupts *)
(** A tick for the first timer alone. *)
Record timing (p : Z) (s : int_st) : Prop := {
  tm_wf : wf_elem (elem s);
  tm_enabled : mcv_IntEnable s <> 0;
  tm_running : mcv_PlcCurrentStatus (run_status (sys (iplc s))) = PLC_RUN_STATUS;
  tm_on : bit_of (elem s) SM_ELEMENT 66 = Some true;
  tm_off : bit_of (elem s) SM_ELEMENT 67 = Some false /\ bit_of (elem s) SM_ELEMENT 68 = Some false;
  tm_period : cell SD_ELEMENT 66 s = p }.
Lemma get_SM_run (n : Z) (b : bool) (s : int_st) : wf_elem (elem s) -> 66 <= n <= 68 -> bit_of (elem s) SM_ELEMENT n = Some b ->
  plc_get_bit_element_value SM_ELEMENT n s = Ok (Z.b2z b, s).
Proof. intros W Hn Hb. destruct (get_bit_run SM_ELEMENT n s W) as (c & E & Hc); [lia|change (16 * rsize SM_ELEMENT) with 1024; lia|]. rewrite E. congruence. Qed.
Lemma timer_off k (s : int_st) : wf_elem (elem s) -> 0 <= k <= 2 -> bit_of (elem s) SM_ELEMENT (66 + k) = Some false ->
  timed_interrupt k s = Ok (tt, s).
Proof. intros W Hk Hb. unfold timed_interrupt. by rewrite (run_bind _ _ _ _ _ (get_SM_run (66 + k) _ s W ltac:(lia) Hb)). Qed.
Section timing.
Context (p v a b : Z) (s : int_st) (T : timing p s) (Hv : 0 <= v <= p) (Hp : 0 < p < 2 ^ 16 - 1) (Ht : ssv_TimeIntValue s = [v; a; b]).
Definition first_timer (v : Z) : int_st := with_timers [v; a; b] s.
Lemma tick_first : timed_interrupt 0 s =
  (if p <? v + 1 then (plc_add_int_to_interrupt_queue TIME_0_INT;; l ← gets ssv_TimeIntValue; l' ← of_option (zupdate l 0 0); modify (with_timers l'))
   else mret tt) (first_timer (v + 1)).
Proof.
  destruct T as [W _ _ Hon _ Hc]. unfold timed_interrupt. rewrite (run_bind _ _ _ _ _ (get_SM_run (66 + 0) true s W ltac:(lia) Hon)).
  change (Z.b2z true =? 0) with false. cbv iota. rewrite (run_bind _ _ _ _ _ (rd_cell SD_ELEMENT 66 s W ltac:(split; done))), Hc.
  assert (0 <? p = true) as -> by lia. unfold when at 1. rewrite run_gets, Ht. rewrite (run_some _ v) by done.
  rewrite u16_id by lia. rewrite (run_some _ [v + 1; a; b]) by done. rewrite run_modify.
  fold (first_timer (v + 1)). by destruct (p <? v + 1).
Qed.
Lemma tick_run s' : timed_interrupt 0 s = Ok (tt, s') -> iplc s' = iplc s -> vApplicationTickHook s = Ok (tt, s').
Proof.
  intros E Hi. destruct T as [W Hen Hrun _ [H67 H68] _]. unfold vApplicationTickHook. rewrite run_gets.
  assert (mcv_IntEnable s =? 0 = false) as -> by lia. rewrite run_gets, Hrun. change (PLC_RUN_STATUS =? PLC_RUN_STATUS) with true. cbn [negb].
  rewrite (run_bind _ _ _ _ _ E). assert (El : elem s' = elem s) by (unfold elem; cbn; by rewrite Hi).
  rewrite (run_bind _ _ _ _ _ (timer_off 1 s' ltac:(by rewrite El) ltac:(lia) ltac:(by rewrite El))).
  apply timer_off; [by rewrite El|lia|by rewrite El].
Qed.
End timing.
Lemma timing_first p v a b s : timing p s -> timing p (first_timer a b s v).
Proof. by intros [W H1 H2 H3 H4 H5]. Qed.
(** A loop by its last turn. *)
Lemma for_up_snoc {S} n (f : Z -> M S unit) s s1 : forall i, for_up n i f s = Ok (tt, s1) -> for_up (n + 1) i f s = f (i + Z.of_nat n) s1.
Proof.
  revert s. induction n as [|n IH]; intros s i E; cbn [for_up Nat.add] in *.
  - injection E as ->. rewrite Z.add_0_r. unfold mbind, M_bind. by destruct (f i s1) as [[[] ?]| |].
  - apply bind_inv in E as ([] & s2 & E1 & E). rewrite (run_bind _ _ _ _ _ E1), (IH s2 (i + 1) E). f_equal. lia.
Qed.
(** [n] ticks. *)
Definition ticks (n : nat) : Mi unit := for_up n 0 (fun _ => vApplicationTickHook).
Lemma ticks_run p n a b : 0 < p < 2 ^ 16 - 1 -> forall i v s, timing p s -> 0 <= v -> v + Z.of_nat n <= p -> ssv_TimeIntValue s = [v; a; b] ->
  for_up n i (fun _ => vApplicationTickHook) s = Ok (tt, first_timer a b s (v + Z.of_nat n)).
Proof.
  intros Hp. induction n as [|n IH]; intros i v s T Hv Hn Ht; cbn [for_up].
  { unfold first_timer. replace (v + Z.of_nat 0) with v by lia. rewrite <- Ht. by destruct s. }
  assert (E : timed_interrupt 0 s = Ok (tt, first_timer a b s (v + 1))).
  { rewrite (tick_first p v a b s T) by (done || lia). by assert (p <? v + 1 = false) as -> by lia. }
  rewrite (run_bind _ _ _ _ _ (tick_run p s T _ E eq_refl)).
  rewrite (IH (i + 1) (v + 1) (first_timer a b s (v + 1)) (timing_first p _ a b s T)); [|lia|lia|done].
  replace (v + 1 + Z.of_nat n) with (v + Z.of_nat (S n)) by lia. done.
Qed.
(** Raising an interrupt does not look at the counters. *)
Lemma add_timers n l s s1 : plc_add_int_to_interrupt_queue n s = Ok (tt, s1) ->
  plc_add_int_to_interrupt_queue n (with_timers l s) = Ok (tt, with_timers l s1).
Proof.
  unfold plc_add_int_to_interrupt_queue, put_count, int_source, xQueueSendToBack, xQueueSendToFront, when.
  rewrite !run_gets. change (mcv_IntEnable (with_timers l s)) with (mcv_IntEnable s).
  destruct (mcv_IntEnable s =? 0); [by intros [= <-]|]. destruct (MAX_SYS_INT_NUM <? n); [by intros [= <-]|].
  unfold gets, modify, of_option, mret, M_ret, mbind, M_bind. cbn [isources with_timers].
  destruct (zlookup (isources s) n) as [x|] eqn:L; [|done].
  destruct (truthy (Z.land (mcv_IntFlag x) 2)); cbn [negb]; [|by intros [= <-]].
  destruct (truthy (Z.land (mcv_IntFlag x) 1) && truthy (mcv_Count x)); [by intros [= <-]|].
  cbn [isources with_timers]. rewrite L. destruct (zupdate _ _ _); [|done]. cbn [queue with_isources with_timers].
  destruct (mcv_Priority x =? INT_PRI_LOW), (_ <? QUEUE_LENGTH); by intros [= <-].
Qed.
Lemma add_keeps n s s1 : plc_add_int_to_interrupt_queue n s = Ok (tt, s1) -> iplc s1 = iplc s /\ ssv_TimeIntValue s1 = ssv_TimeIntValue s.
Proof. intros E. by apply add_inv in E as [->|(x & q & _ & _ & _ & _ & -> & _)]. Qed.
(** The first timed interrupt is raised every SD66 + 1 ticks, not every
    SD66: after SD66 ticks the counter has come to SD66 and nothing has been
    raised; the tick after it raises the interrupt and starts over. *)
Theorem timed_interrupt_period p a b s s1 : timing p s -> 0 < p < 2 ^ 16 - 1 -> ssv_TimeIntValue s = [0; a; b] ->
  plc_add_int_to_interrupt_queue TIME_0_INT s = Ok (tt, s1) ->
  ticks (Z.to_nat p) s = Ok (tt, with_timers [p; a; b] s) /\
  ticks (Z.to_nat (p + 1)) s = Ok (tt, s1).
Proof.
  intros T Hp Ht E. assert (R := ticks_run p (Z.to_nat p) a b Hp 0 0 s T ltac:(lia) ltac:(lia) Ht). rewrite Z2Nat.id in R by lia.
  split; [exact R|]. replace (Z.to_nat (p + 1)) with (Z.to_nat p + 1)%nat by lia. unfold ticks. rewrite (for_up_snoc _ _ _ _ _ R). set (s2 := first_timer a b s (0 + p)).
  assert (T2 : timing p s2) by (apply timing_first, T). destruct (add_keeps _ _ _ E) as [K1 K2].
  assert (E2 : timed_interrupt 0 s2 = Ok (tt, s1)).
  { rewrite (tick_first p p a b s2 T2) by (done || lia). assert (p <? p + 1 = true) as -> by lia.
    rewrite (run_bind _ _ _ _ _ (add_timers _ [p + 1; a; b] s s1 E)). rewrite run_gets. cbn [ssv_TimeIntValue with_timers].
    rewrite (run_some _ [0; a; b]) by done. unfold modify. cbn. rewrite <- Ht, <- K2. by destruct s1. }
  exact (tick_run p s2 T2 s1 E2 K1).
Qed.
(** Timer 0 with a period of 20. *)
Definition timer_demo : int_st :=
  let y := sys (st0 []) in
  let r := {| mcv_PlcRunSwitch := PLC_RUN; mtv_PlcRunStopFlag := 0; mcv_PlcCurrentStatus := PLC_RUN_STATUS; mcv_IsOnlineProgram := 0;
              mlv_SysScanTime := 0; mlv_WatchDogTime := 0 |} in
  upd SD_ELEMENT 66 20 (upd SM_ELEMENT 4 4 (with_iplc (with_sys (with_run_status r (with_intr_enable 1 y)) (st0 [])) (int_demo 1 0 []))).
Lemma timer_demo_timing : timing 20 timer_demo.
Proof.
  split; [unfold timer_demo; do 2 (apply upd_wf; [|split; done]); apply wf_elem0|done..|split; reflexivity|reflexivity].
Qed.
Lemma timed_interrupt_period_witness : exists s1, plc_add_int_to_interrupt_queue TIME_0_INT timer_demo = Ok (tt, s1) /\
  ticks (Z.to_nat 20) timer_demo = Ok (tt, with_timers [20; 0; 0] timer_demo) /\
  ticks (Z.to_nat (20 + 1)) timer_demo = Ok (tt, s1).
Proof.
  exists (raised 16 (demo_source 0) [16] timer_demo).
  assert (E : plc_add_int_to_interrupt_queue TIME_0_INT timer_demo = Ok (tt, raised 16 (demo_source 0) [16] timer_demo)) by reflexivity.
  split; [exact E|]. exact (timed_interrupt_period 20 0 0 timer_demo _ timer_demo_timing ltac:(lia) eq_refl E).
Defined.
