(* ===== verification/MbSlave.v ===== *)
(** * The MODBUS slave

    Models protocol/modbus: mb_maptable.c, the map from protocol addresses to
    elements, and mb.c, the handlers of the standard functions and of the two
    pairs of bulk functions. A message is a record of its two buffers, their
    lengths and where it came from; the answers handed to the send functions
    are kept in order. The functions for download, upload and control (other
    files of the protocol) are parameters of the dispatcher. Logging, the hex
    dumps and the watch dog are left out. *)
From stdpp Require Import base list numbers sets.
From S2P Require Import Prelude Element Machine Verify.

(** ** The map of addresses (mb_maptable.h, mb_maptable.c) *)
Definition MB_BIT_ELEMENT := 1.
Definition MB_WORD_ELEMENT := 2.
Definition MB_ELEMENT_MAX := 3.
Definition MB_BIT_Y := 0.
Definition MB_BIT_X := 1.
Definition MB_BIT_M := 2.
Definition MB_BIT_SM := 3.
Definition MB_BIT_S := 4.
Definition MB_BIT_T := 5.
Definition MB_BIT_C := 6.
Definition MB_WORD_D := 7.
Definition MB_WORD_SD := 8.
Definition MB_WORD_Z := 9.
Definition MB_WORD_T := 10.
Definition MB_WORD_C := 11.
Definition MB_WORD_R := 12.
Record mb_element_map_table_info := {
  mcv_AddrType : Z;
  mcv_ElementType : Z;
  mcv_AddrSection : Z;
  msv_StartAddr : Z;
  msv_EndAddr : Z;
  msv_StartElement : Z;
  msv_MaxNum : Z }.
Definition map_row (a t x s e n m : Z) : mb_element_map_table_info :=
  {| mcv_AddrType := a; mcv_ElementType := t; mcv_AddrSection := x; msv_StartAddr := s; msv_EndAddr := e;
     msv_StartElement := n; msv_MaxNum := m |}.
Definition stv_ModbusMapTable : list mb_element_map_table_info :=
  [ map_row MB_BIT_ELEMENT MB_BIT_Y 1 0 1199 0 256;
    map_row MB_BIT_ELEMENT MB_BIT_Y 2 10000 11999 256 1792;
    map_row MB_BIT_ELEMENT MB_BIT_X 1 1200 1999 0 256;
    map_row MB_BIT_ELEMENT MB_BIT_X 2 12000 13999 256 1792;
    map_row MB_BIT_ELEMENT MB_BIT_M 1 2000 4399 0 2048;
    map_row MB_BIT_ELEMENT MB_BIT_M 2 34000 53999 2048 14336;
    map_row MB_BIT_ELEMENT MB_BIT_SM 1 4400 5999 0 256;
    map_row MB_BIT_ELEMENT MB_BIT_SM 2 14000 17999 256 3840;
    map_row MB_BIT_ELEMENT MB_BIT_S 1 6000 7999 0 1024;
    map_row MB_BIT_ELEMENT MB_BIT_S 2 18000 25999 1024 7168;
    map_row MB_BIT_ELEMENT MB_BIT_T 1 8000 9199 0 256;
    map_row MB_BIT_ELEMENT MB_BIT_T 2 26000 29999 256 256;
    map_row MB_BIT_ELEMENT MB_BIT_C 1 9200 10000 0 256;
    map_row MB_BIT_ELEMENT MB_BIT_C 2 30000 33999 256 256;
    map_row MB_WORD_ELEMENT MB_WORD_D 1 0 7999 0 8000;
    map_row MB_WORD_ELEMENT MB_WORD_SD 1 8000 8499 0 256;
    map_row MB_WORD_ELEMENT MB_WORD_SD 2 46000 49999 256 3840;
    map_row MB_WORD_ELEMENT MB_WORD_Z 1 8500 8999 0 16;
    map_row MB_WORD_ELEMENT MB_WORD_Z 2 10000 11999 16 0;
    map_row MB_WORD_ELEMENT MB_WORD_T 1 9000 9499 0 256;
    map_row MB_WORD_ELEMENT MB_WORD_T 2 50000 53999 256 256;
    map_row MB_WORD_ELEMENT MB_WORD_C 1 9500 9699 0 200;
    map_row MB_WORD_ELEMENT MB_WORD_C 2 9700 9811 200 112;
    map_row MB_WORD_ELEMENT MB_WORD_C 3 54000 61999 256 512;
    map_row MB_WORD_ELEMENT MB_WORD_R 1 13000 45999 0 32768;
    map_row MB_ELEMENT_MAX 0 0 0 0 0 0 ].
(** The search from row [i] on; the element type and number where it passes. *)
Fixpoint map_search (rows : list mb_element_map_table_info) (lcv_AddrType lsv_MbAddr : Z) : option (Z * Z) :=
  match rows with
  | [] => None
  | r :: rows' =>
      if mcv_AddrType r =? MB_ELEMENT_MAX then None
      else if negb (mcv_AddrType r =? lcv_AddrType) then map_search rows' lcv_AddrType lsv_MbAddr
      else if (msv_StartAddr r <=? lsv_MbAddr) && (lsv_MbAddr <=? msv_EndAddr r) then
        let lsp_ElementAddr := u16 (lsv_MbAddr - msv_StartAddr r + msv_StartElement r) in
        if msv_StartAddr r + msv_MaxNum r <=? lsp_ElementAddr then None else Some (mcv_ElementType r, lsp_ElementAddr)
      else map_search rows' lcv_AddrType lsv_MbAddr
  end.
Definition mb_slave_convert_element_info (lcv_AddrType lsv_MbAddr : Z) : option (Z * Z) :=
  map_search (drop (if lcv_AddrType =? MB_BIT_ELEMENT then 0%nat else 14%nat) stv_ModbusMapTable) lcv_AddrType lsv_MbAddr.

(** ** Messages (mb.h) *)
Definition MB_SENDER_USB := 4.
Definition MB_SENDER_MAX := 7.
Definition MB_READ_COILS_STATUS := 0x01.
Definition MB_READ_DESCRETE_INPUT_STATUS := 0x02.
Definition MB_READ_HOLDING_REGISTER := 0x03.
Definition MB_WRITE_SINGLE_COIL := 0x05.
Definition MB_WRITE_REGISTER := 0x06.
Definition MB_DIAG_DIAGNOSTIC := 0x08.
Definition MB_WRITE_MULTIPLE_COILS := 0x0F.
Definition MB_WRITE_MULTIPLE_REGISTERS := 0x10.
Definition MB_READ_MULTIPLE_BIT_ELEMENT := 0x64.
Definition MB_READ_MULTIPLE_WORD_ELEMENT := 0x65.
Definition MB_WRITE_MULTIPLE_BIT_ELEMENT := 0x66.
Definition MB_WRITE_MULTIPLE_WORD_ELEMENT := 0x67.
Definition MB_DOWNLOWD_FUNC := 0x68.
Definition MB_UPLOAD_FUNC := 0x69.
Definition MB_CTRL_FUNC := 0x6A.
Definition MB_DIAG_RETURN_QUERY_DATA := 0x00.
Definition MB_DIAG_RESTART_COMMUNICATION := 0x01.
Definition MB_DIAG_FORCE_LISTEN_ONLY_MODE := 0x04.
Definition MB_DIAG_CLEAR_CTRL_DIAG_REG := 0x0A.
Definition MB_DIAG_RETURN_BUS_PACKAGE_CNT := 0x0B.
Definition MB_DIAG_RETURN_CRC_ERR_CNT := 0x0C.
Definition MB_DIAG_SLAVE_ERR_CNT := 0x0D.
Definition MB_DIAG_SLAVE_BUS_MSG_CNT := 0x0E.
Definition MB_DIAG_SLAVE_NO_RESP_CNT := 0x0F.
Definition MB_DIAG_BUS_CHAR_OVERRUN_CNT := 0x12.
Definition MB_DIAG_BROAD_RETURN_QUERY_DATA := 0xAA.
Definition MB_ILIEGAL_CODE := 0x01.
Definition MB_ILIEGAL_ADDR := 0x02.
Definition MB_ILIEGAL_DATA := 0x03.
Definition MB_ERROR_FRAME := 0x18.
Definition MB_MAX_R_BIT_NUM := 0x7D0.
Definition MB_MAX_W_BIT_NUM := 0x7B0.
Definition MB_MAX_R_WORD_NUM := 0x7D.
Definition MB_MAX_W_WORD_NUM := 0x78.

(** A function pointer is present or not. *)
Record md_slave_msg_pack := {
  mcv_Sender : Z;
  msv_ReceiveLen : Z;
  msv_RespLen : Z;
  mcv_IsBroadcastInfo : Z;
  mcv_ErrorCode : Z;
  mcp_ReceiveBuff : list Z;
  mcp_RespBuff : list Z;
  isTcpClient : Z;
  clientID : Z;
  slaveID : Z;
  tcp_resp_func : bool;
  resp_func : bool }.
Record mb_slave_diagnositic_info_st := {
  mcv_SlaveId : Z;
  mcv_ListenOnlyMode : Z;
  msv_BusPackageCnt : Z;
  msv_BusCrcErrCnt : Z;
  msv_SlaveErrCnt : Z;
  msv_SlavePackageCnt : Z;
  msv_SlaveNoRespCnt : Z;
  msv_BusCharOverrunCnt : Z }.
(** What is handed to [resp_func] and to [tcp_resp_func]. *)
Inductive reply : Set := Resp (bytes : list Z) | TcpResp (bytes : list Z) (client : Z).
Record mb_st := {
  base : plc_st;
  gtp_ModbusSlaveDiagInfo : list mb_slave_diagnositic_info_st;
  msg : md_slave_msg_pack;
  sent : list reply }.
Notation Mb := (M mb_st).

Definition with_base b s := {| base := b; gtp_ModbusSlaveDiagInfo := gtp_ModbusSlaveDiagInfo s; msg := msg s; sent := sent s |}.
Definition with_diag d s := {| base := base s; gtp_ModbusSlaveDiagInfo := d; msg := msg s; sent := sent s |}.
Definition with_msg m s := {| base := base s; gtp_ModbusSlaveDiagInfo := gtp_ModbusSlaveDiagInfo s; msg := m; sent := sent s |}.
Definition with_sent l s := {| base := base s; gtp_ModbusSlaveDiagInfo := gtp_ModbusSlaveDiagInfo s; msg := msg s; sent := l |}.
Definition with_lens_code (n e : Z) (m : md_slave_msg_pack) := {| mcv_Sender := mcv_Sender m; msv_ReceiveLen := msv_ReceiveLen m;
  msv_RespLen := n; mcv_IsBroadcastInfo := mcv_IsBroadcastInfo m; mcv_ErrorCode := e; mcp_ReceiveBuff := mcp_ReceiveBuff m;
  mcp_RespBuff := mcp_RespBuff m; isTcpClient := isTcpClient m; clientID := clientID m; slaveID := slaveID m;
  tcp_resp_func := tcp_resp_func m; resp_func := resp_func m |}.
Definition with_RespLen n m := with_lens_code n (mcv_ErrorCode m) m.
Definition with_ErrorCode e m := with_lens_code (msv_RespLen m) e m.
Definition with_buffs (rx tx : list Z) (m : md_slave_msg_pack) := {| mcv_Sender := mcv_Sender m; msv_ReceiveLen := msv_ReceiveLen m;
  msv_RespLen := msv_RespLen m; mcv_IsBroadcastInfo := mcv_IsBroadcastInfo m; mcv_ErrorCode := mcv_ErrorCode m;
  mcp_ReceiveBuff := rx; mcp_RespBuff := tx; isTcpClient := isTcpClient m; clientID := clientID m; slaveID := slaveID m;
  tcp_resp_func := tcp_resp_func m; resp_func := resp_func m |}.
#[global] Instance mb_st_mem : Sub plc_element_st mb_st.
Proof. refine {| sget s := mem (base s); sset e s := with_base (with_mem e (base s)) s |}; by intros; repeat destruct_and?; destruct s as [[] ? ? ?]. Defined.

(** ** Access to a message *)
Definition message : Mb md_slave_msg_pack := gets msg.
Definition mod_msg (f : md_slave_msg_pack -> md_slave_msg_pack) : Mb unit := modify (fun s => with_msg (f (msg s)) s).
(** [pMsg->mcp_ReceiveBuff[i]], [pMsg->mcp_RespBuff[i]] and the stores. *)
Definition rx (i : Z) : Mb Z := m ← message; of_option (zlookup (mcp_ReceiveBuff m) i).
Definition tx (i : Z) : Mb Z := m ← message; of_option (zlookup (mcp_RespBuff m) i).
Definition put_tx (i v : Z) : Mb unit :=
  m ← message; l ← of_option (zupdate (mcp_RespBuff m) i (u8 v)); mod_msg (with_buffs (mcp_ReceiveBuff m) l).
Definition put_rx (i v : Z) : Mb unit :=
  m ← message; l ← of_option (zupdate (mcp_ReceiveBuff m) i (u8 v)); mod_msg (with_buffs l (mcp_RespBuff m)).
(** [GET_BIGPU16_DATA(&pMsg->mcp_ReceiveBuff[i])], [GET_BIGPU32_DATA]. *)
Definition GET_BIGPU16_DATA (i : Z) : Mb Z := h ← rx i; l ← rx (i + 1); mret (u16 (Z.shiftl h 8 + l)).
Definition GET_BIGPU32_DATA (i : Z) : Mb Z :=
  a ← rx i; b ← rx (i + 1); c ← rx (i + 2); d ← rx (i + 3);
  mret (u32 (Z.shiftl a 24 + Z.shiftl b 16 + Z.shiftl c 8 + d)).
(** [pMsg->mcp_RespBuff[i] = pMsg->mcp_ReceiveBuff[i]] for [n] places from [i]. *)
Definition copy_request (n : nat) (i : Z) : Mb unit := for_up n i (fun i => v ← rx i; put_tx i v).

(** ** Answers *)
Definition check_sum (l : list Z) (n : Z) : Mb Z := of_option (calc_crc16 l n).
(** What both ways of answering do with the frame in the buffer. *)
Definition hand_over : Mb unit :=
  m ← message;
  let frame := take (Z.to_nat (msv_RespLen m)) (mcp_RespBuff m) in
  let send r := modify (fun s => with_sent (sent s ++ [r]) s) in
  if mcv_Sender m =? MB_SENDER_USB then (if resp_func m then send (Resp frame) else ub)
  else
    when (resp_func m) (send (Resp frame));;
    when (truthy (isTcpClient m) && tcp_resp_func m) (send (TcpResp frame (clientID m))).
Definition mb_slave_error_resp : Mb unit :=
  m ← message;
  if truthy (mcv_IsBroadcastInfo m) then mret tt
  else
    a ← rx 0; put_tx 0 a;;
    f ← rx 1; put_tx 1 (f + 0x80);;
    put_tx 2 (mcv_ErrorCode m);;
    m' ← message; crc ← check_sum (mcp_RespBuff m') 3;
    put_tx 3 crc;; put_tx 4 (Z.shiftr crc 8);;
    mod_msg (with_RespLen 5);;
    hand_over.
Definition mb_slave_verify_resp_msg : Mb unit :=
  m ← message; crc ← check_sum (mcp_RespBuff m) (msv_RespLen m);
  put_tx (msv_RespLen m) (Z.land crc 0xFF);; put_tx (msv_RespLen m + 1) (Z.shiftr crc 8);;
  mod_msg (with_RespLen (u16 (msv_RespLen m + 2)));;
  hand_over.
(** [pMsg->mcv_ErrorCode = e; mb_slave_error_resp(pMsg)]. *)
Definition fail_with (e : Z) : Mb unit := mod_msg (with_ErrorCode e);; mb_slave_error_resp.
(** [pMsg->msv_RespLen = n; mb_slave_verify_resp_msg(pMsg)]. *)
Definition answer (n : Z) : Mb unit := mod_msg (with_RespLen (u16 n));; mb_slave_verify_resp_msg.
(** A request that gets no answer when it is a broadcast. *)
Definition not_broadcast (k : Mb unit) : Mb unit := m ← message; if truthy (mcv_IsBroadcastInfo m) then mret tt else k.
Definition converted (t a : Z) (k : Z -> Z -> Mb unit) : Mb unit :=
  match mb_slave_convert_element_info t a with Some (e, n) => k e n | None => fail_with MB_ILIEGAL_ADDR end.

(** ** Reading bits *)
Definition bit_region_of (lcv_ElementType : Z) : option (region * Z) :=
  if lcv_ElementType =? MB_BIT_Y then Some (Y_ELEMENT, Y_RANG)
  else if lcv_ElementType =? MB_BIT_X then Some (X_ELEMENT, X_RANG)
  else if lcv_ElementType =? MB_BIT_M then Some (M_ELEMENT, M_RANG)
  else if lcv_ElementType =? MB_BIT_SM then Some (SM_ELEMENT, SM_RANG)
  else if lcv_ElementType =? MB_BIT_S then Some (S_ELEMENT, S_RANG)
  else if lcv_ElementType =? MB_BIT_T then Some (T_ELEMENT, T_RANG)
  else if lcv_ElementType =? MB_BIT_C then Some (C_ELEMENT, C_RANG)
  else None.
(** The loop over [n] elements from [a] on: [p] is the place of the byte being
    filled, [bits] how many bits it has, [num] the number of bytes; [after] is
    done to the byte after each bit. *)
Fixpoint pack_bits (after : Z -> Z) (n : nat) (r : region) (a p bits num : Z) : Mb Z :=
  match n with
  | O => mret num
  | S n' =>
      let next := 8 <=? bits in
      when next (put_tx (p + 1) 0);;
      let p1 := if next then p + 1 else p in
      let bits1 := if next then 0 else bits in
      let num1 := if next then u8 (num + 1) else num in
      v ← tx p1; b ← plc_get_bit_element_value r a;
      put_tx p1 (v + Z.shiftl b bits1);;
      v' ← tx p1; put_tx p1 (after v');;
      pack_bits after n' r (a + 1) p1 (bits1 + 1) num1
  end.
Definition bits_response (after : Z -> Z) (r : region) (a cnt : Z) : Mb unit :=
  put_tx 3 0;;
  lcv_RespByteNum ← pack_bits after (Z.to_nat cnt) r a 3 0 1;
  copy_request 2 0;; put_tx 2 lcv_RespByteNum;;
  answer (lcv_RespByteNum + 3).
(** The checks the two functions share. *)
Definition read_bits_request (k : Z -> Z -> Z -> Mb unit) : Mb unit := not_broadcast (
  m ← message;
  if negb (msv_ReceiveLen m =? 8) then fail_with MB_ILIEGAL_DATA else
  lsv_StartElement ← GET_BIGPU16_DATA 2;
  lsv_ElementCnt ← GET_BIGPU16_DATA 4;
  if MB_MAX_R_BIT_NUM <? lsv_ElementCnt then fail_with MB_ILIEGAL_DATA else
  converted MB_BIT_ELEMENT lsv_StartElement (fun t a => k t a lsv_ElementCnt)).
Definition mb_slave_read_coils_status : Mb unit := read_bits_request (fun t a cnt =>
  match bit_region_of t with
  | Some (r, rang) => if rang <? a + cnt - 1 then fail_with MB_ILIEGAL_ADDR else bits_response (fun v => v) r a cnt
  | None => fail_with MB_ILIEGAL_ADDR
  end).
(** The byte is shifted once more after each bit; the type of element is not
    looked at. *)
Definition mb_slave_read_descrete_input_status : Mb unit := read_bits_request (fun t a cnt =>
  if X_RANG <? a + cnt - 1 then fail_with MB_ILIEGAL_ADDR else bits_response (fun v => Z.shiftl v 1) X_ELEMENT a cnt).

(** ** Reading registers *)
Definition put_big16 (p v : Z) : Mb unit := put_tx p (Z.shiftr v 8);; put_tx (p + 1) v.
Definition words_response (get : Z -> Mb Z) (rang a cnt : Z) : Mb Z :=
  for_up (Z.to_nat cnt) 0 (fun i => v ← get (a + i); put_big16 (3 + i * 2) v);; mret (u16 (cnt * 2)).
Definition mb_slave_read_holding_register : Mb unit := not_broadcast (
  m ← message;
  if negb (msv_ReceiveLen m =? 8) then fail_with MB_ILIEGAL_DATA else
  lsv_ModbusAddr ← GET_BIGPU16_DATA 2;
  cnt ← GET_BIGPU16_DATA 4;
  if MB_MAX_R_WORD_NUM <? cnt then fail_with MB_ILIEGAL_ADDR else
  converted MB_WORD_ELEMENT lsv_ModbusAddr (fun t a =>
  let respond (k : Mb Z) : Mb unit :=
    lsv_DataLen ← k; copy_request 2 0;; put_tx 2 lsv_DataLen;; answer (lsv_DataLen + 3) in
  let ranged (rang : Z) (k : Mb Z) : Mb unit :=
    if rang <? a + cnt - 1 then fail_with MB_ILIEGAL_ADDR else respond k in
  let words (r : region) (rang : Z) := ranged rang (words_response (rd r) rang a cnt) in
  if t =? MB_WORD_D then words D_ELEMENT D_RANG
  else if t =? MB_WORD_SD then words SD_ELEMENT SD_RANG
  else if t =? MB_WORD_Z then words Z_ELEMENT Z_RANG
  else if t =? MB_WORD_C then
    if a <? C16_RANG then words C16_VALUE C16_RANG
    else ranged C_RANG (
      for_up (Z.to_nat cnt) 0 (fun i => v ← GET_C32_CURRENT_VALUE (a + i);
        put_tx (3 + i * 4) (Z.shiftr (u32 v) 24);; put_tx (3 + i * 4 + 1) (Z.shiftr (u32 v) 16);;
        put_tx (3 + i * 4 + 2) (Z.shiftr (u32 v) 8);; put_tx (3 + i * 4 + 3) (u32 v));;
      mret (u16 (cnt * 4)))
  else if t =? MB_WORD_T then words T_CURRENT T_RANG
  else if t =? MB_WORD_R then words R_ELEMENT R_RANG
  else respond (mret 0))).

(** ** Writing one *)
(** The elements that may be written. *)
Definition coil_region_of (t : Z) : option (region * Z) := if t =? MB_BIT_X then None else bit_region_of t.
(** The answer is a copy of the request. *)
Definition echo : Mb unit := copy_request 6 0;; answer 6.
Definition mb_slave_write_single_coil : Mb unit :=
  lsv_ElementValue ← GET_BIGPU16_DATA 4;
  if negb (lsv_ElementValue =? 0xFF00) && negb (lsv_ElementValue =? 0) then fail_with MB_ILIEGAL_DATA else
  let lcv_BitValue := if 0 <? lsv_ElementValue then 1 else 0 in
  lsv_ModbusAddr ← GET_BIGPU16_DATA 2;
  converted MB_BIT_ELEMENT lsv_ModbusAddr (fun t a =>
  match coil_region_of t with
  | Some (r, _) => plc_set_bit_element_value r a lcv_BitValue;; echo
  | None => fail_with MB_ILIEGAL_ADDR
  end).
Definition write_word (t a v : Z) : Mb unit :=
  if t =? MB_WORD_D then wr D_ELEMENT a v
  else if t =? MB_WORD_SD then wr SD_ELEMENT a v
  else if t =? MB_WORD_Z then wr Z_ELEMENT a v
  else if t =? MB_WORD_T then wr T_CURRENT a v
  else if t =? MB_WORD_R then wr R_ELEMENT a v
  else when (t =? MB_WORD_C) (if a <? C16_RANG then wr C16_VALUE a v else SET_C32_CURRENT_VALUE a v).
Definition mb_slave_write_register : Mb unit :=
  lsv_ModbusAddr ← GET_BIGPU16_DATA 2;
  lsv_ElementValue ← GET_BIGPU16_DATA 4;
  converted MB_WORD_ELEMENT lsv_ModbusAddr (fun t a => write_word t a lsv_ElementValue;; echo).

(** ** Writing several *)
(** The bits of one byte, until none of the [left] are missing. *)
Fixpoint coil_bits (n : nat) (r : region) (a v j left : Z) : Mb Z :=
  match n with
  | O => mret left
  | S n' =>
      plc_set_bit_element_value r (a + j) (Z.land (Z.shiftr v j) 1);;
      let left1 := u16 (left - 1) in
      if left1 =? 0 then mret left1 else coil_bits n' r a v (j + 1) left1
  end.
Fixpoint coil_bytes (n : nat) (r : region) (a i left : Z) : Mb unit :=
  match n with
  | O => mret tt
  | S n' => v ← rx (7 + i); left1 ← coil_bits 8 r (a + i * 8) v 0 left; coil_bytes n' r a (i + 1) left1
  end.
Definition mb_slave_write_multiple_coils : Mb unit :=
  lsv_ModbusAddr ← GET_BIGPU16_DATA 2;
  cnt ← GET_BIGPU16_DATA 4;
  lcv_ValueByteNum ← rx 6;
  let whole := Z.shiftr cnt 3 in
  if negb (whole =? lcv_ValueByteNum) && negb (whole =? lcv_ValueByteNum - 1) then fail_with MB_ILIEGAL_ADDR
  else if (Z.rem cnt 8 =? 0) && negb (whole =? lcv_ValueByteNum) then fail_with MB_ILIEGAL_ADDR
  else if negb (Z.rem cnt 8 =? 0) && negb (whole =? lcv_ValueByteNum - 1) then fail_with MB_ILIEGAL_ADDR
  else if (MB_MAX_W_BIT_NUM <? cnt) || (cnt <? 1) then fail_with MB_ILIEGAL_ADDR
  else converted MB_BIT_ELEMENT lsv_ModbusAddr (fun t a =>
  match coil_region_of t with
  | Some (r, rang) =>
      if rang <? a + cnt - 1 then fail_with MB_ILIEGAL_ADDR
      else coil_bytes (Z.to_nat lcv_ValueByteNum) r a 0 cnt;; echo
  | None => fail_with MB_ILIEGAL_ADDR
  end).
Definition mb_slave_write_multiple_registers : Mb unit :=
  lsv_ModbusAddr ← GET_BIGPU16_DATA 2;
  cnt ← GET_BIGPU16_DATA 4;
  lcv_ValueByteNum ← rx 6;
  if (MB_MAX_W_WORD_NUM <? cnt) || (cnt <? 1) then fail_with MB_ILIEGAL_DATA
  else if negb (cnt =? Z.shiftr lcv_ValueByteNum 1) then fail_with MB_ILIEGAL_DATA
  else converted MB_WORD_ELEMENT lsv_ModbusAddr (fun t a =>
  let words (r : region) : Mb unit := for_up (Z.to_nat cnt) 0 (fun i => v ← GET_BIGPU16_DATA (7 + 2 * i); wr r (a + i) v) in
  let ranged (rang : Z) (k : Mb unit) : Mb unit := if rang <? a + cnt - 1 then fail_with MB_ILIEGAL_ADDR else k;; echo in
  if t =? MB_WORD_D then ranged D_RANG (words D_ELEMENT)
  else if t =? MB_WORD_SD then ranged SD_RANG (words SD_ELEMENT)
  else if t =? MB_WORD_Z then ranged Z_RANG (words Z_ELEMENT)
  else if t =? MB_WORD_T then ranged T_RANG (words T_CURRENT)
  else if t =? MB_WORD_C then ranged C_RANG (
    if a <? C16_RANG then words C16_VALUE
    else for_up (Z.to_nat cnt) 0 (fun i => v ← GET_BIGPU32_DATA (7 + 4 * i); SET_C32_CURRENT_VALUE (a + i) v))
  else if t =? MB_WORD_R then ranged R_RANG (words R_ELEMENT)
  else fail_with MB_ILIEGAL_ADDR).

(** ** The bulk functions *)
(** A loop over [cnt] items, item [i] with [body i k], where [k] goes on. *)
Fixpoint each (n : nat) (i : Z) (body : Z -> Mb unit -> Mb unit) (finish : Mb unit) : Mb unit :=
  match n with O => finish | S n' => body i (each n' (i + 1) body finish) end.
(** An item's address copied to the answer. *)
Definition copy_address (size i : Z) : Mb unit :=
  h ← rx (3 + 2 * i); put_tx (3 + size * i) h;; l ← rx (4 + 2 * i); put_tx (4 + size * i) l.
Definition mb_slave_read_multiple_bit_element : Mb unit := not_broadcast (
  lcv_ElementCnt ← rx 2;
  if 0x50 <? lcv_ElementCnt then fail_with MB_ILIEGAL_DATA else
  each (Z.to_nat lcv_ElementCnt) 0 (fun i next =>
    copy_address 3 i;;
    lsv_ModbusAddr ← GET_BIGPU16_DATA (3 + 2 * i);
    converted MB_BIT_ELEMENT lsv_ModbusAddr (fun t a =>
    match bit_region_of t with
    | Some (r, _) => b ← plc_get_bit_element_value r a; put_tx (5 + 3 * i) b;; next
    | None => fail_with MB_ILIEGAL_ADDR
    end))
  (copy_request 3 0;; answer ((lcv_ElementCnt + 1) * 3))).
(** [*(unsigned short * )&pMsg->mcp_RespBuff[p] = v], low byte first. *)
Definition put_small16 (p v : Z) : Mb unit := put_tx p v;; put_tx (p + 1) (Z.shiftr v 8).
Definition word_region_of (t a : Z) : option region :=
  if t =? MB_WORD_D then Some D_ELEMENT
  else if t =? MB_WORD_SD then Some SD_ELEMENT
  else if t =? MB_WORD_Z then Some Z_ELEMENT
  else if t =? MB_WORD_T then Some T_CURRENT
  else if t =? MB_WORD_C then if a <? C16_RANG then Some C16_VALUE else None
  else if t =? MB_WORD_R then Some R_ELEMENT
  else None.
(** A 32-bit counter takes two items; its number is found by halving. *)
Definition c32_number (a : Z) : Z := Z.quot (a - C16_RANG) 2 + C16_RANG.
Fixpoint read_words (fuel : nat) (cnt i : Z) (finish : Mb unit) : Mb unit :=
  match fuel with
  | O => nofuel
  | S f =>
      if cnt <=? i then finish else
      copy_address 4 i;;
      lsv_ModbusAddr ← GET_BIGPU16_DATA (3 + 2 * i);
      converted MB_WORD_ELEMENT lsv_ModbusAddr (fun t a =>
      match word_region_of t a with
      | Some r => v ← rd r a; put_small16 (5 + 4 * i) v;; read_words f cnt (i + 1) finish
      | None =>
          if t =? MB_WORD_C then
            v ← GET_C32_CURRENT_VALUE (c32_number a);
            put_small16 (5 + 4 * i) (Z.shiftr (u32 v) 16);;
            copy_address 4 (i + 1);; put_small16 (5 + 4 * (i + 1)) (u32 v);;
            read_words f cnt (i + 2) finish
          else fail_with MB_ILIEGAL_ADDR
      end)
  end.
Definition mb_slave_read_multiple_word_element : Mb unit := not_broadcast (
  lcv_ElementCnt ← rx 2;
  if 0x3C <? lcv_ElementCnt then fail_with MB_ILIEGAL_DATA else
  read_words (S (Z.to_nat lcv_ElementCnt)) lcv_ElementCnt 0 (copy_request 3 0;; answer (3 + lcv_ElementCnt * 4))).
Definition mb_slave_write_multiple_bit_element : Mb unit := not_broadcast (
  lcv_ElementCnt ← rx 2;
  if 0x50 <? lcv_ElementCnt then fail_with MB_ILIEGAL_DATA else
  each (Z.to_nat lcv_ElementCnt) 0 (fun i next =>
    lsv_ModbusAddr ← GET_BIGPU16_DATA (3 + 3 * i);
    converted MB_BIT_ELEMENT lsv_ModbusAddr (fun t a =>
    match coil_region_of t with
    | Some (r, _) => b ← rx (5 + 3 * i); plc_set_bit_element_value r a b;; next
    | None => fail_with MB_ILIEGAL_ADDR
    end))
  (copy_request 2 0;; answer 2)).
Fixpoint write_words (fuel : nat) (cnt i : Z) (finish : Mb unit) : Mb unit :=
  match fuel with
  | O => nofuel
  | S f =>
      if cnt <=? i then finish else
      lsv_ModbusAddr ← GET_BIGPU16_DATA (3 + 4 * i);
      converted MB_WORD_ELEMENT lsv_ModbusAddr (fun t a =>
      match word_region_of t a with
      | Some r => v ← GET_BIGPU16_DATA (5 + 4 * i); wr r a v;; write_words f cnt (i + 1) finish
      | None =>
          if t =? MB_WORD_C then
            h ← GET_BIGPU16_DATA (5 + 4 * i); l ← GET_BIGPU16_DATA (5 + 4 * (i + 1));
            SET_C32_CURRENT_VALUE (c32_number a) (u32 (Z.shiftl h 16 + l));;
            write_words f cnt (i + 2) finish
          else fail_with MB_ILIEGAL_ADDR
      end)
  end.
Definition mb_slave_write_multiple_word_element : Mb unit := not_broadcast (
  lcv_ElementCnt ← rx 2;
  if 0x3C <? lcv_ElementCnt then fail_with MB_ILIEGAL_DATA else
  write_words (S (Z.to_nat lcv_ElementCnt)) lcv_ElementCnt 0 (copy_request 2 0;; answer 2)).

(** ** Diagnosis *)
Definition diag_info (i : Z) : Mb mb_slave_diagnositic_info_st := s ← get_st; of_option (zlookup (gtp_ModbusSlaveDiagInfo s) i).
Definition mod_diag (i : Z) (f : mb_slave_diagnositic_info_st -> mb_slave_diagnositic_info_st) : Mb unit :=
  s ← get_st; d ← diag_info i; l ← of_option (zupdate (gtp_ModbusSlaveDiagInfo s) i (f d)); modify (with_diag l).
Definition set_listen (v : Z) (d : mb_slave_diagnositic_info_st) := {| mcv_SlaveId := mcv_SlaveId d; mcv_ListenOnlyMode := v;
  msv_BusPackageCnt := msv_BusPackageCnt d; msv_BusCrcErrCnt := msv_BusCrcErrCnt d; msv_SlaveErrCnt := msv_SlaveErrCnt d;
  msv_SlavePackageCnt := msv_SlavePackageCnt d; msv_SlaveNoRespCnt := msv_SlaveNoRespCnt d;
  msv_BusCharOverrunCnt := msv_BusCharOverrunCnt d |}.
Definition count_crc (d : mb_slave_diagnositic_info_st) := {| mcv_SlaveId := mcv_SlaveId d; mcv_ListenOnlyMode := mcv_ListenOnlyMode d;
  msv_BusPackageCnt := msv_BusPackageCnt d; msv_BusCrcErrCnt := u16 (msv_BusCrcErrCnt d + 1); msv_SlaveErrCnt := msv_SlaveErrCnt d;
  msv_SlavePackageCnt := msv_SlavePackageCnt d; msv_SlaveNoRespCnt := msv_SlaveNoRespCnt d;
  msv_BusCharOverrunCnt := msv_BusCharOverrunCnt d |}.
Definition count_err (d : mb_slave_diagnositic_info_st) := {| mcv_SlaveId := mcv_SlaveId d; mcv_ListenOnlyMode := mcv_ListenOnlyMode d;
  msv_BusPackageCnt := msv_BusPackageCnt d; msv_BusCrcErrCnt := msv_BusCrcErrCnt d; msv_SlaveErrCnt := u16 (msv_SlaveErrCnt d + 1);
  msv_SlavePackageCnt := msv_SlavePackageCnt d; msv_SlaveNoRespCnt := msv_SlaveNoRespCnt d;
  msv_BusCharOverrunCnt := msv_BusCharOverrunCnt d |}.
Definition cleared_diag (d : mb_slave_diagnositic_info_st) := {| mcv_SlaveId := mcv_SlaveId d; mcv_ListenOnlyMode := 0;
  msv_BusPackageCnt := 0; msv_BusCrcErrCnt := 0; msv_SlaveErrCnt := 0; msv_SlavePackageCnt := 0; msv_SlaveNoRespCnt := 0;
  msv_BusCharOverrunCnt := 0 |}.
Definition mb_slave_diag_clear_ctrl_diag_reg : Mb unit := for_up (Z.to_nat MB_SENDER_MAX) 0 (fun i => mod_diag i cleared_diag).
(** A counter: the sum over the first two ports when they have the same slave
    number, the sender's otherwise. *)
Definition diag_sum (f : mb_slave_diagnositic_info_st -> Z) : Mb Z :=
  d0 ← diag_info 0; d1 ← diag_info 1;
  if mcv_SlaveId d0 =? mcv_SlaveId d1 then mret (u16 (f d0 + f d1))
  else m ← message; d ← diag_info (mcv_Sender m); mret (u16 (f d)).
(** The high byte goes to the answer, the low byte to the request. *)
Definition diag_counter (f : mb_slave_diagnositic_info_st -> Z) : Mb unit :=
  lsv_Data ← diag_sum f;
  copy_request 4 0;; put_tx 4 (Z.shiftr lsv_Data 8);; put_rx 5 (Z.land lsv_Data 0xFF);; answer 6.
(** The request without its check sum, sent back. *)
Definition diag_echo : Mb unit :=
  m ← message; copy_request (Z.to_nat (msv_ReceiveLen m - 2)) 0;; answer (msv_ReceiveLen m - 2).
Definition mb_slave_diagnostic_func : Mb unit :=
  m ← message;
  lsv_Code ← GET_BIGPU16_DATA 2; lsv_Data ← GET_BIGPU16_DATA 4;
  if truthy (mcv_IsBroadcastInfo m) && negb (lsv_Code =? MB_DIAG_RESTART_COMMUNICATION) &&
     negb (lsv_Code =? MB_DIAG_FORCE_LISTEN_ONLY_MODE) && negb (lsv_Code =? MB_DIAG_CLEAR_CTRL_DIAG_REG) &&
     negb (lsv_Code =? MB_DIAG_BROAD_RETURN_QUERY_DATA)
  then mod_diag (mcv_Sender m) count_err
  else
    c ← rx 3;
    if c =? MB_DIAG_BROAD_RETURN_QUERY_DATA then
      copy_request (Z.to_nat (msv_ReceiveLen m - 3)) 1;; put_tx 0 (slaveID m);; answer (msv_ReceiveLen m - 2)
    else if c =? MB_DIAG_RETURN_QUERY_DATA then diag_echo
    else if c =? MB_DIAG_RESTART_COMMUNICATION then
      if (lsv_Data =? 0) || (lsv_Data =? 0xFF00) then mod_diag (mcv_Sender m) (set_listen 0);; diag_echo
      else
        d ← diag_info (mcv_Sender m);
        if truthy (mcv_ListenOnlyMode d) then mret tt
        else mod_diag (mcv_Sender m) count_err;; fail_with MB_ILIEGAL_CODE
    else if c =? MB_DIAG_FORCE_LISTEN_ONLY_MODE then mod_diag (mcv_Sender m) (set_listen 1)
    else if c =? MB_DIAG_CLEAR_CTRL_DIAG_REG then mb_slave_diag_clear_ctrl_diag_reg;; diag_echo
    else if c =? MB_DIAG_RETURN_BUS_PACKAGE_CNT then diag_counter (fun d => msv_BusPackageCnt d - msv_BusCrcErrCnt d)
    else if c =? MB_DIAG_RETURN_CRC_ERR_CNT then diag_counter msv_BusCrcErrCnt
    else if c =? MB_DIAG_SLAVE_ERR_CNT then diag_counter msv_SlaveErrCnt
    else if c =? MB_DIAG_SLAVE_BUS_MSG_CNT then diag_counter msv_SlavePackageCnt
    else if c =? MB_DIAG_SLAVE_NO_RESP_CNT then diag_counter msv_SlaveNoRespCnt
    else if c =? MB_DIAG_BUS_CHAR_OVERRUN_CNT then diag_counter msv_BusCharOverrunCnt
    else mod_diag (mcv_Sender m) count_err;; fail_with MB_ILIEGAL_CODE.

(** ** The dispatcher *)
Section handler.
Context (download upload ctrl : Mb unit).
Definition mb_slave_function (f : Z) : Mb unit :=
  if f =? MB_READ_COILS_STATUS then mb_slave_read_coils_status
  else if f =? MB_READ_DESCRETE_INPUT_STATUS then mb_slave_read_descrete_input_status
  else if f =? MB_READ_HOLDING_REGISTER then mb_slave_read_holding_register
  else if f =? MB_WRITE_SINGLE_COIL then mb_slave_write_single_coil
  else if f =? MB_WRITE_REGISTER then mb_slave_write_register
  else if f =? MB_DIAG_DIAGNOSTIC then mb_slave_diagnostic_func
  else if f =? MB_WRITE_MULTIPLE_COILS then mb_slave_write_multiple_coils
  else if f =? MB_WRITE_MULTIPLE_REGISTERS then mb_slave_write_multiple_registers
  else if f =? MB_READ_MULTIPLE_BIT_ELEMENT then mb_slave_read_multiple_bit_element
  else if f =? MB_READ_MULTIPLE_WORD_ELEMENT then mb_slave_read_multiple_word_element
  else if f =? MB_WRITE_MULTIPLE_BIT_ELEMENT then mb_slave_write_multiple_bit_element
  else if f =? MB_WRITE_MULTIPLE_WORD_ELEMENT then mb_slave_write_multiple_word_element
  else if f =? MB_DOWNLOWD_FUNC then download
  else if f =? MB_UPLOAD_FUNC then upload
  else if f =? MB_CTRL_FUNC then ctrl
  else
    m ← message; mod_diag (mcv_Sender m) count_err;; fail_with MB_ILIEGAL_CODE.
Definition mb_slave_msg_handler : Mb unit :=
  m ← message;
  if msv_ReceiveLen m <? 5 then mret tt else
  lo ← rx (msv_ReceiveLen m - 2); hi ← rx (msv_ReceiveLen m - 1);
  lsv_Crc ← check_sum (mcp_ReceiveBuff m) (msv_ReceiveLen m - 2);
  if negb (lo + Z.shiftl hi 8 =? lsv_Crc) then mod_diag (mcv_Sender m) count_crc;; fail_with MB_ERROR_FRAME
  else
    d ← diag_info (mcv_Sender m);
    f ← rx 1; c ← rx 3;
    if truthy (mcv_ListenOnlyMode d) && negb (f =? MB_DIAG_DIAGNOSTIC) && negb (c =? MB_DIAG_RESTART_COMMUNICATION) then mret tt
    else mb_slave_function f.
End handler.
