(* ===== verification/MbFacts.v ===== *)
(** * Facts about the MODBUS slave *)
From stdpp Require Import base list numbers sets.
From S2P Require Import Prelude Bytes Element Machine ParseAddrFacts Verify MbSlave.

(** ** Buffers of a message *)
Definition rx_buf (s : mb_st) : list Z := mcp_ReceiveBuff (msg s).
Definition tx_buf (s : mb_st) : list Z := mcp_RespBuff (msg s).
Definition with_tx (l : list Z) (s : mb_st) : mb_st := with_msg (with_buffs (rx_buf s) l (msg s)) s.
Lemma with_tx_twice l l' s : with_tx l (with_tx l' s) = with_tx l s.
Proof. done. Qed.
Lemma tx_with_tx l s : tx_buf (with_tx l s) = l.
Proof. done. Qed.
Lemma rx_with_tx l s : rx_buf (with_tx l s) = rx_buf s.
Proof. done. Qed.
Lemma with_tx_id s : with_tx (tx_buf s) s = s.
Proof. by destruct s as [? ? [] ?]. Qed.
Lemma rx_run i s : 0 <= i < Z.of_nat (length (rx_buf s)) -> rx i s = Ok (byte_at (rx_buf s) i, s).
Proof.
  intros Hi. unfold rx, message, gets, mbind, M_bind, of_option, byte_at. fold (rx_buf s).
  by destruct (proj2 (zlookup_is_Some (rx_buf s) i) Hi) as [c ->].
Qed.
Lemma tx_run i s : 0 <= i < Z.of_nat (length (tx_buf s)) -> tx i s = Ok (byte_at (tx_buf s) i, s).
Proof.
  intros Hi. unfold tx, message, gets, mbind, M_bind, of_option, byte_at. fold (tx_buf s).
  by destruct (proj2 (zlookup_is_Some (tx_buf s) i) Hi) as [c ->].
Qed.
Lemma put_tx_run i v s : 0 <= i < Z.of_nat (length (tx_buf s)) ->
  put_tx i v s = Ok (tt, with_tx (<[Z.to_nat i := u8 v]> (tx_buf s)) s).
Proof.
  intros Hi. unfold put_tx, message, gets, mbind, M_bind, of_option. fold (tx_buf s). by rewrite zupdate_lt.
Qed.
Lemma insert_length (l : list Z) i v : length (<[i := v]> l) = length l.
Proof. apply length_insert. Qed.
Lemma big16_run i s : 0 <= i -> i + 2 <= Z.of_nat (length (rx_buf s)) -> GET_BIGPU16_DATA i s =
  Ok (u16 (Z.shiftl (byte_at (rx_buf s) i) 8 + byte_at (rx_buf s) (i + 1)), s).
Proof.
  intros Hi Hl. unfold GET_BIGPU16_DATA, mbind, M_bind. rewrite (rx_run i) by lia. by rewrite (rx_run (i + 1)) by lia.
Qed.
(** Bytes of the request copied to the answer. *)
Lemma copy_request_run n i s : 0 <= i -> i + Z.of_nat n <= Z.of_nat (length (tx_buf s)) -> i + Z.of_nat n <= Z.of_nat (length (rx_buf s)) ->
  exists l, copy_request n i s = Ok (tt, with_tx l s) /\ length l = length (tx_buf s) /\
    forall j, byte_at l j = if decide (i <= j < i + Z.of_nat n) then u8 (byte_at (rx_buf s) j) else byte_at (tx_buf s) j.
Proof.
  revert i s. induction n as [|n IH]; intros i s Hi Ht Hr; unfold copy_request; cbn [for_up].
  { exists (tx_buf s). split_and!; [by rewrite with_tx_id|done|]. intros j. rewrite decide_False by lia. done. }
  unfold mbind at 1, M_bind at 1. unfold mbind at 1, M_bind at 1. rewrite rx_run, put_tx_run by lia.
  fold (copy_request n (i + 1)).
  destruct (IH (i + 1) (with_tx (<[Z.to_nat i:=u8 (byte_at (rx_buf s) i)]> (tx_buf s)) s)) as (l & E & L & B);
    [lia|cbn; rewrite insert_length; unfold tx_buf in *; lia|cbn; unfold rx_buf in *; lia|].
  exists l. split_and!; [exact E|rewrite L; cbn; by rewrite insert_length|].
  intros j. rewrite B. cbn [rx_buf msg with_tx with_msg with_buffs mcp_ReceiveBuff tx_buf mcp_RespBuff].
  fold (tx_buf s) (rx_buf s). rewrite byte_insert by lia. repeat case_decide; try lia; try done. by subst.
Qed.

(** ** Frames *)
(** A body and its check sum, low byte first. *)
Definition crc_of (body : list Z) : Z := default 0 (calc_crc16 body (Z.of_nat (length body))).
Definition frame (body : list Z) : list Z := body ++ [u8 (crc_of body); u8 (Z.shiftr (crc_of body) 8)].
(** What handing over [f] adds to the answers sent. *)
Definition delivered (m : md_slave_msg_pack) (f : list Z) : list reply :=
  if mcv_Sender m =? MB_SENDER_USB then [Resp f]
  else (if resp_func m then [Resp f] else []) ++
       (if truthy (isTcpClient m) && tcp_resp_func m then [TcpResp f (clientID m)] else []).
(** The USB driver always gives its send function. *)
Definition has_channel (m : md_slave_msg_pack) : Prop := mcv_Sender m = MB_SENDER_USB -> resp_func m = true.
Lemma hand_over_run s : has_channel (msg s) ->
  hand_over s = Ok (tt, with_sent (sent s ++ delivered (msg s) (take (Z.to_nat (msv_RespLen (msg s))) (tx_buf s))) s).
Proof.
  intros H. unfold hand_over, message, gets, mbind, M_bind, delivered, modify, when.
  destruct (Z.eqb_spec (mcv_Sender (msg s)) MB_SENDER_USB) as [E|E]; [by rewrite (H E)|].
  destruct (resp_func (msg s)), (truthy (isTcpClient (msg s)) && tcp_resp_func (msg s)); cbn; unfold with_sent; cbn;
    rewrite ?app_nil_r, <- ?app_assoc; try done. by destruct s.
Qed.
Lemma over_bytes_take {A} (l : list Z) k (step : A -> Z -> option A) n : forall p c, 0 <= p -> p + Z.of_nat n <= Z.of_nat k ->
  over_bytes (take k l) step n p c = over_bytes l step n p c.
Proof.
  induction n as [|n IH]; intros p c Hp Hk; [done|]. cbn [over_bytes].
  assert (zlookup (take k l) p = zlookup l p) as ->; [unfold zlookup; rewrite !decide_True by lia; by rewrite lookup_take_lt by lia|].
  destruct (zlookup l p); [|done]. cbn. destruct (step c z); [|done]. cbn. apply IH; lia.
Qed.
Lemma check_sum_run (l : list Z) n s : 0 <= n <= Z.of_nat (length l) -> n < 2 ^ 16 -> Forall byte_ok (take (Z.to_nat n) l) ->
  check_sum l n s = Ok (crc_of (take (Z.to_nat n) l), s).
Proof.
  intros Hn Hl F. unfold check_sum, crc_of.
  assert (L : Z.of_nat (length (take (Z.to_nat n) l)) = n) by (rewrite length_take; lia).
  assert (Ft : Forall Verify.byte (take (Z.to_nat n) l)) by exact F.
  assert (E := calc_crc16_run _ Ft ltac:(lia)). rewrite L in *.
  assert (calc_crc16 l n = calc_crc16 (take (Z.to_nat n) l) n) as ->; [|by rewrite E].
  unfold calc_crc16. by rewrite over_bytes_take by (try rewrite u16_id; lia).
Qed.
Lemma crc_range body : 0 <= crc_of body < 2 ^ 16.
Proof.
  unfold crc_of, calc_crc16. destruct (over_bytes _ _ _ _ _) as [hl|]; [apply u16_range|]. cbn. lia.
Qed.
Lemma insert_two (a b : Z) n : forall l, (n + 2 <= length l)%nat -> <[S n := b]> (<[n := a]> l) = take n l ++ [a; b] ++ drop (n + 2) l.
Proof.
  induction n as [|n IH]; intros [|x l] Hl; cbn [length] in Hl; [lia| |lia|].
  - destruct l as [|y l]; cbn [length] in Hl; [lia|]. done.
  - cbn. f_equal. apply IH. lia.
Qed.
Lemma u8_land v : u8 (Z.land v 0xFF) = u8 v.
Proof. unfold u8. change 0xFF with (Z.ones 8). rewrite Z.land_ones by lia. apply Zmod_mod. Qed.
(** The frame of [body] handed over, with the buffer [t] behind it. *)
Definition answered (body t : list Z) (s : mb_st) : mb_st :=
  with_sent (sent s ++ delivered (msg s) (frame body))
    (with_msg (with_RespLen (Z.of_nat (length body) + 2) (with_buffs (rx_buf s) (frame body ++ t) (msg s))) s).
Lemma delivered_msg m m' f : mcv_Sender m' = mcv_Sender m -> resp_func m' = resp_func m -> isTcpClient m' = isTcpClient m ->
  tcp_resp_func m' = tcp_resp_func m -> clientID m' = clientID m -> delivered m' f = delivered m f.
Proof. unfold delivered. by intros -> -> -> -> ->. Qed.
Lemma answer_run n s : has_channel (msg s) -> Forall byte_ok (tx_buf s) -> 0 <= n -> n + 2 <= Z.of_nat (length (tx_buf s)) -> n < 2 ^ 16 - 2 ->
  answer n s = Ok (tt, answered (take (Z.to_nat n) (tx_buf s)) (drop (Z.to_nat n + 2) (tx_buf s)) s).
Proof.
  intros Hc F Hn Hl Hb. unfold answer. rewrite (u16_id n) by lia. unfold mbind at 1, M_bind at 1, mod_msg at 1, modify at 1.
  set (s1 := with_msg _ s). assert (T1 : tx_buf s1 = tx_buf s) by done. unfold mb_slave_verify_resp_msg.
  unfold mbind at 1, M_bind at 1, message at 1, gets at 1. cbn [msg with_msg s1].
  change (mcp_RespBuff (with_RespLen n (msg s))) with (tx_buf s). change (msv_RespLen (with_RespLen n (msg s))) with n.
  rewrite (run_bind _ _ _ _ _ (check_sum_run (tx_buf s) n s1 ltac:(lia) ltac:(lia) (Forall_take _ _ _ F))).
  set (body := take (Z.to_nat n) (tx_buf s)).
  assert (Lb : Z.of_nat (length body) = n) by (unfold body; rewrite length_take; lia).
  rewrite (run_bind _ _ _ _ _ (put_tx_run n _ s1 ltac:(rewrite T1; lia))), T1.
  erewrite run_bind by (apply put_tx_run; rewrite tx_with_tx, length_insert; lia).
  change (tx_buf (with_tx _ s1)) with (<[Z.to_nat n := u8 (Z.land (crc_of body) 0xFF)]> (tx_buf s)).
  replace (Z.to_nat (n + 1)) with (S (Z.to_nat n)) by lia. rewrite (insert_two _ _ (Z.to_nat n) (tx_buf s)), u8_land by lia.
  fold body. unfold mbind at 1, M_bind at 1, mod_msg, modify. rewrite hand_over_run by exact Hc.
  rewrite (u16_id (n + 2)) by lia. set (t := drop _ _).
  assert (E : take (Z.to_nat (n + 2)) (body ++ [u8 (crc_of body); u8 (Z.shiftr (crc_of body) 8)] ++ t) = frame body).
  { replace (Z.to_nat (n + 2)) with (length (frame body)) by (unfold frame; rewrite length_app; cbn; lia).
    rewrite app_assoc. apply (take_app_length (frame body)). }
  unfold answered. rewrite Lb. unfold frame at 2. rewrite <- app_assoc.
  cbn -[take drop app crc_of delivered]. unfold tx_buf, with_tx. cbn -[take drop app crc_of delivered]. rewrite E.
  unfold with_sent. cbn -[take drop app crc_of delivered]. do 4 f_equal.
Qed.
Lemma insert_three (a b c : Z) l : (3 <= length l)%nat -> <[2%nat := c]> (<[1%nat := b]> (<[0%nat := a]> l)) = [a; b; c] ++ drop 3 l.
Proof. destruct l as [|x [|y [|z l]]]; cbn [length]; intros H; [lia..|]. done. Qed.
Definition exception (e : Z) (s : mb_st) : list Z := [u8 (byte_at (rx_buf s) 0); u8 (byte_at (rx_buf s) 1 + 0x80); u8 e].
Definition with_code (e : Z) (s : mb_st) : mb_st := with_msg (with_ErrorCode e (msg s)) s.
Lemma tx_with_code e s : tx_buf (with_code e s) = tx_buf s.
Proof. done. Qed.
Lemma rx_with_code e s : rx_buf (with_code e s) = rx_buf s.
Proof. done. Qed.
(** Bounds of the buffers after stores into them. *)
Ltac buf_lia := repeat (rewrite tx_with_tx || rewrite rx_with_tx || rewrite length_insert || rewrite tx_with_code || rewrite rx_with_code); lia.
Ltac run_step := erewrite run_bind by (first [apply rx_run | apply put_tx_run | apply tx_run]; buf_lia).
Lemma fail_broadcast e s : mcv_IsBroadcastInfo (msg s) <> 0 -> fail_with e s = Ok (tt, with_code e s).
Proof.
  intros H. unfold fail_with. unfold mbind at 1, M_bind at 1, mod_msg at 1, modify at 1. fold (with_code e s).
  unfold mb_slave_error_resp. unfold mbind at 1, M_bind at 1, message at 1, gets at 1.
  change (mcv_IsBroadcastInfo (msg (with_code e s))) with (mcv_IsBroadcastInfo (msg s)).
  assert (truthy (mcv_IsBroadcastInfo (msg s)) = true) as -> by (unfold truthy; lia). done.
Qed.
Lemma exception_bytes e s : Forall byte_ok (exception e s).
Proof. repeat constructor; apply u8_range. Qed.
(** A refused request: the frame of the exception, and nothing else. *)
Lemma fail_run e s : has_channel (msg s) -> mcv_IsBroadcastInfo (msg s) = 0 -> Forall byte_ok (tx_buf s) ->
  5 <= Z.of_nat (length (tx_buf s)) -> 2 <= Z.of_nat (length (rx_buf s)) ->
  fail_with e s = Ok (tt, answered (exception e s) (drop 5 (tx_buf s)) (with_code e s)).
Proof.
  intros Hc Hb F Ht Hr. unfold fail_with. unfold mbind at 1, M_bind at 1, mod_msg at 1, modify at 1. fold (with_code e s).
  unfold mb_slave_error_resp. unfold mbind at 1, M_bind at 1, message at 1, gets at 1.
  change (mcv_IsBroadcastInfo (msg (with_code e s))) with (mcv_IsBroadcastInfo (msg s)). rewrite Hb. cbn [truthy Z.eqb negb].
  do 5 run_step.
  unfold mbind at 1, M_bind at 1, message at 1, gets at 1.
  set (t := <[Z.to_nat 2:=_]> _). assert (Et : t = exception e s ++ drop 3 (tx_buf s)) by (exact (insert_three _ _ _ (tx_buf s) ltac:(lia))).
  set (s3 := with_tx t _). change (mcp_RespBuff (msg s3)) with t.
  assert (Lt : length t = length (tx_buf s)) by (unfold t; repeat (rewrite length_insert || rewrite tx_with_tx); done).
  rewrite (run_bind _ _ _ _ _ (check_sum_run t 3 s3 ltac:(lia) ltac:(lia) ltac:(rewrite Et; apply exception_bytes))).
  assert (take (Z.to_nat 3) t = exception e s) as -> by (by rewrite Et).
  erewrite run_bind by (apply put_tx_run; change (tx_buf s3) with t; lia).
  erewrite run_bind by (apply put_tx_run; rewrite tx_with_tx, length_insert; change (tx_buf s3) with t; lia).
  rewrite tx_with_tx. change (tx_buf s3) with t. change (Z.to_nat 4) with (S (Z.to_nat 3)). rewrite (insert_two _ _ (Z.to_nat 3) t) by lia.
  assert (take (Z.to_nat 3) t = exception e s) as -> by (by rewrite Et).
  assert (drop (Z.to_nat 3 + 2) t = drop 5 (tx_buf s)) as -> by (rewrite Et, drop_app_ge by (cbn; lia); apply drop_drop).
  unfold mbind at 1, M_bind at 1, mod_msg, modify. rewrite hand_over_run by exact Hc. done.
Qed.

(** ** Requests *)
(** A frame with [body], correctly closed, from a sender that is not in the
    listen-only mode. *)
Record request (body : list Z) (s : mb_st) : Prop := {
  rq_buf : exists rest, rx_buf s = frame body ++ rest;
  rq_len : msv_ReceiveLen (msg s) = Z.of_nat (length body) + 2;
  rq_size : 4 <= Z.of_nat (length body) < 2 ^ 16 - 2;
  rq_bytes : Forall byte_ok body;
  rq_diag : exists d, zlookup (gtp_ModbusSlaveDiagInfo s) (mcv_Sender (msg s)) = Some d /\ mcv_ListenOnlyMode d = 0 }.
(** Room for an answer of [n] bytes. *)
Record ready (n : Z) (s : mb_st) : Prop := {
  rd_channel : has_channel (msg s);
  rd_bytes : Forall byte_ok (tx_buf s);
  rd_room : n <= Z.of_nat (length (tx_buf s)) }.
Lemma byte_at_app l l' i : 0 <= i < Z.of_nat (length l) -> byte_at (l ++ l') i = byte_at l i.
Proof. intros Hi. unfold byte_at, zlookup. rewrite !decide_True by lia. by rewrite lookup_app_l by lia. Qed.
Lemma crc_bytes c : 0 <= c < 2 ^ 16 -> u8 c + Z.shiftl (u8 (Z.shiftr c 8)) 8 = c.
Proof.
  intros Hc. rewrite Z.shiftl_mul_pow2, Z.shiftr_div_pow2 by lia. unfold u8. rewrite (Z.mod_small (c / 2 ^ 8)) by (Z.to_euclidean_division_equations; lia).
  Z.to_euclidean_division_equations; lia.
Qed.
Section request.
Context (body : list Z) (s : mb_st) (R : request body s).
Lemma rq_rx i : 0 <= i < Z.of_nat (length body) -> rx i s = Ok (byte_at body i, s).
Proof.
  intros Hi. destruct (rq_buf _ _ R) as [rest E]. rewrite rx_run by (rewrite E; unfold frame; rewrite !length_app; lia).
  rewrite E. unfold frame. by rewrite <- app_assoc, byte_at_app.
Qed.
Lemma rq_byte i : 0 <= i < Z.of_nat (length body) -> byte_at (rx_buf s) i = byte_at body i.
Proof. intros Hi. destruct (rq_buf _ _ R) as [rest ->]. unfold frame. by rewrite <- app_assoc, byte_at_app. Qed.
Lemma rq_room : Z.of_nat (length body) + 2 <= Z.of_nat (length (rx_buf s)).
Proof. destruct (rq_buf _ _ R) as [rest ->]. unfold frame. rewrite !length_app. cbn. lia. Qed.
Lemma rq_big16 i : 0 <= i -> i + 2 <= Z.of_nat (length body) ->
  GET_BIGPU16_DATA i s = Ok (byte_at body i * 256 + byte_at body (i + 1), s).
Proof.
  intros Hi Hl. unfold GET_BIGPU16_DATA, mbind, M_bind. rewrite rq_rx by lia. rewrite rq_rx by lia. cbn.
  assert (B : forall j, 0 <= j < Z.of_nat (length body) -> byte_ok (byte_at body j)).
  { intros j Hj. unfold byte_at. destruct (proj2 (zlookup_is_Some body j) Hj) as [c Hc]. rewrite Hc.
    apply zlookup_Some in Hc as [_ Hc]. exact (Forall_lookup_1 _ _ _ _ (rq_bytes _ _ R) Hc). }
  assert (B1 := B i ltac:(lia)). assert (B2 := B (i + 1) ltac:(lia)). unfold byte_ok in *.
  rewrite Z.shiftl_mul_pow2, u16_id by lia. done.
Qed.
(** A request reaches the function its second byte names. *)
Lemma dispatched dl ul ct : mb_slave_msg_handler dl ul ct s = mb_slave_function dl ul ct (byte_at body 1) s.
Proof.
  destruct (rq_buf _ _ R) as [rest E], (rq_diag _ _ R) as (d & Hd & Hl). pose proof (rq_size _ _ R). pose proof (rq_len _ _ R) as L.
  unfold mb_slave_msg_handler. unfold mbind at 1, M_bind at 1, message at 1, gets at 1. rewrite L.
  assert (Z.of_nat (length body) + 2 <? 5 = false) as -> by lia.
  assert (Lf : Z.of_nat (length (rx_buf s)) = Z.of_nat (length body) + 2 + Z.of_nat (length rest)).
  { rewrite E. unfold frame. rewrite !length_app. cbn. lia. }
  erewrite run_bind by (apply rx_run; lia). erewrite run_bind by (apply rx_run; lia).
  replace (Z.of_nat (length body) + 2 - 2) with (Z.of_nat (length body)) by lia.
  replace (Z.of_nat (length body) + 2 - 1) with (Z.of_nat (length body) + 1) by lia.
  assert (T : take (Z.to_nat (Z.of_nat (length body))) (rx_buf s) = body).
  { rewrite Nat2Z.id, E. unfold frame. rewrite <- app_assoc. apply take_app_length. }
  change (mcp_ReceiveBuff (msg s)) with (rx_buf s).
  rewrite (run_bind _ _ _ _ _ (check_sum_run (rx_buf s) (Z.of_nat (length body)) s ltac:(lia) ltac:(lia) ltac:(rewrite T; exact (rq_bytes _ _ R)))), T.
  assert (B : forall j, 0 <= j < 2 -> byte_at (rx_buf s) (Z.of_nat (length body) + j) = byte_at [u8 (crc_of body); u8 (Z.shiftr (crc_of body) 8)] j).
  { intros j Hj. rewrite E. unfold frame, byte_at, zlookup. rewrite !decide_True by lia. rewrite <- app_assoc, lookup_app_r by lia.
    replace (Z.to_nat (Z.of_nat (length body) + j) - length body)%nat with (Z.to_nat j) by lia.
    rewrite lookup_app_l by (cbn; lia). done. }
  replace (byte_at (rx_buf s) (Z.of_nat (length body))) with (u8 (crc_of body)) by (rewrite <- (Z.add_0_r (Z.of_nat _)); by rewrite B by lia).
  rewrite B by lia. change (byte_at [_; ?y] 1) with y. rewrite crc_bytes by apply crc_range. rewrite Z.eqb_refl. cbn [negb].
  assert (D : diag_info (mcv_Sender (msg s)) s = Ok (d, s)) by (unfold diag_info, get_st, mbind, M_bind; by rewrite Hd).
  rewrite (run_bind _ _ _ _ _ D), (run_bind _ _ _ _ _ (rq_rx 1 ltac:(lia))), (run_bind _ _ _ _ _ (rq_rx 3 ltac:(lia))), Hl. done.
Qed.
End request.

(** A request with [body] to a controller with empty elements, from the first
    port, with 256 bytes for the answer. *)
Definition mb_demo (body : list Z) : mb_st :=
  {| base := st0 [];
     gtp_ModbusSlaveDiagInfo := replicate 7 {| mcv_SlaveId := 1; mcv_ListenOnlyMode := 0; msv_BusPackageCnt := 0; msv_BusCrcErrCnt := 0;
       msv_SlaveErrCnt := 0; msv_SlavePackageCnt := 0; msv_SlaveNoRespCnt := 0; msv_BusCharOverrunCnt := 0 |};
     msg := {| mcv_Sender := 0; msv_ReceiveLen := Z.of_nat (length body) + 2; msv_RespLen := 0; mcv_IsBroadcastInfo := 0; mcv_ErrorCode := 0;
       mcp_ReceiveBuff := frame body; mcp_RespBuff := replicate 256 0; isTcpClient := 0; clientID := 0; slaveID := 1;
       tcp_resp_func := false; resp_func := true |};
     sent := [] |}.
Lemma mb_demo_request body : 4 <= Z.of_nat (length body) < 2 ^ 16 - 2 -> Forall byte_ok body -> request body (mb_demo body).
Proof. intros L F. split; [exists []; by rewrite app_nil_r|done|done|done|by eexists]. Qed.
Lemma mb_demo_ready n body : n <= 256 -> ready n (mb_demo body).
Proof. intros Hn. split; [done|apply Forall_replicate; unfold byte_ok; cbn; lia|]. exact Hn. Qed.
Lemma mb_demo_elem body : wf_elem (elem (mb_demo body)).
Proof. apply wf_elem0. Qed.

(** ** Bits packed into bytes *)
(** The bytes the loop fills: [v] is the byte begun, [k] the bits it has. *)
Fixpoint fill (after : Z -> Z) (v k : Z) (bs : list Z) : list Z :=
  match bs with
  | [] => [v]
  | b :: bs' => if 8 <=? k then v :: fill after (u8 (after (u8 b))) 1 bs' else fill after (u8 (after (u8 (v + Z.shiftl b k)))) (k + 1) bs'
  end.
Lemma fill_cons after v k bs : exists w l, fill after v k bs = w :: l.
Proof.
  revert v k. induction bs as [|b bs IH]; intros v k; cbn [fill]; [by eexists _, _|].
  destruct (8 <=? k); [by eexists _, _|]. apply IH.
Qed.
(** The elements from [a] on, as the memory holds them. *)
Definition bits_at (r : region) (a : Z) (bs : list Z) (e : plc_element_st) : Prop :=
  forall i b, bs !! i = Some b -> forall s : mb_st, elem s = e -> plc_get_bit_element_value r (a + Z.of_nat i) s = Ok (b, s).
Lemma elem_with_tx l s : elem (with_tx l s) = elem s.
Proof. done. Qed.
Lemma insert_same_byte (l : list Z) i v w : <[i := v]> (<[i := w]> l) = <[i := v]> l.
Proof. apply list_insert_insert_eq. Qed.
(** One bit into the byte at [p]. *)
Lemma pack_one after r a p k b s : 0 <= p < Z.of_nat (length (tx_buf s)) -> plc_get_bit_element_value r a s = Ok (b, s) ->
  forall B (f : unit -> Mb B),
  (v ← tx p; b ← plc_get_bit_element_value r a; put_tx p (v + Z.shiftl b k);; v' ← tx p; (put_tx p (after v') ≫= f)) s =
  f tt (with_tx (<[Z.to_nat p := u8 (after (u8 (byte_at (tx_buf s) p + Z.shiftl b k)))]> (tx_buf s)) s).
Proof.
  intros Hp Hb B f. run_step. rewrite (run_bind _ _ _ _ _ Hb). run_step. run_step. run_step.
  rewrite !tx_with_tx, byte_insert, decide_True, insert_same_byte by (done || lia). done.
Qed.
Lemma bits_at_tail r a b bs e : bits_at r a (b :: bs) e -> bits_at r (a + 1) bs e.
Proof. intros H i c Hi s Hs. rewrite <- (H (S i) c Hi s Hs). f_equal. lia. Qed.
Lemma pack_bits_run after r bs : forall a p k num s, bits_at r a bs (elem s) -> 0 <= p -> 0 <= k <= 8 -> 0 <= num ->
  let bytes := fill after (byte_at (tx_buf s) p) k bs in
  p + Z.of_nat (length bytes) <= Z.of_nat (length (tx_buf s)) -> num + Z.of_nat (length bytes) <= 2 ^ 8 ->
  exists l, pack_bits after (length bs) r a p k num s = Ok (num + Z.of_nat (length bytes) - 1, with_tx l s) /\
    length l = length (tx_buf s) /\
    forall j, byte_at l j = if decide (p <= j < p + Z.of_nat (length bytes)) then byte_at bytes (j - p) else byte_at (tx_buf s) j.
Proof.
  induction bs as [|b bs IH]; intros a p k num s Hb Hp Hk H0 bytes; cbn [pack_bits length fill] in *; intros Hroom Hnum.
  { exists (tx_buf s). rewrite with_tx_id. split_and!; [unfold mret, M_ret; do 2 f_equal; cbn; lia|done|].
    intros j. cbn [length]. case_decide; [|done]. replace j with p by (cbn in *; lia). by rewrite Z.sub_diag. }
  assert (Hb0 : forall s' : mb_st, elem s' = elem s -> plc_get_bit_element_value r a s' = Ok (b, s')).
  { intros s' E. rewrite <- (Hb 0%nat b eq_refl s' E). f_equal. cbn. lia. }
  apply bits_at_tail in Hb. cbn [fill] in bytes. destruct (Z.leb_spec 8 k) as [K|K].
  - unfold when. subst bytes. cbn [length] in *.
    destruct (fill_cons after (u8 (after (u8 b))) 1 bs) as (w & l0 & Ew).
    assert (1 <= Z.of_nat (length (fill after (u8 (after (u8 b))) 1 bs))) by (rewrite Ew; cbn; lia).
    run_step. set (s1 := with_tx _ s).
    assert (T1 : tx_buf s1 = <[Z.to_nat (p + 1) := 0]> (tx_buf s)) by done.
    rewrite pack_one with (b := b); [|rewrite T1, length_insert; lia|by apply Hb0].
    rewrite T1, byte_insert, decide_True, insert_same_byte, Z.shiftl_0_r, Z.add_0_l by (done || lia).
    set (w1 := u8 (after (u8 b))) in *. rewrite u8_id by lia. set (s2 := with_tx _ s1).
    assert (T2 : tx_buf s2 = <[Z.to_nat (p + 1) := w1]> (tx_buf s)) by done.
    assert (B2 : byte_at (tx_buf s2) (p + 1) = w1) by (by rewrite T2, byte_insert, decide_True by (done || lia)).
    destruct (IH (a + 1) (p + 1) 1 (num + 1) s2) as (l & E & L & J); rewrite ?B2;
      [exact Hb|lia|lia|lia|rewrite T2, length_insert; lia|lia|].
    rewrite B2 in E, J. exists l. split_and!; [rewrite E; do 2 f_equal; [lia]|by rewrite L, T2, length_insert|].
    intros j. rewrite J, T2, byte_insert by lia. repeat case_decide; try lia; try done.
    + unfold byte_at, zlookup. rewrite !decide_True by lia. by replace (Z.to_nat (j - p)) with (S (Z.to_nat (j - (p + 1)))) by lia.
    + replace j with p by lia. by rewrite Z.sub_diag.
  - assert (1 <= Z.of_nat (length bytes)) by (edestruct fill_cons as (w & l0 & Ew); subst bytes; rewrite Ew; cbn; lia).
    cbv zeta. rewrite when_false, (run_bind _ _ _ _ _ (eq_refl : (mret tt : Mb unit) s = Ok (tt, s))). rewrite pack_one with (b := b); [|lia|by apply Hb0].
    set (w1 := u8 (after _)) in *. set (s2 := with_tx _ s).
    assert (T2 : tx_buf s2 = <[Z.to_nat p := w1]> (tx_buf s)) by done.
    assert (B2 : byte_at (tx_buf s2) p = w1) by (by rewrite T2, byte_insert, decide_True by (done || lia)).
    destruct (IH (a + 1) p (k + 1) num s2) as (l & E & L & J); rewrite ?B2;
      [exact Hb|lia|lia|lia|rewrite T2, length_insert; done|done|].
    rewrite B2 in E, J. exists l. split_and!; [done|by rewrite L, T2, length_insert|].
    intros j. rewrite J, T2, byte_insert by lia. fold bytes. repeat case_decide; try lia; done.
Qed.
Definition mem_bits (r : region) (a : Z) (n : nat) (e : plc_element_st) : list Z :=
  (fun i => Z.b2z (default false (bit_of e r (a + Z.of_nat i)))) <$> seq 0 n.
Lemma mem_bits_lookup r a n e i : (i < n)%nat -> mem_bits r a n e !! i = Some (Z.b2z (default false (bit_of e r (a + Z.of_nat i)))).
Proof. intros Hi. unfold mem_bits. by rewrite list_lookup_fmap, lookup_seq_lt. Qed.
Lemma mem_bits_at r a n e : wf_elem e -> 0 <= a -> a + Z.of_nat n <= 16 * rsize r -> a + Z.of_nat n <= 2 ^ 16 ->
  bits_at r a (mem_bits r a n e) e.
Proof.
  intros W Ha H1 H2 i b Hi s <-.
  assert (i < n)%nat. { apply lookup_lt_Some in Hi. unfold mem_bits in Hi. by rewrite length_fmap, length_seq in Hi. }
  rewrite mem_bits_lookup in Hi by done. apply Some_inj in Hi as <-.
  destruct (get_bit_run r (a + Z.of_nat i) s W) as (b & E1 & E2); [lia..|]. rewrite E1. by rewrite E2.
Qed.
Lemma fill_length after bs : forall v k, 0 <= k <= 8 -> Z.of_nat (length (fill after v k bs)) = Z.max 1 ((k + Z.of_nat (length bs) + 7) / 8).
Proof.
  induction bs as [|b bs IH]; intros v k Hk; cbn [fill length]; [Z.to_euclidean_division_equations; lia|].
  destruct (Z.leb_spec 8 k); cbn [length]; [rewrite Nat2Z.inj_succ|]; rewrite IH by lia; Z.to_euclidean_division_equations; lia.
Qed.
Lemma testbit_u8 v i : 0 <= i < 8 -> Z.testbit (u8 v) i = Z.testbit v i.
Proof. intros Hi. unfold u8. by rewrite Z.mod_pow2_bits_low by lia. Qed.
(** One more bit on top of [k] bits. *)
Lemma add_bit v b k : 0 <= k < 8 -> 0 <= v < 2 ^ k -> (b = 0 \/ b = 1) ->
  0 <= v + Z.shiftl b k < 2 ^ (k + 1) /\ u8 (v + Z.shiftl b k) = v + Z.shiftl b k /\
  (forall i, 0 <= i <= k -> Z.testbit (v + Z.shiftl b k) i = if i =? k then b =? 1 else Z.testbit v i).
Proof.
  intros Hk Hv Hb. rewrite Z.shiftl_mul_pow2, Z.pow_add_r by lia.
  assert (2 ^ (k + 1) <= 2 ^ 8) by (apply Z.pow_le_mono_r; lia). rewrite Z.pow_add_r in * by lia.
  assert (0 < 2 ^ k) by (apply Z.pow_pos_nonneg; lia).
  split; [destruct Hb; subst; lia|]. split; [unfold u8; apply Z.mod_small; destruct Hb; subst; lia|].
  intros i Hi. destruct Hb as [-> | ->].
  - rewrite Z.mul_0_l, Z.add_0_r. destruct (Z.eqb_spec i k) as [->|]; [|done].
    rewrite <- (Z.mod_small v (2 ^ k)) by lia. by rewrite Z.mod_pow2_bits_high by lia.
  - rewrite Z.mul_1_l. destruct (Z.eqb_spec i k) as [->|].
    + rewrite Z.testbit_true by lia. rewrite <- (Z.mul_1_l (2 ^ k)) at 1. rewrite Z.div_add, Z.div_small by lia. done.
    + rewrite <- (Z.mod_pow2_bits_low _ k) by lia. rewrite <- (Z.mul_1_l (2 ^ k)) at 1. rewrite Z.mod_add by lia. by rewrite Z.mod_small by lia.
Qed.
Lemma fill_bits bs : forall v k, Forall (fun b => b = 0 \/ b = 1) bs -> 0 <= k <= 8 -> 0 <= v < 2 ^ k ->
  (forall i, 0 <= i < k -> Z.testbit (byte_at (fill (fun v => v) v k bs) 0) i = Z.testbit v i) /\
  (forall i b, bs !! i = Some b -> Z.testbit (byte_at (fill (fun v => v) v k bs) ((k + Z.of_nat i) / 8)) ((k + Z.of_nat i) mod 8) = (b =? 1)).
Proof.
  induction bs as [|b bs IH]; intros v k F Hk Hv; cbn [fill]; [done|].
  apply Forall_cons in F as [Hb F]. destruct (Z.leb_spec 8 k) as [K|K].
  - assert (k = 8) as -> by lia. assert (u8 (u8 b) = b) as -> by (by destruct Hb as [-> | ->]).
    destruct (IH b 1 F ltac:(lia) ltac:(destruct Hb; subst; lia)) as [I1 I2]. split; [done|].
    intros i c Hi. assert (N : byte_at (v :: fill (fun v => v) b 1 bs) ((8 + Z.of_nat i) / 8) = byte_at (fill (fun v => v) b 1 bs) (Z.of_nat i / 8)).
    { assert (0 <= Z.of_nat i / 8) by (Z.to_euclidean_division_equations; lia).
      replace ((8 + Z.of_nat i) / 8) with (Z.of_nat i / 8 + 1) by (Z.to_euclidean_division_equations; lia).
      unfold byte_at, zlookup. rewrite !decide_True by lia. by replace (Z.to_nat (Z.of_nat i / 8 + 1)) with (S (Z.to_nat (Z.of_nat i / 8))) by lia. }
    rewrite N. replace ((8 + Z.of_nat i) mod 8) with (Z.of_nat i mod 8) by (Z.to_euclidean_division_equations; lia).
    destruct i as [|i]; cbn in Hi.
    + injection Hi as <-. change (Z.of_nat 0 / 8) with 0. change (Z.of_nat 0 mod 8) with 0. rewrite I1 by lia. by destruct Hb as [-> | ->].
    + rewrite <- (I2 i c Hi). by replace (Z.of_nat (S i)) with (1 + Z.of_nat i) by lia.
  - destruct (add_bit v b k ltac:(lia) Hv Hb) as (A1 & A2 & A3). rewrite !A2.
    destruct (IH (v + Z.shiftl b k) (k + 1) F ltac:(lia) A1) as [I1 I2]. split.
    + intros i Hi. rewrite I1, A3 by lia. by assert (i =? k = false) as -> by lia.
    + intros i c Hi. destruct i as [|i]; cbn in Hi.
      * injection Hi as <-. replace ((k + Z.of_nat 0) / 8) with 0 by (Z.to_euclidean_division_equations; lia).
        replace ((k + Z.of_nat 0) mod 8) with k by (Z.to_euclidean_division_equations; lia).
        rewrite I1, A3, Z.eqb_refl by lia. done.
      * rewrite <- (I2 i c Hi). by replace (k + Z.of_nat (S i)) with (k + 1 + Z.of_nat i) by lia.
Qed.
(** The loop that shifts the byte once more after each bit. *)
Definition ones (bs : list Z) : Z := foldr Z.add 0 bs.
Lemma ones_cons b bs : ones (b :: bs) = b + ones bs.
Proof. done. Qed.
Definition shifted_byte (c k : Z) : Z := u8 (c * 2 ^ k).
Lemma shifted_step c b k : 0 <= k -> u8 (Z.shiftl (u8 (shifted_byte c k + Z.shiftl b k)) 1) = shifted_byte (c + b) (k + 1).
Proof.
  intros Hk. unfold shifted_byte, u8. rewrite !Z.shiftl_mul_pow2, Z.pow_add_r by lia.
  rewrite Z.add_mod_idemp_l by lia. rewrite Z.mul_mod_idemp_l by lia. f_equal. lia.
Qed.
Lemma fill_shifted bs : forall c k, 0 <= k <= 8 ->
  let bytes := fill (fun v => Z.shiftl v 1) (shifted_byte c k) k bs in
  let m := Z.to_nat (8 - k) in
  byte_at bytes 0 = shifted_byte (c + ones (take m bs)) (k + Z.of_nat (length (take m bs))) /\
  (forall j, (0 < j)%nat -> Z.of_nat j < Z.of_nat (length bytes) ->
     byte_at bytes (Z.of_nat j) = (let g := take 8 (drop (m + 8 * (j - 1)) bs) in shifted_byte (ones g) (Z.of_nat (length g)))).
Proof.
  induction bs as [|b bs IH]; intros c k Hk; cbn zeta; cbn [fill length].
  - split; [rewrite take_nil; cbn [length]; change (ones []) with 0; by rewrite !Z.add_0_r|intros j Hj Hl; cbn in Hl; lia].
  - destruct (Z.leb_spec 8 k) as [K|K].
    + assert (k = 8) as -> by lia. change (Z.to_nat (8 - 8)) with 0%nat. cbn [take length drop Nat.add].
      assert (E : u8 (Z.shiftl (u8 b) 1) = shifted_byte b 1).
      { unfold shifted_byte, u8. rewrite Z.shiftl_mul_pow2, Z.mul_mod_idemp_l by lia. done. }
      rewrite E. destruct (IH b 1 ltac:(lia)) as [I1 I2]. change (Z.to_nat (8 - 1)) with 7%nat in *. split.
      { change (ones []) with 0. cbn [length]. by rewrite !Z.add_0_r. }
      intros j Hj Hl. assert (N : forall l, byte_at (shifted_byte c 8 :: l) (Z.of_nat j) = byte_at l (Z.of_nat (j - 1))).
      { intros l. unfold byte_at, zlookup. rewrite !decide_True by lia. by replace (Z.to_nat (Z.of_nat j)) with (S (Z.to_nat (Z.of_nat (j - 1)))) by lia. }
      rewrite N. destruct (decide (j = 1%nat)) as [->|Hne].
      * change (Z.of_nat (1 - 1)) with 0. rewrite I1. cbn [Nat.mul Nat.sub Nat.add drop take].
        rewrite ones_cons. cbn [length]. f_equal. lia.
      * rewrite I2 by lia. cbn zeta. replace (8 * (j - 1))%nat with (S (7 + 8 * (j - 1 - 1))) by lia. done.
    + rewrite shifted_step by lia. destruct (IH (c + b) (k + 1) ltac:(lia)) as [I1 I2].
      replace (Z.to_nat (8 - k)) with (S (Z.to_nat (8 - (k + 1)))) by lia. cbn [take length].
      split; [rewrite I1, ones_cons; f_equal; lia|].
      intros j Hj Hl. rewrite I2 by lia. done.
Qed.

(** ** The answer to a request for bits *)
Lemma bytes_ext l l' : length l = length l' -> (forall j, 0 <= j < Z.of_nat (length l) -> byte_at l j = byte_at l' j) -> l = l'.
Proof.
  intros L H. apply (list_eq_same_length _ _ (length l)); [done|done|]. intros i x y Hi Hx Hy.
  specialize (H (Z.of_nat i) ltac:(lia)). unfold byte_at, zlookup in H. rewrite !decide_True, Nat2Z.id, Hx, Hy in H by lia. exact H.
Qed.
Lemma bytes_forall l : (forall j, 0 <= j < Z.of_nat (length l) -> byte_ok (byte_at l j)) -> Forall byte_ok l.
Proof.
  intros H. apply Forall_lookup_2. intros i x Hi. specialize (H (Z.of_nat i)). unfold byte_at, zlookup in H.
  rewrite decide_True, Nat2Z.id, Hi in H by lia. apply H. apply lookup_lt_Some in Hi. lia.
Qed.
Lemma byte_at_ok l j : Forall byte_ok l -> byte_ok (byte_at l j).
Proof. intros F. rewrite <- byte_u8 by done. apply u8_range. Qed.
Lemma byte_take l n j : 0 <= j < Z.of_nat n -> byte_at (take n l) j = byte_at l j.
Proof. intros Hj. unfold byte_at, zlookup. rewrite !decide_True by lia. by rewrite lookup_take_lt by lia. Qed.
Lemma byte_cons x l j : 0 < j -> byte_at (x :: l) j = byte_at l (j - 1).
Proof. intros Hj. unfold byte_at, zlookup. rewrite !decide_True by lia. by replace (Z.to_nat j) with (S (Z.to_nat (j - 1))) by lia. Qed.
Lemma fill_bytes after bs : forall v k, byte_ok v -> Forall byte_ok (fill after v k bs).
Proof.
  induction bs as [|b bs IH]; intros v k Hv; cbn [fill]; [by apply Forall_singleton|].
  destruct (8 <=? k); [constructor; [done|]|]; apply IH, u8_range.
Qed.
Lemma answered_with_tx body t l s : answered body t (with_tx l s) = answered body t s.
Proof. done. Qed.
(** Three bytes of a head, and the data behind them. *)
Lemma answer_list n l s a b c data : has_channel (msg s) ->
  0 <= n -> n + 2 <= Z.of_nat (length l) -> n < 2 ^ 16 - 2 -> Forall byte_ok l -> n = Z.of_nat (length data) + 3 ->
  byte_at l 0 = a -> byte_at l 1 = b -> byte_at l 2 = c -> (forall j, 0 <= j < Z.of_nat (length data) -> byte_at l (j + 3) = byte_at data j) ->
  exists t, answer n (with_tx l s) = Ok (tt, answered (a :: b :: c :: data) t s).
Proof.
  intros Hc Hn Hl Hb F Hd H0 H1 H2 H3. eexists. rewrite answer_run by done. rewrite tx_with_tx, answered_with_tx.
  assert (take (Z.to_nat n) l = a :: b :: c :: data) as ->; [|done]. apply bytes_ext; [rewrite length_take; cbn; lia|].
  rewrite length_take. intros j Hj. rewrite byte_take by lia.
  destruct (decide (j = 0)) as [->|]; [by rewrite H0|]. destruct (decide (j = 1)) as [->|]; [by rewrite H1|].
  destruct (decide (j = 2)) as [->|]; [by rewrite H2|]. rewrite !byte_cons by lia. rewrite <- H3 by lia. f_equal. lia.
Qed.
Lemma bits_response_run after r a n s : wf_elem (elem s) -> 0 <= a -> a + Z.of_nat n <= 16 * rsize r -> a + Z.of_nat n <= 2 ^ 16 ->
  Z.of_nat n <= MB_MAX_R_BIT_NUM -> 2 <= Z.of_nat (length (rx_buf s)) ->
  let data := fill after 0 0 (mem_bits r a n (elem s)) in ready (5 + Z.of_nat (length data)) s ->
  exists t, bits_response after r a (Z.of_nat n) s =
    Ok (tt, answered (u8 (byte_at (rx_buf s) 0) :: u8 (byte_at (rx_buf s) 1) :: Z.of_nat (length data) :: data) t s).
Proof.
  intros W Ha H1 H2 Hn Hr data [Hc F Hroom]. unfold bits_response.
  assert (Ld : 1 <= Z.of_nat (length data) <= 250).
  { unfold data. rewrite fill_length by lia. unfold mem_bits. rewrite length_fmap, length_seq. unfold MB_MAX_R_BIT_NUM in Hn.
    Z.to_euclidean_division_equations; lia. }
  run_step. set (s1 := with_tx _ s). assert (T1 : tx_buf s1 = <[Z.to_nat 3 := 0]> (tx_buf s)) by done.
  assert (B1 : byte_at (tx_buf s1) 3 = 0) by (by rewrite T1, byte_insert, decide_True by (done || lia)).
  assert (Ln : length (mem_bits r a n (elem s)) = n) by (unfold mem_bits; by rewrite length_fmap, length_seq).
  destruct (pack_bits_run after r (mem_bits r a n (elem s)) a 3 0 1 s1) as (l & E & L & J);
    [by apply mem_bits_at|lia|lia|lia|rewrite B1, T1, length_insert; fold data; lia|rewrite B1; fold data; lia|].
  rewrite B1 in E, J. fold data in E, J. rewrite Ln in E. rewrite Nat2Z.id. rewrite (run_bind _ _ _ _ _ E).
  rewrite T1, length_insert in L.
  destruct (copy_request_run 2 0 (with_tx l s1)) as (l2 & E2 & L2 & J2); [lia|rewrite tx_with_tx; lia|exact Hr|].
  rewrite tx_with_tx in L2, J2. rewrite (run_bind _ _ _ _ _ E2). run_step. rewrite tx_with_tx, u8_id by lia.
  change (rx_buf (with_tx l s1)) with (rx_buf s) in J2. set (l3 := <[_ := _]> l2).
  assert (B3 : forall j, byte_at l3 j = if decide (j = 2) then 1 + Z.of_nat (length data) - 1 else byte_at l2 j) by (intros j; apply byte_insert; lia).
  assert (Bl : forall j, byte_at l3 j = if decide (j = 2) then Z.of_nat (length data) else
    if decide (0 <= j < 2) then u8 (byte_at (rx_buf s) j) else
    if decide (3 <= j < 3 + Z.of_nat (length data)) then byte_at data (j - 3) else byte_at (tx_buf s) j).
  { intros j. rewrite B3, J2, J, T1, byte_insert by lia. repeat case_decide; try lia; done. }
  assert (Ll : length l3 = length (tx_buf s)) by (unfold l3; rewrite length_insert; congruence).
  apply (answer_list (1 + Z.of_nat (length data) - 1 + 3) l3 s); try done; rewrite ?Ll; try lia.
  - apply bytes_forall. intros j _. rewrite Bl. repeat case_decide; try (unfold byte_ok; lia);
      first [apply u8_range|apply byte_at_ok; by apply fill_bytes|by apply byte_at_ok].
  - intros j Hj. rewrite Bl. rewrite !decide_False, decide_True by lia. f_equal. lia.
Qed.

(** ** Reading bits, from request to answer *)
Definition read_request (id f a n : Z) : list Z := [id; f; a / 256; a mod 256; n / 256; n mod 256].
Lemma split16 v : v / 256 * 256 + v mod 256 = v.
Proof. Z.to_euclidean_division_equations; lia. Qed.
Section reading.
Context (id f a n : Z) (s : mb_st) (R : request (read_request id f a n) s) (U : mcv_IsBroadcastInfo (msg s) = 0).
Lemma read_request_rx : 8 <= Z.of_nat (length (rx_buf s)) /\ byte_at (rx_buf s) 0 = id /\ byte_at (rx_buf s) 1 = f /\ u8 id = id /\ u8 f = f.
Proof.
  destruct (rq_buf _ _ R) as [rest E]. rewrite E. pose proof (rq_bytes _ _ R) as F. unfold read_request in F.
  apply Forall_cons in F as [F1 F]. apply Forall_cons in F as [F2 _]. split_and!; [cbn; lia|done|done|by apply u8_id|by apply u8_id].
Qed.
Lemma not_broadcast_run k : not_broadcast k s = k s.
Proof. unfold not_broadcast, message, gets, mbind, M_bind. by rewrite U. Qed.
Lemma read_bits_request_run k : n <= MB_MAX_R_BIT_NUM ->
  read_bits_request k s = converted MB_BIT_ELEMENT a (fun t e => k t e n) s.
Proof.
  intros Hn. unfold read_bits_request. rewrite not_broadcast_run. unfold message, gets. unfold mbind at 1, M_bind at 1.
  rewrite (rq_len _ _ R). cbn [read_request length]. change (Z.of_nat 6 + 2 =? 8) with true. cbn [negb].
  rewrite (run_bind _ _ _ _ _ (rq_big16 _ _ R 2 ltac:(lia) ltac:(cbn; lia))).
  rewrite (run_bind _ _ _ _ _ (rq_big16 _ _ R 4 ltac:(lia) ltac:(cbn; lia))).
  change (byte_at (read_request id f a n) 2) with (a / 256). change (byte_at (read_request id f a n) (2 + 1)) with (a mod 256).
  change (byte_at (read_request id f a n) 4) with (n / 256). change (byte_at (read_request id f a n) (4 + 1)) with (n mod 256).
  rewrite !split16. by assert (MB_MAX_R_BIT_NUM <? n = false) as -> by lia.
Qed.
End reading.
Lemma bit_regions t r rang : bit_region_of t = Some (r, rang) -> rang <= 16 * rsize r /\ rang <= 2 ^ 16.
Proof. unfold bit_region_of. repeat case_match; intros [= <- <-]; zconc. Qed.

(** C25: a well-formed request to read coils is answered with the states of
    the elements its address stands for, packed eight to a byte, the first in
    the lowest bit; nothing but the message changes. *)
Theorem coils_read dl ul ct id a n t e r rang s :
  request (read_request id MB_READ_COILS_STATUS a n) s -> mcv_IsBroadcastInfo (msg s) = 0 ->
  wf_elem (elem s) -> 1 <= n <= MB_MAX_R_BIT_NUM ->
  mb_slave_convert_element_info MB_BIT_ELEMENT a = Some (t, e) -> bit_region_of t = Some (r, rang) -> 0 <= e -> e + n <= rang ->
  ready (5 + (n + 7) / 8) s ->
  exists data buf, mb_slave_msg_handler dl ul ct s =
    Ok (tt, answered (id :: MB_READ_COILS_STATUS :: (n + 7) / 8 :: data) buf s) /\
    Z.of_nat (length data) = (n + 7) / 8 /\
    forall i, 0 <= i < n -> bit_of (elem s) r (e + i) = Some (Z.testbit (byte_at data (i / 8)) (i mod 8)).
Proof.
  intros R U W Hn Hconv Hr He Hrang [Rc Rb Rr]. destruct (read_request_rx _ _ _ _ _ R) as (Lr & B0 & B1 & U0 & U1).
  rewrite (dispatched _ _ R). change (byte_at (read_request _ ?f _ _) 1) with f.
  change (mb_slave_function dl ul ct MB_READ_COILS_STATUS) with mb_slave_read_coils_status. unfold mb_slave_read_coils_status.
  rewrite (read_bits_request_run _ _ _ _ _ R U) by lia. unfold converted. rewrite Hconv, Hr.
  assert (rang <? e + n - 1 = false) as -> by lia. destruct (bit_regions _ _ _ Hr).
  set (bs := mem_bits r e (Z.to_nat n) (elem s)).
  assert (Lb : Z.of_nat (length bs) = n) by (unfold bs, mem_bits; rewrite length_fmap, length_seq; lia).
  assert (Ld : Z.of_nat (length (fill (fun v => v) 0 0 bs)) = (n + 7) / 8).
  { rewrite fill_length, Lb by lia. Z.to_euclidean_division_equations; lia. }
  destruct (bits_response_run (fun v => v) r e (Z.to_nat n) s W He) as [buf E]; [lia..|fold bs; split; [done|done|lia]|].
  rewrite Z2Nat.id in E by lia. fold bs in E. rewrite B0, B1, U0, U1, Ld in E.
  eexists _, buf. split_and!; [exact E|exact Ld|]. intros i Hi.
  destruct (fill_bits bs 0 0) as [_ I]; [|lia..|].
  { apply Forall_lookup_2. intros k b Hk. unfold bs, mem_bits in Hk. apply list_lookup_fmap_Some in Hk as (? & -> & _).
    destruct (default false _); cbn; lia. }
  assert (Hb : bs !! Z.to_nat i = Some (Z.b2z (default false (bit_of (elem s) r (e + i))))).
  { unfold bs. rewrite mem_bits_lookup by lia. by rewrite Z2Nat.id by lia. }
  specialize (I _ _ Hb). rewrite Z2Nat.id, Z.add_0_l in I by lia. rewrite I.
  destruct (get_bit_run r (e + i) s W) as (b & _ & Eb); [lia..|]. rewrite Eb. by destruct b.
Qed.
(** Ten coils from Y20 on. *)
Lemma coils_read_witness : exists data buf,
  mb_slave_msg_handler ub ub ub (mb_demo (read_request 1 MB_READ_COILS_STATUS 20 10)) =
    Ok (tt, answered (1 :: MB_READ_COILS_STATUS :: 2 :: data) buf (mb_demo (read_request 1 MB_READ_COILS_STATUS 20 10))) /\
  Z.of_nat (length data) = 2 /\
  forall i, 0 <= i < 10 -> bit_of elem0 Y_ELEMENT (20 + i) = Some (Z.testbit (byte_at data (i / 8)) (i mod 8)).
Proof.
  apply (coils_read ub ub ub 1 20 10 MB_BIT_Y 20 Y_ELEMENT Y_RANG); [|done|apply mb_demo_elem|done..|by apply mb_demo_ready].
  apply mb_demo_request; [cbn; lia|]. repeat constructor; done.
Defined.
(** Byte [j] of the answer about the inputs [bs]. *)
Definition input_byte (bs : list Z) (j : Z) : Z :=
  let g := take 8 (drop (Z.to_nat (8 * j)) bs) in u8 (ones g * 2 ^ Z.of_nat (length g)).
(** The answer about discrete inputs does not carry their states: the
    byte is shifted once more after each bit, so that every input on counts
    alike, and a byte of eight inputs is always zero. *)
Theorem inputs_read_lost dl ul ct id a n t e s :
  request (read_request id MB_READ_DESCRETE_INPUT_STATUS a n) s -> mcv_IsBroadcastInfo (msg s) = 0 ->
  wf_elem (elem s) -> 1 <= n <= MB_MAX_R_BIT_NUM ->
  mb_slave_convert_element_info MB_BIT_ELEMENT a = Some (t, e) -> 0 <= e -> e + n <= X_RANG -> ready (5 + (n + 7) / 8) s ->
  exists data buf, mb_slave_msg_handler dl ul ct s =
    Ok (tt, answered (id :: MB_READ_DESCRETE_INPUT_STATUS :: (n + 7) / 8 :: data) buf s) /\
    forall j, 0 <= j < (n + 7) / 8 ->
      byte_at data j = input_byte (mem_bits X_ELEMENT e (Z.to_nat n) (elem s)) j /\ (8 * j + 8 <= n -> byte_at data j = 0).
Proof.
  intros R U W Hn Hconv He Hrang [Rc Rb Rr]. destruct (read_request_rx _ _ _ _ _ R) as (Lr & B0 & B1 & U0 & U1).
  rewrite (dispatched _ _ R). change (byte_at (read_request _ ?f _ _) 1) with f.
  change (mb_slave_function dl ul ct MB_READ_DESCRETE_INPUT_STATUS) with mb_slave_read_descrete_input_status.
  unfold mb_slave_read_descrete_input_status.
  rewrite (read_bits_request_run _ _ _ _ _ R U) by lia. unfold converted. rewrite Hconv.
  assert (X_RANG <? e + n - 1 = false) as -> by lia. set (bs := mem_bits X_ELEMENT e (Z.to_nat n) (elem s)).
  assert (Lb : Z.of_nat (length bs) = n) by (unfold bs, mem_bits; rewrite length_fmap, length_seq; lia).
  set (data := fill (fun v => Z.shiftl v 1) 0 0 bs).
  assert (Ld : Z.of_nat (length data) = (n + 7) / 8).
  { unfold data. rewrite fill_length, Lb by lia. Z.to_euclidean_division_equations; lia. }
  destruct (bits_response_run (fun v => Z.shiftl v 1) X_ELEMENT e (Z.to_nat n) s W He) as [buf E];
    [unfold X_RANG in *; change (16 * rsize X_ELEMENT) with 2048; lia|unfold X_RANG in *; lia|lia|lia|fold bs; fold data; split; [done|done|lia]|].
  rewrite Z2Nat.id in E by lia. fold bs in E. fold data in E. rewrite B0, B1, U0, U1, Ld in E.
  exists data, buf. split; [exact E|]. intros j Hj.
  destruct (fill_shifted bs 0 0 ltac:(lia)) as [I1 I2]. change (shifted_byte 0 0) with 0 in I1, I2. fold data in I1, I2.
  assert (K : byte_at data j = input_byte bs j).
  { unfold input_byte. destruct (decide (j = 0)) as [->|Hne]; [rewrite I1; cbn zeta; unfold shifted_byte; by rewrite !Z.add_0_l|].
    assert (Hz : Z.of_nat (Z.to_nat j) = j) by lia. rewrite <- Hz at 1. rewrite I2 by lia. cbn zeta. unfold shifted_byte.
    change (Z.to_nat (8 - 0)) with 8%nat. by replace (8 + 8 * (Z.to_nat j - 1))%nat with (Z.to_nat (8 * j)) by lia. }
  split; [exact K|]. intros Hw. rewrite K. unfold input_byte. rewrite length_take, length_drop.
  replace (Z.of_nat (8 `min` (length bs - Z.to_nat (8 * j)))) with 8 by lia. unfold u8. by rewrite Z.mod_mul.
Qed.
(** Sixteen inputs from X0 on. *)
Lemma inputs_read_lost_witness : exists data buf,
  mb_slave_msg_handler ub ub ub (mb_demo (read_request 1 MB_READ_DESCRETE_INPUT_STATUS 1200 16)) =
    Ok (tt, answered (1 :: MB_READ_DESCRETE_INPUT_STATUS :: 2 :: data) buf (mb_demo (read_request 1 MB_READ_DESCRETE_INPUT_STATUS 1200 16))) /\
  forall j, 0 <= j < 2 -> byte_at data j = input_byte (mem_bits X_ELEMENT 0 16 elem0) j /\ (8 * j + 8 <= 16 -> byte_at data j = 0).
Proof.
  apply (inputs_read_lost ub ub ub 1 1200 16 MB_BIT_X 0); [|done|apply mb_demo_elem|done..|by apply mb_demo_ready].
  apply mb_demo_request; [cbn; lia|]. repeat constructor; done.
Defined.

(** ** Registers *)
(** Byte [k] of the registers from [a] on, the high byte of each first. *)
Definition big_byte (r : region) (a k : Z) (s : mb_st) : Z :=
  u8 (Z.shiftr (cell r (a + k / 2) s) (if k mod 2 =? 0 then 8 else 0)).
Definition big_bytes (r : region) (a : Z) (n : nat) (s : mb_st) : list Z := (fun k => big_byte r a (Z.of_nat k) s) <$> seq 0 (2 * n).
Lemma big_bytes_length r a n s : Z.of_nat (length (big_bytes r a n s)) = 2 * Z.of_nat n.
Proof. unfold big_bytes. rewrite length_fmap, length_seq. lia. Qed.
Lemma big_bytes_at r a n s j : 0 <= j < 2 * Z.of_nat n -> byte_at (big_bytes r a n s) j = big_byte r a j s.
Proof.
  intros Hj. unfold byte_at, zlookup, big_bytes. rewrite decide_True, list_lookup_fmap, lookup_seq_lt by lia. cbn.
  by replace (Z.of_nat (Z.to_nat j)) with j by lia.
Qed.
Lemma cell_with_tx r i l s : cell r i (with_tx l s) = cell r i s.
Proof. done. Qed.
Lemma put_big16_run p v s : 0 <= p -> p + 2 <= Z.of_nat (length (tx_buf s)) ->
  put_big16 p v s = Ok (tt, with_tx (<[Z.to_nat (p + 1) := u8 v]> (<[Z.to_nat p := u8 (Z.shiftr v 8)]> (tx_buf s))) s).
Proof. intros Hp Hl. unfold put_big16. run_step. by rewrite put_tx_run by buf_lia. Qed.
Lemma words_loop_run r a n : forall i s, wf_elem (elem s) -> 0 <= i -> 0 <= a -> a + i + Z.of_nat n <= rsize r ->
  3 + 2 * (i + Z.of_nat n) <= Z.of_nat (length (tx_buf s)) ->
  exists l, for_up n i (fun i => v ← rd r (a + i); put_big16 (3 + i * 2) v) s = Ok (tt, with_tx l s) /\ length l = length (tx_buf s) /\
    forall j, byte_at l j = if decide (3 + 2 * i <= j < 3 + 2 * (i + Z.of_nat n)) then big_byte r a (j - 3) s else byte_at (tx_buf s) j.
Proof.
  induction n as [|n IH]; intros i s W Hi Ha Hr Hl; cbn [for_up].
  { exists (tx_buf s). rewrite with_tx_id. split_and!; [done|done|]. intros j. by rewrite decide_False by lia. }
  assert (E : (v ← rd r (a + i); put_big16 (3 + i * 2) v) s = put_big16 (3 + i * 2) (cell r (a + i) s) s)
    by (apply run_bind, rd_cell; [done|lia]).
  unfold mbind at 1, M_bind at 1. rewrite E, put_big16_run by lia. set (s1 := with_tx _ s).
  assert (T1 : length (tx_buf s1) = length (tx_buf s)) by (unfold s1; by rewrite tx_with_tx, !length_insert).
  destruct (IH (i + 1) s1) as (l & E1 & L & J); [done|lia|lia|lia|lia|]. exists l. split_and!; [exact E1|congruence|].
  intros j. rewrite J. unfold s1 at 2. rewrite tx_with_tx, !byte_insert by (rewrite ?length_insert; lia).
  change (big_byte r a (j - 3) s1) with (big_byte r a (j - 3) s). unfold big_byte.
  repeat case_decide; try lia; try done.
  - replace ((j - 3) / 2) with i by (Z.to_euclidean_division_equations; lia).
    assert ((j - 3) mod 2 =? 0 = false) as -> by (apply Z.eqb_neq; Z.to_euclidean_division_equations; lia). by rewrite Z.shiftr_0_r.
  - replace ((j - 3) / 2) with i by (Z.to_euclidean_division_equations; lia).
    assert ((j - 3) mod 2 =? 0 = true) as -> by (apply Z.eqb_eq; Z.to_euclidean_division_equations; lia). done.
Qed.
Definition word_reg (r : region) : Prop :=
  r = D_ELEMENT \/ r = SD_ELEMENT \/ r = Z_ELEMENT \/ r = T_CURRENT \/ r = C16_VALUE \/ r = R_ELEMENT.
Lemma word_region_word t a r : word_region_of t a = Some r -> word_reg r.
Proof. unfold word_region_of, word_reg. repeat case_match; intros [= <-]; tauto. Qed.
(** What is done for a request to read registers that passes the checks; the
    last of them lets one register past the end through. *)
Definition registers_answer (r : region) (e n : Z) : Mb unit :=
  lsv_DataLen ← words_response (rd r) (rsize r) e n; copy_request 2 0;; put_tx 2 lsv_DataLen;; answer (lsv_DataLen + 3).
Lemma registers_dispatch dl ul ct id a n t e r s :
  request (read_request id MB_READ_HOLDING_REGISTER a n) s -> mcv_IsBroadcastInfo (msg s) = 0 -> 0 <= n <= MB_MAX_R_WORD_NUM ->
  mb_slave_convert_element_info MB_WORD_ELEMENT a = Some (t, e) -> word_region_of t e = Some r -> e + n <= rsize r + 1 ->
  mb_slave_msg_handler dl ul ct s = registers_answer r e n s.
Proof.
  intros R U Hn Hconv Hr Hrang.
  unfold MB_MAX_R_WORD_NUM in Hn. rewrite (dispatched _ _ R). change (byte_at (read_request _ ?f _ _) 1) with f.
  change (mb_slave_function dl ul ct MB_READ_HOLDING_REGISTER) with mb_slave_read_holding_register.
  unfold mb_slave_read_holding_register. rewrite (not_broadcast_run s U). unfold message, gets. unfold mbind at 1, M_bind at 1.
  rewrite (rq_len _ _ R). change (Z.of_nat (length (read_request id MB_READ_HOLDING_REGISTER a n)) + 2 =? 8) with true. cbn [negb].
  rewrite (run_bind _ _ _ _ _ (rq_big16 _ _ R 2 ltac:(lia) ltac:(cbn; lia))).
  rewrite (run_bind _ _ _ _ _ (rq_big16 _ _ R 4 ltac:(lia) ltac:(cbn; lia))).
  change (byte_at (read_request id MB_READ_HOLDING_REGISTER a n) 2) with (a / 256).
  change (byte_at (read_request id MB_READ_HOLDING_REGISTER a n) (2 + 1)) with (a mod 256).
  change (byte_at (read_request id MB_READ_HOLDING_REGISTER a n) 4) with (n / 256).
  change (byte_at (read_request id MB_READ_HOLDING_REGISTER a n) (4 + 1)) with (n mod 256).
  rewrite !split16. assert (MB_MAX_R_WORD_NUM <? n = false) as -> by (unfold MB_MAX_R_WORD_NUM; lia).
  unfold converted. rewrite Hconv.
  unfold word_region_of in Hr.
  destruct (Z.eqb_spec t MB_WORD_D); [subst t; injection Hr as <-|destruct (Z.eqb_spec t MB_WORD_SD); [subst t; injection Hr as <-|
    destruct (Z.eqb_spec t MB_WORD_Z); [subst t; injection Hr as <-|destruct (Z.eqb_spec t MB_WORD_T); [subst t; injection Hr as <-|
    destruct (Z.eqb_spec t MB_WORD_C); [subst t; destruct (e <? C16_RANG); [injection Hr as <-|done]|
    destruct (Z.eqb_spec t MB_WORD_R); [subst t; injection Hr as <-|done]]]]]].
  all: cbn [rsize] in Hrang; change (MB_WORD_T =? MB_WORD_C) with false; change (MB_WORD_T =? MB_WORD_T) with true; cbv iota;
    match goal with |- (if ?b then _ else _) _ = _ => by assert (b = false) as -> by lia end.
Qed.
(** A well-formed request to read registers is answered with their
    values, the high byte of each first. *)
Lemma registers_read_run dl ul ct id a n t e r s :
  request (read_request id MB_READ_HOLDING_REGISTER a n) s -> mcv_IsBroadcastInfo (msg s) = 0 ->
  wf_elem (elem s) -> 0 <= n <= MB_MAX_R_WORD_NUM ->
  mb_slave_convert_element_info MB_WORD_ELEMENT a = Some (t, e) -> word_region_of t e = Some r -> 0 <= e -> e + n <= rsize r ->
  ready (5 + 2 * n) s ->
  exists buf, mb_slave_msg_handler dl ul ct s =
    Ok (tt, answered (id :: MB_READ_HOLDING_REGISTER :: 2 * n :: big_bytes r e (Z.to_nat n) s) buf s).
Proof.
  intros R U W Hn Hconv Hr He Hrang [Rc Rb Rr]. destruct (read_request_rx _ _ _ _ _ R) as (Lr & B0 & B1 & U0 & U1).
  rewrite (registers_dispatch dl ul ct id a n t e r s R U Hn Hconv Hr ltac:(lia)). unfold MB_MAX_R_WORD_NUM in Hn.
  unfold registers_answer, words_response. assert (2 * (0 + Z.of_nat (Z.to_nat n)) = 2 * n) as Hnn by lia.
  destruct (words_loop_run r e (Z.to_nat n) 0 s W) as (l & E & L & J); [lia..|].
  rewrite Hnn in J. rewrite (run_bind _ _ _ _ _ (run_bind _ _ _ _ _ E : _ = Ok (u16 (n * 2), with_tx l s))), u16_id by lia.
  destruct (copy_request_run 2 0 (with_tx l s)) as (l2 & E2 & L2 & J2); [lia|rewrite tx_with_tx; lia|change (rx_buf (with_tx l s)) with (rx_buf s); lia|].
  rewrite tx_with_tx in L2, J2. rewrite (run_bind _ _ _ _ _ E2). run_step. rewrite tx_with_tx, u8_id by lia.
  change (rx_buf (with_tx l s)) with (rx_buf s) in J2. set (l3 := <[_ := _]> l2).
  assert (Ll : length l3 = length (tx_buf s)) by (unfold l3; rewrite length_insert; congruence).
  assert (Bl : forall j, byte_at l3 j = if decide (j = 2) then 2 * n else if decide (0 <= j < 2) then u8 (byte_at (rx_buf s) j) else
    if decide (3 <= j < 3 + 2 * n) then big_byte r e (j - 3) s else byte_at (tx_buf s) j).
  { intros j. unfold l3. rewrite byte_insert, J2, J by lia. repeat case_decide; try lia; done. }
  pose proof (big_bytes_length r e (Z.to_nat n) s).
  apply (answer_list (n * 2 + 3) l3 s); try done; rewrite ?Ll; try lia.
  - apply bytes_forall. intros j _. rewrite Bl. repeat case_decide; try (unfold byte_ok; lia); first [apply u8_range|by apply byte_at_ok].
  - rewrite Bl. cbn. by rewrite B0.
  - rewrite Bl. cbn. by rewrite B1.
  - intros j Hj. rewrite Bl, !decide_False, decide_True, big_bytes_at by lia. f_equal. lia.
Qed.
Lemma words_loop_past r a n : forall i s, wf_elem (elem s) -> 0 <= i -> 0 <= a -> a + i <= rsize r -> rsize r < a + i + Z.of_nat n ->
  3 + 2 * (i + Z.of_nat n) <= Z.of_nat (length (tx_buf s)) ->
  for_up n i (fun i => v ← rd r (a + i); put_big16 (3 + i * 2) v) s = Ub.
Proof.
  induction n as [|n IH]; intros i s W Hi Ha Hr Hp Hl; cbn [for_up]; [lia|].
  destruct (decide (a + i = rsize r)) as [E|E].
  - unfold mbind at 1, M_bind at 1. unfold mbind at 1, M_bind at 1. unfold rd.
    destruct (zlookup (rget (elem s) r) (a + i)) as [v|] eqn:L; [|done]. apply zlookup_lt in L. rewrite (wf_len _ W) in L. lia.
  - unfold mbind at 1, M_bind at 1. rewrite (run_bind _ _ _ _ _ (rd_cell r (a + i) s W ltac:(lia))), put_big16_run by lia.
    apply IH; try done; try lia. rewrite tx_with_tx, !length_insert. lia.
Qed.
(** C38: the check on the last address lets one register too many through: a
    request that ends one past the last register of its kind is not refused
    but read from beyond the array. *)
Theorem registers_read_past_end dl ul ct id a n t e r s :
  request (read_request id MB_READ_HOLDING_REGISTER a n) s -> mcv_IsBroadcastInfo (msg s) = 0 -> wf_elem (elem s) ->
  1 <= n <= MB_MAX_R_WORD_NUM -> mb_slave_convert_element_info MB_WORD_ELEMENT a = Some (t, e) -> word_region_of t e = Some r ->
  0 <= e -> e + n = rsize r + 1 -> ready (5 + 2 * n) s ->
  mb_slave_msg_handler dl ul ct s = Ub.
Proof.
  intros R U W Hn Hconv Hr He Hrang [Rc Rb Rr].
  rewrite (registers_dispatch dl ul ct id a n t e r s R U ltac:(lia) Hconv Hr ltac:(lia)). unfold registers_answer, words_response.
  unfold mbind at 1, M_bind at 1. unfold mbind at 1, M_bind at 1. by rewrite words_loop_past by (done || lia).
Qed.
(** The last data register and the one behind it. *)
Lemma registers_read_past_end_witness :
  mb_slave_msg_handler ub ub ub (mb_demo (read_request 1 MB_READ_HOLDING_REGISTER 7999 2)) = Ub.
Proof.
  apply (registers_read_past_end ub ub ub 1 7999 2 MB_WORD_D 7999 D_ELEMENT); [|done|apply mb_demo_elem|done..|by apply mb_demo_ready].
  apply mb_demo_request; [cbn; lia|]. repeat constructor; done.
Defined.
(** Words stored one after the other. *)
Definition word_at (l : list Z) (i : Z) : Z := byte_at l (2 * i) * 256 + byte_at l (2 * i + 1).
Definition stored (r : region) (a i n : Z) (f : Z -> Z) (s s' : mb_st) : Prop :=
  wf_elem (elem s') /\ msg s' = msg s /\ sent s' = sent s /\ gtp_ModbusSlaveDiagInfo s' = gtp_ModbusSlaveDiagInfo s /\
  forall q j, cell q j s' = if decide (q = r /\ a + i <= j < a + i + n) then f (j - a) else cell q j s.
Lemma store_loop_run r a (f : Z -> Z) (get : Z -> Mb Z) n : forall i s, word_reg r -> wf_elem (elem s) -> 0 <= a + i -> a + i + Z.of_nat n <= rsize r ->
  (forall j, i <= j < i + Z.of_nat n -> word_ok (f j)) ->
  (forall j s', i <= j < i + Z.of_nat n -> msg s' = msg s -> get j s' = Ok (f j, s')) ->
  exists s', for_up n i (fun i => v ← get i; wr r (a + i) v) s = Ok (tt, s') /\ stored r a i (Z.of_nat n) f s s'.
Proof.
  induction n as [|n IH]; intros i s Hr W Ha Hn Hf Hg; cbn [for_up].
  { exists s. split; [done|]. split_and!; [done..|]. intros q j. rewrite decide_False by lia. done. }
  unfold mbind at 1, M_bind at 1. rewrite (run_bind _ _ _ _ _ (Hg i s ltac:(lia) eq_refl)), (wr_upd r (a + i) (f i) s W) by lia.
  set (s1 := upd r (a + i) (f i) s).
  destruct (IH (i + 1) s1 Hr) as (s' & E & W' & M & Q & D & C); [by apply upd_wf; [done|lia]|lia|lia|intros; apply Hf; lia| |].
  { intros j s' Hj Hm. apply Hg; [lia|]. by rewrite Hm. }
  exists s'. split; [exact E|]. split_and!; [done..|]. intros q j. rewrite C. unfold s1. rewrite cell_upd by (done || lia).
  assert (rconv r (f i) = f i) as ->.
  { specialize (Hf i ltac:(lia)). unfold word_ok in Hf. destruct Hr as [-> |[-> |[-> |[-> |[-> | ->]]]]]; by apply u16_id. }
  destruct (decide (q = r)) as [->|Hq]; [|by rewrite !decide_False by tauto].
  destruct (decide (j = a + i)) as [->|Hj].
  - rewrite decide_False, !decide_True by lia || (split; [done|lia]). f_equal. lia.
  - destruct (decide (a + i <= j < a + i + Z.of_nat (S n))).
    + rewrite !decide_True by (split; [done|lia]). done.
    + rewrite !decide_False by (intros [_ ?]; lia). done.
Qed.
Definition write_request (id a n : Z) (data : list Z) : list Z :=
  id :: MB_WRITE_MULTIPLE_REGISTERS :: a / 256 :: a mod 256 :: n / 256 :: n mod 256 :: 2 * n :: data.
(** The answer to a write: the head of the request. *)
Lemma echo_run s : has_channel (msg s) -> Forall byte_ok (tx_buf s) -> 8 <= Z.of_nat (length (tx_buf s)) -> 6 <= Z.of_nat (length (rx_buf s)) ->
  Forall byte_ok (take 6 (rx_buf s)) -> exists buf, echo s = Ok (tt, answered (take 6 (rx_buf s)) buf s).
Proof.
  intros Hc F Ht Hr Fr. unfold echo. destruct (copy_request_run 6 0 s) as (l & E & L & J); [lia..|].
  rewrite (run_bind _ _ _ _ _ E). eexists. rewrite answer_run; [|done|rewrite tx_with_tx|lia|rewrite tx_with_tx; lia|lia].
  - rewrite tx_with_tx, answered_with_tx. do 3 f_equal. apply bytes_ext; [rewrite !length_take; lia|].
    rewrite length_take. intros j Hj. rewrite !byte_take, J, decide_True by lia. rewrite <- (byte_take _ 6) by lia. by apply byte_u8.
  - apply bytes_forall. intros j _. rewrite J. case_decide; [apply u8_range|by apply byte_at_ok].
Qed.
Lemma registers_write_run dl ul ct id a n data t e r s :
  request (write_request id a n data) s -> wf_elem (elem s) -> 1 <= n <= MB_MAX_W_WORD_NUM -> Z.of_nat (length data) = 2 * n ->
  mb_slave_convert_element_info MB_WORD_ELEMENT a = Some (t, e) -> word_region_of t e = Some r -> 0 <= e -> e + n <= rsize r ->
  ready 8 s ->
  exists buf s1, mb_slave_msg_handler dl ul ct s = Ok (tt, answered (take 6 (write_request id a n data)) buf s1) /\
    stored r e 0 n (word_at data) s s1.
Proof.
  intros R W Hn Hd Hconv Hr He Hrang [Rc Rb Rr]. unfold MB_MAX_W_WORD_NUM in Hn.
  rewrite (dispatched _ _ R). change (byte_at (write_request _ _ _ _) 1) with MB_WRITE_MULTIPLE_REGISTERS.
  change (mb_slave_function dl ul ct MB_WRITE_MULTIPLE_REGISTERS) with mb_slave_write_multiple_registers.
  unfold mb_slave_write_multiple_registers.
  assert (Lw : Z.of_nat (length (write_request id a n data)) = 7 + 2 * n) by (cbn [write_request length]; lia).
  rewrite (run_bind _ _ _ _ _ (rq_big16 _ _ R 2 ltac:(lia) ltac:(lia))).
  rewrite (run_bind _ _ _ _ _ (rq_big16 _ _ R 4 ltac:(lia) ltac:(lia))).
  rewrite (run_bind _ _ _ _ _ (rq_rx _ _ R 6 ltac:(lia))).
  change (byte_at (write_request id a n data) 2) with (a / 256). change (byte_at (write_request id a n data) (2 + 1)) with (a mod 256).
  change (byte_at (write_request id a n data) 4) with (n / 256). change (byte_at (write_request id a n data) (4 + 1)) with (n mod 256).
  change (byte_at (write_request id a n data) 6) with (2 * n). rewrite !split16.
  assert ((MB_MAX_W_WORD_NUM <? n) || (n <? 1) = false) as -> by (unfold MB_MAX_W_WORD_NUM; lia).
  assert (Z.shiftr (2 * n) 1 = n) as -> by (rewrite Z.shiftr_div_pow2 by lia; change (2 ^ 1) with 2; Z.to_euclidean_division_equations; lia).
  rewrite Z.eqb_refl. cbn [negb]. unfold converted. rewrite Hconv.
  assert (Hreg := word_region_word _ _ _ Hr).
  assert (Fd : Forall byte_ok data) by (pose proof (rq_bytes _ _ R) as F; unfold write_request in F; do 7 (apply Forall_cons in F as [_ F]); exact F).
  destruct (store_loop_run r e (word_at data) (fun i => GET_BIGPU16_DATA (7 + 2 * i)) (Z.to_nat n) 0 s Hreg W) as (s1 & E & S); [lia|lia| | |].
  { intros j Hj. pose proof (byte_at_ok data (2 * j) Fd). pose proof (byte_at_ok data (2 * j + 1) Fd).
    unfold word_at, word_ok, byte_ok in *. lia. }
  { intros j s' Hj Hm. pose proof (byte_at_ok data (2 * j) Fd) as B1. pose proof (byte_at_ok data (2 * j + 1) Fd) as B2.
    assert (Er : rx_buf s' = rx_buf s) by (unfold rx_buf; by rewrite Hm). pose proof (rq_room _ _ R).
    rewrite big16_run, Er by (rewrite ?Er; lia). rewrite !(rq_byte _ _ R) by lia. unfold write_request. rewrite !byte_cons by lia.
    replace (7 + 2 * j - 1 - 1 - 1 - 1 - 1 - 1 - 1) with (2 * j) by lia.
    replace (7 + 2 * j + 1 - 1 - 1 - 1 - 1 - 1 - 1 - 1) with (2 * j + 1) by lia.
    unfold word_at, byte_ok in *. rewrite Z.shiftl_mul_pow2, u16_id by lia. done. }
  rewrite Z2Nat.id in S by lia. pose proof S as (W1 & M & Q & D & C). pose proof (rq_room _ _ R).
  assert (T6 : take 6 (rx_buf s) = take 6 (write_request id a n data)) by (destruct (rq_buf _ _ R) as [rest ->]; reflexivity).
  assert (F6 : Forall byte_ok (take 6 (write_request id a n data))) by apply Forall_take, (rq_bytes _ _ R).
  destruct (echo_run s1) as [buf Ee]; unfold rx_buf, tx_buf in *; rewrite ?M in *; [done|done|lia|lia|by rewrite T6|].
  rewrite T6 in Ee. exists buf, s1. split; [|exact S]. rewrite <- Ee.
  assert (K : forall rang, rsize r = rang -> (if rang <? e + n - 1 then fail_with MB_ILIEGAL_ADDR
    else for_up (Z.to_nat n) 0 (fun i => v ← GET_BIGPU16_DATA (7 + 2 * i); wr r (e + i) v);; echo) s = echo s1).
  { intros rang <-. assert (rsize r <? e + n - 1 = false) as -> by lia. exact (run_bind _ _ _ _ _ E). }
  unfold word_region_of in Hr.
  destruct (Z.eqb_spec t MB_WORD_D); [subst t; injection Hr as <-|destruct (Z.eqb_spec t MB_WORD_SD); [subst t; injection Hr as <-|
    destruct (Z.eqb_spec t MB_WORD_Z); [subst t; injection Hr as <-|destruct (Z.eqb_spec t MB_WORD_T); [subst t; injection Hr as <-|
    destruct (Z.eqb_spec t MB_WORD_C); [subst t; destruct (e <? C16_RANG) eqn:He'; [injection Hr as <-|done]|
    destruct (Z.eqb_spec t MB_WORD_R); [subst t; injection Hr as <-|done]]]]]].
  1-4,6: by apply K.
  change (MB_WORD_C =? MB_WORD_T) with false. change (MB_WORD_C =? MB_WORD_C) with true. cbv iota.
  rewrite <- (K C16_RANG eq_refl). cbn [rsize] in Hrang. unfold C_RANG, C16_RANG in *.
  assert (512 <? e + n - 1 = false) as -> by lia. by assert (200 <? e + n - 1 = false) as -> by lia.
Qed.
Lemma big_bytes_back r e n data s : Forall byte_ok data -> Z.of_nat (length data) = 2 * Z.of_nat n ->
  (forall j, 0 <= j < Z.of_nat n -> cell r (e + j) s = word_at data j) -> big_bytes r e n s = data.
Proof.
  intros F L H. pose proof (big_bytes_length r e n s). apply bytes_ext; [lia|]. intros k Hk.
  rewrite big_bytes_at by lia. unfold big_byte. rewrite H by (Z.to_euclidean_division_equations; lia). unfold word_at.
  pose proof (byte_at_ok data (2 * (k / 2)) F) as B1. pose proof (byte_at_ok data (2 * (k / 2) + 1) F) as B2. unfold byte_ok in *.
  destruct (Z.eqb_spec (k mod 2) 0) as [E|E].
  - rewrite Z.shiftr_div_pow2 by lia. replace (2 * (k / 2)) with k in * by (Z.to_euclidean_division_equations; lia).
    change (2 ^ 8) with 256 in *. rewrite Z.div_add_l, Z.div_small by lia. rewrite Z.add_0_r. by apply u8_id.
  - rewrite Z.shiftr_0_r. replace (2 * (k / 2) + 1) with k in * by (Z.to_euclidean_division_equations; lia).
    unfold u8. change (2 ^ 8) with 256 in *. rewrite Z.add_comm, Z.mod_add by lia. by apply Z.mod_small.
Qed.
(** C24: registers written by one request are read back by another: whatever
    happened to the message in between, if the elements are still those the
    write left, the answer to a read of the same addresses carries the bytes
    that were written. *)
Theorem registers_round_trip dl ul ct id a n data t e r s :
  request (write_request id a n data) s -> wf_elem (elem s) -> 1 <= n <= MB_MAX_W_WORD_NUM -> Z.of_nat (length data) = 2 * n ->
  mb_slave_convert_element_info MB_WORD_ELEMENT a = Some (t, e) -> word_region_of t e = Some r -> 0 <= e -> e + n <= rsize r ->
  ready 8 s ->
  exists s', mb_slave_msg_handler dl ul ct s = Ok (tt, s') /\
    sent s' = sent s ++ delivered (msg s) (frame [id; MB_WRITE_MULTIPLE_REGISTERS; a / 256; a mod 256; n / 256; n mod 256]) /\
    forall id2 s2, base s2 = base s' -> request (read_request id2 MB_READ_HOLDING_REGISTER a n) s2 ->
      mcv_IsBroadcastInfo (msg s2) = 0 -> ready (5 + 2 * n) s2 ->
      exists s3, mb_slave_msg_handler dl ul ct s2 = Ok (tt, s3) /\ base s3 = base s' /\
        sent s3 = sent s2 ++ delivered (msg s2) (frame (id2 :: MB_READ_HOLDING_REGISTER :: 2 * n :: data)).
Proof.
  intros R W Hn Hd Hconv Hr He Hrang Rd.
  assert (Fd : Forall byte_ok data) by (pose proof (rq_bytes _ _ R) as F; unfold write_request in F; do 7 (apply Forall_cons in F as [_ F]); exact F).
  destruct (registers_write_run dl ul ct id a n data t e r s R W Hn Hd Hconv Hr He Hrang Rd) as (buf & s1 & E & W1 & M & Q & _ & C).
  eexists. split; [exact E|]. split; [unfold answered; cbn -[delivered frame]; by rewrite Q, M|].
  intros id2 s2 Hb R2 U2 Rd2. change (base (answered _ _ s1)) with (base s1) in *.
  unfold MB_MAX_W_WORD_NUM in Hn. assert (W2 : wf_elem (elem s2)) by (unfold elem in *; cbn in *; by rewrite Hb).
  destruct (registers_read_run dl ul ct id2 a n t e r s2 R2 U2 W2 ltac:(unfold MB_MAX_R_WORD_NUM; lia) Hconv Hr He Hrang Rd2) as (buf2 & E2).
  eexists. split; [exact E2|]. split; [exact Hb|]. rewrite (big_bytes_back r e (Z.to_nat n) data s2 Fd ltac:(lia)); [done|].
  intros j Hj. assert (cell r (e + j) s2 = cell r (e + j) s1) as -> by (unfold cell, elem; cbn; by rewrite Hb).
  rewrite C, decide_True by (split; [done|lia]). f_equal. lia.
Qed.
(** Two registers written to D100. *)
Lemma registers_round_trip_witness : let s := mb_demo (write_request 1 100 2 [0x12; 0x34; 0xFF; 0]) in
  exists s', mb_slave_msg_handler ub ub ub s = Ok (tt, s') /\
    sent s' = [Resp (frame [1; MB_WRITE_MULTIPLE_REGISTERS; 0; 100; 0; 2])] /\
    forall id2 s2, base s2 = base s' -> request (read_request id2 MB_READ_HOLDING_REGISTER 100 2) s2 ->
      mcv_IsBroadcastInfo (msg s2) = 0 -> ready 9 s2 ->
      exists s3, mb_slave_msg_handler ub ub ub s2 = Ok (tt, s3) /\ base s3 = base s' /\
        sent s3 = sent s2 ++ delivered (msg s2) (frame [id2; MB_READ_HOLDING_REGISTER; 4; 0x12; 0x34; 0xFF; 0]).
Proof.
  apply (registers_round_trip ub ub ub 1 100 2 [0x12; 0x34; 0xFF; 0] MB_WORD_D 100 D_ELEMENT);
    [|apply mb_demo_elem|done..|by apply mb_demo_ready].
  apply mb_demo_request; [cbn; lia|]. repeat constructor; done.
Defined.
