(* ===== verification/MbFrames.v ===== *)
(** * What requests to the MODBUS slave leave alone

    One argument over all handlers: a relation between states that the
    elementary steps respect is respected by every request. Three instances:
    the shape of the element memory is kept; requests that only read leave
    everything but the message alone; whatever is sent is closed by its check
    sum. *)
From stdpp Require Import base list numbers sets.
From S2P Require Import Prelude Bytes Element Machine Verify MbSlave MbFacts.

(** ** The steps *)
(** What handlers do to the message, and how they answer. *)
Class MsgFrame (R : relation mb_st) : Prop := {
  msg_pre :: PreOrder R;
  msg_tx i v :: Respects R (put_tx i v);
  msg_rx i v :: Respects R (put_rx i v);
  msg_diag i f :: Respects R (mod_diag i f);
  msg_answer n :: Respects R (answer n);
  msg_fail e :: Respects R (fail_with e) }.
(** Handlers that store into elements as well. *)
Class StoreFrame (R : relation mb_st) : Prop := {
  store_msg :: MsgFrame R;
  store_wr r i v :: Respects R (wr r i v) }.
#[global] Hint Mode MsgFrame ! : typeclass_instances.
#[global] Hint Mode StoreFrame ! : typeclass_instances.
Create HintDb mb.
#[export] Hint Unfold message rx tx GET_BIGPU16_DATA GET_BIGPU32_DATA copy_request not_broadcast converted bits_response
  read_bits_request put_big16 words_response echo write_word copy_address put_small16 diag_info diag_sum diag_counter diag_echo
  mb_slave_diag_clear_ctrl_diag_reg GET_C32_CURRENT_VALUE SET_C32_CURRENT_VALUE plc_get_bit_element_value plc_set_bit_element_value : mb.
Ltac mb_frame := intros; repeat autounfold with mb; cbv zeta; repeat (apply _ || (intros ?; repeat autounfold with mb)).

Section readers.
Context (R : relation mb_st) `{!MsgFrame R}.
#[global] Instance pack_bits_frame after n : forall r a p k m, Respects R (pack_bits after n r a p k m).
Proof. induction n as [|n IH]; intros; cbn [pack_bits]; mb_frame. Qed.
#[global] Instance bits_request_frame k : (forall t a c, Respects R (k t a c)) -> Respects R (read_bits_request k).
Proof. mb_frame. Qed.
#[global] Instance coils_frame : Respects R mb_slave_read_coils_status.
Proof. unfold mb_slave_read_coils_status. apply bits_request_frame. mb_frame. Qed.
#[global] Instance inputs_frame : Respects R mb_slave_read_descrete_input_status.
Proof. unfold mb_slave_read_descrete_input_status. apply bits_request_frame. mb_frame. Qed.
#[global] Instance registers_frame : Respects R mb_slave_read_holding_register.
Proof. unfold mb_slave_read_holding_register. mb_frame. Qed.
#[global] Instance each_frame n body finish : (forall i k, Respects R k -> Respects R (body i k)) -> Respects R finish ->
  forall i, Respects R (each n i body finish).
Proof. intros Hb Hf. induction n as [|n IH]; intros i; cbn [each]; [done|]. by apply Hb. Qed.
#[global] Instance bulk_bits_frame : Respects R mb_slave_read_multiple_bit_element.
Proof.
  unfold mb_slave_read_multiple_bit_element. repeat autounfold with mb. apply respects_bind; [apply _..|intros m].
  apply respects_if; [apply _..|]. apply respects_bind; [apply _..|intros c]. apply respects_if; [apply _..|].
  apply each_frame; [|mb_frame]. intros i k Hk. mb_frame.
Qed.
#[global] Instance read_words_frame finish fuel : Respects R finish -> forall cnt i, Respects R (read_words fuel cnt i finish).
Proof. intros Hf. induction fuel as [|f IH]; intros; cbn [read_words]; mb_frame. Qed.
#[global] Instance bulk_words_frame : Respects R mb_slave_read_multiple_word_element.
Proof. unfold mb_slave_read_multiple_word_element. mb_frame. Qed.
#[global] Instance diagnostic_frame : Respects R mb_slave_diagnostic_func.
Proof. unfold mb_slave_diagnostic_func. mb_frame. Qed.
End readers.

Section writers.
Context (R : relation mb_st) `{!StoreFrame R}.
#[global] Instance coil_frame : Respects R mb_slave_write_single_coil.
Proof. unfold mb_slave_write_single_coil. mb_frame. Qed.
#[global] Instance register_frame : Respects R mb_slave_write_register.
Proof. unfold mb_slave_write_register. mb_frame. Qed.
#[global] Instance coil_bits_frame r a v n : forall j left, Respects R (coil_bits n r a v j left).
Proof. induction n as [|n IH]; intros; cbn [coil_bits]; mb_frame. Qed.
#[global] Instance coil_bytes_frame r a n : forall i left, Respects R (coil_bytes n r a i left).
Proof. induction n as [|n IH]; intros; cbn [coil_bytes]; mb_frame. Qed.
#[global] Instance coils_write_frame : Respects R mb_slave_write_multiple_coils.
Proof. unfold mb_slave_write_multiple_coils. mb_frame. Qed.
#[global] Instance registers_write_frame : Respects R mb_slave_write_multiple_registers.
Proof. unfold mb_slave_write_multiple_registers. mb_frame. Qed.
#[global] Instance bulk_bits_write_frame : Respects R mb_slave_write_multiple_bit_element.
Proof.
  unfold mb_slave_write_multiple_bit_element. repeat autounfold with mb. apply respects_bind; [apply _..|intros m].
  apply respects_if; [apply _..|]. apply respects_bind; [apply _..|intros c]. apply respects_if; [apply _..|].
  apply each_frame; [|mb_frame]. intros i k Hk. mb_frame.
Qed.
#[global] Instance write_words_frame finish fuel : Respects R finish -> forall cnt i, Respects R (write_words fuel cnt i finish).
Proof. intros Hf. induction fuel as [|f IH]; intros; cbn [write_words]; mb_frame. Qed.
#[global] Instance bulk_words_write_frame : Respects R mb_slave_write_multiple_word_element.
Proof. unfold mb_slave_write_multiple_word_element. mb_frame. Qed.
(** Every request. *)
Lemma handler_frame dl ul ct : Respects R dl -> Respects R ul -> Respects R ct -> Respects R (mb_slave_msg_handler dl ul ct).
Proof. intros H1 H2 H3. unfold mb_slave_msg_handler, mb_slave_function, check_sum. mb_frame. Qed.
End writers.

(** ** The shape of the memory *)
(** A relation that only looks at the element memory and the rest of the
    controller is respected by what works on the message. *)
Class BaseOnly (R : relation mb_st) : Prop := {
  base_pre :: PreOrder R;
  base_same s s' : base s' = base s -> R s s' }.
#[global] Hint Mode BaseOnly ! : typeclass_instances.
Section base.
Context (R : relation mb_st) `{!BaseOnly R}.
Lemma modify_base f : (forall s, base (f s) = base s) -> Respects R (modify f).
Proof. intros H. apply respects_modify. intros s. by apply base_same. Qed.
#[local] Hint Extern 1 (Respects R (modify _)) => (apply modify_base; done) : typeclass_instances.
#[local] Hint Extern 1 (Respects R (mod_msg _)) => (apply modify_base; done) : typeclass_instances.
#[global] Instance base_msg : MsgFrame R.
Proof.
  assert (P : forall i v, Respects R (put_tx i v)) by (unfold put_tx, message; respects_solve).
  assert (H : Respects R hand_over) by (unfold hand_over, message; cbv zeta; respects_solve).
  split; [apply _|done|unfold put_rx, message; respects_solve|unfold mod_diag, diag_info; respects_solve|..].
  - intros n. unfold answer, mb_slave_verify_resp_msg, message, check_sum. do 6 (apply respects_bind; [apply _..|intros ?]). apply _.
  - assert (X : forall i, Respects R (rx i)) by (unfold rx, message; respects_solve).
    intros e. unfold fail_with, mb_slave_error_resp, message, check_sum. do 2 (apply respects_bind; [apply _..|intros ?]).
    apply respects_if; [apply _..|]. do 6 (apply respects_bind; [apply _..|intros ?]). apply _.
Qed.
End base.
#[global] Instance same_base : BaseOnly (same base).
Proof. split; [apply _|]. by intros s s' E. Qed.
#[global] Instance wf_mem_base : BaseOnly (wf_mem (S := mb_st)).
Proof. split; [apply _|]. intros s s' E W. unfold elem in *. cbn in *. by rewrite E. Qed.
#[global] Instance wf_mem_store : StoreFrame (wf_mem (S := mb_st)).
Proof. split; apply _. Qed.

(** No request, whatever its bytes, breaks the shape of the element
    memory: the arrays keep their lengths and every element stays within its
    width. *)
Theorem requests_keep_memory dl ul ct s s' : Respects wf_mem dl -> Respects wf_mem ul -> Respects wf_mem ct ->
  mb_slave_msg_handler dl ul ct s = Ok (tt, s') -> wf_elem (elem s) -> wf_elem (elem s').
Proof. intros H1 H2 H3 E. exact (handler_frame wf_mem dl ul ct H1 H2 H3 s tt s' E). Qed.
(** Two registers written to D100. *)
Definition write_demo : mb_st := mb_demo (write_request 1 100 2 [0x12; 0x34; 0xFF; 0]).
Lemma write_demo_run dl ul ct : exists s', mb_slave_msg_handler dl ul ct write_demo = Ok (tt, s') /\ cell D_ELEMENT 100 s' = 0x1234.
Proof.
  destruct (registers_write_run dl ul ct 1 100 2 [0x12; 0x34; 0xFF; 0] MB_WORD_D 100 D_ELEMENT write_demo) as (buf & s1 & E & _ & _ & _ & _ & C);
    [|apply mb_demo_elem|done..|by apply mb_demo_ready|].
  - apply mb_demo_request; [cbn; lia|]. repeat constructor; done.
  - eexists. split; [exact E|]. exact (C D_ELEMENT 100).
Qed.
Lemma requests_keep_memory_witness : exists s', mb_slave_msg_handler (mret tt) (mret tt) (mret tt) write_demo = Ok (tt, s') /\ wf_elem (elem s').
Proof.
  destruct (write_demo_run (mret tt) (mret tt) (mret tt)) as (s' & E & _). exists s'. split; [exact E|].
  exact (requests_keep_memory _ _ _ _ _ (respects_ret _ tt) (respects_ret _ tt) (respects_ret _ tt) E wf_elem0).
Defined.

(** ** Only writes change anything *)
Definition write_functions : list Z :=
  [MB_WRITE_SINGLE_COIL; MB_WRITE_REGISTER; MB_WRITE_MULTIPLE_COILS; MB_WRITE_MULTIPLE_REGISTERS; MB_WRITE_MULTIPLE_BIT_ELEMENT;
   MB_WRITE_MULTIPLE_WORD_ELEMENT; MB_DOWNLOWD_FUNC; MB_UPLOAD_FUNC; MB_CTRL_FUNC].
Lemma reader_frame R `{!MsgFrame R} dl ul ct f : f ∉ write_functions -> Respects R (mb_slave_function dl ul ct f).
Proof.
  intros Hf. unfold mb_slave_function, write_functions in *. rewrite !not_elem_of_cons in Hf.
  repeat match goal with |- Respects _ (if _ =? ?c then _ else _) => destruct (Z.eqb_spec f c); [first [tauto|apply _]|] end.
  unfold message. apply _.
Qed.
Lemma rx_inv i s v s' : rx i s = Ok (v, s') -> s' = s /\ zlookup (rx_buf s) i = Some v.
Proof.
  intros E. unfold rx, message, gets in E. unfold mbind, M_bind, of_option, rx_buf in *.
  destruct (zlookup _ _) eqn:L; [|done]. by injection E as -> ->.
Qed.
Lemma diag_info_inv i s d s' : diag_info i s = Ok (d, s') -> s' = s /\ zlookup (gtp_ModbusSlaveDiagInfo s) i = Some d.
Proof.
  intros E. unfold diag_info, get_st in E. unfold mbind, M_bind, of_option in *.
  destruct (zlookup _ _) eqn:L; [|done]. by injection E as -> ->.
Qed.
(** C26: the controller changes only on an intact request to write: when
    handling a frame leaves anything but the message different, the frame has
    at least five bytes, ends in its check sum and names a function that
    writes. *)
Theorem only_writes_change dl ul ct s s' : mb_slave_msg_handler dl ul ct s = Ok (tt, s') -> base s' <> base s ->
  let n := msv_ReceiveLen (msg s) in
  5 <= n /\
  (exists lo hi, zlookup (rx_buf s) (n - 2) = Some lo /\ zlookup (rx_buf s) (n - 1) = Some hi /\
     calc_crc16 (rx_buf s) (n - 2) = Some (lo + Z.shiftl hi 8)) /\
  (exists f, zlookup (rx_buf s) 1 = Some f /\ f ∈ write_functions).
Proof.
  intros E Hb n. unfold mb_slave_msg_handler in E. apply bind_inv in E as (m & s0 & [= <- <-] & E). fold n in E.
  destruct (Z.ltb_spec n 5) as [|Hn]; [by injection E as <-|]. split; [lia|].
  apply bind_inv in E as (lo & s1 & E1 & E). apply rx_inv in E1 as [-> Hlo].
  apply bind_inv in E as (hi & s1 & E1 & E). apply rx_inv in E1 as [-> Hhi].
  apply bind_inv in E as (crc & s1 & E1 & E). unfold check_sum, of_option in E1. fold (rx_buf s) in E1.
  destruct (calc_crc16 (rx_buf s) (n - 2)) as [c|] eqn:Hc; [injection E1 as -> <-|done].
  destruct (Z.eqb_spec (lo + Z.shiftl hi 8) crc) as [<-|]; cbn [negb] in E.
  2: { destruct Hb. refine (_ : same base s s'). revert E. apply respects_bind; apply _. }
  split; [by exists lo, hi|].
  apply bind_inv in E as (d & s1 & E1 & E). apply diag_info_inv in E1 as [-> _].
  apply bind_inv in E as (f & s1 & E1 & E). apply rx_inv in E1 as [-> Hf]. exists f. split; [done|].
  apply bind_inv in E as (c & s1 & E1 & E). apply rx_inv in E1 as [-> Hc3].
  destruct (truthy _ && _ && _); [by injection E as <-|].
  destruct (decide (f ∈ write_functions)) as [|Hw]; [done|]. destruct Hb.
  exact (reader_frame (same base) dl ul ct f Hw s tt s' E).
Qed.
Lemma only_writes_change_witness : exists s', mb_slave_msg_handler ub ub ub write_demo = Ok (tt, s') /\ base s' <> base write_demo /\
  5 <= msv_ReceiveLen (msg write_demo).
Proof.
  destruct (write_demo_run ub ub ub) as (s' & E & C). exists s'. split; [exact E|].
  assert (H : base s' <> base write_demo).
  { intros Hb. assert (K : cell D_ELEMENT 100 write_demo = 0x1234) by (rewrite <- C; unfold cell, elem; cbn; by rewrite Hb). discriminate K. }
  split; [exact H|]. exact (proj1 (only_writes_change ub ub ub write_demo s' E H)).
Defined.

(** ** Answers are closed *)
Definition closed_reply (r : reply) : Prop :=
  match r with Resp l => exists body, l = frame body | TcpResp l _ => exists body, l = frame body end.
(** The answer buffer stays a buffer of bytes, and what is sent is closed. *)
Definition closes : relation mb_st := fun s s' =>
  Forall byte_ok (tx_buf s) -> Z.of_nat (length (tx_buf s)) < 2 ^ 16 ->
  Forall byte_ok (tx_buf s') /\ length (tx_buf s') = length (tx_buf s) /\ exists l, sent s' = sent s ++ l /\ Forall closed_reply l.
#[global] Instance closes_preorder : PreOrder closes.
Proof.
  split.
  - intros s F L. split_and!; [done..|]. exists []. by rewrite app_nil_r.
  - intros s s1 s2 H1 H2 F L. destruct (H1 F L) as (F1 & L1 & l1 & E1 & C1). destruct (H2 F1 ltac:(lia)) as (F2 & L2 & l2 & E2 & C2).
    split_and!; [done|lia|]. exists (l1 ++ l2). rewrite E2, E1, app_assoc. split; [done|]. by apply Forall_app.
Qed.
Lemma closes_same s s' : tx_buf s' = tx_buf s -> sent s' = sent s -> closes s s'.
Proof. intros E1 E2 F L. rewrite E1, E2. split_and!; [done..|]. exists []. by rewrite app_nil_r. Qed.
Lemma delivered_closed m body : Forall closed_reply (delivered m (frame body)).
Proof. unfold delivered. repeat case_match; repeat constructor; by exists body. Qed.
(** An answer that goes out has room and a channel. *)
Lemma hand_over_inv s s' : hand_over s = Ok (tt, s') -> has_channel (msg s).
Proof.
  intros E Hs. unfold hand_over, message, gets, mbind, M_bind in E. rewrite Hs, Z.eqb_refl in E. by destruct (resp_func (msg s)).
Qed.
Lemma put_tx_inv i v s s' : put_tx i v s = Ok (tt, s') ->
  0 <= i < Z.of_nat (length (tx_buf s)) /\ s' = with_tx (<[Z.to_nat i := u8 v]> (tx_buf s)) s.
Proof.
  intros E. unfold put_tx, message, gets, mbind, M_bind, of_option in E. fold (tx_buf s) in E.
  destruct (zupdate _ _ _) as [l|] eqn:U; [|done]. injection E as <-. by apply zupdate_Some in U as [H ->].
Qed.
Lemma check_sum_inv l n s c s' : check_sum l n s = Ok (c, s') -> s' = s.
Proof. unfold check_sum, of_option. destruct (calc_crc16 l n); [by intros [= _ <-]|done]. Qed.
Ltac mb_inv E := let H := fresh "H" in
  apply bind_inv in E as (? & ? & H & E);
  first [injection H as <- <-|apply rx_inv in H as [-> H]|apply check_sum_inv in H as ->|
    match type of H with put_tx _ _ _ = Ok (?u, _) => destruct u; apply put_tx_inv in H as [H ->] end].
Lemma answer_inv n s s' : answer n s = Ok (tt, s') -> has_channel (msg s) /\ u16 n + 2 <= Z.of_nat (length (tx_buf s)).
Proof.
  intros E. unfold answer, mb_slave_verify_resp_msg in E. do 4 mb_inv E. mb_inv E. mb_inv E. apply hand_over_inv in E.
  split; [exact E|]. rewrite tx_with_tx, length_insert in *.
  match goal with H : 0 <= msv_RespLen _ + 1 < _ |- _ => change (0 <= u16 n + 1 < Z.of_nat (length (tx_buf s))) in H; lia end.
Qed.
Lemma fail_inv e s s' : mcv_IsBroadcastInfo (msg s) = 0 -> fail_with e s = Ok (tt, s') ->
  has_channel (msg s) /\ 5 <= Z.of_nat (length (tx_buf s)) /\ 2 <= Z.of_nat (length (rx_buf s)).
Proof.
  intros Hb E. unfold fail_with, mb_slave_error_resp in E. do 2 mb_inv E.
  assert (truthy (mcv_IsBroadcastInfo (with_ErrorCode e (msg s))) = false) as K by (cbn; by rewrite Hb). rewrite K in E. clear K.
  do 8 mb_inv E. mb_inv E. mb_inv E. apply hand_over_inv in E. split; [exact E|].
  rewrite ?tx_with_tx, ?length_insert in *. change (rx_buf (with_tx _ _)) with (rx_buf s) in *.
  repeat match goal with H : zlookup _ _ = Some _ |- _ => apply mk_is_Some, zlookup_is_Some in H end.
  cbn in *. unfold rx_buf, tx_buf in *. lia.
Qed.
Lemma frame_length body : length (frame body) = (length body + 2)%nat.
Proof. unfold frame. rewrite length_app. done. Qed.
Lemma frame_bytes body : Forall byte_ok body -> Forall byte_ok (frame body).
Proof. intros F. apply Forall_app. split; [done|]. repeat constructor; apply u8_range. Qed.
Lemma answered_closes body t s s0 : tx_buf s0 = tx_buf s -> sent s0 = sent s -> msg s0 = msg s \/ True ->
  (Forall byte_ok (tx_buf s) -> Forall byte_ok body /\ Forall byte_ok t) ->
  (length body + 2 + length t = length (tx_buf s))%nat -> closes s (answered body t s0).
Proof.
  intros E1 E2 _ F L Fs Ls. destruct (F Fs) as [F1 F2].
  change (tx_buf (answered body t s0)) with (frame body ++ t).
  split_and!; [apply Forall_app; split; [by apply frame_bytes|done]|rewrite length_app, frame_length; lia|].
  exists (delivered (msg s0) (frame body)). split; [by cbn; rewrite E2|apply delivered_closed].
Qed.
#[global] Instance closes_msg : MsgFrame closes.
Proof.
  split; [apply _|..].
  - intros i v s [] s' E. apply put_tx_inv in E as [Hi ->]. intros F L. rewrite tx_with_tx, length_insert.
    split_and!; [apply Forall_insert; [done|apply u8_range]|done|]. exists []. by rewrite app_nil_r.
  - intros i v s [] s' E. unfold put_rx, message, gets, mbind, M_bind, of_option in E. destruct (zupdate _ _ _); [|done].
    injection E as <-. by apply closes_same.
  - intros i f s [] s' E. unfold mod_diag, get_st in E. mb_inv E. apply bind_inv in E as (d & ? & H & E). apply diag_info_inv in H as [-> _].
    unfold mbind, M_bind, of_option in E. destruct (zupdate _ _ _); [|done]. injection E as <-. by apply closes_same.
  - intros n s [] s' E F L. destruct (answer_inv _ _ _ E) as [Hc Hn]. pose proof (u16_range n) as Hu.
    assert (En : answer n = answer (u16 n)) by (unfold answer; by rewrite (u16_id (u16 n))).
    rewrite En, answer_run in E by (done || lia). injection E as <-. revert F L. apply answered_closes; [done..|by right| |].
    + intros F. split; [by apply Forall_take|by apply Forall_drop].
    + rewrite length_take, length_drop. lia.
  - intros e s [] s' E F L. destruct (decide (mcv_IsBroadcastInfo (msg s) = 0)) as [Hb|Hb].
    + destruct (fail_inv _ _ _ Hb E) as (Hc & Ht & Hr). rewrite fail_run in E by done. injection E as <-. revert F L.
      apply answered_closes; [done..|by right| |].
      * intros F. split; [apply exception_bytes|by apply Forall_drop].
      * rewrite length_drop. cbn. lia.
    + rewrite fail_broadcast in E by done. injection E as <-. revert F L. by apply closes_same.
Qed.
#[global] Instance closes_store : StoreFrame closes.
Proof.
  split; [apply _|]. intros r i v s [] s' E. unfold wr in E. destruct (zupdate _ _ _); [|done]. injection E as <-. by apply closes_same.
Qed.
