(* ===== verification/Flash.v ===== *)
(** * The flash memory

    Models board/bsp_1062/bsp_flash.c: the partitions of the flash, the
    erasing and writing of one, and the six variables kept in sectors of their
    own, where each new value is written behind the last one and the sector is
    erased when it is full. The two commands of the chip, which
    mflash_drv.c sends it, are the interface [NorFlash]; what the code relies
    on about them, and the comments of bsp_flash.c say, are its laws
    [NorLaws]. Reading is through the address space, from [FlexSPI_AMBA_BASE]
    on. *)
From stdpp Require Import base list numbers.
From S2P Require Import Prelude Bytes.

(** ** The chip *)
Definition kStatus_Success := 0.
Definition MFLASH_SECTOR_SIZE := 0x1000.
Definition MFLASH_PAGE_SIZE := 256.
(** A byte at an offset; the commands that erase the sector at an offset and
    that program bytes from an offset on, with the status of the transfer. *)
Class NorFlash (F : Type) := {
  peek : F -> Z -> Z;
  sector_erase : Z -> F -> Z * F;
  page_program : Z -> list Z -> F -> Z * F }.
(** Transfers succeed. Erasing sets the bytes of the sector to 0xFF and no
    others. Programming within one page can only clear bits. *)
Class NorLaws (F : Type) `{!NorFlash F} : Prop := {
  peek_ok f x : byte_ok (peek f x);
  erase_status a f : (sector_erase a f).1 = kStatus_Success;
  program_status a l f : (page_program a l f).1 = kStatus_Success;
  peek_erase a f x : a mod MFLASH_SECTOR_SIZE = 0 ->
    peek (sector_erase a f).2 x = if decide (a <= x < a + MFLASH_SECTOR_SIZE) then 0xFF else peek f x;
  peek_program a l f x : a mod MFLASH_PAGE_SIZE + Z.of_nat (length l) <= MFLASH_PAGE_SIZE -> Forall byte_ok l ->
    peek (page_program a l f).2 x =
      if decide (a <= x < a + Z.of_nat (length l)) then Z.land (peek f x) (byte_at l (x - a)) else peek f x }.

(** ** State: the chip, the six write positions, and [gTouChuan] *)
Record flash_st (F : Type) := {
  nor : F;
  cur_offset : list Z;
  gTouChuan : Z }.
Arguments nor {F} f.
Arguments cur_offset {F} f.
Arguments gTouChuan {F} f.
Definition with_nor {F} (f : F) (s : flash_st F) : flash_st F := {| nor := f; cur_offset := cur_offset s; gTouChuan := gTouChuan s |}.
Definition with_offsets {F} (l : list Z) (s : flash_st F) : flash_st F := {| nor := nor s; cur_offset := l; gTouChuan := gTouChuan s |}.
Definition with_TouChuan {F} (v : Z) (s : flash_st F) : flash_st F := {| nor := nor s; cur_offset := cur_offset s; gTouChuan := v |}.

Definition MEM_OK := 0.
Definition MEM_ADDR_ERR := 1.
Definition MAX_FLASH_PAGE_NUM := 24.
Definition FlexSPI_AMBA_BASE := 0x60000000.
Definition SECTOR_SIZE := MFLASH_SECTOR_SIZE.
Definition FLASH_PAGE_SIZE := MFLASH_PAGE_SIZE.

(** ** Partitions: sector number, first and last address *)
Record flash_part_info_t := { pageNum : Z; startAddr : Z; endAddr : Z }.
Definition part (n a b : Z) : flash_part_info_t := {| pageNum := n; startAddr := a; endAddr := b |}.
Definition flash_page_info : list flash_part_info_t := [
  part 0x00 0x60100000 0x60103FFF; part 0x08 0x60104000 0x60107FFF; part 0x10 0x60108000 0x6010BFFF;
  part 0x18 0x6010C000 0x6010CFFF; part 0x20 0x60110000 0x6011FFFF; part 0x28 0x60120000 0x6013FFFF;
  part 0x30 0x60140000 0x6015FFFF; part 0x38 0x60160000 0x6017FFFF; part 0x40 0x60180000 0x6019FFFF;
  part 0x48 0x601A0000 0x601BFFFF; part 0x50 0x601C0000 0x601DFFFF; part 0x58 0x601E0000 0x601FFFFF;
  part 0x80 0x60200000 0x60200FFF; part 0x88 0x601A0000 0x601AFFFF; part 0x90 0x60208000 0x6020BFFF;
  part 0x98 0x6020C000 0x6020FFFF; part 0xA0 0x60210000 0x6021FFFF; part 0xA8 0x60220000 0x6023FFFF;
  part 0xB0 0x60240000 0x6025FFFF; part 0xB8 0x60260000 0x6027FFFF; part 0xC0 0x60280000 0x6029FFFF;
  part 0xC8 0x602A0000 0x602BFFFF; part 0xD0 0x602FE000 0x602FEFFF; part 0xD8 0x602FF000 0x602FFFFF].
(** [None] is the null pointer. *)
Definition bsp_get_flash_info (page : Z) : option flash_part_info_t :=
  if page <? MAX_FLASH_PAGE_NUM then zlookup flash_page_info page else None.

(** ** Variables in sectors of their own *)
Definition PARAMETER_BASE_ADDRESS := 0x60300000.
Definition PARAMETER_SECTOR_SIZE := 0x1000.
Definition PARAMETER_MAGIC := 0xABABABAB.
(** The constants of one variable; [MAGIC_HEAD]: each value has the magic word
    before it, so that 0xFFFFFFFF can be stored too. *)
Record block_log := { SECTOR_ID : Z; BLOCK_SIZE : Z; BLOCK_NUMBERS : Z; MAGIC_HEAD : bool }.
#[global] Instance block_log_eq_dec : EqDecision block_log.
Proof. solve_decision. Defined.
Definition word_log (id : Z) : block_log := {| SECTOR_ID := id; BLOCK_SIZE := 4; BLOCK_NUMBERS := 1024; MAGIC_HEAD := false |}.
Definition IMAGE_IDX : block_log := {| SECTOR_ID := 0; BLOCK_SIZE := 8; BLOCK_NUMBERS := 512; MAGIC_HEAD := true |}.
Definition IMAGE_ID : block_log := word_log 1.
Definition SECOND_TICK : block_log := word_log 2.
Definition BOOT_TIME : block_log := word_log 3.
Definition IMAGE_1 : block_log := word_log 4.
Definition TOUCHUAN : block_log := word_log 5.
Definition block_logs : list block_log := [IMAGE_IDX; IMAGE_ID; SECOND_TICK; BOOT_TIME; IMAGE_1; TOUCHUAN].

Section flash.
Context {F S : Type} `{!NorFlash F} `{!Sub (flash_st F) S}.
Definition fl (s : S) : flash_st F := sget s.
Definition mod_fl (g : flash_st F -> flash_st F) : M S unit := modify (fun s => sset (g (fl s)) s).

(** ** Reading *)
Definition mem_byte (s : S) (addr : Z) : Z := peek (nor (fl s)) (addr - FlexSPI_AMBA_BASE).
Definition mem_bytes (s : S) (addr n : Z) : list Z := (fun i => mem_byte s (addr + i)) <$> seqZ 0 n.
Definition mem_u16 (s : S) (addr : Z) : Z := le_value (mem_bytes s addr 2).
Definition mem_u32 (s : S) (addr : Z) : Z := le_value (mem_bytes s addr 4).

(** ** The driver (mflash_drv.c) *)
Definition erase_command (a : Z) : M S Z := fun s =>
  let '(st, f) := sector_erase a (nor (fl s)) in Ok (st, sset (with_nor f (fl s)) s).
Definition program_command (a : Z) (l : list Z) : M S Z := fun s =>
  let '(st, f) := page_program a l (nor (fl s)) in Ok (st, sset (with_nor f (fl s)) s).
Definition mflash_drv_erase_sector (sector_addr : Z) : M S Z :=
  if negb (Z.land sector_addr (MFLASH_SECTOR_SIZE - 1) =? 0) then mret (-1)
  else st ← erase_command sector_addr; mret (if st =? kStatus_Success then 0 else -1).
(** [size] bytes of [data] from [i] on; a size of 0 stands for a whole page. *)
Definition mflash_drv_write_page_internal (page_addr : Z) (data : list Z) (i size : Z) : M S Z :=
  l ← of_option (bytes_from data i (if size =? 0 then MFLASH_PAGE_SIZE else size));
  st ← program_command page_addr l; mret (if st =? kStatus_Success then 0 else -1).
Definition mflash_drv_write_page (page_addr : Z) (data : list Z) (i : Z) : M S Z :=
  if negb (Z.land page_addr (MFLASH_PAGE_SIZE - 1) =? 0) then mret (-1)
  else mflash_drv_write_page_internal page_addr data i 0.
Definition mflash_drv_write_page_bytes (page_addr : Z) (data : list Z) (i size : Z) : M S Z :=
  mflash_drv_write_page_internal page_addr data i size.

(** ** Erasing and writing *)
Definition erase_next (startAddr partSize erasedSize : Z) : M S (Z + Z) :=
  status ← mflash_drv_erase_sector (u32 (startAddr + erasedSize));
  if negb (status =? 0) then mret (inr MEM_ADDR_ERR)
  else
    let erasedSize := u32 (erasedSize + SECTOR_SIZE) in
    mret (if partSize <=? erasedSize then inr MEM_OK else inl erasedSize).
Definition bsp_flash_erase_partition (start partSize : Z) : M S Z :=
  loop (Z.to_nat (partSize / SECTOR_SIZE + 2)) (erase_next (u32 (start - FlexSPI_AMBA_BASE)) partSize) 0.

Definition write_result (status : Z) : Z := if status =? kStatus_Success then MEM_OK else MEM_ADDR_ERR.
(** The address, the place in the buffer, and the bytes left. *)
Definition write_next (pBuff : list Z) (x : Z * Z * Z) : M S (Z * Z * Z + Z) :=
  let '(curAddr, i, progSizeLeft) := x in
  status ← mflash_drv_write_page curAddr pBuff i;
  if negb (status =? kStatus_Success) then mret (inr MEM_ADDR_ERR)
  else
    let curAddr := u32 (curAddr + FLASH_PAGE_SIZE) in
    let i := i + FLASH_PAGE_SIZE in
    let progSizeLeft := progSizeLeft - FLASH_PAGE_SIZE in
    if progSizeLeft <=? FLASH_PAGE_SIZE then
      status ← mflash_drv_write_page_bytes curAddr pBuff i progSizeLeft; mret (inr (write_result status))
    else mret (inl (curAddr, i, progSizeLeft)).
Definition bsp_flash_write_buffer (start : Z) (pBuff : list Z) (size : Z) : M S Z :=
  let startAddr := u32 (start - FlexSPI_AMBA_BASE) in
  if size <=? FLASH_PAGE_SIZE then
    status ← mflash_drv_write_page_bytes startAddr pBuff 0 size; mret (write_result status)
  else loop (Z.to_nat (size / FLASH_PAGE_SIZE + 2)) (write_next pBuff) (startAddr, 0, size).

(** ** Variables *)
Definition get_addr (sectorID offset : Z) : Z := u32 (PARAMETER_BASE_ADDRESS + PARAMETER_SECTOR_SIZE * sectorID + offset).
Definition offset_of (L : block_log) : M S Z := l ← gets (fun s => cur_offset (fl s)); of_option (zlookup l (SECTOR_ID L)).
Definition set_offset (L : block_log) (v : Z) : M S unit :=
  l ← gets (fun s => cur_offset (fl s)); l' ← of_option (zupdate l (SECTOR_ID L) (u32 v)); mod_fl (with_offsets l').
(** The last value written. *)
Definition get_block (L : block_log) : M S Z :=
  cur ← offset_of L;
  let offset := if cur =? 0 then cur else u32 (cur - BLOCK_SIZE L) in
  gets (fun s => mem_u32 s (get_addr (SECTOR_ID L) offset + if MAGIC_HEAD L then 4 else 0)).
Definition block_bytes (L : block_log) (v : Z) : list Z :=
  (if MAGIC_HEAD L then le_bytes 4 PARAMETER_MAGIC else []) ++ le_bytes 4 v.
(** Writes behind the last value, or to the start of the erased sector. *)
Definition save_block (L : block_log) (v : Z) : M S unit :=
  cur ← offset_of L;
  when (PARAMETER_SECTOR_SIZE <=? u32 (cur + BLOCK_SIZE L)) (
    set_offset L 0;;
    bsp_flash_erase_partition (PARAMETER_BASE_ADDRESS + SECTOR_ID L * PARAMETER_SECTOR_SIZE) PARAMETER_SECTOR_SIZE;; mret tt);;
  cur ← offset_of L;
  bsp_flash_write_buffer (get_addr (SECTOR_ID L) cur) (block_bytes L v) (BLOCK_SIZE L);;
  set_offset L (cur + BLOCK_SIZE L).
(** The number of blocks in use, found after a restart. *)
Definition block_free (L : block_log) (w : Z) : bool :=
  if MAGIC_HEAD L then negb (w =? PARAMETER_MAGIC) else w =? 0xFFFFFFFF.
Fixpoint count_blocks (s : S) (L : block_log) (n : nat) (i : Z) : Z :=
  match n with
  | O => i
  | Datatypes.S n =>
      if block_free L (mem_u32 s (PARAMETER_BASE_ADDRESS + SECTOR_ID L * PARAMETER_SECTOR_SIZE + i * BLOCK_SIZE L)) then i
      else count_blocks s L n (i + 1)
  end.
Definition init_block (L : block_log) : M S unit :=
  i ← gets (fun s => count_blocks s L (Z.to_nat (BLOCK_NUMBERS L)) 0); set_offset L (i * BLOCK_SIZE L).

Definition bsp_get_image_idx : M S Z := get_block IMAGE_IDX.
Definition bsp_save_image_idx : Z -> M S unit := save_block IMAGE_IDX.
Definition init_image_idx : M S unit := init_block IMAGE_IDX.
Definition bsp_get_imageID : M S Z := get_block IMAGE_ID.
Definition bsp_save_imageID : Z -> M S unit := save_block IMAGE_ID.
Definition bsp_imageID_plus_one : M S unit := imageID ← bsp_get_imageID; bsp_save_imageID (u32 (imageID + 1)).
Definition init_imageID : M S unit := init_block IMAGE_ID.
Definition bsp_get_KalykeSecondTick : M S Z := get_block SECOND_TICK.
Definition bsp_save_KalykeSecondTick : Z -> M S unit := save_block SECOND_TICK.
Definition init_KalykeSecondTick : M S unit := init_block SECOND_TICK.
Definition bsp_get_BootTime : M S Z := get_block BOOT_TIME.
Definition bsp_save_BootTime : Z -> M S unit := save_block BOOT_TIME.
Definition init_BootTime : M S unit := init_block BOOT_TIME.
Definition bsp_get_Image1IfReset : M S Z := get_block IMAGE_1.
Definition bsp_save_Image1IfReset : Z -> M S unit := save_block IMAGE_1.
Definition init_Image1IfReset : M S unit := init_block IMAGE_1.
Definition bsp_get_TouChuan : M S Z := get_block TOUCHUAN.
Definition bsp_save_TouChuan : Z -> M S unit := save_block TOUCHUAN.
Definition init_TouChuan : M S unit := init_block TOUCHUAN;; v ← bsp_get_TouChuan; mod_fl (with_TouChuan v).
Definition parameter_init : M S unit :=
  init_image_idx;; init_imageID;; init_KalykeSecondTick;; init_BootTime;; init_Image1IfReset;; init_TouChuan.

(** What happens to the variables: a save, or a restart, which forgets the
    write positions and finds them again. *)
Inductive variable_event : Set := Save (L : block_log) (v : Z) | Restart.
Definition on_event (e : variable_event) : M S unit :=
  match e with
  | Save L v => save_block L v
  | Restart => mod_fl (with_offsets (replicate 6 0));; parameter_init
  end.
Fixpoint on_events (es : list variable_event) : M S unit :=
  match es with [] => mret tt | e :: es => on_event e;; on_events es end.
End flash.

(** ** A chip that obeys the laws: a function from offsets to bytes *)
Definition ram_chip : Type := Z -> Z.
#[global] Instance ram_chip_flash : NorFlash ram_chip := {|
  peek f x := u8 (f x);
  sector_erase a f := (kStatus_Success, fun x => if decide (a <= x < a + MFLASH_SECTOR_SIZE) then 0xFF else f x);
  page_program a l f := (kStatus_Success, fun x =>
    if decide (a <= x < a + Z.of_nat (length l)) then Z.land (u8 (f x)) (byte_at l (x - a)) else f x) |}.
#[global] Instance ram_chip_laws : NorLaws ram_chip.
Proof.
  split; try done.
  - intros f x. apply u8_range.
  - intros a f x _. cbn. by case_decide.
  - intros a l f x _ Hl. cbn. case_decide as D; [|done]. rewrite <- (byte_u8 l _ Hl). apply u8_land_u8.
Qed.
Definition blank_chip : ram_chip := fun _ => 0xFF.
Definition blank : flash_st ram_chip := {| nor := blank_chip; cur_offset := replicate 6 0; gTouChuan := 0 |}.

Example saved_is_read : result ((bsp_save_BootTime 7;; bsp_save_image_idx 1;; bsp_save_BootTime 8;; parameter_init;; x ← bsp_get_BootTime; y ← bsp_get_image_idx; mret (x, y)) blank) = Some (8, 1).
Proof. vm_compute. reflexivity. Qed.
