(* ===== verification/FlashFacts.v ===== *)
(** * Facts about the flash memory

    What erasing and writing do to every byte of the chip; a file written to
    its partition is read back and disturbs no other; the six variables keep
    their last values through any sequence of saves and restarts. Proved for
    any chip that obeys [NorLaws]. *)
From stdpp Require Import base list numbers sets.
From S2P Require Import Prelude Bytes Flash.

Section flash.
Context {F S : Type} `{!NorFlash F} `{!NorLaws F} `{!Sub (flash_st F) S}.
Implicit Types (f g : F) (s : S).

(** [s] with another content of the chip. *)
Definition set_nor (f : F) (s : S) : S := sset (with_nor f (fl s)) s.
Lemma nor_set_nor f s : nor (fl (set_nor f s)) = f.
Proof. unfold fl, set_nor. by rewrite sget_sset. Qed.
Lemma set_nor_twice f g s : set_nor f (set_nor g s) = set_nor f s.
Proof. unfold set_nor, fl. by rewrite sget_sset, sset_sset. Qed.
Lemma set_nor_id s : set_nor (nor (fl s)) s = s.
Proof.
  unfold set_nor. assert (E : with_nor (nor (fl s)) (fl s) = fl s) by (by destruct (fl s)). rewrite E. apply sset_sget.
Qed.

(** ** Single commands *)
Definition erased (a n : Z) (f f' : F) : Prop := forall x, peek f' x = if decide (a <= x < a + n) then 0xFF else peek f x.
Definition programmed (a n : Z) (l : list Z) (i : Z) (f f' : F) : Prop :=
  forall x, peek f' x = if decide (a <= x < a + n) then Z.land (peek f x) (byte_at l (i + (x - a))) else peek f x.

Lemma sector_run a s : a mod MFLASH_SECTOR_SIZE = 0 -> exists f,
  mflash_drv_erase_sector a s = Ok (0, set_nor f s) /\ erased a MFLASH_SECTOR_SIZE (nor (fl s)) f.
Proof.
  intros Ha. exists (sector_erase a (nor (fl s))).2. split; [|intros x; by apply peek_erase].
  unfold mflash_drv_erase_sector. replace (MFLASH_SECTOR_SIZE - 1) with (Z.ones 12) by done. rewrite Z.land_ones by lia.
  change (2 ^ 12) with MFLASH_SECTOR_SIZE. rewrite Ha. cbn. unfold mbind, M_bind, erase_command.
  pose proof (erase_status a (nor (fl s))) as St. destruct (sector_erase a (nor (fl s))) as [st f]. cbn in St. by rewrite St.
Qed.
Lemma bytes_from_Some l i n : 0 <= i -> 0 <= n -> i + n <= Z.of_nat (length l) ->
  exists m, bytes_from l i n = Some m /\ Z.of_nat (length m) = n /\ (Forall byte_ok l -> Forall byte_ok m) /\
    forall j, 0 <= j < n -> byte_at m j = byte_at l (i + j).
Proof.
  intros Hi Hn Hl. eexists. split; [unfold bytes_from; by rewrite decide_True by lia|]. split; [|split].
  - rewrite length_take, length_drop. lia.
  - intros H. by apply Forall_take, Forall_drop.
  - intros j Hj. unfold byte_at, zlookup. rewrite !decide_True by lia. rewrite lookup_take, decide_True by lia. rewrite lookup_drop.
    do 2 f_equal. lia.
Qed.
Lemma page_run a l i n s : a mod MFLASH_PAGE_SIZE + (if n =? 0 then MFLASH_PAGE_SIZE else n) <= MFLASH_PAGE_SIZE -> 0 <= n -> 0 <= i ->
  i + (if n =? 0 then MFLASH_PAGE_SIZE else n) <= Z.of_nat (length l) -> Forall byte_ok l -> exists f,
  mflash_drv_write_page_internal a l i n s = Ok (0, set_nor f s) /\
  programmed a (if n =? 0 then MFLASH_PAGE_SIZE else n) l i (nor (fl s)) f.
Proof.
  intros Ha Hn Hi Hl Hb. set (k := if n =? 0 then MFLASH_PAGE_SIZE else n) in *.
  assert (Hk : 0 <= k) by (subst k; destruct (n =? 0); unfold MFLASH_PAGE_SIZE; lia).
  destruct (bytes_from_Some l i k Hi Hk Hl) as (m & Em & Lm & Bm & Am).
  exists (page_program a m (nor (fl s))).2. split.
  - unfold mflash_drv_write_page_internal. fold k. rewrite (run_some _ m) by done. unfold mbind, M_bind, program_command.
    pose proof (program_status a m (nor (fl s))) as St. destruct (page_program a m (nor (fl s))) as [st f]. cbn in St. by rewrite St.
  - intros x. rewrite peek_program by (rewrite ?Lm; auto). rewrite Lm. case_decide as D; [|done]. by rewrite Am by lia.
Qed.
Lemma aligned_page_run a l i s : a mod MFLASH_PAGE_SIZE = 0 -> 0 <= i -> i + MFLASH_PAGE_SIZE <= Z.of_nat (length l) -> Forall byte_ok l -> exists f,
  mflash_drv_write_page a l i s = Ok (0, set_nor f s) /\ programmed a MFLASH_PAGE_SIZE l i (nor (fl s)) f.
Proof.
  intros Ha Hi Hl Hb. unfold mflash_drv_write_page. replace (MFLASH_PAGE_SIZE - 1) with (Z.ones 8) by done. rewrite Z.land_ones by lia.
  change (2 ^ 8) with MFLASH_PAGE_SIZE. rewrite Ha. cbn [Z.eqb negb]. apply (page_run a l i 0 s); try done. rewrite Ha. cbn. lia.
Qed.

Lemma erased_app a n m f g h : 0 <= n -> 0 <= m -> erased a n f g -> erased (a + n) m g h -> erased a (n + m) f h.
Proof. intros Hn Hm H1 H2 x. rewrite H2, H1. repeat case_decide; (done || lia). Qed.
Lemma programmed_app a n m l i f g h : 0 <= n -> 0 <= m ->
  programmed a n l i f g -> programmed (a + n) m l (i + n) g h -> programmed a (n + m) l i f h.
Proof. intros Hn Hm H1 H2 x. rewrite H2, H1. repeat case_decide; try lia; try done. do 2 f_equal. lia. Qed.

(** ** Partitions *)
(** The bytes of the sectors that [n] bytes take. *)
Definition sectors (n : Z) : Z := (n + (SECTOR_SIZE - 1)) / SECTOR_SIZE * SECTOR_SIZE.
Lemma erase_loop fuel : forall a n e s, a mod SECTOR_SIZE = 0 -> e mod SECTOR_SIZE = 0 -> 0 <= a -> 0 <= e < n ->
  a + n + SECTOR_SIZE <= 2 ^ 32 -> n - e <= SECTOR_SIZE * Z.of_nat fuel -> exists f,
  loop fuel (erase_next a n) e s = Ok (MEM_OK, set_nor f s) /\ erased (a + e) (sectors (n - e)) (nor (fl s)) f.
Proof.
  unfold SECTOR_SIZE, MFLASH_SECTOR_SIZE. induction fuel as [|fuel IH]; intros a n e s Ha He H0 H1 H2 Hf; [lia|].
  destruct (sector_run (a + e) s) as (f & Ef & Pf).
  { unfold MFLASH_SECTOR_SIZE. Z.to_euclidean_division_equations; lia. }
  assert (St : erase_next a n e s = Ok ((if n <=? e + 0x1000 then inr MEM_OK else inl (e + 0x1000)), set_nor f s)).
  { unfold erase_next. rewrite (u32_id (a + e)) by lia. rewrite (run_bind _ _ _ _ _ Ef). cbn [Z.eqb negb]. unfold SECTOR_SIZE, MFLASH_SECTOR_SIZE. by rewrite u32_id by lia. }
  cbn [loop]. rewrite (run_bind _ _ _ _ _ St). destruct (Z.leb_spec n (e + 0x1000)).
  - exists f. split; [done|]. unfold sectors, SECTOR_SIZE, MFLASH_SECTOR_SIZE in *.
    replace ((n - e + (0x1000 - 1)) / 0x1000 * 0x1000) with 0x1000; [done|]. Z.to_euclidean_division_equations; lia.
  - destruct (IH a n (e + 0x1000) (set_nor f s)) as (g & Eg & Pg); try lia.
    { Z.to_euclidean_division_equations; lia. }
    exists g. rewrite Eg, set_nor_twice. split; [done|]. rewrite nor_set_nor in Pg.
    replace (sectors (n - e)) with (0x1000 + sectors (n - (e + 0x1000))).
    + apply erased_app with f; [lia| |done|by rewrite <- Z.add_assoc].
      unfold sectors, SECTOR_SIZE, MFLASH_SECTOR_SIZE. Z.to_euclidean_division_equations; lia.
    + unfold sectors, SECTOR_SIZE, MFLASH_SECTOR_SIZE. Z.to_euclidean_division_equations; lia.
Qed.
Lemma erase_partition_run start n s : let a := start - FlexSPI_AMBA_BASE in
  a mod SECTOR_SIZE = 0 -> 0 <= a -> 0 < n -> a + n + SECTOR_SIZE <= 2 ^ 32 -> exists f,
  bsp_flash_erase_partition start n s = Ok (MEM_OK, set_nor f s) /\ erased a (sectors n) (nor (fl s)) f.
Proof.
  intros a Ha H0 Hn Hs. unfold bsp_flash_erase_partition. fold a. rewrite u32_id by (unfold SECTOR_SIZE, MFLASH_SECTOR_SIZE in *; lia).
  destruct (erase_loop (Z.to_nat (n / SECTOR_SIZE + 2)) a n 0 s) as (f & Ef & Pf); try done; try lia.
  { unfold SECTOR_SIZE, MFLASH_SECTOR_SIZE in *. rewrite Z2Nat.id; Z.to_euclidean_division_equations; lia. }
  exists f. split; [done|]. by rewrite Z.add_0_r, Z.sub_0_r in Pf.
Qed.
Lemma write_loop fuel l : Forall byte_ok l -> forall a i n s, a mod FLASH_PAGE_SIZE = 0 -> 0 <= a -> 0 <= i -> FLASH_PAGE_SIZE < n ->
  i + n <= Z.of_nat (length l) -> a + n <= 2 ^ 32 -> n <= FLASH_PAGE_SIZE * Z.of_nat fuel -> exists f,
  loop fuel (write_next l) (a, i, n) s = Ok (MEM_OK, set_nor f s) /\ programmed a n l i (nor (fl s)) f.
Proof.
  intros Hl. unfold FLASH_PAGE_SIZE, MFLASH_PAGE_SIZE. induction fuel as [|fuel IH]; intros a i n s Ha H0 Hi Hn Hin Han Hf; [lia|].
  destruct (aligned_page_run a l i s) as (f & Ef & Pf); try (unfold MFLASH_PAGE_SIZE; lia); [done|].
  assert (Ha' : (a + 256) mod 256 = 0) by (Z.to_euclidean_division_equations; lia).
  assert (St : write_next l (a, i, n) s =
    (if n - 256 <=? 256 then st ← mflash_drv_write_page_bytes (a + 256) l (i + 256) (n - 256); mret (inr (write_result st))
     else mret (inl (a + 256, i + 256, n - 256))) (set_nor f s)).
  { unfold write_next. rewrite (run_bind _ _ _ _ _ Ef). unfold kStatus_Success, FLASH_PAGE_SIZE, MFLASH_PAGE_SIZE. cbn [Z.eqb negb]. rewrite u32_id by lia. done. }
  cbn [loop]. destruct (Z.leb_spec (n - 256) 256) as [H|H].
  - assert (n - 256 =? 0 = false) as Hz by lia. pose proof (page_run (a + 256) l (i + 256) (n - 256) (set_nor f s)) as P.
    rewrite Hz, nor_set_nor in P. destruct P as (g & Eg & Pg); try (unfold MFLASH_PAGE_SIZE; lia); [done|]. exists g. split.
    + rewrite (run_bind _ _ s (set_nor g s) (inr MEM_OK)); [done|]. rewrite St. unfold mflash_drv_write_page_bytes. rewrite (run_bind _ _ _ _ _ Eg). by rewrite set_nor_twice.
    + replace n with (256 + (n - 256)) by lia. apply programmed_app with f; (lia || done).
  - destruct (IH (a + 256) (i + 256) (n - 256) (set_nor f s)) as (g & Eg & Pg); try lia.
    exists g. rewrite (run_bind _ _ _ _ _ St). rewrite Eg, set_nor_twice. rewrite nor_set_nor in Pg. split; [done|].
    replace n with (256 + (n - 256)) by lia. apply programmed_app with f; (lia || done).
Qed.
(** A buffer may start anywhere when it fits the page, and has to start a page
    when it does not. *)
Lemma write_buffer_run start l n s : let a := start - FlexSPI_AMBA_BASE in
  0 <= a -> 0 < n -> a + n <= 2 ^ 32 -> n <= Z.of_nat (length l) -> Forall byte_ok l ->
  a mod FLASH_PAGE_SIZE + n <= FLASH_PAGE_SIZE \/ a mod FLASH_PAGE_SIZE = 0 -> exists f,
  bsp_flash_write_buffer start l n s = Ok (MEM_OK, set_nor f s) /\ programmed a n l 0 (nor (fl s)) f.
Proof.
  intros a H0 Hn Han Hl Hb Hp. unfold bsp_flash_write_buffer. fold a. rewrite u32_id by lia.
  unfold FLASH_PAGE_SIZE, MFLASH_PAGE_SIZE in *. destruct (Z.leb_spec n 256).
  - assert (n =? 0 = false) as Hz by lia. pose proof (page_run a l 0 n s) as P. rewrite Hz in P.
    destruct P as (f & Ef & Pf); try (unfold MFLASH_PAGE_SIZE; lia); try done.
    exists f. split; [|done]. unfold mflash_drv_write_page_bytes. by rewrite (run_bind _ _ _ _ _ Ef).
  - apply write_loop; unfold FLASH_PAGE_SIZE, MFLASH_PAGE_SIZE; try lia; try done.
    + pose proof (Z.mod_pos_bound a 256). lia.
    + rewrite Z2Nat.id; Z.to_euclidean_division_equations; lia.
Qed.
Lemma written_after_erase a n m l f g h : erased a m f g -> programmed a n l 0 g h -> n <= m -> Forall byte_ok l ->
  forall x, peek h x = if decide (a <= x < a + n) then byte_at l (x - a) else if decide (a <= x < a + m) then 0xFF else peek f x.
Proof.
  intros E P Hnm Hl x. rewrite P, E. repeat case_decide; try lia; try done. cbn [Z.add]. rewrite Z.land_comm.
  change 0xFF with (Z.ones 8). rewrite Z.land_ones by lia. change (2 ^ 8) with 256. apply (byte_u8 l). done.
Qed.

(** ** Reading back *)
Lemma mem_bytes_length s a n : length (mem_bytes s a n) = Z.to_nat n.
Proof. unfold mem_bytes. by rewrite length_fmap, length_seqZ. Qed.
Lemma mem_bytes_ext s s' a n : (forall i, 0 <= i < n -> mem_byte s' (a + i) = mem_byte s (a + i)) -> mem_bytes s' a n = mem_bytes s a n.
Proof. intros H. unfold mem_bytes. apply list_fmap_ext. intros k i Hk. apply lookup_seqZ in Hk as [-> Hk]. apply H. lia. Qed.
Lemma mem_bytes_list s a l : (forall i, 0 <= i < Z.of_nat (length l) -> mem_byte s (a + i) = byte_at l i) ->
  mem_bytes s a (Z.of_nat (length l)) = l.
Proof.
  intros H. apply list_eq. intros k. unfold mem_bytes. rewrite list_lookup_fmap. destruct (decide (k < length l)%nat) as [L|L].
  - rewrite (proj2 (lookup_seqZ _ _ _ (Z.of_nat k))) by lia. cbn [fmap option_fmap option_map]. rewrite H by lia. unfold byte_at, zlookup. rewrite decide_True by lia.
    rewrite Nat2Z.id. destruct (lookup_lt_is_Some_2 l k L) as [x ->]. done.
  - rewrite lookup_seqZ_ge by lia. cbn. symmetry. apply lookup_ge_None_2. lia.
Qed.
End flash.

(** ** Files in their partitions *)
Definition part_size (p : flash_part_info_t) : Z := endAddr p - startAddr p + 1.
Definition inside (p : flash_part_info_t) (x : Z) : Prop := startAddr p <= x < startAddr p + part_size p.
Definition disjoint (p q : flash_part_info_t) : bool := (endAddr p <? startAddr q) || (endAddr q <? startAddr p).
(** The pages the program stores its files in. *)
Definition used_pages : list Z := [3; 4; 10; 11; 12; 13; 14; 15; 16; 17; 18; 19; 20; 21; 22; 23].
Definition part_ok (p : flash_part_info_t) : bool :=
  ((startAddr p - FlexSPI_AMBA_BASE) mod SECTOR_SIZE =? 0) && (part_size p mod SECTOR_SIZE =? 0) &&
  (FlexSPI_AMBA_BASE <=? startAddr p) && (0 <? part_size p) && (endAddr p <? PARAMETER_BASE_ADDRESS).
Lemma pages_ok page p : bsp_get_flash_info page = Some p -> part_ok p = true.
Proof.
  unfold bsp_get_flash_info. destruct (Z.ltb_spec page MAX_FLASH_PAGE_NUM); [|done]. intros E. apply zlookup_Some in E as [_ E].
  assert (A : Forall (fun p => part_ok p = true) flash_page_info) by (repeat constructor). exact (Forall_lookup_1 _ _ _ _ A E).
Qed.
Lemma pages_disjoint n m p q : n ∈ used_pages -> m ∈ used_pages -> n <> m ->
  bsp_get_flash_info n = Some p -> bsp_get_flash_info m = Some q -> disjoint p q = true.
Proof.
  intros Hn Hm Hnm Hp Hq.
  assert (A : forallb (fun n => forallb (fun m => (n =? m) || match bsp_get_flash_info n, bsp_get_flash_info m with
    | Some p, Some q => disjoint p q | _, _ => false end) used_pages) used_pages = true) by (vm_compute; reflexivity).
  rewrite forallb_forall in A. specialize (A n (proj1 (list_elem_of_In _ _) Hn)). rewrite forallb_forall in A.
  specialize (A m (proj1 (list_elem_of_In _ _) Hm)). rewrite Hp, Hq in A. assert (n =? m = false) as E by lia. by rewrite E in A.
Qed.

Section files.
Context {F S : Type} `{!NorFlash F} `{!NorLaws F} `{!Sub (flash_st F) S}.
(** An erased area and what is written to its start: every byte. *)
Lemma store_area_bytes addr size l n (s : S) : (addr - FlexSPI_AMBA_BASE) mod SECTOR_SIZE = 0 -> FlexSPI_AMBA_BASE <= addr -> addr + size <= 0x60300000 ->
  0 < n <= size -> n <= Z.of_nat (length l) -> Forall byte_ok l -> exists f,
  bsp_flash_erase_partition addr size s = Ok (MEM_OK, set_nor f s) /\ exists g,
  bsp_flash_write_buffer addr l n (set_nor f s) = Ok (MEM_OK, set_nor g s) /\
  forall x, mem_byte (set_nor g s) x = if decide (addr <= x < addr + n) then byte_at l (x - addr)
    else if decide (addr <= x < addr + sectors size) then 0xFF else mem_byte s x.
Proof.
  unfold FlexSPI_AMBA_BASE, SECTOR_SIZE, MFLASH_SECTOR_SIZE. intros Ha H0 Hs Hn Hl Hb.
  destruct (erase_partition_run addr size s) as (f & Ef & Pf); [done|unfold FlexSPI_AMBA_BASE; lia|lia|unfold FlexSPI_AMBA_BASE, SECTOR_SIZE, MFLASH_SECTOR_SIZE; lia|].
  exists f. split; [done|].
  destruct (write_buffer_run addr l n (set_nor f s)) as (g & Eg & Pg); [unfold FlexSPI_AMBA_BASE; lia|lia|unfold FlexSPI_AMBA_BASE; lia|done|done| |].
  { right. unfold FlexSPI_AMBA_BASE, FLASH_PAGE_SIZE, MFLASH_PAGE_SIZE. Z.to_euclidean_division_equations; lia. }
  rewrite nor_set_nor in Pg. rewrite set_nor_twice in Eg. exists g. split; [done|].
  assert (Hsec : n <= sectors size) by (unfold sectors, SECTOR_SIZE, MFLASH_SECTOR_SIZE; Z.to_euclidean_division_equations; lia).
  assert (W := written_after_erase _ _ _ _ _ _ _ Pf Pg Hsec Hb). intros x. unfold mem_byte. rewrite nor_set_nor, W.
  repeat case_decide; try lia; [|done..]. f_equal. lia.
Qed.
Lemma store_area addr size l n (s : S) : (addr - FlexSPI_AMBA_BASE) mod SECTOR_SIZE = 0 -> FlexSPI_AMBA_BASE <= addr -> addr + size <= 0x60300000 ->
  0 < n <= size -> n <= Z.of_nat (length l) -> Forall byte_ok l -> exists f,
  bsp_flash_erase_partition addr size s = Ok (MEM_OK, set_nor f s) /\ exists g,
  bsp_flash_write_buffer addr l n (set_nor f s) = Ok (MEM_OK, set_nor g s) /\
  (forall x, 0 <= x < n -> mem_byte (set_nor g s) (addr + x) = byte_at l x) /\
  (forall x, ~ addr <= x < addr + sectors size -> mem_byte (set_nor g s) x = mem_byte s x).
Proof.
  intros Ha H0 Hs Hn Hl Hb. destruct (store_area_bytes addr size l n s Ha H0 Hs Hn Hl Hb) as (f & Ef & g & Eg & B).
  assert (Hsec : n <= sectors size) by (unfold sectors, SECTOR_SIZE, MFLASH_SECTOR_SIZE; Z.to_euclidean_division_equations; lia).
  exists f. split; [done|]. exists g. split; [done|]. split; intros x Hx; rewrite B.
  - rewrite decide_True by lia. f_equal. lia.
  - by rewrite !decide_False by lia.
Qed.
(** Erase the partition, write the file: how every file is stored. *)
Definition store_file (p : flash_part_info_t) (l : list Z) : M S Z :=
  bsp_flash_erase_partition (startAddr p) (part_size p);; bsp_flash_write_buffer (startAddr p) l (Z.of_nat (length l)).
Lemma store_file_run page p l (s : S) : bsp_get_flash_info page = Some p -> 0 < Z.of_nat (length l) <= part_size p -> Forall byte_ok l ->
  exists f, store_file p l s = Ok (MEM_OK, set_nor f s) /\ mem_bytes (set_nor f s) (startAddr p) (Z.of_nat (length l)) = l /\
    forall x, ~ inside p x -> mem_byte (set_nor f s) x = mem_byte s x.
Proof.
  intros Hp Hl Hb. apply pages_ok in Hp. unfold part_ok in Hp. unfold inside.
  assert (startAddr p + part_size p <= PARAMETER_BASE_ADDRESS /\ FlexSPI_AMBA_BASE <= startAddr p /\ 0 < part_size p) as (P1 & P2 & P3)
    by (unfold part_size in *; lia).
  assert (P4 : sectors (part_size p) = part_size p) by (unfold sectors, SECTOR_SIZE, MFLASH_SECTOR_SIZE in *; Z.to_euclidean_division_equations; lia).
  unfold PARAMETER_BASE_ADDRESS in P1. unfold FlexSPI_AMBA_BASE in P2.
  destruct (erase_partition_run (startAddr p) (part_size p) s) as (f & Ef & Pf); [lia|unfold FlexSPI_AMBA_BASE; lia|lia|unfold FlexSPI_AMBA_BASE, SECTOR_SIZE, MFLASH_SECTOR_SIZE; lia|].
  rewrite P4 in Pf.
  destruct (write_buffer_run (startAddr p) l (Z.of_nat (length l)) (set_nor f s)) as (g & Eg & Pg); try (unfold FlexSPI_AMBA_BASE; lia); [done| |].
  { right. unfold FlexSPI_AMBA_BASE, FLASH_PAGE_SIZE, MFLASH_PAGE_SIZE, SECTOR_SIZE, MFLASH_SECTOR_SIZE in *. Z.to_euclidean_division_equations; lia. }
  rewrite nor_set_nor in Pg. rewrite set_nor_twice in Eg. exists g. split.
  { unfold store_file. by rewrite (run_bind _ _ _ _ _ Ef). }
  assert (W := written_after_erase _ _ _ _ _ _ _ Pf Pg (proj2 Hl) Hb). split.
  - apply mem_bytes_list. intros i Hi. unfold mem_byte. rewrite nor_set_nor, W, decide_True by lia. f_equal. lia.
  - intros x Hx. unfold mem_byte. rewrite nor_set_nor, W, !decide_False by lia. done.
Qed.

(** A file stored in its partition is read back byte for byte, and the
    files in the other partitions stay as they are. *)
Theorem file_stored n m p q l (s : S) : n ∈ used_pages -> m ∈ used_pages -> n <> m ->
  bsp_get_flash_info n = Some p -> bsp_get_flash_info m = Some q -> 0 < Z.of_nat (length l) <= part_size p -> Forall byte_ok l ->
  exists s', (bsp_flash_erase_partition (startAddr p) (part_size p);; bsp_flash_write_buffer (startAddr p) l (Z.of_nat (length l))) s = Ok (MEM_OK, s') /\
    mem_bytes s' (startAddr p) (Z.of_nat (length l)) = l /\ mem_bytes s' (startAddr q) (part_size q) = mem_bytes s (startAddr q) (part_size q).
Proof.
  intros Hn Hm Hnm Hp Hq Hl Hb. destruct (store_file_run n p l s Hp Hl Hb) as (f & E & R & O). exists (set_nor f s).
  split; [exact E|]. split; [exact R|]. apply mem_bytes_ext. intros i Hi. apply O.
  pose proof (pages_disjoint _ _ _ _ Hn Hm Hnm Hp Hq) as D. unfold disjoint, inside, part_size in *. lia.
Qed.
End files.
Lemma file_stored_witness : exists s', (bsp_flash_erase_partition 0x60200000 0x1000;; bsp_flash_write_buffer 0x60200000 [1; 2; 3] 3) blank = Ok (MEM_OK, s') /\
  mem_bytes s' 0x60200000 3 = [1; 2; 3] /\ mem_bytes s' 0x60208000 0x4000 = mem_bytes blank 0x60208000 0x4000.
Proof.
  refine (file_stored 12 14 (part 0x80 0x60200000 0x60200FFF) (part 0x90 0x60208000 0x6020BFFF) [1; 2; 3] blank _ _ _ _ _ _ _);
    try (vm_compute; reflexivity); try discriminate; try (vm_compute; split; (reflexivity || discriminate)).
  - apply list_elem_of_In. vm_compute. tauto.
  - apply list_elem_of_In. vm_compute. tauto.
  - repeat constructor; vm_compute; discriminate.
Defined.

(** ** Variables *)
(** A word at an offset of the chip. *)
Definition word {F} `{!NorFlash F} (f : F) (x : Z) : Z := le_value ((fun i => peek f (x + i)) <$> seqZ 0 4).
Lemma word_ext {F} `{!NorFlash F} (f g : F) x y : (forall i, 0 <= i < 4 -> peek f (x + i) = peek g (y + i)) -> word f x = word g y.
Proof.
  intros H. unfold word. f_equal. apply list_eq. intros j. rewrite !list_lookup_fmap. destruct (seqZ 0 4 !! j) as [i|] eqn:E; [|done].
  apply lookup_seqZ in E as [-> Hj]. cbn. f_equal. apply H. lia.
Qed.
Lemma word_le {F} `{!NorFlash F} (f : F) x v : 0 <= v < 2 ^ 32 -> (forall i, 0 <= i < 4 -> peek f (x + i) = byte_at (le_bytes 4 v) i) -> word f x = v.
Proof.
  intros Hv H. transitivity (le_value (le_bytes 4 v)); [|by apply le_value_bytes]. unfold word. f_equal. change (seqZ 0 4) with [0; 1; 2; 3]. cbn [fmap list_fmap].
  rewrite !H by lia. done.
Qed.
Lemma word_blank {F} `{!NorFlash F} (f : F) x : (forall i, 0 <= i < 4 -> peek f (x + i) = 0xFF) -> word f x = 0xFFFFFFFF.
Proof. intros H. unfold word. change (seqZ 0 4) with [0; 1; 2; 3]. cbn [fmap list_fmap]. rewrite !H by lia. done. Qed.

Definition head (L : block_log) : Z := if MAGIC_HEAD L then 4 else 0.
Definition base (L : block_log) : Z := PARAMETER_BASE_ADDRESS - FlexSPI_AMBA_BASE + PARAMETER_SECTOR_SIZE * SECTOR_ID L.
(** What the six variables have in common. *)
Record log_ok (L : block_log) : Prop := {
  ok_id : 0 <= SECTOR_ID L < 6;
  ok_size : BLOCK_SIZE L = head L + 4;
  ok_number : BLOCK_NUMBERS L * BLOCK_SIZE L = PARAMETER_SECTOR_SIZE }.
Lemma logs_ok L : L ∈ block_logs -> log_ok L.
Proof. unfold block_logs. set_unfold. intros [->|[->|[->|[->|[->|[->|[]]]]]]]; by split. Qed.
Lemma logs_ids L L' : L ∈ block_logs -> L' ∈ block_logs -> L <> L' -> SECTOR_ID L <> SECTOR_ID L'.
Proof.
  unfold block_logs. set_unfold. intros H H' N.
  destruct H as [->|[->|[->|[->|[->|[->|[]]]]]]], H' as [->|[->|[->|[->|[->|[->|[]]]]]]]; (discriminate || contradiction || congruence).
Qed.

(** The sector of a variable: [k] blocks in use, the rest erased, and the
    value [v] in the last of them (in the erased first one when [k] is 0). *)
Record log_at {F} `{!NorFlash F} (f : F) (L : block_log) (k v : Z) : Prop := {
  at_range : 0 <= k < BLOCK_NUMBERS L;
  at_used j : 0 <= j < k -> block_free L (word f (base L + j * BLOCK_SIZE L)) = false;
  at_free x : base L + k * BLOCK_SIZE L <= x < base L + PARAMETER_SECTOR_SIZE -> peek f x = 0xFF;
  at_value : word f (base L + (if k =? 0 then 0 else (k - 1) * BLOCK_SIZE L) + head L) = v }.

Section logs.
Context {F S : Type} `{!NorFlash F} `{!NorLaws F} `{!Sub (flash_st F) S}.
Implicit Types (f g : F) (s : S) (L : block_log).

Lemma size_cases L : log_ok L -> (BLOCK_SIZE L = 4 /\ BLOCK_NUMBERS L = 1024) \/ (BLOCK_SIZE L = 8 /\ BLOCK_NUMBERS L = 512).
Proof. intros [_ Hs Hn]. unfold head in *. destruct (MAGIC_HEAD L); unfold PARAMETER_SECTOR_SIZE in *; rewrite Hs in *; lia. Qed.
Lemma head_range L : 0 <= head L <= 4.
Proof. unfold head. destruct (MAGIC_HEAD L); lia. Qed.
(** Case analysis on the size of a block. *)
Ltac sizes C := let C1 := fresh in let C2 := fresh in destruct C as [[C1 C2]|[C1 C2]]; rewrite ?C1, ?C2 in *; unfold PARAMETER_SECTOR_SIZE in *; lia.
Lemma log_at_ext f g L k v : log_ok L -> (forall x, base L <= x < base L + PARAMETER_SECTOR_SIZE -> peek g x = peek f x) ->
  log_at f L k v -> log_at g L k v.
Proof.
  intros Wf E [R U Fr V]. pose proof (size_cases L Wf) as C. pose proof (head_range L). pose proof (ok_size L Wf). unfold PARAMETER_SECTOR_SIZE in *. split; [done| | |].
  - intros j Hj. rewrite <- (U j Hj). f_equal. apply word_ext. intros i Hi. apply E. sizes C.
  - intros x Hx. rewrite E by sizes C. by apply Fr.
  - rewrite <- V. apply word_ext. intros i Hi. apply E. destruct (Z.eqb_spec k 0); sizes C.
Qed.
Lemma mem_u32_word s a : mem_u32 s a = word (nor (fl s)) (a - FlexSPI_AMBA_BASE).
Proof.
  unfold mem_u32, mem_bytes, mem_byte, word. f_equal. apply list_fmap_ext. intros k i _. f_equal. lia.
Qed.
Lemma free_blank L : block_free L 0xFFFFFFFF = true.
Proof. unfold block_free. by destruct (MAGIC_HEAD L). Qed.

(** *** Reading and counting *)
Definition at_offset (s : S) L (k : Z) : Prop := zlookup (cur_offset (fl s)) (SECTOR_ID L) = Some (k * BLOCK_SIZE L).
Lemma get_block_run s L k v : log_ok L -> at_offset s L k -> log_at (nor (fl s)) L k v -> get_block L s = Ok (v, s).
Proof.
  intros Wf O [R U Fr V]. pose proof (size_cases L Wf) as C. pose proof (ok_id L Wf) as I. unfold get_block, offset_of.
  rewrite (run_bind _ _ s s (k * BLOCK_SIZE L)) by (by rewrite run_gets, O). unfold gets. do 2 f_equal. rewrite mem_u32_word, <- V. f_equal.
  unfold get_addr, base, head, PARAMETER_BASE_ADDRESS, PARAMETER_SECTOR_SIZE, FlexSPI_AMBA_BASE in *.
  destruct (Z.eqb_spec k 0) as [->|Hk].
  - rewrite Z.mul_0_l. cbn [Z.eqb]. rewrite u32_id by lia. lia.
  - destruct (Z.eqb_spec (k * BLOCK_SIZE L) 0); [sizes C|]. rewrite (u32_id (k * _ - _)) by sizes C. rewrite u32_id by sizes C. lia.
Qed.
Lemma count_run s L k v n i : log_ok L -> log_at (nor (fl s)) L k v -> 0 <= i <= k -> k < i + Z.of_nat n -> count_blocks s L n i = k.
Proof.
  intros Wf [R U Fr V]. pose proof (size_cases L Wf) as C. revert i. induction n as [|n IH]; intros i Hi Hn; [lia|]. cbn [count_blocks].
  rewrite mem_u32_word. replace (_ - FlexSPI_AMBA_BASE) with (base L + i * BLOCK_SIZE L) by (unfold base; lia).
  destruct (decide (i = k)) as [->|Hne].
  - rewrite (word_blank _ (base L + k * BLOCK_SIZE L)), free_blank; [done|]. intros j Hj. apply Fr. sizes C.
  - rewrite U by lia. apply IH; lia.
Qed.

(** *** Writing *)
(** Nothing but the sector and the write position of [L] has changed. *)
Record beside (L : block_log) (s s' : S) : Prop := {
  be_length : length (cur_offset (fl s')) = length (cur_offset (fl s));
  be_offset i : i <> SECTOR_ID L -> zlookup (cur_offset (fl s')) i = zlookup (cur_offset (fl s)) i;
  be_byte x : ~ base L <= x < base L + PARAMETER_SECTOR_SIZE -> peek (nor (fl s')) x = peek (nor (fl s)) x }.
#[local] Instance beside_trans L : Transitive (beside L).
Proof. intros a b c [L1 O1 B1] [L2 O2 B2]. split; [congruence| |]; intros; [rewrite O2, O1 by done|rewrite B2, B1 by done]; done. Qed.
Lemma set_offset_run s L k : log_ok L -> length (cur_offset (fl s)) = 6%nat -> 0 <= k * BLOCK_SIZE L < 2 ^ 32 -> exists s',
  set_offset L (k * BLOCK_SIZE L) s = Ok (tt, s') /\ at_offset s' L k /\ nor (fl s') = nor (fl s) /\ beside L s s'.
Proof.
  intros Wf Hl Hk. pose proof (ok_id L Wf) as I. eexists. split; [|split; [|split]].
  - unfold set_offset. rewrite run_gets. rewrite (run_some _ (<[Z.to_nat (SECTOR_ID L) := u32 (k * BLOCK_SIZE L)]> (cur_offset (fl s)))) by (apply zupdate_lt; lia).
    reflexivity.
  - unfold at_offset, fl. rewrite sget_sset. cbn [cur_offset with_offsets]. rewrite zlookup_insert by (apply zlookup_is_Some; unfold fl in Hl; lia).
    by rewrite decide_True, u32_id.
  - unfold fl. by rewrite sget_sset.
  - split; unfold fl; rewrite sget_sset; cbn [cur_offset nor with_offsets]; [by rewrite length_insert| |done].
    intros i Hi. rewrite zlookup_insert by (apply zlookup_is_Some; unfold fl in Hl; lia). by rewrite decide_False.
Qed.
Lemma beside_nor L f s : (forall x, ~ base L <= x < base L + PARAMETER_SECTOR_SIZE -> peek f x = peek (nor (fl s)) x) -> beside L s (set_nor f s).
Proof. intros H. split; unfold fl, set_nor; rewrite sget_sset; cbn [cur_offset nor with_nor]; done. Qed.
Lemma at_offset_nor s L k f : at_offset s L k -> at_offset (set_nor f s) L k.
Proof. unfold at_offset, fl, set_nor. by rewrite sget_sset. Qed.
Lemma offset_of_run s L k : at_offset s L k -> offset_of L s = Ok (k * BLOCK_SIZE L, s).
Proof. intros H. unfold offset_of. by rewrite run_gets, H. Qed.

(** A full sector is erased first. *)
Lemma room_run s L k w : log_ok L -> length (cur_offset (fl s)) = 6%nat -> at_offset s L k -> log_at (nor (fl s)) L k w -> exists s' k' w',
  when (PARAMETER_SECTOR_SIZE <=? u32 (k * BLOCK_SIZE L + BLOCK_SIZE L)) (
    set_offset L 0;; bsp_flash_erase_partition (PARAMETER_BASE_ADDRESS + SECTOR_ID L * PARAMETER_SECTOR_SIZE) PARAMETER_SECTOR_SIZE;; mret tt) s = Ok (tt, s') /\
  at_offset s' L k' /\ log_at (nor (fl s')) L k' w' /\ k' + 1 < BLOCK_NUMBERS L /\ beside L s s'.
Proof.
  intros Wf Hl O A. pose proof (size_cases L Wf) as C. pose proof (ok_id L Wf) as I. pose proof (at_range _ _ _ _ A) as R.
  rewrite u32_id by sizes C. destruct (Z.leb_spec PARAMETER_SECTOR_SIZE (k * BLOCK_SIZE L + BLOCK_SIZE L)) as [Hf|Hf].
  2: { exists s, k, w. split; [done|]. split; [done|]. split; [done|]. split; [sizes C|]. by split. }
  destruct (set_offset_run s L 0 Wf Hl) as (s1 & E1 & O1 & N1 & B1); [lia|].
  destruct (erase_partition_run (PARAMETER_BASE_ADDRESS + SECTOR_ID L * PARAMETER_SECTOR_SIZE) PARAMETER_SECTOR_SIZE s1) as (f & Ef & Pf).
  1-4: unfold PARAMETER_BASE_ADDRESS, PARAMETER_SECTOR_SIZE, FlexSPI_AMBA_BASE, SECTOR_SIZE, MFLASH_SECTOR_SIZE; Z.to_euclidean_division_equations; lia.
  replace (_ - FlexSPI_AMBA_BASE) with (base L) in Pf by (unfold base; lia). change (sectors PARAMETER_SECTOR_SIZE) with PARAMETER_SECTOR_SIZE in Pf.
  exists (set_nor f s1), 0, 0xFFFFFFFF. split; [|split; [|split; [|split]]].
  - rewrite when_true. rewrite Z.mul_0_l in E1. rewrite (run_bind _ _ _ _ _ E1). by rewrite (run_bind _ _ _ _ _ Ef).
  - by apply at_offset_nor.
  - rewrite nor_set_nor. pose proof (head_range L). split; [sizes C|lia| |].
    + intros x Hx. rewrite Pf, decide_True by lia. done.
    + apply word_blank. intros i Hi. rewrite Pf, decide_True; [done|]. cbn [Z.eqb]. unfold PARAMETER_SECTOR_SIZE. lia.
  - sizes C.
  - transitivity s1; [done|]. apply beside_nor. intros x Hx. by rewrite Pf, decide_False.
Qed.
Definition storable (L : block_log) (v : Z) : Prop := 0 <= v < 2 ^ 32 /\ (MAGIC_HEAD L = false -> v <> 0xFFFFFFFF).
Lemma block_bytes_at L v : log_ok L -> Z.of_nat (length (block_bytes L v)) = BLOCK_SIZE L /\ Forall byte_ok (block_bytes L v) /\
  (forall i, 0 <= i -> byte_at (block_bytes L v) (head L + i) = byte_at (le_bytes 4 v) i) /\
  (MAGIC_HEAD L = true -> forall i, 0 <= i < 4 -> byte_at (block_bytes L v) i = byte_at (le_bytes 4 PARAMETER_MAGIC) i).
Proof.
  intros Wf. rewrite (ok_size L Wf). unfold block_bytes, head. destruct (MAGIC_HEAD L); (split; [done|split; [|split]]).
  - apply Forall_app. split; apply le_bytes_ok.
  - intros i Hi. change 4 with (Z.of_nat (length (le_bytes 4 PARAMETER_MAGIC))). by apply byte_app_r.
  - intros _ i Hi. apply byte_app_l. rewrite le_bytes_length. lia.
  - apply le_bytes_ok.
  - done.
  - done.
Qed.
Lemma append_run s L k w v : log_ok L -> storable L v -> at_offset s L k -> log_at (nor (fl s)) L k w -> k + 1 < BLOCK_NUMBERS L -> exists f,
  bsp_flash_write_buffer (get_addr (SECTOR_ID L) (k * BLOCK_SIZE L)) (block_bytes L v) (BLOCK_SIZE L) s = Ok (MEM_OK, set_nor f s) /\
  log_at f L (k + 1) v /\ beside L s (set_nor f s).
Proof.
  intros Wf [Hv Hm] O A Hk. pose proof (size_cases L Wf) as C. pose proof (ok_id L Wf) as I. pose proof (ok_size L Wf) as Sz. pose proof (head_range L) as Hh.
  destruct A as [R U Fr V]. destruct (block_bytes_at L v Wf) as (Lb & Fb & Vb & Mb).
  assert (G : get_addr (SECTOR_ID L) (k * BLOCK_SIZE L) - FlexSPI_AMBA_BASE = base L + k * BLOCK_SIZE L).
  { unfold get_addr, base, PARAMETER_BASE_ADDRESS, PARAMETER_SECTOR_SIZE, FlexSPI_AMBA_BASE. rewrite u32_id by sizes C. lia. }
  destruct (write_buffer_run (get_addr (SECTOR_ID L) (k * BLOCK_SIZE L)) (block_bytes L v) (BLOCK_SIZE L) s) as (f & Ef & Pf); [..|done| |].
  1-5: rewrite ?G, ?Lb; unfold base, PARAMETER_BASE_ADDRESS, PARAMETER_SECTOR_SIZE, FlexSPI_AMBA_BASE, FLASH_PAGE_SIZE, MFLASH_PAGE_SIZE.
  1-4: sizes C.
  { left. destruct C as [[C1 C2]|[C1 C2]]; rewrite C1, C2 in *; Z.to_euclidean_division_equations; lia. }
  rewrite G in Pf. exists f. split; [exact Ef|].
  assert (W : forall i, 0 <= i < BLOCK_SIZE L -> peek f (base L + k * BLOCK_SIZE L + i) = byte_at (block_bytes L v) i).
  { intros i Hi. rewrite Pf, decide_True by lia. rewrite Fr by sizes C. replace (0 + _) with i by lia.
    rewrite Z.land_comm. change 0xFF with (Z.ones 8). rewrite Z.land_ones by lia. change (2 ^ 8) with 256. by apply byte_u8. }
  assert (K : forall x, ~ base L + k * BLOCK_SIZE L <= x < base L + k * BLOCK_SIZE L + BLOCK_SIZE L -> peek f x = peek (nor (fl s)) x).
  { intros x Hx. by rewrite Pf, decide_False. }
  split.
  - split; [sizes C| | |].
    + intros j Hj. destruct (decide (j = k)) as [->|Hne].
      * unfold block_free. destruct (MAGIC_HEAD L) eqn:M.
        -- rewrite (word_le f _ PARAMETER_MAGIC); [done|by split|]. intros i Hi. rewrite W by lia. by apply Mb.
        -- rewrite (word_le f _ v); [specialize (Hm eq_refl); lia|done|]. intros i Hi. rewrite W by lia. rewrite <- Vb by lia.
           unfold head. by rewrite M.
      * rewrite <- (U j) by lia. f_equal. apply word_ext. intros i Hi. apply K. sizes C.
    + intros x Hx. rewrite K by sizes C. apply Fr. sizes C.
    + destruct (Z.eqb_spec (k + 1) 0); [lia|]. apply word_le; [done|]. intros i Hi. rewrite <- Vb by lia. rewrite <- W by lia. f_equal. lia.
  - apply beside_nor. intros x Hx. apply K. sizes C.
Qed.
Lemma save_block_run s L k w v : log_ok L -> length (cur_offset (fl s)) = 6%nat -> at_offset s L k -> log_at (nor (fl s)) L k w -> storable L v ->
  exists s' k', save_block L v s = Ok (tt, s') /\ at_offset s' L k' /\ log_at (nor (fl s')) L k' v /\ beside L s s'.
Proof.
  intros Wf Hl O A Hv. destruct (room_run s L k w Wf Hl O A) as (s1 & k1 & w1 & E1 & O1 & A1 & H1 & B1).
  destruct (append_run s1 L k1 w1 v Wf Hv O1 A1 H1) as (f & Ef & Af & Bf).
  pose proof (be_length _ _ _ B1) as L1. pose proof (be_length _ _ _ Bf) as L2. pose proof (size_cases L Wf) as C. pose proof (at_range _ _ _ _ A1) as R.
  destruct (set_offset_run (set_nor f s1) L (k1 + 1) Wf) as (s2 & E2 & O2 & N2 & B2); [lia|sizes C|].
  exists s2, (k1 + 1). split; [|split; [done|split; [rewrite N2, nor_set_nor; done|]]].
  - unfold save_block. rewrite (run_bind _ _ _ _ _ (offset_of_run s L k O)). rewrite (run_bind _ _ _ _ _ E1).
    rewrite (run_bind _ _ _ _ _ (offset_of_run s1 L k1 O1)). rewrite (run_bind _ _ _ _ _ Ef). rewrite <- E2. f_equal. lia.
  - transitivity s1; [done|]. transitivity (set_nor f s1); done.
Qed.

(** *** All six *)
Definition begun (s : S) (vs : Z -> Z) (L : block_log) : Prop :=
  exists k, at_offset s L k /\ log_at (nor (fl s)) L k (vs (SECTOR_ID L)).
Definition recorded (s : S) (vs : Z -> Z) : Prop :=
  length (cur_offset (fl s)) = 6%nat /\ forall L, L ∈ block_logs -> exists k, log_at (nor (fl s)) L k (vs (SECTOR_ID L)).
Definition shelf (s : S) (vs : Z -> Z) : Prop := recorded s vs /\ forall L, L ∈ block_logs -> begun s vs L.
Lemma beside_begun s s' L L' vs : L ∈ block_logs -> L' ∈ block_logs -> L <> L' -> beside L s s' -> begun s vs L' -> begun s' vs L'.
Proof.
  intros H H' N [Bl Bo Bb] (k & O & A). exists k. pose proof (logs_ids _ _ H H' N). split.
  - unfold at_offset in *. rewrite Bo by done. done.
  - apply log_at_ext with (nor (fl s)); [by apply logs_ok| |done]. intros x Hx. apply Bb. unfold base, PARAMETER_SECTOR_SIZE in *. nia.
Qed.
Definition put (vs : Z -> Z) (L : block_log) (v : Z) : Z -> Z := fun i => if decide (i = SECTOR_ID L) then v else vs i.
Lemma save_shelf s L v vs : L ∈ block_logs -> storable L v -> shelf s vs -> exists s', save_block L v s = Ok (tt, s') /\ shelf s' (put vs L v).
Proof.
  intros H Hv [[Hl Hr] Hb]. destruct (Hb L H) as (k & O & A).
  destruct (save_block_run s L k _ v (logs_ok L H) Hl O A Hv) as (s' & k' & E & O' & A' & B). exists s'. split; [done|].
  assert (Hb' : forall L', L' ∈ block_logs -> begun s' (put vs L v) L').
  { intros L' H'. unfold begun, put. case_decide as D.
    - destruct (decide (L = L')) as [<-|N]; [by exists k'|]. exfalso. by apply (logs_ids L L' H H' N).
    - destruct (decide (L = L')) as [<-|N]; [done|]. apply (beside_begun s s' L L' vs H H' N B). by apply Hb. }
  split; [|done]. split; [by rewrite (be_length _ _ _ B)|]. intros L' H'. destruct (Hb' L' H') as (k2 & _ & A2). by exists k2.
Qed.
Lemma init_begun s L vs Ls : L ∈ block_logs -> recorded s vs -> (forall L', L' ∈ Ls -> L' ∈ block_logs /\ begun s vs L') ->
  exists s', init_block L s = Ok (tt, s') /\ recorded s' vs /\ (forall L', L' ∈ L :: Ls -> L' ∈ block_logs /\ begun s' vs L').
Proof.
  intros H [Hl Hr] Hb. pose proof (logs_ok L H) as Wf. destruct (Hr L H) as (k & A). pose proof (size_cases L Wf) as C. pose proof (at_range _ _ _ _ A) as R.
  destruct (set_offset_run s L k Wf Hl) as (s' & E & O & N & B); [sizes C|]. exists s'.
  split. { unfold init_block. rewrite run_gets. rewrite (count_run s L k _ _ 0 Wf A); [done|lia|lia]. }
  split. { split; [by rewrite (be_length _ _ _ B)|]. by rewrite N. }
  intros L' H'. set_unfold in H'. destruct (decide (L = L')) as [<-|Ne]; [split; [done|]; exists k; rewrite N; done|].
  destruct H' as [->|H']; [done|]. destruct (Hb L' H') as [I' G]. split; [done|]. by apply (beside_begun s s' L L').
Qed.
Lemma shelf_TouChuan s vs v : shelf s vs -> shelf (sset (with_TouChuan v (fl s)) s) vs.
Proof. unfold shelf, recorded, begun, at_offset, fl. by rewrite sget_sset. Qed.
Lemma parameter_init_run s vs : recorded s vs -> exists s', parameter_init s = Ok (tt, s') /\ shelf s' vs.
Proof.
  intros R. assert (Hin : forall i L, block_logs !! i = Some L -> L ∈ block_logs) by (intros i L; apply list_elem_of_lookup_2).
  destruct (init_begun s IMAGE_IDX vs []) as (s1 & E1 & R1 & G1); [by apply (Hin 0%nat)|done|intros L' []%not_elem_of_nil|].
  destruct (init_begun s1 IMAGE_ID vs [IMAGE_IDX]) as (s2 & E2 & R2 & G2); [by apply (Hin 1%nat)|done|done|].
  destruct (init_begun s2 SECOND_TICK vs [IMAGE_ID; IMAGE_IDX]) as (s3 & E3 & R3 & G3); [by apply (Hin 2%nat)|done|done|].
  destruct (init_begun s3 BOOT_TIME vs [SECOND_TICK; IMAGE_ID; IMAGE_IDX]) as (s4 & E4 & R4 & G4); [by apply (Hin 3%nat)|done|done|].
  destruct (init_begun s4 IMAGE_1 vs [BOOT_TIME; SECOND_TICK; IMAGE_ID; IMAGE_IDX]) as (s5 & E5 & R5 & G5); [by apply (Hin 4%nat)|done|done|].
  destruct (init_begun s5 TOUCHUAN vs [IMAGE_1; BOOT_TIME; SECOND_TICK; IMAGE_ID; IMAGE_IDX]) as (s6 & E6 & R6 & G6); [by apply (Hin 5%nat)|done|done|].
  assert (Sh : shelf s6 vs). { split; [done|]. intros L HL. apply G6. unfold block_logs in HL. set_unfold. tauto. }
  destruct (Sh) as [_ Hb]. destruct (Hb TOUCHUAN ltac:(by apply (Hin 5%nat))) as (k & O & A).
  eexists. split; [|apply (shelf_TouChuan s6 vs (vs 5)), Sh].
  unfold parameter_init, init_image_idx, init_imageID, init_KalykeSecondTick, init_BootTime, init_Image1IfReset, init_TouChuan, bsp_get_TouChuan.
  rewrite (run_bind _ _ _ _ _ E1), (run_bind _ _ _ _ _ E2), (run_bind _ _ _ _ _ E3), (run_bind _ _ _ _ _ E4), (run_bind _ _ _ _ _ E5), (run_bind _ _ _ _ _ E6).
  by rewrite (run_bind _ _ _ _ _ (get_block_run s6 TOUCHUAN k _ (logs_ok _ ltac:(by apply (Hin 5%nat))) O A)).
Qed.

(** *** Any history *)
Definition event_ok (e : variable_event) : Prop := match e with Save L v => L ∈ block_logs /\ storable L v | Restart => True end.
(** The last value saved, that of an erased sector before the first. *)
Definition last_saved (es : list variable_event) (id : Z) : Z :=
  foldl (fun w e => match e with Save L v => if decide (id = SECTOR_ID L) then v else w | Restart => w end) 0xFFFFFFFF es.
Definition after (vs : Z -> Z) (e : variable_event) : Z -> Z := match e with Save L v => put vs L v | Restart => vs end.
Lemma event_run e s vs : event_ok e -> shelf s vs -> exists s', on_event e s = Ok (tt, s') /\ shelf s' (after vs e).
Proof.
  destruct e as [L v|]; cbn [on_event after event_ok]; intros Hv Sh; [destruct Hv; by apply save_shelf|].
  destruct Sh as [[Hl Hr] _]. set (s1 := sset (with_offsets (replicate 6 0) (fl s)) s).
  destruct (parameter_init_run s1 vs) as (s' & E & Sh'); [|exists s'; split; [by rewrite <- E|done]].
  split; unfold fl, s1; rewrite sget_sset; done.
Qed.
Lemma events_run es : forall s vs, Forall event_ok es -> shelf s vs -> exists s', on_events es s = Ok (tt, s') /\ shelf s' (foldl after vs es).
Proof.
  induction es as [|e es IH]; intros s vs Hes Sh; [by exists s|]. apply Forall_cons in Hes as [He Hes].
  destruct (event_run e s vs He Sh) as (s1 & E1 & Sh1). destruct (IH s1 _ Hes Sh1) as (s2 & E2 & Sh2). exists s2. split; [|done].
  cbn [on_events]. by rewrite (run_bind _ _ _ _ _ E1).
Qed.
Lemma last_saved_after es id : forall vs, foldl after vs es id =
  foldl (fun w e => match e with Save L v => if decide (id = SECTOR_ID L) then v else w | Restart => w end) (vs id) es.
Proof. induction es as [|e es IH]; intros vs; [done|]. cbn [foldl]. rewrite IH. by destruct e. Qed.
(** Sectors that have never been written. *)
Definition unwritten (s : S) : Prop := forall x, PARAMETER_BASE_ADDRESS <= x < PARAMETER_BASE_ADDRESS + 6 * PARAMETER_SECTOR_SIZE -> mem_byte s x = 0xFF.
Lemma unwritten_shelf s : unwritten s -> cur_offset (fl s) = replicate 6 0 -> shelf s (fun _ => 0xFFFFFFFF).
Proof.
  intros U O. assert (A : forall L, L ∈ block_logs -> log_at (nor (fl s)) L 0 0xFFFFFFFF).
  { intros L HL. pose proof (logs_ok L HL) as Wf. pose proof (ok_id L Wf). pose proof (size_cases L Wf) as C. pose proof (head_range L).
    assert (B : forall x, base L <= x < base L + PARAMETER_SECTOR_SIZE -> peek (nor (fl s)) x = 0xFF).
    { intros x Hx. rewrite <- (U (x + FlexSPI_AMBA_BASE)); [unfold mem_byte; f_equal; lia|].
      unfold base, PARAMETER_BASE_ADDRESS, PARAMETER_SECTOR_SIZE, FlexSPI_AMBA_BASE in *. lia. }
    split; [sizes C|lia|intros x Hx; apply B; lia|]. apply word_blank. intros i Hi. apply B. cbn [Z.eqb]. unfold PARAMETER_SECTOR_SIZE. lia. }
  split; [split; [by rewrite O|]|]; intros L HL; [by exists 0; apply A|]. exists 0. split; [|by apply A].
  pose proof (ok_id L (logs_ok L HL)). unfold at_offset. rewrite O. apply zlookup_Some. split; [lia|]. rewrite lookup_replicate. split; [done|lia].
Qed.

(** C14: whatever values are saved to the six variables and however often the
    controller restarts in between, each variable reads as the value saved to
    it last; filling a sector and erasing it loses nothing. *)
Theorem variables_survive es L s : unwritten s -> cur_offset (fl s) = replicate 6 0 -> Forall event_ok es -> L ∈ block_logs ->
  exists s', on_events es s = Ok (tt, s') /\ get_block L s' = Ok (last_saved es (SECTOR_ID L), s').
Proof.
  intros U O Hes HL. destruct (events_run es s _ Hes (unwritten_shelf s U O)) as (s' & E & [_ Sh]). exists s'. split; [done|].
  destruct (Sh L HL) as (k & Ok & A). rewrite last_saved_after in A. exact (get_block_run s' L k _ (logs_ok L HL) Ok A).
Qed.
End logs.
Lemma variables_survive_witness : exists s', on_events [Save BOOT_TIME 7; Restart; Save IMAGE_IDX 0xFFFFFFFF; Save BOOT_TIME 8; Restart] blank = Ok (tt, s') /\
  get_block BOOT_TIME s' = Ok (8, s').
Proof.
  refine (variables_survive [Save BOOT_TIME 7; Restart; Save IMAGE_IDX 0xFFFFFFFF; Save BOOT_TIME 8; Restart] BOOT_TIME blank _ _ _ _).
  - intros x _. reflexivity.
  - reflexivity.
  - repeat constructor; cbn; try (apply list_elem_of_In; cbn; tauto); try discriminate.
  - apply list_elem_of_In. cbn. tauto.
Defined.
