(* ===== verification/Plsd.v ===== *)
(** * Data kept through a power failure

    Models plc/internal/src/plsd_task.c and the part of plc_sysblock.c that
    configures it: two ranges of each of the elements M, S, C, T and D are
    written to the flash when the power fails (or before a restart) and read
    back when a program is loaded. A pointer to elements is a region and an
    index, a pointer to the flash is its address; the structures of counters
    and timers are the bytes the target's compiler lays out (the bit-fields
    from the lowest bit on). *)
From stdpp Require Import base list numbers.
From S2P Require Import Prelude Bytes Element Flash.

(** ** State *)
Definition PLSD_M := 0.
Definition PLSD_S := 1.
Definition PLSD_C := 2.
Definition PLSD_T := 3.
Definition PLSD_D := 4.
Definition PLSD_MAX := 5.
Record plc_plsd_item_st := { msv_StartElement : Z; msv_Length : Z }.
Definition no_item : plc_plsd_item_st := {| msv_StartElement := 0; msv_Length := 0 |}.
(** The elements, the flash, and the ranges to keep. *)
Record plsd_st (F : Type) := {
  pl_mem : plc_element_st;
  pl_flash : flash_st F;
  group1 : list plc_plsd_item_st;
  group2 : list plc_plsd_item_st }.
Arguments pl_mem {F} p.
Arguments pl_flash {F} p.
Arguments group1 {F} p.
Arguments group2 {F} p.
#[global] Instance plsd_mem {F} : Sub plc_element_st (plsd_st F).
Proof.
  refine {| sget := pl_mem; sset e s := {| pl_mem := e; pl_flash := pl_flash s; group1 := group1 s; group2 := group2 s |} |};
    intros; try done; by destruct s.
Defined.
#[global] Instance plsd_flash {F} : Sub (flash_st F) (plsd_st F).
Proof.
  refine {| sget := pl_flash; sset f s := {| pl_mem := pl_mem s; pl_flash := f; group1 := group1 s; group2 := group2 s |} |};
    intros; try done; by destruct s.
Defined.

(** ** Layout *)
Definition FLASH_ADDRESS_RESTORE_BASE := 0x60110000.
Definition FLASH_ADDRESS_RESTORE_M := 0x60111000.
Definition FLASH_ADDRESS_RESTORE_S := 0x60115000.
Definition FLASH_ADDRESS_RESTORE_C := 0x60116000.
Definition FLASH_ADDRESS_RESTORE_T := 0x60117000.
Definition FLASH_ADDRESS_RESTORE_D := 0x60119000.
Definition flashAddr : list (Z * Z) :=
  [(FLASH_ADDRESS_RESTORE_M, 2048); (FLASH_ADDRESS_RESTORE_S, 4096); (FLASH_ADDRESS_RESTORE_C, 4096);
   (FLASH_ADDRESS_RESTORE_T, 8192); (FLASH_ADDRESS_RESTORE_D, 16384)].
Definition PLSD_MAGIC := 0x44455649.
Definition words_bytes (l : list Z) : list Z := l ≫= le_bytes 2.
Definition longs_bytes (l : list Z) : list Z := l ≫= le_bytes 4.
Definition c_status_byte (c : plc_c_element_status_st) : Z := u8 (c_PowerFlow c + 2 * c_Started c).
Definition c_status_of (b : Z) : plc_c_element_status_st := {| c_PowerFlow := b mod 2; c_Started := b / 2 mod 2 |}.
Definition t_status_byte (t : plc_t_element_status_st) : Z :=
  u8 (t_Enable t + 2 * t_PowerFlow t + 4 * t_Init t + 8 * t_Type t + 32 * t_Capacity t).
Definition t_status_of (b : Z) : plc_t_element_status_st :=
  {| t_Enable := b mod 2; t_PowerFlow := b / 2 mod 2; t_Init := b / 4 mod 2; t_Type := b / 8 mod 4; t_Capacity := b / 32 mod 8 |}.
(** The bytes of [mtv_CElement] and of [mtv_TElement]. *)
Definition c_bytes (e : plc_element_st) : list Z :=
  words_bytes (c_BitElement e) ++ words_bytes (c_16BitValue e) ++ longs_bytes (c_32BitValue e) ++ (c_status_byte <$> c_StatusInfo e).
Definition t_bytes (e : plc_element_st) : list Z :=
  words_bytes (t_BitElement e) ++ words_bytes (t_CurrentValue e) ++ words_bytes (t_DestValue e) ++
  longs_bytes (t_StartValue e) ++ (t_status_byte <$> t_StatusInfo e).
(** Where an array begins in the structure saved with it, and the bytes of one
    of its cells. *)
Definition saved_at (r : region) : Z :=
  match r with
  | M_ELEMENT => FLASH_ADDRESS_RESTORE_M | S_ELEMENT => FLASH_ADDRESS_RESTORE_S | D_ELEMENT => FLASH_ADDRESS_RESTORE_D
  | C_ELEMENT => FLASH_ADDRESS_RESTORE_C | C16_VALUE => FLASH_ADDRESS_RESTORE_C + 64 | C32_VALUE => FLASH_ADDRESS_RESTORE_C + 464
  | T_ELEMENT => FLASH_ADDRESS_RESTORE_T | T_CURRENT => FLASH_ADDRESS_RESTORE_T + 64 | T_DEST => FLASH_ADDRESS_RESTORE_T + 1088
  | T_START => FLASH_ADDRESS_RESTORE_T + 2112
  | _ => 0
  end.
Definition saved_c_status : Z := FLASH_ADDRESS_RESTORE_C + 1712.
Definition saved_t_status : Z := FLASH_ADDRESS_RESTORE_T + 4160.

Section plsd.
Context {F : Type} `{!NorFlash F}.
Notation st := (plsd_st F).
Notation MP := (M st).
Definition item1 (i : Z) : MP plc_plsd_item_st := g ← gets group1; of_option (zlookup g i).
Definition item2 (i : Z) : MP plc_plsd_item_st := g ← gets group2; of_option (zlookup g i).

(** ** Configuration *)
Definition get_le16 (lcp_Data : list Z) (i : Z) : option Z := l ← bytes_from lcp_Data i 2; Some (le_value l).
Definition set_groups (g1 g2 : list plc_plsd_item_st) (s : st) : st :=
  {| pl_mem := pl_mem s; pl_flash := pl_flash s; group1 := g1; group2 := g2 |}.
Definition plc_parse_sysblk_plsd_data_processing (lcp_Data : list Z) (o lcv_Element : Z) : MP unit :=
  lsv_Start1 ← of_option (get_le16 lcp_Data o); lsv_Len1 ← of_option (get_le16 lcp_Data (o + 2));
  lsv_Start2 ← of_option (get_le16 lcp_Data (o + 4)); lsv_Len2 ← of_option (get_le16 lcp_Data (o + 6));
  g1 ← gets group1; g2 ← gets group2;
  g1' ← of_option (zupdate g1 lcv_Element {| msv_StartElement := lsv_Start1; msv_Length := lsv_Len1 |});
  g2' ← of_option (zupdate g2 lcv_Element {| msv_StartElement := lsv_Start2; msv_Length := lsv_Len2 |});
  modify (set_groups g1' g2').
Definition plc_parse_sysblk_plsd_config (IsSupportPlsd : Z) (lcp_sysConfig : list Z) : MP unit :=
  if IsSupportPlsd =? 0 then mret tt
  else for_up (Z.to_nat PLSD_MAX) PLSD_M (fun i => plc_parse_sysblk_plsd_data_processing lcp_sysConfig (4 + 8 * i) i).

(** ** Saving *)
Definition save_area (i : Z) : MP Z :=
  p ← of_option (zlookup flashAddr i);
  bsp_flash_erase_partition p.1 p.2;;
  e ← gets (fun s => pl_mem s);
  if i =? PLSD_M then bsp_flash_write_buffer p.1 (words_bytes (msp_MElement e)) p.2
  else
    let l := if i =? PLSD_S then words_bytes (msp_SElement e) else if i =? PLSD_C then c_bytes e
             else if i =? PLSD_T then t_bytes e else words_bytes (msp_DElement e) in
    bsp_flash_write_buffer p.1 l (Z.of_nat (length l)).
(** [true]: nothing of this element is to be kept. *)
Definition save_kind (i : Z) : MP bool :=
  a ← item1 i; b ← item2 i;
  if (msv_Length a =? 0) && (msv_Length b =? 0) then mret true else save_area i;; mret false.
Fixpoint save_kinds (n : nat) (i : Z) (allLenZero : bool) : MP bool :=
  match n with O => mret allLenZero | Datatypes.S n => z ← save_kind i; save_kinds n (i + 1) (allLenZero && z) end.
Definition write_magic : MP unit :=
  bsp_flash_erase_partition FLASH_ADDRESS_RESTORE_BASE 4096;;
  bsp_flash_write_buffer FLASH_ADDRESS_RESTORE_BASE (le_bytes 4 PLSD_MAGIC) 4;; mret tt.
Definition plsd_save_data : MP unit :=
  allLenZero ← save_kinds (Z.to_nat PLSD_MAX) PLSD_M true;
  when (negb allLenZero) (
    m ← gets (fun s => mem_u32 s FLASH_ADDRESS_RESTORE_BASE);
    when (negb (m =? PLSD_MAGIC)) write_magic).
Definition plsd_erase_all : MP unit :=
  m ← gets (fun s => mem_u32 s FLASH_ADDRESS_RESTORE_BASE);
  if m =? 0xFFFFFFFF then mret tt else bsp_flash_erase_partition FLASH_ADDRESS_RESTORE_BASE 4096;; mret tt.

(** ** Restoring *)
Definition set_bit_element_value (r : region) (pDst pSrc Element : Z) : MP unit :=
  w ← gets (fun s => mem_u16 s pSrc);
  d ← rd r pDst;
  if truthy (Z.land (Z.shiftr w Element) 0x01) then wr r pDst (Z.lor d (Z.shiftl 1 Element))
  else wr r pDst (Z.land d (Z.lnot (Z.shiftl 1 Element))).
Definition copy_u16 (r : region) (pDst pSrc : Z) : MP unit := w ← gets (fun s => mem_u16 s pSrc); wr r pDst w.
Definition copy_u32 (r : region) (pDst pSrc : Z) : MP unit := w ← gets (fun s => mem_u32 s pSrc); wr r pDst w.
Definition copy_bit_element (pSrc : Z) (r : region) (pDst elemLength : Z) : MP unit :=
  if elemLength <? 16 then for_up (Z.to_nat elemLength) 0 (fun i => set_bit_element_value r pDst pSrc i)
  else
    let u16Counts := Z.shiftr elemLength 4 in
    for_up (Z.to_nat u16Counts) 0 (fun i => copy_u16 r (pDst + i) (pSrc + 2 * i));;
    let leftLen := Z.land elemLength 0x0F in
    when (truthy leftLen) (
      for_up (Z.to_nat leftLen) 0 (fun i => set_bit_element_value r (pDst + u16Counts) (pSrc + 2 * u16Counts) i)).
Definition restore_bit_element (pSrc : Z) (r : region) (elemStart elemLength : Z) : MP unit :=
  let pSrc := pSrc + 2 * Z.shiftr elemStart 4 in
  let pDst := Z.shiftr elemStart 4 in
  if elemStart mod 16 =? 0 then copy_bit_element pSrc r pDst elemLength
  else
    let begin := Z.land elemStart 0x0F in
    let end_ := u16 (begin + elemLength) in
    if 16 <? end_ then
      for_up (Z.to_nat (16 - begin)) begin (fun i => set_bit_element_value r pDst pSrc i);;
      let elemLength := u16 (elemLength - (16 - begin)) in
      if elemLength =? 0 then mret tt else copy_bit_element (pSrc + 2) r (pDst + 1) elemLength
    else for_up (Z.to_nat (end_ - begin)) begin (fun i => set_bit_element_value r pDst pSrc i).
Definition restore_u16_element (pSrc : Z) (r : region) (elemStart elemLength : Z) : MP unit :=
  for_up (Z.to_nat elemLength) 0 (fun i => copy_u16 r (elemStart + i) (pSrc + 2 * (elemStart + i))).
Definition restore_u32_element (pSrc : Z) (r : region) (elemStart elemLength : Z) : MP unit :=
  for_up (Z.to_nat elemLength) 0 (fun i => copy_u32 r (elemStart + i) (pSrc + 4 * (elemStart + i))).
(** restore_u8_element, for the two arrays of states. *)
Definition restore_c_status (elemStart elemLength : Z) : MP unit :=
  for_up (Z.to_nat elemLength) 0 (fun i =>
    b ← gets (fun s => mem_byte s (saved_c_status + (elemStart + i))); wr_c_status (elemStart + i) (fun _ => c_status_of b)).
Definition restore_t_status (elemStart elemLength : Z) : MP unit :=
  for_up (Z.to_nat elemLength) 0 (fun i =>
    b ← gets (fun s => mem_byte s (saved_t_status + (elemStart + i))); wr_t_status (elemStart + i) (fun _ => t_status_of b)).
Definition restore_element (elem elemStart elemLength : Z) : MP unit :=
  if elem =? PLSD_M then restore_bit_element (saved_at M_ELEMENT) M_ELEMENT elemStart elemLength
  else if elem =? PLSD_S then restore_bit_element (saved_at S_ELEMENT) S_ELEMENT elemStart elemLength
  else if elem =? PLSD_C then
    restore_bit_element (saved_at C_ELEMENT) C_ELEMENT elemStart elemLength;;
    (if elemStart <? C16_RANG then restore_u16_element (saved_at C16_VALUE) C16_VALUE elemStart elemLength
     else restore_u32_element (saved_at C32_VALUE) C32_VALUE (u16 (elemStart - C16_RANG)) elemLength);;
    restore_c_status elemStart elemLength
  else if elem =? PLSD_T then
    restore_bit_element (saved_at T_ELEMENT) T_ELEMENT elemStart elemLength;;
    restore_u16_element (saved_at T_CURRENT) T_CURRENT elemStart elemLength;;
    restore_u16_element (saved_at T_DEST) T_DEST elemStart elemLength;;
    restore_u32_element (saved_at T_START) T_START elemStart elemLength;;
    restore_t_status elemStart elemLength
  else if elem =? PLSD_D then restore_u16_element (saved_at D_ELEMENT) D_ELEMENT elemStart elemLength
  else mret tt.
Definition restore_item (i : Z) (a : plc_plsd_item_st) : MP unit :=
  when (negb (msv_Length a =? 0)) (restore_element i (msv_StartElement a) (msv_Length a)).
Definition plsd_restore_data : MP unit :=
  m ← gets (fun s => mem_u32 s FLASH_ADDRESS_RESTORE_BASE);
  if m =? 0xFFFFFFFF then mret tt
  else for_up (Z.to_nat PLSD_MAX) PLSD_M (fun i => (a ← item1 i; restore_item i a);; b ← item2 i; restore_item i b).
End plsd.
