(* ===== verification/PlsdFacts.v ===== *)
(** * Facts about the data kept through a power failure

    Restoring a range of bits, word by word where it can, is copying it bit by
    bit; what was saved is restored, and nothing else is touched. *)
From stdpp Require Import base list numbers.
From S2P Require Import Prelude Bytes Element Flash FlashFacts Plsd.

(** ** Masks: which bits of the memory and which states are restored *)
Record mask := { mb : region -> Z -> Z -> bool; mc : Z -> bool; mt : Z -> bool }.
Definition width (r : region) : Z := match r with C32_VALUE | T_START => 32 | _ => 16 end.
Definition none : mask := {| mb _ _ _ := false; mc _ := false; mt _ := false |}.
Definition join (m n : mask) : mask :=
  {| mb r i k := mb m r i k || mb n r i k; mc i := mc m i || mc n i; mt i := mt m i || mt n i |}.
(** Agreement on what there is. *)
Record meq (m n : mask) : Prop := {
  meq_b r i k : 0 <= i < rsize r -> 0 <= k < width r -> mb m r i k = mb n r i k;
  meq_c i : 0 <= i < C_RANG -> mc m i = mc n i;
  meq_t i : 0 <= i < T_RANG -> mt m i = mt n i }.
Lemma meq_sym m n : meq m n -> meq n m.
Proof. intros [B C T]. split; intros; symmetry; auto. Qed.
Definition bits_mask (r : region) (lo hi : Z) : mask :=
  {| mb q i k := bool_decide (q = r) && (lo <=? 16 * i + k) && (16 * i + k <? hi); mc _ := false; mt _ := false |}.
Definition words_mask (r : region) (lo hi : Z) : mask :=
  {| mb q i k := bool_decide (q = r) && (lo <=? i) && (i <? hi); mc _ := false; mt _ := false |}.
Definition c_mask (lo hi : Z) : mask := {| mb _ _ _ := false; mc i := (lo <=? i) && (i <? hi); mt _ := false |}.
Definition t_mask (lo hi : Z) : mask := {| mb _ _ _ := false; mc _ := false; mt i := (lo <=? i) && (i <? hi) |}.
(** Masks of ranges that can be put together from pieces. *)
Record additive (mk : Z -> Z -> mask) : Prop := {
  add_empty lo : meq (mk lo lo) none;
  add_join lo mid hi : lo <= mid <= hi -> meq (mk lo hi) (join (mk lo mid) (mk mid hi)) }.
Lemma bits_additive r : additive (bits_mask r).
Proof. split; intros; split; cbn; intros; try done; case_bool_decide; cbn; try done; lia. Qed.
Lemma words_additive r : additive (words_mask r).
Proof. split; intros; split; cbn; intros; try done; case_bool_decide; cbn; try done; lia. Qed.
Lemma c_additive : additive c_mask.
Proof. split; intros; split; cbn; intros; try done; lia. Qed.
Lemma t_additive : additive t_mask.
Proof. split; intros; split; cbn; intros; try done; lia. Qed.
Lemma words_bits r lo hi : width r = 16 -> meq (words_mask r lo hi) (bits_mask r (16 * lo) (16 * hi)).
Proof. intros W. split; cbn; intros; try done. case_bool_decide; cbn; [subst; lia|done]. Qed.

Section restore.
Context {F : Type} `{!NorFlash F}.
Notation st := (plsd_st F).
Implicit Types (s : st) (m : mask).

(** What the flash holds for a cell. *)
Definition image (s : st) (r : region) (i : Z) : Z :=
  match r with
  | C32_VALUE => s32 (mem_u32 s (saved_at r + 4 * i))
  | T_START => mem_u32 s (saved_at r + 4 * i)
  | _ => mem_u16 s (saved_at r + 2 * i)
  end.
Definition c_image (s : st) (i : Z) : plc_c_element_status_st := c_status_of (mem_byte s (saved_c_status + i)).
Definition t_image (s : st) (i : Z) : plc_t_element_status_st := t_status_of (mem_byte s (saved_t_status + i)).
(** [s'] is [s] with what [m] marks taken from the flash. *)
Record merged (m : mask) (s s' : st) : Prop := {
  mg_wf : wf_elem (elem s');
  mg_rest : pl_flash s' = pl_flash s /\ group1 s' = group1 s /\ group2 s' = group2 s;
  mg_bits r i k : 0 <= i < rsize r -> 0 <= k < width r ->
    Z.testbit (cell r i s') k = Z.testbit (if mb m r i k then image s r i else cell r i s) k;
  mg_c i : 0 <= i < C_RANG -> zlookup (c_StatusInfo (elem s')) i = if mc m i then Some (c_image s i) else zlookup (c_StatusInfo (elem s)) i;
  mg_t i : 0 <= i < T_RANG -> zlookup (t_StatusInfo (elem s')) i = if mt m i then Some (t_image s i) else zlookup (t_StatusInfo (elem s)) i }.
Definition restores (m : mask) (c : M st unit) : Prop :=
  forall s, wf_elem (elem s) -> exists s', c s = Ok (tt, s') /\ merged m s s'.

Lemma image_same s s' r i : pl_flash s' = pl_flash s -> image s' r i = image s r i.
Proof. intros E. unfold image, mem_u16, mem_u32, mem_bytes, mem_byte, fl. cbn. by rewrite E. Qed.
Lemma restores_ret : restores none (mret tt).
Proof. intros s W. exists s. by split. Qed.
Lemma merged_join m (n : mask) s s1 s2 : merged m s s1 -> merged n s1 s2 -> merged (join m n) s s2.
Proof.
  intros [W1 (F1 & G1 & H1) B1 C1 T1] [W2 (F2 & G2 & H2) B2 C2 T2]. split; [done|split_and!; congruence| | |].
  - intros r i k Hi Hk. rewrite B2 by done. cbn [mb join]. destruct (mb n r i k).
    + rewrite orb_true_r. by rewrite (image_same s s1).
    + rewrite orb_false_r. by apply B1.
  - intros i Hi. rewrite C2 by done. cbn [mc join]. destruct (mc n i); [rewrite orb_true_r|rewrite orb_false_r; by apply C1].
    unfold c_image, mem_byte, fl. cbn. by rewrite F1.
  - intros i Hi. rewrite T2 by done. cbn [mt join]. destruct (mt n i); [rewrite orb_true_r|rewrite orb_false_r; by apply T1].
    unfold t_image, mem_byte, fl. cbn. by rewrite F1.
Qed.
Lemma merged_ext m (n : mask) s s' : meq m n -> merged m s s' -> merged n s s'.
Proof.
  intros [Eb Ec Et] [W' R B C T]. split; [done..| | |]; intros; [rewrite <- Eb by done|rewrite <- Ec by done|rewrite <- Et by done]; auto.
Qed.
Lemma restores_bind m (n : mask) (a b : M st unit) : restores m a -> restores n b -> restores (join m n) (a;; b).
Proof.
  intros Ha Hb s W. destruct (Ha s W) as (s1 & E1 & M1). destruct (Hb s1 (mg_wf _ _ _ M1)) as (s2 & E2 & M2).
  exists s2. split; [by rewrite (run_bind _ _ _ _ _ E1)|]. exact (merged_join _ _ _ _ _ M1 M2).
Qed.
Lemma restores_ext m (n : mask) (a : M st unit) : meq m n -> restores m a -> restores n a.
Proof. intros E H s W. destruct (H s W) as (s' & R & M). exists s'. split; [done|]. by apply merged_ext with m. Qed.
Lemma restores_range mk o (n : nat) i (f : Z -> M st unit) : additive mk -> (forall j, i <= j < i + Z.of_nat n -> restores (mk (o + j) (o + j + 1)) (f j)) ->
  restores (mk (o + i) (o + i + Z.of_nat n)) (for_up n i f).
Proof.
  intros A. revert i. induction n as [|n IH]; intros i H; cbn [for_up].
  - apply restores_ext with none; [|apply restores_ret]. replace (o + i + Z.of_nat 0) with (o + i) by lia. apply meq_sym, (add_empty _ A).
  - apply restores_ext with (join (mk (o + i) (o + i + 1)) (mk (o + (i + 1)) (o + (i + 1) + Z.of_nat n))).
    + replace (o + (i + 1) + Z.of_nat n) with (o + i + Z.of_nat (Datatypes.S n)) by lia. replace (o + (i + 1)) with (o + i + 1) by lia.
      apply meq_sym, (add_join _ A). lia.
    + apply restores_bind; [apply H; lia|]. apply IH. intros j Hj. apply H. lia.
Qed.
Lemma restores_join mk lo mid hi (a b : M st unit) : additive mk -> lo <= mid <= hi -> restores (mk lo mid) a -> restores (mk mid hi) b -> restores (mk lo hi) (a;; b).
Proof.
  intros A H Ha Hb. apply restores_ext with (join (mk lo mid) (mk mid hi)); [|by apply restores_bind].
  by apply meq_sym, (add_join _ A).
Qed.

(** ** Single cells *)
Lemma image_u16 s r i : width r = 16 -> image s r i = mem_u16 s (saved_at r + 2 * i).
Proof. by destruct r. Qed.
Lemma conv_u16 r v : width r = 16 -> rconv r v = u16 v.
Proof. by destruct r. Qed.
Lemma mem_u16_range `{!NorLaws F} s a : 0 <= mem_u16 s a < 2 ^ 16.
Proof.
  unfold mem_u16. pose proof (le_value_range (mem_bytes s a 2)) as R. rewrite mem_bytes_length in R. apply R.
  unfold mem_bytes. apply Forall_fmap, Forall_forall. intros i _. apply peek_ok.
Qed.
(** A write of one cell, bit by bit. *)
Lemma wr_merged m r i v s : wf_elem (elem s) -> 0 <= i < rsize r ->
  (forall k, 0 <= k < width r -> Z.testbit (rconv r v) k = Z.testbit (if mb m r i k then image s r i else cell r i s) k) ->
  (forall q j k, 0 <= j < rsize q -> 0 <= k < width q -> ~ (q = r /\ j = i) -> mb m q j k = false) ->
  (forall j, mc m j = false) -> (forall j, mt m j = false) -> exists s', wr r i v s = Ok (tt, s') /\ merged m s s'.
Proof.
  intros W Hi Hv Hm Hc Ht. exists (upd r i v s). split; [by apply wr_upd|]. split.
  - change (wf_elem (elem (upd r i v s))). by apply upd_wf.
  - done.
  - intros q j k Hj Hk. rewrite (cell_upd q j r i v s) by done. destruct (decide (q = r /\ j = i)) as [[-> ->]|N]; [by apply Hv|]. by rewrite Hm.
  - intros j _. by rewrite Hc.
  - intros j _. by rewrite Ht.
Qed.
Lemma restores_bit r d k : bit_region r -> width r = 16 -> 0 <= d < rsize r -> 0 <= k < 16 ->
  restores (bits_mask r (16 * d + k) (16 * d + k + 1)) (set_bit_element_value r d (saved_at r + 2 * d) k).
Proof.
  intros R Wr Hd Hk s W. unfold set_bit_element_value. rewrite run_gets. rewrite (run_bind _ _ _ _ _ (rd_cell r d s W Hd)). rewrite <- image_u16 by done.
  rewrite bit_read by lia. set (m := bits_mask r (16 * d + k) (16 * d + k + 1)).
  assert (Hm : forall j, 0 <= j < 16 -> mb m r d j = (j =? k)) by (intros j Hj; cbn; rewrite bool_decide_true by done; cbn; lia).
  assert (Ho : forall q j b, 0 <= j < rsize q -> 0 <= b < width q -> ~ (q = r /\ j = d) -> mb m q j b = false).
  { intros q j b Hj Hb N. cbn. case_bool_decide as D; [subst q; rewrite Wr in Hb; cbn|done]. assert (j <> d) by (intros ->; apply N; done). lia. }
  destruct (Z.testbit (image s r d) k) eqn:B; (apply wr_merged; [done..| |done|done|done]).
  - intros j Hj. rewrite Wr in Hj. rewrite (conv_u16 r _ Wr), testbit_set by lia. rewrite Hm by done. destruct (Z.eqb_spec j k); [by subst|done].
  - intros j Hj. rewrite Wr in Hj. rewrite (conv_u16 r _ Wr), testbit_reset by lia. rewrite Hm by done. destruct (Z.eqb_spec j k); [by subst|done].
Qed.
Lemma words_one r i q j k : mb (words_mask r i (i + 1)) q j k = bool_decide (q = r) && (j =? i).
Proof. cbn. case_bool_decide; cbn; [lia|done]. Qed.
Lemma restores_word r i v : 0 <= i < rsize r -> (forall s, v s = image s r i \/ rconv r (v s) = image s r i) ->
  (forall s, rconv r (image s r i) = image s r i) -> restores (words_mask r i (i + 1)) (w ← gets v; wr r i w).
Proof.
  intros Hi Hv Hc s W. rewrite run_gets. apply wr_merged; [done|done| | |done|done].
  - intros k Hk. rewrite words_one, bool_decide_true, Z.eqb_refl by done. cbn [andb]. destruct (Hv s) as [-> | ->]; [by rewrite Hc|done].
  - intros q j k Hj Hk N. rewrite words_one. case_bool_decide; [subst; cbn|done]. apply Z.eqb_neq. intros ->. by apply N.
Qed.

Context `{!NorLaws F}.
Lemma mem_u32_range s a : 0 <= mem_u32 s a < 2 ^ 32.
Proof.
  unfold mem_u32. pose proof (le_value_range (mem_bytes s a 4)) as R. rewrite mem_bytes_length in R. apply R.
  unfold mem_bytes. apply Forall_fmap, Forall_forall. intros i _. apply peek_ok.
Qed.
Lemma restores_copy_u16 r i a : width r = 16 -> 0 <= i < rsize r -> a = saved_at r + 2 * i -> restores (words_mask r i (i + 1)) (copy_u16 r i a).
Proof.
  intros Wr Hi ->. apply restores_word; [done| |]; intros s; rewrite image_u16 by done; [by left|].
  rewrite conv_u16 by done. apply u16_id, mem_u16_range.
Qed.
Lemma restores_copy_u32 r i a : r = C32_VALUE \/ r = T_START -> 0 <= i < rsize r -> a = saved_at r + 4 * i -> restores (words_mask r i (i + 1)) (copy_u32 r i a).
Proof.
  intros Hr Hi ->. apply restores_word; [done| |]; intros s; destruct Hr as [-> | ->]; cbn [image rconv]; [by right|by left| |].
  - pose proof (s32_range (mem_u32 s (saved_at C32_VALUE + 4 * i))) as H. unfold s32 at 1. rewrite u32_s32. reflexivity.
  - apply u32_id, mem_u32_range.
Qed.
Lemma status_lookup {A} (l : list A) n x i : 0 <= n < Z.of_nat (length l) ->
  zlookup (<[Z.to_nat n := x]> l) i = if (n <=? i) && (i <? n + 1) then Some x else zlookup l i.
Proof.
  intros Hn. rewrite zlookup_insert by (by apply zlookup_is_Some). destruct (decide (i = n)) as [->|N].
  - assert ((n <=? n) && (n <? n + 1) = true) as -> by lia. done.
  - assert ((n <=? i) && (i <? n + 1) = false) as -> by lia. done.
Qed.
Lemma restores_c_status n : 0 <= n < C_RANG -> restores (c_mask n (n + 1))
  (b ← gets (fun s => mem_byte s (saved_c_status + n)); wr_c_status n (fun _ => c_status_of b)).
Proof.
  intros Hn s W. rewrite run_gets. destruct (wr_c_status_run n (fun _ => c_image s n) s W Hn) as (c & Lc & E). eexists. split; [exact E|].
  pose proof (wr_c_status_wf _ _ _ _ _ E W) as W'. split; [exact W'|done|done| |done].
  intros i Hi. unfold elem. rewrite sget_sset. cbn [c_StatusInfo with_c_status mc c_mask]. rewrite status_lookup by (by eapply zlookup_lt).
  destruct (_ && _) eqn:B; [|done]. by assert (i = n) as -> by lia.
Qed.
Lemma restores_t_status n : 0 <= n < T_RANG -> restores (t_mask n (n + 1))
  (b ← gets (fun s => mem_byte s (saved_t_status + n)); wr_t_status n (fun _ => t_status_of b)).
Proof.
  intros Hn s W. rewrite run_gets. destruct (wr_t_status_run n (fun _ => t_image s n) s W Hn) as (c & Lc & E). eexists. split; [exact E|].
  pose proof (wr_t_status_wf _ _ _ _ _ E W) as W'. split; [exact W'|done|done|done|].
  intros i Hi. unfold elem. rewrite sget_sset. cbn [t_StatusInfo with_t_status mt t_mask]. rewrite status_lookup by (by eapply zlookup_lt).
  destruct (_ && _) eqn:B; [|done]. by assert (i = n) as -> by lia.
Qed.

(** ** Ranges *)
(** A loop over cells numbered from [o + i]. *)
Lemma restores_cells mk o i n (f : Z -> M st unit) : additive mk -> (forall j, i <= j < n -> restores (mk (o + j) (o + j + 1)) (f j)) -> i <= n ->
  restores (mk (o + i) (o + n)) (for_up (Z.to_nat (n - i)) i f).
Proof.
  intros A H Hn. replace (o + n) with (o + i + Z.of_nat (Z.to_nat (n - i))) by lia. apply restores_range; [done|].
  intros j Hj. apply H. lia.
Qed.
Lemma restores_bits r d lo hi : bit_region r -> width r = 16 -> 0 <= d < rsize r -> 0 <= lo <= hi -> hi <= 16 ->
  restores (bits_mask r (16 * d + lo) (16 * d + hi)) (for_up (Z.to_nat (hi - lo)) lo (fun i => set_bit_element_value r d (saved_at r + 2 * d) i)).
Proof. intros R Wr Hd H1 H2. apply restores_cells; [apply bits_additive| |lia]. intros j Hj. apply restores_bit; (done || lia). Qed.
Lemma restores_copy_bits r d len : bit_region r -> width r = 16 -> 0 <= d -> 0 <= len -> 16 * d + len <= 16 * rsize r ->
  restores (bits_mask r (16 * d) (16 * d + len)) (copy_bit_element (saved_at r + 2 * d) r d len).
Proof.
  intros R Wr Hd Hl Hs. unfold copy_bit_element. destruct (Z.ltb_spec len 16) as [H|H].
  - destruct (decide (len = 0)) as [->|N].
    { apply restores_ext with none; [|apply restores_ret]. rewrite Z.add_0_r. apply meq_sym, bits_additive. }
    pose proof (restores_bits r d 0 len R Wr) as P. rewrite Z.add_0_r, Z.sub_0_r in P. apply P; lia.
  - pose proof (bit_split len ltac:(lia)) as Sp. pose proof (bit_pos len) as Bp. change (Z.land len 15) with (Z.land len 0x0F) in *.
    set (c := Z.shiftr len 4) in *. set (l := Z.land len 0x0F) in *.
    apply restores_join with (16 * (d + c)); [apply bits_additive|lia| |].
    + apply restores_ext with (words_mask r d (d + c)).
      { apply words_bits, Wr. }
      pose proof (restores_cells (words_mask r) d 0 c (fun i => copy_u16 r (d + i) (saved_at r + 2 * d + 2 * i)) (words_additive r)) as P.
      rewrite Z.add_0_r, Z.sub_0_r in P. apply P; [|lia]. intros j Hj. apply restores_copy_u16; (done || lia).
    + unfold when, truthy. destruct (Z.eqb_spec l 0) as [E|E]; cbn [negb].
      * apply restores_ext with none; [|apply restores_ret]. replace (16 * d + len) with (16 * (d + c)) by lia. apply meq_sym, bits_additive.
      * pose proof (restores_bits r (d + c) 0 l R Wr) as P. rewrite Z.add_0_r, Z.sub_0_r in P.
        replace (16 * (d + c) + l) with (16 * d + len) in P by lia. replace (saved_at r + 2 * (d + c)) with (saved_at r + 2 * d + 2 * c) in P by lia.
        apply P; lia.
Qed.
Lemma restores_bit_element r lo len : bit_region r -> width r = 16 -> 0 <= lo -> 0 <= len -> lo + len <= 16 * rsize r -> lo + len <= 2 ^ 15 ->
  restores (bits_mask r lo (lo + len)) (restore_bit_element (saved_at r) r lo len).
Proof.
  intros R Wr H0 Hl Hs Hb. unfold restore_bit_element. pose proof (bit_split lo H0) as Sp. pose proof (bit_pos lo) as Bp.
  change (Z.land lo 15) with (Z.land lo 0x0F) in *. set (d := Z.shiftr lo 4) in *. set (b := Z.land lo 0x0F) in *.
  assert (lo mod 16 = b) as Mb by (rewrite Sp, Z.add_comm, Z.mod_add by lia; apply Z.mod_small; lia). rewrite Mb.
  rewrite u16_id by lia. destruct (Z.eqb_spec b 0) as [B|B].
  - replace lo with (16 * d) at 1 2 by lia. apply restores_copy_bits; (done || lia).
  - destruct (Z.ltb_spec 16 (b + len)) as [E|E].
    + apply restores_join with (16 * d + 16); [apply bits_additive|lia| |].
      * replace lo with (16 * d + b) by lia. apply restores_bits; (done || lia).
      * rewrite u16_id by lia. assert (len - (16 - b) =? 0 = false) as -> by lia.
        replace (16 * d + 16) with (16 * (d + 1)) by lia. replace (lo + len) with (16 * (d + 1) + (len - (16 - b))) by lia.
        replace (saved_at r + 2 * d + 2) with (saved_at r + 2 * (d + 1)) by lia. apply restores_copy_bits; (done || lia).
    + replace lo with (16 * d + b) at 1 by lia. replace (lo + len) with (16 * d + (b + len)) by lia.
      destruct (decide (len = 0)) as [->|N]; [|apply restores_bits; (done || lia)].
      replace (b + 0 - b) with 0 by lia. apply restores_ext with none; [|apply restores_ret]. rewrite Z.add_0_r. apply meq_sym, bits_additive.
Qed.

(** ** A mask determines the result *)
Lemma bits_determine r a b : cell_ok r a -> cell_ok r b -> (forall k, 0 <= k < width r -> Z.testbit a k = Z.testbit b k) -> a = b.
Proof.
  intros Ha Hb H. assert (E : a mod 2 ^ width r = b mod 2 ^ width r).
  { apply Z.bits_inj'. intros k Hk. destruct (decide (k < width r)) as [L|L].
    - rewrite !Z.mod_pow2_bits_low by done. by apply H.
    - rewrite !Z.mod_pow2_bits_high by (destruct r; cbn in *; lia). done. }
  destruct r; cbn [width cell_ok] in *; try (rewrite !Z.mod_small in E by lia; exact E).
  Z.to_euclidean_division_equations; lia.
Qed.
Lemma lists_determine {A} (l l' : list A) n : Z.of_nat (length l) = n -> Z.of_nat (length l') = n -> (forall i, 0 <= i < n -> zlookup l i = zlookup l' i) -> l = l'.
Proof.
  intros L1 L2 H. apply list_eq. intros j. destruct (decide (j < length l)%nat) as [J|J].
  - specialize (H (Z.of_nat j) ltac:(lia)). unfold zlookup in H. rewrite !decide_True, Nat2Z.id in H by lia. exact H.
  - rewrite !lookup_ge_None_2 by lia. done.
Qed.
Lemma elem_ext e e' : (forall r, rget e r = rget e' r) -> c_StatusInfo e = c_StatusInfo e' -> t_StatusInfo e = t_StatusInfo e' -> e = e'.
Proof.
  intros R C T. destruct e, e'. cbn in C, T.
  f_equal; first [exact C|exact T|exact (R X_ELEMENT)|exact (R Y_ELEMENT)|exact (R M_ELEMENT)|exact (R LM_ELEMENT)|exact (R SM_ELEMENT)|exact (R S_ELEMENT)
    |exact (R D_ELEMENT)|exact (R R_ELEMENT)|exact (R SD_ELEMENT)|exact (R V_ELEMENT)|exact (R Z_ELEMENT)|exact (R C_ELEMENT)|exact (R C16_VALUE)|exact (R C32_VALUE)
    |exact (R T_ELEMENT)|exact (R T_CURRENT)|exact (R T_DEST)|exact (R T_START)].
Qed.
Lemma merged_unique m s s1 s2 : merged m s s1 -> merged m s s2 -> s1 = s2.
Proof.
  intros [W1 (F1 & G1 & H1) B1 C1 T1] [W2 (F2 & G2 & H2) B2 C2 T2].
  assert (R : forall r, rget (elem s1) r = rget (elem s2) r).
  { intros r. apply (lists_determine _ _ (rsize r)); [by apply wf_len..|]. intros i Hi.
    destruct (rd_run r i s1 W1 Hi) as (v1 & _ & L1 & K1), (rd_run r i s2 W2 Hi) as (v2 & _ & L2 & K2). rewrite L1, L2. f_equal.
    apply (bits_determine r); [done..|]. intros k Hk. specialize (B1 r i k Hi Hk). rewrite <- B2 in B1 by done.
    unfold cell in B1. by rewrite L1, L2 in B1. }
  assert (C : c_StatusInfo (elem s1) = c_StatusInfo (elem s2)).
  { apply (lists_determine _ _ C_RANG); [by apply wf_c_len..|]. intros i Hi. by rewrite C1, C2. }
  assert (T : t_StatusInfo (elem s1) = t_StatusInfo (elem s2)).
  { apply (lists_determine _ _ T_RANG); [by apply wf_t_len..|]. intros i Hi. by rewrite T1, T2. }
  pose proof (elem_ext _ _ R C T) as E. unfold elem in E. destruct s1, s2; cbn in F1, G1, H1, F2, G2, H2, E. by subst.
Qed.

(** Restoring a range of bit elements, whole words at a time with loose
    bits at both ends, does exactly what copying the bits of the range one by
    one from the flash does. *)
Theorem restore_bits_one_by_one r lo len s : wf_elem (elem s) -> bit_region r -> width r = 16 -> 0 <= lo -> 0 <= len ->
  lo + len <= 16 * rsize r -> lo + len <= 2 ^ 15 -> exists s',
  restore_bit_element (saved_at r) r lo len s = Ok (tt, s') /\
  for_up (Z.to_nat len) lo (fun n => set_bit_element_value r (n / 16) (saved_at r + 2 * (n / 16)) (n mod 16)) s = Ok (tt, s').
Proof.
  intros W R Wr H0 Hl Hs Hb. destruct (restores_bit_element r lo len R Wr H0 Hl Hs Hb s W) as (s1 & E1 & M1).
  assert (P : restores (bits_mask r lo (lo + len)) (for_up (Z.to_nat len) lo (fun n => set_bit_element_value r (n / 16) (saved_at r + 2 * (n / 16)) (n mod 16)))).
  { pose proof (restores_cells (bits_mask r) 0 lo (lo + len) (fun n => set_bit_element_value r (n / 16) (saved_at r + 2 * (n / 16)) (n mod 16)) (bits_additive r)) as P.
    replace (lo + len - lo) with len in P by lia. apply P; [|lia]. intros j Hj.
    replace (0 + j) with (16 * (j / 16) + j mod 16) by (pose proof (Z.div_mod j 16); lia).
    apply (restores_bit r (j / 16) (j mod 16)); try done; Z.to_euclidean_division_equations; lia. }
  destruct (P s W) as (s2 & E2 & M2). exists s1. split; [done|]. by rewrite (merged_unique _ _ _ _ M1 M2).
Qed.

(** ** Elements *)
(** The kind of element a bit of the memory belongs to, and its number. *)
Definition owner (r : region) (i k : Z) : option (Z * Z) :=
  match r with
  | M_ELEMENT => Some (PLSD_M, 16 * i + k) | S_ELEMENT => Some (PLSD_S, 16 * i + k)
  | C_ELEMENT => Some (PLSD_C, 16 * i + k) | C16_VALUE => Some (PLSD_C, i) | C32_VALUE => Some (PLSD_C, C16_RANG + i)
  | T_ELEMENT => Some (PLSD_T, 16 * i + k) | T_CURRENT | T_DEST | T_START => Some (PLSD_T, i)
  | D_ELEMENT => Some (PLSD_D, i)
  | _ => None
  end.
(** The elements that [P] marks, with all that belongs to them. *)
Definition marked (P : Z -> Z -> bool) : mask :=
  {| mb r i k := match owner r i k with Some (j, n) => P j n | None => false end; mc := P PLSD_C; mt := P PLSD_T |}.
Lemma marked_ext P Q : (forall j n, P j n = Q j n) -> meq (marked P) (marked Q).
Proof. intros H. split; intros; cbn [marked mb mc mt]; [|apply H..]. destruct (owner _ _ _) as [[]|]; [apply H|done]. Qed.
Lemma marked_none P : (forall j n, P j n = false) -> meq none (marked P).
Proof. intros H. split; intros; cbn [none marked mb mc mt]; [|by rewrite H..]. destruct (owner _ _ _) as [[]|]; [by rewrite H|done]. Qed.
Lemma marked_join P Q R : (forall j n, P j n || Q j n = R j n) -> meq (join (marked P) (marked Q)) (marked R).
Proof. intros H. split; intros; cbn [join marked mb mc mt]; [|apply H..]. destruct (owner _ _ _) as [[]|]; [apply H|done]. Qed.
Definition within (kind lo hi j n : Z) : bool := (j =? kind) && (lo <=? n) && (n <? hi).
(** The ranges there are; one of counters does not cross from the 16-bit ones
    to the 32-bit ones. *)
Definition range_ok (kind lo len : Z) : Prop :=
  0 <= lo /\ 0 <= len /\
  ((kind = PLSD_M /\ lo + len <= M_RANG) \/ (kind = PLSD_S /\ lo + len <= S_RANG) \/
   (kind = PLSD_C /\ (lo + len <= C16_RANG /\ lo < C16_RANG \/ C16_RANG <= lo /\ lo + len <= C_RANG)) \/
   (kind = PLSD_T /\ lo + len <= T_RANG) \/ (kind = PLSD_D /\ lo + len <= D_RANG)).
Lemma restores_u16 r lo len : width r = 16 -> 0 <= lo -> 0 <= len -> lo + len <= rsize r ->
  restores (words_mask r lo (lo + len)) (restore_u16_element (saved_at r) r lo len).
Proof.
  intros Wr H0 Hl Hs. pose proof (restores_cells (words_mask r) lo 0 len (fun i => copy_u16 r (lo + i) (saved_at r + 2 * (lo + i))) (words_additive r)) as P.
  rewrite Z.add_0_r, Z.sub_0_r in P. apply P; [|done]. intros j Hj. apply restores_copy_u16; (done || lia).
Qed.
Lemma restores_u32 r lo len : r = C32_VALUE \/ r = T_START -> 0 <= lo -> 0 <= len -> lo + len <= rsize r ->
  restores (words_mask r lo (lo + len)) (restore_u32_element (saved_at r) r lo len).
Proof.
  intros Hr H0 Hl Hs. pose proof (restores_cells (words_mask r) lo 0 len (fun i => copy_u32 r (lo + i) (saved_at r + 4 * (lo + i))) (words_additive r)) as P.
  rewrite Z.add_0_r, Z.sub_0_r in P. apply P; [|done]. intros j Hj. apply restores_copy_u32; (done || lia).
Qed.
Lemma restores_c_range lo len : 0 <= lo -> 0 <= len -> lo + len <= C_RANG -> restores (c_mask lo (lo + len)) (restore_c_status lo len).
Proof.
  intros H0 Hl Hs. pose proof (restores_cells c_mask lo 0 len (fun i => b ← gets (fun s => mem_byte s (saved_c_status + (lo + i))); wr_c_status (lo + i) (fun _ => c_status_of b)) c_additive) as P.
  rewrite Z.add_0_r, Z.sub_0_r in P. apply P; [|done]. intros j Hj. apply restores_c_status. lia.
Qed.
Lemma restores_t_range lo len : 0 <= lo -> 0 <= len -> lo + len <= T_RANG -> restores (t_mask lo (lo + len)) (restore_t_status lo len).
Proof.
  intros H0 Hl Hs. pose proof (restores_cells t_mask lo 0 len (fun i => b ← gets (fun s => mem_byte s (saved_t_status + (lo + i))); wr_t_status (lo + i) (fun _ => t_status_of b)) t_additive) as P.
  rewrite Z.add_0_r, Z.sub_0_r in P. apply P; [|done]. intros j Hj. apply restores_t_status. lia.
Qed.
(** The premises about sizes. *)
Ltac sized := first [done | split; discriminate | by right | by left | unfold T_RANG, C_RANG, C16_RANG; lia
  | match goal with |- context [rsize ?r] => let v := eval vm_compute in (rsize r) in change (rsize r) with v; unfold C16_RANG; lia end].
(** Masks agree: by the region and the kind. *)
Ltac masks := split; [intros r i k Hi Hk; destruct r; cbn in *|intros i Hi; cbn in *..]; unfold within, PLSD_M, PLSD_S, PLSD_C, PLSD_T, PLSD_D, C16_RANG in *;
  repeat case_bool_decide; try discriminate; cbn [Z.eqb Pos.eqb andb orb]; try done; lia.
Lemma restores_element kind lo len : range_ok kind lo len -> restores (marked (within kind lo (lo + len))) (restore_element kind lo len).
Proof.
  intros (H0 & Hl & [[-> H]|[[-> H]|[[-> H]|[[-> H]|[-> H]]]]]); unfold M_RANG, S_RANG, C_RANG, C16_RANG, T_RANG, D_RANG in H.
  - eapply restores_ext; [|apply (restores_bit_element M_ELEMENT); sized]. masks.
  - eapply restores_ext; [|apply (restores_bit_element S_ELEMENT); sized]. masks.
  - unfold restore_element. cbn [PLSD_C PLSD_M PLSD_S Z.eqb Pos.eqb].
    destruct (Z.ltb_spec lo C16_RANG) as [C|C]; unfold C16_RANG in C.
    + eapply restores_ext; [|apply restores_bind; [apply (restores_bit_element C_ELEMENT); sized|
        apply restores_bind; [apply (restores_u16 C16_VALUE); sized|apply restores_c_range; sized]]]. masks.
    + rewrite u16_id by (unfold C16_RANG; lia). eapply restores_ext; [|apply restores_bind; [apply (restores_bit_element C_ELEMENT); sized|
        apply restores_bind; [apply (restores_u32 C32_VALUE); sized|apply restores_c_range; sized]]].
      unfold C16_RANG. masks.
  - unfold restore_element. cbn [PLSD_T PLSD_C PLSD_M PLSD_S Z.eqb Pos.eqb].
    eapply restores_ext; [|repeat apply restores_bind; [apply (restores_bit_element T_ELEMENT); sized|apply (restores_u16 T_CURRENT); sized|
      apply (restores_u16 T_DEST); sized|apply (restores_u32 T_START); sized|apply restores_t_range; sized]]. masks.
  - eapply restores_ext; [|apply (restores_u16 D_ELEMENT); sized]. masks.
Qed.

(** ** The configured ranges *)
Definition in_item (a : plc_plsd_item_st) (n : Z) : bool := (msv_StartElement a <=? n) && (n <? msv_StartElement a + msv_Length a).
Definition in_group (g : list plc_plsd_item_st) (i n : Z) : bool := match zlookup g i with Some a => in_item a n | None => false end.
(** Element [n] of kind [i] is to be kept. *)
Definition kept (s : st) (i n : Z) : bool := in_group (group1 s) i n || in_group (group2 s) i n.
Definition group_ok (g : list plc_plsd_item_st) : Prop :=
  length g = 5%nat /\ forall i a, zlookup g i = Some a -> msv_Length a <> 0 -> range_ok i (msv_StartElement a) (msv_Length a).
Definition config_ok (s : st) : Prop := group_ok (group1 s) /\ group_ok (group2 s) /\
  forall i a, zlookup (group1 s) i = Some a \/ zlookup (group2 s) i = Some a -> 0 <= msv_Length a.
Lemma restores_item i a : (msv_Length a <> 0 -> range_ok i (msv_StartElement a) (msv_Length a)) ->
  restores (marked (fun j n => (j =? i) && in_item a n)) (restore_item i a).
Proof.
  intros H. unfold restore_item, when, truthy. destruct (Z.eqb_spec (msv_Length a) 0) as [E|E]; cbn [negb].
  - apply restores_ext with none; [|apply restores_ret]. unfold in_item. rewrite E.
    assert (X : forall j n, (j =? i) && ((msv_StartElement a <=? n) && (n <? msv_StartElement a + 0)) = false) by lia.
    by apply marked_none.
  - eapply restores_ext; [|by apply restores_element, H]. unfold in_item, within.
    apply marked_ext. intros j n. lia.
Qed.
Lemma restore_kinds_run s0 n i s : config_ok s0 -> group1 s = group1 s0 -> group2 s = group2 s0 -> wf_elem (elem s) -> 0 <= i -> i + Z.of_nat n <= 5 ->
  exists s', for_up n i (fun i => (a ← item1 i; restore_item i a);; b ← item2 i; restore_item i b) s = Ok (tt, s') /\
    merged (marked (fun j e => (i <=? j) && (j <? i + Z.of_nat n) && kept s0 j e)) s s'.
Proof.
  intros ([L1 V1] & [L2 V2] & _). revert i s. induction n as [|n IH]; intros i s G1 G2 W H0 Hn.
  { exists s. split; [done|]. apply merged_ext with none; [|by split].
    assert (X : forall j e, (i <=? j) && (j <? i + Z.of_nat 0) && kept s0 j e = false) by (change (Z.of_nat 0) with 0; intros j e; destruct (kept s0 j e); lia).
    by apply marked_none. }
  destruct (proj2 (zlookup_is_Some (group1 s0) i)) as [a Ha]; [lia|]. destruct (proj2 (zlookup_is_Some (group2 s0) i)) as [b Hb]; [lia|].
  destruct (restores_item i a (V1 i a Ha) s W) as (s1 & E1 & M1). pose proof M1 as [W1 (F1 & A1 & B1) _ _ _].
  destruct (restores_item i b (V2 i b Hb) s1 W1) as (s2 & E2 & M2). pose proof M2 as [W2 (F2 & A2 & B2) _ _ _].
  destruct (IH (i + 1) s2) as (s3 & E3 & M3); [congruence|congruence|done|lia|lia|]. exists s3. split.
  - cbn [for_up]. rewrite (run_bind _ _ s s2 tt); [exact E3|]. rewrite (run_bind _ _ s s1 tt).
    + rewrite (run_bind _ _ s1 s1 b); [done|]. unfold item2. by rewrite run_gets, B1, G2, Hb.
    + rewrite (run_bind _ _ s s a); [done|]. unfold item1. by rewrite run_gets, G1, Ha.
  - pose proof (merged_ext _ _ _ _ (marked_join _ _ _ (fun _ _ => eq_refl)) (merged_join _ _ _ _ _ M1 M2)) as M12.
    refine (merged_ext _ _ _ _ (marked_join _ _ _ _) (merged_join _ _ _ _ _ M12 M3)). intros j e. cbn beta.
    destruct (Z.eqb_spec j i) as [->|N].
    + assert (i <=? i = true) as -> by lia. assert (i <? i + Z.of_nat (Datatypes.S n) = true) as -> by (apply Z.ltb_lt; lia). assert (i + 1 <=? i = false) as -> by lia.
      unfold kept, in_group. rewrite Ha, Hb. cbn [andb]. by rewrite orb_false_r.
    + replace (i + Z.of_nat (Datatypes.S n)) with (i + 1 + Z.of_nat n) by lia.
      assert (i <=? j = (i + 1 <=? j)) as -> by lia. done.
Qed.
Lemma kept_kind s i n : config_ok s -> kept s i n = true -> 0 <= i < 5.
Proof.
  intros ([L1 _] & [L2 _] & _). unfold kept, in_group. destruct (zlookup (group1 s) i) as [a|] eqn:Ea; [intros _; apply zlookup_lt in Ea; lia|].
  destruct (zlookup (group2 s) i) as [b|] eqn:Eb; [intros _; apply zlookup_lt in Eb; lia|done].
Qed.
(** Restoring, when something has been saved. *)
Lemma restore_data_run s : config_ok s -> wf_elem (elem s) -> mem_u32 s FLASH_ADDRESS_RESTORE_BASE <> 0xFFFFFFFF -> exists s',
  plsd_restore_data s = Ok (tt, s') /\ merged (marked (kept s)) s s'.
Proof.
  intros C W Hm. destruct (restore_kinds_run s 5 0 s C eq_refl eq_refl W ltac:(lia) ltac:(lia)) as (s' & E & M). exists s'. split.
  - unfold plsd_restore_data. rewrite run_gets. assert (mem_u32 s FLASH_ADDRESS_RESTORE_BASE =? 0xFFFFFFFF = false) as -> by lia. exact E.
  - eapply merged_ext; [|exact M].
    assert (X : forall j e, (0 <=? j) && (j <? 0 + Z.of_nat 5) && kept s j e = kept s j e).
    { intros j e. destruct (kept s j e) eqn:K; [|by rewrite andb_false_r]. apply (kept_kind _ _ _ C) in K. change (0 + Z.of_nat 5) with 5. lia. }
    by apply marked_ext.
Qed.
End restore.
Definition plsd_start : plsd_st ram_chip := {| pl_mem := elem0; pl_flash := blank; group1 := replicate 5 no_item; group2 := replicate 5 no_item |}.
Lemma restore_bits_one_by_one_witness : exists s', restore_bit_element (saved_at M_ELEMENT) M_ELEMENT 5 40 plsd_start = Ok (tt, s') /\
  for_up 40 5 (fun n => set_bit_element_value M_ELEMENT (n / 16) (saved_at M_ELEMENT + 2 * (n / 16)) (n mod 16)) plsd_start = Ok (tt, s').
Proof.
  refine (restore_bits_one_by_one M_ELEMENT 5 40 plsd_start wf_elem0 _ _ _ _ _ _); try (split; discriminate); try reflexivity; try lia.
  vm_compute. discriminate.
Defined.
