(* ===== verification/PlsdSave.v ===== *)
(** * Saving through a power failure and restoring after it

    What plsd_save_data leaves in the flash, and the round trip through a
    restart: every element of the configured ranges comes back with all that
    belongs to it, and every other is left to the restarted program. *)
From stdpp Require Import base list numbers.
From S2P Require Import Prelude Bytes Element Flash FlashFacts Plsd PlsdFacts.

(** ** Bytes of arrays *)
Lemma le_value_mod n v : le_value (le_bytes n v) = v mod 2 ^ (8 * Z.of_nat n).
Proof.
  revert v. induction n as [|n IH]; intros v; [cbn; by rewrite Z.mod_1_r|]. cbn [le_bytes le_value]. rewrite IH.
  replace (8 * Z.of_nat (S n)) with (8 + 8 * Z.of_nat n) by lia. rewrite Z.pow_add_r by lia.
  rewrite Z.shiftr_div_pow2, Z.shiftl_mul_pow2 by lia. unfold u8. pose proof (Z.pow_pos_nonneg 2 (8 * Z.of_nat n)).
  rewrite Z.rem_mul_r by lia. lia.
Qed.
Lemma s32_u32 v : - 2 ^ 31 <= v < 2 ^ 31 -> s32 (v mod 2 ^ 32) = v.
Proof.
  intros H. unfold s32, u32. rewrite Zmod_mod. destruct (Z.ltb_spec (v mod 2 ^ 32) (2 ^ 31)); pose proof (Z.div_mod v (2 ^ 32)); pose proof (Z.mod_pos_bound v (2 ^ 32)); nia.
Qed.
Lemma bind_length w (l : list Z) : length (l ≫= le_bytes w) = (w * length l)%nat.
Proof. induction l as [|v l IH]; [cbn; lia|]. rewrite bind_cons, length_app, le_bytes_length, IH. cbn [length]. lia. Qed.
Lemma byte_at_bind w l a v j : zlookup l a = Some v -> 0 <= j < Z.of_nat w -> byte_at (l ≫= le_bytes w) (Z.of_nat w * a + j) = byte_at (le_bytes w v) j.
Proof.
  revert a. induction l as [|x l IH]; intros a Ha Hj; apply zlookup_Some in Ha as [H0 Ha]; [done|].
  rewrite bind_cons. destruct (Z.to_nat a) as [|k] eqn:E.
  - assert (a = 0) as -> by lia. injection Ha as ->. rewrite Z.mul_0_r. apply byte_app_l. rewrite le_bytes_length. lia.
  - replace (Z.of_nat w * a + j) with (Z.of_nat (length (le_bytes w x)) + (Z.of_nat w * (a - 1) + j)) by (rewrite le_bytes_length; lia).
    rewrite byte_app_r by nia. apply IH; [|done]. apply zlookup_Some. split; [lia|]. by replace (Z.to_nat (a - 1)) with k by lia.
Qed.
Lemma byte_at_map {A} (g : A -> Z) l i x : zlookup l i = Some x -> byte_at (g <$> l) i = g x.
Proof. intros H. apply zlookup_Some in H as [H0 H]. unfold byte_at, zlookup. rewrite decide_True by lia. by rewrite list_lookup_fmap, H. Qed.
Lemma le_bind_ok w l : Forall byte_ok (l ≫= le_bytes w).
Proof. induction l as [|x l IH]; [constructor|]. rewrite bind_cons. apply Forall_app. split; [apply le_bytes_ok|exact IH]. Qed.

(** States within their bit-fields. *)
Definition c_state_ok (c : plc_c_element_status_st) : Prop := 0 <= c_PowerFlow c < 2 /\ 0 <= c_Started c < 2.
Definition t_state_ok (t : plc_t_element_status_st) : Prop :=
  0 <= t_Enable t < 2 /\ 0 <= t_PowerFlow t < 2 /\ 0 <= t_Init t < 2 /\ 0 <= t_Type t < 4 /\ 0 <= t_Capacity t < 8.
Definition states_ok (e : plc_element_st) : Prop := Forall c_state_ok (c_StatusInfo e) /\ Forall t_state_ok (t_StatusInfo e).
Lemma c_state_back c : c_state_ok c -> c_status_of (c_status_byte c) = c.
Proof.
  destruct c as [p q]. unfold c_state_ok, c_status_of, c_status_byte. cbn. intros [Hp Hq]. rewrite u8_id by lia.
  f_equal; Z.to_euclidean_division_equations; lia.
Qed.
Lemma t_state_back t : t_state_ok t -> t_status_of (t_status_byte t) = t.
Proof.
  destruct t as [a b c d e]. unfold t_state_ok, t_status_of, t_status_byte. cbn. intros (Ha & Hb & Hc & Hd & He). rewrite u8_id by lia.
  f_equal; Z.to_euclidean_division_equations; lia.
Qed.

(** ** What is written where *)
Definition buffer (i : Z) (e : plc_element_st) : list Z :=
  if i =? PLSD_M then words_bytes (msp_MElement e) else if i =? PLSD_S then words_bytes (msp_SElement e) else if i =? PLSD_C then c_bytes e
  else if i =? PLSD_T then t_bytes e else words_bytes (msp_DElement e).
Definition area (i : Z) : Z * Z := default (0, 0) (zlookup flashAddr i).
Definition amount (i : Z) : Z := if i =? 0 then 2048 else if i =? 1 then 512 else if i =? 2 then 2224 else if i =? 3 then 4672 else 16000.
Lemma kinds i : 0 <= i < 5 -> i = 0 \/ i = 1 \/ i = 2 \/ i = 3 \/ i = 4.
Proof. lia. Qed.
Lemma region_length e r : wf_elem e -> length (rget e r) = Z.to_nat (rsize r).
Proof. intros W. pose proof (wf_len e W r). lia. Qed.
Lemma c_bytes_length e : wf_elem e -> length (c_bytes e) = Z.to_nat 2224.
Proof.
  intros W. unfold c_bytes, words_bytes, longs_bytes. rewrite !length_app, !bind_length, length_fmap.
  pose proof (region_length e C_ELEMENT W); pose proof (region_length e C16_VALUE W); pose proof (region_length e C32_VALUE W); pose proof (wf_c_len e W).
  cbn [rget] in *. change (Z.to_nat (rsize C_ELEMENT)) with 32%nat in *. change (Z.to_nat (rsize C16_VALUE)) with 200%nat in *.
  change (Z.to_nat (rsize C32_VALUE)) with 312%nat in *. unfold C_RANG in *. lia.
Qed.
Lemma t_bytes_length e : wf_elem e -> length (t_bytes e) = Z.to_nat 4672.
Proof.
  intros W. unfold t_bytes, words_bytes, longs_bytes. rewrite !length_app, !bind_length, length_fmap.
  pose proof (region_length e T_ELEMENT W); pose proof (region_length e T_CURRENT W); pose proof (region_length e T_DEST W); pose proof (region_length e T_START W); pose proof (wf_t_len e W).
  cbn [rget] in *. change (Z.to_nat (rsize T_ELEMENT)) with 32%nat in *. change (Z.to_nat (rsize T_CURRENT)) with 512%nat in *.
  change (Z.to_nat (rsize T_DEST)) with 512%nat in *. change (Z.to_nat (rsize T_START)) with 512%nat in *. unfold T_RANG in *. lia.
Qed.
Lemma buffer_length i e : wf_elem e -> 0 <= i < 5 -> Z.of_nat (length (buffer i e)) = if i =? PLSD_M then 16384 else amount i.
Proof.
  intros W Hi. unfold buffer, PLSD_M, PLSD_S, PLSD_C, PLSD_T, amount, words_bytes.
  destruct (kinds i Hi) as [->|[->|[->|[->| ->]]]]; cbn [Z.eqb Pos.eqb]; rewrite ?bind_length.
  - pose proof (region_length e M_ELEMENT W) as L. cbn [rget] in L. change (Z.to_nat (rsize M_ELEMENT)) with (Z.to_nat 8192) in L. lia.
  - pose proof (region_length e S_ELEMENT W) as L. cbn [rget] in L. change (Z.to_nat (rsize S_ELEMENT)) with (Z.to_nat 256) in L. lia.
  - pose proof (c_bytes_length e W). lia.
  - pose proof (t_bytes_length e W). lia.
  - pose proof (region_length e D_ELEMENT W) as L. cbn [rget] in L. change (Z.to_nat (rsize D_ELEMENT)) with (Z.to_nat 8000) in L. lia.
Qed.
Lemma buffer_ok i e : Forall byte_ok (buffer i e).
Proof.
  unfold buffer, c_bytes, t_bytes, words_bytes, longs_bytes.
  repeat case_match; rewrite ?Forall_app; repeat (split || apply le_bind_ok || (apply Forall_fmap, Forall_forall; intros ? _; apply u8_range)).
Qed.

Section save.
Context {F : Type} `{!NorFlash F} `{!NorLaws F}.
Notation st := (plsd_st F).
Implicit Types (s : st) (e : plc_element_st).

(** ** One area *)
(** The area of kind [i] holds what there was to save of [e]. *)
Definition holds (i : Z) (e : plc_element_st) (s : st) : Prop := forall x, 0 <= x < amount i -> mem_byte s ((area i).1 + x) = byte_at (buffer i e) x.
Definition space (i : Z) : Z := sectors (area i).2.
Lemma save_area_run i s : wf_elem (elem s) -> 0 <= i < 5 -> exists g,
  save_area i s = Ok (MEM_OK, set_nor g s) /\ holds i (elem s) (set_nor g s) /\
  forall x, ~ (area i).1 <= x < (area i).1 + space i -> mem_byte (set_nor g s) x = mem_byte s x.
Proof.
  intros W Hi. pose proof (buffer_length i (elem s) W Hi) as L. pose proof (buffer_ok i (elem s)) as B.
  assert (Ar : zlookup flashAddr i = Some (area i)) by (by destruct (kinds i Hi) as [->|[->|[->|[->| ->]]]]).
  assert (P : ((area i).1 - FlexSPI_AMBA_BASE) mod SECTOR_SIZE = 0 /\ FlexSPI_AMBA_BASE <= (area i).1 /\ (area i).1 + (area i).2 <= 0x60300000 /\ 0 < amount i <= (area i).2)
    by (destruct (kinds i Hi) as [->|[->|[->|[->| ->]]]]; vm_compute; repeat split; discriminate).
  destruct P as (P1 & P2 & P3 & P4).
  destruct (store_area (area i).1 (area i).2 (buffer i (elem s)) (amount i) s P1 P2 P3 P4) as (f & Ef & g & Eg & Hg & Og); [|done|].
  { rewrite L. unfold PLSD_M, amount. destruct (Z.eqb_spec i 0); lia. }
  exists g. split; [|split; [exact Hg|exact Og]]. unfold save_area. rewrite (run_some _ (area i)) by done. rewrite (run_bind _ _ _ _ _ Ef). rewrite run_gets.
  change (pl_mem (set_nor f s)) with (elem s). cbv zeta.
  assert (N : i <> 0 -> Z.of_nat (length (buffer i (elem s))) = amount i) by (intros N; rewrite L; unfold PLSD_M; destruct (Z.eqb_spec i 0); lia).
  destruct (Z.eqb_spec i PLSD_M) as [->|Ne]; [exact Eg|]. rewrite <- N in Eg by done. unfold buffer in Eg.
  destruct (Z.eqb_spec i PLSD_M); [done|]. exact Eg.
Qed.

(** ** All five *)
Definition unused (s : st) (i : Z) : Prop :=
  (forall a, zlookup (group1 s) i = Some a -> msv_Length a = 0) /\ (forall a, zlookup (group2 s) i = Some a -> msv_Length a = 0).
(** [s'] is [s] but for the flash. *)
Definition but_flash (s s' : st) : Prop := elem s' = elem s /\ group1 s' = group1 s /\ group2 s' = group2 s.
(** The concrete addresses and sizes. *)
Ltac sized_areas :=
  repeat match goal with |- context [sectors (area ?c).2] => let v := eval vm_compute in (sectors (area c).2) in change (sectors (area c).2) with v end;
  repeat match goal with |- context [(area ?c).1] => let v := eval vm_compute in (area c).1 in change (area c).1 with v end;
  repeat match goal with |- context [amount ?c] => let v := eval vm_compute in (amount c) in change (amount c) with v end; lia.
Lemma area_apart i j x : 0 <= i < 5 -> 0 <= j < 5 -> i <> j -> 0 <= x < amount j -> ~ (area i).1 <= (area j).1 + x < (area i).1 + space i.
Proof.
  intros Hi Hj. unfold space. destruct (kinds i Hi) as [->|[->|[->|[->| ->]]]], (kinds j Hj) as [->|[->|[->|[->| ->]]]]; try done; intros _; sized_areas.
Qed.

Lemma save_kind_run i s : wf_elem (elem s) -> length (group1 s) = 5%nat -> length (group2 s) = 5%nat -> 0 <= i < 5 -> exists s' z,
  save_kind i s = Ok (z, s') /\ but_flash s s' /\ (z = true -> unused s i) /\ (z = false -> holds i (elem s) s') /\
  forall j, 0 <= j < 5 -> j <> i -> holds j (elem s) s -> holds j (elem s) s'.
Proof.
  intros W L1 L2 Hi. destruct (proj2 (zlookup_is_Some (group1 s) i)) as [a Ha]; [lia|]. destruct (proj2 (zlookup_is_Some (group2 s) i)) as [b Hb]; [lia|].
  assert (E : save_kind i s = (if (msv_Length a =? 0) && (msv_Length b =? 0) then mret true else save_area i;; mret false) s).
  { unfold save_kind, item1, item2. rewrite (run_bind _ _ s s a) by (by rewrite run_gets, Ha). by rewrite (run_bind _ _ s s b) by (by rewrite run_gets, Hb). }
  rewrite E. destruct ((msv_Length a =? 0) && (msv_Length b =? 0)) eqn:Z0.
  - exists s, true. split; [done|]. split; [done|]. split; [|done]. intros _. split; intros c Hc; [assert (c = a) as -> by congruence|assert (c = b) as -> by congruence]; lia.
  - destruct (save_area_run i s W Hi) as (g & Eg & Hg & Og). exists (set_nor g s), false. split; [by rewrite (run_bind _ _ _ _ _ Eg)|].
    split; [done|]. split; [done|]. split; [done|]. intros j Hj Hji Hold x Hx. rewrite Og; [by apply Hold|]. apply area_apart; (done || congruence).
Qed.
Lemma save_kinds_run n i z s : wf_elem (elem s) -> length (group1 s) = 5%nat -> length (group2 s) = 5%nat -> 0 <= i -> i + Z.of_nat n <= 5 -> exists s' z',
  save_kinds n i z s = Ok (z', s') /\ but_flash s s' /\ (z' = true -> forall j, i <= j < i + Z.of_nat n -> unused s j) /\
  (forall j, i <= j < i + Z.of_nat n -> ~ unused s j -> holds j (elem s) s') /\ (forall j, 0 <= j < i -> holds j (elem s) s -> holds j (elem s) s').
Proof.
  revert i z s. induction n as [|n IH]; intros i z s W L1 L2 H0 Hn.
  { exists s, z. split; [done|]. split; [done|]. split; [intros _ j Hj; lia|]. split; [intros j Hj; lia|done]. }
  destruct (save_kind_run i s W L1 L2 ltac:(lia)) as (s1 & z1 & E1 & (B1 & G1 & G2) & U1 & H1 & O1).
  destruct (IH (i + 1) (z && z1) s1) as (s2 & z2 & E2 & (B2 & K1 & K2) & U2 & H2 & O2); [by rewrite B1|by rewrite G1|by rewrite G2|lia|lia|].
  assert (X : forall j, unused s1 j <-> unused s j) by (intros j; unfold unused; by rewrite G1, G2).
  exists s2, z2. split; [cbn [save_kinds]; by rewrite (run_bind _ _ _ _ _ E1)|]. split; [split_and!; congruence|].
  assert (Fl : z2 = true -> z1 = true).
  { clear - E2. revert E2. generalize (i + 1). generalize (z && z1) as y, (andb_prop z z1). revert s1. induction n as [|n IH]; intros s1 y Hy k E.
    - injection E as -> ->. intros Ht. by apply Hy.
    - cbn [save_kinds] in E. apply bind_inv in E as (w & s3 & Ew & E). destruct y; [|].
      + by destruct z1; [|destruct (Hy eq_refl)].
      + cbn [andb] in E. by apply (IH s3 false Hy (k + 1)). }
  rewrite B1 in H2, O2. split; [|split].
  - intros Ht j Hj. destruct (decide (j = i)) as [->|N]; [by apply U1, Fl|]. apply X, U2; [done|lia].
  - intros j Hj Hu. destruct (decide (j = i)) as [->|N]; [|apply H2; [lia|by rewrite X]]. apply O2; [lia|]. apply H1. destruct z1; [|done]. by destruct (Hu (U1 eq_refl)).
  - intros j Hj Hold. apply O2; [lia|]. apply O1; (done || lia).
Qed.
Lemma magic_apart j x : 0 <= j < 5 -> 0 <= x < amount j -> ~ FLASH_ADDRESS_RESTORE_BASE <= (area j).1 + x < FLASH_ADDRESS_RESTORE_BASE + 4096.
Proof. intros Hj. unfold FLASH_ADDRESS_RESTORE_BASE. destruct (kinds j Hj) as [->|[->|[->|[->| ->]]]]; sized_areas. Qed.
Lemma save_data_run s : wf_elem (elem s) -> length (group1 s) = 5%nat -> length (group2 s) = 5%nat -> exists s',
  plsd_save_data s = Ok (tt, s') /\ but_flash s s' /\ (forall j, 0 <= j < 5 -> ~ unused s j -> holds j (elem s) s') /\
  ((forall j, 0 <= j < 5 -> unused s j) \/ mem_u32 s' FLASH_ADDRESS_RESTORE_BASE <> 0xFFFFFFFF).
Proof.
  intros W L1 L2. destruct (save_kinds_run 5 0 true s W L1 L2 ltac:(lia) ltac:(lia)) as (s1 & z & E1 & B1 & U & H & _). change (0 + Z.of_nat 5) with 5 in *.
  unfold plsd_save_data. change (Z.to_nat PLSD_MAX) with 5%nat. unfold PLSD_M. destruct z.
  { exists s1. split; [by rewrite (run_bind _ _ _ _ _ E1)|]. split; [done|]. split; [done|]. left. by apply U. }
  destruct (Z.eqb_spec (mem_u32 s1 FLASH_ADDRESS_RESTORE_BASE) PLSD_MAGIC) as [M|M].
  { exists s1. split; [rewrite (run_bind _ _ _ _ _ E1); cbn [negb]; by rewrite when_true, run_gets, M|]. split; [done|]. split; [done|]. right. by rewrite M. }
  destruct (store_area FLASH_ADDRESS_RESTORE_BASE 4096 (le_bytes 4 PLSD_MAGIC) 4 s1) as (f & Ef & g & Eg & Hg & Og);
    [by vm_compute|by vm_compute|by vm_compute|lia|by vm_compute|apply le_bytes_ok|].
  exists (set_nor g s1). split.
  { rewrite (run_bind _ _ _ _ _ E1). cbn [negb]. rewrite when_true, run_gets. assert (mem_u32 s1 FLASH_ADDRESS_RESTORE_BASE =? PLSD_MAGIC = false) as -> by lia. cbn [negb]. rewrite when_true.
    unfold write_magic. rewrite (run_bind _ _ _ _ _ Ef). by rewrite (run_bind _ _ _ _ _ Eg). }
  split; [done|]. split.
  - intros j Hj Hu x Hx. rewrite Og; [by apply H|]. change (sectors 4096) with 4096. by apply magic_apart.
  - right. unfold mem_u32. assert (mem_bytes (set_nor g s1) FLASH_ADDRESS_RESTORE_BASE 4 = le_bytes 4 PLSD_MAGIC) as ->; [|by vm_compute].
    apply (mem_bytes_list _ _ (le_bytes 4 PLSD_MAGIC)). exact Hg.
Qed.

(** ** What the flash then holds for each cell *)
Lemma number_saved i e s (w : nat) pre l post a v A : holds i e s -> buffer i e = pre ++ (l ≫= le_bytes w) ++ post -> zlookup l a = Some v ->
  A = (area i).1 + Z.of_nat (length pre) + Z.of_nat w * a -> Z.of_nat (length pre) + Z.of_nat (w * length l) <= amount i ->
  mem_bytes s A (Z.of_nat w) = le_bytes w v.
Proof.
  intros H B Ha -> Hs. pose proof (zlookup_lt _ _ _ Ha) as La.
  assert (E : mem_bytes s ((area i).1 + Z.of_nat (length pre) + Z.of_nat w * a) (Z.of_nat (length (le_bytes w v))) = le_bytes w v); [|by rewrite le_bytes_length in E].
  apply mem_bytes_list. rewrite le_bytes_length. intros j Hj.
  replace ((area i).1 + _ + _ + j) with ((area i).1 + (Z.of_nat (length pre) + (Z.of_nat w * a + j))) by lia.
  rewrite H by nia. rewrite B, byte_app_r by nia. rewrite byte_app_l by (rewrite bind_length; nia). by apply byte_at_bind.
Qed.
Lemma u16_saved i e s pre l post a v A : holds i e s -> buffer i e = pre ++ words_bytes l ++ post -> zlookup l a = Some v -> 0 <= v < 2 ^ 16 ->
  A = (area i).1 + Z.of_nat (length pre) + 2 * a -> Z.of_nat (length pre) + Z.of_nat (2 * length l) <= amount i -> mem_u16 s A = v.
Proof. intros H B Ha Hv EA Hs. unfold mem_u16. change 2 with (Z.of_nat 2). rewrite (number_saved i e s 2 pre l post a v) by done. by apply le_value_bytes. Qed.
Lemma u32_saved i e s pre l post a v A : holds i e s -> buffer i e = pre ++ longs_bytes l ++ post -> zlookup l a = Some v ->
  A = (area i).1 + Z.of_nat (length pre) + 4 * a -> Z.of_nat (length pre) + Z.of_nat (4 * length l) <= amount i -> mem_u32 s A = v mod 2 ^ 32.
Proof. intros H B Ha EA Hs. unfold mem_u32. change 4 with (Z.of_nat 4). rewrite (number_saved i e s 4 pre l post a v) by done. apply le_value_mod. Qed.
Lemma cell_in e r a : wf_elem e -> 0 <= a < rsize r -> exists v, zlookup (rget e r) a = Some v /\ cell_ok r v.
Proof.
  intros W Ha. destruct (proj2 (zlookup_is_Some (rget e r) a)) as [v Hv]; [rewrite (wf_len _ W); lia|]. exists v. split; [done|].
  apply zlookup_Some in Hv as [_ Hv]. exact (Forall_lookup_1 _ _ _ _ (wf_cells _ W r) Hv).
Qed.
(** Lengths of the arrays before and at a place, as numbers. *)
Ltac lengths W := unfold words_bytes, longs_bytes; rewrite ?length_app, ?bind_length;
  repeat match goal with |- context [length (?f ?e)] =>
    match f with
    | c_BitElement => rewrite (region_length e C_ELEMENT W : length (c_BitElement e) = 32%nat) | c_16BitValue => rewrite (region_length e C16_VALUE W : length (c_16BitValue e) = 200%nat)
    | c_32BitValue => rewrite (region_length e C32_VALUE W : length (c_32BitValue e) = 312%nat) | t_BitElement => rewrite (region_length e T_ELEMENT W : length (t_BitElement e) = 32%nat)
    | t_CurrentValue => rewrite (region_length e T_CURRENT W : length (t_CurrentValue e) = 512%nat) | t_DestValue => rewrite (region_length e T_DEST W : length (t_DestValue e) = 512%nat)
    | t_StartValue => rewrite (region_length e T_START W : length (t_StartValue e) = 512%nat) | msp_SElement => rewrite (region_length e S_ELEMENT W : length (msp_SElement e) = 256%nat)
    end end.
Lemma numbers_agree (x y o n : Z) a : x = y + o -> x + n * a = y + o + n * a.
Proof. lia. Qed.
(** The premises about the place of an array. *)
Ltac place W := first
  [ done | by apply s32_u32 | by apply Z.mod_small | by rewrite app_nil_r
  | change (buffer PLSD_C ?[e]) with (c_bytes ?e); unfold c_bytes; by rewrite <- !app_assoc
  | change (buffer PLSD_T ?[e]) with (t_bytes ?e); unfold t_bytes; by rewrite <- !app_assoc
  | apply numbers_agree; lengths W; by vm_compute
  | lengths W; vm_compute; discriminate ].
Lemma saved_M e s a v : wf_elem e -> holds PLSD_M e s -> 0 <= a < 1024 -> zlookup (msp_MElement e) a = Some v -> 0 <= v < 2 ^ 16 -> mem_u16 s (saved_at M_ELEMENT + 2 * a) = v.
Proof.
  intros W H Ha Hv Hr. unfold mem_u16. rewrite <- (le_value_bytes 2 v Hr). f_equal. apply (mem_bytes_list s _ (le_bytes 2 v)). rewrite le_bytes_length. intros j Hj.
  replace (saved_at M_ELEMENT + 2 * a + j) with ((area PLSD_M).1 + (2 * a + j)) by (change (area PLSD_M).1 with (saved_at M_ELEMENT); lia).
  rewrite H by (change (amount PLSD_M) with 2048; lia). change (buffer PLSD_M e) with (msp_MElement e ≫= le_bytes 2). by apply (byte_at_bind 2).
Qed.
Lemma saved_cell i e s r a k n : wf_elem e -> holds i e s -> owner r a k = Some (i, n) -> 0 <= a < rsize r -> 0 <= k -> (r = M_ELEMENT -> n < M_RANG) ->
  image s r a = default 0 (zlookup (rget e r) a).
Proof.
  intros W H O Ha Hk HM. destruct (cell_in e r a W Ha) as (v & Hv & Cv). rewrite Hv. cbn [default from_option].
  assert (Nil : forall l : list Z, l = l ++ []) by (intros; by rewrite app_nil_r).
  destruct r; try done; injection O as <- <-; cbn [image rget cell_ok] in *.
  - apply (saved_M e); try done. specialize (HM eq_refl). unfold M_RANG in HM. lia.
  - apply (u16_saved PLSD_S e s [] (msp_SElement e) [] a v); place W.
  - apply (u16_saved PLSD_D e s [] (msp_DElement e) [] a v); try place W.
    pose proof (region_length e D_ELEMENT W) as L. cbn [rget] in L. change (Z.to_nat (rsize D_ELEMENT)) with (Z.to_nat 8000) in L. change (amount PLSD_D) with 16000. cbn [length]. lia.
  - eapply (u16_saved PLSD_C e s [] (c_BitElement e) _ a v); place W.
  - eapply (u16_saved PLSD_C e s (words_bytes (c_BitElement e)) (c_16BitValue e) _ a v); place W.
  - erewrite (u32_saved PLSD_C e s (words_bytes (c_BitElement e) ++ words_bytes (c_16BitValue e)) (c_32BitValue e) (c_status_byte <$> c_StatusInfo e) a v); place W.
  - eapply (u16_saved PLSD_T e s [] (t_BitElement e) _ a v); place W.
  - eapply (u16_saved PLSD_T e s (words_bytes (t_BitElement e)) (t_CurrentValue e) _ a v); place W.
  - eapply (u16_saved PLSD_T e s (words_bytes (t_BitElement e) ++ words_bytes (t_CurrentValue e)) (t_DestValue e) (longs_bytes (t_StartValue e) ++ (t_status_byte <$> t_StatusInfo e)) a v); place W.
  - erewrite (u32_saved PLSD_T e s (words_bytes (t_BitElement e) ++ words_bytes (t_CurrentValue e) ++ words_bytes (t_DestValue e)) (t_StartValue e) (t_status_byte <$> t_StatusInfo e) a v); place W.
Qed.

(** The bytes behind the numbers: the states. *)
Lemma byte_saved i e s pre (l : list Z) x A : holds i e s -> buffer i e = pre ++ l -> 0 <= x < Z.of_nat (length l) ->
  A = (area i).1 + Z.of_nat (length pre) -> Z.of_nat (length pre) + Z.of_nat (length l) <= amount i -> mem_byte s (A + x) = byte_at l x.
Proof.
  intros H B Hx -> Hs. replace ((area i).1 + _ + x) with ((area i).1 + (Z.of_nat (length pre) + x)) by lia. rewrite H by lia. rewrite B. apply byte_app_r. lia.
Qed.
Lemma saved_c_state e s n c : wf_elem e -> states_ok e -> holds PLSD_C e s -> zlookup (c_StatusInfo e) n = Some c -> c_image s n = c.
Proof.
  intros W [Sc _] H Hc. pose proof (zlookup_lt _ _ _ Hc) as Hn. unfold c_image.
  rewrite (byte_saved PLSD_C e s (words_bytes (c_BitElement e) ++ words_bytes (c_16BitValue e) ++ longs_bytes (c_32BitValue e)) (c_status_byte <$> c_StatusInfo e) n); [|done| | | |].
  - rewrite (byte_at_map _ _ _ _ Hc). apply c_state_back. apply zlookup_Some in Hc as [_ Hc]. exact (Forall_lookup_1 _ _ _ _ Sc Hc).
  - change (buffer PLSD_C e) with (c_bytes e). unfold c_bytes. by rewrite <- !app_assoc.
  - by rewrite length_fmap.
  - lengths W. by vm_compute.
  - rewrite length_fmap. pose proof (wf_c_len e W). unfold C_RANG in *. lengths W. change (amount PLSD_C) with 2224. lia.
Qed.
Lemma saved_t_state e s n t : wf_elem e -> states_ok e -> holds PLSD_T e s -> zlookup (t_StatusInfo e) n = Some t -> t_image s n = t.
Proof.
  intros W [_ Sc] H Hc. pose proof (zlookup_lt _ _ _ Hc) as Hn. unfold t_image.
  rewrite (byte_saved PLSD_T e s (words_bytes (t_BitElement e) ++ words_bytes (t_CurrentValue e) ++ words_bytes (t_DestValue e) ++ longs_bytes (t_StartValue e)) (t_status_byte <$> t_StatusInfo e) n); [|done| | | |].
  - rewrite (byte_at_map _ _ _ _ Hc). apply t_state_back. apply zlookup_Some in Hc as [_ Hc]. exact (Forall_lookup_1 _ _ _ _ Sc Hc).
  - change (buffer PLSD_T e) with (t_bytes e). unfold t_bytes. by rewrite <- !app_assoc.
  - by rewrite length_fmap.
  - lengths W. by vm_compute.
  - rewrite length_fmap. pose proof (wf_t_len e W). unfold T_RANG in *. lengths W. change (amount PLSD_T) with 4672. lia.
Qed.

(** ** The round trip *)
Lemma kept_used s i n : config_ok s -> kept s i n = true -> 0 <= i < 5 /\ ~ unused s i /\ (i = PLSD_M -> n < M_RANG).
Proof.
  intros C K. split; [exact (kept_kind s i n C K)|]. destruct C as ([L1 V1] & [L2 V2] & _). unfold kept, in_group in K. apply orb_true_iff in K.
  assert (R : exists g a, (g = group1 s \/ g = group2 s) /\ zlookup g i = Some a /\ in_item a n = true).
  { destruct K as [K|K]; [destruct (zlookup (group1 s) i) as [a|] eqn:E|destruct (zlookup (group2 s) i) as [a|] eqn:E]; try done; [exists (group1 s), a|exists (group2 s), a]; auto. }
  destruct R as (g & a & Hg & Ha & Hin). unfold in_item in Hin. split.
  - intros [U1 U2]. assert (msv_Length a = 0) by (destruct Hg as [-> | ->]; auto). lia.
  - intros ->. assert (Rg : range_ok PLSD_M (msv_StartElement a) (msv_Length a)) by (destruct Hg as [-> | ->]; [apply V1|apply V2]; (done || lia)).
    destruct Rg as (_ & _ & [[_ Rg]|[[X _]|[[X _]|[[X _]|[X _]]]]]); [lia|done..].
Qed.
(** What the memory [e'] of the restarted program becomes. *)
Definition recovered (s : st) (e' : plc_element_st) (s2 : st) : Prop :=
  (forall r a k, 0 <= a < rsize r -> 0 <= k < width r ->
    let old := match owner r a k with Some (i, n) => kept s i n | None => false end in
    Z.testbit (default 0 (zlookup (rget (elem s2) r) a)) k = Z.testbit (default 0 (zlookup (rget (if old then elem s else e') r) a)) k) /\
  (forall n, 0 <= n < C_RANG -> zlookup (c_StatusInfo (elem s2)) n = zlookup (c_StatusInfo (if kept s PLSD_C n then elem s else e')) n) /\
  (forall n, 0 <= n < T_RANG -> zlookup (t_StatusInfo (elem s2)) n = zlookup (t_StatusInfo (if kept s PLSD_T n then elem s else e')) n).

(** C13: the elements of the configured ranges come through a power failure:
    after the data is saved, the controller restarts with any memory and the
    data is restored, each of them has the bit, the value and the state it had
    before the failure, and all other elements are those of the restart. *)
Theorem retained_elements_survive (s : st) (e' : plc_element_st) : wf_elem (elem s) -> states_ok (elem s) -> config_ok s -> wf_elem e' ->
  exists s1 s2, plsd_save_data s = Ok (tt, s1) /\ plsd_restore_data (sset e' s1) = Ok (tt, s2) /\ recovered s e' s2.
Proof.
  intros W St C W'. pose proof C as ([L1 _] & [L2 _] & _).
  destruct (save_data_run s W L1 L2) as (s1 & E1 & (B1 & G1 & G2) & H & M). exists s1.
  set (t := sset e' s1). assert (Ct : config_ok t) by (unfold config_ok, t; cbn; by rewrite G1, G2).
  assert (Kt : forall i n, kept t i n = kept s i n) by (intros; unfold kept, t; cbn; by rewrite G1, G2).
  assert (Ht : forall i n, kept s i n = true -> holds i (elem s) t).
  { intros i n K. destruct (kept_used s i n C K) as (Hi & Hu & _). exact (H i Hi Hu). }
  assert (Mg : forall s2, merged (marked (kept t)) t s2 -> recovered s e' s2).
  { intros s2 [_ _ B Cs Ts]. split; [|split].
    - intros r a k Ha Hk old. specialize (B r a k Ha Hk). unfold cell in B. rewrite B. cbn [mb marked]. unfold old. destruct (owner r a k) as [[i n]|] eqn:O; [|done].
      rewrite Kt. destruct (kept s i n) eqn:K; [|done]. destruct (kept_used s i n C K) as (Hi & _ & Hm). f_equal.
      apply (saved_cell i (elem s) t r a k n); [done|by apply (Ht i n)|done|done|lia|]. intros ->. injection O as <- <-. by apply Hm.
    - intros n Hn. rewrite Cs by done. cbn [mc marked]. rewrite Kt. destruct (kept s PLSD_C n) eqn:K; [|done].
      destruct (proj2 (zlookup_is_Some (c_StatusInfo (elem s)) n)) as [c Hc]; [rewrite (wf_c_len _ W); lia|]. rewrite Hc. f_equal. by apply (saved_c_state (elem s)); [..|apply (Ht _ n)|].
    - intros n Hn. rewrite Ts by done. cbn [mt marked]. rewrite Kt. destruct (kept s PLSD_T n) eqn:K; [|done].
      destruct (proj2 (zlookup_is_Some (t_StatusInfo (elem s)) n)) as [c Hc]; [rewrite (wf_t_len _ W); lia|]. rewrite Hc. f_equal. by apply (saved_t_state (elem s)); [..|apply (Ht _ n)|]. }
  destruct (decide (mem_u32 t FLASH_ADDRESS_RESTORE_BASE = 0xFFFFFFFF)) as [N|N].
  - destruct M as [U|M]; [|by destruct M]. exists t. split; [done|]. split; [unfold plsd_restore_data; by rewrite run_gets, N|].
    apply Mg. apply merged_ext with none; [|by split]. apply marked_none. intros i n. rewrite Kt. destruct (kept s i n) eqn:K; [|done].
    destruct (kept_used s i n C K) as (Hi & Hu & _). by destruct (Hu (U i Hi)).
  - destruct (restore_data_run t Ct W' N) as (s2 & E2 & M2). exists s2. split; [done|]. split; [done|]. by apply Mg.
Qed.
End save.

(** A controller that keeps D3..D12, with 77 in D5. *)
Definition plsd_demo : plsd_st ram_chip :=
  {| pl_mem := rset D_ELEMENT (<[5%nat := 77]> (zeros D_ELEMENT)) elem0; pl_flash := blank;
     group1 := [no_item; no_item; no_item; no_item; {| msv_StartElement := 3; msv_Length := 10 |}]; group2 := replicate 5 no_item |}.
Lemma plsd_demo_wf : wf_elem (elem plsd_demo).
Proof.
  apply wf_elem_rset; [apply wf_elem0| |].
  - rewrite length_insert. unfold zeros. by rewrite length_replicate.
  - apply Forall_insert; [apply Forall_replicate; cbn; lia|cbn; lia].
Qed.
Lemma zlookup_cases {A} (P : Z -> A -> Prop) (l : list A) : (forall k a, l !! k = Some a -> P (Z.of_nat k) a) -> forall i a, zlookup l i = Some a -> P i a.
Proof. intros H i a E. apply zlookup_Some in E as [H0 E]. rewrite <- (Z2Nat.id i) by lia. by apply H. Qed.
Lemma plsd_demo_config : config_ok plsd_demo.
Proof.
  assert (G1 : forall i a, zlookup (group1 plsd_demo) i = Some a -> a = no_item \/ i = PLSD_D /\ a = {| msv_StartElement := 3; msv_Length := 10 |}).
  { apply zlookup_cases. intros k a. do 5 (destruct k as [|k]; [cbn; intros [= <-]; auto|]). done. }
  assert (G2 : forall i a, zlookup (group2 plsd_demo) i = Some a -> a = no_item).
  { apply zlookup_cases. intros k a H. by apply lookup_replicate in H as [-> _]. }
  split; [split; [done|]|split; [split; [done|]|]].
  - intros i a Ha Hl. destruct (G1 i a Ha) as [-> | [-> ->]]; [done|]. split; [cbn; lia|]. split; [cbn; lia|]. do 4 right. split; [done|]. cbn. unfold D_RANG. lia.
  - intros i a Ha Hl. by rewrite (G2 i a Ha) in Hl.
  - intros i a [Ha|Ha]; [destruct (G1 i a Ha) as [-> | [-> ->]]; cbn; lia|]. rewrite (G2 i a Ha). cbn. lia.
Qed.
Lemma plsd_demo_states : states_ok (elem plsd_demo).
Proof. split; apply Forall_replicate; repeat split; cbn; lia. Qed.
Lemma retained_elements_survive_witness : exists s1 s2, plsd_save_data plsd_demo = Ok (tt, s1) /\ plsd_restore_data (sset elem0 s1) = Ok (tt, s2) /\
  recovered plsd_demo elem0 s2.
Proof. exact (retained_elements_survive plsd_demo elem0 plsd_demo_wf plsd_demo_states plsd_demo_config wf_elem0). Defined.
