(* ===== verification/Password.v ===== *)
(** * Passwords

    Models plc/sysmanage/src/plc_password.c: the passwords for download,
    upload, monitoring and the timer, the flag that forbids uploads, and their
    copy in the flash with its check sum. The structure is the 56 bytes the
    target's compiler lays out, one byte of padding before the check sum
    included; its value after the allocation is whatever the heap holds. *)
From stdpp Require Import base list numbers.
From S2P Require Import Prelude Bytes Verify Flash.

(** ** State *)
Definition DOWNLOAD_PASSWORD := 0.
Definition UPLOAD_PASSWORD := 1.
Definition MONITOR_PASSWORD := 2.
Definition TIMER_PASSWORD := 3.
Definition MAX_PASSWORD_NUM := 4.
Definition MAX_PASSWORD_LEN := 8.
Definition MAX_PASSWORD_VALIDITY := 300000.
Definition PASSWORD_HEAD := 0xAA55.
Definition USER_PASSWORD_START_FLASH_PAGE := 12.
Definition pdFAIL := 0.
Record plc_password_st := {
  mcv_IsEnable : Z;
  mcv_CheckPass : Z;
  mlv_CheckTime : Z;
  mcv_Len : Z;
  mcv_Password : list Z }.
Record plc_password_info_st := {
  msv_Head : Z;
  mcv_UploadForbid : Z;
  mtv_Password : list plc_password_st;
  padding : Z;
  mlv_Crc : Z }.
Definition with_IsEnable v p := {| mcv_IsEnable := u8 v; mcv_CheckPass := mcv_CheckPass p; mlv_CheckTime := mlv_CheckTime p; mcv_Len := mcv_Len p; mcv_Password := mcv_Password p |}.
Definition with_CheckPass v p := {| mcv_IsEnable := mcv_IsEnable p; mcv_CheckPass := u8 v; mlv_CheckTime := mlv_CheckTime p; mcv_Len := mcv_Len p; mcv_Password := mcv_Password p |}.
Definition with_CheckTime v p := {| mcv_IsEnable := mcv_IsEnable p; mcv_CheckPass := mcv_CheckPass p; mlv_CheckTime := u8 v; mcv_Len := mcv_Len p; mcv_Password := mcv_Password p |}.
Definition with_Len v p := {| mcv_IsEnable := mcv_IsEnable p; mcv_CheckPass := mcv_CheckPass p; mlv_CheckTime := mlv_CheckTime p; mcv_Len := u8 v; mcv_Password := mcv_Password p |}.
Definition with_Password l p := {| mcv_IsEnable := mcv_IsEnable p; mcv_CheckPass := mcv_CheckPass p; mlv_CheckTime := mlv_CheckTime p; mcv_Len := mcv_Len p; mcv_Password := l |}.
Definition with_UploadForbid v i := {| msv_Head := msv_Head i; mcv_UploadForbid := u8 v; mtv_Password := mtv_Password i; padding := padding i; mlv_Crc := mlv_Crc i |}.
Definition with_entries l i := {| msv_Head := msv_Head i; mcv_UploadForbid := mcv_UploadForbid i; mtv_Password := l; padding := padding i; mlv_Crc := mlv_Crc i |}.
Definition with_Crc v i := {| msv_Head := msv_Head i; mcv_UploadForbid := mcv_UploadForbid i; mtv_Password := mtv_Password i; padding := padding i; mlv_Crc := v |}.
(** [None]: nothing is allocated. *)
Record pw_st (F : Type) := { gtp_PasswordInfo : option plc_password_info_st; pw_flash : flash_st F }.
Arguments gtp_PasswordInfo {F} p.
Arguments pw_flash {F} p.
#[global] Instance pw_st_flash {F} : Sub (flash_st F) (pw_st F).
Proof.
  refine {| sget := pw_flash; sset f s := {| gtp_PasswordInfo := gtp_PasswordInfo s; pw_flash := f |} |}; intros; try done; by destruct s.
Defined.

(** ** Bytes *)
Definition entry_bytes (p : plc_password_st) : list Z := [mcv_IsEnable p; mcv_CheckPass p; mlv_CheckTime p; mcv_Len p] ++ mcv_Password p.
Definition summed_bytes (i : plc_password_info_st) : list Z :=
  le_bytes 2 (msv_Head i) ++ [mcv_UploadForbid i] ++ (mtv_Password i ≫= entry_bytes) ++ [padding i].
Definition info_bytes (i : plc_password_info_st) : list Z := summed_bytes i ++ le_bytes 4 (mlv_Crc i).
Definition sizeof_info := 56.
Definition entry_offset (i : Z) : Z := 3 + 12 * i.

Section password.
Context {F : Type} `{!NorFlash F}.
Notation st := (pw_st F).
Notation MW := (M st).
Definition info : MW plc_password_info_st := o ← gets gtp_PasswordInfo; of_option o.
Definition put_info (i : option plc_password_info_st) : MW unit := modify (fun s => {| gtp_PasswordInfo := i; pw_flash := pw_flash s |}).
Definition mod_info (f : plc_password_info_st -> plc_password_info_st) : MW unit := i ← info; put_info (Some (f i)).
Definition entry (k : Z) : MW plc_password_st := i ← info; of_option (zlookup (mtv_Password i) k).
Definition mod_entry (k : Z) (f : plc_password_st -> plc_password_st) : MW unit :=
  i ← info; p ← of_option (zlookup (mtv_Password i) k); l ← of_option (zupdate (mtv_Password i) k (f p)); put_info (Some (with_entries l i)).
Definition put_char (k j c : Z) : MW unit :=
  p ← entry k; l ← of_option (zupdate (mcv_Password p) j (u8 c)); mod_entry k (with_Password l).
Definition update_crc : MW unit :=
  i ← info; c ← of_option (calc_crc32 (summed_bytes i) (sizeof_info - 4)); mod_info (with_Crc c).

(** ** Operations; [now] is the tick, [garbage] what the allocated padding holds *)
Definition new_entry (now : Z) : plc_password_st :=
  {| mcv_IsEnable := 0; mcv_CheckPass := 0; mlv_CheckTime := u8 now; mcv_Len := MAX_PASSWORD_LEN; mcv_Password := replicate 8 0 |}.
Definition plc_password_init (now garbage : Z) : MW unit :=
  o ← gets gtp_PasswordInfo;
  match o with
  | Some _ => mret tt
  | None =>
      put_info (Some {| msv_Head := PASSWORD_HEAD; mcv_UploadForbid := 0; mtv_Password := replicate 4 (new_entry now); padding := u8 garbage; mlv_Crc := 0 |});;
      update_crc
  end.
Definition read_entry (base i : Z) : MW unit :=
  let a := base + entry_offset i in
  en ← gets (fun s => mem_byte s a); mod_entry i (with_IsEnable en);;
  len ← gets (fun s => mem_byte s (a + 3)); mod_entry i (with_Len len);;
  p ← entry i;
  for_up (Z.to_nat (mcv_Len p)) 0 (fun j => c ← gets (fun s => mem_byte s (a + 4 + j)); put_char i j c).
Definition plc_read_password_info : MW unit :=
  match bsp_get_flash_info USER_PASSWORD_START_FLASH_PAGE with
  | None => mret tt
  | Some part =>
      let a := startAddr part in
      head ← gets (fun s => mem_u16 s a);
      if negb (head =? PASSWORD_HEAD) then mret tt
      else
        l ← gets (fun s => mem_bytes s a (sizeof_info - 4));
        mlv_Crc32 ← of_option (calc_crc32 l (sizeof_info - 4));
        crc ← gets (fun s => mem_u32 s (a + (sizeof_info - 4)));
        if negb (mlv_Crc32 =? crc) then mret tt
        else
          forbid ← gets (fun s => mem_byte s (a + 2));
          mod_info (with_UploadForbid forbid);;
          for_up (Z.to_nat MAX_PASSWORD_NUM) 0 (read_entry a);;
          mod_info (with_Crc mlv_Crc32)
  end.
(** Erase the partition and write the structure. *)
Definition save_info : MW Z :=
  match bsp_get_flash_info USER_PASSWORD_START_FLASH_PAGE with
  | None => mret pdFAIL
  | Some part =>
      bsp_flash_erase_partition (startAddr part) (endAddr part - startAddr part + 1);;
      i ← info;
      bsp_flash_write_buffer (startAddr part) (info_bytes i) sizeof_info;; mret pdPASS
  end.
Definition plc_update_password_info (now lcv_PwItem : Z) (lcp_NewPw : list Z) (lcv_PwLen : Z) : MW Z :=
  mod_entry lcv_PwItem (with_Len lcv_PwLen);;
  for_up (Z.to_nat lcv_PwLen) 0 (fun i => c ← of_option (zlookup lcp_NewPw i); put_char lcv_PwItem i c);;
  mod_entry lcv_PwItem (with_CheckTime now);;
  p ← entry lcv_PwItem;
  mod_entry lcv_PwItem (with_IsEnable (if le_value (take 4 (mcv_Password p)) =? 0 then 0 else 1));;
  mod_entry lcv_PwItem (with_CheckPass 0);;
  update_crc;; save_info.
Definition plc_password_erase (now garbage : Z) : MW unit :=
  part ← of_option (bsp_get_flash_info USER_PASSWORD_START_FLASH_PAGE);
  bsp_flash_erase_partition (startAddr part) (endAddr part - startAddr part + 1);;
  put_info None;; plc_password_init now garbage.
Fixpoint compare (n : nat) (i : Z) (ltp_Passwd stored : list Z) : MW bool :=
  match n with
  | O => mret true
  | S n =>
      a ← of_option (zlookup ltp_Passwd i); b ← of_option (zlookup stored i);
      if negb (a =? b) then mret false else compare n (i + 1) ltp_Passwd stored
  end.
Definition plc_check_password_info (lcv_PwItem : Z) (ltp_Passwd : list Z) (lcv_PwLen : Z) : MW Z :=
  p ← entry lcv_PwItem;
  if mcv_IsEnable p =? 0 then mret pdPASS
  else if negb (lcv_PwLen =? mcv_Len p) then mret pdFAIL
  else
    eq ← compare (Z.to_nat lcv_PwLen) 0 ltp_Passwd (mcv_Password p);
    if negb eq then mret pdFAIL
    else mod_entry lcv_PwItem (with_CheckPass 1);; mret pdPASS.
Definition plc_get_password_check_result (now lcv_PwItem : Z) : MW Z :=
  p ← entry lcv_PwItem;
  if mcv_IsEnable p =? 0 then mret pdPASS
  else if MAX_PASSWORD_VALIDITY <? u32 (now - mlv_CheckTime p) then mod_entry lcv_PwItem (with_CheckPass 0);; mret pdFAIL
  else
    mod_entry lcv_PwItem (with_CheckTime now);;
    p ← entry lcv_PwItem; mret (if mcv_CheckPass p =? 0 then pdFAIL else pdPASS).
Definition plc_set_upload_forbid_flag (lcv_Flag : Z) : MW Z := mod_info (with_UploadForbid lcv_Flag);; update_crc;; save_info.
Definition plc_get_upload_forbid_flag : MW Z := i ← info; mret (mcv_UploadForbid i).
(** A restart: the allocation is lost, the flash is not. *)
Definition restart (now garbage : Z) : MW unit := put_info None;; plc_password_init now garbage;; plc_read_password_info.
End password.

Definition pw_start : pw_st ram_chip := {| gtp_PasswordInfo := None; pw_flash := blank |}.
Example password_checked : result ((plc_password_init 0 0;; plc_update_password_info 1000 UPLOAD_PASSWORD [49; 50; 51; 52] 4;; restart 0 7;;
  a ← plc_check_password_info UPLOAD_PASSWORD [49; 50; 51; 53] 4; b ← plc_check_password_info UPLOAD_PASSWORD [49; 50; 51; 52] 4;
  c ← plc_get_password_check_result 2000 UPLOAD_PASSWORD; d ← plc_get_password_check_result 400000 UPLOAD_PASSWORD; mret (a, b, c, d)) pw_start) = Some (pdFAIL, pdPASS, pdPASS, pdFAIL).
Proof. vm_compute. reflexivity. Qed.
