(* ===== verification/PasswordFacts.v ===== *)
(** * Facts about the passwords

    The passwords come through a restart with every verdict unchanged, and a
    successful check stops counting five minutes after the start of the
    controller, as the time of the check is kept in a byte. *)
From stdpp Require Import base list numbers.
From S2P Require Import Prelude Bytes Verify Flash FlashFacts Password.

Lemma crc32_total m : Forall byte_ok m -> Z.of_nat (length m) < 2 ^ 32 -> exists c, calc_crc32 m (Z.of_nat (length m)) = Some c /\ 0 <= c < 2 ^ 32.
Proof.
  intros Hm Hl. destruct (over_bytes_whole crc32_step (fun c b => Nat.iter 8 (rstep crc32_poly) (Z.lxor c b)) m (settled 32) 0xFFFFFFFF 0xFFFFFFFF) as (c & E & -> & R).
  - intros c d b [-> Hd] Hb. eexists. split; [by apply crc32_step_run|]. split; [done|].
    apply iter_rstep_bound; [lia|by vm_compute|]. apply lxor_bound; unfold byte in *; lia.
  - exact Hm.
  - by vm_compute.
  - eexists. split; [unfold calc_crc32; rewrite u32_id, Nat2Z.id by lia; by rewrite E|]. by apply lxor_bound.
Qed.

(** ** Well-formed structures *)
Record entry_ok (p : plc_password_st) : Prop := {
  en_bytes : Forall byte_ok (entry_bytes p);
  en_length : length (mcv_Password p) = 8%nat;
  en_len : mcv_Len p <= MAX_PASSWORD_LEN }.
Record info_ok (i : plc_password_info_st) : Prop := {
  in_head : msv_Head i = PASSWORD_HEAD;
  in_forbid : byte_ok (mcv_UploadForbid i);
  in_entries : length (mtv_Password i) = 4%nat /\ Forall entry_ok (mtv_Password i);
  in_padding : byte_ok (padding i) }.
Lemma entry_length p : entry_ok p -> length (entry_bytes p) = 12%nat.
Proof. intros [_ L _]. unfold entry_bytes. rewrite length_app, L. done. Qed.
Lemma entries_length l : Forall entry_ok l -> length (l ≫= entry_bytes) = (12 * length l)%nat.
Proof. induction 1 as [|p l Hp _ IH]; [done|]. rewrite bind_cons, length_app, IH, (entry_length p Hp). cbn [length]. lia. Qed.
Lemma summed_length i : info_ok i -> length (summed_bytes i) = 52%nat.
Proof. intros [_ _ [L E] _]. unfold summed_bytes. rewrite !length_app, le_bytes_length, (entries_length _ E), L. done. Qed.
Lemma summed_ok i : info_ok i -> Forall byte_ok (summed_bytes i).
Proof.
  intros [_ Hf [_ E] Hp]. unfold summed_bytes. rewrite !Forall_app. split; [apply le_bytes_ok|]. split; [by constructor|]. split; [|by constructor].
  clear - E. induction E as [|p l Hp _ IH]; [constructor|]. rewrite bind_cons. apply Forall_app. split; [apply Hp|done].
Qed.
Lemma info_length i : info_ok i -> length (info_bytes i) = 56%nat.
Proof. intros H. unfold info_bytes. by rewrite length_app, le_bytes_length, (summed_length i H). Qed.
Lemma info_bytes_ok i : info_ok i -> Forall byte_ok (info_bytes i).
Proof. intros H. apply Forall_app. split; [by apply summed_ok|apply le_bytes_ok]. Qed.
(** The bytes of an entry. *)
Lemma entry_at i k p j : info_ok i -> zlookup (mtv_Password i) k = Some p -> 0 <= j < 12 -> byte_at (info_bytes i) (entry_offset k + j) = byte_at (entry_bytes p) j.
Proof.
  intros H Hk Hj. destruct H as [_ _ [L E] _]. pose proof (zlookup_lt _ _ _ Hk) as K. unfold info_bytes, summed_bytes, entry_offset.
  rewrite byte_app_l by (rewrite !length_app, le_bytes_length, (entries_length _ E), L; cbn [length]; lia).
  rewrite app_assoc. replace (3 + 12 * k + j) with (Z.of_nat (length (le_bytes 2 (msv_Head i) ++ [mcv_UploadForbid i])) + (12 * k + j)) by (rewrite length_app, le_bytes_length; cbn; lia).
  rewrite byte_app_r by lia. rewrite byte_app_l by (rewrite (entries_length _ E), L; lia).
  clear L. revert k Hk K. induction E as [|q l Hq El IH]; intros k Hk K; [apply zlookup_Some in Hk as [_ Hk]; done|].
  rewrite bind_cons. apply zlookup_Some in Hk as [H0 Hk]. destruct (Z.to_nat k) as [|m] eqn:Ek.
  - assert (k = 0) as -> by lia. injection Hk as ->. apply byte_app_l. rewrite (entry_length p Hq). lia.
  - replace (12 * k + j) with (Z.of_nat (length (entry_bytes q)) + (12 * (k - 1) + j)) by (rewrite (entry_length q Hq); lia). rewrite byte_app_r by lia.
    cbn [length] in K. apply IH; [|lia]. apply zlookup_Some. split; [lia|]. by replace (Z.to_nat (k - 1)) with m by lia.
Qed.

(** ** Copying characters *)
Fixpoint copied (f : Z -> Z) (n : nat) (j : Z) (l : list Z) : list Z :=
  match n with O => l | S n => copied f n (j + 1) (<[Z.to_nat j := u8 (f j)]> l) end.
Lemma copied_length f n j l : length (copied f n j l) = length l.
Proof. revert j l. induction n as [|n IH]; intros j l; [done|]. cbn [copied]. by rewrite IH, length_insert. Qed.
Lemma copied_at f n : forall j l x, 0 <= j -> j + Z.of_nat n <= Z.of_nat (length l) ->
  zlookup (copied f n j l) x = if decide (j <= x < j + Z.of_nat n) then Some (u8 (f x)) else zlookup l x.
Proof.
  induction n as [|n IH]; intros j l x H0 Hl; cbn [copied]; [by rewrite decide_False by lia|].
  rewrite IH by (rewrite ?length_insert; lia). rewrite zlookup_insert by (apply zlookup_is_Some; lia).
  repeat case_decide; try lia; try done. by subst.
Qed.

Section run.
Context {F : Type} `{!NorFlash F} `{!NorLaws F}.
Notation st := (pw_st F).
Implicit Types (s : st) (i : plc_password_info_st) (p : plc_password_st).

(** ** One entry *)
Definition with_entry s i (k : Z) p : st := {| gtp_PasswordInfo := Some (with_entries (<[Z.to_nat k := p]> (mtv_Password i)) i); pw_flash := pw_flash s |}.
Section entry.
Context (s : st) (i : plc_password_info_st) (k : Z).
Hypothesis (Hk : is_Some (zlookup (mtv_Password i) k)).
Notation E := (with_entry s i k).
Lemma entry_run p : entry k (E p) = Ok (p, E p).
Proof. unfold entry, info. unfold mbind, M_bind, gets, of_option. cbn. by rewrite zlookup_insert, decide_True. Qed.
Lemma mod_entry_run f p : mod_entry k f (E p) = Ok (tt, E (f p)).
Proof.
  unfold mod_entry. rewrite (run_bind info _ (E p) (E p) (with_entries (<[Z.to_nat k := p]> (mtv_Password i)) i)) by done. cbn [mtv_Password with_entries].
  rewrite (run_some _ p) by (by rewrite zlookup_insert, decide_True). rewrite (run_some _ (<[Z.to_nat k := f p]> (mtv_Password i))).
  - unfold put_info, modify, with_entry. by destruct i.
  - rewrite zupdate_lt; [by rewrite list_insert_insert_eq|]. rewrite length_insert. by apply zlookup_is_Some.
Qed.
Lemma put_char_run j c p : 0 <= j < Z.of_nat (length (mcv_Password p)) -> put_char k j c (E p) = Ok (tt, E (with_Password (<[Z.to_nat j := u8 c]> (mcv_Password p)) p)).
Proof. intros Hj. unfold put_char. rewrite (run_bind _ _ _ _ _ (entry_run p)). rewrite (run_some _ _) by (by apply zupdate_lt). apply mod_entry_run. Qed.
Lemma put_chars_run (body : Z -> M st unit) f n : forall j p, 0 <= j -> j + Z.of_nat n <= Z.of_nat (length (mcv_Password p)) ->
  (forall x q, j <= x < j + Z.of_nat n -> body x (E q) = put_char k x (f x) (E q)) ->
  for_up n j body (E p) = Ok (tt, E (with_Password (copied f n j (mcv_Password p)) p)).
Proof.
  induction n as [|n IH]; intros j p H0 Hn Hb; cbn [for_up copied]; [by destruct p|].
  rewrite (run_bind _ _ (E p) (E (with_Password (<[Z.to_nat j := u8 (f j)]> (mcv_Password p)) p)) tt).
  - rewrite IH; [by destruct p|lia|cbn; rewrite length_insert; lia|]. intros x q Hx. apply Hb. lia.
  - rewrite Hb by lia. apply put_char_run. lia.
Qed.
End entry.
Lemma with_entry_id s i k p : gtp_PasswordInfo s = Some i -> zlookup (mtv_Password i) k = Some p -> with_entry s i k p = s.
Proof.
  intros Hs Hp. apply zlookup_Some in Hp as [_ Hp]. unfold with_entry. rewrite list_insert_id by done. destruct s as [o f]. cbn in *. subst. by destruct i.
Qed.

(** ** Comparing *)
Fixpoint same_chars (n : nat) (x : Z) (g l : list Z) : option bool :=
  match n with
  | O => Some true
  | S n => a ← zlookup g x; b ← zlookup l x; if a =? b then same_chars n (x + 1) g l else Some false
  end.
Lemma compare_chars_run n x g l s : compare n x g l s = match same_chars n x g l with Some b => Ok (b, s) | None => Ub end.
Proof.
  revert x. induction n as [|n IH]; intros x; [done|]. cbn [compare same_chars].
  destruct (zlookup g x) as [a|] eqn:A; [|by unfold mbind, M_bind]. rewrite (run_some _ a) by done.
  cbn [mbind option_bind]. destruct (zlookup l x) as [b|] eqn:B; [|by unfold mbind, M_bind]. rewrite (run_some _ b) by done.
  cbn [mbind option_bind]. destruct (a =? b); [apply IH|done].
Qed.
Lemma same_chars_ext n g l l' : forall x, (forall y, x <= y < x + Z.of_nat n -> zlookup l' y = zlookup l y) -> same_chars n x g l' = same_chars n x g l.
Proof.
  induction n as [|n IH]; intros x H; [done|]. cbn [same_chars]. rewrite H by lia. rewrite IH; [done|]. intros y Hy. apply H. lia.
Qed.
Lemma same_chars_equal n l g : forall x, 0 <= x -> (forall y, x <= y < x + Z.of_nat n -> exists c, zlookup g y = Some c /\ zlookup l y = Some c) -> same_chars n x g l = Some true.
Proof.
  induction n as [|n IH]; intros x H0 H; [done|]. cbn [same_chars]. destruct (H x ltac:(lia)) as (c & -> & ->). cbn [mbind option_bind]. rewrite Z.eqb_refl.
  apply IH; [lia|]. intros y Hy. apply H. lia.
Qed.
(** What a check says, as a function of the entry. *)
Definition verdict (o : option plc_password_st) (g : list Z) (n : Z) : option Z :=
  match o with
  | None => None
  | Some p =>
      if mcv_IsEnable p =? 0 then Some pdPASS else if negb (n =? mcv_Len p) then Some pdFAIL
      else b ← same_chars (Z.to_nat n) 0 g (mcv_Password p); Some (if b : bool then pdPASS else pdFAIL)
  end.
Lemma check_verdict s i k g n : gtp_PasswordInfo s = Some i -> result (plc_check_password_info k g n s) = verdict (zlookup (mtv_Password i) k) g n.
Proof.
  intros Hs. unfold plc_check_password_info, entry. unfold verdict. assert (Ei : info s = Ok (i, s)) by (unfold info; by rewrite run_gets, Hs).
  destruct (zlookup (mtv_Password i) k) as [p|] eqn:Hp.
  2: { unfold mbind, M_bind in *. by rewrite Ei, Hp. }
  rewrite (run_bind _ _ s s p) by (rewrite (run_bind _ _ _ _ _ Ei); by rewrite Hp).
  destruct (mcv_IsEnable p =? 0); [done|]. destruct (n =? mcv_Len p); [|done]. cbn [negb]. unfold mbind at 1, M_bind at 1. rewrite compare_chars_run.
  destruct (same_chars (Z.to_nat n) 0 g (mcv_Password p)) as [[]|] eqn:C; cbn [mbind option_bind]; [|done|done]. cbn [negb].
  rewrite <- (with_entry_id s i k p) by done. by rewrite (run_bind _ _ _ _ _ (mod_entry_run s i k (mk_is_Some _ _ Hp) (with_CheckPass 1) p)).
Qed.
(** A check that passes an enabled entry marks it. *)
Lemma check_passed s i k p g n s' : gtp_PasswordInfo s = Some i -> zlookup (mtv_Password i) k = Some p -> mcv_IsEnable p <> 0 ->
  plc_check_password_info k g n s = Ok (pdPASS, s') -> s' = with_entry s i k (with_CheckPass 1 p).
Proof.
  intros Hs Hp En. rewrite <- (with_entry_id s i k p Hs Hp) at 1. assert (Sk : is_Some (zlookup (mtv_Password i) k)) by eauto.
  unfold plc_check_password_info. rewrite (run_bind _ _ _ _ _ (entry_run s i k Sk p)). apply Z.eqb_neq in En. rewrite En. destruct (n =? mcv_Len p); [|done]. cbn [negb].
  unfold mbind at 1, M_bind at 1. rewrite compare_chars_run. destruct (same_chars (Z.to_nat n) 0 g (mcv_Password p)) as [[]|]; [|done|done]. cbn [negb].
  rewrite (run_bind _ _ _ _ _ (mod_entry_run s i k Sk (with_CheckPass 1) p)). intros [= <-]. done.
Qed.
(** Entries that give the same verdicts. *)
Definition alike p (q : plc_password_st) : Prop :=
  mcv_IsEnable q = mcv_IsEnable p /\ mcv_Len q = mcv_Len p /\ forall x, 0 <= x < mcv_Len p -> zlookup (mcv_Password q) x = zlookup (mcv_Password p) x.
Lemma alike_verdict p (q : plc_password_st) g n : alike p q -> verdict (Some q) g n = verdict (Some p) g n.
Proof.
  intros (E & L & C). unfold verdict. rewrite E, L. destruct (mcv_IsEnable p =? 0); [done|]. destruct (Z.eqb_spec n (mcv_Len p)) as [->|]; [|done]. cbn [negb].
  rewrite (same_chars_ext _ g (mcv_Password p) (mcv_Password q)); [done|]. intros y Hy. apply C. lia.
Qed.

(** ** Saving *)
Definition start : Z := 0x60200000.
Record saved (s : st) (i : plc_password_info_st) : Prop := {
  sa_info : gtp_PasswordInfo s = Some i;
  sa_ok : info_ok i;
  sa_crc : calc_crc32 (summed_bytes i) 52 = Some (mlv_Crc i) /\ 0 <= mlv_Crc i < 2 ^ 32;
  sa_flash : mem_bytes s start 56 = info_bytes i }.
Lemma crc_ok i c : info_ok i -> info_ok (with_Crc c i).
Proof. by intros [A B C D]. Qed.
Lemma save_run s i : gtp_PasswordInfo s = Some i -> info_ok i -> exists s' c, (update_crc;; save_info) s = Ok (pdPASS, s') /\ saved s' (with_Crc c i).
Proof.
  intros Hs Hi. destruct (crc32_total (summed_bytes i) (summed_ok i Hi)) as (c & Ec & Rc); [by rewrite (summed_length i Hi)|].
  rewrite (summed_length i Hi) in Ec. set (j := with_Crc c i). assert (Hj : info_ok j) by by apply crc_ok.
  set (s1 := {| gtp_PasswordInfo := Some j; pw_flash := pw_flash s |} : st).
  assert (Ei : forall s i, gtp_PasswordInfo s = Some i -> info s = Ok (i, s)) by (intros s0 i0 E0; unfold info; by rewrite run_gets, E0).
  assert (E1 : update_crc s = Ok (tt, s1)).
  { unfold update_crc. rewrite (run_bind _ _ _ _ _ (Ei s i Hs)). rewrite (run_some _ c) by done. unfold mod_info. by rewrite (run_bind _ _ _ _ _ (Ei s i Hs)). }
  destruct (store_area start 0x1000 (info_bytes j) 56 s1) as (f & Ef & g & Eg & Hg & _);
    [by vm_compute|by vm_compute|by vm_compute|lia|rewrite (info_length j Hj); lia|by apply info_bytes_ok|].
  exists (set_nor g s1), c. split.
  - rewrite (run_bind _ _ _ _ _ E1). unfold save_info.
    assert (bsp_get_flash_info USER_PASSWORD_START_FLASH_PAGE = Some (part 0x80 start 0x60200FFF)) as -> by done.
    cbn [startAddr endAddr part]. change (0x60200FFF - start + 1) with 0x1000. rewrite (run_bind _ _ _ _ _ Ef).
    assert (Ej : info (set_nor f s1) = Ok (j, set_nor f s1)) by (by apply Ei). rewrite (run_bind _ _ _ _ _ Ej). by rewrite (run_bind _ _ _ _ _ Eg).
  - assert (B : mem_bytes (set_nor g s1) start (Z.of_nat (length (info_bytes j))) = info_bytes j) by (apply mem_bytes_list; rewrite (info_length j Hj); exact Hg).
    rewrite (info_length j Hj) in B. by split.
Qed.

(** ** Reading back *)
Section reading.
Context (i0 : plc_password_info_st) (Hok : info_ok i0).
Definition same_flash s : Prop := mem_bytes s start 56 = info_bytes i0.
Lemma flash_byte s x : same_flash s -> 0 <= x < 56 -> mem_byte s (start + x) = byte_at (info_bytes i0) x.
Proof.
  intros Hs Hx. rewrite <- Hs. unfold byte_at, mem_bytes. rewrite (proj2 (zlookup_Some _ x (mem_byte s (start + x)))); [done|].
  split; [lia|]. rewrite list_lookup_fmap, lookup_seqZ_lt by lia. cbn. do 2 f_equal. lia.
Qed.
Lemma flash_bytes s x n : same_flash s -> 0 <= x -> 0 <= n -> x + n <= 56 -> mem_bytes s (start + x) n = take (Z.to_nat n) (drop (Z.to_nat x) (info_bytes i0)).
Proof.
  intros Hs H0 Hn Hx. rewrite <- Hs. apply list_eq. intros j. unfold mem_bytes. rewrite lookup_take.
  case_decide as D.
  - rewrite lookup_drop, !list_lookup_fmap, !lookup_seqZ_lt by lia. cbn. do 2 f_equal. lia.
  - apply lookup_ge_None_2. rewrite length_fmap, length_seqZ. lia.
Qed.
(** One entry read into the fresh structure. *)
Lemma read_entry_run s i k p q : same_flash s -> gtp_PasswordInfo s = Some i -> zlookup (mtv_Password i) k = Some p -> length (mcv_Password p) = 8%nat ->
  zlookup (mtv_Password i0) k = Some q -> exists r, read_entry start k s = Ok (tt, with_entry s i k r) /\ alike q r.
Proof.
  intros Hf Hs Hp Lp Hq. pose proof (zlookup_lt _ _ _ Hq) as K. pose proof Hok as [_ _ [L4 E4] _].
  pose proof (proj1 (Forall_lookup _ _) E4 _ _ (proj2 (proj1 (zlookup_Some _ _ _) Hq))) as [B8 L8 Len]. unfold MAX_PASSWORD_LEN in Len.
  pose proof B8 as Bq. unfold entry_bytes in Bq. apply Forall_app in Bq as [Bh Bp]. repeat apply Forall_cons in Bh as [? Bh].
  assert (Byte : forall j e, 0 <= j < 12 -> mem_byte (with_entry s i k e) (start + entry_offset k + j) = byte_at (entry_bytes q) j).
  { intros j e Hj. rewrite <- (entry_at i0 k q j Hok Hq Hj). rewrite <- Z.add_assoc. rewrite <- (flash_byte s) by (done || (unfold entry_offset; lia)). done. }
  set (p1 := with_Len (mcv_Len q) (with_IsEnable (mcv_IsEnable q) p)).
  exists (with_Password (copied (fun j => byte_at (entry_bytes q) (4 + j)) (Z.to_nat (mcv_Len q)) 0 (mcv_Password p1)) p1).
  assert (Sk : is_Some (zlookup (mtv_Password i) k)) by eauto. unfold byte_ok, byte in *. assert (Lq : u8 (mcv_Len q) = mcv_Len q) by (apply u8_id; lia).
  split.
  - rewrite <- (with_entry_id s i k p Hs Hp) at 1. unfold read_entry. cbv zeta. rewrite run_gets.
    replace (start + entry_offset k) with (start + entry_offset k + 0) at 1 by lia. rewrite Byte by lia. change (byte_at (entry_bytes q) 0) with (mcv_IsEnable q).
    rewrite (run_bind _ _ _ _ _ (mod_entry_run s i k Sk _ p)). rewrite run_gets, Byte by lia. change (byte_at (entry_bytes q) 3) with (mcv_Len q).
    rewrite (run_bind _ _ _ _ _ (mod_entry_run s i k Sk _ _)). rewrite (run_bind _ _ _ _ _ (entry_run s i k Sk _)). fold p1. 
    replace (mcv_Len p1) with (mcv_Len q) by done. apply put_chars_run; [done|lia|cbn; lia|].
    intros x e Hx. rewrite run_gets. rewrite <- Z.add_assoc, Byte by lia. done.
  - split; [cbn; apply u8_id; lia|]. split; [done|]. intros x Hx. cbn [with_Password mcv_Password]. rewrite copied_at by (cbn; lia). rewrite decide_True by lia.
    replace (byte_at (entry_bytes q) (4 + x)) with (byte_at (mcv_Password q) x) by (unfold entry_bytes; symmetry; apply (byte_app_r [_;_;_;_]); lia).
    destruct (zlookup_is_Some (mcv_Password q) x) as [_ [c Hc]]; [lia|]. unfold byte_at. rewrite Hc. cbn. f_equal. apply u8_id.
    apply (proj1 (Forall_lookup _ _) Bp _ _ (proj2 (proj1 (zlookup_Some _ _ _) Hc))).
Qed.
End reading.

(** ** Updating and restarting *)
Lemma info_run s i : gtp_PasswordInfo s = Some i -> info s = Ok (i, s).
Proof. intros E. unfold info. by rewrite run_gets, E. Qed.
Definition updated (t : Z) (pw : list Z) p : plc_password_st :=
  let l := copied (byte_at pw) (length pw) 0 (mcv_Password p) in
  {| mcv_IsEnable := if le_value (take 4 l) =? 0 then 0 else 1; mcv_CheckPass := 0; mlv_CheckTime := u8 t; mcv_Len := Z.of_nat (length pw); mcv_Password := l |}.
Lemma copied_ok f n : forall j l, Forall byte_ok l -> Forall byte_ok (copied f n j l).
Proof. induction n as [|n IH]; intros j l H; [done|]. cbn [copied]. apply IH. apply Forall_insert; [done|]. apply u8_range. Qed.
Lemma updated_ok t pw p : entry_ok p -> (length pw <= 8)%nat -> entry_ok (updated t pw p).
Proof.
  intros [B L _] Hn. apply Forall_app in B as [_ B]. split.
  - apply Forall_app. split; [|by apply copied_ok]. cbn. unfold byte_ok, byte. apply Forall_cons; split; [case_match; lia|]. apply Forall_cons; split; [lia|]. apply Forall_cons; split; [apply u8_range|]. apply Forall_cons; split; [lia|constructor].
  - cbn. by rewrite copied_length.
  - cbn. unfold MAX_PASSWORD_LEN. lia.
Qed.
Lemma entries_ok i k p : info_ok i -> entry_ok p -> info_ok (with_entries (<[Z.to_nat k := p]> (mtv_Password i)) i).
Proof. intros [A B [C D] E] Hp. split; [done|done| |done]. cbn. rewrite length_insert. split; [done|]. by apply Forall_insert. Qed.
Lemma update_run s i k p t pw : gtp_PasswordInfo s = Some i -> info_ok i -> zlookup (mtv_Password i) k = Some p -> (length pw <= 8)%nat ->
  exists s' j, plc_update_password_info t k pw (Z.of_nat (length pw)) s = Ok (pdPASS, s') /\ saved s' j /\
    mtv_Password j = <[Z.to_nat k := updated t pw p]> (mtv_Password i) /\ mcv_UploadForbid j = mcv_UploadForbid i.
Proof.
  intros Hs Hi Hp Hn. pose proof Hi as [_ _ [_ E4] _].
  pose proof (proj1 (Forall_lookup _ _) E4 _ _ (proj2 (proj1 (zlookup_Some _ _ _) Hp))) as Hq. pose proof Hq as [_ L8 _].
  destruct (save_run (with_entry s i k (updated t pw p)) _ eq_refl (entries_ok i k _ Hi (updated_ok t pw p Hq Hn))) as (s' & c & Er & Hsv).
  exists s'. eexists. split; [|by split; [exact Hsv|]].
  rewrite <- Er. rewrite <- (with_entry_id s i k p Hs Hp) at 1. assert (Sk : is_Some (zlookup (mtv_Password i) k)) by eauto.
  assert (L : 0 + Z.of_nat (length pw) <= Z.of_nat (length (mcv_Password p))) by lia.
  assert (E1 : forall x q, 0 <= x < 0 + Z.of_nat (length pw) ->
    (c ← of_option (zlookup pw x); put_char k x c) (with_entry s i k q) = put_char k x (byte_at pw x) (with_entry s i k q)).
  { intros x q Hx. unfold byte_at. destruct (zlookup pw x) as [c0|] eqn:Ec; [by rewrite (run_some _ c0)|].
    destruct (proj2 (zlookup_is_Some pw x) ltac:(lia)) as [c0 Hc]. congruence. }
  unfold plc_update_password_info. rewrite (run_bind _ _ _ _ _ (mod_entry_run s i k Sk _ p)). rewrite Nat2Z.id.
  rewrite (run_bind _ _ _ _ _ (put_chars_run s i k Sk _ (byte_at pw) (length pw) 0 (with_Len (Z.of_nat (length pw)) p) (Z.le_refl 0) L E1)).
  rewrite !(run_bind _ _ _ _ _ (mod_entry_run s i k Sk _ _)), (run_bind _ _ _ _ _ (entry_run s i k Sk _)), !(run_bind _ _ _ _ _ (mod_entry_run s i k Sk _ _)).
  do 2 f_equal. unfold updated, with_CheckPass, with_IsEnable, with_CheckTime, with_Password, with_Len. cbn. f_equal; [by case_match|]. apply u8_id. lia.
Qed.

Lemma fresh_ok t g : info_ok {| msv_Head := PASSWORD_HEAD; mcv_UploadForbid := 0; mtv_Password := replicate 4 (new_entry t); padding := u8 g; mlv_Crc := 0 |}.
Proof.
  assert (N : entry_ok (new_entry t)).
  { split; [|done|done]. unfold entry_bytes, new_entry, byte_ok, byte, MAX_PASSWORD_LEN. cbn [mcv_IsEnable mcv_CheckPass mlv_CheckTime mcv_Len mcv_Password app replicate].
    pose proof (u8_range t). repeat (apply Forall_cons; split; [lia|]). constructor. }
  split; [done|by unfold byte_ok, byte| |apply u8_range]. split; [done|]. by apply Forall_replicate.
Qed.
Lemma put_info_run o s : put_info o s = Ok (tt, {| gtp_PasswordInfo := o; pw_flash := pw_flash s |}).
Proof. done. Qed.
Lemma init_run s t g : exists i, (put_info None;; plc_password_init t g) s = Ok (tt, {| gtp_PasswordInfo := Some i; pw_flash := pw_flash s |}) /\ info_ok i.
Proof.
  pose proof (fresh_ok t g) as Ho. set (i := Build_plc_password_info_st _ _ _ _ _) in Ho.
  destruct (crc32_total (summed_bytes i) (summed_ok i Ho)) as (c & Ec & _); [by rewrite (summed_length i Ho)|]. rewrite (summed_length i Ho) in Ec.
  exists (with_Crc c i). split; [|by apply crc_ok]. unfold plc_password_init. rewrite (run_bind _ _ _ _ _ (put_info_run None s)), run_gets. cbn [gtp_PasswordInfo].
  rewrite (run_bind _ _ _ _ _ (put_info_run _ _)). fold i.
  pose proof (info_run {| gtp_PasswordInfo := Some i; pw_flash := pw_flash s |} i eq_refl) as Ei.
  unfold update_crc. cbn [pw_flash]. rewrite (run_bind _ _ _ _ _ Ei). rewrite (run_some _ c) by done.
  unfold mod_info. by rewrite (run_bind _ _ _ _ _ Ei).
Qed.
(** The loop over the entries. *)
Lemma entries_run i0 s i : info_ok i0 -> same_flash i0 s -> gtp_PasswordInfo s = Some i -> info_ok i ->
  exists i', for_up 4 0 (read_entry start) s = Ok (tt, {| gtp_PasswordInfo := Some i'; pw_flash := pw_flash s |}) /\ mcv_UploadForbid i' = mcv_UploadForbid i /\ length (mtv_Password i') = 4%nat /\
    forall k q, zlookup (mtv_Password i0) k = Some q -> exists r, zlookup (mtv_Password i') k = Some r /\ alike q r.
Proof.
  intros H0 Hf Hs Hi.
  set (I := fun (m : Z) (s1 : st) => exists i', s1 = {| gtp_PasswordInfo := Some i'; pw_flash := pw_flash s |} /\ mcv_UploadForbid i' = mcv_UploadForbid i /\ length (mtv_Password i') = 4%nat /\
    forall k, 0 <= k < 4 -> exists r, zlookup (mtv_Password i') k = Some r /\
      if decide (k < m) then forall q, zlookup (mtv_Password i0) k = Some q -> alike q r else length (mcv_Password r) = 8%nat).
  assert (W : wp (for_up 4 0 (read_entry start)) (fun _ => I 4) s).
  { apply (wp_for_up I 4 0).
    - exists i. destruct Hi as [_ _ [L E] _]. split; [by destruct s; cbn in *; subst|]. split; [done|]. split; [done|]. intros k Hk.
      destruct (proj2 (zlookup_is_Some (mtv_Password i) k) ltac:(lia)) as [r Hr]. exists r. split; [done|]. rewrite decide_False by lia.
      apply (proj1 (Forall_lookup _ _) E _ _ (proj2 (proj1 (zlookup_Some _ _ _) Hr))).
    - intros m s1 Hm (i1 & -> & F1 & L1 & A1). destruct (A1 m ltac:(lia)) as (p & Hp & Lp). rewrite decide_False in Lp by lia.
      destruct (proj2 (zlookup_is_Some (mtv_Password i0) m)) as [q Hq]; [destruct H0 as [_ _ [-> _] _]; lia|].
      destruct (read_entry_run i0 H0 {| gtp_PasswordInfo := Some i1; pw_flash := pw_flash s |} i1 m p q Hf eq_refl Hp Lp Hq) as (r & Er & Ar).
      unfold wp. rewrite Er. eexists. split; [done|]. split; [done|]. cbn [with_entries mtv_Password]. split; [by rewrite length_insert|]. intros k Hk.
      rewrite zlookup_insert by eauto. destruct (decide (k = m)) as [->|Hne].
      + exists r. split; [done|]. rewrite decide_True by lia. intros q' Hq'. congruence.
      + destruct (A1 k Hk) as (r' & Hr' & Q). exists r'. split; [done|]. repeat case_decide; try lia; done. }
  unfold wp in W. destruct (for_up 4 0 (read_entry start) s) as [[[] s1]| |]; [|done|done]. destruct W as (i' & -> & Fi & Li & A). exists i'. split; [done|]. split; [done|]. split; [done|].
  intros k q Hq. pose proof (zlookup_lt _ _ _ Hq). destruct H0 as [_ _ [L4 _] _]. destruct (A k ltac:(lia)) as (r & Hr & Ar). exists r. split; [done|]. rewrite decide_True in Ar by lia. by apply Ar.
Qed.

Lemma mod_info_run s i f : gtp_PasswordInfo s = Some i -> mod_info f s = Ok (tt, {| gtp_PasswordInfo := Some (f i); pw_flash := pw_flash s |}).
Proof. intros E. unfold mod_info. by rewrite (run_bind _ _ _ _ _ (info_run s i E)). Qed.
(** What a restart finds in the flash. *)
Lemma saved_parts s s' i : saved s i -> pw_flash s' = pw_flash s ->
  mem_u16 s' start = PASSWORD_HEAD /\ mem_bytes s' start 52 = summed_bytes i /\ mem_u32 s' (start + 52) = mlv_Crc i /\ mem_byte s' (start + 2) = mcv_UploadForbid i.
Proof.
  intros [_ Hi [_ Rc] Hf] E. assert (Hf' : same_flash i s') by (unfold same_flash; rewrite <- Hf; unfold mem_bytes, mem_byte, fl; cbn; by rewrite E).
  pose proof (summed_length i Hi) as L. pose proof (in_head i Hi) as Hh. split; [|split; [|split]].
  - unfold mem_u16. replace start with (start + 0) by lia. rewrite (flash_bytes i s' 0 2 Hf') by lia. unfold info_bytes, summed_bytes. rewrite Hh. by vm_compute.
  - replace start with (start + 0) by lia. rewrite (flash_bytes i s' 0 52 Hf') by lia. unfold info_bytes. rewrite drop_0. change (Z.to_nat 52) with 52%nat. rewrite <- L. apply take_app_length.
  - unfold mem_u32. rewrite (flash_bytes i s' 52 4 Hf') by lia. unfold info_bytes. change (Z.to_nat 52) with 52%nat. rewrite <- L at 1. rewrite drop_app_length. by apply (le_value_bytes 4).
  - rewrite (flash_byte i s' 2 Hf') by lia. done.
Qed.
Lemma restart_run s i t g : saved s i -> exists s' i', restart t g s = Ok (tt, s') /\ gtp_PasswordInfo s' = Some i' /\ mcv_UploadForbid i' = mcv_UploadForbid i /\ length (mtv_Password i') = 4%nat /\
  forall k q, zlookup (mtv_Password i) k = Some q -> exists r, zlookup (mtv_Password i') k = Some r /\ alike q r.
Proof.
  intros Hs. pose proof Hs as [_ Hi [Ec _] Hf]. destruct (init_run s t g) as (i1 & E1 & H1).
  set (s1 := {| gtp_PasswordInfo := Some i1; pw_flash := pw_flash s |} : st) in *.
  destruct (saved_parts s s1 i Hs eq_refl) as (Ph & Pb & Pc & Pf). set (i2 := with_UploadForbid (mcv_UploadForbid i) i1).
  set (s2 := {| gtp_PasswordInfo := Some i2; pw_flash := pw_flash s |} : st).
  destruct (entries_run i s2 i2 Hi) as (i3 & E3 & F3 & L3 & A3); [exact Hf|done|destruct H1 as [A B C D]; split; [done|apply u8_range|done|done]|].
  exists {| gtp_PasswordInfo := Some (with_Crc (mlv_Crc i) i3); pw_flash := pw_flash s |}, (with_Crc (mlv_Crc i) i3). split; [|split; [done|]].
  - unfold restart. unfold mbind, M_bind in E1 |- *. destruct (put_info None s) as [[[] s0]| |]; [|done|done]. rewrite E1.
    change (plc_read_password_info s1 = Ok (tt, {| gtp_PasswordInfo := Some (with_Crc (mlv_Crc i) i3); pw_flash := pw_flash s |})).
    unfold plc_read_password_info. assert (bsp_get_flash_info USER_PASSWORD_START_FLASH_PAGE = Some (part 0x80 start 0x60200FFF)) as -> by done.
    cbn [startAddr part]. cbv zeta. rewrite run_gets, Ph. change (negb (PASSWORD_HEAD =? PASSWORD_HEAD)) with false. cbv iota. rewrite run_gets.
    change (sizeof_info - 4) with 52. rewrite Pb. rewrite (run_some _ _) by exact Ec. rewrite run_gets, Pc. rewrite Z.eqb_refl. cbn [negb]. rewrite run_gets, Pf.
    rewrite (run_bind _ _ _ _ _ (mod_info_run s1 i1 _ eq_refl)). rewrite (run_bind _ _ _ _ _ E3). by apply (mod_info_run {| gtp_PasswordInfo := Some i3; pw_flash := pw_flash s |} i3 (with_Crc (mlv_Crc i))).
  - split; [cbn; rewrite F3; apply u8_id; apply (in_forbid i Hi)|]. by split.
Qed.
(** Structures whose entries are alike. *)
Lemma same_verdicts (l l' : list plc_password_st) j guess n : length l' = length l -> (forall k q, zlookup l k = Some q -> exists r, zlookup l' k = Some r /\ alike q r) ->
  verdict (zlookup l' j) guess n = verdict (zlookup l j) guess n.
Proof.
  intros L A. destruct (zlookup l j) as [q|] eqn:Hq; [destruct (A j q Hq) as (r & -> & Ar); by apply alike_verdict|].
  destruct (zlookup l' j) as [r|] eqn:Hr; [|done]. pose proof (zlookup_lt _ _ _ Hr). destruct (proj2 (zlookup_is_Some l j) ltac:(lia)) as [q Hq']. congruence.
Qed.
(** The new password is accepted. *)
Lemma verdict_updated t pw p : entry_ok p -> (length pw <= 8)%nat -> Forall byte_ok pw -> verdict (Some (updated t pw p)) pw (Z.of_nat (length pw)) = Some pdPASS.
Proof.
  intros [_ L _] Hn Hb. unfold verdict. cbn [updated mcv_Len mcv_Password]. rewrite Z.eqb_refl. cbn [negb]. case_match; [done|]. rewrite Nat2Z.id.
  rewrite same_chars_equal; [done|lia|]. intros y Hy. destruct (proj2 (zlookup_is_Some pw y) ltac:(lia)) as [c Hc]. exists c. split; [done|].
  rewrite copied_at by lia. rewrite decide_True by lia. unfold byte_at. rewrite Hc. cbn. f_equal. apply u8_id.
  apply (proj1 (Forall_lookup _ _) Hb _ _ (proj2 (proj1 (zlookup_Some _ _ _) Hc))).
Qed.
End run.

(** ** The claims *)

(** C21: Passwords and the ban on uploads come through a restart: after a
    password of at most eight characters is set, and then again after the
    controller restarts, every check of every password with every guess has
    the same verdict, the ban is as before, the new password is accepted and
    the checks of the other passwords are as before it was set. *)
Theorem passwords_survive_restart {F} `{!NorFlash F} `{!NorLaws F} (s : pw_st F) i k pw t1 t2 g :
  gtp_PasswordInfo s = Some i -> info_ok i -> 0 <= k < MAX_PASSWORD_NUM -> (length pw <= 8)%nat -> Forall byte_ok pw ->
  exists s1 s2, plc_update_password_info t1 k pw (Z.of_nat (length pw)) s = Ok (pdPASS, s1) /\ restart t2 g s1 = Ok (tt, s2) /\
    (forall j guess n, result (plc_check_password_info j guess n s2) = result (plc_check_password_info j guess n s1)) /\
    result (plc_get_upload_forbid_flag s2) = result (plc_get_upload_forbid_flag s) /\
    result (plc_check_password_info k pw (Z.of_nat (length pw)) s2) = Some pdPASS /\
    (forall j guess n, 0 <= j -> j <> k -> result (plc_check_password_info j guess n s2) = result (plc_check_password_info j guess n s)).
Proof.
  intros Hs Hi Hk Hn Hb. unfold MAX_PASSWORD_NUM in Hk. pose proof Hi as [_ _ [L4 E4] _].
  destruct (proj2 (zlookup_is_Some (mtv_Password i) k)) as [p Hp]; [lia|].
  destruct (update_run s i k p t1 pw Hs Hi Hp Hn) as (s1 & j1 & E1 & Hsv & Hj & Fj). destruct (restart_run s1 j1 t2 g Hsv) as (s2 & j2 & E2 & Hs2 & F2 & L2 & A2).
  pose proof (sa_info s1 j1 Hsv) as Hs1. assert (L1 : length (mtv_Password j1) = 4%nat) by (by rewrite Hj, length_insert).
  exists s1, s2. split; [done|]. split; [done|].
  assert (V : forall j guess n, result (plc_check_password_info j guess n s2) = result (plc_check_password_info j guess n s1)).
  { intros j guess n. rewrite (check_verdict s2 j2), (check_verdict s1 j1) by done. apply same_verdicts; [congruence|done]. }
  split; [exact V|]. split; [unfold plc_get_upload_forbid_flag; rewrite (run_bind _ _ _ _ _ (info_run s2 j2 Hs2)), (run_bind _ _ _ _ _ (info_run s i Hs)); cbn; congruence|].
  split; [|intros j guess n H0 Hne; rewrite V, (check_verdict s1 j1), (check_verdict s i) by done; by rewrite Hj, zlookup_insert, decide_False by eauto].
  rewrite V, (check_verdict s1 j1) by done. rewrite Hj, zlookup_insert, decide_True by eauto. apply verdict_updated; [|done|done].
  apply (proj1 (Forall_lookup _ _) E4 _ _ (proj2 (proj1 (zlookup_Some _ _ _) Hp))).
Qed.

(** C22: A successful password check counts for the first five minutes after
    the start of the controller only: as the time of a check is kept in a byte,
    from tick 300256 on an enabled password that was just entered correctly
    is reported as not entered. *)
Theorem password_checks_expire {F} (s : pw_st F) i k p guess n s' now :
  gtp_PasswordInfo s = Some i -> zlookup (mtv_Password i) k = Some p -> entry_ok p -> mcv_IsEnable p <> 0 ->
  plc_check_password_info k guess n s = Ok (pdPASS, s') ->
  (255 <= now <= MAX_PASSWORD_VALIDITY -> result (plc_get_password_check_result now k s') = Some pdPASS) /\
  (MAX_PASSWORD_VALIDITY + 255 < now < 2 ^ 32 -> result (plc_get_password_check_result now k s') = Some pdFAIL).
Proof.
  intros Hs Hp Hok En Hc. destruct Hok as [B _ _]. unfold entry_bytes in B. apply Forall_app in B as [B _]. apply Forall_cons in B as [_ B]. apply Forall_cons in B as [_ B].
  apply Forall_cons in B as [Ht _]. unfold byte_ok, byte in Ht.
  assert (s' = with_entry s i k (with_CheckPass 1 p)) as -> by exact (check_passed s i k p guess n s' Hs Hp En Hc).
  assert (Sk : is_Some (zlookup (mtv_Password i) k)) by eauto.
  unfold plc_get_password_check_result. rewrite !(run_bind _ _ _ _ _ (entry_run s i k Sk _)). cbn [with_CheckPass mcv_IsEnable mlv_CheckTime].
  apply Z.eqb_neq in En. rewrite En. unfold MAX_PASSWORD_VALIDITY. split; intros Hn; rewrite u32_id by lia.
  - rewrite (proj2 (Z.ltb_ge _ _)) by lia. rewrite (run_bind _ _ _ _ _ (mod_entry_run s i k Sk _ _)). by rewrite (run_bind _ _ _ _ _ (entry_run s i k Sk _)).
  - rewrite (proj2 (Z.ltb_lt _ _)) by lia. by rewrite (run_bind _ _ _ _ _ (mod_entry_run s i k Sk _ _)).
Qed.
Definition pw_ready : pw_st ram_chip := match (plc_password_init 0 0;; plc_update_password_info 1000 UPLOAD_PASSWORD [49; 50; 51; 52] 4) pw_start with Ok (_, s) => s | _ => pw_start end.
Definition pw_info : plc_password_info_st := default {| msv_Head := 0; mcv_UploadForbid := 0; mtv_Password := []; padding := 0; mlv_Crc := 0 |} (gtp_PasswordInfo pw_ready).
Lemma pw_ready_info : gtp_PasswordInfo pw_ready = Some pw_info.
Proof. by vm_compute. Qed.
Definition entry_okb (p : plc_password_st) : bool :=
  forallb (fun b => (0 <=? b) && (b <? 2 ^ 8)) (entry_bytes p) && (length (mcv_Password p) =? 8)%nat && (mcv_Len p <=? MAX_PASSWORD_LEN).
Lemma entry_okb_ok p : entry_okb p = true -> entry_ok p.
Proof.
  unfold entry_okb. rewrite !andb_true_iff, Nat.eqb_eq, Z.leb_le, forallb_forall. intros [[B L] M]. split; [|done|done].
  apply Forall_forall. intros b Hb. apply list_elem_of_In, B in Hb. unfold byte_ok, byte. lia.
Qed.
Lemma entries_okb_ok l : forallb entry_okb l = true -> Forall entry_ok l.
Proof. rewrite forallb_forall. intros H. apply Forall_forall. intros p Hp. by apply entry_okb_ok, H, list_elem_of_In. Qed.
Lemma pw_info_ok : info_ok pw_info.
Proof.
  split; [by vm_compute|by vm_compute| |by vm_compute]. split; [by vm_compute|]. apply entries_okb_ok. vm_compute. reflexivity.
Qed.
Lemma passwords_survive_restart_witness : exists s1 s2, plc_update_password_info 5 MONITOR_PASSWORD [7; 8] 2 pw_ready = Ok (pdPASS, s1) /\ restart 0 9 s1 = Ok (tt, s2) /\
  result (plc_check_password_info MONITOR_PASSWORD [7; 8] 2 s2) = Some pdPASS.
Proof.
  destruct (passwords_survive_restart pw_ready pw_info MONITOR_PASSWORD [7; 8] 5 0 9) as (s1 & s2 & A & B & _ & _ & C & _).
  - exact pw_ready_info.
  - exact pw_info_ok.
  - by unfold MONITOR_PASSWORD, MAX_PASSWORD_NUM.
  - cbn. lia.
  - unfold byte_ok, byte. repeat (apply Forall_cons; split; [lia|]). constructor.
  - change (Z.of_nat (length [7; 8])) with 2 in A, C. exists s1, s2. split; [exact A|]. split; [exact B|exact C].
Defined.
Lemma password_checks_expire_witness : exists s', plc_check_password_info UPLOAD_PASSWORD [49; 50; 51; 52] 4 pw_ready = Ok (pdPASS, s') /\
  result (plc_get_password_check_result 300256 UPLOAD_PASSWORD s') = Some pdFAIL.
Proof.
  assert (Hen : mcv_IsEnable <$> zlookup (mtv_Password pw_info) UPLOAD_PASSWORD = Some 1) by by vm_compute.
  assert (Hc : result (plc_check_password_info UPLOAD_PASSWORD [49; 50; 51; 52] 4 pw_ready) = Some pdPASS) by by vm_compute.
  apply fmap_Some in Hen as (p & Hp & En). apply result_run in Hc as [s' Hs'].
  exists s'. split; [exact Hs'|].
  assert (entry_ok p) as Hok by (apply (proj1 (Forall_lookup _ _) (proj2 (in_entries _ pw_info_ok)) _ _ (proj2 (proj1 (zlookup_Some _ _ _) Hp)))).
  assert (mcv_IsEnable p <> 0) as Hne by (rewrite <- En; lia).
  refine (proj2 (password_checks_expire pw_ready pw_info UPLOAD_PASSWORD p [49; 50; 51; 52] 4 s' 300256 pw_ready_info Hp Hok Hne Hs') _). split; reflexivity.
Defined.
