(* ===== verification/Service.v ===== *)
(** * The state of the service functions

    What the download, upload and control functions of the MODBUS slave work
    on (protocol/modbus mb_download.c, mb_upload.c, mb_ctrl.c): the message and
    the controller (MbSlave), the passwords and the flash (Password, Flash),
    the files in transfer, the pointers to the user's files, the lists of
    monitored and of forced elements, and the checker's variables (Compiler).

    A file is read through a pointer into the flash, to one of the default
    files of plc_variable.c, or to a buffer from the heap. Of a buffer the
    model keeps its size and what has been written, which is always a prefix:
    files are stored from the start on. Log output is compiled away
    (kalyke_opts.h sets LOG_OPEN to 0). *)
From stdpp Require Import base list numbers.
From S2P Require Import Prelude Bytes Element Machine Verify Compiler MbSlave Flash Password.

(** ** The default files (plc_variable.c) *)
Definition ucode_default : list Z :=
  [0xaa; 0xaa; 0; 0; 0; 2; 0; 1; 2; 3; 4; 5; 6; 7; 8; 9; 0xa; 0xb; 0xc; 0xd; 0xe; 0xf; 0x2a; 0; 0; 0; 0; 0; 0x2b; 0xf0;
   1; 0xf0; 0; 1; 0x23; 0xf0; 0xff; 0xff; 0xe8; 0xad; 0x55; 0x55].
Definition sysblock_default : list Z :=
  [0xaa; 0xaa; 0; 1; 0; 1; 0; 0; 0; 0; 0; 0; 0; 0; 0; 0; 0; 0; 0; 0; 0xff; 0xff; 0xa4; 1; 1; 0xaa; 0x2c; 0; 0; 0; 0; 0;
   0; 0; 0; 0; 0; 0; 0; 0; 0; 0; 0; 0; 0; 0; 0; 0; 0xc8; 0; 0; 0; 0; 0; 0; 0; 0; 0; 0; 0; 0; 0; 0; 0; 0; 0; 0; 0; 2;
   0xaa; 0x16; 0; 1; 0; 0; 0; 0; 0; 0; 0; 0; 0; 0; 0; 0; 0; 0; 0; 0; 0; 3; 0xaa; 6; 0; 0xc8; 0; 4; 0xaa; 6; 0; 0; 0; 5;
   0xaa; 6; 0; 0xa; 0; 6; 0xaa; 8; 0; 0xa; 0; 0; 0; 7; 0xaa; 6; 0; 9; 0; 8; 0xaa; 6; 0; 0; 0; 9; 0xaa; 0x14; 0; 7; 0x40;
   1; 0; 0xe8; 3; 0; 0; 0; 0; 0; 0; 0; 0; 0; 0; 0xa; 0xaa; 0x14; 0; 7; 0x50; 0xf; 0; 0xe8; 3; 0; 0; 0; 0; 0; 0; 0; 0; 0;
   0; 0xd; 0xaa; 0x42; 0; 0x3c; 0; 0; 0; 0; 0; 0; 0; 0; 0; 1; 1; 0; 0; 0; 0; 0; 0; 0; 0; 1; 1; 0; 0; 0; 0; 0; 0; 0; 0; 0;
   1; 1; 1; 1; 1; 1; 1; 1; 1; 1; 1; 0; 0; 1; 1; 1; 1; 1; 1; 0xff; 0xff; 1; 1; 1; 0; 0; 0; 0; 0; 0; 0xff; 0x10; 0xaa;
   0x14; 0; 0x21; 0x40; 1; 0; 0xe8; 3; 0; 0; 0; 0; 0; 0; 0; 0; 0; 0; 0x20; 0xaa; 6; 0; 0; 0; 0x19; 0xaa; 0x9c; 0; 0xff;
   0x7f; 0x64; 0; 8; 0; 0; 0; 3; 0; 0; 0; 8; 0; 0; 0; 8; 0; 0; 0; 0xd0; 7; 0x58; 0x1b; 0x5a; 0x1b; 0; 0; 0; 0; 8; 0; 0;
   0; 8; 0; 0; 0; 0xd0; 7; 0x5c; 0x9b; 0x5e; 0x9b; 0; 0; 0; 0; 8; 0; 0; 0; 8; 0; 0; 0; 0xd0; 7; 0xff; 0x7f; 0xff; 0x7f;
   0; 0; 0; 0; 8; 0; 0; 0; 8; 0; 0; 0; 0xd0; 7; 0xff; 0x7f; 0xff; 0x7f; 3; 0; 0; 0; 8; 0; 0; 0; 8; 0; 0; 0; 0xd0; 7;
   0x70; 0x17; 0x72; 0x17; 0; 0; 0; 0; 8; 0; 0; 0; 8; 0; 0; 0; 0xd0; 7; 0x74; 0x97; 0x76; 0x97; 0; 0; 0; 0; 8; 0; 0; 0;
   8; 0; 0; 0; 0xd0; 7; 0xff; 0x7f; 0xff; 0x7f; 0; 0; 0; 0; 8; 0; 0; 0; 8; 0; 0; 0; 0xd0; 7; 0xff; 0x7f; 0xff; 0x7f;
   0x2a; 0x5d; 0x55; 0x55].
Definition datablock_default : list Z :=
  [0xaa; 0xaa; 0; 2; 0; 1; 0; 1; 2; 3; 4; 5; 6; 7; 8; 9; 0xa; 0xb; 0xc; 0xd; 0xe; 0xf; 0x1c; 0; 0xbc; 0xaf; 0x55; 0x55].
Definition pouinfo_default : list Z :=
  [0xaa; 0xaa; 0; 2; 0; 1; 0; 1; 2; 3; 4; 5; 6; 7; 8; 9; 0xa; 0xb; 0xc; 0xd; 0xe; 0xf; 0x1c; 0; 0xbc; 0xaf; 0x55; 0x55].
Definition gvt_default : list Z :=
  [0xaa; 0xaa; 0; 3; 0; 2; 0; 1; 2; 3; 4; 5; 6; 7; 8; 9; 0xa; 0xb; 0xc; 0xd; 0xe; 0xf; 0x1c; 0; 0x1b; 0x59; 0x55; 0x55].
Definition netcfg_default : list Z :=
  [0xaa; 0xaa; 0; 5; 0; 1; 0xa3; 3; 0; 0; 0; 0; 0; 0; 0; 0; 0; 0; 0; 0; 0xff; 0xff; 0xa3; 3; 0x40; 0xaa; 0x3d; 0; 1; 8;
   0x81; 0xe8; 0x88; 0xd4; 0xf1; 0; 0; 0; 0; 0xd4; 0xf1; 0x33; 0x39; 0x2e; 0x31; 0x30; 0x38; 0x2e; 0x31; 0x30; 0x2e;
   0x39; 0x35; 0; 0; 0; 0; 0; 0; 0; 0; 0; 0; 0; 0; 0; 0; 0; 0; 0; 0; 0; 0; 0; 0; 0; 0; 0; 0; 0; 0; 0xd4; 0xf1; 0; 0;
   0x41; 0xaa; 0x18; 0; 0xc0; 0xa8; 0; 0xa; 0xff; 0xff; 0xff; 0; 0xc0; 0xa8; 0; 1; 0xc0; 0xa8; 0; 1; 1; 1; 1; 0; 0x42;
   0xaa; 0x18; 0; 0xc0; 0xa8; 0; 0xb; 0xff; 0xff; 0xff; 0; 0xc0; 0xa8; 0; 1; 0xc0; 0xa8; 0; 1; 1; 1; 0; 0; 0x44; 0xaa;
   0x4a; 0; 0xc0; 0xa8; 0; 0xc; 0xff; 0xff; 0xff; 0; 0xc0; 0xa8; 0; 1; 0xc0; 0xa8; 0; 1; 0x61; 0x62; 0x63; 0x64; 0x65;
   0x66; 0x67; 0x68; 0; 0; 0; 0; 0; 0; 0; 0; 0; 0; 0; 0; 0; 0; 0; 0; 1; 4; 0x31; 0x32; 0x33; 0x34; 0x35; 0x36; 0x37;
   0x38; 0; 0; 0; 0; 0; 0; 0; 0; 0; 0; 0; 0; 0; 0; 0; 0; 1; 0; 0; 0; 0x4b; 0xaa; 6; 0; 0; 0; 9; 0xaa; 0x14; 0; 7; 0x40;
   1; 0; 0xe8; 3; 0; 0; 0; 0; 0; 0; 2; 0; 0x64; 0; 0xa; 0xaa; 0x14; 0; 7; 0x40; 1; 0; 0xe8; 3; 0; 0; 0; 0; 0; 0; 2; 0;
   0x64; 0; 0x4c; 0xaa; 0x12; 0; 0; 0; 0; 0; 0; 0; 0; 0; 0; 0; 0; 0; 0; 0; 0x4d; 0xaa; 0x12; 0; 1; 0; 0; 0; 0; 0; 0; 0;
   0; 0; 0; 0; 0; 0; 0x60; 0xaa; 0x74; 2; 0; 0; 0x44; 0x45; 0x46; 0x41; 0x55; 0x4c; 0x54; 0x4d; 0x51; 0x54; 0x54; 0; 0;
   0; 0; 0; 0; 0; 0; 0; 0; 0; 0; 0; 0; 0; 0; 0; 0; 0; 0; 0; 0; 0; 0; 0; 0; 0; 0; 0; 0; 0; 0; 0; 0; 0; 0; 0; 0; 0; 0; 0;
   0; 0; 0; 0; 0; 0; 0; 0; 0; 0; 0; 0; 0; 0; 0; 0; 0; 0; 0; 0; 0; 0; 0; 0; 0; 0; 0; 0; 0; 0; 0; 0; 0; 0; 0; 0; 0; 0; 0;
   0; 0; 0; 0; 0; 0xad; 0xf0; 0x25; 0x44; 0x45; 0x56; 0x49; 0x44; 0; 0; 0; 0; 0; 0; 0; 0; 0; 0; 0; 0; 0; 0; 0; 0; 0; 0;
   0; 0; 0; 0; 0; 0; 0; 0; 0; 0; 0; 0; 0; 0; 0; 0; 0; 0; 0; 0; 0; 0; 0; 0; 0; 0; 0; 0; 0; 0; 0; 0; 0; 0; 0; 0; 0; 0; 0;
   0; 0; 0; 0; 0; 0; 0; 0; 0; 0; 0; 0; 0; 0; 0; 0; 0; 0; 0; 0; 0; 0; 0; 0; 0; 0; 0; 0; 0; 0; 0; 0; 0; 0; 0; 0; 0; 0; 0;
   0; 0; 0; 0; 0; 0; 0; 0; 0; 0; 0; 0; 0; 0; 0; 0; 0; 0; 0; 0; 0; 0; 0; 0; 0; 0; 0; 0; 0; 0; 0; 0; 0; 0; 0; 0; 0; 0; 0;
   0; 0; 0; 0; 0; 0; 0; 0; 0; 0; 0; 0; 0; 0; 0; 0; 0; 0; 0; 0; 0; 0; 0; 0; 0; 0; 0; 0; 0; 0; 0; 0; 0; 0; 0; 0; 0; 0; 0;
   0; 0; 0; 0; 0; 0; 0; 0; 0; 0; 0; 0; 0; 0; 0; 0; 0; 0; 0; 0; 0x61; 0x64; 0x6d; 0x69; 0x6e; 0; 0; 0; 0; 0; 0; 0; 0; 0;
   0; 0; 0; 0; 0; 0; 0; 0; 0; 0; 0; 0; 0; 0; 0; 0; 0; 0; 0; 0; 0; 0; 0; 0; 0; 0; 0; 0; 0; 0; 0; 0; 0; 0; 0; 0; 0; 0; 0;
   0; 0; 0; 0; 0; 0; 0; 0; 0; 0; 0; 0x70; 0x61; 0x73; 0x73; 0x77; 0x6f; 0x72; 0x64; 0; 0; 0; 0; 0; 0; 0; 0; 0; 0; 0; 0;
   0; 0; 0; 0; 0; 0; 0; 0; 0; 0; 0; 0; 0; 0; 0; 0; 0; 0; 0; 0; 0; 0; 0; 0; 0; 0; 0; 0; 0; 0; 0; 0; 0; 0; 0; 0; 0; 0; 0;
   0; 0; 0; 0; 0; 0x3c; 0; 0x46; 0x45; 0x58; 0x43; 0x4c; 0x4f; 0x55; 0x44; 0x2f; 0x44; 0x45; 0x46; 0x41; 0x55; 0x4c;
   0x54; 0x4d; 0x51; 0x54; 0x54; 0x2f; 0x44; 0x41; 0x54; 0x41; 0x50; 0x55; 0x42; 0x2f; 0x52; 0x50; 0x54; 0x2f; 0x25;
   0x44; 0x45; 0x56; 0x49; 0x44; 0; 0; 0; 0; 0; 0; 0; 0; 0; 0; 0; 0; 0; 0; 0; 0; 0; 0; 0; 0; 0; 0; 0; 0; 0; 0x46; 0x45;
   0x58; 0x43; 0x4c; 0x4f; 0x55; 0x44; 0x2f; 0x44; 0x45; 0x46; 0x41; 0x55; 0x4c; 0x54; 0x4d; 0x51; 0x54; 0x54; 0x2f;
   0x45; 0x56; 0x45; 0x4e; 0x54; 0x50; 0x55; 0x42; 0x2f; 0x52; 0x50; 0x54; 0x2f; 0x25; 0x44; 0x45; 0x56; 0x49; 0x44; 0;
   0; 0; 0; 0; 0; 0; 0; 0; 0; 0; 0; 0; 0; 0; 0; 0; 0; 0; 0; 0; 0; 0; 0; 0x46; 0x45; 0x58; 0x43; 0x4c; 0x4f; 0x55; 0x44;
   0x2f; 0x44; 0x45; 0x46; 0x41; 0x55; 0x4c; 0x54; 0x4d; 0x51; 0x54; 0x54; 0x2f; 0x44; 0x41; 0x54; 0x41; 0x53; 0x55;
   0x42; 0x2f; 0x52; 0x50; 0x54; 0x2f; 0x25; 0x44; 0x45; 0x56; 0x49; 0x44; 0; 0; 0; 0; 0; 0; 0; 0; 0; 0; 0; 0; 0; 0; 0;
   0; 0; 0; 0; 0; 0; 0; 0; 0; 0; 0; 0; 0x4f; 0xaa; 8; 0; 0; 0; 0; 0; 0x49; 0xe4; 0x4d; 0xe1; 0x55; 0x55].

(** ** Files *)
Inductive file_ptr : Set := InFlash (addr : Z) | Constant (l : list Z) | Buffer (size : Z) (written : list Z).
Record mb_file_trans_st := {
  mcv_FrameCnt : Z;
  mcv_PreFrame : Z;
  mcv_Flag : Z;
  mlv_FileLen : Z;
  mcp_FileHandler : file_ptr }.
Record plc_user_file_ptr_st := {
  UCodePtr : file_ptr;
  SysBlockPtr : file_ptr;
  NetcfgBlockPtr : file_ptr;
  DataBlockPtr : file_ptr;
  PouInfoPtr : file_ptr;
  GvtPtr : file_ptr;
  PID1Ptr : file_ptr;
  PID2Ptr : file_ptr }.
Definition MB_DL_UCODE := 0.
Definition MB_DL_SYS_BLOCK := 1.
Definition MB_DL_DATA_BLOCK := 2.
Definition MB_DL_POU_INFO := 3.
Definition MB_DL_GVT := 4.
Definition MB_DL_NETCFG := 5.
Definition MB_DL_SYS_UPGRADE := 6.
Definition MB_DL_PLC_CBIN := 7.
Definition MB_DL_PID1 := 8.
Definition MB_DL_PID2 := 9.
Definition MB_DL_MAX := 10.

(** ** Monitored and forced elements *)
Record mb_monitor_element_t := {
  mon_ElementType : Z;
  msv_ElementAddr : Z;
  msv_ModbusAddr : Z;
  msv_ElementValue : option Z }.
Record mb_monitor_element_head_t := { head : list mb_monitor_element_t; lsv_ListLen : Z }.
Inductive element_list : Set := gtv_MbMonitorBits | gtv_MbMonitorWords | gtv_MbMonitorBitsWords | gtv_ForceBits | gtv_ForceWords.
#[global] Instance element_list_eq_dec : EqDecision element_list.
Proof. solve_decision. Defined.

(** ** The state *)
Record ctl_st (F : Type) := {
  mb : mb_st;
  pw : pw_st F;
  gtv_ModbusFileTrans : list (option mb_file_trans_st);
  gtv_UserFilePtrSt : plc_user_file_ptr_st;
  lists : element_list -> mb_monitor_element_head_t;
  checker : comp_st;
  forbidden_format : Z }.
Arguments mb {F} c.
Arguments pw {F} c.
Arguments gtv_ModbusFileTrans {F} c.
Arguments gtv_UserFilePtrSt {F} c.
Arguments lists {F} c.
Arguments checker {F} c.
Arguments forbidden_format {F} c.
Section state.
Context {F : Type}.
Notation st := (ctl_st F).
Definition with_mb (v : mb_st) (s : st) : st := {| mb := v; pw := pw s; gtv_ModbusFileTrans := gtv_ModbusFileTrans s;
  gtv_UserFilePtrSt := gtv_UserFilePtrSt s; lists := lists s; checker := checker s; forbidden_format := forbidden_format s |}.
Definition with_pw (v : pw_st F) (s : st) : st := {| mb := mb s; pw := v; gtv_ModbusFileTrans := gtv_ModbusFileTrans s;
  gtv_UserFilePtrSt := gtv_UserFilePtrSt s; lists := lists s; checker := checker s; forbidden_format := forbidden_format s |}.
Definition with_FileTrans (v : list (option mb_file_trans_st)) (s : st) : st := {| mb := mb s; pw := pw s; gtv_ModbusFileTrans := v;
  gtv_UserFilePtrSt := gtv_UserFilePtrSt s; lists := lists s; checker := checker s; forbidden_format := forbidden_format s |}.
Definition with_UserFilePtr (v : plc_user_file_ptr_st) (s : st) : st := {| mb := mb s; pw := pw s; gtv_ModbusFileTrans := gtv_ModbusFileTrans s;
  gtv_UserFilePtrSt := v; lists := lists s; checker := checker s; forbidden_format := forbidden_format s |}.
Definition with_lists (v : element_list -> mb_monitor_element_head_t) (s : st) : st := {| mb := mb s; pw := pw s;
  gtv_ModbusFileTrans := gtv_ModbusFileTrans s; gtv_UserFilePtrSt := gtv_UserFilePtrSt s; lists := v; checker := checker s;
  forbidden_format := forbidden_format s |}.
Definition with_checker (v : comp_st) (s : st) : st := {| mb := mb s; pw := pw s; gtv_ModbusFileTrans := gtv_ModbusFileTrans s;
  gtv_UserFilePtrSt := gtv_UserFilePtrSt s; lists := lists s; checker := v; forbidden_format := forbidden_format s |}.
#[global] Instance ctl_st_flash : Sub (flash_st F) st.
Proof.
  refine {| sget s := pw_flash (pw s); sset f s := with_pw {| gtp_PasswordInfo := gtp_PasswordInfo (pw s); pw_flash := f |} s |}; intros; try done; by destruct s as [? [] ? ? ? ? ?].
Defined.

(** ** A computation of a part *)
Definition on_mb {A} (m : M mb_st A) : M st A := fun s =>
  match m (mb s) with Ok (a, v) => Ok (a, with_mb v s) | Ub => Ub | NoFuel => NoFuel end.
Definition on_pw {A} (m : M (pw_st F) A) : M st A := fun s =>
  match m (pw s) with Ok (a, v) => Ok (a, with_pw v s) | Ub => Ub | NoFuel => NoFuel end.
Definition on_plc {A} (m : Mc A) : M st A := on_mb (fun s =>
  match m (base s) with Ok (a, v) => Ok (a, with_base v s) | Ub => Ub | NoFuel => NoFuel end).

(** ** Reading a file *)
Context `{!NorFlash F}.
Notation Mt := (M st).
(** [n] bytes from place [i] of the file on. *)
Definition FLASH_END := FlexSPI_AMBA_BASE + 0x400000.
Definition file_bytes (p : file_ptr) (i n : Z) : Mt (list Z) :=
  match p with
  | InFlash a => if (FlexSPI_AMBA_BASE <=? a + i) && (0 <=? n) && (a + i + n <=? FLASH_END) then gets (fun s => mem_bytes s (a + i) n) else ub
  | Constant l | Buffer _ l =>
      if (0 <=? i) && (0 <=? n) && (i + n <=? Z.of_nat (length l)) then mret (take (Z.to_nat n) (drop (Z.to_nat i) l)) else ub
  end.
Definition file_byte (p : file_ptr) (i : Z) : Mt Z := l ← file_bytes p i 1; of_option (zlookup l 0).
(** [plc_get_file_length (p + i, 4)]: word and byte access give the same. *)
Definition FILE_LEN_INFO_START_INDEX := 6.
Definition file_length (p : file_ptr) (i : Z) : Mt Z := l ← file_bytes p i 4; mret (le_value l).
(** A store through a file pointer: only a buffer can be written. *)
Definition file_store (p : file_ptr) (i v : Z) : option file_ptr :=
  match p with
  | Buffer size l =>
      if (0 <=? i) && (i <? size) then
        if i =? Z.of_nat (length l) then Some (Buffer size (l ++ [u8 v])) else l' ← zupdate l i (u8 v); Some (Buffer size l')
      else None
  | _ => None
  end.

(** ** Transfers and lists *)
Definition transfer (i : Z) : Mt (option mb_file_trans_st) := l ← gets gtv_ModbusFileTrans; of_option (zlookup l i).
Definition put_transfer (i : Z) (o : option mb_file_trans_st) : Mt unit :=
  l ← gets gtv_ModbusFileTrans; l' ← of_option (zupdate l i o); modify (with_FileTrans l').
(** [gtv_ModbusFileTrans[i]->...]. *)
Definition file_of (i : Z) : Mt mb_file_trans_st := o ← transfer i; of_option o.
(** The file and its record are freed; the memory of a file in the flash is
    none of the heap's. *)
Definition free_file (i : Z) : Mt unit :=
  p ← file_of i; match mcp_FileHandler p with Buffer _ _ => put_transfer i None | _ => ub end.
Definition mod_file (i : Z) (f : mb_file_trans_st -> mb_file_trans_st) : Mt unit := p ← file_of i; put_transfer i (Some (f p)).
Definition put_list (n : element_list) (v : mb_monitor_element_head_t) : Mt unit :=
  modify (fun s => with_lists (fun m => if decide (m = n) then v else lists s m) s).
Definition empty_list : mb_monitor_element_head_t := {| head := []; lsv_ListLen := 0 |}.
(** [list_add_tail] and the counter. *)
Definition add_element (n : element_list) (e : mb_monitor_element_t) : Mt unit :=
  l ← gets (fun s => lists s n); put_list n {| head := head l ++ [e]; lsv_ListLen := u16 (lsv_ListLen l + 1) |}.
Definition mod_ptrs (f : plc_user_file_ptr_st -> plc_user_file_ptr_st) : Mt unit := modify (fun s => with_UserFilePtr (f (gtv_UserFilePtrSt s)) s).

(** A loop whose body may leave the function: [false]. *)
Fixpoint for_while (n : nat) (i : Z) (f : Z -> Mt bool) : Mt bool :=
  match n with O => mret true | S n => ok ← f i; if ok : bool then for_while n (i + 1) f else mret false end.
End state.
Definition with_frame (c f g n : Z) (h : file_ptr) : mb_file_trans_st :=
  {| mcv_FrameCnt := u8 c; mcv_PreFrame := f; mcv_Flag := u8 g; mlv_FileLen := u32 n; mcp_FileHandler := h |}.
Definition with_ptr (i : Z) (v : file_ptr) (p : plc_user_file_ptr_st) : plc_user_file_ptr_st :=
  let sel j old := if i =? j then v else old in
  {| UCodePtr := sel MB_DL_UCODE (UCodePtr p); SysBlockPtr := sel MB_DL_SYS_BLOCK (SysBlockPtr p); NetcfgBlockPtr := sel MB_DL_NETCFG (NetcfgBlockPtr p);
     DataBlockPtr := sel MB_DL_DATA_BLOCK (DataBlockPtr p); PouInfoPtr := sel MB_DL_POU_INFO (PouInfoPtr p); GvtPtr := sel MB_DL_GVT (GvtPtr p);
     PID1Ptr := sel MB_DL_PID1 (PID1Ptr p); PID2Ptr := sel MB_DL_PID2 (PID2Ptr p) |}.
(** The pointer to a file that [gtv_ModbusFileTrans[i]] transfers. *)
Definition ptr_of (i : Z) (p : plc_user_file_ptr_st) : option file_ptr :=
  zlookup [UCodePtr p; SysBlockPtr p; DataBlockPtr p; PouInfoPtr p; GvtPtr p; NetcfgBlockPtr p] i.
