(* ===== verification/Download.v ===== *)
(** * Downloads

    Models protocol/modbus mb_download.c: the frames that name the elements to
    be monitored and the frames of a file, which are numbered 1, 2, .., 0xFD,
    1, .. with 0xFE on the last one, and the functions of mb_ctrl.c they call.
    Suspending the other tasks and feeding the watch dog are left out; the
    port to the slave controllers is disabled in this build
    (DAISY_MASTER_FEATURE is 0). *)
From stdpp Require Import base list numbers.
From S2P Require Import Prelude Bytes Element Machine Compiler MbSlave Flash Password Service.

Definition MB_DOWNLOAD_MONITOR_BITS := 0x06.
Definition MB_DOWNLOAD_MONITOR_WORDS := 0x07.
Definition MB_DOWNLOAD_MONITOR_BITS_WORDS := 0x0A.
Definition MB_DOWNLOAD_UCODE := 0x5D.
Definition MB_DOWNLOAD_SYS_BLOCK := 0x5E.
Definition MB_DOWNLOAD_DATA_BLOCK := 0x5F.
Definition MB_DOWNLOAD_POU_INFO := 0x60.
Definition MB_DOWNLOAD_GVT := 0x61.
Definition MB_DOWNLOAD_NETCFG := 0x66.
Definition MB_DOWNLOAD_PID1 := 0x6C.
Definition MB_DOWNLOAD_PID2 := 0x6D.
Definition MB_DOWNLOAD_SYS_UPGRADE := 0x68.
Definition MB_DOWNLOAD_SLAVE := 0x69.
Definition MB_DOWNLOAD_PLC_PROGRAME_CBIN := 0x6A.
Definition MB_PASSWORD_CHECK_FAIL := 0x09.
Definition MB_ERROR_SLAVE_BUSY := 0x06.
Definition SYS_BLOCK_MAX_SIZE := 64 * 1024.
Definition POU_FILE_MAX_SIZE := 16 * 1024.
Definition GVT_FILE_MAX_SIZE := 16 * 1024.
Definition DATA_BLOCK_MAX_SIZE := 64 * 1024.
Definition UCODE_FILE_MAX_SIZE := 256 * 1024.
Definition DEV_NETWORK_INFO_SIZE := 128 * 1024.
Definition PID1_MAX_SIZE := 4 * 1024.
Definition PID2_MAX_SIZE := 4 * 1024.

Section download.
Context {F : Type} `{!NorFlash F}.
Notation st := (ctl_st F).
Notation Mt := (M st).
(** The fuel, the address and the allocator of the checker, and the memory
    left, which FreeRTOS tells. *)
Context (fuel : nat) (load : Z) (pvPortMalloc : comp_st -> bool) (xPortGetFreeHeapSize : st -> Z).

(** ** Starting and stopping the program (mb_ctrl.c) *)
Definition mb_slave_ctrl_run_cmd : Mt unit := on_plc (
  set_runstop_flag cmd_run true;; set_runstop_flag cmd_stop false;;
  set_runstop_flag error_status_stop false;; set_runstop_flag cmd_reboot false).
Definition mb_slave_ctrl_stop_cmd : Mt unit := on_plc (
  set_runstop_flag poweron_auto_run false;; set_runstop_flag cmd_run false;; set_runstop_flag cmd_stop true).
Definition online : Mt bool := gets (fun s => truthy (mcv_IsOnlineProgram (run_status (sys (base (mb s)))))).

(** ** Elements to monitor *)
(** One element of the frame, at place [p]. *)
Definition monitor_element (n : element_list) (t p : Z) : Mt bool :=
  lsv_ModbusAddr ← on_mb (GET_BIGPU16_DATA p);
  match mb_slave_convert_element_info t lsv_ModbusAddr with
  | None => on_mb (fail_with MB_ILIEGAL_DATA);; mret false
  | Some (e, a) =>
      add_element n {| mon_ElementType := e; msv_ElementAddr := a; msv_ModbusAddr := lsv_ModbusAddr; msv_ElementValue := None |};; mret true
  end.
Definition monitor_answer (ok : bool) : Mt unit := when ok (on_mb (copy_request 4 0;; answer 4)).
Definition first_frame (n : Z) : bool := (n =? 0x01) || (n =? 0xFE).
Definition download_monitor (n : element_list) (t : Z) : Mt unit :=
  lcv_FrameNum ← on_mb (rx 3);
  ok ← if first_frame lcv_FrameNum then
         lcv_ElementNum ← on_mb (rx 6); put_list n empty_list;;
         for_while (Z.to_nat lcv_ElementNum) 0 (fun i => monitor_element n t (7 + 2 * i))
       else mret true;
  monitor_answer ok.
Definition mb_slave_download_monitor_bits : Mt unit := download_monitor gtv_MbMonitorBits MB_BIT_ELEMENT.
Definition mb_slave_download_monitor_words : Mt unit := download_monitor gtv_MbMonitorWords MB_WORD_ELEMENT.
Definition mb_slave_download_monitor_bits_words : Mt unit :=
  lcv_FrameNum ← on_mb (rx 3);
  ok ← if first_frame lcv_FrameNum then
         lcv_BitsNum ← on_mb (rx 4); lcv_WordsNum ← on_mb (rx 5); put_list gtv_MbMonitorBitsWords empty_list;;
         ok ← for_while (Z.to_nat lcv_BitsNum) 0 (fun i => monitor_element gtv_MbMonitorBitsWords MB_BIT_ELEMENT (8 + 2 * i));
         if ok : bool then
           for_while (Z.to_nat lcv_WordsNum) 0 (fun i => monitor_element gtv_MbMonitorBitsWords MB_WORD_ELEMENT (8 + 2 * lcv_BitsNum + 2 * i))
         else mret false
       else mret true;
  monitor_answer ok.

(** ** The file of a frame *)
Definition mb_slave_init_file_info (p : mb_file_trans_st) : mb_file_trans_st :=
  {| mcv_FrameCnt := 0; mcv_PreFrame := 0; mcv_Flag := 0; mlv_FileLen := 0; mcp_FileHandler := mcp_FileHandler p |}.
Definition new_file (size : Z) : mb_file_trans_st :=
  mb_slave_init_file_info {| mcv_FrameCnt := 0; mcv_PreFrame := 0; mcv_Flag := 0; mlv_FileLen := 0; mcp_FileHandler := Buffer size [] |}.
(** A file that was received but not stored is dropped. *)
Definition drop_complete (i : Z) : Mt unit :=
  o ← transfer i;
  match o with Some p => when (truthy (Z.land (mcv_Flag p) 0x2)) (free_file i) | None => mret tt end.
(** A new transfer where there is none; [before] is done first. *)
Definition open_file (i : Z) (before : Mt unit) (size : Mt Z) : Mt Z :=
  o ← transfer i;
  match o with Some _ => mret i | None => before;; n ← size; put_transfer i (Some (new_file n));; mret i end.
(** The [switch]: the place of the file in the table. A code without a case
    leaves the pointer of the function uninitialised. *)
Definition select_file (code : Z) : Mt Z :=
  if code =? MB_DOWNLOAD_UCODE then
    drop_complete MB_DL_UCODE;;
    open_file MB_DL_UCODE (on ← online; when on mb_slave_ctrl_stop_cmd) (mret UCODE_FILE_MAX_SIZE)
  else if code =? MB_DOWNLOAD_SYS_BLOCK then open_file MB_DL_SYS_BLOCK (mret tt) (mret SYS_BLOCK_MAX_SIZE)
  else if code =? MB_DOWNLOAD_DATA_BLOCK then drop_complete MB_DL_DATA_BLOCK;; open_file MB_DL_DATA_BLOCK (mret tt) (mret DATA_BLOCK_MAX_SIZE)
  else if code =? MB_DOWNLOAD_POU_INFO then drop_complete MB_DL_POU_INFO;; open_file MB_DL_POU_INFO (mret tt) (mret POU_FILE_MAX_SIZE)
  else if code =? MB_DOWNLOAD_GVT then open_file MB_DL_GVT (mret tt) (mret GVT_FILE_MAX_SIZE)
  else if code =? MB_DOWNLOAD_NETCFG then open_file MB_DL_NETCFG (mret tt) (mret DEV_NETWORK_INFO_SIZE)
  else if code =? MB_DOWNLOAD_PID1 then open_file MB_DL_PID1 (mret tt) (mret PID1_MAX_SIZE)
  else if code =? MB_DOWNLOAD_PID2 then open_file MB_DL_PID2 (mret tt) (mret PID2_MAX_SIZE)
  else if code =? MB_DOWNLOAD_SYS_UPGRADE then
    open_file MB_DL_SYS_UPGRADE (mret tt) (n ← gets xPortGetFreeHeapSize; mret (u32 (n - 40 * 1024)))
  else if code =? MB_DOWNLOAD_PLC_PROGRAME_CBIN then
    open_file MB_DL_PLC_CBIN (mret tt) (on_mb (a ← rx 8; b ← rx 9; c ← rx 10; d ← rx 11; mret (le_value [a; b; c; d])))
  else ub.

(** ** One frame *)
(** [n] bytes of the frame from place 4 are stored behind what the file has. *)
Definition store_frame (i n : Z) : Mt unit :=
  p ← file_of i;
  for_up (Z.to_nat n) 0 (fun j =>
    v ← on_mb (rx (4 + j)); q ← file_of i;
    h ← of_option (file_store (mcp_FileHandler q) (mlv_FileLen p + j) v);
    mod_file i (fun q => with_frame (mcv_FrameCnt q) (mcv_PreFrame q) (mcv_Flag q) (mlv_FileLen q) h)).
Definition note_frame (cnt frame flag : Z) (p : mb_file_trans_st) : mb_file_trans_st :=
  with_frame cnt frame flag (mlv_FileLen p) (mcp_FileHandler p).
Definition add_length (n : Z) (p : mb_file_trans_st) : mb_file_trans_st :=
  with_frame (mcv_FrameCnt p) (mcv_PreFrame p) (mcv_Flag p) (mlv_FileLen p + n) (mcp_FileHandler p).
Definition set_complete (p : mb_file_trans_st) : mb_file_trans_st :=
  with_frame (mcv_FrameCnt p) (mcv_PreFrame p) (Z.lor (mcv_Flag p) 0x02) (mlv_FileLen p) (mcp_FileHandler p).
(** The flags when the frame numbers begin again. *)
Definition count_turn (flag : Z) : Z := Z.lor (Z.land flag 0xE3) (u8 (Z.shiftl (Z.shiftr (Z.land flag 0x1A) 2 + 1) 2)).
Definition accept_frame (i lcv_FrameNum lsv_Cnt : Z) (note : mb_file_trans_st -> mb_file_trans_st) : Mt unit :=
  mod_file i note;; store_frame i lsv_Cnt;; mod_file i (add_length lsv_Cnt);;
  when (lcv_FrameNum =? 0xFE) (mod_file i set_complete).
(** What is done with a frame: [Some pdPASS] and [Some pdFAIL] leave the
    function, [None] goes on. *)
Definition take_frame (i lcv_FrameNum lsv_Cnt : Z) : Mt (option Z) :=
  p ← file_of i;
  if truthy (Z.land (mcv_Flag p) 0x01) then
    if lcv_FrameNum =? mcv_PreFrame p then mret (Some pdPASS)
    else if (lcv_FrameNum =? 0xFE) || (lcv_FrameNum =? mcv_PreFrame p + 1) then
      accept_frame i lcv_FrameNum lsv_Cnt (fun p => note_frame (mcv_FrameCnt p + 1) lcv_FrameNum (mcv_Flag p) p);; mret None
    else if (lcv_FrameNum =? 0x01) && (mcv_PreFrame p =? 0xFD) then
      accept_frame i lcv_FrameNum lsv_Cnt (fun p => note_frame (mcv_FrameCnt p + 1) lcv_FrameNum (count_turn (mcv_Flag p)) p);; mret None
    else mret (Some pdFAIL)
  else
    when (first_frame lcv_FrameNum)
      (accept_frame i lcv_FrameNum lsv_Cnt (fun p => note_frame 1 lcv_FrameNum (Z.lor (mcv_Flag p) 0x01) p));; mret None.
(** [plc_compiler_ucode]: the checker on a file, with the controller's state;
    the file is the program if the checker accepts it. *)
Definition compile_file (l : list Z) : Mt Z := fun s =>
  let b := base (mb s) in
  let with_code c b := {| mem := mem b; gtp_EuEd := gtp_EuEd b; ucode := c; env := env b; flow := flow b; sys := sys b;
    instances := instances b; tick := tick b; heap := heap b |} in
  match plc_compiler_ucode load pvPortMalloc fuel (with_plc (with_code l b) (checker s)) with
  | Ok (r, c) => Ok (r, with_checker c (with_mb (with_base (with_code (if r =? pdPASS then l else ucode b) (plc c)) (mb s)) s))
  | Ub => Ub
  | NoFuel => NoFuel
  end.
(** Programming while the program runs. *)
Definition online_file (code i : Z) : Mt Z :=
  on ← online; p ← file_of i;
  if on && truthy (Z.land (mcv_Flag p) 0x02) then
    if code =? MB_DOWNLOAD_UCODE then
      l ← match mcp_FileHandler p with Buffer _ l => mret l | _ => ub end;
      lcv_Ret ← compile_file l;
      if negb (lcv_Ret =? pdPASS) then
        on_plc (set_runstop_flag error_status_stop true;; plc_refresh_error_msg ERR_COMPILER);; mret pdFAIL
      else mod_ptrs (with_ptr MB_DL_UCODE (mcp_FileHandler p));; mret pdPASS
    else if code =? MB_DOWNLOAD_POU_INFO then
      mod_ptrs (with_ptr MB_DL_POU_INFO (mcp_FileHandler p));; mb_slave_ctrl_run_cmd;; mret pdPASS
    else mret pdPASS
  else mret pdPASS.
Definition mb_slave_download_file : Mt Z :=
  code ← on_mb (rx 2); i ← select_file code;
  lcv_FrameNum ← on_mb (rx 3);
  m ← on_mb message;
  r ← take_frame i lcv_FrameNum (u16 (msv_ReceiveLen m - 6));
  match r with Some r => mret r | None => online_file code i end.

(** ** The handler *)
Definition fail (e : Z) : Mt unit := on_mb (fail_with e).
Definition with_password (item : Z) (k : Mt unit) : Mt unit :=
  now ← gets (fun s => tick (base (mb s)));
  r ← on_pw (plc_get_password_check_result now item);
  if negb (r =? pdPASS) then fail MB_PASSWORD_CHECK_FAIL else k.
Definition file_answer : Mt unit :=
  ret ← mb_slave_download_file;
  if negb (ret =? 0) then on_mb (copy_request 4 0;; answer 4) else fail MB_ILIEGAL_DATA.
Definition mb_slave_download_manage : Mt unit :=
  n ← on_mb (rx 3);
  when ((n =? 0) || (0xFE <? n)) (fail MB_ILIEGAL_DATA);;
  code ← on_mb (rx 2);
  if code =? MB_DOWNLOAD_MONITOR_BITS then with_password MONITOR_PASSWORD mb_slave_download_monitor_bits
  else if code =? MB_DOWNLOAD_MONITOR_WORDS then with_password MONITOR_PASSWORD mb_slave_download_monitor_words
  else if code =? MB_DOWNLOAD_MONITOR_BITS_WORDS then with_password MONITOR_PASSWORD mb_slave_download_monitor_bits_words
  else if z_in code [MB_DOWNLOAD_UCODE; MB_DOWNLOAD_SYS_BLOCK; MB_DOWNLOAD_DATA_BLOCK; MB_DOWNLOAD_POU_INFO; MB_DOWNLOAD_GVT;
                     MB_DOWNLOAD_NETCFG; MB_DOWNLOAD_PID1; MB_DOWNLOAD_PID2] then with_password DOWNLOAD_PASSWORD file_answer
  else if z_in code [MB_DOWNLOAD_SYS_UPGRADE; MB_DOWNLOAD_SLAVE; MB_DOWNLOAD_PLC_PROGRAME_CBIN] then
    on ← online; if on : bool then fail MB_ERROR_SLAVE_BUSY else file_answer
  else on_mb (m ← message; mod_diag (mcv_Sender m) count_err;; fail_with MB_ILIEGAL_CODE).
End download.
