(* ===== verification/Upload.v ===== *)
(** * Uploads

    Models protocol/modbus mb_upload.c: the values of monitored and of forced
    elements, a block of D elements, and the files, which are sent in frames of
    1000 bytes numbered as in a download. *)
From stdpp Require Import base list numbers.
From S2P Require Import Prelude Bytes Element Machine MbSlave Flash Password Service Download.

Definition MB_UPLOAD_MONITOR_BITS := 0x06.
Definition MB_UPLOAD_MONITOR_WORDS := 0x07.
Definition MB_UPLOAD_FORCE_BITS := 0x08.
Definition MB_UPLOAD_FORCE_WORDS := 0x09.
Definition MB_UPLOAD_MONITOR_BITS_WORDS := 0x0A.
Definition MB_UPLOAD_GEN_DATA_BLOCK := 0x46.
Definition MB_UPLOAD_UCODE := 0x63.
Definition MB_UPLOAD_SYS_BLOCK := 0x64.
Definition MB_UPLOAD_DATA_BLOCK := 0x65.
Definition MB_UPLOAD_POU_INFO := 0x66.
Definition MB_UPLOAD_GVT := 0x67.
Definition MB_UPLOAD_NETCFG := 0x69.
Definition MB_UPLOAD_PID1 := 0x6C.
Definition MB_UPLOAD_PID2 := 0x6D.
Definition MB_UPLOAD_FORBID := 0x22.
Definition MAX_UPLOAD_FILE_LENGTH := 1000.
Definition UCODE_FILE_START_PAGE := 17.
Definition PID1_START_PAGE := 22.
Definition PID2_START_PAGE := 23.

Section upload.
Context {F : Type} `{!NorFlash F}.
Notation st := (ctl_st F).
Notation Mt := (M st).

(** ** Values *)
Definition word_value (t a : Z) : Mb (option Z) :=
  match word_region_of t a with
  | Some r => v ← rd r a; mret (Some (u16 v))
  | None =>
      if t =? MB_WORD_C then
        llv_Temp ← GET_C32_CURRENT_VALUE (c32_number a);
        mret (Some (u16 (if (a - C16_RANG) mod 2 =? 0 then llv_Temp else Z.shiftr llv_Temp 16)))
      else mret None
  end.
Definition bit_value (t a : Z) : Mb (option Z) :=
  match bit_region_of t with Some (r, _) => v ← plc_get_bit_element_value r a; mret (Some v) | None => mret None end.
Definition set_value (e : mb_monitor_element_t) (v : option Z) : mb_monitor_element_t :=
  {| mon_ElementType := mon_ElementType e; msv_ElementAddr := msv_ElementAddr e; msv_ModbusAddr := msv_ModbusAddr e; msv_ElementValue := v |}.
(** Each element of the list anew; an element without a case keeps its value. *)
Fixpoint refresh_elements (value : Z -> Z -> Mb (option Z)) (l : list mb_monitor_element_t) : Mt (list mb_monitor_element_t) :=
  match l with
  | [] => mret []
  | e :: l =>
      o ← on_mb (value (mon_ElementType e) (msv_ElementAddr e)); l' ← refresh_elements value l;
      mret ((match o with Some v => set_value e (Some v) | None => e end) :: l')
  end.
Definition refresh (n : element_list) (value : Z -> Z -> Mb (option Z)) : Mt unit :=
  l ← gets (fun s => lists s n); h ← refresh_elements value (head l); put_list n {| head := h; lsv_ListLen := lsv_ListLen l |}.
Definition mb_slave_refresh_monitor_bits : Mt unit := refresh gtv_MbMonitorBits bit_value.
Definition mb_slave_refresh_monitor_words : Mt unit := refresh gtv_MbMonitorWords word_value.
Definition mb_slave_refresh_monitor_bits_words : Mt unit := refresh gtv_MbMonitorBitsWords (fun t a =>
  o ← bit_value t a; match o with Some v => mret (Some v) | None => word_value t a end).

(** ** Lists of elements in the answer *)
Definition put_bit_element (e : mb_monitor_element_t) (p : Z) : Mt unit := on_mb (
  v ← of_option (msv_ElementValue e);
  put_tx p (Z.shiftr (msv_ModbusAddr e) 8);; put_tx (p + 1) (msv_ModbusAddr e);; put_tx (p + 2) v).
Definition put_word_element (e : mb_monitor_element_t) (p : Z) : Mt unit := on_mb (
  v ← of_option (msv_ElementValue e);
  put_tx p (Z.shiftr (msv_ModbusAddr e) 8);; put_tx (p + 1) (msv_ModbusAddr e);; put_tx (p + 2) (Z.shiftr v 8);; put_tx (p + 3) v).
(** Elements of one kind, of [w] bytes each, until there are 250 of them; the
    number of elements. *)
Fixpoint put_elements (put : mb_monitor_element_t -> Z -> Mt unit) (w : Z) (l : list mb_monitor_element_t) (p cnt : Z) : Mt Z :=
  match l with
  | [] => mret cnt
  | e :: l => put e p;; let cnt := cnt + 1 in if 250 <=? cnt then mret cnt else put_elements put w l (p + w) cnt
  end.
Definition answer_elements (w cnt : Z) : Mt unit := on_mb (copy_request 3 0;; put_tx 3 0xFE;; put_tx 4 cnt;; answer (5 + w * cnt)).
(** Of a frame number other than 1 the count is not initialised. *)
Definition upload_monitor (n : element_list) (put : mb_monitor_element_t -> Z -> Mt unit) (w : Z) : Mt unit :=
  lcv_FrameNum ← on_mb (rx 3);
  if lcv_FrameNum =? 0x01 then l ← gets (fun s => lists s n); cnt ← put_elements put w (head l) 5 0; answer_elements w cnt else ub.
Definition mb_slave_upload_monitor_bits : Mt unit := mb_slave_refresh_monitor_bits;; upload_monitor gtv_MbMonitorBits put_bit_element 3.
Definition mb_slave_upload_monitor_words : Mt unit := mb_slave_refresh_monitor_words;; upload_monitor gtv_MbMonitorWords put_word_element 4.
Definition upload_force (n : element_list) (put : mb_monitor_element_t -> Z -> Mt unit) (w : Z) : Mt unit :=
  l ← gets (fun s => lists s n);
  cnt ← if 0 <? lsv_ListLen l then put_elements put w (head l) 5 0 else mret 0;
  answer_elements w cnt.
Definition mb_slave_upload_force_bits : Mt unit := upload_force gtv_ForceBits put_bit_element 3.
Definition mb_slave_upload_force_words : Mt unit := upload_force gtv_ForceWords put_word_element 4.
(** Both kinds; the numbers of bits and of words and the length of the frame. *)
Fixpoint put_both (l : list mb_monitor_element_t) (p bits words : Z) : Mt (Z * Z * Z) :=
  match l with
  | [] => mret (bits, words, p)
  | e :: l =>
      let bit := mon_ElementType e <=? MB_BIT_C in
      (if bit then put_bit_element e p else put_word_element e p);;
      let p := p + (if bit then 3 else 4) in
      let bits := if bit then u8 (bits + 1) else bits in
      let words := if bit then words else u8 (words + 1) in
      if 1000 <=? p then mret (bits, words, p) else put_both l p bits words
  end.
Definition mb_slave_upload_monitor_bits_words : Mt unit :=
  mb_slave_refresh_monitor_bits_words;;
  lcv_FrameNum ← on_mb (rx 3);
  if lcv_FrameNum =? 0x01 then
    l ← gets (fun s => lists s gtv_MbMonitorBitsWords); r ← put_both (head l) 6 0 0;
    on_mb (copy_request 3 0;; put_tx 3 0xFE;; put_tx 4 r.1.1;; put_tx 5 r.1.2;; answer r.2)
  else ub.

(** ** D elements *)
Definition put_D_elements (n start : Z) : Mb unit :=
  for_up (Z.to_nat n) 0 (fun i => v ← rd D_ELEMENT (start + i); put_tx (6 + 2 * i) (Z.shiftr v 8);; put_tx (7 + 2 * i) v).
Definition data_answer (n : Z) : Mb unit := answer (6 + n * 2).
Definition mb_slave_upload_gen_data_block_from_ram : Mb unit :=
  lcv_FrameNum ← rx 3; lsv_ReadCnt ← GET_BIGPU16_DATA 4; lsv_StartElement ← GET_BIGPU16_DATA 6;
  if lcv_FrameNum =? 1 then
    if D_RANG <? lsv_StartElement + lsv_ReadCnt then fail_with MB_ILIEGAL_ADDR
    else if lsv_ReadCnt <? MB_MAX_R_WORD_NUM then
      copy_request 3 0;; put_tx 3 0xFE;; put_tx 4 (Z.shiftr lsv_ReadCnt 8);; put_tx 5 lsv_ReadCnt;;
      put_D_elements lsv_ReadCnt lsv_StartElement;; data_answer lsv_ReadCnt
    else
      copy_request 3 0;; put_tx 3 0x01;; put_tx 4 0;; put_tx 5 MB_MAX_R_WORD_NUM;;
      put_D_elements MB_MAX_R_WORD_NUM lsv_StartElement;; data_answer MB_MAX_R_WORD_NUM
  else
    let lsv_PreSendCnt := u16 ((lcv_FrameNum - 1) * MB_MAX_W_WORD_NUM) in
    let lsv_RemainCnt := u16 (lsv_ReadCnt - lsv_PreSendCnt) in
    let lsv_StartElement := u16 (lsv_StartElement + (lsv_PreSendCnt - 1)) in
    if lsv_RemainCnt <? MB_MAX_W_WORD_NUM then
      copy_request 3 0;; put_tx 3 0xFE;; put_tx 4 (Z.shiftr lsv_RemainCnt 8);; put_tx 5 lsv_RemainCnt;;
      put_D_elements lsv_RemainCnt lsv_StartElement;; data_answer lsv_RemainCnt
    else
      copy_request 4 0;; put_tx 4 0;; put_tx 5 MB_MAX_R_WORD_NUM;;
      put_D_elements MB_MAX_R_WORD_NUM lsv_StartElement;; data_answer MB_MAX_R_WORD_NUM.

(** ** Files *)
Definition upload_slot (code : Z) : option Z :=
  if code =? MB_UPLOAD_UCODE then Some MB_DL_UCODE
  else if code =? MB_UPLOAD_SYS_BLOCK then Some MB_DL_SYS_BLOCK
  else if code =? MB_UPLOAD_DATA_BLOCK then Some MB_DL_DATA_BLOCK
  else if code =? MB_UPLOAD_POU_INFO then Some MB_DL_POU_INFO
  else if code =? MB_UPLOAD_GVT then Some MB_DL_GVT
  else if code =? MB_UPLOAD_NETCFG then Some MB_DL_NETCFG
  else if code =? MB_UPLOAD_PID1 then Some MB_DL_PID1
  else if code =? MB_UPLOAD_PID2 then Some MB_DL_PID2
  else None.
Definition mb_slave_free_upload_file_handle (mcv_Type : Z) : Mt unit :=
  match upload_slot mcv_Type with Some i => put_transfer i None | None => mret tt end.
(** The program and the PID files are looked up in the flash, the pointer of
    any other is used as it is. *)
Definition upload_page (i : Z) : option Z :=
  if i =? MB_DL_UCODE then Some UCODE_FILE_START_PAGE else if i =? MB_DL_PID1 then Some PID1_START_PAGE
  else if i =? MB_DL_PID2 then Some PID2_START_PAGE else None.
Definition upload_ptr (i : Z) : Mt file_ptr :=
  match upload_page i with
  | Some page =>
      part ← of_option (bsp_get_flash_info page); mod_ptrs (with_ptr i (InFlash (startAddr part)));; mret (InFlash (startAddr part))
  | None => p ← gets gtv_UserFilePtrSt; of_option (ptr_of i p)
  end.
Definition open_upload (i : Z) : Mt unit :=
  o ← transfer i;
  match o with
  | Some _ => mret tt
  | None =>
      h ← upload_ptr i; n ← file_length h FILE_LEN_INFO_START_INDEX;
      put_transfer i (Some {| mcv_FrameCnt := 0; mcv_PreFrame := 0; mcv_Flag := 0; mlv_FileLen := n; mcp_FileHandler := h |})
  end.
(** The bytes of the file from block [k] on, and the number 0xFE in the
    request when they are the last; their number. *)
Definition send_block (p : mb_file_trans_st) (k : Z) : Mt Z :=
  let rest := u32 (mlv_FileLen p - k * MAX_UPLOAD_FILE_LENGTH) in
  let lsv_Cnt := if MAX_UPLOAD_FILE_LENGTH <? rest then MAX_UPLOAD_FILE_LENGTH else u16 rest in
  when (negb (MAX_UPLOAD_FILE_LENGTH <? rest)) (on_mb (put_rx 3 0xFE));;
  l ← file_bytes (mcp_FileHandler p) (k * MAX_UPLOAD_FILE_LENGTH) lsv_Cnt;
  on_mb (for_up (Z.to_nat lsv_Cnt) 0 (fun j => v ← of_option (zlookup l j); put_tx (4 + j) v));;
  mret lsv_Cnt.
Definition close_last (code : Z) : Mt unit :=
  n ← on_mb (rx 3); when (n =? 0xFE) (mb_slave_free_upload_file_handle code).
Definition upload_answer (n : Z) : Mt unit := on_mb (copy_request 4 0;; answer (n + 4)).
Definition mb_slave_upload_file : Mt unit :=
  code ← on_mb (rx 2);
  i ← of_option (upload_slot code);
  open_upload i;;
  p ← file_of i;
  lcv_FrameNum ← on_mb (rx 3);
  let next note := n ← send_block p (mcv_FrameCnt p); mod_file i note;; close_last code;; upload_answer n in
  if truthy (Z.land (mcv_Flag p) 0x01) then
    if (lcv_FrameNum =? mcv_PreFrame p + 1) || (lcv_FrameNum =? 0xFE) then
      next (fun p => note_frame (mcv_FrameCnt p + 1) lcv_FrameNum (mcv_Flag p) p)
    else if lcv_FrameNum =? mcv_PreFrame p then
      n ← send_block p (u8 (lcv_FrameNum - 1)); mod_file i (fun p => note_frame (mcv_FrameCnt p) lcv_FrameNum (mcv_Flag p) p);;
      close_last code;; upload_answer n
    else if (lcv_FrameNum =? 0x01) && (mcv_PreFrame p =? 0xFD) then
      next (fun p => note_frame (mcv_FrameCnt p + 1) lcv_FrameNum (count_turn (mcv_Flag p)) p)
    else fail MB_ILIEGAL_DATA
  else if first_frame lcv_FrameNum then
    mod_file i (fun p => note_frame 1 lcv_FrameNum (Z.lor (mcv_Flag p) 0x01) p);;
    n ← send_block p 0; close_last code;; upload_answer n
  else ub.

(** ** The handler *)
Definition mb_slave_upload_manage : Mt unit :=
  code ← on_mb (rx 2);
  if code =? MB_UPLOAD_MONITOR_BITS then with_password MONITOR_PASSWORD mb_slave_upload_monitor_bits
  else if code =? MB_UPLOAD_MONITOR_WORDS then with_password MONITOR_PASSWORD mb_slave_upload_monitor_words
  else if code =? MB_UPLOAD_FORCE_BITS then mb_slave_upload_force_bits
  else if code =? MB_UPLOAD_FORCE_WORDS then mb_slave_upload_force_words
  else if code =? MB_UPLOAD_MONITOR_BITS_WORDS then with_password MONITOR_PASSWORD mb_slave_upload_monitor_bits_words
  else if code =? MB_UPLOAD_GEN_DATA_BLOCK then on_mb mb_slave_upload_gen_data_block_from_ram
  else if z_in code [MB_UPLOAD_UCODE; MB_UPLOAD_SYS_BLOCK; MB_UPLOAD_DATA_BLOCK; MB_UPLOAD_POU_INFO; MB_UPLOAD_GVT; MB_UPLOAD_NETCFG;
                     MB_UPLOAD_PID1; MB_UPLOAD_PID2] then
    forbid ← on_pw plc_get_upload_forbid_flag;
    if truthy forbid then fail MB_UPLOAD_FORBID else with_password UPLOAD_PASSWORD mb_slave_upload_file
  else on_mb (m ← message; mod_diag (mcv_Sender m) count_err;; fail_with MB_ILIEGAL_CODE).
End upload.
