(* ===== verification/Control.v ===== *)
(** * Control

    Models protocol/modbus mb_ctrl.c: starting and stopping, the lists of
    forced elements, storing downloaded files in the flash, erasing them,
    passwords and the answers about the state, and the function of
    plc_internalmanage.c that gives forced elements their values. A parameter
    stands for the functions that work on the clock, the fuses, the lamps and
    the reset of the board or on its device record. *)
From stdpp Require Import base list numbers.
From S2P Require Import Prelude Bytes Element Machine Compiler Executer MbSlave Flash Password Service Download.

Definition MB_CTRL_RUN_CMD := 0x03.
Definition MB_CTRL_STOP_CMD := 0x04.
Definition MB_CTRL_FORCE_BITS := 0x05.
Definition MB_CTRL_FORCE_WORDS := 0x06.
Definition MB_CTRL_UNFORCE_BITS := 0x07.
Definition MB_CTRL_UNFORCE_WORDS := 0x08.
Definition MB_CTRL_UNFORCE_ALL := 0x09.
Definition MB_CTRL_READ_PLC_STATUS := 0x11.
Definition MB_CTRL_PROGRAMME_CMD := 0x12.
Definition MB_CTRL_CLEAN_USER_CODE := 0x13.
Definition MB_CTRL_CLEAN_SYS_BLOCK := 0x14.
Definition MB_CTRL_CLEAN_DATA_BLOCK := 0x15.
Definition MB_CTRL_VERIFY_UCODE := 0x17.
Definition MB_CTRL_CLEAN_ERROR_INFO := 0x19.
Definition MB_CTRL_CLEAN_NETCFG := 0x21.
Definition MB_CTRL_VERIFY_PID1 := 0x23.
Definition MB_CTRL_SET_UPLOAD_FORBID := 0x30.
Definition MB_CTRL_CLEAN_UPLOAD_FORBID := 0x31.
Definition MB_CTRL_READ_ERROR_INFO := 0x39.
Definition MB_CTRL_SET_UPLOAD_PWD := 0x57.
Definition MB_CTRL_CHECK_UPLOAD_PWD := 0x58.
Definition MB_CTRL_SET_DOWNLOAD_PWD := 0x59.
Definition MB_CTRL_CHECK_DOWNLOAD_PWD := 0x5A.
Definition MB_CTRL_SET_MONITOR_PWD := 0x5B.
Definition MB_CTRL_CHECK_MONITOR_PWD := 0x5C.
Definition MB_CTRL_SET_TIMER_PWD := 0x5D.
Definition MB_CTRL_CHECK_TIMER_PWD := 0x5E.
Definition MB_CTRL_ENTERY_ONLINE_PROGRAM := 0x6E.
Definition MB_CTRL_TOU_CHUAN_COM0 := 0x70.
Definition MB_CTRL_TOU_CHUAN_COM1 := 0x71.
Definition MB_CTRL_TOU_CHUAN_COM2 := 0x72.
Definition MB_CTRL_TOU_CHUAN_WAN := 0x77.
Definition MB_CTRL_TOU_CHUAN_LAN := 0x78.
Definition MB_CTRL_TOU_CHUAN_CLOSE := 0x7E.
Definition MB_CTRL_EXIT_ONLINE_PROGRAM := 0x83.
Definition MB_CTRL_SLAVE_ID := 0x90.
(** The clock, the device record, a reset, formatting, clearing the elements,
    the lamp, and the search for slaves. *)
Definition MB_CTRL_READ_RTC := 0x01.
Definition MB_CTRL_WRITE_RTC := 0x02.
Definition MB_CTRL_READ_PLC_INFO := 0x10.
Definition MB_CTRL_CLEAN_ALL := 0x16.
Definition MB_CTRL_REBOOT := 0x18.
Definition MB_CTRL_CLEAN_ELEMENT := 0x20.
Definition MB_CTRL_SEARCH_SLAVE := 0x38.
Definition MB_CTRL_WRITE_DEVICE_INFO := 0x84.
Definition MB_CTRL_BLINK_NET_LED := 0x88.
Definition board_codes : list Z := [MB_CTRL_READ_RTC; MB_CTRL_WRITE_RTC; MB_CTRL_READ_PLC_INFO; MB_CTRL_CLEAN_ALL; MB_CTRL_REBOOT; MB_CTRL_CLEAN_ELEMENT;
  MB_CTRL_SEARCH_SLAVE; MB_CTRL_WRITE_DEVICE_INFO; MB_CTRL_BLINK_NET_LED].
Definition MB_ERROR_SLAVE_OP := 0x04.
Definition DEV_NETWORK_INFO_START_FLASH_PAGE := 10.
Definition SYS_BLOCK_START_PAGE := 13.
Definition POU_FILE_START_PAGE := 14.
Definition GVT_FILE_START_PAGE := 15.
Definition DATA_BLOCK_START_PAGE := 16.
Definition UCODE_START_PAGE := 17.
Definition PID1_PAGE := 22.
Definition SD231 := 231.

(** ** Where the files are stored (mb_slave_ctrl_programme_cmd) *)
Definition ltv_FlashPartInfo : list (Z * Z) :=
  [(0x60220000, 256 * 1024); (0x601A0000, 64 * 1024); (0x60210000, 64 * 1024); (0x60208000, 16 * 1024); (0x6020C000, 16 * 1024);
   (0x601C0000, 128 * 1024); (0x60080000, 500 * 1024); (0x60260000, 128 * 1024); (0x602FE000, 4 * 1024); (0x602FF000, 4 * 1024)].
(** ** Decryption of a program file *)
Definition lcav_PswCode : list Z := [0x37; 0x9e; 0x88; 0x12; 0x4f; 0xa3; 0x77].
Fixpoint descrypt (lcv_Index : Z) (l : list Z) : option (list Z) :=
  match l with
  | [] => Some []
  | b :: l =>
      let i := if lcv_Index + 1 =? 7 then 0 else lcv_Index + 1 in
      k ← zlookup lcav_PswCode i; l' ← descrypt i l;
      Some ((if b <? k then u8 (b - k + 256) else u8 (b - k)) :: l')
  end.
Definition mb_slave_ctrl_descrypt_cbin_file (l : list Z) : option (list Z) := descrypt 0 l.

Section control.
Context {F : Type} `{!NorFlash F}.
Notation st := (ctl_st F).
Notation Mt := (M st).
(** The device type of the board, and the functions that are not modelled. *)
Context (mlv_DeviceTypeId : Z) (store_upgrade : mb_file_trans_st -> Mt unit) (board_function : Z -> Mt unit).

(** ** Forced elements *)
Definition same_address (a : Z) (e : mb_monitor_element_t) : bool := msv_ModbusAddr e =? a.
Fixpoint update_first (a : Z) (v : Z) (l : list mb_monitor_element_t) : list mb_monitor_element_t :=
  match l with
  | [] => []
  | e :: l =>
      if same_address a e then
        {| mon_ElementType := mon_ElementType e; msv_ElementAddr := msv_ElementAddr e; msv_ModbusAddr := a; msv_ElementValue := Some v |} :: l
      else e :: update_first a v l
  end.
Fixpoint delete_first (a : Z) (l : list mb_monitor_element_t) : list mb_monitor_element_t :=
  match l with [] => [] | e :: l => if same_address a e then l else e :: delete_first a l end.
(** One element of the frame; a known one gets the new value if [searching]. *)
Definition force_element (n : element_list) (t : Z) (searching : bool) (p : Z) (value : Mb Z) : Mt bool :=
  lsv_ModbusAddr ← on_mb (GET_BIGPU16_DATA p);
  l ← gets (fun s => lists s n);
  if searching && existsb (same_address lsv_ModbusAddr) (head l) then
    v ← on_mb value; put_list n {| head := update_first lsv_ModbusAddr v (head l); lsv_ListLen := lsv_ListLen l |};; mret true
  else
    match mb_slave_convert_element_info t lsv_ModbusAddr with
    | None => fail MB_ILIEGAL_DATA;; mret false
    | Some (e, a) =>
        v ← on_mb value;
        add_element n {| mon_ElementType := e; msv_ElementAddr := a; msv_ModbusAddr := lsv_ModbusAddr; msv_ElementValue := Some v |};; mret true
    end.
Definition force (n : element_list) (t w : Z) (value : Z -> Mb Z) : Mt unit :=
  lsv_ForceElemetCnt ← on_mb (rx 3);
  l ← gets (fun s => lists s n);
  for_while (Z.to_nat lsv_ForceElemetCnt) 0 (fun i => force_element n t (0 <? lsv_ListLen l) (4 + i * w) (value (4 + i * w + 2)));; mret tt.
Definition mb_slave_ctrl_force_bits : Mt unit := force gtv_ForceBits MB_BIT_ELEMENT 3 rx.
Definition mb_slave_ctrl_force_words : Mt unit := force gtv_ForceWords MB_WORD_ELEMENT 4 GET_BIGPU16_DATA.
Definition unforce_element (n : element_list) (p : Z) : Mt unit :=
  lsv_ModbusAddr ← on_mb (GET_BIGPU16_DATA p);
  l ← gets (fun s => lists s n);
  when (existsb (same_address lsv_ModbusAddr) (head l))
    (put_list n {| head := delete_first lsv_ModbusAddr (head l); lsv_ListLen := u16 (lsv_ListLen l - 1) |}).
Definition unforce (n : element_list) : Mt unit :=
  lsv_ForceElemetCnt ← on_mb (rx 3);
  l ← gets (fun s => lists s n);
  when (0 <? lsv_ListLen l) (for_up (Z.to_nat lsv_ForceElemetCnt) 0 (fun i => unforce_element n (4 + i * 2)));;
  l ← gets (fun s => lists s n);
  when (lsv_ListLen l =? 0) (put_list n empty_list).
Definition mb_slave_ctrl_unforce_bits : Mt unit := unforce gtv_ForceBits.
Definition mb_slave_ctrl_unforce_words : Mt unit := unforce gtv_ForceWords.
Definition mb_slave_ctrl_unforce_all : Mt unit := put_list gtv_ForceBits empty_list;; put_list gtv_ForceWords empty_list.
(** plc_internalmanage.c: each forced element gets its value. *)
Definition refresh_bit (e : mb_monitor_element_t) : Mb unit :=
  match bit_region_of (mon_ElementType e) with
  | Some (r, _) => v ← of_option (msv_ElementValue e); plc_set_bit_element_value r (msv_ElementAddr e) v
  | None => mret tt
  end.
Fixpoint refresh_bits (l : list mb_monitor_element_t) : Mb unit :=
  match l with [] => mret tt | e :: l => refresh_bit e;; refresh_bits l end.
(** A 32-bit counter takes the value of the next element as its high half; at
    the end of the list that is the head, whose length is read as a type. *)
Fixpoint refresh_words (len : Z) (l : list mb_monitor_element_t) : Mb unit :=
  match l with
  | [] => mret tt
  | e :: l =>
      match word_region_of (mon_ElementType e) (msv_ElementAddr e) with
      | Some r => v ← of_option (msv_ElementValue e); wr r (msv_ElementAddr e) v;; refresh_words len l
      | None =>
          if mon_ElementType e =? MB_WORD_C then
            match l with
            | [] => if u8 len =? MB_WORD_C then ub else mret tt
            | e2 :: l2 =>
                if mon_ElementType e2 =? MB_WORD_C then
                  lo ← of_option (msv_ElementValue e); hi ← of_option (msv_ElementValue e2);
                  SET_C32_CURRENT_VALUE (c32_number (msv_ElementAddr e)) (u32 (lo + Z.shiftl hi 16));; refresh_words len l2
                else refresh_words len l
            end
          else refresh_words len l
      end
  end.
Definition plc_refresh_force_element_value : Mt unit :=
  b ← gets (fun s => lists s gtv_ForceBits); when (0 <? lsv_ListLen b) (on_mb (refresh_bits (head b)));;
  w ← gets (fun s => lists s gtv_ForceWords); when (0 <? lsv_ListLen w) (on_mb (refresh_words (lsv_ListLen w) (head w))).

(** ** Storing the files *)
Definition part_of (i : Z) : Mt (Z * Z) := of_option (zlookup ltv_FlashPartInfo i).
Definition refuse (i e : Z) : Mt bool := free_file i;; fail e;; mret false.
Definition write_file (h : file_ptr) (i addr n : Z) : Mt unit :=
  l ← file_bytes h i n; bsp_flash_write_buffer addr l n;; mret tt.
Definition store_file (i : Z) (p : mb_file_trans_st) : Mt bool :=
  llv_FileLen ← file_length (mcp_FileHandler p) FILE_LEN_INFO_START_INDEX;
  part ← part_of i;
  if part.2 <? llv_FileLen then refuse i MB_ILIEGAL_DATA
  else
    bsp_flash_erase_partition part.1 (SECTOR_SIZE * (llv_FileLen / SECTOR_SIZE + 1));;
    write_file (mcp_FileHandler p) 0 part.1 (mlv_FileLen p);;
    free_file i;; mret true.
(** The parts of a program file, each after its length: the place in the
    table, and whether the part is encrypted. *)
Definition cbin_parts : list (Z * bool) :=
  [(MB_DL_UCODE, true); (MB_DL_POU_INFO, false); (MB_DL_GVT, false); (MB_DL_SYS_BLOCK, false); (MB_DL_DATA_BLOCK, true); (MB_DL_NETCFG, true);
   (MB_DL_PID1, false); (MB_DL_PID2, false)].
Fixpoint store_parts (parts : list (Z * bool)) (h : file_ptr) (at_ : Z) (wrong_type : bool) : Mt bool :=
  match parts with
  | [] => free_file MB_DL_PLC_CBIN;; mret true
  | (k, encrypted) :: parts =>
      llv_FileLen ← file_length h at_;
      part ← part_of k;
      if wrong_type || (part.2 <? llv_FileLen) then refuse MB_DL_PLC_CBIN MB_ILIEGAL_DATA
      else
        l ← file_bytes h (at_ + 4) llv_FileLen;
        l ← (if encrypted : bool then of_option (mb_slave_ctrl_descrypt_cbin_file l) else mret l);
        bsp_flash_erase_partition part.1 part.2;;
        bsp_flash_write_buffer part.1 l llv_FileLen;;
        store_parts parts h (at_ + 4 + llv_FileLen) false
  end.
Definition store_cbin (p : mb_file_trans_st) : Mt bool :=
  let h := mcp_FileHandler p in
  l ← file_bytes h 12 2;
  store_parts cbin_parts h 26 (negb (mlv_DeviceTypeId =? le_value l)).
Definition store_upgrade_file (i : Z) (p : mb_file_trans_st) : Mt bool :=
  part ← part_of i;
  if part.2 <? mlv_FileLen p then refuse i MB_ERROR_FRAME else store_upgrade p;; free_file i;; mret true.
Definition programme_file (i : Z) : Mt bool :=
  o ← transfer i;
  match o with
  | Some p =>
      if truthy (Z.land (mcv_Flag p) 0x02) then
        if i =? MB_DL_SYS_UPGRADE then store_upgrade_file i p
        else if i =? MB_DL_PLC_CBIN then store_cbin p
        else store_file i p
      else mret true
  | None => mret true
  end.
Definition ctrl_answer : Mt unit := on_mb (copy_request 3 0;; answer 3).
Definition mb_slave_ctrl_programme_cmd : Mt unit :=
  ok ← for_while (Z.to_nat MB_DL_MAX) 0 programme_file; when ok ctrl_answer.

(** ** Erasing the files *)
Definition clean (i page : Z) (default : list Z) : Mt unit :=
  mod_ptrs (with_ptr i (Constant default));;
  match bsp_get_flash_info page with
  | None => fail MB_ERROR_SLAVE_OP
  | Some part => bsp_flash_erase_partition (startAddr part) (endAddr part - startAddr part + 1);; mret tt
  end.
Definition mb_slave_ctrl_clean_user_code : Mt unit :=
  clean MB_DL_POU_INFO POU_FILE_START_PAGE pouinfo_default;; clean MB_DL_GVT GVT_FILE_START_PAGE gvt_default;;
  clean MB_DL_UCODE UCODE_START_PAGE ucode_default.
Definition mb_slave_ctrl_clean_system_block : Mt unit := clean MB_DL_SYS_BLOCK SYS_BLOCK_START_PAGE sysblock_default.
Definition mb_slave_ctrl_clean_data_block : Mt unit := clean MB_DL_DATA_BLOCK DATA_BLOCK_START_PAGE datablock_default.
Definition mb_slave_ctrl_clean_net_cfg : Mt unit := clean MB_DL_NETCFG DEV_NETWORK_INFO_START_FLASH_PAGE netcfg_default.
(** Formatting can be forbidden by the system block. *)
Definition formatting (k : Mt unit) : Mt bool :=
  f ← gets forbidden_format; if f =? 0 then k;; mret true else fail MB_ERROR_SLAVE_OP;; mret false.

(** ** Answers about the state *)
Definition mb_slave_ctrl_read_plc_status : Mt unit := on_mb (
  copy_request 3 0;;
  b ← plc_get_bit_element_value SM_ELEMENT 0; put_tx 3 b;;
  v ← rd SD_ELEMENT 30; put_tx 4 (Z.shiftr v 8);; put_tx 5 (Z.land v 0xFF);; answer 6).
(** 16 bytes from the length of the file on, and the check sum at its end. *)
Definition verify_file (page : Z) : Mt unit :=
  part ← of_option (bsp_get_flash_info page);
  let h := InFlash (startAddr part) in
  on_mb (copy_request 3 0);;
  for_up 16 0 (fun i => v ← file_byte h (6 + i); on_mb (put_tx (3 + i) v));;
  llv_FileLen ← file_length h FILE_LEN_INFO_START_INDEX;
  for_up 2 0 (fun i => v ← file_byte h (u32 (startAddr part + llv_FileLen - 4) - startAddr part + i); on_mb (put_tx (19 + i) v));;
  on_mb (answer 21).
Definition mb_slave_ctrl_verify_ucode : Mt unit := verify_file UCODE_START_PAGE.
Definition mb_slave_ctrl_verify_pid1 : Mt unit := verify_file PID1_PAGE.
(** Record [k] of the errors. *)
Definition put_error (k : Z) : Mb unit :=
  r ← gets (fun s => err_record (sys (base s)));
  m ← of_option (zlookup (msv_ErrorMsg r) k); a ← of_option (zlookup (msv_ErrorAddr r) k);
  let p := 3 + 6 * k in
  let llv_Temp := a / 2 in
  put_tx p (Z.shiftr m 8);; put_tx (p + 1) (Z.land m 0xFF);;
  put_tx (p + 2) (Z.shiftr llv_Temp 24);; put_tx (p + 3) (Z.shiftr llv_Temp 16);; put_tx (p + 4) (Z.shiftr llv_Temp 8);; put_tx (p + 5) (Z.land llv_Temp 0xFF).
Definition mb_slave_read_error_info : Mt unit := on_mb (
  for_up 30 0 (fun i => put_tx (3 + i) 0);;
  n ← gets (fun s => mcv_ErrorCnt (err_record (sys (base s))));
  when ((1 <=? n) && (n <=? 5)) (for_up (Z.to_nat n) 0 (fun j => put_error (n - 1 - j)));;
  copy_request 3 0;; answer 33).

(** ** Passwords *)
Definition mb_slave_ctrl_set_user_password (lcv_PwdType : Z) : Mt unit :=
  lcv_OldPwLen ← on_mb (rx 3); m ← on_mb message;
  let lcv_NewPwLen := u8 (msv_ReceiveLen m - 6 - lcv_OldPwLen) in
  if (MAX_PASSWORD_LEN <? lcv_OldPwLen) || (MAX_PASSWORD_LEN <? lcv_NewPwLen) then fail MB_ILIEGAL_DATA
  else
    lcv_Ret ← on_pw (plc_check_password_info lcv_PwdType (drop 4 (mcp_ReceiveBuff m)) lcv_OldPwLen);
    if negb (lcv_Ret =? pdPASS) then fail MB_ILIEGAL_DATA
    else
      now ← gets (fun s => tick (base (mb s)));
      on_pw (plc_update_password_info now lcv_PwdType (drop (4 + Z.to_nat lcv_OldPwLen) (mcp_ReceiveBuff m)) lcv_NewPwLen);; mret tt.
Definition mb_slave_ctrl_check_user_password (lcv_PwdType : Z) : Mt unit :=
  m ← on_mb message;
  lcv_Ret ← on_pw (plc_check_password_info lcv_PwdType (drop 3 (mcp_ReceiveBuff m)) (u8 (msv_ReceiveLen m - 5)));
  if negb (lcv_Ret =? pdPASS) then fail MB_ILIEGAL_DATA else mret tt.
Definition mb_slave_ctrl_set_upload_forbid : Mt unit := on_pw (plc_set_upload_forbid_flag 1);; mret tt.
Definition mb_slave_clean_upload_forbid : Mt unit := on_pw (plc_set_upload_forbid_flag 0);; mret tt.

(** ** Programming while the program runs *)
(** The counter of the copy is a byte: more than 255 bytes are copied for ever. *)
Definition set_online (v : Z) : Mt unit :=
  on_plc (mod_sys (fun y => with_run_status {| mcv_PlcRunSwitch := mcv_PlcRunSwitch (run_status y); mtv_PlcRunStopFlag := mtv_PlcRunStopFlag (run_status y);
    mcv_PlcCurrentStatus := mcv_PlcCurrentStatus (run_status y); mcv_IsOnlineProgram := v; mlv_SysScanTime := mlv_SysScanTime (run_status y);
    mlv_WatchDogTime := mlv_WatchDogTime (run_status y) |} y));;
  m ← on_mb message;
  if 255 <? msv_ReceiveLen m - 2 then nofuel
  else on_mb (copy_request (Z.to_nat (msv_ReceiveLen m - 2)) 0;; answer (msv_ReceiveLen m - 2)).
Definition mb_slave_ctrl_entry_online_program : Mt unit := set_online 1.
Definition mb_slave_ctrl_exit_online_program : Mt unit := set_online 0.
Definition programme : Mt unit :=
  IsOnlineProgram ← online;
  when IsOnlineProgram mb_slave_ctrl_stop_cmd;; mb_slave_ctrl_programme_cmd;; when IsOnlineProgram mb_slave_ctrl_run_cmd.
Definition set_TouChuan (v : Z) : Mt unit := mod_fl (with_TouChuan v);; on_mb (wr SD_ELEMENT SD231 v).

(** ** The handler *)
Definition answering (k : Mt unit) : Mt unit := k;; ctrl_answer.
Definition answering_if (k : Mt bool) : Mt unit := ok ← k; when ok ctrl_answer.
Definition mb_slave_ctrl_manage : Mt unit :=
  code ← on_mb (rx 2);
  if code =? MB_CTRL_RUN_CMD then answering mb_slave_ctrl_run_cmd
  else if code =? MB_CTRL_STOP_CMD then answering mb_slave_ctrl_stop_cmd
  else if code =? MB_CTRL_FORCE_BITS then answering mb_slave_ctrl_force_bits
  else if code =? MB_CTRL_FORCE_WORDS then answering mb_slave_ctrl_force_words
  else if code =? MB_CTRL_UNFORCE_BITS then answering mb_slave_ctrl_unforce_bits
  else if code =? MB_CTRL_UNFORCE_WORDS then answering mb_slave_ctrl_unforce_words
  else if code =? MB_CTRL_UNFORCE_ALL then answering mb_slave_ctrl_unforce_all
  else if code =? MB_CTRL_READ_PLC_STATUS then mb_slave_ctrl_read_plc_status
  else if code =? MB_CTRL_PROGRAMME_CMD then programme
  else if code =? MB_CTRL_CLEAN_USER_CODE then answering_if (formatting mb_slave_ctrl_clean_user_code)
  else if code =? MB_CTRL_CLEAN_SYS_BLOCK then answering_if (formatting mb_slave_ctrl_clean_system_block)
  else if code =? MB_CTRL_CLEAN_DATA_BLOCK then answering_if (formatting mb_slave_ctrl_clean_data_block)
  else if code =? MB_CTRL_CLEAN_NETCFG then answering_if (formatting mb_slave_ctrl_clean_net_cfg)
  else if code =? MB_CTRL_VERIFY_UCODE then mb_slave_ctrl_verify_ucode
  else if code =? MB_CTRL_VERIFY_PID1 then mb_slave_ctrl_verify_pid1
  else if code =? MB_CTRL_CLEAN_ERROR_INFO then answering (on_plc plc_clean_user_run_error_flag)
  else if code =? MB_CTRL_SET_UPLOAD_FORBID then answering mb_slave_ctrl_set_upload_forbid
  else if code =? MB_CTRL_CLEAN_UPLOAD_FORBID then answering mb_slave_clean_upload_forbid
  else if code =? MB_CTRL_READ_ERROR_INFO then mb_slave_read_error_info
  else if code =? MB_CTRL_SET_UPLOAD_PWD then answering (mb_slave_ctrl_set_user_password UPLOAD_PASSWORD)
  else if code =? MB_CTRL_CHECK_UPLOAD_PWD then answering (mb_slave_ctrl_check_user_password UPLOAD_PASSWORD)
  else if code =? MB_CTRL_SET_DOWNLOAD_PWD then answering (mb_slave_ctrl_set_user_password DOWNLOAD_PASSWORD)
  else if code =? MB_CTRL_CHECK_DOWNLOAD_PWD then answering (mb_slave_ctrl_check_user_password DOWNLOAD_PASSWORD)
  else if code =? MB_CTRL_SET_MONITOR_PWD then answering (mb_slave_ctrl_set_user_password MONITOR_PASSWORD)
  else if code =? MB_CTRL_CHECK_MONITOR_PWD then answering (mb_slave_ctrl_check_user_password MONITOR_PASSWORD)
  else if code =? MB_CTRL_SET_TIMER_PWD then answering (mb_slave_ctrl_set_user_password TIMER_PASSWORD)
  else if code =? MB_CTRL_CHECK_TIMER_PWD then answering (mb_slave_ctrl_check_user_password TIMER_PASSWORD)
  else if code =? MB_CTRL_ENTERY_ONLINE_PROGRAM then mb_slave_ctrl_entry_online_program
  else if code =? MB_CTRL_EXIT_ONLINE_PROGRAM then mb_slave_ctrl_exit_online_program
  else if code =? MB_CTRL_TOU_CHUAN_COM0 then answering (set_TouChuan 0)
  else if code =? MB_CTRL_TOU_CHUAN_COM1 then answering (set_TouChuan 1)
  else if code =? MB_CTRL_TOU_CHUAN_COM2 then answering (set_TouChuan 2)
  else if z_in code [MB_CTRL_TOU_CHUAN_WAN; MB_CTRL_TOU_CHUAN_LAN] then answering (bsp_save_TouChuan 4;; mret tt)
  else if code =? MB_CTRL_TOU_CHUAN_CLOSE then answering (set_TouChuan 0xFF)
  else if code =? MB_CTRL_SLAVE_ID then ctrl_answer
  else if z_in code board_codes then board_function code
  else on_mb (m ← message; mod_diag (mcv_Sender m) count_err;; fail_with MB_ILIEGAL_CODE).
End control.
