(* ===== verification/FileCheck.v ===== *)
(** * The files in the flash

    Models the checks of plc/sysmanage plc_sysinit.c: each file of the user is
    taken from its partition if it has its start and end marks and its check
    sum, and replaced by the default file otherwise. *)
From stdpp Require Import base list numbers.
From S2P Require Import Prelude Bytes Element Machine Verify MbSlave Flash Password Service Control.

Definition FILE_START_CHARACTER := 0xAAAA.
Definition FILE_TAIL_CHARACTER := 0x5555.
Inductive verdict : Set := Empty | Malformed | BadSum | Good.

Section check.
Context {F : Type} `{!NorFlash F}.
Notation st := (ctl_st F).
Notation Mt := (M st).
Definition big_value (l : list Z) : Z := le_value (rev l).
(** [GET_PU16_DATA(p + i)] and the big-endian check sums; the address wraps. *)
Definition file_u16 (h : file_ptr) (i : Z) : Mt Z := l ← file_bytes h i 2; mret (le_value l).
Definition sum_ccitt (h : file_ptr) (len : Z) : Mt bool :=
  l ← file_bytes h 0 (u32 (len - 4)); c ← of_option (calc_ccitt l (u32 (len - 4)));
  b ← file_bytes h (len - 4) 2; mret (c =? big_value b).
Definition sum_crc32 (h : file_ptr) (len : Z) : Mt bool :=
  l ← file_bytes h 0 (u32 (len - 6)); c ← of_option (calc_crc32 l (u32 (len - 6)));
  b ← file_bytes h (len - 6) 4; mret (c =? big_value b).
Definition judge (sum : file_ptr -> Z -> Mt bool) (h : file_ptr) : Mt verdict :=
  len ← file_length h FILE_LEN_INFO_START_INDEX;
  if len =? 0xFFFFFFFF then mret Empty
  else
    a ← file_u16 h 0;
    if negb (a =? FILE_START_CHARACTER) then mret Malformed
    else
      z ← file_u16 h (len - 2);
      if negb (z =? FILE_TAIL_CHARACTER) then mret Malformed
      else ok ← sum h len; mret (if ok : bool then Good else BadSum).
(** What the functions share: [empty], [bad] and [good] set the error flags. *)
Definition verify (sum : file_ptr -> Z -> Mt bool) (page i : Z) (default : list Z) (empty bad good : Mt unit) : Mt unit :=
  match bsp_get_flash_info page with
  | None => bad;; ub
  | Some part =>
      v ← judge sum (InFlash (startAddr part));
      match v with
      | Good => good;; mod_ptrs (with_ptr i (InFlash (startAddr part)))
      | Empty => empty;; mod_ptrs (with_ptr i (Constant default))
      | Malformed | BadSum => bad;; mod_ptrs (with_ptr i (Constant default))
      end
  end.
Definition flagged (flag : Z) (m : Mc unit) : Mt unit := when (truthy flag) (on_plc m).
Definition plc_ucode_verify (isSetUcodeErrFlag : Z) : Mt unit :=
  verify sum_ccitt UCODE_START_PAGE MB_DL_UCODE ucode_default
    (flagged isSetUcodeErrFlag (plc_refresh_error_msg ERR_NULL_UCODE))
    (flagged isSetUcodeErrFlag (set_stop_flag stop_ucode_err true;; plc_refresh_error_msg ERR_USER_PROGRAM))
    (on_plc (set_stop_flag stop_ucode_err false)).
Definition plc_data_block_verify (flag : Z) : Mt unit :=
  verify sum_ccitt DATA_BLOCK_START_PAGE MB_DL_DATA_BLOCK datablock_default
    (flagged flag (plc_refresh_error_msg ERR_NULL_DATA_BLOCK))
    (flagged flag (set_stop_flag stop_datablock_err true;; plc_refresh_error_msg ERR_DATA_BLOCK))
    (on_plc (set_stop_flag stop_datablock_err false)).
Definition plc_pou_info_verify (flag : Z) : Mt unit :=
  verify sum_ccitt POU_FILE_START_PAGE MB_DL_POU_INFO pouinfo_default
    (flagged flag (plc_refresh_error_msg ERR_NULL_POU_INFO))
    (flagged flag (set_nonstop_flag pou_info_err true)) (on_plc (set_nonstop_flag pou_info_err false)).
Definition plc_system_block_verify (flag : Z) : Mt unit :=
  verify sum_ccitt SYS_BLOCK_START_PAGE MB_DL_SYS_BLOCK sysblock_default
    (flagged flag (plc_refresh_error_msg ERR_NULL_SYSTEM_BLOCK))
    (flagged flag (set_stop_flag stop_sysblock_err true;; plc_refresh_error_msg ERR_SYSTEM_BLOCK))
    (on_plc (set_stop_flag stop_sysblock_err false)).
(** The function for the network file returns where it has no partition. *)
Definition plc_netcfg_block_verify (flag : Z) : Mt unit :=
  match bsp_get_flash_info DEV_NETWORK_INFO_START_FLASH_PAGE with
  | None =>
      flagged flag (set_stop_flag stop_netcfg_err true;; plc_refresh_error_msg ERR_NET_CONFIG);; mod_ptrs (with_ptr MB_DL_NETCFG (Constant netcfg_default))
  | Some _ =>
      verify sum_crc32 DEV_NETWORK_INFO_START_FLASH_PAGE MB_DL_NETCFG netcfg_default
        (flagged flag (plc_refresh_error_msg ERR_NULL_NET_CONFIG))
        (flagged flag (set_stop_flag stop_netcfg_err true;; plc_refresh_error_msg ERR_NET_CONFIG))
        (on_plc (set_stop_flag stop_netcfg_err false;; set_nonstop_flag netconfig_err false))
  end.
Definition plc_gvt_verify (flag : Z) : Mt unit :=
  verify sum_ccitt GVT_FILE_START_PAGE MB_DL_GVT gvt_default
    (flagged flag (plc_refresh_error_msg ERR_NULL_GVT))
    (flagged flag (set_nonstop_flag gvt_err true)) (on_plc (set_nonstop_flag gvt_err false)).
End check.
