(* ===== verification/DownloadFacts.v ===== *)
(** * Facts about downloads

    The frames of a file, some of them repeated, leave the file in its buffer;
    a repeated last frame replaces a program by its last part. *)
From stdpp Require Import base list numbers.
From S2P Require Import Prelude Bytes Element Machine Verify Compiler MbSlave MbFacts Flash Password Service Download.

Section run.
Context {F : Type} `{!NorFlash F}.
Notation st := (ctl_st F).
Implicit Types (s : st) (p : mb_file_trans_st).

(** ** A frame in the receive buffer *)
Definition with_rx (frame : list Z) (m : md_slave_msg_pack) : md_slave_msg_pack :=
  {| mcv_Sender := mcv_Sender m; msv_ReceiveLen := Z.of_nat (length frame); msv_RespLen := msv_RespLen m;
     mcv_IsBroadcastInfo := mcv_IsBroadcastInfo m; mcv_ErrorCode := mcv_ErrorCode m; mcp_ReceiveBuff := frame;
     mcp_RespBuff := mcp_RespBuff m; isTcpClient := isTcpClient m; clientID := clientID m; slaveID := slaveID m;
     tcp_resp_func := tcp_resp_func m; resp_func := resp_func m |}.
Definition received (frame : list Z) s : st := with_mb (with_msg (with_rx frame (msg (mb s))) (mb s)) s.
(** The bytes of a frame that carries [data] of a file. *)
Definition file_frame (code num : Z) (data : list Z) : list Z := [1; 0x68; code; num] ++ data ++ [0; 0].
Lemma on_mb_rx s i : 0 <= i < Z.of_nat (length (rx_buf (mb s))) -> on_mb (rx i) s = Ok (byte_at (rx_buf (mb s)) i, s).
Proof. intros Hi. unfold on_mb. rewrite rx_run by done. by destruct s. Qed.
Lemma on_mb_message s : on_mb message s = Ok (msg (mb s), s).
Proof. by destruct s. Qed.

(** ** The record of a file in its place *)
Definition with_slot (i : Z) (o : option mb_file_trans_st) s : st := with_FileTrans (<[Z.to_nat i := o]> (gtv_ModbusFileTrans s)) s.
Lemma with_trans_id s : with_FileTrans (gtv_ModbusFileTrans s) s = s.
Proof. by destruct s. Qed.
Section slot.
Context (i : Z) (s : st).
Hypothesis (Hi : 0 <= i < Z.of_nat (length (gtv_ModbusFileTrans s))).
Notation E o := (with_slot i o s).
Lemma transfer_run o : transfer i (E o) = Ok (o, E o).
Proof. unfold transfer. rewrite run_gets. cbn [with_slot with_FileTrans gtv_ModbusFileTrans]. rewrite zlookup_insert by (by apply zlookup_is_Some). by rewrite decide_True. Qed.
Lemma put_transfer_run o o' : put_transfer i o' (E o) = Ok (tt, E o').
Proof.
  unfold put_transfer. rewrite run_gets. cbn [with_slot with_FileTrans gtv_ModbusFileTrans].
  rewrite (run_some _ _) by (apply zupdate_lt; rewrite length_insert; lia). unfold with_slot, with_FileTrans, modify. cbn. by rewrite list_insert_insert_eq.
Qed.
Lemma file_run p : file_of i (E (Some p)) = Ok (p, E (Some p)).
Proof. unfold file_of. by rewrite (run_bind _ _ _ _ _ (transfer_run _)). Qed.
Lemma mod_file_run f p : mod_file i f (E (Some p)) = Ok (tt, E (Some (f p))).
Proof. unfold mod_file. rewrite (run_bind _ _ _ _ _ (file_run p)). apply put_transfer_run. Qed.
End slot.

(** ** Storing *)
(** A file with [l] in its buffer. *)
Definition filled (c f g size : Z) (l : list Z) : mb_file_trans_st :=
  {| mcv_FrameCnt := c; mcv_PreFrame := f; mcv_Flag := g; mlv_FileLen := Z.of_nat (length l); mcp_FileHandler := Buffer size l |}.
Section storing.
Context (i : Z) (s : st) (size : Z).
Hypothesis (Hi : 0 <= i < Z.of_nat (length (gtv_ModbusFileTrans s))).
Notation E o := (with_slot i o s).
(** While a frame is stored the length is still the old one. *)
Definition filling (c f g n : Z) (l : list Z) : mb_file_trans_st :=
  {| mcv_FrameCnt := c; mcv_PreFrame := f; mcv_Flag := g; mlv_FileLen := n; mcp_FileHandler := Buffer size l |}.
Lemma store_frame_loop c f g n data : 0 <= c < 2 ^ 8 -> 0 <= g < 2 ^ 8 -> 0 <= n < 2 ^ 32 -> Forall byte_ok data ->
  forall j l, 0 <= j -> n + j = Z.of_nat (length l) -> n + j + Z.of_nat (length data) <= size ->
  (forall x, 0 <= x < Z.of_nat (length data) -> 
     byte_at (rx_buf (mb s)) (4 + (j + x)) = byte_at data x /\ 4 + (j + x) < Z.of_nat (length (rx_buf (mb s)))) ->
  for_up (length data) j (fun j =>
    v ← on_mb (rx (4 + j)); q ← file_of i;
    h ← of_option (file_store (mcp_FileHandler q) (n + j) v);
    mod_file i (fun q => with_frame (mcv_FrameCnt q) (mcv_PreFrame q) (mcv_Flag q) (mlv_FileLen q) h)) (E (Some (filling c f g n l)))
  = Ok (tt, E (Some (filling c f g n (l ++ data)))).
Proof.
  intros Hc Hg Hn Hd. induction Hd as [|b data Hb Hd IH]; intros j l H0 Hl Hs Hr; cbn [length for_up]; [by rewrite app_nil_r|].
  cbn [length] in Hs, Hr. destruct (Hr 0 ltac:(lia)) as (Eb & Lb). rewrite Z.add_0_r in Eb, Lb. change (byte_at (b :: data) 0) with b in Eb.
  assert (E1 : (v ← on_mb (rx (4 + j)); q ← file_of i; h ← of_option (file_store (mcp_FileHandler q) (n + j) v);
    mod_file i (fun q => with_frame (mcv_FrameCnt q) (mcv_PreFrame q) (mcv_Flag q) (mlv_FileLen q) h)) (E (Some (filling c f g n l)))
    = Ok (tt, E (Some (filling c f g n (l ++ [b]))))).
  { set (s1 := E (Some (filling c f g n l))). change (rx_buf (mb s)) with (rx_buf (mb s1)) in Eb, Lb.
    assert (R4 : 0 <= 4 + j < Z.of_nat (length (rx_buf (mb s1)))) by lia.
    rewrite (run_bind _ _ _ _ _ (on_mb_rx s1 (4 + j) R4)), Eb. unfold s1. rewrite (run_bind _ _ _ _ _ (file_run i s Hi _)). cbn [filling mcp_FileHandler].
    unfold byte_ok, byte in Hb. rewrite (run_some _ (Buffer size (l ++ [b]))).
    - rewrite (mod_file_run i s Hi). unfold with_frame, filling. cbn. by rewrite !u8_id, u32_id by lia.
    - unfold file_store. rewrite (proj2 (andb_true_iff _ _)) by (split; [apply Z.leb_le|apply Z.ltb_lt]; lia). rewrite (proj2 (Z.eqb_eq _ _)) by lia. by rewrite u8_id by lia. }
  rewrite (run_bind _ _ _ _ _ E1). rewrite (IH (j + 1) (l ++ [b])); [by rewrite <- app_assoc|lia|rewrite length_app; cbn; lia|lia|].
  intros x Hx. destruct (Hr (x + 1) ltac:(lia)) as (Ex & Lx). replace (j + 1 + x) with (j + (x + 1)) by lia. split; [|done].
  rewrite Ex. change (b :: data) with ([b] ++ data). replace (x + 1) with (Z.of_nat (length [b]) + x) by (cbn; lia). apply byte_app_r. lia.
Qed.
(** One frame, accepted: [c'], [f'], [g'] are what [note] leaves. *)
Lemma accept_run c f g l code num data c' g' note : Forall byte_ok data -> rx_buf (mb s) = file_frame code num data ->
  0 <= c' < 2 ^ 8 -> g' = 1 \/ g' = 5 -> Z.of_nat (length (l ++ data)) <= size -> size < 2 ^ 32 ->
  note (filled c f g size l) = filled c' num g' size l ->
  accept_frame i num (Z.of_nat (length data)) note (E (Some (filled c f g size l)))
  = Ok (tt, E (Some (filled c' num (if num =? 0xFE then Z.lor g' 0x02 else g') size (l ++ data)))).
Proof.
  intros Hd Hx Hc Hg' Hs Hsize Hn. rewrite length_app in Hs. assert (Hg : 0 <= g' < 2 ^ 8) by (destruct Hg'; subst; lia). unfold accept_frame. rewrite (run_bind _ _ _ _ _ (mod_file_run i s Hi _ _)), Hn.
  assert (S1 : store_frame i (Z.of_nat (length data)) (E (Some (filled c' num g' size l))) = Ok (tt, E (Some (filling c' num g' (Z.of_nat (length l)) (l ++ data))))).
  { unfold store_frame. rewrite (run_bind _ _ _ _ _ (file_run i s Hi _)), Nat2Z.id. cbn [filled mlv_FileLen].
    apply (store_frame_loop c' num g' (Z.of_nat (length l)) data Hc Hg); [lia|done|lia|lia|lia|].
    intros x Hl. rewrite Hx. split; [|unfold file_frame; rewrite !length_app; cbn; lia].
    unfold file_frame. rewrite Z.add_0_l. change 4 with (Z.of_nat (length [1; 0x68; code; num])). rewrite byte_app_r by lia. apply byte_app_l. lia. }
  rewrite (run_bind _ _ _ _ _ S1). rewrite (run_bind _ _ _ _ _ (mod_file_run i s Hi _ _)).
  assert (E2 : add_length (Z.of_nat (length data)) (filling c' num g' (Z.of_nat (length l)) (l ++ data)) = filled c' num g' size (l ++ data)).
  { unfold add_length, with_frame, filled. cbn. rewrite !u8_id by lia. rewrite length_app, <- Nat2Z.inj_add. by rewrite u32_id by lia. }
  rewrite E2. destruct (num =? 0xFE); [|done]. cbn [when]. rewrite (mod_file_run i s Hi). unfold set_complete, with_frame. cbn [filled mcv_FrameCnt mcv_PreFrame mcv_Flag mlv_FileLen mcp_FileHandler].
  rewrite (u8_id c'), u32_id by (rewrite ?length_app; lia). rewrite u8_id; [done|]. by destruct Hg'; subst.
Qed.
End storing.

(** ** One frame *)
(** The files that are downloaded to a place of their own in the flash: code,
    place in the table, size of the buffer, and whether a complete file is
    dropped when another frame comes. *)
Definition file_kinds : list (Z * Z * Z * bool) :=
  [(MB_DOWNLOAD_UCODE, MB_DL_UCODE, UCODE_FILE_MAX_SIZE, true); (MB_DOWNLOAD_SYS_BLOCK, MB_DL_SYS_BLOCK, SYS_BLOCK_MAX_SIZE, false);
   (MB_DOWNLOAD_DATA_BLOCK, MB_DL_DATA_BLOCK, DATA_BLOCK_MAX_SIZE, true); (MB_DOWNLOAD_POU_INFO, MB_DL_POU_INFO, POU_FILE_MAX_SIZE, true);
   (MB_DOWNLOAD_GVT, MB_DL_GVT, GVT_FILE_MAX_SIZE, false); (MB_DOWNLOAD_NETCFG, MB_DL_NETCFG, DEV_NETWORK_INFO_SIZE, false);
   (MB_DOWNLOAD_PID1, MB_DL_PID1, PID1_MAX_SIZE, false); (MB_DOWNLOAD_PID2, MB_DL_PID2, PID2_MAX_SIZE, false)].
Definition offline s : Prop := truthy (mcv_IsOnlineProgram (run_status (sys (base (mb s))))) = false.
Context (fuel : nat) (load : Z) (pvPortMalloc : comp_st -> bool) (heap_left : st -> Z).
Notation download_file := (mb_slave_download_file fuel load pvPortMalloc heap_left).
Definition deliver (frame : list Z) : M st Z := modify (received frame);; download_file.
Fixpoint deliver_all (fs : list (list Z)) : M st (list Z) :=
  match fs with [] => mret [] | f :: fs => r ← deliver f; rs ← deliver_all fs; mret (r :: rs) end.

Section kind.
Context (code i size : Z) (dropping : bool).
Hypothesis (Hk : (code, i, size, dropping) ∈ file_kinds).
Context (s : st).
Hypothesis (Hslots : length (gtv_ModbusFileTrans s) = 10%nat) (Hoff : offline s).
Notation E f o := (with_slot i o (received f s)).
Lemma kind_ranges : 0 <= i < 10 /\ 0 <= size < 2 ^ 32 /\ 0 <= code < 256.
Proof using Hk. clear - Hk. unfold file_kinds in Hk. repeat (apply elem_of_cons in Hk as [[= -> -> -> ->]|Hk]; [by vm_compute|]). by apply elem_of_nil in Hk. Qed.
Lemma slot_in f : 0 <= i < Z.of_nat (length (gtv_ModbusFileTrans (received f s))).
Proof using Hk Hslots. change (gtv_ModbusFileTrans (received f s)) with (gtv_ModbusFileTrans s). rewrite Hslots. apply kind_ranges. Qed.
Lemma online_run f o : online (E f o) = Ok (false, E f o).
Proof using Hoff. unfold online, gets. unfold offline in Hoff. cbn. by rewrite Hoff. Qed.
Lemma open_run f o before n : before (E f None) = Ok (tt, E f None) -> o = None \/ (exists p, o = Some p) ->
  open_file i before (mret n) (E f o) = Ok (i, E f (Some (match o with Some p => p | None => new_file n end))).
Proof using Hk Hslots.
  intros Hb Ho. unfold open_file. rewrite (run_bind _ _ _ _ _ (transfer_run i _ (slot_in f) o)). destruct o as [p|]; [done|].
  rewrite (run_bind _ _ _ _ _ Hb). rewrite (run_bind (mret n) _ (E f None) (E f None) n) by done. by rewrite (run_bind _ _ _ _ _ (put_transfer_run i _ (slot_in f) None _)).
Qed.
Lemma drop_run f o : match o with Some p => Z.land (mcv_Flag p) 0x2 = 0 | None => True end -> drop_complete i (E f o) = Ok (tt, E f o).
Proof using Hk Hslots.
  intros Ho. unfold drop_complete. rewrite (run_bind _ _ _ _ _ (transfer_run i _ (slot_in f) o)). destruct o as [p|]; [|done]. by rewrite Ho.
Qed.
Lemma select_run f o : match o with Some p => dropping = false \/ Z.land (mcv_Flag p) 0x2 = 0 | None => True end ->
  select_file heap_left code (E f o) = Ok (i, E f (Some (match o with Some p => p | None => new_file size end))).
Proof using Hk Hslots Hoff.
  intros Ho. assert (Oo : o = None \/ exists p, o = Some p) by (destruct o; eauto).
  pose proof (fun before n (H : before (E f None) = Ok (tt, E f None)) => open_run f o before n H Oo) as R.
  assert (D : dropping = true -> drop_complete i (E f o) = Ok (tt, E f o)) by (intros Hd; apply drop_run; destruct o as [p|]; [|done]; destruct Ho; congruence).
  assert (B : (on ← online; when on mb_slave_ctrl_stop_cmd) (E f None) = Ok (tt, E f None)) by (by rewrite (run_bind _ _ _ _ _ (online_run f None))).
  pose proof Hk as K. unfold file_kinds in K.
  repeat (apply elem_of_cons in K as [[= Ec Ei En Ed]|K]; [
    unfold select_file; rewrite Ec; cbn [Z.eqb Pos.eqb];
    repeat match goal with |- context [if ?a =? ?b then _ else _] => change (a =? b) with true || change (a =? b) with false end; cbv iota;
    rewrite <- Ei, <- En; try rewrite (run_bind _ _ _ _ _ (D Ed)); by apply R|]).
  by apply elem_of_nil in K.
Qed.
Definition start_of (o : option mb_file_trans_st) : mb_file_trans_st := match o with Some p => p | None => new_file size end.
Definition open_for (o : option mb_file_trans_st) : Prop := match o with Some p => dropping = false \/ Z.land (mcv_Flag p) 0x2 = 0 | None => True end.
Lemma download_run o num data r q : open_for o -> Z.of_nat (length data) < 2 ^ 16 ->
  (forall s1, s1 = received (file_frame code num data) s -> take_frame i num (Z.of_nat (length data)) (with_slot i (Some (start_of o)) s1) = Ok (r, with_slot i (Some q) s1)) ->
  download_file (E (file_frame code num data) o) = Ok (default pdPASS r, E (file_frame code num data) (Some q)).
Proof using Hk Hslots Hoff.
  intros Ho Hl Ht. set (f := file_frame code num data) in *. unfold mb_slave_download_file.
  assert (Rx : forall x o', 0 <= x < 4 -> on_mb (rx x) (E f o') = Ok (byte_at f x, E f o')).
  { intros x o' Hx. rewrite on_mb_rx; [done|]. change (rx_buf (mb (E f o'))) with f. unfold f, file_frame. rewrite !length_app. cbn. lia. }
  rewrite (run_bind _ _ _ _ _ (Rx 2 o ltac:(lia))). change (byte_at f 2) with code. rewrite (run_bind _ _ _ _ _ (select_run f o Ho)). fold (start_of o).
  rewrite (run_bind _ _ _ _ _ (Rx 3 _ ltac:(lia))). change (byte_at f 3) with num. rewrite (run_bind _ _ _ _ _ (on_mb_message _)).
  assert (L : u16 (msv_ReceiveLen (msg (mb (E f (Some (start_of o))))) - 6) = Z.of_nat (length data)).
  { cbn [with_slot with_FileTrans received with_mb with_msg with_rx mb msg msv_ReceiveLen]. unfold f, file_frame. rewrite !length_app. cbn [length].
    replace (Z.of_nat (4 + (length data + 2)) - 6) with (Z.of_nat (length data)) by lia. apply u16_id. lia. }
  rewrite L. rewrite (run_bind _ _ _ _ _ (Ht _ eq_refl)). destruct r as [r|]; [done|].
  unfold online_file. rewrite (run_bind _ _ _ _ _ (online_run f _)), (run_bind _ _ _ _ _ (file_run i _ (slot_in f) q)). done.
Qed.

(** ** The four ways a frame is taken *)
Definition complete_if (num g : Z) : Z := if num =? 0xFE then Z.lor g 0x02 else g.
Lemma take_first num data : first_frame num = true -> Forall byte_ok data -> Z.of_nat (length data) <= size -> Z.of_nat (length data) < 2 ^ 16 ->
  download_file (E (file_frame code num data) None) = Ok (pdPASS, E (file_frame code num data) (Some (filled 1 num (complete_if num 1) size data))).
Proof using Hk Hslots Hoff.
  intros Hf Hd Hs Hl. apply (download_run None num data None); [done|done|]. intros s1 ->. pose proof kind_ranges as (_ & Hsz & _). unfold take_frame.
  rewrite (run_bind _ _ _ _ _ (file_run i _ (slot_in _) _)). cbn [start_of]. unfold new_file, mb_slave_init_file_info. cbn [mcv_Flag Z.land truthy Z.eqb negb].
  rewrite Hf. cbn [when mcp_FileHandler]. change (truthy (Z.land 0 1)) with false. cbv iota. change {| mcv_FrameCnt := 0; mcv_PreFrame := 0; mcv_Flag := 0; mlv_FileLen := 0; mcp_FileHandler := Buffer size [] |} with (filled 0 0 0 size []).
  assert (A := accept_run i (received (file_frame code num data) s) size (slot_in _) 0 0 0 [] code num data 1 1
    (fun p => note_frame 1 num (Z.lor (mcv_Flag p) 0x01) p) Hd eq_refl).
  rewrite (run_bind _ _ _ _ _ (A (conj (Z.le_0_1) eq_refl) (or_introl eq_refl) Hs (proj2 Hsz) eq_refl)). done.
Qed.
Lemma noted c f0 g l num g' (data : list Z) : Z.of_nat (length (l ++ data)) <= size -> u8 g' = g' ->
  note_frame (c + 1) num g' (filled c f0 g size l) = filled (u8 (c + 1)) num g' size l.
Proof using Hk Hslots.
  intros Hs Hg. pose proof kind_ranges as (_ & Hsz & _). unfold note_frame, with_frame, filled. cbn. rewrite Hg. rewrite u32_id by (rewrite length_app in Hs; lia). done.
Qed.
Lemma take_next c f0 g l num data : Z.land g 1 <> 0 -> (dropping = false \/ Z.land g 0x2 = 0) -> g = 1 \/ g = 5 ->
  num <> f0 -> num = 0xFE \/ num = f0 + 1 -> Forall byte_ok data -> Z.of_nat (length (l ++ data)) <= size -> Z.of_nat (length data) < 2 ^ 16 ->
  download_file (E (file_frame code num data) (Some (filled c f0 g size l)))
  = Ok (pdPASS, E (file_frame code num data) (Some (filled (u8 (c + 1)) num (complete_if num g) size (l ++ data)))).
Proof using Hk Hslots Hoff.
  intros Hg1 Hg2 Hg Hne Hn Hd Hs Hl. apply (download_run (Some _) num data None); [done|done|]. intros s1 ->. pose proof kind_ranges as (_ & Hsz & _). unfold take_frame.
  rewrite (run_bind _ _ _ _ _ (file_run i _ (slot_in _) _)). cbn [start_of filled mcv_Flag mcv_PreFrame]. unfold truthy. rewrite (proj2 (Z.eqb_neq _ _) Hg1). cbn [negb].
  rewrite (proj2 (Z.eqb_neq _ _) Hne). assert ((num =? 0xFE) || (num =? f0 + 1) = true) as -> by (apply orb_true_iff; destruct Hn as [->| ->]; [by left|right; apply Z.eqb_refl]).
  assert (A := accept_run i (received (file_frame code num data) s) size (slot_in _) c f0 g l code num data (u8 (c + 1)) g
    (fun p => note_frame (mcv_FrameCnt p + 1) num (mcv_Flag p) p) Hd eq_refl (u8_range _) Hg Hs (proj2 Hsz) (noted c f0 g l num g data Hs ltac:(destruct Hg; subst; done))).
  rewrite (run_bind _ _ _ _ _ A). done.
Qed.
Lemma take_turn c g l data : g = 1 \/ g = 5 -> Forall byte_ok data -> Z.of_nat (length (l ++ data)) <= size -> Z.of_nat (length data) < 2 ^ 16 ->
  download_file (E (file_frame code 1 data) (Some (filled c 0xFD g size l)))
  = Ok (pdPASS, E (file_frame code 1 data) (Some (filled (u8 (c + 1)) 1 5 size (l ++ data)))).
Proof using Hk Hslots Hoff.
  intros Hg Hd Hs Hl. assert (G2 : Z.land g 0x2 = 0 /\ truthy (Z.land g 1) = true /\ count_turn g = 5) by (by destruct Hg; subst). destruct G2 as (G2 & G1 & G5).
  apply (download_run (Some _) 1 data None); [by right|done|]. intros s1 ->. pose proof kind_ranges as (_ & Hsz & _). unfold take_frame.
  rewrite (run_bind _ _ _ _ _ (file_run i _ (slot_in _) _)). cbn [start_of filled mcv_Flag mcv_PreFrame]. rewrite G1.
  change (1 =? 253) with false. change ((1 =? 254) || (1 =? 253 + 1)) with false. change ((1 =? 1) && (253 =? 253)) with true. cbv iota.
  assert (A := accept_run i (received (file_frame code 1 data) s) size (slot_in _) c 0xFD g l code 1 data (u8 (c + 1)) 5
    (fun p => note_frame (mcv_FrameCnt p + 1) 1 (count_turn (mcv_Flag p)) p) Hd eq_refl (u8_range _) (or_intror eq_refl) Hs (proj2 Hsz)).
  assert (N : note_frame (mcv_FrameCnt (filled c 0xFD g size l) + 1) 1 (count_turn (mcv_Flag (filled c 0xFD g size l))) (filled c 0xFD g size l) = filled (u8 (c + 1)) 1 5 size l).
  { cbn [filled mcv_FrameCnt mcv_Flag]. rewrite G5. by apply (noted c 0xFD g l 1 5 data Hs). }
  rewrite (run_bind _ _ _ _ _ (A N)). done.
Qed.
Lemma take_repeat c g l num data : Z.land g 1 <> 0 -> dropping = false \/ Z.land g 0x2 = 0 -> Z.of_nat (length data) < 2 ^ 16 ->
  download_file (E (file_frame code num data) (Some (filled c num g size l))) = Ok (pdPASS, E (file_frame code num data) (Some (filled c num g size l))).
Proof using Hk Hslots Hoff.
  intros Hg1 Hg2 Hl. apply (download_run (Some _) num data (Some pdPASS)); [done|done|]. intros s1 ->. unfold take_frame.
  rewrite (run_bind _ _ _ _ _ (file_run i _ (slot_in _) _)). cbn [start_of filled mcv_Flag mcv_PreFrame]. unfold truthy. rewrite (proj2 (Z.eqb_neq _ _) Hg1). cbn [negb].
  by rewrite Z.eqb_refl.
Qed.

(** ** All frames of a file *)
Definition number_of (j : nat) : Z := 1 + (Z.of_nat j) mod 0xFD.
(** The frames of the parts [cs] from part [j] on, each sent once more [r]
    times. *)
Fixpoint frames_from (r : nat -> nat) (j : nat) (cs : list (list Z)) : list (list Z) :=
  match cs with
  | [] => []
  | c :: cs => replicate (S (r j)) (file_frame code (match cs with [] => 0xFE | _ => number_of j end) c) ++ frames_from r (S j) cs
  end.
Definition turned (j : nat) : Z := if Nat.leb j 253 then 1 else 5.
(** The file after [j] parts, none of them the last. *)
Definition partial (j : nat) (l : list Z) : mb_file_trans_st := filled (u8 (Z.of_nat j)) (number_of (j - 1)) (turned j) size l.
Lemma number_range j : 1 <= number_of j <= 0xFD.
Proof using. clear. unfold number_of. pose proof (Z.mod_pos_bound (Z.of_nat j) 0xFD). lia. Qed.
Lemma turned_cases j : turned j = 1 \/ turned j = 5.
Proof using. clear. unfold turned. destruct (Nat.leb j 253); auto. Qed.
(** A part after the first, not the last. *)
Lemma take_part j l data : Forall byte_ok data -> Z.of_nat (length (l ++ data)) <= size -> Z.of_nat (length data) < 2 ^ 16 ->
  download_file (E (file_frame code (number_of (S j)) data) (Some (partial (S j) l)))
  = Ok (pdPASS, E (file_frame code (number_of (S j)) data) (Some (partial (S (S j)) (l ++ data)))).
Proof using Hk Hslots Hoff.
  intros Hd Hs Hl. assert (C : u8 (u8 (Z.of_nat (S j)) + 1) = u8 (Z.of_nat (S (S j)))) by (unfold u8; rewrite Zplus_mod_idemp_l; f_equal; lia).
  unfold partial. cbn [Nat.sub]. rewrite Nat.sub_0_r. pose proof (turned_cases (S j)) as G.
  assert (T1 : Z.land (turned (S j)) 1 <> 0 /\ Z.land (turned (S j)) 2 = 0) by (destruct G as [-> | ->]; done).
  destruct (decide (Z.of_nat j mod 0xFD = 0xFC)) as [Hj|Hj].
  - assert (N1 : number_of (S j) = 1) by (unfold number_of; rewrite Nat2Z.inj_succ, <- Z.add_1_r, Z.add_mod, Hj by lia; done).
    assert (N0 : number_of j = 0xFD) by (unfold number_of; lia). rewrite N1, N0.
    assert (T5 : turned (S (S j)) = 5) by (unfold turned; destruct (Nat.leb_spec (S (S j)) 253); [|done]; rewrite Z.mod_small in Hj by lia; lia).
    rewrite T5, <- C. by apply take_turn.
  - assert (N1 : number_of (S j) = number_of j + 1).
    { unfold number_of. pose proof (Z.mod_pos_bound (Z.of_nat j) 0xFD ltac:(lia)). rewrite Nat2Z.inj_succ, <- Z.add_1_r.
      rewrite <- (Zplus_mod_idemp_l (Z.of_nat j) 1). rewrite Z.mod_small by lia. lia. }
    assert (T : turned (S (S j)) = turned (S j)).
    { unfold turned. destruct (Nat.leb_spec (S (S j)) 253), (Nat.leb_spec (S j) 253); try lia. assert (j = 252)%nat as -> by lia. by vm_compute in Hj. }
    rewrite T, <- C, (take_next _ _ _ l (number_of (S j)) data (proj1 T1) (or_intror (proj2 T1)) G) by (done || lia).
    unfold complete_if. pose proof (number_range (S j)). rewrite (proj2 (Z.eqb_neq _ _)) by lia. done.
Qed.

(** ** Frames one after another *)
Lemma received_again f f' o : received f' (E f o) = E f' o.
Proof using. done. Qed.
Lemma deliver_run f f' o o' r : download_file (E f' o) = Ok (r, E f' o') -> deliver f' (E f o) = Ok (r, E f' o').
Proof using. intros H. exact H. Qed.
Lemma deliver_first f o' r : zlookup (gtv_ModbusFileTrans s) i = Some None -> download_file (E f None) = Ok (r, E f o') -> deliver f s = Ok (r, E f o').
Proof using Hk Hslots.
  intros H0 H. assert (R : received f s = E f None); [|exact (eq_trans (f_equal download_file R) H)].
  unfold with_slot. change (gtv_ModbusFileTrans (received f s)) with (gtv_ModbusFileTrans s). apply zlookup_Some in H0 as [_ H0]. rewrite list_insert_id by done. exact (eq_sym (with_trans_id (received f s))).
Qed.
Lemma deliver_all_cons f fs s0 s1 s2 r rs : deliver f s0 = Ok (r, s1) -> deliver_all fs s1 = Ok (rs, s2) -> deliver_all (f :: fs) s0 = Ok (r :: rs, s2).
Proof using. clear. intros E1 E2. cbn [deliver_all]. rewrite (run_bind _ _ _ _ _ E1). by rewrite (run_bind _ _ _ _ _ E2). Qed.
Lemma deliver_all_app fs gs : forall s0 s1 s2 rs rt, deliver_all fs s0 = Ok (rs, s1) -> deliver_all gs s1 = Ok (rt, s2) -> deliver_all (fs ++ gs) s0 = Ok (rs ++ rt, s2).
Proof using.
  clear. induction fs as [|f fs IH]; intros s0 s1 s2 rs rt E1 E2.
  - injection E1 as <- <-. exact E2.
  - cbn [deliver_all] in E1. apply bind_inv in E1 as (r & t & E1 & E3). apply bind_inv in E3 as (rs' & t' & E3 & E4). injection E4 as <- <-.
    cbn [app]. apply (deliver_all_cons _ _ _ _ _ _ _ E1). eapply IH; eassumption.
Qed.
(** A frame, and the same frame [n] times more. *)
Lemma repeats_run n s0 c g l num data : let f := file_frame code num data in
  Z.land g 1 <> 0 -> n = 0%nat \/ dropping = false \/ Z.land g 0x2 = 0 -> Z.of_nat (length data) < 2 ^ 16 ->
  deliver f s0 = Ok (pdPASS, E f (Some (filled c num g size l))) ->
  deliver_all (replicate (S n) f) s0 = Ok (replicate (S n) pdPASS, E f (Some (filled c num g size l))).
Proof using Hk Hslots Hoff.
  intros f Hg1 Hg2 Hl H0. apply (deliver_all_cons _ _ _ _ _ _ _ H0). destruct Hg2 as [->|Hg2]; [done|].
  clear H0. induction n as [|n IH]; [done|]. apply (deliver_all_cons _ _ _ _ _ _ _ (deliver_run _ _ _ _ _ (take_repeat c g l num data Hg1 Hg2 Hl))), IH.
Qed.
(** The file when [n] parts have come, the last one among them. *)
Definition whole (n : nat) (l : list Z) : mb_file_trans_st := filled (u8 (Z.of_nat n)) 0xFE (Z.lor (turned (n - 1)) 0x02) size l.
Lemma whole_flags n : Z.land (Z.lor (turned n) 0x02) 1 <> 0.
Proof using. clear. by destruct (turned_cases n) as [-> | ->]. Qed.
Lemma partial_flags n : Z.land (turned n) 1 <> 0 /\ Z.land (turned n) 0x2 = 0.
Proof using. clear. by destruct (turned_cases n) as [-> | ->]. Qed.
Lemma take_last j l data : Forall byte_ok data -> Z.of_nat (length (l ++ data)) <= size -> Z.of_nat (length data) < 2 ^ 16 ->
  download_file (E (file_frame code 0xFE data) (Some (partial (S j) l))) = Ok (pdPASS, E (file_frame code 0xFE data) (Some (whole (S (S j)) (l ++ data)))).
Proof using Hk Hslots Hoff.
  intros Hd Hs Hl. assert (C : u8 (u8 (Z.of_nat (S j)) + 1) = u8 (Z.of_nat (S (S j)))) by (unfold u8; rewrite Zplus_mod_idemp_l; f_equal; lia).
  unfold partial, whole. cbn [Nat.sub]. rewrite Nat.sub_0_r. pose proof (number_range j). pose proof (partial_flags (S j)) as (P1 & P2).
  rewrite (take_next _ _ _ l 0xFE data P1 (or_intror P2) (turned_cases _)) by (done || lia || by left). by rewrite C.
Qed.
Lemma rest_run r cs : forall j l f, cs <> [] -> Forall (Forall byte_ok) cs -> Forall (fun c => Z.of_nat (length c) < 2 ^ 16) cs ->
  Z.of_nat (length (l ++ concat cs)) <= size -> dropping = false \/ r (j + length cs)%nat = 0%nat -> exists d,
  last cs = Some d /\ deliver_all (frames_from r (S j) cs) (E f (Some (partial (S j) l)))
    = Ok (replicate (length (frames_from r (S j) cs)) pdPASS, E (file_frame code 0xFE d) (Some (whole (S j + length cs) (l ++ concat cs)))).
Proof using Hk Hslots Hoff.
  induction cs as [|c cs IH]; intros j l f Hne Hb Hl Hs Hr; [done|]. apply Forall_cons in Hb as [Hb Hbs]. apply Forall_cons in Hl as [Hl Hls].
  cbn [concat] in Hs. destruct cs as [|c' cs].
  - exists c. split; [done|]. cbn [frames_from concat length] in *. rewrite !app_nil_r in *. rewrite length_replicate, Nat.add_1_r in *.
    apply repeats_run; [apply whole_flags| |done|].
    + destruct Hr as [-> | ->]; auto.
    + by apply deliver_run, take_last.
  - destruct (IH (S j) (l ++ c) (file_frame code (number_of (S j)) c) ltac:(done) Hbs Hls ltac:(by rewrite <- app_assoc)) as (d & Hd & Ed).
    { by rewrite Nat.add_succ_comm. }
    exists d. split; [done|]. cbn [frames_from] in *. rewrite length_app, replicate_add, length_replicate.
    eapply deliver_all_app.
    + apply (repeats_run (r (S j)) _ (u8 (Z.of_nat (S (S j)))) (turned (S (S j))) (l ++ c) (number_of (S j)) c); [apply partial_flags|right; right; apply partial_flags|done|].
      apply deliver_run, take_part; [done| |done]. rewrite length_app, (length_app c) in Hs. rewrite length_app. lia.
    + change (filled (u8 (Z.of_nat (S (S j)))) (number_of (S j)) (turned (S (S j))) size (l ++ c)) with (filled (u8 (Z.of_nat (S (S j)))) (number_of (S (S j) - 1)) (turned (S (S j))) size (l ++ c)).
      rewrite <- app_assoc in Ed. change (S j + length (c :: c' :: cs))%nat with (S j + S (length (c' :: cs)))%nat. rewrite <- Nat.add_succ_comm. exact Ed.
Qed.

(** A complete program, data block or POU file is dropped when another frame
    comes. *)
Lemma drop_whole f n l : drop_complete i (E f (Some (whole n l))) = Ok (tt, E f None).
Proof using Hk Hslots.
  unfold drop_complete. rewrite (run_bind _ _ _ _ _ (transfer_run i _ (slot_in f) _)). unfold whole at 1. cbn [filled mcv_Flag].
  assert (truthy (Z.land (Z.lor (turned (n - 1)) 2) 2) = true) as -> by (by destruct (turned_cases (n - 1)) as [-> | ->]). cbn [when].
  unfold free_file. rewrite (run_bind _ _ _ _ _ (file_run i _ (slot_in f) _)). cbn [whole filled mcp_FileHandler]. apply (put_transfer_run i _ (slot_in f)).
Qed.
Lemma select_whole f n l : dropping = true -> select_file heap_left code (E f (Some (whole n l))) = select_file heap_left code (E f None).
Proof using Hk Hslots Hoff.
  intros Hd. pose proof (drop_whole f n l) as W. assert (N : drop_complete i (E f None) = Ok (tt, E f None)) by (by apply drop_run).
  pose proof Hk as K. unfold file_kinds in K.
  repeat (apply elem_of_cons in K as [[= Ec Ei En Ed]|K]; [
    try congruence; unfold select_file; rewrite Ec;
    repeat match goal with |- context [if ?a =? ?b then _ else _] => change (a =? b) with true || change (a =? b) with false end; cbv iota;
    rewrite <- Ei, (run_bind _ _ _ _ _ W), (run_bind _ _ _ _ _ N); done|]).
  by apply elem_of_nil in K.
Qed.
Lemma whole_dropped num data n l : dropping = true ->
  download_file (E (file_frame code num data) (Some (whole n l))) = download_file (E (file_frame code num data) None).
Proof using Hk Hslots Hoff.
  intros Hd. set (f := file_frame code num data). unfold mb_slave_download_file.
  assert (Rx : forall o, on_mb (rx 2) (E f o) = Ok (code, E f o)) by (intros o; apply on_mb_rx; cbn; lia).
  rewrite !(run_bind _ _ _ _ _ (Rx _)). unfold mbind at 1 3, M_bind at 1 3. by rewrite (select_whole f n l Hd).
Qed.
End kind.

Lemma assembles_run code i size dropping s r cs : (code, i, size, dropping) ∈ file_kinds ->
  length (gtv_ModbusFileTrans s) = 10%nat -> offline s -> zlookup (gtv_ModbusFileTrans s) i = Some None ->
  Forall (fun c => Forall byte_ok c /\ Z.of_nat (length c) < 2 ^ 16) cs -> Z.of_nat (length (concat cs)) <= size ->
  dropping = false \/ r (length cs - 1)%nat = 0%nat -> forall d, last cs = Some d ->
  deliver_all (frames_from code r 0 cs) s = Ok (replicate (length (frames_from code r 0 cs)) pdPASS,
    with_slot i (Some (whole size (length cs) (concat cs))) (received (file_frame code 0xFE d) s)).
Proof.
  intros Hk Hsl Ho H0 Hc Hs Hr d Hd. apply Forall_and in Hc as [Hb Hl]. destruct cs as [|c cs]; [done|].
  apply Forall_cons in Hb as [Hb Hbs]. apply Forall_cons in Hl as [Hl Hls]. cbn [concat] in *.
  pose proof (fun num Hf Hn => take_first code i size dropping Hk s Hsl Ho num c Hf Hb Hn Hl) as First.
  destruct cs as [|c' cs].
  - injection Hd as ->. cbn [frames_from concat length] in *. rewrite !app_nil_r in *. rewrite length_replicate.
    apply (repeats_run code i size dropping Hk s Hsl Ho); [by vm_compute|destruct Hr as [Hr|Hr]; [right; by left|by left]|done|].
    apply (deliver_first code i size dropping Hk s Hsl); [done|]. by apply First.
  - rewrite length_app in Hs. destruct (rest_run code i size dropping Hk s Hsl Ho r (c' :: cs) 0 c (file_frame code 1 c)) as (d' & Hd' & Ed); try done.
    { by rewrite length_app. }
    change (last (c :: c' :: cs)) with (last (c' :: cs)) in Hd. rewrite Hd in Hd'. injection Hd' as <-.
    change (frames_from code r 0 (c :: c' :: cs)) with (replicate (S (r 0%nat)) (file_frame code 1 c) ++ frames_from code r 1 (c' :: cs)).
    rewrite length_app, replicate_add, length_replicate. eapply deliver_all_app; [|exact Ed].
    apply (repeats_run code i size dropping Hk s Hsl Ho); [by vm_compute|auto|done|].
    apply (deliver_first code i size dropping Hk s Hsl); [done|]. apply First; [done|lia].
Qed.
(** C16: a file sent as numbered frames, where the numbers begin again after
    0xFD and every frame may be sent several times, is put together from its
    parts: all frames are acknowledged, and the file is the parts one after
    another and complete. Only the last frame of a program, data block or POU
    file must not be repeated. *)
Theorem download_assembles code i size dropping s r cs : (code, i, size, dropping) ∈ file_kinds ->
  length (gtv_ModbusFileTrans s) = 10%nat -> offline s -> zlookup (gtv_ModbusFileTrans s) i = Some None ->
  Forall (fun c => Forall byte_ok c /\ Z.of_nat (length c) < 2 ^ 16) cs -> Z.of_nat (length (concat cs)) <= size ->
  dropping = false \/ r (length cs - 1)%nat = 0%nat -> forall d, last cs = Some d ->
  deliver_all (frames_from code r 0 cs) s = Ok (replicate (length (frames_from code r 0 cs)) pdPASS,
    with_slot i (Some (whole size (length cs) (concat cs))) (received (file_frame code 0xFE d) s)).
Proof. exact (assembles_run code i size dropping s r cs). Qed.
(** C19: when the last frame of a program, of a data block or of a POU file is
    sent again, because its answer was lost, the complete file is dropped, and
    what is complete afterwards is the last part alone. *)
Theorem last_frame_repeated code i size s f n l data : (code, i, size, true) ∈ file_kinds ->
  length (gtv_ModbusFileTrans s) = 10%nat -> offline s -> Forall byte_ok data -> Z.of_nat (length data) <= size -> Z.of_nat (length data) < 2 ^ 16 ->
  let again := file_frame code 0xFE data in
  deliver again (with_slot i (Some (whole size n l)) (received f s)) = Ok (pdPASS, with_slot i (Some (whole size 1 data)) (received again s)).
Proof.
  intros Hk Hsl Ho Hd Hs Hl again. apply (deliver_run i s f again).
  unfold again. rewrite (whole_dropped code i size true Hk s Hsl Ho 0xFE data n l eq_refl).
  by apply (take_first code i size true Hk s Hsl Ho).
Qed.
End run.

(** ** A controller without files *)
Definition no_files : plc_user_file_ptr_st :=
  {| UCodePtr := Constant ucode_default; SysBlockPtr := Constant sysblock_default; NetcfgBlockPtr := Constant netcfg_default;
     DataBlockPtr := Constant datablock_default; PouInfoPtr := Constant pouinfo_default; GvtPtr := Constant gvt_default;
     PID1Ptr := InFlash 0x602FE000; PID2Ptr := InFlash 0x602FF000 |}.
Definition ctl_demo : ctl_st ram_chip :=
  {| mb := mb_demo []; pw := {| gtp_PasswordInfo := None; pw_flash := blank |}; gtv_ModbusFileTrans := replicate 10 None;
     gtv_UserFilePtrSt := no_files; lists := fun _ => empty_list; checker := comp0 []; forbidden_format := 0 |}.
Lemma download_assembles_witness :
  deliver_all 0 0 (fun _ => true) (fun _ => 0) (frames_from MB_DOWNLOAD_GVT (fun _ => 1%nat) 0 [[1; 2]; [3]]) ctl_demo
  = Ok ([pdPASS; pdPASS; pdPASS; pdPASS],
      with_slot MB_DL_GVT (Some (whole GVT_FILE_MAX_SIZE 2 [1; 2; 3])) (received (file_frame MB_DOWNLOAD_GVT 0xFE [3]) ctl_demo)).
Proof.
  refine (download_assembles 0 0 (fun _ => true) (fun _ => 0) MB_DOWNLOAD_GVT MB_DL_GVT GVT_FILE_MAX_SIZE false ctl_demo (fun _ => 1%nat) [[1; 2]; [3]]
    _ _ _ _ _ _ _ [3] _).
  - apply list_elem_of_In. cbn. tauto.
  - reflexivity.
  - reflexivity.
  - reflexivity.
  - repeat constructor; cbn; try discriminate; lia.
  - cbn. unfold GVT_FILE_MAX_SIZE. lia.
  - left. reflexivity.
  - reflexivity.
Defined.
Lemma last_frame_repeated_witness : let again := file_frame MB_DOWNLOAD_UCODE 0xFE [3] in
  deliver 0 0 (fun _ => true) (fun _ => 0) again (with_slot MB_DL_UCODE (Some (whole UCODE_FILE_MAX_SIZE 2 [1; 2; 3])) (received again ctl_demo))
  = Ok (pdPASS, with_slot MB_DL_UCODE (Some (whole UCODE_FILE_MAX_SIZE 1 [3])) (received again ctl_demo)).
Proof.
  refine (last_frame_repeated 0 0 (fun _ => true) (fun _ => 0) MB_DOWNLOAD_UCODE MB_DL_UCODE UCODE_FILE_MAX_SIZE ctl_demo _ 2 [1; 2; 3] [3] _ _ _ _ _ _).
  - apply list_elem_of_In. cbn. tauto.
  - reflexivity.
  - reflexivity.
  - repeat constructor; cbn; try discriminate; lia.
  - cbn. unfold UCODE_FILE_MAX_SIZE. lia.
  - cbn. lia.
Defined.
