(* ===== verification/StoreFacts.v ===== *)
(** * Facts about storing files

    The command that stores downloaded files leaves each in its partition, and
    the check after the next start takes it from there; a file that fills its
    partition costs the next one its first sector. Proved for any chip that
    obeys [NorLaws]. *)
From stdpp Require Import base list numbers.
From S2P Require Import Prelude Bytes Element Machine Verify Compiler MbSlave MbFacts Flash FlashFacts Password Service Download Control FileCheck DownloadFacts.

(** ** Files with their marks and their check sum *)
Inductive sum_kind : Set := Ccitt | Crc32.
Definition sum_of (k : sum_kind) (l : list Z) (n : Z) : option Z := match k with Ccitt => calc_ccitt l n | Crc32 => calc_crc32 l n end.
(** The bytes of the check sum and the mark behind it. *)
Definition tail_bytes (k : sum_kind) : Z := match k with Ccitt => 4 | Crc32 => 6 end.
Definition part_at (l : list Z) (i n : Z) : list Z := take (Z.to_nat n) (drop (Z.to_nat i) l).
Definition well_formed (k : sum_kind) (l : list Z) : bool :=
  let len := Z.of_nat (length l) in
  (10 <=? len) && (len <? 2 ^ 32 - 1) && (le_value (part_at l FILE_LEN_INFO_START_INDEX 4) =? len) && (le_value (part_at l 0 2) =? FILE_START_CHARACTER) &&
  (le_value (part_at l (len - 2) 2) =? FILE_TAIL_CHARACTER) &&
  match sum_of k (part_at l 0 (len - tail_bytes k)) (len - tail_bytes k) with
  | Some c => c =? big_value (part_at l (len - tail_bytes k) (tail_bytes k - 2))
  | None => false
  end.

Section store.
Context {F : Type} `{!NorFlash F} `{!NorLaws F}.
Notation st := (ctl_st F).
Implicit Types (s : st).
Definition summing (k : sum_kind) : file_ptr -> Z -> M st bool := match k with Ccitt => sum_ccitt | Crc32 => sum_crc32 end.

(** ** The check of a file in the flash *)
Section in_flash.
Context (s : st) (a : Z) (l : list Z).
Hypothesis (Ha : FlexSPI_AMBA_BASE <= a) (Hend : a + Z.of_nat (length l) <= FLASH_END) (Hm : mem_bytes s a (Z.of_nat (length l)) = l).
Lemma mem_bytes_part i n : 0 <= i -> 0 <= n -> i + n <= Z.of_nat (length l) -> mem_bytes s (a + i) n = part_at l i n.
Proof using Hm.
  intros Hi Hn Hl. transitivity (part_at (mem_bytes s a (Z.of_nat (length l))) i n); [|by rewrite Hm]. unfold part_at, mem_bytes. rewrite <- fmap_drop, <- fmap_take.
  apply list_eq. intros k. rewrite !list_lookup_fmap. destruct (decide (k < Z.to_nat n)%nat) as [K|K].
  - rewrite lookup_take, decide_True by lia. rewrite lookup_drop, !(proj2 (lookup_seqZ _ _ _ _)) by (split; [reflexivity|lia]).
    cbn. do 2 f_equal. lia.
  - rewrite lookup_seqZ_ge by lia. rewrite lookup_take_ge by lia. done.
Qed.
Lemma file_bytes_flash i n : 0 <= i -> 0 <= n -> i + n <= Z.of_nat (length l) -> file_bytes (InFlash a) i n s = Ok (part_at l i n, s).
Proof using Ha Hend Hm.
  intros Hi Hn Hl. unfold file_bytes. rewrite (proj2 (andb_true_iff _ _)) by (rewrite andb_true_iff, !Z.leb_le; lia).
  unfold gets. by rewrite mem_bytes_part.
Qed.
Lemma value_flash i n : 0 <= i -> 0 <= n -> i + n <= Z.of_nat (length l) ->
  (b ← file_bytes (InFlash a) i n; mret (le_value b)) s = Ok (le_value (part_at l i n), s).
Proof using Ha Hend Hm. intros Hi Hn Hl. by rewrite (run_bind _ _ _ _ _ (file_bytes_flash i n Hi Hn Hl)). Qed.
Lemma judge_flash k : well_formed k l = true -> judge (summing k) (InFlash a) s = Ok (Good, s).
Proof using Ha Hend Hm.
  unfold well_formed. rewrite !andb_true_iff. intros [[[[[L1 L2] L3] L4] L5] L6]. apply Z.leb_le in L1. apply Z.ltb_lt in L2. apply Z.eqb_eq in L3.
  set (len := Z.of_nat (length l)) in *. unfold judge, file_length, file_u16, FILE_LEN_INFO_START_INDEX in *.
  rewrite (run_bind _ _ _ _ _ (value_flash 6 4 ltac:(lia) ltac:(lia) ltac:(lia))), L3. rewrite (proj2 (Z.eqb_neq len 0xFFFFFFFF)) by lia.
  rewrite (run_bind _ _ _ _ _ (value_flash 0 2 ltac:(lia) ltac:(lia) ltac:(lia))), L4. cbn [negb].
  rewrite (run_bind _ _ _ _ _ (value_flash (len - 2) 2 ltac:(lia) ltac:(lia) ltac:(lia))), L5. cbn [negb].
  destruct (sum_of k _ _) as [c|] eqn:Ec in L6; [|done]. 
  assert (Hs : summing k (InFlash a) len s = Ok (true, s)); [|by rewrite (run_bind _ _ _ _ _ Hs)].
  destruct k; cbn [summing sum_of tail_bytes] in *; unfold sum_ccitt, sum_crc32; rewrite u32_id by lia.
  - rewrite (run_bind _ _ _ _ _ (file_bytes_flash 0 (len - 4) ltac:(lia) ltac:(lia) ltac:(lia))), (run_some _ c) by done.
    rewrite (run_bind _ _ _ _ _ (file_bytes_flash (len - 4) 2 ltac:(lia) ltac:(lia) ltac:(lia))). change (4 - 2) with 2 in L6. by rewrite L6.
  - rewrite (run_bind _ _ _ _ _ (file_bytes_flash 0 (len - 6) ltac:(lia) ltac:(lia) ltac:(lia))), (run_some _ c) by done.
    rewrite (run_bind _ _ _ _ _ (file_bytes_flash (len - 6) 4 ltac:(lia) ltac:(lia) ltac:(lia))). change (6 - 2) with 4 in L6. by rewrite L6.
Qed.
End in_flash.

(** ** Storing one file *)
Context (mlv_DeviceTypeId : Z) (store_upgrade : mb_file_trans_st -> M st unit).
Notation programme_file := (programme_file mlv_DeviceTypeId store_upgrade).
Lemma kind_area code i size dropping : (code, i, size, dropping) ∈ file_kinds -> exists addr, zlookup ltv_FlashPartInfo i = Some (addr, size) /\
  (addr - FlexSPI_AMBA_BASE) mod SECTOR_SIZE = 0 /\ FlexSPI_AMBA_BASE <= addr /\ addr + size <= 0x60300000 /\ size mod SECTOR_SIZE = 0 /\
  0 <= i < 10 /\ i <> MB_DL_SYS_UPGRADE /\ i <> MB_DL_PLC_CBIN.
Proof using.
  clear. intros K. unfold file_kinds in K.
  repeat (apply elem_of_cons in K as [[= -> -> -> ->]|K]; [eexists; split; [reflexivity|]; by vm_compute|]). by apply elem_of_nil in K.
Qed.
(** The area erased for [n] bytes; whole sectors and one more. *)
Definition erased_size (n : Z) : Z := SECTOR_SIZE * (n / SECTOR_SIZE + 1).
Lemma erased_size_bounds n : 0 <= n -> n < erased_size n <= n + SECTOR_SIZE /\ sectors (erased_size n) = erased_size n.
Proof using. clear. unfold erased_size, sectors, SECTOR_SIZE, MFLASH_SECTOR_SIZE. intros Hn. Z.to_euclidean_division_equations; lia. Qed.
Section slot.
Context (s : st) (i addr size : Z) (n : nat) (l : list Z).
Hypothesis (Hi : 0 <= i < Z.of_nat (length (gtv_ModbusFileTrans s))) (Hf : i <> MB_DL_SYS_UPGRADE) (Hc : i <> MB_DL_PLC_CBIN).
Hypothesis (Hp : zlookup ltv_FlashPartInfo i = Some (addr, size)) (Ha : (addr - FlexSPI_AMBA_BASE) mod SECTOR_SIZE = 0) (H0 : FlexSPI_AMBA_BASE <= addr).
Hypothesis (Hb : Forall byte_ok l) (Hl : 10 <= Z.of_nat (length l) <= size) (Hlen : le_value (part_at l FILE_LEN_INFO_START_INDEX 4) = Z.of_nat (length l)).
Hypothesis (He : addr + erased_size (Z.of_nat (length l)) <= 0x60300000).
Notation E o := (with_slot i o s).
Lemma stored_run : exists g, programme_file i (E (Some (whole size n l))) = Ok (true, set_nor g (E None)) /\
  forall x, mem_byte (set_nor g s) x = if decide (addr <= x < addr + Z.of_nat (length l)) then byte_at l (x - addr)
    else if decide (addr <= x < addr + erased_size (Z.of_nat (length l))) then 0xFF else mem_byte s x.
Proof.
  set (len := Z.of_nat (length l)) in *. set (s1 := E (Some (whole size n l))). destruct (erased_size_bounds len ltac:(lia)) as [Hz Hs].
  destruct (store_area_bytes addr (erased_size len) l len s1 Ha H0 He ltac:(lia) ltac:(lia) Hb) as (f & Ef & g & Eg & B). rewrite Hs in B.
  exists g. split; [|exact B]. unfold Control.programme_file, s1.
  rewrite (run_bind _ _ _ _ _ (transfer_run i s Hi _)). cbn [whole filled mcv_Flag].
  assert (truthy (Z.land (Z.lor (turned (n - 1)) 2) 2) = true) as -> by (by destruct (turned_cases (n - 1)) as [-> | ->]).
  rewrite (proj2 (Z.eqb_neq _ _) Hf), (proj2 (Z.eqb_neq _ _) Hc). unfold store_file. cbn [mcp_FileHandler mlv_FileLen].
  assert (FB : forall j m t, 0 <= j -> 0 <= m -> j + m <= len -> file_bytes (Buffer size l) j m t = Ok (part_at l j m, t)).
  { intros j m t Hj Hm Hjm. unfold file_bytes. by rewrite (proj2 (andb_true_iff _ _)) by (rewrite andb_true_iff, !Z.leb_le; lia). }
  assert (FL : file_length (Buffer size l) FILE_LEN_INFO_START_INDEX s1 = Ok (len, s1)).
  { unfold file_length. rewrite (run_bind _ _ _ _ _ (FB FILE_LEN_INFO_START_INDEX 4 s1 ltac:(unfold FILE_LEN_INFO_START_INDEX; lia) ltac:(lia) ltac:(unfold FILE_LEN_INFO_START_INDEX; lia))). by rewrite Hlen. }
  rewrite (run_bind _ _ _ _ _ FL). unfold part_of. rewrite (run_some _ (addr, size)) by done. cbn [fst snd].
  rewrite (proj2 (Z.ltb_ge _ _)) by lia. rewrite (run_bind _ _ _ _ _ Ef).
  assert (W : write_file (Buffer size l) 0 addr len (set_nor f s1) = Ok (tt, set_nor g s1)).
  { unfold write_file. rewrite (run_bind _ _ _ _ _ (FB 0 len _ ltac:(lia) ltac:(lia) ltac:(lia))).
    assert (part_at l 0 len = l) as -> by (unfold part_at, len; rewrite Nat2Z.id, drop_0; by apply take_ge). by rewrite (run_bind _ _ _ _ _ Eg). }
  rewrite (run_bind _ _ _ _ _ W). unfold free_file. change (set_nor g s1) with (with_slot i (Some (whole size n l)) (set_nor g s)).
  rewrite (run_bind (file_of i ≫= _) _ _ (with_slot i None (set_nor g s)) tt); [done|].
  assert (Hi' : 0 <= i < Z.of_nat (length (gtv_ModbusFileTrans (set_nor g s)))) by exact Hi.
  rewrite (run_bind _ _ _ _ _ (file_run i (set_nor g s) Hi' _)). cbn [whole filled mcp_FileHandler]. apply (put_transfer_run i (set_nor g s) Hi').
Qed.
End slot.

(** ** The command that stores all files *)
Notation programme_cmd := (mb_slave_ctrl_programme_cmd mlv_DeviceTypeId store_upgrade).
Lemma while_split f a b : forall j s s1 r, for_while a j f s = Ok (true, s1) -> for_while b (j + Z.of_nat a) f s1 = r -> for_while (a + b) j f s = r.
Proof using.
  clear. induction a as [|a IH]; intros j s s1 r E1 E2; cbn [for_while Nat.add].
  - injection E1 as ->. by rewrite Z.add_0_r in E2.
  - cbn [for_while] in E1. apply bind_inv in E1 as (ok & t & E1 & E3). rewrite (run_bind _ _ _ _ _ E1). destruct ok; [|discriminate E3].
    apply (IH _ _ s1 _ E3). by replace (j + 1 + Z.of_nat a) with (j + Z.of_nat (S a)) by lia.
Qed.
Lemma no_file_run i s : zlookup (gtv_ModbusFileTrans s) i = Some None -> programme_file i s = Ok (true, s).
Proof using.
  clear. intros H. unfold Control.programme_file. rewrite (run_bind (transfer i) _ s s None); [done|]. unfold transfer. rewrite run_gets. by rewrite H.
Qed.
Lemma no_files_run n : forall j s, (forall x, j <= x < j + Z.of_nat n -> zlookup (gtv_ModbusFileTrans s) x = Some None) ->
  for_while n j programme_file s = Ok (true, s).
Proof using.
  clear. induction n as [|n IH]; intros j s H; cbn [for_while]; [done|]. rewrite (run_bind _ _ _ _ _ (no_file_run j s (H j ltac:(lia)))).
  apply IH. intros x Hx. apply H. lia.
Qed.
Lemma one_file_run i s s1 : 0 <= i < 10 -> (forall x, 0 <= x < 10 -> x <> i -> zlookup (gtv_ModbusFileTrans s) x = Some None) ->
  programme_file i s = Ok (true, s1) -> gtv_ModbusFileTrans s1 = replicate 10 None -> for_while 10 0 programme_file s = Ok (true, s1).
Proof using.
  clear. intros Hi Hs H1 Hr. replace 10%nat with (Z.to_nat i + (1 + Z.to_nat (9 - i)))%nat by lia.
  apply while_split with s; [apply no_files_run; intros x Hx; apply Hs; lia|].
  apply while_split with s1.
  - cbn [for_while]. rewrite Z.add_0_l, Z2Nat.id by lia. by rewrite (run_bind _ _ _ _ _ H1).
  - apply no_files_run. intros x Hx. rewrite Hr. apply zlookup_Some. split; [lia|]. apply lookup_replicate. split; [done|lia].
Qed.
(** The message can be answered: it has a channel, its first three bytes, and
    room for the answer. *)
Definition can_answer (m : mb_st) : Prop :=
  has_channel (msg m) /\ Forall byte_ok (tx_buf m) /\ 5 <= Z.of_nat (length (tx_buf m)) /\ 3 <= Z.of_nat (length (rx_buf m)).
Lemma ctrl_answer_run s : can_answer (mb s) -> exists v, ctrl_answer s = Ok (tt, with_mb v s).
Proof using.
  clear. intros (C & B & T & R). destruct (copy_request_run 3 0 (mb s)) as (l & E & L & Bl); [lia..|].
  assert (Bt : Forall byte_ok l).
  { apply Forall_lookup. intros j x Hj. assert (Ej : byte_at l (Z.of_nat j) = x) by (unfold byte_at, zlookup; rewrite decide_True by lia; rewrite Nat2Z.id, Hj; done).
    rewrite <- Ej, Bl. case_decide; [apply u8_range|]. unfold byte_at, zlookup. rewrite decide_True by lia. rewrite Nat2Z.id. 
    destruct (tx_buf (mb s) !! j) as [y|] eqn:Ey; [exact (Forall_lookup_1 _ _ _ _ B Ey)|]. apply lookup_ge_None in Ey. apply lookup_lt_Some in Hj. lia. }
  pose proof (answer_run 3 (with_tx l (mb s)) C) as A. rewrite tx_with_tx in A. eexists. unfold ctrl_answer, on_mb. rewrite (run_bind _ _ _ _ _ E), A; [reflexivity|done|lia|lia|lia].
Qed.

(** ** The checks after the start *)
(** Place, partition and check of the files that are checked. *)
Definition file_checks : list (Z * Z * sum_kind * (Z -> M st unit)) :=
  [(MB_DL_UCODE, UCODE_START_PAGE, Ccitt, plc_ucode_verify); (MB_DL_SYS_BLOCK, SYS_BLOCK_START_PAGE, Ccitt, plc_system_block_verify);
   (MB_DL_DATA_BLOCK, DATA_BLOCK_START_PAGE, Ccitt, plc_data_block_verify); (MB_DL_POU_INFO, POU_FILE_START_PAGE, Ccitt, plc_pou_info_verify);
   (MB_DL_GVT, GVT_FILE_START_PAGE, Ccitt, plc_gvt_verify); (MB_DL_NETCFG, DEV_NETWORK_INFO_START_FLASH_PAGE, Crc32, plc_netcfg_block_verify)].
Lemma verify_run k page i default empty bad good part l s v : bsp_get_flash_info page = Some part -> FlexSPI_AMBA_BASE <= startAddr part ->
  startAddr part + Z.of_nat (length l) <= FLASH_END -> mem_bytes s (startAddr part) (Z.of_nat (length l)) = l -> well_formed k l = true ->
  good s = Ok (tt, with_mb v s) ->
  verify (summing k) page i default empty bad good s
  = Ok (tt, with_UserFilePtr (with_ptr i (InFlash (startAddr part)) (gtv_UserFilePtrSt s)) (with_mb v s)).
Proof using.
  intros Hp H0 H1 Hm Hw Hg. unfold verify. rewrite Hp. rewrite (run_bind _ _ _ _ _ (judge_flash s (startAddr part) l H0 H1 Hm k Hw)).
  by rewrite (run_bind _ _ _ _ _ Hg).
Qed.
Lemma check_run i page k check flag l s part : (i, page, k, check) ∈ file_checks -> bsp_get_flash_info page = Some part -> FlexSPI_AMBA_BASE <= startAddr part ->
  startAddr part + Z.of_nat (length l) <= FLASH_END -> mem_bytes s (startAddr part) (Z.of_nat (length l)) = l -> well_formed k l = true ->
  exists v, check flag s = Ok (tt, with_UserFilePtr (with_ptr i (InFlash (startAddr part)) (gtv_UserFilePtrSt s)) (with_mb v s)).
Proof using.
  intros K Hp H0 H1 Hm Hw. unfold file_checks in K.
  repeat (apply elem_of_cons in K as [[= -> -> -> ->]|K]; [eexists; (unfold plc_netcfg_block_verify; rewrite Hp || idtac); exact (verify_run _ _ _ _ _ _ _ _ l s _ Hp H0 H1 Hm Hw eq_refl)|]).
  by apply elem_of_nil in K.
Qed.
Lemma check_area i page k check : (i, page, k, check) ∈ file_checks -> exists part size, bsp_get_flash_info page = Some part /\
  zlookup ltv_FlashPartInfo i = Some (startAddr part, size) /\ (forall h p, ptr_of i (with_ptr i h p) = Some h).
Proof using.
  clear. intros K. unfold file_checks in K.
  repeat (apply elem_of_cons in K as [[= -> -> -> ->]|K]; [do 2 eexists; split; [reflexivity|]; split; [reflexivity|]; reflexivity|]). by apply elem_of_nil in K.
Qed.

(** ** From the download to the next start *)
Context (fuel : nat) (load : Z) (pvPortMalloc : comp_st -> bool) (heap_left : st -> Z).
Lemma slots_one s i o x : gtv_ModbusFileTrans s = replicate 10 None -> 0 <= i < 10 -> 0 <= x < 10 -> x <> i ->
  zlookup (gtv_ModbusFileTrans (with_slot i o s)) x = Some None.
Proof using.
  clear. intros E Hi Hx Hn. apply zlookup_Some. split; [lia|]. cbn. rewrite E, list_lookup_insert_ne by lia. apply lookup_replicate. split; [done|lia].
Qed.
Lemma programmed_run i addr size n l s : gtv_ModbusFileTrans s = replicate 10 None -> 0 <= i < 10 -> i <> MB_DL_SYS_UPGRADE -> i <> MB_DL_PLC_CBIN ->
  zlookup ltv_FlashPartInfo i = Some (addr, size) -> (addr - FlexSPI_AMBA_BASE) mod SECTOR_SIZE = 0 -> FlexSPI_AMBA_BASE <= addr ->
  Forall byte_ok l -> 10 <= Z.of_nat (length l) <= size -> le_value (part_at l FILE_LEN_INFO_START_INDEX 4) = Z.of_nat (length l) ->
  addr + erased_size (Z.of_nat (length l)) <= 0x60300000 -> can_answer (mb s) -> exists g v,
  programme_cmd (with_slot i (Some (whole size n l)) s) = Ok (tt, with_mb v (set_nor g s)) /\
  forall x, mem_byte (set_nor g s) x = if decide (addr <= x < addr + Z.of_nat (length l)) then byte_at l (x - addr)
    else if decide (addr <= x < addr + erased_size (Z.of_nat (length l))) then 0xFF else mem_byte s x.
Proof using NorLaws0.
  intros E Hi Hu Hc Hp Ha H0 Hb Hl Hlen He Hans.
  destruct (stored_run s i addr size n l) as (g & Eg & B); try done; [by rewrite E|].
  assert (N : with_slot i None s = s).
  { unfold with_slot. rewrite list_insert_id; [apply with_trans_id|]. rewrite E. apply lookup_replicate. split; [done|lia]. }
  rewrite N in Eg. assert (Hans' : can_answer (mb (set_nor g s))) by exact Hans. destruct (ctrl_answer_run _ Hans') as (v & Ev). exists g, v. split; [|exact B].
  unfold mb_slave_ctrl_programme_cmd. change (Z.to_nat MB_DL_MAX) with 10%nat.
  rewrite (run_bind _ _ _ _ _ (one_file_run i _ _ Hi (fun x => slots_one s i _ x E Hi) Eg E)). exact Ev.
Qed.
(** C15: a file that is downloaded, stored and checked at the next start is
    the one the controller uses: its pointer leads to the partition, which
    holds the file byte for byte, and no byte outside the partition changes. *)
Theorem downloaded_file_is_used code i size dropping page k check flag part s r cs f :
  (code, i, size, dropping) ∈ file_kinds -> (i, page, k, check) ∈ file_checks -> bsp_get_flash_info page = Some part ->
  gtv_ModbusFileTrans s = replicate 10 None -> offline s -> can_answer (mb (received f s)) ->
  cs <> [] -> Forall (fun c => Forall byte_ok c /\ Z.of_nat (length c) < 2 ^ 16) cs -> dropping = false \/ r (length cs - 1)%nat = 0%nat ->
  well_formed k (concat cs) = true -> Z.of_nat (length (concat cs)) < size -> exists s',
  (deliver_all fuel load pvPortMalloc heap_left (frames_from code r 0 cs);; modify (received f);; programme_cmd;; check flag) s = Ok (tt, s') /\
  ptr_of i (gtv_UserFilePtrSt s') = Some (InFlash (startAddr part)) /\ mem_bytes s' (startAddr part) (Z.of_nat (length (concat cs))) = concat cs /\
  forall x, ~ startAddr part <= x < startAddr part + size -> mem_byte s' x = mem_byte s x.
Proof using NorLaws0.
  intros Hk Hc Hp E Ho Hans Hne Hcs Hr Hw Hl. destruct (last cs) as [d|] eqn:Ed; [|by apply last_None in Ed].
  destruct (kind_area _ _ _ _ Hk) as (addr & Ha & A1 & A2 & A3 & A4 & Hi & Hu & Hb).
  destruct (check_area _ _ _ _ Hc) as (part' & size' & Hp' & Ha' & Hptr). rewrite Hp in Hp'. injection Hp' as <-. rewrite Ha in Ha'. injection Ha' as -> <-.
  assert (Hby : Forall byte_ok (concat cs)) by (apply Forall_concat; eapply Forall_impl; [exact Hcs|by intros ? []]).
  set (l := concat cs) in *. pose proof Hw as W. unfold well_formed in W. rewrite !andb_true_iff in W. destruct W as [[[[[W1 W2] W3] _] _] _].
  apply Z.leb_le in W1. apply Z.eqb_eq in W3. destruct (erased_size_bounds (Z.of_nat (length l)) ltac:(lia)) as [Z1 _].
  assert (Z2 : erased_size (Z.of_nat (length l)) <= size).
  { unfold erased_size, SECTOR_SIZE, MFLASH_SECTOR_SIZE in *. clear - A4 Hl W1. Z.to_euclidean_division_equations; lia. }
  destruct (programmed_run i (startAddr part) size (length cs) l (received f s)) as (g & v & Eg & B); try done; [lia..|].
  assert (D := assembles_run fuel load pvPortMalloc heap_left code i size dropping s r cs Hk ltac:(by rewrite E) Ho
    ltac:(rewrite E; apply zlookup_Some; split; [lia|]; apply lookup_replicate; split; [done|lia]) Hcs (Z.lt_le_incl _ _ Hl) Hr d Ed).
  rewrite (run_bind _ _ _ _ _ D). rewrite (run_bind (modify (received f)) _ _ (with_slot i (Some (whole size (length cs) l)) (received f s)) tt) by done.
  rewrite (run_bind _ _ _ _ _ Eg). set (s2 := with_mb v (set_nor g (received f s))) in *.
  assert (Hm : mem_bytes s2 (startAddr part) (Z.of_nat (length l)) = l).
  { apply mem_bytes_list. intros x Hx. change (mem_byte s2) with (mem_byte (set_nor g (received f s))). rewrite B, decide_True by lia. f_equal. lia. }
  destruct (check_run i page k check flag l s2 part Hc Hp A2 ltac:(unfold FLASH_END, FlexSPI_AMBA_BASE; lia) Hm Hw) as (v' & Ev).
  eexists. split; [exact Ev|]. split; [apply Hptr|]. split; [exact Hm|]. intros x Hx.
  change (mem_byte (set_nor g (received f s)) x = mem_byte (received f s) x). rewrite B, !decide_False by lia. done.
Qed.
(** C20: a file that fills its partition costs the partition behind it its
    first sector, because one sector too many is erased. *)
Theorem full_file_erases_next s n l : gtv_ModbusFileTrans s = replicate 10 None -> can_answer (mb s) -> Forall byte_ok l ->
  Z.of_nat (length l) = POU_FILE_MAX_SIZE -> le_value (part_at l FILE_LEN_INFO_START_INDEX 4) = POU_FILE_MAX_SIZE -> exists s' part,
  programme_cmd (with_slot MB_DL_POU_INFO (Some (whole POU_FILE_MAX_SIZE n l)) s) = Ok (tt, s') /\
  bsp_get_flash_info GVT_FILE_START_PAGE = Some part /\ mem_bytes s' (startAddr part) SECTOR_SIZE = replicate (Z.to_nat SECTOR_SIZE) 0xFF.
Proof using NorLaws0.
  intros E Hans Hb Hl Hlen. destruct (programmed_run MB_DL_POU_INFO 0x60208000 POU_FILE_MAX_SIZE n l s) as (g & v & Eg & B); try done; try by rewrite Hl.
  exists (with_mb v (set_nor g s)), (part 0x98 0x6020C000 0x6020FFFF). split; [exact Eg|]. split; [done|].
  replace SECTOR_SIZE with (Z.of_nat (length (replicate (Z.to_nat SECTOR_SIZE) 0xFF))) at 1 by (rewrite length_replicate; done).
  apply mem_bytes_list. intros x Hx. change (mem_byte (set_nor g s) (0x6020C000 + x) = byte_at (replicate (Z.to_nat SECTOR_SIZE) 0xFF) x).
  rewrite length_replicate in Hx. rewrite B, Hl. change (erased_size POU_FILE_MAX_SIZE) with 20480. change (Z.of_nat (Z.to_nat SECTOR_SIZE)) with 4096 in Hx.
  unfold POU_FILE_MAX_SIZE. rewrite decide_False, decide_True by lia. unfold byte_at, zlookup. rewrite decide_True by lia.
  rewrite lookup_replicate_2; [done|]. change SECTOR_SIZE with 4096. lia.
Qed.
End store.

(** ** A small file *)
Definition gvt_file : list Z := [0xAA; 0xAA; 0; 3; 0; 2; 14; 0; 0; 0; 0x80; 0x75; 0x55; 0x55].
Lemma downloaded_file_is_used_witness : exists s',
  (deliver_all 0 0 (fun _ => true) (fun _ => 0) (frames_from MB_DOWNLOAD_GVT (fun _ => 1%nat) 0 [gvt_file]);; modify (received [1; 0x6A; 0x12; 0; 0]);;
    mb_slave_ctrl_programme_cmd 0 (fun _ => mret tt);; plc_gvt_verify 1) ctl_demo = Ok (tt, s') /\
  ptr_of MB_DL_GVT (gtv_UserFilePtrSt s') = Some (InFlash 0x6020C000) /\ mem_bytes s' 0x6020C000 14 = gvt_file /\
  forall x, ~ 0x6020C000 <= x < 0x6020C000 + GVT_FILE_MAX_SIZE -> mem_byte s' x = mem_byte ctl_demo x.
Proof.
  refine (downloaded_file_is_used 0 (fun _ => mret tt) 0 0 (fun _ => true) (fun _ => 0) MB_DOWNLOAD_GVT MB_DL_GVT GVT_FILE_MAX_SIZE false GVT_FILE_START_PAGE Ccitt
    plc_gvt_verify 1 (part 0x98 0x6020C000 0x6020FFFF) ctl_demo (fun _ => 1%nat) [gvt_file] [1; 0x6A; 0x12; 0; 0] _ _ _ _ _ _ _ _ _ _ _).
  - apply list_elem_of_In. cbn. tauto.
  - apply list_elem_of_In. cbn. tauto.
  - reflexivity.
  - reflexivity.
  - reflexivity.
  - split; [discriminate|]. split; [apply Forall_replicate; unfold byte_ok; lia|]. split; cbn; lia.
  - discriminate.
  - repeat constructor; cbn; try discriminate; lia.
  - left. reflexivity.
  - vm_compute. reflexivity.
  - cbn. unfold GVT_FILE_MAX_SIZE. lia.
Defined.
Definition pou_file : list Z := [0xAA; 0xAA; 0; 2; 0; 1; 0; 0x40; 0; 0] ++ replicate (Z.to_nat (POU_FILE_MAX_SIZE - 10)) 0.
Lemma full_file_erases_next_witness : exists s' p,
  mb_slave_ctrl_programme_cmd 0 (fun _ => mret tt) (with_slot MB_DL_POU_INFO (Some (whole POU_FILE_MAX_SIZE 17 pou_file)) (received [1; 0x6A; 0x12; 0; 0] ctl_demo)) = Ok (tt, s') /\
  bsp_get_flash_info GVT_FILE_START_PAGE = Some p /\ mem_bytes s' (startAddr p) SECTOR_SIZE = replicate (Z.to_nat SECTOR_SIZE) 0xFF.
Proof.
  refine (full_file_erases_next 0 (fun _ => mret tt) (received [1; 0x6A; 0x12; 0; 0] ctl_demo) 17 pou_file _ _ _ _ _).
  - reflexivity.
  - split; [discriminate|]. split; [apply Forall_replicate; unfold byte_ok; lia|]. split; cbn; lia.
  - apply Forall_app. split; [repeat constructor; cbn; try discriminate; lia|apply Forall_replicate; unfold byte_ok; lia].
  - vm_compute. reflexivity.
  - vm_compute. reflexivity.
Defined.
