(* ===== verification/UploadFacts.v ===== *)
(** * Facts about uploads

    The blocks a file is sent in are the file. *)
From stdpp Require Import base list numbers.
From S2P Require Import Prelude Bytes Element Machine Verify MbSlave MbFacts Flash FlashFacts Password Service Download Upload DownloadFacts StoreFacts.

(** ** Bytes put one behind the other *)
Lemma insert_next {A} (a b : list A) (x y : A) : <[length a := y]> (a ++ x :: b) = (a ++ [y]) ++ b.
Proof. rewrite insert_app_r_alt by lia. by rewrite Nat.sub_diag, <- app_assoc. Qed.
Lemma put_next (a b : list Z) (x v : Z) m : tx_buf m = a ++ x :: b -> byte_ok v -> put_tx (Z.of_nat (length a)) v m = Ok (tt, with_tx ((a ++ [v]) ++ b) m).
Proof.
  intros E Hv. rewrite put_tx_run by (rewrite E, length_app; cbn; lia). unfold byte_ok, byte in Hv. by rewrite E, Nat2Z.id, insert_next, u8_id by lia.
Qed.
(** The bytes that [get] reads, from place [j] on, are [l]. *)
Lemma put_all (get : Z -> Mb Z) (k : Z) l : Forall byte_ok l -> forall j (a b : list Z) m, tx_buf m = a ++ b -> Z.of_nat (length a) = k + j -> (length l <= length b)%nat ->
  (forall x t, 0 <= x < Z.of_nat (length l) -> get (j + x) (with_tx t m) = Ok (byte_at l x, with_tx t m)) ->
  for_up (length l) j (fun j => v ← get j; put_tx (k + j) v) m = Ok (tt, with_tx (a ++ l ++ drop (length l) b) m).
Proof.
  induction 1 as [|v l Hv Hl IH]; intros j a b m E La Lb Hg; cbn [length for_up].
  - rewrite drop_0. cbn [app]. by rewrite <- E, with_tx_id.
  - destruct b as [|x b]; cbn [length] in *; [lia|]. pose proof (Hg 0 (tx_buf m) ltac:(lia)) as G. rewrite with_tx_id, Z.add_0_r in G.
    change (byte_at (v :: l) 0) with v in G.
    assert (S1 : (v ← get j; put_tx (k + j) v) m = Ok (tt, with_tx ((a ++ [v]) ++ b) m)).
    { rewrite (run_bind _ _ _ _ _ G), <- La. by apply (put_next a b x). }
    rewrite (run_bind _ _ _ _ _ S1). rewrite (IH (j + 1) (a ++ [v]) b); [by rewrite with_tx_twice, <- app_assoc|apply tx_with_tx|rewrite length_app; cbn; lia|lia|].
    intros y t Hy. rewrite with_tx_twice. pose proof (Hg (y + 1) t ltac:(lia)) as Gy. replace (j + (y + 1)) with (j + 1 + y) in Gy by lia. rewrite Gy.
    do 2 f_equal. change (v :: l) with ([v] ++ l). replace (y + 1) with (Z.of_nat (length [v]) + y) by (cbn; lia). by apply byte_app_r; lia.
Qed.
Lemma byte_zlookup (l : list Z) x : 0 <= x < Z.of_nat (length l) -> zlookup l x = Some (byte_at l x).
Proof.
  intros Hx. unfold byte_at, zlookup. rewrite decide_True by lia. destruct (lookup_lt_is_Some_2 l (Z.to_nat x) ltac:(lia)) as [y ->]. done.
Qed.
Lemma copy_head n (q r b : list Z) m : Forall byte_ok q -> rx_buf m = q ++ r -> n = length q -> (n <= length (tx_buf m))%nat ->
  copy_request n 0 m = Ok (tt, with_tx (q ++ drop n (tx_buf m)) m).
Proof.
  intros Hq Er -> Ht. unfold copy_request. apply (put_all rx 0 q Hq 0 [] (tx_buf m) m); [done|done|done|].
  intros x t Hx. rewrite Z.add_0_l, rx_run by (rewrite rx_with_tx, Er, length_app; lia). rewrite rx_with_tx, Er. by rewrite byte_app_l by lia.
Qed.

(** ** A file behind a pointer *)
Section upload.
Context {F : Type} `{!NorFlash F}.
Notation st := (ctl_st F).
Implicit Types (s : st) (m : mb_st).
Definition reads (h : file_ptr) (l : list Z) s : Prop := forall i n, 0 <= i -> 0 <= n -> i + n <= Z.of_nat (length l) -> file_bytes h i n s = Ok (part_at l i n, s).
(** The upload of one file, while the rest of the controller stays [s]. *)
Section file.
Context (code i : Z) (h : file_ptr) (l : list Z) (s : st).
Notation len := (Z.of_nat (length l)).
Notation T m o := (with_slot i o (with_mb m s)).
Hypothesis (Hcode : upload_slot code = Some i) (Hslots : length (gtv_ModbusFileTrans s) = 10%nat) (Hptr : upload_ptr i s = Ok (h, s)) (Hr : reads h l s).
Hypothesis (Hlen : le_value (part_at l FILE_LEN_INFO_START_INDEX 4) = len) (Hsize : 10 <= len <= 256 * MAX_UPLOAD_FILE_LENGTH) (Hb : Forall byte_ok l).
Lemma slot_of_code : 0 <= i < 10 /\ mb_slave_free_upload_file_handle (F:=F) code = put_transfer i None.
Proof using Hcode.
  clear - Hcode. unfold mb_slave_free_upload_file_handle. rewrite Hcode. split; [|done]. unfold upload_slot in Hcode.
  repeat match type of Hcode with (if ?b then _ else _) = _ => destruct b; [injection Hcode as <-; by vm_compute|] end. done.
Qed.
Lemma slot_here m : 0 <= i < Z.of_nat (length (gtv_ModbusFileTrans (with_mb m s))).
Proof using Hcode Hslots. change (gtv_ModbusFileTrans (with_mb m s)) with (gtv_ModbusFileTrans s). rewrite Hslots. apply slot_of_code. Qed.
Lemma reads_here m o : reads h l (T m o).
Proof using Hr.
  clear - Hr. intros j n Hj Hn Hl. pose proof (Hr j n Hj Hn Hl) as E. unfold file_bytes in *. destruct h.
  - destruct (_ && _); [|discriminate]. injection E as E. unfold gets. f_equal. f_equal. exact E.
  - destruct (_ && _); [|discriminate]. injection E as E. by rewrite E.
  - destruct (_ && _); [|discriminate]. injection E as E. by rewrite E.
Qed.
Lemma ptr_here m o : upload_ptr i (T m o) = Ok (h, T m o).
Proof using Hptr.
  clear - Hptr. unfold upload_ptr in *. destruct (upload_page i) as [page|].
  - destruct (bsp_get_flash_info page) as [p|]; [|discriminate]. cbn in Hptr |- *. injection Hptr as <- E. unfold mod_ptrs, modify in *.
    apply (f_equal gtv_UserFilePtrSt) in E. cbn in E. unfold mbind, M_bind, mret, M_ret. unfold with_slot, with_UserFilePtr, with_FileTrans, with_mb. cbn. by rewrite E.
  - unfold gets, mbind, M_bind in *. cbn in Hptr |- *. destruct (ptr_of i (gtv_UserFilePtrSt s)); [|discriminate]. cbn in *. by injection Hptr as ->.
Qed.
Lemma on_mb_here {A} (c : Mb A) m m' o a : c m = Ok (a, m') -> on_mb c (T m o) = Ok (a, T m' o).
Proof using. clear. intros E. unfold on_mb. change (mb (T m o)) with m. by rewrite E. Qed.

(** ** Blocks *)
Definition blocks : Z := (len + 999) / 1000.
Definition block (k : Z) : list Z := part_at l (k * MAX_UPLOAD_FILE_LENGTH) (Z.min MAX_UPLOAD_FILE_LENGTH (len - k * MAX_UPLOAD_FILE_LENGTH)).
Definition last_block (k : Z) : bool := k + 1 =? blocks.
Lemma block_sizes k : 0 <= k < blocks -> k * 1000 < len /\ (last_block k = true <-> len - k * 1000 <= 1000) /\ k < 256.
Proof using Hsize.
  clear - Hsize. unfold last_block, blocks, MAX_UPLOAD_FILE_LENGTH in *. intros Hk. rewrite Z.eqb_eq. Z.to_euclidean_division_equations; lia.
Qed.
Lemma block_length k : 0 <= k < blocks -> Z.of_nat (length (block k)) = Z.min 1000 (len - k * 1000).
Proof using Hsize.
  clear - Hsize. intros Hk. pose proof (block_sizes k Hk). unfold block, part_at, MAX_UPLOAD_FILE_LENGTH. rewrite length_take, length_drop. lia.
Qed.
Lemma block_ok k : Forall byte_ok (block k).
Proof using Hb. by apply Forall_take, Forall_drop. Qed.
Lemma blocks_are_file_from n : forall k, 0 <= k -> k + Z.of_nat n = blocks -> concat (block <$> seqZ k (Z.of_nat n)) = drop (Z.to_nat (k * 1000)) l.
Proof using Hsize.
  clear - Hsize. induction n as [|n IH]; intros k H0 Hk.
  - cbn. symmetry. apply drop_ge. unfold blocks in Hk. Z.to_euclidean_division_equations; lia.
  - rewrite seqZ_cons by lia. replace (Z.pred (Z.of_nat (S n))) with (Z.of_nat n) by lia. cbn [fmap list_fmap concat]. rewrite <- Z.add_1_r, (IH (k + 1)) by lia.
    pose proof (block_sizes k ltac:(lia)) as (B1 & B2 & _). unfold block, part_at, MAX_UPLOAD_FILE_LENGTH.
    destruct (Z.min_spec 1000 (len - k * 1000)) as [[M ->]|[M ->]].
    + replace (Z.to_nat ((k + 1) * 1000)) with (Z.to_nat (k * 1000) + Z.to_nat 1000)%nat by lia. rewrite <- drop_drop. apply take_drop.
    + rewrite (drop_ge l (Z.to_nat ((k + 1) * 1000))) by lia. rewrite app_nil_r. apply take_ge. rewrite length_drop. lia.
Qed.
Lemma blocks_are_file : concat (block <$> seqZ 0 blocks) = l.
Proof using Hsize.
  clear - Hsize. assert (0 <= blocks) by (unfold blocks; Z.to_euclidean_division_equations; lia).
  pose proof (blocks_are_file_from (Z.to_nat blocks) 0 ltac:(lia) ltac:(lia)) as E. by rewrite Z2Nat.id in E by lia.
Qed.

(** ** One request *)
Definition upload_frame (num : Z) : list Z := [1; MB_UPLOAD_FUNC; code; num; 0; 0].
Definition sent_number (k num : Z) : Z := if last_block k then 0xFE else num.
Definition answer_body (k num : Z) : list Z := [1; MB_UPLOAD_FUNC; code; sent_number k num] ++ block k.
(** The message can be answered with a block. *)
Definition serving m : Prop := has_channel (msg m) /\ Forall byte_ok (tx_buf m) /\ 1006 <= Z.of_nat (length (tx_buf m)).
Definition with_both (r t : list Z) m : mb_st := with_msg (with_buffs r t (msg m)) m.
Definition sent_block (k num : Z) (r : list Z) m : mb_st :=
  with_both ([1; MB_UPLOAD_FUNC; code; sent_number k num] ++ r) (take 4 (tx_buf m) ++ block k ++ drop (length (block k)) (drop 4 (tx_buf m))) m.
Section request.
Context (m : mb_st) (num k : Z) (r : list Z).
Hypothesis (Hserve : serving m) (Hrx : rx_buf m = [1; MB_UPLOAD_FUNC; code; num] ++ r) (Hnum : 1 <= num <= 0xFD) (Hk : 0 <= k < blocks).
Lemma code_ok : byte_ok code.
Proof using Hcode.
  clear - Hcode. unfold upload_slot in Hcode.
  repeat match type of Hcode with (if ?b =? ?c then _ else _) = _ => destruct (Z.eqb_spec b c) as [->|_]; [by vm_compute|] end. done.
Qed.
Lemma send_run p o : mlv_FileLen p = len -> mcp_FileHandler p = h ->
  send_block p k (T m o) = Ok (Z.of_nat (length (block k)), T (sent_block k num r m) o).
Proof using Hr Hserve Hrx Hk Hsize Hb.
  clear - Hr Hserve Hrx Hk Hsize Hb. intros Ep Eh. pose proof (block_sizes k Hk) as (B1 & B2 & _). pose proof (block_length k Hk) as B3. destruct Hserve as (_ & _ & Ht).
  unfold send_block, MAX_UPLOAD_FILE_LENGTH. rewrite Ep, Eh, u32_id by (unfold MAX_UPLOAD_FILE_LENGTH in Hsize; lia).
  set (m1 := with_both ([1; MB_UPLOAD_FUNC; code; sent_number k num] ++ r) (tx_buf m) m).
  assert (Cnt : (if 1000 <? len - k * 1000 then 1000 else u16 (len - k * 1000)) = Z.of_nat (length (block k))).
  { rewrite B3. destruct (Z.ltb_spec 1000 (len - k * 1000)); [lia|]. rewrite u16_id by lia. lia. }
  rewrite Cnt. assert (P : when (negb (1000 <? len - k * 1000)) (on_mb (put_rx 3 0xFE)) (T m o) = Ok (tt, T m1 o)).
  { unfold m1, sent_number. destruct (Z.ltb_spec 1000 (len - k * 1000)) as [L|L]; cbn [negb when].
    - destruct (last_block k); [exfalso; destruct B2 as [B2 _]; specialize (B2 eq_refl); lia|]. unfold with_both. rewrite <- Hrx. unfold rx_buf, tx_buf. destruct m as [? ? [] ?]. done.
    - rewrite (proj2 B2 L). apply on_mb_here. unfold put_rx. change (message m) with (Ok (msg m, m)). rewrite (run_bind message _ m m (msg m)) by done.
      change (mcp_ReceiveBuff (msg m)) with (rx_buf m). rewrite Hrx, (run_some _ _) by (apply zupdate_lt; rewrite length_app; cbn; lia). done. }
  rewrite (run_bind _ _ _ _ _ P), (run_bind _ _ _ _ _ (reads_here m1 o (k * 1000) (Z.of_nat (length (block k))) ltac:(lia) ltac:(lia) ltac:(lia))).
  assert (Eb : part_at l (k * 1000) (Z.of_nat (length (block k))) = block k) by (rewrite B3; done). rewrite Eb, Nat2Z.id.
  assert (W : for_up (length (block k)) 0 (fun j => v ← of_option (zlookup (block k) j); put_tx (4 + j) v) m1
    = Ok (tt, with_tx (take 4 (tx_buf m1) ++ block k ++ drop (length (block k)) (drop 4 (tx_buf m1))) m1)).
  { apply (put_all (fun j => of_option (zlookup (block k) j)) 4 (block k) (block_ok k)).
    - symmetry. apply take_drop.
    - change (tx_buf m1) with (tx_buf m). rewrite length_take. lia.
    - change (tx_buf m1) with (tx_buf m). rewrite length_drop. lia.
    - intros x t Hx. rewrite Z.add_0_l. by rewrite byte_zlookup by lia. }
  rewrite (run_bind _ _ _ _ _ (on_mb_here _ _ _ o _ W)). done.
Qed.
Lemma close_run o : close_last code (T (sent_block k num r m) (Some o)) = Ok (tt, T (sent_block k num r m) (if last_block k then None else Some o)).
Proof using Hcode Hslots Hnum.
  unfold close_last. set (m1 := sent_block k num r m). assert (R : on_mb (rx 3) (T m1 (Some o)) = Ok (sent_number k num, T m1 (Some o))) by (apply on_mb_here; done).
  rewrite (run_bind _ _ _ _ _ R). unfold sent_number. destruct (last_block k).
  - cbn [when]. change (254 =? 254) with true. cbn [when]. rewrite (proj2 slot_of_code). apply (put_transfer_run i (with_mb m1 s) (slot_here m1)).
  - by rewrite (proj2 (Z.eqb_neq num 254)) by lia.
Qed.
Lemma finish_run o : exists v, upload_answer (Z.of_nat (length (block k))) (T (sent_block k num r m) o) = Ok (tt, T v o) /\ serving v /\
  sent v = sent m ++ delivered (msg m) (frame (answer_body k num)) /\ forall f, delivered (msg v) f = delivered (msg m) f.
Proof using Hcode Hserve Hnum Hk Hsize Hb.
  clear - Hcode Hserve Hnum Hk Hsize Hb. pose proof (block_length k Hk) as B3. destruct Hserve as (Hc & Hbt & Ht). set (m1 := sent_block k num r m). set (n := Z.of_nat (length (block k))).
  set (q := [1; MB_UPLOAD_FUNC; code; sent_number k num]). set (rest := drop (length (block k)) (drop 4 (tx_buf m))).
  assert (Hq : Forall byte_ok q).
  { pose proof code_ok. unfold q, sent_number. repeat constructor; try done; unfold byte_ok, MB_UPLOAD_FUNC in *; destruct (last_block k); lia. }
  assert (Et : tx_buf m1 = take 4 (tx_buf m) ++ block k ++ rest) by done.
  assert (L4 : length (take 4 (tx_buf m)) = 4%nat) by (rewrite length_take; lia).
  assert (Lr : Z.of_nat (length rest) = Z.of_nat (length (tx_buf m)) - 4 - n) by (unfold rest; rewrite !length_drop; lia).
  assert (C := copy_head 4 q r [] m1 Hq eq_refl eq_refl ltac:(rewrite Et, length_app; lia)).
  assert (Ed : drop 4 (tx_buf m1) = block k ++ rest) by (rewrite Et; by apply (drop_app_length' (take 4 (tx_buf m)))).
  rewrite Ed in C. set (m2 := with_tx (q ++ block k ++ rest) m1) in *.
  assert (Ht2 : tx_buf m2 = (q ++ block k) ++ rest) by (unfold m2; rewrite tx_with_tx; by rewrite <- app_assoc).
  assert (Lq : Z.of_nat (length (q ++ block k)) = n + 4) by (rewrite length_app; cbn; lia).
  assert (Hb2 : Forall byte_ok (tx_buf m2)) by (rewrite Ht2, !Forall_app; split; [split; [done|apply block_ok]|by apply Forall_drop, Forall_drop]).
  assert (A := answer_run (n + 4) m2 Hc Hb2 ltac:(lia) ltac:(rewrite Ht2, length_app; lia) ltac:(lia)).
  assert (Etk : take (Z.to_nat (n + 4)) (tx_buf m2) = answer_body k num) by (rewrite Ht2; apply (take_app_length' (q ++ block k)); lia).
  rewrite Etk in A. set (t := drop _ (tx_buf m2)) in A. eexists. split; [|split; [|split]].
  - apply on_mb_here. rewrite (run_bind _ _ _ _ _ C). exact A.
  - split; [exact Hc|]. change (tx_buf (answered (answer_body k num) t m2)) with (frame (answer_body k num) ++ t). split.
    + apply Forall_app. split; [|by apply Forall_drop]. unfold frame. apply Forall_app. split; [rewrite <- Etk; by apply Forall_take|]. repeat constructor; apply u8_range.
    + assert (La : Z.of_nat (length (answer_body k num)) = n + 4) by exact Lq.
      unfold frame, t. rewrite !length_app, length_drop, Ht2, length_app. cbn [length]. lia.
  - done.
  - done.
Qed.
End request.

(** ** Requests one after another *)
Definition ask (f : list Z) : M st unit := modify (received f);; mb_slave_upload_file.
Fixpoint ask_all (fs : list (list Z)) : M st unit := match fs with [] => mret tt | f :: fs => ask f;; ask_all fs end.
(** The transfer after [j] blocks, none of them the last. *)
Definition uploading (j : nat) : mb_file_trans_st :=
  {| mcv_FrameCnt := u8 (Z.of_nat j); mcv_PreFrame := number_of (j - 1); mcv_Flag := turned j; mlv_FileLen := len; mcp_FileHandler := h |}.
Definition slot_after (j : nat) : option mb_file_trans_st := match j with O => None | S _ => Some (uploading j) end.
Definition opened : mb_file_trans_st := {| mcv_FrameCnt := 0; mcv_PreFrame := 0; mcv_Flag := 0; mlv_FileLen := len; mcp_FileHandler := h |}.
Lemma open_upload_run m o : open_upload i (T m o) = Ok (tt, T m (Some (default opened o))).
Proof using Hcode Hslots Hptr Hr Hlen Hsize.
  unfold open_upload. rewrite (run_bind _ _ _ _ _ (transfer_run i (with_mb m s) (slot_here m) o)). destruct o as [p|]; [done|].
  rewrite (run_bind _ _ _ _ _ (ptr_here m None)). assert (L : file_length h FILE_LEN_INFO_START_INDEX (T m None) = Ok (len, T m None)).
  { unfold file_length. rewrite (run_bind _ _ _ _ _ (reads_here m None FILE_LEN_INFO_START_INDEX 4 ltac:(done) ltac:(done) ltac:(unfold FILE_LEN_INFO_START_INDEX; lia))). by rewrite Hlen. }
  rewrite (run_bind _ _ _ _ _ L). apply (put_transfer_run i (with_mb m s) (slot_here m)).
Qed.
Lemma note_uploading c g num j p : mlv_FileLen p = len -> mcp_FileHandler p = h -> u8 c = u8 (Z.of_nat (S j)) -> num = number_of j -> g = turned (S j) ->
  note_frame c num g p = uploading (S j).
Proof using Hsize.
  clear - Hsize. intros El Eh Ec -> ->. unfold note_frame, with_frame, uploading. rewrite El, Eh, Ec. cbn [Nat.sub]. rewrite Nat.sub_0_r, u32_id by (unfold MAX_UPLOAD_FILE_LENGTH in *; lia).
  f_equal. by destruct (turned_cases (S j)) as [-> | ->].
Qed.
(** The number of block [j+1] follows that of block [j]. *)
Lemma number_next j : (number_of (S j) = number_of j + 1 /\ turned (S (S j)) = turned (S j)) \/
  (number_of (S j) = 1 /\ number_of j = 0xFD /\ turned (S (S j)) = 5).
Proof using.
  clear. pose proof (Z.mod_pos_bound (Z.of_nat j) 0xFD ltac:(lia)). unfold number_of, turned. rewrite Nat2Z.inj_succ, <- Z.add_1_r, <- (Zplus_mod_idemp_l (Z.of_nat j) 1).
  destruct (decide (Z.of_nat j mod 0xFD = 0xFC)) as [Hj|Hj].
  - right. rewrite Hj. split_and!; [done|done|]. destruct (Nat.leb_spec (S (S j)) 253); [|done]. rewrite Z.mod_small in Hj by lia. lia.
  - left. rewrite (Z.mod_small (_ + 1)) by lia. split; [lia|]. destruct (Nat.leb_spec (S (S j)) 253), (Nat.leb_spec (S j) 253); try lia. assert (j = 252)%nat as -> by lia. by vm_compute in Hj.
Qed.
Section turn.
Context (m : mb_st) (j : nat).
Hypothesis (Hserve : serving m) (Hj : Z.of_nat j < blocks).
Notation num := (number_of j).
Notation k := (Z.of_nat j).
Notation m1 := (with_msg (with_rx (upload_frame num) (msg m)) m).
Definition left_after : option mb_file_trans_st := if last_block k then None else Some (uploading (S j)).
Definition served (v : mb_st) : Prop := serving v /\
  sent v = sent m ++ delivered (msg m) (frame (answer_body k num)) /\ forall f, delivered (msg v) f = delivered (msg m) f.
Lemma serving_rx f : serving (with_msg (with_rx f (msg m)) m).
Proof using Hserve. exact Hserve. Qed.
Lemma answer_turn q : exists v, (close_last code;; upload_answer (Z.of_nat (length (block k)))) (T (sent_block k num [0; 0] m1) (Some q))
  = Ok (tt, T v (if last_block k then None else Some q)) /\ served v.
Proof using Hcode Hslots Hserve Hj Hsize Hb.
  pose proof (number_range j) as Hn. rewrite (run_bind _ _ _ _ _ (close_run m1 num k [0; 0] Hn q)).
  destruct (finish_run m1 num k [0; 0] (serving_rx _) Hn ltac:(lia) (if last_block k then None else Some q)) as (v & E & V).
  exists v. split; [exact E|exact V].
Qed.
End turn.
Lemma turn_run m j : serving m -> Z.of_nat j < blocks -> exists v,
  mb_slave_upload_file (T (with_msg (with_rx (upload_frame (number_of j)) (msg m)) m) (slot_after j)) = Ok (tt, T v (left_after j)) /\ served m j v.
Proof using Hcode Hslots Hptr Hr Hlen Hsize Hb.
  intros Hserve Hj. set (num := number_of j). set (k := Z.of_nat j). set (m1 := with_msg _ m). pose proof (answer_turn m j Hserve Hj) as Ans. pose proof (serving_rx m Hserve) as Srx. pose proof (number_range j) as Hn. pose proof (block_sizes k ltac:(lia)) as (_ & _ & Hk8). unfold mb_slave_upload_file.
  fold num k m1 in Ans. assert (R2 : on_mb (rx 2) (T m1 (slot_after j)) = Ok (code, T m1 (slot_after j))) by (apply on_mb_here; done).
  rewrite (run_bind _ _ _ _ _ R2), (run_some _ i) by done. rewrite (run_bind _ _ _ _ _ (open_upload_run m1 _)).
  rewrite (run_bind _ _ _ _ _ (file_run i (with_mb m1 s) (slot_here m1) _)).
  assert (R3 : forall o, on_mb (rx 3) (T m1 o) = Ok (num, T m1 o)) by (intros o; apply on_mb_here; done). rewrite (run_bind _ _ _ _ _ (R3 _)).
  pose proof (fun p o => send_run m1 num k [0; 0] (Srx _) eq_refl ltac:(lia) p o) as Send. unfold left_after. fold k.
  clearbody m1. subst num k. destruct j as [|j'].
  - cbn [slot_after default opened mcv_Flag]. change (truthy (Z.land 0 1)) with false. change (first_frame (number_of 0)) with true. cbv iota.
    rewrite (run_bind _ _ _ _ _ (mod_file_run i (with_mb m1 s) (slot_here m1) _ _)).
    rewrite (note_uploading 1 (Z.lor 0 1) (number_of 0) 0) by done. change (send_block opened 0) with (send_block opened (Z.of_nat 0)).
    rewrite (run_bind _ _ _ _ _ (Send opened _ eq_refl eq_refl)). apply Ans.
  - cbn [slot_after default id]. set (p := uploading (S j')) in *. assert (Fl : truthy (Z.land (mcv_Flag p) 1) = true) by (unfold p; cbn; by destruct (turned_cases (S j')) as [-> | ->]).
    rewrite Fl. assert (Cn : mcv_FrameCnt p = Z.of_nat (S j')) by (apply u8_id; lia). assert (Pr : mcv_PreFrame p = number_of j') by (unfold p; cbn; by rewrite Nat.sub_0_r).
    assert (Next : forall note, note p = uploading (S (S j')) -> exists v, (n ← send_block p (mcv_FrameCnt p); mod_file i note;; close_last code;; upload_answer n) (T m1 (Some p))
      = Ok (tt, T v (if last_block (Z.of_nat (S j')) then None else Some (uploading (S (S j'))))) /\ served m (S j') v).
    { intros note En. rewrite Cn. rewrite (run_bind _ _ _ _ _ (Send p _ eq_refl eq_refl)).
      rewrite (run_bind _ _ _ _ _ (mod_file_run i (with_mb (sent_block (Z.of_nat (S j')) (number_of (S j')) [0; 0] m1) s) (slot_here _) _ _)), En. apply Ans. }
    assert (Ec : u8 (mcv_FrameCnt p + 1) = u8 (Z.of_nat (S (S j')))) by (rewrite Cn; f_equal; lia). rewrite Pr.
    destruct (number_next j') as [[N T]|(N & N' & T)].
    + rewrite (proj2 (Z.eqb_eq _ _) N). cbn [orb]. apply Next. apply note_uploading; [done|done|done|done|]. by rewrite T.
    + assert ((number_of (S j') =? number_of j' + 1) || (number_of (S j') =? 0xFE) = false) as -> by (by rewrite N, N').
      assert ((number_of (S j') =? number_of j') = false) as -> by (by rewrite N, N').
      assert ((number_of (S j') =? 1) && (number_of j' =? 0xFD) = true) as -> by (by rewrite N, N'). apply Next.
      apply note_uploading; [done|done|done|done|]. rewrite T. unfold p. cbn. by destruct (turned_cases (S j')) as [-> | ->].
Qed.
Lemma asks_run n : forall j m, serving m -> Z.of_nat j + Z.of_nat (S n) = blocks -> exists v,
  ask_all ((fun j => upload_frame (number_of j)) <$> seq j (S n)) (T m (slot_after j)) = Ok (tt, T v None) /\
  sent v = sent m ++ concat ((fun j => delivered (msg m) (frame (answer_body (Z.of_nat j) (number_of j)))) <$> seq j (S n)).
Proof using Hcode Hslots Hptr Hr Hlen Hsize Hb.
  induction n as [|n IH]; intros j m Hs Hj; destruct (turn_run m j Hs ltac:(lia)) as (v & E & Sv & Sent & Chan).
  - exists v. assert (left_after j = None) as L by (unfold left_after, last_block; by rewrite (proj2 (Z.eqb_eq _ _)) by lia). rewrite L in E.
    change (seq j 1) with [j]. cbn [fmap list_fmap ask_all concat]. rewrite (run_bind (ask _) _ (T m (slot_after j)) (T v None) tt E). split; [done|]. by rewrite app_nil_r.
  - assert (left_after j = slot_after (S j)) as L by (unfold left_after, last_block; by rewrite (proj2 (Z.eqb_neq _ _)) by lia). rewrite L in E.
    destruct (IH (S j) v Sv ltac:(lia)) as (w & Ew & Sw). exists w.
    change (seq j (S (S n))) with (j :: seq (S j) (S n)). rewrite !fmap_cons. cbn [ask_all concat].
    rewrite (run_bind (ask _) _ (T m (slot_after j)) (T v (slot_after (S j))) tt E). split; [exact Ew|]. rewrite Sw, Sent, <- app_assoc. do 3 f_equal.
    apply list_fmap_ext. intros _ x _. apply Chan.
Qed.
End file.

(** C17: a file of at most 256000 bytes is uploaded whole: asked for blocks
    numbered as the frames of a download, the controller answers each request
    with the next 1000 bytes, the last one with the number 0xFE; the blocks one
    after another are the file, and the transfer is closed after the last. *)
Theorem upload_sends_file code i h l s : upload_slot code = Some i -> length (gtv_ModbusFileTrans s) = 10%nat -> zlookup (gtv_ModbusFileTrans s) i = Some None ->
  upload_ptr i s = Ok (h, s) -> reads h l s -> Forall byte_ok l -> le_value (part_at l FILE_LEN_INFO_START_INDEX 4) = Z.of_nat (length l) ->
  10 <= Z.of_nat (length l) <= 256 * MAX_UPLOAD_FILE_LENGTH -> serving (mb s) -> 
  let requests := seq 0 (Z.to_nat (blocks l)) in exists v,
  ask_all ((fun j => upload_frame code (number_of j)) <$> requests) s = Ok (tt, with_mb v s) /\
  sent v = sent (mb s) ++ concat ((fun j => delivered (msg (mb s)) (frame (answer_body code l (Z.of_nat j) (number_of j)))) <$> requests) /\
  concat (block l <$> seqZ 0 (blocks l)) = l.
Proof.
  intros Hc Hsl H0 Hp Hr Hb Hl Hs Hv requests. unfold requests.
  assert (Hn : 0 < blocks l) by (unfold blocks; Z.to_euclidean_division_equations; lia).
  assert (T0 : forall v, with_slot i None (with_mb v s) = with_mb v s).
  { intros v. unfold with_slot. apply zlookup_Some in H0 as [_ H0]. rewrite list_insert_id by done. exact (with_trans_id (with_mb v s)). }
  destruct (Z.to_nat (blocks l)) as [|n] eqn:En; [lia|].
  destruct (asks_run code i h l s Hc Hsl Hp Hr Hl Hs Hb n 0%nat (mb s) Hv ltac:(lia)) as (v & Ev & Sv). cbn [slot_after] in Ev. rewrite !T0 in Ev.
  exists v. split; [|split; [exact Sv|by apply blocks_are_file]].
  assert (Es : with_mb (mb s) s = s) by (by destruct s). by rewrite Es in Ev.
Qed.
End upload.

(** ** The upload of a small file *)
Definition upload_demo : ctl_st ram_chip := with_mb (with_both [] (replicate 1006 0) (mb_demo [])) (with_UserFilePtr (with_ptr MB_DL_GVT (Constant gvt_file) no_files) ctl_demo).
Lemma upload_sends_file_witness : exists v,
  ask_all [upload_frame MB_UPLOAD_GVT 1] upload_demo = Ok (tt, with_mb v upload_demo) /\
  sent v = [Resp (frame ([1; 0x69; 0x67; 0xFE] ++ gvt_file))] /\ concat (block gvt_file <$> seqZ 0 (blocks gvt_file)) = gvt_file.
Proof.
  refine (upload_sends_file MB_UPLOAD_GVT MB_DL_GVT (Constant gvt_file) gvt_file upload_demo _ _ _ _ _ _ _ _ _).
  - reflexivity.
  - reflexivity.
  - reflexivity.
  - reflexivity.
  - intros j n Hj Hn Hl. unfold file_bytes. rewrite (proj2 (andb_true_iff _ _)) by (rewrite andb_true_iff, !Z.leb_le; lia). reflexivity.
  - repeat constructor; cbn; try discriminate; lia.
  - reflexivity.
  - cbn. unfold MAX_UPLOAD_FILE_LENGTH. lia.
  - split; [discriminate|]. split; [apply Forall_replicate; unfold byte_ok; lia|]. cbn. lia.
Defined.
