(* ===== verification/ControlFacts.v ===== *)
(** * Facts about forced elements

    After the refresh every forced bit and word has its forced value and every
    other the value it had. *)
From stdpp Require Import base list numbers.
From S2P Require Import Prelude Bytes Element Machine Compiler MbSlave MbFacts Flash Password Service Download Control DownloadFacts.

(** ** What is forced *)
(** An entry of the list of forced bits, as the handlers make it. *)
Definition entry_ok (e : mb_monitor_element_t) : Prop :=
  exists r n v, bit_region_of (mon_ElementType e) = Some (r, n) /\ 0 <= msv_ElementAddr e < n /\ msv_ElementValue e = Some v /\ 0 <= v < 2 ^ 8.
Definition names (e : mb_monitor_element_t) (q : region) (m : Z) : bool :=
  match bit_region_of (mon_ElementType e) with Some (r, _) => bool_decide (q = r /\ m = msv_ElementAddr e) | None => false end.
(** The value forced on bit [m] of [q]: the last entry counts. *)
Fixpoint forced (l : list mb_monitor_element_t) (q : region) (m : Z) : option bool :=
  match l with
  | [] => None
  | e :: l => match forced l q m with Some b => Some b | None => if names e q m then truthy <$> msv_ElementValue e else None end
  end.
Lemma bit_region_sizes t r n : bit_region_of t = Some (r, n) -> bit_region r /\ n <= 2 ^ 16 /\ n <= 16 * rsize r.
Proof.
  unfold bit_region_of. intros H.
  repeat match type of H with (if ?b then _ else _) = _ => destruct b; [injection H as <- <-; by vm_compute|] end. done.
Qed.
(** [m'] has the bits of [m] with those of [l] forced. *)
Definition refreshed (l : list mb_monitor_element_t) (m m' : mb_st) : Prop :=
  forall q k, 0 <= k -> bit_of (elem m') q k = match forced l q k with Some b => Some b | None => bit_of (elem m) q k end.
Lemma refresh_bit_run e m : entry_ok e -> wf_elem (elem m) -> exists m', refresh_bit e m = Ok (tt, m') /\ refreshed [e] m m' /\ wf_elem (elem m').
Proof.
  intros (r & n & v & Hr & Ha & Hv & Hv8) W. destruct (bit_region_sizes _ _ _ Hr) as (Br & N1 & N2).
  destruct (set_bit_run r (msv_ElementAddr e) v m W Br ltac:(lia) ltac:(lia) Hv8) as (m' & E & [U _] & W').
  exists m'. split; [|split; [|done]].
  - unfold refresh_bit. rewrite Hr. by rewrite (run_some _ v).
  - intros q k Hk. cbn [forced]. unfold names. rewrite Hr, Hv, U by done. case_decide; [by rewrite bool_decide_true|by rewrite bool_decide_false].
Qed.
Lemma refresh_bits_run l : Forall entry_ok l -> forall m, wf_elem (elem m) -> exists m', refresh_bits l m = Ok (tt, m') /\ refreshed l m m' /\ wf_elem (elem m').
Proof.
  induction 1 as [|e l He Hl IH]; intros m W; cbn [refresh_bits]; [by exists m|].
  destruct (refresh_bit_run e m He W) as (m1 & E1 & R1 & W1), (IH m1 W1) as (m2 & E2 & R2 & W2).
  exists m2. rewrite (run_bind _ _ _ _ _ E1). split; [done|]. split; [|done]. intros q k Hk. rewrite R2, R1 by done. cbn [forced].
  destruct (forced l q k); [done|]. by destruct (names e q k).
Qed.

(** *** Words *)
(** The arrays forced words live in. *)
Definition word_regions : list region := [D_ELEMENT; SD_ELEMENT; Z_ELEMENT; T_CURRENT; C16_VALUE; C32_VALUE; R_ELEMENT].
Definition entry_region (e : mb_monitor_element_t) : option region := word_region_of (mon_ElementType e) (msv_ElementAddr e).
(** An entry for half of a 32-bit counter. *)
Record half_ok (e : mb_monitor_element_t) : Prop := {
  hf_type : mon_ElementType e = MB_WORD_C;
  hf_region : entry_region e = None;
  hf_range : 0 <= c32_number (msv_ElementAddr e) - C16_RANG < rsize C32_VALUE;
  hf_value : is_Some (msv_ElementValue e) }.
(** The list of forced words: elements of 16 bits, and 32-bit counters, the
    low half followed by the high half. *)
Inductive words_ok : list mb_monitor_element_t -> Prop :=
| words_nil : words_ok []
| words_one e r v l : entry_region e = Some r -> 0 <= msv_ElementAddr e < rsize r -> msv_ElementValue e = Some v ->
    words_ok l -> words_ok (e :: l)
| words_two e e2 l : half_ok e -> half_ok e2 -> words_ok l -> words_ok (e :: e2 :: l).
(** The value forced on word [i] of [q]: the last entry counts. *)
Fixpoint forced_word (l : list mb_monitor_element_t) (q : region) (i : Z) : option Z :=
  match l with
  | [] => None
  | e :: l =>
      match forced_word l q i with
      | Some v => Some v
      | None => if decide (entry_region e = Some q /\ msv_ElementAddr e = i) then msv_ElementValue e else None
      end
  end.
Lemma entry_region_in e r : entry_region e = Some r -> r ∈ word_regions /\ r <> C32_VALUE.
Proof.
  unfold entry_region, word_region_of. intros H.
  repeat match type of H with (if ?b then _ else _) = _ => destruct b end; try done; injection H as <-; (split; [|done]);
    by apply (bool_decide_unpack _).
Qed.
(** [m'] has the words of [m] with those of [l] forced, and every other array
    as it was. *)
Definition reworded (l : list mb_monitor_element_t) (m m' : mb_st) : Prop :=
  (forall q, q ∉ word_regions -> rget (elem m') q = rget (elem m) q) /\
  forall q i, q <> C32_VALUE -> cell q i m' = match forced_word l q i with Some v => rconv q v | None => cell q i m end.
Lemma upd_other r i v (m : mb_st) q : wf_elem (elem m) -> r ∈ word_regions -> 0 <= i < rsize r -> q ∉ word_regions ->
  rget (elem (upd r i v m)) q = rget (elem m) q.
Proof. intros W Hr Hi Hq. apply (wr_frame r q i v) with (a := tt); [by intros ->|by apply wr_upd]. Qed.
Lemma forced_half e l q i : half_ok e -> forced_word (e :: l) q i = forced_word l q i.
Proof. intros [_ H _ _]. cbn. rewrite H. destruct (forced_word l q i); [done|]. by rewrite decide_False by (intros [? _]; done). Qed.
Lemma refresh_words_run len l : words_ok l -> forall m, wf_elem (elem m) ->
  exists m', refresh_words len l m = Ok (tt, m') /\ reworded l m m' /\ wf_elem (elem m').
Proof.
  induction 1 as [|e r v l Er Ha Hv _ IH|e e2 l He He2 _ IH]; intros m W; cbn [refresh_words].
  - by exists m.
  - destruct (entry_region_in e r Er) as [Hr Hr']. destruct (IH (upd r (msv_ElementAddr e) v m)) as (m' & E & [B C] & W'); [by apply upd_wf|].
    exists m'. fold (entry_region e). rewrite Er, (run_some _ v), (run_bind _ _ _ _ _ (wr_upd r _ v m W Ha)) by done.
    split_and!; [done| |done]. split; [intros q Hq; rewrite B by done; by apply upd_other|].
    intros q i Hq. rewrite C by done. cbn [forced_word]. rewrite cell_upd, Er, Hv by done.
    destruct (forced_word l q i); [done|]. repeat case_decide; naive_solver.
  - destruct (hf_value e He) as [lo Hlo], (hf_value e2 He2) as [hi Hhi].
    set (j := c32_number (msv_ElementAddr e) - C16_RANG). set (x := u32 (lo + Z.shiftl hi 16)).
    destruct (IH (upd C32_VALUE j x m)) as (m' & E & [B C] & W'); [apply upd_wf; [done|apply (hf_range e He)]|].
    exists m'. fold (entry_region e). rewrite (hf_region e He), (hf_type e He), (hf_type e2 He2), Z.eqb_refl.
    rewrite (run_some _ lo), (run_some _ hi) by done. unfold SET_C32_CURRENT_VALUE. fold j x.
    rewrite (run_bind _ _ _ _ _ (wr_upd C32_VALUE j x m W (hf_range e He))). split_and!; [done| |done]. split.
    + intros q Hq. rewrite B by done. apply upd_other; [done|by apply (bool_decide_unpack _)|apply (hf_range e He)|done].
    + intros q i Hq. rewrite C, !forced_half by done. rewrite cell_upd by (done || apply (hf_range e He)).
      by rewrite decide_False by (intros [? _]; done).
Qed.
(** Refreshing bits leaves the words alone. *)
Lemma refresh_bits_words q l : q ∈ word_regions -> Respects (same_region (S := mb_st) q) (refresh_bits l).
Proof.
  intros Hq. induction l as [|e l IH]; cbn [refresh_bits]; [apply _|]. apply respects_bind; [apply _| |intros _; exact IH].
  unfold refresh_bit. destruct (bit_region_of (mon_ElementType e)) as [[r n]|] eqn:E; [|apply _].
  assert (r <> q).
  { intros ->. revert Hq. unfold bit_region_of in E. repeat match type of E with (if ?b then _ else _) = _ => destruct b end; try done;
      injection E as <- _; by apply (bool_decide_unpack _). }
  assert (forall i v, Respects (same_region (S := mb_st) q) (wr r i v)) by (intros i v; by apply wr_frame). unfold plc_set_bit_element_value. respects_solve.
Qed.

Section refresh.
Context {F : Type} `{!NorFlash F}.
Definition list_of (l : list mb_monitor_element_t) : mb_monitor_element_head_t := {| head := l; lsv_ListLen := Z.of_nat (length l) |}.
(** The part of the refresh that a list without elements leaves out. *)
Lemma refresh_part {A} (l : list A) (k : Mb unit) (s : ctl_st F) m : k (mb s) = Ok (tt, m) -> (l = [] -> k = mret tt) ->
  when (0 <? Z.of_nat (length l)) (on_mb k) s = Ok (tt, with_mb m s).
Proof.
  intros E H. destruct l as [|x l]; [|unfold on_mb; cbn [length]; rewrite (proj2 (Z.ltb_lt _ _)) by lia; cbn [when]; by rewrite E].
  rewrite H in E by done. injection E as <-. by destruct s.
Qed.
(** C18: when the forced elements are refreshed, every forced bit gets the
    value it is forced to, and so does every forced word of 16 bits, whatever
    the program has written, the last entry counting if an element is in a
    list twice. Forced words disturb no bit and forced bits no word: every
    other bit and every other 16-bit word keeps its value. The list of words
    holds elements of 16 bits and pairs of halves of 32-bit counters. *)
Theorem forced_elements_hold (s : ctl_st F) lb lw : lists s gtv_ForceBits = list_of lb -> lists s gtv_ForceWords = list_of lw ->
  Forall entry_ok lb -> words_ok lw -> wf_elem (elem (mb s)) ->
  exists m, plc_refresh_force_element_value s = Ok (tt, with_mb m s) /\ wf_elem (elem m) /\
    (forall q k, 0 <= k -> q ∉ word_regions ->
       bit_of (elem m) q k = match forced lb q k with Some b => Some b | None => bit_of (elem (mb s)) q k end) /\
    (forall q i, q ∈ word_regions -> q <> C32_VALUE ->
       cell q i m = match forced_word lw q i with Some v => rconv q v | None => cell q i (mb s) end).
Proof.
  intros Hb Hw Lb Lw W. destruct (refresh_bits_run lb Lb (mb s) W) as (m1 & E1 & R1 & W1).
  destruct (refresh_words_run (Z.of_nat (length lw)) lw Lw m1 W1) as (m2 & E2 & [B2 C2] & W2). exists m2. split_and!; [|done|..].
  - unfold plc_refresh_force_element_value. rewrite run_gets, Hb. cbn [lsv_ListLen head list_of].
    rewrite (run_bind _ _ _ _ _ (refresh_part lb _ s m1 E1 ltac:(by intros ->))), run_gets. cbn [with_mb lists]. rewrite Hw.
    exact (refresh_part lw _ (with_mb m1 s) m2 E2 ltac:(by intros ->)).
  - intros q k Hk Hq. unfold bit_of. rewrite B2 by done. exact (R1 q k Hk).
  - intros q i Hq Hq'. rewrite C2 by done. unfold cell. by rewrite (refresh_bits_words q lb Hq _ _ _ E1).
Qed.
End refresh.

Definition forced_entry (t a v : Z) : mb_monitor_element_t := {| mon_ElementType := t; msv_ElementAddr := a; msv_ModbusAddr := a; msv_ElementValue := Some v |}.
(** Y3 is forced on, D100 to 7, and a 32-bit counter to 0x20001. *)
Definition forced_bits_demo := [forced_entry MB_BIT_Y 3 1].
Definition forced_words_demo := [forced_entry MB_WORD_D 100 7; forced_entry MB_WORD_C 200 1; forced_entry MB_WORD_C 201 2].
Definition forced_demo : ctl_st ram_chip :=
  with_lists (fun n => if decide (n = gtv_ForceBits) then list_of forced_bits_demo
    else if decide (n = gtv_ForceWords) then list_of forced_words_demo else empty_list) ctl_demo.
Lemma forced_elements_hold_witness : exists m, plc_refresh_force_element_value forced_demo = Ok (tt, with_mb m forced_demo) /\
  bit_of (elem m) Y_ELEMENT 3 = Some true /\ cell D_ELEMENT 100 m = 7.
Proof.
  destruct (forced_elements_hold forced_demo forced_bits_demo forced_words_demo) as (m & E & _ & B & C).
  - reflexivity.
  - reflexivity.
  - repeat constructor. exists Y_ELEMENT, Y_RANG, 1. split_and!; try reflexivity; cbn; try lia; discriminate.
  - apply (words_one _ D_ELEMENT 7); [reflexivity|zconc|reflexivity|].
    apply words_two; [split; [reflexivity|reflexivity|zconc|by eexists]..|constructor].
  - apply (mb_demo_elem []).
  - exists m. split; [exact E|]. split.
    + rewrite (B Y_ELEMENT 3); [reflexivity|lia|by apply (bool_decide_unpack _)].
    + rewrite (C D_ELEMENT 100); [reflexivity|by apply (bool_decide_unpack _)|discriminate].
Defined.
