(* ===== verification/Answers.v ===== *)
(** * Every answer of the MODBUS slave is closed by its check sum

    Puts the dispatcher of MbSlave.v together with the functions of
    Download.v, Upload.v and Control.v it calls, and shows of the whole that
    what is handed to a send function is a body followed by its check sum. *)
From stdpp Require Import base list numbers sets.
From S2P Require Import Prelude Bytes Element Machine Compiler MbSlave MbFacts MbFrames Flash Password Service Download Upload Control DownloadFacts.

Section answers.
Context {F : Type} `{!NorFlash F}.
Notation st := (ctl_st F).
Notation Mt := (M st).
(** The message and what is sent, of a state with the rest of the controller. *)
Definition closing : relation st := fun s s' => closes (mb s) (mb s').
#[local] Instance closing_preorder : PreOrder closing.
Proof. split; unfold closing; [intros s; reflexivity|intros s s1 s2; apply transitivity]. Qed.
Lemma closing_mb s s' : tx_buf (mb s') = tx_buf (mb s) -> sent (mb s') = sent (mb s) -> closing s s'.
Proof. apply closes_same. Qed.
#[local] Hint Extern 1 (Respects closing (modify _)) => (apply respects_modify; intros ?; by apply closing_mb) : typeclass_instances.
#[local] Instance on_mb_closing {A} (m : M mb_st A) : Respects closes m -> Respects closing (on_mb m).
Proof. intros H s a s'. unfold on_mb. destruct (m (mb s)) as [[x v]| |] eqn:E; [|done..]. intros [= <- <-]. exact (H _ _ _ E). Qed.
#[local] Instance on_pw_closing {A} (m : M (pw_st F) A) : Respects closing (on_pw m).
Proof. intros s a s'. unfold on_pw. destruct (m (pw s)) as [[x v]| |]; [|done..]. intros [= <- <-]. by apply closing_mb. Qed.
#[local] Instance on_plc_closing {A} (m : Mc A) : Respects closing (on_plc m).
Proof. intros s a s'. unfold on_plc, on_mb. destruct (m (base (mb s))) as [[x v]| |]; [|done..]. intros [= <- <-]. by apply closing_mb. Qed.

(** ** The files, the lists and the flash *)
Ltac closing_solve := intros; cbv zeta; repeat (apply _ || (intros ?; cbv zeta)).
#[local] Instance file_bytes_closing p i n : Respects closing (file_bytes (F := F) p i n).
Proof. unfold file_bytes. closing_solve. Qed.
#[local] Instance file_byte_closing p i : Respects closing (file_byte (F := F) p i).
Proof. unfold file_byte. closing_solve. Qed.
#[local] Instance file_length_closing p i : Respects closing (file_length (F := F) p i).
Proof. unfold file_length. closing_solve. Qed.
#[local] Instance transfer_closing i : Respects closing (transfer (F := F) i).
Proof. unfold transfer. closing_solve. Qed.
#[local] Instance put_transfer_closing i o : Respects closing (put_transfer (F := F) i o).
Proof. unfold put_transfer. closing_solve. Qed.
#[local] Instance file_of_closing i : Respects closing (file_of (F := F) i).
Proof. unfold file_of. closing_solve. Qed.
#[local] Instance free_file_closing i : Respects closing (free_file (F := F) i).
Proof. unfold free_file. closing_solve. Qed.
#[local] Instance mod_file_closing i f : Respects closing (mod_file (F := F) i f).
Proof. unfold mod_file. closing_solve. Qed.
#[local] Instance put_list_closing n v : Respects closing (put_list (F := F) n v).
Proof. unfold put_list. closing_solve. Qed.
#[local] Instance add_element_closing n e : Respects closing (add_element (F := F) n e).
Proof. unfold add_element. closing_solve. Qed.
#[local] Instance mod_ptrs_closing f : Respects closing (mod_ptrs (F := F) f).
Proof. unfold mod_ptrs. closing_solve. Qed.
#[local] Instance for_while_closing n f : (forall i, Respects closing (f i)) -> forall i, Respects closing (for_while (F := F) n i f).
Proof. intros H. induction n as [|n IH]; intros i; cbn [for_while]; closing_solve. Qed.
#[local] Instance mod_fl_closing (g : flash_st F -> flash_st F) : Respects closing (mod_fl (S := st) g).
Proof. unfold mod_fl. closing_solve. Qed.
#[local] Instance erase_command_closing a : Respects closing (erase_command (F := F) (S := st) a).
Proof. intros s r s'. unfold erase_command. destruct (sector_erase _ _). intros [= <- <-]. by apply closing_mb. Qed.
#[local] Instance program_command_closing a l : Respects closing (program_command (F := F) (S := st) a l).
Proof. intros s r s'. unfold program_command. destruct (page_program _ _ _). intros [= <- <-]. by apply closing_mb. Qed.
#[local] Instance erase_closing a n : Respects closing (bsp_flash_erase_partition (F := F) (S := st) a n).
Proof. unfold bsp_flash_erase_partition, erase_next, mflash_drv_erase_sector. closing_solve. Qed.
#[local] Instance write_page_bytes_closing a l i n : Respects closing (mflash_drv_write_page_bytes (F := F) (S := st) a l i n).
Proof. unfold mflash_drv_write_page_bytes, mflash_drv_write_page_internal. closing_solve. Qed.
#[local] Instance write_page_closing a l i : Respects closing (mflash_drv_write_page (F := F) (S := st) a l i).
Proof. unfold mflash_drv_write_page, mflash_drv_write_page_internal. closing_solve. Qed.
#[local] Instance write_buffer_closing a l n : Respects closing (bsp_flash_write_buffer (F := F) (S := st) a l n).
Proof. unfold bsp_flash_write_buffer, write_next. closing_solve. Qed.
#[local] Instance save_block_closing L v : Respects closing (save_block (F := F) (S := st) L v).
Proof. unfold save_block, set_offset, offset_of. closing_solve. Qed.
#[local] Instance fail_closing e : Respects closing (fail (F := F) e).
Proof. unfold fail. closing_solve. Qed.
#[local] Instance with_password_closing i (k : Mt unit) : Respects closing k -> Respects closing (with_password i k).
Proof. intros H. unfold with_password. closing_solve. Qed.
#[local] Instance rx_closes i : Respects closes (rx i).
Proof. mb_frame. Qed.
#[local] Instance bigpu16_closes i : Respects closes (GET_BIGPU16_DATA i).
Proof. mb_frame. Qed.
#[local] Instance message_closes : Respects closes message.
Proof. mb_frame. Qed.
#[local] Instance copy_request_closes n i : Respects closes (copy_request n i).
Proof. mb_frame. Qed.
#[local] Typeclasses Opaque file_bytes file_byte file_length transfer put_transfer file_of free_file mod_file
  put_list add_element mod_ptrs for_while mod_fl erase_command program_command bsp_flash_erase_partition
  mflash_drv_write_page_bytes mflash_drv_write_page bsp_flash_write_buffer save_block fail with_password rx
  GET_BIGPU16_DATA copy_request message.

(** ** Downloads *)
Context (fuel : nat) (load : Z) (pvPortMalloc : comp_st -> bool) (xPortGetFreeHeapSize : st -> Z).
#[local] Instance run_cmd_closing : Respects closing (mb_slave_ctrl_run_cmd (F := F)).
Proof. unfold mb_slave_ctrl_run_cmd. closing_solve. Qed.
#[local] Instance stop_cmd_closing : Respects closing (mb_slave_ctrl_stop_cmd (F := F)).
Proof. unfold mb_slave_ctrl_stop_cmd. closing_solve. Qed.
#[local] Instance online_closing : Respects closing (online (F := F)).
Proof. unfold online. closing_solve. Qed.
#[local] Instance monitor_element_closing n t p : Respects closing (monitor_element (F := F) n t p).
Proof. unfold monitor_element. closing_solve. Qed.
#[local] Instance monitor_answer_closing ok : Respects closing (monitor_answer (F := F) ok).
Proof. unfold monitor_answer. closing_solve. Qed.
#[local] Instance download_monitor_closing n t : Respects closing (download_monitor (F := F) n t).
Proof. unfold download_monitor. closing_solve. Qed.
#[local] Instance monitor_both_closing : Respects closing (mb_slave_download_monitor_bits_words (F := F)).
Proof. unfold mb_slave_download_monitor_bits_words. closing_solve. Qed.
#[local] Instance open_file_closing i before size : Respects closing before -> Respects closing size -> Respects closing (open_file (F := F) i before size).
Proof. intros H1 H2. unfold open_file. closing_solve. Qed.
#[local] Instance select_file_closing code : Respects closing (select_file xPortGetFreeHeapSize code).
Proof. unfold select_file, drop_complete. closing_solve. Qed.
#[local] Instance store_frame_closing i n : Respects closing (store_frame (F := F) i n).
Proof. unfold store_frame. closing_solve. Qed.
#[local] Instance accept_frame_closing i n c note : Respects closing (accept_frame (F := F) i n c note).
Proof. unfold accept_frame. closing_solve. Qed.
#[local] Instance take_frame_closing i n c : Respects closing (take_frame (F := F) i n c).
Proof. unfold take_frame. closing_solve. Qed.
#[local] Instance compile_file_closing l : Respects closing (compile_file fuel load pvPortMalloc (F := F) l).
Proof.
  intros s a s'. unfold compile_file. destruct (plc_compiler_ucode _ _ _ _) as [[r c]| |]; [|done..]. intros [= <- <-]. by apply closing_mb.
Qed.
#[local] Instance online_file_closing code i : Respects closing (online_file fuel load pvPortMalloc (F := F) code i).
Proof. unfold online_file. closing_solve. Qed.
#[local] Instance download_file_closing : Respects closing (mb_slave_download_file fuel load pvPortMalloc xPortGetFreeHeapSize).
Proof. unfold mb_slave_download_file. closing_solve. Qed.
Lemma download_closing : Respects closing (mb_slave_download_manage fuel load pvPortMalloc xPortGetFreeHeapSize).
Proof.
  unfold mb_slave_download_manage, file_answer, mb_slave_download_monitor_bits, mb_slave_download_monitor_words. closing_solve.
Qed.
#[local] Typeclasses Opaque mb_slave_ctrl_run_cmd mb_slave_ctrl_stop_cmd online monitor_element monitor_answer
  download_monitor mb_slave_download_monitor_bits_words open_file select_file store_frame accept_frame
  take_frame compile_file online_file mb_slave_download_file mb_slave_download_manage.

(** ** Uploads *)
#[local] Instance bit_value_closes t a : Respects closes (bit_value t a).
Proof. unfold bit_value. mb_frame. Qed.
#[local] Instance word_value_closes t a : Respects closes (word_value t a).
Proof. unfold word_value. mb_frame. Qed.
#[local] Instance refresh_elements_closing value l : (forall t a, Respects closes (value t a)) -> Respects closing (refresh_elements (F := F) value l).
Proof. intros H. induction l as [|e l IH]; cbn [refresh_elements]; closing_solve. Qed.
#[local] Instance refresh_closing n value : (forall t a, Respects closes (value t a)) -> Respects closing (refresh (F := F) n value).
Proof. intros H. unfold refresh. closing_solve. Qed.
#[local] Instance put_bit_closing e p : Respects closing (put_bit_element (F := F) e p).
Proof. unfold put_bit_element. closing_solve. Qed.
#[local] Instance put_word_closing e p : Respects closing (put_word_element (F := F) e p).
Proof. unfold put_word_element. closing_solve. Qed.
#[local] Instance put_elements_closing put w l : (forall e p, Respects closing (put e p)) -> forall p cnt, Respects closing (put_elements (F := F) put w l p cnt).
Proof. intros H. induction l as [|e l IH]; intros p cnt; cbn [put_elements]; closing_solve. Qed.
#[local] Instance put_both_closing l : forall p b w, Respects closing (put_both (F := F) l p b w).
Proof. induction l as [|e l IH]; intros p b w; cbn [put_both]; closing_solve. Qed.
#[local] Instance answer_elements_closing w cnt : Respects closing (answer_elements (F := F) w cnt).
Proof. unfold answer_elements. closing_solve. Qed.
#[local] Instance upload_monitor_closing n put w : (forall e p, Respects closing (put e p)) -> Respects closing (upload_monitor (F := F) n put w).
Proof. intros H. unfold upload_monitor. closing_solve. Qed.
#[local] Instance upload_force_closing n put w : (forall e p, Respects closing (put e p)) -> Respects closing (upload_force (F := F) n put w).
Proof. intros H. unfold upload_force. closing_solve. Qed.
#[local] Instance upload_both_closing : Respects closing (mb_slave_upload_monitor_bits_words (F := F)).
Proof. unfold mb_slave_upload_monitor_bits_words, mb_slave_refresh_monitor_bits_words. closing_solve. Qed.
#[local] Instance data_block_closes : Respects closes mb_slave_upload_gen_data_block_from_ram.
Proof. unfold mb_slave_upload_gen_data_block_from_ram, put_D_elements, data_answer. mb_frame. Qed.
#[local] Instance open_upload_closing i : Respects closing (open_upload (F := F) i).
Proof. unfold open_upload, upload_ptr. closing_solve. Qed.
#[local] Instance send_block_closing p k : Respects closing (send_block (F := F) p k).
Proof. unfold send_block. closing_solve. Qed.
#[local] Instance close_last_closing code : Respects closing (close_last (F := F) code).
Proof. unfold close_last, mb_slave_free_upload_file_handle. closing_solve. Qed.
#[local] Instance upload_answer_closing n : Respects closing (upload_answer (F := F) n).
Proof. unfold upload_answer. closing_solve. Qed.
#[local] Instance upload_file_closing : Respects closing (mb_slave_upload_file (F := F)).
Proof. unfold mb_slave_upload_file. closing_solve. Qed.
Lemma upload_closing : Respects closing (mb_slave_upload_manage (F := F)).
Proof.
  unfold mb_slave_upload_manage, mb_slave_upload_monitor_bits, mb_slave_upload_monitor_words, mb_slave_refresh_monitor_bits,
    mb_slave_refresh_monitor_words, mb_slave_upload_force_bits, mb_slave_upload_force_words. closing_solve.
Qed.
#[local] Typeclasses Opaque bit_value word_value refresh_elements refresh put_bit_element put_word_element
  put_elements put_both answer_elements upload_monitor upload_force mb_slave_upload_monitor_bits_words
  open_upload send_block close_last upload_answer mb_slave_upload_file mb_slave_upload_gen_data_block_from_ram
  mb_slave_upload_manage.

(** ** Control *)
Context (mlv_DeviceTypeId : Z).
(** The functions of the board that are not modelled do not come back. *)
Definition no_upgrade (p : mb_file_trans_st) : Mt unit := ub.
Definition no_board (code : Z) : Mt unit := ub.
#[local] Instance force_element_closing n t b p v : Respects closes v -> Respects closing (force_element (F := F) n t b p v).
Proof. intros H. unfold force_element. closing_solve. Qed.
#[local] Instance force_closing n t w v : (forall i, Respects closes (v i)) -> Respects closing (force (F := F) n t w v).
Proof. intros H. unfold force. closing_solve. Qed.
#[local] Instance unforce_closing n : Respects closing (unforce (F := F) n).
Proof. unfold unforce, unforce_element. closing_solve. Qed.
#[local] Instance refuse_closing i e : Respects closing (refuse (F := F) i e).
Proof. unfold refuse. closing_solve. Qed.
#[local] Instance write_file_closing h i a n : Respects closing (write_file (F := F) h i a n).
Proof. unfold write_file. closing_solve. Qed.
#[local] Instance store_file_closing i p : Respects closing (store_file (F := F) i p).
Proof. unfold store_file, part_of. closing_solve. Qed.
#[local] Instance store_parts_closing h parts : forall a w, Respects closing (store_parts (F := F) parts h a w).
Proof. unfold part_of. induction parts as [|[k e] parts IH]; intros a w; cbn [store_parts]; unfold part_of; closing_solve. Qed.
#[local] Instance store_cbin_closing p : Respects closing (store_cbin (F := F) mlv_DeviceTypeId p).
Proof. unfold store_cbin. closing_solve. Qed.
#[local] Instance programme_file_closing i : Respects closing (programme_file mlv_DeviceTypeId no_upgrade i).
Proof. unfold programme_file, store_upgrade_file, part_of, no_upgrade. closing_solve. Qed.
#[local] Instance ctrl_answer_closing : Respects closing (ctrl_answer (F := F)).
Proof. unfold ctrl_answer. closing_solve. Qed.
#[local] Instance answering_closing (k : Mt unit) : Respects closing k -> Respects closing (answering k).
Proof. intros H. unfold answering. closing_solve. Qed.
#[local] Instance answering_if_closing (k : Mt bool) : Respects closing k -> Respects closing (answering_if k).
Proof. intros H. unfold answering_if. closing_solve. Qed.
#[local] Instance clean_closing i page l : Respects closing (clean (F := F) i page l).
Proof. unfold clean. closing_solve. Qed.
#[local] Instance formatting_closing (k : Mt unit) : Respects closing k -> Respects closing (formatting k).
Proof. intros H. unfold formatting. closing_solve. Qed.
#[local] Instance read_status_closing : Respects closing (mb_slave_ctrl_read_plc_status (F := F)).
Proof. unfold mb_slave_ctrl_read_plc_status. apply on_mb_closing. mb_frame. Qed.
#[local] Instance verify_file_closing page : Respects closing (verify_file (F := F) page).
Proof. unfold verify_file. closing_solve. Qed.
#[local] Instance error_info_closing : Respects closing (mb_slave_read_error_info (F := F)).
Proof. unfold mb_slave_read_error_info, put_error. closing_solve. Qed.
#[local] Instance set_password_closing t : Respects closing (mb_slave_ctrl_set_user_password (F := F) t).
Proof. unfold mb_slave_ctrl_set_user_password. closing_solve. Qed.
#[local] Instance check_password_closing t : Respects closing (mb_slave_ctrl_check_user_password (F := F) t).
Proof. unfold mb_slave_ctrl_check_user_password. closing_solve. Qed.
#[local] Instance set_online_closing v : Respects closing (set_online (F := F) v).
Proof. unfold set_online. closing_solve. Qed.
#[local] Instance programme_closing : Respects closing (programme mlv_DeviceTypeId no_upgrade).
Proof. unfold programme, mb_slave_ctrl_programme_cmd. closing_solve. Qed.
#[local] Instance set_TouChuan_closing v : Respects closing (set_TouChuan (F := F) v).
Proof. unfold set_TouChuan. closing_solve. Qed.
#[local] Typeclasses Opaque force_element force unforce refuse write_file store_file store_parts store_cbin
  programme_file ctrl_answer answering answering_if clean formatting mb_slave_ctrl_read_plc_status verify_file
  mb_slave_read_error_info mb_slave_ctrl_set_user_password mb_slave_ctrl_check_user_password set_online
  programme set_TouChuan.
Lemma control_closing : Respects closing (mb_slave_ctrl_manage mlv_DeviceTypeId no_upgrade no_board).
Proof.
  unfold mb_slave_ctrl_manage, no_board, mb_slave_ctrl_force_bits, mb_slave_ctrl_force_words, mb_slave_ctrl_unforce_bits, mb_slave_ctrl_unforce_words,
    mb_slave_ctrl_unforce_all, mb_slave_ctrl_clean_user_code, mb_slave_ctrl_clean_system_block, mb_slave_ctrl_clean_data_block,
    mb_slave_ctrl_clean_net_cfg, mb_slave_ctrl_verify_ucode, mb_slave_ctrl_verify_pid1, mb_slave_ctrl_set_upload_forbid,
    mb_slave_clean_upload_forbid, mb_slave_ctrl_entry_online_program, mb_slave_ctrl_exit_online_program, bsp_save_TouChuan.
  apply respects_bind; [apply _..|intros code]. repeat (apply respects_if; [apply _..|]). closing_solve.
Qed.

(** ** The slave *)
(** A function of the whole controller, called by the dispatcher with the rest
    of the controller as it is in [s]; what it makes of the message. *)
Definition seen (s : st) (m : Mt unit) : M mb_st unit := fun v =>
  match m (with_mb v s) with Ok (u, s') => Ok (u, mb s') | Ub => Ub | NoFuel => NoFuel end.
Lemma seen_closes s (m : Mt unit) : Respects closing m -> Respects closes (seen s m).
Proof. intros H v a v'. unfold seen. destruct (m (with_mb v s)) as [[u s']| |] eqn:E; [|done..]. intros [= <- <-]. exact (H _ _ _ E). Qed.
(** The dispatcher with the functions it calls. *)
Definition mb_slave (s : st) : M mb_st unit := mb_slave_msg_handler
  (seen s (mb_slave_download_manage fuel load pvPortMalloc xPortGetFreeHeapSize)) (seen s mb_slave_upload_manage)
  (seen s (mb_slave_ctrl_manage mlv_DeviceTypeId no_upgrade no_board)).
(** C30: whatever a frame asks for, downloads, uploads and control commands
    included, every answer handed to a send function is a body followed by its
    check sum, and the answer buffer keeps its size. Left out are the nine
    control commands in [board_codes] (clock, device record, reset, formatting,
    clearing elements, lamp, search for slaves) and the storing of a firmware
    upgrade: they are not modelled and do not come back here. *)
Theorem answers_closed (s : st) v : mb_slave s (mb s) = Ok (tt, v) ->
  Forall byte_ok (mcp_RespBuff (msg (mb s))) -> Z.of_nat (length (mcp_RespBuff (msg (mb s)))) < 2 ^ 16 ->
  length (mcp_RespBuff (msg v)) = length (mcp_RespBuff (msg (mb s))) /\
  exists l, sent v = sent (mb s) ++ l /\ Forall closed_reply l.
Proof.
  intros E Hf Hl. unfold mb_slave in E.
  by destruct (handler_frame closes _ _ _ (seen_closes _ _ download_closing) (seen_closes _ _ upload_closing) (seen_closes _ _ control_closing)
    _ _ _ E Hf Hl) as (_ & ? & ?).
Qed.
End answers.

(** The state of the controller is asked for. *)
Definition status_demo : ctl_st ram_chip := with_mb (mb_demo [1; MB_CTRL_FUNC; MB_CTRL_READ_PLC_STATUS]) ctl_demo.
Notation slave_demo := (mb_slave 0 0 (fun _ => true) (fun _ => 0) 0 status_demo (mb status_demo)).
Lemma status_demo_run : exists v, slave_demo = Ok (tt, v) /\ length (sent v) = 1%nat.
Proof.
  assert (H : match slave_demo with Ok (_, v) => length (sent v) | _ => O end = 1%nat) by (vm_compute; reflexivity).
  destruct slave_demo as [[[] v]| |]; try discriminate H. exists v. split; [reflexivity|exact H].
Qed.
Lemma status_demo_buffer : Forall byte_ok (mcp_RespBuff (msg (mb status_demo))) /\ Z.of_nat (length (mcp_RespBuff (msg (mb status_demo)))) < 2 ^ 16.
Proof. split; [apply Forall_replicate; unfold byte_ok; cbn; lia|cbn; lia]. Qed.
Lemma answers_closed_witness : exists v l, slave_demo = Ok (tt, v) /\ sent v = l /\ length l = 1%nat /\ Forall closed_reply l.
Proof.
  destruct status_demo_run as (v & E & H), status_demo_buffer as [Bf Bl].
  destruct (answers_closed 0 0 (fun _ => true) (fun _ => 0) 0 status_demo v E Bf Bl) as (_ & l & El & Fl).
  exists v, (sent v). split; [exact E|]. split; [reflexivity|]. split; [exact H|]. rewrite El. exact Fl.
Defined.
